(* ===== verification/_CoqProject ===== *)
-Q . S2P
Prelude.v
Types.v
Model.v
Join.v
TraceFile.v
BpfCommon.v
BpfHost.v
BpfTarget.v
Agree.v
CStr.v
BpfSpdk.v
Interleave.v
HostSteps.v
HostAtomic.v
Wire.v
BlindHost.v
BlindTarget.v
EmittedHost.v
EmittedTarget.v
Emitted.v
Stats.v
Float.v
Summary.v
Printf.v
Config.v
Scan.v
Offline.v
Record.v
Report.v
Rows.v
Json.v
Recording.v
Util.v
Parent.v
Commands.v
Pipeline.v
Ksyms.v
Loader.v
Programs.v
Flavours.v
Spdk.v
Attach.v
Links.v
Open.v
Probe.v
Main.v
Getopt.v
