(* ===== verification/Prelude.v ===== *)
(** * A verification development for ntprof

    ntprof measures where the time of an NVMe-over-fabrics command goes.  BPF
    programs in the kernel of the initiator (the host) and of the target stamp
    the events of a sample of the commands; the tool reads one record per
    command and side from a ring buffer, matches the two records of a command,
    splits its latency into components and stages, and reports distributions
    per group of commands.  SPDK hosts and targets are observed through USDT
    probes instead of kernel functions.

    ** How the parts interact

    loader.c opens the BPF objects of bpf/ that a configuration wants and arms
    them; their hooks fill records (ntprof.h) and submit them.  record.c gives
    every record to the joiner (join.c), adds host records, with or without
    their target record, to the statistics (stats.c), which call the stage
    model (model.c), and writes them to a file (trace_file.c).  offline.c reads
    such files of both machines and does the same.  report.c prints the
    statistics; config.c and main.c build the configuration; spdk.c finds SPDK
    processes and sets the sampling period in their memory.

    ** Files, and the code each one models

    - [Prelude]: machine integers, congruence modulo 2^64, shared lemmas and
      tactics, the hint database [ntp].
    - [Types]: bpf/ntprof.h.  [ntp_host_rec] and [ntp_tgt_rec] are the records,
      [ntp_filter] the filter, [ntp_sample_hash] the sampling hash.
    - [Model]: src/model.c.  [ntp_breakdown] and its parts ([host_side],
      [target_side], [rdma_host_side], [rdma_target_side], [stages]).
    - [Join]: src/join.c.  [table] is the hash table with its chains and buckets,
      [table_push], [table_take] and [table_expire] its operations, [ntp_joiner]
      the two tables and the counters; [queues] is the abstract specification.
    - [TraceFile]: src/trace_file.c.  The byte layout of header and records,
      [ntp_writer_add] and [ntp_read_file].
    - [BpfCommon], [BpfHost], [BpfTarget], [BpfSpdk]: bpf/*.bpf.h and
      bpf/*.bpf.c.  The state of an object is its maps, its globals, its per-CPU
      contexts and the records submitted; every hook is one function on that
      state.  [HostTransport] and [TargetTransport] are the classes of what a
      transport file defines for the shared header, with the TCP and the RDMA
      file as instances; [Ring] is the class of the per-thread logs of SPDK
      threads, with the ring of the source and a plain log as instances.
    - [Agree]: both sides decide alike which commands to sample.
    - [Programs], [BlindHost], [BlindTarget], [Flavours]: the programs of the kernel
      objects, each a section and a hook.  [fire] runs the programs loaded for an
      event of the kernel; [FlavourPair] is what an object promises about its
      fentry and its kprobe programs, proved with the hint database [blind].
    - [Interleave], [HostSteps], [HostAtomic]: hooks of a host object that run at the
      same time.  [prog] is a hook as single steps on shared memory, [exec] interleaves
      hooks, [Shared] and [Hooks] are what an object's memory and hooks promise;
      [host_shared], [tcp_hooks] and [rdma_hooks] implement them.
    - [Wire]: the wire formats of bpf/kernel_types.h as bytes.
    - [EmittedHost], [EmittedTarget], [Emitted]: the widths of everything the hooks
      keep and emit ([TypedTarget], hint database [typed]).
    - [CStr], [Printf], [Float]: what the source uses of C strings, of formatted
      output and of double arithmetic (IEEE numbers of SpecFloat).
    - [Stats], [Summary]: src/stats.c.  Groups of samples, sorting, quantiles.
    - [Config]: src/config.c and the parsers of src/util.c.  [config_load_ini]
      reads the bytes of a task file.
    - [Scan]: what the source uses of fgets and sscanf to read files of /proc.
    - [Offline], [Commands]: src/offline.c.  [load_run] reads and joins the files
      of a run; [cmd_report], [cmd_compare] and [cmd_dump] are the commands with
      what they print.
    - [Record], [Recording], [Parent]: src/record.c.  [session] and what each
      record, interval and the end do to it; [record] is the recording, from
      opening the loader to closing it, as the sequence of what it prints and
      tells its parent; [cmd_record] is the parent process.
    - [Pipeline]: the whole system, from the hooks over ring buffer, recording and
      file to the report.
    - [Util]: the clocks, messages and allocation of src/util.c, and the file
      descriptors of the timestamp socket and of a recording's pipe.
    - [Report], [Rows], [Json]: src/report.c.  Every report as the bytes printed.
    - [Ksyms], [Loader], [Attach], [Links], [Open], [Probe]: src/loader.c.  The
      symbols of the kernel; which objects and programs are loaded; worker threads;
      opening, disarming and closing as sequences of actions against what each
      step answers; the links of the programs, the filter of an object, the clock
      offset and the counters; [open_on], where the answers are those of the code;
      the check for fentry and the text of the probe command.
    - [Spdk]: src/spdk.c.  Finding processes and their sampling variable.
    - [Main], [Getopt]: src/main.c, from the options as they are presented and from
      the command line as it is typed; the usage text.

    ** What the theorems show

    - Latency: the components of a breakdown add up to the end-to-end time, the
      stages too, no signed addition overflows, data phases split, and nothing
      depends on the offset between the clocks of the two machines
      ([components_add_up], [stages_add_up], [breakdown_in_range],
      [data_phases_split], [breakdown_clock_independent]).
    - Joining: the hash tables implement per-key queues, without a store out of
      bounds; records are conserved; a match is a record of the same command;
      online no pair that could be joined waits; offline the files of a run are
      joined one to one ([joiner_safe], [table_refines_queues],
      [joiner_accounting], [online_no_missed_join], [load_run_joins]).
    - The BPF objects: in every reachable state the in-flight counter is the
      number of open records and every sampled command is accounted for; the
      queue counters are exact while the map of counted commands has room, and
      drift once it is full; both sides sample the same commands; the rings
      of the SPDK objects give what a scan of their last 512 entries gives; fentry
      and kprobe programs come to the same where no probe is missed and calls with
      saved arguments return on their CPU; every record emitted fits its struct
      ([host_object_books], [target_object_books], [host_queue_occupancy],
      [target_queue_occupancy], [full_map_drifts], [full_tmap_drifts],
      [host_target_agree], [spdk_rings_refine], [recent_or_none],
      [spdk_object_books], [flavours_agree], [emitted_well_formed]).
    - Concurrency: hooks of a host object that does not count queues, overlapping on
      different slots, index entries and CPUs and interleaved step by step, come to
      what they come to one after the other, so that what is shown of runs of whole
      hooks is true of them, and every hook ends within 16 steps of its own, where
      the stores in a row into one record are one step ([host_hooks_atomic], from
      [interleaved_atomic] for any object).  Two commands on one slot at the same
      moment can leave the count of records in flight one too low for good
      ([collision_loses_count]).
    - Wire formats: what the hooks read is what was sent ([wire_read]).
    - The whole: after recordings that end with status 0, what `report` prints is
      about exactly the records the ring buffers handed over; these are records the
      objects of the machines emitted, and all of them if no ring buffer held one
      back ([emitted_reported]).
    - Files: what is written is read back, in every version of the format,
      truncation is reported, the report of files is that of their joined records,
      and a dumped row has all its record says if the name of the device ends within
      its field and has no comma ([write_read], [read_back],
      [cut_file], [report_of_files], [dump_row_reads]).
    - Statistics and reports: the groups are a group-by of the records, the
      samples add up, quantiles lie between their neighbours in double
      arithmetic; the text report shows every group once and the JSON report is
      a JSON text for the statistics, if the numbers are finite and the names UTF-8
      ([stats_group_by], [stats_add_up], [summarize_quantiles],
      [report_text_groups], [report_json_reads], [raw_byte_not_json]).
    - Recording: every record received is accounted for, each interval and the
      whole are reported once and in order, the parent hears how it ended and,
      while its own system calls are at worst interrupted, exits with that status;
      polls that fail in the final drain go unnoticed ([session_accounts],
      [record_reports], [record_tells], [drain_failure_ignored], [parent_status],
      [failed_poll_hides_failure]).
    - Loading: where all is well the loader opens what the configuration wants,
      the probe command prints so beforehand (if the kernel loads an object as built
      just when it loads it as configured, [alike]), attaching stays within its
      arrays and leaves no required program out, the processes of an SPDK
      application are found with the address of their sampling variable, sampling in
      them starts and stops in the right order and stops after a failure, whatever
      periods were left set before; only a period the loader never came to stays as
      it was ([loader_opens], [probe_predicts], [attach_all_links],
      [required_hooks_loaded], [spdk_find_processes], [targets_sample_with_hosts],
      [failed_open_stops_sampling], [failed_open_leaves_old_period],
      [parallel_for_once]).
    - Configuration: the one a command runs with is always well formed; the options
      the usage text lists, in every way of writing them, do what they are for
      through both scans of the command line; and the usage text names every option
      of the tables ([main_runs_usable], [command_line_understood],
      [usage_lists_options]).

    ** Bounds and fuel

    Integers keep their width: [u8] to [u64] and [s64] are written where the C
    code converts or wraps.  Recursion is structural on the data, except for:
    [read_records] (fuel: the bytes of the file, each record takes some),
    [load_lines] and [read_lines] (fuel: the bytes of the file, [load_lines_fuel]
    and [read_lines_fuel]), the halving search of a ring (its index is halved at
    most as often as it has bits), the binary search for a symbol (fuel: the
    number of symbols), the digits of a number (fuel: its binary logarithm,
    [log2_fuel], or the 16 hexadecimal digits of 64 bits).  Each of them has a
    lemma that the fuel is enough.  A recording takes its turns from the list of
    what the polls and the clock answer, and is asked to stop at its end.
    The arithmetic theorems need timestamps below 2^58 ns (nine years of uptime),
    [summarize_quantiles] samples below 2^51 (26 days of nanoseconds).

    ** Not modelled

    libbpf, libelf and the kernel are parameters: what they answer is an argument
    of the definitions.  Of the C library the functions the source computes with are
    modelled (strings, numbers, formatted output, sscanf, sorting, [getopt_long]
    where POSIXLY_CORRECT is not set); what its system calls answer is an argument.
    Outside [HostAtomic] hooks run as whole steps. There, overlapping hooks of one
    command, and the counting of queues, are left out; so are, as [tcp_covered] says,
    arming and the two hooks of kernels whose senders are inlined, which test twice
    whether anything is in flight (their steps are written out, and end), and the
    target objects, whose first hook may count one record off and another one in.
    [flavours_agree] takes a call whose argument is kept in a per-CPU slot to return
    on its CPU before the next one ([bracketed]) and every probe to run. A name in a
    file that lacks its NUL runs on into the fields behind it, as in C; what C would
    read behind the end of the record or of the header is left out, a string ends
    there. What is in a file after the recording failed to write or close it is not
    said beyond the bytes the stream took. Signals are inputs of the recording
    and of its parent: when they arrive between two steps is given, their handlers are
    not modelled. Left out are the wording of most messages to standard error, the
    wakeup flags of ring buffers, the functions that only free memory, the tests, the
    shell scripts and the SPDK patch. *)
From stdpp Require Import base numbers list gmap.
From Stdlib Require Import ZArith Lia.

#[global] Open Scope Z_scope.

(** ** Machine integers

    A w-bit integer of the C code is a [Z]; the functions below are the
    conversions to each width.  Unsigned arithmetic of the source is written
    as exact arithmetic followed by the conversion, so the wrap-around is
    visible where it happens. *)

Definition u8 (z : Z) : Z := z mod 2 ^ 8.
Definition u16 (z : Z) : Z := z mod 2 ^ 16.
Definition u32 (z : Z) : Z := z mod 2 ^ 32.
Definition u64 (z : Z) : Z := z mod 2 ^ 64.

(** The conversion to [int64_t] (two's complement). *)
Definition s64 (z : Z) : Z := (z + 2 ^ 63) mod 2 ^ 64 - 2 ^ 63.

(** A flag test [flags & mask]. *)
Definition has (flags mask : Z) : bool := negb (Z.land flags mask =? 0).

(** C truth of an integer. *)
Definition nz (z : Z) : bool := negb (z =? 0).

Definition is_u8 (z : Z) : Prop := 0 <= z < 2 ^ 8.
Definition is_u16 (z : Z) : Prop := 0 <= z < 2 ^ 16.
Definition is_u32 (z : Z) : Prop := 0 <= z < 2 ^ 32.
Definition is_u64 (z : Z) : Prop := 0 <= z < 2 ^ 64.
Definition is_s64 (z : Z) : Prop := - 2 ^ 63 <= z < 2 ^ 63.

Create HintDb ntp.

Lemma u64_range z : is_u64 (u64 z).
Proof. apply Z.mod_pos_bound. lia. Qed.

Lemma u32_range z : is_u32 (u32 z).
Proof. apply Z.mod_pos_bound. lia. Qed.

Lemma u16_range z : is_u16 (u16 z).
Proof. apply Z.mod_pos_bound. lia. Qed.

Lemma s64_range z : is_s64 (s64 z).
Proof. unfold is_s64, s64. pose proof (Z.mod_pos_bound (z + 2 ^ 63) (2 ^ 64)). lia. Qed.

Lemma u64_small z : is_u64 z -> u64 z = z.
Proof. apply Z.mod_small. Qed.

Lemma u32_small z : is_u32 z -> u32 z = z.
Proof. apply Z.mod_small. Qed.

Lemma u16_small z : is_u16 z -> u16 z = z.
Proof. apply Z.mod_small. Qed.

Lemma s64_small z : is_s64 z -> s64 z = z.
Proof. unfold is_s64, s64. intros H. rewrite Z.mod_small; lia. Qed.

Lemma nz_true z : nz z = true <-> z <> 0.
Proof. unfold nz. rewrite negb_true_iff. apply Z.eqb_neq. Qed.

Lemma nz_false z : nz z = false <-> z = 0.
Proof. unfold nz. rewrite negb_false_iff. apply Z.eqb_eq. Qed.

Lemma one_shift_bit i j : 0 <= i -> 0 <= j -> Z.testbit (Z.shiftl 1 i) j = (i =? j).
Proof.
  intros Hi Hj. rewrite Z.shiftl_1_l, Z.pow2_bits_eqb by done. done.
Qed.

Lemma has_shift v i : 0 <= i -> has v (Z.shiftl 1 i) = Z.testbit v i.
Proof.
  intros Hi. unfold has. rewrite Z.shiftl_1_l.
  destruct (Z.testbit v i) eqn:E.
  - apply negb_true_iff, Z.eqb_neq. intros H.
    apply (f_equal (fun z => Z.testbit z i)) in H.
    rewrite Z.land_spec, E, Z.pow2_bits_true, Z.bits_0 in H by done. done.
  - apply negb_false_iff, Z.eqb_eq, Z.bits_inj'. intros j Hj.
    rewrite Z.land_spec, Z.pow2_bits_eqb, Z.bits_0 by done.
    destruct (Z.eqb_spec i j) as [->|]; [by rewrite E|apply andb_false_r].
Qed.

#[export] Hint Resolve u64_range u32_range u16_range s64_range : ntp.

(** *** Congruence modulo [2 ^ 64]

    What two 64-bit computations agree on whatever wraps in between. *)

Definition cong64 (a b : Z) : Prop := (a - b) mod 2 ^ 64 = 0.
Notation "a ≡₆₄ b" := (cong64 a b) (at level 70) : Z_scope.

Lemma cong64_ex a b : a ≡₆₄ b <-> exists k, a = b + k * 2 ^ 64.
Proof.
  unfold cong64. split.
  - intros H. exists ((a - b) / 2 ^ 64). pose proof (Z_div_mod_eq_full (a - b) (2 ^ 64)). lia.
  - intros [k ->]. replace (b + k * 2 ^ 64 - b) with (k * 2 ^ 64) by ring. apply Z_mod_mult.
Qed.

#[export] Instance cong64_equiv : Equivalence cong64.
Proof.
  split.
  - intros a. apply cong64_ex. exists 0. lia.
  - intros a b [k H]%cong64_ex. apply cong64_ex. exists (- k). lia.
  - intros a b c [k H]%cong64_ex [l H']%cong64_ex. apply cong64_ex. exists (k + l). lia.
Qed.

#[export] Instance cong64_add : Proper (cong64 ==> cong64 ==> cong64) Z.add.
Proof.
  intros a b [k H]%cong64_ex c d [l H']%cong64_ex. apply cong64_ex. exists (k + l). lia.
Qed.

#[export] Instance cong64_sub : Proper (cong64 ==> cong64 ==> cong64) Z.sub.
Proof.
  intros a b [k H]%cong64_ex c d [l H']%cong64_ex. apply cong64_ex. exists (k - l). lia.
Qed.

Lemma u64_cong z : u64 z ≡₆₄ z.
Proof. apply cong64_ex. exists (- (z / 2 ^ 64)). unfold u64. pose proof (Z_div_mod_eq_full z (2 ^ 64)). lia. Qed.

Lemma s64_cong z : s64 z ≡₆₄ z.
Proof.
  apply cong64_ex. exists (- ((z + 2 ^ 63) / 2 ^ 64)). unfold s64.
  pose proof (Z_div_mod_eq_full (z + 2 ^ 63) (2 ^ 64)). lia.
Qed.

#[export] Instance s64_proper : Proper (cong64 ==> eq) s64.
Proof.
  intros a b [k H]%cong64_ex. unfold s64. subst a.
  replace (b + k * 2 ^ 64 + 2 ^ 63) with (b + 2 ^ 63 + k * 2 ^ 64) by ring.
  by rewrite Z_mod_plus_full.
Qed.

#[export] Instance u64_proper : Proper (cong64 ==> eq) u64.
Proof. intros a b [k H]%cong64_ex. unfold u64. subst a. by rewrite Z_mod_plus_full. Qed.

Lemma cong64_u64 a b : is_u64 a -> is_u64 b -> a ≡₆₄ b -> a = b.
Proof. intros Ha Hb H. rewrite <- (u64_small a), <- (u64_small b) by done. by rewrite H. Qed.

Lemma cong64_s64 a b : is_s64 a -> is_s64 b -> a ≡₆₄ b -> a = b.
Proof. intros Ha Hb H. rewrite <- (s64_small a), <- (s64_small b) by done. by rewrite H. Qed.

(** [cong_solve] proves a congruence between sums: every wrapped subterm is
    replaced by the exact one plus a multiple of [2 ^ 64], then linear
    arithmetic finds the quotient. *)
Ltac cong_name :=
  repeat match goal with
  | |- context [s64 ?z] =>
      let k := fresh "k" in let E := fresh "E" in
      destruct (proj1 (cong64_ex _ _) (s64_cong z)) as [k E]; rewrite E; clear E
  | |- context [u64 ?z] =>
      let k := fresh "k" in let E := fresh "E" in
      destruct (proj1 (cong64_ex _ _) (u64_cong z)) as [k E]; rewrite E; clear E
  end.

Ltac cong_solve :=
  cong_name; unfold cong64;
  match goal with |- ?x mod _ = 0 =>
    pose proof (Z_div_mod_eq_full x (2 ^ 64)); pose proof (Z.mod_pos_bound x (2 ^ 64) eq_refl)
  end; lia.

(** [cong_from] does so from congruences among the hypotheses. *)
Ltac cong_from :=
  repeat match goal with H : cong64 _ _ |- _ =>
    let k := fresh "k" in apply cong64_ex in H; destruct H as [k H]
  end; cong_solve.

(** A call whose returned code is known. *)
Lemma pair_result {A B : Type} (p : A * B) (a : A) : fst p = a -> p = (a, snd p).
Proof. destruct p. simpl. congruence. Qed.

(** ** Operations that do not look at a field

    [blind] proves that an operation commutes with a change of a field it does not look
    at: the rewrites of [blind] move the change out of every part of the operation, and
    both sides then make the same choices. *)
Create Rewrite HintDb blind.

Ltac blind_step :=
  match goal with
  | |- context [match ?x with _ => _ end] =>
      lazymatch x with context [match _ with _ => _ end] => fail | _ => destruct x end
  end.
Ltac blind :=
  repeat (autorewrite with blind; cbn [fst snd]; try reflexivity; blind_step); autorewrite with blind; reflexivity.
