(* ===== verification/Types.v ===== *)
(** * The record types shared by the BPF programs and the tool (bpf/ntprof.h)

    One record per side of a sampled command, the flags, the counters and the
    filter, with the sampling hash both sides compute.  Enumerations are
    inductive types with the source's constructors and their C values; a
    timestamp array is the list of its elements. *)
From stdpp Require Import base numbers list finite.
From Stdlib Require Import ZArith Lia.
From S2P Require Import Prelude.

Definition NTP_DISK_NAME_LEN : nat := 32.
Definition NTP_MAX_SIZE_FILTERS : nat := 16.
Definition NTP_MAX_PIDS : nat := 8.

Definition NTP_REC_HOST : Z := 1.
Definition NTP_REC_TARGET : Z := 2.

Definition NTP_TR_TCP : Z := 1.
Definition NTP_TR_RDMA : Z := 2.

(** Host (initiator) events, [enum ntp_host_ts]. *)
Inductive ntp_host_ts :=
  | NTP_H_START | NTP_H_QUEUE_RQ | NTP_H_CMD_SENT | NTP_H_R2T_ARR
  | NTP_H_R2T_PROC | NTP_H_DATA_START | NTP_H_DATA_SENT | NTP_H_C2H_ARR
  | NTP_H_C2H_PROC | NTP_H_RSP_ARR | NTP_H_RSP_PROC | NTP_H_NVME_DONE
  | NTP_H_BLK_DONE | NTP_H_SEND_DONE | NTP_H_C2H_LAST_ARR | NTP_H_C2H_DONE.

Definition h_idx (e : ntp_host_ts) : nat :=
  match e with
  | NTP_H_START => 0 | NTP_H_QUEUE_RQ => 1 | NTP_H_CMD_SENT => 2 | NTP_H_R2T_ARR => 3
  | NTP_H_R2T_PROC => 4 | NTP_H_DATA_START => 5 | NTP_H_DATA_SENT => 6 | NTP_H_C2H_ARR => 7
  | NTP_H_C2H_PROC => 8 | NTP_H_RSP_ARR => 9 | NTP_H_RSP_PROC => 10 | NTP_H_NVME_DONE => 11
  | NTP_H_BLK_DONE => 12 | NTP_H_SEND_DONE => 13 | NTP_H_C2H_LAST_ARR => 14
  | NTP_H_C2H_DONE => 15
  end.

Definition NTP_H_NR : nat := 16.
Definition NTP_H_NR_V3 : nat := 14.

(** Target events, [enum ntp_tgt_ts]. *)
Inductive ntp_tgt_ts :=
  | NTP_T_CMD_ARR | NTP_T_CMD_PROC | NTP_T_R2T_QUEUED | NTP_T_R2T_SENT
  | NTP_T_DATA_ARR | NTP_T_DATA_PROC | NTP_T_EXEC | NTP_T_BE_ISSUE
  | NTP_T_BE_DONE | NTP_T_COMPLETE | NTP_T_RSP_QUEUED | NTP_T_C2H_SENT
  | NTP_T_RSP_SENT | NTP_T_SEND_DONE | NTP_T_DATA_LAST_ARR | NTP_T_DATA_DONE.

Definition t_idx (e : ntp_tgt_ts) : nat :=
  match e with
  | NTP_T_CMD_ARR => 0 | NTP_T_CMD_PROC => 1 | NTP_T_R2T_QUEUED => 2 | NTP_T_R2T_SENT => 3
  | NTP_T_DATA_ARR => 4 | NTP_T_DATA_PROC => 5 | NTP_T_EXEC => 6 | NTP_T_BE_ISSUE => 7
  | NTP_T_BE_DONE => 8 | NTP_T_COMPLETE => 9 | NTP_T_RSP_QUEUED => 10 | NTP_T_C2H_SENT => 11
  | NTP_T_RSP_SENT => 12 | NTP_T_SEND_DONE => 13 | NTP_T_DATA_LAST_ARR => 14
  | NTP_T_DATA_DONE => 15
  end.

Definition NTP_T_NR : nat := 16.
Definition NTP_T_NR_V4 : nat := 14.

#[export] Instance ntp_host_ts_eq_dec : EqDecision ntp_host_ts.
Proof. solve_decision. Defined.
#[export] Instance ntp_tgt_ts_eq_dec : EqDecision ntp_tgt_ts.
Proof. solve_decision. Defined.

(** What identifies a command on the wire, on both sides. *)
Record ntp_cmd_id := mk_cmd_id {
  slba : Z; nsid : Z; cntlid : Z; qid : Z; cid : Z; nlb : Z; opcode : Z;
  id_pad : list Z
}.

Record ntp_rec_hdr := mk_rec_hdr { kind : Z; transport : Z; flags : Z; cpu : Z }.

Definition NTP_F_WRITE : Z := Z.shiftl 1 0.
Definition NTP_F_INLINE_DATA : Z := Z.shiftl 1 1.
Definition NTP_F_R2T : Z := Z.shiftl 1 2.
Definition NTP_F_DATA_SUCCESS : Z := Z.shiftl 1 3.
Definition NTP_F_MULTI_R2T : Z := Z.shiftl 1 4.
Definition NTP_F_QUEUES : Z := Z.shiftl 1 5.
Definition NTP_F_RDMA_READ : Z := Z.shiftl 1 6.
Definition NTP_F_SPDK : Z := Z.shiftl 1 7.
Definition NTP_F_REUSED : Z := Z.shiftl 1 8.

Record ntp_host_rec := mk_host_rec {
  h_hdr : ntp_rec_hdr;
  h_id : ntp_cmd_id;
  h_bytes : Z;
  ctrl_instance : Z;
  q_unsent : Z;
  q_inflight : Z;
  h_pad : Z;
  disk : list Z;
  h_ts : list Z;
  c2h_busy_ns : Z;
  c2h_skbs : Z;
  h_pad2 : Z
}.

Record ntp_tgt_rec := mk_tgt_rec {
  t_hdr : ntp_rec_hdr;
  t_id : ntp_cmd_id;
  t_bytes : Z;
  q_outstanding : Z;
  q_resp_queue : Z;
  t_ts : list Z;
  h2c_busy_ns : Z;
  h2c_skbs : Z;
  t_pad2 : Z
}.

#[export] Instance ntp_cmd_id_eq_dec : EqDecision ntp_cmd_id.
Proof. solve_decision. Defined.
#[export] Instance ntp_rec_hdr_eq_dec : EqDecision ntp_rec_hdr.
Proof. solve_decision. Defined.
#[export] Instance ntp_host_rec_eq_dec : EqDecision ntp_host_rec.
Proof. solve_decision. Defined.
#[export] Instance ntp_tgt_rec_eq_dec : EqDecision ntp_tgt_rec.
Proof. solve_decision. Defined.

(** [rec->ts[e]] *)
Definition hts (h : ntp_host_rec) (e : ntp_host_ts) : Z := default 0 (h_ts h !! h_idx e).
Definition tts (t : ntp_tgt_rec) (e : ntp_tgt_ts) : Z := default 0 (t_ts t !! t_idx e).

(** [rec->ts[e] = v] *)
Definition set_hts (h : ntp_host_rec) (e : ntp_host_ts) (v : Z) : ntp_host_rec :=
  mk_host_rec (h_hdr h) (h_id h) (h_bytes h) (ctrl_instance h) (q_unsent h) (q_inflight h)
    (h_pad h) (disk h) (<[h_idx e := v]> (h_ts h)) (c2h_busy_ns h) (c2h_skbs h) (h_pad2 h).
Definition set_tts (t : ntp_tgt_rec) (e : ntp_tgt_ts) (v : Z) : ntp_tgt_rec :=
  mk_tgt_rec (t_hdr t) (t_id t) (t_bytes t) (q_outstanding t) (q_resp_queue t)
    (<[t_idx e := v]> (t_ts t)) (h2c_busy_ns t) (h2c_skbs t) (t_pad2 t).

(** [rec->hdr.flags = f] *)
Definition hdr_set_flags (h : ntp_rec_hdr) (f : Z) : ntp_rec_hdr :=
  mk_rec_hdr (kind h) (transport h) f (cpu h).
Definition set_h_flags (h : ntp_host_rec) (f : Z) : ntp_host_rec :=
  mk_host_rec (hdr_set_flags (h_hdr h) f) (h_id h) (h_bytes h) (ctrl_instance h) (q_unsent h)
    (q_inflight h) (h_pad h) (disk h) (h_ts h) (c2h_busy_ns h) (c2h_skbs h) (h_pad2 h).
Definition set_t_flags (t : ntp_tgt_rec) (f : Z) : ntp_tgt_rec :=
  mk_tgt_rec (hdr_set_flags (t_hdr t) f) (t_id t) (t_bytes t) (q_outstanding t)
    (q_resp_queue t) (t_ts t) (h2c_busy_ns t) (h2c_skbs t) (t_pad2 t).

(** [memset(rec, 0, sizeof(rec))] *)
Definition zero_id : ntp_cmd_id := mk_cmd_id 0 0 0 0 0 0 0 [0; 0; 0].
Definition zero_hdr : ntp_rec_hdr := mk_rec_hdr 0 0 0 0.
Definition zero_host_rec : ntp_host_rec :=
  mk_host_rec zero_hdr zero_id 0 0 0 0 0 (replicate NTP_DISK_NAME_LEN 0)
    (replicate NTP_H_NR 0) 0 0 0.
Definition zero_tgt_rec : ntp_tgt_rec :=
  mk_tgt_rec zero_hdr zero_id 0 0 0 (replicate NTP_T_NR 0) 0 0 0.

(** Well-formed values: every field within the width the struct gives it. *)
Definition id_ok (i : ntp_cmd_id) : Prop :=
  is_u64 (slba i) /\ is_u32 (nsid i) /\ is_u16 (cntlid i) /\ is_u16 (qid i) /\
  is_u16 (cid i) /\ is_u16 (nlb i) /\ is_u8 (opcode i) /\
  length (id_pad i) = 3%nat /\ Forall is_u8 (id_pad i).

Definition hdr_ok (h : ntp_rec_hdr) : Prop :=
  is_u8 (kind h) /\ is_u8 (transport h) /\ is_u16 (flags h) /\ is_u32 (cpu h).

Definition host_rec_ok (h : ntp_host_rec) : Prop :=
  hdr_ok (h_hdr h) /\ id_ok (h_id h) /\ is_u32 (h_bytes h) /\ is_u32 (ctrl_instance h) /\
  is_u16 (q_unsent h) /\ is_u16 (q_inflight h) /\ is_u32 (h_pad h) /\
  length (disk h) = NTP_DISK_NAME_LEN /\ Forall is_u8 (disk h) /\
  length (h_ts h) = NTP_H_NR /\ Forall is_u64 (h_ts h) /\
  is_u64 (c2h_busy_ns h) /\ is_u32 (c2h_skbs h) /\ is_u32 (h_pad2 h).

Definition tgt_rec_ok (t : ntp_tgt_rec) : Prop :=
  hdr_ok (t_hdr t) /\ id_ok (t_id t) /\ is_u32 (t_bytes t) /\ is_u16 (q_outstanding t) /\
  is_u16 (q_resp_queue t) /\ length (t_ts t) = NTP_T_NR /\ Forall is_u64 (t_ts t) /\
  is_u64 (h2c_busy_ns t) /\ is_u32 (h2c_skbs t) /\ is_u32 (t_pad2 t).

#[export] Instance host_rec_ok_dec h : Decision (host_rec_ok h).
Proof. unfold host_rec_ok, hdr_ok, id_ok, is_u8, is_u16, is_u32, is_u64. apply _. Defined.
#[export] Instance tgt_rec_ok_dec t : Decision (tgt_rec_ok t).
Proof. unfold tgt_rec_ok, hdr_ok, id_ok, is_u8, is_u16, is_u32, is_u64. apply _. Defined.

(** Per-CPU counters, [enum ntp_counter]. *)
Inductive ntp_counter :=
  | NTP_CNT_HOST_READ_IOS | NTP_CNT_HOST_READ_BYTES | NTP_CNT_HOST_WRITE_IOS
  | NTP_CNT_HOST_WRITE_BYTES | NTP_CNT_HOST_SAMPLED | NTP_CNT_HOST_EMITTED
  | NTP_CNT_TGT_CMDS | NTP_CNT_TGT_SAMPLED | NTP_CNT_TGT_EMITTED
  | NTP_CNT_RB_DROPS | NTP_CNT_MAP_FULL | NTP_CNT_STALE.

#[export] Instance ntp_counter_eq_dec : EqDecision ntp_counter.
Proof. solve_decision. Defined.

(** Filter and sampling, set by user space before the programs load. *)
Record ntp_filter := mk_filter {
  sample_every : Z;
  io_type : Z;
  n_sizes : Z;
  ctrl_filter : Z;
  track_queues : Z;
  min_bytes : Z;
  max_bytes : Z;
  f_sizes : list Z;
  ctrl_mask : list Z;
  f_nsid : Z;
  real_minus_mono : Z;
  npids : Z;
  f_pids : list Z
}.

Definition NTP_NVME_CMD_FLUSH : Z := 0.
Definition NTP_NVME_CMD_WRITE : Z := 1.
Definition NTP_NVME_CMD_READ : Z := 2.

(** [x ^= x >> n] on a 64-bit word *)
Definition xorshift (n x : Z) : Z := Z.lxor x (Z.shiftr x n).

(** The splitmix64 finaliser over the identifying fields. *)
Definition ntp_sample_hash (cid slba nlb : Z) : Z :=
  let x := Z.lxor (Z.lxor slba (u64 (Z.shiftl cid 48))) (u64 (Z.shiftl nlb 32)) in
  let x := xorshift 30 x in
  let x := u64 (x * 0xbf58476d1ce4e5b9) in
  let x := xorshift 27 x in
  let x := u64 (x * 0x94d049bb133111eb) in
  xorshift 31 x.

(** ** Facts about the records *)

Lemma hts_set h e e' v :
  length (h_ts h) = NTP_H_NR ->
  hts (set_hts h e v) e' = if decide (e = e') then v else hts h e'.
Proof.
  intros Hl. unfold hts. simpl. destruct (decide (e = e')) as [->|Hne].
  - rewrite list_lookup_insert_eq; [done|]. rewrite Hl. destruct e'; vm_compute; lia.
  - rewrite list_lookup_insert_ne; [done|]. intros Heq. apply Hne. by destruct e, e'.
Qed.

Lemma tts_set t e e' v :
  length (t_ts t) = NTP_T_NR ->
  tts (set_tts t e v) e' = if decide (e = e') then v else tts t e'.
Proof.
  intros Hl. unfold tts. simpl. destruct (decide (e = e')) as [->|Hne].
  - rewrite list_lookup_insert_eq; [done|]. rewrite Hl. destruct e'; vm_compute; lia.
  - rewrite list_lookup_insert_ne; [done|]. intros Heq. apply Hne. by destruct e, e'.
Qed.

Lemma Forall_lookup_default (P : Z -> Prop) (l : list Z) i :
  P 0 -> Forall P l -> P (default 0 (l !! i)).
Proof. intros H0 Hl. destruct (l !! i) eqn:E; [by eapply Forall_lookup_1|done]. Qed.

Lemma hts_u64 h e : host_rec_ok h -> is_u64 (hts h e).
Proof.
  intros Hh. apply (Forall_lookup_default is_u64); [unfold is_u64; lia|].
  by destruct Hh as (_&_&_&_&_&_&_&_&_&_&?&_).
Qed.

Lemma tts_u64 t e : tgt_rec_ok t -> is_u64 (tts t e).
Proof.
  intros Ht. apply (Forall_lookup_default is_u64); [unfold is_u64; lia|].
  by destruct Ht as (_&_&_&_&_&_&?&_).
Qed.

(** ** The sampling hash *)

Lemma u64_bits x i : is_u64 x -> 64 <= i -> Z.testbit x i = false.
Proof.
  intros [H0 H1] Hi. destruct (decide (x = 0)) as [->|]; [apply Z.bits_0|].
  apply Z.bits_above_log2; [lia|]. assert (Z.log2 x < 64) by (apply Z.log2_lt_pow2; lia). lia.
Qed.

Lemma xorshift_bit n x i :
  0 <= n -> 0 <= i -> Z.testbit (xorshift n x) i = xorb (Z.testbit x i) (Z.testbit x (i + n)).
Proof. intros. unfold xorshift. by rewrite Z.lxor_spec, Z.shiftr_spec. Qed.

Lemma is_u64_of_bits x : 0 <= x -> (forall i, 64 <= i -> Z.testbit x i = false) -> is_u64 x.
Proof.
  intros H0 Hb. split; [lia|]. destruct (decide (x = 0)) as [->|]; [lia|].
  apply Z.log2_lt_pow2; [lia|]. destruct (decide (Z.log2 x < 64)); [done|].
  specialize (Hb (Z.log2 x) ltac:(lia)). rewrite Z.bit_log2 in Hb by lia. done.
Qed.

Lemma lxor_u64 x y : is_u64 x -> is_u64 y -> is_u64 (Z.lxor x y).
Proof.
  intros Hx Hy. apply is_u64_of_bits.
  - apply Z.lxor_nonneg. unfold is_u64 in *. lia.
  - intros i Hi. by rewrite Z.lxor_spec, !u64_bits.
Qed.

Lemma xorshift_u64 n x : 0 <= n -> is_u64 x -> is_u64 (xorshift n x).
Proof.
  intros Hn Hx. apply lxor_u64; [done|]. unfold is_u64 in *.
  rewrite Z.shiftr_div_pow2 by done. split.
  - apply Z.div_pos; [lia|]. by apply Z.pow_pos_nonneg.
  - apply Z.le_lt_trans with x; [|lia]. apply Z.div_le_upper_bound.
    + by apply Z.pow_pos_nonneg.
    + pose proof (Z.pow_pos_nonneg 2 n ltac:(lia) Hn). nia.
Qed.

(** A right xor-shift of a 64-bit word loses nothing: the top [n] bits are
    unchanged and each lower bit is recovered from a higher one. *)
Lemma xorshift_inj n x y :
  0 < n -> is_u64 x -> is_u64 y -> xorshift n x = xorshift n y -> x = y.
Proof.
  intros Hn Hx Hy Heq. apply Z.bits_inj'. intros i Hi.
  remember (Z.to_nat (64 - i)) as m eqn:Hm. revert i Hi Hm.
  induction (lt_wf m) as [m _ IH]. intros i Hi ->.
  destruct (decide (64 <= i)) as [|Hlt]; [by rewrite !u64_bits|].
  assert (Z.testbit x (i + n) = Z.testbit y (i + n)) as Hhi.
  { destruct (decide (64 <= i + n)); [by rewrite !u64_bits|].
    eapply IH; [|lia|reflexivity]. lia. }
  apply (f_equal (fun z => Z.testbit z i)) in Heq.
  rewrite !xorshift_bit, Hhi in Heq by lia.
  by destruct (Z.testbit x i), (Z.testbit y i), (Z.testbit y (i + n)).
Qed.

(** Multiplication by an odd constant is a bijection on 64-bit words. *)
Lemma mul_odd_inj c ci x y :
  c * ci mod 2 ^ 64 = 1 -> is_u64 x -> is_u64 y -> u64 (x * c) = u64 (y * c) -> x = y.
Proof.
  intros Hc Hx Hy Heq. rewrite <- (u64_small x), <- (u64_small y) by done. unfold u64 in *.
  assert (forall z, z mod 2 ^ 64 = ((z * c) mod 2 ^ 64 * ci) mod 2 ^ 64) as Hinv.
  { intros z. rewrite Z.mul_mod_idemp_l, <- Z.mul_assoc, <- Z.mul_mod_idemp_r, Hc by lia.
    f_equal. lia. }
  rewrite (Hinv x), (Hinv y). by rewrite Heq.
Qed.

Lemma lxor_cancel_r a b c : Z.lxor a c = Z.lxor b c -> a = b.
Proof.
  intros H%(f_equal (fun z => Z.lxor z c)).
  by rewrite !Z.lxor_assoc, Z.lxor_nilpotent, !Z.lxor_0_r in H.
Qed.

Lemma hash_mix_inj x y :
  is_u64 x -> is_u64 y ->
  xorshift 31 (u64 (xorshift 27 (u64 (xorshift 30 x * 0xbf58476d1ce4e5b9)) * 0x94d049bb133111eb)) =
  xorshift 31 (u64 (xorshift 27 (u64 (xorshift 30 y * 0xbf58476d1ce4e5b9)) * 0x94d049bb133111eb)) ->
  x = y.
Proof.
  intros Hx Hy H.
  apply xorshift_inj in H; [|lia|apply u64_range..].
  apply (mul_odd_inj _ 0x319642b2d24d8ec3) in H; [|done|apply xorshift_u64; [lia|apply u64_range]..].
  apply xorshift_inj in H; [|lia|apply u64_range..].
  apply (mul_odd_inj _ 0x96de1b173f119089) in H; [|done|apply xorshift_u64; [lia|done]..].
  apply xorshift_inj in H; [done|lia|done..].
Qed.

(** The sampling hash is a bijection of the starting block: two commands
    with the same cid and length that hash alike address the same block, so
    the hash spreads the commands of one queue slot without collisions. *)
Theorem ntp_sample_hash_inj (c n s1 s2 : Z) :
  is_u64 s1 -> is_u64 s2 -> s1 <> s2 ->
  ntp_sample_hash c s1 n <> ntp_sample_hash c s2 n.
Proof.
  intros H1 H2 Hne H. apply Hne. unfold ntp_sample_hash in H. cbv zeta in H.
  apply hash_mix_inj in H; [|repeat apply lxor_u64; auto with ntp..].
  by do 2 apply lxor_cancel_r in H.
Qed.

Lemma ntp_sample_hash_inj_witness : ntp_sample_hash 7 4096 8 <> ntp_sample_hash 7 4097 8.
Proof.
  apply (ntp_sample_hash_inj 7 8 4096 4097); [split; vm_compute; congruence..|discriminate].
Defined.
