(* ===== verification/Model.v ===== *)
(** * The stage model (src/model.h, src/model.c)

    One host record, and its target record when there is one, become latency
    components that add up to the host's end-to-end time.  [d] is the only
    place where two timestamps meet; the sums of components are exact, and
    [breakdown_in_range] shows that no addition of the C code overflows. *)
From stdpp Require Import base numbers list strings.
From Stdlib Require Import ZArith Lia.
From S2P Require Import Prelude Types.

Inductive ntp_io_class :=
  | NTP_IO_CLASS_READ | NTP_IO_CLASS_WRITE_INLINE | NTP_IO_CLASS_WRITE_R2T.

Inductive ntp_comp :=
  | NTP_C_BLK_SUB | NTP_C_TR_SUB | NTP_C_NET | NTP_C_TGT_RX | NTP_C_TGT_SUB
  | NTP_C_TGT_WAIT | NTP_C_TGT_DATA | NTP_C_TGT_BE | NTP_C_TGT_CMPL | NTP_C_HOST_RX
  | NTP_C_HOST_WAIT | NTP_C_HOST_DATA | NTP_C_TR_CMPL | NTP_C_BLK_CMPL | NTP_C_REMOTE
  | NTP_C_E2E | NTP_C_TGT_BE_SUB | NTP_C_TGT_DEV | NTP_C_TGT_BE_CMPL | NTP_C_CMPL_IPI
  | NTP_C_NET_DATA.

Definition all_comps : list ntp_comp :=
  [NTP_C_BLK_SUB; NTP_C_TR_SUB; NTP_C_NET; NTP_C_TGT_RX; NTP_C_TGT_SUB; NTP_C_TGT_WAIT;
   NTP_C_TGT_DATA; NTP_C_TGT_BE; NTP_C_TGT_CMPL; NTP_C_HOST_RX; NTP_C_HOST_WAIT;
   NTP_C_HOST_DATA; NTP_C_TR_CMPL; NTP_C_BLK_CMPL; NTP_C_REMOTE; NTP_C_E2E;
   NTP_C_TGT_BE_SUB; NTP_C_TGT_DEV; NTP_C_TGT_BE_CMPL; NTP_C_CMPL_IPI; NTP_C_NET_DATA].

(** The value of the enumerator. *)
Definition comp_idx (c : ntp_comp) : Z :=
  match c with
  | NTP_C_BLK_SUB => 0 | NTP_C_TR_SUB => 1 | NTP_C_NET => 2 | NTP_C_TGT_RX => 3
  | NTP_C_TGT_SUB => 4 | NTP_C_TGT_WAIT => 5 | NTP_C_TGT_DATA => 6 | NTP_C_TGT_BE => 7
  | NTP_C_TGT_CMPL => 8 | NTP_C_HOST_RX => 9 | NTP_C_HOST_WAIT => 10
  | NTP_C_HOST_DATA => 11 | NTP_C_TR_CMPL => 12 | NTP_C_BLK_CMPL => 13
  | NTP_C_REMOTE => 14 | NTP_C_E2E => 15 | NTP_C_TGT_BE_SUB => 16 | NTP_C_TGT_DEV => 17
  | NTP_C_TGT_BE_CMPL => 18 | NTP_C_CMPL_IPI => 19 | NTP_C_NET_DATA => 20
  end.

#[export] Instance ntp_io_class_eq_dec : EqDecision ntp_io_class.
Proof. solve_decision. Defined.
#[export] Instance ntp_comp_eq_dec : EqDecision ntp_comp.
Proof. solve_decision. Defined.

Record ntp_comp_info := mk_comp_info {
  ci_name : string; ci_stage : string; ci_desc : string; ci_detail : bool
}.

Definition ntp_comps (c : ntp_comp) : ntp_comp_info :=
  match c with
  | NTP_C_BLK_SUB =>
      mk_comp_info "blk_submission" "host_block_layer" "host block layer, submission" false
  | NTP_C_TR_SUB =>
      mk_comp_info "transport_submission" "host_driver" "host driver, submission" false
  | NTP_C_NET => mk_comp_info "network" "network" "network: wire and NICs (computed)" false
  | NTP_C_TGT_RX =>
      mk_comp_info "target_rx_stack" "network" "network: target receive path" false
  | NTP_C_TGT_SUB =>
      mk_comp_info "target_transport_submission" "target_driver"
        "target driver, submission" false
  | NTP_C_TGT_WAIT =>
      mk_comp_info "target_data_wait" "network" "network: rest of the data arriving" false
  | NTP_C_TGT_DATA =>
      mk_comp_info "target_data_processing" "target_driver"
        "target driver, processing the data" false
  | NTP_C_TGT_BE =>
      mk_comp_info "target_subsystem" "storage" "storage: target block layer and drive" false
  | NTP_C_TGT_CMPL =>
      mk_comp_info "target_transport_completion" "target_driver"
        "target driver, completion" false
  | NTP_C_HOST_RX => mk_comp_info "host_rx_stack" "network" "network: host receive path" false
  | NTP_C_HOST_WAIT =>
      mk_comp_info "host_data_wait" "network" "network: rest of the data arriving" false
  | NTP_C_HOST_DATA =>
      mk_comp_info "host_data_processing" "host_driver" "host driver, processing the data" false
  | NTP_C_TR_CMPL =>
      mk_comp_info "transport_completion" "host_driver" "host driver, completion" false
  | NTP_C_BLK_CMPL =>
      mk_comp_info "blk_completion" "host_block_layer" "host block layer, completion" false
  | NTP_C_REMOTE =>
      mk_comp_info "remote" "network_and_target" "network and target (no target record)" false
  | NTP_C_E2E => mk_comp_info "end_to_end" "end_to_end" "end to end" false
  | NTP_C_TGT_BE_SUB =>
      mk_comp_info "target_blk_submission" "storage" "target block layer, submission" true
  | NTP_C_TGT_DEV => mk_comp_info "target_device" "storage" "drive" true
  | NTP_C_TGT_BE_CMPL =>
      mk_comp_info "target_blk_completion" "storage" "target block layer, completion" true
  | NTP_C_CMPL_IPI =>
      mk_comp_info "completion_ipi" "host_block_layer" "handoff to nvme_complete_rq" true
  | NTP_C_NET_DATA =>
      mk_comp_info "net_data_transfer" "network" "data transfer (RDMA, at the target)" true
  end.

Inductive ntp_stage := NTP_S1 | NTP_S2 | NTP_S3_S5 | NTP_S6 | NTP_S7_S9.

Definition all_stages : list ntp_stage := [NTP_S1; NTP_S2; NTP_S3_S5; NTP_S6; NTP_S7_S9].

Definition stage_idx (s : ntp_stage) : Z :=
  match s with NTP_S1 => 0 | NTP_S2 => 1 | NTP_S3_S5 => 2 | NTP_S6 => 3 | NTP_S7_S9 => 4 end.

#[export] Instance ntp_stage_eq_dec : EqDecision ntp_stage.
Proof. solve_decision. Defined.

Definition ntp_stage_keys (s : ntp_stage) : string :=
  match s with
  | NTP_S1 => "host_block_layer" | NTP_S2 => "host_driver" | NTP_S3_S5 => "network"
  | NTP_S6 => "target_driver" | NTP_S7_S9 => "storage"
  end.

(** The arrays [comp] and [stage] are indexed by their enumerations. *)
Record ntp_breakdown_t := mk_breakdown {
  io_class : ntp_io_class;
  joined : bool;
  post_estimated : bool;
  valid : Z;
  comp : ntp_comp -> Z;
  b_stage : ntp_stage -> Z;
  stage_valid : Z
}.

Inductive ntp_model_err :=
  | NTP_MODEL_OK | NTP_MODEL_INCOMPLETE_HOST | NTP_MODEL_INCOMPLETE_TARGET.

#[export] Instance ntp_model_err_eq_dec : EqDecision ntp_model_err.
Proof. solve_decision. Defined.

Definition ntp_comp_valid (b : ntp_breakdown_t) (c : ntp_comp) : bool :=
  has (valid b) (Z.shiftl 1 (comp_idx c)).

Definition ntp_stage_valid (b : ntp_breakdown_t) (s : ntp_stage) : bool :=
  has (stage_valid b) (Z.shiftl 1 (stage_idx s)).

Definition ntp_io_class_of (h : ntp_host_rec) : ntp_io_class :=
  if negb (has (flags (h_hdr h)) NTP_F_WRITE) then NTP_IO_CLASS_READ
  else if has (flags (h_hdr h)) NTP_F_R2T then NTP_IO_CLASS_WRITE_R2T
  else NTP_IO_CLASS_WRITE_INLINE.

Definition have_all {E : Type} (ts : E -> Z) (idx : list E) : bool :=
  forallb (fun e => nz (ts e)) idx.

Definition host_req_read : list ntp_host_ts :=
  [NTP_H_QUEUE_RQ; NTP_H_CMD_SENT; NTP_H_C2H_ARR; NTP_H_C2H_PROC; NTP_H_RSP_PROC;
   NTP_H_BLK_DONE].
Definition host_req_inline : list ntp_host_ts :=
  [NTP_H_QUEUE_RQ; NTP_H_CMD_SENT; NTP_H_RSP_ARR; NTP_H_RSP_PROC; NTP_H_BLK_DONE].
Definition host_req_r2t : list ntp_host_ts :=
  [NTP_H_QUEUE_RQ; NTP_H_CMD_SENT; NTP_H_R2T_ARR; NTP_H_R2T_PROC; NTP_H_DATA_START;
   NTP_H_RSP_ARR; NTP_H_RSP_PROC; NTP_H_BLK_DONE].

Definition tgt_req_read : list ntp_tgt_ts :=
  [NTP_T_CMD_ARR; NTP_T_CMD_PROC; NTP_T_EXEC; NTP_T_COMPLETE; NTP_T_C2H_SENT].
Definition tgt_req_inline : list ntp_tgt_ts :=
  [NTP_T_CMD_ARR; NTP_T_CMD_PROC; NTP_T_EXEC; NTP_T_COMPLETE; NTP_T_RSP_SENT].
Definition tgt_req_r2t : list ntp_tgt_ts :=
  [NTP_T_CMD_ARR; NTP_T_CMD_PROC; NTP_T_R2T_SENT; NTP_T_DATA_ARR; NTP_T_DATA_PROC;
   NTP_T_EXEC; NTP_T_COMPLETE; NTP_T_RSP_SENT].

Definition host_complete (h : ntp_host_rec) (c : ntp_io_class) : bool :=
  match c with
  | NTP_IO_CLASS_READ => have_all (hts h) host_req_read
  | NTP_IO_CLASS_WRITE_INLINE => have_all (hts h) host_req_inline
  | NTP_IO_CLASS_WRITE_R2T => have_all (hts h) host_req_r2t
  end.

Definition target_complete (t : ntp_tgt_rec) (c : ntp_io_class) : bool :=
  match c with
  | NTP_IO_CLASS_READ => have_all (tts t) tgt_req_read
  | NTP_IO_CLASS_WRITE_INLINE => have_all (tts t) tgt_req_inline
  | NTP_IO_CLASS_WRITE_R2T => have_all (tts t) tgt_req_r2t
  end.

(** [b->comp[c] = v] without the valid bit *)
Definition put_comp (b : ntp_breakdown_t) (c : ntp_comp) (v : Z) : ntp_breakdown_t :=
  mk_breakdown (io_class b) (joined b) (post_estimated b) (valid b)
    (fun c' => if decide (c = c') then v else comp b c') (b_stage b) (stage_valid b).

Definition put_valid (b : ntp_breakdown_t) (v : Z) : ntp_breakdown_t :=
  mk_breakdown (io_class b) (joined b) (post_estimated b) v (comp b) (b_stage b)
    (stage_valid b).

Definition set (b : ntp_breakdown_t) (c : ntp_comp) (v : Z) : ntp_breakdown_t :=
  let b := put_comp b c v in
  put_valid b (Z.lor (valid b) (Z.shiftl 1 (comp_idx c))).

(** [b->valid &= ~(1u << c); b->comp[c] = 0;] *)
Definition unset (b : ntp_breakdown_t) (c : ntp_comp) : ntp_breakdown_t :=
  put_comp (put_valid b (Z.ldiff (valid b) (Z.shiftl 1 (comp_idx c)))) c 0.

Definition set_io_class (b : ntp_breakdown_t) (k : ntp_io_class) : ntp_breakdown_t :=
  mk_breakdown k (joined b) (post_estimated b) (valid b) (comp b) (b_stage b) (stage_valid b).
Definition set_joined (b : ntp_breakdown_t) : ntp_breakdown_t :=
  mk_breakdown (io_class b) true (post_estimated b) (valid b) (comp b) (b_stage b)
    (stage_valid b).
Definition set_post_estimated (b : ntp_breakdown_t) : ntp_breakdown_t :=
  mk_breakdown (io_class b) (joined b) true (valid b) (comp b) (b_stage b) (stage_valid b).
Definition set_stage (b : ntp_breakdown_t) (s : ntp_stage) (v : Z) : ntp_breakdown_t :=
  mk_breakdown (io_class b) (joined b) (post_estimated b) (valid b) (comp b)
    (fun s' => if decide (s = s') then v else b_stage b s')
    (Z.lor (stage_valid b) (Z.shiftl 1 (stage_idx s))).

(** [(int64_t)(later - earlier)] on [uint64_t] operands *)
Definition d (later earlier : Z) : Z := s64 (u64 (later - earlier)).

Definition common_host (h : ntp_host_rec) (b : ntp_breakdown_t) : ntp_breakdown_t :=
  let H := hts h in
  let b := set b NTP_C_TR_SUB (d (H NTP_H_CMD_SENT) (H NTP_H_QUEUE_RQ)) in
  let b := set b NTP_C_BLK_CMPL (d (H NTP_H_BLK_DONE) (H NTP_H_RSP_PROC)) in
  let b :=
    if nz (H NTP_H_START) && (H NTP_H_START <=? H NTP_H_QUEUE_RQ) then
      let b := set b NTP_C_BLK_SUB (d (H NTP_H_QUEUE_RQ) (H NTP_H_START)) in
      set b NTP_C_E2E (d (H NTP_H_BLK_DONE) (H NTP_H_START))
    else set b NTP_C_E2E (d (H NTP_H_BLK_DONE) (H NTP_H_QUEUE_RQ)) in
  if nz (H NTP_H_NVME_DONE) then
    set b NTP_C_CMPL_IPI (d (H NTP_H_NVME_DONE) (H NTP_H_RSP_PROC))
  else b.

Definition backend_details (T : ntp_tgt_ts -> Z) (b : ntp_breakdown_t) : ntp_breakdown_t :=
  if negb (nz (T NTP_T_BE_ISSUE)) || negb (nz (T NTP_T_BE_DONE)) ||
     (T NTP_T_COMPLETE <? T NTP_T_BE_DONE) then b
  else
    let b := set b NTP_C_TGT_BE_SUB (d (T NTP_T_BE_ISSUE) (T NTP_T_EXEC)) in
    let b := set b NTP_C_TGT_DEV (d (T NTP_T_BE_DONE) (T NTP_T_BE_ISSUE)) in
    set b NTP_C_TGT_BE_CMPL (d (T NTP_T_COMPLETE) (T NTP_T_BE_DONE)).

(** The returned boolean is the C return value. *)
Definition data_phase (first done next busy_ns : Z) (busy_c wait_c : ntp_comp)
    (b : ntp_breakdown_t) : bool * ntp_breakdown_t :=
  if negb (nz busy_ns) || negb (nz done) || (done <? first) || (next <? done) then (false, b)
  else
    let span := d done first in
    let busy := if u64 span <? busy_ns then span else s64 busy_ns in
    let b := set b busy_c busy in
    (true, set b wait_c (span - busy)).

Definition read_data_phase (h : ntp_host_rec) (b : ntp_breakdown_t) : ntp_breakdown_t :=
  let H := hts h in
  match data_phase (H NTP_H_C2H_PROC) (H NTP_H_C2H_DONE) (H NTP_H_RSP_PROC) (c2h_busy_ns h)
          NTP_C_HOST_DATA NTP_C_HOST_WAIT b with
  | (true, b) => set b NTP_C_TR_CMPL (d (H NTP_H_RSP_PROC) (H NTP_H_C2H_DONE))
  | (false, b) => set b NTP_C_TR_CMPL (d (H NTP_H_RSP_PROC) (H NTP_H_C2H_PROC))
  end.

(** The returned number is the C return value. *)
Definition write_data_phase (t : ntp_tgt_rec) (b : ntp_breakdown_t) : Z * ntp_breakdown_t :=
  let T := tts t in
  match data_phase (T NTP_T_DATA_PROC) (T NTP_T_DATA_DONE) (T NTP_T_EXEC) (h2c_busy_ns t)
          NTP_C_TGT_DATA NTP_C_TGT_WAIT b with
  | (true, b) => (d (T NTP_T_EXEC) (T NTP_T_DATA_DONE), b)
  | (false, b) => (d (T NTP_T_EXEC) (T NTP_T_DATA_PROC), b)
  end.

Definition host_side (h : ntp_host_rec) (b : ntp_breakdown_t) : ntp_breakdown_t :=
  let H := hts h in
  let b := common_host h b in
  match io_class b with
  | NTP_IO_CLASS_READ =>
      let b := set b NTP_C_REMOTE (d (H NTP_H_C2H_ARR) (H NTP_H_CMD_SENT)) in
      let b := set b NTP_C_HOST_RX (d (H NTP_H_C2H_PROC) (H NTP_H_C2H_ARR)) in
      read_data_phase h b
  | NTP_IO_CLASS_WRITE_INLINE =>
      let b := set b NTP_C_REMOTE (d (H NTP_H_RSP_ARR) (H NTP_H_CMD_SENT)) in
      let b := set b NTP_C_HOST_RX (d (H NTP_H_RSP_PROC) (H NTP_H_RSP_ARR)) in
      set b NTP_C_TR_CMPL 0
  | NTP_IO_CLASS_WRITE_R2T =>
      let b := put_comp b NTP_C_TR_SUB
                 (comp b NTP_C_TR_SUB + d (H NTP_H_DATA_START) (H NTP_H_R2T_PROC)) in
      let b := set b NTP_C_REMOTE (d (H NTP_H_R2T_ARR) (H NTP_H_CMD_SENT) +
                                   d (H NTP_H_RSP_ARR) (H NTP_H_DATA_START)) in
      let b := set b NTP_C_HOST_RX (d (H NTP_H_R2T_PROC) (H NTP_H_R2T_ARR) +
                                    d (H NTP_H_RSP_PROC) (H NTP_H_RSP_ARR)) in
      set b NTP_C_TR_CMPL 0
  end.

Definition target_side (t : ntp_tgt_rec) (b : ntp_breakdown_t) : ntp_breakdown_t :=
  let T := tts t in
  let b := set b NTP_C_TGT_BE (d (T NTP_T_COMPLETE) (T NTP_T_EXEC)) in
  let '(residence, b) :=
    match io_class b with
    | NTP_IO_CLASS_READ =>
        let b := set b NTP_C_TGT_RX (d (T NTP_T_CMD_PROC) (T NTP_T_CMD_ARR)) in
        let b := set b NTP_C_TGT_SUB (d (T NTP_T_EXEC) (T NTP_T_CMD_PROC)) in
        let b := set b NTP_C_TGT_CMPL (d (T NTP_T_C2H_SENT) (T NTP_T_COMPLETE)) in
        (d (T NTP_T_C2H_SENT) (T NTP_T_CMD_ARR), b)
    | NTP_IO_CLASS_WRITE_INLINE =>
        let b := set b NTP_C_TGT_RX (d (T NTP_T_CMD_PROC) (T NTP_T_CMD_ARR)) in
        let b := set b NTP_C_TGT_SUB (d (T NTP_T_EXEC) (T NTP_T_CMD_PROC)) in
        let b := set b NTP_C_TGT_CMPL (d (T NTP_T_RSP_SENT) (T NTP_T_COMPLETE)) in
        (d (T NTP_T_RSP_SENT) (T NTP_T_CMD_ARR), b)
    | NTP_IO_CLASS_WRITE_R2T =>
        let b := set b NTP_C_TGT_RX (d (T NTP_T_CMD_PROC) (T NTP_T_CMD_ARR) +
                                     d (T NTP_T_DATA_PROC) (T NTP_T_DATA_ARR)) in
        let '(sub, b) := write_data_phase t b in
        let b := set b NTP_C_TGT_SUB (d (T NTP_T_R2T_SENT) (T NTP_T_CMD_PROC) + sub) in
        let b := set b NTP_C_TGT_CMPL (d (T NTP_T_RSP_SENT) (T NTP_T_COMPLETE)) in
        (d (T NTP_T_R2T_SENT) (T NTP_T_CMD_ARR) + d (T NTP_T_RSP_SENT) (T NTP_T_DATA_ARR), b)
    end in
  let b := set b NTP_C_NET (comp b NTP_C_REMOTE - residence) in
  let b := unset b NTP_C_REMOTE in
  backend_details T b.

Definition host_req_rdma : list ntp_host_ts :=
  [NTP_H_QUEUE_RQ; NTP_H_CMD_SENT; NTP_H_RSP_ARR; NTP_H_RSP_PROC; NTP_H_BLK_DONE].
Definition tgt_req_rdma : list ntp_tgt_ts :=
  [NTP_T_CMD_ARR; NTP_T_CMD_PROC; NTP_T_EXEC; NTP_T_COMPLETE].

Definition rdma_host_side (h : ntp_host_rec) (b : ntp_breakdown_t) : ntp_breakdown_t :=
  let H := hts h in
  let b := common_host h b in
  let b := set b NTP_C_REMOTE (d (H NTP_H_RSP_ARR) (H NTP_H_CMD_SENT)) in
  let b := set b NTP_C_HOST_RX (d (H NTP_H_RSP_PROC) (H NTP_H_RSP_ARR)) in
  set b NTP_C_TR_CMPL 0.

(** [T[e] = v] on the local copy of the timestamps *)
Definition put_ts (T : ntp_tgt_ts -> Z) (e : ntp_tgt_ts) (v : Z) : ntp_tgt_ts -> Z :=
  fun e' => if decide (e = e') then v else T e'.

Definition rdma_target_side (t : ntp_tgt_rec) (b : ntp_breakdown_t) : bool * ntp_breakdown_t :=
  let T := tts t in
  let fetch := has (flags (t_hdr t)) NTP_F_RDMA_READ in
  let write := has (flags (t_hdr t)) NTP_F_WRITE in
  if negb (have_all T tgt_req_rdma) ||
     (fetch && (negb (nz (T NTP_T_R2T_SENT)) || negb (nz (T NTP_T_DATA_PROC)))) then (false, b)
  else
    (* a posting after its own send completion was another command's *)
    let T :=
      if nz (T NTP_T_SEND_DONE) && (T NTP_T_SEND_DONE <? T NTP_T_RSP_SENT) then
        put_ts (put_ts T NTP_T_C2H_SENT 0) NTP_T_RSP_SENT 0
      else T in
    if negb (nz (T NTP_T_RSP_SENT)) && negb (nz (T NTP_T_SEND_DONE)) then (false, b)
    else
      let '(T, b) :=
        if negb (nz (T NTP_T_RSP_SENT)) then
          let T := put_ts T NTP_T_RSP_SENT (T NTP_T_COMPLETE) in
          let T := if negb write then put_ts T NTP_T_C2H_SENT (T NTP_T_COMPLETE) else T in
          (T, set_post_estimated b)
        else (T, b) in
      let b := set b NTP_C_TGT_RX (d (T NTP_T_CMD_PROC) (T NTP_T_CMD_ARR)) in
      let '(fetch_ns, b) :=
        if fetch then
          let fetch_ns := d (T NTP_T_DATA_PROC) (T NTP_T_R2T_SENT) in
          let b := set b NTP_C_TGT_SUB (d (T NTP_T_R2T_SENT) (T NTP_T_CMD_PROC) +
                                        d (T NTP_T_EXEC) (T NTP_T_DATA_PROC)) in
          let b := set_io_class b NTP_IO_CLASS_WRITE_R2T in
          (fetch_ns, set b NTP_C_NET_DATA fetch_ns)
        else (0, set b NTP_C_TGT_SUB (d (T NTP_T_EXEC) (T NTP_T_CMD_PROC))) in
      let b :=
        if negb write && nz (T NTP_T_C2H_SENT) && nz (T NTP_T_SEND_DONE) then
          set b NTP_C_NET_DATA (d (T NTP_T_SEND_DONE) (T NTP_T_C2H_SENT))
        else b in
      let b := set b NTP_C_TGT_BE (d (T NTP_T_COMPLETE) (T NTP_T_EXEC)) in
      let b := set b NTP_C_TGT_CMPL (d (T NTP_T_RSP_SENT) (T NTP_T_COMPLETE)) in
      let residence := d (T NTP_T_RSP_SENT) (T NTP_T_CMD_ARR) - fetch_ns in
      let b := set b NTP_C_NET (comp b NTP_C_REMOTE - residence) in
      let b := unset b NTP_C_REMOTE in
      (true, backend_details T b).

(** The first loop of [stage]: [None] when it returned early. *)
Fixpoint sum_parts (b : ntp_breakdown_t) (parts : list ntp_comp) (sum : Z) : option Z :=
  match parts with
  | [] => Some sum
  | c :: parts =>
      if negb (ntp_comp_valid b c) then None else sum_parts b parts (sum + comp b c)
  end.

Fixpoint sum_extras (b : ntp_breakdown_t) (extras : list ntp_comp) (sum : Z) : Z :=
  match extras with
  | [] => sum
  | c :: extras => sum_extras b extras (if ntp_comp_valid b c then sum + comp b c else sum)
  end.

Definition stage (b : ntp_breakdown_t) (s : ntp_stage) (parts extras : list ntp_comp)
    : ntp_breakdown_t :=
  match sum_parts b parts 0 with
  | None => b
  | Some sum => set_stage b s (sum_extras b extras sum)
  end.

Definition stages (b : ntp_breakdown_t) : ntp_breakdown_t :=
  let b := stage b NTP_S1 [NTP_C_BLK_SUB; NTP_C_BLK_CMPL] [] in
  let b := stage b NTP_S2 [NTP_C_TR_SUB; NTP_C_TR_CMPL] [NTP_C_HOST_DATA] in
  let b := stage b NTP_S3_S5 [NTP_C_NET; NTP_C_TGT_RX; NTP_C_HOST_RX]
             [NTP_C_HOST_WAIT; NTP_C_TGT_WAIT] in
  let b := stage b NTP_S6 [NTP_C_TGT_SUB; NTP_C_TGT_CMPL] [NTP_C_TGT_DATA] in
  stage b NTP_S7_S9 [NTP_C_TGT_BE] [].

(** [memset(out, 0, sizeof(out))] *)
Definition zero_breakdown : ntp_breakdown_t :=
  mk_breakdown NTP_IO_CLASS_READ false false 0 (fun _ => 0) (fun _ => 0) 0.

Definition ntp_breakdown (h : ntp_host_rec) (t : option ntp_tgt_rec)
    : ntp_model_err * ntp_breakdown_t :=
  let out := set_io_class zero_breakdown (ntp_io_class_of h) in
  if transport (h_hdr h) =? NTP_TR_RDMA then
    if negb (have_all (hts h) host_req_rdma) then (NTP_MODEL_INCOMPLETE_HOST, out)
    else
      let out := rdma_host_side h out in
      let '(err, out) :=
        match t with
        | None => (NTP_MODEL_OK, out)
        | Some t =>
            let same_dir := Bool.eqb (negb (has (flags (t_hdr t)) NTP_F_WRITE))
                                     (negb (has (flags (h_hdr h)) NTP_F_WRITE)) in
            if same_dir && (transport (t_hdr t) =? NTP_TR_RDMA) then
              match rdma_target_side t out with
              | (true, out) => (NTP_MODEL_OK, set_joined out)
              | (false, out) => (NTP_MODEL_INCOMPLETE_TARGET, out)
              end
            else (NTP_MODEL_INCOMPLETE_TARGET, out)
        end in
      (err, stages out)
  else if negb (host_complete h (io_class out)) then (NTP_MODEL_INCOMPLETE_HOST, out)
  else
    let out := host_side h out in
    let '(err, out) :=
      match t with
      | None => (NTP_MODEL_OK, out)
      | Some t =>
          let same_class := Bool.eqb (has (flags (t_hdr t)) NTP_F_R2T)
                              (bool_decide (io_class out = NTP_IO_CLASS_WRITE_R2T)) in
          if same_class && target_complete t (io_class out) then
            (NTP_MODEL_OK, set_joined (target_side t out))
          else (NTP_MODEL_INCOMPLETE_TARGET, out)
      end in
    (err, stages out).

(** ** Reading a component back *)

Lemma has_lor_shift v i j :
  0 <= i -> 0 <= j ->
  has (Z.lor v (Z.shiftl 1 i)) (Z.shiftl 1 j) = (i =? j) || has v (Z.shiftl 1 j).
Proof. intros. rewrite !has_shift by done. rewrite Z.lor_spec, one_shift_bit by done. apply orb_comm. Qed.

Lemma has_ldiff_shift v i j :
  0 <= i -> 0 <= j ->
  has (Z.ldiff v (Z.shiftl 1 i)) (Z.shiftl 1 j) = negb (i =? j) && has v (Z.shiftl 1 j).
Proof. intros. rewrite !has_shift by done. rewrite Z.ldiff_spec, one_shift_bit by done. apply andb_comm. Qed.

Lemma comp_idx_nonneg c : 0 <= comp_idx c.
Proof. by destruct c. Qed.

Lemma comp_idx_eqb c c' : (comp_idx c =? comp_idx c') = bool_decide (c = c').
Proof. destruct c, c'; reflexivity. Qed.

Lemma comp_set b c c' v : comp (set b c v) c' = if decide (c = c') then v else comp b c'.
Proof. done. Qed.

Lemma valid_set b c c' v : ntp_comp_valid (set b c v) c' = bool_decide (c = c') || ntp_comp_valid b c'.
Proof.
  unfold ntp_comp_valid. simpl. rewrite has_lor_shift by apply comp_idx_nonneg.
  by rewrite comp_idx_eqb.
Qed.

Lemma valid_put_comp b c c' v : ntp_comp_valid (put_comp b c v) c' = ntp_comp_valid b c'.
Proof. done. Qed.

Lemma valid_unset b c c' : ntp_comp_valid (unset b c) c' = negb (bool_decide (c = c')) && ntp_comp_valid b c'.
Proof.
  unfold ntp_comp_valid. simpl. rewrite has_ldiff_shift by apply comp_idx_nonneg.
  by rewrite comp_idx_eqb.
Qed.

Create Rewrite HintDb comp.
#[export] Hint Rewrite comp_set valid_set valid_put_comp valid_unset : comp.

(** ** The sum of the main components

    As the unit tests compute it: every valid component that is neither the
    end-to-end time nor a detail. *)

Definition is_main (c : ntp_comp) : bool :=
  negb (bool_decide (c = NTP_C_E2E)) && negb (ci_detail (ntp_comps c)).

Definition main_term (b : ntp_breakdown_t) (c : ntp_comp) : Z :=
  if is_main c && ntp_comp_valid b c then comp b c else 0.

Definition main_sum (b : ntp_breakdown_t) : Z :=
  foldr (fun c s => main_term b c + s) 0 all_comps.

Lemma main_term_set b c c' v :
  main_term (set b c v) c' =
  if decide (c = c') then (if is_main c then v else 0) else main_term b c'.
Proof.
  unfold main_term. rewrite comp_set, valid_set.
  destruct (decide (c = c')) as [->|Hne].
  - rewrite bool_decide_true by done. by destruct (is_main c').
  - by rewrite bool_decide_false.
Qed.

Lemma main_term_unset b c c' :
  main_term (unset b c) c' = if decide (c = c') then 0 else main_term b c'.
Proof.
  unfold main_term. rewrite valid_unset. simpl.
  destruct (decide (c = c')) as [->|Hne].
  - rewrite bool_decide_true by done. by destruct (is_main c').
  - by rewrite bool_decide_false.
Qed.

(** Changing one term of the sum changes the sum by that much. *)
Lemma main_sum_one b b' c :
  (forall c', c <> c' -> main_term b' c' = main_term b c') ->
  main_sum b' = main_sum b - main_term b c + main_term b' c.
Proof.
  intros H. unfold main_sum, all_comps. simpl.
  destruct c; repeat match goal with
  | |- context [main_term b' ?c'] =>
      (rewrite (H c') by discriminate) || (generalize (main_term b' c'); intros ?)
  end; lia.
Qed.

Lemma main_sum_set b c v :
  main_sum (set b c v) = main_sum b - main_term b c + (if is_main c then v else 0).
Proof.
  rewrite (main_sum_one b _ c).
  - rewrite main_term_set. by destruct (decide (c = c)).
  - intros c' Hne. rewrite main_term_set. by destruct (decide (c = c')).
Qed.

Lemma main_sum_unset b c : main_sum (unset b c) = main_sum b - main_term b c.
Proof.
  rewrite (main_sum_one b _ c).
  - rewrite main_term_unset. destruct (decide (c = c)); [lia|done].
  - intros c' Hne. rewrite main_term_unset. by destruct (decide (c = c')).
Qed.

Lemma main_term_put b c c' v :
  main_term (put_comp b c v) c' =
  if decide (c = c') then (if is_main c && ntp_comp_valid b c then v else 0)
  else main_term b c'.
Proof.
  unfold main_term. rewrite valid_put_comp. simpl. by destruct (decide (c = c')) as [->|].
Qed.

Lemma main_sum_put b c v :
  main_sum (put_comp b c v) =
  main_sum b - main_term b c + (if is_main c && ntp_comp_valid b c then v else 0).
Proof.
  rewrite (main_sum_one b _ c).
  - rewrite main_term_put. by destruct (decide (c = c)).
  - intros c' Hne. rewrite main_term_put. by destruct (decide (c = c')).
Qed.

Lemma main_term_valid b c :
  is_main c = true -> ntp_comp_valid b c = true -> main_term b c = comp b c.
Proof. intros H1 H2. unfold main_term. by rewrite H1, H2. Qed.

Lemma main_term_detail b c : is_main c = false -> main_term b c = 0.
Proof. intros H. unfold main_term. by rewrite H. Qed.

Lemma main_term_frame b b' c :
  valid b = valid b' -> comp b = comp b' -> main_term b c = main_term b' c.
Proof. intros Hv Hc. unfold main_term, ntp_comp_valid. by rewrite Hv, Hc. Qed.

Lemma main_sum_frame b b' : valid b = valid b' -> comp b = comp b' -> main_sum b = main_sum b'.
Proof. intros Hv Hc. unfold main_sum. simpl. by rewrite !(main_term_frame b b'). Qed.

#[export] Hint Rewrite main_sum_set main_sum_unset main_sum_put main_term_set main_term_unset main_term_put : comp.

Lemma set_io_class_frame b k :
  (forall c, ntp_comp_valid (set_io_class b k) c = ntp_comp_valid b c) /\
  (forall c, main_term (set_io_class b k) c = main_term b c) /\
  main_sum (set_io_class b k) = main_sum b.
Proof. done. Qed.

#[export] Hint Rewrite
  (fun b k => proj1 (set_io_class_frame b k))
  (fun b k => proj1 (proj2 (set_io_class_frame b k)))
  (fun b k => proj2 (proj2 (set_io_class_frame b k))) : comp.

(** Symbolic evaluation of a chain of updates at concrete components. *)
Ltac comp_simp := repeat (progress (autorewrite with comp; cbn [is_main]; simpl)).

(** Everything the model starts from is unset. *)
Definition unset_comps (b : ntp_breakdown_t) : Prop := forall c, ntp_comp_valid b c = false.

Lemma unset_main_term b c : unset_comps b -> main_term b c = 0.
Proof. intros H. unfold main_term. rewrite H. by rewrite andb_false_r. Qed.

Lemma unset_main_sum b : unset_comps b -> main_sum b = 0.
Proof. intros H. unfold main_sum. simpl. by rewrite !unset_main_term. Qed.

Lemma unset_zero k : unset_comps (set_io_class zero_breakdown k).
Proof. intros c. by destruct c. Qed.

(** Where the end-to-end time starts: the block layer's start time when the
    record has a plausible one, else the driver's entry. *)
Definition origin (h : ntp_host_rec) : Z :=
  if nz (hts h NTP_H_START) && (hts h NTP_H_START <=? hts h NTP_H_QUEUE_RQ)
  then hts h NTP_H_START else hts h NTP_H_QUEUE_RQ.

Lemma d_cong x y : d x y ≡₆₄ x - y.
Proof. unfold d. cong_solve. Qed.

(** [cong_d] proves a congruence between sums of time differences. *)
Ltac cong_d := unfold d; cong_solve.

Lemma common_host_e2e h b :
  comp (common_host h b) NTP_C_E2E = d (hts h NTP_H_BLK_DONE) (origin h).
Proof.
  unfold common_host, origin. cbv zeta.
  destruct (nz (hts h NTP_H_START) && _), (nz (hts h NTP_H_NVME_DONE)); by comp_simp.
Qed.

Lemma common_host_sum h b :
  unset_comps b ->
  main_sum (common_host h b) ≡₆₄
    hts h NTP_H_CMD_SENT - origin h + (hts h NTP_H_BLK_DONE - hts h NTP_H_RSP_PROC).
Proof.
  intros Hb. unfold common_host, origin. cbv zeta.
  destruct (nz (hts h NTP_H_START) && _), (nz (hts h NTP_H_NVME_DONE));
    comp_simp; rewrite ?unset_main_term, ?unset_main_sum by done; cong_d.
Qed.

(** The components [common_host] leaves alone, and the one it sets that is
    later added to. *)
Definition after_common (c : ntp_comp) : bool :=
  match c with
  | NTP_C_BLK_SUB | NTP_C_TR_SUB | NTP_C_BLK_CMPL | NTP_C_E2E | NTP_C_CMPL_IPI => true
  | _ => false
  end.

Lemma common_host_frame h b c :
  after_common c = false -> ntp_comp_valid (common_host h b) c = ntp_comp_valid b c.
Proof.
  intros Hc. unfold common_host. cbv zeta.
  destruct (nz (hts h NTP_H_START) && _), (nz (hts h NTP_H_NVME_DONE)), c; by comp_simp.
Qed.

Lemma common_host_valid h b c :
  c = NTP_C_TR_SUB \/ c = NTP_C_BLK_CMPL \/ c = NTP_C_E2E -> ntp_comp_valid (common_host h b) c = true.
Proof.
  intros Hc. unfold common_host. cbv zeta.
  destruct (nz (hts h NTP_H_START) && _), (nz (hts h NTP_H_NVME_DONE)), Hc as [-> | [-> | ->]]; by comp_simp.
Qed.

Lemma common_host_io_class h b : io_class (common_host h b) = io_class b.
Proof.
  unfold common_host. cbv zeta.
  by destruct (nz (hts h NTP_H_START) && _), (nz (hts h NTP_H_NVME_DONE)).
Qed.

Lemma common_main_term h b c :
  unset_comps b -> after_common c = false -> main_term (common_host h b) c = 0.
Proof.
  intros Hb Hc. unfold main_term. rewrite common_host_frame, Hb by done. by rewrite andb_false_r.
Qed.

(** A data phase adds its whole span, whatever the busy time. *)
Lemma data_phase_spec first done next busy bc wc b r b' :
  data_phase first done next busy bc wc b = (r, b') ->
  if r then
    exists v, b' = set (set b bc v) wc (d done first - v) /\ done <> 0 /\
              first <= done <= next
  else b' = b.
Proof.
  unfold data_phase. destruct (_ || _ || _ || _) eqn:E; intros H; inversion H; subst; [done|].
  apply orb_false_elim in E as [[[_ E1]%orb_false_elim E2]%orb_false_elim E3].
  apply negb_false_iff, nz_true in E1. apply Z.ltb_ge in E2, E3. eauto.
Qed.

Lemma read_data_phase_sum h b :
  main_term b NTP_C_HOST_DATA = 0 -> main_term b NTP_C_HOST_WAIT = 0 ->
  main_term b NTP_C_TR_CMPL = 0 ->
  main_sum (read_data_phase h b) ≡₆₄
    main_sum b + (hts h NTP_H_RSP_PROC - hts h NTP_H_C2H_PROC).
Proof.
  intros H1 H2 H3. unfold read_data_phase. cbv zeta.
  destruct (data_phase _ _ _ _ _ _ _) as [[] b'] eqn:E; apply data_phase_spec in E.
  - destruct E as (v & -> & _). comp_simp. rewrite H1, H2, H3. cong_d.
  - subst b'. comp_simp. rewrite H3. cong_d.
Qed.

(** The host side alone adds up to the time from the origin to completion. *)
Lemma host_side_sum h b :
  unset_comps b ->
  main_sum (host_side h b) ≡₆₄ hts h NTP_H_BLK_DONE - origin h.
Proof.
  intros Hb. pose proof (common_host_sum h b Hb) as Hs.
  unfold host_side. cbv zeta. rewrite common_host_io_class.
  destruct (io_class b).
  - rewrite read_data_phase_sum; comp_simp; rewrite ?common_main_term by done; try done.
    rewrite Hs. cong_d.
  - comp_simp. rewrite ?common_main_term by done. rewrite Hs. cong_d.
  - comp_simp. rewrite (main_term_valid (common_host h b) NTP_C_TR_SUB) by auto using common_host_valid.
    rewrite ?common_main_term, common_host_valid, Hs by auto. cong_d.
Qed.

(** ** Splitting the remote time with a target record *)

Definition tgt_comp (c : ntp_comp) : bool :=
  match c with
  | NTP_C_NET | NTP_C_TGT_RX | NTP_C_TGT_SUB | NTP_C_TGT_WAIT | NTP_C_TGT_DATA
  | NTP_C_TGT_BE | NTP_C_TGT_CMPL => true
  | _ => false
  end.

(** What the host side leaves for the target side: the remote time set, the
    target's components not. *)
Definition host_only (b : ntp_breakdown_t) : Prop :=
  ntp_comp_valid b NTP_C_REMOTE = true /\
  (forall c, tgt_comp c = true -> ntp_comp_valid b c = false).

Lemma host_only_term b c : host_only b -> tgt_comp c = true -> main_term b c = 0.
Proof. intros [_ H] Hc. unfold main_term. rewrite H by done. by rewrite andb_false_r. Qed.

Lemma host_only_remote b : host_only b -> main_term b NTP_C_REMOTE = comp b NTP_C_REMOTE.
Proof. intros [H _]. by apply main_term_valid. Qed.

Lemma backend_details_sum T b : main_sum (backend_details T b) = main_sum b.
Proof.
  unfold backend_details. cbv zeta. destruct (_ || _ || _); [done|]. comp_simp.
  rewrite !main_term_detail by done. lia.
Qed.

Lemma backend_details_comp T b c :
  is_main c = true -> comp (backend_details T b) c = comp b c.
Proof.
  intros Hc. unfold backend_details. cbv zeta.
  destruct (_ || _ || _); [done|]. by destruct c.
Qed.

Lemma backend_details_valid T b c :
  is_main c = true -> ntp_comp_valid (backend_details T b) c = ntp_comp_valid b c.
Proof.
  intros Hc. unfold backend_details. cbv zeta.
  destruct (_ || _ || _); [done|]. destruct c; try done; by comp_simp.
Qed.

Lemma target_side_sum t b : host_only b -> main_sum (target_side t b) ≡₆₄ main_sum b.
Proof.
  intros Hb. unfold target_side. cbv zeta. cbn [io_class set put_comp put_valid].
  destruct (io_class b).
  - rewrite backend_details_sum. comp_simp.
    rewrite host_only_remote, ?host_only_term by done. cong_d.
  - rewrite backend_details_sum. comp_simp.
    rewrite host_only_remote, ?host_only_term by done. cong_d.
  - unfold write_data_phase. cbv zeta.
    destruct (data_phase _ _ _ _ _ _ _) as [[] b'] eqn:E; apply data_phase_spec in E.
    + destruct E as (v & -> & _). rewrite backend_details_sum. comp_simp.
      rewrite host_only_remote, ?host_only_term by done. cong_d.
    + subst b'. rewrite backend_details_sum. comp_simp.
      rewrite host_only_remote, ?host_only_term by done. cong_d.
Qed.

Lemma rdma_target_side_sum t b r b' :
  host_only b -> rdma_target_side t b = (r, b') ->
  (r = false -> b' = b) /\ main_sum b' ≡₆₄ main_sum b.
Proof.
  intros Hb. unfold rdma_target_side. cbv zeta.
  destruct (negb (have_all _ _) || _); [intros [= <- <-]; done|].
  set (T := if _ : bool then put_ts _ _ _ else _). clearbody T.
  destruct (negb (nz (T NTP_T_RSP_SENT)) && _); [intros [= <- <-]; done|].
  destruct (if negb (nz (T NTP_T_RSP_SENT)) then _ else _) as [T' b0] eqn:E.
  assert (main_sum b0 = main_sum b /\ host_only b0) as [<- Hb0].
  { destruct (negb (nz (T NTP_T_RSP_SENT))); by injection E as <- <-. }
  clear E. intros H.
  destruct (has _ NTP_F_RDMA_READ), (negb _ && _ && _); injection H as <- <-;
    (split; [done|]); rewrite backend_details_sum; comp_simp;
    rewrite ?(main_term_detail _ NTP_C_NET_DATA), host_only_remote, ?host_only_term by done; cong_d.
Qed.

(** ** The stages are sums of components *)

Lemma stage_frame b s parts extras :
  valid (stage b s parts extras) = valid b /\ comp (stage b s parts extras) = comp b /\
  joined (stage b s parts extras) = joined b.
Proof. unfold stage. by destruct (sum_parts b parts 0). Qed.

Lemma stages_frame b :
  valid (stages b) = valid b /\ comp (stages b) = comp b /\ joined (stages b) = joined b.
Proof.
  unfold stages. cbv zeta.
  repeat match goal with |- context [stage ?b ?s ?p ?x] =>
    destruct (stage_frame b s p x) as (-> & -> & ->)
  end. done.
Qed.

Lemma host_side_host_only h b :
  unset_comps b -> host_only (host_side h b) /\ host_only (rdma_host_side h b).
Proof.
  intros Hb. unfold host_only, host_side, rdma_host_side, read_data_phase. cbv zeta.
  split; [rewrite common_host_io_class; destruct (io_class b)|].
  - destruct (data_phase _ _ _ _ _ _ _) as [[] b'] eqn:E; apply data_phase_spec in E;
      [destruct E as (v & -> & _)|subst b'];
      (split; [by comp_simp|]); intros c Hc; destruct c; try done;
      comp_simp; rewrite common_host_frame by done; apply Hb.
  - split; [by comp_simp|]. intros c Hc; destruct c; try done;
      comp_simp; rewrite common_host_frame by done; apply Hb.
  - split; [by comp_simp|]. intros c Hc; destruct c; try done;
      comp_simp; rewrite common_host_frame by done; apply Hb.
  - split; [by comp_simp|]. intros c Hc; destruct c; try done;
      comp_simp; rewrite common_host_frame by done; apply Hb.
Qed.

(** ** The shape of a breakdown

    Either the host record misses events and nothing is set, or the host side
    is computed and, when the target record is usable, split. *)

Definition start_of (h : ntp_host_rec) : ntp_breakdown_t :=
  set_io_class zero_breakdown (ntp_io_class_of h).

Definition is_rdma (h : ntp_host_rec) : bool := transport (h_hdr h) =? NTP_TR_RDMA.

Definition host_part (h : ntp_host_rec) : ntp_breakdown_t :=
  if is_rdma h then rdma_host_side h (start_of h) else host_side h (start_of h).

(** The host record has the events its transport and class need. *)
Definition host_usable (h : ntp_host_rec) : bool :=
  if is_rdma h then have_all (hts h) host_req_rdma else host_complete h (ntp_io_class_of h).

(** [b] is the host part split with target record [t]. *)
Inductive split_with (h : ntp_host_rec) (t : ntp_tgt_rec) : ntp_breakdown_t -> Prop :=
  | split_rdma b :
      is_rdma h = true -> rdma_target_side t (host_part h) = (true, b) ->
      split_with h t (set_joined b)
  | split_tcp :
      is_rdma h = false -> target_complete t (io_class (host_part h)) = true ->
      split_with h t (set_joined (target_side t (host_part h))).

Inductive breakdown_shape (h : ntp_host_rec) : option ntp_tgt_rec -> ntp_model_err ->
    ntp_breakdown_t -> Prop :=
  | shape_incomplete t :
      host_usable h = false -> breakdown_shape h t NTP_MODEL_INCOMPLETE_HOST (start_of h)
  | shape_host_only :
      host_usable h = true -> breakdown_shape h None NTP_MODEL_OK (stages (host_part h))
  | shape_fallback t :
      host_usable h = true ->
      breakdown_shape h (Some t) NTP_MODEL_INCOMPLETE_TARGET (stages (host_part h))
  | shape_joined t b :
      host_usable h = true -> split_with h t b ->
      breakdown_shape h (Some t) NTP_MODEL_OK (stages b).

Lemma host_part_only h : host_only (host_part h).
Proof. unfold host_part. destruct (is_rdma h); apply host_side_host_only, unset_zero. Qed.

Lemma breakdown_shape_of h t err b :
  ntp_breakdown h t = (err, b) -> breakdown_shape h t err b.
Proof.
  pose proof (host_part_only h) as Ho.
  unfold ntp_breakdown. fold (start_of h). fold (is_rdma h). cbv zeta.
  destruct (is_rdma h) eqn:Hr.
  - destruct (have_all (hts h) host_req_rdma) eqn:Hu; simpl.
    2: { intros [= <- <-]. constructor. unfold host_usable. by rewrite Hr. }
    assert (host_usable h = true) as Hus by (unfold host_usable; by rewrite Hr).
    assert (host_part h = rdma_host_side h (start_of h)) as Hp by (unfold host_part; by rewrite Hr).
    rewrite <- Hp. destruct t as [t|]; [|intros [= <- <-]; by constructor].
    destruct (_ && _); [|intros [= <- <-]; by constructor].
    destruct (rdma_target_side t (host_part h)) as [[] b'] eqn:E; intros [= <- <-].
    + constructor; [done|]. by constructor.
    + destruct (rdma_target_side_sum _ _ _ _ Ho E) as [H _]. rewrite (H eq_refl). by constructor.
  - destruct (host_complete h (io_class (start_of h))) eqn:Hu; simpl.
    2: { intros [= <- <-]. constructor. unfold host_usable. by rewrite Hr. }
    assert (host_usable h = true) as Hus by (unfold host_usable; by rewrite Hr).
    assert (host_part h = host_side h (start_of h)) as Hp by (unfold host_part; by rewrite Hr).
    rewrite <- Hp. destruct t as [t|]; [|intros [= <- <-]; by constructor].
    destruct (_ && _) eqn:Hc; intros [= <- <-]; [|by constructor].
    constructor; [done|]. apply andb_prop in Hc as [_ Hc]. by constructor.
Qed.

(** The sum and the end-to-end time of each shape. *)

Lemma data_phase_comp first done next busy bc wc b r b' c :
  data_phase first done next busy bc wc b = (r, b') -> c <> bc -> c <> wc ->
  comp b' c = comp b c /\ ntp_comp_valid b' c = ntp_comp_valid b c.
Proof.
  intros E H1 H2. apply data_phase_spec in E. destruct r; [|by subst].
  destruct E as (v & -> & _). autorewrite with comp.
  rewrite !decide_False, !bool_decide_false by congruence. done.
Qed.

Lemma host_part_e2e h : comp (host_part h) NTP_C_E2E = d (hts h NTP_H_BLK_DONE) (origin h).
Proof.
  unfold host_part, rdma_host_side, host_side, read_data_phase. cbv zeta.
  rewrite common_host_io_class.
  destruct (is_rdma h), (io_class (start_of h)); comp_simp; try apply common_host_e2e.
  destruct (data_phase _ _ _ _ _ _ _) as [r b'] eqn:E.
  apply (data_phase_comp _ _ _ _ _ _ _ _ _ NTP_C_E2E) in E as [E _]; [|done..].
  destruct r; comp_simp; rewrite E; comp_simp; apply common_host_e2e.
Qed.

Lemma host_part_sum h : main_sum (host_part h) ≡₆₄ hts h NTP_H_BLK_DONE - origin h.
Proof.
  unfold host_part. destruct (is_rdma h); [|apply host_side_sum, unset_zero].
  pose proof (common_host_sum h (start_of h) (unset_zero _)) as Hs.
  unfold rdma_host_side. cbv zeta. comp_simp.
  rewrite ?common_main_term by (done || apply unset_zero). rewrite Hs. cong_d.
Qed.

Lemma target_side_e2e t b : comp (target_side t b) NTP_C_E2E = comp b NTP_C_E2E.
Proof.
  unfold target_side, write_data_phase, backend_details. cbv zeta. cbn [io_class set put_comp put_valid].
  destruct (_ || _ || _), (io_class b); comp_simp; try done.
  all: destruct (data_phase _ _ _ _ _ _ _) as [r b'] eqn:E;
    apply (data_phase_comp _ _ _ _ _ _ _ _ _ NTP_C_E2E) in E as [E _]; [|done..];
    destruct r; comp_simp; rewrite E; by comp_simp.
Qed.

Lemma rdma_target_side_e2e t b r b' :
  rdma_target_side t b = (r, b') -> comp b' NTP_C_E2E = comp b NTP_C_E2E.
Proof.
  unfold rdma_target_side, backend_details. cbv zeta.
  destruct (negb (have_all _ _) || _); [by intros [= <- <-]|].
  set (T := if _ : bool then put_ts _ _ _ else _). clearbody T.
  destruct (negb (nz (T NTP_T_RSP_SENT)) && _); [by intros [= <- <-]|].
  destruct (negb (nz (T NTP_T_RSP_SENT))), (has _ NTP_F_RDMA_READ);
    destruct (negb _ && _ && _); intros [= <- <-]; destruct (_ || _ || _); by comp_simp.
Qed.

Lemma split_sum h t b :
  split_with h t b ->
  main_sum b ≡₆₄ main_sum (host_part h) /\
  comp b NTP_C_E2E = comp (host_part h) NTP_C_E2E /\ joined b = true.
Proof.
  pose proof (host_part_only h) as Ho. intros [b' _ E|_ _].
  - split; [|split; [exact (rdma_target_side_e2e _ _ _ _ E)|done]].
    exact (proj2 (rdma_target_side_sum _ _ _ _ Ho E)).
  - split; [|split; [apply target_side_e2e|done]]. exact (target_side_sum t _ Ho).
Qed.

Lemma components_sum h t err b :
  ntp_breakdown h t = (err, b) ->
  err <> NTP_MODEL_INCOMPLETE_HOST ->
  s64 (main_sum b) = comp b NTP_C_E2E.
Proof.
  intros H Hne. apply breakdown_shape_of in H.
  assert (forall b', main_sum b' ≡₆₄ main_sum (host_part h) ->
            comp b' NTP_C_E2E = comp (host_part h) NTP_C_E2E ->
            s64 (main_sum (stages b')) = comp (stages b') NTP_C_E2E) as Hgen.
  { intros b' Hs He. destruct (stages_frame b') as (Hv & Hc & _).
    rewrite (main_sum_frame _ b'), Hc, He by done.
    rewrite host_part_e2e, Hs, host_part_sum. unfold d. apply s64_proper. cong_solve. }
  destruct H as [| | |t b _ Hsp]; [done|by apply Hgen..|].
  apply split_sum in Hsp as (Hs & He & _). by apply Hgen.
Qed.

(** C1: the components add up.  Whatever the timestamps are, the valid main
    components of a breakdown (details and the end-to-end time left out, as
    the unit tests sum them) add up, in 64-bit arithmetic, to the end-to-end
    time, for a host record alone and with a target record, over TCP and RDMA
    and for every class of command. *)
Theorem components_add_up (h : ntp_host_rec) (t : option ntp_tgt_rec) err b :
  ntp_breakdown h t = (err, b) ->
  err <> NTP_MODEL_INCOMPLETE_HOST ->
  s64 (main_sum b) = comp b NTP_C_E2E.
Proof. apply components_sum. Qed.

(** *** Stages *)

(** The components the host side always sets, and those a split always adds. *)
Definition host_always (c : ntp_comp) : bool :=
  match c with
  | NTP_C_BLK_CMPL | NTP_C_TR_SUB | NTP_C_TR_CMPL | NTP_C_HOST_RX | NTP_C_E2E => true
  | _ => false
  end.

Definition split_always (c : ntp_comp) : bool :=
  match c with
  | NTP_C_NET | NTP_C_TGT_RX | NTP_C_TGT_SUB | NTP_C_TGT_CMPL | NTP_C_TGT_BE => true
  | _ => false
  end.

Lemma common_host_always h b c :
  host_always c = true ->
  ntp_comp_valid (set (set (common_host h b) NTP_C_HOST_RX 0) NTP_C_TR_CMPL 0) c = true.
Proof.
  intros Hc. destruct c; try done; autorewrite with comp;
    rewrite ?common_host_valid by auto; done.
Qed.

Lemma host_part_valid h c : host_always c = true -> ntp_comp_valid (host_part h) c = true.
Proof.
  intros Hc. pose proof (common_host_always h (start_of h) c Hc) as Hg.
  revert Hg. autorewrite with comp. intros Hg.
  unfold host_part, rdma_host_side, host_side, read_data_phase. cbv zeta. rewrite common_host_io_class.
  destruct (is_rdma h), (io_class (start_of h));
    try destruct (data_phase _ _ _ _ _ _ _) as [[] b'] eqn:E; try apply data_phase_spec in E;
    try destruct E as (v & -> & _); try subst b'; autorewrite with comp;
    destruct c; try done; simpl in *; try done; by rewrite Hg.
Qed.

Lemma backend_details_mono T b c :
  ntp_comp_valid b c = true -> ntp_comp_valid (backend_details T b) c = true.
Proof.
  intros H. unfold backend_details. cbv zeta. destruct (_ || _ || _); [done|].
  autorewrite with comp. by rewrite H, !orb_true_r.
Qed.

(** Splitting keeps every component but the remote time, which it takes
    away, and sets the target's. *)
Lemma target_side_valid t b c :
  c <> NTP_C_REMOTE -> split_always c || ntp_comp_valid b c = true ->
  ntp_comp_valid (target_side t b) c = true.
Proof.
  intros Hr Hc. assert (bool_decide (NTP_C_REMOTE = c) = false) as Hr' by (apply bool_decide_false; congruence).
  unfold target_side, write_data_phase. cbv zeta. cbn [io_class set put_comp put_valid].
  destruct (io_class b); try destruct (data_phase _ _ _ _ _ _ _) as [[] b'] eqn:E;
    try apply data_phase_spec in E; try destruct E as (v & -> & _); try subst b';
    apply backend_details_mono; autorewrite with comp; rewrite Hr'; simpl;
    (apply orb_prop in Hc as [Hc|Hc]; [by destruct c|by rewrite Hc, !orb_true_r]).
Qed.

Lemma target_side_remote t b : ntp_comp_valid (target_side t b) NTP_C_REMOTE = false.
Proof.
  unfold target_side, write_data_phase. cbv zeta. cbn [io_class set put_comp put_valid].
  destruct (io_class b); try destruct (data_phase _ _ _ _ _ _ _) as [[] b'] eqn:E;
    rewrite backend_details_valid by done; by autorewrite with comp.
Qed.

Lemma rdma_target_side_valid t b b' c :
  rdma_target_side t b = (true, b') ->
  (c <> NTP_C_REMOTE -> split_always c || ntp_comp_valid b c = true ->
   ntp_comp_valid b' c = true) /\
  ntp_comp_valid b' NTP_C_REMOTE = false.
Proof.
  unfold rdma_target_side. cbv zeta.
  destruct (negb (have_all _ _) || _); [done|].
  set (T := if _ : bool then put_ts _ _ _ else _). clearbody T.
  destruct (negb (nz (T NTP_T_RSP_SENT)) && _); [done|].
  destruct (if negb (nz (T NTP_T_RSP_SENT)) then _ else _) as [T' b0] eqn:E.
  assert (ntp_comp_valid b0 = ntp_comp_valid b) as <-.
  { destruct (negb (nz (T NTP_T_RSP_SENT))); by injection E as <- <-. }
  clear E. destruct (has _ NTP_F_RDMA_READ), (negb _ && _ && _); intros [= <-]; (split;
    [intros Hr Hc; apply backend_details_mono; autorewrite with comp;
     rewrite (bool_decide_false (NTP_C_REMOTE = c)) by congruence; simpl;
     (apply orb_prop in Hc as [Hc|Hc]; [by destruct c|by rewrite Hc, !orb_true_r])
    |rewrite backend_details_valid by done; by autorewrite with comp]).
Qed.

Lemma split_valid h t b c :
  split_with h t b ->
  (c <> NTP_C_REMOTE -> split_always c || ntp_comp_valid (host_part h) c = true ->
   ntp_comp_valid b c = true) /\
  ntp_comp_valid b NTP_C_REMOTE = false.
Proof.
  intros [b' _ E|_ _].
  - exact (rdma_target_side_valid _ _ _ c E).
  - split; [apply target_side_valid|apply target_side_remote].
Qed.

(** A breakdown has the end-to-end time. *)
Lemma e2e_valid h t err b :
  ntp_breakdown h t = (err, b) -> err <> NTP_MODEL_INCOMPLETE_HOST -> ntp_comp_valid b NTP_C_E2E = true.
Proof.
  intros H Hne. apply breakdown_shape_of in H.
  assert (forall b', ntp_comp_valid b' NTP_C_E2E = true -> ntp_comp_valid (stages b') NTP_C_E2E = true) as Hgen.
  { intros b' Hb. destruct (stages_frame b') as (Hv & _). unfold ntp_comp_valid in *. by rewrite Hv. }
  destruct H as [| | |t b _ Hsp]; [done|by apply Hgen, host_part_valid..|].
  apply Hgen. apply (split_valid h t b NTP_C_E2E Hsp); [done|]. by rewrite host_part_valid, orb_true_r.
Qed.

(** What a stage sums: parts it must have, extras it adds when they are set. *)
Definition stage_parts (s : ntp_stage) : list ntp_comp :=
  match s with
  | NTP_S1 => [NTP_C_BLK_SUB; NTP_C_BLK_CMPL]
  | NTP_S2 => [NTP_C_TR_SUB; NTP_C_TR_CMPL]
  | NTP_S3_S5 => [NTP_C_NET; NTP_C_TGT_RX; NTP_C_HOST_RX]
  | NTP_S6 => [NTP_C_TGT_SUB; NTP_C_TGT_CMPL]
  | NTP_S7_S9 => [NTP_C_TGT_BE]
  end.

Definition stage_extras (s : ntp_stage) : list ntp_comp :=
  match s with
  | NTP_S2 => [NTP_C_HOST_DATA]
  | NTP_S3_S5 => [NTP_C_HOST_WAIT; NTP_C_TGT_WAIT]
  | NTP_S6 => [NTP_C_TGT_DATA]
  | _ => []
  end.

Definition terms (b : ntp_breakdown_t) (l : list ntp_comp) : Z :=
  foldr (fun c s => main_term b c + s) 0 l.

Lemma sum_parts_terms b parts acc :
  forallb is_main parts = true ->
  sum_parts b parts acc =
  if forallb (ntp_comp_valid b) parts then Some (acc + terms b parts) else None.
Proof.
  revert acc. induction parts as [|c parts IH]; intros acc H; simpl in *; [f_equal; lia|].
  apply andb_prop in H as [Hc H]. destruct (ntp_comp_valid b c) eqn:Hv; [|done]. simpl.
  rewrite IH by done. destruct (forallb (ntp_comp_valid b) parts); [|done].
  rewrite main_term_valid by done. f_equal. lia.
Qed.

Lemma sum_extras_terms b extras acc :
  forallb is_main extras = true -> sum_extras b extras acc = acc + terms b extras.
Proof.
  revert acc. induction extras as [|c extras IH]; intros acc H; simpl in *; [lia|].
  apply andb_prop in H as [Hc H]. rewrite IH by done. unfold main_term. rewrite Hc.
  destruct (ntp_comp_valid b c); simpl; lia.
Qed.

Lemma stage_idx_eqb s s' : (stage_idx s =? stage_idx s') = bool_decide (s = s').
Proof. by destruct s, s'. Qed.

Definition stage_has (b : ntp_breakdown_t) (s : ntp_stage) : bool :=
  forallb (ntp_comp_valid b) (stage_parts s).

Lemma terms_frame b b' l : valid b = valid b' -> comp b = comp b' -> terms b l = terms b' l.
Proof.
  intros Hv Hc. induction l as [|c l IH]; simpl; [done|]. by rewrite (main_term_frame b b'), IH.
Qed.

Lemma stage_spec b b0 s s' :
  valid b = valid b0 -> comp b = comp b0 ->
  ntp_stage_valid (stage b s (stage_parts s) (stage_extras s)) s' =
    (bool_decide (s = s') && stage_has b0 s) || ntp_stage_valid b s' /\
  b_stage (stage b s (stage_parts s) (stage_extras s)) s' =
    if bool_decide (s = s') && stage_has b0 s
    then terms b0 (stage_parts s) + terms b0 (stage_extras s) else b_stage b s'.
Proof.
  intros Hv Hc. unfold stage. rewrite sum_parts_terms by by destruct s.
  assert (forallb (ntp_comp_valid b) (stage_parts s) = stage_has b0 s) as ->.
  { unfold stage_has, ntp_comp_valid. by rewrite Hv. }
  destruct (stage_has b0 s); [|by rewrite andb_false_r].
  rewrite sum_extras_terms, !(terms_frame b b0) by done || by destruct s.
  rewrite andb_true_r. unfold ntp_stage_valid. simpl.
  rewrite has_lor_shift, stage_idx_eqb by by destruct s, s'.
  split; [done|]. destruct (decide (s = s')); [by rewrite bool_decide_true|by rewrite bool_decide_false].
Qed.

(** Each stage is set exactly when its parts are, to the sum of its parts and
    of the extras that are set. *)
Lemma stages_spec b s :
  stage_valid b = 0 ->
  ntp_stage_valid (stages b) s = stage_has b s /\
  (stage_has b s = true ->
   b_stage (stages b) s = terms b (stage_parts s) + terms b (stage_extras s)).
Proof.
  intros H0. unfold stages. cbv zeta.
  pose (st := fun s b => stage b s (stage_parts s) (stage_extras s)).
  change (ntp_stage_valid (st NTP_S7_S9 (st NTP_S6 (st NTP_S3_S5 (st NTP_S2 (st NTP_S1 b))))) s
            = stage_has b s /\
          (stage_has b s = true ->
           b_stage (st NTP_S7_S9 (st NTP_S6 (st NTP_S3_S5 (st NTP_S2 (st NTP_S1 b))))) s =
           terms b (stage_parts s) + terms b (stage_extras s))).
  assert (forall s x, valid x = valid b /\ comp x = comp b ->
            valid (st s x) = valid b /\ comp (st s x) = comp b) as Hf.
  { intros s' x [Hx1 Hx2]. unfold st. destruct (stage_frame x s' (stage_parts s') (stage_extras s')) as (-> & -> & _).
    done. }
  assert (forall s x s', valid x = valid b /\ comp x = comp b ->
    ntp_stage_valid (st s x) s' = (bool_decide (s = s') && stage_has b s) || ntp_stage_valid x s' /\
    b_stage (st s x) s' = if bool_decide (s = s') && stage_has b s
      then terms b (stage_parts s) + terms b (stage_extras s) else b_stage x s') as Hs.
  { intros s1 x s2 [Hx1 Hx2]. by apply stage_spec. }
  clearbody st.
  assert (ntp_stage_valid b s = false) as Hb.
  { unfold ntp_stage_valid. rewrite H0. by destruct s. }
  rewrite !(fun s' x H => proj1 (Hs s' x s H)) by repeat apply Hf || done.
  rewrite !(fun s' x H => proj2 (Hs s' x s H)) by repeat apply Hf || done.
  rewrite Hb. destruct s; simpl; rewrite ?orb_false_r; (split; [done|]); by intros ->.
Qed.

Lemma common_host_stage_valid h b : stage_valid (common_host h b) = stage_valid b.
Proof.
  unfold common_host. cbv zeta.
  by destruct (nz (hts h NTP_H_START) && _), (nz (hts h NTP_H_NVME_DONE)).
Qed.

Lemma data_phase_stage_valid first done next busy bc wc b r b' :
  data_phase first done next busy bc wc b = (r, b') -> stage_valid b' = stage_valid b.
Proof. intros E%data_phase_spec. destruct r; [by destruct E as (v & -> & _)|by subst]. Qed.

Lemma host_part_stage_valid h : stage_valid (host_part h) = 0.
Proof.
  unfold host_part, rdma_host_side, host_side, read_data_phase. cbv zeta.
  destruct (is_rdma h); simpl; [apply common_host_stage_valid|].
  rewrite common_host_io_class.
  destruct (io_class _); simpl; try apply common_host_stage_valid.
  destruct (data_phase _ _ _ _ _ _ _) as [[] b'] eqn:E; apply data_phase_stage_valid in E;
    simpl; rewrite E; apply common_host_stage_valid.
Qed.

Lemma split_stage_valid h t b : split_with h t b -> stage_valid b = 0.
Proof.
  rewrite <- (host_part_stage_valid h). intros [b' _ E|_ _]; simpl.
  - unfold rdma_target_side, backend_details in E. cbv zeta in E.
    destruct (negb (have_all _ _) || _); [done|].
    set (T := if _ : bool then put_ts _ _ _ else _) in E. clearbody T.
    destruct (negb (nz (T NTP_T_RSP_SENT)) && _); [done|].
    destruct (negb (nz (T NTP_T_RSP_SENT))), (has _ NTP_F_RDMA_READ);
      destruct (negb _ && _ && _), (_ || _ || _); by injection E as <-.
  - unfold target_side, write_data_phase, backend_details. cbv zeta. cbn [io_class set put_comp put_valid].
    destruct (_ || _ || _), (io_class _); try done;
      destruct (data_phase _ _ _ _ _ _ _) as [[] b'] eqn:E; apply data_phase_stage_valid in E; done.
Qed.

Definition stage_sum (b : ntp_breakdown_t) : Z :=
  foldr (fun s acc => b_stage b s + acc) 0 all_stages.

(** With the remote time split, the five stages partition the main components. *)
Lemma stage_sum_main b :
  main_term b NTP_C_REMOTE = 0 ->
  foldr (fun s acc => terms b (stage_parts s) + terms b (stage_extras s) + acc) 0 all_stages
  = main_sum b.
Proof.
  intros Hr. unfold main_sum, all_comps, all_stages, terms. simpl.
  rewrite Hr, (main_term_detail b NTP_C_E2E), (main_term_detail b NTP_C_TGT_BE_SUB),
    (main_term_detail b NTP_C_TGT_DEV), (main_term_detail b NTP_C_TGT_BE_CMPL),
    (main_term_detail b NTP_C_CMPL_IPI), (main_term_detail b NTP_C_NET_DATA) by done.
  lia.
Qed.

Lemma main_term_invalid b c : ntp_comp_valid b c = false -> main_term b c = 0.
Proof. intros H. unfold main_term. rewrite H. by rewrite andb_false_r. Qed.

(** Which stages a joined command has: all of them but the host block layer,
    which needs the block layer's start time. *)
Lemma split_stages h t b s :
  split_with h t b ->
  stage_has b s = true <-> (s = NTP_S1 -> ntp_comp_valid b NTP_C_BLK_SUB = true).
Proof.
  intros Hsp.
  assert (forall c, split_always c || host_always c = true -> ntp_comp_valid b c = true) as Hv.
  { intros c Hc. apply (proj1 (split_valid h t b c Hsp)); [by destruct c|].
    apply orb_prop in Hc as [->|Hc]; [done|]. rewrite host_part_valid by done. apply orb_true_r. }
  unfold stage_has. destruct s; simpl; rewrite ?Hv by done; simpl; try (split; done).
  rewrite (Hv NTP_C_BLK_CMPL), andb_true_r by done. split; [done|]. intros H. by apply H.
Qed.

Lemma stages_valid_frame b c : ntp_comp_valid (stages b) c = ntp_comp_valid b c.
Proof. unfold ntp_comp_valid. by destruct (stages_frame b) as (-> & _ & _). Qed.

Lemma joined_stages (h : ntp_host_rec) (t : ntp_tgt_rec) b :
  ntp_breakdown h (Some t) = (NTP_MODEL_OK, b) ->
  (forall s, s <> NTP_S1 -> ntp_stage_valid b s = true) /\
  (ntp_comp_valid b NTP_C_BLK_SUB = true ->
   ntp_stage_valid b NTP_S1 = true /\ s64 (stage_sum b) = comp b NTP_C_E2E).
Proof.
  intros Hbd. pose proof (components_sum _ _ _ _ Hbd) as Hsum.
  apply breakdown_shape_of in Hbd. inversion Hbd as [| | |t' b' Hu Hsp]; subst.
  pose proof (split_stage_valid _ _ _ Hsp) as H0.
  pose proof (fun s => split_stages h t b' s Hsp) as Hst.
  split.
  - intros s Hs. destruct (stages_spec b' s H0) as [-> _]. apply Hst. congruence.
  - rewrite stages_valid_frame. intros Hblk.
    assert (forall s, stage_has b' s = true) as Hall by (intros s; by apply Hst).
    split; [by destruct (stages_spec b' NTP_S1 H0) as [-> _]|].
    rewrite <- Hsum by done. apply (f_equal s64).
    destruct (stages_frame b') as (Hv & Hc & _). rewrite (main_sum_frame _ b') by done.
    rewrite <- stage_sum_main by (apply main_term_invalid; apply (split_valid h t b' NTP_C_NET Hsp)).
    unfold stage_sum, all_stages. cbn [foldr].
    rewrite !(fun s => proj2 (stages_spec b' s H0) (Hall s)). reflexivity.
Qed.

(** What a stage and a component contribute to the samples. *)
Definition stage_term (b : ntp_breakdown_t) (s : ntp_stage) : Z := if ntp_stage_valid b s then b_stage b s else 0.
Definition comp_term (b : ntp_breakdown_t) (c : ntp_comp) : Z := if ntp_comp_valid b c then comp b c else 0.

Lemma host_part_joined h : joined (host_part h) = false.
Proof.
  unfold host_part, rdma_host_side, host_side, read_data_phase. cbv zeta.
  assert (joined (common_host h (start_of h)) = false) as Hc.
  { unfold common_host. cbv zeta. by destruct (nz (hts h NTP_H_START) && _), (nz (hts h NTP_H_NVME_DONE)). }
  destruct (is_rdma h); [exact Hc|]. destruct (io_class _); try exact Hc.
  destruct (data_phase _ _ _ _ _ _ _) as [[] b'] eqn:E; apply data_phase_spec in E; [|by subst].
  destruct E as (v & -> & _). exact Hc.
Qed.

Lemma joined_shape h t err b :
  ntp_breakdown h t = (err, b) -> err <> NTP_MODEL_INCOMPLETE_HOST ->
  if joined b then exists t', t = Some t' /\ err = NTP_MODEL_OK else b = stages (host_part h).
Proof.
  intros H%breakdown_shape_of Hne. destruct H as [t Hu|Hu|t Hu|t b' Hu Hsp]; [done| | |].
  1-2: rewrite (proj2 (proj2 (stages_frame _))), host_part_joined; reflexivity.
  assert (joined b' = true) as Hj by (by destruct Hsp). rewrite (proj2 (proj2 (stages_frame _))), Hj. by exists t.
Qed.

(** Without the target's side: the host's two stages, its receive path and wait,
    and the rest of the round trip make up the end-to-end time. *)
Lemma host_only_sum h :
  let b := stages (host_part h) in
  ntp_comp_valid b NTP_C_BLK_SUB = true -> s64 (main_sum b) = comp b NTP_C_E2E ->
  ntp_stage_valid b NTP_S3_S5 = false /\
  stage_term b NTP_S1 + stage_term b NTP_S2 + comp_term b NTP_C_HOST_RX + comp_term b NTP_C_HOST_WAIT +
    comp_term b NTP_C_REMOTE ≡₆₄ comp b NTP_C_E2E.
Proof.
  intros b Hblk Hsum. pose proof (host_part_only h) as Ho. pose proof (host_part_stage_valid h) as H0.
  destruct (stages_frame (host_part h)) as (Hv & Hc & _). unfold b in Hblk. rewrite stages_valid_frame in Hblk.
  assert (stage_has (host_part h) NTP_S3_S5 = false) as H35.
  { unfold stage_has. cbn [stage_parts forallb]. by rewrite (proj2 Ho NTP_C_NET). }
  assert (stage_has (host_part h) NTP_S1 = true) as H1.
  { unfold stage_has. cbn [stage_parts forallb]. by rewrite Hblk, (host_part_valid h NTP_C_BLK_CMPL). }
  assert (stage_has (host_part h) NTP_S2 = true) as H2.
  { unfold stage_has. cbn [stage_parts forallb]. by rewrite (host_part_valid h NTP_C_TR_SUB), (host_part_valid h NTP_C_TR_CMPL). }
  split; [unfold b; by rewrite (proj1 (stages_spec (host_part h) NTP_S3_S5 H0))|].
  rewrite <- Hsum. unfold stage_term, b.
  rewrite !(fun s => proj1 (stages_spec (host_part h) s H0)), H1, H2.
  rewrite (proj2 (stages_spec (host_part h) NTP_S1 H0) H1), (proj2 (stages_spec (host_part h) NTP_S2 H0) H2).
  assert (forall c, is_main c = true -> comp_term (stages (host_part h)) c = main_term (host_part h) c) as Ht.
  { intros c Hm. unfold comp_term, main_term. by rewrite stages_valid_frame, Hc, Hm. }
  rewrite !Ht by done. rewrite (main_sum_frame _ (host_part h)) by done.
  unfold main_sum, all_comps, terms. cbn [foldr stage_parts stage_extras].
  repeat match goal with |- context [main_term (host_part h) ?c] =>
    first [rewrite (main_term_detail (host_part h) c) by reflexivity|rewrite (host_only_term (host_part h) c Ho) by reflexivity]
  end.
  cong_solve.
Qed.

(** C2: the stages add up.  For a command joined with its target record whose
    block-layer start time is known, all five stages are set and they add up,
    in 64-bit arithmetic, to the end-to-end time; without that start time the
    other four stages are still set. *)
Theorem stages_add_up (h : ntp_host_rec) (t : ntp_tgt_rec) b :
  ntp_breakdown h (Some t) = (NTP_MODEL_OK, b) ->
  (forall s, s <> NTP_S1 -> ntp_stage_valid b s = true) /\
  (ntp_comp_valid b NTP_C_BLK_SUB = true ->
   ntp_stage_valid b NTP_S1 = true /\ s64 (stage_sum b) = comp b NTP_C_E2E).
Proof. apply joined_stages. Qed.

(** ** Incomplete records *)

Lemma breakdown_usable h t err b :
  ntp_breakdown h t = (err, b) ->
  host_usable h = bool_decide (err <> NTP_MODEL_INCOMPLETE_HOST).
Proof. intros H%breakdown_shape_of. by inversion H. Qed.

(** Incomplete records.  A host record that misses an event its transport
    and class need gives no component and no stage, with or without a target
    record; a target record that cannot be used gives exactly the breakdown of
    the host record alone. *)
Theorem breakdown_incomplete (h : ntp_host_rec) (t : option ntp_tgt_rec) err b :
  ntp_breakdown h t = (err, b) ->
  (err = NTP_MODEL_INCOMPLETE_HOST <-> host_usable h = false) /\
  (err = NTP_MODEL_INCOMPLETE_HOST ->
   valid b = 0 /\ stage_valid b = 0 /\ joined b = false) /\
  (err = NTP_MODEL_INCOMPLETE_TARGET -> ntp_breakdown h None = (NTP_MODEL_OK, b)).
Proof.
  intros H. split; [|split].
  - rewrite (breakdown_usable _ _ _ _ H). by destruct err.
  - intros ->. apply breakdown_shape_of in H. by inversion H.
  - intros ->. apply breakdown_shape_of in H. inversion H as [| |t' Hu|]; subst.
    destruct (ntp_breakdown h None) as [e b'] eqn:E. apply breakdown_shape_of in E.
    inversion E as [t Hu'| | |]; subst; [congruence|done].
Qed.

(** ** Range: no signed overflow

    Timestamps below [2 ^ 58] ns (9 years of uptime) keep every component
    and stage within [int64_t], so the signed additions of the C code, which
    [comp] and [b_stage] model by exact integers, never overflow. *)
Definition TS_MAX : Z := 2 ^ 58.

Definition in_time (v : Z) : Prop := 0 <= v < TS_MAX.

Lemma d_exact x y : in_time x -> in_time y -> d x y = x - y.
Proof.
  intros Hx Hy. unfold in_time, TS_MAX, d in *. rewrite (s64_proper _ _ (u64_cong (x - y))).
  apply s64_small. unfold is_s64. lia.
Qed.

(** The largest number of timestamp differences in each component. *)
Definition comp_span (c : ntp_comp) : Z :=
  match c with
  | NTP_C_NET => 4
  | NTP_C_TR_SUB | NTP_C_REMOTE | NTP_C_HOST_RX | NTP_C_TGT_RX | NTP_C_TGT_SUB => 2
  | _ => 1
  end.

Definition comps_bounded (b : ntp_breakdown_t) : Prop :=
  forall c, Z.abs (comp b c) <= comp_span c * TS_MAX.

Lemma bounded_put b c v :
  comps_bounded b -> Z.abs v <= comp_span c * TS_MAX -> comps_bounded (put_comp b c v).
Proof. intros Hb Hv c'. simpl. by destruct (decide (c = c')) as [->|]. Qed.

Lemma bounded_set b c v :
  comps_bounded b -> Z.abs v <= comp_span c * TS_MAX -> comps_bounded (set b c v).
Proof. intros Hb Hv. exact (bounded_put b c v Hb Hv). Qed.

Lemma bounded_unset b c : comps_bounded b -> comps_bounded (unset b c).
Proof. intros Hb. apply (bounded_put _ _ _ Hb). unfold TS_MAX. by destruct c. Qed.

(** [bound_solve] bounds a sum of differences of timestamps in range. *)
Ltac bound_solve :=
  cbn [comp_span]; rewrite ?d_exact by done;
  repeat match goal with
  | H : forall e, in_time (?T e) |- context [?T ?e] =>
      lazymatch goal with
      | _ : 0 <= T e < TS_MAX |- _ => fail
      | _ => let H' := fresh in pose proof (H e : 0 <= T e < TS_MAX) as H'
      end
  end; unfold TS_MAX in *; lia.

Lemma bounded_common h b :
  (forall e, in_time (hts h e)) -> comps_bounded b ->
  comps_bounded (common_host h b) /\ Z.abs (comp (common_host h b) NTP_C_TR_SUB) <= TS_MAX.
Proof.
  intros Ht Hb. unfold common_host. cbv zeta. split.
  - destruct (nz (hts h NTP_H_START) && _), (nz (hts h NTP_H_NVME_DONE));
      repeat apply bounded_set; try done; bound_solve.
  - destruct (nz (hts h NTP_H_START) && _), (nz (hts h NTP_H_NVME_DONE));
      comp_simp; bound_solve.
Qed.

(** A data phase in range: the busy time capped by the span, and the rest. *)
Lemma data_phase_exact first done next busy bc wc b b' :
  in_time first -> in_time done -> is_u64 busy ->
  data_phase first done next busy bc wc b = (true, b') ->
  first <= done <= next /\ 0 < busy /\
  b' = set (set b bc (Z.min busy (done - first))) wc
         (done - first - Z.min busy (done - first)).
Proof.
  intros Hf Hd Hb. unfold data_phase. destruct (_ || _ || _ || _) eqn:E; [done|].
  apply orb_false_elim in E as [[[E0 E1]%orb_false_elim E2]%orb_false_elim E3].
  apply negb_false_iff, nz_true in E0. apply Z.ltb_ge in E2, E3.
  rewrite d_exact by done. unfold in_time, TS_MAX, is_u64 in *. intros [= <-].
  split; [lia|]. split; [lia|]. rewrite u64_small by (unfold is_u64; lia).
  destruct (Z.ltb_spec (done - first) busy).
  - by rewrite Z.min_r by lia.
  - rewrite s64_small by (unfold is_s64; lia). by rewrite Z.min_l by lia.
Qed.

Lemma bounded_data_phase first done next busy bc wc b r b' :
  in_time first -> in_time done -> is_u64 busy -> comps_bounded b ->
  comp_span bc = 1 -> comp_span wc = 1 ->
  data_phase first done next busy bc wc b = (r, b') -> comps_bounded b'.
Proof.
  intros Hf Hd Hu Hb H1 H2 E. destruct r; [|apply data_phase_spec in E; by subst].
  apply data_phase_exact in E as (Hr & Hp & ->); [|done..].
  unfold in_time, TS_MAX in *. repeat apply bounded_set; try done; rewrite ?H1, ?H2; unfold TS_MAX; lia.
Qed.

Lemma bounded_start h : comps_bounded (start_of h).
Proof. intros c. unfold TS_MAX. by destruct c. Qed.

Lemma bounded_host_part h :
  (forall e, in_time (hts h e)) -> is_u64 (c2h_busy_ns h) -> comps_bounded (host_part h).
Proof.
  intros Ht Hu. destruct (bounded_common h (start_of h) Ht (bounded_start h)) as [Hb Htr].
  unfold host_part, rdma_host_side, host_side, read_data_phase. cbv zeta.
  rewrite common_host_io_class.
  destruct (is_rdma h); [repeat apply bounded_set; try done; bound_solve|].
  destruct (io_class _).
  - destruct (data_phase _ _ _ _ _ _ _) as [r b'] eqn:E.
    apply bounded_data_phase in E; try done.
    + destruct r; apply bounded_set; try done; bound_solve.
    + repeat apply bounded_set; try done; bound_solve.
  - repeat apply bounded_set; try done; bound_solve.
  - repeat apply bounded_set; try apply bounded_put; try done; bound_solve.
Qed.

Lemma bounded_backend T b :
  (forall e, in_time (T e)) -> comps_bounded b -> comps_bounded (backend_details T b).
Proof.
  intros Ht Hb. unfold backend_details. cbv zeta.
  destruct (_ || _ || _); [done|]. repeat apply bounded_set; try done; bound_solve.
Qed.

Lemma bounded_target_side t b :
  (forall e, in_time (tts t e)) -> is_u64 (h2c_busy_ns t) ->
  comps_bounded b -> comps_bounded (target_side t b).
Proof.
  intros Ht Hu Hb. pose proof (Hb NTP_C_REMOTE) as Hr. cbn [comp_span] in Hr.
  unfold target_side, write_data_phase. cbv zeta. cbn [io_class set put_comp put_valid].
  destruct (io_class b).
  - apply bounded_backend, bounded_unset; [done|]. repeat apply bounded_set; try done; comp_simp; bound_solve.
  - apply bounded_backend, bounded_unset; [done|]. repeat apply bounded_set; try done; comp_simp; bound_solve.
  - destruct (data_phase _ _ _ _ _ _ _) as [r b'] eqn:E.
    pose proof (data_phase_comp _ _ _ _ _ _ _ _ _ NTP_C_REMOTE E ltac:(done) ltac:(done)) as [Hrc _].
    apply bounded_data_phase in E; try done; [|repeat apply bounded_set; try done; bound_solve].
    revert Hrc. comp_simp. intros Hrc.
    destruct r; apply bounded_backend, bounded_unset; try done; repeat apply bounded_set; try done;
      comp_simp; rewrite ?Hrc; bound_solve.
Qed.

Lemma in_time_put T e v :
  (forall e', in_time (T e')) -> in_time v -> forall e', in_time (put_ts T e v e').
Proof. intros HT Hv e'. unfold put_ts. by destruct (decide (e = e')). Qed.

Lemma in_time_0 : in_time 0.
Proof. by split. Qed.
#[local] Hint Resolve in_time_put in_time_0 : core.

Lemma bounded_rdma_target_side t b r b' :
  (forall e, in_time (tts t e)) -> comps_bounded b ->
  rdma_target_side t b = (r, b') -> comps_bounded b'.
Proof.
  intros Ht Hb. unfold rdma_target_side. cbv zeta.
  destruct (negb (have_all _ _) || _); [by intros [= <- <-]|].
  set (T := if _ : bool then put_ts _ _ _ else _).
  assert (forall e, in_time (T e)) as HT.
  { subst T. destruct (_ && _); auto. }
  clearbody T. destruct (negb (nz (T NTP_T_RSP_SENT)) && _); [by intros [= <- <-]|].
  destruct (if negb (nz (T NTP_T_RSP_SENT)) then _ else _) as [T' b0] eqn:E.
  assert ((forall e, in_time (T' e)) /\ comps_bounded b0) as [HT' Hb0].
  { destruct (negb (nz (T NTP_T_RSP_SENT))); injection E as <- <-; [|done].
    split; [|done]. destruct (negb _); auto 6. }
  pose proof (Hb0 NTP_C_REMOTE) as Hr. cbn [comp_span] in Hr.
  clear E. destruct (has _ NTP_F_RDMA_READ), (negb _ && _ && _); intros [= <- <-];
    apply bounded_backend, bounded_unset; try done; repeat apply bounded_set;
    try (exact Hb0); comp_simp; bound_solve.
Qed.

Lemma bounded_terms b l :
  comps_bounded b ->
  Z.abs (terms b l) <= foldr (fun c acc => comp_span c * TS_MAX + acc) 0 l.
Proof.
  intros Hb. induction l as [|c l IH]; simpl; [done|].
  assert (Z.abs (main_term b c) <= comp_span c * TS_MAX).
  { unfold main_term. destruct (_ && _); [apply Hb|]. unfold TS_MAX. by destruct c. }
  lia.
Qed.

Lemma stage_span s :
  foldr (fun c acc => comp_span c * TS_MAX + acc) 0 (stage_parts s) +
  foldr (fun c acc => comp_span c * TS_MAX + acc) 0 (stage_extras s) <= 10 * TS_MAX.
Proof. by destruct s. Qed.

Lemma bounded_stages b :
  comps_bounded b -> stage_valid b = 0 ->
  comps_bounded (stages b) /\
  forall s, ntp_stage_valid (stages b) s = true -> Z.abs (b_stage (stages b) s) <= 10 * TS_MAX.
Proof.
  intros Hb H0. split; [intros c; by destruct (stages_frame b) as (_ & -> & _)|].
  intros s. destruct (stages_spec b s H0) as [-> Hv]. intros Hhas. rewrite Hv by done.
  pose proof (bounded_terms b (stage_parts s) Hb). pose proof (bounded_terms b (stage_extras s) Hb).
  pose proof (stage_span s). lia.
Qed.

Lemma breakdown_bounded h t err b :
  (forall e, in_time (hts h e)) -> is_u64 (c2h_busy_ns h) ->
  (forall t' e, t = Some t' -> in_time (tts t' e)) ->
  (forall t', t = Some t' -> is_u64 (h2c_busy_ns t')) ->
  ntp_breakdown h t = (err, b) ->
  comps_bounded b /\
  forall s, ntp_stage_valid b s = true -> Z.abs (b_stage b s) <= 10 * TS_MAX.
Proof.
  intros Hh Hhu Ht Htu Hbd%breakdown_shape_of.
  pose proof (bounded_host_part h Hh Hhu) as Hp. pose proof (host_part_stage_valid h) as Hp0.
  destruct Hbd as [t| |t|t b Hu Hsp]; [|by apply bounded_stages..|].
  - split; [apply bounded_start|]. intros s. by destruct s.
  - apply bounded_stages; [|by eapply split_stage_valid].
    destruct Hsp as [b' _ E|].
    + eapply bounded_rdma_target_side in E; eauto.
    + apply bounded_target_side; eauto.
Qed.

Lemma bounded_main_sum b : comps_bounded b -> Z.abs (main_sum b) < 2 ^ 63.
Proof.
  intros Hb. eapply Z.le_lt_trans; [exact (bounded_terms b all_comps Hb)|done].
Qed.

(** C30: no overflow.  When every timestamp is below [2 ^ 58] ns, every
    component of the breakdown stays within four and every stage within ten
    timestamp ranges, well inside [int64_t], so none of the C code's signed
    additions overflows, and the main components add up to the end-to-end time
    exactly, not only modulo [2 ^ 64]. *)
Theorem breakdown_in_range (h : ntp_host_rec) (t : option ntp_tgt_rec) err b :
  host_rec_ok h -> (forall t', t = Some t' -> tgt_rec_ok t') ->
  (forall e, hts h e < TS_MAX) -> (forall t' e, t = Some t' -> tts t' e < TS_MAX) ->
  ntp_breakdown h t = (err, b) ->
  (forall c, Z.abs (comp b c) <= 4 * TS_MAX) /\
  (forall s, ntp_stage_valid b s = true -> Z.abs (b_stage b s) <= 10 * TS_MAX) /\
  10 * TS_MAX < 2 ^ 63 /\
  (err <> NTP_MODEL_INCOMPLETE_HOST -> main_sum b = comp b NTP_C_E2E).
Proof.
  intros Hh Ht Hhm Htm Hbd.
  destruct (breakdown_bounded h t err b) as [Hc Hs]; [..|exact Hbd|].
  - intros e. split; [apply (hts_u64 h e Hh)|apply Hhm].
  - by destruct Hh as (_&_&_&_&_&_&_&_&_&_&_&?&_).
  - intros t' e E. split; [apply (tts_u64 t' e (Ht t' E))|by apply Htm].
  - intros t' E. by destruct (Ht t' E) as (_&_&_&_&_&_&_&?&_).
  - split; [intros c; eapply Z.le_trans; [apply Hc|by destruct c]|].
    split; [done|]. split; [done|]. intros Hne.
    rewrite <- (components_sum _ _ _ _ Hbd Hne). symmetry. apply s64_small.
    pose proof (bounded_main_sum b Hc). unfold is_s64. lia.
Qed.

(** ** Data phases *)

(** Busy and waiting time of a data phase from [first] to [done]. *)
Definition phase_split (b : ntp_breakdown_t) (bc wc : ntp_comp) (first done busy : Z) : Prop :=
  ntp_comp_valid b wc = true /\ first <= done /\
  comp b bc = Z.min busy (done - first) /\ 0 <= comp b bc /\ 0 <= comp b wc /\
  comp b bc + comp b wc = done - first.

Lemma data_phase_split first done next busy bc wc b b' :
  in_time first -> in_time done -> is_u64 busy -> bc <> wc ->
  data_phase first done next busy bc wc b = (true, b') ->
  phase_split b' bc wc first done busy.
Proof.
  intros Hf Hd Hu Hne E. apply data_phase_exact in E as (Hr & Hp & ->); [|done..].
  unfold phase_split. autorewrite with comp.
  rewrite bool_decide_true, (decide_False (P := wc = bc)), !decide_True by congruence. unfold in_time in *.
  split; [done|]. lia.
Qed.

Lemma phase_split_frame b b' bc wc first done busy :
  (forall c, c = bc \/ c = wc -> comp b' c = comp b c /\ ntp_comp_valid b' c = ntp_comp_valid b c) ->
  phase_split b bc wc first done busy -> phase_split b' bc wc first done busy.
Proof.
  intros H. unfold phase_split.
  destruct (H bc) as [-> _]; [by left|]. destruct (H wc) as [-> ->]; [by right|]. done.
Qed.

(** What a split with a target record can change. *)
Definition split_touches (c : ntp_comp) : bool :=
  match c with
  | NTP_C_REMOTE | NTP_C_NET_DATA | NTP_C_TGT_BE_SUB | NTP_C_TGT_DEV | NTP_C_TGT_BE_CMPL => true
  | _ => tgt_comp c
  end.

Lemma backend_details_frame T b c :
  split_touches c = false \/ tgt_comp c = true ->
  comp (backend_details T b) c = comp b c /\
  ntp_comp_valid (backend_details T b) c = ntp_comp_valid b c.
Proof.
  intros Hc. unfold backend_details. cbv zeta.
  destruct (_ || _ || _); [done|]. destruct c, Hc; try done; by comp_simp.
Qed.

Lemma split_frame h t b c :
  split_with h t b -> split_touches c = false ->
  comp b c = comp (host_part h) c /\ ntp_comp_valid b c = ntp_comp_valid (host_part h) c.
Proof.
  intros Hsp Hc. destruct Hsp as [b' _ E|_ _]; simpl.
  - change (ntp_comp_valid (set_joined b') c) with (ntp_comp_valid b' c).
    revert E. unfold rdma_target_side. cbv zeta.
    destruct (negb (have_all _ _) || _); [done|].
    set (T := if _ : bool then put_ts _ _ _ else _). clearbody T.
    destruct (negb (nz (T NTP_T_RSP_SENT)) && _); [done|].
    destruct (if negb (nz (T NTP_T_RSP_SENT)) then _ else _) as [T' b0] eqn:E0.
    assert (comp b0 = comp (host_part h) /\ ntp_comp_valid b0 = ntp_comp_valid (host_part h)) as [<- <-].
    { destruct (negb (nz (T NTP_T_RSP_SENT))); by injection E0 as <- <-. }
    destruct (has _ NTP_F_RDMA_READ), (negb _ && _ && _); intros [= <-];
      rewrite !(fun T b => proj1 (backend_details_frame T b c (or_introl Hc))),
        !(fun T b => proj2 (backend_details_frame T b c (or_introl Hc)));
      destruct c; try done; by comp_simp.
  - change (ntp_comp_valid (set_joined (target_side t (host_part h))) c)
      with (ntp_comp_valid (target_side t (host_part h)) c).
    unfold target_side, write_data_phase. cbv zeta. cbn [io_class set put_comp put_valid].
    destruct (io_class (host_part h));
      try destruct (data_phase _ _ _ _ _ _ _) as [[] b'] eqn:E;
      try apply data_phase_spec in E; try destruct E as (v & -> & _); try subst b';
      rewrite !(fun T b => proj1 (backend_details_frame T b c (or_introl Hc))),
        !(fun T b => proj2 (backend_details_frame T b c (or_introl Hc)));
      destruct c; try done; by comp_simp.
Qed.

Lemma host_part_phase h :
  (forall e, in_time (hts h e)) -> is_u64 (c2h_busy_ns h) ->
  ntp_comp_valid (host_part h) NTP_C_HOST_DATA = true ->
  phase_split (host_part h) NTP_C_HOST_DATA NTP_C_HOST_WAIT (hts h NTP_H_C2H_PROC)
    (hts h NTP_H_C2H_DONE) (c2h_busy_ns h).
Proof.
  intros Ht Hu. unfold host_part, rdma_host_side, host_side, read_data_phase. cbv zeta.
  rewrite common_host_io_class.
  destruct (is_rdma h); [comp_simp; rewrite common_host_frame, unset_zero; done|].
  destruct (io_class _); [|comp_simp; rewrite common_host_frame, unset_zero; done..].
  destruct (data_phase _ _ _ _ _ _ _) as [[] b'] eqn:E.
  - intros _. apply data_phase_split in E; [|done..].
    revert E. apply phase_split_frame. intros c [-> | ->]; by comp_simp.
  - apply data_phase_spec in E as ->. comp_simp. by rewrite common_host_frame, unset_zero.
Qed.

Lemma target_side_phase t b :
  (forall e, in_time (tts t e)) -> is_u64 (h2c_busy_ns t) ->
  ntp_comp_valid b NTP_C_TGT_DATA = false ->
  ntp_comp_valid (target_side t b) NTP_C_TGT_DATA = true ->
  phase_split (target_side t b) NTP_C_TGT_DATA NTP_C_TGT_WAIT (tts t NTP_T_DATA_PROC)
    (tts t NTP_T_DATA_DONE) (h2c_busy_ns t).
Proof.
  intros Ht Hu Hb. unfold target_side, write_data_phase. cbv zeta. cbn [io_class set put_comp put_valid].
  destruct (io_class b); [rewrite backend_details_valid by done; comp_simp; congruence..|].
  destruct (data_phase _ _ _ _ _ _ _) as [[] b'] eqn:E.
  - intros _. apply data_phase_split in E; [|done..].
    revert E. apply phase_split_frame. intros c Hc.
    assert (tgt_comp c = true) as Htc by by destruct Hc as [-> | ->].
    match goal with |- context [backend_details ?T ?x] =>
      destruct (backend_details_frame T x c (or_intror Htc)) as [-> ->] end.
    destruct Hc as [-> | ->]; by comp_simp.
  - apply data_phase_spec in E as ->. rewrite backend_details_valid by done. comp_simp. congruence.
Qed.

Lemma rdma_target_side_phase t b b' :
  rdma_target_side t b = (true, b') ->
  ntp_comp_valid b' NTP_C_TGT_DATA = ntp_comp_valid b NTP_C_TGT_DATA.
Proof.
  unfold rdma_target_side. cbv zeta.
  destruct (negb (have_all _ _) || _); [done|].
  set (T := if _ : bool then put_ts _ _ _ else _). clearbody T.
  destruct (negb (nz (T NTP_T_RSP_SENT)) && _); [done|].
  destruct (if negb (nz (T NTP_T_RSP_SENT)) then _ else _) as [T' b0] eqn:E0.
  assert (ntp_comp_valid b0 = ntp_comp_valid b) as <-.
  { destruct (negb (nz (T NTP_T_RSP_SENT))); by injection E0 as <- <-. }
  destruct (has _ NTP_F_RDMA_READ), (negb _ && _ && _); intros [= <-];
    rewrite backend_details_valid by done; by comp_simp.
Qed.

Lemma phase_split_stages b bc wc first done busy :
  phase_split b bc wc first done busy -> phase_split (stages b) bc wc first done busy.
Proof.
  apply phase_split_frame. intros c _. rewrite stages_valid_frame.
  by destruct (stages_frame b) as (_ & -> & _).
Qed.

(** Data phases.  With timestamps in range, the receiving side's data
    phase is split into the transport's busy time, capped by the span of the
    phase, and the time it waited for the rest of the data: neither is
    negative and together they are the span, on the host for a TCP read and on
    the target for a TCP write after R2T. *)
Theorem data_phases_split (h : ntp_host_rec) (t : option ntp_tgt_rec) err b :
  host_rec_ok h -> (forall t', t = Some t' -> tgt_rec_ok t') ->
  (forall e, hts h e < TS_MAX) -> (forall t' e, t = Some t' -> tts t' e < TS_MAX) ->
  ntp_breakdown h t = (err, b) ->
  (ntp_comp_valid b NTP_C_HOST_DATA = true ->
   phase_split b NTP_C_HOST_DATA NTP_C_HOST_WAIT (hts h NTP_H_C2H_PROC)
     (hts h NTP_H_C2H_DONE) (c2h_busy_ns h)) /\
  (ntp_comp_valid b NTP_C_TGT_DATA = true ->
   exists t', t = Some t' /\
   phase_split b NTP_C_TGT_DATA NTP_C_TGT_WAIT (tts t' NTP_T_DATA_PROC)
     (tts t' NTP_T_DATA_DONE) (h2c_busy_ns t')).
Proof.
  intros Hh Ht Hhm Htm Hbd%breakdown_shape_of.
  assert (forall e, in_time (hts h e)) as Hhi.
  { intros e. split; [apply (hts_u64 h e Hh)|apply Hhm]. }
  assert (is_u64 (c2h_busy_ns h)) as Hhu by by destruct Hh as (_&_&_&_&_&_&_&_&_&_&_&?&_).
  pose proof (host_part_phase h Hhi Hhu) as Hph. destruct (host_part_only h) as [_ Hpo].
  destruct Hbd as [t _|_|t _|t b _ Hsp]; rewrite ?stages_valid_frame.
  - by rewrite !unset_zero.
  - split; [intros; by apply phase_split_stages, Hph|by rewrite Hpo].
  - split; [intros; by apply phase_split_stages, Hph|by rewrite Hpo].
  - split.
    + destruct (split_frame h t b NTP_C_HOST_DATA Hsp) as [_ ->]; [done|]. intros Hv.
      apply phase_split_stages. specialize (Hph Hv). revert Hph. apply phase_split_frame.
      intros c [-> | ->]; by apply (split_frame h t).
    + intros Hv. exists t. split; [done|]. apply phase_split_stages.
      destruct Hsp as [b' _ E|_ _].
      * apply rdma_target_side_phase in E. change (ntp_comp_valid b' NTP_C_TGT_DATA = true) in Hv.
        rewrite E, Hpo in Hv by done. done.
      * apply (target_side_phase t (host_part h)); [|by destruct (Ht t eq_refl) as (_&_&_&_&_&_&_&?&_)|by apply Hpo|done].
        intros e. split; [apply (tts_u64 t e (Ht t eq_refl))|by apply Htm].
Qed.

(** ** Storage details *)

Definition be_details (b : ntp_breakdown_t) : Prop :=
  ntp_comp_valid b NTP_C_TGT_DEV = true ->
  ntp_comp_valid b NTP_C_TGT_BE_SUB = true /\ ntp_comp_valid b NTP_C_TGT_BE_CMPL = true /\
  s64 (comp b NTP_C_TGT_BE_SUB + comp b NTP_C_TGT_DEV + comp b NTP_C_TGT_BE_CMPL) =
  comp b NTP_C_TGT_BE.

Lemma backend_details_split T b :
  comp b NTP_C_TGT_BE = d (T NTP_T_COMPLETE) (T NTP_T_EXEC) ->
  ntp_comp_valid b NTP_C_TGT_DEV = false ->
  be_details (backend_details T b).
Proof.
  intros Hbe Hd. unfold be_details, backend_details. cbv zeta.
  destruct (_ || _ || _); [congruence|]. comp_simp. intros _. split; [done|]. split; [done|].
  rewrite Hbe. unfold d at 4. apply s64_proper. cong_d.
Qed.

Lemma host_part_no_details h : ntp_comp_valid (host_part h) NTP_C_TGT_DEV = false.
Proof.
  unfold host_part, rdma_host_side, host_side, read_data_phase. cbv zeta.
  rewrite common_host_io_class.
  destruct (is_rdma h), (io_class (start_of h));
    try destruct (data_phase _ _ _ _ _ _ _) as [[] b'] eqn:E; try apply data_phase_spec in E;
    try destruct E as (v & -> & _); try subst b';
    comp_simp; by rewrite common_host_frame, unset_zero.
Qed.

Lemma split_be_details h t b : split_with h t b -> be_details b.
Proof.
  pose proof (host_part_no_details h) as Hd. intros [b' _ E|_ _].
  - change (be_details b'). revert E. unfold rdma_target_side. cbv zeta.
    destruct (negb (have_all _ _) || _); [done|].
    set (T := if _ : bool then put_ts _ _ _ else _). clearbody T.
    destruct (negb (nz (T NTP_T_RSP_SENT)) && _); [done|].
    destruct (if negb (nz (T NTP_T_RSP_SENT)) then _ else _) as [T' b0] eqn:E0.
    assert (ntp_comp_valid b0 = ntp_comp_valid (host_part h)) as Hv.
    { destruct (negb (nz (T NTP_T_RSP_SENT))); by injection E0 as <- <-. }
    destruct (has _ NTP_F_RDMA_READ), (negb _ && _ && _); intros [= <-];
      (apply backend_details_split; comp_simp; [done|by rewrite Hv]).
  - change (be_details (target_side t (host_part h))).
    unfold target_side, write_data_phase. cbv zeta. cbn [io_class set put_comp put_valid].
    destruct (io_class (host_part h));
      try destruct (data_phase _ _ _ _ _ _ _) as [[] b'] eqn:E; try apply data_phase_spec in E;
      try destruct E as (v & -> & _); try subst b';
      (apply backend_details_split; comp_simp; done).
Qed.

(** Storage details.  When the back end's own request was seen, the
    submission, device and completion details are all set and add up, in
    64-bit arithmetic, to the storage component they split. *)
Theorem storage_details_add_up (h : ntp_host_rec) (t : ntp_tgt_rec) b :
  ntp_breakdown h (Some t) = (NTP_MODEL_OK, b) -> be_details b.
Proof.
  intros Hbd%breakdown_shape_of. inversion Hbd as [| | |t' b' _ Hsp]; subst.
  apply split_be_details in Hsp. revert Hsp. unfold be_details.
  rewrite !stages_valid_frame. by destruct (stages_frame b') as (_ & -> & _).
Qed.

(** ** Two clocks *)

(** The same events read on a clock [delta] ahead; an event that did not
    happen stays 0. *)
Definition shifted (delta : Z) (T T' : ntp_tgt_ts -> Z) : Prop :=
  forall e, (T e = 0 /\ T' e = 0) \/ (0 < T e /\ 0 < T' e /\ T' e = T e + delta).

Lemma shifted_nz delta T T' e : shifted delta T T' -> nz (T' e) = nz (T e).
Proof.
  intros H. destruct (H e) as [[-> ->]|(H1 & H2 & _)]; [done|].
  unfold nz. destruct (Z.eqb_spec (T e) 0), (Z.eqb_spec (T' e) 0); lia || done.
Qed.

Lemma shifted_have_all delta T T' l : shifted delta T T' -> have_all T' l = have_all T l.
Proof.
  intros H. unfold have_all. induction l as [|e l IH]; simpl; [done|].
  by rewrite IH, (shifted_nz delta T T').
Qed.

Lemma shifted_d delta T T' e1 e2 :
  shifted delta T T' -> nz (T e1) = true -> nz (T e2) = true -> d (T' e1) (T' e2) = d (T e1) (T e2).
Proof.
  intros H H1%nz_true H2%nz_true. unfold d.
  destruct (H e1) as [[? ?]|(_ & _ & ->)]; [done|]. destruct (H e2) as [[? ?]|(_ & _ & ->)]; [done|].
  do 2 f_equal. lia.
Qed.

(** A comparison whose left side happened. *)
Lemma shifted_ltb delta T T' e1 e2 :
  shifted delta T T' -> nz (T e1) = true -> (T' e1 <? T' e2) = (T e1 <? T e2).
Proof.
  intros H H1%nz_true. destruct (H e1) as [[? ?]|(? & ? & E1)]; [done|].
  destruct (H e2) as [[E2 E3]|(? & ? & E2)].
  - rewrite E2, E3. destruct (Z.ltb_spec (T' e1) 0), (Z.ltb_spec (T e1) 0); lia || done.
  - destruct (Z.ltb_spec (T' e1) (T' e2)), (Z.ltb_spec (T e1) (T e2)); lia || done.
Qed.

Lemma shifted_put delta T T' e v v' :
  shifted delta T T' ->
  (v = 0 /\ v' = 0) \/ (0 < v /\ 0 < v' /\ v' = v + delta) ->
  shifted delta (put_ts T e v) (put_ts T' e v').
Proof. intros H Hv e'. unfold put_ts. by destruct (decide (e = e')). Qed.

Lemma have_all_in {E : Type} (ts : E -> Z) l e : have_all ts l = true -> In e l -> nz (ts e) = true.
Proof. unfold have_all. intros H He. rewrite forallb_forall in H. by apply H. Qed.

(** [shift_rw] rewrites a shifted clock's differences to the original's. *)
Ltac shift_rw H :=
  repeat match goal with
  | |- context [d (?T' ?e1) (?T' ?e2)] =>
      match type of H with shifted _ _ T' =>
        rewrite (shifted_d _ _ _ e1 e2 H) by (assumption || (eapply have_all_in; [eassumption|simpl; tauto]))
      end
  end.

Lemma shifted_backend delta T T' b :
  shifted delta T T' -> nz (T NTP_T_EXEC) = true -> nz (T NTP_T_COMPLETE) = true ->
  backend_details T' b = backend_details T b.
Proof.
  intros H He Hc. unfold backend_details. cbv zeta. rewrite !(shifted_nz delta T T') by done.
  destruct (nz (T NTP_T_BE_ISSUE)) eqn:Hi; [|done].
  destruct (nz (T NTP_T_BE_DONE)) eqn:Hd; [|done]. simpl.
  rewrite (shifted_ltb delta T T') by done. destruct (_ <? _); [done|]. by shift_rw H.
Qed.

Lemma shifted_data_phase delta T T' e1 e2 e3 busy bc wc b :
  shifted delta T T' -> nz (T e1) = true -> nz (T e3) = true ->
  data_phase (T' e1) (T' e2) (T' e3) busy bc wc b = data_phase (T e1) (T e2) (T e3) busy bc wc b.
Proof.
  intros H H1 H3. unfold data_phase. rewrite !(shifted_nz delta T T') by done.
  destruct (nz busy); [|done]. destruct (nz (T e2)) eqn:H2; [|done]. simpl.
  rewrite !(shifted_ltb delta T T') by done. destruct (_ || _); [done|]. cbv zeta. by shift_rw H.
Qed.

Lemma shifted_target_side delta t t' b :
  shifted delta (tts t) (tts t') -> h2c_busy_ns t' = h2c_busy_ns t ->
  target_complete t (io_class b) = true -> target_side t' b = target_side t b.
Proof.
  intros H Hbusy Hc. unfold target_side, write_data_phase. cbv zeta. cbn [io_class set put_comp put_valid].
  unfold target_complete in Hc. destruct (io_class b).
  - shift_rw H. apply (shifted_backend delta); [done|eapply have_all_in; [eassumption|simpl; tauto]..].
  - shift_rw H. apply (shifted_backend delta); [done|eapply have_all_in; [eassumption|simpl; tauto]..].
  - rewrite Hbusy. shift_rw H.
    rewrite (shifted_data_phase delta (tts t)) by (done || (eapply have_all_in; [eassumption|simpl; tauto])).
    destruct (data_phase _ _ _ _ _ _ _) as [[] b'] eqn:E; apply data_phase_spec in E.
    + destruct E as (v & _ & Hd%nz_true & _). shift_rw H.
      apply (shifted_backend delta); [done|eapply have_all_in; [eassumption|simpl; tauto]..].
    + apply (shifted_backend delta); [done|eapply have_all_in; [eassumption|simpl; tauto]..].
Qed.

(** The clean-up of an RDMA target record's posting times, as the code's two
    assignments to its copy of the timestamps. *)
Lemma shifted_drop delta T T' :
  shifted delta T T' ->
  shifted delta
    (if nz (T NTP_T_SEND_DONE) && (T NTP_T_SEND_DONE <? T NTP_T_RSP_SENT)
     then put_ts (put_ts T NTP_T_C2H_SENT 0) NTP_T_RSP_SENT 0 else T)
    (if nz (T' NTP_T_SEND_DONE) && (T' NTP_T_SEND_DONE <? T' NTP_T_RSP_SENT)
     then put_ts (put_ts T' NTP_T_C2H_SENT 0) NTP_T_RSP_SENT 0 else T').
Proof.
  intros H. rewrite (shifted_nz delta T T') by done.
  destruct (nz (T NTP_T_SEND_DONE)) eqn:Hs; [|done]. simpl.
  rewrite (shifted_ltb delta T T') by done. destruct (_ <? _); [|done].
  repeat apply shifted_put; auto.
Qed.

Lemma shifted_stand_in delta T T' w :
  shifted delta T T' ->
  shifted delta
    (let T := put_ts T NTP_T_RSP_SENT (T NTP_T_COMPLETE) in
     if negb w then put_ts T NTP_T_C2H_SENT (T NTP_T_COMPLETE) else T)
    (let T' := put_ts T' NTP_T_RSP_SENT (T' NTP_T_COMPLETE) in
     if negb w then put_ts T' NTP_T_C2H_SENT (T' NTP_T_COMPLETE) else T').
Proof. intros H. cbv zeta. destruct (negb w); repeat apply shifted_put; try done; apply H. Qed.

(** The components an RDMA target record sets, once its times are clean. *)
Definition rdma_split (fetch write : bool) (T : ntp_tgt_ts -> Z) (b : ntp_breakdown_t)
    : ntp_breakdown_t :=
  let fetch_ns := if fetch then d (T NTP_T_DATA_PROC) (T NTP_T_R2T_SENT) else 0 in
  let b := set b NTP_C_TGT_RX (d (T NTP_T_CMD_PROC) (T NTP_T_CMD_ARR)) in
  let b :=
    if fetch then
      set (set_io_class (set b NTP_C_TGT_SUB (d (T NTP_T_R2T_SENT) (T NTP_T_CMD_PROC) +
                                              d (T NTP_T_EXEC) (T NTP_T_DATA_PROC)))
             NTP_IO_CLASS_WRITE_R2T) NTP_C_NET_DATA fetch_ns
    else set b NTP_C_TGT_SUB (d (T NTP_T_EXEC) (T NTP_T_CMD_PROC)) in
  let b :=
    if negb write && nz (T NTP_T_C2H_SENT) && nz (T NTP_T_SEND_DONE)
    then set b NTP_C_NET_DATA (d (T NTP_T_SEND_DONE) (T NTP_T_C2H_SENT)) else b in
  let b := set b NTP_C_TGT_BE (d (T NTP_T_COMPLETE) (T NTP_T_EXEC)) in
  let b := set b NTP_C_TGT_CMPL (d (T NTP_T_RSP_SENT) (T NTP_T_COMPLETE)) in
  let b := set b NTP_C_NET (comp b NTP_C_REMOTE - (d (T NTP_T_RSP_SENT) (T NTP_T_CMD_ARR) - fetch_ns)) in
  backend_details T (unset b NTP_C_REMOTE).

Lemma shifted_rdma_split delta T T' fetch write b :
  shifted delta T T' -> have_all T tgt_req_rdma = true -> nz (T NTP_T_RSP_SENT) = true ->
  (fetch = true -> nz (T NTP_T_R2T_SENT) = true /\ nz (T NTP_T_DATA_PROC) = true) ->
  rdma_split fetch write T' b = rdma_split fetch write T b.
Proof.
  intros H Hall Hrsp Hf. unfold rdma_split. cbv zeta. rewrite !(shifted_nz delta T T') by done.
  assert (nz (T NTP_T_EXEC) = true /\ nz (T NTP_T_COMPLETE) = true) as [N1 N2]
    by (split; eapply have_all_in; [eassumption|simpl; tauto|eassumption|simpl; tauto]).
  rewrite (shifted_backend delta T T') by done. shift_rw H.
  destruct (nz (T NTP_T_C2H_SENT)) eqn:C1, (nz (T NTP_T_SEND_DONE)) eqn:C2;
    destruct fetch, write; cbn [negb andb]; try destruct (Hf eq_refl) as [F1 F2]; by shift_rw H.
Qed.

(** The cleaned times, when the record can be used. *)
Definition rdma_times (t : ntp_tgt_rec) : option (bool * (ntp_tgt_ts -> Z)) :=
  let T := tts t in
  let fetch := has (flags (t_hdr t)) NTP_F_RDMA_READ in
  if negb (have_all T tgt_req_rdma) ||
     (fetch && (negb (nz (T NTP_T_R2T_SENT)) || negb (nz (T NTP_T_DATA_PROC)))) then None
  else
    let T :=
      if nz (T NTP_T_SEND_DONE) && (T NTP_T_SEND_DONE <? T NTP_T_RSP_SENT)
      then put_ts (put_ts T NTP_T_C2H_SENT 0) NTP_T_RSP_SENT 0 else T in
    if negb (nz (T NTP_T_RSP_SENT)) && negb (nz (T NTP_T_SEND_DONE)) then None
    else if negb (nz (T NTP_T_RSP_SENT)) then
      let T := put_ts T NTP_T_RSP_SENT (T NTP_T_COMPLETE) in
      Some (true, if negb (has (flags (t_hdr t)) NTP_F_WRITE)
                  then put_ts T NTP_T_C2H_SENT (T NTP_T_COMPLETE) else T)
    else Some (false, T).

Lemma rdma_target_side_eq t b :
  rdma_target_side t b =
  match rdma_times t with
  | None => (false, b)
  | Some (est, T) =>
      (true, rdma_split (has (flags (t_hdr t)) NTP_F_RDMA_READ)
               (has (flags (t_hdr t)) NTP_F_WRITE) T (if est then set_post_estimated b else b))
  end.
Proof.
  unfold rdma_target_side, rdma_times, rdma_split. cbv zeta.
  destruct (negb (have_all _ _) || _); [done|].
  set (T := if nz _ && _ then put_ts _ _ _ else _). clearbody T.
  destruct (negb (nz (T NTP_T_RSP_SENT)) && _); [done|].
  destruct (negb (nz (T NTP_T_RSP_SENT))), (has _ NTP_F_RDMA_READ); done.
Qed.

Lemma rdma_drop_frame T e :
  e <> NTP_T_C2H_SENT -> e <> NTP_T_RSP_SENT ->
  (if nz (T NTP_T_SEND_DONE) && (T NTP_T_SEND_DONE <? T NTP_T_RSP_SENT)
   then put_ts (put_ts T NTP_T_C2H_SENT 0) NTP_T_RSP_SENT 0 else T) e = T e.
Proof. intros H1 H2. destruct (_ && _); [|done]. unfold put_ts. by rewrite !decide_False by congruence. Qed.

Lemma rdma_times_spec t est T :
  rdma_times t = Some (est, T) ->
  have_all T tgt_req_rdma = true /\ nz (T NTP_T_RSP_SENT) = true /\
  (has (flags (t_hdr t)) NTP_F_RDMA_READ = true ->
   nz (T NTP_T_R2T_SENT) = true /\ nz (T NTP_T_DATA_PROC) = true).
Proof.
  unfold rdma_times. cbv zeta.
  destruct (have_all (tts t) tgt_req_rdma) eqn:Hall; [|done]. cbn [negb orb].
  destruct (has _ NTP_F_RDMA_READ && _) eqn:Hf; [done|].
  pose proof (rdma_drop_frame (tts t)) as HD.
  set (T0 := if nz _ && _ then put_ts _ _ _ else _) in *. clearbody T0.
  assert (forall e, In e tgt_req_rdma -> nz (T0 e) = true) as Hreq.
  { intros e He. rewrite HD; [by eapply have_all_in|intros ->; simpl in He; intuition done..]. }
  assert (has (flags (t_hdr t)) NTP_F_RDMA_READ = true ->
          nz (T0 NTP_T_R2T_SENT) = true /\ nz (T0 NTP_T_DATA_PROC) = true) as Hfe.
  { intros Hfe. rewrite Hfe in Hf. apply orb_false_elim in Hf as [F1%negb_false_iff F2%negb_false_iff].
    by rewrite !HD. }
  assert (forall T1, (forall e, e <> NTP_T_C2H_SENT -> e <> NTP_T_RSP_SENT -> T1 e = T0 e) ->
    have_all T1 tgt_req_rdma = true /\ (has (flags (t_hdr t)) NTP_F_RDMA_READ = true ->
     nz (T1 NTP_T_R2T_SENT) = true /\ nz (T1 NTP_T_DATA_PROC) = true)) as Hgen.
  { intros T1 HT1. rewrite !HT1 by done. split; [|done]. unfold have_all. apply forallb_forall.
    intros e He. rewrite HT1; [by apply Hreq|intros ->; simpl in He; intuition done..]. }
  destruct (nz (T0 NTP_T_RSP_SENT)) eqn:Hr; cbn [negb andb].
  - intros [= <- <-]. by destruct (Hgen T0).
  - destruct (negb (nz (T0 NTP_T_SEND_DONE))); [done|]. intros [= <- <-].
    match goal with |- have_all ?T1 _ = true /\ _ => destruct (Hgen T1) as [G1 G2] end.
    + intros e H1 H2. destruct (negb (has (flags (t_hdr t)) NTP_F_WRITE)); unfold put_ts; by rewrite !decide_False by congruence.
    + split; [done|]. split; [|done].
      destruct (negb (has (flags (t_hdr t)) NTP_F_WRITE)); apply (Hreq NTP_T_COMPLETE); simpl; tauto.
Qed.

Lemma shifted_rdma_times delta t t' :
  shifted delta (tts t) (tts t') -> flags (t_hdr t') = flags (t_hdr t) ->
  match rdma_times t, rdma_times t' with
  | None, None => True
  | Some (est, T), Some (est', T') => est' = est /\ shifted delta T T'
  | _, _ => False
  end.
Proof.
  intros H Hf. unfold rdma_times. rewrite Hf. cbv zeta.
  rewrite (shifted_have_all delta (tts t) (tts t')), !(shifted_nz delta (tts t) (tts t') NTP_T_R2T_SENT),
    !(shifted_nz delta (tts t) (tts t') NTP_T_DATA_PROC) by done.
  destruct (_ || _); [done|]. pose proof (shifted_drop delta _ _ H) as H1.
  set (T := if nz (tts t NTP_T_SEND_DONE) && _ then _ else _) in *.
  set (T' := if nz (tts t' NTP_T_SEND_DONE) && _ then _ else _) in *.
  clearbody T T'. rewrite !(shifted_nz delta T T') by done.
  destruct (nz (T NTP_T_RSP_SENT)); simpl; [done|].
  destruct (negb (nz (T NTP_T_SEND_DONE))); [done|].
  split; [done|]. exact (shifted_stand_in delta _ _ _ H1).
Qed.

Lemma shifted_rdma_target_side delta t t' b :
  shifted delta (tts t) (tts t') -> flags (t_hdr t') = flags (t_hdr t) ->
  rdma_target_side t' b = rdma_target_side t b.
Proof.
  intros H Hf. rewrite !rdma_target_side_eq, Hf.
  pose proof (shifted_rdma_times delta t t' H Hf) as Hs.
  destruct (rdma_times t) as [[est T]|] eqn:E, (rdma_times t') as [[est' T']|]; try done.
  destruct Hs as [-> Hs]. apply rdma_times_spec in E as (H1 & H2 & H3).
  by rewrite (shifted_rdma_split delta T T').
Qed.

(** C29: no clock synchronisation.  The breakdown does not depend on the
    target's clock: reading every target event on a clock any number of
    nanoseconds away gives the same result, component by component, error and
    flags included, whatever the host's clock says. *)
Theorem breakdown_clock_independent (delta : Z) (h : ntp_host_rec) (t t' : ntp_tgt_rec) :
  t_hdr t' = t_hdr t -> h2c_busy_ns t' = h2c_busy_ns t ->
  shifted delta (tts t) (tts t') ->
  ntp_breakdown h (Some t') = ntp_breakdown h (Some t).
Proof.
  intros Hh Hb H. unfold ntp_breakdown. rewrite Hh. cbv zeta.
  destruct (_ =? NTP_TR_RDMA).
  - by rewrite (shifted_rdma_target_side delta t t') by (done || by rewrite Hh).
  - assert (forall k, target_complete t' k = target_complete t k) as Hc.
    { intros k. by destruct k; apply (shifted_have_all delta). }
    rewrite Hc. set (out := host_side h _).
    destruct (_ && target_complete t (io_class out)) eqn:E; [|done].
    apply andb_prop in E as [_ E]. by rewrite (shifted_target_side delta t t').
Qed.

(** ** The unit tests' records (tests/test_model.c) *)

Definition ts_h (h : ntp_host_rec) (l : list (ntp_host_ts * Z)) : ntp_host_rec :=
  foldl (fun h '(e, v) => set_hts h e v) h l.
Definition ts_t (t : ntp_tgt_rec) (l : list (ntp_tgt_ts * Z)) : ntp_tgt_rec :=
  foldl (fun t '(e, v) => set_tts t e v) t l.

Definition with_c2h_busy (h : ntp_host_rec) (busy : Z) : ntp_host_rec :=
  mk_host_rec (h_hdr h) (h_id h) (h_bytes h) (ctrl_instance h) (q_unsent h) (q_inflight h)
    (h_pad h) (disk h) (h_ts h) busy 3 (h_pad2 h).

Definition read_host : ntp_host_rec :=
  with_c2h_busy (ts_h zero_host_rec
    [(NTP_H_START, 1000); (NTP_H_QUEUE_RQ, 1100); (NTP_H_CMD_SENT, 1300);
     (NTP_H_C2H_ARR, 6300); (NTP_H_C2H_PROC, 6500); (NTP_H_RSP_ARR, 6900);
     (NTP_H_RSP_PROC, 7000); (NTP_H_NVME_DONE, 7100); (NTP_H_BLK_DONE, 7300);
     (NTP_H_C2H_DONE, 6900)]) 120.

Definition read_target_at (base : Z) : ntp_tgt_rec :=
  ts_t zero_tgt_rec
    [(NTP_T_CMD_ARR, base); (NTP_T_CMD_PROC, base + 100); (NTP_T_EXEC, base + 300);
     (NTP_T_BE_ISSUE, base + 350); (NTP_T_BE_DONE, base + 3350);
     (NTP_T_COMPLETE, base + 3400); (NTP_T_RSP_QUEUED, base + 3400);
     (NTP_T_C2H_SENT, base + 3600); (NTP_T_RSP_SENT, base + 3700)].

Definition read_target : ntp_tgt_rec := read_target_at 50000.

(** The expected values of [test_read_data_phase]. *)
Example test_read_joined :
  let '(err, b) := ntp_breakdown read_host (Some read_target) in
  err = NTP_MODEL_OK /\ joined b = true /\ io_class b = NTP_IO_CLASS_READ /\
  map (comp b) all_comps =
    [100; 200; 1400; 100; 200; 0; 0; 3100; 200; 200; 280; 120; 100; 300; 0; 6300; 50; 3000; 50;
     100; 0] /\
  map (b_stage b) all_stages = [400; 420; 1980; 400; 3100].
Proof. vm_compute. repeat split. Qed.

Lemma read_host_ok : host_rec_ok read_host.
Proof. apply (bool_decide_unpack _). by vm_compute. Defined.
Lemma read_target_ok : tgt_rec_ok read_target.
Proof. apply (bool_decide_unpack _). by vm_compute. Defined.

Definition read_result : ntp_breakdown_t := (ntp_breakdown read_host (Some read_target)).2.

Lemma read_result_eq : ntp_breakdown read_host (Some read_target) = (NTP_MODEL_OK, read_result).
Proof. refine (pair_result (ntp_breakdown read_host (Some read_target)) _ _). by vm_compute. Qed.

Lemma components_add_up_witness : s64 (main_sum read_result) = comp read_result NTP_C_E2E.
Proof.
  apply (components_add_up read_host (Some read_target) NTP_MODEL_OK read_result);
    [exact read_result_eq|discriminate].
Defined.

Lemma stages_add_up_witness :
  (forall s, s <> NTP_S1 -> ntp_stage_valid read_result s = true) /\
  (ntp_comp_valid read_result NTP_C_BLK_SUB = true ->
   ntp_stage_valid read_result NTP_S1 = true /\
   s64 (stage_sum read_result) = comp read_result NTP_C_E2E).
Proof. apply (stages_add_up read_host read_target read_result). exact read_result_eq. Defined.

Lemma breakdown_incomplete_witness :
  let h := set_hts read_host NTP_H_C2H_ARR 0 in
  (NTP_MODEL_INCOMPLETE_HOST = NTP_MODEL_INCOMPLETE_HOST <-> host_usable h = false) /\
  (NTP_MODEL_INCOMPLETE_HOST = NTP_MODEL_INCOMPLETE_HOST ->
   valid (ntp_breakdown h None).2 = 0 /\ stage_valid (ntp_breakdown h None).2 = 0 /\
   joined (ntp_breakdown h None).2 = false) /\
  (NTP_MODEL_INCOMPLETE_HOST = NTP_MODEL_INCOMPLETE_TARGET ->
   ntp_breakdown h None = (NTP_MODEL_OK, (ntp_breakdown h None).2)).
Proof.
  cbv zeta. apply (breakdown_incomplete (set_hts read_host NTP_H_C2H_ARR 0) None).
  refine (pair_result (ntp_breakdown (set_hts read_host NTP_H_C2H_ARR 0) None) _ _). by vm_compute.
Defined.

Lemma breakdown_in_range_witness :
  (forall c, Z.abs (comp read_result c) <= 4 * TS_MAX) /\
  (forall s, ntp_stage_valid read_result s = true -> Z.abs (b_stage read_result s) <= 10 * TS_MAX) /\
  10 * TS_MAX < 2 ^ 63 /\
  (NTP_MODEL_OK <> NTP_MODEL_INCOMPLETE_HOST -> main_sum read_result = comp read_result NTP_C_E2E).
Proof.
  apply (breakdown_in_range read_host (Some read_target) NTP_MODEL_OK read_result).
  - exact read_host_ok.
  - intros t' [= <-]. exact read_target_ok.
  - intros e. by destruct e; vm_compute.
  - intros t' e [= <-]. by destruct e; vm_compute.
  - exact read_result_eq.
Defined.

Lemma data_phases_split_witness :
  (ntp_comp_valid read_result NTP_C_HOST_DATA = true ->
   phase_split read_result NTP_C_HOST_DATA NTP_C_HOST_WAIT (hts read_host NTP_H_C2H_PROC)
     (hts read_host NTP_H_C2H_DONE) (c2h_busy_ns read_host)) /\
  (ntp_comp_valid read_result NTP_C_TGT_DATA = true ->
   exists t', Some read_target = Some t' /\
   phase_split read_result NTP_C_TGT_DATA NTP_C_TGT_WAIT (tts t' NTP_T_DATA_PROC)
     (tts t' NTP_T_DATA_DONE) (h2c_busy_ns t')).
Proof.
  apply (data_phases_split read_host (Some read_target) NTP_MODEL_OK read_result).
  - exact read_host_ok.
  - intros t' [= <-]. exact read_target_ok.
  - intros e. by destruct e; vm_compute.
  - intros t' e [= <-]. by destruct e; vm_compute.
  - exact read_result_eq.
Defined.

Lemma storage_details_add_up_witness : be_details read_result.
Proof. apply (storage_details_add_up read_host read_target read_result). exact read_result_eq. Defined.

Lemma breakdown_clock_independent_witness :
  ntp_breakdown read_host (Some (read_target_at 7000)) = ntp_breakdown read_host (Some read_target).
Proof.
  apply (breakdown_clock_independent (-43000) read_host read_target (read_target_at 7000)).
  - reflexivity.
  - reflexivity.
  - intros e. destruct e; vm_compute; auto.
Defined.
