(* ===== verification/Join.v ===== *)
(** * The joiner (src/join.h, src/join.c)

    Records of the two sides wait for their counterpart in hash tables keyed
    by (cntlid, qid, cid).  A table is the array of its chains, a chain the
    list of its buckets and a bucket the records it holds with its capacity;
    [lookup] returns the link the C code returns, as a slot and a position in
    the slot's chain.  A store past a bucket's capacity has no result, so
    [joiner_safe] is also a memory-safety statement.  [queues] is the abstract
    specification: per key, the records that wait, oldest first. *)
From stdpp Require Import base numbers list sorting.
From Stdlib Require Import ZArith Lia.
From S2P Require Import Prelude Types.

(** What the tables need of a record: where its command id and the timestamp
    that ages it are ([id_off] and [ts_off]). *)
Class Keyed (R : Type) := { id_of : R -> ntp_cmd_id; age_of : R -> Z }.

#[export] Instance tgt_keyed : Keyed ntp_tgt_rec :=
  { id_of := t_id; age_of := fun t => tts t NTP_T_CMD_ARR }.
#[export] Instance host_keyed : Keyed ntp_host_rec :=
  { id_of := h_id; age_of := fun h => hts h NTP_H_BLK_DONE }.

Definition key_of (id : ntp_cmd_id) : Z :=
  Z.lor (Z.lor (u64 (Z.shiftl (cntlid id) 32)) (u64 (Z.shiftl (qid id) 16))) (cid id).

Definition same_command (a b : ntp_cmd_id) : bool :=
  (opcode a =? opcode b) && (nsid a =? nsid b) && (slba a =? slba b) && (nlb a =? nlb b).

Section Table.
  Context {R : Type} `{Keyed R}.

Record bucket := mk_bucket { bkey : Z; cap : Z; recs : list R }.

Record table := mk_table { slots : list (list bucket); pending : Z }.

Definition len (b : bucket) : Z := Z.of_nat (length (recs b)).
Definition nbuckets (t : table) : Z := Z.of_nat (length (slots t)).

Definition table_init : table := mk_table (replicate (Z.to_nat (Z.shiftl 1 16)) []) 0.

(** The slot of a key: [h & (t->nbuckets - 1)]. *)
Definition slot_of (t : table) (key : Z) : nat :=
  let h := key in
  let h := xorshift 33 h in
  let h := u64 (h * 0xff51afd7ed558ccd) in
  let h := xorshift 33 h in
  Z.to_nat (Z.land h (nbuckets t - 1)).

(** The position of the first bucket with this key, or the end of the chain. *)
Fixpoint chain_find (key : Z) (chain : list bucket) : nat :=
  match chain with
  | [] => 0
  | b :: chain => if bkey b =? key then 0%nat else S (chain_find key chain)
  end.

Definition chain_of (t : table) (s : nat) : list bucket := default [] (slots t !! s).

(** The link: its slot and its position in the chain; [at_link] reads it. *)
Definition lookup (t : table) (key : Z) : nat * nat :=
  let s := slot_of t key in (s, chain_find key (chain_of t s)).
Definition at_link (t : table) (link : nat * nat) : option bucket :=
  chain_of t link.1 !! link.2.

(** [*link = b]: over the bucket there, or at the end of the chain *)
Definition set_link (t : table) (link : nat * nat) (b : bucket) : table :=
  let c := chain_of t link.1 in
  mk_table (<[link.1 := take link.2 c ++ b :: drop (S link.2) c]> (slots t)) (pending t).
(** [*link = b->next] *)
Definition unlink (t : table) (link : nat * nat) : table :=
  let c := chain_of t link.1 in
  mk_table (<[link.1 := take link.2 c ++ drop (S link.2) c]> (slots t)) (pending t).

Definition set_pending (t : table) (n : Z) : table := mk_table (slots t) n.

(** [memcpy(rec_at(t, b, b->len++), rec, t->size)]: no result out of bounds *)
Definition store (b : bucket) (rec : R) : option bucket :=
  if len b <? cap b then Some (mk_bucket (bkey b) (cap b) (recs b ++ [rec])) else None.

Definition table_push (t : table) (rec : R) (max_per_key : Z) : option (Z * table) :=
  let key := key_of (id_of rec) in
  let link := lookup t key in
  match at_link t link with
  | None =>
      b ← store (mk_bucket key 1 []) rec;
      let t := set_link t link b in
      Some (0, set_pending t (u64 (pending t + 1)))
  | Some b =>
      if nz max_per_key && (len b =? max_per_key) then
        b ← store (mk_bucket (bkey b) (cap b) (tail (recs b))) rec;
        let t := set_pending (set_link t link b) (u64 (pending t - 1)) in
        Some (1, set_pending t (u64 (pending t + 1)))
      else
        let cap' :=
          if len b =? cap b then
            let c := cap b * 2 in
            if nz max_per_key && (max_per_key <? c) then max_per_key else c
          else cap b in
        b ← store (mk_bucket (bkey b) cap' (recs b)) rec;
        let t := set_link t link b in
        Some (0, set_pending t (u64 (pending t + 1)))
  end.

(** The loop of [table_take]: the first record of the command and the rest. *)
Fixpoint take_first (id : ntp_cmd_id) (l : list R) : option (R * list R) :=
  match l with
  | [] => None
  | r :: l =>
      if same_command (id_of r) id then Some (r, l)
      else '(out, rest) ← take_first id l; Some (out, r :: rest)
  end.

Definition table_take (t : table) (id : ntp_cmd_id) : option (R * table) :=
  let link := lookup t (key_of id) in
  b ← at_link t link;
  '(out, rest) ← take_first id (recs b);
  let t' :=
    match rest with
    | [] => unlink t link
    | _ => set_link t link (mk_bucket (bkey b) (cap b) rest)
    end in
  Some (out, set_pending t' (u64 (pending t' - 1))).

(** One bucket of [table_expire]: the records kept and the ones given to the
    callback, both in order. *)
Fixpoint bucket_expire (before_ns : Z) (l : list R) : list R * list R :=
  match l with
  | [] => ([], [])
  | r :: l =>
      let '(keep, out) := bucket_expire before_ns l in
      if age_of r <? before_ns then (keep, r :: out) else (r :: keep, out)
  end.

(** The inner loop over a chain; [pending] is the table's counter. *)
Fixpoint chain_expire (before_ns : Z) (chain : list bucket) (pending : Z)
    : list bucket * list R * Z :=
  match chain with
  | [] => ([], [], pending)
  | b :: chain =>
      let '(keep, out) := bucket_expire before_ns (recs b) in
      let pending := u64 (pending - (len b - Z.of_nat (length keep))) in
      let '(chain, outs, pending) := chain_expire before_ns chain pending in
      match keep with
      | [] => (chain, out ++ outs, pending)
      | _ => (mk_bucket (bkey b) (cap b) keep :: chain, out ++ outs, pending)
      end
  end.

Fixpoint slots_expire (before_ns : Z) (v : list (list bucket)) (pending : Z)
    : list (list bucket) * list R * Z :=
  match v with
  | [] => ([], [], pending)
  | c :: v =>
      let '(c, out, pending) := chain_expire before_ns c pending in
      let '(v, outs, pending) := slots_expire before_ns v pending in
      (c :: v, out ++ outs, pending)
  end.

(** The records passed to the callback, in order; the C function returns how
    many there are. *)
Definition table_expire (t : table) (before_ns : Z) : list R * table :=
  let '(v, outs, p) := slots_expire before_ns (slots t) (pending t) in
  (outs, mk_table v p).

End Table.
Arguments bucket : clear implicits.
Arguments table : clear implicits.

Record ntp_join_stats := mk_join_stats {
  targets_added : Z; targets_evicted : Z; targets_expired : Z; matched : Z; host_unmatched : Z
}.

Record ntp_joiner := mk_joiner {
  targets : table ntp_tgt_rec;
  hosts : table ntp_host_rec;
  max_per_key : Z;
  st : ntp_join_stats
}.

Definition inc_added (s : ntp_join_stats) : ntp_join_stats :=
  mk_join_stats (u64 (targets_added s + 1)) (targets_evicted s) (targets_expired s) (matched s)
    (host_unmatched s).
Definition add_evicted (s : ntp_join_stats) (n : Z) : ntp_join_stats :=
  mk_join_stats (targets_added s) (u64 (targets_evicted s + n)) (targets_expired s) (matched s)
    (host_unmatched s).
Definition add_expired (s : ntp_join_stats) (n : Z) : ntp_join_stats :=
  mk_join_stats (targets_added s) (targets_evicted s) (u64 (targets_expired s + n)) (matched s)
    (host_unmatched s).
Definition inc_matched (s : ntp_join_stats) : ntp_join_stats :=
  mk_join_stats (targets_added s) (targets_evicted s) (targets_expired s) (u64 (matched s + 1))
    (host_unmatched s).
Definition add_unmatched (s : ntp_join_stats) (n : Z) : ntp_join_stats :=
  mk_join_stats (targets_added s) (targets_evicted s) (targets_expired s) (matched s)
    (u64 (host_unmatched s + n)).

Definition with_targets (j : ntp_joiner) (t : table ntp_tgt_rec) : ntp_joiner :=
  mk_joiner t (hosts j) (max_per_key j) (st j).
Definition with_hosts (j : ntp_joiner) (t : table ntp_host_rec) : ntp_joiner :=
  mk_joiner (targets j) t (max_per_key j) (st j).
Definition with_st (j : ntp_joiner) (s : ntp_join_stats) : ntp_joiner :=
  mk_joiner (targets j) (hosts j) (max_per_key j) s.

Definition ntp_joiner_new (max_per_key : Z) : ntp_joiner :=
  mk_joiner table_init table_init max_per_key (mk_join_stats 0 0 0 0 0).

Definition ntp_joiner_add_target (j : ntp_joiner) (t : ntp_tgt_rec) : option ntp_joiner :=
  '(dropped, tbl) ← table_push (targets j) t (max_per_key j);
  Some (with_st (with_targets j tbl) (inc_added (add_evicted (st j) dropped))).

Definition ntp_joiner_match (j : ntp_joiner) (h : ntp_host_rec)
    : option ntp_tgt_rec * ntp_joiner :=
  match table_take (targets j) (h_id h) with
  | Some (out, tbl) => (Some out, with_st (with_targets j tbl) (inc_matched (st j)))
  | None => (None, with_st j (add_unmatched (st j) 1))
  end.

Definition ntp_joiner_target_arrives (j : ntp_joiner) (t : ntp_tgt_rec)
    : option (option ntp_host_rec * ntp_joiner) :=
  match table_take (hosts j) (t_id t) with
  | Some (host, tbl) =>
      Some (Some host, with_st (with_hosts j tbl) (inc_matched (inc_added (st j))))
  | None => j ← ntp_joiner_add_target j t; Some (None, j)
  end.

Definition ntp_joiner_host_arrives (j : ntp_joiner) (h : ntp_host_rec)
    : option (option ntp_tgt_rec * ntp_joiner) :=
  match table_take (targets j) (h_id h) with
  | Some (out, tbl) => Some (Some out, with_st (with_targets j tbl) (inc_matched (st j)))
  | None =>
      '(dropped, tbl) ← table_push (hosts j) h (max_per_key j);
      let j := with_hosts j tbl in
      Some (None, if nz dropped then with_st j (add_unmatched (st j) 1) else j)
  end.

(** The host records given to the callback, in order. *)
Definition ntp_joiner_release_hosts (j : ntp_joiner) (before_ns : Z)
    : list ntp_host_rec * ntp_joiner :=
  let '(outs, tbl) := table_expire (hosts j) before_ns in
  (outs, with_st (with_hosts j tbl) (add_unmatched (st j) (Z.of_nat (length outs)))).

Definition ntp_joiner_expire (j : ntp_joiner) (before_ns : Z) : Z * ntp_joiner :=
  let '(outs, tbl) := table_expire (targets j) before_ns in
  let dropped := Z.of_nat (length outs) in
  (dropped, with_st (with_targets j tbl) (add_expired (st j) dropped)).

Definition ntp_joiner_pending (j : ntp_joiner) : Z := pending (targets j).
Definition ntp_joiner_waiting_hosts (j : ntp_joiner) : Z := pending (hosts j).

(** ** Chains *)
Section Chains.
  Context {R : Type} `{Keyed R}.
  Implicit Types (c : list (bucket R)) (b : bucket R) (k : Z).

(** What a chain holds under a key, and in all. *)
Definition chain_queue k c : list R :=
  match c !! chain_find k c with Some b => recs b | None => [] end.
Definition chain_recs c : list R := concat (map recs c).

(** The two updates of a chain at the link of a key. *)
Definition chain_set k b c := take (chain_find k c) c ++ b :: drop (S (chain_find k c)) c.
Definition chain_del k c := take (chain_find k c) c ++ drop (S (chain_find k c)) c.

Lemma chain_find_cons k b c :
  chain_queue k (b :: c) = (if bkey b =? k then recs b else chain_queue k c) /\
  (forall b', chain_set k b' (b :: c) = if bkey b =? k then b' :: c else b :: chain_set k b' c) /\
  chain_del k (b :: c) = (if bkey b =? k then c else b :: chain_del k c).
Proof. unfold chain_queue, chain_set, chain_del. simpl. by destruct (bkey b =? k). Qed.

Lemma chain_queue_cons k b c :
  chain_queue k (b :: c) = if bkey b =? k then recs b else chain_queue k c.
Proof. apply chain_find_cons. Qed.
Lemma chain_set_cons k b b' c :
  chain_set k b' (b :: c) = if bkey b =? k then b' :: c else b :: chain_set k b' c.
Proof. apply chain_find_cons. Qed.
Lemma chain_del_cons k b c :
  chain_del k (b :: c) = if bkey b =? k then c else b :: chain_del k c.
Proof. apply chain_find_cons. Qed.

Lemma chain_queue_absent k c : k ∉ bkey <$> c -> chain_queue k c = [].
Proof.
  induction c as [|b c IH]; [done|]. rewrite fmap_cons, not_elem_of_cons, chain_queue_cons.
  intros [Hb Hc]. destruct (Z.eqb_spec (bkey b) k); [congruence|auto].
Qed.

Lemma chain_queue_set k k' b c :
  bkey b = k -> chain_queue k' (chain_set k b c) = if k' =? k then recs b else chain_queue k' c.
Proof.
  intros Hb. induction c as [|b0 c IH].
  - unfold chain_set. simpl. rewrite chain_queue_cons, Hb, Z.eqb_sym. done.
  - rewrite chain_set_cons, (chain_queue_cons k' b0). destruct (Z.eqb_spec (bkey b0) k) as [E|E].
    + rewrite chain_queue_cons, Hb, E. by destruct (Z.eqb_spec k k'), (Z.eqb_spec k' k).
    + rewrite chain_queue_cons, IH.
      destruct (Z.eqb_spec (bkey b0) k'), (Z.eqb_spec k' k); congruence.
Qed.

Lemma chain_queue_del k k' c :
  NoDup (bkey <$> c) -> chain_queue k' (chain_del k c) = if k' =? k then [] else chain_queue k' c.
Proof.
  induction c as [|b0 c IH]; intros Hnd.
  - unfold chain_queue. simpl. by destruct (k' =? k).
  - rewrite fmap_cons, NoDup_cons in Hnd. destruct Hnd as [Hni Hnd].
    rewrite chain_del_cons, (chain_queue_cons k' b0). destruct (Z.eqb_spec (bkey b0) k) as [<-|E].
    + rewrite (Z.eqb_sym k'). destruct (Z.eqb_spec (bkey b0) k') as [<-|]; [|done].
      by apply chain_queue_absent.
    + rewrite chain_queue_cons, IH by done.
      destruct (Z.eqb_spec (bkey b0) k'), (Z.eqb_spec k' k); congruence.
Qed.

Lemma chain_set_keys k b c :
  bkey b = k -> NoDup (bkey <$> c) ->
  NoDup (bkey <$> chain_set k b c) /\
  (forall k', k' ∈ bkey <$> chain_set k b c -> k' = k \/ k' ∈ bkey <$> c).
Proof.
  intros Hb. induction c as [|b0 c IH]; intros Hnd.
  - unfold chain_set. simpl. split; [apply NoDup_singleton|]. intros k'. rewrite list_elem_of_singleton. intros ->. auto.
  - rewrite fmap_cons, NoDup_cons in Hnd. destruct Hnd as [Hni Hnd]. specialize (IH Hnd) as [IH1 IH2].
    rewrite chain_set_cons. destruct (Z.eqb_spec (bkey b0) k) as [E|E]; rewrite !fmap_cons.
    + split; [apply NoDup_cons; split; congruence|]. intros k'. rewrite !elem_of_cons. intuition congruence.
    + split.
      * apply NoDup_cons. split; [|done]. intros Hin. apply IH2 in Hin as [?|?]; congruence.
      * intros k'. rewrite !elem_of_cons. intros [?|Hin]; [auto|]. apply IH2 in Hin. tauto.
Qed.

Lemma chain_del_sub k c : chain_del k c `sublist_of` c.
Proof.
  induction c as [|b c IH]; [done|]. rewrite chain_del_cons.
  destruct (bkey b =? k); by constructor.
Qed.

Lemma chain_set_Forall (P : bucket R -> Prop) k b c : P b -> Forall P c -> Forall P (chain_set k b c).
Proof.
  intros Hb Hc. unfold chain_set. apply Forall_app. split; [by apply Forall_take|].
  constructor; [done|by apply Forall_drop].
Qed.

(** The records of a chain change by those of the key's bucket. *)
Lemma chain_set_recs k b c :
  chain_recs (chain_set k b c) ++ chain_queue k c ≡ₚ chain_recs c ++ recs b.
Proof.
  induction c as [|b0 c IH].
  - unfold chain_set, chain_recs, chain_queue. simpl. by rewrite !app_nil_r.
  - rewrite chain_set_cons, chain_queue_cons. destruct (bkey b0 =? k).
    + unfold chain_recs. simpl. solve_Permutation.
    + unfold chain_recs in *. simpl. rewrite <- !app_assoc, IH. done.
Qed.

Lemma chain_del_recs k c : chain_recs (chain_del k c) ++ chain_queue k c ≡ₚ chain_recs c.
Proof.
  induction c as [|b0 c IH]; [done|].
  rewrite chain_del_cons, chain_queue_cons. destruct (bkey b0 =? k).
  - unfold chain_recs. simpl. apply Permutation_app_comm.
  - unfold chain_recs in *. simpl. by rewrite <- app_assoc, IH.
Qed.

Lemma chain_lookup_key k c b : c !! chain_find k c = Some b -> bkey b = k /\ b ∈ c.
Proof.
  intros Hb. split; [|by eapply list_elem_of_lookup_2].
  revert Hb. induction c as [|b0 c IH]; [done|]. simpl.
  destruct (Z.eqb_spec (bkey b0) k); [by intros [= <-]|auto].
Qed.

End Chains.

(** ** Tables *)
Section Tables.
  Context {R : Type} `{Keyed R}.
  Implicit Types (t : table R) (k : Z) (r : R).

(** The table's own number of slots. *)
Definition NSLOTS : nat := Z.to_nat (Z.shiftl 1 16).

Definition home (k : Z) : nat :=
  Z.to_nat (Z.land (xorshift 33 (u64 (xorshift 33 k * 0xff51afd7ed558ccd))) (Z.of_nat NSLOTS - 1)).

(** The abstract state: under each key, the records that wait, oldest first. *)
Definition queue t k : list R := chain_queue k (chain_of t (slot_of t k)).

(** All the records of a table. *)
Definition contents t : list R := concat (map chain_recs (slots t)).

Definition bucket_wf (max : Z) (s : nat) (b : bucket R) : Prop :=
  home (bkey b) = s /\ recs b <> [] /\ len b <= cap b /\ (max <> 0 -> cap b <= max) /\
  Forall (fun r => key_of (id_of r) = bkey b) (recs b).

Definition chain_wf (max : Z) (s : nat) (c : list (bucket R)) : Prop :=
  NoDup (bkey <$> c) /\ Forall (bucket_wf max s) c.

Definition slots_wf (max : Z) t : Prop :=
  length (slots t) = NSLOTS /\ forall s c, slots t !! s = Some c -> chain_wf max s c.

Definition table_wf (max : Z) t : Prop :=
  slots_wf max t /\ pending t = u64 (Z.of_nat (length (contents t))).

Lemma slot_of_home max t k : slots_wf max t -> slot_of t k = home k.
Proof. intros [Hl _]. unfold slot_of, nbuckets. cbv zeta. by rewrite Hl. Qed.

Lemma NSLOTS_Z : Z.of_nat NSLOTS = 2 ^ 16.
Proof. unfold NSLOTS. by rewrite Z2Nat.id. Qed.

Lemma home_bound k : (home k < NSLOTS)%nat.
Proof.
  apply Nat2Z.inj_lt. unfold home. rewrite NSLOTS_Z. change (2 ^ 16 - 1) with (Z.ones 16).
  rewrite Z.land_ones by done.
  destruct (Z.mod_pos_bound (xorshift 33 (u64 (xorshift 33 k * 0xff51afd7ed558ccd))) (2 ^ 16) eq_refl).
  by rewrite Z2Nat.id.
Qed.
#[local] Opaque NSLOTS slot_of.

Lemma chain_of_wf max t k :
  slots_wf max t ->
  slots t !! home k = Some (chain_of t (home k)) /\ chain_wf max (home k) (chain_of t (home k)).
Proof.
  intros [Hl Hw]. pose proof (home_bound k) as Hb. rewrite <- Hl in Hb.
  apply lookup_lt_is_Some in Hb as [c Hc]. unfold chain_of. rewrite Hc. simpl. split; [done|by apply Hw].
Qed.

(** An update of the slot of a key. *)
Definition put_slot t k c : table R := mk_table (<[home k := c]> (slots t)) (pending t).

Lemma put_slot_wf max t k c :
  slots_wf max t -> chain_wf max (home k) c -> slots_wf max (put_slot t k c).
Proof.
  intros [Hl Hw] Hc. split; [simpl; by rewrite length_insert|]. intros s c' Hs. simpl in Hs.
  apply list_lookup_insert_Some in Hs as [(<- & -> & _)|[_ Hs]]; [done|by apply Hw].
Qed.

Lemma put_slot_chain max t k c :
  slots_wf max t -> chain_of (put_slot t k c) (home k) = c.
Proof.
  intros [Hl _]. unfold chain_of. simpl. rewrite list_lookup_insert_eq; [done|]. rewrite Hl. apply home_bound.
Qed.

Lemma put_slot_other t k c s : s <> home k -> chain_of (put_slot t k c) s = chain_of t s.
Proof. intros Hs. unfold chain_of. simpl. by rewrite list_lookup_insert_ne. Qed.

Lemma put_slot_contents max t k c :
  slots_wf max t ->
  contents (put_slot t k c) ++ chain_recs (chain_of t (home k)) ≡ₚ contents t ++ chain_recs c.
Proof.
  intros Hw. destruct (chain_of_wf max t k Hw) as [Hs _]. unfold contents. simpl.
  set (o := chain_of t (home k)) in *. clearbody o.
  rewrite insert_take_drop by (by eapply lookup_lt_Some).
  rewrite <- (take_drop_middle _ _ _ Hs) at 3.
  rewrite !map_app, !concat_app. simpl. solve_Permutation.
Qed.

(** A queue after an update of the key's chain. *)
Lemma put_slot_queue max t k c q :
  slots_wf max t -> chain_wf max (home k) c ->
  (forall k', chain_queue k' c = if k' =? k then q else chain_queue k' (chain_of t (home k))) ->
  forall k', queue (put_slot t k c) k' = if k' =? k then q else queue t k'.
Proof.
  intros Hw Hc Hq k'. pose proof (put_slot_wf _ _ _ _ Hw Hc) as Hw'.
  unfold queue. rewrite (slot_of_home max _ k' Hw'), (slot_of_home max t k' Hw).
  destruct (decide (home k' = home k)) as [->|Hne].
  - rewrite (put_slot_chain max) by done. apply Hq.
  - rewrite put_slot_other by done. destruct (Z.eqb_spec k' k); congruence.
Qed.

Lemma link_bucket max t k b :
  slots_wf max t -> at_link t (lookup t k) = Some b ->
  bkey b = k /\ bucket_wf max (home k) b /\ queue t k = recs b.
Proof.
  intros Hw Hl. unfold at_link, lookup, queue, chain_queue in *. simpl in Hl.
  rewrite (slot_of_home max) in * by done. rewrite Hl.
  destruct (chain_of_wf max t k Hw) as [_ [_ Hf]].
  apply chain_lookup_key in Hl as [Hk Hin]. split; [done|]. split; [|done].
  by eapply Forall_forall in Hf.
Qed.

Lemma link_none t k : at_link t (lookup t k) = None -> queue t k = [].
Proof. unfold at_link, lookup, queue, chain_queue. simpl. by intros ->. Qed.

(** [*link = b] for a bucket of the key. *)
Lemma set_link_spec max t k b :
  slots_wf max t -> bkey b = k -> bucket_wf max (home k) b ->
  let t' := set_link t (lookup t k) b in
  slots_wf max t' /\ (forall k', queue t' k' = if k' =? k then recs b else queue t k') /\
  contents t' ++ queue t k ≡ₚ contents t ++ recs b /\ pending t' = pending t.
Proof.
  intros Hw Hk Hb t'. destruct (chain_of_wf max t k Hw) as [_ [Hnd Hf]].
  assert (t' = put_slot t k (chain_set k b (chain_of t (home k)))) as ->.
  { subst t'. unfold set_link, lookup, put_slot, chain_set. simpl. by rewrite (slot_of_home max). }
  assert (chain_wf max (home k) (chain_set k b (chain_of t (home k)))) as Hc.
  { split; [by apply chain_set_keys|by apply chain_set_Forall]. }
  split; [by apply put_slot_wf|]. split.
  - apply (put_slot_queue max); [done..|]. intros k'. by apply chain_queue_set.
  - split; [|done]. pose proof (put_slot_contents max t k _ Hw : _ ≡ₚ contents t ++ chain_recs (chain_set k b (chain_of t (home k)))) as P1.
    pose proof (chain_set_recs k b (chain_of t (home k))) as P2.
    unfold queue. rewrite (slot_of_home max) by done.
    apply (Permutation_app_inv_l (chain_recs (chain_of t (home k)))).
    transitivity (contents t ++ chain_recs (chain_set k b (chain_of t (home k))) ++ chain_queue k (chain_of t (home k))).
    + rewrite (app_assoc (contents t)), <- P1. solve_Permutation.
    + rewrite P2. solve_Permutation.
Qed.

(** [*link = b->next] *)
Lemma unlink_spec max t k :
  slots_wf max t ->
  let t' := unlink t (lookup t k) in
  slots_wf max t' /\ (forall k', queue t' k' = if k' =? k then [] else queue t k') /\
  contents t' ++ queue t k ≡ₚ contents t /\ pending t' = pending t.
Proof.
  intros Hw t'. destruct (chain_of_wf max t k Hw) as [_ [Hnd Hf]].
  assert (t' = put_slot t k (chain_del k (chain_of t (home k)))) as ->.
  { subst t'. unfold unlink, lookup, put_slot, chain_del. simpl. by rewrite (slot_of_home max). }
  assert (chain_wf max (home k) (chain_del k (chain_of t (home k)))) as Hc.
  { pose proof (chain_del_sub k (chain_of t (home k))) as Hsub. split.
    - by eapply sublist_NoDup; [|apply fmap_sublist].
    - apply Forall_app. split; [by apply Forall_take|by apply Forall_drop]. }
  split; [by apply put_slot_wf|]. split.
  - apply (put_slot_queue max); [done..|]. intros k'. by apply chain_queue_del.
  - split; [|done]. pose proof (put_slot_contents max t k (chain_del k (chain_of t (home k))) Hw) as P1.
    pose proof (chain_del_recs k (chain_of t (home k))) as P2.
    unfold queue. rewrite (slot_of_home max) by done.
    apply (Permutation_app_inv_l (chain_recs (chain_of t (home k)))).
    transitivity (contents t ++ chain_recs (chain_del k (chain_of t (home k))) ++ chain_queue k (chain_of t (home k))).
    + rewrite (app_assoc (contents t)), <- P1. solve_Permutation.
    + rewrite P2. apply Permutation_app_comm.
Qed.

End Tables.

(** ** The operations refine the abstract queues *)
Section TableOps.
  Context {R : Type} `{Keyed R}.
  Implicit Types (t : table R) (k : Z) (r : R) (q : Z -> list R).

(** Abstract operations on the queues. *)
Definition q_full (max : Z) (l : list R) : bool := nz max && (Z.of_nat (length l) =? max).

Definition q_push (max : Z) r q : Z -> list R := fun k =>
  if k =? key_of (id_of r)
  then (if q_full max (q k) then tail (q k) else q k) ++ [r]
  else q k.

(** The oldest record of the command leaves its queue. *)
Definition q_takes (id : ntp_cmd_id) q (out : R) (q' : Z -> list R) : Prop :=
  exists pre post,
    q (key_of id) = pre ++ out :: post /\ same_command (id_of out) id = true /\
    Forall (fun r => same_command (id_of r) id = false) pre /\
    (forall k, q' k = if k =? key_of id then pre ++ post else q k).

Definition q_lacks (id : ntp_cmd_id) q : Prop :=
  Forall (fun r => same_command (id_of r) id = false) (q (key_of id)).

(** The record a push drops. *)
Definition push_drops (max : Z) r q : list R :=
  if q_full max (q (key_of (id_of r))) then take 1 (q (key_of (id_of r))) else [].

Lemma store_spec b r b' :
  store b r = Some b' -> bkey b' = bkey b /\ cap b' = cap b /\ recs b' = recs b ++ [r] /\ len b' <= cap b.
Proof.
  unfold store. destruct (Z.ltb_spec (len b) (cap b)); [|done]. intros [= <-]. unfold len in *. simpl.
  rewrite length_app. simpl. repeat split. lia.
Qed.

Lemma store_some (b : bucket R) r : len b < cap b -> is_Some (store b r).
Proof. intros Hl. unfold store. destruct (Z.ltb_spec (len b) (cap b)); [done|lia]. Qed.

Lemma length_one_more {A} (l l' : list A) (x y : list A) :
  l' ++ x ≡ₚ l ++ y -> Z.of_nat (length l') = Z.of_nat (length l) + Z.of_nat (length y) - Z.of_nat (length x).
Proof. intros P%Permutation_length. rewrite !length_app in P. lia. Qed.

(** What the queue of the key holds after the oldest record was dropped for
    the new one, if it had to be. *)
Definition room (max : Z) (l : list R) : list R := if q_full max l then tail l else l.

(** What every branch of [table_push] has in common: a bucket of the key that
    is not full takes the record. *)
Lemma push_bucket max t r b0 p :
  table_wf max t -> bkey b0 = key_of (id_of r) -> len b0 < cap b0 -> (max <> 0 -> cap b0 <= max) ->
  Forall (fun r' => key_of (id_of r') = key_of (id_of r)) (recs b0) ->
  recs b0 = room max (queue t (key_of (id_of r))) ->
  p ≡₆₄ pending t + 1 - Z.of_nat (length (push_drops max r (queue t))) ->
  exists b, store b0 r = Some b /\
  let t' := set_pending (set_link t (lookup t (key_of (id_of r))) b) (u64 p) in
  table_wf max t' /\ (forall k, queue t' k = q_push max r (queue t) k) /\
  contents t' ++ push_drops max r (queue t) ≡ₚ contents t ++ [r].
Proof.
  intros [Hw Hp] Hk Hlt Hcap Hkeys Hroom Hpp.
  destruct (store_some b0 r Hlt) as [b Hs]. exists b. split; [done|].
  apply store_spec in Hs as (Hk' & Hc' & Hr' & Hl'). rewrite Hk in Hk'.
  destruct (set_link_spec max t (key_of (id_of r)) b Hw Hk') as (W & Q & C & P).
  { split; [by rewrite Hk'|]. rewrite Hr', Hc', Hk'. split; [by destruct (recs b0)|].
    split; [done|]. split; [done|]. apply Forall_app. by repeat constructor. }
  set (t' := set_pending _ _). change (slots_wf max t') in W.
  change (forall k, queue t' k = if k =? key_of (id_of r) then recs b else queue t k) in Q.
  change (contents t' ++ queue t (key_of (id_of r)) ≡ₚ contents t ++ recs b) in C.
  assert (contents t' ++ push_drops max r (queue t) ≡ₚ contents t ++ [r]) as C'.
  { rewrite Hr' in C. apply (Permutation_app_inv_l (recs b0)).
    transitivity (contents t ++ recs b0 ++ [r]); [rewrite <- C|solve_Permutation].
    rewrite Hroom. unfold room, push_drops. destruct (q_full max _); [|solve_Permutation].
    destruct (queue t _); simpl; solve_Permutation. }
  split; [split; [done|]|split; [|done]].
  - apply length_one_more in C'. simpl in C'. unfold pending at 1. simpl. apply u64_proper.
    rewrite C', Hpp, Hp. cong_solve.
  - intros k. rewrite Q, Hr', Hroom. unfold q_push. by destruct (Z.eqb_spec k (key_of (id_of r))) as [->|].
Qed.

Lemma table_push_spec max t r :
  0 <= max -> table_wf max t ->
  exists dropped t',
    table_push t r max = Some (dropped, t') /\ table_wf max t' /\
    (forall k, queue t' k = q_push max r (queue t) k) /\
    contents t' ++ push_drops max r (queue t) ≡ₚ contents t ++ [r] /\
    dropped = Z.of_nat (length (push_drops max r (queue t))).
Proof.
  intros Hmax Ht. pose proof Ht as [Hw Hp]. unfold table_push. cbv zeta.
  pose proof (push_bucket max t r) as PB. unfold room, push_drops in *.
  set (key := key_of (id_of r)) in *. set (dr := if q_full _ (queue t key) then _ else _) in *.
  destruct (at_link t (lookup t key)) as [b|] eqn:El.
  - destruct (link_bucket max t key b Hw El) as (Hk & (_ & Hne & Hlc & Hcm & Hks) & Hq).
    assert (0 < len b) as Hpos by (unfold len; destruct (recs b); [done|simpl; lia]).
    assert (q_full max (queue t key) = nz max && (len b =? max)) as Hf by (unfold q_full; by rewrite Hq).
    rewrite Hk in Hks. subst dr. rewrite Hf, Hq in *. clear Hf.
    destruct (nz max && (len b =? max)) eqn:Ef.
    + destruct (PB (mk_bucket (bkey b) (cap b) (tail (recs b))) (u64 (pending t - 1) + 1))
        as (b' & -> & W & Q & C); try done.
      * unfold len in *. simpl in *. destruct (recs b); simpl in *; lia.
      * simpl. destruct (recs b); by inversion Hks.
      * destruct (recs b); [done|]. simpl. cong_solve.
      * eexists _, _. split; [done|]. repeat (split; [done|]). by destruct (recs b).
    + set (cap' := if len b =? cap b then _ else _).
      assert (len b < cap' /\ (max <> 0 -> cap' <= max)) as [Hlt Hcm'].
      { assert (max <> 0 -> len b < max).
        { intros Hm. apply andb_false_iff in Ef as [Ef|Ef%Z.eqb_neq].
          - apply nz_true in Hm. congruence.
          - specialize (Hcm Hm). lia. }
        subst cap'. destruct (Z.eqb_spec (len b) (cap b)); [|split; [lia|done]].
        destruct (nz max) eqn:Enz; simpl.
        - apply nz_true in Enz. destruct (Z.ltb_spec max (cap b * 2)); split; intros; lia || auto.
        - split; [lia|]. intros Hm%nz_true. congruence. }
      clearbody cap'.
      destruct (PB (mk_bucket (bkey b) cap' (recs b)) (pending t + 1)) as (b' & -> & W & Q & C); try done.
      * simpl. cong_solve.
      * eexists _, _. done.
  - apply link_none in El. assert (q_full max (queue t key) = false) as Hf.
    { unfold q_full. rewrite El. change (Z.of_nat (length (@nil R))) with 0. destruct (Z.eqb_spec 0 max) as [<-|]; [done|by rewrite andb_false_r]. }
    subst dr. rewrite Hf, El in *.
    destruct (PB (mk_bucket key 1 []) (pending t + 1)) as (b' & -> & W & Q & C); try done.
    + simpl. lia.
    + simpl. cong_solve.
    + eexists _, _. done.
Qed.

Lemma take_first_spec id l :
  match take_first id l with
  | Some (out, rest) =>
      exists pre post, l = pre ++ out :: post /\ rest = pre ++ post /\
        same_command (id_of out) id = true /\
        Forall (fun r => same_command (id_of r) id = false) pre
  | None => Forall (fun r => same_command (id_of r) id = false) l
  end.
Proof.
  induction l as [|r l IH]; simpl; [done|]. destruct (same_command (id_of r) id) eqn:E.
  - by exists [], l.
  - destruct (take_first id l) as [[out rest]|]; simpl; [|by constructor].
    destruct IH as (pre & post & -> & -> & Hs & Hp). exists (r :: pre), post.
    repeat split; [done|]. by constructor.
Qed.

Lemma table_take_spec max t id :
  table_wf max t ->
  match table_take t id with
  | Some (out, t') =>
      table_wf max t' /\ q_takes id (queue t) out (queue t') /\ contents t' ++ [out] ≡ₚ contents t
  | None => q_lacks id (queue t)
  end.
Proof.
  intros [Hw Hp]. unfold table_take, q_lacks. cbv zeta.
  destruct (at_link t (lookup t (key_of id))) as [b|] eqn:El; simpl.
  2: { by rewrite (link_none _ _ El). }
  destruct (link_bucket max t _ b Hw El) as (Hk & (_ & Hne & Hlc & Hcm & Hks) & Hq).
  pose proof (take_first_spec id (recs b)) as Ht.
  destruct (take_first id (recs b)) as [[out rest]|]; simpl; [|by rewrite Hq].
  destruct Ht as (pre & post & Hr & -> & Hs & Hpre).
  set (t1 := match pre ++ post with [] => _ | _ => _ end).
  assert (slots_wf max t1 /\ (forall k, queue t1 k = if k =? key_of id then pre ++ post else queue t k) /\
    contents t1 ++ [out] ≡ₚ contents t /\ pending t1 = pending t) as (W & Q & C & P).
  { destruct (pre ++ post) as [|r0 l0] eqn:Ep.
    - destruct (unlink_spec max t (key_of id) Hw) as (W & Q & C & P). rewrite Hq, Hr in C.
      apply app_eq_nil in Ep as [-> ->]. done.
    - destruct (set_link_spec max t (key_of id) (mk_bucket (bkey b) (cap b) (r0 :: l0)) Hw Hk) as (W & Q & C & P).
      { rewrite Hr in Hks. assert (length (recs b) = S (length (pre ++ post))) as Hl
          by (rewrite Hr, !length_app; simpl; lia).
        split; [by rewrite <- Hk|]. split; [done|]. split; [|split; [done|]].
        - unfold len in *. simpl in *. rewrite Ep in Hl. simpl in Hl. lia.
        - simpl. rewrite <- Ep. apply Forall_app in Hks as [H1 H2]. inversion H2; subst. by apply Forall_app. }
      split; [done|]. split; [done|]. split; [|done].
      change (contents t1 ++ queue t (key_of id) ≡ₚ contents t ++ (r0 :: l0)) in C. clearbody t1.
      rewrite Hq, Hr, <- Ep in C.
      apply (Permutation_app_inv_l (pre ++ post)).
      transitivity (contents t ++ pre ++ post); [rewrite <- C|]; solve_Permutation. }
  clearbody t1. split; [split; [done|]|split; [|done]].
  - apply Permutation_length in C as C'. rewrite length_app in C'. simpl in *.
    change (contents (set_pending t1 _)) with (contents t1).
    rewrite P, Hp, <- C'. apply u64_proper. rewrite Nat2Z.inj_add. simpl. cong_solve.
  - exists pre, post. by rewrite Hq.
Qed.

(** ** Expiry *)

Lemma bucket_expire_spec before l :
  let '(keep, out) := bucket_expire before l in
  keep = filter (fun r => before <= age_of r) l /\ out = filter (fun r => age_of r < before) l /\
  keep ++ out ≡ₚ l.
Proof.
  induction l as [|r l IH]; simpl; [done|].
  destruct (bucket_expire before l) as [keep out]. destruct IH as (-> & -> & P).
  destruct (Z.ltb_spec (age_of r) before).
  - rewrite (filter_cons_False (fun r => before <= age_of r)), (filter_cons_True (fun r => age_of r < before)) by lia.
    repeat split. rewrite <- P at 3. solve_Permutation.
  - rewrite (filter_cons_True (fun r => before <= age_of r)), (filter_cons_False (fun r => age_of r < before)) by lia.
    repeat split. simpl. by rewrite P.
Qed.

Lemma chain_expire_spec before c p :
  let '(c', outs, p') := chain_expire before c p in
  (forall max s, chain_wf max s c -> chain_wf max s c') /\
  (forall k, k ∈ bkey <$> c' -> k ∈ bkey <$> c) /\
  (NoDup (bkey <$> c) -> forall k, chain_queue k c' = filter (fun r => before <= age_of r) (chain_queue k c)) /\
  outs = filter (fun r => age_of r < before) (chain_recs c) /\
  chain_recs c' ++ outs ≡ₚ chain_recs c /\ u64 p' = u64 (p - Z.of_nat (length outs)).
Proof.
  revert p. induction c as [|b c IH]; intros p; cbn [chain_expire].
  { do 5 (split; [done|]). simpl. f_equal. lia. }
  pose proof (bucket_expire_spec before (recs b)) as Hb.
  destruct (bucket_expire before (recs b)) as [keep out]. destruct Hb as (Hkeep & Hout & HP).
  set (p1 := u64 _). specialize (IH p1). destruct (chain_expire before c p1) as [[c' outs] p'].
  destruct IH as (Hwf & Hkeys & Hqs & Houts & Hperm & Hpend).
  assert (out ++ outs = filter (fun r => age_of r < before) (chain_recs (b :: c))) as Ho.
  { unfold chain_recs. simpl. by rewrite filter_app, Hout, Houts. }
  assert (u64 p' = u64 (p - Z.of_nat (length (out ++ outs)))) as Hp'.
  { rewrite Hpend. subst p1. apply Permutation_length in HP. rewrite length_app in *. unfold len.
    apply u64_proper. rewrite <- HP, !Nat2Z.inj_add. cong_solve. }
  assert (NoDup (bkey <$> b :: c) -> chain_queue (bkey b) c' = []) as Hnone.
  { intros Hnd. apply chain_queue_absent. intros Hin%Hkeys. rewrite fmap_cons, NoDup_cons in Hnd. tauto. }
  destruct keep as [|r0 keep'] eqn:Ekeep.
  - split; [|split; [|split; [|split; [|split]]]]; try done.
    + intros max s [Hnd Hf]. inversion Hf; subst. rewrite fmap_cons, NoDup_cons in Hnd. destruct Hnd. apply Hwf. by split.
    + intros k Hk. rewrite fmap_cons, elem_of_cons. auto.
    + intros Hnd k. rewrite chain_queue_cons. destruct (Z.eqb_spec (bkey b) k) as [<-|].
      * rewrite Hnone by done. by rewrite <- Hkeep.
      * apply Hqs. rewrite fmap_cons, NoDup_cons in Hnd. tauto.
    + unfold chain_recs in *. simpl in *. rewrite <- HP, <- Hperm. solve_Permutation.
  - split; [|split; [|split; [|split; [|split]]]]; try done.
    + intros max s [Hnd Hf]. inversion Hf as [|?? (H1 & H2 & H3 & H4 & H5) Hf']; subst.
      rewrite fmap_cons, NoDup_cons in Hnd. destruct Hnd as [Hni Hnd]. destruct (Hwf max (home (bkey b))) as [Hnd' Hf'']; [by split|].
      split; [rewrite fmap_cons, NoDup_cons; simpl; split; [|done]; intros Hin%Hkeys; tauto|].
      constructor; [|done]. split; [done|]. split; [done|]. split; [|split; [done|]].
      * apply Permutation_length in HP. unfold len in *. simpl in *. rewrite length_app in HP. lia.
      * simpl. rewrite Hkeep. rewrite Forall_forall in *. intros x Hx. apply H5. apply list_elem_of_filter in Hx. tauto.
    + intros k. rewrite !fmap_cons, !elem_of_cons. simpl. intros [?|Hk]; auto.
    + intros Hnd k. rewrite !chain_queue_cons. simpl. destruct (bkey b =? k); [done|].
      apply Hqs. rewrite fmap_cons, NoDup_cons in Hnd. tauto.
    + unfold chain_recs in *. simpl in *. rewrite <- HP, <- Hperm. solve_Permutation.
Qed.

(** What expiry does to one chain. *)
Definition chain_expired (before : Z) (c c' : list (bucket R)) : Prop :=
  (forall max s, chain_wf max s c -> chain_wf max s c') /\
  (NoDup (bkey <$> c) ->
   forall k, chain_queue k c' = filter (fun r => before <= age_of r) (chain_queue k c)).

Lemma slots_expire_spec before v p :
  let '(v', outs, p') := slots_expire before v p in
  length v' = length v /\
  (forall s c', v' !! s = Some c' -> exists c, v !! s = Some c /\ chain_expired before c c') /\
  outs = filter (fun r => age_of r < before) (concat (map chain_recs v)) /\
  concat (map chain_recs v') ++ outs ≡ₚ concat (map chain_recs v) /\
  u64 p' = u64 (p - Z.of_nat (length outs)).
Proof.
  revert p. induction v as [|c v IH]; intros p; cbn [slots_expire].
  { do 4 (split; [done|]). simpl. f_equal. lia. }
  pose proof (chain_expire_spec before c p) as Hc.
  destruct (chain_expire before c p) as [[c' out] p1]. destruct Hc as (Hwf & _ & Hq & Ho & Hperm & Hp1).
  specialize (IH p1). destruct (slots_expire before v p1) as [[v' outs] p2].
  destruct IH as (Hl & Hs & Hos & Hps & Hp2).
  split; [simpl; congruence|]. split.
  { intros [|s] c1; simpl; [intros [= <-]; by exists c|apply Hs]. }
  split; [simpl; by rewrite filter_app, Ho, Hos|]. split.
  - simpl. rewrite <- Hperm, <- Hps. solve_Permutation.
  - rewrite Hp2, length_app. apply u64_proper.
    assert (p1 ≡₆₄ p - Z.of_nat (length out)) as ->.
    { rewrite <- (u64_cong p1), Hp1. apply u64_cong. }
    rewrite Nat2Z.inj_add. cong_solve.
Qed.

Lemma chain_queue_keys max s c k :
  chain_wf max s c -> Forall (fun r => key_of (id_of r) = k) (chain_queue k c).
Proof.
  intros [_ Hf]. unfold chain_queue. destruct (c !! chain_find k c) as [b|] eqn:E; [|done].
  apply chain_lookup_key in E as [<- Hin]. by eapply Forall_forall in Hf as (_ & _ & _ & _ & ?).
Qed.

Lemma chain_expire_u64 before c p :
  is_u64 p -> is_u64 (chain_expire before c p).2.
Proof.
  revert p. induction c as [|b c IH]; intros p Hp; cbn [chain_expire]; [done|].
  destruct (bucket_expire before (recs b)) as [keep out].
  specialize (IH _ (u64_range (p - (len b - Z.of_nat (length keep))))).
  destruct (chain_expire before c _) as [[c' outs] p']. by destruct keep.
Qed.

Lemma slots_expire_u64 before v p :
  is_u64 p -> is_u64 (slots_expire before v p).2.
Proof.
  revert p. induction v as [|c v IH]; intros p Hp; cbn [slots_expire]; [done|].
  apply (chain_expire_u64 before c) in Hp. destruct (chain_expire before c p) as [[c' out] p1].
  specialize (IH _ Hp). simpl in IH. by destruct (slots_expire before v p1) as [[v' outs] p2].
Qed.

Lemma table_expire_spec max t before :
  table_wf max t ->
  let '(outs, t') := table_expire t before in
  table_wf max t' /\
  (forall k, queue t' k = filter (fun r => before <= age_of r) (queue t k)) /\
  outs = filter (fun r => age_of r < before) (contents t) /\ contents t' ++ outs ≡ₚ contents t.
Proof.
  intros [[Hl Hw] Hp]. unfold table_expire.
  assert (is_u64 (pending t)) as Hu by (rewrite Hp; apply u64_range).
  apply (slots_expire_u64 before (slots t)) in Hu.
  pose proof (slots_expire_spec before (slots t) (pending t)) as Hs.
  destruct (slots_expire before (slots t) (pending t)) as [[v outs] p]. simpl in Hu.
  destruct Hs as (Hlv & Hex & Ho & Hperm & Hpend).
  assert (slots_wf max (mk_table v p)) as Hw'.
  { split; [simpl; congruence|]. intros s c' Hc'. destruct (Hex s c' Hc') as (c & Hc & Hce & _).
    apply Hce. by apply Hw. }
  split; [split; [done|]|].
  { rewrite <- (u64_small (pending (mk_table v p))) by done. simpl. rewrite Hpend.
    apply Permutation_length in Hperm. rewrite length_app in Hperm. apply u64_proper.
    unfold contents in *. simpl. rewrite Hp, <- Hperm, Nat2Z.inj_add. cong_solve. }
  split; [|done]. intros k. unfold queue.
  rewrite (slot_of_home max (mk_table v p) k Hw'), (slot_of_home max t k (conj Hl Hw)).
  destruct (chain_of_wf max (mk_table v p) k Hw') as [Hc' _].
  destruct (Hex _ _ Hc') as (c & Hc & _ & Hq). rewrite Hq; [|by apply (Hw _ _ Hc)].
  unfold chain_of at 1. by rewrite Hc.
Qed.

End TableOps.

(** ** The joiner *)

Lemma queue_keys {R} `{Keyed R} max (t : table R) k :
  table_wf max t -> Forall (fun r => key_of (id_of r) = k) (queue t k).
Proof.
  intros [Hw _]. unfold queue. rewrite (slot_of_home max t k Hw).
  destruct (chain_of_wf max t k Hw) as [_ Hc]. by eapply chain_queue_keys.
Qed.

Lemma queue_bound {R} `{Keyed R} max (t : table R) k :
  table_wf max t -> 0 < max -> Z.of_nat (length (queue t k)) <= max.
Proof.
  intros [Hw _] Hm. destruct (at_link t (lookup t k)) as [b|] eqn:E.
  - destruct (link_bucket max t k b Hw E) as (_ & (_ & _ & Hl & Hc & _) & ->).
    unfold len in Hl. specialize (Hc ltac:(lia)). lia.
  - rewrite (link_none _ _ E). simpl. lia.
Qed.

Lemma table_init_wf {R} `{Keyed R} max : table_wf max (table_init (R := R)).
Proof.
  split; [split|].
  - apply length_replicate.
  - intros s c Hs. unfold table_init in Hs. cbn [slots] in Hs. apply lookup_replicate in Hs as [-> _].
    split; [apply NoDup_nil_2|done].
  - unfold contents, table_init. cbn [slots pending].
    replace (concat (map chain_recs (replicate (Z.to_nat (Z.shiftl 1 16)) []))) with (@nil R); [done|].
    induction (Z.to_nat (Z.shiftl 1 16)) as [|n IH]; [done|]. simpl. by rewrite <- IH.
Qed.

Definition joiner_wf (j : ntp_joiner) : Prop :=
  0 <= max_per_key j /\ table_wf (max_per_key j) (targets j) /\
  table_wf (max_per_key j) (hosts j).

(** One call of the joiner, as the offline and the online tool make them. *)
Inductive join_op :=
  | OpAddTarget (t : ntp_tgt_rec) | OpMatch (h : ntp_host_rec)
  | OpTargetArrives (t : ntp_tgt_rec) | OpHostArrives (h : ntp_host_rec)
  | OpReleaseHosts (before : Z) | OpExpire (before : Z).

Definition join_step (j : ntp_joiner) (op : join_op) : option ntp_joiner :=
  match op with
  | OpAddTarget t => ntp_joiner_add_target j t
  | OpMatch h => Some (ntp_joiner_match j h).2
  | OpTargetArrives t => r ← ntp_joiner_target_arrives j t; Some r.2
  | OpHostArrives h => r ← ntp_joiner_host_arrives j h; Some r.2
  | OpReleaseHosts before => Some (ntp_joiner_release_hosts j before).2
  | OpExpire before => Some (ntp_joiner_expire j before).2
  end.

Fixpoint join_run (j : ntp_joiner) (ops : list join_op) : option ntp_joiner :=
  match ops with
  | [] => Some j
  | op :: ops => j ← join_step j op; join_run j ops
  end.

(** How many target and host records an operation brings. *)
Definition brings_target (op : join_op) : Z :=
  match op with OpAddTarget _ | OpTargetArrives _ => 1 | _ => 0 end.
Definition brings_host (op : join_op) : Z :=
  match op with OpMatch _ | OpHostArrives _ => 1 | _ => 0 end.
Definition total (f : join_op -> Z) (ops : list join_op) : Z :=
  foldr (fun op acc => f op + acc) 0 ops.

(** The books after [nt] target and [nh] host records. *)
Definition accounted (nt nh : Z) (j : ntp_joiner) : Prop :=
  targets_added (st j) ≡₆₄ nt /\
  matched (st j) + targets_evicted (st j) + targets_expired (st j) + pending (targets j) ≡₆₄ nt /\
  matched (st j) + host_unmatched (st j) + pending (hosts j) ≡₆₄ nh.

(** What one operation guarantees. *)
Definition step_ok (op : join_op) (j : ntp_joiner) : Prop :=
  exists j', join_step j op = Some j' /\ joiner_wf j' /\ max_per_key j' = max_per_key j /\
  forall nt nh, accounted nt nh j -> accounted (nt + brings_target op) (nh + brings_host op) j'.

Lemma pending_change {R} `{Keyed R} max (t t' : table R) (x y : list R) :
  table_wf max t -> table_wf max t' -> contents t' ++ x ≡ₚ contents t ++ y ->
  pending t' ≡₆₄ pending t + Z.of_nat (length y) - Z.of_nat (length x).
Proof.
  intros [_ ->] [_ ->] P. apply length_one_more in P. rewrite P. cong_solve.
Qed.

Lemma push_change {R} `{Keyed R} max (t : table R) r :
  0 <= max -> table_wf max t ->
  exists dropped t', table_push t r max = Some (dropped, t') /\ table_wf max t' /\
    (forall k, queue t' k = q_push max r (queue t) k) /\
    (dropped = 0 \/ dropped = 1) /\ pending t' ≡₆₄ pending t + 1 - dropped.
Proof.
  intros Hm Hw. destruct (table_push_spec max t r Hm Hw) as (dr & t' & E & Hw' & Q & C & Hd).
  exists dr, t'. split; [done|]. split; [done|]. split; [done|]. split.
  - rewrite Hd. unfold push_drops. destruct (q_full _ _); [|by left].
    destruct (queue t _); [by left|by right].
  - rewrite Hd. by apply (pending_change max _ _ _ [r]).
Qed.

Lemma take_change {R} `{Keyed R} max (t : table R) id out t' :
  table_wf max t -> table_take t id = Some (out, t') ->
  table_wf max t' /\ q_takes id (queue t) out (queue t') /\ pending t' ≡₆₄ pending t - 1.
Proof.
  intros Hw E. pose proof (table_take_spec max t id Hw) as Hs. rewrite E in Hs.
  destruct Hs as (Hw' & Q & C). split; [done|]. split; [done|].
  rewrite (pending_change max t t' [out] []); [simpl; cong_solve|done..|by rewrite app_nil_r].
Qed.

Lemma expire_change {R} `{Keyed R} max (t : table R) before outs t' :
  table_wf max t -> table_expire t before = (outs, t') ->
  table_wf max t' /\ (forall k, queue t' k = filter (fun r => before <= age_of r) (queue t k)) /\
  outs = filter (fun r => age_of r < before) (contents t) /\
  pending t' ≡₆₄ pending t - Z.of_nat (length outs).
Proof.
  intros Hw E. pose proof (table_expire_spec max t before Hw) as Hs. rewrite E in Hs.
  destruct Hs as (Hw' & Q & Ho & C). do 3 (split; [done|]).
  rewrite (pending_change max t t' outs []); [simpl; cong_solve|done..|by rewrite app_nil_r].
Qed.

(** [account] closes the bookkeeping of one operation. *)
Ltac account :=
  intros nt nh (A1 & A2 & A3); unfold accounted; cbn [brings_target brings_host];
  cbn [fst snd st targets hosts with_st with_targets with_hosts targets_added targets_evicted
       targets_expired matched host_unmatched inc_added add_evicted add_expired inc_matched
       add_unmatched]; split; [|split]; cong_from.

Lemma add_target_ok j t : joiner_wf j -> step_ok (OpAddTarget t) j.
Proof.
  intros (Hm & Ht & Hh). unfold step_ok, join_step, ntp_joiner_add_target.
  destruct (push_change _ (targets j) t Hm Ht) as (dr & t' & -> & Hw & _ & Hd & Hp). simpl.
  eexists. split; [done|]. split; [done|]. split; [done|]. account.
Qed.

Lemma match_ok j h : joiner_wf j -> step_ok (OpMatch h) j.
Proof.
  intros (Hm & Ht & Hh). unfold step_ok, join_step, ntp_joiner_match.
  destruct (table_take (targets j) (h_id h)) as [[out t']|] eqn:E.
  - destruct (take_change _ _ _ _ _ Ht E) as (Hw & _ & Hp).
    eexists. split; [done|]. split; [done|]. split; [done|]. account.
  - eexists. split; [done|]. split; [done|]. split; [done|]. account.
Qed.

Lemma target_arrives_ok j t : joiner_wf j -> step_ok (OpTargetArrives t) j.
Proof.
  intros Hj. pose proof Hj as (Hm & Ht & Hh). unfold step_ok, join_step, ntp_joiner_target_arrives.
  destruct (table_take (hosts j) (t_id t)) as [[out t']|] eqn:E.
  - destruct (take_change _ _ _ _ _ Hh E) as (Hw & _ & Hp).
    eexists. split; [done|]. split; [done|]. split; [done|]. account.
  - destruct (add_target_ok j t Hj) as (j' & E' & H). simpl in E'. rewrite E'. simpl.
    by exists j'.
Qed.

Lemma host_arrives_ok j h : joiner_wf j -> step_ok (OpHostArrives h) j.
Proof.
  intros (Hm & Ht & Hh). unfold step_ok, join_step, ntp_joiner_host_arrives.
  destruct (table_take (targets j) (h_id h)) as [[out t']|] eqn:E.
  - destruct (take_change _ _ _ _ _ Ht E) as (Hw & _ & Hp).
    eexists. split; [done|]. split; [done|]. split; [done|]. account.
  - destruct (push_change _ (hosts j) h Hm Hh) as (dr & t' & -> & Hw & _ & Hd & Hp). simpl.
    destruct Hd as [-> | ->]; cbn; (eexists; split; [done|]; split; [done|]; split; [done|]; account).
Qed.

Lemma release_hosts_ok j before : joiner_wf j -> step_ok (OpReleaseHosts before) j.
Proof.
  intros (Hm & Ht & Hh). unfold step_ok, join_step, ntp_joiner_release_hosts.
  destruct (table_expire (hosts j) before) as [outs t'] eqn:E.
  destruct (expire_change _ _ _ _ _ Hh E) as (Hw & _ & _ & Hp).
  eexists. split; [done|]. split; [done|]. split; [done|]. account.
Qed.

Lemma expire_ok j before : joiner_wf j -> step_ok (OpExpire before) j.
Proof.
  intros (Hm & Ht & Hh). unfold step_ok, join_step, ntp_joiner_expire.
  destruct (table_expire (targets j) before) as [outs t'] eqn:E.
  destruct (expire_change _ _ _ _ _ Ht E) as (Hw & _ & _ & Hp).
  eexists. split; [done|]. split; [done|]. split; [done|]. account.
Qed.

Lemma join_step_ok op j : joiner_wf j -> step_ok op j.
Proof.
  destruct op; auto using add_target_ok, match_ok, target_arrives_ok, host_arrives_ok,
    release_hosts_ok, expire_ok.
Qed.

Lemma join_run_ok ops j nt nh :
  joiner_wf j -> accounted nt nh j ->
  exists j', join_run j ops = Some j' /\ joiner_wf j' /\ max_per_key j' = max_per_key j /\
    accounted (nt + total brings_target ops) (nh + total brings_host ops) j'.
Proof.
  revert j nt nh. induction ops as [|op ops IH]; intros j nt nh Hj Ha; simpl.
  - exists j. by rewrite !Z.add_0_r.
  - destruct (join_step_ok op j Hj) as (j1 & -> & Hj1 & Hm1 & Ha1). simpl.
    destruct (IH j1 _ _ Hj1 (Ha1 _ _ Ha)) as (j2 & -> & Hj2 & Hm2 & Ha2). exists j2.
    rewrite !Z.add_assoc. split; [done|]. split; [done|]. split; [congruence|done].
Qed.

Lemma joiner_new_ok max :
  0 <= max -> joiner_wf (ntp_joiner_new max) /\ accounted 0 0 (ntp_joiner_new max).
Proof. intros Hm. split; [|done]. split; [done|]. split; apply table_init_wf. Qed.

(** C3: the joiner is safe and bounded.  Whatever records arrive and whatever
    is released or expired, in any order, every operation completes (no store
    past a bucket's capacity), the tables stay well formed (each record in its
    key's only bucket, in its slot, no empty bucket) and, with a limit, no key
    ever holds more than that many records on either side. *)
Theorem joiner_safe (max : Z) (ops : list join_op) :
  0 <= max ->
  exists j, join_run (ntp_joiner_new max) ops = Some j /\ joiner_wf j /\ max_per_key j = max /\
    (0 < max -> forall k, Z.of_nat (length (queue (targets j) k)) <= max /\
                          Z.of_nat (length (queue (hosts j) k)) <= max).
Proof.
  intros Hm. destruct (joiner_new_ok max Hm) as [Hj Ha].
  destruct (join_run_ok ops _ _ _ Hj Ha) as (j & E & Hj' & Hm' & _).
  exists j. split; [done|]. split; [done|]. split; [done|]. intros Hp k.
  destruct Hj' as (_ & Ht & Hh). simpl in Hm'. rewrite Hm' in *. split; by apply queue_bound.
Qed.

(** The joiner's books balance.  After any sequence of operations, in
    64-bit arithmetic, the target records that came in are those matched,
    evicted, expired and still pending, and the host records that came in are
    those matched, reported unmatched and still waiting. *)
Theorem joiner_accounting (max : Z) (ops : list join_op) j :
  0 <= max -> join_run (ntp_joiner_new max) ops = Some j ->
  targets_added (st j) ≡₆₄ total brings_target ops /\
  targets_added (st j) ≡₆₄ matched (st j) + targets_evicted (st j) + targets_expired (st j) +
                           ntp_joiner_pending j /\
  total brings_host ops ≡₆₄ matched (st j) + host_unmatched (st j) + ntp_joiner_waiting_hosts j.
Proof.
  intros Hm E. destruct (joiner_new_ok max Hm) as [Hj Ha].
  destruct (join_run_ok ops _ _ _ Hj Ha) as (j' & E' & _ & _ & (A1 & A2 & A3)).
  rewrite E in E'. injection E' as <-. unfold ntp_joiner_pending, ntp_joiner_waiting_hosts.
  rewrite !Z.add_0_l in *. split; [done|]. split; [|done]. by rewrite A1, A2.
Qed.

(** C4: the hash tables implement the queues.  On any well-formed table,
    pushing, taking and expiring do to the per-key queues exactly what the
    abstract operations say: a push appends, dropping the oldest record of a
    full key and saying so; a take removes the oldest record of that very
    command and fails only when there is none; expiry hands exactly the records
    older than the limit to the callback and keeps the others in order. *)
Theorem table_refines_queues {R : Type} `{Keyed R} (max : Z) (t : table R) :
  0 <= max -> table_wf max t ->
  (forall r, exists dropped t',
     table_push t r max = Some (dropped, t') /\ table_wf max t' /\
     (forall k, queue t' k = q_push max r (queue t) k) /\
     dropped = Z.of_nat (length (push_drops max r (queue t)))) /\
  (forall id, match table_take t id with
     | Some (out, t') => table_wf max t' /\ q_takes id (queue t) out (queue t')
     | None => q_lacks id (queue t)
     end) /\
  (forall before outs t', table_expire t before = (outs, t') ->
     table_wf max t' /\
     (forall k, queue t' k = filter (fun r => before <= age_of r) (queue t k)) /\
     outs = filter (fun r => age_of r < before) (contents t)).
Proof.
  intros Hm Hw. split; [|split].
  - intros r. destruct (table_push_spec max t r Hm Hw) as (d & t' & E & Hw' & Q & _ & Hd). by exists d, t'.
  - intros id. pose proof (table_take_spec max t id Hw) as Hs.
    destruct (table_take t id) as [[out t']|]; [|done]. by destruct Hs as (? & ? & _).
  - intros before outs t' E. destruct (expire_change max t before outs t' Hw E) as (? & ? & ? & _). done.
Qed.

(** ** Which records meet *)

Lemma same_command_sym a b : same_command a b = same_command b a.
Proof.
  unfold same_command.
  by rewrite (Z.eqb_sym (opcode a)), (Z.eqb_sym (nsid a)), (Z.eqb_sym (slba a)), (Z.eqb_sym (nlb a)).
Qed.

Lemma lor_disjoint_add a b n : 0 <= n -> 0 <= b < 2 ^ n -> Z.lor (a * 2 ^ n) b = a * 2 ^ n + b.
Proof.
  intros Hn Hb. rewrite <- Z.shiftl_mul_pow2 by done.
  assert (Z.land (Z.shiftl a n) b = 0) as Hl.
  { apply Z.bits_inj'. intros i Hi. rewrite Z.land_spec, Z.bits_0, Z.shiftl_spec by done.
    destruct (decide (i < n)).
    - rewrite Z.testbit_neg_r by lia. done.
    - destruct (decide (b = 0)) as [->|]; [by rewrite Z.bits_0, andb_false_r|].
      rewrite (Z.bits_above_log2 b); [by rewrite andb_false_r|lia|].
      assert (Z.log2 b < n) by (apply Z.log2_lt_pow2; lia). lia. }
  pose proof (Z.add_lor_land (Z.shiftl a n) b). lia.
Qed.

Lemma key_of_fields i :
  id_ok i -> key_of i = cntlid i * 2 ^ 32 + (qid i * 2 ^ 16 + cid i).
Proof.
  intros (_ & _ & Hc & Hq & Hi & _). unfold is_u16 in *. unfold key_of.
  rewrite !Z.shiftl_mul_pow2, !u64_small, <- Z.lor_assoc by (unfold is_u64; lia).
  by rewrite (lor_disjoint_add (qid i)), lor_disjoint_add by lia.
Qed.

(** The fields that tell commands apart. *)
Definition same_identity (a b : ntp_cmd_id) : Prop :=
  cntlid a = cntlid b /\ qid a = qid b /\ cid a = cid b /\ opcode a = opcode b /\
  nsid a = nsid b /\ slba a = slba b /\ nlb a = nlb b.

Lemma same_identity_key a b :
  same_identity a b -> key_of a = key_of b /\ same_command a b = true.
Proof.
  intros (H1 & H2 & H3 & H4 & H5 & H6 & H7). unfold key_of, same_command.
  rewrite H1, H2, H3, H4, H5, H6, H7, !Z.eqb_refl. done.
Qed.

Lemma key_same_identity a b :
  id_ok a -> id_ok b -> key_of a = key_of b -> same_command a b = true -> same_identity a b.
Proof.
  intros Ha Hb. rewrite !key_of_fields by done.
  destruct Ha as (_ & _ & Hc & Hq & Hi & _), Hb as (_ & _ & Hc' & Hq' & Hi' & _). unfold is_u16 in *.
  unfold same_identity, same_command. rewrite !andb_true_iff, !Z.eqb_eq.
  intros H ?. repeat split; try tauto; lia.
Qed.

(** Only records of the same command meet.  A target record handed to a
    host record, offline or online, has its controller, queue, command id,
    opcode, namespace, starting block and length, and it is the oldest such
    record that was waiting; when none is handed out, no waiting record is of
    that command. *)
Theorem match_same_command (j : ntp_joiner) (h : ntp_host_rec) out j' :
  joiner_wf j -> id_ok (h_id h) ->
  (forall t, t ∈ queue (targets j) (key_of (h_id h)) -> id_ok (t_id t)) ->
  ntp_joiner_match j h = (out, j') ->
  match out with
  | Some t =>
      same_identity (t_id t) (h_id h) /\
      exists pre post, queue (targets j) (key_of (h_id h)) = pre ++ t :: post /\
        (forall t', t' ∈ pre -> ~ same_identity (t_id t') (h_id h)) /\
        queue (targets j') (key_of (h_id h)) = pre ++ post
  | None => forall t k, t ∈ queue (targets j) k -> ~ same_identity (t_id t) (h_id h)
  end.
Proof.
  intros (_ & Ht & _) Hh Hids. unfold ntp_joiner_match.
  pose proof (table_take_spec _ _ (h_id h) Ht) as Hs.
  pose proof (fun k => queue_keys _ (targets j) k Ht) as Hkeys.
  destruct (table_take (targets j) (h_id h)) as [[t tbl]|]; intros [= <- <-].
  - destruct Hs as (_ & (pre & post & Hq & Hsame & Hpre & Hq') & _).
    specialize (Hkeys (key_of (h_id h))). rewrite Hq in Hids, Hkeys. rewrite Forall_app, Forall_cons in Hkeys.
    destruct Hkeys as (_ & Hk & _).
    split; [apply key_same_identity; try done; apply Hids; rewrite elem_of_app, elem_of_cons; auto|].
    exists pre, post. split; [done|]. split; [|simpl; by rewrite Hq', Z.eqb_refl].
    intros t' Hin [_ Hsi]%same_identity_key. rewrite Forall_forall in Hpre. specialize (Hpre t' Hin).
    simpl in Hpre. congruence.
  - intros t k Hin [Hk Hsi]%same_identity_key.
    specialize (Hkeys k). rewrite Forall_forall in Hkeys. specialize (Hkeys t Hin). simpl in Hkeys.
    rewrite Hk in Hkeys. subst k. unfold q_lacks in Hs. rewrite Forall_forall in Hs.
    specialize (Hs t Hin). simpl in Hs. congruence.
Qed.

(** Online operations. *)
Definition online (op : join_op) : bool :=
  match op with OpAddTarget _ | OpMatch _ => false | _ => true end.

(** No waiting host record and waiting target record are of the same command. *)
Definition no_missed (j : ntp_joiner) : Prop :=
  forall k h t, h ∈ queue (hosts j) k -> t ∈ queue (targets j) k ->
    same_command (t_id t) (h_id h) = false.

Lemma elem_of_q_push {R} `{Keyed R} max (r x : R) q k :
  x ∈ q_push max r q k -> x ∈ q k \/ (x = r /\ k = key_of (id_of r)).
Proof.
  unfold q_push. destruct (Z.eqb_spec k (key_of (id_of r))) as [->|]; [|by left].
  rewrite elem_of_app, list_elem_of_singleton. intros [Hx| ->]; [|by right]. left.
  destruct (q_full _ _); [|done]. destruct (q _); [done|by right].
Qed.

Lemma elem_of_q_takes {R} `{Keyed R} id q (out x : R) q' k :
  q_takes id q out q' -> x ∈ q' k -> x ∈ q k.
Proof.
  intros (pre & post & Hq & _ & _ & Hq') Hx. rewrite Hq' in Hx.
  destruct (Z.eqb_spec k (key_of id)) as [->|]; [|done]. rewrite Hq, elem_of_app, elem_of_cons. rewrite elem_of_app in Hx. tauto.
Qed.

Lemma no_missed_step op j j' :
  joiner_wf j -> online op = true -> no_missed j -> join_step j op = Some j' -> no_missed j'.
Proof.
  intros (Hm & Ht & Hh) Ho Hn. destruct op as [| |t|h|before|before]; try done; simpl.
  - unfold ntp_joiner_target_arrives, ntp_joiner_add_target.
    pose proof (table_take_spec _ _ (t_id t) Hh) as Hs.
    destruct (table_take (hosts j) (t_id t)) as [[out tbl]|]; simpl.
    + intros [= <-] k h0 t0 H1 H2. destruct Hs as (_ & Hq & _).
      apply (Hn k); [by eapply elem_of_q_takes|done].
    + destruct (push_change _ (targets j) t Hm Ht) as (dr & tbl & -> & _ & Q & _). simpl.
      intros [= <-] k h0 t0 H1 H2. simpl in *. rewrite Q in H2.
      apply elem_of_q_push in H2 as [H2|[-> ->]]; [by apply (Hn k)|].
      unfold q_lacks in Hs. rewrite Forall_forall in Hs. rewrite same_command_sym. by apply Hs.
  - unfold ntp_joiner_host_arrives.
    pose proof (table_take_spec _ _ (h_id h) Ht) as Hs.
    destruct (table_take (targets j) (h_id h)) as [[out tbl]|]; simpl.
    + intros [= <-] k h0 t0 H1 H2. destruct Hs as (_ & Hq & _).
      apply (Hn k); [done|by eapply elem_of_q_takes].
    + destruct (push_change _ (hosts j) h Hm Hh) as (dr & tbl & -> & _ & Q & _). simpl.
      intros [= <-] k h0 t0 H1 H2.
      assert (h0 ∈ queue tbl k /\ t0 ∈ queue (targets j) k) as [H1' H2'] by by destruct (nz dr).
      rewrite Q in H1'. apply elem_of_q_push in H1' as [H1'|[-> ->]]; [by apply (Hn k)|].
      unfold q_lacks in Hs. rewrite Forall_forall in Hs. by apply Hs.
  - unfold ntp_joiner_release_hosts. destruct (table_expire (hosts j) before) as [outs tbl] eqn:E.
    destruct (expire_change _ _ _ _ _ Hh E) as (_ & Q & _). intros [= <-] k h0 t0 H1 H2. simpl in *.
    rewrite Q, list_elem_of_filter in H1. destruct H1 as [_ H1]. by apply (Hn k).
  - unfold ntp_joiner_expire. destruct (table_expire (targets j) before) as [outs tbl] eqn:E.
    destruct (expire_change _ _ _ _ _ Ht E) as (_ & Q & _). intros [= <-] k h0 t0 H1 H2. simpl in *.
    rewrite Q, list_elem_of_filter in H2. destruct H2 as [_ H2]. by apply (Hn k).
Qed.

Lemma queue_init {R} `{Keyed R} k : queue (table_init (R := R)) k = [].
Proof.
  unfold queue, chain_of. destruct (slots table_init !! _) as [c|] eqn:E; [|done].
  unfold table_init in E. cbn [slots] in E. by apply lookup_replicate in E as [-> _].
Qed.

(** C27: no join is missed online.  In whatever order the records of the two
    sides arrive, with releases and expiries in between, no waiting host
    record and no waiting target record are ever of the same command: a pair
    that is present on both sides has been joined. *)
Theorem online_no_missed_join (max : Z) (ops : list join_op) j :
  0 <= max -> forallb online ops = true ->
  join_run (ntp_joiner_new max) ops = Some j -> no_missed j.
Proof.
  intros Hm. destruct (joiner_new_ok max Hm) as [Hj _].
  assert (no_missed (ntp_joiner_new max)) as Hn.
  { intros k h t Hh. change (h ∈ queue table_init k) in Hh. rewrite queue_init in Hh. inversion Hh. }
  revert Hj Hn. generalize (ntp_joiner_new max) as j0.
  induction ops as [|op ops IH]; intros j0 Hj Hn Hon E; simpl in *; [by injection E as <-|].
  apply andb_prop in Hon as [Ho Hon].
  destruct (join_step_ok op j0 Hj) as (j1 & E1 & Hj1 & _). rewrite E1 in E. simpl in E.
  apply (IH j1); [done| |done|done]. exact (no_missed_step op j0 j1 Hj Ho Hn E1).
Qed.

(** ** A short session

    Two target records under one key, a host record of the second, one that
    waits, and the target record that ends its waiting. *)

Definition cmd (slba : Z) : ntp_cmd_id := mk_cmd_id slba 1 3 2 7 8 NTP_NVME_CMD_READ [0; 0; 0].
Definition tgt_of (slba : Z) : ntp_tgt_rec :=
  mk_tgt_rec zero_hdr (cmd slba) 4096 0 0 (replicate NTP_T_NR 5000) 0 0 0.
Definition host_of (slba : Z) : ntp_host_rec :=
  mk_host_rec zero_hdr (cmd slba) 4096 0 0 0 0 (replicate NTP_DISK_NAME_LEN 0)
    (replicate NTP_H_NR 9000) 0 0 0.

Definition session : list join_op :=
  [OpTargetArrives (tgt_of 16); OpTargetArrives (tgt_of 32); OpTargetArrives (tgt_of 48);
   OpHostArrives (host_of 32); OpHostArrives (host_of 64); OpTargetArrives (tgt_of 64);
   OpExpire 100; OpReleaseHosts 100].

Definition ran (o : option ntp_joiner) : bool := match o with Some _ => true | None => false end.

Lemma ran_some o : ran o = true -> exists j, o = Some j.
Proof. destruct o; [eauto|done]. Qed.

(** Of four target records one was evicted (two per key), two were matched. *)
Example session_stats :
  match join_run (ntp_joiner_new 2) session with
  | Some j => (st j, ntp_joiner_pending j, ntp_joiner_waiting_hosts j)
              = (mk_join_stats 4 1 0 2 0, 1, 0)
  | None => False
  end.
Proof. vm_compute. reflexivity. Qed.

Lemma joiner_safe_witness :
  exists j, join_run (ntp_joiner_new 2) session = Some j /\ joiner_wf j /\ max_per_key j = 2 /\
    (0 < 2 -> forall k, Z.of_nat (length (queue (targets j) k)) <= 2 /\
                        Z.of_nat (length (queue (hosts j) k)) <= 2).
Proof. apply (joiner_safe 2 session). lia. Defined.

Lemma joiner_accounting_witness :
  exists j, join_run (ntp_joiner_new 2) session = Some j /\
  targets_added (st j) ≡₆₄ total brings_target session /\
  targets_added (st j) ≡₆₄ matched (st j) + targets_evicted (st j) + targets_expired (st j) +
                           ntp_joiner_pending j /\
  total brings_host session ≡₆₄ matched (st j) + host_unmatched (st j) + ntp_joiner_waiting_hosts j.
Proof.
  destruct (ran_some (join_run (ntp_joiner_new 2) session)) as [j E]; [by vm_compute|].
  exists j. split; [exact E|]. apply (joiner_accounting 2 session j); [lia|exact E].
Defined.

Lemma table_refines_queues_witness :
  exists dropped t',
    table_push table_init (tgt_of 16) 4 = Some (dropped, t') /\ table_wf 4 t' /\
    (forall k, queue t' k = q_push 4 (tgt_of 16) (queue table_init) k) /\
    dropped = Z.of_nat (length (push_drops 4 (tgt_of 16) (queue table_init))).
Proof.
  apply (table_refines_queues 4 (table_init (R := ntp_tgt_rec))); [lia|apply table_init_wf].
Defined.

Lemma cmd_ok slba : is_u64 slba -> id_ok (cmd slba).
Proof.
  intros Hs. unfold id_ok. simpl. split; [done|]. unfold is_u32, is_u16, is_u8.
  repeat (split; [lia|]). apply (bool_decide_unpack _). by vm_compute.
Qed.

(** The joiner after the first three operations holds two records of the key. *)
Lemma match_same_command_witness :
  exists j, join_run (ntp_joiner_new 2) (take 3 session) = Some j /\
  (ntp_joiner_match j (host_of 48)).1 = Some (tgt_of 48) /\
  match (ntp_joiner_match j (host_of 48)).1 with
  | Some t => same_identity (t_id t) (h_id (host_of 48)) /\
      exists pre post, queue (targets j) (key_of (h_id (host_of 48))) = pre ++ t :: post /\
        (forall t', t' ∈ pre -> ~ same_identity (t_id t') (h_id (host_of 48))) /\
        queue (targets (ntp_joiner_match j (host_of 48)).2) (key_of (h_id (host_of 48))) = pre ++ post
  | None => forall t k, t ∈ queue (targets j) k -> ~ same_identity (t_id t) (h_id (host_of 48))
  end.
Proof.
  destruct (joiner_new_ok 2 ltac:(lia)) as [Hj Ha].
  destruct (join_run_ok (take 3 session) _ _ _ Hj Ha) as (j & E & Hj' & _).
  exists j. split; [exact E|].
  assert (j = default (ntp_joiner_new 2) (join_run (ntp_joiner_new 2) (take 3 session))) as Ej by by rewrite E.
  split; [rewrite Ej; by vm_compute|].
  apply (match_same_command j (host_of 48) _ (ntp_joiner_match j (host_of 48)).2).
  - exact Hj'.
  - apply cmd_ok. unfold is_u64. lia.
  - assert (queue (targets j) (key_of (h_id (host_of 48))) = [tgt_of 32; tgt_of 48]) as ->
      by (rewrite Ej; vm_compute; reflexivity).
    intros t. rewrite !elem_of_cons, elem_of_nil.
    intros [-> | [-> | []]]; apply cmd_ok; unfold is_u64; lia.
  - apply surjective_pairing.
Defined.

Lemma online_no_missed_join_witness :
  exists j, join_run (ntp_joiner_new 2) session = Some j /\ no_missed j.
Proof.
  destruct (ran_some (join_run (ntp_joiner_new 2) session)) as [j E]; [by vm_compute|].
  exists j. split; [exact E|]. apply (online_no_missed_join 2 session j); [lia|reflexivity|exact E].
Defined.
