(* ===== verification/TraceFile.v ===== *)
(** * Record files (src/trace_file.h, src/trace_file.c)

    A file is a fixed header followed by raw records.  Structs are modelled
    with their byte layout (little endian, no implicit padding): a [codec]
    writes a value as bytes and reads one back off the front of a byte string.
    A [FILE*] open for reading is the bytes still to come, with whether the
    device fails (rather than ends) after them. *)
From stdpp Require Import base numbers list.
From Stdlib Require Import ZArith Lia.
From S2P Require Import Prelude Types.

(** ** Bytes *)

Abbreviation bytes := (list Z).

(** [n] bytes of [v], least significant first *)
Fixpoint le (n : nat) (v : Z) : bytes :=
  match n with
  | O => []
  | S n => v mod 256 :: le n (v / 256)
  end.

Fixpoint unle (l : bytes) : Z :=
  match l with
  | [] => 0
  | b :: l => b + 256 * unle l
  end.

(** Reading a struct member by member. *)
Definition parser (A : Type) : Type := bytes -> A * bytes.
Definition pret {A} (a : A) : parser A := fun s => (a, s).
Definition pbind {A B} (p : parser A) (f : A -> parser B) : parser B :=
  fun s => let '(a, s) := p s in f a s.

Notation "'get' x := p 'in' q" := (pbind p (fun x => q))
  (at level 10, x name, p at level 100, q at level 200).

Definition p_int (n : nat) : parser Z := fun s => (unle (take n s), drop n s).
Definition p_bytes (n : nat) : parser bytes := fun s => (take n s, drop n s).

(** an array of [n] 64-bit integers *)
Fixpoint p_ts (n : nat) : parser (list Z) :=
  match n with
  | O => pret []
  | S n => get x := p_int 8 in get l := p_ts n in pret (x :: l)
  end.

(** ** The structs of ntprof.h *)

Definition enc_hdr (h : ntp_rec_hdr) : bytes :=
  le 1 (kind h) ++ le 1 (transport h) ++ le 2 (flags h) ++ le 4 (cpu h).
Definition p_hdr : parser ntp_rec_hdr :=
  get k := p_int 1 in get tr := p_int 1 in get f := p_int 2 in get c := p_int 4 in
  pret (mk_rec_hdr k tr f c).

Definition enc_id (i : ntp_cmd_id) : bytes :=
  le 8 (slba i) ++ le 4 (nsid i) ++ le 2 (cntlid i) ++ le 2 (qid i) ++ le 2 (cid i) ++
  le 2 (nlb i) ++ le 1 (opcode i) ++ id_pad i.
Definition p_id : parser ntp_cmd_id :=
  get s := p_int 8 in get n := p_int 4 in get c := p_int 2 in get q := p_int 2 in
  get i := p_int 2 in get l := p_int 2 in get o := p_int 1 in get pad := p_bytes 3 in
  pret (mk_cmd_id s n c q i l o pad).

Definition enc_host (h : ntp_host_rec) : bytes :=
  enc_hdr (h_hdr h) ++ enc_id (h_id h) ++ le 4 (h_bytes h) ++ le 4 (ctrl_instance h) ++
  le 2 (q_unsent h) ++ le 2 (q_inflight h) ++ le 4 (h_pad h) ++ disk h ++
  concat (map (le 8) (h_ts h)) ++ le 8 (c2h_busy_ns h) ++ le 4 (c2h_skbs h) ++ le 4 (h_pad2 h).
Definition p_host : parser ntp_host_rec :=
  get hd := p_hdr in get i := p_id in get b := p_int 4 in get ci := p_int 4 in
  get qu := p_int 2 in get qi := p_int 2 in get pad := p_int 4 in
  get dk := p_bytes NTP_DISK_NAME_LEN in get ts := p_ts NTP_H_NR in
  get busy := p_int 8 in get skbs := p_int 4 in get pad2 := p_int 4 in
  pret (mk_host_rec hd i b ci qu qi pad dk ts busy skbs pad2).

(** The bytes of a record from its disk on, which is what a C string that starts there is
    made of: [ts] and the fields behind it follow a name without a NUL.  (Behind the end
    of the record C leaves open what is read; a string ends there in the model.) *)
Definition disk_chars (h : ntp_host_rec) : bytes :=
  disk h ++ concat (map (le 8) (h_ts h)) ++ le 8 (c2h_busy_ns h) ++ le 4 (c2h_skbs h) ++ le 4 (h_pad2 h).

Definition enc_tgt (t : ntp_tgt_rec) : bytes :=
  enc_hdr (t_hdr t) ++ enc_id (t_id t) ++ le 4 (t_bytes t) ++ le 2 (q_outstanding t) ++
  le 2 (q_resp_queue t) ++ concat (map (le 8) (t_ts t)) ++ le 8 (h2c_busy_ns t) ++
  le 4 (h2c_skbs t) ++ le 4 (t_pad2 t).
Definition p_tgt : parser ntp_tgt_rec :=
  get hd := p_hdr in get i := p_id in get b := p_int 4 in get qo := p_int 2 in
  get qr := p_int 2 in get ts := p_ts NTP_T_NR in
  get busy := p_int 8 in get skbs := p_int 4 in get pad2 := p_int 4 in
  pret (mk_tgt_rec hd i b qo qr ts busy skbs pad2).

(** [sizeof] and [offsetof] *)
Definition SIZEOF_HDR : nat := 8.
Definition SIZEOF_HOST : nat := 224.
Definition SIZEOF_TGT : nat := 184.
Definition OFFSETOF_HOST_TS : nat := 80.
Definition OFFSETOF_TGT_TS : nat := 40.

(** ** The file header *)

(** "NTPROF2" with its terminating 0 *)
Definition NTP_FILE_MAGIC : bytes := [78; 84; 80; 82; 79; 70; 50; 0].
Definition NTP_FILE_VERSION : Z := 5.

Record ntp_file_header := mk_file_header {
  magic : bytes;
  version : Z;
  header_size : Z;
  host_rec_size : Z;
  tgt_rec_size : Z;
  f_role : Z;
  f_transport : Z;
  f_sample_every : Z;
  f_pad : Z;
  start_mono_ns : Z;
  start_real_ns : Z;
  hostname : bytes;
  kernel : bytes
}.

Definition SIZEOF_FILE_HEADER : nat := 184.

Definition enc_header (h : ntp_file_header) : bytes :=
  magic h ++ le 4 (version h) ++ le 4 (header_size h) ++ le 4 (host_rec_size h) ++
  le 4 (tgt_rec_size h) ++ le 4 (f_role h) ++ le 4 (f_transport h) ++ le 4 (f_sample_every h) ++
  le 4 (f_pad h) ++ le 8 (start_mono_ns h) ++ le 8 (start_real_ns h) ++ hostname h ++ kernel h.
Definition p_header : parser ntp_file_header :=
  get m := p_bytes 8 in get v := p_int 4 in get hs := p_int 4 in get hr := p_int 4 in
  get tr := p_int 4 in get ro := p_int 4 in get t := p_int 4 in get se := p_int 4 in
  get pad := p_int 4 in get mono := p_int 8 in get real := p_int 8 in
  get hn := p_bytes 64 in get kn := p_bytes 64 in
  pret (mk_file_header m v hs hr tr ro t se pad mono real hn kn).

(** The bytes of a header from its host name on; its last field is the kernel. *)
Definition hostname_chars (h : ntp_file_header) : bytes := hostname h ++ kernel h.

(** A C string of at most 63 bytes in a zeroed 64-byte array. *)
Definition str64 (s : bytes) : bytes := take 63 s ++ replicate (64 - length (take 63 s)) 0.

(** What the machine answers: the clocks, gethostname() (up to the 63 bytes it
    may write, or failure) and uname()'s release. *)
Record machine := mk_machine {
  mono_ns : Z; real_ns : Z; host_name : option bytes; release : option bytes
}.

Definition unknown : bytes := [117; 110; 107; 110; 111; 119; 110].

Definition ntp_header_init (m : machine) (role transport sample_every : Z) : ntp_file_header :=
  mk_file_header NTP_FILE_MAGIC NTP_FILE_VERSION (Z.of_nat SIZEOF_FILE_HEADER)
    (Z.of_nat SIZEOF_HOST) (Z.of_nat SIZEOF_TGT) role transport sample_every 0
    (mono_ns m) (real_ns m)
    (str64 (default unknown (host_name m)))
    (match release m with Some r => str64 r | None => replicate 64 0 end).

(** ** Writing *)

(** What the stream of an open file has taken so far and the number of records; [None]
    for no file. *)
Record ntp_writer := mk_writer { w_f : option bytes; w_records : Z }.

(** [create] and [ok]: whether fopen() and fwrite() succeed. *)
Definition ntp_writer_open (create ok : bool) (hdr : ntp_file_header) : Z * ntp_writer :=
  if negb create then (-1, mk_writer None 0)
  else if ok then (0, mk_writer (Some (enc_header hdr)) 0)
  else (-1, mk_writer None 0).

(** What fwrite() of a record answers: it is written, or it is not, and then the stream may
    have taken some of its bytes. *)
Inductive fwrite_answer := FwAll | FwShort (part : nat).

Definition ntp_writer_add (w : ntp_writer) (rec : bytes) (a : fwrite_answer) : Z * ntp_writer :=
  match w_f w, a with
  | Some f, FwAll => (0, mk_writer (Some (f ++ rec)) (u64 (w_records w + 1)))
  | Some f, FwShort n => (-1, mk_writer (Some (f ++ take n rec)) (w_records w))
  | None, _ => (-1, w)
  end.

(** [ok]: whether fclose() succeeds, which it does when all the stream took is in the
    file. *)
Definition ntp_writer_close (w : ntp_writer) (ok : bool) : Z * ntp_writer :=
  match w_f w with
  | None => (0, w)
  | Some _ => (if ok then 0 else -1, mk_writer None (w_records w))
  end.

(** ** Reading *)

Record stream := mk_stream { s_rest : bytes; s_fails : bool; s_error : bool }.

(** One object of [n] bytes; a short read consumes what there is and sets the
    error indicator when the device failed. *)
Definition fread (n : nat) (s : stream) : option bytes * stream :=
  if (n <=? length (s_rest s))%nat
  then (Some (take n (s_rest s)), mk_stream (drop n (s_rest s)) (s_fails s) (s_error s))
  else (None, mk_stream [] (s_fails s) (s_error s || s_fails s)).

Section Reader.
  Context {A : Type}.

(** The callbacks, on the state [arg] points to; a missing one is [None]. *)
Record ntp_reader_ops := mk_ops {
  on_host : option (ntp_host_rec -> A -> Z * A);
  on_target : option (ntp_tgt_rec -> A -> Z * A)
}.

Definition host_size_of (version : Z) : nat :=
  if 4 <=? version then SIZEOF_HOST else OFFSETOF_HOST_TS + NTP_H_NR_V3 * 8.
Definition tgt_size_of (version : Z) : nat :=
  if 5 <=? version then SIZEOF_TGT
  else if 3 <=? version then OFFSETOF_TGT_TS + NTP_T_NR_V4 * 8
  else OFFSETOF_TGT_TS + t_idx NTP_T_SEND_DONE * 8.

(** The union of the record types is as large as a host record; what was not
    read is 0. *)
Definition union_of (b : bytes) : bytes := b ++ replicate (SIZEOF_HOST - length b) 0.

(** One turn of the loop for a record header just read: the new [ret], whether
    the loop is left by [break], and the callback's state. *)
Definition read_one (host_size tgt_size : nat) (ops : ntp_reader_ops) (hdr : bytes)
    (s : stream) (arg : A) : Z * stream * A :=
  let k := kind (p_hdr hdr).1 in
  let size :=
    if k =? NTP_REC_HOST then Some host_size
    else if k =? NTP_REC_TARGET then Some tgt_size else None in
  match size with
  | None => (-1, s, arg)
  | Some size =>
      match fread (size - SIZEOF_HDR) s with
      | (None, s) => (-1, s, arg)
      | (Some body, s) =>
          let rec := union_of (hdr ++ body) in
          if k =? NTP_REC_HOST then
            match on_host ops with
            | Some f => let '(ret, arg) := f (p_host rec).1 arg in (ret, s, arg)
            | None => (0, s, arg)
            end
          else
            match on_target ops with
            | Some f => let '(ret, arg) := f (p_tgt rec).1 arg in (ret, s, arg)
            | None => (0, s, arg)
            end
      end
  end.

(** The loop; each turn reads a header, so the bytes left bound the turns. *)
Fixpoint read_records (fuel : nat) (host_size tgt_size : nat) (ops : ntp_reader_ops)
    (s : stream) (arg : A) : option (Z * stream * A) :=
  match fuel with
  | O => None
  | S fuel =>
      match fread SIZEOF_HDR s with
      | (None, s) => Some (0, s, arg)
      | (Some hdr, s) =>
          let '(ret, s, arg) := read_one host_size tgt_size ops hdr s arg in
          if nz ret then Some (ret, s, arg)
          else read_records fuel host_size tgt_size ops s arg
      end
  end.

(** [None] for a file that cannot be opened.  The result is the C return
    value, the header when one was read, and the callbacks' state. *)
Definition ntp_read_file (file : option stream) (ops : ntp_reader_ops) (arg : A)
    : option (Z * option ntp_file_header * A) :=
  match file with
  | None => Some (-1, None, arg)
  | Some s =>
      match fread SIZEOF_FILE_HEADER s with
      | (None, _) => Some (-1, None, arg)
      | (Some b, s) =>
          let hdr := (p_header b).1 in
          if negb (bool_decide (magic hdr = NTP_FILE_MAGIC)) then Some (-1, Some hdr, arg)
          else
            let host_size := host_size_of (version hdr) in
            let tgt_size := tgt_size_of (version hdr) in
            if (version hdr <? 2) || (NTP_FILE_VERSION <? version hdr) ||
               negb (header_size hdr =? Z.of_nat SIZEOF_FILE_HEADER) ||
               negb (host_rec_size hdr =? Z.of_nat host_size) ||
               negb (tgt_rec_size hdr =? Z.of_nat tgt_size)
            then Some (-1, Some hdr, arg)
            else
              match read_records (S (length (s_rest s))) host_size tgt_size ops s arg with
              | None => None
              | Some (ret, s, arg) =>
                  let ret := if s_error s then -1 else ret in
                  Some (if ret <? 0 then -1 else 0, Some hdr, arg)
              end
      end
  end.

End Reader.
Arguments ntp_reader_ops : clear implicits.

(** ** Codecs *)

Create HintDb codec.

(** [p] reads back what [e] wrote, and nothing more. *)
Definition reads {A} (p : parser A) (e : bytes) (v : A) : Prop :=
  forall rest, p (e ++ rest) = (v, rest).

Lemma le_length n v : length (le n v) = n.
Proof. revert v. induction n as [|n IH]; intros v; simpl; [done|]. by rewrite IH. Qed.

Lemma unle_le n v : 0 <= v < 256 ^ Z.of_nat n -> unle (le n v) = v.
Proof.
  revert v. induction n as [|n IH]; intros v Hv; simpl in *; [lia|].
  rewrite IH.
  - pose proof (Z_div_mod_eq_full v 256). lia.
  - replace (Z.of_nat (S n)) with (Z.of_nat n + 1) in Hv by lia.
    rewrite Z.pow_add_r in Hv by lia. split; [apply Z.div_pos; lia|].
    apply Z.div_lt_upper_bound; lia.
Qed.

Lemma reads_int n v : 0 <= v < 256 ^ Z.of_nat n -> reads (p_int n) (le n v) v.
Proof.
  intros Hv rest. unfold p_int. rewrite take_app_length', drop_app_length' by (by rewrite le_length).
  by rewrite unle_le.
Qed.

Lemma reads_bytes n l : length l = n -> reads (p_bytes n) l l.
Proof. intros Hl rest. unfold p_bytes. by rewrite take_app_length', drop_app_length'. Qed.

Lemma reads_ret {A} (v : A) : reads (pret v) [] v.
Proof. by intros rest. Qed.

Lemma reads_bind {A B} (p : parser A) (f : A -> parser B) e1 e2 v w :
  reads p e1 v -> reads (f v) e2 w -> reads (pbind p f) (e1 ++ e2) w.
Proof. intros H1 H2 rest. unfold pbind. rewrite <- app_assoc, H1. apply H2. Qed.

Lemma reads_last {A B} (p : parser A) (f : A -> parser B) e v w :
  reads p e v -> (forall rest, f v rest = (w, rest)) -> reads (pbind p f) e w.
Proof. intros H1 H2 rest. unfold pbind. rewrite H1. apply H2. Qed.

Lemma reads_ts l : Forall is_u64 l -> reads (p_ts (length l)) (concat (map (le 8) l)) l.
Proof.
  induction 1 as [|x l Hx Hl IH]; cbn [p_ts length map concat]; [apply reads_ret|].
  apply (reads_bind _ _ _ _ x); [apply reads_int; exact Hx|].
  apply (reads_last _ _ _ l); [exact IH|done].
Qed.

(** [reads_struct] follows a struct's members. *)
Ltac reads_struct x :=
  repeat first
    [ eapply reads_bind; [solve [eauto with codec]|]
    | eapply reads_last; [solve [eauto with codec]|intros ?; by destruct x] ].

Lemma reads_u8 v : is_u8 v -> reads (p_int 1) (le 1 v) v.
Proof. intros H. by apply reads_int. Qed.
Lemma reads_u16 v : is_u16 v -> reads (p_int 2) (le 2 v) v.
Proof. intros H. by apply reads_int. Qed.
Lemma reads_u32 v : is_u32 v -> reads (p_int 4) (le 4 v) v.
Proof. intros H. by apply reads_int. Qed.
Lemma reads_u64 v : is_u64 v -> reads (p_int 8) (le 8 v) v.
Proof. intros H. by apply reads_int. Qed.
#[export] Hint Resolve reads_u8 reads_u16 reads_u32 reads_u64 reads_bytes : codec.

Lemma reads_hdr h : hdr_ok h -> reads p_hdr (enc_hdr h) h.
Proof.
  intros (H1 & H2 & H3 & H4). unfold p_hdr, enc_hdr.
  reads_struct h.
Qed.

Lemma reads_id i : id_ok i -> reads p_id (enc_id i) i.
Proof.
  intros (H1 & H2 & H3 & H4 & H5 & H6 & H7 & H8 & _). unfold p_id, enc_id.
  reads_struct i.
Qed.

Lemma reads_ts_n n l : length l = n -> Forall is_u64 l -> reads (p_ts n) (concat (map (le 8) l)) l.
Proof. intros <-. apply reads_ts. Qed.
#[export] Hint Resolve reads_hdr reads_id reads_ts_n : codec.

Lemma reads_host h : host_rec_ok h -> reads p_host (enc_host h) h.
Proof.
  intros (H1 & H2 & H3 & H4 & H5 & H6 & H7 & H8 & H9 & H10 & H11 & H12 & H13 & H14).
  unfold p_host, enc_host.
  reads_struct h.
Qed.

Lemma reads_tgt t : tgt_rec_ok t -> reads p_tgt (enc_tgt t) t.
Proof.
  intros (H1 & H2 & H3 & H4 & H5 & H6 & H7 & H8 & H9 & H10).
  unfold p_tgt, enc_tgt.
  reads_struct t.
Qed.

Definition header_ok (h : ntp_file_header) : Prop :=
  length (magic h) = 8%nat /\ is_u32 (version h) /\ is_u32 (header_size h) /\
  is_u32 (host_rec_size h) /\ is_u32 (tgt_rec_size h) /\ is_u32 (f_role h) /\
  is_u32 (f_transport h) /\ is_u32 (f_sample_every h) /\ is_u32 (f_pad h) /\
  is_u64 (start_mono_ns h) /\ is_u64 (start_real_ns h) /\
  length (hostname h) = 64%nat /\ length (kernel h) = 64%nat.

Lemma reads_header h : header_ok h -> reads p_header (enc_header h) h.
Proof.
  intros (H1 & H2 & H3 & H4 & H5 & H6 & H7 & H8 & H9 & H10 & H11 & H12 & H13).
  unfold p_header, enc_header.
  reads_struct h.
Qed.

(** *** Sizes *)

Lemma concat_le_length l : length (concat (map (le 8) l)) = (8 * length l)%nat.
Proof.
  induction l as [|x l IH]; cbn [map concat length]; [done|].
  rewrite length_app, IH, le_length. lia.
Qed.

Lemma enc_hdr_length h : length (enc_hdr h) = SIZEOF_HDR.
Proof. unfold enc_hdr. by rewrite !length_app, !le_length. Qed.
Lemma enc_id_length i : length (id_pad i) = 3%nat -> length (enc_id i) = 24%nat.
Proof. intros H. unfold enc_id. by rewrite !length_app, !le_length, H. Qed.
Lemma enc_host_length h : host_rec_ok h -> length (enc_host h) = SIZEOF_HOST.
Proof.
  intros (_ & (_ & _ & _ & _ & _ & _ & _ & Hp & _) & _ & _ & _ & _ & _ & Hd & _ & Ht & _).
  unfold enc_host. by rewrite !length_app, enc_hdr_length, enc_id_length, !le_length, concat_le_length, Hd, Ht.
Qed.
Lemma enc_tgt_length t : tgt_rec_ok t -> length (enc_tgt t) = SIZEOF_TGT.
Proof.
  intros (_ & (_ & _ & _ & _ & _ & _ & _ & Hp & _) & _ & _ & _ & Ht & _).
  unfold enc_tgt. by rewrite !length_app, enc_hdr_length, enc_id_length, !le_length, concat_le_length, Ht.
Qed.
Lemma enc_header_length h : header_ok h -> length (enc_header h) = SIZEOF_FILE_HEADER.
Proof.
  intros (H1 & _ & _ & _ & _ & _ & _ & _ & _ & _ & _ & H12 & H13).
  unfold enc_header. by rewrite !length_app, !le_length, H1, H12, H13.
Qed.

(** ** What is read of what was written *)

Inductive rec := RHost (h : ntp_host_rec) | RTgt (t : ntp_tgt_rec).

Definition enc_rec (r : rec) : bytes :=
  match r with RHost h => enc_host h | RTgt t => enc_tgt t end.
Definition rec_ok (r : rec) : Prop :=
  match r with
  | RHost h => host_rec_ok h /\ kind (h_hdr h) = NTP_REC_HOST
  | RTgt t => tgt_rec_ok t /\ kind (t_hdr t) = NTP_REC_TARGET
  end.

(** A record of file version [v] ends at the fields that version had; the
    reader sees the others as 0. *)
Definition clip_ts (n : nat) (l : list Z) : list Z := take n l ++ replicate (length l - n) 0.

Definition clip_host (n : nat) (h : ntp_host_rec) : ntp_host_rec :=
  mk_host_rec (h_hdr h) (h_id h) (h_bytes h) (ctrl_instance h) (q_unsent h) (q_inflight h)
    (h_pad h) (disk h) (clip_ts n (h_ts h)) 0 0 0.
Definition clip_tgt (n : nat) (t : ntp_tgt_rec) : ntp_tgt_rec :=
  mk_tgt_rec (t_hdr t) (t_id t) (t_bytes t) (q_outstanding t) (q_resp_queue t)
    (clip_ts n (t_ts t)) 0 0 0.

Definition as_version (v : Z) (r : rec) : rec :=
  match r with
  | RHost h => RHost (if 4 <=? v then h else clip_host NTP_H_NR_V3 h)
  | RTgt t => RTgt (if 5 <=? v then t
                    else if 3 <=? v then clip_tgt NTP_T_NR_V4 t
                    else clip_tgt (t_idx NTP_T_SEND_DONE) t)
  end.

Definition size_in (v : Z) (r : rec) : nat :=
  match r with RHost _ => host_size_of v | RTgt _ => tgt_size_of v end.

(** The bytes of a record in a file of version [v]. *)
Definition written (v : Z) (r : rec) : bytes := take (size_in v r) (enc_rec r).

Lemma le_zero n : le n 0 = replicate n 0.
Proof. induction n as [|n IH]; simpl; [done|]. by rewrite <- IH. Qed.

Lemma concat_le_zero n : concat (map (le 8) (replicate n 0)) = replicate (8 * n) 0.
Proof.
  induction n as [|n IH]; [done|]. cbn [replicate map concat]. rewrite IH, le_zero.
  rewrite <- replicate_add. f_equal. lia.
Qed.

Lemma clip_ts_concat n l :
  (n <= length l)%nat ->
  concat (map (le 8) (clip_ts n l)) =
  take (8 * n) (concat (map (le 8) l)) ++ replicate (8 * (length l - n)) 0.
Proof.
  intros Hn. unfold clip_ts. rewrite map_app, concat_app, concat_le_zero. f_equal.
  rewrite <- (take_drop n l) at 2. rewrite map_app, concat_app, take_app_length'; [done|].
  rewrite concat_le_length, length_take. lia.
Qed.

(** Zero filling after a cut inside the timestamps clips the record. *)
Lemma cut_ts (pre post : bytes) (l : list Z) n k :
  (n <= length l)%nat -> k = (length pre + 8 * n)%nat ->
  take k (pre ++ concat (map (le 8) l) ++ post) ++ replicate (8 * (length l - n) + length post) 0 =
  pre ++ concat (map (le 8) (clip_ts n l)) ++ replicate (length post) 0.
Proof.
  intros Hn ->. rewrite clip_ts_concat by done.
  rewrite take_app_add, <- !app_assoc. f_equal.
  rewrite take_app_le by (rewrite concat_le_length; lia). f_equal.
  by rewrite replicate_add.
Qed.

Lemma clip_host_enc n h :
  host_rec_ok h -> (n <= NTP_H_NR)%nat ->
  take (OFFSETOF_HOST_TS + n * 8) (enc_host h) ++ replicate (SIZEOF_HOST - (OFFSETOF_HOST_TS + n * 8)) 0
  = enc_host (clip_host n h).
Proof.
  intros (_ & (_ & _ & _ & _ & _ & _ & _ & Hp & _) & _ & _ & _ & _ & _ & Hd & _ & Ht & _) Hn.
  unfold enc_host. cbn [h_hdr h_id h_bytes ctrl_instance q_unsent q_inflight h_pad disk h_ts
    c2h_busy_ns c2h_skbs h_pad2 clip_host].
  set (pre := enc_hdr (h_hdr h) ++ enc_id (h_id h) ++ le 4 (h_bytes h) ++ le 4 (ctrl_instance h) ++ le 2 (q_unsent h) ++
    le 2 (q_inflight h) ++ le 4 (h_pad h) ++ disk h).
  pose proof (cut_ts pre (le 8 (c2h_busy_ns h) ++ le 4 (c2h_skbs h) ++ le 4 (h_pad2 h)) (h_ts h) n
    (OFFSETOF_HOST_TS + n * 8)) as Hc.
  rewrite !length_app, !le_length, Ht in Hc. unfold pre in Hc. rewrite <- !app_assoc in Hc.
  rewrite !le_zero, <- !replicate_add, <- Hc; [|done|].
  - f_equal. f_equal. unfold SIZEOF_HOST, OFFSETOF_HOST_TS, NTP_H_NR in *. lia.
  - rewrite !length_app, enc_hdr_length, enc_id_length, !le_length, Hd by done.
    unfold SIZEOF_HDR, OFFSETOF_HOST_TS, NTP_DISK_NAME_LEN. lia.
Qed.

Lemma clip_tgt_enc n t :
  tgt_rec_ok t -> (n <= NTP_T_NR)%nat ->
  take (OFFSETOF_TGT_TS + n * 8) (enc_tgt t) ++ replicate (SIZEOF_TGT - (OFFSETOF_TGT_TS + n * 8)) 0
  = enc_tgt (clip_tgt n t).
Proof.
  intros (_ & (_ & _ & _ & _ & _ & _ & _ & Hp & _) & _ & _ & _ & Ht & _) Hn.
  unfold enc_tgt. cbn [t_hdr t_id t_bytes q_outstanding q_resp_queue t_ts h2c_busy_ns h2c_skbs t_pad2 clip_tgt].
  set (pre := enc_hdr (t_hdr t) ++ enc_id (t_id t) ++ le 4 (t_bytes t) ++ le 2 (q_outstanding t) ++ le 2 (q_resp_queue t)).
  pose proof (cut_ts pre (le 8 (h2c_busy_ns t) ++ le 4 (h2c_skbs t) ++ le 4 (t_pad2 t)) (t_ts t) n
    (OFFSETOF_TGT_TS + n * 8)) as Hc.
  rewrite !length_app, !le_length, Ht in Hc. unfold pre in Hc. rewrite <- !app_assoc in Hc.
  rewrite !le_zero, <- !replicate_add, <- Hc; [|done|].
  - f_equal. f_equal. unfold SIZEOF_TGT, OFFSETOF_TGT_TS, NTP_T_NR in *. lia.
  - rewrite !length_app, enc_hdr_length, enc_id_length, !le_length by done.
    unfold SIZEOF_HDR, OFFSETOF_TGT_TS. lia.
Qed.

Lemma clip_ts_ok n l : Forall is_u64 l -> Forall is_u64 (clip_ts n l).
Proof.
  intros Hl. apply Forall_app. split; [by apply Forall_take|].
  apply Forall_replicate. unfold is_u64. lia.
Qed.

Lemma clip_ts_length n l : (n <= length l)%nat -> length (clip_ts n l) = length l.
Proof. intros Hn. unfold clip_ts. rewrite length_app, length_take, length_replicate. lia. Qed.

Lemma as_version_ok v r : rec_ok r -> rec_ok (as_version v r).
Proof.
  assert (is_u64 0 /\ is_u32 0) as [Z64 Z32] by (unfold is_u64, is_u32; lia).
  destruct r as [h|t]; intros [Hok Hk]; simpl; (split; [|by repeat destruct (_ <=? _)]).
  - destruct (4 <=? v); [done|].
    destruct Hok as (H1 & H2 & H3 & H4 & H5 & H6 & H7 & H8 & H9 & H10 & H11 & _).
    repeat (split; [done || (simpl; by rewrite clip_ts_length by (rewrite H10; vm_compute; lia))
                   || by apply clip_ts_ok|]). done.
  - assert (forall n, (n <= NTP_T_NR)%nat -> tgt_rec_ok (clip_tgt n t)) as Hc.
    { intros n Hn. destruct Hok as (H1 & H2 & H3 & H4 & H5 & H6 & H7 & _).
      repeat (split; [done || (simpl; by rewrite clip_ts_length by (by rewrite H6))
                   || by apply clip_ts_ok|]). done. }
    destruct (5 <=? v); [done|]. destruct (3 <=? v); apply Hc; vm_compute; lia.
Qed.

Lemma fread_app n a b fl er :
  length a = n -> fread n (mk_stream (a ++ b) fl er) = (Some a, mk_stream b fl er).
Proof.
  intros <-. unfold fread. cbn [s_rest s_fails s_error].
  rewrite (proj2 (Nat.leb_le _ _)) by (rewrite length_app; lia).
  by rewrite take_app_length, drop_app_length.
Qed.

Lemma fread_short n l fl er :
  (length l < n)%nat -> fread n (mk_stream l fl er) = (None, mk_stream [] fl (er || fl)).
Proof. intros Hl. unfold fread. simpl. by rewrite (proj2 (Nat.leb_gt _ _)). Qed.

Lemma size_in_bounds v r :
  rec_ok r -> (SIZEOF_HDR <= size_in v r)%nat /\ (size_in v r <= length (enc_rec r))%nat /\
  length (written v r) = size_in v r.
Proof.
  intros Hr. assert ((SIZEOF_HDR <= size_in v r)%nat /\ (size_in v r <= length (enc_rec r))%nat) as [H1 H2].
  { destruct r as [h|t]; destruct Hr as [Hr _]; cbn [size_in enc_rec]; unfold host_size_of, tgt_size_of.
    - rewrite enc_host_length by done. destruct (4 <=? v); vm_compute; lia.
    - rewrite enc_tgt_length by done. destruct (5 <=? v), (3 <=? v); vm_compute; lia. }
  repeat split; [done|done|]. unfold written. rewrite length_take. lia.
Qed.

Lemma union_pad b n :
  length b = n -> (n <= SIZEOF_HOST)%nat -> union_of b = b ++ replicate (SIZEOF_HOST - n) 0.
Proof. intros <-. done. Qed.

(** The union after a record was read holds the record of that version. *)
Lemma union_written v r :
  rec_ok r -> exists z, union_of (written v r) = enc_rec (as_version v r) ++ z.
Proof.
  intros Hr. destruct (size_in_bounds v r Hr) as (_ & _ & Hl).
  unfold union_of. rewrite Hl. unfold written.
  destruct r as [h|t]; destruct Hr as [Hr _]; cbn [size_in as_version enc_rec]; unfold host_size_of, tgt_size_of.
  - destruct (4 <=? v).
    + rewrite take_ge by (rewrite enc_host_length; done). by eexists.
    + rewrite clip_host_enc by (done || (vm_compute; lia)). exists []. by rewrite app_nil_r.
  - assert (forall n, (n <= NTP_T_NR)%nat -> exists z,
      take (OFFSETOF_TGT_TS + n * 8) (enc_tgt t) ++ replicate (SIZEOF_HOST - (OFFSETOF_TGT_TS + n * 8)) 0
      = enc_tgt (clip_tgt n t) ++ z) as Hc.
    { intros n Hn. exists (replicate (SIZEOF_HOST - SIZEOF_TGT) 0).
      rewrite <- clip_tgt_enc, <- app_assoc, <- replicate_add by done.
      f_equal. f_equal. unfold SIZEOF_HOST, SIZEOF_TGT, OFFSETOF_TGT_TS, NTP_T_NR in *. lia. }
    destruct (5 <=? v); [rewrite take_ge by (rewrite enc_tgt_length; done); by eexists|].
    destruct (3 <=? v); apply Hc; vm_compute; lia.
Qed.

Lemma written_hdr v r :
  rec_ok r ->
  exists hdr body, written v r = enc_hdr hdr ++ body /\ hdr_ok hdr /\
    kind hdr = (match r with RHost _ => NTP_REC_HOST | RTgt _ => NTP_REC_TARGET end) /\
    length body = (size_in v r - SIZEOF_HDR)%nat.
Proof.
  intros Hr. destruct (size_in_bounds v r Hr) as (H8 & _ & Hl).
  assert (exists hdr tl, enc_rec r = enc_hdr hdr ++ tl /\ hdr_ok hdr /\
    kind hdr = (match r with RHost _ => NTP_REC_HOST | RTgt _ => NTP_REC_TARGET end)) as (hdr & tl & He & Hok & Hk).
  { destruct r as [h|t]; destruct Hr as [Hr Hk]; eexists _, _; (split; [done|]); split; try done; apply Hr. }
  exists hdr, (take (size_in v r - SIZEOF_HDR) tl).
  assert (written v r = enc_hdr hdr ++ take (size_in v r - SIZEOF_HDR) tl) as Hw.
  { unfold written. rewrite He. rewrite take_app_ge by (rewrite enc_hdr_length; done).
    by rewrite enc_hdr_length. }
  split; [done|]. split; [done|]. split; [done|]. rewrite Hw, length_app, enc_hdr_length in Hl.
  lia.
Qed.

Section Delivery.
  Context {A : Type}.
  Implicit Types (ops : ntp_reader_ops A) (arg : A).

(** One record handed to its callback, and a whole list of them, up to the
    first callback that returns non-zero. *)
Definition deliver ops (r : rec) arg : Z * A :=
  match r with
  | RHost h => match on_host ops with Some f => f h arg | None => (0, arg) end
  | RTgt t => match on_target ops with Some f => f t arg | None => (0, arg) end
  end.

Fixpoint feed ops (l : list rec) arg : Z * A :=
  match l with
  | [] => (0, arg)
  | r :: l => let '(ret, arg) := deliver ops r arg in
              if nz ret then (ret, arg) else feed ops l arg
  end.

Lemma read_one_written v r ops rest fl er arg :
  rec_ok r ->
  exists hd body, written v r = hd ++ body /\ length hd = SIZEOF_HDR /\
    read_one (host_size_of v) (tgt_size_of v) ops hd (mk_stream (body ++ rest) fl er) arg =
    let '(ret, arg) := deliver ops (as_version v r) arg in (ret, mk_stream rest fl er, arg).
Proof.
  intros Hr. destruct (written_hdr v r Hr) as (hdr & body & Hw & Hok & Hk & Hb).
  exists (enc_hdr hdr), body. split; [done|]. split; [apply enc_hdr_length|].
  unfold read_one. cbv zeta.
  replace (p_hdr (enc_hdr hdr)).1 with hdr by (rewrite <- (app_nil_r (enc_hdr hdr)), reads_hdr; done).
  rewrite Hk. destruct (union_written v r Hr) as [z Hu]. rewrite Hw in Hu.
  pose proof (as_version_ok v r Hr) as Hv.
  destruct r as [h|t]; simpl in Hb; destruct Hv as [Hv _];
    [change (NTP_REC_HOST =? NTP_REC_HOST) with true
    |change (NTP_REC_TARGET =? NTP_REC_HOST) with false;
     change (NTP_REC_TARGET =? NTP_REC_TARGET) with true]; cbv beta iota;
    rewrite fread_app by done; rewrite Hu; cbn [deliver as_version enc_rec].
  - destruct (on_host ops); [|done]. by rewrite (reads_host _ Hv).
  - destruct (on_target ops); [|done]. by rewrite (reads_tgt _ Hv).
Qed.

(** Reading the records of a file of version [v], with whatever follows. *)
Lemma read_records_written v ops l : forall fuel tl fl er arg,
  Forall rec_ok l -> (length (concat (map (written v) l) ++ tl) < fuel)%nat ->
  let '(ret, arg') := feed ops (map (as_version v) l) arg in
  exists tl' fuel', (length tl < fuel')%nat /\
    (if nz ret then
       read_records fuel (host_size_of v) (tgt_size_of v) ops (mk_stream (concat (map (written v) l) ++ tl) fl er) arg
       = Some (ret, mk_stream tl' fl er, arg')
     else
       read_records fuel (host_size_of v) (tgt_size_of v) ops (mk_stream (concat (map (written v) l) ++ tl) fl er) arg
       = read_records fuel' (host_size_of v) (tgt_size_of v) ops (mk_stream tl fl er) arg').
Proof.
  induction l as [|r l IH]; intros fuel tl fl er arg Hl Hf; cbn [map concat feed].
  - exists [], fuel. by rewrite app_nil_l.
  - inversion Hl as [|? ? Hr Hl']; subst. destruct fuel as [|fuel]; [lia|].
    destruct (read_one_written v r ops (concat (map (written v) l) ++ tl) fl er arg Hr)
      as (hd & body & Hw & Hh & Hone).
    cbn [map concat] in Hf. rewrite Hw, !length_app, Hh in Hf. unfold SIZEOF_HDR in Hf.
    assert (forall x, read_records (S fuel) (host_size_of v) (tgt_size_of v) ops
      (mk_stream ((written v r ++ concat (map (written v) l)) ++ tl) fl er) arg = x <->
      (let '(ret, arg) := deliver ops (as_version v r) arg in
       if nz ret then Some (ret, mk_stream (concat (map (written v) l) ++ tl) fl er, arg)
       else read_records fuel (host_size_of v) (tgt_size_of v) ops
              (mk_stream (concat (map (written v) l) ++ tl) fl er) arg) = x) as Hrec.
    { intros x. cbn [read_records]. rewrite Hw, <- !app_assoc, fread_app by done. rewrite Hone.
      by destruct (deliver ops (as_version v r) arg) as [ret arg1]. }
    destruct (deliver ops (as_version v r) arg) as [ret arg1]. destruct (nz ret) eqn:Hn.
    + rewrite Hn. exists (concat (map (written v) l) ++ tl), (S (length tl)). split; [lia|]. by apply Hrec.
    + specialize (IH fuel tl fl er arg1 Hl'). destruct (feed ops (map (as_version v) l) arg1) as [ret' arg'].
      destruct IH as (tl' & fuel' & Hf' & IH); [rewrite length_app; lia|]. exists tl', fuel'. split; [done|].
      destruct (nz ret'); by apply Hrec.
Qed.

End Delivery.

(** A header of a file of version [v]. *)
Definition header_of (v : Z) (hdr : ntp_file_header) : Prop :=
  header_ok hdr /\ 2 <= v <= NTP_FILE_VERSION /\ magic hdr = NTP_FILE_MAGIC /\ version hdr = v /\
  header_size hdr = Z.of_nat SIZEOF_FILE_HEADER /\
  host_rec_size hdr = Z.of_nat (host_size_of v) /\ tgt_rec_size hdr = Z.of_nat (tgt_size_of v).

Lemma read_file_records {A} v hdr (ops : ntp_reader_ops A) s fl arg :
  header_of v hdr ->
  ntp_read_file (Some (mk_stream (enc_header hdr ++ s) fl false)) ops arg =
  match read_records (S (length s)) (host_size_of v) (tgt_size_of v) ops (mk_stream s fl false) arg with
  | None => None
  | Some (ret, s, arg) =>
      Some (if (if s_error s then -1 else ret) <? 0 then -1 else 0, Some hdr, arg)
  end.
Proof.
  intros (Hok & Hv & Hm & Hver & Hhs & Hhr & Htr). unfold ntp_read_file.
  rewrite fread_app by (by apply enc_header_length).
  replace (p_header (enc_header hdr)).1 with hdr
    by (rewrite <- (app_nil_r (enc_header hdr)), (reads_header hdr Hok); done).
  rewrite bool_decide_true by done. cbn [negb]. rewrite Hver, Hhs, Hhr, Htr, !Z.eqb_refl. cbn [negb orb].
  unfold NTP_FILE_VERSION in *.
  rewrite (proj2 (Z.ltb_ge v 2)), (proj2 (Z.ltb_ge 5 v)) by lia. done.
Qed.

(** What reading a written file does. *)
Lemma read_back_file {A : Type} (v : Z) (hdr : ntp_file_header) (l : list rec)
    (ops : ntp_reader_ops A) (arg : A) :
  header_of v hdr -> Forall rec_ok l ->
  ntp_read_file (Some (mk_stream (enc_header hdr ++ concat (map (written v) l)) false false)) ops arg =
  let '(ret, arg') := feed ops (map (as_version v) l) arg in
  Some (if ret <? 0 then -1 else 0, Some hdr, arg').
Proof.
  intros Hh Hl. rewrite (read_file_records v) by done.
  pose proof (read_records_written v ops l (S (length (concat (map (written v) l)))) [] false false arg Hl) as Hr.
  rewrite app_nil_r in Hr. specialize (Hr ltac:(lia)).
  destruct (feed ops (map (as_version v) l) arg) as [ret arg'].
  destruct Hr as (tl' & fuel' & Hf & Hr). destruct (nz ret) eqn:Hn; rewrite Hr; [done|].
  destruct fuel'; [lia|]. cbn [read_records]. rewrite fread_short by (simpl; unfold SIZEOF_HDR; lia).
  apply negb_false_iff, Z.eqb_eq in Hn. by rewrite Hn.
Qed.

(** Reading a file back.  For a file of any version the tool still
    reads, the callbacks get every record, in file order and up to the first
    one that returns non-zero, with what the version's records lack as 0; the
    result is -1 exactly when a callback returned a negative number. *)
Theorem read_back {A : Type} (v : Z) (hdr : ntp_file_header) (l : list rec)
    (ops : ntp_reader_ops A) (arg : A) :
  header_of v hdr -> Forall rec_ok l ->
  ntp_read_file (Some (mk_stream (enc_header hdr ++ concat (map (written v) l)) false false)) ops arg =
  let '(ret, arg') := feed ops (map (as_version v) l) arg in
  Some (if ret <? 0 then -1 else 0, Some hdr, arg').
Proof. apply read_back_file. Qed.

(** *** Writing, then reading *)

Fixpoint add_all (w : ntp_writer) (l : list rec) : ntp_writer :=
  match l with
  | [] => w
  | r :: l => add_all (ntp_writer_add w (enc_rec r) FwAll).2 l
  end.

(** The callbacks of a reader that keeps what it gets. *)
Definition collect : ntp_reader_ops (list rec) :=
  mk_ops (Some (fun h acc => (0, acc ++ [RHost h]))) (Some (fun t acc => (0, acc ++ [RTgt t]))).

Lemma add_all_bytes l : forall f n,
  w_f (add_all (mk_writer (Some f) n) l) = Some (f ++ concat (map enc_rec l)).
Proof.
  induction l as [|r l IH]; intros f n; cbn [add_all map concat]; [by rewrite app_nil_r|].
  cbn [ntp_writer_add w_f snd]. by rewrite IH, app_assoc.
Qed.

Lemma as_version_5 r : as_version 5 r = r.
Proof. by destruct r. Qed.
Lemma written_5 r : rec_ok r -> written 5 r = enc_rec r.
Proof.
  intros Hr. destruct (size_in_bounds 5 r Hr) as (_ & _ & Hl).
  unfold written. apply take_ge.
  destruct r; destruct Hr as [Hr _]; cbn [enc_rec];
    [rewrite enc_host_length by done|rewrite enc_tgt_length by done]; done.
Qed.

Lemma feed_collect l : forall acc, feed collect l acc = (0, acc ++ l).
Proof.
  induction l as [|r l IH]; intros acc; cbn [feed]; [by rewrite app_nil_r|].
  destruct r; simpl; by rewrite IH, <- app_assoc.
Qed.

Lemma str64_length s : length (str64 s) = 64%nat.
Proof. unfold str64. rewrite length_app, length_replicate, length_take. lia. Qed.

Lemma header_init_of m role transport sample :
  is_u64 (mono_ns m) -> is_u64 (real_ns m) -> is_u32 role -> is_u32 transport -> is_u32 sample ->
  header_of 5 (ntp_header_init m role transport sample).
Proof.
  intros H1 H2 H3 H4 H5. split; [|done]. unfold ntp_header_init, header_ok.
  cbn [magic version header_size host_rec_size tgt_rec_size f_role f_transport f_sample_every f_pad
       start_mono_ns start_real_ns hostname kernel].
  repeat (split; [done || apply str64_length|]). destruct (release m); [apply str64_length|done].
Qed.

(** C16: write and read.  A file written on any machine, with any names and
    clocks, and closed after any list of records is read back by the same
    version as exactly those records in order, with the header it was opened
    with, and the result 0. *)
Theorem write_read (m : machine) (role transport sample : Z) (l : list rec) f :
  is_u64 (mono_ns m) -> is_u64 (real_ns m) -> is_u32 role -> is_u32 transport -> is_u32 sample ->
  Forall rec_ok l ->
  w_f (add_all (ntp_writer_open true true (ntp_header_init m role transport sample)).2 l) = Some f ->
  ntp_read_file (Some (mk_stream f false false)) collect [] =
  Some (0, Some (ntp_header_init m role transport sample), l).
Proof.
  intros H1 H2 H3 H4 H5 Hl Hf. cbn [ntp_writer_open negb snd] in Hf. rewrite add_all_bytes in Hf.
  apply Some_inj in Hf. subst f.
  assert (concat (map enc_rec l) = concat (map (written 5) l)) as ->.
  { f_equal. apply map_ext_in. intros r Hr. symmetry. apply written_5.
    rewrite Forall_forall in Hl. apply Hl. by apply list_elem_of_In. }
  rewrite (read_file_records 5) by (by apply header_init_of).
  pose proof (read_records_written 5 collect l (S (length (concat (map (written 5) l)))) [] false false [] Hl) as Hr.
  rewrite app_nil_r in Hr. specialize (Hr ltac:(lia)).
  assert (map (as_version 5) l = l) as E by (rewrite (map_ext _ id) by apply as_version_5; apply map_id).
  rewrite E, feed_collect in Hr. destruct Hr as (tl' & fuel' & Hf & Hr). change (nz 0) with false in Hr. cbv iota in Hr. rewrite Hr.
  destruct fuel'; [lia|]. cbn [read_records]. rewrite fread_short by (simpl; unfold SIZEOF_HDR; lia). done.
Qed.

(** *** Damaged files *)

(** C31: a file cut short.  When every callback accepts its records, a file
    that ends inside a record (its header complete) gives all the records
    before it and then the error; a file that ends in a record of an unknown
    kind does too; but one that ends inside a record's 8-byte header is read
    as if that part were not there, with the result 0. *)
Theorem cut_file {A : Type} (v : Z) (hdr : ntp_file_header) (l : list rec) (tl : bytes)
    (ops : ntp_reader_ops A) (arg arg' : A) :
  header_of v hdr -> Forall rec_ok l -> feed ops (map (as_version v) l) arg = (0, arg') ->
  let result := ntp_read_file
    (Some (mk_stream (enc_header hdr ++ concat (map (written v) l) ++ tl) false false)) ops arg in
  (forall r n, rec_ok r -> (SIZEOF_HDR <= n < size_in v r)%nat -> tl = take n (written v r) ->
     result = Some (-1, Some hdr, arg')) /\
  (forall h rest, hdr_ok h -> kind h <> NTP_REC_HOST -> kind h <> NTP_REC_TARGET ->
     tl = enc_hdr h ++ rest -> result = Some (-1, Some hdr, arg')) /\
  ((length tl < SIZEOF_HDR)%nat -> result = Some (0, Some hdr, arg')).
Proof.
  intros Hh Hl Hfeed result. subst result. rewrite (read_file_records v) by done.
  pose proof (read_records_written v ops l (S (length (concat (map (written v) l) ++ tl))) tl false false arg Hl) as Hr.
  rewrite Hfeed in Hr. destruct Hr as (tl' & fuel' & Hf & Hr); [lia|].
  change (nz 0) with false in Hr. cbv iota in Hr. rewrite Hr. clear Hr.
  destruct fuel' as [|fuel']; [lia|]. cbn [read_records]. split; [|split].
  - intros r n Hr [Hn1 Hn2] ->.
    destruct (written_hdr v r Hr) as (h & body & Hw & Hok & Hk & Hb).
    rewrite Hw, take_app_ge, fread_app by (rewrite enc_hdr_length; done).
    unfold read_one. cbv zeta.
    replace (p_hdr (enc_hdr h)).1 with h by (rewrite <- (app_nil_r (enc_hdr h)), (reads_hdr h Hok); done).
    rewrite Hk, enc_hdr_length.
    destruct r as [x|x]; cbn [size_in] in *;
      [change (NTP_REC_HOST =? NTP_REC_HOST) with true
      |change (NTP_REC_TARGET =? NTP_REC_HOST) with false;
       change (NTP_REC_TARGET =? NTP_REC_TARGET) with true]; cbv beta iota;
      (rewrite fread_short by (rewrite length_take; lia); done).
  - intros h rest Hok Hk1 Hk2 ->. rewrite fread_app by apply enc_hdr_length.
    unfold read_one. cbv zeta.
    replace (p_hdr (enc_hdr h)).1 with h by (rewrite <- (app_nil_r (enc_hdr h)), (reads_hdr h Hok); done).
    rewrite (proj2 (Z.eqb_neq (kind h) NTP_REC_HOST)), (proj2 (Z.eqb_neq (kind h) NTP_REC_TARGET)) by done.
    done.
  - intros Hs. by rewrite fread_short.
Qed.

Lemma fread_length n s o s' :
  fread n s = (o, s') ->
  match o with
  | Some b => (length (s_rest s') + n = length (s_rest s))%nat
  | None => (length (s_rest s') <= length (s_rest s))%nat
  end.
Proof.
  unfold fread. destruct (n <=? length (s_rest s))%nat eqn:E; intros [= <- <-]; simpl; [|lia].
  apply Nat.leb_le in E. rewrite length_drop. lia.
Qed.

Lemma read_one_length {A} hs ts (ops : ntp_reader_ops A) hd s arg ret s' arg' :
  read_one hs ts ops hd s arg = (ret, s', arg') -> (length (s_rest s') <= length (s_rest s))%nat.
Proof.
  unfold read_one. cbv zeta.
  destruct (if kind _ =? NTP_REC_HOST then _ else _) as [size|]; [|intros [= _ <- _]; done].
  destruct (fread (size - SIZEOF_HDR) s) as [[body|] s1] eqn:E; apply fread_length in E;
    [|intros [= _ <- _]; done].
  destruct (kind _ =? NTP_REC_HOST);
    [destruct (on_host ops) as [f|]|destruct (on_target ops) as [f|]];
    try (destruct (f _ _) as [ret1 arg1]); intros [= _ <- _]; lia.
Qed.

Lemma read_records_total {A} hs ts (ops : ntp_reader_ops A) : forall fuel s arg,
  (length (s_rest s) < fuel)%nat -> is_Some (read_records fuel hs ts ops s arg).
Proof.
  induction fuel as [|fuel IH]; intros s arg Hf; [lia|]. cbn [read_records].
  destruct (fread SIZEOF_HDR s) as [[hd|] s1] eqn:E; [|done]. apply fread_length in E.
  destruct (read_one hs ts ops hd s1 arg) as [[ret s2] arg2] eqn:E2. apply read_one_length in E2.
  destruct (nz ret); [done|]. apply IH. unfold SIZEOF_HDR in E. lia.
Qed.

(** C32: reading terminates and reports.  Whatever the bytes of the file and
    whatever the callbacks do, reading ends with 0 or -1; it is -1 without any
    callback being called when the file cannot be opened, is shorter than a
    header, or has another magic, version or record size than this tool reads. *)
Theorem read_file_total {A : Type} (file : option stream) (ops : ntp_reader_ops A) (arg : A) :
  exists ret hdr arg', ntp_read_file file ops arg = Some (ret, hdr, arg') /\
    (ret = 0 \/ ret = -1) /\
    ((forall v, 2 <= v <= NTP_FILE_VERSION -> hdr = None \/
        forall h, hdr = Some h -> ~ (magic h = NTP_FILE_MAGIC /\ version h = v /\
          header_size h = Z.of_nat SIZEOF_FILE_HEADER /\
          host_rec_size h = Z.of_nat (host_size_of v) /\
          tgt_rec_size h = Z.of_nat (tgt_size_of v))) ->
     ret = -1 /\ arg' = arg).
Proof.
  unfold ntp_read_file. destruct file as [s|]; [|eexists _, _, _; split; [done|]; auto].
  destruct (fread SIZEOF_FILE_HEADER s) as [[b|] s1] eqn:E; [|eexists _, _, _; split; [done|]; auto].
  set (hdr := (p_header b).1). destruct (bool_decide (magic hdr = NTP_FILE_MAGIC)) eqn:Em; cbn [negb];
    [|eexists _, _, _; split; [done|]; auto].
  destruct (_ || _) eqn:Eg; [eexists _, _, _; split; [done|]; auto|].
  destruct (read_records_total (host_size_of (version hdr)) (tgt_size_of (version hdr)) ops
    (S (length (s_rest s1))) s1 arg ltac:(lia)) as [[[ret s2] arg2] ->].
  eexists _, _, _. split; [done|]. split; [destruct (_ <? 0); auto|].
  apply bool_decide_eq_true in Em. rewrite !orb_false_iff, !negb_false_iff, !Z.eqb_eq, !Z.ltb_ge in Eg.
  destruct Eg as ((((V1 & V2) & Hs) & Hh) & Ht). intros H.
  destruct (H (version hdr) (conj V1 V2)) as [|H']; [done|]. by destruct (H' hdr eq_refl).
Qed.

(** ** A small file *)

Definition example_host : ntp_host_rec :=
  mk_host_rec (mk_rec_hdr NTP_REC_HOST NTP_TR_TCP 1 3) (mk_cmd_id 4096 1 2 3 70 7 1 [0; 0; 0]) 4096
    0 0 0 0 (replicate NTP_DISK_NAME_LEN 0) (replicate NTP_H_NR 123456789) 77 2 0.
Definition example_tgt : ntp_tgt_rec :=
  mk_tgt_rec (mk_rec_hdr NTP_REC_TARGET NTP_TR_TCP 1 9) (mk_cmd_id 4096 1 2 3 70 7 1 [0; 0; 0]) 4096
    1 0 (replicate NTP_T_NR 987654321) 55 1 0.
Definition example_recs : list rec := [RTgt example_tgt; RHost example_host].
Definition example_machine : machine := mk_machine 1000 2000 (Some [104; 49]) (Some [54; 46; 56]).

Lemma example_recs_ok : Forall rec_ok example_recs.
Proof.
  apply Forall_cons. split; [|apply Forall_cons; split; [|done]];
    (split; [apply (bool_decide_unpack _); by vm_compute|done]).
Qed.

Definition old_header (v : Z) : ntp_file_header :=
  mk_file_header NTP_FILE_MAGIC v (Z.of_nat SIZEOF_FILE_HEADER) (Z.of_nat (host_size_of v))
    (Z.of_nat (tgt_size_of v)) 3 1 1 0 0 0 (replicate 64 0) (replicate 64 0).

Lemma old_header_of v : 2 <= v <= 5 -> header_of v (old_header v).
Proof.
  intros Hv. assert (v = 2 \/ v = 3 \/ v = 4 \/ v = 5) as Hc by lia.
  destruct Hc as [-> | [-> | [-> | ->]]]; (split; [|by repeat split]);
    unfold header_ok, is_u32, is_u64; vm_compute; repeat split; congruence.
Qed.

(** A version 3 file: its host records have no data phase. *)
Lemma read_back_witness :
  ntp_read_file (Some (mk_stream (enc_header (old_header 3) ++ concat (map (written 3) example_recs))
    false false)) collect [] =
  let '(ret, arg') := feed collect (map (as_version 3) example_recs) [] in
  Some (if ret <? 0 then -1 else 0, Some (old_header 3), arg').
Proof.
  apply (read_back 3 (old_header 3) example_recs collect []);
    [apply old_header_of; lia|exact example_recs_ok].
Defined.

Lemma write_read_witness :
  ntp_read_file (Some (mk_stream (enc_header (ntp_header_init example_machine 0 1 1) ++
    concat (map enc_rec example_recs)) false false)) collect [] =
  Some (0, Some (ntp_header_init example_machine 0 1 1), example_recs).
Proof.
  apply (write_read example_machine 0 1 1 example_recs);
    [unfold is_u64; simpl; lia|unfold is_u64; simpl; lia|unfold is_u32; lia|unfold is_u32; lia
    |unfold is_u32; lia|exact example_recs_ok|].
  reflexivity.
Defined.

Lemma cut_file_witness :
  let result := ntp_read_file (Some (mk_stream (enc_header (old_header 5) ++
    concat (map (written 5) [RTgt example_tgt]) ++ take 20 (written 5 (RHost example_host)))
    false false)) collect [] in
  result = Some (-1, Some (old_header 5), [RTgt example_tgt]).
Proof.
  apply (cut_file 5 (old_header 5) [RTgt example_tgt] (take 20 (written 5 (RHost example_host))) collect
           [] [RTgt example_tgt]) with (r := RHost example_host) (n := 20%nat).
  - apply old_header_of. lia.
  - apply Forall_cons. split; [|done]. pose proof example_recs_ok as H. by inversion H.
  - reflexivity.
  - pose proof example_recs_ok as H. inversion H as [|? ? _ H']. by inversion H'.
  - vm_compute. lia.
  - reflexivity.
Defined.
