(* ===== verification/BpfCommon.v ===== *)
(** * What the BPF objects share (bpf/common.bpf.h, bpf/kernel_types.h)

    Each hook of a BPF object is a function on the object's maps and globals;
    a run of a hook is one step.  [env] is what the BPF helpers tell a run:
    its CPU and thread, the clock, and whether the ring buffer has room.  The
    kernel's memory is not ours: [kernel] has one reader per member of the
    structures kernel_types.h declares, and every hook takes the memory it
    runs against as an argument. *)
From stdpp Require Import base numbers list gmap.
From Stdlib Require Import ZArith Lia.
From S2P Require Import Prelude Types.

(** The conversion to [s32] *)
Definition s32 (z : Z) : Z := (z + 2 ^ 31) mod 2 ^ 32 - 2 ^ 31.

Record env := mk_env {
  e_cpu : Z;       (* bpf_get_smp_processor_id() *)
  e_tid : Z;       (* bpf_get_current_pid_tgid() *)
  e_now : Z;       (* bpf_ktime_get_ns() *)
  e_rb_full : bool; (* bpf_ringbuf_output() fails *)
  e_lru : list Z   (* what an LRU map drops to make room *)
}.

(** ** Kernel memory *)

(** The identifying fields of a wire-format NVMe command, [struct ntp_nvme_cmd]. *)
Record ntp_nvme_cmd := mk_nvme_cmd {
  c_opcode : Z; c_command_id : Z; c_nsid : Z; c_slba : Z; c_length : Z;
  c_dptr1 : Z (* dptr[1] *)
}.

Record kernel := mk_kernel {
  (* networking *)
  skb_sk : Z -> Z;
  skb_tstamp : Z -> Z;
  sk_user_data : Z -> Z;
  socket_sk : Z -> Z;
  (* block layer *)
  sizeof_request : Z;
  rq_data_len : Z -> Z;
  rq_mq_hctx : Z -> Z;
  rq_start_time_ns : Z -> Z;
  rq_disk_name : Z -> list Z;
  rq_bio_bi_private : Z -> Z;
  hctx_driver_data : Z -> Z;
  hctx_queue_num : Z -> Z;
  bd_rq : Z -> Z;
  (* NVMe host core *)
  nvme_request_ctrl : Z -> Z;
  ctrl_cntlid : Z -> Z;
  ctrl_instance_of : Z -> Z;
  read_nvme_cmd : Z -> option ntp_nvme_cmd;
  (* NVMe/TCP host *)
  tcp_req_queue : Z -> Z;
  tcp_req_state : Z -> Z;
  tcp_queue_sock : Z -> Z;
  tcp_queue_request : Z -> Z;
  (* the header in queue->pdu: type and command_id of a data PDU *)
  tcp_queue_pdu : Z -> option (Z * Z);
  (* its first byte alone *)
  tcp_queue_pdu_type : Z -> option Z;
  (* NVMe target core *)
  nvmet_req_sq : Z -> Z;
  nvmet_req_cmd : Z -> Z;
  nvme_cmd_opcode : Z -> option Z;
  nvmet_req_transfer_len : Z -> Z;
  nvmet_sq_qid : Z -> Z;
  nvmet_sq_ctrl_cntlid : Z -> Z;
  (* NVMe/TCP target *)
  offsetof_tcp_cmd_req : Z;
  offsetof_tcp_queue_sq : Z;
  nvmet_cmd_queue : Z -> Z;
  nvmet_cmd_rbytes_done : Z -> Z;
  nvmet_cmd_offset : Z -> Z;
  nvmet_cmd_state : Z -> Z;
  nvmet_queue_sock : Z -> Z;
  nvmet_queue_cmd : Z -> Z;
  nvmet_queue_rcv_state : Z -> Z;
  nvmet_queue_snd_cmd : Z -> Z;
  nvmet_queue_sqhd_disabled : Z -> bool;
  (* RDMA *)
  wc_wr_cqe : Z -> Z;
  wc_qp_context : Z -> Z;
  offsetof_sqe : Z;
  qe_data : Z -> Z;
  cqe_command_id : Z -> option Z;
  offsetof_rsp_req : Z;
  offsetof_rsp_read_cqe : Z;
  offsetof_rsp_send_cqe : Z;
  rsp_flags : Z -> Z
}.

Definition nvme_tcp_c2h_data : Z := 0x7.
Definition NVME_TCP_SEND_CMD_PDU : Z := 0.
Definition NVMET_TCP_SEND_DATA_PDU : Z := 0.
Definition NVMET_TCP_SEND_R2T : Z := 2.
Definition NVMET_TCP_SEND_RESPONSE : Z := 4.
Definition NVMET_TCP_RECV_DATA : Z := 1.
Definition NVMET_RDMA_REQ_INLINE_DATA : Z := Z.shiftl 1 0.

(** ** Counters *)

(** The per-CPU counters, added up over the CPUs as the tool reads them. *)
Definition counts : Type := ntp_counter -> Z.

Definition ntp_count (cnt : counts) (c : ntp_counter) (delta : Z) : counts :=
  fun c' => if decide (c = c') then u64 (cnt c' + delta) else cnt c'.

(** ** Maps *)

(** A BPF array of [n] elements: no element past its end. *)
Definition arr_lookup {A} (n : Z) (m : Z -> A) (i : Z) : option A :=
  if (0 <=? i) && (i <? n) then Some (m i) else None.
Definition arr_set {A} (m : Z -> A) (i : Z) (v : A) : Z -> A :=
  fun j => if j =? i then v else m j.

(** [bpf_map_update_elem] on a hash map of [n] entries; a new key needs room. *)
Definition hash_has_room {A} (n : Z) (m : gmap Z A) (k : Z) : bool :=
  match m !! k with Some _ => true | None => Z.of_nat (size m) <? n end.
Definition hash_update {A} (n : Z) (m : gmap Z A) (k : Z) (v : A) : gmap Z A :=
  if hash_has_room n m k then <[k := v]> m else m.

(** [bpf_map_update_elem] on an LRU map: it may drop other entries first. *)
Definition lru_update {A} (e : env) (m : gmap Z A) (k : Z) (v : A) : gmap Z A :=
  <[k := v]> (foldr delete m (e_lru e)).

(** ** Helpers *)

(** An address turned into a plain number. *)
Definition ntp_scalar (v : Z) : Z := u64 v.

Definition NTP_REC_SLOTS : Z := Z.shiftl 1 14.

Definition ntp_slot (addr nslots : Z) : Z :=
  Z.land (u32 (u64 (Z.lxor (Z.shiftr addr 6) (Z.shiftr addr 26) * 0x9e3779b1))) (nslots - 1).

Definition NTP_SKB_STAMP_MAX_AGE_NS : Z := 1000000000.

Definition ntp_plausible (ts now : Z) : bool :=
  nz ts && (ts <=? now) && (u64 (now - ts) <? NTP_SKB_STAMP_MAX_AGE_NS).

Definition ntp_stamp_once (v now : Z) : Z := if negb (nz v) then now else v.

Definition ntp_clamp_u16 (v : Z) : Z := if v <? 0 then 0 else if 0xffff <? v then 0xffff else v.

Definition ntp_is_rw (opcode : Z) : bool :=
  (opcode =? NTP_NVME_CMD_READ) || (opcode =? NTP_NVME_CMD_WRITE).

(** The fields [ntp_read_cmd] fills in a zeroed id. *)
Definition ntp_read_cmd (K : kernel) (cmd : Z) : option ntp_cmd_id :=
  match read_nvme_cmd K cmd with
  | None => None
  | Some c => Some (mk_cmd_id (c_slba c) (c_nsid c) 0 0 (c_command_id c) (c_length c) (c_opcode c) [0; 0; 0])
  end.

(** The queue's identity added to a command's. *)
Definition id_with (i : ntp_cmd_id) (cntl q : Z) : ntp_cmd_id :=
  mk_cmd_id (slba i) (nsid i) cntl q (cid i) (nlb i) (opcode i) (id_pad i).

Section Filtered.
  Variable filter : ntp_filter.

Definition tracking : bool := nz (track_queues filter).

Definition ntp_idle (inflight : Z) : bool := negb (nz inflight) && negb tracking.

Definition ntp_skb_arrival (K : kernel) (skb now : Z) : Z :=
  let t := skb_tstamp K skb in
  if t <=? 0 then now
  else
    let mono := u64 (t - real_minus_mono filter) in
    if ntp_plausible mono now then mono
    else if ntp_plausible (u64 t) now then u64 t
    else now.

Definition ntp_sampled (cid slba nlb : Z) : bool :=
  if sample_every filter <=? 1 then true
  else ntp_sample_hash cid slba nlb mod sample_every filter =? 0.

(** The unrolled loop over [filter.sizes]. *)
Definition ntp_size_matches (bytes : Z) : bool :=
  if nz (n_sizes filter) then
    existsb (fun i => (Z.of_nat i <? n_sizes filter) && (default 0 (f_sizes filter !! i) =? bytes))
      (seq 0 NTP_MAX_SIZE_FILTERS)
  else if nz (min_bytes filter) && (bytes <? min_bytes filter) then false
  else if nz (max_bytes filter) && (max_bytes filter <? bytes) then false
  else true.

Definition io_type_matches (opcode : Z) : bool :=
  negb (negb (io_type filter =? 2) &&
        negb (io_type filter =? (if opcode =? NTP_NVME_CMD_WRITE then 1 else 0))).

End Filtered.

(** ** Examples' data *)

(** A concrete kernel memory, for the examples: every command read is a read of
    8 blocks with command id 5 (6 at address 2), on queue 512. *)
Definition sample_kernel : kernel := {|
  skb_sk := fun _ => 0;
  skb_tstamp := fun _ => 900;
  sk_user_data := fun _ => 512;
  socket_sk := fun _ => 0;
  sizeof_request := 256;
  rq_data_len := fun _ => 4096;
  rq_mq_hctx := fun _ => 0;
  rq_start_time_ns := fun _ => 0;
  rq_disk_name := fun _ => [];
  rq_bio_bi_private := fun _ => 0;
  hctx_driver_data := fun _ => 512;
  hctx_queue_num := fun _ => 0;
  bd_rq := fun bd => bd;
  nvme_request_ctrl := fun _ => 0;
  ctrl_cntlid := fun _ => 0;
  ctrl_instance_of := fun _ => 0;
  read_nvme_cmd := fun cmd => Some (mk_nvme_cmd NTP_NVME_CMD_READ (if cmd =? 2 then 6 else 5) 1 4096 7 4096);
  tcp_req_queue := fun _ => 512;
  tcp_req_state := fun _ => 0;
  tcp_queue_sock := fun _ => 0;
  tcp_queue_request := fun _ => 0;
  tcp_queue_pdu := fun _ => Some (nvme_tcp_c2h_data, 5);
  tcp_queue_pdu_type := fun _ => Some nvme_tcp_c2h_data;
  nvmet_req_sq := fun _ => 1024;
  nvmet_req_cmd := fun _ => 0;
  nvme_cmd_opcode := fun _ => Some NTP_NVME_CMD_READ;
  nvmet_req_transfer_len := fun _ => 0;
  nvmet_sq_qid := fun _ => 1;
  nvmet_sq_ctrl_cntlid := fun _ => 0;
  offsetof_tcp_cmd_req := 0;
  offsetof_tcp_queue_sq := 512;
  nvmet_cmd_queue := fun _ => 0;
  nvmet_cmd_rbytes_done := fun _ => 0;
  nvmet_cmd_offset := fun _ => 0;
  nvmet_cmd_state := fun _ => NVMET_TCP_SEND_RESPONSE;
  nvmet_queue_sock := fun _ => 64;
  nvmet_queue_cmd := fun _ => 0;
  nvmet_queue_rcv_state := fun _ => 0;
  nvmet_queue_snd_cmd := fun _ => 4096;
  nvmet_queue_sqhd_disabled := fun _ => false;
  wc_wr_cqe := fun _ => 0;
  wc_qp_context := fun _ => 0;
  offsetof_sqe := 0;
  qe_data := fun _ => 0;
  cqe_command_id := fun _ => Some 5;
  offsetof_rsp_req := 0;
  offsetof_rsp_read_cqe := 0;
  offsetof_rsp_send_cqe := 0;
  rsp_flags := fun _ => 0
|}.

(** No filter, every command, no queue counting. *)
Definition all_filter : ntp_filter := mk_filter 1 2 0 0 0 0 0 [] [] 0 0 0 [].
(** The same with the queues counted. *)
Definition queue_filter : ntp_filter := mk_filter 1 2 0 0 1 0 0 [] [] 0 0 0 [].

(** ** Facts *)

Lemma ntp_slot_bound addr n : 0 <= n -> 0 <= ntp_slot addr (2 ^ n) < 2 ^ n.
Proof.
  intros Hn. unfold ntp_slot. rewrite Z.sub_1_r, <- Z.ones_equiv, Z.land_ones by done.
  apply Z.mod_pos_bound. by apply Z.pow_pos_nonneg.
Qed.

Lemma rec_slot_bound addr : 0 <= ntp_slot addr NTP_REC_SLOTS < NTP_REC_SLOTS.
Proof. exact (ntp_slot_bound addr 14 ltac:(lia)). Qed.

Lemma arr_lookup_slot {A} (m : Z -> A) addr :
  arr_lookup NTP_REC_SLOTS m (ntp_slot addr NTP_REC_SLOTS) = Some (m (ntp_slot addr NTP_REC_SLOTS)).
Proof.
  destruct (rec_slot_bound addr) as [H1 H2]. unfold arr_lookup.
  by rewrite (proj2 (Z.leb_le _ _) H1), (proj2 (Z.ltb_lt _ _) H2).
Qed.

Lemma arr_set_eq {A} (m : Z -> A) i v : arr_set m i v i = v.
Proof. unfold arr_set. by rewrite Z.eqb_refl. Qed.
Lemma arr_set_ne {A} (m : Z -> A) i j v : j <> i -> arr_set m i v j = m j.
Proof. intros H. unfold arr_set. by destruct (Z.eqb_spec j i). Qed.

Create Rewrite HintDb bpf.
#[export] Hint Rewrite @arr_lookup_slot @arr_set_eq : bpf.

(** Arrival times are sane.  Whatever the skb carries, the arrival time a
    record gets is never later than the moment it is read at, and less than a
    second earlier, so the receive-path component it starts is neither negative
    nor absurd. *)
Theorem skb_arrival_sane (filter : ntp_filter) (K : kernel) (skb now : Z) :
  is_u64 now ->
  ntp_skb_arrival filter K skb now <= now /\
  now - ntp_skb_arrival filter K skb now < NTP_SKB_STAMP_MAX_AGE_NS.
Proof.
  intros Hn. unfold ntp_skb_arrival, NTP_SKB_STAMP_MAX_AGE_NS. cbv zeta.
  assert (forall v, is_u64 v -> ntp_plausible v now = true -> v <= now /\ now - v < 1000000000) as Hp.
  { intros v Hv. unfold ntp_plausible, NTP_SKB_STAMP_MAX_AGE_NS. rewrite !andb_true_iff, Z.leb_le, Z.ltb_lt.
    intros [[_ Hle] Hlt]. rewrite u64_small in Hlt by (unfold is_u64 in *; lia). done. }
  destruct (_ <=? 0); [lia|].
  destruct (ntp_plausible (u64 (skb_tstamp K skb - real_minus_mono filter)) now) eqn:E1;
    [apply Hp; [apply u64_range|done]|].
  destruct (ntp_plausible (u64 (skb_tstamp K skb)) now) eqn:E2; [apply Hp; [apply u64_range|done]|]. lia.
Qed.

(** A stamp of the monotonic clock is used as it is; one in the future is not. *)
Lemma skb_arrival_sane_witness :
  ntp_skb_arrival all_filter sample_kernel 1 1000 = 900 /\
  ntp_skb_arrival all_filter sample_kernel 1 800 = 800 /\
  900 <= 1000 /\ 800 - ntp_skb_arrival all_filter sample_kernel 1 800 < NTP_SKB_STAMP_MAX_AGE_NS.
Proof.
  split; [reflexivity|]. split; [reflexivity|]. split.
  - apply (skb_arrival_sane all_filter sample_kernel 1 1000). unfold is_u64. lia.
  - apply (skb_arrival_sane all_filter sample_kernel 1 800). unfold is_u64. lia.
Defined.

Lemma ntp_count_eq cnt c d : ntp_count cnt c d c = u64 (cnt c + d).
Proof. unfold ntp_count. by destruct (decide (c = c)). Qed.
Lemma ntp_count_ne cnt c c' d : c <> c' -> ntp_count cnt c d c' = cnt c'.
Proof. intros H. unfold ntp_count. by destruct (decide (c = c')). Qed.

(** [count_simp] reads counters after counting. *)
Ltac count_simp := rewrite ?ntp_count_eq; repeat (rewrite ntp_count_ne by discriminate; rewrite ?ntp_count_eq).

(** ** Direct-mapped tables of records

    A slot is free when its owner is 0.  [owned] is how many are not: the
    records under construction. *)
Section Slots.
  Context {E : Type} (owner : E -> Z).

Definition busy_slot (e : E) : Z := if nz (owner e) then 1 else 0.

Definition sum_over (l : list Z) (f : Z -> Z) : Z := foldr (fun i acc => f i + acc) 0 l.

Definition owned (m : Z -> E) : Z := sum_over (seqZ 0 NTP_REC_SLOTS) (fun i => busy_slot (m i)).

Lemma sum_over_ext l f g : (forall i, i ∈ l -> f i = g i) -> sum_over l f = sum_over l g.
Proof.
  induction l as [|i l IH]; intros H; simpl; [done|].
  rewrite H, IH; [done| |by left]. intros j Hj. apply H. by right.
Qed.

Lemma sum_over_set l m i v :
  NoDup l -> i ∈ l ->
  sum_over l (fun j => busy_slot (arr_set m i v j)) =
  sum_over l (fun j => busy_slot (m j)) - busy_slot (m i) + busy_slot v.
Proof.
  induction l as [|j l IH]; intros Hnd Hin; [by apply elem_of_nil in Hin|].
  apply NoDup_cons in Hnd as [Hni Hnd]. simpl. apply elem_of_cons in Hin as [->|Hin].
  - rewrite arr_set_eq, (sum_over_ext l _ (fun j => busy_slot (m j))); [lia|].
    intros k Hk. rewrite arr_set_ne; [done|]. intros ->. done.
  - rewrite IH, arr_set_ne by (done || intros ->; done). lia.
Qed.

Lemma owned_set m addr v :
  owned (arr_set m (ntp_slot addr NTP_REC_SLOTS) v) =
  owned m - busy_slot (m (ntp_slot addr NTP_REC_SLOTS)) + busy_slot v.
Proof.
  apply sum_over_set; [apply NoDup_seqZ|]. apply elem_of_seqZ.
  pose proof (rec_slot_bound addr). lia.
Qed.

Lemma busy_slot_free e : owner e = 0 -> busy_slot e = 0.
Proof. intros H. unfold busy_slot. by rewrite H. Qed.
Lemma busy_slot_taken e : owner e <> 0 -> busy_slot e = 1.
Proof. intros H. unfold busy_slot. by rewrite (proj2 (nz_true _) H). Qed.

Lemma sum_over_nonneg l f : (forall i, 0 <= f i) -> 0 <= sum_over l f.
Proof. intros H. induction l as [|i l IH]; simpl; [done|]. pose proof (H i). lia. Qed.

Lemma sum_over_zero l f : (forall i, f i = 0) -> sum_over l f = 0.
Proof. intros H. induction l as [|i l IH]; simpl; [done|]. by rewrite H, IH. Qed.

Lemma owned_nonneg m : 0 <= owned m.
Proof. apply sum_over_nonneg. intros i. unfold busy_slot. by destruct (nz _). Qed.

Lemma sum_over_le l f : (forall i, f i <= 1) -> sum_over l f <= Z.of_nat (length l).
Proof. intros H. induction l as [|i l IH]; simpl; [done|]. pose proof (H i). lia. Qed.

Lemma owned_le m : owned m <= NTP_REC_SLOTS.
Proof.
  etransitivity; [apply sum_over_le; intros i; unfold busy_slot; by destruct (nz _)|].
  rewrite length_seqZ. rewrite Z2Nat.id; [done|]. unfold NTP_REC_SLOTS. by rewrite Z.shiftl_mul_pow2.
Qed.

Lemma owned_free m : (forall i, owner (m i) = 0) -> owned m = 0.
Proof. intros H. apply sum_over_zero. intros i. by apply busy_slot_free. Qed.

Lemma owned_ext m m' : (forall i, owner (m' i) = owner (m i)) -> owned m' = owned m.
Proof. intros H. apply sum_over_ext. intros i _. unfold busy_slot. by rewrite H. Qed.

Lemma owned_pos m addr : owner (m (ntp_slot addr NTP_REC_SLOTS)) <> 0 -> 1 <= owned m.
Proof.
  intros H. destruct (decide (1 <= owned m)) as [|Hn]; [done|].
  pose proof (owned_nonneg (arr_set m (ntp_slot addr NTP_REC_SLOTS) (m (ntp_slot addr NTP_REC_SLOTS)))) as Hp.
  unfold owned in *.
  assert (forall l, ntp_slot addr NTP_REC_SLOTS ∈ l -> 1 <= sum_over l (fun i => busy_slot (m i))) as Hl.
  { induction l as [|j l IH]; intros Hin; [by apply elem_of_nil in Hin|]. simpl.
    pose proof (sum_over_nonneg l (fun i => busy_slot (m i))) as Hnn.
    assert (forall i, 0 <= busy_slot (m i)) as Hb by (intros i; unfold busy_slot; by destruct (nz _)).
    specialize (Hnn Hb). apply elem_of_cons in Hin as [<-|Hin].
    - rewrite busy_slot_taken by done. lia.
    - specialize (IH Hin). pose proof (Hb j). lia. }
  apply Hl. apply elem_of_seqZ. pose proof (rec_slot_bound addr). lia.
Qed.

End Slots.

(** ** Counting entries of a hash map *)

(** How many values of a map satisfy [p]. *)
Definition mcount {A} (p : A -> bool) (m : gmap Z A) : Z :=
  Z.of_nat (size (filter (fun kv : Z * A => p kv.2 = true) m)).

Definition ind (b : bool) : Z := if b then 1 else 0.

Lemma mcount_empty {A} (p : A -> bool) : mcount p ∅ = 0.
Proof. unfold mcount. by rewrite map_filter_empty, map_size_empty. Qed.

Lemma mcount_fresh {A} (p : A -> bool) m k x :
  m !! k = None -> mcount p (<[k := x]> m) = mcount p m + ind (p x).
Proof.
  intros Hk. unfold mcount, ind. destruct (p x) eqn:Ep.
  - rewrite map_filter_insert_True by done.
    rewrite map_size_insert_None; [lia|]. apply map_lookup_filter_None. by left.
  - rewrite map_filter_insert_False by (simpl; congruence). rewrite delete_id by done. lia.
Qed.

Lemma mcount_delete {A} (p : A -> bool) m k x :
  m !! k = Some x -> mcount p (delete k m) = mcount p m - ind (p x).
Proof.
  intros Hk. rewrite <- (insert_delete_id m k x Hk) at 2.
  rewrite mcount_fresh by apply lookup_delete_eq. lia.
Qed.

Lemma mcount_insert {A} (p : A -> bool) m k x y :
  m !! k = Some x -> mcount p (<[k := y]> m) = mcount p m - ind (p x) + ind (p y).
Proof.
  intros Hk. rewrite <- insert_delete_eq, mcount_fresh, (mcount_delete p m k x) by (done || apply lookup_delete_eq).
  lia.
Qed.

Lemma mcount_zero {A} (p : A -> bool) (m : gmap Z A) :
  (forall k x, m !! k = Some x -> p x = false) -> mcount p m = 0.
Proof.
  intros H. unfold mcount. rewrite map_empty_filter_2; [by rewrite map_size_empty|].
  intros k x Hx. simpl. by rewrite (H k x Hx).
Qed.

Lemma mcount_le {A} (p p' : A -> bool) (m : gmap Z A) :
  (forall x, p x = true -> p' x = true) -> mcount p m <= mcount p' m.
Proof.
  intros H. unfold mcount. apply inj_le, map_subseteq_size.
  apply map_filter_subseteq_ext. intros k x _. apply H.
Qed.

Lemma mcount_size {A} (p : A -> bool) (m : gmap Z A) : 0 <= mcount p m <= Z.of_nat (size m).
Proof. split; [unfold mcount; lia|]. apply inj_le, map_subseteq_size, map_filter_subseteq. Qed.

Lemma s32_small z : - 2 ^ 31 <= z < 2 ^ 31 -> s32 z = z.
Proof. intros H. unfold s32. rewrite Z.mod_small; lia. Qed.

(** ** Queue occupancy

    A map [cm] says which requests are counted on which queue, and which of them
    are counted a second time ([extra]: not yet sent on the host, response queued
    on the target).  [qm] holds the counters of each queue.  The counters are
    exactly what [cm] says. *)
Section Occupancy.
  Context {C Q : Type} (queue_of : C -> Z) (extra : C -> bool) (wf : C -> Prop) (all_n extra_n : Q -> Z)
    (cap : Z).

Definition on_queue (q : Z) (c : C) : bool := queue_of c =? q.
Definition extra_on (q : Z) (c : C) : bool := on_queue q c && extra c.

Record occupancy (qm : gmap Z Q) (cm : gmap Z C) : Prop := {
  oc_entry k c : cm !! k = Some c -> wf c /\ is_Some (qm !! queue_of c);
  oc_extra q qs : qm !! q = Some qs -> extra_n qs = mcount (extra_on q) cm;
  oc_all q qs : qm !! q = Some qs -> all_n qs = mcount (on_queue q) cm;
  oc_size : Z.of_nat (size cm) <= cap
}.

Lemma occupancy_init : 0 <= cap -> occupancy ∅ ∅.
Proof. intros Hc. split; done. Qed.

Lemma on_other q c : q <> queue_of c -> on_queue q c = false /\ extra_on q c = false.
Proof. intros Hn. unfold extra_on, on_queue. by rewrite (proj2 (Z.eqb_neq _ _)) by congruence. Qed.
Lemma on_own c : on_queue (queue_of c) c = true /\ extra_on (queue_of c) c = extra c.
Proof. unfold extra_on, on_queue. by rewrite Z.eqb_refl. Qed.

Lemma occ_bounds qm cm q qs :
  occupancy qm cm -> qm !! q = Some qs -> 0 <= extra_n qs <= all_n qs /\ all_n qs <= cap.
Proof.
  intros [_ Hu Hi Hs] Hq. rewrite (Hu _ _ Hq), (Hi _ _ Hq).
  pose proof (mcount_size (extra_on q) cm). pose proof (mcount_size (on_queue q) cm).
  pose proof (mcount_le (extra_on q) (on_queue q) cm) as Hle.
  assert (forall x, extra_on q x = true -> on_queue q x = true) as Hx
    by (intros x; unfold extra_on; by rewrite andb_true_iff; intros [? _]).
  specialize (Hle Hx). lia.
Qed.

(** Nothing is counted on a queue without counters. *)
Lemma occ_none qm cm q p :
  occupancy qm cm -> qm !! q = None -> (forall c, p c = true -> on_queue q c = true) -> mcount p cm = 0.
Proof.
  intros Ho Hq Hp. apply mcount_zero. intros k c Hc. destruct (p c) eqn:Epc; [|done].
  apply Hp, Z.eqb_eq in Epc. destruct (oc_entry _ _ Ho _ _ Hc) as [_ [x Hx]]. congruence.
Qed.

Lemma entry_kept (qm : gmap Z Q) q q' qs' : is_Some (qm !! q) -> is_Some (<[q' := qs']> qm !! q).
Proof.
  intros [x Hx]. destruct (decide (q' = q)) as [->|]; [by rewrite lookup_insert_eq|].
  rewrite lookup_insert_ne by done. by exists x.
Qed.

Lemma occ_new_queue qm cm q qs :
  occupancy qm cm -> qm !! q = None -> all_n qs = 0 -> extra_n qs = 0 -> occupancy (<[q := qs]> qm) cm.
Proof.
  intros Ho Hq Ha He. destruct Ho as [H1 H2 H3 H4] eqn:Eo. clear Eo.
  split; [|intros q' qs'|intros q' qs'|done].
  - intros k c Hc. destruct (H1 _ _ Hc). split; [done|by apply entry_kept].
  - rewrite lookup_insert_Some. intros [[<- <-]|[_ Hx]]; [|by apply H2].
    rewrite (occ_none qm cm q); [done..|]. intros c. unfold extra_on. rewrite andb_true_iff. by intros [? _].
  - rewrite lookup_insert_Some. intros [[<- <-]|[_ Hx]]; [|by apply H3]. by rewrite (occ_none qm cm q).
Qed.

(** A request is counted, or what it is counted for changes. *)
Lemma occ_change qm cm k new qs qs' :
  occupancy qm cm -> qm !! queue_of new = Some qs ->
  match cm !! k with
  | Some old => queue_of old = queue_of new /\ all_n qs' = all_n qs /\
                extra_n qs' = extra_n qs + ind (extra new) - ind (extra old)
  | None => Z.of_nat (size cm) < cap /\ all_n qs' = all_n qs + 1 /\
            extra_n qs' = extra_n qs + ind (extra new)
  end ->
  wf new -> occupancy (<[queue_of new := qs']> qm) (<[k := new]> cm).
Proof.
  intros [H1 H2 H3 H4] Hq Hold Hwf.
  assert (forall p, mcount p (<[k := new]> cm) =
    mcount p cm - ind (default false (p <$> cm !! k)) + ind (p new)) as Hm.
  { intros p. destruct (cm !! k) as [c|] eqn:E; simpl; [by apply mcount_insert|].
    rewrite mcount_fresh by done. lia. }
  assert (forall q, q <> queue_of new -> default false (on_queue q <$> cm !! k) = false /\
    default false (extra_on q <$> cm !! k) = false) as Hother.
  { intros q Hn. destruct (cm !! k) as [c|]; simpl; [|done]. destruct Hold as [Hc _].
    apply on_other. congruence. }
  destruct (on_own new) as [Hon Hex]. split.
  - intros k' c. rewrite lookup_insert_Some. intros [[<- <-]|[Hn Hc]].
    + split; [done|]. by rewrite lookup_insert_eq.
    + destruct (H1 _ _ Hc). split; [done|by apply entry_kept].
  - intros q qs0. rewrite lookup_insert_Some, Hm. intros [[<- <-]|[Hn Hqs]].
    + rewrite Hex. pose proof (H2 _ _ Hq). destruct (cm !! k) as [c|]; simpl in *; [|lia].
      destruct Hold as (Hc & _ & He). rewrite <- Hc, (proj2 (on_own c)). rewrite <- Hc in *. lia.
    + destruct (Hother q) as [_ ->]; [done|]. destruct (on_other q new) as [_ ->]; [done|].
      rewrite (H2 _ _ Hqs). simpl. lia.
  - intros q qs0. rewrite lookup_insert_Some, Hm. intros [[<- <-]|[Hn Hqs]].
    + rewrite Hon. pose proof (H3 _ _ Hq). destruct (cm !! k) as [c|]; simpl in *; [|lia].
      destruct Hold as (Hc & He & _). rewrite <- Hc, (proj1 (on_own c)). rewrite <- Hc in *. simpl. lia.
    + destruct (Hother q) as [-> _]; [done|]. destruct (on_other q new) as [-> _]; [done|].
      rewrite (H3 _ _ Hqs). simpl. lia.
  - destruct (cm !! k) as [c|] eqn:E.
    + rewrite map_size_insert_Some by (by exists c). done.
    + rewrite map_size_insert_None by done. lia.
Qed.

(** A request leaves the counts for good. *)
Lemma occ_forget qm cm k c qs qs' :
  occupancy qm cm -> cm !! k = Some c -> qm !! queue_of c = Some qs ->
  all_n qs' = all_n qs - 1 -> extra_n qs' = extra_n qs - ind (extra c) ->
  occupancy (<[queue_of c := qs']> qm) (delete k cm).
Proof.
  intros [H1 H2 H3 H4] Hk Hq Ha He.
  assert (forall p, mcount p (delete k cm) = mcount p cm - ind (p c)) as Hm by (intros p; by apply mcount_delete).
  destruct (on_own c) as [Hon Hex]. split.
  - intros k' c'. rewrite lookup_delete_Some. intros [Hn Hc].
    destruct (H1 _ _ Hc). split; [done|by apply entry_kept].
  - intros q qs0. rewrite lookup_insert_Some, Hm. intros [[<- <-]|[Hn Hqs]].
    + rewrite Hex, He, (H2 _ _ Hq). lia.
    + destruct (on_other q c) as [_ ->]; [done|]. rewrite (H2 _ _ Hqs). simpl. lia.
  - intros q qs0. rewrite lookup_insert_Some, Hm. intros [[<- <-]|[Hn Hqs]].
    + rewrite Hon, Ha, (H3 _ _ Hq). simpl. lia.
    + destruct (on_other q c) as [-> _]; [done|]. rewrite (H3 _ _ Hqs). simpl. lia.
  - rewrite map_size_delete_Some by (by exists c). lia.
Qed.

End Occupancy.

(** ** States an object can reach

    [run] is one hook on the object's state; [ok] says which hooks may run in
    which state. *)
Inductive reachable {St Ev : Type} (run : kernel -> env -> St -> Ev -> St) (ok : kernel -> env -> St -> Ev -> Prop) (init : St) : St -> Prop :=
  | reach_init : reachable run ok init init
  | reach_step K e s ev : reachable run ok init s -> ok K e s ev -> reachable run ok init (run K e s ev).

Lemma reachable_inv {St Ev} (run : kernel -> env -> St -> Ev -> St) ok init (P : St -> Prop) s :
  P init -> (forall K e s ev, ok K e s ev -> P s -> P (run K e s ev)) -> reachable run ok init s -> P s.
Proof. intros Hi Hs Hr. induction Hr; auto. Qed.
