(* ===== verification/BpfHost.v ===== *)
(** * The initiator's BPF object (bpf/host.bpf.h, bpf/nvme_tcp_host.bpf.c,
      bpf/nvme_rdma_host.bpf.c)

    [host_st] is the state of one host object: its globals, its maps, the
    per-CPU contexts and the records it put into the ring buffer.  Each hook is
    a function on that state; [HostTransport] is what a transport defines for
    host.bpf.h, with the TCP and the RDMA object as instances. *)
From stdpp Require Import base numbers list gmap.
From Stdlib Require Import ZArith Lia.
From S2P Require Import Prelude Types BpfCommon.

(** ** Maps *)

Record host_entry := mk_host_entry { he_rq : Z; he_queue : Z; he_rec : ntp_host_rec }.
Definition free_host_entry : host_entry := mk_host_entry 0 0 zero_host_rec.

Record cid_slot := mk_cid_slot { cs_queue : Z; cs_rq : Z; cs_cid : Z }.

Record qstat := mk_qstat { q_unsent_n : Z; q_inflight_n : Z }.

Definition CNT_UNSENT : Z := 1.
Definition CNT_INFLIGHT : Z := 2.

Record counted := mk_counted { ct_queue : Z; ct_flags : Z }.

Record pending := mk_pending {
  p_tid : Z; p_rq : Z; p_queue : Z; p_ts : Z; p_q_unsent : Z; p_q_inflight : Z
}.

Record host_rx := mk_host_rx {
  x_tid : Z; x_queue : Z; x_skb : Z; x_arrival : Z; x_enter : Z; x_data_rq : Z; x_busy_from : Z
}.

(** [send_ctx] (TCP, kretprobe flavour), [tsend_ctx] (TCP, inlined senders) and
    [post_ctx] (RDMA, kretprobe flavour). *)
Record send_ctx := mk_send_ctx { s_tid : Z; s_req : Z }.
Record tsend_ctx := mk_tsend_ctx { ts_tid : Z; ts_queue : Z; ts_req : Z; ts_cmd_pdu : bool }.
Record post_ctx := mk_post_ctx { po_tid : Z; po_qe : Z }.

Record host_st := mk_host_st {
  armed : bool;
  inflight : Z;
  cnt : counts;
  reqs : Z -> host_entry;
  cid_idx : Z -> cid_slot;
  qstats : gmap Z qstat;
  countedm : gmap Z counted;
  pend : Z -> pending;
  rx_ctx : Z -> host_rx;
  send_c : Z -> send_ctx;
  tsend_c : Z -> tsend_ctx;
  post_c : Z -> post_ctx;
  events : list ntp_host_rec
}.

(** The state the object is loaded with. *)
Definition host_init : host_st :=
  mk_host_st false 0 (fun _ => 0) (fun _ => free_host_entry) (fun _ => mk_cid_slot 0 0 0) ∅ ∅
    (fun _ => mk_pending 0 0 0 0 0 0) (fun _ => mk_host_rx 0 0 0 0 0 0 0)
    (fun _ => mk_send_ctx 0 0) (fun _ => mk_tsend_ctx 0 0 0 false) (fun _ => mk_post_ctx 0 0) [].

Definition set_inflight (s : host_st) (v : Z) : host_st :=
  mk_host_st (armed s) v (cnt s) (reqs s) (cid_idx s) (qstats s) (countedm s) (pend s) (rx_ctx s)
    (send_c s) (tsend_c s) (post_c s) (events s).
Definition set_cnt (s : host_st) (v : counts) : host_st :=
  mk_host_st (armed s) (inflight s) v (reqs s) (cid_idx s) (qstats s) (countedm s) (pend s)
    (rx_ctx s) (send_c s) (tsend_c s) (post_c s) (events s).
Definition set_entry (s : host_st) (slot : Z) (e : host_entry) : host_st :=
  mk_host_st (armed s) (inflight s) (cnt s) (arr_set (reqs s) slot e) (cid_idx s) (qstats s)
    (countedm s) (pend s) (rx_ctx s) (send_c s) (tsend_c s) (post_c s) (events s).
Definition set_cid (s : host_st) (slot : Z) (c : cid_slot) : host_st :=
  mk_host_st (armed s) (inflight s) (cnt s) (reqs s) (arr_set (cid_idx s) slot c) (qstats s)
    (countedm s) (pend s) (rx_ctx s) (send_c s) (tsend_c s) (post_c s) (events s).
Definition set_queues (s : host_st) (q : gmap Z qstat) (c : gmap Z counted) : host_st :=
  mk_host_st (armed s) (inflight s) (cnt s) (reqs s) (cid_idx s) q c (pend s) (rx_ctx s)
    (send_c s) (tsend_c s) (post_c s) (events s).
Definition set_pend (s : host_st) (cpu : Z) (p : pending) : host_st :=
  mk_host_st (armed s) (inflight s) (cnt s) (reqs s) (cid_idx s) (qstats s) (countedm s)
    (arr_set (pend s) cpu p) (rx_ctx s) (send_c s) (tsend_c s) (post_c s) (events s).
Definition set_rx (s : host_st) (cpu : Z) (x : host_rx) : host_st :=
  mk_host_st (armed s) (inflight s) (cnt s) (reqs s) (cid_idx s) (qstats s) (countedm s) (pend s)
    (arr_set (rx_ctx s) cpu x) (send_c s) (tsend_c s) (post_c s) (events s).
Definition set_send (s : host_st) (cpu : Z) (x : send_ctx) : host_st :=
  mk_host_st (armed s) (inflight s) (cnt s) (reqs s) (cid_idx s) (qstats s) (countedm s) (pend s)
    (rx_ctx s) (arr_set (send_c s) cpu x) (tsend_c s) (post_c s) (events s).
Definition set_tsend (s : host_st) (cpu : Z) (x : tsend_ctx) : host_st :=
  mk_host_st (armed s) (inflight s) (cnt s) (reqs s) (cid_idx s) (qstats s) (countedm s) (pend s)
    (rx_ctx s) (send_c s) (arr_set (tsend_c s) cpu x) (post_c s) (events s).
Definition set_post (s : host_st) (cpu : Z) (x : post_ctx) : host_st :=
  mk_host_st (armed s) (inflight s) (cnt s) (reqs s) (cid_idx s) (qstats s) (countedm s) (pend s)
    (rx_ctx s) (send_c s) (tsend_c s) (arr_set (post_c s) cpu x) (events s).
Definition add_event (s : host_st) (r : ntp_host_rec) : host_st :=
  mk_host_st (armed s) (inflight s) (cnt s) (reqs s) (cid_idx s) (qstats s) (countedm s) (pend s)
    (rx_ctx s) (send_c s) (tsend_c s) (post_c s) (events s ++ [r]).
(** User space arms the object, and disarms it. *)
Definition arm (s : host_st) (on : bool) : host_st :=
  mk_host_st on (inflight s) (cnt s) (reqs s) (cid_idx s) (qstats s) (countedm s) (pend s)
    (rx_ctx s) (send_c s) (tsend_c s) (post_c s) (events s).

Definition inc (s : host_st) (c : ntp_counter) (delta : Z) : host_st :=
  set_cnt s (ntp_count (cnt s) c delta).

Definition ntp_inflight_add (s : host_st) (d : Z) : host_st :=
  set_inflight s (s64 (inflight s + d)).

(** [NTP_CTX_GET]: the slot of this CPU when it carries this thread's tag. *)
Definition get_pend (e : env) (s : host_st) : option pending :=
  let c := pend s (e_cpu e) in if p_tid c =? e_tid e then Some c else None.
Definition get_rx (e : env) (s : host_st) : option host_rx :=
  let c := rx_ctx s (e_cpu e) in if x_tid c =? e_tid e then Some c else None.
Definition get_send (e : env) (s : host_st) : option send_ctx :=
  let c := send_c s (e_cpu e) in if s_tid c =? e_tid e then Some c else None.
Definition get_tsend (e : env) (s : host_st) : option tsend_ctx :=
  let c := tsend_c s (e_cpu e) in if ts_tid c =? e_tid e then Some c else None.
Definition get_post (e : env) (s : host_st) : option post_ctx :=
  let c := post_c s (e_cpu e) in if po_tid c =? e_tid e then Some c else None.

(** What the transport object defines. *)
Class HostTransport := {
  NTP_TRANSPORT : Z;
  NTP_HOST_HOOKS_QUEUE_RQ : bool;
  host_queue_of : kernel -> Z -> Z
}.

Definition rq_from_pdu (K : kernel) (pdu : Z) : Z := ntp_scalar (u64 (pdu - sizeof_request K)).

(** The record of a request: its slot and the entry there, or NULL. *)
Definition host_entry_of (s : host_st) (rq : Z) : option (Z * host_entry) :=
  let slot := ntp_slot rq NTP_REC_SLOTS in
  match arr_lookup NTP_REC_SLOTS (reqs s) slot with
  | Some e => if he_rq e =? rq then Some (slot, e) else None
  | None => None
  end.

(** Writing through the pointer [host_rec] returns. *)
Definition set_rec (s : host_st) (slot : Z) (r : ntp_host_rec) : host_st :=
  set_entry s slot (mk_host_entry (he_rq (reqs s slot)) (he_queue (reqs s slot)) r).

Definition cid_slot_of (queue cid : Z) : Z :=
  ntp_slot (Z.lxor queue (u64 (Z.shiftl cid 6))) NTP_REC_SLOTS.

Definition host_rec_by_cid (s : host_st) (queue cid : Z) : option (Z * host_entry) :=
  match arr_lookup NTP_REC_SLOTS (cid_idx s) (cid_slot_of queue cid) with
  | Some c => if (cs_queue c =? queue) && (cs_cid c =? cid) then host_entry_of s (cs_rq c) else None
  | None => None
  end.

Definition QSTATS_MAX : Z := 4096.
Definition COUNTED_MAX : Z := 65536.

(** The queue's counters, created when missing and there is room. *)
Definition get_qstat (s : host_st) (queue : Z) : option qstat * host_st :=
  match qstats s !! queue with
  | Some qs => (Some qs, s)
  | None =>
      let s := set_queues s (hash_update QSTATS_MAX (qstats s) queue (mk_qstat 0 0)) (countedm s) in
      (qstats s !! queue, s)
  end.

Definition qstat_add (qs : qstat) (u i : Z) : qstat :=
  mk_qstat (s32 (q_unsent_n qs + u)) (s32 (q_inflight_n qs + i)).

Definition uncount (s : host_st) (rq bits : Z) (forget : bool) : host_st :=
  match countedm s !! rq with
  | None => s
  | Some c =>
      let drop := Z.land (ct_flags c) bits in
      let cm := <[rq := mk_counted (ct_queue c) (Z.ldiff (ct_flags c) bits)]> (countedm s) in
      let qm :=
        match qstats s !! ct_queue c with
        | Some qs =>
            <[ct_queue c := qstat_add qs (if has drop CNT_UNSENT then -1 else 0)
                                         (if has drop CNT_INFLIGHT then -1 else 0)]> (qstats s)
        | None => qstats s
        end in
      set_queues s qm (if forget then delete rq cm else cm)
  end.

Definition host_rx_enter (e : env) (s : host_st) (queue skb arrival now : Z) : host_st :=
  set_rx s (e_cpu e) (mk_host_rx (e_tid e) queue skb arrival now 0 0).

(** The record and the context after the call that copied the data is over. *)
Definition add_busy (r : ntp_host_rec) (ns now : Z) : ntp_host_rec :=
  set_hts (mk_host_rec (h_hdr r) (h_id r) (h_bytes r) (ctrl_instance r) (q_unsent r)
             (q_inflight r) (h_pad r) (disk r) (h_ts r) (u64 (c2h_busy_ns r + ns))
             (u32 (c2h_skbs r + 1)) (h_pad2 r)) NTP_H_C2H_DONE now.
Definition rx_idle (c : host_rx) : host_rx :=
  mk_host_rx (x_tid c) (x_queue c) (x_skb c) (x_arrival c) (x_enter c) 0 0.

Definition host_data_done (r : ntp_host_rec) (c : host_rx) (now : Z) : ntp_host_rec * host_rx :=
  ((if nz (x_busy_from c) && (x_busy_from c <=? now)
    then add_busy r (u64 (now - x_busy_from c)) now else r), rx_idle c).

Definition rx_closed (c : host_rx) : host_rx :=
  mk_host_rx 0 (x_queue c) (x_skb c) (x_arrival c) (x_enter c) (x_data_rq c) (x_busy_from c).

Definition host_rx_exit (e : env) (s : host_st) : host_st :=
  match get_rx e s with
  | Some c => set_rx s (e_cpu e) (rx_closed c)
  | None => s
  end.

(** ** Submission *)

Section Hooks.
  Variable filter : ntp_filter.
  Context `{HostTransport}.

Definition host_queue_rq (K : kernel) (e : env) (s : host_st) (hctx bd : Z) : host_st :=
  if negb (armed s) then s
  else
    let rq := bd_rq K bd in
    if tracking filter then
      let queue := hctx_driver_data K hctx in
      let c := mk_counted queue (Z.lor CNT_UNSENT CNT_INFLIGHT) in
      let '(qs, s) := get_qstat s queue in
      match qs, countedm s !! rq with
      | Some qs, None =>
          let p := mk_pending (e_tid e) rq queue (e_now e) (ntp_clamp_u16 (q_unsent_n qs))
                     (ntp_clamp_u16 (q_inflight_n qs)) in
          let s := set_pend s (e_cpu e) p in
          set_queues s (<[queue := qstat_add qs 1 1]> (qstats s))
            (hash_update COUNTED_MAX (countedm s) rq c)
      | _, _ => set_pend s (e_cpu e) (mk_pending (e_tid e) rq queue (e_now e) 0 0)
      end
    else set_pend s (e_cpu e) (mk_pending (e_tid e) rq 0 (e_now e) 0 0).

(** The controller filter of [ntp_h_setup_cmd]. *)
Definition ctrl_matches (instance : Z) : bool :=
  negb (nz (ctrl_filter filter)) ||
  negb ((255 <? instance) ||
        negb (has (default 0 (ctrl_mask filter !! Z.to_nat (Z.land (Z.shiftr instance 6) 3)))
                  (Z.shiftl 1 (Z.land instance 63)))).

Definition nsid_matches (nsid : Z) : bool :=
  negb (nz (f_nsid filter)) || (nsid =? f_nsid filter).

(** A C string read into a zeroed array of [NTP_DISK_NAME_LEN] bytes. *)
Definition disk_bytes (name : list Z) : list Z :=
  take (NTP_DISK_NAME_LEN - 1) name ++
  replicate (NTP_DISK_NAME_LEN - length (take (NTP_DISK_NAME_LEN - 1) name)) 0.

(** The zeroed record with the fields [ntp_h_setup_cmd] fills in. *)
Definition new_host_rec (K : kernel) (rq hctx ctrl bytes instance ts qu qi : Z) (id : ntp_cmd_id)
    : ntp_host_rec :=
  let flags := if opcode id =? NTP_NVME_CMD_WRITE then NTP_F_WRITE else 0 in
  let flags := if tracking filter then Z.lor flags NTP_F_QUEUES else flags in
  let r := mk_host_rec (mk_rec_hdr NTP_REC_HOST NTP_TRANSPORT flags 0)
             (id_with id (u16 (ctrl_cntlid K ctrl)) (u16 (hctx_queue_num K hctx + 1)))
             bytes instance qu qi 0 (disk_bytes (rq_disk_name K rq)) (replicate NTP_H_NR 0) 0 0 0 in
  set_hts (set_hts r NTP_H_START (rq_start_time_ns K rq)) NTP_H_QUEUE_RQ ts.

(** The part of the hook for a command that is sampled. *)
Definition setup_sampled (K : kernel) (e : env) (s : host_st) (rq ctrl bytes instance queue ts qu qi : Z)
    (id : ntp_cmd_id) : host_st :=
  let hctx := rq_mq_hctx K rq in
  let queue := if negb (nz queue) then hctx_driver_data K hctx else queue in
  let ts := if negb (nz ts) then e_now e else ts in
  let slot := ntp_slot rq NTP_REC_SLOTS in
  match arr_lookup NTP_REC_SLOTS (reqs s) slot with
  | None => s
  | Some e0 =>
      let s := if nz (he_rq e0) then inc s NTP_CNT_STALE 1 else ntp_inflight_add s 1 in
      let s := set_entry s slot
                 (mk_host_entry rq queue (new_host_rec K rq hctx ctrl bytes instance ts qu qi id)) in
      let s := set_cid s (cid_slot_of queue (cid id)) (mk_cid_slot queue rq (cid id)) in
      inc s NTP_CNT_HOST_SAMPLED 1
  end.

Definition count_host_io (s : host_st) (opcode bytes : Z) : host_st :=
  let w := opcode =? NTP_NVME_CMD_WRITE in
  let s := inc s (if w then NTP_CNT_HOST_WRITE_IOS else NTP_CNT_HOST_READ_IOS) 1 in
  inc s (if w then NTP_CNT_HOST_WRITE_BYTES else NTP_CNT_HOST_READ_BYTES) bytes.

Definition ntp_h_setup_cmd (K : kernel) (e : env) (s : host_st) (rq cmd : Z) : host_st :=
  let p := if NTP_HOST_HOOKS_QUEUE_RQ || tracking filter then get_pend e s else None in
  let go :=
    match p with
    | Some p =>
        if p_rq p =? rq then
          Some (set_pend s (e_cpu e) (mk_pending 0 (p_rq p) (p_queue p) (p_ts p) (p_q_unsent p)
                                        (p_q_inflight p)),
                p_queue p, p_ts p, p_q_unsent p, p_q_inflight p)
        else if negb (armed s) then None
        else if negb (nz (host_queue_of K rq)) then None
        else Some (s, host_queue_of K rq, 0, 0, 0)
    | None =>
        if negb (armed s) then None
        else if negb (nz (host_queue_of K rq)) then None
        else Some (s, host_queue_of K rq, 0, 0, 0)
    end in
  match go with
  | None => s
  | Some (s, queue, ts, qu, qi) =>
      match ntp_read_cmd K cmd with
      | None => s
      | Some id =>
          if negb (ntp_is_rw (opcode id)) then s
          else
            let bytes := u32 (rq_data_len K rq) in
            let s := count_host_io s (opcode id) bytes in
            if negb (io_type_matches filter (opcode id)) then s
            else if negb (ntp_sampled filter (cid id) (slba id) (nlb id)) then s
            else if negb (ntp_size_matches filter bytes) then s
            else
              let ctrl := nvme_request_ctrl K (u64 (rq + sizeof_request K)) in
              let instance := u32 (ctrl_instance_of K ctrl) in
              if negb (ctrl_matches instance) then s
              else if negb (nsid_matches (nsid id)) then s
              else setup_sampled K e s rq ctrl bytes instance queue ts qu qi id
      end
  end.

(** ** Completion *)

(** The state and the record found, as the slot it is in. *)
Definition host_complete (K : kernel) (e : env) (s : host_st) (rq : Z) : option Z * host_st :=
  if ntp_idle filter (inflight s) then (None, s)
  else
    match get_rx e s with
    | None => (None, s)
    | Some c =>
        let key := ntp_scalar rq in
        let s := if tracking filter then uncount s key (Z.lor CNT_UNSENT CNT_INFLIGHT) true else s in
        match host_entry_of s key with
        | None => (None, s)
        | Some (slot, he) =>
            let r := he_rec he in
            let r := if nz (x_arrival c) then set_hts r NTP_H_RSP_ARR (x_arrival c) else r in
            let r := set_hts r NTP_H_RSP_PROC (e_now e) in
            if x_data_rq c =? key then
              let '(r, c) := host_data_done r c (e_now e) in
              (Some slot, set_rx (set_rec s slot r) (e_cpu e) c)
            else (Some slot, set_rec s slot r)
        end
    end.

Definition ntp_h_nvme_done (e : env) (s : host_st) (rq : Z) : host_st :=
  if negb (nz (inflight s)) then s
  else
    match host_entry_of s rq with
    | None => s
    | Some (slot, he) =>
        let r := he_rec he in
        set_rec s slot (set_hts r NTP_H_NVME_DONE (ntp_stamp_once (hts r NTP_H_NVME_DONE) (e_now e)))
    end.

Definition h_add_flag (r : ntp_host_rec) (f : Z) : ntp_host_rec :=
  set_h_flags r (Z.lor (flags (h_hdr r)) f).
Definition h_set_cpu (r : ntp_host_rec) (c : Z) : ntp_host_rec :=
  mk_host_rec (mk_rec_hdr (kind (h_hdr r)) (transport (h_hdr r)) (flags (h_hdr r)) c) (h_id r)
    (h_bytes r) (ctrl_instance r) (q_unsent r) (q_inflight r) (h_pad r) (disk r) (h_ts r)
    (c2h_busy_ns r) (c2h_skbs r) (h_pad2 r).

(** The record as [ntp_h_blk_done] completes it. *)
Definition finished_rec (e : env) (r : ntp_host_rec) : ntp_host_rec :=
  let r := set_hts r NTP_H_BLK_DONE (e_now e) in
  let r :=
    if (NTP_TRANSPORT =? NTP_TR_TCP) && has (flags (h_hdr r)) NTP_F_WRITE &&
       negb (has (flags (h_hdr r)) NTP_F_R2T)
    then h_add_flag r NTP_F_INLINE_DATA else r in
  h_set_cpu r (e_cpu e).

Definition ntp_h_blk_done (e : env) (s : host_st) (rq : Z) : host_st :=
  if negb (nz (inflight s)) then s
  else
    match host_entry_of s rq with
    | None => s
    | Some (slot, he) =>
        let r := finished_rec e (he_rec he) in
        let s := set_rec s slot r in
        let s := if e_rb_full e then inc s NTP_CNT_RB_DROPS 1
                 else inc (add_event s r) NTP_CNT_HOST_EMITTED 1 in
        let cslot := cid_slot_of (he_queue he) (cid (h_id r)) in
        let s :=
          match arr_lookup NTP_REC_SLOTS (cid_idx s) cslot with
          | Some c => if cs_rq c =? he_rq he
                      then set_cid s cslot (mk_cid_slot (cs_queue c) 0 (cs_cid c)) else s
          | None => s
          end in
        let s := set_entry s slot (mk_host_entry 0 (he_queue he) r) in
        ntp_inflight_add s (-1)
    end.

End Hooks.

(** ** NVMe/TCP (nvme_tcp_host.bpf.c) *)
Module TcpHost.

Definition host_queue_of (K : kernel) (rq : Z) : Z :=
  let queue := tcp_req_queue K (u64 (rq + sizeof_request K)) in
  if negb (nz queue) then 0
  else if sk_user_data K (socket_sk K (tcp_queue_sock K queue)) =? queue then queue else 0.

#[export] Instance tcp_host : HostTransport := {
  NTP_TRANSPORT := NTP_TR_TCP;
  NTP_HOST_HOOKS_QUEUE_RQ := false;
  host_queue_of := host_queue_of
}.

Section Hooks.
  Variable filter : ntp_filter.

Definition on_send_done (K : kernel) (e : env) (s : host_st) (req ret : Z) (cmd_pdu : bool) : host_st :=
  if negb (ret =? 1) || ntp_idle filter (inflight s) then s
  else
    let rq := rq_from_pdu K req in
    let s := if cmd_pdu && tracking filter then uncount s rq CNT_UNSENT false else s in
    if nz (tcp_queue_request K (tcp_req_queue K req)) then s
    else
      match host_entry_of s rq with
      | None => s
      | Some (slot, he) =>
          let r := he_rec he in
          if negb (nz (hts r NTP_H_CMD_SENT)) then set_rec s slot (set_hts r NTP_H_CMD_SENT (e_now e))
          else if nz (hts r NTP_H_R2T_PROC) then set_rec s slot (set_hts r NTP_H_DATA_SENT (e_now e))
          else s
      end.

Definition send_enter (e : env) (s : host_st) (req : Z) : host_st :=
  set_send s (e_cpu e) (mk_send_ctx (e_tid e) req).

Definition send_exit (K : kernel) (e : env) (s : host_st) (ret : Z) (cmd_pdu : bool) : host_st :=
  match get_send e s with
  | None => s
  | Some c =>
      let s := set_send s (e_cpu e) (mk_send_ctx 0 (s_req c)) in
      on_send_done K e s (s_req c) ret cmd_pdu
  end.

Definition on_send_h2c (K : kernel) (e : env) (s : host_st) (req : Z) : host_st :=
  if negb (nz (inflight s)) then s
  else
    match host_entry_of s (rq_from_pdu K req) with
    | Some (slot, he) =>
        let r := he_rec he in
        if nz (hts r NTP_H_R2T_PROC)
        then set_rec s slot (set_hts r NTP_H_DATA_START (ntp_stamp_once (hts r NTP_H_DATA_START) (e_now e)))
        else s
    | None => s
    end.

(** [c] is this CPU's context. *)
Definition tsend_found (K : kernel) (e : env) (s : host_st) (c : tsend_ctx) (req : Z) : host_st :=
  let c := mk_tsend_ctx (ts_tid c) (ts_queue c) req (tcp_req_state K req =? NVME_TCP_SEND_CMD_PDU) in
  on_send_h2c K e (set_tsend s (e_cpu e) c) req.

Definition try_send_enter (K : kernel) (e : env) (s : host_st) (queue : Z) : host_st :=
  if ntp_idle filter (inflight s) then s
  else
    let c := mk_tsend_ctx (e_tid e) queue 0 (ts_cmd_pdu (tsend_c s (e_cpu e))) in
    let s := set_tsend s (e_cpu e) c in
    let req := tcp_queue_request K queue in
    if nz req then tsend_found K e s c req else s.

Definition on_sock_send (K : kernel) (e : env) (s : host_st) (sock : Z) : host_st :=
  if ntp_idle filter (inflight s) then s
  else
    match get_tsend e s with
    | None => s
    | Some c =>
        if nz (ts_req c) then s
        else if negb (sk_user_data K (socket_sk K sock) =? ts_queue c) then s
        else
          let req := tcp_queue_request K (ts_queue c) in
          if nz req then tsend_found K e s c req else s
    end.

Definition try_send_exit (K : kernel) (e : env) (s : host_st) (ret : Z) : host_st :=
  match get_tsend e s with
  | None => s
  | Some c =>
      let s := set_tsend s (e_cpu e) (mk_tsend_ctx 0 (ts_queue c) (ts_req c) (ts_cmd_pdu c)) in
      if negb (nz (ts_req c)) then s
      else
        let req := ts_req c in
        let s :=
          if ts_cmd_pdu c && tracking filter &&
             (negb (tcp_queue_request K (ts_queue c) =? req) ||
              negb (tcp_req_state K req =? NVME_TCP_SEND_CMD_PDU))
          then uncount s (rq_from_pdu K req) CNT_UNSENT false else s in
        on_send_done K e s req ret false
  end.

(** *** Receive path *)

Definition on_recv_skb (K : kernel) (e : env) (s : host_st) (skb : Z) : host_st :=
  if ntp_idle filter (inflight s) then s
  else host_rx_enter e s (sk_user_data K (skb_sk K skb)) skb
         (ntp_skb_arrival filter K skb (e_now e)) (e_now e).

Definition on_recv_skb_exit (e : env) (s : host_st) : host_st :=
  match get_rx e s with
  | None => s
  | Some c =>
      let '(s, c) :=
        if nz (x_data_rq c) then
          match host_entry_of s (x_data_rq c) with
          | Some (slot, he) =>
              let '(r, c) := host_data_done (he_rec he) c (e_now e) in (set_rec s slot r, c)
          | None => (s, c)
          end
        else (s, c) in
      set_rx s (e_cpu e) (rx_closed c)
  end.

(** The context while it counts for request [rq] from [busy_from] on. *)
Definition rx_counts (c : host_rx) (rq busy_from : Z) : host_rx :=
  mk_host_rx (x_tid c) (x_queue c) (x_skb c) (x_arrival c) (x_enter c) rq busy_from.

Definition on_copy (K : kernel) (e : env) (s : host_st) (skb : Z) : host_st :=
  if ntp_idle filter (inflight s) then s
  else
    match get_rx e s with
    | None => s
    | Some c =>
        if negb (x_skb c =? skb) then s
        else
          match tcp_queue_pdu K (x_queue c) with
          | None => s
          | Some (type, command_id) =>
              if negb (type =? nvme_tcp_c2h_data) then s
              else
                match arr_lookup NTP_REC_SLOTS (cid_idx s) (cid_slot_of (x_queue c) command_id) with
                | None => s
                | Some cs =>
                    if negb (cs_queue cs =? x_queue c) || negb (cs_cid cs =? command_id) then s
                    else
                      match host_entry_of s (cs_rq cs) with
                      | None => s
                      | Some (slot, he) =>
                          let s := set_rec s slot (set_hts (he_rec he) NTP_H_C2H_LAST_ARR (x_arrival c)) in
                          if x_data_rq c =? he_rq he then s
                          else
                            let now := e_now e in
                            let switched := nz (x_data_rq c) in
                            let '(s, c) :=
                              if switched then
                                match host_entry_of s (x_data_rq c) with
                                | Some (pslot, prev) =>
                                    let '(r, c) := host_data_done (he_rec prev) c now in
                                    (set_rec s pslot r, c)
                                | None => (s, c)
                                end
                              else (s, c) in
                            let r := he_rec (reqs s slot) in
                            if negb (nz (hts r NTP_H_C2H_PROC)) then
                              let r := set_hts (set_hts r NTP_H_C2H_ARR (x_arrival c)) NTP_H_C2H_PROC now in
                              set_rx (set_rec s slot r) (e_cpu e) (rx_counts c (he_rq he) now)
                            else
                              set_rx s (e_cpu e)
                                (rx_counts c (he_rq he) (if switched then now else x_enter c))
                      end
                end
          end
    end.

Definition on_r2t (K : kernel) (e : env) (s : host_st) (req : Z) : host_st :=
  match get_rx e s with
  | None => s
  | Some c =>
      match host_entry_of s (rq_from_pdu K req) with
      | None => s
      | Some (slot, he) =>
          let r := he_rec he in
          if nz (hts r NTP_H_R2T_PROC) then set_rec s slot (h_add_flag r NTP_F_MULTI_R2T)
          else
            let r := h_add_flag r NTP_F_R2T in
            let r := set_hts r NTP_H_R2T_ARR (x_arrival c) in
            set_rec s slot (set_hts r NTP_H_R2T_PROC (e_now e))
      end
  end.

Definition on_complete (K : kernel) (e : env) (s : host_st) (rq : Z) : host_st :=
  match host_complete filter K e s rq with
  | (None, s) => s
  | (Some slot, s) =>
      let r := he_rec (reqs s slot) in
      if negb (nz (hts r NTP_H_C2H_PROC)) then s
      else
        match get_rx e s with
        | None => s
        | Some c =>
            (* a read that fails leaves type 0 *)
            let type := default 0 (tcp_queue_pdu_type K (x_queue c)) in
            if type =? nvme_tcp_c2h_data then set_rec s slot (h_add_flag r NTP_F_DATA_SUCCESS) else s
        end
  end.

End Hooks.
End TcpHost.

(** ** NVMe/RDMA (nvme_rdma_host.bpf.c) *)
Module RdmaHost.

#[export] Instance rdma_host : HostTransport := {
  NTP_TRANSPORT := NTP_TR_RDMA;
  NTP_HOST_HOOKS_QUEUE_RQ := true;
  host_queue_of := fun _ _ => 0
}.

Definition rq_of_sqe (K : kernel) (qe : Z) : Z := rq_from_pdu K (u64 (qe - offsetof_sqe K)).

(** [ntp_stamp_once] on an event of the record in a slot. *)
Definition stamp_slot (e : env) (s : host_st) (found : option (Z * host_entry)) (ev : ntp_host_ts)
    : host_st :=
  match found with
  | Some (slot, he) =>
      let r := he_rec he in
      set_rec s slot (set_hts r ev (ntp_stamp_once (hts r ev) (e_now e)))
  | None => s
  end.

Section Hooks.
  Variable filter : ntp_filter.

Definition on_posted (K : kernel) (e : env) (s : host_st) (qe ret : Z) : host_st :=
  if nz ret || ntp_idle filter (inflight s) then s
  else
    let rq := rq_of_sqe K qe in
    let s := if tracking filter then uncount s rq CNT_UNSENT false else s in
    stamp_slot e s (host_entry_of s rq) NTP_H_CMD_SENT.

Definition ntp_hr_post_kp (e : env) (s : host_st) (qe : Z) : host_st :=
  set_post s (e_cpu e) (mk_post_ctx (e_tid e) qe).

Definition ntp_hr_post_kr (K : kernel) (e : env) (s : host_st) (ret : Z) : host_st :=
  match get_post e s with
  | None => s
  | Some c =>
      let s := set_post s (e_cpu e) (mk_post_ctx 0 (po_qe c)) in
      on_posted K e s (po_qe c) ret
  end.

Definition on_send_done (K : kernel) (e : env) (s : host_st) (wc : Z) : host_st :=
  if ntp_idle filter (inflight s) then s
  else
    let s := stamp_slot e s (host_entry_of s (rq_of_sqe K (wc_wr_cqe K wc))) NTP_H_SEND_DONE in
    host_rx_enter e s (wc_qp_context K wc) 0 0 0.

Definition on_recv_done (K : kernel) (e : env) (s : host_st) (wc : Z) : host_st :=
  if ntp_idle filter (inflight s) then s
  else
    let queue := wc_qp_context K wc in
    let data := qe_data K (wc_wr_cqe K wc) in
    let s :=
      match cqe_command_id K data with
      | Some cid => stamp_slot e s (host_rec_by_cid s queue cid) NTP_H_RSP_ARR
      | None => s
      end in
    host_rx_enter e s queue 0 0 0.

Definition on_inv_done (K : kernel) (e : env) (s : host_st) (wc : Z) : host_st :=
  if negb (ntp_idle filter (inflight s)) then host_rx_enter e s (wc_qp_context K wc) 0 0 0 else s.

End Hooks.
End RdmaHost.

(** ** What every hook keeps

    Between its sampling and its emission a record only gains timestamps,
    flags and data-phase time: what identifies the command stays. *)

Definition same_command_rec (r r' : ntp_host_rec) : Prop :=
  h_id r' = h_id r /\ kind (h_hdr r') = kind (h_hdr r) /\
  transport (h_hdr r') = transport (h_hdr r) /\ h_bytes r' = h_bytes r /\
  ctrl_instance r' = ctrl_instance r /\ disk r' = disk r /\
  q_unsent r' = q_unsent r /\ q_inflight r' = q_inflight r /\
  length (h_ts r') = length (h_ts r).

#[export] Instance same_command_rec_preorder : PreOrder same_command_rec.
Proof.
  split; [intros r; unfold same_command_rec; tauto|].
  intros r1 r2 r3 H1 H2. unfold same_command_rec in *. intuition congruence.
Qed.

Lemma same_set_hts r e v : same_command_rec r (set_hts r e v).
Proof. unfold same_command_rec. simpl. rewrite length_insert. tauto. Qed.
Lemma same_add_flag r f : same_command_rec r (h_add_flag r f).
Proof. unfold same_command_rec. simpl. tauto. Qed.
Lemma same_set_cpu r c : same_command_rec r (h_set_cpu r c).
Proof. unfold same_command_rec. simpl. tauto. Qed.
Lemma same_add_busy r ns now : same_command_rec r (add_busy r ns now).
Proof. unfold same_command_rec, add_busy. simpl. rewrite length_insert. tauto. Qed.
Lemma same_data_done r c now : same_command_rec r (host_data_done r c now).1.
Proof. unfold host_data_done. simpl. destruct (_ && _); [apply same_add_busy|done]. Qed.

Create HintDb same.
#[export] Hint Resolve same_set_hts same_add_flag same_set_cpu same_add_busy : same.
#[export] Hint Extern 1 (same_command_rec ?r ?r) => reflexivity : same.

(** [same] proves that a chain of record updates keeps the command. *)
Ltac same :=
  repeat first [ reflexivity | by auto with same
               | match goal with
                 | |- same_command_rec ?r (set_hts ?r' _ _) =>
                     transitivity r'; [|apply same_set_hts]
                 | |- same_command_rec ?r (h_add_flag ?r' _) =>
                     transitivity r'; [|apply same_add_flag]
                 | |- same_command_rec ?r (if ?b then _ else _) => destruct b
                 end ].

(** A hook that only adds to records: no slot changes hands, nothing is
    counted or emitted. *)
Definition host_frame (s s' : host_st) : Prop :=
  inflight s' = inflight s /\ cnt s' = cnt s /\ events s' = events s /\
  (forall i, he_rq (reqs s' i) = he_rq (reqs s i) /\ he_queue (reqs s' i) = he_queue (reqs s i) /\
             same_command_rec (he_rec (reqs s i)) (he_rec (reqs s' i))).

#[export] Instance host_frame_preorder : PreOrder host_frame.
Proof.
  split.
  - intros s. repeat split; done.
  - intros s1 s2 s3 (A1 & A2 & A3 & A4) (B1 & B2 & B3 & B4).
    split; [congruence|]. split; [congruence|]. split; [congruence|]. intros i.
    destruct (A4 i) as (? & ? & ?), (B4 i) as (? & ? & ?).
    split; [congruence|]. split; [congruence|]. by etransitivity.
Qed.

Lemma frame_set_rec s slot r :
  same_command_rec (he_rec (reqs s slot)) r -> host_frame s (set_rec s slot r).
Proof.
  intros Hr. repeat (split; [done|]). intros i. simpl. unfold arr_set.
  destruct (Z.eqb_spec i slot) as [->|]; [done|]. done.
Qed.

Lemma frame_set_rx s cpu x : host_frame s (set_rx s cpu x).
Proof. by repeat split. Qed.
Lemma frame_set_pend s cpu x : host_frame s (set_pend s cpu x).
Proof. by repeat split. Qed.
Lemma frame_set_send s cpu x : host_frame s (set_send s cpu x).
Proof. by repeat split. Qed.
Lemma frame_set_tsend s cpu x : host_frame s (set_tsend s cpu x).
Proof. by repeat split. Qed.
Lemma frame_set_post s cpu x : host_frame s (set_post s cpu x).
Proof. by repeat split. Qed.
Lemma frame_set_queues s q c : host_frame s (set_queues s q c).
Proof. by repeat split. Qed.
Lemma frame_arm s on : host_frame s (arm s on).
Proof. by repeat split. Qed.
Lemma frame_uncount s rq bits f : host_frame s (uncount s rq bits f).
Proof. unfold uncount. destruct (countedm s !! rq); [apply frame_set_queues|done]. Qed.

Lemma host_entry_found s rq slot he :
  host_entry_of s rq = Some (slot, he) ->
  slot = ntp_slot rq NTP_REC_SLOTS /\ he = reqs s slot /\ he_rq he = rq.
Proof.
  unfold host_entry_of. rewrite arr_lookup_slot.
  destruct (Z.eqb_spec (he_rq (reqs s (ntp_slot rq NTP_REC_SLOTS))) rq); [|done].
  by intros [= <- <-].
Qed.

#[export] Hint Resolve frame_set_rx frame_set_pend frame_set_send frame_set_tsend frame_set_post
  frame_set_queues frame_arm frame_uncount : same.

(** [frame] follows a hook's branches. *)
Ltac frame_found :=
  match goal with
  | H : host_entry_of _ _ = Some (_, _) |- _ =>
      apply host_entry_found in H as (? & ? & ?); subst
  end.

Lemma frame_rx_enter e s q k a n : host_frame s (host_rx_enter e s q k a n).
Proof. apply frame_set_rx. Qed.
Lemma frame_rx_exit e s : host_frame s (host_rx_exit e s).
Proof. unfold host_rx_exit. destruct (get_rx e s); [apply frame_set_rx|done]. Qed.

Lemma frame_queue_rq filter K e s hctx bd : host_frame s (host_queue_rq filter K e s hctx bd).
Proof.
  unfold host_queue_rq, get_qstat. cbv zeta. repeat case_match; simplify_eq; by repeat split.
Qed.

Lemma frame_host_complete filter K e s rq o s' :
  host_complete filter K e s rq = (o, s') -> host_frame s s'.
Proof.
  unfold host_complete. destruct (ntp_idle _ _); [by intros [= <- <-]|].
  destruct (get_rx e s) as [c|]; [|by intros [= <- <-]].
  set (s1 := if tracking filter then _ else _).
  assert (host_frame s s1) as Hs1 by (subst s1; destruct (tracking filter); [apply frame_uncount|done]).
  clearbody s1. destruct (host_entry_of s1 (ntp_scalar rq)) as [[slot he]|] eqn:E; [|by intros [= <- <-]].
  frame_found. cbv zeta.
  destruct (x_data_rq c =? _); intros [= <- <-]; (etransitivity; [exact Hs1|]).
  - etransitivity; [apply frame_set_rec|apply frame_set_rx].
    etransitivity; [|apply same_data_done]. same.
  - apply frame_set_rec. same.
Qed.

Lemma frame_nvme_done e s rq : host_frame s (ntp_h_nvme_done e s rq).
Proof.
  unfold ntp_h_nvme_done. destruct (negb _); [done|].
  destruct (host_entry_of s rq) as [[slot he]|] eqn:E; [|done]. frame_found.
  apply frame_set_rec. same.
Qed.

Lemma frame_found_rec s rq slot he r :
  host_entry_of s rq = Some (slot, he) -> same_command_rec (he_rec he) r ->
  host_frame s (set_rec s slot r).
Proof. intros (-> & -> & _)%host_entry_found. apply frame_set_rec. Qed.

Lemma frame_send_enter e s req : host_frame s (TcpHost.send_enter e s req).
Proof. apply frame_set_send. Qed.
Lemma frame_post_kp e s qe : host_frame s (RdmaHost.ntp_hr_post_kp e s qe).
Proof. apply frame_set_post. Qed.

Section TcpFrames.
  Import TcpHost.
  Variable filter : ntp_filter.

Lemma frame_tcp_send_done K e s req ret c :
  host_frame s (TcpHost.on_send_done filter K e s req ret c).
Proof.
  unfold TcpHost.on_send_done. destruct (_ || _); [done|]. cbv zeta.
  set (s1 := if _ && tracking filter then _ else _).
  assert (host_frame s s1) as Hs1 by (subst s1; destruct (_ && _); [apply frame_uncount|done]).
  clearbody s1. etransitivity; [exact Hs1|]. destruct (nz (tcp_queue_request K _)); [done|].
  destruct (host_entry_of s1 _) as [[slot he]|] eqn:E; [|done].
  destruct (negb _); [by eapply frame_found_rec; [done|same]|].
  destruct (nz _); [by eapply frame_found_rec; [done|same]|done].
Qed.

Lemma frame_send_exit K e s ret c : host_frame s (send_exit filter K e s ret c).
Proof.
  unfold send_exit. destruct (get_send e s); [|done].
  etransitivity; [apply frame_set_send|apply frame_tcp_send_done].
Qed.

Lemma frame_send_h2c K e s req : host_frame s (on_send_h2c K e s req).
Proof.
  unfold on_send_h2c. destruct (negb _); [done|].
  destruct (host_entry_of s _) as [[slot he]|] eqn:E; [|done].
  destruct (nz _); [by eapply frame_found_rec; [done|same]|done].
Qed.

Lemma frame_tsend_found K e s c req : host_frame s (tsend_found K e s c req).
Proof. unfold tsend_found. etransitivity; [apply frame_set_tsend|apply frame_send_h2c]. Qed.

Lemma frame_try_send_enter K e s q : host_frame s (try_send_enter filter K e s q).
Proof.
  unfold try_send_enter. destruct (ntp_idle _ _); [done|]. cbv zeta.
  destruct (nz _); [|apply frame_set_tsend].
  etransitivity; [apply frame_set_tsend|apply frame_tsend_found].
Qed.

Lemma frame_sock_send K e s sock : host_frame s (on_sock_send filter K e s sock).
Proof.
  unfold on_sock_send. destruct (ntp_idle _ _); [done|].
  destruct (get_tsend e s); [|done]. destruct (nz _); [done|]. destruct (negb _); [done|]. cbv zeta.
  destruct (nz _); [apply frame_tsend_found|done].
Qed.

Lemma frame_try_send_exit K e s ret : host_frame s (try_send_exit filter K e s ret).
Proof.
  unfold try_send_exit. destruct (get_tsend e s) as [c|]; [|done]. cbv zeta.
  etransitivity; [apply frame_set_tsend|]. destruct (negb (nz (ts_req c))); [reflexivity|].
  etransitivity; [|apply frame_tcp_send_done].
  destruct (_ && _ && _); [apply frame_uncount|reflexivity].
Qed.

Lemma frame_recv_skb K e s skb : host_frame s (on_recv_skb filter K e s skb).
Proof. unfold on_recv_skb. destruct (ntp_idle _ _); [done|apply frame_rx_enter]. Qed.

(** The end of a data period on the read the context counts for. *)
Lemma frame_end_period s c now :
  host_frame s
    (match host_entry_of s (x_data_rq c) with
     | Some (slot, he) => let '(r, c) := host_data_done (he_rec he) c now in (set_rec s slot r, c)
     | None => (s, c)
     end).1.
Proof.
  destruct (host_entry_of s _) as [[slot he]|] eqn:E; [|done]. simpl.
  eapply frame_found_rec; [done|]. apply same_data_done.
Qed.

Lemma frame_recv_skb_exit e s : host_frame s (on_recv_skb_exit e s).
Proof.
  unfold on_recv_skb_exit. destruct (get_rx e s) as [c|]; [|done].
  destruct (nz (x_data_rq c)); [|apply frame_set_rx].
  pose proof (frame_end_period s c (e_now e)) as Hf.
  destruct (match host_entry_of s (x_data_rq c) with Some _ => _ | None => _ end) as [s1 c1].
  etransitivity; [exact Hf|apply frame_set_rx].
Qed.

Lemma frame_copy K e s skb : host_frame s (on_copy filter K e s skb).
Proof.
  unfold on_copy. destruct (ntp_idle _ _); [done|].
  destruct (get_rx e s) as [c|]; [|done]. destruct (negb _); [done|].
  destruct (tcp_queue_pdu K _) as [[type command_id]|]; [|done]. destruct (negb _); [done|].
  destruct (arr_lookup _ _ _) as [cs|]; [|done]. destruct (_ || _); [done|].
  destruct (host_entry_of s (cs_rq cs)) as [[slot he]|] eqn:E; [|done].
  set (s1 := set_rec s slot _).
  assert (host_frame s s1) as Hs1 by (by eapply frame_found_rec; [done|same]).
  clearbody s1. destruct (x_data_rq c =? _); [done|]. cbv zeta.
  etransitivity; [exact Hs1|]. clear Hs1 E s.
  pose proof (frame_end_period s1 c (e_now e)) as Hf.
  assert (host_frame s1 (if nz (x_data_rq c) then
    match host_entry_of s1 (x_data_rq c) with
     | Some (slot, he) => let '(r, c) := host_data_done (he_rec he) c (e_now e) in (set_rec s1 slot r, c)
     | None => (s1, c)
     end else (s1, c)).1) as Hf' by (by destruct (nz (x_data_rq c))).
  destruct (if nz (x_data_rq c) then _ else _) as [s2 c2]. simpl in Hf'.
  etransitivity; [exact Hf'|].
  destruct (negb _); [|apply frame_set_rx].
  etransitivity; [|apply frame_set_rx]. apply frame_set_rec. same.
Qed.

Lemma frame_r2t K e s req : host_frame s (on_r2t K e s req).
Proof.
  unfold on_r2t. destruct (get_rx e s); [|done].
  destruct (host_entry_of s _) as [[slot he]|] eqn:E; [|done].
  destruct (nz _); eapply frame_found_rec; try done; same.
Qed.

Lemma frame_complete K e s rq : host_frame s (on_complete filter K e s rq).
Proof.
  unfold on_complete. destruct (host_complete filter K e s rq) as [[slot|] s1] eqn:E;
    apply frame_host_complete in E; [|done].
  etransitivity; [exact E|]. cbv zeta. destruct (negb _); [done|].
  destruct (get_rx e s1); [|done]. destruct (_ =? nvme_tcp_c2h_data); [|done]. apply frame_set_rec. same.
Qed.

End TcpFrames.

Section RdmaFrames.
  Import RdmaHost.
  Variable filter : ntp_filter.

Lemma frame_stamp_slot e s rq ev :
  host_frame s (stamp_slot e s (host_entry_of s rq) ev).
Proof.
  unfold stamp_slot. destruct (host_entry_of s rq) as [[slot he]|] eqn:E; [|done].
  eapply frame_found_rec; [done|]. same.
Qed.

Lemma frame_stamp_cid e s q c ev : host_frame s (stamp_slot e s (host_rec_by_cid s q c) ev).
Proof.
  unfold host_rec_by_cid. destruct (arr_lookup _ _ _); [|done].
  destruct (_ && _); [apply frame_stamp_slot|done].
Qed.

Lemma frame_posted K e s qe ret : host_frame s (on_posted filter K e s qe ret).
Proof.
  unfold on_posted. destruct (_ || _); [done|]. cbv zeta.
  etransitivity; [|apply frame_stamp_slot]. destruct (tracking filter); [apply frame_uncount|done].
Qed.

Lemma frame_post_kr K e s ret : host_frame s (ntp_hr_post_kr filter K e s ret).
Proof.
  unfold ntp_hr_post_kr. destruct (get_post e s); [|done].
  etransitivity; [apply frame_set_post|apply frame_posted].
Qed.

Lemma frame_rdma_send_done K e s wc : host_frame s (on_send_done filter K e s wc).
Proof.
  unfold on_send_done. destruct (ntp_idle _ _); [done|]. cbv zeta.
  etransitivity; [apply frame_stamp_slot|apply frame_rx_enter].
Qed.

Lemma frame_recv_done K e s wc : host_frame s (on_recv_done filter K e s wc).
Proof.
  unfold on_recv_done. destruct (ntp_idle _ _); [done|]. cbv zeta.
  etransitivity; [|apply frame_rx_enter]. destruct (cqe_command_id K _); [apply frame_stamp_cid|done].
Qed.

Lemma frame_inv_done K e s wc : host_frame s (on_inv_done filter K e s wc).
Proof. unfold on_inv_done. destruct (negb _); [apply frame_rx_enter|done]. Qed.

End RdmaFrames.

(** ** The books of a host object *)

Section Books.
  Variable filter : ntp_filter.
  Context `{HostTransport}.

(** A record this object may emit: the right kind and transport, and a command
    that passes every filter. *)
Definition selected (r : ntp_host_rec) : Prop :=
  kind (h_hdr r) = NTP_REC_HOST /\ transport (h_hdr r) = NTP_TRANSPORT /\
  length (h_ts r) = NTP_H_NR /\ ntp_is_rw (opcode (h_id r)) = true /\
  io_type_matches filter (opcode (h_id r)) = true /\
  ntp_sampled filter (cid (h_id r)) (slba (h_id r)) (nlb (h_id r)) = true /\
  ntp_size_matches filter (h_bytes r) = true /\
  ctrl_matches filter (ctrl_instance r) = true /\ nsid_matches filter (nsid (h_id r)) = true.

Lemma selected_same r r' : same_command_rec r r' -> selected r -> selected r'.
Proof.
  intros (H1 & H2 & H3 & H4 & H5 & _ & _ & _ & H9). unfold selected.
  by rewrite H1, H2, H3, H4, H5, H9.
Qed.

Record host_books (s : host_st) : Prop := {
  hb_inflight : inflight s = owned he_rq (reqs s);
  hb_sampled : cnt s NTP_CNT_HOST_SAMPLED ≡₆₄
    cnt s NTP_CNT_HOST_EMITTED + cnt s NTP_CNT_RB_DROPS + cnt s NTP_CNT_STALE + inflight s;
  hb_emitted : cnt s NTP_CNT_HOST_EMITTED ≡₆₄ Z.of_nat (length (events s));
  hb_slots : forall i, he_rq (reqs s i) <> 0 -> selected (he_rec (reqs s i));
  hb_events : Forall selected (events s)
}.

Lemma books_init : host_books host_init.
Proof. split; [symmetry; by apply owned_free|done..]. Qed.

Lemma books_frame s s' : host_frame s s' -> host_books s -> host_books s'.
Proof.
  intros (F1 & F2 & F3 & F4) [B1 B2 B3 B4 B5]. split.
  - rewrite F1, B1. symmetry. apply owned_ext. intros i. apply F4.
  - by rewrite F1, F2.
  - by rewrite F2, F3.
  - intros i Hi. destruct (F4 i) as (E & _ & Hs). rewrite E in Hi. eapply selected_same; [done|by apply B4].
  - by rewrite F3.
Qed.

(** Counting an I/O touches none of the books. *)
Lemma books_count_io s op b : host_books s -> host_books (count_host_io s op b).
Proof.
  intros [B1 B2 B3 B4 B5]. unfold count_host_io, inc.
  destruct (op =? NTP_NVME_CMD_WRITE); split; try done; simpl; by count_simp.
Qed.

Lemma s64_owned m d :
  -1 <= d <= 1 -> 0 <= owned he_rq m + d -> s64 (owned he_rq m + d) = owned he_rq m + d.
Proof.
  intros Hd Hp. apply s64_small. pose proof (owned_le he_rq m) as Hle.
  unfold NTP_REC_SLOTS in Hle. rewrite Z.shiftl_mul_pow2 in Hle by lia. unfold is_s64. lia.
Qed.

Lemma new_rec_selected K rq hctx ctrl bytes instance ts qu qi id :
  ntp_is_rw (opcode id) = true -> io_type_matches filter (opcode id) = true ->
  ntp_sampled filter (cid id) (slba id) (nlb id) = true -> ntp_size_matches filter bytes = true ->
  ctrl_matches filter instance = true -> nsid_matches filter (nsid id) = true ->
  selected (new_host_rec filter K rq hctx ctrl bytes instance ts qu qi id).
Proof.
  intros. by repeat split.
Qed.

Lemma books_setup_sampled K e s rq ctrl bytes instance queue ts qu qi id :
  rq <> 0 -> host_books s ->
  ntp_is_rw (opcode id) = true -> io_type_matches filter (opcode id) = true ->
  ntp_sampled filter (cid id) (slba id) (nlb id) = true -> ntp_size_matches filter bytes = true ->
  ctrl_matches filter instance = true -> nsid_matches filter (nsid id) = true ->
  host_books (setup_sampled filter K e s rq ctrl bytes instance queue ts qu qi id).
Proof.
  intros Hrq [B1 B2 B3 B4 B5] H1 H2 H3 H4 H5 H6. unfold setup_sampled. cbv zeta.
  rewrite arr_lookup_slot. set (slot := ntp_slot rq NTP_REC_SLOTS) in *.
  set (r := new_host_rec _ _ _ _ _ _ _ _ _ _ _).
  assert (selected r) as Hr by by apply new_rec_selected.
  set (q := if negb (nz queue) then _ else _). clearbody r q.
  pose proof (owned_set he_rq (reqs s) rq (mk_host_entry rq q r)) as Ho. fold slot in Ho.
  rewrite (busy_slot_taken he_rq (mk_host_entry rq q r)) in Ho by done.
  assert (forall i, he_rq (arr_set (reqs s) slot (mk_host_entry rq q r) i) <> 0 ->
    selected (he_rec (arr_set (reqs s) slot (mk_host_entry rq q r) i))) as Hsl.
  { intros i. unfold arr_set. destruct (i =? slot); [done|apply B4]. }
  destruct (nz (he_rq (reqs s slot))) eqn:En.
  - apply nz_true in En. rewrite busy_slot_taken in Ho by done. split; try done; simpl.
    + rewrite B1, Ho. lia.
    + count_simp. cong_from.
  - apply negb_false_iff, Z.eqb_eq in En. rewrite busy_slot_free in Ho by done. split; try done; simpl.
    + rewrite B1, s64_owned, Ho by (try lia; pose proof (owned_nonneg he_rq (reqs s)); lia). lia.
    + count_simp. rewrite (s64_cong (inflight s + 1)). cong_from.
Qed.

Lemma books_setup_cmd K e s rq cmd :
  rq <> 0 -> host_books s -> host_books (ntp_h_setup_cmd filter K e s rq cmd).
Proof.
  intros Hrq Hb. unfold ntp_h_setup_cmd. cbv zeta.
  set (go := match (if _ || _ then get_pend e s else None) with Some _ => _ | None => _ end).
  assert (match go with Some (s1, _, _, _, _) => host_books s1 | None => True end) as Hgo.
  { subst go. repeat case_match; simplify_eq; try done. eapply books_frame; [apply frame_set_pend|done]. }
  destruct go as [[[[[s1 queue] ts] qu] qi]|]; [|done].
  destruct (ntp_read_cmd K cmd) as [id|]; [|done].
  destruct (ntp_is_rw (opcode id)) eqn:E1; [|done]. cbn [negb].
  apply (books_count_io _ (opcode id) (u32 (rq_data_len K rq))) in Hgo. set (s2 := count_host_io _ _ _) in *. clearbody s2.
  destruct (io_type_matches filter (opcode id)) eqn:E2; [|done]. cbn [negb].
  destruct (ntp_sampled filter _ _ _) eqn:E3; [|done]. cbn [negb].
  destruct (ntp_size_matches filter _) eqn:E4; [|done]. cbn [negb].
  destruct (ctrl_matches filter _) eqn:E5; [|done]. cbn [negb].
  destruct (nsid_matches filter _) eqn:E6; [|done]. cbn [negb].
  by apply books_setup_sampled.
Qed.

Lemma same_finished e r : same_command_rec r (finished_rec e r).
Proof.
  unfold finished_rec. cbv zeta. etransitivity; [|apply same_set_cpu]. same.
Qed.

Lemma books_blk_done e s rq : rq <> 0 -> host_books s -> host_books (ntp_h_blk_done e s rq).
Proof.
  intros Hrq [B1 B2 B3 B4 B5]. unfold ntp_h_blk_done.
  destruct (negb (nz (inflight s))); [by split|].
  destruct (host_entry_of s rq) as [[slot he]|] eqn:E; [|by split].
  apply host_entry_found in E as (Hslot & Hhe & Hown). cbv zeta.
  set (r := finished_rec e (he_rec he)).
  assert (selected r) as Hr.
  { eapply selected_same; [apply same_finished|]. rewrite Hhe. apply B4. by rewrite <- Hhe, Hown. }
  assert (he_rq (reqs s slot) <> 0) as Hne by (by rewrite <- Hhe, Hown).
  pose proof (owned_set he_rq (reqs s) rq (mk_host_entry 0 (he_queue he) r)) as Ho. rewrite <- Hslot in Ho.
  rewrite (busy_slot_free he_rq (mk_host_entry 0 (he_queue he) r)), (busy_slot_taken he_rq (reqs s slot)) in Ho by done.
  assert (1 <= owned he_rq (reqs s)) as Hpos by (apply (owned_pos he_rq _ rq); by rewrite <- Hslot).
  clearbody r.
  set (s1 := if e_rb_full e then _ else _).
  assert (inflight s1 = inflight s /\ reqs s1 = reqs (set_rec s slot r) /\
    cnt s1 NTP_CNT_HOST_SAMPLED = cnt s NTP_CNT_HOST_SAMPLED /\ cnt s1 NTP_CNT_STALE = cnt s NTP_CNT_STALE /\
    cnt s1 NTP_CNT_HOST_EMITTED + cnt s1 NTP_CNT_RB_DROPS ≡₆₄ cnt s NTP_CNT_HOST_EMITTED + cnt s NTP_CNT_RB_DROPS + 1 /\
    cnt s1 NTP_CNT_HOST_EMITTED ≡₆₄ Z.of_nat (length (events s1)) /\ Forall selected (events s1))
    as (S1 & S2 & S3 & S4 & S5 & S6 & S7).
  { subst s1. destruct (e_rb_full e); simpl.
    - count_simp. repeat (split; [done || cong_solve|]). done.
    - count_simp. repeat (split; [done || cong_solve|]). rewrite length_app, Nat2Z.inj_add. simpl.
      split; [cong_from|]. apply Forall_app. split; [done|]. by constructor. }
  clearbody s1. destruct (arr_lookup NTP_REC_SLOTS (cid_idx s1) _) as [c|];
    [destruct (cs_rq c =? he_rq he)|].
  all: split; simpl; try done;
    [ rewrite S1, S2, B1, s64_owned by lia; simpl;
      rewrite (owned_ext he_rq (arr_set (reqs s) slot (mk_host_entry 0 (he_queue he) r))
                 (arr_set (arr_set _ _ _) _ _)); [lia|];
      intros i; unfold arr_set; by destruct (i =? slot)
    | rewrite S3, S4, S1, (s64_cong (inflight s + -1)); cong_from
    | intros i; rewrite S2; simpl; unfold arr_set; destruct (Z.eqb_spec i slot) as [->|]; [done|apply B4] ].
Qed.

End Books.

(** ** Runs *)

(** One run of a hook of the NVMe/TCP host object (the two flavours of a hook
    share its body), or the arming by user space. *)
Inductive tcp_host_ev :=
  | TH_arm (on : bool)
  | TH_queue_rq (hctx bd : Z) | TH_setup_cmd (rq cmd : Z)
  | TH_send_done (req ret : Z) (cmd_pdu : bool)
  | TH_send_enter (req : Z) | TH_send_exit (ret : Z) (cmd_pdu : bool)
  | TH_send_h2c (req : Z)
  | TH_try_send_enter (queue : Z) | TH_sock_send (sock : Z) | TH_try_send_exit (ret : Z)
  | TH_recv_skb (skb : Z) | TH_recv_skb_exit | TH_copy (skb : Z)
  | TH_r2t (req : Z) | TH_complete (rq : Z) | TH_nvme_done (rq : Z) | TH_blk_done (rq : Z).

Definition tcp_host_run (filter : ntp_filter) (K : kernel) (e : env) (s : host_st) (ev : tcp_host_ev)
    : host_st :=
  match ev with
  | TH_arm on => arm s on
  | TH_queue_rq hctx bd => host_queue_rq filter K e s hctx bd
  | TH_setup_cmd rq cmd => ntp_h_setup_cmd (H := TcpHost.tcp_host) filter K e s rq cmd
  | TH_send_done req ret c => TcpHost.on_send_done filter K e s req ret c
  | TH_send_enter req => TcpHost.send_enter e s req
  | TH_send_exit ret c => TcpHost.send_exit filter K e s ret c
  | TH_send_h2c req => TcpHost.on_send_h2c K e s req
  | TH_try_send_enter q => TcpHost.try_send_enter filter K e s q
  | TH_sock_send sock => TcpHost.on_sock_send filter K e s sock
  | TH_try_send_exit ret => TcpHost.try_send_exit filter K e s ret
  | TH_recv_skb skb => TcpHost.on_recv_skb filter K e s skb
  | TH_recv_skb_exit => TcpHost.on_recv_skb_exit e s
  | TH_copy skb => TcpHost.on_copy filter K e s skb
  | TH_r2t req => TcpHost.on_r2t K e s req
  | TH_complete rq => TcpHost.on_complete filter K e s rq
  | TH_nvme_done rq => ntp_h_nvme_done e s rq
  | TH_blk_done rq => ntp_h_blk_done (H := TcpHost.tcp_host) e s rq
  end.

(** The same for the NVMe/RDMA host object. *)
Inductive rdma_host_ev :=
  | RH_arm (on : bool)
  | RH_queue_rq (hctx bd : Z) | RH_setup_cmd (rq cmd : Z)
  | RH_posted (qe ret : Z) | RH_post_enter (qe : Z) | RH_post_exit (ret : Z)
  | RH_send_done (wc : Z) | RH_recv_done (wc : Z) | RH_inv_done (wc : Z) | RH_rx_exit
  | RH_complete (rq : Z) | RH_nvme_done (rq : Z) | RH_blk_done (rq : Z).

Definition rdma_host_run (filter : ntp_filter) (K : kernel) (e : env) (s : host_st) (ev : rdma_host_ev)
    : host_st :=
  match ev with
  | RH_arm on => arm s on
  | RH_queue_rq hctx bd => host_queue_rq filter K e s hctx bd
  | RH_setup_cmd rq cmd => ntp_h_setup_cmd (H := RdmaHost.rdma_host) filter K e s rq cmd
  | RH_posted qe ret => RdmaHost.on_posted filter K e s qe ret
  | RH_post_enter qe => RdmaHost.ntp_hr_post_kp e s qe
  | RH_post_exit ret => RdmaHost.ntp_hr_post_kr filter K e s ret
  | RH_send_done wc => RdmaHost.on_send_done filter K e s wc
  | RH_recv_done wc => RdmaHost.on_recv_done filter K e s wc
  | RH_inv_done wc => RdmaHost.on_inv_done filter K e s wc
  | RH_rx_exit => host_rx_exit e s
  | RH_complete rq => (host_complete filter K e s rq).2
  | RH_nvme_done rq => ntp_h_nvme_done e s rq
  | RH_blk_done rq => ntp_h_blk_done (H := RdmaHost.rdma_host) e s rq
  end.

(** Hooks on a [struct request *] get one. *)
Definition tcp_ev_ok (ev : tcp_host_ev) : Prop :=
  match ev with TH_setup_cmd rq _ | TH_blk_done rq => rq <> 0 | _ => True end.
Definition rdma_ev_ok (ev : rdma_host_ev) : Prop :=
  match ev with RH_setup_cmd rq _ | RH_blk_done rq => rq <> 0 | _ => True end.

(** A run of an object: hooks one after the other, in any order, on any CPU
    and thread, against whatever the kernel's memory is at that moment. *)
Definition run_all {Ev} (run : kernel -> env -> host_st -> Ev -> host_st)
    (s : host_st) (l : list (kernel * env * Ev)) : host_st :=
  foldl (fun s '(K, e, ev) => run K e s ev) s l.

Lemma run_all_inv {Ev} (run : kernel -> env -> host_st -> Ev -> host_st) (ok : Ev -> Prop)
    (P : host_st -> Prop) s l :
  (forall K e s ev, ok ev -> P s -> P (run K e s ev)) ->
  Forall (fun '(_, _, ev) => ok ev) l -> P s -> P (run_all run s l).
Proof.
  intros Hstep. revert s. induction l as [|[[K e] ev] l IH]; intros s Hl Hs; [done|].
  inversion Hl; subst. simpl. apply IH; [done|]. by apply Hstep.
Qed.

Lemma tcp_host_books_step filter K e s ev :
  tcp_ev_ok ev -> host_books (H := TcpHost.tcp_host) filter s ->
  host_books (H := TcpHost.tcp_host) filter (tcp_host_run filter K e s ev).
Proof.
  intros Hok Hb. destruct ev; simpl in *;
    solve [ by apply books_setup_cmd | by apply books_blk_done
          | eapply books_frame; [|exact Hb];
            auto using frame_arm, frame_queue_rq, frame_tcp_send_done, frame_send_enter, frame_send_exit,
              frame_send_h2c, frame_try_send_enter, frame_sock_send, frame_try_send_exit, frame_recv_skb,
              frame_recv_skb_exit, frame_copy, frame_r2t, frame_complete, frame_nvme_done ].
Qed.

Lemma rdma_host_books_step filter K e s ev :
  rdma_ev_ok ev -> host_books (H := RdmaHost.rdma_host) filter s ->
  host_books (H := RdmaHost.rdma_host) filter (rdma_host_run filter K e s ev).
Proof.
  intros Hok Hb. destruct ev; simpl in *;
    try solve [ by apply books_setup_cmd | by apply books_blk_done
          | eapply books_frame; [|exact Hb];
            auto using frame_arm, frame_queue_rq, frame_posted, frame_post_kp, frame_post_kr,
              frame_rdma_send_done, frame_recv_done, frame_inv_done, frame_rx_exit, frame_nvme_done ].
  eapply books_frame; [|exact Hb].
  destruct (host_complete filter K e s rq) as [o s'] eqn:E. by eapply frame_host_complete.
Qed.

(** C6: the host object's books.  Whatever hooks run, in whatever order and
    with whatever kernel memory, over TCP and over RDMA: the in-flight counter
    is exactly the number of records under construction; every sampled command
    is emitted, lost to a full ring buffer, replaced (counted stale) or still
    in flight; the emitted counter is the number of records in the ring buffer;
    and every record emitted is a host record of this transport for a command
    that passes each of the filters. *)
Theorem host_object_books (filter : ntp_filter)
    (tcp : list (kernel * env * tcp_host_ev)) (rdma : list (kernel * env * rdma_host_ev)) :
  Forall (fun '(_, _, ev) => tcp_ev_ok ev) tcp -> Forall (fun '(_, _, ev) => rdma_ev_ok ev) rdma ->
  host_books (H := TcpHost.tcp_host) filter (run_all (tcp_host_run filter) host_init tcp) /\
  host_books (H := RdmaHost.rdma_host) filter (run_all (rdma_host_run filter) host_init rdma).
Proof.
  intros Ht Hr. split.
  - eapply run_all_inv; [|exact Ht|apply books_init]. intros. by apply tcp_host_books_step.
  - eapply run_all_inv; [|exact Hr|apply books_init]. intros. by apply rdma_host_books_step.
Qed.

(** Two reads over TCP of which one completes, and one over RDMA. *)
Lemma host_object_books_witness :
  let e n := mk_env 0 77 n false [] in
  let tcp := [(sample_kernel, e 10, (TH_arm true)); (sample_kernel, e 20, TH_setup_cmd 65536 1);
              (sample_kernel, e 25, TH_setup_cmd 131072 1); (sample_kernel, e 30, TH_recv_skb 3);
              (sample_kernel, e 35, TH_complete 65536); (sample_kernel, e 40, TH_blk_done 65536)] in
  let rdma := [(sample_kernel, e 10, (RH_arm true)); (sample_kernel, e 20, RH_queue_rq 1 65536);
               (sample_kernel, e 20, RH_setup_cmd 65536 1); (sample_kernel, e 40, RH_blk_done 65536)] in
  let s := run_all (tcp_host_run all_filter) host_init tcp in
  inflight s = 1 /\ length (events s) = 1%nat /\ cnt s NTP_CNT_HOST_SAMPLED = 2 /\
  host_books (H := TcpHost.tcp_host) all_filter s /\
  host_books (H := RdmaHost.rdma_host) all_filter (run_all (rdma_host_run all_filter) host_init rdma).
Proof.
  cbv zeta. split; [reflexivity|]. split; [reflexivity|]. split; [reflexivity|].
  apply host_object_books; repeat constructor; discriminate.
Defined.

(** ** Queue occupancy

    With [track_queues] the object counts, per queue, the requests not yet sent
    and those in flight.  [counted] remembers what each request still has to be
    taken off, and the counters are exactly what it says. *)

Definition unsent_flag (c : counted) : bool := has (ct_flags c) CNT_UNSENT.

Definition occ (s : host_st) : Prop :=
  occupancy ct_queue unsent_flag (fun c => ct_flags c = 3 \/ ct_flags c = 2) q_inflight_n q_unsent_n
    COUNTED_MAX (qstats s) (countedm s).

Lemma occ_init : occ host_init.
Proof. apply occupancy_init. unfold COUNTED_MAX. lia. Qed.

Lemma qstat_add_exact s q qs du di :
  occ s -> qstats s !! q = Some qs -> -1 <= du <= 1 -> -1 <= di <= 1 ->
  qstat_add qs du di = mk_qstat (q_unsent_n qs + du) (q_inflight_n qs + di).
Proof.
  intros Ho Hq Hu Hi. pose proof (occ_bounds _ _ _ _ _ _ _ _ _ _ Ho Hq) as Hb. unfold COUNTED_MAX in *.
  unfold qstat_add. rewrite !s32_small by lia. done.
Qed.

(** A queue's first request. *)
Lemma occ_get_qstat s q o s' : get_qstat s q = (o, s') -> occ s -> occ s'.
Proof.
  unfold get_qstat, occ. destruct (qstats s !! q) as [qs|] eqn:E; intros [= <- <-]; [done|].
  intros Ho. simpl. unfold hash_update. destruct (hash_has_room _ _ _); [|done].
  by apply occ_new_queue.
Qed.

(** The two ways the hooks uncount. *)
Lemma occ_sent s rq : occ s -> occ (uncount s rq CNT_UNSENT false).
Proof.
  intros Ho. unfold uncount. destruct (countedm s !! rq) as [c|] eqn:Ec; [|done].
  destruct (oc_entry _ _ _ _ _ _ _ _ Ho _ _ Ec) as [Hf [qs Hq]]. rewrite Hq.
  erewrite qstat_add_exact; [|exact Ho|exact Hq|by destruct (has _ _)|by destruct (has _ _)].
  eapply (occ_change ct_queue unsent_flag _ q_inflight_n q_unsent_n COUNTED_MAX (qstats s) (countedm s) rq (mk_counted (ct_queue c) (Z.ldiff (ct_flags c) CNT_UNSENT)) qs);
    rewrite ?Ec; try done; unfold unsent_flag; simpl; destruct Hf as [Hf|Hf]; rewrite Hf; auto; simpl; lia.
Qed.

Lemma occ_done s rq : occ s -> occ (uncount s rq (Z.lor CNT_UNSENT CNT_INFLIGHT) true).
Proof.
  intros Ho. unfold uncount. destruct (countedm s !! rq) as [c|] eqn:Ec; [|done].
  destruct (oc_entry _ _ _ _ _ _ _ _ Ho _ _ Ec) as [Hf [qs Hq]]. rewrite Hq. cbv zeta iota. rewrite delete_insert_eq.
  erewrite qstat_add_exact; [|exact Ho|exact Hq|by destruct (has _ _)|by destruct (has _ _)].
  eapply (occ_forget ct_queue unsent_flag _ q_inflight_n q_unsent_n COUNTED_MAX (qstats s) (countedm s) rq c qs); try done; unfold unsent_flag; simpl;
    destruct Hf as [Hf|Hf]; rewrite Hf; simpl; lia.
Qed.

Lemma occ_queue_rq filter K e s hctx bd :
  Z.of_nat (size (countedm s)) < COUNTED_MAX -> occ s -> occ (host_queue_rq filter K e s hctx bd).
Proof.
  intros Hroom Ho. unfold host_queue_rq. destruct (negb _); [done|]. cbv zeta.
  destruct (tracking filter); [|done].
  destruct (get_qstat s (hctx_driver_data K hctx)) as [o s1] eqn:Eg.
  pose proof (occ_get_qstat _ _ _ _ Eg Ho) as Ho1.
  assert (countedm s1 = countedm s /\ forall qs, o = Some qs -> qstats s1 !! hctx_driver_data K hctx = Some qs)
    as [Hc Hq].
  { unfold get_qstat in Eg. destruct (qstats s !! _) eqn:E; injection Eg as <- <-; [|done].
    split; [done|]. by intros qs [= <-]. }
  destruct o as [qs|]; [|done]. specialize (Hq _ eq_refl).
  destruct (countedm s1 !! bd_rq K bd) as [c|] eqn:Ec; [done|].
  erewrite qstat_add_exact; [|exact Ho1|exact Hq|lia|lia].
  unfold hash_update, hash_has_room. simpl. rewrite Ec, Hc, (proj2 (Z.ltb_lt _ _) Hroom). unfold occ in *.
  simpl. rewrite Hc in *.
  eapply (occ_change ct_queue unsent_flag _ q_inflight_n q_unsent_n COUNTED_MAX (qstats s1) (countedm s) (bd_rq K bd) (mk_counted (hctx_driver_data K hctx) 3) qs);
    rewrite ?Ec; simpl; try done; by left.
Qed.

(** [occ_hook] follows a hook that only uncounts. *)
Ltac occ_hook :=
  repeat case_match; simplify_eq; try done; try (by apply occ_sent); try (by apply occ_done).

Section OccupancyHooks.
  Variable filter : ntp_filter.

Lemma occ_setup_cmd `{HostTransport} K e s rq cmd : occ s -> occ (ntp_h_setup_cmd filter K e s rq cmd).
Proof.
  intros Ho. unfold ntp_h_setup_cmd. cbv zeta.
  set (go := match (if _ || _ then get_pend e s else None) with Some _ => _ | None => _ end).
  assert (match go with Some (s1, _, _, _, _) => occ s1 | None => True end) as Hgo
    by (subst go; occ_hook).
  clearbody go. destruct go as [[[[[s1 queue] ts] qu] qi]|]; [|done].
  unfold setup_sampled. cbv zeta. occ_hook.
Qed.

Lemma occ_complete K e s rq o s' : host_complete filter K e s rq = (o, s') -> occ s -> occ s'.
Proof.
  unfold host_complete. cbv zeta. set (s1 := if tracking filter then _ else _). intros E Ho.
  assert (occ s1) as Ho1 by (subst s1; destruct (tracking filter); [by apply occ_done|done]).
  clearbody s1. revert E. occ_hook; intros; simplify_eq; done.
Qed.

Lemma occ_tcp_send_done K e s req ret c : occ s -> occ (TcpHost.on_send_done filter K e s req ret c).
Proof.
  intros Ho. unfold TcpHost.on_send_done. destruct (_ || _); [done|]. cbv zeta.
  set (s1 := if _ && tracking filter then _ else _).
  assert (occ s1) as Ho1 by (subst s1; destruct (_ && _); [by apply occ_sent|done]).
  clearbody s1. occ_hook.
Qed.

Lemma occ_try_send_exit K e s ret : occ s -> occ (TcpHost.try_send_exit filter K e s ret).
Proof.
  intros Ho. unfold TcpHost.try_send_exit. destruct (get_tsend e s); [|done]. cbv zeta.
  destruct (negb _); [done|]. apply occ_tcp_send_done. destruct (_ && _ && _); [by apply occ_sent|done].
Qed.

Lemma occ_copy K e s skb : occ s -> occ (TcpHost.on_copy filter K e s skb).
Proof. intros Ho. unfold TcpHost.on_copy, host_data_done. cbv zeta. occ_hook. Qed.

Lemma occ_posted K e s qe ret : occ s -> occ (RdmaHost.on_posted filter K e s qe ret).
Proof.
  intros Ho. unfold RdmaHost.on_posted, RdmaHost.stamp_slot. destruct (_ || _); [done|]. cbv zeta.
  destruct (tracking filter); [|occ_hook]. apply (occ_sent _ (RdmaHost.rq_of_sqe K qe)) in Ho. 
  set (s1 := uncount _ _ _ _) in *. clearbody s1. occ_hook.
Qed.

(** A new request is counted only while the map of counted requests has room. *)
Definition tcp_room (_ : kernel) (_ : env) (s : host_st) (ev : tcp_host_ev) : Prop :=
  match ev with TH_queue_rq _ _ => Z.of_nat (size (countedm s)) < COUNTED_MAX | _ => True end.
Definition rdma_room (_ : kernel) (_ : env) (s : host_st) (ev : rdma_host_ev) : Prop :=
  match ev with RH_queue_rq _ _ => Z.of_nat (size (countedm s)) < COUNTED_MAX | _ => True end.

Lemma tcp_occ_step K e s ev : tcp_room K e s ev -> occ s -> occ (tcp_host_run filter K e s ev).
Proof.
  intros Hr Ho. destruct ev; simpl in *; try done; try (by apply occ_queue_rq); try (by apply occ_setup_cmd);
    try (by apply occ_tcp_send_done); try (by apply occ_try_send_exit); try (by apply occ_copy).
  - unfold TcpHost.send_exit. destruct (get_send e s); [|done]. by apply occ_tcp_send_done.
  - unfold TcpHost.on_send_h2c. occ_hook.
  - unfold TcpHost.try_send_enter, TcpHost.tsend_found, TcpHost.on_send_h2c. occ_hook.
  - unfold TcpHost.on_sock_send, TcpHost.tsend_found, TcpHost.on_send_h2c. occ_hook.
  - unfold TcpHost.on_recv_skb. occ_hook.
  - unfold TcpHost.on_recv_skb_exit. occ_hook.
  - unfold TcpHost.on_r2t. occ_hook.
  - unfold TcpHost.on_complete. destruct (host_complete filter K e s rq) as [o s'] eqn:E.
    apply occ_complete in E; [|done]. occ_hook.
  - unfold ntp_h_nvme_done. occ_hook.
  - unfold ntp_h_blk_done. occ_hook.
Qed.

Lemma rdma_occ_step K e s ev : rdma_room K e s ev -> occ s -> occ (rdma_host_run filter K e s ev).
Proof.
  intros Hr Ho. destruct ev; simpl in *; try done; try (by apply occ_queue_rq); try (by apply occ_setup_cmd);
    try (by apply occ_posted).
  - unfold RdmaHost.ntp_hr_post_kr. destruct (get_post e s); [|done]. by apply occ_posted.
  - unfold RdmaHost.on_send_done, RdmaHost.stamp_slot. occ_hook.
  - unfold RdmaHost.on_recv_done, RdmaHost.stamp_slot. occ_hook.
  - unfold RdmaHost.on_inv_done. occ_hook.
  - unfold host_rx_exit. occ_hook.
  - destruct (host_complete filter K e s rq) as [o s'] eqn:E. by apply occ_complete in E.
  - unfold ntp_h_nvme_done. occ_hook.
  - unfold ntp_h_blk_done. occ_hook.
Qed.

End OccupancyHooks.

(** C33: exact queue occupancy on the host.  As long as the map of counted
    requests (65,536 entries) has room when a request is queued, in every state
    either host object can reach each queue's counters are exactly the number of
    requests counted on it that are in flight, and of those still unsent: every
    decrement matches an increment, the counters never go negative, and unsent
    requests are among the ones in flight. *)
Theorem host_queue_occupancy (filter : ntp_filter) (s : host_st) (queue : Z) (qs : qstat) :
  reachable (tcp_host_run filter) tcp_room host_init s \/
  reachable (rdma_host_run filter) rdma_room host_init s ->
  qstats s !! queue = Some qs ->
  q_inflight_n qs = mcount (on_queue ct_queue queue) (countedm s) /\
  q_unsent_n qs = mcount (extra_on ct_queue unsent_flag queue) (countedm s) /\
  0 <= q_unsent_n qs <= q_inflight_n qs /\ q_inflight_n qs <= COUNTED_MAX.
Proof.
  intros Hr Hq. assert (occ s) as Ho.
  { destruct Hr as [Hr|Hr]; (eapply reachable_inv; [apply occ_init| |exact Hr]); intros.
    - by apply tcp_occ_step.
    - by apply rdma_occ_step. }
  split; [by apply (oc_all _ _ _ _ _ _ _ _ Ho)|]. split; [by apply (oc_extra _ _ _ _ _ _ _ _ Ho)|].
  by eapply occ_bounds.
Qed.

(** Two requests queued, the first one sent. *)
Lemma host_queue_occupancy_witness :
  let e := mk_env 0 77 10 false [] in
  let run := tcp_host_run queue_filter sample_kernel e in
  let s := run (run (run (run host_init (TH_arm true)) (TH_queue_rq 1 65536)) (TH_queue_rq 1 131072))
             (TH_send_done (65536 + 256) 1 true) in
  qstats s !! 512 = Some (mk_qstat 1 2) /\
  2 = mcount (on_queue ct_queue 512) (countedm s) /\
  1 = mcount (extra_on ct_queue unsent_flag 512) (countedm s).
Proof.
  intros e run s.
  assert (qstats s !! 512 = Some (mk_qstat 1 2)) as Hq by by vm_compute.
  assert (reachable (tcp_host_run queue_filter) tcp_room host_init s) as Hr.
  { subst s run. repeat (apply reach_step; [|by vm_compute]). apply reach_init. }
  destruct (host_queue_occupancy queue_filter s 512 _ (or_introl Hr) Hq) as (H1 & H2 & _).
  split; [exact Hq|]. split; [exact H1|exact H2].
Defined.

(** Where the room is missing the counters drift: a request queued while the map of
    counted requests is full is added to the counters of its queue but not to the map, and
    neither sending nor completing it takes it off again. *)
Theorem full_map_drifts filter K e s hctx bd qs :
  armed s = true -> tracking filter = true -> qstats s !! hctx_driver_data K hctx = Some qs ->
  countedm s !! bd_rq K bd = None -> COUNTED_MAX <= Z.of_nat (size (countedm s)) ->
  let s' := host_queue_rq filter K e s hctx bd in
  qstats s' !! hctx_driver_data K hctx = Some (qstat_add qs 1 1) /\ countedm s' = countedm s /\
  forall bits forget, uncount s' (bd_rq K bd) bits forget = s'.
Proof.
  intros Ha Ht Hq Hc Hf. cbv zeta. unfold host_queue_rq. rewrite Ha, Ht. cbn [negb]. cbv zeta. unfold get_qstat. rewrite Hq, Hc.
  unfold hash_update, hash_has_room. cbn [countedm set_pend set_queues qstats]. rewrite Hc, (proj2 (Z.ltb_ge _ _) Hf). cbn.
  split; [apply lookup_insert_eq|]. split; [done|]. intros bits forget. unfold uncount. cbn. by rewrite Hc.
Qed.
