(* ===== verification/BpfTarget.v ===== *)
(** * The target's BPF object (bpf/target.bpf.h, bpf/nvme_tcp_target.bpf.c,
      bpf/nvme_rdma_target.bpf.c)

    [tgt_st] is the state of one target object.  The hooks of nvmet-core, the
    backends and the block layer come first; [TargetTransport] is what a
    transport defines for target.bpf.h, with the TCP and the RDMA object as
    instances. *)
From stdpp Require Import base numbers list gmap.
From Stdlib Require Import ZArith Lia.
From S2P Require Import Prelude Types BpfCommon.

(** ** Maps *)

Record tgt_entry := mk_tgt_entry { te_req : Z; te_parts : Z; te_rec : ntp_tgt_rec }.
Definition free_tgt_entry : tgt_entry := mk_tgt_entry 0 0 zero_tgt_rec.

Record tqstat := mk_tqstat { q_outstanding_n : Z; q_resp_n : Z }.

Definition CNT_OUTSTANDING : Z := 1.
Definition CNT_RESP_QUEUED : Z := 2.

Record tcounted := mk_tcounted { tc_sq : Z; tc_flags : Z }.

Record tgt_ctx := mk_tgt_ctx { g_tid : Z; g_queue : Z; g_sk : Z; g_last_skb : Z; g_arrival : Z }.

(** [tcp_rx] (TCP) and [resp_ctx] (RDMA, kretprobe flavour). *)
Record tcp_rx := mk_tcp_rx { r_tid : Z; r_skb : Z; r_sk : Z; r_enter : Z; r_offset : Z }.
Record resp_ctx := mk_resp_ctx { rc_tid : Z; rc_req : Z }.

Record tgt_st := mk_tgt_st {
  t_armed : bool;
  t_inflight : Z;
  t_cnt : counts;
  treqs : Z -> tgt_entry;
  tqstats : gmap Z tqstat;
  tcountedm : gmap Z tcounted;
  tgt_c : Z -> tgt_ctx;
  tcp_rx_c : Z -> tcp_rx;
  tqueues : gmap Z Z;
  resp_c : Z -> resp_ctx;
  t_events : list ntp_tgt_rec
}.

Definition tgt_init : tgt_st :=
  mk_tgt_st false 0 (fun _ => 0) (fun _ => free_tgt_entry) ∅ ∅ (fun _ => mk_tgt_ctx 0 0 0 0 0)
    (fun _ => mk_tcp_rx 0 0 0 0 0) ∅ (fun _ => mk_resp_ctx 0 0) [].

Definition set_inflight (s : tgt_st) (v : Z) : tgt_st :=
  mk_tgt_st (t_armed s) v (t_cnt s) (treqs s) (tqstats s) (tcountedm s) (tgt_c s) (tcp_rx_c s)
    (tqueues s) (resp_c s) (t_events s).
Definition set_cnt (s : tgt_st) (v : counts) : tgt_st :=
  mk_tgt_st (t_armed s) (t_inflight s) v (treqs s) (tqstats s) (tcountedm s) (tgt_c s) (tcp_rx_c s)
    (tqueues s) (resp_c s) (t_events s).
Definition set_entry (s : tgt_st) (slot : Z) (e : tgt_entry) : tgt_st :=
  mk_tgt_st (t_armed s) (t_inflight s) (t_cnt s) (arr_set (treqs s) slot e) (tqstats s) (tcountedm s)
    (tgt_c s) (tcp_rx_c s) (tqueues s) (resp_c s) (t_events s).
Definition set_queues (s : tgt_st) (q : gmap Z tqstat) (c : gmap Z tcounted) : tgt_st :=
  mk_tgt_st (t_armed s) (t_inflight s) (t_cnt s) (treqs s) q c (tgt_c s) (tcp_rx_c s) (tqueues s)
    (resp_c s) (t_events s).
Definition set_ctx (s : tgt_st) (cpu : Z) (c : tgt_ctx) : tgt_st :=
  mk_tgt_st (t_armed s) (t_inflight s) (t_cnt s) (treqs s) (tqstats s) (tcountedm s)
    (arr_set (tgt_c s) cpu c) (tcp_rx_c s) (tqueues s) (resp_c s) (t_events s).
Definition set_tcp_rx (s : tgt_st) (cpu : Z) (r : tcp_rx) : tgt_st :=
  mk_tgt_st (t_armed s) (t_inflight s) (t_cnt s) (treqs s) (tqstats s) (tcountedm s) (tgt_c s)
    (arr_set (tcp_rx_c s) cpu r) (tqueues s) (resp_c s) (t_events s).
Definition set_tqueues (s : tgt_st) (q : gmap Z Z) : tgt_st :=
  mk_tgt_st (t_armed s) (t_inflight s) (t_cnt s) (treqs s) (tqstats s) (tcountedm s) (tgt_c s)
    (tcp_rx_c s) q (resp_c s) (t_events s).
Definition set_resp (s : tgt_st) (cpu : Z) (c : resp_ctx) : tgt_st :=
  mk_tgt_st (t_armed s) (t_inflight s) (t_cnt s) (treqs s) (tqstats s) (tcountedm s) (tgt_c s)
    (tcp_rx_c s) (tqueues s) (arr_set (resp_c s) cpu c) (t_events s).
Definition add_event (s : tgt_st) (r : ntp_tgt_rec) : tgt_st :=
  mk_tgt_st (t_armed s) (t_inflight s) (t_cnt s) (treqs s) (tqstats s) (tcountedm s) (tgt_c s)
    (tcp_rx_c s) (tqueues s) (resp_c s) (t_events s ++ [r]).
(** User space arms the object, and disarms it. *)
Definition tgt_arm (s : tgt_st) (on : bool) : tgt_st :=
  mk_tgt_st on (t_inflight s) (t_cnt s) (treqs s) (tqstats s) (tcountedm s) (tgt_c s) (tcp_rx_c s)
    (tqueues s) (resp_c s) (t_events s).

Definition inc (s : tgt_st) (c : ntp_counter) (delta : Z) : tgt_st :=
  set_cnt s (ntp_count (t_cnt s) c delta).
Definition inflight_add (s : tgt_st) (d : Z) : tgt_st := set_inflight s (s64 (t_inflight s + d)).

(** [NTP_CTX_GET] *)
Definition get_ctx (e : env) (s : tgt_st) : option tgt_ctx :=
  let c := tgt_c s (e_cpu e) in if g_tid c =? e_tid e then Some c else None.
Definition get_tcp_rx (e : env) (s : tgt_st) : option tcp_rx :=
  let c := tcp_rx_c s (e_cpu e) in if r_tid c =? e_tid e then Some c else None.
Definition get_resp (e : env) (s : tgt_st) : option resp_ctx :=
  let c := resp_c s (e_cpu e) in if rc_tid c =? e_tid e then Some c else None.

Definition tgt_ctx_enter (e : env) (s : tgt_st) (queue sk arrival : Z) : tgt_st :=
  set_ctx s (e_cpu e) (mk_tgt_ctx (e_tid e) queue sk 0 arrival).

Definition tgt_ctx_exit (e : env) (s : tgt_st) : tgt_st :=
  match get_ctx e s with
  | Some c => set_ctx s (e_cpu e) (mk_tgt_ctx 0 (g_queue c) (g_sk c) (g_last_skb c) (g_arrival c))
  | None => s
  end.

Definition tgt_arrival (filter : ntp_filter) (K : kernel) (c : tgt_ctx) (now : Z) : Z :=
  if nz (g_last_skb c) then ntp_skb_arrival filter K (g_last_skb c) now
  else if nz (g_arrival c) then g_arrival c else now.

(** The slot of [req] and the entry there when it is its. *)
Definition tgt_entry_of (s : tgt_st) (req : Z) : option (Z * tgt_entry) :=
  let slot := ntp_slot req NTP_REC_SLOTS in
  match arr_lookup NTP_REC_SLOTS (treqs s) slot with
  | Some e => if te_req e =? req then Some (slot, e) else None
  | None => None
  end.

(** Writing through the pointer [tgt_rec] returns. *)
Definition set_rec (s : tgt_st) (slot : Z) (r : ntp_tgt_rec) : tgt_st :=
  set_entry s slot (mk_tgt_entry (te_req (treqs s slot)) (te_parts (treqs s slot)) r).

Definition t_add_flag (r : ntp_tgt_rec) (f : Z) : ntp_tgt_rec := set_t_flags r (Z.lor (flags (t_hdr r)) f).
Definition t_set_cpu (r : ntp_tgt_rec) (c : Z) : ntp_tgt_rec :=
  mk_tgt_rec (mk_rec_hdr (kind (t_hdr r)) (transport (t_hdr r)) (flags (t_hdr r)) c) (t_id r) (t_bytes r)
    (q_outstanding r) (q_resp_queue r) (t_ts r) (h2c_busy_ns r) (h2c_skbs r) (t_pad2 r).
Definition t_stamp_once (r : ntp_tgt_rec) (ev : ntp_tgt_ts) (now : Z) : ntp_tgt_rec :=
  set_tts r ev (ntp_stamp_once (tts r ev) now).

(** ** Occupancy *)

Definition TQSTATS_MAX : Z := 4096.
Definition TCOUNTED_MAX : Z := 65536.

Definition get_tqstat (s : tgt_st) (sq : Z) : option tqstat * tgt_st :=
  match tqstats s !! sq with
  | Some qs => (Some qs, s)
  | None =>
      let s := set_queues s (hash_update TQSTATS_MAX (tqstats s) sq (mk_tqstat 0 0)) (tcountedm s) in
      (tqstats s !! sq, s)
  end.

Definition tqstat_add (qs : tqstat) (o r : Z) : tqstat :=
  mk_tqstat (s32 (q_outstanding_n qs + o)) (s32 (q_resp_n qs + r)).

Definition uncount (s : tgt_st) (req bits : Z) (forget : bool) : tgt_st :=
  match tcountedm s !! req with
  | None => s
  | Some c =>
      let drop := Z.land (tc_flags c) bits in
      let cm := <[req := mk_tcounted (tc_sq c) (Z.ldiff (tc_flags c) bits)]> (tcountedm s) in
      let qm :=
        match tqstats s !! tc_sq c with
        | Some qs =>
            <[tc_sq c := tqstat_add qs (if has drop CNT_OUTSTANDING then -1 else 0)
                                       (if has drop CNT_RESP_QUEUED then -1 else 0)]> (tqstats s)
        | None => tqstats s
        end in
      set_queues s qm (if forget then delete req cm else cm)
  end.

Definition count_resp_queued (s : tgt_st) (req : Z) : tgt_st :=
  match tcountedm s !! req with
  | None => s
  | Some tc =>
      if has (tc_flags tc) CNT_RESP_QUEUED then s
      else
        let cm := <[req := mk_tcounted (tc_sq tc) (Z.lor (tc_flags tc) CNT_RESP_QUEUED)]> (tcountedm s) in
        let qm :=
          match tqstats s !! tc_sq tc with
          | Some qs => <[tc_sq tc := tqstat_add qs 0 1]> (tqstats s)
          | None => tqstats s
          end in
        set_queues s qm cm
  end.

(** ** Emission *)

Definition tgt_emit (e : env) (s : tgt_st) (req : Z) : tgt_st :=
  match tgt_entry_of s req with
  | None => s
  | Some (slot, te) =>
      let r := t_set_cpu (te_rec te) (e_cpu e) in
      let s := set_rec s slot r in
      let s := if e_rb_full e then inc s NTP_CNT_RB_DROPS 1
               else inc (add_event s r) NTP_CNT_TGT_EMITTED 1 in
      let s := set_entry s slot (mk_tgt_entry 0 (te_parts te) r) in
      inflight_add s (-1)
  end.

(** What the transport object defines. *)
Class TargetTransport := {
  T_TRANSPORT : Z;
  tgt_is_ours : ntp_filter -> kernel -> env -> tgt_st -> Z -> Z -> bool * tgt_st;
  tgt_sampled : ntp_filter -> kernel -> env -> tgt_st -> Z -> Z -> Z -> Z * tgt_st
}.

Section Hooks.
  Variable filter : ntp_filter.

Definition tgt_uncount (s : tgt_st) (req : Z) : tgt_st :=
  if tracking filter then uncount s req (Z.lor CNT_OUTSTANDING CNT_RESP_QUEUED) true else s.

Definition tgt_finish (e : env) (s : tgt_st) (req : Z) : tgt_st :=
  tgt_emit e (tgt_uncount s req) req.

(** *** Command arrival *)

(** The occupancy part of the hook: what the record gets, and the state. *)
Definition count_arrival (s : tgt_st) (key sq : Z) : Z * Z * tgt_st :=
  let '(found, s) := get_tqstat s sq in
  let s := uncount s key (Z.lor CNT_OUTSTANDING CNT_RESP_QUEUED) true in
  match found, tqstats s !! sq with
  | Some _, Some qs =>
      (ntp_clamp_u16 (q_outstanding_n qs), ntp_clamp_u16 (q_resp_n qs),
       set_queues s (<[sq := tqstat_add qs 1 0]> (tqstats s))
         (hash_update TCOUNTED_MAX (tcountedm s) key (mk_tcounted sq CNT_OUTSTANDING)))
  | _, _ => (0, 0, s)
  end.

(** A record still open for this nvmet_req is emitted as it is. *)
Definition emit_reused (e : env) (s : tgt_st) (key : Z) : tgt_st :=
  if nz (t_inflight s) then
    match tgt_entry_of s key with
    | Some (slot, old) => tgt_emit e (set_rec s slot (t_add_flag (te_rec old) NTP_F_REUSED)) key
    | None => s
    end
  else s.

Context `{TargetTransport}.

(** The zeroed record with the fields the hook fills in, the arrival last. *)
Definition new_tgt_rec (K : kernel) (id : ntp_cmd_id) (sq qo qr arrival now : Z) : ntp_tgt_rec :=
  let flags := if opcode id =? NTP_NVME_CMD_WRITE then NTP_F_WRITE else 0 in
  let flags := if tracking filter then Z.lor flags NTP_F_QUEUES else flags in
  let r := mk_tgt_rec (mk_rec_hdr NTP_REC_TARGET T_TRANSPORT flags 0)
             (id_with id (u16 (nvmet_sq_ctrl_cntlid K sq)) (u16 (nvmet_sq_qid K sq)))
             0 qo qr (replicate NTP_T_NR 0) 0 0 0 in
  set_tts (set_tts r NTP_T_CMD_ARR arrival) NTP_T_CMD_PROC now.

(** The part of the hook for a command that is sampled. *)
Definition init_sampled (K : kernel) (e : env) (s : tgt_st) (req sq qo qr : Z) (id : ntp_cmd_id) : tgt_st :=
  let slot := ntp_slot req NTP_REC_SLOTS in
  match arr_lookup NTP_REC_SLOTS (treqs s) slot with
  | None => s
  | Some e0 =>
      let s := if nz (te_req e0) then inc s NTP_CNT_STALE 1 else inflight_add s 1 in
      let now := e_now e in
      let '(arrival, s) := tgt_sampled filter K e s req sq now in
      let s := set_entry s slot (mk_tgt_entry req 0 (new_tgt_rec K id sq qo qr arrival now)) in
      inc s NTP_CNT_TGT_SAMPLED 1
  end.

Definition ntp_t_req_init (K : kernel) (e : env) (s : tgt_st) (req cmd : Z) : tgt_st :=
  if negb (t_armed s) then s
  else
    let sq := nvmet_req_sq K req in
    if negb (nz (nvmet_sq_qid K sq)) then s
    else
      let '(ours, s) := tgt_is_ours filter K e s req sq in
      if negb ours then s
      else
        let '(qo, qr, s) := if tracking filter then count_arrival s req sq else (0, 0, s) in
        let s := inc s NTP_CNT_TGT_CMDS 1 in
        let s := emit_reused e s req in
        match ntp_read_cmd K cmd with
        | None => s
        | Some id =>
            if negb (ntp_is_rw (opcode id)) then s
            else if negb (io_type_matches filter (opcode id)) then s
            else if negb (ntp_sampled filter (cid id) (slba id) (nlb id)) then s
            else init_sampled K e s req sq qo qr id
        end.

(** *** Backend *)

Definition on_exec (K : kernel) (e : env) (s : tgt_st) (req : Z) : tgt_st :=
  if negb (nz (t_inflight s)) then s
  else
    match tgt_entry_of s (ntp_scalar req) with
    | None => s
    | Some (slot, te) =>
        let r := te_rec te in
        if nz (tts r NTP_T_EXEC) then s
        else
          let r := set_tts r NTP_T_EXEC (e_now e) in
          set_rec s slot (mk_tgt_rec (t_hdr r) (t_id r) (u32 (nvmet_req_transfer_len K req)) (q_outstanding r)
                            (q_resp_queue r) (t_ts r) (h2c_busy_ns r) (h2c_skbs r) (t_pad2 r))
    end.

Definition rec_of_rq (K : kernel) (s : tgt_st) (rq : Z) : option (Z * tgt_entry) :=
  if negb (nz (t_inflight s)) then None
  else
    let priv := rq_bio_bi_private K rq in
    if nz priv then tgt_entry_of s priv else None.

Definition ntp_t_be_issue (K : kernel) (e : env) (s : tgt_st) (rq : Z) : tgt_st :=
  match rec_of_rq K s rq with
  | Some (slot, te) => set_rec s slot (t_stamp_once (te_rec te) NTP_T_BE_ISSUE (e_now e))
  | None => s
  end.

Definition ntp_t_be_done (K : kernel) (e : env) (s : tgt_st) (rq : Z) : tgt_st :=
  match rec_of_rq K s rq with
  | Some (slot, te) => set_rec s slot (set_tts (te_rec te) NTP_T_BE_DONE (e_now e))
  | None => s
  end.

Definition ntp_t_complete (e : env) (s : tgt_st) (req : Z) : tgt_st :=
  if negb (nz (t_inflight s)) then s
  else
    match tgt_entry_of s req with
    | Some (slot, te) => set_rec s slot (t_stamp_once (te_rec te) NTP_T_COMPLETE (e_now e))
    | None => s
    end.

End Hooks.

(** ** NVMe/TCP (nvme_tcp_target.bpf.c) *)
Module TcpTarget.

Definition cmd_of (K : kernel) (req : Z) : Z := u64 (req - offsetof_tcp_cmd_req K).
Definition req_of (K : kernel) (cmd : Z) : Z := ntp_scalar (u64 (cmd + offsetof_tcp_cmd_req K)).
Definition queue_of_sq (K : kernel) (sq : Z) : Z := u64 (sq - offsetof_tcp_queue_sq K).

Definition remember_queue (K : kernel) (e : env) (s : tgt_st) (queue : Z) : tgt_st :=
  set_tqueues s (lru_update e (tqueues s) queue (nvmet_queue_sock K queue)).

Definition on_copy (K : kernel) (e : env) (s : tgt_st) (skb offset : Z) : tgt_st :=
  set_tcp_rx s (e_cpu e)
    (mk_tcp_rx (e_tid e) skb (skb_sk K skb) (if nz (t_inflight s) then e_now e else 0) offset).

Section Hooks.
  Variable filter : ntp_filter.

Definition rx_arrival (K : kernel) (e : env) (s : tgt_st) (sk now : Z) : Z :=
  match get_tcp_rx e s with
  | None => now
  | Some r => if negb (r_sk r =? sk) then now else ntp_skb_arrival filter K (r_skb r) now
  end.

(** The record with a copy from [from] to [now] of data that arrived at [arr]. *)
Definition add_copy (r : ntp_tgt_rec) (from now arr : Z) : ntp_tgt_rec :=
  let r := mk_tgt_rec (t_hdr r) (t_id r) (t_bytes r) (q_outstanding r) (q_resp_queue r) (t_ts r)
             (u64 (h2c_busy_ns r + u64 (now - from))) (u32 (h2c_skbs r + 1)) (t_pad2 r) in
  set_tts (set_tts r NTP_T_DATA_DONE now) NTP_T_DATA_LAST_ARR arr.

Definition on_copy_done (K : kernel) (e : env) (s : tgt_st) (ret : Z) : tgt_st :=
  if negb (nz (t_inflight s)) then s
  else
    match get_tcp_rx e s with
    | None => s
    | Some r =>
        let enter := r_enter r in
        let s := set_tcp_rx s (e_cpu e) (mk_tcp_rx (r_tid r) (r_skb r) (r_sk r) 0 (r_offset r)) in
        if negb (nz enter) || nz ret then s
        else
          let sk := r_sk r in
          let queue := sk_user_data K sk in
          if negb (nz queue) || negb (socket_sk K (nvmet_queue_sock K queue) =? sk) then s
          else if negb (nvmet_queue_rcv_state K queue =? NVMET_TCP_RECV_DATA) then s
          else
            let cmd := nvmet_queue_cmd K queue in
            if negb (nz cmd) then s
            else
              match tgt_entry_of s (req_of K cmd) with
              | None => s
              | Some (slot, te) =>
                  let rec := te_rec te in
                  if negb (has (flags (t_hdr rec)) NTP_F_R2T) || negb (nz (tts rec NTP_T_DATA_PROC)) ||
                     nz (tts rec NTP_T_EXEC) then s
                  else
                    let now := e_now e in
                    let from := if negb (nz (h2c_skbs rec)) && (0 <? r_offset r)
                                then tts rec NTP_T_DATA_PROC else enter in
                    if now <? from then s
                    else set_rec s slot
                           (add_copy rec from now (ntp_skb_arrival filter K (r_skb r) now))
              end
    end.

Definition tgt_is_ours (K : kernel) (e : env) (s : tgt_st) (_req sq : Z) : bool * tgt_st :=
  let queue := queue_of_sq K sq in
  if negb (sk_user_data K (socket_sk K (nvmet_queue_sock K queue)) =? queue) then (false, s)
  else (true, if tracking filter then remember_queue K e s queue else s).

Definition tgt_sampled (K : kernel) (e : env) (s : tgt_st) (_req sq now : Z) : Z * tgt_st :=
  let queue := queue_of_sq K sq in
  let s := remember_queue K e s queue in
  (rx_arrival K e s (socket_sk K (nvmet_queue_sock K queue)) now, s).

Definition on_queue_resp (K : kernel) (e : env) (s : tgt_st) (req : Z) : tgt_st :=
  if ntp_idle filter (t_inflight s) then s
  else
    let key := ntp_scalar req in
    let rec := tgt_entry_of s key in
    let opcode := default 0 (nvme_cmd_opcode K (nvmet_req_cmd K req)) in
    if (tracking filter || bool_decide (is_Some rec)) && (opcode =? NTP_NVME_CMD_WRITE) &&
       (nvmet_cmd_rbytes_done K (cmd_of K req) <? nvmet_req_transfer_len K req)
    then
      match rec with
      | Some (slot, te) => set_rec s slot (t_stamp_once (te_rec te) NTP_T_R2T_QUEUED (e_now e))
      | None => s
      end
    else
      let s := if tracking filter then count_resp_queued s key else s in
      match rec with
      | Some (slot, te) => set_rec s slot (t_stamp_once (te_rec te) NTP_T_RSP_QUEUED (e_now e))
      | None => s
      end.

Definition on_h2c (K : kernel) (e : env) (s : tgt_st) (cmd : Z) : tgt_st :=
  if negb (nz (t_inflight s)) then s
  else
    match tgt_entry_of s (req_of K cmd) with
    | None => s
    | Some (slot, te) =>
        let r := te_rec te in
        if negb (nz (tts r NTP_T_R2T_SENT)) then set_rec s slot (t_add_flag r NTP_F_INLINE_DATA)
        else if nz (tts r NTP_T_DATA_PROC) then s
        else
          let now := e_now e in
          let r := t_add_flag r NTP_F_R2T in
          let r := set_tts r NTP_T_DATA_ARR
                     (rx_arrival K e s (socket_sk K (nvmet_queue_sock K (nvmet_cmd_queue K cmd))) now) in
          set_rec s slot (set_tts r NTP_T_DATA_PROC now)
    end.

(** Changing the record of [req] when it has one. *)
Definition with_rec (s : tgt_st) (rec : option (Z * tgt_entry)) (f : ntp_tgt_rec -> ntp_tgt_rec) : tgt_st :=
  match rec with Some (slot, te) => set_rec s slot (f (te_rec te)) | None => s end.

Definition on_sendmsg (K : kernel) (e : env) (s : tgt_st) (sock : Z) : tgt_st :=
  if ntp_idle filter (t_inflight s) then s
  else
    let queue := sk_user_data K (socket_sk K sock) in
    match tqueues s !! queue with
    | None => s
    | Some qsock =>
        if negb (qsock =? ntp_scalar sock) then s
        else
          let cmd := nvmet_queue_snd_cmd K queue in
          if negb (nz cmd) || nz (nvmet_cmd_offset K cmd) then s
          else
            let req := req_of K cmd in
            let rec := tgt_entry_of s req in
            if negb (bool_decide (is_Some rec)) && negb (tracking filter) then s
            else
              let now := e_now e in
              let state := nvmet_cmd_state K cmd in
              if state =? NVMET_TCP_SEND_R2T then
                with_rec s rec (fun r => t_stamp_once r NTP_T_R2T_SENT now)
              else if state =? NVMET_TCP_SEND_DATA_PDU then
                let s := with_rec s rec (fun r => t_stamp_once r NTP_T_C2H_SENT now) in
                if nvmet_queue_sqhd_disabled K queue then
                  let s := with_rec s (tgt_entry_of s req) (fun r => t_add_flag r NTP_F_DATA_SUCCESS) in
                  tgt_finish filter e s req
                else s
              else if state =? NVMET_TCP_SEND_RESPONSE then
                let s := with_rec s rec (fun r => set_tts r NTP_T_RSP_SENT now) in
                tgt_finish filter e s req
              else s
    end.

End Hooks.

#[export] Instance tcp_target : TargetTransport := {
  T_TRANSPORT := NTP_TR_TCP;
  tgt_is_ours := tgt_is_ours;
  tgt_sampled := tgt_sampled
}.

End TcpTarget.

(** ** NVMe/RDMA (nvme_rdma_target.bpf.c) *)
Module RdmaTarget.

Definition tgt_is_ours (e : env) (s : tgt_st) : bool * tgt_st :=
  (bool_decide (is_Some (get_ctx e s)), s).

Definition tgt_sampled (filter : ntp_filter) (K : kernel) (e : env) (s : tgt_st) (now : Z) : Z * tgt_st :=
  (match get_ctx e s with Some c => tgt_arrival filter K c now | None => now end, s).

#[export] Instance rdma_target : TargetTransport := {
  T_TRANSPORT := NTP_TR_RDMA;
  tgt_is_ours := fun _ _ e s _ _ => tgt_is_ours e s;
  tgt_sampled := fun filter K e s _ _ now => tgt_sampled filter K e s now
}.

Definition req_of_rsp (K : kernel) (rsp : Z) : Z := ntp_scalar (u64 (rsp + offsetof_rsp_req K)).

Definition on_recv_done (K : kernel) (e : env) (s : tgt_st) (wc : Z) : tgt_st :=
  tgt_ctx_enter e s (wc_qp_context K wc) 0 (e_now e).

Definition on_execute (K : kernel) (e : env) (s : tgt_st) (rsp : Z) : tgt_st :=
  if negb (nz (t_inflight s)) then s
  else
    let key := req_of_rsp K rsp in
    match tgt_entry_of s key with
    | None => s
    | Some (slot, te) =>
        let r := te_rec te in
        if negb (has (flags (t_hdr r)) NTP_F_WRITE) then s
        else if negb (nz (nvmet_req_transfer_len K key)) || has (rsp_flags K rsp) NVMET_RDMA_REQ_INLINE_DATA
        then set_rec s slot (t_add_flag r NTP_F_INLINE_DATA)
        else set_rec s slot (t_stamp_once (t_add_flag r NTP_F_RDMA_READ) NTP_T_R2T_SENT (e_now e))
    end.

Definition on_read_done (K : kernel) (e : env) (s : tgt_st) (wc : Z) : tgt_st :=
  if negb (nz (t_inflight s)) then s
  else
    let rsp := u64 (wc_wr_cqe K wc - offsetof_rsp_read_cqe K) in
    match tgt_entry_of s (req_of_rsp K rsp) with
    | None => s
    | Some (slot, te) =>
        let r := te_rec te in
        if nz (tts r NTP_T_DATA_PROC) then s
        else set_rec s slot (set_tts (set_tts r NTP_T_DATA_ARR (e_now e)) NTP_T_DATA_PROC (e_now e))
    end.

Definition RSP_POSTED : Z := 1.
Definition RSP_SEND_DONE : Z := 2.

Definition rsp_part_done (e : env) (s : tgt_st) (req part : Z) : tgt_st :=
  match tgt_entry_of s req with
  | None => s
  | Some (slot, te) =>
      let parts := Z.lor (te_parts te) part in
      let s := set_entry s slot (mk_tgt_entry (te_req te) parts (te_rec te)) in
      if parts =? Z.lor RSP_POSTED RSP_SEND_DONE then tgt_emit e s req else s
  end.

Section Hooks.
  Variable filter : ntp_filter.

Definition on_queue_resp (e : env) (s : tgt_st) (req : Z) : tgt_st :=
  if ntp_idle filter (t_inflight s) then s
  else
    let key := ntp_scalar req in
    let s := if tracking filter then count_resp_queued s key else s in
    match tgt_entry_of s key with
    | Some (slot, te) => set_rec s slot (t_stamp_once (te_rec te) NTP_T_RSP_QUEUED (e_now e))
    | None => s
    end.

Definition on_queue_resp_exit (e : env) (s : tgt_st) (req : Z) : tgt_st :=
  if ntp_idle filter (t_inflight s) then s
  else
    let s :=
      match tgt_entry_of s req with
      | Some (slot, te) =>
          let r := te_rec te in
          let r := if negb (has (flags (t_hdr r)) NTP_F_WRITE) then set_tts r NTP_T_C2H_SENT (e_now e) else r in
          let s := set_rec s slot (set_tts r NTP_T_RSP_SENT (e_now e)) in
          rsp_part_done e s req RSP_POSTED
      | None => s
      end in
    tgt_uncount filter s req.

Definition on_send_done (K : kernel) (e : env) (s : tgt_st) (wc : Z) : tgt_st :=
  if negb (nz (t_inflight s)) then s
  else
    let rsp := u64 (wc_wr_cqe K wc - offsetof_rsp_send_cqe K) in
    let req := req_of_rsp K rsp in
    match tgt_entry_of s req with
    | None => s
    | Some (slot, te) =>
        let s := set_rec s slot (t_stamp_once (te_rec te) NTP_T_SEND_DONE (e_now e)) in
        rsp_part_done e s req RSP_SEND_DONE
    end.

(** The kprobe and the kretprobe of nvmet_rdma_queue_response. *)
Definition ntp_tr_queue_resp_kp (e : env) (s : tgt_st) (req : Z) : tgt_st :=
  on_queue_resp e (set_resp s (e_cpu e) (mk_resp_ctx (e_tid e) req)) req.

Definition ntp_tr_queue_resp_kr (e : env) (s : tgt_st) : tgt_st :=
  match get_resp e s with
  | None => s
  | Some c => on_queue_resp_exit e (set_resp s (e_cpu e) (mk_resp_ctx 0 (rc_req c))) (rc_req c)
  end.

End Hooks.
End RdmaTarget.

(** ** Runs *)

(** One run of a hook of the NVMe/TCP target object, or the arming. *)
Inductive tcp_tgt_ev :=
  | TT_arm (on : bool) | TT_req_init (req cmd : Z) | TT_exec (req : Z) | TT_be_issue (rq : Z) | TT_be_done (rq : Z)
  | TT_complete (req : Z) | TT_copy (skb offset : Z) | TT_copy_done (ret : Z) | TT_queue_resp (req : Z)
  | TT_h2c (cmd : Z) | TT_sendmsg (sock : Z).

Definition tcp_tgt_run (filter : ntp_filter) (K : kernel) (e : env) (s : tgt_st) (ev : tcp_tgt_ev) : tgt_st :=
  match ev with
  | TT_arm on => tgt_arm s on
  | TT_req_init req cmd => ntp_t_req_init (H := TcpTarget.tcp_target) filter K e s req cmd
  | TT_exec req => on_exec K e s req
  | TT_be_issue rq => ntp_t_be_issue K e s rq
  | TT_be_done rq => ntp_t_be_done K e s rq
  | TT_complete req => ntp_t_complete e s req
  | TT_copy skb offset => TcpTarget.on_copy K e s skb offset
  | TT_copy_done ret => TcpTarget.on_copy_done filter K e s ret
  | TT_queue_resp req => TcpTarget.on_queue_resp filter K e s req
  | TT_h2c cmd => TcpTarget.on_h2c filter K e s cmd
  | TT_sendmsg sock => TcpTarget.on_sendmsg filter K e s sock
  end.

(** The same for the NVMe/RDMA target object. *)
Inductive rdma_tgt_ev :=
  | RT_arm (on : bool) | RT_req_init (req cmd : Z) | RT_exec (req : Z) | RT_be_issue (rq : Z) | RT_be_done (rq : Z)
  | RT_complete (req : Z) | RT_recv_done (wc : Z) | RT_recv_exit | RT_execute (rsp : Z) | RT_read_done (wc : Z)
  | RT_queue_resp (req : Z) | RT_queue_resp_exit (req : Z)
  | RT_queue_resp_kp (req : Z) | RT_queue_resp_kr | RT_send_done (wc : Z).

Definition rdma_tgt_run (filter : ntp_filter) (K : kernel) (e : env) (s : tgt_st) (ev : rdma_tgt_ev) : tgt_st :=
  match ev with
  | RT_arm on => tgt_arm s on
  | RT_req_init req cmd => ntp_t_req_init (H := RdmaTarget.rdma_target) filter K e s req cmd
  | RT_exec req => on_exec K e s req
  | RT_be_issue rq => ntp_t_be_issue K e s rq
  | RT_be_done rq => ntp_t_be_done K e s rq
  | RT_complete req => ntp_t_complete e s req
  | RT_recv_done wc => RdmaTarget.on_recv_done K e s wc
  | RT_recv_exit => tgt_ctx_exit e s
  | RT_execute rsp => RdmaTarget.on_execute K e s rsp
  | RT_read_done wc => RdmaTarget.on_read_done K e s wc
  | RT_queue_resp req => RdmaTarget.on_queue_resp filter e s req
  | RT_queue_resp_exit req => RdmaTarget.on_queue_resp_exit filter e s (ntp_scalar req)
  | RT_queue_resp_kp req => RdmaTarget.ntp_tr_queue_resp_kp filter e s req
  | RT_queue_resp_kr => RdmaTarget.ntp_tr_queue_resp_kr filter e s
  | RT_send_done wc => RdmaTarget.on_send_done K e s wc
  end.

(** The clock has started, and no command the kernel hands over is at address
    0.  (A return of nvmet_rdma_queue_response finds the command of its entry.) *)
Definition tcp_tgt_ok (K : kernel) (e : env) (s : tgt_st) (ev : tcp_tgt_ev) : Prop :=
  e_now e <> 0 /\
  match ev with
  | TT_req_init req _ => req <> 0
  | TT_sendmsg sock => TcpTarget.req_of K (nvmet_queue_snd_cmd K (sk_user_data K (socket_sk K sock))) <> 0
  | _ => True
  end.
Definition rdma_tgt_ok (K : kernel) (e : env) (s : tgt_st) (ev : rdma_tgt_ev) : Prop :=
  e_now e <> 0 /\
  match ev with
  | RT_req_init req _ => req <> 0
  | RT_queue_resp_exit req => ntp_scalar req <> 0
  | RT_queue_resp_kr => rc_req (resp_c s (e_cpu e)) <> 0
  | RT_send_done wc => RdmaTarget.req_of_rsp K (u64 (wc_wr_cqe K wc - offsetof_rsp_send_cqe K)) <> 0
  | _ => True
  end.

(** ** What every hook keeps *)

(** The ends of a response. *)
Definition end_stamp (ev : ntp_tgt_ts) : Prop := ev = NTP_T_RSP_SENT \/ ev = NTP_T_SEND_DONE.

(** A record only gains: the command stays, and the response's stamps. *)
Definition t_grows (r r' : ntp_tgt_rec) : Prop :=
  t_id r' = t_id r /\ kind (t_hdr r') = kind (t_hdr r) /\ transport (t_hdr r') = transport (t_hdr r) /\
  length (t_ts r') = length (t_ts r) /\ (forall ev, end_stamp ev -> tts r ev <> 0 -> tts r' ev <> 0).

#[export] Instance t_grows_preorder : PreOrder t_grows.
Proof.
  split; [intros r; unfold t_grows; tauto|].
  intros r1 r2 r3 (A1 & A2 & A3 & A4 & A5) (B1 & B2 & B3 & B4 & B5). unfold t_grows.
  repeat (split; [congruence|]). auto.
Qed.

Lemma t_idx_inj ev ev' : t_idx ev = t_idx ev' -> ev = ev'.
Proof. by destruct ev, ev'. Qed.

Lemma tts_set_other r ev v ev' : ev <> ev' -> tts (set_tts r ev v) ev' = tts r ev'.
Proof.
  intros Hn. unfold tts. simpl. rewrite list_lookup_insert_ne; [done|].
  intros Hi. by apply t_idx_inj in Hi.
Qed.

Lemma tts_set_kept r ev v ev' : v <> 0 -> tts r ev' <> 0 -> tts (set_tts r ev v) ev' <> 0.
Proof.
  intros Hv Hr. unfold tts in *. simpl. destruct (decide (t_idx ev = t_idx ev')) as [E|]; [|by rewrite list_lookup_insert_ne].
  rewrite E. destruct (t_ts r !! t_idx ev') eqn:El; [|done].
  rewrite list_lookup_insert_eq; [done|]. by eapply lookup_lt_Some.
Qed.

Lemma tts_set_new r ev v : length (t_ts r) = NTP_T_NR -> tts (set_tts r ev v) ev = v.
Proof.
  intros Hl. unfold tts. simpl. rewrite list_lookup_insert_eq; [done|]. rewrite Hl. unfold NTP_T_NR. destruct ev; simpl; lia.
Qed.

Lemma grows_set r ev v : v <> 0 \/ (ev <> NTP_T_RSP_SENT /\ ev <> NTP_T_SEND_DONE) -> t_grows r (set_tts r ev v).
Proof.
  intros Hv. repeat (split; [done|]). split; [simpl; by rewrite length_insert|].
  intros ev' He Hr. destruct Hv as [Hv|[H1 H2]]; [by apply tts_set_kept|].
  rewrite tts_set_other; [done|]. destruct He; congruence.
Qed.

Lemma grows_stamp r ev now : now <> 0 -> t_grows r (t_stamp_once r ev now).
Proof.
  intros Hn. apply grows_set. left. unfold ntp_stamp_once. destruct (nz (tts r ev)) eqn:E; [|done].
  by apply nz_true.
Qed.

Lemma grows_flag r f : t_grows r (t_add_flag r f).
Proof. by repeat split. Qed.
Lemma grows_cpu r c : t_grows r (t_set_cpu r c).
Proof. by repeat split. Qed.

(** [grows] proves that a chain of record updates only adds. *)
Ltac grows :=
  repeat match goal with
  | |- t_grows ?r ?r => reflexivity
  | |- t_grows _ (set_tts ?r _ _) => transitivity r; [|apply grows_set; auto; right; split; discriminate]
  | |- t_grows _ (t_stamp_once ?r _ _) => transitivity r; [|by apply grows_stamp]
  | |- t_grows _ (t_add_flag ?r _) => transitivity r; [|apply grows_flag]
  | |- t_grows _ (t_set_cpu ?r _) => transitivity r; [|apply grows_cpu]
  | |- t_grows _ (if ?b then _ else _) => destruct b
  | |- t_grows ?r (mk_tgt_rec (t_hdr ?r') _ _ _ _ _ _ _ _) => transitivity r'; [|by repeat split]
  end.

Definition tgt_frame (s s' : tgt_st) : Prop :=
  t_inflight s' = t_inflight s /\ t_cnt s' = t_cnt s /\ t_events s' = t_events s /\
  (forall i, te_req (treqs s' i) = te_req (treqs s i) /\ te_parts (treqs s' i) = te_parts (treqs s i) /\
             t_grows (te_rec (treqs s i)) (te_rec (treqs s' i))).

#[export] Instance tgt_frame_preorder : PreOrder tgt_frame.
Proof.
  split.
  - intros s. repeat split; done.
  - intros s1 s2 s3 (A1 & A2 & A3 & A4) (B1 & B2 & B3 & B4).
    split; [congruence|]. split; [congruence|]. split; [congruence|]. intros i.
    destruct (A4 i) as (? & ? & ?), (B4 i) as (? & ? & ?).
    split; [congruence|]. split; [congruence|]. by etransitivity.
Qed.

Lemma tgt_entry_found s req slot te :
  tgt_entry_of s req = Some (slot, te) ->
  slot = ntp_slot req NTP_REC_SLOTS /\ te = treqs s slot /\ te_req te = req.
Proof.
  unfold tgt_entry_of. rewrite arr_lookup_slot.
  destruct (Z.eqb_spec (te_req (treqs s (ntp_slot req NTP_REC_SLOTS))) req); [|done].
  by intros [= <- <-].
Qed.

Lemma tgt_frame_rec s req slot te r :
  tgt_entry_of s req = Some (slot, te) -> t_grows (te_rec te) r -> tgt_frame s (set_rec s slot r).
Proof.
  intros (-> & -> & _)%tgt_entry_found Hr. repeat (split; [done|]). intros i. simpl. unfold arr_set.
  destruct (Z.eqb_spec i (ntp_slot req NTP_REC_SLOTS)) as [->|]; done.
Qed.

Lemma tgt_frame_uncount s req bits f : tgt_frame s (uncount s req bits f).
Proof. unfold uncount. destruct (tcountedm s !! req); by repeat split. Qed.
Lemma tgt_frame_resp_queued s req : tgt_frame s (count_resp_queued s req).
Proof. unfold count_resp_queued. repeat case_match; by repeat split. Qed.
Lemma tgt_frame_tgt_uncount filter s req : tgt_frame s (tgt_uncount filter s req).
Proof. unfold tgt_uncount. destruct (tracking filter); [apply tgt_frame_uncount|done]. Qed.
Lemma tgt_frame_arrival s key sq : tgt_frame s (count_arrival s key sq).2.
Proof.
  unfold count_arrival. destruct (get_tqstat s sq) as [o s1] eqn:E.
  assert (tgt_frame s s1) as H1.
  { unfold get_tqstat in E. destruct (tqstats s !! sq); injection E as <- <-; by repeat split. }
  pose proof (tgt_frame_uncount s1 key (Z.lor CNT_OUTSTANDING CNT_RESP_QUEUED) true) as H2.
  set (s2 := uncount _ _ _ _) in *. clearbody s2. assert (tgt_frame s s2) by (by etransitivity).
  destruct o; [destruct (tqstats s2 !! sq)|]; simpl; (etransitivity; [eassumption|by repeat split]).
Qed.

(** ** The hooks that only add *)

Lemma frame_exec K e s req : e_now e <> 0 -> tgt_frame s (on_exec K e s req).
Proof.
  intros Hn. unfold on_exec. destruct (negb _); [done|].
  destruct (tgt_entry_of s _) as [[slot te]|] eqn:E; [|done]. destruct (nz _); [done|].
  eapply tgt_frame_rec; [done|]. cbv zeta. grows.
Qed.

Lemma rec_of_rq_found K s rq x : rec_of_rq K s rq = Some x -> exists req, tgt_entry_of s req = Some x.
Proof.
  unfold rec_of_rq. destruct (negb _); [done|]. cbv zeta. destruct (nz _); [|done]. eauto.
Qed.

Lemma frame_be_issue K e s rq : e_now e <> 0 -> tgt_frame s (ntp_t_be_issue K e s rq).
Proof.
  intros Hn. unfold ntp_t_be_issue. destruct (rec_of_rq K s rq) as [[slot te]|] eqn:E; [|done].
  apply rec_of_rq_found in E as [req E]. eapply tgt_frame_rec; [done|]. grows.
Qed.

Lemma frame_be_done K e s rq : tgt_frame s (ntp_t_be_done K e s rq).
Proof.
  unfold ntp_t_be_done. destruct (rec_of_rq K s rq) as [[slot te]|] eqn:E; [|done].
  apply rec_of_rq_found in E as [req E]. eapply tgt_frame_rec; [done|]. grows.
Qed.

Lemma frame_t_complete e s req : e_now e <> 0 -> tgt_frame s (ntp_t_complete e s req).
Proof.
  intros Hn. unfold ntp_t_complete. destruct (negb _); [done|].
  destruct (tgt_entry_of s _) as [[slot te]|] eqn:E; [|done]. eapply tgt_frame_rec; [done|]. grows.
Qed.

Lemma frame_copy_done filter K e s ret : tgt_frame s (TcpTarget.on_copy_done filter K e s ret).
Proof.
  unfold TcpTarget.on_copy_done. destruct (negb _); [done|].
  destruct (get_tcp_rx e s) as [r|]; [|done]. cbv zeta.
  set (s1 := set_tcp_rx s _ _). assert (tgt_frame s s1) as H1 by by repeat split.
  clearbody s1. etransitivity; [exact H1|].
  destruct (_ || _); [done|]. destruct (_ || _); [done|]. destruct (negb _); [done|]. destruct (negb _); [done|].
  destruct (tgt_entry_of s1 _) as [[slot te]|] eqn:E; [|done].
  destruct (_ || _ || _); [done|]. destruct (_ <? _); [done|].
  eapply tgt_frame_rec; [done|]. unfold TcpTarget.add_copy. cbv zeta. grows.
Qed.

Lemma count_resp_entry s key req : tgt_entry_of (count_resp_queued s key) req = tgt_entry_of s req.
Proof. unfold count_resp_queued. by repeat case_match. Qed.

Lemma frame_tcp_queue_resp filter K e s req : e_now e <> 0 -> tgt_frame s (TcpTarget.on_queue_resp filter K e s req).
Proof.
  intros Hn. unfold TcpTarget.on_queue_resp. destruct (ntp_idle _ _); [done|]. cbv zeta.
  destruct (_ && _ && _).
  - destruct (tgt_entry_of s _) as [[slot te]|] eqn:E; [|done]. eapply tgt_frame_rec; [done|]. grows.
  - set (s1 := if tracking filter then _ else s).
    assert (tgt_frame s s1) as H1 by (subst s1; destruct (tracking filter); [apply tgt_frame_resp_queued|done]).
    assert (tgt_entry_of s1 (ntp_scalar req) = tgt_entry_of s (ntp_scalar req)) as He
      by (subst s1; destruct (tracking filter); [apply count_resp_entry|done]).
    clearbody s1. rewrite <- He. destruct (tgt_entry_of s1 _) as [[slot te]|] eqn:E; [|done].
    etransitivity; [exact H1|]. eapply tgt_frame_rec; [done|]. grows.
Qed.

Lemma frame_h2c filter K e s cmd : tgt_frame s (TcpTarget.on_h2c filter K e s cmd).
Proof.
  unfold TcpTarget.on_h2c. destruct (negb _); [done|].
  destruct (tgt_entry_of s _) as [[slot te]|] eqn:E; [|done].
  destruct (negb _); [eapply tgt_frame_rec; [done|]; grows|]. destruct (nz _); [done|].
  cbv zeta. eapply tgt_frame_rec; [done|]. grows.
Qed.

Lemma frame_ctx_exit e s : tgt_frame s (tgt_ctx_exit e s).
Proof. unfold tgt_ctx_exit. destruct (get_ctx e s); by repeat split. Qed.

Lemma frame_execute K e s rsp : e_now e <> 0 -> tgt_frame s (RdmaTarget.on_execute K e s rsp).
Proof.
  intros Hn. unfold RdmaTarget.on_execute. destruct (negb _); [done|]. cbv zeta.
  destruct (tgt_entry_of s _) as [[slot te]|] eqn:E; [|done]. destruct (negb _); [done|].
  destruct (_ || _); (eapply tgt_frame_rec; [done|]; grows).
Qed.

Lemma frame_read_done K e s wc : tgt_frame s (RdmaTarget.on_read_done K e s wc).
Proof.
  unfold RdmaTarget.on_read_done. destruct (negb _); [done|]. cbv zeta.
  destruct (tgt_entry_of s _) as [[slot te]|] eqn:E; [|done]. destruct (nz _); [done|].
  eapply tgt_frame_rec; [done|]. grows.
Qed.

Lemma frame_rdma_queue_resp filter e s req : e_now e <> 0 -> tgt_frame s (RdmaTarget.on_queue_resp filter e s req).
Proof.
  intros Hn. unfold RdmaTarget.on_queue_resp. destruct (ntp_idle _ _); [done|]. cbv zeta.
  set (s1 := if tracking filter then _ else s).
  assert (tgt_frame s s1) as H1 by (subst s1; destruct (tracking filter); [apply tgt_frame_resp_queued|done]).
  clearbody s1. etransitivity; [exact H1|].
  destruct (tgt_entry_of s1 _) as [[slot te]|] eqn:E; [|done]. eapply tgt_frame_rec; [done|]. grows.
Qed.

(** ** The books of a target object *)

Lemma has_lor f m : m <> 0 -> has (Z.lor f m) m = true.
Proof.
  intros Hm. unfold has. apply negb_true_iff, Z.eqb_neq.
  rewrite Z.land_comm. intros H. apply Hm. rewrite <- H. apply Z.bits_inj'. intros n _.
  rewrite Z.land_spec, Z.lor_spec. destruct (Z.testbit m n); [by rewrite orb_true_r|done].
Qed.

Section Books.
  Variable filter : ntp_filter.
  Context `{TargetTransport}.

(** A record for a command this object samples. *)
Definition t_selected (r : ntp_tgt_rec) : Prop :=
  kind (t_hdr r) = NTP_REC_TARGET /\ transport (t_hdr r) = T_TRANSPORT /\ length (t_ts r) = NTP_T_NR /\
  ntp_is_rw (opcode (t_id r)) = true /\ io_type_matches filter (opcode (t_id r)) = true /\
  ntp_sampled filter (cid (t_id r)) (slba (t_id r)) (nlb (t_id r)) = true.

(** A record whose command's end was seen: its response (over TCP possibly the
    data that stands for it) went out, and over RDMA its send completed.  The
    others are marked. *)
Definition ended (r : ntp_tgt_rec) : Prop :=
  has (flags (t_hdr r)) NTP_F_REUSED = true \/
  (if T_TRANSPORT =? NTP_TR_RDMA
   then tts r NTP_T_RSP_SENT <> 0 /\ tts r NTP_T_SEND_DONE <> 0
   else tts r NTP_T_RSP_SENT <> 0 \/
        (has (flags (t_hdr r)) NTP_F_DATA_SUCCESS = true /\ tts r NTP_T_C2H_SENT <> 0)).

(** The parts of the response that were seen left their stamps. *)
Definition parts_ok (te : tgt_entry) : Prop :=
  0 <= te_parts te <= 3 /\
  (has (te_parts te) RdmaTarget.RSP_POSTED = true -> tts (te_rec te) NTP_T_RSP_SENT <> 0) /\
  (has (te_parts te) RdmaTarget.RSP_SEND_DONE = true -> tts (te_rec te) NTP_T_SEND_DONE <> 0).

Record tgt_books (s : tgt_st) : Prop := {
  tb_inflight : t_inflight s = owned te_req (treqs s);
  tb_sampled : t_cnt s NTP_CNT_TGT_SAMPLED ≡₆₄
    t_cnt s NTP_CNT_TGT_EMITTED + t_cnt s NTP_CNT_RB_DROPS + t_cnt s NTP_CNT_STALE + t_inflight s;
  tb_emitted : t_cnt s NTP_CNT_TGT_EMITTED ≡₆₄ Z.of_nat (length (t_events s));
  tb_slots : forall i, te_req (treqs s i) <> 0 -> t_selected (te_rec (treqs s i)) /\ parts_ok (treqs s i);
  tb_events : Forall (fun r => t_selected r /\ ended r) (t_events s)
}.

Lemma tgt_books_init : tgt_books tgt_init.
Proof. split; [symmetry; by apply owned_free|done..]. Qed.

Lemma t_selected_grows r r' : t_grows r r' -> t_selected r -> t_selected r'.
Proof. intros (H1 & H2 & H3 & H4 & _). unfold t_selected. by rewrite H1, H2, H3, H4. Qed.

Lemma tgt_books_frame s s' : tgt_frame s s' -> tgt_books s -> tgt_books s'.
Proof.
  intros (F1 & F2 & F3 & F4) [B1 B2 B3 B4 B5]. split.
  - rewrite F1, B1. symmetry. apply owned_ext. intros i. apply F4.
  - by rewrite F1, F2.
  - by rewrite F2, F3.
  - intros i Hi. destruct (F4 i) as (E1 & E2 & Hg). rewrite E1 in Hi. destruct (B4 i Hi) as (Hs & Hp1 & Hp2 & Hp3).
    split; [by eapply t_selected_grows|]. unfold parts_ok. rewrite E2.
    destruct Hg as (_ & _ & _ & _ & Hg). split; [done|]. split; intros Hx; apply Hg; auto; unfold end_stamp; auto.
  - by rewrite F3.
Qed.

Lemma s64_owned_t m d :
  -1 <= d <= 1 -> 0 <= owned te_req m + d -> s64 (owned te_req m + d) = owned te_req m + d.
Proof.
  intros Hd Hp. apply s64_small. pose proof (owned_le te_req m) as Hle.
  unfold NTP_REC_SLOTS in Hle. rewrite Z.shiftl_mul_pow2 in Hle by lia. unfold is_s64. lia.
Qed.

Lemma tgt_books_emit e s req :
  req <> 0 -> tgt_books s ->
  (forall slot te, tgt_entry_of s req = Some (slot, te) -> ended (te_rec te)) ->
  tgt_books (tgt_emit e s req).
Proof.
  intros Hreq [B1 B2 B3 B4 B5] Hend. unfold tgt_emit.
  destruct (tgt_entry_of s req) as [[slot te]|] eqn:E; [|by split].
  specialize (Hend _ _ eq_refl). apply tgt_entry_found in E as (Hslot & Hte & Hown). cbv zeta.
  set (r := t_set_cpu (te_rec te) (e_cpu e)).
  assert (te_req (treqs s slot) <> 0) as Hne by (by rewrite <- Hte, Hown).
  assert (t_selected r /\ ended r) as Hr.
  { split; [|exact Hend]. eapply t_selected_grows; [apply grows_cpu|]. rewrite Hte. by apply B4. }
  pose proof (owned_set te_req (treqs s) req (mk_tgt_entry 0 (te_parts te) r)) as Ho. rewrite <- Hslot in Ho.
  rewrite (busy_slot_free te_req (mk_tgt_entry 0 (te_parts te) r)), (busy_slot_taken te_req (treqs s slot)) in Ho by done.
  assert (1 <= owned te_req (treqs s)) as Hpos by (apply (owned_pos te_req _ req); by rewrite <- Hslot).
  clearbody r. clear Hend.
  set (s1 := if e_rb_full e then _ else _).
  assert (t_inflight s1 = t_inflight s /\ treqs s1 = treqs (set_rec s slot r) /\
    t_cnt s1 NTP_CNT_TGT_SAMPLED = t_cnt s NTP_CNT_TGT_SAMPLED /\ t_cnt s1 NTP_CNT_STALE = t_cnt s NTP_CNT_STALE /\
    t_cnt s1 NTP_CNT_TGT_EMITTED + t_cnt s1 NTP_CNT_RB_DROPS ≡₆₄
      t_cnt s NTP_CNT_TGT_EMITTED + t_cnt s NTP_CNT_RB_DROPS + 1 /\
    t_cnt s1 NTP_CNT_TGT_EMITTED ≡₆₄ Z.of_nat (length (t_events s1)) /\
    Forall (fun r => t_selected r /\ ended r) (t_events s1)) as (S1 & S2 & S3 & S4 & S5 & S6 & S7).
  { subst s1. destruct (e_rb_full e); simpl.
    - count_simp. repeat (split; [done || cong_solve|]). done.
    - count_simp. repeat (split; [done || cong_solve|]). rewrite length_app, Nat2Z.inj_add. simpl.
      split; [cong_from|]. apply Forall_app. split; [done|]. by constructor. }
  clearbody s1. split; simpl; try done.
  - rewrite S1, S2, B1, s64_owned_t by lia. simpl.
    rewrite (owned_ext te_req (arr_set (treqs s) slot (mk_tgt_entry 0 (te_parts te) r)) (arr_set (arr_set _ _ _) _ _));
      [lia|]. intros i; unfold arr_set; by destruct (i =? slot).
  - rewrite S3, S4, S1, (s64_cong (t_inflight s + -1)). cong_from.
  - intros i. rewrite S2. simpl. unfold arr_set. destruct (Z.eqb_spec i slot) as [->|]; [done|apply B4].
Qed.

Lemma tgt_books_cmds s : tgt_books s -> tgt_books (inc s NTP_CNT_TGT_CMDS 1).
Proof. intros [B1 B2 B3 B4 B5]. split; try done; simpl; by count_simp. Qed.

Lemma tgt_books_reused e s req : req <> 0 -> tgt_books s -> tgt_books (emit_reused e s req).
Proof.
  intros Hreq Hb. unfold emit_reused. destruct (nz _); [|done].
  destruct (tgt_entry_of s req) as [[slot te]|] eqn:E; [|done].
  apply tgt_books_emit; [done| |].
  - eapply tgt_books_frame; [|exact Hb]. eapply tgt_frame_rec; [done|]. grows.
  - intros slot' te' (-> & -> & _)%tgt_entry_found. apply tgt_entry_found in E as (-> & -> & _).
    simpl. rewrite arr_set_eq. left. simpl. by apply has_lor.
Qed.

Lemma new_t_selected K id sq qo qr arr now :
  ntp_is_rw (opcode id) = true -> io_type_matches filter (opcode id) = true ->
  ntp_sampled filter (cid id) (slba id) (nlb id) = true ->
  t_selected (new_tgt_rec filter K id sq qo qr arr now).
Proof. intros. by repeat split. Qed.

(** What the books need of a transport: [tgt_sampled] and [tgt_is_ours] only
    touch the transport's own state. *)
Class TransportFrames : Prop := {
  tf_ours K e s req sq : tgt_frame s (tgt_is_ours filter K e s req sq).2;
  tf_sampled K e s req sq now : tgt_frame s (tgt_sampled filter K e s req sq now).2
}.

Context `{!TransportFrames}.

Lemma tgt_books_sampled K e s req sq qo qr id :
  req <> 0 -> tgt_books s -> ntp_is_rw (opcode id) = true -> io_type_matches filter (opcode id) = true ->
  ntp_sampled filter (cid id) (slba id) (nlb id) = true ->
  tgt_books (init_sampled filter K e s req sq qo qr id).
Proof.
  intros Hreq [B1 B2 B3 B4 B5] H1 H2 H3. unfold init_sampled. cbv zeta.
  rewrite arr_lookup_slot. set (slot := ntp_slot req NTP_REC_SLOTS) in *.
  set (s1 := if nz _ then _ else _).
  pose proof (tf_sampled K e s1 req sq (e_now e)) as (F1 & F2 & F3 & F4).
  destruct (tgt_sampled filter K e s1 req sq (e_now e)) as [arr s2]. simpl in F1, F2, F3, F4.
  set (r := new_tgt_rec _ _ _ _ _ _ _ _).
  assert (t_selected r /\ parts_ok (mk_tgt_entry req 0 r)) as Hr by (split; [by apply new_t_selected|done]).
  clearbody r.
  pose proof (owned_set te_req (treqs s2) req (mk_tgt_entry req 0 r)) as Ho. fold slot in Ho.
  rewrite (busy_slot_taken te_req (mk_tgt_entry req 0 r)) in Ho by done.
  assert (treqs s1 = treqs s) as Es by (subst s1; by destruct (nz _)).
  assert (owned te_req (treqs s2) = owned te_req (treqs s)) as Hoe
    by (rewrite <- Es; apply owned_ext; intros i; apply F4).
  assert (te_req (treqs s2 slot) = te_req (treqs s slot)) as Hs by (rewrite <- Es; apply F4).
  assert (forall i, te_req (arr_set (treqs s2) slot (mk_tgt_entry req 0 r) i) <> 0 ->
    t_selected (te_rec (arr_set (treqs s2) slot (mk_tgt_entry req 0 r) i)) /\
    parts_ok (arr_set (treqs s2) slot (mk_tgt_entry req 0 r) i)) as Hsl.
  { intros i. unfold arr_set. destruct (i =? slot); [done|]. intros Hi.
    destruct (F4 i) as (E1 & E2 & Hg). rewrite E1, Es in Hi. rewrite Es in *.
    destruct (B4 i Hi) as (Hsel & Hp1 & Hp2 & Hp3). split; [by eapply t_selected_grows|].
    unfold parts_ok. rewrite E2. destruct Hg as (_ & _ & _ & _ & Hg). split; [done|].
    split; intros Hx; apply Hg; auto; unfold end_stamp; auto. }
  assert (t_events s1 = t_events s) as Ee by (subst s1; by destruct (nz _)).
  destruct (nz (te_req (treqs s slot))) eqn:En.
  - apply nz_true in En. rewrite busy_slot_taken in Ho by (by rewrite Hs). subst s1. simpl in *.
    split; simpl; try done; rewrite ?F1, ?F2, ?F3; try done.
    + rewrite B1, Ho. lia.
    + count_simp. cong_from.
  - apply negb_false_iff, Z.eqb_eq in En. rewrite busy_slot_free in Ho by (by rewrite Hs). subst s1. simpl in *.
    split; simpl; try done; rewrite ?F1, ?F2, ?F3; try done.
    + rewrite B1, s64_owned_t, Ho by (try lia; pose proof (owned_nonneg te_req (treqs s)); lia). lia.
    + count_simp. rewrite (s64_cong (t_inflight s + 1)). cong_from.
Qed.

Lemma tgt_books_req_init K e s req cmd :
  req <> 0 -> tgt_books s -> tgt_books (ntp_t_req_init filter K e s req cmd).
Proof.
  intros Hreq Hb. unfold ntp_t_req_init. destruct (negb (t_armed s)); [done|]. cbv zeta.
  destruct (negb _); [done|].
  pose proof (tf_ours K e s req (nvmet_req_sq K req)) as Hf.
  destruct (tgt_is_ours filter K e s req _) as [ours s1]. simpl in Hf.
  apply (tgt_books_frame _ _ Hf) in Hb. clear Hf. destruct (negb ours); [done|].
  pose proof (tgt_frame_arrival s1 req (nvmet_req_sq K req)) as Hf.
  assert (tgt_frame s1 (if tracking filter then count_arrival s1 req (nvmet_req_sq K req) else (0, 0, s1)).2)
    as Hf' by (by destruct (tracking filter)).
  destruct (if tracking filter then _ else _) as [[qo qr] s2]. simpl in Hf'.
  apply (tgt_books_frame _ _ Hf'), tgt_books_cmds, (tgt_books_reused e _ req Hreq) in Hb.
  set (s3 := emit_reused _ _ _) in *. clearbody s3.
  destruct (ntp_read_cmd K cmd) as [id|]; [|done].
  destruct (ntp_is_rw _) eqn:E1; [|done]. cbn [negb].
  destruct (io_type_matches _ _) eqn:E2; [|done]. cbn [negb].
  destruct (ntp_sampled _ _ _ _) eqn:E3; [|done]. cbn [negb]. by apply tgt_books_sampled.
Qed.

End Books.

#[export] Instance tcp_frames filter : TransportFrames (H := TcpTarget.tcp_target) filter.
Proof.
  split; intros; simpl.
  - unfold TcpTarget.tgt_is_ours. cbv zeta. destruct (negb _); [done|].
    destruct (tracking filter); by repeat split.
  - by repeat split.
Qed.

#[export] Instance rdma_frames filter : TransportFrames (H := RdmaTarget.rdma_target) filter.
Proof. by split. Qed.

(** Writing to the record of [req] and finding it again. *)
Lemma entry_after_set s req slot te r :
  tgt_entry_of s req = Some (slot, te) ->
  tgt_entry_of (set_rec s slot r) req = Some (slot, mk_tgt_entry req (te_parts te) r).
Proof.
  intros (Hs & Ht & Ho)%tgt_entry_found. unfold tgt_entry_of. rewrite arr_lookup_slot, <- Hs. simpl.
  rewrite arr_set_eq. simpl. rewrite <- Ht, Ho, Z.eqb_refl. done.
Qed.

Lemma entry_after_uncount filter s req' req : tgt_entry_of (tgt_uncount filter s req') req = tgt_entry_of s req.
Proof. unfold tgt_uncount, uncount. by repeat case_match. Qed.

(** Seeing one end of an RDMA response. *)
Lemma rdma_part_done filter e s req part :
  req <> 0 -> tgt_books (H := RdmaTarget.rdma_target) filter s ->
  (part = RdmaTarget.RSP_POSTED \/ part = RdmaTarget.RSP_SEND_DONE) ->
  (forall slot te, tgt_entry_of s req = Some (slot, te) ->
     tts (te_rec te) (if part =? RdmaTarget.RSP_POSTED then NTP_T_RSP_SENT else NTP_T_SEND_DONE) <> 0) ->
  tgt_books (H := RdmaTarget.rdma_target) filter (RdmaTarget.rsp_part_done e s req part).
Proof.
  intros Hreq Hb Hpart Hts. unfold RdmaTarget.rsp_part_done.
  destruct (tgt_entry_of s req) as [[slot te]|] eqn:E; [|done]. cbv zeta.
  specialize (Hts _ _ eq_refl). pose proof E as (Hs & Ht & Ho)%tgt_entry_found.
  set (s1 := set_entry s slot _).
  assert (t_selected (H := RdmaTarget.rdma_target) filter (te_rec te) /\ parts_ok te) as [Hsel Hp]
    by (rewrite Ht; apply (tb_slots _ _ Hb); by rewrite <- Ht, Ho).
  assert (parts_ok (mk_tgt_entry (te_req te) (Z.lor (te_parts te) part) (te_rec te))) as Hp1.
  { destruct Hp as (Hp0 & Hp1 & Hp2). assert (te_parts te = 0 \/ te_parts te = 1 \/ te_parts te = 2 \/ te_parts te = 3)
      as Hcase by lia. unfold parts_ok. simpl.
    destruct Hpart as [->| ->]; destruct Hcase as [E0|[E0|[E0|E0]]]; rewrite E0 in *; simpl in *;
      split; try lia; split; intros; try discriminate; auto. }
  assert (tgt_books (H := RdmaTarget.rdma_target) filter s1) as Hb1.
  { destruct Hb as [B1 B2 B3 B4 B5]. split; try done; simpl.
    - rewrite B1. symmetry. apply owned_ext. intros i. unfold arr_set.
      destruct (Z.eqb_spec i slot) as [->|]; [|done]. simpl. by rewrite Ht.
    - intros i. unfold arr_set. destruct (i =? slot); [done|apply B4]. }
  destruct (Z.eqb_spec (Z.lor (te_parts te) part) (Z.lor RdmaTarget.RSP_POSTED RdmaTarget.RSP_SEND_DONE)) as [Ep|];
    [|done].
  apply tgt_books_emit; [done..|]. intros slot' te' (-> & -> & _)%tgt_entry_found.
  subst s1. simpl. rewrite Hs, arr_set_eq. right. simpl. destruct Hp1 as (_ & H1 & H2). simpl in H1, H2.
  rewrite Ep in H1, H2. split; [by apply H1|by apply H2].
Qed.

Lemma rdma_books_exit filter e s req :
  e_now e <> 0 -> req <> 0 -> tgt_books (H := RdmaTarget.rdma_target) filter s ->
  tgt_books (H := RdmaTarget.rdma_target) filter (RdmaTarget.on_queue_resp_exit filter e s req).
Proof.
  intros Hn Hreq Hb. unfold RdmaTarget.on_queue_resp_exit. destruct (ntp_idle _ _); [done|]. cbv zeta.
  eapply tgt_books_frame; [apply tgt_frame_tgt_uncount|].
  destruct (tgt_entry_of s req) as [[slot te]|] eqn:E; [|done].
  assert (length (t_ts (te_rec te)) = NTP_T_NR) as Hl.
  { pose proof E as (Hs & Ht & Ho)%tgt_entry_found. rewrite Ht.
    apply (tb_slots _ _ Hb slot). by rewrite <- Ht, Ho. }
  set (r := if negb _ then _ else _).
  assert (t_grows (te_rec te) r) as Hg by (subst r; grows).
  apply rdma_part_done; [done| |by left|].
  - eapply tgt_books_frame; [|exact Hb]. eapply tgt_frame_rec; [done|].
    transitivity r; [done|]. grows.
  - intros slot' te'. erewrite entry_after_set by done. intros [= <- <-]. simpl.
    rewrite tts_set_new; [done|]. destruct Hg as (_ & _ & _ & -> & _). done.
Qed.

Lemma rdma_books_send_done filter K e s wc :
  rdma_tgt_ok K e s (RT_send_done wc) -> tgt_books (H := RdmaTarget.rdma_target) filter s ->
  tgt_books (H := RdmaTarget.rdma_target) filter (RdmaTarget.on_send_done K e s wc).
Proof.
  intros [Hn Hreq] Hb. unfold RdmaTarget.on_send_done. destruct (negb _); [done|]. cbv zeta.
  set (req := RdmaTarget.req_of_rsp _ _) in *. clearbody req.
  destruct (tgt_entry_of s req) as [[slot te]|] eqn:E; [|done].
  assert (length (t_ts (te_rec te)) = NTP_T_NR) as Hl.
  { pose proof E as (Hs & Ht & Ho)%tgt_entry_found. rewrite Ht.
    apply (tb_slots _ _ Hb slot). by rewrite <- Ht, Ho. }
  apply rdma_part_done; [done| |by right|].
  - eapply tgt_books_frame; [|exact Hb]. eapply tgt_frame_rec; [done|]. grows.
  - intros slot' te'. erewrite entry_after_set by done. intros [= <- <-]. simpl.
    unfold t_stamp_once. rewrite tts_set_new by done. unfold ntp_stamp_once.
    destruct (nz _) eqn:Ez; [|done]. by apply nz_true.
Qed.

Lemma rdma_books_step filter K e s ev :
  rdma_tgt_ok K e s ev -> tgt_books (H := RdmaTarget.rdma_target) filter s ->
  tgt_books (H := RdmaTarget.rdma_target) filter (rdma_tgt_run filter K e s ev).
Proof.
  intros Hok Hb. pose proof Hok as [Hn Hev]. destruct ev; simpl in Hev |- *;
    [ eapply tgt_books_frame; [|exact Hb] | by apply tgt_books_req_init
    | eapply tgt_books_frame; [|exact Hb].. | by apply rdma_books_exit | | | by apply rdma_books_send_done ].
  - by repeat split.
  - by apply frame_exec.
  - by apply frame_be_issue.
  - apply frame_be_done.
  - by apply frame_t_complete.
  - by repeat split.
  - apply frame_ctx_exit.
  - by apply frame_execute.
  - apply frame_read_done.
  - by apply frame_rdma_queue_resp.
  - unfold RdmaTarget.ntp_tr_queue_resp_kp. eapply tgt_books_frame; [by apply frame_rdma_queue_resp|].
    eapply tgt_books_frame; [|exact Hb]. by repeat split.
  - unfold RdmaTarget.ntp_tr_queue_resp_kr, get_resp. cbv zeta. destruct (_ =? _); [|done].
    apply rdma_books_exit; [done..|]. eapply tgt_books_frame; [|exact Hb]. by repeat split.
Qed.

(** *** The sends of the TCP object *)

Lemma with_rec_books `{TargetTransport} filter s req f :
  (forall r, t_grows r (f r)) -> tgt_books filter s ->
  tgt_books filter (TcpTarget.with_rec s (tgt_entry_of s req) f).
Proof.
  intros Hf Hb. unfold TcpTarget.with_rec. destruct (tgt_entry_of s req) as [[slot te]|] eqn:E; [|done].
  eapply tgt_books_frame; [|exact Hb]. eapply tgt_frame_rec; [done|]. apply Hf.
Qed.

Lemma entry_with_rec s req f :
  tgt_entry_of (TcpTarget.with_rec s (tgt_entry_of s req) f) req =
  (fun '(slot, te) => (slot, mk_tgt_entry req (te_parts te) (f (te_rec te)))) <$> tgt_entry_of s req.
Proof.
  unfold TcpTarget.with_rec. destruct (tgt_entry_of s req) as [[slot te]|] eqn:E; [|done].
  simpl. by apply entry_after_set.
Qed.

Lemma finish_books `{TargetTransport} filter e s req :
  req <> 0 -> tgt_books filter s ->
  (forall slot te, tgt_entry_of s req = Some (slot, te) -> ended (te_rec te)) ->
  tgt_books filter (tgt_finish filter e s req).
Proof.
  intros Hreq Hb He. unfold tgt_finish. apply tgt_books_emit; [done| |].
  - eapply tgt_books_frame; [apply tgt_frame_tgt_uncount|done].
  - intros slot te. rewrite entry_after_uncount. apply He.
Qed.

Lemma found_length `{TargetTransport} filter s req slot te :
  req <> 0 -> tgt_books filter s -> tgt_entry_of s req = Some (slot, te) -> length (t_ts (te_rec te)) = NTP_T_NR.
Proof.
  intros Hreq Hb (Hs & Ht & Ho)%tgt_entry_found. rewrite Ht.
  apply (tb_slots _ _ Hb slot). by rewrite <- Ht, Ho.
Qed.

Lemma tcp_books_sendmsg filter K e s sock :
  tcp_tgt_ok K e s (TT_sendmsg sock) -> tgt_books (H := TcpTarget.tcp_target) filter s ->
  tgt_books (H := TcpTarget.tcp_target) filter (TcpTarget.on_sendmsg filter K e s sock).
Proof.
  intros [Hn Hreq] Hb. unfold TcpTarget.on_sendmsg. destruct (ntp_idle _ _); [done|]. cbv zeta.
  destruct (tqueues s !! _); [|done]. destruct (negb _); [done|]. destruct (_ || _); [done|].
  destruct (_ && _); [done|].
  set (req := TcpTarget.req_of _ _) in *. clearbody req.
  assert (forall ev r, t_grows r (t_stamp_once r ev (e_now e))) as Hst by (intros; by apply grows_stamp).
  destruct (_ =? NVMET_TCP_SEND_R2T); [by apply with_rec_books|].
  destruct (_ =? NVMET_TCP_SEND_DATA_PDU).
  - pose proof (with_rec_books filter s req _ (Hst NTP_T_C2H_SENT) Hb) as Hb1.
    pose proof (entry_with_rec s req (fun r => t_stamp_once r NTP_T_C2H_SENT (e_now e))) as He.
    set (s1 := TcpTarget.with_rec s _ _) in *. destruct (nvmet_queue_sqhd_disabled _ _); [|done].
    apply finish_books; [done| |].
    + apply with_rec_books; [|done]. intros r. apply grows_flag.
    + intros slot te. rewrite entry_with_rec, He. destruct (tgt_entry_of s req) as [[sl te0]|] eqn:E; [|done].
      intros [= <- <-]. right. right. simpl. split; [by apply has_lor|].
      apply (found_length (H := TcpTarget.tcp_target) filter) in E; [|done..].
      unfold t_stamp_once, t_add_flag. change (tts (set_t_flags ?r _) ?ev) with (tts r ev).
      rewrite tts_set_new by done. unfold ntp_stamp_once. destruct (nz _) eqn:Ez; [by apply nz_true|done].
  - destruct (_ =? NVMET_TCP_SEND_RESPONSE); [|done]. apply finish_books; [done| |].
    + apply with_rec_books; [|done]. intros r. apply grows_set. by left.
    + intros slot te. rewrite entry_with_rec. destruct (tgt_entry_of s req) as [[sl te0]|] eqn:E; [|done].
      intros [= <- <-]. right. left. apply (found_length (H := TcpTarget.tcp_target) filter) in E; [|done..].
      simpl te_rec. by rewrite tts_set_new.
Qed.

Lemma tcp_books_step filter K e s ev :
  tcp_tgt_ok K e s ev -> tgt_books (H := TcpTarget.tcp_target) filter s ->
  tgt_books (H := TcpTarget.tcp_target) filter (tcp_tgt_run filter K e s ev).
Proof.
  intros Hok Hb. pose proof Hok as [Hn Hev]. destruct ev; simpl in Hev |- *;
    [ eapply tgt_books_frame; [|exact Hb] | apply tgt_books_req_init; [apply tcp_frames|done..]
    | eapply tgt_books_frame; [|exact Hb].. | by apply tcp_books_sendmsg ].
  - by repeat split.
  - by apply frame_exec.
  - by apply frame_be_issue.
  - apply frame_be_done.
  - by apply frame_t_complete.
  - by repeat split.
  - apply frame_copy_done.
  - by apply frame_tcp_queue_resp.
  - apply frame_h2c.
Qed.

(** C8: the target object's books.  In every state a target object can reach,
    over TCP and over RDMA: the in-flight counter is exactly the number of
    records under construction; every sampled command is emitted, lost to a full
    ring buffer, replaced (counted stale) or still in flight; the emitted counter
    is the number of records in the ring buffer; every record emitted is a target
    record of this transport for a command that passes the filters; and it is
    marked as reused or has the stamps of its command's end, over RDMA both the
    posting of the response and its completion. *)
Theorem target_object_books (filter : ntp_filter) (s s' : tgt_st) :
  reachable (tcp_tgt_run filter) tcp_tgt_ok tgt_init s ->
  reachable (rdma_tgt_run filter) rdma_tgt_ok tgt_init s' ->
  tgt_books (H := TcpTarget.tcp_target) filter s /\ tgt_books (H := RdmaTarget.rdma_target) filter s'.
Proof.
  intros Hs Hs'. split.
  - eapply reachable_inv; [apply tgt_books_init| |exact Hs]. intros. by apply tcp_books_step.
  - eapply reachable_inv; [apply tgt_books_init| |exact Hs']. intros. by apply rdma_books_step.
Qed.

(** A read received and answered over TCP, and one over RDMA whose response is
    posted and completed. *)
Lemma target_object_books_witness :
  let run n s ev := tcp_tgt_run all_filter sample_kernel (mk_env 0 77 n false []) s ev in
  let s := run 30 (run 20 (run 10 tgt_init (TT_arm true)) (TT_req_init 4096 1)) (TT_sendmsg 64) in
  let run' n s ev := rdma_tgt_run all_filter sample_kernel (mk_env 0 77 n false []) s ev in
  let s' := run' 50 (run' 40 (run' 30 (run' 20 (run' 10 tgt_init (RT_arm true)) (RT_recv_done 3)) (RT_req_init 4096 1))
              (RT_queue_resp_kp 4096)) RT_queue_resp_kr in
  length (t_events s) = 1%nat /\ t_inflight s = 0 /\ t_events s' = [] /\ t_inflight s' = 1 /\
  tgt_books (H := TcpTarget.tcp_target) all_filter s /\ tgt_books (H := RdmaTarget.rdma_target) all_filter s'.
Proof.
  intros run s run' s'.
  do 4 (split; [by vm_compute|]). apply target_object_books.
  - subst s run. repeat (apply reach_step; [|by vm_compute]). apply reach_init.
  - subst s' run'. repeat (apply reach_step; [|by vm_compute]). apply reach_init.
Defined.

(** ** Queue occupancy *)

Definition resp_flag (c : tcounted) : bool := has (tc_flags c) CNT_RESP_QUEUED.

Definition tocc (s : tgt_st) : Prop :=
  occupancy tc_sq resp_flag (fun c => tc_flags c = 1 \/ tc_flags c = 3) q_outstanding_n q_resp_n
    TCOUNTED_MAX (tqstats s) (tcountedm s).

Lemma tocc_init : tocc tgt_init.
Proof. apply occupancy_init. unfold TCOUNTED_MAX. lia. Qed.

Lemma tqstat_add_exact s q qs du di :
  tocc s -> tqstats s !! q = Some qs -> -1 <= du <= 1 -> -1 <= di <= 1 ->
  tqstat_add qs du di = mk_tqstat (q_outstanding_n qs + du) (q_resp_n qs + di).
Proof.
  intros Ho Hq Hu Hi. pose proof (occ_bounds _ _ _ _ _ _ _ _ _ _ Ho Hq) as Hb. unfold TCOUNTED_MAX in *.
  unfold tqstat_add. rewrite !s32_small by lia. done.
Qed.

Lemma tocc_done s req : tocc s -> tocc (uncount s req (Z.lor CNT_OUTSTANDING CNT_RESP_QUEUED) true).
Proof.
  intros Ho. unfold uncount. destruct (tcountedm s !! req) as [c|] eqn:Ec; [|done].
  destruct (oc_entry _ _ _ _ _ _ _ _ Ho _ _ Ec) as [Hf [qs Hq]]. rewrite Hq. cbv zeta iota. rewrite delete_insert_eq.
  erewrite tqstat_add_exact; [|exact Ho|exact Hq|by destruct (has _ _)|by destruct (has _ _)].
  eapply (occ_forget tc_sq resp_flag _ q_outstanding_n q_resp_n TCOUNTED_MAX (tqstats s) (tcountedm s) req c qs);
    try done; unfold resp_flag; simpl; destruct Hf as [Hf|Hf]; rewrite Hf; simpl; lia.
Qed.

Lemma tocc_resp_queued s req : tocc s -> tocc (count_resp_queued s req).
Proof.
  intros Ho. unfold count_resp_queued. destruct (tcountedm s !! req) as [c|] eqn:Ec; [|done].
  destruct (oc_entry _ _ _ _ _ _ _ _ Ho _ _ Ec) as [Hf [qs Hq]]. rewrite Hq. cbv zeta iota.
  destruct (has (tc_flags c) CNT_RESP_QUEUED) eqn:Eh; [done|].
  erewrite tqstat_add_exact; [|exact Ho|exact Hq|lia|lia].
  eapply (occ_change tc_sq resp_flag _ q_outstanding_n q_resp_n TCOUNTED_MAX (tqstats s) (tcountedm s) req
    (mk_tcounted (tc_sq c) (Z.lor (tc_flags c) CNT_RESP_QUEUED)) qs); rewrite ?Ec; try done;
    unfold resp_flag; simpl; destruct Hf as [Hf|Hf]; rewrite Hf in *; try discriminate; auto; simpl; lia.
Qed.

Lemma tocc_tgt_uncount filter s req : tocc s -> tocc (tgt_uncount filter s req).
Proof. intros Ho. unfold tgt_uncount. destruct (tracking filter); [by apply tocc_done|done]. Qed.

Lemma tocc_emit e s req : tocc s -> tocc (tgt_emit e s req).
Proof.
  intros Ho. unfold tgt_emit. destruct (tgt_entry_of s req) as [[slot te]|]; [|done].
  cbv zeta. by destruct (e_rb_full e).
Qed.

Lemma tocc_arrival s key sq :
  Z.of_nat (size (tcountedm s)) < TCOUNTED_MAX -> tocc s -> tocc (count_arrival s key sq).2.
Proof.
  intros Hroom Ho. unfold count_arrival. destruct (get_tqstat s sq) as [o s1] eqn:E.
  assert (tocc s1 /\ tcountedm s1 = tcountedm s) as [Ho1 Hc1].
  { unfold get_tqstat in E. destruct (tqstats s !! sq) eqn:Eq; injection E as <- <-; [done|]. split; [|done].
    unfold tocc in *. simpl. unfold hash_update. destruct (hash_has_room _ _ _); [|done]. by apply occ_new_queue. }
  pose proof (tocc_done s1 key Ho1) as Ho2.
  assert (tcountedm (uncount s1 key (Z.lor CNT_OUTSTANDING CNT_RESP_QUEUED) true) = delete key (tcountedm s)) as Hc2.
  { unfold uncount. rewrite Hc1. destruct (tcountedm s !! key) eqn:Ek; simpl.
    - by rewrite delete_insert_eq.
    - by rewrite delete_id. }
  set (s2 := uncount s1 _ _ _) in *. clearbody s2. destruct o; [|done].
  destruct (tqstats s2 !! sq) as [qs|] eqn:Eq; [|done]. simpl. unfold tocc in *. simpl.
  erewrite tqstat_add_exact; [|exact Ho2|exact Eq|lia|lia].
  assert (Z.of_nat (size (tcountedm s2)) < TCOUNTED_MAX) as Hr.
  { rewrite Hc2. pose proof (map_subseteq_size _ _ (delete_subseteq (tcountedm s) key)). lia. }
  assert (tcountedm s2 !! key = None) as Hk by (rewrite Hc2; apply lookup_delete_eq).
  unfold hash_update, hash_has_room. rewrite Hk, (proj2 (Z.ltb_lt _ _) Hr).
  eapply (occ_change tc_sq resp_flag _ q_outstanding_n q_resp_n TCOUNTED_MAX (tqstats s2) (tcountedm s2) key
    (mk_tcounted sq CNT_OUTSTANDING) qs); rewrite ?Hk; simpl; try done; try (by left).
Qed.

Section TargetOccupancy.
  Variable filter : ntp_filter.

Lemma tocc_req_init `{TargetTransport} K e s req cmd :
  (forall K e s req sq, tqstats (tgt_is_ours filter K e s req sq).2 = tqstats s /\
     tcountedm (tgt_is_ours filter K e s req sq).2 = tcountedm s) ->
  (forall K e s req sq now, tqstats (tgt_sampled filter K e s req sq now).2 = tqstats s /\
     tcountedm (tgt_sampled filter K e s req sq now).2 = tcountedm s) ->
  Z.of_nat (size (tcountedm s)) < TCOUNTED_MAX -> tocc s -> tocc (ntp_t_req_init filter K e s req cmd).
Proof.
  intros H1 H2 Hroom Ho. unfold ntp_t_req_init. destruct (negb (t_armed s)); [done|]. cbv zeta.
  destruct (negb _); [done|]. specialize (H1 K e s req (nvmet_req_sq K req)).
  destruct (tgt_is_ours filter K e s req _) as [ours s1]. simpl in H1. destruct H1 as [Hq Hc].
  assert (tocc s1) as Ho1 by (unfold tocc in *; by rewrite Hq, Hc). destruct (negb ours); [done|].
  assert (tocc (if tracking filter then count_arrival s1 req (nvmet_req_sq K req) else (0, 0, s1)).2) as Ho2
    by (destruct (tracking filter); [apply tocc_arrival; [by rewrite Hc|done]|done]).
  destruct (if tracking filter then _ else _) as [[qo qr] s2]. simpl in Ho2.
  assert (tocc (emit_reused e (inc s2 NTP_CNT_TGT_CMDS 1) req)) as Ho3.
  { unfold emit_reused. destruct (nz _); [|done]. destruct (tgt_entry_of _ req) as [[slot te]|]; [|done].
    by apply tocc_emit. }
  set (s3 := emit_reused _ _ _) in *. clearbody s3.
  destruct (ntp_read_cmd K cmd) as [id|]; [|done]. do 3 (destruct (negb _); [done|]).
  unfold init_sampled. cbv zeta. rewrite arr_lookup_slot.
  set (s4 := if nz _ then _ else _).
  assert (tocc s4) as Ho4 by (subst s4; by destruct (nz _)). clearbody s4.
  specialize (H2 K e s4 req (nvmet_req_sq K req) (e_now e)).
  destruct (tgt_sampled filter K e s4 req _ _) as [arr s5]. simpl in H2. destruct H2 as [Hq5 Hc5].
  unfold tocc in *. simpl. by rewrite Hq5, Hc5.
Qed.

(** A new command is counted only while the map of counted commands has room. *)
Definition tcp_tgt_room (_ : kernel) (_ : env) (s : tgt_st) (ev : tcp_tgt_ev) : Prop :=
  match ev with TT_req_init _ _ => Z.of_nat (size (tcountedm s)) < TCOUNTED_MAX | _ => True end.
Definition rdma_tgt_room (_ : kernel) (_ : env) (s : tgt_st) (ev : rdma_tgt_ev) : Prop :=
  match ev with RT_req_init _ _ => Z.of_nat (size (tcountedm s)) < TCOUNTED_MAX | _ => True end.

Lemma tocc_sendmsg K e s sock : tocc s -> tocc (TcpTarget.on_sendmsg filter K e s sock).
Proof.
  intros Ho. unfold TcpTarget.on_sendmsg, tgt_finish. destruct (ntp_idle _ _); [done|]. cbv zeta.
  destruct (tqueues s !! _); [|done]. destruct (negb _); [done|]. destruct (_ || _); [done|].
  destruct (_ && _); [done|].
  assert (forall s f req, tocc s -> tocc (TcpTarget.with_rec s req f)) as Hw
    by (intros s0 f [[? ?]|] ?; done).
  destruct (_ =? NVMET_TCP_SEND_R2T); [by apply Hw|].
  destruct (_ =? NVMET_TCP_SEND_DATA_PDU).
  - destruct (nvmet_queue_sqhd_disabled _ _); [|by apply Hw]. by apply tocc_emit, tocc_tgt_uncount, Hw, Hw.
  - destruct (_ =? NVMET_TCP_SEND_RESPONSE); [|done]. by apply tocc_emit, tocc_tgt_uncount, Hw.
Qed.

Lemma tocc_tcp_queue_resp K e s req : tocc s -> tocc (TcpTarget.on_queue_resp filter K e s req).
Proof.
  intros Ho. unfold TcpTarget.on_queue_resp. destruct (ntp_idle _ _); [done|]. cbv zeta.
  pose proof (tocc_resp_queued s (ntp_scalar req) Ho) as Ho1. set (s1 := count_resp_queued _ _) in *. clearbody s1.
  repeat case_match; done.
Qed.

Lemma tocc_rdma_queue_resp e s req : tocc s -> tocc (RdmaTarget.on_queue_resp filter e s req).
Proof.
  intros Ho. unfold RdmaTarget.on_queue_resp. destruct (ntp_idle _ _); [done|]. cbv zeta.
  pose proof (tocc_resp_queued s (ntp_scalar req) Ho) as Ho1. set (s1 := count_resp_queued _ _) in *. clearbody s1.
  repeat case_match; done.
Qed.

Lemma tocc_part_done e s req part : tocc s -> tocc (RdmaTarget.rsp_part_done e s req part).
Proof.
  intros Ho. unfold RdmaTarget.rsp_part_done. destruct (tgt_entry_of s req) as [[slot te]|]; [|done].
  cbv zeta. destruct (_ =? _); [by apply tocc_emit|done].
Qed.

Lemma tocc_resp_exit e s req : tocc s -> tocc (RdmaTarget.on_queue_resp_exit filter e s req).
Proof.
  intros Ho. unfold RdmaTarget.on_queue_resp_exit. destruct (ntp_idle _ _); [done|]. cbv zeta.
  apply tocc_tgt_uncount. destruct (tgt_entry_of s req) as [[slot te]|]; [|done]. by apply tocc_part_done.
Qed.

Lemma tcp_tocc_step K e s ev : tcp_tgt_room K e s ev -> tocc s -> tocc (tcp_tgt_run filter K e s ev).
Proof.
  intros Hr Ho. destruct ev; simpl in Hr |- *; try done.
  - apply tocc_req_init; try done. intros. simpl. unfold TcpTarget.tgt_is_ours. cbv zeta.
    destruct (negb _); [done|]. by destruct (tracking filter).
  - unfold on_exec. by repeat case_match.
  - unfold ntp_t_be_issue. by repeat case_match.
  - unfold ntp_t_be_done. by repeat case_match.
  - unfold ntp_t_complete. by repeat case_match.
  - unfold TcpTarget.on_copy_done. cbv zeta. by repeat case_match.
  - by apply tocc_tcp_queue_resp.
  - unfold TcpTarget.on_h2c. by repeat case_match.
  - by apply tocc_sendmsg.
Qed.

Lemma rdma_tocc_step K e s ev : rdma_tgt_room K e s ev -> tocc s -> tocc (rdma_tgt_run filter K e s ev).
Proof.
  intros Hr Ho. destruct ev; simpl in Hr |- *; try done.
  - by apply tocc_req_init.
  - unfold on_exec. by repeat case_match.
  - unfold ntp_t_be_issue. by repeat case_match.
  - unfold ntp_t_be_done. by repeat case_match.
  - unfold ntp_t_complete. by repeat case_match.
  - unfold tgt_ctx_exit. by repeat case_match.
  - unfold RdmaTarget.on_execute. by repeat case_match.
  - unfold RdmaTarget.on_read_done. by repeat case_match.
  - by apply tocc_rdma_queue_resp.
  - by apply tocc_resp_exit.
  - by apply tocc_rdma_queue_resp.
  - unfold RdmaTarget.ntp_tr_queue_resp_kr. destruct (get_resp e s); [by apply tocc_resp_exit|done].
  - unfold RdmaTarget.on_send_done. destruct (negb _); [done|]. cbv zeta.
    destruct (tgt_entry_of s _) as [[slot te]|]; [by apply tocc_part_done|done].
Qed.

End TargetOccupancy.

(** C34: exact queue occupancy on the target.  As long as the map of counted
    commands has room when a command arrives, in every state either target object
    can reach each queue's counters are exactly the number of commands counted on
    it whose response is not out yet, and of those whose completion is queued;
    they never go negative, and the second is part of the first. *)
Theorem target_queue_occupancy (filter : ntp_filter) (s : tgt_st) (sq : Z) (qs : tqstat) :
  reachable (tcp_tgt_run filter) tcp_tgt_room tgt_init s \/
  reachable (rdma_tgt_run filter) rdma_tgt_room tgt_init s ->
  tqstats s !! sq = Some qs ->
  q_outstanding_n qs = mcount (on_queue tc_sq sq) (tcountedm s) /\
  q_resp_n qs = mcount (extra_on tc_sq resp_flag sq) (tcountedm s) /\
  0 <= q_resp_n qs <= q_outstanding_n qs /\ q_outstanding_n qs <= TCOUNTED_MAX.
Proof.
  intros Hr Hq. assert (tocc s) as Ho.
  { destruct Hr as [Hr|Hr]; (eapply reachable_inv; [apply tocc_init| |exact Hr]); intros.
    - by apply tcp_tocc_step.
    - by apply rdma_tocc_step. }
  split; [by apply (oc_all _ _ _ _ _ _ _ _ Ho)|]. split; [by apply (oc_extra _ _ _ _ _ _ _ _ Ho)|].
  by eapply occ_bounds.
Qed.

(** Two commands received, the completion of the first one queued. *)
Lemma target_queue_occupancy_witness :
  let run s ev := tcp_tgt_run queue_filter sample_kernel (mk_env 0 77 10 false []) s ev in
  let s := run (run (run (run tgt_init (TT_arm true)) (TT_req_init 4096 1)) (TT_req_init 8192 1)) (TT_queue_resp 4096) in
  tqstats s !! 1024 = Some (mk_tqstat 2 1) /\
  2 = mcount (on_queue tc_sq 1024) (tcountedm s) /\ 1 = mcount (extra_on tc_sq resp_flag 1024) (tcountedm s).
Proof.
  intros run s. assert (tqstats s !! 1024 = Some (mk_tqstat 2 1)) as Hq by by vm_compute.
  assert (reachable (tcp_tgt_run queue_filter) tcp_tgt_room tgt_init s) as Hr.
  { subst s run. repeat (apply reach_step; [|by vm_compute]). apply reach_init. }
  destruct (target_queue_occupancy queue_filter s 1024 _ (or_introl Hr) Hq) as (H1 & H2 & _).
  split; [exact Hq|]. split; [exact H1|exact H2].
Defined.

(** Where the room is missing the counters drift: a command that arrives while the map of
    counted commands is full is added to the counters of its queue but not to the map, and
    nothing takes it off again. *)
Theorem full_tmap_drifts s key sq qs :
  tqstats s !! sq = Some qs -> tcountedm s !! key = None -> TCOUNTED_MAX <= Z.of_nat (size (tcountedm s)) ->
  let s' := (count_arrival s key sq).2 in
  tqstats s' !! sq = Some (tqstat_add qs 1 0) /\ tcountedm s' = tcountedm s /\
  forall bits forget, uncount s' key bits forget = s'.
Proof.
  intros Hq Hc Hf. cbv zeta. unfold count_arrival, get_tqstat. rewrite Hq.
  assert (forall bits forget, uncount s key bits forget = s) as Hu by (intros; unfold uncount; by rewrite Hc).
  rewrite Hu, Hq. cbn [snd]. unfold hash_update, hash_has_room. rewrite Hc, (proj2 (Z.ltb_ge _ _) Hf). cbn.
  split; [apply lookup_insert_eq|]. split; [done|]. intros bits forget. unfold uncount. cbn. by rewrite Hc.
Qed.
