(* ===== verification/Agree.v ===== *)
(** * Host and target sample the same commands

    Nothing passes between the two machines while they trace: each object
    decides alone, from the command on the wire, whether to keep a record, and
    the joiner (Join.v) matches the records later by the command's identity. *)
From stdpp Require Import base numbers list gmap.
From Stdlib Require Import ZArith Lia.
From S2P Require Import Prelude Types Join BpfCommon BpfHost BpfTarget.

(** Leaving a hook of the host early samples nothing. *)
Lemma setup_sampled_only `{HostTransport} filter K e s rq cmd :
  cnt (ntp_h_setup_cmd filter K e s rq cmd) NTP_CNT_HOST_SAMPLED <> cnt s NTP_CNT_HOST_SAMPLED ->
  exists s1 queue ts qu qi id,
    ntp_read_cmd K cmd = Some id /\ ntp_is_rw (opcode id) = true /\
    io_type_matches filter (opcode id) = true /\ ntp_sampled filter (cid id) (slba id) (nlb id) = true /\
    ntp_h_setup_cmd filter K e s rq cmd =
      setup_sampled filter K e s1 rq (nvme_request_ctrl K (u64 (rq + sizeof_request K)))
        (u32 (rq_data_len K rq))
        (u32 (ctrl_instance_of K (nvme_request_ctrl K (u64 (rq + sizeof_request K))))) queue ts qu qi id.
Proof.
  unfold ntp_h_setup_cmd. cbv zeta.
  set (go := match (if _ || _ then get_pend e s else None) with Some _ => _ | None => _ end).
  assert (match go with Some (s1, _, _, _, _) => cnt s1 = cnt s | None => True end) as Hgo
    by (subst go; repeat case_match; simplify_eq; done).
  clearbody go. destruct go as [[[[[s1 queue] ts] qu] qi]|]; [|done].
  destruct (ntp_read_cmd K cmd) as [id|]; [|by rewrite Hgo].
  destruct (ntp_is_rw (opcode id)) eqn:E1; cbn [negb]; [|by rewrite Hgo].
  assert (cnt (count_host_io s1 (opcode id) (u32 (rq_data_len K rq))) NTP_CNT_HOST_SAMPLED =
    cnt s NTP_CNT_HOST_SAMPLED) as Hc.
  { unfold count_host_io, BpfHost.inc. destruct (opcode id =? NTP_NVME_CMD_WRITE); simpl; count_simp; by rewrite Hgo. }
  set (s2 := count_host_io _ _ _) in *. clearbody s2.
  destruct (io_type_matches filter (opcode id)) eqn:E2; cbn [negb]; [|by rewrite Hc].
  destruct (ntp_sampled filter _ _ _) eqn:E3; cbn [negb]; [|by rewrite Hc].
  destruct (negb (ntp_size_matches filter _)); [by rewrite Hc|].
  destruct (negb (ctrl_matches filter _)); [by rewrite Hc|].
  destruct (negb (nsid_matches filter _)); [by rewrite Hc|].
  intros _. by exists s2, queue, ts, qu, qi, id.
Qed.

(** The record a sampled command gets on the host. *)
Lemma setup_sampled_rec `{HostTransport} filter K e s rq ctrl bytes instance queue ts qu qi id :
  exists he, host_entry_of (setup_sampled filter K e s rq ctrl bytes instance queue ts qu qi id) rq =
    Some (ntp_slot rq NTP_REC_SLOTS, he) /\
  h_id (he_rec he) = id_with id (u16 (ctrl_cntlid K ctrl)) (u16 (hctx_queue_num K (rq_mq_hctx K rq) + 1)).
Proof.
  unfold setup_sampled. cbv zeta. rewrite arr_lookup_slot.
  eexists. split.
  - unfold host_entry_of. rewrite arr_lookup_slot. simpl.
    destruct (nz _); simpl; rewrite arr_set_eq; simpl; rewrite Z.eqb_refl; reflexivity.
  - destruct (nz _); reflexivity.
Qed.

(** The record a sampled command gets on the target. *)
Lemma init_sampled_rec `{TargetTransport} filter K e s req sq qo qr id :
  exists te, tgt_entry_of (init_sampled filter K e s req sq qo qr id) req =
    Some (ntp_slot req NTP_REC_SLOTS, te) /\
  t_id (te_rec te) = id_with id (u16 (nvmet_sq_ctrl_cntlid K sq)) (u16 (nvmet_sq_qid K sq)).
Proof.
  unfold init_sampled. cbv zeta. rewrite arr_lookup_slot.
  destruct (tgt_sampled filter K e _ req sq (e_now e)) as [arr s2]. eexists. split.
  - unfold tgt_entry_of. rewrite arr_lookup_slot. simpl. rewrite arr_set_eq. simpl. rewrite Z.eqb_refl. reflexivity.
  - reflexivity.
Qed.

(** One command, seen by both sides: they read the same bytes off the wire, the
    queue is the same one, and the filters agree on what to sample. *)
Record same_wire_command (fh ft : ntp_filter) (Kh Kt : kernel) (rq cmd req cmd' : Z) : Prop := {
  same_rate : sample_every ft = sample_every fh;
  same_io_type : io_type ft = io_type fh;
  same_bytes : read_nvme_cmd Kt cmd' = read_nvme_cmd Kh cmd;
  same_controller : u16 (nvmet_sq_ctrl_cntlid Kt (nvmet_req_sq Kt req)) =
    u16 (ctrl_cntlid Kh (nvme_request_ctrl Kh (u64 (rq + sizeof_request Kh))));
  same_queue : u16 (nvmet_sq_qid Kt (nvmet_req_sq Kt req)) = u16 (hctx_queue_num Kh (rq_mq_hctx Kh rq) + 1)
}.

(** C28: host and target pick the same commands.  Take a host object and a
    target object of any transport whose filters agree on the sampling rate and
    the I/O type, and one command that both read off the wire, on the same queue
    of the same controller.  When the host's hook samples the command, the
    target's hook, armed and on an I/O queue of its own, has a record of it too,
    and the two records have the same identity: the same joiner key and the same
    command.  So a record missing on one side was lost, never unsampled. *)
Theorem host_target_agree `{HostTransport} `{TargetTransport} (fh ft : ntp_filter) (Kh Kt : kernel) (eh et : env)
    (s : host_st) (t : tgt_st) (rq cmd req cmd' : Z) :
  same_wire_command fh ft Kh Kt rq cmd req cmd' ->
  t_armed t = true -> nvmet_sq_qid Kt (nvmet_req_sq Kt req) <> 0 ->
  (tgt_is_ours ft Kt et t req (nvmet_req_sq Kt req)).1 = true ->
  cnt (ntp_h_setup_cmd fh Kh eh s rq cmd) NTP_CNT_HOST_SAMPLED <> cnt s NTP_CNT_HOST_SAMPLED ->
  exists hslot he tslot te,
    host_entry_of (ntp_h_setup_cmd fh Kh eh s rq cmd) rq = Some (hslot, he) /\
    tgt_entry_of (ntp_t_req_init ft Kt et t req cmd') req = Some (tslot, te) /\
    t_id (te_rec te) = h_id (he_rec he) /\
    key_of (t_id (te_rec te)) = key_of (h_id (he_rec he)) /\
    same_command (t_id (te_rec te)) (h_id (he_rec he)) = true.
Proof.
  intros [Hse Hio Hcmd Hcn Hq] Harm Hqid Hours Hs.
  apply setup_sampled_only in Hs as (s1 & queue & ts & qu & qi & id & Hid & Hrw & Hiot & Hsam & ->).
  destruct (setup_sampled_rec fh Kh eh s1 rq (nvme_request_ctrl Kh (u64 (rq + sizeof_request Kh)))
    (u32 (rq_data_len Kh rq))
    (u32 (ctrl_instance_of Kh (nvme_request_ctrl Kh (u64 (rq + sizeof_request Kh))))) queue ts qu qi id)
    as (he & Hhe & Hhid).
  assert (exists te, tgt_entry_of (ntp_t_req_init ft Kt et t req cmd') req = Some (ntp_slot req NTP_REC_SLOTS, te) /\
    t_id (te_rec te) = h_id (he_rec he)) as (te & Hte & Htid).
  { rewrite Hhid, <- Hcn, <- Hq. unfold ntp_t_req_init. rewrite Harm. cbn [negb]. cbv zeta.
    rewrite (proj2 (nz_true _) Hqid). cbn [negb].
    destruct (tgt_is_ours ft Kt et t req _) as [ours t1]. simpl in Hours. rewrite Hours. cbn [negb].
    destruct (if tracking ft then _ else _) as [[qo qr] t2].
    assert (ntp_read_cmd Kt cmd' = Some id) as -> by (unfold ntp_read_cmd in *; by rewrite Hcmd).
    assert (io_type_matches ft (opcode id) = true) as -> by (unfold io_type_matches in *; by rewrite Hio).
    assert (ntp_sampled ft (cid id) (slba id) (nlb id) = true) as -> by (unfold ntp_sampled in *; by rewrite Hse).
    rewrite Hrw. cbn [negb]. apply init_sampled_rec. }
  exists (ntp_slot rq NTP_REC_SLOTS), he, (ntp_slot req NTP_REC_SLOTS), te.
  rewrite Htid. split; [done|]. split; [done|]. split; [done|]. split; [done|].
  unfold same_command. by rewrite !Z.eqb_refl.
Qed.

(** One read in eleven of a TCP session, on queue 1 of controller 0. *)
Lemma host_target_agree_witness :
  let f := mk_filter 11 2 0 0 0 0 0 [] [] 0 0 0 [] in
  let e := mk_env 0 77 1000 false [] in
  let s := arm host_init true in
  let t := tgt_arm tgt_init true in
  let s' := ntp_h_setup_cmd (H := TcpHost.tcp_host) f sample_kernel e s 65536 1 in
  let t' := ntp_t_req_init (H := TcpTarget.tcp_target) f sample_kernel e t 4096 1 in
  cnt s' NTP_CNT_HOST_SAMPLED = 1 /\
  exists hslot he tslot te,
    host_entry_of s' 65536 = Some (hslot, he) /\ tgt_entry_of t' 4096 = Some (tslot, te) /\
    t_id (te_rec te) = h_id (he_rec he).
Proof.
  intros f e s t s' t'. split; [by vm_compute|].
  destruct (host_target_agree (H := TcpHost.tcp_host) (H0 := TcpTarget.tcp_target) f f sample_kernel sample_kernel
    e e s t 65536 1 4096 1) as (hslot & he & tslot & te & H1 & H2 & H3 & _);
    [split; vm_compute; reflexivity|vm_compute; reflexivity|vm_compute; discriminate|vm_compute; reflexivity
    |vm_compute; discriminate|].
  exists hslot, he, tslot, te. split; [exact H1|]. split; [exact H2|exact H3].
Defined.
