(* ===== verification/CStr.v ===== *)
(** * C strings and small helpers (src/util.c)

    A string is the list of its bytes up to the terminating NUL.  What the
    source uses of the C library is written out here: character classes,
    [strcasecmp], [snprintf] into a buffer, decimal conversion in both
    directions, and the growable vector of samples. *)
From stdpp Require Import base numbers list.
From Stdlib Require Import ZArith Lia Ascii String.
From S2P Require Import Prelude.

(** The bytes of a literal. *)
Fixpoint bytes (s : string) : list Z :=
  match s with
  | EmptyString => []
  | String c s => Z.of_nat (nat_of_ascii c) :: bytes s
  end.

(** The string in a character array: up to its first NUL. *)
Fixpoint c_string (l : list Z) : list Z :=
  match l with
  | [] => []
  | c :: l => if c =? 0 then [] else c :: c_string l
  end.

(** A string that ends in its array is not affected by what follows the array. *)
Lemma c_string_app l r : 0 ∈ l -> c_string (l ++ r) = c_string l.
Proof.
  induction l as [|c l IH]; [by intros ?%elem_of_nil|]. cbn [app c_string]. destruct (Z.eqb_spec c 0) as [->|Hc]; [done|].
  intros [?|H]%elem_of_cons; [by destruct Hc|]. by rewrite IH.
Qed.

Definition is_digit (c : Z) : bool := (48 <=? c) && (c <=? 57).
Definition is_space (c : Z) : bool := (c =? 32) || ((9 <=? c) && (c <=? 13)).
Definition to_lower (c : Z) : Z := if (65 <=? c) && (c <=? 90) then c + 32 else c.

Definition str_eqb (a b : list Z) : bool := bool_decide (a = b).
(** [!strcasecmp(a, b)] *)
Definition strcase_eqb (a b : list Z) : bool := str_eqb (to_lower <$> a) (to_lower <$> b).

(** What [snprintf(out, len, ...)] leaves in [out]. *)
Definition fit (len : nat) (s : list Z) : list Z := take (len - 1) s.

(** The longest prefix of characters in a class, and the rest. *)
Fixpoint span (p : Z -> bool) (l : list Z) : list Z * list Z :=
  match l with
  | c :: l' => if p c then let '(a, b) := span p l' in (c :: a, b) else ([], l)
  | [] => ([], [])
  end.

(** ** Decimal numbers *)

(** [%u]: [n] digits are enough below [10 ^ n]. *)
Fixpoint dec_digits (n : nat) (v : Z) : list Z :=
  match n with
  | O => []
  | S n => if v <? 10 then [48 + v] else dec_digits n (v / 10) ++ [48 + v mod 10]
  end.
Definition print_u (v : Z) : list Z := dec_digits 20 v.

Definition dec_value (l : list Z) : Z := fold_left (fun acc c => acc * 10 + (c - 48)) l 0.

Definition ULLONG_MAX : Z := 2 ^ 64 - 1.

(** [strtoul] and [strtoull] in base 10: whether [errno] is set, the value and
    what is left. *)
Definition strtoull (s : list Z) : bool * Z * list Z :=
  let '(_, s1) := span is_space s in
  let '(neg, s2) :=
    match s1 with
    | c :: r => if c =? 45 then (true, r) else if c =? 43 then (false, r) else (false, s1)
    | [] => (false, s1)
    end in
  let '(ds, rest) := span is_digit s2 in
  match ds with
  | [] => (false, 0, s)
  | _ =>
      let v := dec_value ds in
      if ULLONG_MAX <? v then (true, ULLONG_MAX, rest)
      else (false, if neg then u64 (- v) else v, rest)
  end.

(** ** Growable vector of samples *)

Record i64vec := mk_i64vec { iv : list Z; iv_cap : Z }.
Definition vec_empty : i64vec := mk_i64vec [] 0.
Definition vlen (v : i64vec) : Z := Z.of_nat (List.length (iv v)).

Definition i64vec_push (vec : i64vec) (x : Z) : i64vec :=
  let cap :=
    if vlen vec =? iv_cap vec then (if nz (iv_cap vec) then u64 (iv_cap vec * 2) else 1024) else iv_cap vec in
  mk_i64vec (iv vec ++ [x]) cap.

Definition i64vec_free (_ : i64vec) : i64vec := vec_empty.

(** ** Facts *)

Lemma span_app p a b :
  Forall (fun c => p c = true) a -> (match b with c :: _ => p c = false | [] => True end) -> span p (a ++ b) = (a, b).
Proof.
  intros Ha Hb. induction Ha as [|c a Hc Ha IH]; simpl.
  - destruct b as [|c b]; simpl; [done|]. by rewrite Hb.
  - by rewrite Hc, IH.
Qed.

Lemma span_spec p l :
  l = (span p l).1 ++ (span p l).2 /\ Forall (fun c => p c = true) (span p l).1 /\
  match (span p l).2 with c :: _ => p c = false | [] => True end.
Proof.
  induction l as [|c l IH]; simpl; [done|]. destruct (p c) eqn:E; simpl.
  - destruct (span p l) as [a b]. simpl in *. destruct IH as (-> & H2 & H3). simpl. auto.
  - by rewrite E.
Qed.

Lemma dec_digits_digit n v : 0 <= v -> Forall (fun c => is_digit c = true) (dec_digits n v).
Proof.
  revert v. induction n as [|n IH]; intros v Hv; simpl; [done|].
  assert (forall x, 0 <= x < 10 -> is_digit (48 + x) = true) as Hd
    by (intros x Hx; unfold is_digit; apply andb_true_iff; rewrite !Z.leb_le; lia).
  destruct (Z.ltb_spec v 10).
  - constructor; [|done]. by apply Hd.
  - apply Forall_app. split; [apply IH; by apply Z.div_pos; lia|].
    constructor; [|done]. apply Hd. apply Z.mod_pos_bound. lia.
Qed.

Lemma dec_value_snoc l c : dec_value (l ++ [c]) = dec_value l * 10 + (c - 48).
Proof. unfold dec_value. by rewrite fold_left_app. Qed.

(** Printing and reading back. *)
Lemma dec_roundtrip n v : 0 <= v < 10 ^ Z.of_nat n -> dec_value (dec_digits n v) = v.
Proof.
  revert v. induction n as [|n IH]; intros v Hv.
  - simpl in *. unfold dec_value. simpl. lia.
  - simpl. destruct (Z.ltb_spec v 10); [unfold dec_value; simpl; lia|].
    rewrite dec_value_snoc, IH.
    + rewrite (Z.div_mod v 10) at 3 by lia. lia.
    + split; [apply Z.div_pos; lia|]. apply Z.div_lt_upper_bound; [lia|].
      rewrite Nat2Z.inj_succ, Z.pow_succ_r in Hv by lia. lia.
Qed.

Lemma print_u_value v : 0 <= v < 2 ^ 64 -> dec_value (print_u v) = v.
Proof. intros Hv. apply dec_roundtrip. simpl. lia. Qed.

Lemma dec_digits_nonempty n v : dec_digits (S n) v <> [].
Proof. simpl. destruct (v <? 10); [done|]. by destruct (dec_digits n (v / 10)). Qed.

Lemma digit_not_space c : is_digit c = true -> is_space c = false /\ (c =? 45) = false /\ (c =? 43) = false.
Proof.
  unfold is_digit, is_space. rewrite andb_true_iff, !Z.leb_le. intros [H1 H2].
  rewrite !(proj2 (Z.eqb_neq c _)) by lia. rewrite (proj2 (Z.leb_gt c 13)) by lia. by rewrite andb_false_r.
Qed.

(** A number followed by something else is read as that number. *)
Lemma strtoull_print v rest :
  0 <= v < 2 ^ 64 -> (match rest with c :: _ => is_digit c = false | [] => True end) ->
  strtoull (print_u v ++ rest) = (false, v, rest).
Proof.
  intros Hv Hr. unfold strtoull. pose proof (dec_digits_digit 20 v (proj1 Hv)) as Hd.
  fold (print_u v) in Hd. pose proof (dec_digits_nonempty 19 v) as Hne. fold (print_u v) in Hne.
  pose proof (print_u_value v Hv) as Hval.
  destruct (print_u v) as [|c ds] eqn:E; [done|].
  pose proof (proj1 (Forall_cons_1 _ _ _ Hd)) as Hc. destruct (digit_not_space c Hc) as (H1 & H2 & H3).
  cbn [app span]. rewrite H1, H2, H3.
  change (c :: ds ++ rest) with ((c :: ds) ++ rest). rewrite (span_app is_digit (c :: ds) rest) by done.
  rewrite Hval. unfold ULLONG_MAX. by rewrite (proj2 (Z.ltb_ge _ _)) by lia.
Qed.

(** A push stores within the vector and keeps it so. *)
Lemma i64vec_push_in_bounds vec x :
  vlen vec <= iv_cap vec < 2 ^ 62 ->
  vlen vec < iv_cap (i64vec_push vec x) /\ vlen (i64vec_push vec x) <= iv_cap (i64vec_push vec x).
Proof.
  intros [Hle Hlt]. unfold i64vec_push, vlen in *. simpl. rewrite length_app. simpl.
  destruct (Z.eqb_spec (Z.of_nat (List.length (iv vec))) (iv_cap vec)); [|lia].
  destruct (nz (iv_cap vec)) eqn:E; [|apply negb_false_iff, Z.eqb_eq in E; lia].
  apply nz_true in E. rewrite u64_small by (unfold is_u64; lia). lia.
Qed.
