(* ===== verification/BpfSpdk.v ===== *)
(** * The BPF objects for SPDK (bpf/spdk.bpf.h, bpf/spdk_*_host.bpf.c,
      bpf/spdk_*_target.bpf.c)

    SPDK times a sampled command itself and hands the times over when the
    command is done; the objects turn them into the records the kernel objects
    emit.  Two times of NVMe/TCP only the kernel sees are kept in rings, one per
    CPU: [Ring] is what a hook needs of such a ring, the array of the source is
    one instance ([array_ring]) and the list of entries, of which the last 512 are
    scanned, another ([log_ring]); the hooks are written against the interface, and the two
    instances give the same records. *)
From stdpp Require Import base numbers list.
From Stdlib Require Import ZArith Lia String.
From S2P Require Import Prelude Types BpfCommon CStr Model.

(** ** What SPDK hands over *)

Definition SPDK_TIMES : nat := 10.

Record spdk_times := mk_spdk_times { st_t : list Z; st_r2ts : Z; st_flags : Z; st_bytes : Z }.

Definition SPDK_F_C2H_SUCCESS : Z := Z.shiftl 1 0.

Inductive spdk_host_event :=
  | SPDK_H_SUBMIT | SPDK_H_CMD_SENT | SPDK_H_R2T | SPDK_H_H2C_START | SPDK_H_H2C_SENT | SPDK_H_C2H
  | SPDK_H_RSP | SPDK_H_DONE.
Inductive spdk_tgt_event :=
  | SPDK_T_CMD | SPDK_T_R2T_QUEUED | SPDK_T_R2T_SENT | SPDK_T_H2C | SPDK_T_EXEC | SPDK_T_EXECUTED
  | SPDK_T_RSP_QUEUED | SPDK_T_C2H_SENT | SPDK_T_RSP_SENT.
Inductive spdk_rdma_host_event :=
  | SPDK_RH_SUBMIT | SPDK_RH_CMD_POSTED | SPDK_RH_SEND_DONE | SPDK_RH_RSP | SPDK_RH_DONE.
Inductive spdk_rdma_tgt_event :=
  | SPDK_RT_CMD_ARR | SPDK_RT_CMD | SPDK_RT_READ_QUEUED | SPDK_RT_READ_POSTED | SPDK_RT_READ_DONE
  | SPDK_RT_EXEC | SPDK_RT_EXECUTED | SPDK_RT_RSP_QUEUED | SPDK_RT_RSP_POSTED | SPDK_RT_SEND_DONE.

Definition sh_idx (e : spdk_host_event) : nat :=
  match e with
  | SPDK_H_SUBMIT => 0 | SPDK_H_CMD_SENT => 1 | SPDK_H_R2T => 2 | SPDK_H_H2C_START => 3
  | SPDK_H_H2C_SENT => 4 | SPDK_H_C2H => 5 | SPDK_H_RSP => 6 | SPDK_H_DONE => 7
  end.
Definition st_idx (e : spdk_tgt_event) : nat :=
  match e with
  | SPDK_T_CMD => 0 | SPDK_T_R2T_QUEUED => 1 | SPDK_T_R2T_SENT => 2 | SPDK_T_H2C => 3 | SPDK_T_EXEC => 4
  | SPDK_T_EXECUTED => 5 | SPDK_T_RSP_QUEUED => 6 | SPDK_T_C2H_SENT => 7 | SPDK_T_RSP_SENT => 8
  end.
Definition srh_idx (e : spdk_rdma_host_event) : nat :=
  match e with
  | SPDK_RH_SUBMIT => 0 | SPDK_RH_CMD_POSTED => 1 | SPDK_RH_SEND_DONE => 2 | SPDK_RH_RSP => 3 | SPDK_RH_DONE => 4
  end.
Definition srt_idx (e : spdk_rdma_tgt_event) : nat :=
  match e with
  | SPDK_RT_CMD_ARR => 0 | SPDK_RT_CMD => 1 | SPDK_RT_READ_QUEUED => 2 | SPDK_RT_READ_POSTED => 3
  | SPDK_RT_READ_DONE => 4 | SPDK_RT_EXEC => 5 | SPDK_RT_EXECUTED => 6 | SPDK_RT_RSP_QUEUED => 7
  | SPDK_RT_RSP_POSTED => 8 | SPDK_RT_SEND_DONE => 9
  end.

(** [st.t[i]] *)
Definition at_ (st : spdk_times) (i : nat) : Z := default 0 (st_t st !! i).

(** The SPDK process's memory, as [bpf_probe_read_user] reads it. *)
Record user := mk_user {
  u_cmd : Z -> option ntp_nvme_cmd;
  u_times : Z -> option spdk_times
}.

(** The command's identity and its byte count. *)
Definition spdk_read_cmd (U : user) (cmd : Z) : option (ntp_cmd_id * Z) :=
  match u_cmd U cmd with
  | None => None
  | Some c =>
      Some (mk_cmd_id (c_slba c) (c_nsid c) 0 0 (c_command_id c) (c_length c) (c_opcode c) [0; 0; 0],
            u32 (c_dptr1 c))
  end.

(** ** Rings *)

Class Ring := {
  ring : Type;
  ring_fresh : ring;                      (* the zeroed map value *)
  ring_own : Z -> ring -> ring;           (* a thread takes the slot *)
  ring_add : ring -> Z -> Z -> ring;      (* append (time, value) *)
  ring_find : Z -> ring -> Z -> Z         (* the thread's latest value at or before a time, or 0 *)
}.

Definition SPDK_RING : Z := 512.

Record spdk_ring := mk_ring { rg_tid : Z; rg_n : Z; rg_t : Z -> Z; rg_v : Z -> Z }.

Definition spdk_ring_own (tid : Z) (r : spdk_ring) : spdk_ring :=
  if rg_tid r =? tid then r else mk_ring tid 0 (rg_t r) (rg_v r).

Definition spdk_ring_add (r : spdk_ring) (t v : Z) : spdk_ring :=
  let i := Z.land (rg_n r) (SPDK_RING - 1) in
  mk_ring (rg_tid r) (u64 (rg_n r + 1)) (arr_set (rg_t r) i t) (arr_set (rg_v r) i v).

(** The unrolled halvings: [lo] after [k] more of them. *)
Fixpoint ring_halve (r : spdk_ring) (base x : Z) (k : nat) (lo hi : Z) : Z :=
  match k with
  | O => lo
  | S k =>
      let mid := (lo + hi) / 2 in
      if lo <? hi then
        if rg_t r (Z.land (u64 (base + mid)) (SPDK_RING - 1)) <=? x then ring_halve r base x k (mid + 1) hi
        else ring_halve r base x k lo mid
      else ring_halve r base x k lo hi
  end.

Definition spdk_ring_find (tid : Z) (r : spdk_ring) (x : Z) : Z :=
  if negb (rg_tid r =? tid) || negb (nz x) then 0
  else
    let n := if rg_n r <? SPDK_RING then rg_n r else SPDK_RING in
    let base := u64 (rg_n r - n) in
    let lo := ring_halve r base x 10 0 n in
    if nz lo then rg_v r (Z.land (u64 (base + lo - 1)) (SPDK_RING - 1)) else 0.

Definition array_ring : Ring := {|
  ring := spdk_ring;
  ring_fresh := mk_ring 0 0 (fun _ => 0) (fun _ => 0);
  ring_own := spdk_ring_own;
  ring_add := spdk_ring_add;
  ring_find := spdk_ring_find
|}.

(** The reference: everything the thread appended, of which the last
    [SPDK_RING] entries are remembered. *)
Record ring_log := mk_log { lg_tid : Z; lg_entries : list (Z * Z) }.

Definition recent (l : list (Z * Z)) : list (Z * Z) := drop (List.length l - Z.to_nat SPDK_RING) l.

Definition log_find (tid : Z) (g : ring_log) (x : Z) : Z :=
  if negb (lg_tid g =? tid) || negb (nz x) then 0
  else default 0 (snd <$> last (filter (fun e => e.1 <= x) (recent (lg_entries g)))).

Definition log_ring : Ring := {|
  ring := ring_log;
  ring_fresh := mk_log 0 [];
  ring_own := fun tid g => if lg_tid g =? tid then g else mk_log tid [];
  ring_add := fun g t v => mk_log (lg_tid g) (lg_entries g ++ [(t, v)]);
  ring_find := log_find
|}.

(** ** The state of an object *)

Record spdk_rx := mk_spdk_rx { sx_tid : Z; sx_start : Z; sx_copied : Z }.

Record spdk_st `{Ring} := mk_spdk_st {
  p_armed : bool;
  p_cnt : counts;
  p_recv : Z -> ring;
  p_send : Z -> ring;
  p_rx : Z -> spdk_rx;
  p_hosts : list ntp_host_rec;
  p_tgts : list ntp_tgt_rec
}.

Section Object.
  Context `{R : Ring}.
  Variable filter : ntp_filter.

Definition spdk_init : spdk_st :=
  mk_spdk_st _ false (fun _ => 0) (fun _ => ring_fresh) (fun _ => ring_fresh) (fun _ => mk_spdk_rx 0 0 0) [] [].

Definition set_armed (s : spdk_st) (b : bool) : spdk_st :=
  mk_spdk_st _ b (p_cnt s) (p_recv s) (p_send s) (p_rx s) (p_hosts s) (p_tgts s).
Definition p_inc (s : spdk_st) (c : ntp_counter) (delta : Z) : spdk_st :=
  mk_spdk_st _ (p_armed s) (ntp_count (p_cnt s) c delta) (p_recv s) (p_send s) (p_rx s) (p_hosts s) (p_tgts s).
Definition set_recv (s : spdk_st) (cpu : Z) (r : ring) : spdk_st :=
  mk_spdk_st _ (p_armed s) (p_cnt s) (arr_set (p_recv s) cpu r) (p_send s) (p_rx s) (p_hosts s) (p_tgts s).
Definition set_sendr (s : spdk_st) (cpu : Z) (r : ring) : spdk_st :=
  mk_spdk_st _ (p_armed s) (p_cnt s) (p_recv s) (arr_set (p_send s) cpu r) (p_rx s) (p_hosts s) (p_tgts s).
Definition set_prx (s : spdk_st) (cpu : Z) (c : spdk_rx) : spdk_st :=
  mk_spdk_st _ (p_armed s) (p_cnt s) (p_recv s) (p_send s) (arr_set (p_rx s) cpu c) (p_hosts s) (p_tgts s).

(** [spdk_submit], for each kind of record *)
Definition submit_host (s : spdk_st) (r : ntp_host_rec) : spdk_st :=
  p_inc (mk_spdk_st _ (p_armed s) (p_cnt s) (p_recv s) (p_send s) (p_rx s) (p_hosts s ++ [r]) (p_tgts s))
    NTP_CNT_HOST_EMITTED 1.
Definition submit_tgt (s : spdk_st) (r : ntp_tgt_rec) : spdk_st :=
  p_inc (mk_spdk_st _ (p_armed s) (p_cnt s) (p_recv s) (p_send s) (p_rx s) (p_hosts s) (p_tgts s ++ [r]))
    NTP_CNT_TGT_EMITTED 1.

Definition spdk_selected (id : ntp_cmd_id) (bytes : Z) (write : bool) : bool :=
  if negb (io_type filter =? 2) && negb (io_type filter =? (if write then 1 else 0)) then false
  else if negb (ntp_sampled filter (cid id) (slba id) (nlb id)) then false
  else ntp_size_matches filter bytes.

(** The unrolled loop over [filter.pids]. *)
Definition spdk_process (e : env) : bool :=
  let tgid := u32 (Z.shiftr (e_tid e) 32) in
  existsb (fun i => (Z.of_nat i <? npids filter) && (default 0 (f_pids filter !! i) =? tgid)) (seq 0 NTP_MAX_PIDS).

Definition spdk_recvmsg (e : env) (s : spdk_st) : spdk_st :=
  if negb (nz (npids filter)) || negb (spdk_process e) then s
  else set_prx s (e_cpu e) (mk_spdk_rx (e_tid e) (e_now e) 0).

Definition spdk_copy (K : kernel) (e : env) (s : spdk_st) (skb : Z) : spdk_st :=
  let c := p_rx s (e_cpu e) in
  if negb (sx_tid c =? e_tid e) || nz (sx_copied c) then s
  else
    let s := set_prx s (e_cpu e) (mk_spdk_rx (sx_tid c) (sx_start c) 1) in
    let r := ring_own (e_tid e) (p_recv s (e_cpu e)) in
    set_recv s (e_cpu e) (ring_add r (sx_start c) (ntp_skb_arrival filter K skb (e_now e))).

Definition spdk_arrival (e : env) (s : spdk_st) (parsed floor : Z) : Z :=
  let a := ring_find (e_tid e) (p_recv s (e_cpu e)) parsed in
  if nz a && (floor <=? a) && (a <=? parsed) then a else parsed.

Definition spdk_sendmsg (e : env) (s : spdk_st) : spdk_st :=
  if negb (nz (npids filter)) || negb (spdk_process e) then s
  else
    let r := ring_own (e_tid e) (p_send s (e_cpu e)) in
    set_sendr s (e_cpu e) (ring_add r (e_now e) (e_now e)).

Definition spdk_handed (e : env) (s : spdk_st) (taken queued : Z) : Z :=
  let h := ring_find (e_tid e) (p_send s (e_cpu e)) taken in
  if nz h && (queued <=? h) && (h <=? taken) then h else taken.

(** ** A command is done *)

(** A C string printed into the zeroed [disk]. *)
Definition spdk_disk (cntlid nsid : Z) : list Z :=
  let name := fit NTP_DISK_NAME_LEN (bytes "spdk-c" ++ print_u cntlid ++ bytes "n" ++ print_u nsid) in
  name ++ replicate (NTP_DISK_NAME_LEN - List.length name) 0.

Definition stamp_h : ntp_host_rec -> list (ntp_host_ts * Z) -> ntp_host_rec :=
  foldl (fun r p => set_hts r p.1 p.2).
Definition stamp_t : ntp_tgt_rec -> list (ntp_tgt_ts * Z) -> ntp_tgt_rec :=
  foldl (fun r p => set_tts r p.1 p.2).

(** [if (b) flags |= f] *)
Definition flag_if (b : bool) (f flags : Z) : Z := if b then Z.lor flags f else flags.

(** The zeroed record with what every command gets. *)
Definition spdk_host_rec (e : env) (tr : Z) (id : ntp_cmd_id) (bytes qid cntlid flags : Z) : ntp_host_rec :=
  mk_host_rec (mk_rec_hdr NTP_REC_HOST tr flags (u32 (e_cpu e))) (id_with id (u16 cntlid) (u16 qid)) bytes
    (u32 cntlid) 0 0 0 (spdk_disk (u32 cntlid) (nsid id)) (replicate NTP_H_NR 0) 0 0 0.
Definition spdk_tgt_rec (e : env) (tr : Z) (id : ntp_cmd_id) (bytes qid cntlid flags : Z) : ntp_tgt_rec :=
  mk_tgt_rec (mk_rec_hdr NTP_REC_TARGET tr flags (u32 (e_cpu e))) (id_with id (u16 cntlid) (u16 qid)) bytes 0 0
    (replicate NTP_T_NR 0) 0 0 0.

(** *** NVMe/TCP host *)

Definition tcp_host_times (e : env) (s : spdk_st) (st : spdk_times) : list (ntp_host_ts * Z) :=
  let T i := at_ st (sh_idx i) in
  let floor := T SPDK_H_SUBMIT in
  [(NTP_H_START, T SPDK_H_SUBMIT); (NTP_H_QUEUE_RQ, T SPDK_H_SUBMIT); (NTP_H_CMD_SENT, T SPDK_H_CMD_SENT);
   (NTP_H_R2T_PROC, T SPDK_H_R2T); (NTP_H_R2T_ARR, spdk_arrival e s (T SPDK_H_R2T) floor);
   (NTP_H_DATA_START, T SPDK_H_H2C_START); (NTP_H_DATA_SENT, T SPDK_H_H2C_SENT);
   (NTP_H_C2H_PROC, T SPDK_H_C2H); (NTP_H_C2H_ARR, spdk_arrival e s (T SPDK_H_C2H) floor);
   (NTP_H_RSP_ARR, spdk_arrival e s (T SPDK_H_RSP) floor);
   (NTP_H_RSP_PROC, T SPDK_H_DONE); (NTP_H_NVME_DONE, T SPDK_H_DONE); (NTP_H_BLK_DONE, T SPDK_H_DONE)].

Definition tcp_host_flags (st : spdk_times) (write : bool) : Z :=
  let T i := at_ st (sh_idx i) in
  let flags := NTP_F_SPDK in
  let flags := flag_if write NTP_F_WRITE flags in
  let flags := flag_if (nz (T SPDK_H_R2T)) NTP_F_R2T flags in
  let flags := flag_if (1 <? st_r2ts st) NTP_F_MULTI_R2T flags in
  let flags := flag_if (write && negb (nz (T SPDK_H_R2T))) NTP_F_INLINE_DATA flags in
  flag_if (negb write && nz (T SPDK_H_C2H) && negb (nz (T SPDK_H_RSP))) NTP_F_DATA_SUCCESS flags.

(** Counting a command SPDK reports: throughput is estimated from the sampled. *)
Definition count_estimate (s : spdk_st) (write : bool) (bytes : Z) : spdk_st :=
  let s := p_inc s (if write then NTP_CNT_HOST_WRITE_IOS else NTP_CNT_HOST_READ_IOS) (sample_every filter) in
  p_inc s (if write then NTP_CNT_HOST_WRITE_BYTES else NTP_CNT_HOST_READ_BYTES)
    (u64 (bytes * sample_every filter)).

Definition ntp_u_nvme_tcp_done (U : user) (e : env) (s : spdk_st) (cmd qid cntlid times : Z) : spdk_st :=
  if negb (p_armed s) then s
  else
    match spdk_read_cmd U cmd with
    | None => s
    | Some (id, bytes) =>
        if negb (ntp_is_rw (opcode id)) then s
        else
          match u_times U times with
          | None => s
          | Some st =>
              let write := opcode id =? NTP_NVME_CMD_WRITE in
              let s := count_estimate s write bytes in
              if negb (spdk_selected id bytes write) then s
              else if nz (f_nsid filter) && negb (nsid id =? f_nsid filter) then s
              else
                let s := p_inc s NTP_CNT_HOST_SAMPLED 1 in
                if e_rb_full e then p_inc s NTP_CNT_RB_DROPS 1
                else
                  submit_host s
                    (stamp_h (spdk_host_rec e NTP_TR_TCP id bytes qid cntlid (tcp_host_flags st write))
                       (tcp_host_times e s st))
          end
    end.

(** *** NVMe/RDMA host *)

Definition rdma_host_times (st : spdk_times) : list (ntp_host_ts * Z) :=
  let T i := at_ st (srh_idx i) in
  [(NTP_H_START, T SPDK_RH_SUBMIT); (NTP_H_QUEUE_RQ, T SPDK_RH_SUBMIT); (NTP_H_CMD_SENT, T SPDK_RH_CMD_POSTED);
   (NTP_H_SEND_DONE, T SPDK_RH_SEND_DONE); (NTP_H_RSP_ARR, T SPDK_RH_RSP); (NTP_H_RSP_PROC, T SPDK_RH_DONE);
   (NTP_H_NVME_DONE, T SPDK_RH_DONE); (NTP_H_BLK_DONE, T SPDK_RH_DONE)].

Definition ntp_u_nvme_rdma_done (U : user) (e : env) (s : spdk_st) (cmd qid cntlid times : Z) : spdk_st :=
  if negb (p_armed s) then s
  else
    match spdk_read_cmd U cmd with
    | None => s
    | Some (id, _) =>
        if negb (ntp_is_rw (opcode id)) then s
        else
          match u_times U times with
          | None => s
          | Some st =>
              let bytes := st_bytes st in
              let write := opcode id =? NTP_NVME_CMD_WRITE in
              let s := count_estimate s write bytes in
              if negb (spdk_selected id bytes write) then s
              else if nz (f_nsid filter) && negb (nsid id =? f_nsid filter) then s
              else
                let s := p_inc s NTP_CNT_HOST_SAMPLED 1 in
                if e_rb_full e then p_inc s NTP_CNT_RB_DROPS 1
                else
                  submit_host s
                    (stamp_h (spdk_host_rec e NTP_TR_RDMA id bytes qid cntlid (flag_if write NTP_F_WRITE NTP_F_SPDK))
                       (rdma_host_times st))
          end
    end.

(** *** NVMe/TCP target *)

Definition tcp_tgt_times (e : env) (s : spdk_st) (st : spdk_times) : list (ntp_tgt_ts * Z) :=
  let T i := at_ st (st_idx i) in
  [(NTP_T_CMD_PROC, T SPDK_T_CMD); (NTP_T_CMD_ARR, spdk_arrival e s (T SPDK_T_CMD) 0);
   (NTP_T_R2T_QUEUED, T SPDK_T_R2T_QUEUED);
   (NTP_T_R2T_SENT, spdk_handed e s (T SPDK_T_R2T_SENT) (T SPDK_T_R2T_QUEUED));
   (NTP_T_DATA_PROC, T SPDK_T_H2C); (NTP_T_DATA_ARR, spdk_arrival e s (T SPDK_T_H2C) (T SPDK_T_R2T_QUEUED));
   (NTP_T_EXEC, T SPDK_T_EXEC); (NTP_T_COMPLETE, T SPDK_T_EXECUTED); (NTP_T_RSP_QUEUED, T SPDK_T_RSP_QUEUED);
   (NTP_T_C2H_SENT, spdk_handed e s (T SPDK_T_C2H_SENT) (T SPDK_T_RSP_QUEUED));
   (NTP_T_RSP_SENT, spdk_handed e s (T SPDK_T_RSP_SENT) (T SPDK_T_RSP_QUEUED))].

Definition tcp_tgt_flags (st : spdk_times) (write : bool) : Z :=
  let flags := NTP_F_SPDK in
  let flags := flag_if write NTP_F_WRITE flags in
  let flags := flag_if (nz (at_ st (st_idx SPDK_T_R2T_QUEUED))) NTP_F_R2T flags in
  let flags := flag_if (1 <? st_r2ts st) NTP_F_MULTI_R2T flags in
  flag_if (has (st_flags st) SPDK_F_C2H_SUCCESS) NTP_F_DATA_SUCCESS flags.

Definition ntp_u_nvmf_tcp_done (U : user) (e : env) (s : spdk_st) (cmd qid cntlid times : Z) : spdk_st :=
  if negb (p_armed s) then s
  else
    match spdk_read_cmd U cmd with
    | None => s
    | Some (id, bytes) =>
        if negb (ntp_is_rw (opcode id)) then s
        else
          match u_times U times with
          | None => s
          | Some st =>
              let s := p_inc s NTP_CNT_TGT_CMDS (sample_every filter) in
              let write := opcode id =? NTP_NVME_CMD_WRITE in
              if negb (spdk_selected id bytes write) then s
              else
                let s := p_inc s NTP_CNT_TGT_SAMPLED 1 in
                if e_rb_full e then p_inc s NTP_CNT_RB_DROPS 1
                else
                  submit_tgt s
                    (stamp_t (spdk_tgt_rec e NTP_TR_TCP id bytes qid cntlid (tcp_tgt_flags st write))
                       (tcp_tgt_times e s st))
          end
    end.

(** *** NVMe/RDMA target *)

Definition rdma_tgt_times (st : spdk_times) (write : bool) : list (ntp_tgt_ts * Z) :=
  let T i := at_ st (srt_idx i) in
  [(NTP_T_CMD_ARR, T SPDK_RT_CMD_ARR); (NTP_T_CMD_PROC, T SPDK_RT_CMD); (NTP_T_R2T_QUEUED, T SPDK_RT_READ_QUEUED);
   (NTP_T_R2T_SENT, T SPDK_RT_READ_POSTED); (NTP_T_DATA_ARR, T SPDK_RT_READ_DONE);
   (NTP_T_DATA_PROC, T SPDK_RT_READ_DONE); (NTP_T_EXEC, T SPDK_RT_EXEC); (NTP_T_COMPLETE, T SPDK_RT_EXECUTED);
   (NTP_T_RSP_QUEUED, T SPDK_RT_RSP_QUEUED); (NTP_T_RSP_SENT, T SPDK_RT_RSP_POSTED)] ++
  (if write then [] else [(NTP_T_C2H_SENT, T SPDK_RT_RSP_POSTED)]) ++
  [(NTP_T_SEND_DONE, T SPDK_RT_SEND_DONE)].

Definition rdma_tgt_flags (st : spdk_times) (write : bool) : Z :=
  if write then
    Z.lor (Z.lor NTP_F_SPDK NTP_F_WRITE)
      (if nz (at_ st (srt_idx SPDK_RT_READ_QUEUED)) then NTP_F_RDMA_READ else NTP_F_INLINE_DATA)
  else NTP_F_SPDK.

Definition ntp_u_nvmf_rdma_done (U : user) (e : env) (s : spdk_st) (cmd qid cntlid times : Z) : spdk_st :=
  if negb (p_armed s) then s
  else
    match spdk_read_cmd U cmd with
    | None => s
    | Some (id, _) =>
        if negb (ntp_is_rw (opcode id)) then s
        else
          match u_times U times with
          | None => s
          | Some st =>
              let bytes := st_bytes st in
              let s := p_inc s NTP_CNT_TGT_CMDS (sample_every filter) in
              let write := opcode id =? NTP_NVME_CMD_WRITE in
              if negb (spdk_selected id bytes write) then s
              else
                let s := p_inc s NTP_CNT_TGT_SAMPLED 1 in
                if e_rb_full e then p_inc s NTP_CNT_RB_DROPS 1
                else
                  submit_tgt s
                    (stamp_t (spdk_tgt_rec e NTP_TR_RDMA id bytes qid cntlid (rdma_tgt_flags st write))
                       (rdma_tgt_times st write))
          end
    end.

(** ** Runs of an object *)

Inductive spdk_obj := SpdkTcpHost | SpdkTcpTarget | SpdkRdmaHost | SpdkRdmaTarget.

Inductive spdk_ev :=
  | EvRecvmsg | EvCopy (skb : Z) | EvSendmsg | EvDone (U : user) (cmd qid cntlid times : Z) | EvArm (on : bool).

(** The hooks each object has. *)
Definition spdk_step (o : spdk_obj) (K : kernel) (e : env) (s : spdk_st) (ev : spdk_ev) : spdk_st :=
  match ev, o with
  | EvArm on, _ => set_armed s on
  | EvRecvmsg, (SpdkTcpHost | SpdkTcpTarget) => spdk_recvmsg e s
  | EvCopy skb, (SpdkTcpHost | SpdkTcpTarget) => spdk_copy K e s skb
  | EvSendmsg, SpdkTcpTarget => spdk_sendmsg e s
  | EvDone U cmd qid cntlid times, SpdkTcpHost => ntp_u_nvme_tcp_done U e s cmd qid cntlid times
  | EvDone U cmd qid cntlid times, SpdkTcpTarget => ntp_u_nvmf_tcp_done U e s cmd qid cntlid times
  | EvDone U cmd qid cntlid times, SpdkRdmaHost => ntp_u_nvme_rdma_done U e s cmd qid cntlid times
  | EvDone U cmd qid cntlid times, SpdkRdmaTarget => ntp_u_nvmf_rdma_done U e s cmd qid cntlid times
  | _, _ => s
  end.

Fixpoint spdk_run (o : spdk_obj) (s : spdk_st) (tr : list (kernel * env * spdk_ev)) : spdk_st :=
  match tr with
  | [] => s
  | (K, e, ev) :: tr => spdk_run o (spdk_step o K e s ev) tr
  end.

End Object.

(** ** The array is the log *)

Lemma ring_mask z : Z.land z (SPDK_RING - 1) = z mod SPDK_RING.
Proof. unfold SPDK_RING. change (512 - 1) with (Z.ones 9). by rewrite Z.land_ones. Qed.

(** The array holds the last [SPDK_RING] entries, each in the slot of its index. *)
Record ring_rep (r : spdk_ring) (g : ring_log) : Prop := {
  rr_tid : rg_tid r = lg_tid g;
  rr_n : rg_n r = Z.of_nat (List.length (lg_entries g));
  rr_slot i t v : lg_entries g !! i = Some (t, v) ->
    Z.of_nat (List.length (lg_entries g)) - SPDK_RING <= Z.of_nat i ->
    rg_t r (Z.of_nat i mod SPDK_RING) = t /\ rg_v r (Z.of_nat i mod SPDK_RING) = v
}.

(** Entries are in order of time. *)
Definition ascending (l : list (Z * Z)) : Prop :=
  forall i j a b, (i <= j)%nat -> l !! i = Some a -> l !! j = Some b -> a.1 <= b.1.

Lemma ascending_snoc l t v : ascending l -> Forall (fun e => e.1 <= t) l -> ascending (l ++ [(t, v)]).
Proof.
  intros Ha Ht i j a b Hij Hi Hj. rewrite lookup_app_Some, list_lookup_singleton_Some in Hi, Hj.
  destruct Hi as [Hi|(Hi & Ei & <-)], Hj as [Hj|(Hj & Ej & <-)].
  - by apply (Ha i j).
  - by apply (Forall_lookup_1 _ _ _ _ Ht Hi).
  - apply lookup_lt_Some in Hj. lia.
  - simpl. lia.
Qed.

Lemma ascending_drop l k : ascending l -> ascending (drop k l).
Proof. intros Ha i j a b Hij. rewrite !lookup_drop. apply Ha. lia. Qed.

Lemma ring_rep_own tid r g :
  ring_rep r g -> ring_rep (spdk_ring_own tid r) (ring_own (Ring := log_ring) tid g).
Proof.
  intros Hr. unfold spdk_ring_own. simpl. rewrite (rr_tid _ _ Hr).
  destruct (lg_tid g =? tid); [done|]. split; [done..|]. simpl. intros i t v Hi. done.
Qed.

Lemma ring_rep_add r g t v :
  ring_rep r g -> Z.of_nat (List.length (lg_entries g)) < 2 ^ 64 - 1 ->
  ring_rep (spdk_ring_add r t v) (ring_add (Ring := log_ring) g t v).
Proof.
  intros [Ht Hn Hs] Hl. unfold spdk_ring_add. cbv zeta. rewrite ring_mask, Hn.
  split; cbn [rg_tid rg_n rg_t rg_v lg_tid lg_entries ring_add log_ring]; [done|..].
  - rewrite length_app. cbn [List.length]. rewrite u64_small by (unfold is_u64; lia). lia.
  - intros i t' v'. rewrite length_app, lookup_app_Some, list_lookup_singleton_Some. cbn [List.length].
    intros [Hi|(Hge & Hz & [= <- <-])] Hlo.
    + pose proof (lookup_lt_Some _ _ _ Hi). rewrite !arr_set_ne; [apply Hs; [done|lia]|..];
        intros Heq; unfold SPDK_RING in *; pose proof (Z.div_mod (Z.of_nat i) 512 ltac:(lia));
        pose proof (Z.div_mod (Z.of_nat (List.length (lg_entries g))) 512 ltac:(lia)); lia.
    + replace i with (List.length (lg_entries g)) by lia. by rewrite !arr_set_eq.
Qed.

(** Where the entries at or before [x] end. *)
Definition split_at_time (es : list (Z * Z)) (x : Z) (p : nat) : Prop :=
  (p <= List.length es)%nat /\
  forall i e, es !! i = Some e -> if decide (i < p)%nat then e.1 <= x else x < e.1.

Lemma filter_split es x p : split_at_time es x p -> filter (fun e => e.1 <= x) es = take p es.
Proof.
  revert p. induction es as [|e es IH]; intros p [Hp Hs]; [by destruct p|].
  pose proof (Hs O e eq_refl) as He. destruct p as [|p].
  - rewrite decide_False in He by lia. rewrite filter_cons_False by lia.
    rewrite (IH O); [by rewrite take_0|]. split; [lia|]. intros i e' Hi. specialize (Hs (S i) e' Hi). done.
  - rewrite decide_True in He by lia. rewrite filter_cons_True by done. simpl. f_equal. apply IH.
    simpl in Hp. split; [lia|]. intros i e' Hi. specialize (Hs (S i) e' Hi).
    destruct (decide (i < p)%nat), (decide (S i < S p)%nat); (done || lia).
Qed.

(** The halvings find that place: [es] are the entries the slots hold. *)
Lemma halve_split r base es x k lo hi :
  (forall i e, es !! i = Some e -> rg_t r (Z.land (u64 (base + Z.of_nat i)) (SPDK_RING - 1)) = e.1) ->
  ascending es ->
  (lo <= hi <= List.length es)%nat -> Z.of_nat hi - Z.of_nat lo < 2 ^ Z.of_nat k ->
  (forall i e, (i < lo)%nat -> es !! i = Some e -> e.1 <= x) ->
  (forall i e, (hi <= i)%nat -> es !! i = Some e -> x < e.1) ->
  exists p, ring_halve r base x k (Z.of_nat lo) (Z.of_nat hi) = Z.of_nat p /\ split_at_time es x p.
Proof.
  intros Hslot Ha. revert lo hi. induction k as [|k IH]; intros lo hi Hb Hw Hlo Hhi.
  - exists lo. split; [done|]. split; [lia|]. assert (lo = hi) as <- by (simpl in Hw; lia).
    intros i e Hi. destruct (decide (i < lo)%nat); [by eapply Hlo|]. eapply Hhi; [|done]. lia.
  - cbn [ring_halve]. cbv zeta. rewrite Nat2Z.inj_succ, Z.pow_succ_r in Hw by lia.
    destruct (Z.ltb_spec (Z.of_nat lo) (Z.of_nat hi)) as [Hlt|Hge].
    + set (mid := ((lo + hi) / 2)%nat).
      assert (Z.of_nat mid = (Z.of_nat lo + Z.of_nat hi) / 2) as Hm
        by (unfold mid; rewrite Nat2Z.inj_div, Nat2Z.inj_add; done).
      pose proof (Z.div_mod (Z.of_nat lo + Z.of_nat hi) 2 ltac:(lia)) as Hd.
      pose proof (Z.mod_pos_bound (Z.of_nat lo + Z.of_nat hi) 2 ltac:(lia)) as Hr. rewrite <- Hm in *.
      destruct (lookup_lt_is_Some_2 es mid ltac:(lia)) as [em Hem]. rewrite (Hslot _ _ Hem).
      destruct (Z.leb_spec em.1 x) as [Hle|Hgt].
      * replace (Z.of_nat mid + 1) with (Z.of_nat (S mid)) by lia. apply IH; [lia|lia| |done].
        intros i e Hi He. transitivity em.1; [|done]. eapply (Ha i mid); [lia|done..].
      * apply IH; [lia|lia|done|]. intros i e Hi He. apply Z.lt_le_trans with em.1; [done|].
        eapply (Ha mid i); [lia|done..].
    + apply IH; [lia| |done..]. assert (Z.of_nat hi - Z.of_nat lo <= 0) by lia.
      pose proof (Z.pow_pos_nonneg 2 (Z.of_nat k)). lia.
Qed.

(** The binary search finds what a scan of the remembered entries finds. *)
Lemma ring_find_log tid r g x :
  ring_rep r g -> ascending (lg_entries g) -> Z.of_nat (List.length (lg_entries g)) < 2 ^ 64 ->
  spdk_ring_find tid r x = log_find tid g x.
Proof.
  intros [Ht Hn Hs] Ha Hl. unfold spdk_ring_find, log_find. rewrite Ht. destruct (_ || _); [done|]. cbv zeta.
  rewrite Hn. set (len := List.length (lg_entries g)) in *. set (n := Nat.min len 512).
  assert ((if Z.of_nat len <? SPDK_RING then Z.of_nat len else SPDK_RING) = Z.of_nat n) as ->
    by (unfold SPDK_RING, n; destruct (Z.ltb_spec (Z.of_nat len) 512); lia).
  rewrite u64_small by (unfold is_u64; lia).
  replace (Z.of_nat len - Z.of_nat n) with (Z.of_nat (len - n)) by lia.
  set (es := recent (lg_entries g)).
  assert (List.length es = n) as Hes.
  { unfold es, recent. rewrite length_drop. change (Z.to_nat SPDK_RING) with 512%nat. fold len. lia. }
  assert (forall i, es !! i = lg_entries g !! (len - n + i)%nat) as Hlk.
  { intros i. unfold es, recent. rewrite lookup_drop. change (Z.to_nat SPDK_RING) with 512%nat.
    fold len. f_equal. lia. }
  assert (forall i e, es !! i = Some e ->
    rg_t r (Z.land (u64 (Z.of_nat (len - n) + Z.of_nat i)) (SPDK_RING - 1)) = e.1 /\
    rg_v r (Z.land (u64 (Z.of_nat (len - n) + Z.of_nat i)) (SPDK_RING - 1)) = e.2) as Hslot.
  { intros i [t v] Hi. pose proof (lookup_lt_Some _ _ _ Hi). rewrite Hlk in Hi.
    rewrite ring_mask, u64_small by (unfold is_u64; lia). rewrite <- Nat2Z.inj_add.
    apply Hs; [done|]. unfold SPDK_RING. fold len. lia. }
  destruct (halve_split r (Z.of_nat (len - n)) es x 10 0 n) as (p & Ep & Hp); [by intros; apply Hslot| | |..].
  { by apply ascending_drop. }
  { lia. }
  { change (2 ^ Z.of_nat 10) with 1024. lia. }
  { lia. }
  { intros i e Hi He. apply lookup_lt_Some in He. lia. }
  change (Z.of_nat 0) with 0 in Ep. rewrite Ep. rewrite (filter_split es x p Hp), last_lookup, length_take.
  destruct Hp as [Hp _]. destruct p as [|p]; [by rewrite take_0|].
  replace (nz (Z.of_nat (S p))) with true by (symmetry; apply nz_true; lia).
  replace (Nat.pred (Nat.min (S p) (List.length es))) with p by lia.
  rewrite lookup_take_lt by lia. destruct (lookup_lt_is_Some_2 es p ltac:(lia)) as [e He]. rewrite He. simpl.
  replace (Z.of_nat (len - n) + Z.of_nat (S p) - 1) with (Z.of_nat (len - n) + Z.of_nat p) by lia.
  apply (Hslot p e He).
Qed.

(** ** The objects with either ring *)

Abbreviation ast := (@spdk_st array_ring).
Abbreviation lst := (@spdk_st log_ring).

(** One ring of the two objects, after [k] events; [last]: no entry is later. *)
Definition ring_sim (k : nat) (last : Z) (r : spdk_ring) (g : ring_log) : Prop :=
  ring_rep r g /\ ascending (lg_entries g) /\ Forall (fun e => e.1 <= last) (lg_entries g) /\
  (List.length (lg_entries g) <= k)%nat.

(** The two objects after [k] events, at time [now]. *)
Record spdk_sim (k : nat) (now : Z) (s : ast) (s' : lst) : Prop := {
  ss_armed : p_armed s = p_armed s';
  ss_cnt : p_cnt s = p_cnt s';
  ss_rx : p_rx s = p_rx s';
  ss_hosts : p_hosts s = p_hosts s';
  ss_tgts : p_tgts s = p_tgts s';
  ss_start cpu : sx_start (p_rx s cpu) <= now;
  ss_recv cpu : ring_sim k (sx_start (p_rx s cpu)) (p_recv s cpu) (p_recv s' cpu);
  ss_send cpu : ring_sim k now (p_send s cpu) (p_send s' cpu)
}.

Lemma ring_sim_mono k k' last last' r g :
  (k <= k')%nat -> last <= last' -> ring_sim k last r g -> ring_sim k' last' r g.
Proof.
  intros Hk Hl (H1 & H2 & H3 & H4). split; [done|]. split; [done|]. split; [|lia].
  eapply Forall_impl; [exact H3|]. simpl. lia.
Qed.

Lemma ring_sim_append k last tid r g v :
  ring_sim k last r g -> Z.of_nat k < 2 ^ 64 - 1 ->
  ring_sim (S k) last (spdk_ring_add (spdk_ring_own tid r) last v)
    (ring_add (Ring := log_ring) (ring_own (Ring := log_ring) tid g) last v).
Proof.
  intros (H1 & H2 & H3 & H4) Hk.
  assert (ascending (lg_entries (ring_own (Ring := log_ring) tid g)) /\
    Forall (fun e => e.1 <= last) (lg_entries (ring_own (Ring := log_ring) tid g)) /\
    (List.length (lg_entries (ring_own (Ring := log_ring) tid g)) <= k)%nat) as (Ha & Hf & Hn).
  { simpl. destruct (lg_tid g =? tid); [done|]. simpl. split; [by intros i j a b|]. split; [done|lia]. }
  pose proof (ring_rep_own tid r g H1) as Hr. set (g1 := @ring_own log_ring tid g) in *. clearbody g1.
  split; [|split; [|split]].
  - apply ring_rep_add; [done|lia].
  - by apply ascending_snoc.
  - simpl. apply Forall_app. split; [done|]. constructor; [simpl; lia|done].
  - simpl. rewrite length_app. simpl. lia.
Qed.

Lemma arrival_sim k now s s' e parsed floor :
  spdk_sim k now s s' -> Z.of_nat k < 2 ^ 64 -> spdk_arrival e s parsed floor = spdk_arrival e s' parsed floor.
Proof.
  intros Hs Hk. destruct (ss_recv _ _ _ _ Hs (e_cpu e)) as (H1 & H2 & _ & H4).
  unfold spdk_arrival. simpl. rewrite (ring_find_log _ _ _ _ H1 H2) by lia. done.
Qed.

Lemma handed_sim k now s s' e taken queued :
  spdk_sim k now s s' -> Z.of_nat k < 2 ^ 64 -> spdk_handed e s taken queued = spdk_handed e s' taken queued.
Proof.
  intros Hs Hk. destruct (ss_send _ _ _ _ Hs (e_cpu e)) as (H1 & H2 & _ & H4).
  unfold spdk_handed. simpl. rewrite (ring_find_log _ _ _ _ H1 H2) by lia. done.
Qed.

Lemma inc_sim k now s s' c d : spdk_sim k now s s' -> spdk_sim k now (p_inc s c d) (p_inc s' c d).
Proof. intros [H1 H2 H3 H4 H5 H6 H7 H8]. split; simpl; try done. by rewrite H2. Qed.

Lemma submit_host_sim k now s s' r : spdk_sim k now s s' -> spdk_sim k now (submit_host s r) (submit_host s' r).
Proof. intros [H1 H2 H3 H4 H5 H6 H7 H8]. apply inc_sim. split; simpl; try done. by rewrite H4. Qed.
Lemma submit_tgt_sim k now s s' r : spdk_sim k now s s' -> spdk_sim k now (submit_tgt s r) (submit_tgt s' r).
Proof. intros [H1 H2 H3 H4 H5 H6 H7 H8]. apply inc_sim. split; simpl; try done. by rewrite H5. Qed.

Lemma sim_later k now now' s s' : now <= now' -> spdk_sim k now s s' -> spdk_sim (S k) now' s s'.
Proof.
  intros Hn [H1 H2 H3 H4 H5 H6 H7 H8]. split; try done.
  - intros cpu. specialize (H6 cpu). lia.
  - intros cpu. eapply ring_sim_mono; [|reflexivity|apply H7]. lia.
  - intros cpu. eapply ring_sim_mono; [| |apply H8]; lia.
Qed.

Create HintDb spdk.
#[export] Hint Resolve inc_sim submit_host_sim submit_tgt_sim sim_later : spdk.

(** The done programs use the rings only through the two lookups. *)
Lemma times_h_sim k now s s' e st :
  spdk_sim k now s s' -> Z.of_nat k < 2 ^ 64 -> tcp_host_times e s st = tcp_host_times e s' st.
Proof. intros Hs Hk. unfold tcp_host_times. cbv zeta. by rewrite !(arrival_sim k now s s'). Qed.
Lemma times_t_sim k now s s' e st :
  spdk_sim k now s s' -> Z.of_nat k < 2 ^ 64 -> tcp_tgt_times e s st = tcp_tgt_times e s' st.
Proof.
  intros Hs Hk. unfold tcp_tgt_times. cbv zeta. by rewrite !(arrival_sim k now s s'), !(handed_sim k now s s').
Qed.

Ltac done_sim Hs :=
  cbv zeta; rewrite ?(ss_armed _ _ _ _ Hs); repeat case_match;
  try (erewrite times_h_sim by eauto 8 with spdk); try (erewrite times_t_sim by eauto 8 with spdk); eauto 8 with spdk.

Lemma done_sim filter o k now s s' K e U cmd qid cntlid times :
  spdk_sim k now s s' -> Z.of_nat k < 2 ^ 64 ->
  spdk_sim k now (spdk_step filter o K e s (EvDone U cmd qid cntlid times))
    (spdk_step filter o K e s' (EvDone U cmd qid cntlid times)).
Proof.
  intros Hs Hk. destruct o; cbn [spdk_step].
  - unfold ntp_u_nvme_tcp_done, count_estimate. done_sim Hs.
  - unfold ntp_u_nvmf_tcp_done. done_sim Hs.
  - unfold ntp_u_nvme_rdma_done, count_estimate. done_sim Hs.
  - unfold ntp_u_nvmf_rdma_done. done_sim Hs.
Qed.

Lemma recvmsg_sim filter k now s s' e :
  spdk_sim k now s s' -> now <= e_now e -> spdk_sim (S k) (e_now e) (spdk_recvmsg filter e s) (spdk_recvmsg filter e s').
Proof.
  intros Hs Hn. apply (sim_later _ _ _ _ _ Hn) in Hs. unfold spdk_recvmsg. destruct (_ || _); [done|].
  destruct Hs as [H1 H2 H3 H4 H5 H6 H7 H8]. split; simpl; try done.
  - by rewrite H3.
  - intros cpu. unfold arr_set. destruct (cpu =? e_cpu e); simpl; [lia|apply H6].
  - intros cpu. unfold arr_set. destruct (cpu =? e_cpu e); simpl; [|apply H7].
    eapply ring_sim_mono; [reflexivity|apply H6|apply H7].
Qed.

Lemma copy_sim filter k now s s' K e skb :
  spdk_sim k now s s' -> now <= e_now e -> Z.of_nat k < 2 ^ 64 - 1 ->
  spdk_sim (S k) (e_now e) (spdk_copy filter K e s skb) (spdk_copy filter K e s' skb).
Proof.
  intros Hs Hn Hk. pose proof (ss_recv _ _ _ _ Hs (e_cpu e)) as Hr.
  apply (sim_later _ _ _ _ _ Hn) in Hs. destruct Hs as [H1 H2 H3 H4 H5 H6 H7 H8].
  unfold spdk_copy. cbv zeta. rewrite <- H3. destruct (_ || _); [by split|].
  split; simpl; try done.
  - by rewrite H3.
  - intros cpu. unfold arr_set. destruct (Z.eqb_spec cpu (e_cpu e)) as [->|]; simpl; apply H6.
  - intros cpu. unfold arr_set. destruct (Z.eqb_spec cpu (e_cpu e)) as [->|]; simpl; [|apply H7].
    exact (ring_sim_append k _ (e_tid e) _ _ _ Hr Hk).
Qed.

Lemma sendmsg_sim filter k now s s' e :
  spdk_sim k now s s' -> now <= e_now e -> Z.of_nat k < 2 ^ 64 - 1 ->
  spdk_sim (S k) (e_now e) (spdk_sendmsg filter e s) (spdk_sendmsg filter e s').
Proof.
  intros Hs Hn Hk. pose proof (ss_send _ _ _ _ Hs (e_cpu e)) as Hr.
  apply (sim_later _ _ _ _ _ Hn) in Hs. unfold spdk_sendmsg. destruct (_ || _); [done|].
  destruct Hs as [H1 H2 H3 H4 H5 H6 H7 H8]. split; simpl; try done.
  intros cpu. unfold arr_set. destruct (Z.eqb_spec cpu (e_cpu e)) as [->|]; [|apply H8].
  apply ring_sim_append; [|done]. eapply ring_sim_mono; [reflexivity|exact Hn|exact Hr].
Qed.

Lemma step_sim filter o k now s s' K e ev :
  spdk_sim k now s s' -> now <= e_now e -> Z.of_nat k < 2 ^ 64 - 1 ->
  spdk_sim (S k) (e_now e) (spdk_step filter o K e s ev) (spdk_step filter o K e s' ev).
Proof.
  intros Hs Hn Hk. assert (spdk_sim (S k) (e_now e) s s') as Hs' by (by apply (sim_later k now)).
  destruct ev as [|skb| |U cmd qid cntlid times|on].
  - destruct o; simpl; (done || by apply (recvmsg_sim filter k now)).
  - destruct o; simpl; (done || by apply (copy_sim filter k now)).
  - destruct o; simpl; (done || by apply (sendmsg_sim filter k now)).
  - apply done_sim; [done|lia].
  - destruct Hs' as [H1 H2 H3 H4 H5 H6 H7 H8]. by split.
Qed.

(** The clock does not run backwards. *)
Fixpoint clock_ok (now : Z) (tr : list (kernel * env * spdk_ev)) : Prop :=
  match tr with
  | [] => True
  | (_, e, _) :: tr => now <= e_now e /\ clock_ok (e_now e) tr
  end.

Lemma run_sim filter o tr k now s s' :
  spdk_sim k now s s' -> clock_ok now tr -> Z.of_nat k + Z.of_nat (List.length tr) < 2 ^ 64 ->
  exists now', spdk_sim (k + List.length tr) now' (spdk_run filter o s tr) (spdk_run filter o s' tr).
Proof.
  revert k now s s'. induction tr as [|[[K e] ev] tr IH]; intros k now s s' Hs Hc Hl.
  - exists now. by rewrite Nat.add_0_r.
  - destruct Hc as [Hn Hc]. cbn [spdk_run List.length] in *.
    replace (k + S (List.length tr))%nat with (S k + List.length tr)%nat by lia.
    apply (IH (S k) (e_now e)); [|done|lia]. apply (step_sim filter o k now); [done..|lia].
Qed.

Lemma init_sim : spdk_sim 0 0 (spdk_init (R := array_ring)) (spdk_init (R := log_ring)).
Proof.
  assert (forall last, ring_sim 0 last (ring_fresh (Ring := array_ring)) (ring_fresh (Ring := log_ring))) as Hf.
  { intros last. split; [by split|]. by split; [intros i j a b|]. }
  split; intros; try done; simpl; try lia; apply Hf.
Qed.

(** What a lookup gives up by looking at the last 512 entries only: it gives what a search
    of everything the thread appended since it took the slot gives, or 0, no time at all,
    when the entry it would find has been overwritten. *)
Lemma recent_or_none tid g x :
  log_find tid g x = default 0 (snd <$> last (filter (fun e => e.1 <= x) (lg_entries g))) \/
  (log_find tid g x = 0 /\ (lg_tid g <> tid \/ x = 0 \/ Forall (fun e => x < e.1) (recent (lg_entries g)))).
Proof.
  unfold log_find. destruct (Z.eqb_spec (lg_tid g) tid); cbn [negb orb]; [|right; by auto].
  destruct (nz x) eqn:Ex; cbn [negb]; [|right; split; [done|]; right; left; by apply nz_false].
  destruct (filter (fun e => e.1 <= x) (recent (lg_entries g))) as [|e0 l] eqn:Ef.
  - right. split; [done|]. right. right. apply Forall_forall. intros e1 He. destruct (decide (e1.1 <= x)); [|lia]. exfalso.
    assert (e1 ∈ filter (fun e => e.1 <= x) (recent (lg_entries g))) as Hin by (by apply list_elem_of_filter). rewrite Ef in Hin. by apply elem_of_nil in Hin.
  - left. replace (lg_entries g) with (take (List.length (lg_entries g) - Z.to_nat SPDK_RING) (lg_entries g) ++ recent (lg_entries g))
      at 1 by apply take_drop.
    rewrite filter_app, Ef. by rewrite last_app_cons.
Qed.

(** C21: what the per-thread rings are.  Run an SPDK object on any sequence of
    kernel hooks and finished commands, on any CPUs and threads, as long as the
    clock does not run backwards: it emits exactly the records, and counts
    exactly what it counts, when each ring is replaced by the list of what its thread
    appended since it took the CPU's slot, and a lookup scans the last 512 entries of it
    one by one for the latest at or before the time asked for.  So ten halvings are
    enough and the search never reads a slot of an older round.  ([recent_or_none] says
    what the limit of 512 costs.) *)
Theorem spdk_rings_refine (filter : ntp_filter) (o : spdk_obj) (tr : list (kernel * env * spdk_ev)) :
  clock_ok 0 tr -> Z.of_nat (List.length tr) < 2 ^ 64 ->
  p_hosts (spdk_run (R := array_ring) filter o spdk_init tr) = p_hosts (spdk_run (R := log_ring) filter o spdk_init tr) /\
  p_tgts (spdk_run (R := array_ring) filter o spdk_init tr) = p_tgts (spdk_run (R := log_ring) filter o spdk_init tr) /\
  p_cnt (spdk_run (R := array_ring) filter o spdk_init tr) = p_cnt (spdk_run (R := log_ring) filter o spdk_init tr).
Proof.
  intros Hc Hl. destruct (run_sim filter o tr 0 0 _ _ init_sim Hc) as [now' [H1 H2 H3 H4 H5 _ _ _]]; [lia|]. done.
Qed.

(** A read on an SPDK host: the packet that answers it is read at 950, having
    arrived at 900, and the answer is parsed at 955. *)
Definition spdk_filter : ntp_filter := mk_filter 1 2 0 0 0 0 0 [] [] 0 0 1 [7].
Definition spdk_user : user :=
  mk_user (fun _ => Some (mk_nvme_cmd NTP_NVME_CMD_READ 5 1 4096 7 4096))
    (fun _ => Some (mk_spdk_times [810; 812; 0; 0; 0; 955; 0; 960; 0; 0] 0 0 0)).
Definition spdk_trace : list (kernel * env * spdk_ev) :=
  let K := sample_kernel in
  let e now := mk_env 0 (Z.shiftl 7 32 + 9) now false [] in
  [(K, e 5, EvArm true); (K, e 950, EvRecvmsg); (K, e 951, EvCopy 1); (K, e 961, EvDone spdk_user 1 2 3 4)].

Lemma spdk_rings_refine_witness :
  (fun r => hts r NTP_H_C2H_ARR) <$> p_hosts (spdk_run (R := array_ring) spdk_filter SpdkTcpHost spdk_init spdk_trace)
    = [900] /\
  p_hosts (spdk_run (R := array_ring) spdk_filter SpdkTcpHost spdk_init spdk_trace) =
  p_hosts (spdk_run (R := log_ring) spdk_filter SpdkTcpHost spdk_init spdk_trace).
Proof.
  split; [vm_compute; reflexivity|]. apply (spdk_rings_refine spdk_filter SpdkTcpHost spdk_trace); [|simpl; lia].
  simpl. lia.
Defined.

(** ** The books of an SPDK object *)

(** What every emitted record satisfies: it passes the filters, says that it is
    SPDK's, and shows no time in a block layer. *)
Definition spdk_host_ok (filter : ntp_filter) (r : ntp_host_rec) : Prop :=
  let w := opcode (h_id r) =? NTP_NVME_CMD_WRITE in
  ntp_is_rw (opcode (h_id r)) = true /\ has (flags (h_hdr r)) NTP_F_WRITE = w /\
  has (flags (h_hdr r)) NTP_F_SPDK = true /\ spdk_selected filter (h_id r) (h_bytes r) w = true /\
  (f_nsid filter = 0 \/ nsid (h_id r) = f_nsid filter) /\
  hts r NTP_H_START = hts r NTP_H_QUEUE_RQ /\ hts r NTP_H_RSP_PROC = hts r NTP_H_BLK_DONE.

Definition spdk_tgt_ok (filter : ntp_filter) (r : ntp_tgt_rec) : Prop :=
  let w := opcode (t_id r) =? NTP_NVME_CMD_WRITE in
  ntp_is_rw (opcode (t_id r)) = true /\ has (flags (t_hdr r)) NTP_F_WRITE = w /\
  has (flags (t_hdr r)) NTP_F_SPDK = true /\ spdk_selected filter (t_id r) (t_bytes r) w = true /\
  tts r NTP_T_BE_ISSUE = 0 /\ tts r NTP_T_BE_DONE = 0.

Record spdk_books `{Ring} (filter : ntp_filter) (s : spdk_st) : Prop := {
  sb_sampled : p_cnt s NTP_CNT_HOST_SAMPLED + p_cnt s NTP_CNT_TGT_SAMPLED ≡₆₄
    Z.of_nat (List.length (p_hosts s)) + Z.of_nat (List.length (p_tgts s)) + p_cnt s NTP_CNT_RB_DROPS;
  sb_hosts_n : p_cnt s NTP_CNT_HOST_EMITTED ≡₆₄ Z.of_nat (List.length (p_hosts s));
  sb_tgts_n : p_cnt s NTP_CNT_TGT_EMITTED ≡₆₄ Z.of_nat (List.length (p_tgts s));
  sb_hosts : Forall (spdk_host_ok filter) (p_hosts s);
  sb_tgts : Forall (spdk_tgt_ok filter) (p_tgts s)
}.

Section Books.
  Context `{R : Ring}.
  Variable filter : ntp_filter.

Definition book_counter (c : ntp_counter) : bool :=
  match c with
  | NTP_CNT_HOST_SAMPLED | NTP_CNT_TGT_SAMPLED | NTP_CNT_RB_DROPS | NTP_CNT_HOST_EMITTED | NTP_CNT_TGT_EMITTED => true
  | _ => false
  end.

Lemma books_other s c d : book_counter c = false -> spdk_books filter s -> spdk_books filter (p_inc s c d).
Proof.
  intros Hc [H1 H2 H3 H4 H5]. split; simpl; try done;
    rewrite !ntp_count_ne by (intros ->; discriminate); done.
Qed.

Lemma books_estimate s w b : spdk_books filter s -> spdk_books filter (count_estimate filter s w b).
Proof. intros H. unfold count_estimate. destruct w; apply books_other, books_other; done. Qed.

(** A command is sampled: its record is emitted or dropped. *)
Lemma books_host s (full : bool) r :
  spdk_books filter s -> spdk_host_ok filter r ->
  spdk_books filter (let s := p_inc s NTP_CNT_HOST_SAMPLED 1 in
                     if full then p_inc s NTP_CNT_RB_DROPS 1 else submit_host s r).
Proof.
  intros [H1 H2 H3 H4 H5] Hr. destruct full; (split; [..|]); simpl; count_simp; try done;
    rewrite ?length_app; simpl; rewrite ?Nat2Z.inj_add; try cong_from.
  apply Forall_app. by split; [|constructor].
Qed.

Lemma books_tgt s (full : bool) r :
  spdk_books filter s -> spdk_tgt_ok filter r ->
  spdk_books filter (let s := p_inc s NTP_CNT_TGT_SAMPLED 1 in
                     if full then p_inc s NTP_CNT_RB_DROPS 1 else submit_tgt s r).
Proof.
  intros [H1 H2 H3 H4 H5] Hr. destruct full; (split; [..|]); simpl; count_simp; try done;
    rewrite ?length_app; simpl; rewrite ?Nat2Z.inj_add; try cong_from.
  apply Forall_app. by split; [|constructor].
Qed.

Lemma tcp_host_flags_has st w :
  has (tcp_host_flags st w) NTP_F_WRITE = w /\ has (tcp_host_flags st w) NTP_F_SPDK = true.
Proof.
  unfold tcp_host_flags, flag_if. cbv zeta. destruct w, (nz (at_ st (sh_idx SPDK_H_R2T))), (1 <? st_r2ts st),
    (nz (at_ st (sh_idx SPDK_H_C2H))), (nz (at_ st (sh_idx SPDK_H_RSP))); done.
Qed.
Lemma tcp_tgt_flags_has st w :
  has (tcp_tgt_flags st w) NTP_F_WRITE = w /\ has (tcp_tgt_flags st w) NTP_F_SPDK = true.
Proof.
  unfold tcp_tgt_flags, flag_if. cbv zeta.
  destruct w, (nz _), (1 <? st_r2ts st), (has (st_flags st) _); done.
Qed.
Lemma rdma_tgt_flags_has st w :
  has (rdma_tgt_flags st w) NTP_F_WRITE = w /\ has (rdma_tgt_flags st w) NTP_F_SPDK = true.
Proof. unfold rdma_tgt_flags. destruct w; [destruct (nz _)|]; done. Qed.

(** The filters at the start of the programs, in one. *)
Lemma nsid_ok id : nz (f_nsid filter) && negb (nsid id =? f_nsid filter) = false ->
  f_nsid filter = 0 \/ nsid id = f_nsid filter.
Proof.
  rewrite andb_false_iff, nz_false, negb_false_iff, Z.eqb_eq. done.
Qed.

(** The early returns every done program starts with. *)
Ltac spdk_guards id bytes st Hrw :=
  match goal with |- context [p_armed ?s] => destruct (p_armed s); [|done] end; cbn [negb];
  match goal with |- context [spdk_read_cmd ?U ?c] => destruct (spdk_read_cmd U c) as [[id bytes]|]; [|done] end;
  destruct (ntp_is_rw (opcode id)) eqn:Hrw; [|done]; cbn [negb];
  match goal with |- context [u_times ?U ?t] => destruct (u_times U t) as [st|]; [|done] end; cbv zeta.

Lemma spdk_step_books o K e s ev : spdk_books filter s -> spdk_books filter (spdk_step filter o K e s ev).
Proof.
  intros Hb. destruct ev as [|skb| |U cmd qid cntlid times|on].
  - destruct o; simpl; try done; unfold spdk_recvmsg; destruct (_ || _); [done| |done|]; by destruct Hb; split.
  - destruct o; simpl; try done; unfold spdk_copy; cbv zeta; destruct (_ || _); [done| |done|]; by destruct Hb; split.
  - destruct o; simpl; try done; unfold spdk_sendmsg; destruct (_ || _); [done|]; by destruct Hb; split.
  - destruct o; cbn [spdk_step].
    + unfold ntp_u_nvme_tcp_done. spdk_guards i bs st Hrw. apply (books_estimate s (opcode i =? NTP_NVME_CMD_WRITE) bs) in Hb.
      destruct (spdk_selected filter i bs _) eqn:Hsel; cbn [negb]; [|done].
      destruct (nz (f_nsid filter) && _) eqn:Hns; [done|]. apply nsid_ok in Hns.
      apply books_host; [done|]. destruct (tcp_host_flags_has st (opcode i =? NTP_NVME_CMD_WRITE)).
      repeat (split; [done|]). done.
    + unfold ntp_u_nvmf_tcp_done. spdk_guards i bs st Hrw. apply (books_other s NTP_CNT_TGT_CMDS (sample_every filter) eq_refl) in Hb.
      destruct (spdk_selected filter i bs _) eqn:Hsel; cbn [negb]; [|done].
      apply books_tgt; [done|]. destruct (tcp_tgt_flags_has st (opcode i =? NTP_NVME_CMD_WRITE)).
      repeat (split; [done|]). done.
    + unfold ntp_u_nvme_rdma_done. spdk_guards i bs st Hrw. apply (books_estimate s (opcode i =? NTP_NVME_CMD_WRITE) (st_bytes st)) in Hb.
      destruct (spdk_selected filter i _ _) eqn:Hsel; cbn [negb]; [|done].
      destruct (nz (f_nsid filter) && _) eqn:Hns; [done|]. apply nsid_ok in Hns.
      apply books_host; [done|]. unfold spdk_host_ok. simpl.
      repeat (split; [by destruct (opcode i =? NTP_NVME_CMD_WRITE)|]). done.
    + unfold ntp_u_nvmf_rdma_done. spdk_guards i bs st Hrw. apply (books_other s NTP_CNT_TGT_CMDS (sample_every filter) eq_refl) in Hb.
      destruct (spdk_selected filter i _ _) eqn:Hsel; cbn [negb]; [|done].
      apply books_tgt; [done|]. destruct (rdma_tgt_flags_has st (opcode i =? NTP_NVME_CMD_WRITE)).
      unfold rdma_tgt_times. destruct (opcode i =? NTP_NVME_CMD_WRITE) eqn:Ew; unfold spdk_tgt_ok; simpl; rewrite Ew;
        repeat (split; [done|]); done.
  - by destruct Hb; split.
Qed.

Lemma spdk_run_books o tr s : spdk_books filter s -> spdk_books filter (spdk_run filter o s tr).
Proof.
  revert s. induction tr as [|[[K e] ev] tr IH]; intros s Hb; [done|]. simpl. apply IH. by apply spdk_step_books.
Qed.

Lemma spdk_init_books : spdk_books filter spdk_init.
Proof. split; simpl; done. Qed.

End Books.

(** C35: an SPDK object accounts for every command.  After any sequence of hooks
    and finished commands: the commands sampled are the records emitted and the
    records dropped for lack of room; the emitted counters are the records in the
    ring buffer; and every record passes the filters, is marked as SPDK's and as
    a read or a write by its opcode. *)
Theorem spdk_object_books (filter : ntp_filter) (o : spdk_obj) (tr : list (kernel * env * spdk_ev)) :
  spdk_books filter (spdk_run (R := array_ring) filter o spdk_init tr).
Proof. apply spdk_run_books, spdk_init_books. Qed.

(** ** SPDK has no block layer *)

(** The host's part of a breakdown when the command starts as it is queued and
    ends as its response is processed. *)
Lemma host_part_no_block h :
  hts h NTP_H_START = hts h NTP_H_QUEUE_RQ -> hts h NTP_H_RSP_PROC = hts h NTP_H_BLK_DONE ->
  hts h NTP_H_QUEUE_RQ <> 0 ->
  comp (host_part h) NTP_C_BLK_SUB = 0 /\ comp (host_part h) NTP_C_BLK_CMPL = 0 /\
  ntp_comp_valid (host_part h) NTP_C_BLK_SUB = true /\ ntp_comp_valid (host_part h) NTP_C_BLK_CMPL = true.
Proof.
  intros Hs Hd Hq.
  assert (forall b, comp (common_host h b) NTP_C_BLK_SUB = 0 /\ comp (common_host h b) NTP_C_BLK_CMPL = 0 /\
    ntp_comp_valid (common_host h b) NTP_C_BLK_SUB = true /\ ntp_comp_valid (common_host h b) NTP_C_BLK_CMPL = true) as Hc.
  { intros b. unfold common_host. cbv zeta. rewrite Hs, Hd, (proj2 (nz_true _) Hq), Z.leb_refl. cbn [andb].
    assert (forall x, d x x = 0) as Hdd by (intros x; unfold d; rewrite Z.sub_diag; done).
    destruct (nz (hts h NTP_H_NVME_DONE)); comp_simp; rewrite !Hdd; done. }
  specialize (Hc (start_of h)). unfold host_part, rdma_host_side, host_side, read_data_phase. cbv zeta.
  rewrite common_host_io_class.
  destruct (is_rdma h); [by comp_simp|]. destruct (io_class (start_of h)); [|by comp_simp|by comp_simp].
  destruct (data_phase _ _ _ _ _ _ _) as [[] b'] eqn:E;
    pose proof (data_phase_comp _ _ _ _ _ _ _ _ _ NTP_C_BLK_SUB E ltac:(done) ltac:(done)) as [E1 E2];
    pose proof (data_phase_comp _ _ _ _ _ _ _ _ _ NTP_C_BLK_CMPL E ltac:(done) ltac:(done)) as [E3 E4];
    comp_simp; rewrite E1, E2, E3, E4; by comp_simp.
Qed.

Lemma usable_queue_rq h : host_usable h = true -> hts h NTP_H_QUEUE_RQ <> 0.
Proof.
  unfold host_usable, host_complete. intros H. apply nz_true.
  destruct (is_rdma h); [|destruct (ntp_io_class_of h)]; simpl in H; by apply andb_prop in H as [H _].
Qed.

(** An SPDK host spends nothing in a block layer.  For every host record an
    SPDK object emits, in any run, with any target record or none: when the
    record has its events, the breakdown has the host block layer stage and it is
    exactly 0, so the whole latency is in the driver, the network and the target,
    and the end-to-end time runs from the command's submission. *)
Theorem spdk_no_block_layer (filter : ntp_filter) (o : spdk_obj) (tr : list (kernel * env * spdk_ev))
    (h : ntp_host_rec) (t : option ntp_tgt_rec) err b :
  h ∈ p_hosts (spdk_run (R := array_ring) filter o spdk_init tr) ->
  ntp_breakdown h t = (err, b) -> err <> NTP_MODEL_INCOMPLETE_HOST ->
  ntp_stage_valid b NTP_S1 = true /\ b_stage b NTP_S1 = 0.
Proof.
  intros Hin Hb Herr.
  assert (spdk_host_ok filter h) as (_ & _ & _ & _ & _ & Hs & Hd).
  { pose proof (spdk_run_books filter o tr spdk_init (spdk_init_books (R := array_ring) filter)) as [_ _ _ Hh _].
    by apply (proj1 (Forall_forall _ _) Hh). }
  assert (forall b', stage_valid b' = 0 -> comp b' NTP_C_BLK_SUB = 0 -> comp b' NTP_C_BLK_CMPL = 0 ->
    ntp_comp_valid b' NTP_C_BLK_SUB = true -> ntp_comp_valid b' NTP_C_BLK_CMPL = true ->
    ntp_stage_valid (stages b') NTP_S1 = true /\ b_stage (stages b') NTP_S1 = 0) as Hst.
  { intros b' H0 C1 C2 V1 V2. destruct (stages_spec b' NTP_S1 H0) as [Hv Hsum].
    assert (stage_has b' NTP_S1 = true) as Hh by (unfold stage_has; simpl; by rewrite V1, V2).
    rewrite Hv, Hsum by done. split; [done|]. unfold terms. cbn [stage_parts stage_extras foldr]. rewrite !main_term_valid by done. rewrite C1, C2. done. }
  apply breakdown_shape_of in Hb. destruct Hb as [| Hu|t' Hu|t' b' Hu Hsp]; [done|..];
    destruct (host_part_no_block h Hs Hd (usable_queue_rq h Hu)) as (C1 & C2 & V1 & V2).
  - apply Hst; try done. apply host_part_stage_valid.
  - apply Hst; try done. apply host_part_stage_valid.
  - destruct (split_frame _ _ _ NTP_C_BLK_SUB Hsp eq_refl) as [F1 F2].
    destruct (split_frame _ _ _ NTP_C_BLK_CMPL Hsp eq_refl) as [F3 F4].
    apply Hst; [by eapply split_stage_valid|congruence..].
Qed.

(** The read above: 0 in the block layer, 150 ns in all. *)
Lemma spdk_no_block_layer_witness :
  exists h, p_hosts (spdk_run (R := array_ring) spdk_filter SpdkTcpHost spdk_init spdk_trace) = [h] /\
    (ntp_breakdown h None).1 = NTP_MODEL_OK /\ comp (ntp_breakdown h None).2 NTP_C_E2E = 150 /\
    b_stage (ntp_breakdown h None).2 NTP_S1 = 0.
Proof.
  pose (hs := p_hosts (spdk_run (R := array_ring) spdk_filter SpdkTcpHost spdk_init spdk_trace)).
  assert (hs = [default zero_host_rec (head hs)]) as E by (vm_compute; reflexivity).
  exists (default zero_host_rec (head hs)). split; [exact E|].
  assert ((ntp_breakdown (default zero_host_rec (head hs)) None).1 = NTP_MODEL_OK) as H1 by (vm_compute; reflexivity).
  split; [exact H1|]. split; [vm_compute; reflexivity|].
  destruct (ntp_breakdown (default zero_host_rec (head hs)) None) as [err b] eqn:Eb.
  refine (proj2 (spdk_no_block_layer spdk_filter SpdkTcpHost spdk_trace (default zero_host_rec (head hs)) None err b _ Eb _)).
  - change (default zero_host_rec (head hs) ∈ hs). rewrite E. apply list_elem_of_here.
  - simpl in H1. rewrite H1. discriminate.
Defined.
