(* ===== verification/Interleave.v ===== *)
(** * Hooks that run at the same time

    BPF programs run on all CPUs at once, without locks.  Here a hook is a program of
    single accesses to the object's memory, [prog]: to a location (a field of a slot or a
    context of a CPU), to the per-CPU counters and the ring buffer, to the count of records
    in flight.  [exec] interleaves the accesses of any number of hooks.  [interleaved_atomic]
    shows, for every object that implements [Shared] and [Hooks], that hooks which run at
    the same time on different locations come to what they come to one after the other. *)
From stdpp Require Import base numbers list sets.
From Stdlib Require Import ZArith Lia.
From S2P Require Import Prelude.

(** ** Programs of single accesses *)

Section Programs.
  Context {loc : Type} {val : loc -> Type} {fx conf : Type}.

Inductive prog :=
  | Ret
  | Rd (l : loc) (k : val l -> prog)             (* read a location *)
  | Up (l : loc) (f : val l -> val l) (k : prog) (* store to it, or to a part of it *)
  | Fx (x : fx) (k : prog)                       (* count or emit *)
  | Add (d : Z) (k : prog)                       (* __sync_fetch_and_add(&ntp_inflight, d) *)
  | Busy (k : bool -> prog)                      (* is ntp_inflight not 0? *)
  | Conf (k : conf -> prog).                     (* what user space set *)

(** No access to the count of records in flight is to come. *)
Fixpoint silent (p : prog) : Prop :=
  match p with
  | Ret => True
  | Rd l k => forall v, silent (k v)
  | Up _ _ k | Fx _ k => silent k
  | Conf k => forall c, silent (k c)
  | Add _ _ | Busy _ => False
  end.

(** At most one such access is to come, whatever is read. *)
Fixpoint simple (p : prog) : Prop :=
  match p with
  | Ret => True
  | Rd l k => forall v, simple (k v)
  | Up _ _ k | Fx _ k => simple k
  | Conf k => forall c, simple (k c)
  | Add _ k => silent k
  | Busy k => forall b, silent (k b)
  end.

Lemma silent_simple p : silent p -> simple p.
Proof. induction p; simpl; try done; auto. Qed.

End Programs.

Arguments prog {_} _ _ _.

(** ** Memory *)

(** What an object's state is made of: locations, a ledger of what was counted and
    emitted, in whatever order, the count of records in flight, and what stays as it is. *)
Class Shared (St loc : Type) (val : loc -> Type) (fx conf ledger : Type) := {
  loc_eq_dec :: EqDecision loc;
  get : forall l, St -> val l;
  upd : forall l, (val l -> val l) -> St -> St;
  emit : fx -> St -> St;
  led : St -> ledger;
  post : fx -> ledger -> ledger;
  gauge : St -> Z;
  gadd : Z -> St -> St;
  conf_of : St -> conf;
  led_equiv :: Equiv ledger;
  led_equivalence :: Equivalence (≡@{ledger});
  post_proper x :: Proper ((≡) ==> (≡@{ledger})) (post x);
  post_comm x y L : post x (post y L) ≡ post y (post x L);
  get_upd_eq l f s : get l (upd l f s) = f (get l s);
  get_upd_ne l l' f s : l <> l' -> get l' (upd l f s) = get l' s;
  get_emit l x s : get l (emit x s) = get l s;
  get_gadd l d s : get l (gadd d s) = get l s;
  led_upd l f s : led (upd l f s) = led s;
  led_emit x s : led (emit x s) = post x (led s);
  led_gadd d s : led (gadd d s) = led s;
  gauge_upd l f s : gauge (upd l f s) = gauge s;
  gauge_emit x s : gauge (emit x s) = gauge s;
  gauge_gadd d s s' : gauge s = gauge s' -> gauge (gadd d s) = gauge (gadd d s');
  conf_upd l f s : conf_of (upd l f s) = conf_of s;
  conf_emit x s : conf_of (emit x s) = conf_of s;
  conf_gadd d s : conf_of (gadd d s) = conf_of s
}.

Create Rewrite HintDb mem.
#[export] Hint Rewrite @get_upd_eq @get_emit @get_gadd @led_upd @led_emit @led_gadd @gauge_upd @gauge_emit
  @conf_upd @conf_emit @conf_gadd : mem.

Section Solo.
  Context {St loc : Type} {val : loc -> Type} {fx conf ledger : Type} `{M : Shared St loc val fx conf ledger}.
  Abbreviation prog := (prog val fx conf).
  Implicit Types (p : prog) (s a : St) (l : loc).

(** States that hold the same: the order of what was counted and emitted is left open. *)
#[global] Instance st_equiv : Equiv St := fun s s' =>
  (forall l, get l s = get l s') /\ led s ≡ led s' /\ gauge s = gauge s' /\ conf_of s = conf_of s'.

#[global] Instance st_equivalence : Equivalence (≡@{St}).
Proof.
  split.
  - intros s. by split_and!.
  - intros s1 s2 (?&?&?&?). by split_and!.
  - intros s1 s2 s3 (?&?&?&?) (?&?&?&?). split_and!; [|by etransitivity|congruence..].
    intros l. by transitivity (get l s2).
Qed.

(** *** One access, and a hook that runs alone *)

Definition step p s : St * prog :=
  match p with
  | Ret => (s, Ret)
  | Rd l k => (s, k (get l s))
  | Up l f k => (upd l f s, k)
  | Fx x k => (emit x s, k)
  | Add d k => (gadd d s, k)
  | Busy k => (s, k (nz (gauge s)))
  | Conf k => (s, k (conf_of s))
  end.

Fixpoint run p s : St :=
  match p with
  | Ret => s
  | Rd l k => run (k (get l s)) s
  | Up l f k => run k (upd l f s)
  | Fx x k => run k (emit x s)
  | Add d k => run k (gadd d s)
  | Busy k => run (k (nz (gauge s))) s
  | Conf k => run (k (conf_of s)) s
  end.

(** The locations it accesses, whether or not records are in flight. *)
Fixpoint touched p s : list loc :=
  match p with
  | Ret => []
  | Rd l k => l :: touched (k (get l s)) s
  | Up l f k => l :: touched k (upd l f s)
  | Fx x k => touched k (emit x s)
  | Add d k => touched k (gadd d s)
  | Busy k => touched (k true) s ++ touched (k false) s
  | Conf k => touched (k (conf_of s)) s
  end.

(** What it counts and emits. *)
Fixpoint fxs p s : list fx :=
  match p with
  | Ret => []
  | Rd l k => fxs (k (get l s)) s
  | Up l f k => fxs k (upd l f s)
  | Fx x k => x :: fxs k (emit x s)
  | Add d k => fxs k (gadd d s)
  | Busy k => fxs (k (nz (gauge s))) s
  | Conf k => fxs (k (conf_of s)) s
  end.

Definition posts (xs : list fx) (L : ledger) : ledger := foldl (fun L x => post x L) L xs.

Lemma run_step p s : run (step p s).2 (step p s).1 = run p s.
Proof. by destruct p. Qed.

Lemma touched_step p s : touched (step p s).2 (step p s).1 ⊆ touched p s.
Proof. destruct p; simpl; try set_solver. destruct (nz (gauge s)); set_solver. Qed.

(** *** The same on all the locations that matter *)

Definition agree (F : list loc) s s' : Prop := (forall l, l ∈ F -> get l s = get l s') /\ conf_of s = conf_of s'.

Lemma agree_sub F F' s s' : F ⊆ F' -> agree F' s s' -> agree F s s'.
Proof. intros HF [H1 H2]. split; [|done]. intros l Hl. apply H1. set_solver. Qed.

Lemma agree_sym F s s' : agree F s s' -> agree F s' s.
Proof. intros [H1 H2]. split; [|done]. intros l Hl. symmetry. auto. Qed.

Lemma get_upd_same l l' f s s' : get l' s = get l' s' -> get l' (upd l f s) = get l' (upd l f s').
Proof.
  intros H. destruct (decide (l = l')) as [<-|]; [|by rewrite !get_upd_ne].
  by rewrite !get_upd_eq, H.
Qed.

Lemma agree_upd F l f s s' : agree F s s' -> agree F (upd l f s) (upd l f s').
Proof.
  intros [H1 H2]. split; [|by rewrite !conf_upd]. intros l' Hl. by apply get_upd_same, H1.
Qed.
Lemma agree_emit F x s s' : agree F s s' -> agree F (emit x s) (emit x s').
Proof. intros [H1 H2]. split; [intros l Hl|]; autorewrite with mem; auto. Qed.
Lemma agree_gadd F d s s' : agree F s s' -> agree F (gadd d s) (gadd d s').
Proof. intros [H1 H2]. split; [intros l Hl|]; autorewrite with mem; auto. Qed.

Lemma agree_upd_other F l f s : l ∉ F -> agree F s (upd l f s).
Proof. intros Hl. split; [|by rewrite conf_upd]. intros l' Hl'. rewrite get_upd_ne; [done|]. by intros ->. Qed.
Lemma agree_emit_other F x s : agree F s (emit x s).
Proof. split; [intros l Hl|]; by autorewrite with mem. Qed.
Lemma agree_gadd_other F d s : agree F s (gadd d s).
Proof. split; [intros l Hl|]; by autorewrite with mem. Qed.

(** A hook is about the locations it touches. *)
Lemma touched_agree p s s' : agree (touched p s) s s' -> touched p s' = touched p s.
Proof.
  revert s s'. induction p as [|l k IH|l f k IH|x k IH|d k IH|k IH|k IH]; intros s s' Ha; simpl in *; [done|..].
  - destruct Ha as [H1 H2]. rewrite <- (H1 l) by by left. f_equal. apply IH. split; [|done]. set_solver.
  - f_equal. apply IH, agree_upd. eapply agree_sub; [|done]. set_solver.
  - by apply IH, agree_emit.
  - by apply IH, agree_gadd.
  - f_equal; apply IH; (eapply agree_sub; [|done]); set_solver.
  - destruct Ha as [H1 H2]. rewrite <- H2. by apply IH.
Qed.

Lemma silent_agree p s s' :
  silent p -> agree (touched p s) s s' ->
  fxs p s' = fxs p s /\ forall l, get l s = get l s' -> get l (run p s') = get l (run p s).
Proof.
  revert s s'. induction p as [|l k IH|l f k IH|x k IH|d k IH|k IH|k IH]; intros s s' Hp Ha; simpl in *; try done.
  - destruct Ha as [H1 H2]. rewrite <- (H1 l) by by left. apply IH; [done|]. split; [|done]. intros l' Hl'. apply H1. by right.
  - destruct (IH (upd l f s) (upd l f s')) as [Hf Hg]; [done|apply agree_upd; eapply agree_sub; [|done]; by right|].
    split; [done|]. intros l' Hl'. by apply Hg, get_upd_same.
  - destruct (IH (emit x s) (emit x s')) as [Hf Hg]; [done|by apply agree_emit|].
    split; [by f_equal|]. intros l' Hl'. apply Hg. by autorewrite with mem.
  - destruct Ha as [H1 H2]. rewrite <- H2. by apply IH.
Qed.

(** The rest of the memory stays as it is. *)
Lemma get_run p s l : l ∉ touched p s -> get l (run p s) = get l s.
Proof.
  revert s. induction p as [|l' k IH|l' f k IH|x k IH|d k IH|k IH|k IH]; intros s Hl; simpl in *; [done|..].
  - apply IH. intros ?. apply Hl. by right.
  - apply not_elem_of_cons in Hl as [Hn Hl]. rewrite IH, get_upd_ne by congruence. done.
  - rewrite IH by done. apply get_emit.
  - rewrite IH by done. apply get_gadd.
  - apply IH. destruct (nz (gauge s)); set_solver.
  - by apply IH.
Qed.

Lemma conf_run p s : conf_of (run p s) = conf_of s.
Proof.
  revert s. induction p as [|l' k IH|l' f k IH|x k IH|d k IH|k IH|k IH]; intros s; simpl; [done|..];
    rewrite IH; by autorewrite with mem.
Qed.

Lemma gauge_run p s : silent p -> gauge (run p s) = gauge s.
Proof.
  revert s. induction p as [|l' k IH|l' f k IH|x k IH|d k IH|k IH|k IH]; intros s Hp; simpl in *; try done;
    rewrite IH by done; by autorewrite with mem.
Qed.

Lemma led_run p s : led (run p s) = posts (fxs p s) (led s).
Proof.
  revert s. induction p as [|l' k IH|l' f k IH|x k IH|d k IH|k IH|k IH]; intros s; simpl; [done|..];
    rewrite IH; by autorewrite with mem.
Qed.

#[global] Instance posts_proper xs : Proper ((≡) ==> (≡)) (posts xs).
Proof. induction xs as [|x xs IH]; intros L L' HL; simpl; [done|]. apply IH. by rewrite HL. Qed.

Lemma posts_app xs ys L : posts (xs ++ ys) L = posts ys (posts xs L).
Proof. apply foldl_app. Qed.

Lemma posts_perm xs ys L : Permutation xs ys -> posts xs L ≡ posts ys L.
Proof.
  intros Hp. revert L. induction Hp as [|x xs ys Hp IH|x y xs|xs ys zs H1 IH1 H2 IH2]; intros L; simpl; [done|..].
  - apply IH.
  - apply posts_proper, post_comm.
  - by rewrite IH1.
Qed.

Lemma posts_swap xs ys L : posts xs (posts ys L) ≡ posts ys (posts xs L).
Proof. rewrite <- !posts_app. apply posts_perm, Permutation_app_comm. Qed.

#[global] Instance run_proper p : Proper ((≡) ==> (≡)) (run p).
Proof.
  induction p as [|l k IH|l f k IH|x k IH|d k IH|k IH|k IH]; intros s s' Hs; [done|..]; simpl;
    pose proof Hs as (H1 & H2 & H3 & H4).
  - rewrite (H1 l). by apply IH.
  - apply IH. split_and!; autorewrite with mem; try done. intros l'. by apply get_upd_same.
  - apply IH. split_and!; try intros l'; autorewrite with mem; try done. by rewrite H2.
  - apply IH. split_and!; try intros l'; autorewrite with mem; try done. by apply gauge_gadd.
  - rewrite H3. by apply IH.
  - rewrite H4. by apply IH.
Qed.

End Solo.

(** ** Hooks and their programs *)

(** An object's hooks: the program of each, and what it does when it runs as a whole.
    Where the program tests the count of records in flight only to stop early and accesses
    it again later, there must have been nothing to do. *)
Class Hooks (Hook : Type) {St loc : Type} {val : loc -> Type} {fx conf ledger : Type}
    `{M : Shared St loc val fx conf ledger} := {
  code : Hook -> prog val fx conf;
  whole : Hook -> St -> St;
  hook_ok : Hook -> Prop;
  good : St -> Prop;
  good_proper :: Proper ((≡) ==> iff) good;
  good_whole h s : hook_ok h -> good s -> good (whole h s);
  code_whole h : hook_ok h ->
    (simple (code h) /\ forall s, good s -> run (code h) s ≡ whole h s) \/
    (exists k, code h = Busy k /\ k false = Ret /\ simple (k true) /\
       (forall s, good s -> run (k true) s ≡ whole h s) /\
       (forall s, good s -> gauge s = 0 -> whole h s ≡ s))
}.

Section Pool.
  Context {Hook St loc : Type} {val : loc -> Type} {fx conf ledger : Type}
    `{M : Shared St loc val fx conf ledger} {HK : Hooks Hook}.
  Abbreviation prog := (prog val fx conf).

(** A hook under way: what is left of it, and the locations it is about until it ends. *)
Record thread := mk_thread { t_code : prog; t_fp : list loc }.

Definition under_way (p : prog) (F : list loc) : thread :=
  mk_thread p (match p with Ret => [] | _ => F end).

Inductive act :=
  | Start (h : Hook)
  | Step (i : nat). (* one access of the hook started as number [i] *)

Definition exec1 (c : St * list thread) (x : act) : St * list thread :=
  let '(s, ts) := c in
  match x with
  | Start h => (s, ts ++ [under_way (code h) (remove_dups (touched (code h) s))])
  | Step i =>
      match ts !! i with
      | None => c
      | Some t => let '(s, p) := step (t_code t) s in (s, <[i := under_way p (t_fp t)]> ts)
      end
  end.

Definition exec (c : St * list thread) (xs : list act) : St * list thread := foldl exec1 c xs.

(** A hook starts only when no hook under way is about a location of its. *)
Definition allowed (c : St * list thread) (x : act) : Prop :=
  match x with
  | Start h => hook_ok h /\ Forall (fun l => l ∉ touched (code h) c.1) (c.2 ≫= t_fp)
  | Step _ => True
  end.

Fixpoint race_free (c : St * list thread) (xs : list act) : Prop :=
  match xs with
  | [] => True
  | x :: xs => allowed c x /\ race_free (exec1 c x) xs
  end.

Definition started (xs : list act) : list Hook :=
  omap (fun x => match x with Start h => Some h | Step _ => None end) xs.

Definition finished (t : thread) : Prop := match t_code t with Ret => True | _ => False end.

(** The hooks numbered [order] one after the other. *)
Definition in_turn (hs : list Hook) (order : list nat) (s : St) : St :=
  foldl (fun s i => match hs !! i with Some h => whole h s | None => s end) s order.

(** ** Where a hook takes effect

    A hook takes effect when it accesses the count of records in flight, or else when it
    ends.  Until then ([Pend]) what it stored is pending; [Fresh] is a hook before a test
    that only stops it early.  [a] is the state of the hooks that took effect, each run as
    a whole. *)
Inductive eff := EUp (l : loc) (f : val l -> val l) | EFx (x : fx).

Definition app_eff (s : St) (e : eff) : St := match e with EUp l f => upd l f s | EFx x => emit x s end.
Definition effs (es : list eff) (s : St) : St := foldl app_eff s es.
Definition eff_fx (es : list eff) : list fx := omap (fun e => match e with EFx x => Some x | EUp _ _ => None end) es.

Definition solo (p : prog) (s : St) : option (list eff * prog) :=
  match p with
  | Rd l k => Some ([], k (get l s))
  | Up l f k => Some ([EUp l f], k)
  | Fx x k => Some ([EFx x], k)
  | Conf k => Some ([], k (conf_of s))
  | Ret | Add _ _ | Busy _ => None
  end.

(** [p0] alone from [s] comes to [p] with the stores [es]. *)
Inductive reaches (p0 : prog) (s : St) : list eff -> prog -> Prop :=
  | reaches_start : reaches p0 s [] p0
  | reaches_solo es p es' p' :
      reaches p0 s es p -> solo p (effs es s) = Some (es', p') -> reaches p0 s (es ++ es') p'.

Inductive phase := Comm | Pend (p0 : prog) (es : list eff) | Fresh.

Record entry := mk_entry { n_hook : Hook; n_thread : thread; n_phase : phase }.

Definition weak (h : Hook) (p : prog) : Prop :=
  exists k, p = Busy k /\ k false = Ret /\ simple (k true) /\
    (forall s, good s -> run (k true) s ≡ whole h s) /\
    (forall s, good s -> gauge s = 0 -> whole h s ≡ s).

Definition entry_ok (s a : St) (n : entry) : Prop :=
  let p := t_code (n_thread n) in
  let F := t_fp (n_thread n) in
  hook_ok (n_hook n) /\ touched p s ⊆ F /\
  match n_phase n with
  | Comm => silent p /\ forall l, l ∈ F -> get l (run p s) = get l a
  | Pend p0 es =>
      simple p /\ reaches p0 a es p /\ touched p0 a ⊆ F /\
      (forall x, good x -> run p0 x ≡ whole (n_hook n) x) /\
      forall l, l ∈ F -> get l s = get l (effs es a)
  | Fresh => weak (n_hook n) p /\ forall l, l ∈ F -> get l s = get l a
  end.

(** What is still to be counted and emitted, and what was too early. *)
Definition to_come (s : St) (n : entry) : list fx :=
  match n_phase n with Comm => fxs (t_code (n_thread n)) s | _ => [] end.
Definition early (n : entry) : list fx :=
  match n_phase n with Pend _ es => eff_fx es | _ => [] end.
Definition footprint (n : entry) : list loc := t_fp (n_thread n).

Record linked (s : St) (ns : list entry) (a : St) : Prop := {
  lk_good : good a;
  lk_gauge : gauge s = gauge a;
  lk_conf : conf_of s = conf_of a;
  lk_entries : Forall (entry_ok s a) ns;
  lk_disjoint : NoDup (ns ≫= footprint);
  lk_rest l : l ∉ (ns ≫= footprint) -> get l s = get l a;
  lk_led : posts (ns ≫= to_come s) (led s) ≡ posts (ns ≫= early) (led a)
}.


(** *** Pending stores *)

Lemma effs_app es es' s : effs (es ++ es') s = effs es' (effs es s).
Proof. apply foldl_app. Qed.

Lemma effs_agree F es s s' : agree F s s' -> agree F (effs es s) (effs es s').
Proof.
  revert s s'. induction es as [|[l f|x] es IH]; intros s s' Ha; simpl; [done|..].
  - by apply IH, agree_upd.
  - by apply IH, agree_emit.
Qed.

Lemma effs_keeps es s : gauge (effs es s) = gauge s /\ conf_of (effs es s) = conf_of s.
Proof.
  revert s. induction es as [|[l f|x] es IH]; intros s; simpl; [done|..];
    rewrite (proj1 (IH _)), (proj2 (IH _)); by autorewrite with mem.
Qed.

Lemma solo_run p s es p' : solo p s = Some (es, p') ->
  run p s = run p' (effs es s) /\ fxs p s = eff_fx es ++ fxs p' (effs es s) /\
  touched p' (effs es s) ⊆ touched p s /\ step p s = (effs es s, p') /\ (simple p -> simple p').
Proof. destruct p; simpl; intros [= <- <-]; split_and!; simpl; try done; set_solver. Qed.

Lemma solo_agree p s s' : agree (touched p s) s s' -> solo p s' = solo p s.
Proof. destruct p; simpl; intros [H1 H2]; try done; [rewrite (H1 l); [done|by left]|by rewrite H2]. Qed.

Lemma eff_fx_app es es' : eff_fx (es ++ es') = eff_fx es ++ eff_fx es'.
Proof. apply omap_app. Qed.

Lemma reaches_run p0 s es p : reaches p0 s es p ->
  run p0 s = run p (effs es s) /\ fxs p0 s = eff_fx es ++ fxs p (effs es s) /\
  touched p (effs es s) ⊆ touched p0 s.
Proof.
  induction 1 as [|es p es' p' Hr (IH1 & IH2 & IH3) (S1 & S2 & S3 & _)%solo_run]; [done|].
  rewrite effs_app, eff_fx_app, <- app_assoc, <- S2, <- S1. split_and!; [done..|]. set_solver.
Qed.

Lemma reaches_agree p0 s s' es p : agree (touched p0 s) s s' -> reaches p0 s es p -> reaches p0 s' es p.
Proof.
  intros Ha Hr. induction Hr as [|es p es' p' Hr IH Hs]; [constructor|].
  econstructor; [exact IH|]. rewrite <- Hs. apply solo_agree.
  apply reaches_run in Hr as (_ & _ & Ht). eapply agree_sub; [exact Ht|]. by apply effs_agree.
Qed.

(** *** What one hook does leaves the others alone *)

Lemma entry_other_s s s' a n : agree (footprint n) s s' -> entry_ok s a n ->
  entry_ok s' a n /\ to_come s' n = to_come s n.
Proof.
  unfold entry_ok, to_come, footprint. intros Ha (Hh & Ht & Hp).
  assert (agree (touched (t_code (n_thread n)) s) s s') as Ha' by by eapply agree_sub.
  rewrite (touched_agree _ _ _ Ha'). destruct (n_phase n) as [|p0 es|].
  - destruct Hp as [Hsl Hg]. destruct (silent_agree _ _ _ Hsl Ha') as [Hf Hr]. split_and!; try done.
    intros l Hl. rewrite Hr by (by apply Ha). auto.
  - destruct Hp as (? & ? & ? & ? & Hg). split_and!; try done. intros l Hl. rewrite <- Hg by done.
    symmetry. by apply Ha.
  - destruct Hp as [? Hg]. split_and!; try done. intros l Hl. rewrite <- Hg by done. symmetry. by apply Ha.
Qed.

Lemma entry_other_a s a a' n : agree (footprint n) a a' -> entry_ok s a n -> entry_ok s a' n.
Proof.
  unfold entry_ok, footprint. intros Ha (Hh & Ht & Hp). split_and!; try done.
  destruct (n_phase n) as [|p0 es|].
  - destruct Hp as [Hsl Hg]. split; [done|]. intros l Hl. rewrite Hg by done. by apply Ha.
  - destruct Hp as (? & ? & ? & ? & Hg).
    assert (agree (touched p0 a) a a') as Ha' by by eapply agree_sub.
    rewrite (touched_agree _ _ _ Ha'). split_and!; try done; [by eapply reaches_agree|].
    intros l Hl. rewrite Hg by done. by apply (effs_agree _ es _ _ Ha).
  - destruct Hp as [? Hg]. split_and!; try done. intros l Hl. rewrite Hg by done. by apply Ha.
Qed.

Lemma others_ok s s' a a' ns (F : list loc) :
  (forall l, l ∉ F -> get l s' = get l s) -> (forall l, l ∉ F -> get l a' = get l a) ->
  conf_of s' = conf_of s -> conf_of a' = conf_of a ->
  (forall l, l ∈ ns ≫= footprint -> l ∉ F) -> Forall (entry_ok s a) ns ->
  Forall (entry_ok s' a') ns /\ ns ≫= to_come s' = ns ≫= to_come s.
Proof.
  intros Hs Ha Hc Hc'. induction ns as [|n ns IH]; intros HF Hok; [done|].
  apply Forall_cons in Hok as [Hn Hok]. rewrite bind_cons in HF.
  destruct IH as [IH1 IH2]; [|done|]; [intros l Hl; apply HF, elem_of_app; by right|].
  assert (forall l, l ∈ footprint n -> l ∉ F) as HFn by (intros l Hl; apply HF, elem_of_app; by left).
  destruct (entry_other_s s s' a n) as [H1 H2]; [|done|].
  { split; [|done]. intros l Hl. symmetry. by apply Hs, HFn. }
  split; [constructor; [|done]|by rewrite !bind_cons, H2, IH2].
  eapply entry_other_a; [|done]. split; [|done]. intros l Hl. symmetry. by apply Ha, HFn.
Qed.

(** The books when one hook's share of them changes. *)
Lemma posts_share t1 t t' t2 u w (L : ledger) :
  Permutation (t' ++ u) (t ++ w) -> posts (t1 ++ t' ++ t2) (posts u L) ≡ posts w (posts (t1 ++ t ++ t2) L).
Proof.
  intros Hp. rewrite <- !posts_app. apply posts_perm. rewrite <- !app_assoc.
  rewrite (Permutation_app_comm u), <- !app_assoc. apply Permutation_app_head.
  rewrite (Permutation_app_comm t2 u), app_assoc, Hp, <- !app_assoc. apply Permutation_app_head, Permutation_app_comm.
Qed.

(** One hook moves on: what it may change, and the books of what was counted. *)
Lemma linked_move s s' a a' n1 n n' n2 u v w :
  linked s (n1 ++ n :: n2) a -> good a' -> gauge s' = gauge a' ->
  conf_of s' = conf_of s -> conf_of a' = conf_of a ->
  (forall l, l ∉ footprint n -> get l s' = get l s) -> (forall l, l ∉ footprint n -> get l a' = get l a) ->
  entry_ok s' a' n' ->
  footprint n' = footprint n \/ footprint n' = [] /\ (forall l, l ∈ footprint n -> get l s' = get l a') ->
  led s' ≡ posts u (led s) -> led a' ≡ posts v (led a) ->
  Permutation (to_come s' n' ++ u) (to_come s n ++ w) -> Permutation (early n' ++ v) (early n ++ w) ->
  linked s' (n1 ++ n' :: n2) a'.
Proof.
  intros [L1 L2 L3 L4 L5 L6 L7] Hg Hga Hc Hc' Hs Ha Hn' Hf Hu Hv Hpu Hpv.
  rewrite bind_app, bind_cons in L5, L6. rewrite !bind_app, !bind_cons in L7.
  apply Forall_app in L4 as [O1 [On O2]%Forall_cons].
  apply NoDup_app in L5 as (N1 & N12 & [Nn [Nn2 N2]]%NoDup_app).
  destruct (others_ok s s' a a' n1 (footprint n)) as [K1 T1]; [done..| |done|].
  { intros l Hl Hl'. apply (N12 l Hl), elem_of_app. by left. }
  destruct (others_ok s s' a a' n2 (footprint n)) as [K2 T2]; [done..| |done|].
  { intros l Hl Hl'. by apply (Nn2 l Hl'). }
  split; try done; [congruence| | | |]; rewrite ?bind_app, ?bind_cons.
  - apply Forall_app. split; [done|]. by constructor.
  - destruct Hf as [->|[-> _]].
    + apply NoDup_app. split_and!; [done..|]. apply NoDup_app. by split_and!.
    + apply NoDup_app. split_and!; [done| |done]. intros l Hl Hl'. apply (N12 l Hl), elem_of_app. by right.
  - intros l Hl. rewrite !elem_of_app in Hl. destruct (decide (l ∈ footprint n)) as [Hin|Hni].
    + destruct Hf as [Hf|[_ Hf]]; [|by apply Hf]. rewrite Hf in Hl. tauto.
    + rewrite Hs, Ha by done. apply L6. rewrite !elem_of_app. tauto.
  - rewrite T1, T2, Hu, Hv. rewrite (posts_share _ _ _ _ _ _ _ Hpu), L7. symmetry. by apply posts_share.
Qed.

(** *** The moves *)

Lemma get_step p s l : l ∉ touched p s -> get l (step p s).1 = get l s.
Proof.
  destruct p; simpl; try done; [|by rewrite get_emit|by rewrite get_gadd].
  intros [Hn _]%not_elem_of_cons. by rewrite get_upd_ne by congruence.
Qed.

Lemma conf_step p s : conf_of (step p s).1 = conf_of s.
Proof. destruct p; simpl; by autorewrite with mem. Qed.

(** The locations go back when the hook ends. *)
Lemma fp_under_way h p F g :
  footprint (mk_entry h (under_way p F) g) = F \/ footprint (mk_entry h (under_way p F) g) = [] /\ p = Ret.
Proof. destruct p; simpl; auto. Qed.

Lemma touched_under_way p F s : touched p s ⊆ F -> touched p s ⊆ t_fp (under_way p F).
Proof. by destruct p. Qed.

Lemma in_under_way p F l : l ∈ t_fp (under_way p F) -> l ∈ F.
Proof. destruct p; simpl; try done. by intros ?%elem_of_nil. Qed.

Lemma linked_entry s a n1 n n2 : linked s (n1 ++ n :: n2) a -> entry_ok s a n.
Proof. intros [_ _ _ [_ [Hn _]%Forall_cons]%Forall_app _ _ _]. exact Hn. Qed.

Lemma silent_step p s : silent p ->
  silent (step p s).2 /\ gauge (step p s).1 = gauge s /\
  exists u, led (step p s).1 = posts u (led s) /\ fxs p s = u ++ fxs (step p s).2 (step p s).1.
Proof.
  destruct p as [|l k|l f k|x k|d k|k|k]; simpl; intros Hp; try done; autorewrite with mem;
    (split; [done|]; split; [done|]); solve [by exists [] | by exists [x]].
Qed.

(** A hook that took effect goes on. *)
Lemma move_comm s a n1 n2 h p F :
  linked s (n1 ++ mk_entry h (mk_thread p F) Comm :: n2) a ->
  linked (step p s).1 (n1 ++ mk_entry h (under_way (step p s).2 F) Comm :: n2) a.
Proof.
  intros Hl. destruct (linked_entry _ _ _ _ _ Hl) as (Hh & Ht & Hsl & Hg); cbn [n_hook n_thread t_code t_fp] in *.
  destruct (silent_step p s Hsl) as (Hsl' & Hga & u & Hu & Hfx).
  eapply (linked_move s _ a a _ _ _ _ u [] []); [exact Hl|..]; try done.
  - eapply lk_good, Hl.
  - rewrite Hga. eapply lk_gauge, Hl.
  - apply conf_step.
  - intros l Hn. apply get_step. set_solver.
  - split_and!; [done|apply touched_under_way; etransitivity; [apply touched_step|done]|].
    split; [done|]. intros l Hin%in_under_way. cbn [t_code under_way n_thread]. rewrite run_step. auto.
  - destruct (fp_under_way h (step p s).2 F Comm) as [?|[? Hr]]; [by left|right]. split; [done|].
    intros l Hin. rewrite <- (Hg l Hin), <- run_step, Hr. done.
  - by rewrite Hu.
  - unfold to_come. simpl. rewrite Hfx, app_nil_r. apply Permutation_app_comm.
Qed.

(** One that did not goes on without the count of records in flight. *)
Lemma move_pend s a n1 n2 h p p' F p0 es es' :
  solo p s = Some (es', p') ->
  linked s (n1 ++ mk_entry h (mk_thread p F) (Pend p0 es) :: n2) a ->
  linked (step p s).1 (n1 ++ mk_entry h (mk_thread p' F) (Pend p0 (es ++ es')) :: n2) a.
Proof.
  intros Hs Hl. destruct (linked_entry _ _ _ _ _ Hl) as (Hh & Ht & Hsi & Hr & Ht0 & Hw & Hg);
    cbn [n_hook n_thread t_code t_fp] in *.
  destruct (solo_run _ _ _ _ Hs) as (_ & _ & Ht' & Hst & Hsi'). rewrite Hst. cbn [fst].
  assert (agree F s (effs es a)) as Ha.
  { split; [done|]. rewrite (proj2 (effs_keeps es a)). eapply lk_conf, Hl. }
  assert (agree (touched p s) s (effs es a)) as Ha' by by eapply agree_sub.
  eapply (linked_move s _ a a _ _ _ _ (eff_fx es') [] (eff_fx es')); [exact Hl|..]; try done.
  - eapply lk_good, Hl.
  - rewrite (proj1 (effs_keeps es' s)). eapply lk_gauge, Hl.
  - apply effs_keeps.
  - intros l Hn. replace (effs es' s) with (step p s).1 by by rewrite Hst. apply get_step. set_solver.
  - split_and!; [done|by etransitivity|]. split_and!; [auto| |done|done|].
    + eapply reaches_solo; [done|]. by rewrite (solo_agree _ _ _ Ha').
    + intros l Hin. rewrite effs_app. by apply (effs_agree F es').
  - by left.
  - clear. revert s. induction es' as [|[l f|x] es' IH]; intros s; simpl; [done|..]; rewrite IH; by autorewrite with mem.
  - unfold early. simpl. by rewrite eff_fx_app, app_nil_r.
Qed.

Lemma commit_step p s x F :
  solo p s = None -> simple p -> agree F s x -> gauge s = gauge x ->
  (step p x).2 = (step p s).2 /\ silent (step p s).2 /\ agree F (step p s).1 (step p x).1 /\
  gauge (step p s).1 = gauge (step p x).1 /\ fxs p x = fxs (step p s).2 (step p x).1 /\ led (step p s).1 = led s.
Proof.
  destruct p as [|l k|l f k|y k|d k|k|k]; simpl; intros Hs Hp Ha Hg; try done.
  - split_and!; try done; [by apply agree_gadd|by apply gauge_gadd|apply led_gadd].
  - rewrite Hg. by split_and!.
Qed.

(** A hook takes effect: at an access to the count of records in flight, or at its end. *)
Lemma move_commit s a n1 n2 h p F p0 es :
  solo p s = None ->
  linked s (n1 ++ mk_entry h (mk_thread p F) (Pend p0 es) :: n2) a ->
  linked (step p s).1 (n1 ++ mk_entry h (under_way (step p s).2 F) Comm :: n2) (whole h a).
Proof.
  intros Hs Hl. destruct (linked_entry _ _ _ _ _ Hl) as (Hh & Ht & Hsi & Hr & Ht0 & Hw & Hg);
    cbn [n_hook n_thread t_code t_fp] in *.
  pose proof (lk_good _ _ _ Hl) as Hgood. specialize (Hw a Hgood) as (W1 & W2 & W3 & W4).
  destruct (reaches_run _ _ _ _ Hr) as (R1 & R2 & R3). destruct (effs_keeps es a) as [E1 E2].
  destruct (commit_step p s (effs es a) F) as (P1 & P2 & P3 & P4 & P5 & P6); [done..| | |].
  { split; [done|]. rewrite E2. eapply lk_conf, Hl. }
  { rewrite E1. eapply lk_gauge, Hl. }
  set (s' := (step p s).1) in *. set (p' := (step p s).2) in *. set (x' := (step p (effs es a)).1) in *.
  assert (run p0 a = run p' x') as Hrun by (rewrite R1, <- run_step; by f_equal). rewrite Hrun in *.
  assert (touched p' s' ⊆ F) as Ht' by (etransitivity; [apply touched_step|done]).
  destruct (silent_agree p' s' x') as [Hfx Hget]; [done|by eapply agree_sub|].
  eapply (linked_move s _ a _ _ _ _ _ [] (eff_fx es ++ fxs p' s') (fxs p' s')); [exact Hl|..]; try done.
  - by apply good_whole.
  - rewrite <- W3, gauge_run by done. done.
  - apply conf_step.
  - rewrite <- W4, <- Hrun. apply conf_run.
  - intros l Hn. apply get_step. set_solver.
  - intros l Hn. rewrite <- W1, <- Hrun. apply get_run. set_solver.
  - split_and!; [done|by apply touched_under_way|]. split; [done|]. intros l Hin%in_under_way.
    cbn [t_code under_way n_thread]. rewrite <- W1, Hget; [done|]. by apply P3.
  - destruct (fp_under_way h p' F Comm) as [?|[? Hret]]; [by left|right]. split; [done|].
    intros l Hin. rewrite <- W1, Hret. by apply P3.
  - by rewrite P6.
  - by rewrite <- W2, <- Hrun, led_run, R2, P5, Hfx.
  - unfold to_come. simpl. by rewrite app_nil_r.
Qed.

(** The early test: nothing is in flight, and the hook has nothing to do, or it goes on. *)
Lemma move_fresh s a n1 n2 h p F :
  linked s (n1 ++ mk_entry h (mk_thread p F) Fresh :: n2) a ->
  exists k, p = Busy k /\ k false = Ret /\
    if nz (gauge s) then linked s (n1 ++ mk_entry h (mk_thread (k true) F) (Pend (k true) []) :: n2) a
    else linked s (n1 ++ mk_entry h (mk_thread Ret []) Comm :: n2) (whole h a).
Proof.
  intros Hl. destruct (linked_entry _ _ _ _ _ Hl) as (Hh & Ht & (k & Hk & Hf & Hsi & Hw & H0) & Hg);
    cbn [n_hook n_thread t_code t_fp] in *.
  exists k. subst p. split_and!; [done..|]. simpl in Ht.
  pose proof (lk_good _ _ _ Hl) as Hgood. pose proof (lk_gauge _ _ _ Hl) as Hga.
  destruct (nz (gauge s)) eqn:E.
  - eapply (linked_move s s a a _ _ _ _ [] [] []); [exact Hl|..]; try done; [|by left].
    assert (agree (touched (k true) s) s a) as Ha.
    { split; [|eapply lk_conf, Hl]. intros l Hin. apply Hg. set_solver. }
    split_and!; [done|simpl; set_solver|]. split_and!; [done|constructor| |done..].
    rewrite (touched_agree _ _ _ Ha). set_solver.
  - apply negb_false_iff, Z.eqb_eq in E. destruct (H0 a) as (W1 & W2 & W3 & W4); [done|congruence|].
    eapply (linked_move s s a _ _ _ _ _ [] [] []); [exact Hl|..]; try done.
    + by apply good_whole.
    + congruence.
    + split_and!; [done..|]. split; [done|]. by intros l ?%elem_of_nil.
    + right. split; [done|]. intros l Hin. rewrite W1. auto.
Qed.

(** ** The order of effect *)

(** The state, the hooks started and the order in which hooks took effect. *)
Record in_order (s0 : St) (hs : list Hook) (c : St * list thread) (order : list nat) : Prop := {
  io_entries : exists ns, n_thread <$> ns = c.2 /\ n_hook <$> ns = hs /\
    linked c.1 ns (in_turn hs order s0) /\
    Forall (fun n => finished (n_thread n) -> n_phase n = Comm) ns /\
    (forall i, i ∈ order <-> exists n, ns !! i = Some n /\ n_phase n = Comm);
  io_nodup : NoDup order
}.

Lemma in_turn_snoc hs order i h s :
  hs !! i = Some h -> in_turn hs (order ++ [i]) s = whole h (in_turn hs order s).
Proof. intros Hi. unfold in_turn. rewrite foldl_app. simpl. by rewrite Hi. Qed.

Lemma in_turn_started hs h order s :
  Forall (fun i => (i < length hs)%nat) order -> in_turn (hs ++ [h]) order s = in_turn hs order s.
Proof.
  revert s. induction order as [|i order IH]; intros s Ho; [done|]. apply Forall_cons in Ho as [Hi Ho].
  simpl. rewrite lookup_app_l by done. by apply IH.
Qed.

Lemma linked_start s a ns h F :
  linked s ns a -> hook_ok h -> F = remove_dups (touched (code h) s) ->
  Forall (fun l => l ∉ touched (code h) s) (ns ≫= footprint) ->
  exists g, g <> Comm /\ linked s (ns ++ [mk_entry h (mk_thread (code h) F) g]) a.
Proof.
  intros [L1 L2 L3 L4 L5 L6 L7] Hh HF Hd.
  assert (forall l, l ∈ F <-> l ∈ touched (code h) s) as HFt by (intros l; subst F; apply elem_of_remove_dups).
  assert (forall l, l ∈ F -> l ∉ ns ≫= footprint) as Hni.
  { intros l Hl%HFt Hin. rewrite Forall_forall in Hd. by apply (Hd l). }
  assert (forall l, l ∈ F -> get l s = get l a) as Hg by auto.
  assert (touched (code h) s ⊆ F) as Ht by (intros l ?; by apply HFt).
  assert (agree (touched (code h) s) s a) as Ha by (split; [|done]; intros l Hl; by apply Hg, HFt).
  assert (exists g, g <> Comm /\ entry_ok s a (mk_entry h (mk_thread (code h) F) g) /\
    to_come s (mk_entry h (mk_thread (code h) F) g) = [] /\ early (mk_entry h (mk_thread (code h) F) g) = [])
    as (g & Hgc & Hok & Htc & Hea).
  { destruct (code_whole h Hh) as [[Hsi Hw]|(k & Hk & ?)].
    - exists (Pend (code h) []). split; [done|]. split; [|done]. split_and!; [done..|].
      split_and!; [done|constructor| |done..]. simpl. by rewrite (touched_agree _ _ _ Ha).
    - exists Fresh. split; [done|]. split; [|done]. split_and!; [done..|]. split; [|done]. simpl. rewrite Hk. by exists k. }
  exists g. split; [done|]. split; try done; rewrite ?bind_app; simpl; rewrite ?app_nil_r.
  - apply Forall_app. split; [done|]. by constructor.
  - apply NoDup_app. split_and!; [done| |subst F; apply NoDup_remove_dups]. intros l Hl Hl'. by apply (Hni l).
  - intros l Hl. apply L6. intros Hin. apply Hl, elem_of_app. by left.
  - rewrite Htc, Hea, !app_nil_r. done.
Qed.

(** Whether a hook takes effect now. *)
Definition takes_effect (h : Hook) (g g' : phase) (a a' : St) : Prop :=
  a' = a /\ (g' = Comm <-> g = Comm) \/ a' = whole h a /\ g <> Comm /\ g' = Comm.

(** A hook that is at its end takes effect now at the latest. *)
Lemma settle_thread s a n1 n2 h p F g :
  g <> Comm -> linked s (n1 ++ mk_entry h (mk_thread p F) g :: n2) a ->
  exists g' a', linked s (n1 ++ mk_entry h (under_way p F) g' :: n2) a' /\
    (finished (under_way p F) -> g' = Comm) /\ takes_effect h g g' a a'.
Proof.
  intros Hg Hl. assert (p = Ret \/ under_way p F = mk_thread p F /\ ~ finished (under_way p F)) as [->|[-> Hf]]
    by (destruct p; auto).
  - exists Comm, (whole h a). destruct g as [|p0 es|]; [done| |].
    + split; [exact (move_commit s a n1 n2 h Ret F p0 es eq_refl Hl)|]. split; [done|]. by right.
    + by destruct (linked_entry _ _ _ _ _ Hl) as (_ & _ & (k & ? & _) & _).
  - exists g, a. split; [done|]. split; [done|]. by left.
Qed.

Lemma takes_effect_late h p0 es g0 g a a' :
  g0 <> Comm -> takes_effect h (Pend p0 es) g a a' -> takes_effect h g0 g a a'.
Proof.
  intros Hn [(-> & Hc & _)|(-> & _ & ->)]; [left|by right]. split; [done|]. split; [|done].
  intros ?. by discriminate Hc.
Qed.

Lemma step_outcome s a n1 n2 h p F g :
  linked s (n1 ++ mk_entry h (mk_thread p F) g :: n2) a ->
  exists g' a', linked (step p s).1 (n1 ++ mk_entry h (under_way (step p s).2 F) g' :: n2) a' /\
    (finished (under_way (step p s).2 F) -> g' = Comm) /\ takes_effect h g g' a a'.
Proof.
  intros Hl. destruct g as [|p0 es|].
  - exists Comm, a. split; [by apply move_comm|]. split; [done|]. by left.
  - destruct (solo p s) as [[es' p']|] eqn:Es.
    + destruct (solo_run _ _ _ _ Es) as (_ & _ & _ & Hst & _). pose proof (move_pend _ _ _ _ _ _ _ _ _ _ _ Es Hl) as Hl'.
      destruct (settle_thread _ _ _ _ _ _ _ (Pend p0 (es ++ es')) ltac:(done) Hl') as (g & a' & H1 & H2 & H3). exists g, a'. rewrite Hst in *.
      split; [done|]. split; [done|]. exact (takes_effect_late _ _ _ (Pend p0 es) _ _ _ ltac:(done) H3).
    + exists Comm, (whole h a). split; [by eapply move_commit|]. split; [done|]. by right.
  - destruct (move_fresh _ _ _ _ _ _ _ Hl) as (k & -> & Hk & Hm). simpl. destruct (nz (gauge s)).
    + destruct (settle_thread _ _ _ _ _ _ _ (Pend (k true) []) ltac:(done) Hm) as (g & a' & H1 & H2 & H3). exists g, a'.
      split; [done|]. split; [done|]. exact (takes_effect_late _ _ _ Fresh _ _ _ ltac:(done) H3).
    + rewrite Hk. exists Comm, (whole h a). split; [done|]. split; [done|]. by right.
Qed.

Lemma in_order_init s0 : good s0 -> in_order s0 [] (s0, []) [].
Proof.
  intros Hg. split; [|constructor]. exists [].
  split; [done|]. split; [done|]. split; [split; try done; constructor|]. split; [constructor|].
  intros i. split; [by intros ?%elem_of_nil|by intros (n & ? & _)].
Qed.

Lemma order_bound s0 hs c order : in_order s0 hs c order -> Forall (fun i => (i < length hs)%nat) order.
Proof.
  intros [(ns & _ & <- & _ & _ & Ho) _]. apply Forall_forall. intros i (n & Hi & _)%Ho.
  rewrite length_fmap. by eapply lookup_lt_Some.
Qed.

(** One hook moved on. *)
Lemma in_order_move s0 hs s' order n1 n n2 n' a' :
  n_hook <$> (n1 ++ n :: n2) = hs -> n_hook n' = n_hook n -> NoDup order ->
  (forall i, i ∈ order <-> exists m, (n1 ++ n :: n2) !! i = Some m /\ n_phase m = Comm) ->
  Forall (fun m => finished (n_thread m) -> n_phase m = Comm) (n1 ++ n :: n2) ->
  linked s' (n1 ++ n' :: n2) a' -> (finished (n_thread n') -> n_phase n' = Comm) ->
  takes_effect (n_hook n) (n_phase n) (n_phase n') (in_turn hs order s0) a' ->
  exists o, in_order s0 hs (s', n_thread <$> (n1 ++ n' :: n2)) (order ++ o).
Proof.
  intros Hhs Hh Hnd Ho Hf Hl Hf' Ht.
  assert (hs !! length n1 = Some (n_hook n)) as Hi.
  { by rewrite <- Hhs, list_lookup_fmap, list_lookup_middle. }
  assert (forall i m, i <> length n1 -> (n1 ++ n' :: n2) !! i = Some m <-> (n1 ++ n :: n2) !! i = Some m) as Hne.
  { intros i m Hi'. replace (n1 ++ n' :: n2) with (<[length n1 := n']> (n1 ++ n :: n2)) by (rewrite insert_app_r_alt, Nat.sub_diag; done).
    by rewrite list_lookup_insert_ne. }
  assert (n_hook <$> (n1 ++ n' :: n2) = hs) as Hhs'.
  { by rewrite <- Hhs, !fmap_app, !fmap_cons, Hh. }
  assert (Forall (fun m => finished (n_thread m) -> n_phase m = Comm) (n1 ++ n' :: n2)) as Hf2.
  { apply Forall_app in Hf as [? [_ ?]%Forall_cons]. apply Forall_app. split; [done|]. by constructor. }
  destruct Ht as [(-> & Hc)|(-> & Hnc & Hc)].
  - exists []. rewrite app_nil_r. split; [|done]. exists (n1 ++ n' :: n2). split_and!; try done.
    intros i. rewrite Ho. destruct (decide (i = length n1)) as [->|Hn].
    + rewrite !list_lookup_middle by done. split; intros (m & [= <-] & ?); eexists; (split; [done|]); tauto.
    + setoid_rewrite Hne; done.
  - exists [length n1]. split.
    + exists (n1 ++ n' :: n2). rewrite (in_turn_snoc _ _ _ _ _ Hi). split_and!; try done.
      intros i. rewrite elem_of_app, list_elem_of_singleton, Ho. destruct (decide (i = length n1)) as [->|Hn].
      * rewrite !list_lookup_middle by done. split; [by eexists|tauto].
      * setoid_rewrite Hne; [|done..]. tauto.
    + apply NoDup_app. split_and!; [done| |apply NoDup_singleton]. intros i Hin ->%list_elem_of_singleton.
      apply Ho in Hin as (m & Hm & ?). rewrite list_lookup_middle in Hm by done. by injection Hm as <-.
Qed.

Lemma in_order_step s0 hs c order i :
  in_order s0 hs c order -> exists o, in_order s0 hs (exec1 c (Step i)) (order ++ o).
Proof.
  intros [(ns & Hts & Hhs & Hl & Hf & Ho) Hnd]. destruct c as [s ts]. simpl in *.
  destruct (ts !! i) as [[p F]|] eqn:Ei; [|exists []; rewrite app_nil_r; split; [by exists ns|done]].
  rewrite <- Hts, list_lookup_fmap in Ei. apply fmap_Some in Ei as ([h t g] & Hi & Ht). simpl in Ht. subst t.
  apply list_elem_of_split_length in Hi as (n1 & n2 & Hns & Hlen). subst ns i.
  destruct (step_outcome _ _ _ _ _ _ _ _ Hl) as (g' & a' & Hl' & Hf' & Ht').
  destruct (in_order_move s0 hs _ order n1 _ n2 (mk_entry h (under_way (step p s).2 F) g') a' Hhs eq_refl Hnd Ho Hf Hl' Hf' Ht')
    as [o Hin]. exists o. cbn [t_code t_fp]. destruct (step p s) as [s' p']. simpl in Hin. subst ts.
  rewrite !fmap_app, !fmap_cons in *. cbn [n_thread] in *. by rewrite insert_app_r_alt, length_fmap, Nat.sub_diag by by rewrite length_fmap.
Qed.

Lemma in_order_start s0 hs c order h :
  in_order s0 hs c order -> allowed c (Start h) -> exists o, in_order s0 (hs ++ [h]) (exec1 c (Start h)) (order ++ o).
Proof.
  intros Hio [Hh Hd]. pose proof (order_bound _ _ _ _ Hio) as Hb.
  destruct Hio as [(ns & Hts & Hhs & Hl & Hf & Ho) Hnd]. destruct c as [s ts]. simpl in *.
  assert (ns ≫= footprint = ts ≫= t_fp) as Hfp.
  { subst ts. clear. induction ns as [|n ns IH]; [done|]. by rewrite fmap_cons, !bind_cons, IH. }
  destruct (linked_start s _ ns h _ Hl Hh eq_refl) as (g & Hg & Hl1); [by rewrite Hfp|].
  destruct (settle_thread _ _ _ _ _ _ _ _ Hg Hl1) as (g' & a' & Hl2 & Hf2 & Ht2).
  set (F := remove_dups (touched (code h) s)) in *.
  assert (forall n', n_hook <$> (ns ++ [n']) = (n_hook <$> ns) ++ [n_hook n']) as Hsn by (intros; by rewrite fmap_app).
  destruct (in_order_move s0 (hs ++ [h]) s order ns (mk_entry h (mk_thread (Conf (fun _ => Ret)) F) g) []
    (mk_entry h (under_way (code h) F) g') a') as [o Hin]; try done.
  - by rewrite Hsn, Hhs.
  - intros i. rewrite Ho. destruct (decide (i < length ns)%nat).
    + by rewrite lookup_app_l by done.
    + rewrite lookup_ge_None_2, lookup_app_r by lia.
      split; [by intros (m & ? & _)|]. intros (m & Hm & Hp). destruct (i - length ns)%nat; [|done].
      by injection Hm as <-.
  - apply Forall_app. split; [done|]. by constructor.
  - by rewrite in_turn_started.
  - exists o. by rewrite fmap_app, Hts in Hin.
Qed.

Lemma in_order_exec s0 hs c order xs :
  in_order s0 hs c order -> race_free c xs ->
  exists tail, forall xs1 xs2, xs = xs1 ++ xs2 ->
    exists o1 o2, tail = o1 ++ o2 /\ (xs2 = [] -> o2 = []) /\
      in_order s0 (hs ++ started xs1) (exec c xs1) (order ++ o1).
Proof.
  revert hs c order. induction xs as [|x xs IH]; intros hs c order Hio Hrf.
  - exists []. intros xs1 xs2 [-> ->]%eq_sym%app_nil. exists [], []. by rewrite !app_nil_r.
  - destruct Hrf as [Ha Hrf].
    assert (exists o, in_order s0 (hs ++ started [x]) (exec1 c x) (order ++ o)) as [o Ho].
    { destruct x as [h|i]; [by apply in_order_start|]. simpl. rewrite app_nil_r. by apply in_order_step. }
    destruct (IH _ _ _ Ho Hrf) as [tail Ht]. exists (o ++ tail). intros [|y xs1] xs2 Hx; simpl in Hx.
    + exists [], (o ++ tail). split; [done|]. split; [by subst xs2|]. by rewrite !app_nil_r.
    + injection Hx as <- Hx. destruct (Ht xs1 xs2 Hx) as (o1 & o2 & -> & He & Hin).
      exists (o ++ o1), o2. rewrite <- app_assoc. split; [done|]. split; [done|]. simpl.
      rewrite <- !(app_assoc order), <- (app_assoc hs) in Hin. by destruct x.
Qed.

(** Number [i] comes before number [j] in the order. *)
Definition before (order : list nat) (i j : nat) : Prop :=
  exists o1 o2, order = o1 ++ o2 /\ i ∈ o1 /\ j ∉ o1.

Lemma exec_released c xs :
  Forall (fun t => finished t -> t_fp t = []) c.2 -> Forall (fun t => finished t -> t_fp t = []) (exec c xs).2.
Proof.
  assert (forall p F, finished (under_way p F) -> t_fp (under_way p F) = []) as Hu by (by intros []).
  revert c. induction xs as [|x xs IH]; intros [s ts] Hc; [done|]. apply IH. destruct x as [h|i]; simpl in *.
  - apply Forall_app. split; [done|]. by constructor; [apply Hu|].
  - destruct (ts !! i) as [t|]; [|done]. destruct (step (t_code t) s). apply Forall_insert; [done|apply Hu].
Qed.

(** Nothing is pending when all hooks have ended. *)
Lemma linked_end s ns a :
  linked s ns a -> (forall n, n ∈ ns -> finished (n_thread n) /\ n_phase n = Comm) ->
  Forall (fun t => finished t -> t_fp t = []) (n_thread <$> ns) -> s ≡ a.
Proof.
  intros [L1 L2 L3 _ L5 L6 L7] Hall Hfp. rewrite Forall_fmap, Forall_forall in Hfp.
  assert (ns ≫= footprint = [] /\ ns ≫= to_come s = [] /\ ns ≫= early = []) as (E1 & E2 & E3).
  { clear -Hall Hfp. induction ns as [|n ns IH]; [done|].
    destruct IH as (IH1 & IH2 & IH3); [intros m Hm; apply Hall; by right|intros m Hm; apply Hfp; by right|].
    rewrite !bind_cons, IH1, IH2, IH3, !app_nil_r. destruct (Hall n) as [Hn Hp]; [by left|].
    specialize (Hfp n ltac:(by left) Hn). unfold footprint, to_come, early. rewrite Hfp, Hp.
    unfold finished in Hn. by destruct (t_code (n_thread n)). }
  rewrite E1 in L6. rewrite E2, E3 in L7. split_and!; [|done..]. intros l. apply L6. by intros ?%elem_of_nil.
Qed.

(** Memory holds what it holds when the hooks run one after the other, in an order in
    which a hook that ended before another started comes before it. *)
Definition linearizable (s0 : St) (xs : list act) : Prop :=
  exists order, Permutation order (seq 0 (length (started xs))) /\
    (exec (s0, []) xs).1 ≡ in_turn (started xs) order s0 /\
    forall xs1 xs2 i j t, xs = xs1 ++ xs2 -> (exec (s0, []) xs1).2 !! i = Some t -> finished t ->
      (length (started xs1) <= j)%nat -> before order i j.

(** Hooks that run at the same time on different locations, when all have ended. *)
Lemma interleaved_atomic s0 xs :
  good s0 -> race_free (s0, []) xs -> Forall finished (exec (s0, []) xs).2 ->
  linearizable s0 xs /\ good (exec (s0, []) xs).1.
Proof.
  intros Hg Hrf Hfin. destruct (in_order_exec s0 [] (s0, []) [] xs (in_order_init s0 Hg) Hrf) as [order Ho].
  simpl in Ho. assert (in_order s0 (started xs) (exec (s0, []) xs) order) as [(ns & Hts & Hhs & Hl & Hf & Hc) Hnd].
  { destruct (Ho xs []) as (o1 & o2 & He & Hn & Hin); [by rewrite app_nil_r|]. by rewrite He, (Hn eq_refl), app_nil_r. }
  assert (forall n, n ∈ ns -> finished (n_thread n) /\ n_phase n = Comm) as Hall.
  { rewrite <- Hts, Forall_fmap, Forall_forall in Hfin. rewrite Forall_forall in Hf. intros n Hn. split; [by apply Hfin|]. by apply Hf, Hfin. }
  assert ((exec (s0, []) xs).1 ≡ in_turn (started xs) order s0) as Heq.
  { eapply linked_end; [done..|]. rewrite Hts. by apply exec_released. }
  split; [exists order; split_and!; [|done|]|rewrite Heq; by eapply lk_good].
  - apply NoDup_Permutation; [done|apply NoDup_seq|]. intros i. rewrite Hc, elem_of_seq, <- Hhs, length_fmap. split.
    + intros (n & Hn%lookup_lt_Some & _). lia.
    + intros [_ Hi]. destruct (lookup_lt_is_Some_2 ns i Hi) as [n Hn]. exists n. split; [done|].
      by eapply Hall, list_elem_of_lookup_2.
  - intros xs1 xs2 i j t Hx Hi Hft Hj. destruct (Ho xs1 xs2 Hx) as (o1 & o2 & -> & _ & Hin).
    exists o1, o2. split; [done|]. pose proof (order_bound _ _ _ _ Hin) as Hb. rewrite Forall_forall in Hb.
    destruct Hin as [(ns' & Hts' & _ & _ & Hf' & Hc') _]. split; [|intros ?%Hb; lia].
    rewrite <- Hts', list_lookup_fmap in Hi. apply fmap_Some in Hi as (n & Hn & ->). apply Hc'. exists n.
    split; [done|]. rewrite Forall_forall in Hf'. by eapply Hf'; [eapply list_elem_of_lookup_2|].
Qed.

(** ** Every hook ends

    A hook makes a bounded number of accesses, whatever it reads and whatever other hooks
    do meanwhile: there are no loops and no locks. *)
Fixpoint ends_within (p : prog) (n : nat) : Prop :=
  match p, n with
  | Ret, _ => True
  | _, O => False
  | Rd l k, S n => forall v, ends_within (k v) n
  | Up _ _ k, S n | Fx _ k, S n | Add _ k, S n => ends_within k n
  | Busy k, S n => forall b, ends_within (k b) n
  | Conf k, S n => forall c, ends_within (k c) n
  end.

Lemma ends_step p n s : ends_within p (S n) -> ends_within (step p s).2 n.
Proof. destruct p; simpl; auto. Qed.

(** How many accesses of hook [i] are among the steps. *)
Fixpoint accesses (i : nat) (xs : list act) : nat :=
  match xs with
  | [] => O
  | Step j :: xs => if decide (j = i) then S (accesses i xs) else accesses i xs
  | Start _ :: xs => accesses i xs
  end.

Lemma hook_ends c i t n xs :
  c.2 !! i = Some t -> ends_within (t_code t) n -> (n <= accesses i xs)%nat ->
  exists t', (exec c xs).2 !! i = Some t' /\ finished t'.
Proof.
  revert c t n. induction xs as [|x xs IH]; intros [s ts] t n Hi Hn Hle; simpl in *.
  - exists t. split; [done|]. assert (n = O) as -> by lia. unfold finished. by destruct (t_code t).
  - destruct x as [h|j]; simpl.
    + eapply IH; [|done|done]. simpl. by apply lookup_app_l_Some.
    + destruct (ts !! j) as [t'|] eqn:Ej; [|eapply IH; [done..|]; destruct (decide (j = i)); [congruence|done]].
      destruct (step (t_code t') s) as [s' p'] eqn:Es. destruct (decide (j = i)) as [->|Hne].
      * assert (t' = t) as -> by congruence. eapply (IH _ (under_way p' (t_fp t)) (pred n)); simpl.
        -- rewrite list_lookup_insert_eq; [done|]. by eapply lookup_lt_Some.
        -- destruct n as [|n]; simpl; [by destruct (t_code t); simplify_eq/=|].
           apply (ends_step _ _ s) in Hn. by rewrite Es in Hn.
        -- lia.
      * eapply IH; [|done|done]. simpl. by rewrite list_lookup_insert_ne.
Qed.

(** ** Checks that run *)

#[export] Instance finished_dec t : Decision (finished t).
Proof. unfold finished. destruct (t_code t); apply _. Defined.

Definition allowedb (c : St * list thread) (x : act) : bool :=
  match x with
  | Start h => bool_decide (Forall (fun l => l ∉ touched (code h) c.1) (c.2 ≫= t_fp))
  | Step _ => true
  end.

Fixpoint race_freeb (c : St * list thread) (xs : list act) : bool :=
  match xs with
  | [] => true
  | x :: xs => allowedb c x && race_freeb (exec1 c x) xs
  end.

Lemma race_free_check c xs : Forall hook_ok (started xs) -> race_freeb c xs = true -> race_free c xs.
Proof.
  revert c. induction xs as [|x xs IH]; intros c Hh Hb; [done|]. simpl in *.
  apply andb_true_iff in Hb as [H1 H2]. destruct x as [h|i].
  - apply Forall_cons in Hh as [Hok Hh]. split; [|by apply IH]. split; [done|]. by apply bool_decide_eq_true in H1.
  - split; [done|by apply IH].
Qed.

End Pool.
