(* ===== verification/HostSteps.v ===== *)
(** * The hooks of the host objects as single accesses (bpf/host.bpf.h, bpf/nvme_tcp_host.bpf.c,
      bpf/nvme_rdma_host.bpf.c)

    Each hook of BpfHost.v once more, as the sequence of its accesses to the object's maps
    and globals, so that hooks on several CPUs can be interleaved (Interleave.v).  The
    stores a hook makes in a row into one record or one context are one step.  The
    programs are for filters that do not count queues; the hash maps of the exact queue
    counters are not accessed then. *)
From stdpp Require Import base numbers list gmap.
From Stdlib Require Import ZArith Lia.
From S2P Require Import Prelude Types BpfCommon BpfHost Interleave.

(** ** The memory of a host object *)

(** The fields of an entry of [reqs], an element of [cid_idx], the contexts of a CPU. *)
Inductive hloc :=
  | HL_rq (slot : Z) | HL_queue (slot : Z) | HL_rec (slot : Z) | HL_cid (slot : Z)
  | HL_pend (cpu : Z) | HL_rx (cpu : Z) | HL_send (cpu : Z) | HL_tsend (cpu : Z) | HL_post (cpu : Z).

#[export] Instance hloc_eq_dec : EqDecision hloc.
Proof. solve_decision. Defined.

Definition hval (l : hloc) : Type :=
  match l with
  | HL_rq _ | HL_queue _ => Z
  | HL_rec _ => ntp_host_rec
  | HL_cid _ => cid_slot
  | HL_pend _ => pending
  | HL_rx _ => host_rx
  | HL_send _ => send_ctx
  | HL_tsend _ => tsend_ctx
  | HL_post _ => post_ctx
  end.

Definition hget (l : hloc) (s : host_st) : hval l :=
  match l with
  | HL_rq i => he_rq (reqs s i)
  | HL_queue i => he_queue (reqs s i)
  | HL_rec i => he_rec (reqs s i)
  | HL_cid i => cid_idx s i
  | HL_pend c => pend s c
  | HL_rx c => rx_ctx s c
  | HL_send c => send_c s c
  | HL_tsend c => tsend_c s c
  | HL_post c => post_c s c
  end.

Definition hupd (l : hloc) : (hval l -> hval l) -> host_st -> host_st :=
  match l with
  | HL_rq i => fun f s => let e := reqs s i in set_entry s i (mk_host_entry (f (he_rq e)) (he_queue e) (he_rec e))
  | HL_queue i => fun f s => let e := reqs s i in set_entry s i (mk_host_entry (he_rq e) (f (he_queue e)) (he_rec e))
  | HL_rec i => fun f s => let e := reqs s i in set_entry s i (mk_host_entry (he_rq e) (he_queue e) (f (he_rec e)))
  | HL_cid i => fun f s => set_cid s i (f (cid_idx s i))
  | HL_pend c => fun f s => set_pend s c (f (pend s c))
  | HL_rx c => fun f s => set_rx s c (f (rx_ctx s c))
  | HL_send c => fun f s => set_send s c (f (send_c s c))
  | HL_tsend c => fun f s => set_tsend s c (f (tsend_c s c))
  | HL_post c => fun f s => set_post s c (f (post_c s c))
  end.

(** The per-CPU counters and the ring buffer. *)
Inductive hfx := H_count (c : ntp_counter) (delta : Z) | H_output (r : ntp_host_rec).

Definition ledger : Type := counts * list ntp_host_rec.
Definition hpost (x : hfx) (L : ledger) : ledger :=
  match x with
  | H_count c d => (ntp_count L.1 c d, L.2)
  | H_output r => (L.1, L.2 ++ [r])
  end.
Definition hemit (x : hfx) (s : host_st) : host_st :=
  match x with H_count c d => inc s c d | H_output r => add_event s r end.

#[export] Instance ledger_equiv : Equiv ledger := fun L L' => (forall c, L.1 c = L'.1 c) /\ Permutation L.2 L'.2.
#[export] Instance ledger_equivalence : Equivalence (≡@{ledger}).
Proof.
  split.
  - by split.
  - intros L1 L2 [H1 H2]. by split.
  - intros L1 L2 L3 [H1 H2] [H3 H4]. split; [|by etransitivity]. intros c. by rewrite H1.
Qed.

Lemma hpost_comm x y L : hpost x (hpost y L) ≡ hpost y (hpost x L).
Proof.
  destruct x as [c d|r], y as [c' d'|r']; split; simpl; try done.
  - intros c2. unfold ntp_count. destruct (decide (c = c2)), (decide (c' = c2)); try done.
    apply cong64_u64; [apply u64_range..|]. cong_solve.
  - rewrite <- !app_assoc. apply Permutation_app_head. constructor.
Qed.

#[export] Program Instance host_shared : Shared host_st hloc hval hfx (bool * gmap Z qstat * gmap Z counted) ledger := {
  get := hget;
  upd := hupd;
  emit := hemit;
  led := fun s => (cnt s, events s);
  post := hpost;
  gauge := inflight;
  gadd := fun d s => ntp_inflight_add s d;
  conf_of := fun s => (armed s, qstats s, countedm s)
}.
Next Obligation.
  intros [c d|r] [c1 l1] [c2 l2] [H1 H2]; simpl in *; split; simpl; try done.
  - intros c'. unfold ntp_count. by rewrite H1.
  - by rewrite H2.
Qed.
Next Obligation. apply hpost_comm. Qed.
Next Obligation. intros [] f s; simpl; by rewrite arr_set_eq. Qed.
Next Obligation.
  intros [] [] f s Hn; simpl; try done; unfold arr_set; case_match eqn:E; try done; apply Z.eqb_eq in E; subst; done.
Qed.
Next Obligation. by intros [] []. Qed.
Next Obligation. by intros []. Qed.
Next Obligation. by intros []. Qed.
Next Obligation. by intros []. Qed.
Next Obligation. done. Qed.
Next Obligation. by intros []. Qed.
Next Obligation. by intros []. Qed.
Next Obligation. intros d s s' H. simpl. by rewrite H. Qed.
Next Obligation. by intros []. Qed.
Next Obligation. by intros []. Qed.
Next Obligation. done. Qed.

(** ** The hooks, access by access *)

Abbreviation hprog := (prog hval hfx (bool * gmap Z qstat * gmap Z counted)).

Declare Scope prog_scope.
Delimit Scope prog_scope with prog.
Open Scope prog_scope.
Notation "'fetch' v ':=' l ';;' k" := (Rd l (fun v => k)) (at level 100, v name, l at level 50, k at level 200) : prog_scope.
Notation "'store' l 'by' f ';;' k" := (Up l f k) (at level 100, l at level 50, f at level 50, k at level 200) : prog_scope.
Notation "'count' c 'by' d ';;' k" := (Fx (H_count c d) k) (at level 100, c at level 50, d at level 50, k at level 200) : prog_scope.

Definition ret : hprog := Ret.

(** [host_entry]: [k] goes on with the slot of the request's record, or none. *)
Definition entry_steps (rq : Z) (k : option Z -> hprog) : hprog :=
  let slot := ntp_slot rq NTP_REC_SLOTS in
  fetch o := HL_rq slot;; if o =? rq then k (Some slot) else k None.

(** [ntp_stamp_once] on an event of the record in a slot. *)
Definition stamp_steps (slot : Z) (ev : ntp_host_ts) (now : Z) (k : hprog) : hprog :=
  fetch r := HL_rec slot;;
  if nz (hts r ev) then k else store HL_rec slot by (fun r => set_hts r ev now);; k.

Definition rx_enter_steps (e : env) (queue skb arrival now : Z) (k : hprog) : hprog :=
  store HL_rx (e_cpu e) by (fun _ => mk_host_rx (e_tid e) queue skb arrival now 0 0);; k.

Definition rx_exit_steps (e : env) : hprog :=
  fetch c := HL_rx (e_cpu e);;
  if x_tid c =? e_tid e then store HL_rx (e_cpu e) by rx_closed;; ret else ret.

(** [host_data_done] on the record in a slot; [c] is the context as it was read. *)
Definition data_done_steps (e : env) (slot : Z) (c : host_rx) (k : hprog) : hprog :=
  let k := store HL_rx (e_cpu e) by rx_idle;; k in
  if nz (x_busy_from c) && (x_busy_from c <=? e_now e)
  then store HL_rec slot by (fun r => add_busy r (u64 (e_now e - x_busy_from c)) (e_now e));; k
  else k.

Section Steps.
  Variable filter : ntp_filter.
  Context `{HT : HostTransport}.

Definition queue_rq_steps (K : kernel) (e : env) (bd : Z) : hprog :=
  Conf (fun c => if negb c.1.1 then ret
    else store HL_pend (e_cpu e) by (fun _ => mk_pending (e_tid e) (bd_rq K bd) 0 (e_now e) 0 0);; ret).

(** A command that is sampled, from the lookup of its slot on: the slot is taken last. *)
Definition sampled_steps (K : kernel) (e : env) (rq ctrl bytes instance queue ts qu qi : Z) (id : ntp_cmd_id) : hprog :=
  let hctx := rq_mq_hctx K rq in
  let queue := if negb (nz queue) then hctx_driver_data K hctx else queue in
  let ts := if negb (nz ts) then e_now e else ts in
  let slot := ntp_slot rq NTP_REC_SLOTS in
  let cslot := cid_slot_of queue (cid id) in
  let take :=
    store HL_rq slot by (fun _ => 0);;
    store HL_rec slot by (fun _ => zero_host_rec);;
    store HL_queue slot by (fun _ => queue);;
    store HL_rec slot by (fun _ => new_host_rec filter K rq hctx ctrl bytes instance ts qu qi id);;
    store HL_rq slot by (fun _ => rq);;
    store HL_cid cslot by (fun c => mk_cid_slot queue (cs_rq c) (cs_cid c));;
    store HL_cid cslot by (fun c => mk_cid_slot (cs_queue c) (cs_rq c) (cid id));;
    store HL_cid cslot by (fun c => mk_cid_slot (cs_queue c) rq (cs_cid c));;
    count NTP_CNT_HOST_SAMPLED by 1;; ret in
  fetch o := HL_rq slot;;
  if nz o then count NTP_CNT_STALE by 1;; take else Add 1 take.

(** A command of this transport: counted, and sampled when it passes the filters. *)
Definition command_steps (K : kernel) (e : env) (rq cmd queue ts qu qi : Z) : hprog :=
  match ntp_read_cmd K cmd with
  | None => ret
  | Some id =>
      if negb (ntp_is_rw (opcode id)) then ret
      else
        let bytes := u32 (rq_data_len K rq) in
        let w := opcode id =? NTP_NVME_CMD_WRITE in
        count (if w then NTP_CNT_HOST_WRITE_IOS else NTP_CNT_HOST_READ_IOS) by 1;;
        count (if w then NTP_CNT_HOST_WRITE_BYTES else NTP_CNT_HOST_READ_BYTES) by bytes;;
        let ctrl := nvme_request_ctrl K (u64 (rq + sizeof_request K)) in
        let instance := u32 (ctrl_instance_of K ctrl) in
        if io_type_matches filter (opcode id) && ntp_sampled filter (cid id) (slba id) (nlb id) &&
           ntp_size_matches filter bytes && ctrl_matches filter instance && nsid_matches filter (nsid id)
        then sampled_steps K e rq ctrl bytes instance queue ts qu qi id else ret
  end.

Definition setup_steps (K : kernel) (e : env) (rq cmd : Z) : hprog :=
  let other :=
    Conf (fun c => if negb c.1.1 then ret
      else if negb (nz (host_queue_of K rq)) then ret
      else command_steps K e rq cmd (host_queue_of K rq) 0 0 0) in
  if NTP_HOST_HOOKS_QUEUE_RQ || tracking filter then
    fetch p := HL_pend (e_cpu e);;
    if (p_tid p =? e_tid e) && (p_rq p =? rq) then
      store HL_pend (e_cpu e) by (fun p => mk_pending 0 (p_rq p) (p_queue p) (p_ts p) (p_q_unsent p) (p_q_inflight p));;
      command_steps K e rq cmd (p_queue p) (p_ts p) (p_q_unsent p) (p_q_inflight p)
    else other
  else other.

(** [host_complete]; [k] goes on with the slot of the record found. *)
Definition complete_steps (e : env) (rq : Z) (k : Z -> hprog) : hprog :=
  Busy (fun b => if negb b then ret
    else
      fetch c := HL_rx (e_cpu e);;
      if negb (x_tid c =? e_tid e) then ret
      else
        let key := ntp_scalar rq in
        entry_steps key (fun o =>
          match o with
          | None => ret
          | Some slot =>
              let rest :=
                store HL_rec slot by (fun r => set_hts r NTP_H_RSP_PROC (e_now e));;
                if x_data_rq c =? key then data_done_steps e slot c (k slot) else k slot in
              if nz (x_arrival c) then store HL_rec slot by (fun r => set_hts r NTP_H_RSP_ARR (x_arrival c));; rest
              else rest
          end)).

Definition nvme_done_steps (e : env) (rq : Z) : hprog :=
  Busy (fun b => if negb b then ret
    else entry_steps rq (fun o =>
      match o with Some slot => stamp_steps slot NTP_H_NVME_DONE (e_now e) ret | None => ret end)).

(** The end of [ntp_h_blk_done]: the record goes out, its index entry and its slot are
    given back. *)
Definition release_steps (slot : Z) : hprog :=
  let free := store HL_rq slot by (fun _ => 0);; Add (-1) ret in
  fetch queue := HL_queue slot;;
  fetch r := HL_rec slot;;
  fetch own := HL_rq slot;;
  let cslot := cid_slot_of queue (cid (h_id r)) in
  fetch c := HL_cid cslot;;
  if cs_rq c =? own then store HL_cid cslot by (fun c => mk_cid_slot (cs_queue c) 0 (cs_cid c));; free
  else free.

Definition output_steps (e : env) (slot : Z) : hprog :=
  fetch r := HL_rec slot;;
  if e_rb_full e then count NTP_CNT_RB_DROPS by 1;; release_steps slot
  else Fx (H_output r) (count NTP_CNT_HOST_EMITTED by 1;; release_steps slot).

(** [ntp_h_blk_done] after its test. *)
Definition blk_done_body (e : env) (rq : Z) : hprog :=
  entry_steps rq (fun o =>
    match o with
    | None => ret
    | Some slot =>
        let stamped := store HL_rec slot by (fun r => h_set_cpu r (e_cpu e));; output_steps e slot in
        store HL_rec slot by (fun r => set_hts r NTP_H_BLK_DONE (e_now e));;
        fetch r := HL_rec slot;;
        if (NTP_TRANSPORT =? NTP_TR_TCP) && has (flags (h_hdr r)) NTP_F_WRITE && negb (has (flags (h_hdr r)) NTP_F_R2T)
        then store HL_rec slot by (fun r => h_add_flag r NTP_F_INLINE_DATA);; stamped
        else stamped
    end).

Definition blk_done_steps (e : env) (rq : Z) : hprog :=
  Busy (fun b => if negb b then ret else blk_done_body e rq).

End Steps.

(** *** NVMe/TCP *)

Module TcpSteps.
Section Steps.
  Variable filter : ntp_filter.

Definition send_done_steps (K : kernel) (e : env) (req ret0 : Z) : hprog :=
  if negb (ret0 =? 1) then ret
  else
    Busy (fun b => if negb b then ret
      else if nz (tcp_queue_request K (tcp_req_queue K req)) then ret
      else entry_steps (rq_from_pdu K req) (fun o =>
        match o with
        | None => ret
        | Some slot =>
            fetch r := HL_rec slot;;
            if negb (nz (hts r NTP_H_CMD_SENT))
            then store HL_rec slot by (fun r => set_hts r NTP_H_CMD_SENT (e_now e));; ret
            else if nz (hts r NTP_H_R2T_PROC)
            then store HL_rec slot by (fun r => set_hts r NTP_H_DATA_SENT (e_now e));; ret
            else ret
        end)).

Definition send_enter_steps (e : env) (req : Z) : hprog :=
  store HL_send (e_cpu e) by (fun _ => mk_send_ctx (e_tid e) req);; ret.

Definition send_exit_steps (K : kernel) (e : env) (ret0 : Z) : hprog :=
  fetch c := HL_send (e_cpu e);;
  if s_tid c =? e_tid e then
    store HL_send (e_cpu e) by (fun c => mk_send_ctx 0 (s_req c));; send_done_steps K e (s_req c) ret0
  else ret.

Definition send_h2c_steps (K : kernel) (e : env) (req : Z) : hprog :=
  Busy (fun b => if negb b then ret
    else entry_steps (rq_from_pdu K req) (fun o =>
      match o with
      | None => ret
      | Some slot =>
          fetch r := HL_rec slot;;
          if nz (hts r NTP_H_R2T_PROC) then stamp_steps slot NTP_H_DATA_START (e_now e) ret else ret
      end)).

(** [tsend_found] on this CPU's context. *)
Definition tsend_found_steps (K : kernel) (e : env) (req : Z) : hprog :=
  store HL_tsend (e_cpu e) by
    (fun c => mk_tsend_ctx (ts_tid c) (ts_queue c) req (tcp_req_state K req =? NVME_TCP_SEND_CMD_PDU));;
  send_h2c_steps K e req.

Definition try_send_enter_steps (K : kernel) (e : env) (queue : Z) : hprog :=
  Busy (fun b => if negb b then ret
    else
      store HL_tsend (e_cpu e) by (fun c => mk_tsend_ctx (e_tid e) queue 0 (ts_cmd_pdu c));;
      let req := tcp_queue_request K queue in
      if nz req then tsend_found_steps K e req else ret).

Definition sock_send_steps (K : kernel) (e : env) (sock : Z) : hprog :=
  Busy (fun b => if negb b then ret
    else
      fetch c := HL_tsend (e_cpu e);;
      if negb (ts_tid c =? e_tid e) || nz (ts_req c) then ret
      else if negb (sk_user_data K (socket_sk K sock) =? ts_queue c) then ret
      else
        let req := tcp_queue_request K (ts_queue c) in
        if nz req then tsend_found_steps K e req else ret).

Definition try_send_exit_steps (K : kernel) (e : env) (ret0 : Z) : hprog :=
  fetch c := HL_tsend (e_cpu e);;
  if ts_tid c =? e_tid e then
    store HL_tsend (e_cpu e) by (fun c => mk_tsend_ctx 0 (ts_queue c) (ts_req c) (ts_cmd_pdu c));;
    if negb (nz (ts_req c)) then ret else send_done_steps K e (ts_req c) ret0
  else ret.

Definition recv_skb_steps (K : kernel) (e : env) (skb : Z) : hprog :=
  Busy (fun b => if negb b then ret
    else rx_enter_steps e (sk_user_data K (skb_sk K skb)) skb (ntp_skb_arrival filter K skb (e_now e)) (e_now e) ret).

Definition recv_skb_exit_steps (e : env) : hprog :=
  let close := store HL_rx (e_cpu e) by rx_closed;; ret in
  fetch c := HL_rx (e_cpu e);;
  if negb (x_tid c =? e_tid e) then ret
  else if nz (x_data_rq c) then
    entry_steps (x_data_rq c) (fun o =>
      match o with Some slot => data_done_steps e slot c close | None => close end)
  else close.

(** [on_copy] when the read changes that the call counts for: [switched] says it counted for another. *)
Definition copy_starts (e : env) (slot rq : Z) (c : host_rx) (switched : bool) : hprog :=
  fetch r := HL_rec slot;;
  if negb (nz (hts r NTP_H_C2H_PROC)) then
    store HL_rec slot by (fun r => set_hts r NTP_H_C2H_ARR (x_arrival c));;
    store HL_rec slot by (fun r => set_hts r NTP_H_C2H_PROC (e_now e));;
    store HL_rx (e_cpu e) by (fun c => TcpHost.rx_counts c rq (e_now e));; ret
  else store HL_rx (e_cpu e) by (fun c => TcpHost.rx_counts c rq (if switched then e_now e else x_enter c));; ret.

Definition copy_steps (K : kernel) (e : env) (skb : Z) : hprog :=
  Busy (fun b => if negb b then ret
    else
      fetch c := HL_rx (e_cpu e);;
      if negb (x_tid c =? e_tid e) || negb (x_skb c =? skb) then ret
      else
        match tcp_queue_pdu K (x_queue c) with
        | None => ret
        | Some (type, command_id) =>
            if negb (type =? nvme_tcp_c2h_data) then ret
            else
              fetch cs := HL_cid (cid_slot_of (x_queue c) command_id);;
              if negb (cs_queue cs =? x_queue c) || negb (cs_cid cs =? command_id) then ret
              else entry_steps (cs_rq cs) (fun o =>
                match o with
                | None => ret
                | Some slot =>
                    store HL_rec slot by (fun r => set_hts r NTP_H_C2H_LAST_ARR (x_arrival c));;
                    if x_data_rq c =? cs_rq cs then ret
                    else if nz (x_data_rq c) then
                      entry_steps (x_data_rq c) (fun prev =>
                        match prev with
                        | Some pslot => data_done_steps e pslot c (copy_starts e slot (cs_rq cs) c true)
                        | None => copy_starts e slot (cs_rq cs) c true
                        end)
                    else copy_starts e slot (cs_rq cs) c false
                end)
        end).

Definition r2t_steps (K : kernel) (e : env) (req : Z) : hprog :=
  fetch c := HL_rx (e_cpu e);;
  if negb (x_tid c =? e_tid e) then ret
  else entry_steps (rq_from_pdu K req) (fun o =>
    match o with
    | None => ret
    | Some slot =>
        fetch r := HL_rec slot;;
        if nz (hts r NTP_H_R2T_PROC) then store HL_rec slot by (fun r => h_add_flag r NTP_F_MULTI_R2T);; ret
        else
          store HL_rec slot by (fun r => h_add_flag r NTP_F_R2T);;
          store HL_rec slot by (fun r => set_hts r NTP_H_R2T_ARR (x_arrival c));;
          store HL_rec slot by (fun r => set_hts r NTP_H_R2T_PROC (e_now e));; ret
    end).

Definition tcp_complete_steps (K : kernel) (e : env) (rq : Z) : hprog :=
  complete_steps e rq (fun slot =>
    fetch r := HL_rec slot;;
    if negb (nz (hts r NTP_H_C2H_PROC)) then ret
    else
      fetch c := HL_rx (e_cpu e);;
      if negb (x_tid c =? e_tid e) then ret
      else
        let type := default 0 (tcp_queue_pdu_type K (x_queue c)) in
        if type =? nvme_tcp_c2h_data then store HL_rec slot by (fun r => h_add_flag r NTP_F_DATA_SUCCESS);; ret
        else ret).

End Steps.
End TcpSteps.

(** *** NVMe/RDMA *)

Module RdmaSteps.
  Import RdmaHost.

Definition stamp_entry (rq : Z) (ev : ntp_host_ts) (now : Z) (k : hprog) : hprog :=
  entry_steps rq (fun o => match o with Some slot => stamp_steps slot ev now k | None => k end).

Definition posted_steps (K : kernel) (e : env) (qe ret0 : Z) : hprog :=
  if nz ret0 then ret
  else Busy (fun b => if negb b then ret else stamp_entry (rq_of_sqe K qe) NTP_H_CMD_SENT (e_now e) ret).

Definition post_enter_steps (e : env) (qe : Z) : hprog :=
  store HL_post (e_cpu e) by (fun _ => mk_post_ctx (e_tid e) qe);; ret.

Definition post_exit_steps (K : kernel) (e : env) (ret0 : Z) : hprog :=
  fetch c := HL_post (e_cpu e);;
  if po_tid c =? e_tid e then
    store HL_post (e_cpu e) by (fun c => mk_post_ctx 0 (po_qe c));; posted_steps K e (po_qe c) ret0
  else ret.

Definition rdma_send_done_steps (K : kernel) (e : env) (wc : Z) : hprog :=
  Busy (fun b => if negb b then ret
    else stamp_entry (rq_of_sqe K (wc_wr_cqe K wc)) NTP_H_SEND_DONE (e_now e)
           (rx_enter_steps e (wc_qp_context K wc) 0 0 0 ret)).

Definition recv_done_steps (K : kernel) (e : env) (wc : Z) : hprog :=
  Busy (fun b => if negb b then ret
    else
      let queue := wc_qp_context K wc in
      let enter := rx_enter_steps e queue 0 0 0 ret in
      match cqe_command_id K (qe_data K (wc_wr_cqe K wc)) with
      | Some cid =>
          fetch s := HL_cid (cid_slot_of queue cid);;
          if (cs_queue s =? queue) && (cs_cid s =? cid) then stamp_entry (cs_rq s) NTP_H_RSP_ARR (e_now e) enter
          else enter
      | None => enter
      end).

Definition inv_done_steps (K : kernel) (e : env) (wc : Z) : hprog :=
  Busy (fun b => if b then rx_enter_steps e (wc_qp_context K wc) 0 0 0 ret else ret).

End RdmaSteps.

(** ** The programs and the hooks as wholes *)

Definition tcp_code (filter : ntp_filter) (x : kernel * env * tcp_host_ev) : hprog :=
  let '(K, e, ev) := x in
  match ev with
  | TH_queue_rq _ bd => queue_rq_steps K e bd
  | TH_setup_cmd rq cmd => setup_steps (HT := TcpHost.tcp_host) filter K e rq cmd
  | TH_send_done req r _ => TcpSteps.send_done_steps K e req r
  | TH_send_enter req => TcpSteps.send_enter_steps e req
  | TH_send_exit r _ => TcpSteps.send_exit_steps K e r
  | TH_send_h2c req => TcpSteps.send_h2c_steps K e req
  | TH_try_send_exit r => TcpSteps.try_send_exit_steps K e r
  | TH_recv_skb skb => TcpSteps.recv_skb_steps filter K e skb
  | TH_recv_skb_exit => TcpSteps.recv_skb_exit_steps e
  | TH_copy skb => TcpSteps.copy_steps K e skb
  | TH_r2t req => TcpSteps.r2t_steps K e req
  | TH_complete rq => TcpSteps.tcp_complete_steps K e rq
  | TH_nvme_done rq => nvme_done_steps e rq
  | TH_blk_done rq => blk_done_steps (HT := TcpHost.tcp_host) e rq
  | TH_try_send_enter queue => TcpSteps.try_send_enter_steps K e queue
  | TH_sock_send sock => TcpSteps.sock_send_steps K e sock
  | TH_arm _ => ret (* no hook: a store of user space *)
  end.

Definition rdma_code (filter : ntp_filter) (x : kernel * env * rdma_host_ev) : hprog :=
  let '(K, e, ev) := x in
  match ev with
  | RH_queue_rq _ bd => queue_rq_steps K e bd
  | RH_setup_cmd rq cmd => setup_steps (HT := RdmaHost.rdma_host) filter K e rq cmd
  | RH_posted qe r => RdmaSteps.posted_steps K e qe r
  | RH_post_enter qe => RdmaSteps.post_enter_steps e qe
  | RH_post_exit r => RdmaSteps.post_exit_steps K e r
  | RH_send_done wc => RdmaSteps.rdma_send_done_steps K e wc
  | RH_recv_done wc => RdmaSteps.recv_done_steps K e wc
  | RH_inv_done wc => RdmaSteps.inv_done_steps K e wc
  | RH_rx_exit => rx_exit_steps e
  | RH_complete rq => complete_steps e rq (fun _ => ret)
  | RH_nvme_done rq => nvme_done_steps e rq
  | RH_blk_done rq => blk_done_steps (HT := RdmaHost.rdma_host) e rq
  | RH_arm _ => ret (* no hook: a store of user space *)
  end.

(** *** The same state

    [same_state] compares two states location by location. *)
Ltac same_slot :=
  repeat match goal with
  | |- context [Z.eqb ?i ?i] => rewrite (Z.eqb_refl i)
  | |- context [if ?i =? ?j then _ else _] => destruct (Z.eqb_spec i j); subst
  end.
Ltac same_state :=
  split; [intros []; cbn; unfold arr_set; same_slot; try done
         |split; [try (by split)|split; try done]].

Lemma set_hts_same r ev : nz (hts r ev) = true -> set_hts r ev (hts r ev) = r.
Proof.
  unfold set_hts, hts. destruct r as [? ? ? ? ? ? ? ? ts ? ? ?]; simpl. intros Hn.
  destruct (ts !! h_idx ev) as [v|] eqn:E; [|done]. simpl. by rewrite list_insert_id.
Qed.

#[local] Arguments entry_steps : simpl never.
#[local] Arguments stamp_steps : simpl never.
#[local] Arguments data_done_steps : simpl never.
#[local] Arguments release_steps : simpl never.
#[local] Arguments output_steps : simpl never.
#[local] Arguments sampled_steps : simpl never.
#[local] Arguments command_steps : simpl never.
#[local] Arguments complete_steps : simpl never.
#[local] Arguments TcpSteps.send_done_steps : simpl never.
#[local] Arguments TcpSteps.copy_starts : simpl never.
#[local] Arguments RdmaSteps.stamp_entry : simpl never.
#[local] Arguments RdmaSteps.posted_steps : simpl never.

Lemma entry_steps_run rq k s :
  run (entry_steps rq k) s = run (k (fst <$> host_entry_of s rq)) s.
Proof.
  unfold entry_steps, host_entry_of. rewrite arr_lookup_slot. cbn.
  by destruct (he_rq (reqs s (ntp_slot rq NTP_REC_SLOTS)) =? rq).
Qed.

Lemma stamp_steps_run slot ev now k s :
  run (stamp_steps slot ev now k) s ≡
  run k (set_rec s slot (set_hts (he_rec (reqs s slot)) ev (ntp_stamp_once (hts (he_rec (reqs s slot)) ev) now))).
Proof.
  unfold stamp_steps, ntp_stamp_once. cbn. destruct (nz _) eqn:E; cbn; apply run_proper.
  - rewrite set_hts_same by done. same_state; by destruct (reqs s slot).
  - same_state.
Qed.

Lemma nvme_done_run e rq s : run (nvme_done_steps e rq) s ≡ ntp_h_nvme_done e s rq.
Proof.
  unfold nvme_done_steps, ntp_h_nvme_done. cbn. destruct (nz (inflight s)); [|done]. cbn.
  rewrite entry_steps_run. destruct (host_entry_of s rq) as [[slot he]|] eqn:E; [|done].
  apply host_entry_found in E as (_ & -> & _). cbn. by rewrite stamp_steps_run.
Qed.

Lemma data_done_run e slot c k s :
  run (data_done_steps e slot c k) s ≡
  run k (set_rx (set_rec s slot (host_data_done (he_rec (reqs s slot)) c (e_now e)).1) (e_cpu e) (rx_idle (rx_ctx s (e_cpu e)))).
Proof.
  unfold data_done_steps, host_data_done. destruct (_ && _); cbn; apply run_proper; [same_state|].
  same_state; by destruct (reqs s slot).
Qed.

Lemma stamp_entry_run rq ev e k s :
  run (RdmaSteps.stamp_entry rq ev (e_now e) k) s ≡ run k (RdmaHost.stamp_slot e s (host_entry_of s rq) ev).
Proof.
  unfold RdmaSteps.stamp_entry, RdmaHost.stamp_slot. rewrite entry_steps_run.
  destruct (host_entry_of s rq) as [[slot he]|] eqn:E; [|done].
  apply host_entry_found in E as (_ & -> & _). cbn. by rewrite stamp_steps_run.
Qed.

Section Run.
  Variable filter : ntp_filter.
  Hypothesis Hnt : tracking filter = false.

Lemma idle_run v : ntp_idle filter v = negb (nz v).
Proof. unfold ntp_idle. rewrite Hnt. by rewrite andb_true_r. Qed.

Lemma complete_run K e rq k s :
  run (complete_steps e rq k) s ≡
  match host_complete filter K e s rq with (None, s') => s' | (Some slot, s') => run (k slot) s' end.
Proof.
  unfold complete_steps, host_complete. rewrite idle_run, Hnt. cbn. destruct (nz (inflight s)); [|done]. cbn.
  unfold get_rx. destruct (x_tid (rx_ctx s (e_cpu e)) =? e_tid e); [|done]. cbn.
  rewrite entry_steps_run. destruct (host_entry_of s (ntp_scalar rq)) as [[slot he]|] eqn:E; [|done].
  apply host_entry_found in E as (_ & -> & _). cbn. set (c := rx_ctx s (e_cpu e)).
  set (r := set_hts _ NTP_H_RSP_PROC _).
  transitivity (run (if x_data_rq c =? ntp_scalar rq then data_done_steps e slot c (k slot) else k slot) (set_rec s slot r)).
  { subst r. destruct (nz (x_arrival c)); cbn; apply run_proper; same_state. }
  destruct (x_data_rq c =? ntp_scalar rq); [|done]. rewrite data_done_run. cbn. apply run_proper. same_state.
Qed.

Context `{HT : HostTransport}.

Lemma queue_rq_run K e hctx bd s : run (queue_rq_steps K e bd) s ≡ host_queue_rq filter K e s hctx bd.
Proof. unfold queue_rq_steps, host_queue_rq. rewrite Hnt. cbn. destruct (armed s); [|done]. same_state. Qed.

Lemma sampled_run K e rq ctrl bytes instance queue ts qu qi id s :
  run (sampled_steps filter K e rq ctrl bytes instance queue ts qu qi id) s ≡
  setup_sampled filter K e s rq ctrl bytes instance queue ts qu qi id.
Proof.
  unfold sampled_steps, setup_sampled. cbv zeta. rewrite arr_lookup_slot. cbn.
  destruct (nz (he_rq _)); same_state.
Qed.

Lemma command_run K e rq cmd queue ts qu qi s :
  run (command_steps filter K e rq cmd queue ts qu qi) s ≡
  match ntp_read_cmd K cmd with
  | None => s
  | Some id =>
      if negb (ntp_is_rw (opcode id)) then s
      else
        let bytes := u32 (rq_data_len K rq) in
        let s := count_host_io s (opcode id) bytes in
        if negb (io_type_matches filter (opcode id)) then s
        else if negb (ntp_sampled filter (cid id) (slba id) (nlb id)) then s
        else if negb (ntp_size_matches filter bytes) then s
        else
          let ctrl := nvme_request_ctrl K (u64 (rq + sizeof_request K)) in
          let instance := u32 (ctrl_instance_of K ctrl) in
          if negb (ctrl_matches filter instance) then s
          else if negb (nsid_matches filter (nsid id)) then s
          else setup_sampled filter K e s rq ctrl bytes instance queue ts qu qi id
  end.
Proof.
  unfold command_steps, count_host_io. destruct (ntp_read_cmd K cmd) as [id|]; [|done].
  destruct (ntp_is_rw (opcode id)); [|done]. cbn.
  destruct (io_type_matches _ _); [|done]. destruct (ntp_sampled _ _ _ _); [|done].
  destruct (ntp_size_matches _ _); [|done]. destruct (ctrl_matches _ _); [|done].
  destruct (nsid_matches _ _); [|done]. apply sampled_run.
Qed.

Ltac other Hother :=
  rewrite Hother; destruct (armed _); [|done]; destruct (nz (host_queue_of _ _)); [|done]; cbn [negb]; by rewrite command_run.

Lemma setup_run K e rq cmd s : run (setup_steps filter K e rq cmd) s ≡ ntp_h_setup_cmd filter K e s rq cmd.
Proof.
  assert (forall s', run (Conf (fun c => if negb c.1.1 then ret
      else if negb (nz (host_queue_of K rq)) then ret
      else command_steps filter K e rq cmd (host_queue_of K rq) 0 0 0)) s' ≡
    if negb (armed s') then s' else if negb (nz (host_queue_of K rq)) then s'
    else run (command_steps filter K e rq cmd (host_queue_of K rq) 0 0 0) s') as Hother.
  { intros s'. cbn. destruct (armed s'); [|done]. by destruct (nz (host_queue_of K rq)). }
  unfold setup_steps, ntp_h_setup_cmd. cbv zeta. destruct (_ || _).
  - cbn [run]. unfold get_pend. cbn [get host_shared hget].
    destruct (p_tid (pend s (e_cpu e)) =? e_tid e); cbn [andb].
    + destruct (p_rq (pend s (e_cpu e)) =? rq).
      * cbn [run upd host_shared hupd]. by rewrite command_run.
      * other Hother.
    + other Hother.
  - other Hother.
Qed.

Lemma blk_done_run e rq s :
  nz (inflight s) = true -> run (blk_done_body e rq) s ≡ ntp_h_blk_done e s rq.
Proof.
  intros Hi. unfold blk_done_body, ntp_h_blk_done. rewrite Hi, entry_steps_run. cbn [negb].
  destruct (host_entry_of s rq) as [[slot he]|] eqn:E; [|done].
  apply host_entry_found in E as (_ & -> & _). set (r := finished_rec e (he_rec (reqs s slot))).
  transitivity (run (output_steps e slot) (set_rec s slot r)).
  { subst r. unfold finished_rec. cbn [run get upd host_shared hget hupd fst fmap option_fmap option_map].
    cbn [reqs set_entry]. rewrite arr_set_eq. cbn [he_rec]. cbv zeta. destruct (_ && _ && _); cbn [run]; apply run_proper; same_state. }
  clearbody r. unfold output_steps. cbn. rewrite arr_set_eq. cbn.
  destruct (e_rb_full e); unfold release_steps; cbn; rewrite !arr_set_eq; unfold cid_slot_of;
    rewrite arr_lookup_slot; cbn; case_match; cbn; rewrite ?arr_set_eq; same_state.
Qed.

(** *** NVMe/TCP *)

Lemma send_done_run K e req r c s : run (TcpSteps.send_done_steps K e req r) s ≡ TcpHost.on_send_done filter K e s req r c.
Proof.
  unfold TcpSteps.send_done_steps, TcpHost.on_send_done. rewrite idle_run, Hnt, andb_false_r.
  destruct (r =? 1); [|done]. cbn. destruct (nz (inflight s)); [|done]. cbn. destruct (nz (tcp_queue_request K _)); [done|].
  rewrite entry_steps_run. destruct (host_entry_of s _) as [[slot he]|] eqn:E; [|done].
  apply host_entry_found in E as (_ & -> & _). cbn. destruct (negb _); [same_state|]. destruct (nz _); [same_state|done].
Qed.

Lemma send_exit_run K e r c s : run (TcpSteps.send_exit_steps K e r) s ≡ TcpHost.send_exit filter K e s r c.
Proof.
  unfold TcpSteps.send_exit_steps, TcpHost.send_exit, get_send. cbn. destruct (s_tid _ =? e_tid e); [|done]. cbn.
  apply send_done_run.
Qed.

Lemma send_h2c_run K e req s : run (TcpSteps.send_h2c_steps K e req) s ≡ TcpHost.on_send_h2c K e s req.
Proof.
  unfold TcpSteps.send_h2c_steps, TcpHost.on_send_h2c. cbn. destruct (nz (inflight s)); [|done]. cbn.
  rewrite entry_steps_run. destruct (host_entry_of s _) as [[slot he]|] eqn:E; [|done].
  apply host_entry_found in E as (_ & -> & _). cbn. destruct (nz _); [|done]. by rewrite stamp_steps_run.
Qed.

Lemma tsend_found_run K e c req s :
  c = tsend_c s (e_cpu e) -> run (TcpSteps.tsend_found_steps K e req) s ≡ TcpHost.tsend_found K e s c req.
Proof. intros ->. unfold TcpSteps.tsend_found_steps, TcpHost.tsend_found. cbn [run upd host_shared hupd]. apply send_h2c_run. Qed.

Lemma try_send_enter_run K e queue s :
  run (TcpSteps.try_send_enter_steps K e queue) s ≡ TcpHost.try_send_enter filter K e s queue.
Proof.
  unfold TcpSteps.try_send_enter_steps, TcpHost.try_send_enter. rewrite idle_run. cbn [run gauge host_shared].
  destruct (nz (inflight s)); [|done]. cbn [negb run upd host_shared hupd]. destruct (nz _); [|done].
  apply tsend_found_run. cbn. by rewrite arr_set_eq.
Qed.

Lemma sock_send_run K e sock s : run (TcpSteps.sock_send_steps K e sock) s ≡ TcpHost.on_sock_send filter K e s sock.
Proof.
  unfold TcpSteps.sock_send_steps, TcpHost.on_sock_send, get_tsend. rewrite idle_run. cbn [run gauge host_shared].
  destruct (nz (inflight s)); [|done]. cbn [negb run get host_shared hget].
  destruct (ts_tid _ =? e_tid e); [|done]. cbn [negb orb]. destruct (nz (ts_req _)); [done|].
  destruct (_ =? _); [|done]. cbn [negb]. destruct (nz _); [|done]. by apply tsend_found_run.
Qed.

Lemma try_send_exit_run K e r s : run (TcpSteps.try_send_exit_steps K e r) s ≡ TcpHost.try_send_exit filter K e s r.
Proof.
  unfold TcpSteps.try_send_exit_steps, TcpHost.try_send_exit, get_tsend. rewrite Hnt. cbn.
  destruct (ts_tid _ =? e_tid e); [|done]. cbn. rewrite andb_false_r. destruct (nz _); [|done]. cbn. apply send_done_run.
Qed.

Lemma recv_skb_run K e skb s : run (TcpSteps.recv_skb_steps filter K e skb) s ≡ TcpHost.on_recv_skb filter K e s skb.
Proof. unfold TcpSteps.recv_skb_steps, TcpHost.on_recv_skb. rewrite idle_run. cbn. by destruct (nz (inflight s)). Qed.

Lemma recv_skb_exit_run e s : run (TcpSteps.recv_skb_exit_steps e) s ≡ TcpHost.on_recv_skb_exit e s.
Proof.
  unfold TcpSteps.recv_skb_exit_steps, TcpHost.on_recv_skb_exit, get_rx. cbn.
  destruct (x_tid (rx_ctx s (e_cpu e)) =? e_tid e); [|done]. cbn. destruct (nz (x_data_rq _)); [|done].
  rewrite entry_steps_run. destruct (host_entry_of s _) as [[slot he]|] eqn:E; [|done].
  apply host_entry_found in E as (_ & -> & _). cbn. rewrite data_done_run. cbn. same_state.
Qed.

(** The call starts to count for a read. *)
Lemma copy_starts_run e slot rq c switched s :
  x_arrival c = x_arrival (rx_ctx s (e_cpu e)) ->
  run (TcpSteps.copy_starts e slot rq c switched) s ≡
    let r := he_rec (reqs s slot) in
    let c := rx_ctx s (e_cpu e) in
    if negb (nz (hts r NTP_H_C2H_PROC)) then
      set_rx (set_rec s slot (set_hts (set_hts r NTP_H_C2H_ARR (x_arrival c)) NTP_H_C2H_PROC (e_now e))) (e_cpu e)
        (TcpHost.rx_counts c rq (e_now e))
    else set_rx s (e_cpu e) (TcpHost.rx_counts c rq (if switched then e_now e else x_enter c)).
Proof.
  intros Hc. unfold TcpSteps.copy_starts. cbn. rewrite <- Hc. destruct (negb _); cbn; same_state.
Qed.

Lemma copy_run K e skb s : run (TcpSteps.copy_steps K e skb) s ≡ TcpHost.on_copy filter K e s skb.
Proof.
  unfold TcpSteps.copy_steps, TcpHost.on_copy, get_rx. rewrite idle_run. cbn. destruct (nz (inflight s)); [|done]. cbn.
  destruct (x_tid (rx_ctx s (e_cpu e)) =? e_tid e); [|done]. cbn. destruct (x_skb _ =? skb); [|done]. cbn.
  destruct (tcp_queue_pdu K _) as [[type command_id]|]; [|done]. destruct (type =? nvme_tcp_c2h_data); [|done]. cbn.
  unfold cid_slot_of. rewrite arr_lookup_slot. set (cs := cid_idx s _). destruct (_ || _); [done|].
  rewrite entry_steps_run. destruct (host_entry_of s (cs_rq cs)) as [[slot he]|] eqn:E; [|done].
  apply host_entry_found in E as (_ & -> & Hrq). cbn [run upd host_shared hupd fst fmap option_fmap option_map].
  set (r := set_hts _ NTP_H_C2H_LAST_ARR _). change (set_entry s slot _) with (set_rec s slot r).
  set (s1 := set_rec s slot r). rewrite Hrq. assert (rx_ctx s (e_cpu e) = rx_ctx s1 (e_cpu e)) as Hc by done.
  rewrite Hc. clearbody s1. clear r Hc Hrq. set (c := rx_ctx s1 (e_cpu e)).
  destruct (x_data_rq c =? cs_rq cs); [done|]. destruct (nz (x_data_rq c)); cbv zeta.
  - rewrite entry_steps_run. destruct (host_entry_of s1 (x_data_rq c)) as [[pslot prev]|] eqn:E.
    + apply host_entry_found in E as (_ & -> & _). cbn [fst fmap option_fmap option_map]. rewrite data_done_run.
      rewrite copy_starts_run by (cbn; by rewrite arr_set_eq). cbn. rewrite arr_set_eq. case_match; same_state.
    + by apply copy_starts_run.
  - by apply copy_starts_run.
Qed.

Lemma r2t_run K e req s : run (TcpSteps.r2t_steps K e req) s ≡ TcpHost.on_r2t K e s req.
Proof.
  unfold TcpSteps.r2t_steps, TcpHost.on_r2t, get_rx. cbn. destruct (x_tid _ =? e_tid e); [|done]. cbn.
  rewrite entry_steps_run. destruct (host_entry_of s _) as [[slot he]|] eqn:E; [|done].
  apply host_entry_found in E as (_ & -> & _). cbn. destruct (nz _); same_state.
Qed.

Lemma tcp_complete_run K e rq s : run (TcpSteps.tcp_complete_steps K e rq) s ≡ TcpHost.on_complete filter K e s rq.
Proof.
  unfold TcpSteps.tcp_complete_steps, TcpHost.on_complete. rewrite (complete_run K).
  destruct (host_complete filter K e s rq) as [[slot|] s']; [|done]. cbn. destruct (nz _); [|done]. cbn.
  unfold get_rx. destruct (x_tid _ =? e_tid e); [|done]. cbn. destruct (_ =? nvme_tcp_c2h_data); [|done]. same_state.
Qed.

(** *** NVMe/RDMA *)

Lemma posted_run K e qe r s : run (RdmaSteps.posted_steps K e qe r) s ≡ RdmaHost.on_posted filter K e s qe r.
Proof.
  unfold RdmaSteps.posted_steps, RdmaHost.on_posted. rewrite idle_run, Hnt. destruct (nz r); [done|]. cbn.
  destruct (nz (inflight s)); [|done]. cbn. by rewrite stamp_entry_run.
Qed.

Lemma post_exit_run K e r s : run (RdmaSteps.post_exit_steps K e r) s ≡ RdmaHost.ntp_hr_post_kr filter K e s r.
Proof.
  unfold RdmaSteps.post_exit_steps, RdmaHost.ntp_hr_post_kr, get_post. cbn. destruct (po_tid _ =? e_tid e); [|done]. cbn.
  apply posted_run.
Qed.

Lemma rdma_send_done_run K e wc s : run (RdmaSteps.rdma_send_done_steps K e wc) s ≡ RdmaHost.on_send_done filter K e s wc.
Proof.
  unfold RdmaSteps.rdma_send_done_steps, RdmaHost.on_send_done. rewrite idle_run. cbn.
  destruct (nz (inflight s)); [|done]. cbn. by rewrite stamp_entry_run.
Qed.

Lemma recv_done_run K e wc s : run (RdmaSteps.recv_done_steps K e wc) s ≡ RdmaHost.on_recv_done filter K e s wc.
Proof.
  unfold RdmaSteps.recv_done_steps, RdmaHost.on_recv_done, host_rec_by_cid. rewrite idle_run. cbn.
  destruct (nz (inflight s)); [|done]. cbn. destruct (cqe_command_id K _) as [i|]; [|done]. cbn.
  unfold cid_slot_of. rewrite arr_lookup_slot. destruct (_ && _); [|done]. by rewrite stamp_entry_run.
Qed.

Lemma inv_done_run K e wc s : run (RdmaSteps.inv_done_steps K e wc) s ≡ RdmaHost.on_inv_done filter K e s wc.
Proof. unfold RdmaSteps.inv_done_steps, RdmaHost.on_inv_done. rewrite idle_run. cbn. by destruct (nz (inflight s)). Qed.

Lemma rx_exit_run e s : run (rx_exit_steps e) s ≡ host_rx_exit e s.
Proof. unfold rx_exit_steps, host_rx_exit, get_rx. cbn. by destruct (x_tid _ =? e_tid e). Qed.

Lemma rdma_complete_run K e rq s : run (complete_steps e rq (fun _ => ret)) s ≡ (host_complete filter K e s rq).2.
Proof. rewrite (complete_run K). by destruct (host_complete filter K e s rq) as [[slot|] s']. Qed.

End Run.
