(* ===== verification/HostAtomic.v ===== *)
(** * Hooks of a host object that run at the same time

    The host objects implement the interface of Interleave.v with the programs of
    HostSteps.v, for filters that do not count queues.  Hooks on different CPUs, slots and index entries come to what they come
    to one after the other, so that what is shown of runs of whole hooks (BpfHost.v) holds
    for hooks that overlap.  Two commands on one slot at the same moment are another
    matter: [collision_loses_count]. *)
From stdpp Require Import base numbers list gmap.
From Stdlib Require Import ZArith Lia.
From S2P Require Import Prelude Types BpfCommon BpfHost Interleave HostSteps.

(** ** What the hooks do with the count of records in flight *)

(** [silent] and [simple] follow the branches of a program. *)
Ltac quiet :=
  repeat first [ done | progress (intros; cbn)
               | match goal with
                 | |- context [match ?o with _ => _ end] => destruct o
                 | |- _ /\ _ => split
                 end ].

Lemma stamp_silent slot ev now k : silent k -> silent (stamp_steps slot ev now k).
Proof. unfold stamp_steps. quiet. Qed.
Lemma data_done_silent e slot c k : silent k -> silent (data_done_steps e slot c k).
Proof. unfold data_done_steps. quiet. Qed.
Lemma stamp_entry_silent rq ev now k : silent k -> silent (RdmaSteps.stamp_entry rq ev now k).
Proof. unfold RdmaSteps.stamp_entry, entry_steps. quiet; by apply stamp_silent. Qed.
Lemma copy_starts_silent e slot rq c sw : silent (TcpSteps.copy_starts e slot rq c sw).
Proof. unfold TcpSteps.copy_starts. quiet. Qed.
Lemma copy_silent K e skb : simple (TcpSteps.copy_steps K e skb).
Proof.
  unfold TcpSteps.copy_steps, entry_steps. quiet; auto using data_done_silent, copy_starts_silent.
Qed.

Lemma send_done_simple K e req r : simple (TcpSteps.send_done_steps K e req r).
Proof. unfold TcpSteps.send_done_steps, entry_steps. quiet. Qed.
Lemma posted_simple K e qe r : simple (RdmaSteps.posted_steps K e qe r).
Proof. unfold RdmaSteps.posted_steps. quiet. Qed.
Lemma complete_simple e rq k : (forall slot, silent (k slot)) -> simple (complete_steps e rq k).
Proof. intros Hk. unfold complete_steps, entry_steps. quiet; auto using data_done_silent. Qed.
Lemma command_simple `{HostTransport} filter K e rq cmd q ts qu qi : simple (command_steps filter K e rq cmd q ts qu qi).
Proof. unfold command_steps, sampled_steps. quiet. Qed.
Lemma setup_simple `{HostTransport} filter K e rq cmd : simple (setup_steps filter K e rq cmd).
Proof. unfold setup_steps. quiet; apply command_simple. Qed.
Lemma nvme_done_simple e rq : simple (nvme_done_steps e rq).
Proof. unfold nvme_done_steps, entry_steps. quiet. Qed.
Lemma blk_body_simple `{HostTransport} e rq : simple (blk_done_body e rq).
Proof. unfold blk_done_body, output_steps, release_steps, entry_steps. quiet. Qed.

(** ** The invariant of an object does not depend on the order of its records *)

#[export] Instance host_books_proper `{HostTransport} filter : Proper ((≡) ==> iff) (host_books filter).
Proof.
  assert (forall s s' : host_st, s ≡ s' -> host_books filter s -> host_books filter s') as Himp.
  { intros s s' (H1 & [H2 H3] & H4 & _) [B1 B2 B3 B4 B5]. simpl in *.
    assert (forall i, reqs s' i = reqs s i) as Hr.
    { intros i. pose proof (H1 (HL_rq i)) as E1. pose proof (H1 (HL_queue i)) as E2. pose proof (H1 (HL_rec i)) as E3.
      simpl in *. destruct (reqs s i), (reqs s' i). simpl in *. by subst. }
    split.
    - rewrite <- H4, B1. symmetry. apply owned_ext. intros i. by rewrite Hr.
    - by rewrite <- !H2, <- H4.
    - by rewrite <- H2, <- H3.
    - intros i. rewrite Hr. apply B4.
    - by rewrite <- H3. }
  intros s s' Hs. split; apply Himp; [done|by symmetry].
Qed.

(** Nothing is in flight: no slot has an owner. *)
Lemma books_idle `{HostTransport} filter s rq :
  host_books filter s -> inflight s = 0 -> rq <> 0 -> host_entry_of s rq = None.
Proof.
  intros [B1 _ _ _ _] H0 Hrq. unfold host_entry_of. rewrite arr_lookup_slot.
  destruct (Z.eqb_spec (he_rq (reqs s (ntp_slot rq NTP_REC_SLOTS))) rq) as [E|]; [|done].
  pose proof (owned_pos he_rq (reqs s) rq) as Hp. rewrite E in Hp. specialize (Hp Hrq). lia.
Qed.

Lemma blk_body_run `{HostTransport} filter e rq s :
  rq <> 0 -> host_books filter s -> run (blk_done_body e rq) s ≡ ntp_h_blk_done e s rq.
Proof.
  intros Hrq Hb. destruct (nz (inflight s)) eqn:E; [by apply blk_done_run|].
  unfold blk_done_body, ntp_h_blk_done. rewrite E, entry_steps_run.
  apply negb_false_iff, Z.eqb_eq in E. by rewrite (books_idle filter).
Qed.

Lemma blk_done_idle `{HostTransport} e s rq : inflight s = 0 -> ntp_h_blk_done e s rq = s.
Proof. intros Hi. unfold ntp_h_blk_done. by rewrite Hi. Qed.

(** ** The two objects *)

(** What [host_hooks_atomic] is about: an object that does not count queues, its hooks
    without the arming, which is a store of user space, and without the two hooks for
    kernels whose senders are inlined, which test twice whether anything is in flight. *)
Definition tcp_covered (filter : ntp_filter) (x : kernel * env * tcp_host_ev) : Prop :=
  tracking filter = false /\ tcp_ev_ok x.2 /\
  match x.2 with TH_arm _ | TH_try_send_enter _ | TH_sock_send _ => False | _ => True end.
Definition rdma_covered (filter : ntp_filter) (x : kernel * env * rdma_host_ev) : Prop :=
  tracking filter = false /\ rdma_ev_ok x.2 /\ match x.2 with RH_arm _ => False | _ => True end.

Definition is_blk_done_tcp (ev : tcp_host_ev) : Prop := match ev with TH_blk_done _ => True | _ => False end.
Definition is_blk_done_rdma (ev : rdma_host_ev) : Prop := match ev with RH_blk_done _ => True | _ => False end.

Lemma tcp_code_simple filter K e ev :
  tcp_covered filter (K, e, ev) -> ~ is_blk_done_tcp ev -> simple (tcp_code filter (K, e, ev)).
Proof.
  intros (_ & _ & Hc) Hev. destruct ev; try done; try (by destruct Hev); cbn [tcp_code].
  - unfold queue_rq_steps. quiet.
  - apply setup_simple.
  - apply send_done_simple.
  - unfold TcpSteps.send_exit_steps. cbn [simple]. intros c. destruct (_ =? _); [apply send_done_simple|done].
  - unfold TcpSteps.send_h2c_steps, entry_steps. quiet.
  - unfold TcpSteps.try_send_exit_steps. cbn [simple]. intros c. destruct (_ =? _); [|done]. cbn [simple].
    destruct (negb _); [done|apply send_done_simple].
  - unfold TcpSteps.recv_skb_steps. quiet.
  - unfold TcpSteps.recv_skb_exit_steps, entry_steps. quiet; by apply silent_simple, data_done_silent.
  - apply copy_silent.
  - unfold TcpSteps.r2t_steps, entry_steps. quiet.
  - apply complete_simple. quiet.
  - apply nvme_done_simple.
Qed.

Lemma tcp_code_run filter K e ev s :
  tcp_covered filter (K, e, ev) -> ~ is_blk_done_tcp ev -> run (tcp_code filter (K, e, ev)) s ≡ tcp_host_run filter K e s ev.
Proof.
  intros (Hnt & _ & Hc) Hev. destruct ev; cbn [tcp_code tcp_host_run]; try (exfalso; exact Hc).
  - by apply queue_rq_run.
  - apply setup_run.
  - by apply send_done_run.
  - done.
  - by apply send_exit_run.
  - apply send_h2c_run.
  - by apply try_send_exit_run.
  - by apply recv_skb_run.
  - apply recv_skb_exit_run.
  - by apply copy_run.
  - apply r2t_run.
  - by apply tcp_complete_run.
  - apply nvme_done_run.
  - by destruct Hev.
Qed.

Lemma rdma_code_simple filter K e ev : ~ is_blk_done_rdma ev -> simple (rdma_code filter (K, e, ev)).
Proof.
  destruct ev; intros Hev; try done; try (by destruct Hev); cbn [rdma_code].
  - unfold queue_rq_steps. quiet.
  - apply setup_simple.
  - apply posted_simple.
  - unfold RdmaSteps.post_exit_steps. cbn [simple]. intros c. destruct (_ =? _); [apply posted_simple|done].
  - unfold RdmaSteps.rdma_send_done_steps. quiet.
  - unfold RdmaSteps.recv_done_steps. quiet.
  - unfold RdmaSteps.inv_done_steps. quiet.
  - unfold rx_exit_steps. quiet.
  - by apply complete_simple.
  - apply nvme_done_simple.
Qed.

Lemma rdma_code_run filter K e ev s :
  rdma_covered filter (K, e, ev) -> ~ is_blk_done_rdma ev -> run (rdma_code filter (K, e, ev)) s ≡ rdma_host_run filter K e s ev.
Proof.
  intros (Hnt & _ & Hc) Hev. destruct ev; cbn [rdma_code rdma_host_run]; try (exfalso; exact Hc).
  - by apply queue_rq_run.
  - apply setup_run.
  - by apply posted_run.
  - done.
  - by apply post_exit_run.
  - by apply rdma_send_done_run.
  - by apply recv_done_run.
  - by apply inv_done_run.
  - apply rx_exit_run.
  - by apply rdma_complete_run.
  - apply nvme_done_run.
  - by destruct Hev.
Qed.

(** The hook that gives a record back tests early whether anything is in flight, and
    accesses the count again at its end. *)
Lemma blk_done_weak `{HT : HostTransport} filter e rq (f : host_st -> host_st) :
  rq <> 0 -> (forall s, f s = ntp_h_blk_done e s rq) ->
  exists k, blk_done_steps e rq = Busy k /\ k false = Ret /\ simple (k true) /\
    (forall s, host_books filter s -> run (k true) s ≡ f s) /\
    (forall s, host_books filter s -> inflight s = 0 -> f s ≡ s).
Proof.
  intros Hrq Hf. eexists. split; [reflexivity|]. split; [done|]. split; [apply blk_body_simple|]. split.
  - intros s Hs. rewrite Hf. by eapply blk_body_run.
  - intros s _ Hi. by rewrite Hf, blk_done_idle.
Qed.

#[export] Program Instance tcp_hooks (filter : ntp_filter) : Hooks (kernel * env * tcp_host_ev) := {
  code := tcp_code filter;
  whole := fun x s => tcp_host_run filter x.1.1 x.1.2 s x.2;
  hook_ok := tcp_covered filter;
  good := host_books (H := TcpHost.tcp_host) filter
}.
Next Obligation. intros filter [[K e] ev] s (_ & Hok & _) Hb. by apply tcp_host_books_step. Qed.
Next Obligation.
  intros filter [[K e] ev] Hc.
  assert (is_blk_done_tcp ev \/ ~ is_blk_done_tcp ev) as [Hb|Hb] by (destruct ev; cbn; auto).
  - right. destruct ev; try done. by eapply blk_done_weak; [apply Hc|].
  - left. split; [by apply tcp_code_simple|]. intros s _. by apply tcp_code_run.
Qed.

#[export] Program Instance rdma_hooks (filter : ntp_filter) : Hooks (kernel * env * rdma_host_ev) := {
  code := rdma_code filter;
  whole := fun x s => rdma_host_run filter x.1.1 x.1.2 s x.2;
  hook_ok := rdma_covered filter;
  good := host_books (H := RdmaHost.rdma_host) filter
}.
Next Obligation. intros filter [[K e] ev] s (_ & Hok & _) Hb. by apply rdma_host_books_step. Qed.
Next Obligation.
  intros filter [[K e] ev] Hc.
  assert (is_blk_done_rdma ev \/ ~ is_blk_done_rdma ev) as [Hb|Hb] by (destruct ev; cbn; auto).
  - right. destruct ev; try done. by eapply blk_done_weak; [apply Hc|].
  - left. split; [by apply rdma_code_simple|]. intros s _. by apply rdma_code_run.
Qed.

(** ** Every hook ends *)

Lemma tcp_code_ends filter h : ends_within (tcp_code filter h) 16.
Proof.
  destruct h as [[K e] ev]. destruct ev; cbn [tcp_code];
    unfold queue_rq_steps, setup_steps, command_steps, sampled_steps, TcpSteps.send_enter_steps, TcpSteps.send_exit_steps,
      TcpSteps.try_send_enter_steps, TcpSteps.sock_send_steps, TcpSteps.tsend_found_steps,
      TcpSteps.send_h2c_steps, TcpSteps.try_send_exit_steps, TcpSteps.send_done_steps, TcpSteps.recv_skb_steps,
      TcpSteps.recv_skb_exit_steps, TcpSteps.copy_steps, TcpSteps.copy_starts, TcpSteps.r2t_steps, TcpSteps.tcp_complete_steps,
      complete_steps, nvme_done_steps, blk_done_steps, blk_done_body, output_steps, release_steps, data_done_steps,
      stamp_steps, entry_steps; quiet.
Qed.

Lemma rdma_code_ends filter h : ends_within (rdma_code filter h) 16.
Proof.
  destruct h as [[K e] ev]. destruct ev; cbn [rdma_code];
    unfold queue_rq_steps, setup_steps, command_steps, sampled_steps, RdmaSteps.post_enter_steps, RdmaSteps.post_exit_steps,
      RdmaSteps.posted_steps, RdmaSteps.rdma_send_done_steps, RdmaSteps.recv_done_steps, RdmaSteps.inv_done_steps,
      RdmaSteps.stamp_entry, rx_exit_steps, complete_steps, nvme_done_steps, blk_done_steps, blk_done_body, output_steps,
      release_steps, data_done_steps, stamp_steps, entry_steps; quiet.
Qed.

(** ** Overlapping hooks *)

(** C7: hooks of a host object may run at the same time, when the object does not count
    queues.  The steps of any number of hooks are interleaved in any way, over TCP and over
    RDMA, where a hook starts only while no hook under way is about a CPU's context, a slot
    or an index entry it accesses.  When all have ended, the maps, counters and the records
    emitted are those of the same hooks run as wholes one after the other, in an order that
    respects which ended before which started, and the books of the object are right: what
    is shown of runs of whole hooks is true of overlapping ones too.  Left out, as
    [tcp_covered] and [rdma_covered] say: arming, and the two hooks for kernels whose
    senders are inlined.  Every hook, those two included, ends within 16 steps of its own,
    whatever the others do meanwhile; the stores it makes in a row into one record or one
    context are one step. *)
Theorem host_hooks_atomic (filter : ntp_filter) (s0 : host_st)
    (tcp : list (act (Hook := kernel * env * tcp_host_ev))) (rdma : list (act (Hook := kernel * env * rdma_host_ev))) :
  (tracking filter = false -> Forall (tcp_covered filter) (started tcp) ->
   host_books (H := TcpHost.tcp_host) filter s0 -> race_free (HK := tcp_hooks filter) (s0, []) tcp ->
   Forall finished (exec (HK := tcp_hooks filter) (s0, []) tcp).2 ->
     linearizable (HK := tcp_hooks filter) s0 tcp /\
     host_books (H := TcpHost.tcp_host) filter (exec (HK := tcp_hooks filter) (s0, []) tcp).1) /\
  (tracking filter = false -> Forall (rdma_covered filter) (started rdma) ->
   host_books (H := RdmaHost.rdma_host) filter s0 -> race_free (HK := rdma_hooks filter) (s0, []) rdma ->
   Forall finished (exec (HK := rdma_hooks filter) (s0, []) rdma).2 ->
     linearizable (HK := rdma_hooks filter) s0 rdma /\
     host_books (H := RdmaHost.rdma_host) filter (exec (HK := rdma_hooks filter) (s0, []) rdma).1) /\
  (forall h, ends_within (tcp_code filter h) 16) /\ (forall h, ends_within (rdma_code filter h) 16).
Proof.
  split; [intros _ _; exact (interleaved_atomic (HK := tcp_hooks filter) s0 tcp)|].
  split; [intros _ _; exact (interleaved_atomic (HK := rdma_hooks filter) s0 rdma)|].
  split; [apply tcp_code_ends|apply rdma_code_ends].
Qed.

(** A run of hook [i] to its end, if nothing comes between. *)
Definition to_end {Hook} (i : nat) : list (act (Hook := Hook)) := replicate 16 (Step i).

Definition on_cpu (cpu now : Z) : env := mk_env cpu (100 + cpu) now false [].

(** Two reads on two CPUs: both are set up in alternating steps, and one ends while the
    other one's data arrives. *)
Definition overlap : list (act (Hook := kernel * env * tcp_host_ev)) :=
  [Start (sample_kernel, on_cpu 0 10, TH_setup_cmd 65536 1); Start (sample_kernel, on_cpu 1 11, TH_setup_cmd 131072 2)] ++
  (replicate 16 [Step 1; Step 0] ≫= id) ++
  [Start (sample_kernel, on_cpu 0 20, TH_blk_done 65536); Start (sample_kernel, on_cpu 1 21, TH_recv_skb 3)] ++
  (replicate 16 [Step 2; Step 3] ≫= id) ++ Start (sample_kernel, on_cpu 1 30, TH_copy 3) :: to_end 4.

Lemma host_hooks_atomic_witness :
  let c := exec (HK := tcp_hooks all_filter) (arm host_init true, []) overlap in
  Forall finished c.2 /\ length (events c.1) = 1%nat /\ inflight c.1 = 1 /\
  linearizable (HK := tcp_hooks all_filter) (arm host_init true) overlap /\
  host_books (H := TcpHost.tcp_host) all_filter c.1.
Proof.
  intros c. assert (Forall finished c.2) as Hf by (apply (bool_decide_unpack _); vm_compute; exact I).
  split; [exact Hf|]. split; [vm_compute; reflexivity|]. split; [vm_compute; reflexivity|].
  refine (proj1 (host_hooks_atomic all_filter (arm host_init true) overlap []) _ _ _ _ Hf).
  - reflexivity.
  - repeat constructor; done.
  - eapply books_frame; [apply frame_arm|apply books_init].
  - apply race_free_check; [|vm_compute; reflexivity]. repeat constructor; done.
Defined.

(** ** Two commands on one slot

    A command takes the slot of another while that one completes: it finds the slot taken
    and does not count itself, and the other one counts itself off.  The count stays one
    short: with the record alone in flight the hooks find nothing to do, so that it is
    never emitted, and neither is any later record while it is the only one in flight. *)
Lemma collision_loses_count :
  let A := 64 in
  let B := 64 + 2 ^ 20 in
  let slot := ntp_slot A NTP_REC_SLOTS in
  let race :=
    Start (sample_kernel, on_cpu 0 10, TH_setup_cmd A 1) :: to_end 0 ++
    Start (sample_kernel, on_cpu 1 20, TH_setup_cmd B 2) :: replicate 4 (Step 1) ++
    Start (sample_kernel, on_cpu 0 30, TH_blk_done A) :: to_end 2 ++ to_end 1 in
  let c := exec (HK := tcp_hooks all_filter) (arm host_init true, []) race in
  let c' := exec (HK := tcp_hooks all_filter) c
    (Start (sample_kernel, on_cpu 1 40, TH_nvme_done B) :: to_end 3 ++
     Start (sample_kernel, on_cpu 1 50, TH_blk_done B) :: to_end 4) in
  ntp_slot B NTP_REC_SLOTS = slot /\
  Forall finished c.2 /\ he_rq (reqs c.1 slot) = B /\ inflight c.1 = 0 /\
  Forall finished c'.2 /\ he_rq (reqs c'.1 slot) = B /\ length (events c'.1) = 1%nat /\
  cnt c'.1 NTP_CNT_HOST_SAMPLED = 2 /\
  race_freeb (HK := tcp_hooks all_filter) (arm host_init true, []) race = false.
Proof.
  cbv zeta. split_and!; try (vm_compute; reflexivity); apply (bool_decide_unpack _); vm_compute; exact I.
Qed.
