(* ===== verification/Wire.v ===== *)
(** * What the hooks read off the wire (bpf/kernel_types.h)

    NVMe commands, NVMe/TCP PDU headers and completion queue entries have layouts fixed
    by the specifications: the structs of kernel_types.h without CO-RE.  Here they are
    bytes, and the readers of [kernel] that stand for them are reads of kernel memory.
    Host and target see the bytes of one command, and read the same identity out of them. *)
From stdpp Require Import base numbers list.
From Stdlib Require Import ZArith Lia.
From S2P Require Import Prelude Types TraceFile BpfCommon.

(** ** Structs *)

Record nvme_sqe := mk_sqe {
  w_opcode : Z; w_flags : Z; w_command_id : Z; w_nsid : Z; w_cdw2 : Z; w_cdw3 : Z; w_metadata : Z;
  w_dptr0 : Z; w_dptr1 : Z; w_slba : Z; w_length : Z; w_control : Z; w_cdw13 : Z; w_cdw14 : Z; w_cdw15 : Z
}.

Definition sqe_ok (c : nvme_sqe) : Prop :=
  is_u8 (w_opcode c) /\ is_u8 (w_flags c) /\ is_u16 (w_command_id c) /\ is_u32 (w_nsid c) /\ is_u32 (w_cdw2 c) /\
  is_u32 (w_cdw3 c) /\ is_u64 (w_metadata c) /\ is_u64 (w_dptr0 c) /\ is_u64 (w_dptr1 c) /\ is_u64 (w_slba c) /\
  is_u16 (w_length c) /\ is_u16 (w_control c) /\ is_u32 (w_cdw13 c) /\ is_u32 (w_cdw14 c) /\ is_u32 (w_cdw15 c).

Definition enc_sqe (c : nvme_sqe) : list Z :=
  le 1 (w_opcode c) ++ le 1 (w_flags c) ++ le 2 (w_command_id c) ++ le 4 (w_nsid c) ++ le 4 (w_cdw2 c) ++
  le 4 (w_cdw3 c) ++ le 8 (w_metadata c) ++ le 8 (w_dptr0 c) ++ le 8 (w_dptr1 c) ++ le 8 (w_slba c) ++
  le 2 (w_length c) ++ le 2 (w_control c) ++ le 4 (w_cdw13 c) ++ le 4 (w_cdw14 c) ++ le 4 (w_cdw15 c).

Definition p_sqe : parser nvme_sqe :=
  get o := p_int 1 in get f := p_int 1 in get i := p_int 2 in get n := p_int 4 in get d2 := p_int 4 in
  get d3 := p_int 4 in get m := p_int 8 in get p0 := p_int 8 in get p1 := p_int 8 in get s := p_int 8 in
  get l := p_int 2 in get c := p_int 2 in get d13 := p_int 4 in get d14 := p_int 4 in get d15 := p_int 4 in
  pret (mk_sqe o f i n d2 d3 m p0 p1 s l c d13 d14 d15).

Record ntp_tcp_hdr := mk_tcp_hdr { th_type : Z; th_flags : Z; th_hlen : Z; th_pdo : Z; th_plen : Z }.
Definition tcp_hdr_ok (h : ntp_tcp_hdr) : Prop :=
  is_u8 (th_type h) /\ is_u8 (th_flags h) /\ is_u8 (th_hlen h) /\ is_u8 (th_pdo h) /\ is_u32 (th_plen h).
Definition enc_tcp_hdr (h : ntp_tcp_hdr) : list Z :=
  le 1 (th_type h) ++ le 1 (th_flags h) ++ le 1 (th_hlen h) ++ le 1 (th_pdo h) ++ le 4 (th_plen h).
Definition p_tcp_hdr : parser ntp_tcp_hdr :=
  get t := p_int 1 in get f := p_int 1 in get h := p_int 1 in get p := p_int 1 in get l := p_int 4 in
  pret (mk_tcp_hdr t f h p l).

Record ntp_tcp_data_pdu := mk_data_pdu {
  dp_hdr : ntp_tcp_hdr; dp_command_id : Z; dp_ttag : Z; dp_data_offset : Z; dp_data_length : Z; dp_rsvd : list Z
}.
Definition data_pdu_ok (p : ntp_tcp_data_pdu) : Prop :=
  tcp_hdr_ok (dp_hdr p) /\ is_u16 (dp_command_id p) /\ is_u16 (dp_ttag p) /\ is_u32 (dp_data_offset p) /\
  is_u32 (dp_data_length p) /\ length (dp_rsvd p) = 4%nat.
Definition enc_data_pdu (p : ntp_tcp_data_pdu) : list Z :=
  enc_tcp_hdr (dp_hdr p) ++ le 2 (dp_command_id p) ++ le 2 (dp_ttag p) ++ le 4 (dp_data_offset p) ++
  le 4 (dp_data_length p) ++ dp_rsvd p.
Definition p_data_pdu : parser ntp_tcp_data_pdu :=
  get h := p_tcp_hdr in get i := p_int 2 in get t := p_int 2 in get o := p_int 4 in get l := p_int 4 in
  get r := p_bytes 4 in pret (mk_data_pdu h i t o l r).

Record ntp_nvme_cqe := mk_cqe { q_result : Z; q_sq_head : Z; q_sq_id : Z; q_command_id : Z; q_status : Z }.
Definition cqe_ok (q : ntp_nvme_cqe) : Prop :=
  is_u64 (q_result q) /\ is_u16 (q_sq_head q) /\ is_u16 (q_sq_id q) /\ is_u16 (q_command_id q) /\ is_u16 (q_status q).
Definition enc_cqe (q : ntp_nvme_cqe) : list Z :=
  le 8 (q_result q) ++ le 2 (q_sq_head q) ++ le 2 (q_sq_id q) ++ le 2 (q_command_id q) ++ le 2 (q_status q).

(** [__builtin_offsetof(struct ntp_nvme_cqe, command_id)] *)
Definition OFFSETOF_CQE_COMMAND_ID : Z := 12.

(** ** Kernel memory *)

(** [bpf_probe_read_kernel] over a memory of bytes, some of them not mapped. *)
Definition probe_read (mem : Z -> option Z) (a : Z) (n : nat) : option (list Z) :=
  mapM (fun i => mem (a + i)) (seqZ 0 (Z.of_nat n)).

(** The bytes [bs] are at [a]. *)
Definition holds (mem : Z -> option Z) (a : Z) (bs : list Z) : Prop :=
  forall i b, bs !! i = Some b -> mem (a + Z.of_nat i) = Some b.

Definition nvme_cmd_of (c : nvme_sqe) : ntp_nvme_cmd :=
  mk_nvme_cmd (w_opcode c) (w_command_id c) (w_nsid c) (w_slba c) (w_length c) (w_dptr1 c).

(** The readers of wire formats read them from memory; [pdu_at] is a queue's PDU buffer. *)
Record reads_wire (K : kernel) (mem : Z -> option Z) (pdu_at : Z -> Z) : Prop := {
  rw_cmd a : read_nvme_cmd K a = (fun bs => nvme_cmd_of (p_sqe bs).1) <$> probe_read mem a 64;
  rw_opcode a : nvme_cmd_opcode K a = unle <$> probe_read mem a 1;
  rw_pdu q : tcp_queue_pdu K q =
    (fun bs => (th_type (dp_hdr (p_data_pdu bs).1), dp_command_id (p_data_pdu bs).1)) <$> probe_read mem (pdu_at q) 24;
  rw_pdu_type q : tcp_queue_pdu_type K q = unle <$> probe_read mem (pdu_at q) 1;
  rw_cqe a : cqe_command_id K a = unle <$> probe_read mem (a + OFFSETOF_CQE_COMMAND_ID) 2
}.

(** A kernel with its wire formats in a memory of bytes. *)
Definition wire_kernel (K : kernel) (mem : Z -> option Z) (pdu_at : Z -> Z) : kernel := {|
  skb_sk := skb_sk K; skb_tstamp := skb_tstamp K; sk_user_data := sk_user_data K; socket_sk := socket_sk K;
  sizeof_request := sizeof_request K; rq_data_len := rq_data_len K; rq_mq_hctx := rq_mq_hctx K;
  rq_start_time_ns := rq_start_time_ns K; rq_disk_name := rq_disk_name K;
  rq_bio_bi_private := rq_bio_bi_private K; hctx_driver_data := hctx_driver_data K;
  hctx_queue_num := hctx_queue_num K; bd_rq := bd_rq K; nvme_request_ctrl := nvme_request_ctrl K;
  ctrl_cntlid := ctrl_cntlid K; ctrl_instance_of := ctrl_instance_of K;
  read_nvme_cmd := fun a => (fun bs => nvme_cmd_of (p_sqe bs).1) <$> probe_read mem a 64;
  tcp_req_queue := tcp_req_queue K; tcp_req_state := tcp_req_state K; tcp_queue_sock := tcp_queue_sock K;
  tcp_queue_request := tcp_queue_request K;
  tcp_queue_pdu := fun q => (fun bs => (th_type (dp_hdr (p_data_pdu bs).1), dp_command_id (p_data_pdu bs).1)) <$> probe_read mem (pdu_at q) 24;
  tcp_queue_pdu_type := fun q => unle <$> probe_read mem (pdu_at q) 1;
  nvmet_req_sq := nvmet_req_sq K; nvmet_req_cmd := nvmet_req_cmd K;
  nvme_cmd_opcode := fun a => unle <$> probe_read mem a 1;
  nvmet_req_transfer_len := nvmet_req_transfer_len K; nvmet_sq_qid := nvmet_sq_qid K;
  nvmet_sq_ctrl_cntlid := nvmet_sq_ctrl_cntlid K; offsetof_tcp_cmd_req := offsetof_tcp_cmd_req K;
  offsetof_tcp_queue_sq := offsetof_tcp_queue_sq K; nvmet_cmd_queue := nvmet_cmd_queue K;
  nvmet_cmd_rbytes_done := nvmet_cmd_rbytes_done K; nvmet_cmd_offset := nvmet_cmd_offset K;
  nvmet_cmd_state := nvmet_cmd_state K; nvmet_queue_sock := nvmet_queue_sock K;
  nvmet_queue_cmd := nvmet_queue_cmd K; nvmet_queue_rcv_state := nvmet_queue_rcv_state K;
  nvmet_queue_snd_cmd := nvmet_queue_snd_cmd K; nvmet_queue_sqhd_disabled := nvmet_queue_sqhd_disabled K;
  wc_wr_cqe := wc_wr_cqe K; wc_qp_context := wc_qp_context K; offsetof_sqe := offsetof_sqe K;
  qe_data := qe_data K;
  cqe_command_id := fun a => unle <$> probe_read mem (a + OFFSETOF_CQE_COMMAND_ID) 2;
  offsetof_rsp_req := offsetof_rsp_req K; offsetof_rsp_read_cqe := offsetof_rsp_read_cqe K;
  offsetof_rsp_send_cqe := offsetof_rsp_send_cqe K; rsp_flags := rsp_flags K
|}.

(** ** Facts *)

Lemma probe_read_holds mem a bs n : holds mem a bs -> length bs = n -> probe_read mem a n = Some bs.
Proof.
  intros Hh Hl. unfold probe_read. apply mapM_Some_2, Forall2_same_length_lookup.
  rewrite length_seqZ, Nat2Z.id. split; [done|]. intros i x b Hx Hb.
  apply lookup_seqZ in Hx as [-> _]. by apply Hh.
Qed.

Lemma holds_app mem a b1 b2 :
  holds mem a (b1 ++ b2) <-> holds mem a b1 /\ holds mem (a + Z.of_nat (length b1)) b2.
Proof.
  split.
  - intros H. split; intros i b Hi.
    + apply H. by apply lookup_app_l_Some.
    + rewrite <- Z.add_assoc, <- Nat2Z.inj_add. apply H. rewrite lookup_app_r by lia. by replace (length b1 + i - length b1)%nat with i by lia.
  - intros [H1 H2] i b [Hi|[Hi Hb]]%lookup_app_Some; [by apply H1|].
    replace (a + Z.of_nat i) with (a + Z.of_nat (length b1) + Z.of_nat (i - length b1)) by lia. by apply H2.
Qed.

Lemma reads_sqe c : sqe_ok c -> reads p_sqe (enc_sqe c) c.
Proof. intros (? & ? & ? & ? & ? & ? & ? & ? & ? & ? & ? & ? & ? & ? & ?). unfold p_sqe, enc_sqe. reads_struct c. Qed.
Lemma reads_tcp_hdr h : tcp_hdr_ok h -> reads p_tcp_hdr (enc_tcp_hdr h) h.
Proof. intros (? & ? & ? & ? & ?). unfold p_tcp_hdr, enc_tcp_hdr. reads_struct h. Qed.
#[export] Hint Resolve reads_tcp_hdr : codec.
Lemma reads_data_pdu p : data_pdu_ok p -> reads p_data_pdu (enc_data_pdu p) p.
Proof. intros (? & ? & ? & ? & ? & ?). unfold p_data_pdu, enc_data_pdu. reads_struct p. Qed.

Lemma reads_whole {A} (p : parser A) bs v : reads p bs v -> (p bs).1 = v.
Proof. intros H. specialize (H []). rewrite app_nil_r in H. by rewrite H. Qed.

Lemma wire_kernel_reads K mem pdu_at : reads_wire (wire_kernel K mem pdu_at) mem pdu_at.
Proof. by split. Qed.

(** The sizes the specifications give. *)
Lemma wire_sizes c p q : length (dp_rsvd p) = 4%nat ->
  length (enc_sqe c) = 64%nat /\ length (enc_data_pdu p) = 24%nat /\ length (enc_cqe q) = 16%nat.
Proof.
  intros Hr. unfold enc_sqe, enc_data_pdu, enc_tcp_hdr, enc_cqe. rewrite !length_app, !le_length, Hr. done.
Qed.

(** What the hooks read is what was sent: the identity of a command, the type and command
    of a data PDU, and the command a completion is for. *)
Theorem wire_read (K : kernel) (mem : Z -> option Z) (pdu_at : Z -> Z) (a queue data : Z)
    (c : nvme_sqe) (p : ntp_tcp_data_pdu) (q : ntp_nvme_cqe) :
  reads_wire K mem pdu_at -> sqe_ok c -> data_pdu_ok p -> cqe_ok q ->
  holds mem a (enc_sqe c) -> holds mem (pdu_at queue) (enc_data_pdu p) -> holds mem data (enc_cqe q) ->
  ntp_read_cmd K a = Some (mk_cmd_id (w_slba c) (w_nsid c) 0 0 (w_command_id c) (w_length c) (w_opcode c) [0; 0; 0]) /\
  nvme_cmd_opcode K a = Some (w_opcode c) /\
  tcp_queue_pdu K queue = Some (th_type (dp_hdr p), dp_command_id p) /\ tcp_queue_pdu_type K queue = Some (th_type (dp_hdr p)) /\
  cqe_command_id K data = Some (q_command_id q).
Proof.
  intros [R1 R2 R3 R5 R4] Hc Hp Hq Ha Hpdu Hd. pose proof Hp as (_ & _ & _ & _ & _ & Hr).
  destruct (wire_sizes c p q Hr) as (S1 & S2 & _). split_and!.
  - unfold ntp_read_cmd. rewrite R1, (probe_read_holds _ _ _ _ Ha S1). cbn [fmap option_fmap option_map]. by rewrite (reads_whole _ _ _ (reads_sqe c Hc)).
  - rewrite R2, (probe_read_holds mem a (le 1 (w_opcode c))); [|by apply holds_app in Ha as [? _]|done].
    cbn [fmap option_fmap option_map]. f_equal. apply unle_le. apply Hc.
  - rewrite R3, (probe_read_holds _ _ _ _ Hpdu S2). cbn [fmap option_fmap option_map]. by rewrite (reads_whole _ _ _ (reads_data_pdu p Hp)).
  - rewrite R5, (probe_read_holds mem (pdu_at queue) (le 1 (th_type (dp_hdr p)))); [|..|done].
    + cbn [fmap option_fmap option_map]. f_equal. apply unle_le. apply Hp.
    + unfold enc_data_pdu, enc_tcp_hdr in Hpdu. rewrite <- !app_assoc in Hpdu. by apply holds_app in Hpdu as [? _].
  - rewrite R4, (probe_read_holds mem _ (le 2 (q_command_id q))); [|..|done].
    + cbn [fmap option_fmap option_map]. f_equal. apply unle_le. apply Hq.
    + unfold enc_cqe in Hd. rewrite !(holds_app _ _ (le _ _)), !le_length in Hd. destruct Hd as (_ & _ & _ & Hd & _).
      by replace (data + OFFSETOF_CQE_COMMAND_ID) with (data + Z.of_nat 8 + Z.of_nat 2 + Z.of_nat 2) by (unfold OFFSETOF_CQE_COMMAND_ID; lia).
Qed.

(** The bytes of one command on two machines are the same command to the hooks of both. *)
Lemma same_bytes_same_command (Kh Kt : kernel) mh mt ph pt cmd cmd' bs :
  reads_wire Kh mh ph -> reads_wire Kt mt pt -> length bs = 64%nat -> holds mh cmd bs -> holds mt cmd' bs ->
  read_nvme_cmd Kt cmd' = read_nvme_cmd Kh cmd.
Proof.
  intros Hh Ht Hl Hb Hb'. by rewrite (rw_cmd _ _ _ Hh), (rw_cmd _ _ _ Ht), (probe_read_holds _ _ _ _ Hb Hl),
    (probe_read_holds _ _ _ _ Hb' Hl).
Qed.

(** A read of 8 blocks from block 4096 with command id 5, its data and its completion. *)
Definition sample_sqe : nvme_sqe := mk_sqe 2 64 5 1 0 0 0 0 4096 4096 7 0 0 0 0.
Definition sample_pdu : ntp_tcp_data_pdu := mk_data_pdu (mk_tcp_hdr nvme_tcp_c2h_data 12 24 24 4120) 5 0 0 4096 [0; 0; 0; 0].
Definition sample_cqe : ntp_nvme_cqe := mk_cqe 0 3 1 5 0.
Definition sample_mem (a : Z) : option Z :=
  if (a <? 0) then None
  else if a <? 64 then enc_sqe sample_sqe !! Z.to_nat a
  else if a <? 88 then enc_data_pdu sample_pdu !! Z.to_nat (a - 64)
  else enc_cqe sample_cqe !! Z.to_nat (a - 88).

Lemma sample_mem_holds base bs :
  0 <= base -> forallb (fun i => bool_decide (sample_mem (base + Z.of_nat i) = (bs !! i))) (seq 0 (length bs)) = true ->
  holds sample_mem base bs.
Proof.
  intros Hb Hf i b Hi. rewrite forallb_forall in Hf. specialize (Hf i). rewrite bool_decide_eq_true in Hf.
  rewrite Hf; [done|]. apply in_seq. apply lookup_lt_Some in Hi. lia.
Qed.

Lemma wire_read_witness :
  let K := wire_kernel sample_kernel sample_mem (fun _ => 64) in
  ntp_read_cmd K 0 = Some (mk_cmd_id 4096 1 0 0 5 7 2 [0; 0; 0]) /\ nvme_cmd_opcode K 0 = Some 2 /\
  tcp_queue_pdu K 512 = Some (nvme_tcp_c2h_data, 5) /\ tcp_queue_pdu_type K 512 = Some nvme_tcp_c2h_data /\ cqe_command_id K 88 = Some 5.
Proof.
  apply (wire_read _ sample_mem (fun _ => 64) 0 512 88 sample_sqe sample_pdu sample_cqe (wire_kernel_reads _ _ _));
    [repeat split; done..| | |]; (apply sample_mem_holds; [lia|vm_compute; reflexivity]).
Defined.
