(* ===== verification/BlindHost.v ===== *)
(** * The slots of the host's kretprobes

    A kretprobe does not see the arguments of the call; a kprobe keeps what it needs
    in a per-CPU slot, [send_c] over TCP and [post_c] over RDMA.  Every other hook is
    blind to these slots: it commutes with any change of them. *)
From stdpp Require Import base numbers list gmap.
From Stdlib Require Import ZArith Lia.
From S2P Require Import Prelude Types BpfCommon BpfHost.

Definition with_slots (s : host_st) (c : (Z -> send_ctx) * (Z -> post_ctx)) : host_st :=
  mk_host_st (armed s) (inflight s) (cnt s) (reqs s) (cid_idx s) (qstats s) (countedm s) (pend s) (rx_ctx s)
    c.1 (tsend_c s) c.2 (events s).
Definition slots_of (s : host_st) : (Z -> send_ctx) * (Z -> post_ctx) := (send_c s, post_c s).

Lemma with_slots_id s : with_slots s (slots_of s) = s.
Proof. by destruct s. Qed.

Section slots.
  Implicit Types (s : host_st) (c : (Z -> send_ctx) * (Z -> post_ctx)).

Lemma armed_slots s c : armed (with_slots s c) = armed s. Proof. done. Qed.
Lemma inflight_slots s c : inflight (with_slots s c) = inflight s. Proof. done. Qed.
Lemma reqs_slots s c : reqs (with_slots s c) = reqs s. Proof. done. Qed.
Lemma cid_slots s c : cid_idx (with_slots s c) = cid_idx s. Proof. done. Qed.
Lemma qstats_slots s c : qstats (with_slots s c) = qstats s. Proof. done. Qed.
Lemma counted_slots s c : countedm (with_slots s c) = countedm s. Proof. done. Qed.
Lemma get_pend_slots e s c : get_pend e (with_slots s c) = get_pend e s. Proof. done. Qed.
Lemma get_rx_slots e s c : get_rx e (with_slots s c) = get_rx e s. Proof. done. Qed.
Lemma get_tsend_slots e s c : get_tsend e (with_slots s c) = get_tsend e s. Proof. done. Qed.
Lemma entry_slots s c rq : host_entry_of (with_slots s c) rq = host_entry_of s rq. Proof. done. Qed.
Lemma by_cid_slots s c q i : host_rec_by_cid (with_slots s c) q i = host_rec_by_cid s q i. Proof. done. Qed.
Lemma arm_slots s c on : arm (with_slots s c) on = with_slots (arm s on) c. Proof. done. Qed.
Lemma add_inflight_slots s c v : ntp_inflight_add (with_slots s c) v = with_slots (ntp_inflight_add s v) c. Proof. done. Qed.
Lemma inc_slots s c n v : inc (with_slots s c) n v = with_slots (inc s n v) c. Proof. done. Qed.
Lemma set_entry_slots s c i v : set_entry (with_slots s c) i v = with_slots (set_entry s i v) c. Proof. done. Qed.
Lemma set_rec_slots s c i v : set_rec (with_slots s c) i v = with_slots (set_rec s i v) c. Proof. done. Qed.
Lemma set_cid_slots s c i v : set_cid (with_slots s c) i v = with_slots (set_cid s i v) c. Proof. done. Qed.
Lemma set_queues_slots s c a b : set_queues (with_slots s c) a b = with_slots (set_queues s a b) c. Proof. done. Qed.
Lemma set_pend_slots s c i v : set_pend (with_slots s c) i v = with_slots (set_pend s i v) c. Proof. done. Qed.
Lemma set_rx_slots s c i v : set_rx (with_slots s c) i v = with_slots (set_rx s i v) c. Proof. done. Qed.
Lemma set_tsend_slots s c i v : set_tsend (with_slots s c) i v = with_slots (set_tsend s i v) c. Proof. done. Qed.
Lemma add_event_slots s c r : add_event (with_slots s c) r = with_slots (add_event s r) c. Proof. done. Qed.
End slots.
#[export] Hint Rewrite armed_slots inflight_slots reqs_slots cid_slots qstats_slots counted_slots get_pend_slots get_rx_slots
  get_tsend_slots entry_slots by_cid_slots arm_slots add_inflight_slots inc_slots set_entry_slots set_rec_slots set_cid_slots
  set_queues_slots set_pend_slots set_rx_slots set_tsend_slots add_event_slots : blind.

(** ** Shared hooks *)

Lemma uncount_slots s c rq bits forget : uncount (with_slots s c) rq bits forget = with_slots (uncount s rq bits forget) c.
Proof. unfold uncount. blind. Qed.
Lemma rx_enter_slots e s c q skb a now : host_rx_enter e (with_slots s c) q skb a now = with_slots (host_rx_enter e s q skb a now) c.
Proof. done. Qed.
#[export] Hint Rewrite uncount_slots rx_enter_slots : blind.

Lemma rx_exit_slots e s c : host_rx_exit e (with_slots s c) = with_slots (host_rx_exit e s) c.
Proof. unfold host_rx_exit. blind. Qed.
Lemma queue_rq_slots filter K e s c hctx bd :
  host_queue_rq filter K e (with_slots s c) hctx bd = with_slots (host_queue_rq filter K e s hctx bd) c.
Proof. unfold host_queue_rq, get_qstat. blind. Qed.
Lemma setup_slots `{HostTransport} filter K e s rq cmd c :
  ntp_h_setup_cmd filter K e (with_slots s c) rq cmd = with_slots (ntp_h_setup_cmd filter K e s rq cmd) c.
Proof. unfold ntp_h_setup_cmd, setup_sampled, count_host_io. blind. Qed.
Lemma complete_slots filter K e s c rq :
  host_complete filter K e (with_slots s c) rq =
    ((host_complete filter K e s rq).1, with_slots (host_complete filter K e s rq).2 c).
Proof. unfold host_complete. blind. Qed.
Lemma nvme_done_slots e s c rq : ntp_h_nvme_done e (with_slots s c) rq = with_slots (ntp_h_nvme_done e s rq) c.
Proof. unfold ntp_h_nvme_done. blind. Qed.
Lemma blk_done_slots `{HostTransport} e s c rq : ntp_h_blk_done e (with_slots s c) rq = with_slots (ntp_h_blk_done e s rq) c.
Proof. unfold ntp_h_blk_done. blind. Qed.
#[export] Hint Rewrite rx_exit_slots queue_rq_slots @setup_slots complete_slots nvme_done_slots @blk_done_slots : blind.

(** ** NVMe/TCP *)

Section tcp.
  Variable filter : ntp_filter.
  Import TcpHost.

Lemma send_done_slots K e s c req ret b :
  TcpHost.on_send_done filter K e (with_slots s c) req ret b = with_slots (TcpHost.on_send_done filter K e s req ret b) c.
Proof. unfold TcpHost.on_send_done. blind. Qed.
Lemma send_h2c_slots K e s c req : on_send_h2c K e (with_slots s c) req = with_slots (on_send_h2c K e s req) c.
Proof. unfold on_send_h2c. blind. Qed.
Hint Rewrite send_done_slots send_h2c_slots : blind.

Lemma tsend_found_slots K e s c x req : tsend_found K e (with_slots s c) x req = with_slots (tsend_found K e s x req) c.
Proof. unfold tsend_found. by autorewrite with blind. Qed.
Hint Rewrite tsend_found_slots : blind.

(** Every hook but the two that are about the slot. *)
Lemma tcp_host_slots K e s c ev :
  (match ev with TH_send_enter _ | TH_send_exit _ _ => False | _ => True end) ->
  tcp_host_run filter K e (with_slots s c) ev = with_slots (tcp_host_run filter K e s ev) c.
Proof.
  intros Hev. destruct ev; try done; cbn [tcp_host_run];
    unfold try_send_enter, on_sock_send, try_send_exit, on_recv_skb, on_recv_skb_exit, on_copy, on_r2t, on_complete;
    try (autorewrite with blind; reflexivity); change (tsend_c (with_slots s c)) with (tsend_c s);
    try (rewrite complete_slots; destruct (host_complete _ _ _ _ _)); blind.
Qed.
End tcp.

(** ** NVMe/RDMA *)

Section rdma.
  Variable filter : ntp_filter.
  Import RdmaHost.

Lemma stamp_slot_slots e s c f ev : stamp_slot e (with_slots s c) f ev = with_slots (stamp_slot e s f ev) c.
Proof. unfold stamp_slot. blind. Qed.
Hint Rewrite stamp_slot_slots : blind.
Lemma posted_slots K e s c qe ret : on_posted filter K e (with_slots s c) qe ret = with_slots (on_posted filter K e s qe ret) c.
Proof. unfold on_posted. blind. Qed.

Lemma rdma_host_slots K e s c ev :
  (match ev with RH_post_enter _ | RH_post_exit _ => False | _ => True end) ->
  rdma_host_run filter K e (with_slots s c) ev = with_slots (rdma_host_run filter K e s ev) c.
Proof.
  intros Hev. destruct ev; try done; cbn [rdma_host_run];
    try (autorewrite with blind; reflexivity); try apply posted_slots; unfold RdmaHost.on_send_done, on_recv_done, on_inv_done; blind.
Qed.
End rdma.
