(* ===== verification/BlindTarget.v ===== *)
(** * The slot of the RDMA target's kretprobe

    The kretprobe of nvmet_rdma_queue_response takes the request from a per-CPU slot,
    [resp_c], which the kprobe filled; every other hook of the object is blind to it. *)
From stdpp Require Import base numbers list gmap.
From Stdlib Require Import ZArith Lia.
From S2P Require Import Prelude Types BpfCommon BpfTarget.

Definition with_resp (s : tgt_st) (c : Z -> resp_ctx) : tgt_st :=
  mk_tgt_st (t_armed s) (t_inflight s) (t_cnt s) (treqs s) (tqstats s) (tcountedm s) (tgt_c s) (tcp_rx_c s)
    (tqueues s) c (t_events s).

Lemma with_resp_id s : with_resp s (resp_c s) = s.
Proof. by destruct s. Qed.

Section slots.
  Implicit Types (s : tgt_st) (c : Z -> resp_ctx).

Lemma armed_resp s c : t_armed (with_resp s c) = t_armed s. Proof. done. Qed.
Lemma inflight_resp s c : t_inflight (with_resp s c) = t_inflight s. Proof. done. Qed.
Lemma treqs_resp s c : treqs (with_resp s c) = treqs s. Proof. done. Qed.
Lemma tqstats_resp s c : tqstats (with_resp s c) = tqstats s. Proof. done. Qed.
Lemma tcounted_resp s c : tcountedm (with_resp s c) = tcountedm s. Proof. done. Qed.
Lemma get_ctx_resp e s c : get_ctx e (with_resp s c) = get_ctx e s. Proof. done. Qed.
Lemma tgt_entry_resp s c req : tgt_entry_of (with_resp s c) req = tgt_entry_of s req. Proof. done. Qed.
Lemma rec_of_rq_resp K s c rq : rec_of_rq K (with_resp s c) rq = rec_of_rq K s rq. Proof. done. Qed.
Lemma tgt_arm_resp s c on : tgt_arm (with_resp s c) on = with_resp (tgt_arm s on) c. Proof. done. Qed.
Lemma add_inflight_resp s c v : inflight_add (with_resp s c) v = with_resp (inflight_add s v) c. Proof. done. Qed.
Lemma inc_resp s c n v : inc (with_resp s c) n v = with_resp (inc s n v) c. Proof. done. Qed.
Lemma set_entry_resp s c i v : set_entry (with_resp s c) i v = with_resp (set_entry s i v) c. Proof. done. Qed.
Lemma set_rec_resp s c i v : set_rec (with_resp s c) i v = with_resp (set_rec s i v) c. Proof. done. Qed.
Lemma set_queues_resp s c a b : set_queues (with_resp s c) a b = with_resp (set_queues s a b) c. Proof. done. Qed.
Lemma set_ctx_resp s c i v : set_ctx (with_resp s c) i v = with_resp (set_ctx s i v) c. Proof. done. Qed.
Lemma add_event_resp s c r : add_event (with_resp s c) r = with_resp (add_event s r) c. Proof. done. Qed.
Lemma ctx_enter_resp e s c q k a : tgt_ctx_enter e (with_resp s c) q k a = with_resp (tgt_ctx_enter e s q k a) c. Proof. done. Qed.
End slots.
#[export] Hint Rewrite armed_resp inflight_resp treqs_resp tqstats_resp tcounted_resp get_ctx_resp tgt_entry_resp rec_of_rq_resp
  tgt_arm_resp add_inflight_resp inc_resp set_entry_resp set_rec_resp set_queues_resp set_ctx_resp add_event_resp ctx_enter_resp : blind.

Lemma uncount_resp s c req bits forget : uncount (with_resp s c) req bits forget = with_resp (uncount s req bits forget) c.
Proof. unfold uncount. blind. Qed.
Lemma count_resp_resp s c req : count_resp_queued (with_resp s c) req = with_resp (count_resp_queued s req) c.
Proof. unfold count_resp_queued. blind. Qed.
Lemma tgt_emit_resp e s c req : tgt_emit e (with_resp s c) req = with_resp (tgt_emit e s req) c.
Proof. unfold tgt_emit. blind. Qed.
Lemma tgt_uncount_resp filter s c req : tgt_uncount filter (with_resp s c) req = with_resp (tgt_uncount filter s req) c.
Proof. unfold tgt_uncount. by destruct (tracking filter); rewrite ?uncount_resp. Qed.
#[export] Hint Rewrite uncount_resp count_resp_resp tgt_emit_resp tgt_uncount_resp : blind.

Lemma emit_reused_resp e s c key : emit_reused e (with_resp s c) key = with_resp (emit_reused e s key) c.
Proof. unfold emit_reused. blind. Qed.
Lemma part_done_resp e s c req part : RdmaTarget.rsp_part_done e (with_resp s c) req part = with_resp (RdmaTarget.rsp_part_done e s req part) c.
Proof. unfold RdmaTarget.rsp_part_done. blind. Qed.
Lemma count_arrival_resp s c key sq :
  count_arrival (with_resp s c) key sq = ((count_arrival s key sq).1, with_resp (count_arrival s key sq).2 c).
Proof. unfold count_arrival, get_tqstat. blind. Qed.
#[export] Hint Rewrite emit_reused_resp part_done_resp count_arrival_resp : blind.

Section rdma.
  Variable filter : ntp_filter.
  Import RdmaTarget.

Lemma req_init_resp K e s c req cmd :
  ntp_t_req_init (H := rdma_target) filter K e (with_resp s c) req cmd = with_resp (ntp_t_req_init (H := rdma_target) filter K e s req cmd) c.
Proof.
  unfold ntp_t_req_init, init_sampled. cbn [BpfTarget.tgt_is_ours BpfTarget.tgt_sampled rdma_target]. unfold tgt_is_ours, tgt_sampled.
  rewrite count_arrival_resp. destruct (count_arrival s req (nvmet_req_sq K req)) as [[qo qr] s1]. blind.
Qed.

Lemma queue_resp_resp e s c req : on_queue_resp filter e (with_resp s c) req = with_resp (on_queue_resp filter e s req) c.
Proof. unfold on_queue_resp. blind. Qed.
Lemma queue_resp_exit_resp e s c req : on_queue_resp_exit filter e (with_resp s c) req = with_resp (on_queue_resp_exit filter e s req) c.
Proof. unfold on_queue_resp_exit. blind. Qed.

Lemma rdma_tgt_resp K e s c ev :
  (match ev with RT_queue_resp_kp _ | RT_queue_resp_kr => False | _ => True end) ->
  rdma_tgt_run filter K e (with_resp s c) ev = with_resp (rdma_tgt_run filter K e s ev) c.
Proof.
  intros Hev. destruct ev; try done; cbn [rdma_tgt_run]; try apply req_init_resp; try apply queue_resp_resp; try apply queue_resp_exit_resp;
    unfold on_exec, ntp_t_be_issue, ntp_t_be_done, ntp_t_complete, on_recv_done, tgt_ctx_exit, on_execute, on_read_done, on_send_done;
    try (autorewrite with blind; reflexivity); blind.
Qed.
End rdma.
