(* ===== verification/EmittedHost.v ===== *)
(** * What the host objects emit is well formed

    Every record under construction, every context a record takes values from and every
    record emitted has its fields within the widths of the struct, in every state the
    hooks reach: what the ring buffer carries can be stored and read back. *)
From stdpp Require Import base numbers list gmap.
From Stdlib Require Import ZArith Lia.
From S2P Require Import Prelude Types BpfCommon BpfHost.

(** ** The kernel's side *)

(** What is read from kernel memory has the width of its field. *)
Record cmd_ok (c : ntp_nvme_cmd) : Prop := {
  cmd_opcode : is_u8 (c_opcode c);
  cmd_cid : is_u16 (c_command_id c);
  cmd_nsid : is_u32 (c_nsid c);
  cmd_slba : is_u64 (c_slba c);
  cmd_length : is_u16 (c_length c)
}.
Record kernel_ok (K : kernel) : Prop := {
  kernel_cmd : forall a c, read_nvme_cmd K a = Some c -> cmd_ok c;
  kernel_start : forall rq, is_u64 (rq_start_time_ns K rq);
  kernel_disk : forall rq, Forall is_u8 (rq_disk_name K rq)
}.
(** A CPU number and a time. *)
Definition env_ok (e : env) : Prop := is_u32 (e_cpu e) /\ is_u64 (e_now e).

(** ** Fields *)

Lemma u8_range_of z : 0 <= z < 256 -> is_u8 z. Proof. done. Qed.
Lemma lor_u16 a b : is_u16 a -> is_u16 b -> is_u16 (Z.lor a b).
Proof.
  intros [Ha Ha'] [Hb Hb']. split; [by apply Z.lor_nonneg|].
  destruct (decide (Z.lor a b = 0)) as [->|]; [done|]. apply Z.log2_lt_pow2; [pose proof (proj2 (Z.lor_nonneg a b) (conj Ha Hb)); lia|].
  rewrite Z.log2_lor by done. apply Z.max_lub_lt; [destruct (decide (a = 0)) as [->|]|destruct (decide (b = 0)) as [->|]];
    try done; apply Z.log2_lt_pow2; lia.
Qed.
Lemma clamp_u16 v : is_u16 (ntp_clamp_u16 v).
Proof. unfold ntp_clamp_u16, is_u16. destruct (v <? 0) eqn:?; [lia|]. destruct (0xffff <? v) eqn:?; lia. Qed.
Lemma stamp_once_u64 v now : is_u64 v -> is_u64 now -> is_u64 (ntp_stamp_once v now).
Proof. unfold ntp_stamp_once. by destruct (nz v). Qed.
Lemma arrival_u64 filter K skb now : is_u64 now -> is_u64 (ntp_skb_arrival filter K skb now).
Proof. intros Hn. unfold ntp_skb_arrival. repeat case_match; auto with ntp. Qed.
Lemma zero_u64 : is_u64 0. Proof. done. Qed.
Lemma zero_u16 : is_u16 0. Proof. done. Qed.

Create HintDb typed.
#[export] Hint Resolve clamp_u16 stamp_once_u64 arrival_u64 zero_u64 zero_u16 u64_range u32_range u16_range : typed.

(** ** Records *)

Lemma host_ok_hts r ev v : host_rec_ok r -> is_u64 v -> host_rec_ok (set_hts r ev v).
Proof.
  unfold host_rec_ok. cbn [set_hts h_hdr h_id h_bytes ctrl_instance q_unsent q_inflight h_pad disk h_ts c2h_busy_ns c2h_skbs h_pad2].
  rewrite length_insert. intuition. by apply Forall_insert.
Qed.
Lemma host_ok_flag r f : host_rec_ok r -> is_u16 f -> host_rec_ok (h_add_flag r f).
Proof.
  unfold host_rec_ok, hdr_ok, h_add_flag, set_h_flags. cbn. intuition. by apply lor_u16.
Qed.
Lemma host_ok_cpu r c : host_rec_ok r -> is_u32 c -> host_rec_ok (h_set_cpu r c).
Proof. unfold host_rec_ok, hdr_ok, h_set_cpu. cbn. intuition. Qed.
Lemma host_ok_busy r ns now : host_rec_ok r -> is_u64 now -> host_rec_ok (add_busy r ns now).
Proof.
  intros Hr Hn. unfold add_busy. apply host_ok_hts; [|done]. unfold host_rec_ok in *. cbn. intuition auto with typed.
Qed.
Lemma host_ok_zero : host_rec_ok zero_host_rec.
Proof. apply (bool_decide_unpack _). vm_compute. exact I. Qed.
Lemma host_ok_data_done r c now : host_rec_ok r -> is_u64 now -> host_rec_ok (host_data_done r c now).1.
Proof. intros. unfold host_data_done. cbn [fst]. destruct (_ && _); [by apply host_ok_busy|done]. Qed.
Lemma host_ok_stamp r ev now : host_rec_ok r -> is_u64 now -> host_rec_ok (set_hts r ev (ntp_stamp_once (hts r ev) now)).
Proof. intros. apply host_ok_hts; [done|]. apply stamp_once_u64; [by apply hts_u64|done]. Qed.
Lemma disk_bytes_ok name : Forall is_u8 name -> length (disk_bytes name) = NTP_DISK_NAME_LEN /\ Forall is_u8 (disk_bytes name).
Proof.
  intros Hn. unfold disk_bytes. split; [rewrite length_app, length_replicate, length_take; unfold NTP_DISK_NAME_LEN; lia|].
  apply Forall_app. split; [by apply Forall_take|]. by apply Forall_replicate.
Qed.
Lemma read_cmd_ok K cmd id : kernel_ok K -> ntp_read_cmd K cmd = Some id -> id_ok id.
Proof.
  intros HK. unfold ntp_read_cmd. destruct (read_nvme_cmd K cmd) as [c|] eqn:E; [|done]. intros [= <-].
  destruct (kernel_cmd K HK _ _ E). unfold id_ok. cbn. split_and!; try done. by repeat constructor.
Qed.

(** ** States *)

Record host_typed (s : host_st) : Prop := {
  ty_reqs : forall i, host_rec_ok (he_rec (reqs s i));
  ty_pend : forall i, is_u64 (p_ts (pend s i)) /\ is_u16 (p_q_unsent (pend s i)) /\ is_u16 (p_q_inflight (pend s i));
  ty_rx : forall i, is_u64 (x_arrival (rx_ctx s i));
  ty_events : Forall host_rec_ok (events s)
}.

Lemma typed_init : host_typed host_init.
Proof. split; cbn; intros; try done. apply host_ok_zero. Qed.
Lemma typed_arm s on : host_typed s -> host_typed (arm s on).
Proof. intros []. by split. Qed.
Lemma typed_inc s c d : host_typed s -> host_typed (inc s c d).
Proof. intros []. by split. Qed.
Lemma typed_inflight s d : host_typed s -> host_typed (ntp_inflight_add s d).
Proof. intros []. by split. Qed.
Lemma typed_cid s i v : host_typed s -> host_typed (set_cid s i v).
Proof. intros []. by split. Qed.
Lemma typed_queues s a b : host_typed s -> host_typed (set_queues s a b).
Proof. intros []. by split. Qed.
Lemma typed_send s i v : host_typed s -> host_typed (set_send s i v).
Proof. intros []. by split. Qed.
Lemma typed_tsend s i v : host_typed s -> host_typed (set_tsend s i v).
Proof. intros []. by split. Qed.
Lemma typed_post s i v : host_typed s -> host_typed (set_post s i v).
Proof. intros []. by split. Qed.
Lemma typed_entry s i v : host_typed s -> host_rec_ok (he_rec v) -> host_typed (set_entry s i v).
Proof. intros [] Hv. split; try done. intros j. cbn. unfold arr_set. by destruct (j =? i). Qed.
Lemma typed_rec s i r : host_typed s -> host_rec_ok r -> host_typed (set_rec s i r).
Proof. intros. by apply typed_entry. Qed.
Lemma typed_pend s i p :
  host_typed s -> is_u64 (p_ts p) -> is_u16 (p_q_unsent p) -> is_u16 (p_q_inflight p) -> host_typed (set_pend s i p).
Proof. intros [] ???. split; try done. intros j. cbn. unfold arr_set. by destruct (j =? i). Qed.
Lemma typed_rx s i c : host_typed s -> is_u64 (x_arrival c) -> host_typed (set_rx s i c).
Proof. intros [] ?. split; try done. intros j. cbn. unfold arr_set. by destruct (j =? i). Qed.
Lemma typed_event s r : host_typed s -> host_rec_ok r -> host_typed (add_event s r).
Proof. intros [] ?. split; try done. cbn. apply Forall_app. split; [done|]. by constructor. Qed.

Lemma typed_get_rx e s c : host_typed s -> get_rx e s = Some c -> is_u64 (x_arrival c).
Proof. intros []. unfold get_rx. destruct (_ =? _); [|done]. intros [= <-]. auto. Qed.
Lemma typed_get_pend e s p :
  host_typed s -> get_pend e s = Some p -> is_u64 (p_ts p) /\ is_u16 (p_q_unsent p) /\ is_u16 (p_q_inflight p).
Proof. intros []. unfold get_pend. destruct (_ =? _); [|done]. intros [= <-]. auto. Qed.
Lemma typed_entry_of s rq slot he : host_typed s -> host_entry_of s rq = Some (slot, he) -> host_rec_ok (he_rec he).
Proof.
  intros []. unfold host_entry_of, arr_lookup. destruct (_ && _); [|done]. destruct (_ =? rq); [|done]. intros [= <- <-]. auto.
Qed.
Lemma typed_by_cid s q i slot he : host_typed s -> host_rec_by_cid s q i = Some (slot, he) -> host_rec_ok (he_rec he).
Proof. intros Hs. unfold host_rec_by_cid. repeat case_match; try done. by apply typed_entry_of. Qed.
Lemma typed_req s i : host_typed s -> host_rec_ok (he_rec (reqs s i)).
Proof. intros []. auto. Qed.
Lemma env_now e : env_ok e -> is_u64 (e_now e). Proof. by intros []. Qed.
Lemma env_cpu e : env_ok e -> is_u32 (e_cpu e). Proof. by intros []. Qed.

#[export] Hint Resolve typed_arm typed_inc typed_inflight typed_cid typed_queues typed_send typed_tsend typed_post typed_entry
  typed_rec typed_pend typed_rx typed_event typed_req env_now env_cpu
  host_ok_hts host_ok_flag host_ok_cpu host_ok_stamp host_ok_data_done : typed.
#[export] Hint Extern 1 (is_u16 _) => (vm_compute; split; congruence) : typed.

(** [typed]: a hook that keeps the state well formed on each of its paths. *)
Ltac typed_fact :=
  match goal with
  | H : get_rx ?e ?s = Some ?c |- _ => apply typed_get_rx in H; [|solve [auto with typed]]
  | H : host_entry_of ?s _ = Some (_, ?he) |- _ => apply typed_entry_of in H; [|solve [auto with typed]]
  | H : host_rec_by_cid ?s _ _ = Some (_, ?he) |- _ => apply typed_by_cid in H; [|solve [auto with typed]]
  end.
Ltac typed_step :=
  match goal with
  | |- host_typed (match ?x with _ => _ end) => destruct x eqn:?; try typed_fact
  end.
Ltac typed := cbv zeta; repeat typed_step; auto 8 with typed.

Section hooks.
  Variable filter : ntp_filter.

Lemma typed_uncount s rq bits forget : host_typed s -> host_typed (uncount s rq bits forget).
Proof. intros Hs. unfold uncount. typed. Qed.
Lemma typed_rx_enter e s q skb a now : host_typed s -> is_u64 a -> host_typed (host_rx_enter e s q skb a now).
Proof. intros. by apply typed_rx. Qed.
Lemma typed_rx_exit e s : host_typed s -> host_typed (host_rx_exit e s).
Proof. intros Hs. unfold host_rx_exit. typed. Qed.
Lemma typed_nvme_done e s rq : env_ok e -> host_typed s -> host_typed (ntp_h_nvme_done e s rq).
Proof. intros He Hs. unfold ntp_h_nvme_done. typed. Qed.
Hint Resolve typed_uncount typed_rx_enter : typed.

Lemma typed_get_qstat s q : host_typed s -> host_typed (get_qstat s q).2.
Proof. intros Hs. unfold get_qstat. destruct (qstats s !! q); cbn [snd]; auto with typed. Qed.
Lemma typed_queue_rq K e s hctx bd : env_ok e -> host_typed s -> host_typed (host_queue_rq filter K e s hctx bd).
Proof.
  intros He Hs. unfold host_queue_rq. cbv zeta. destruct (armed s); [|done]. cbn [negb]. destruct (tracking filter); [|apply typed_pend; cbn; auto with typed].
  pose proof (typed_get_qstat s (hctx_driver_data K hctx) Hs) as Hq. destruct (get_qstat s _) as [qs s']. cbn [snd] in Hq.
  destruct qs as [qs|]; [destruct (countedm s' !! bd_rq K bd)|]; try apply typed_queues; apply typed_pend; cbn; auto with typed.
Qed.

Lemma new_rec_ok `{HostTransport} K rq hctx ctrl bytes instance ts qu qi id :
  kernel_ok K -> is_u8 NTP_TRANSPORT -> id_ok id -> is_u32 bytes -> is_u32 instance -> is_u64 ts -> is_u16 qu -> is_u16 qi ->
  host_rec_ok (new_host_rec filter K rq hctx ctrl bytes instance ts qu qi id).
Proof.
  intros HK Htr Hid Hb Hi Ht Hu Hq. unfold new_host_rec. cbv zeta. apply host_ok_hts; [apply host_ok_hts|done]; [|apply (kernel_start K HK)].
  destruct (disk_bytes_ok _ (kernel_disk K HK rq)) as [Hl Hd].
  set (fl := if tracking filter then _ else _). assert (is_u16 fl) by (unfold fl; destruct (_ =? _), (tracking filter); done).
  clearbody fl. unfold host_rec_ok, hdr_ok, id_ok in *. cbn. destruct Hid as (?&?&_&_&?&?&?&?&?).
  split_and!; try done; try apply u16_range. by repeat constructor.
Qed.

Lemma typed_setup_sampled `{HostTransport} K e s rq ctrl bytes instance queue ts qu qi id :
  kernel_ok K -> env_ok e -> is_u8 NTP_TRANSPORT -> id_ok id -> is_u32 bytes -> is_u32 instance -> is_u64 ts -> is_u16 qu -> is_u16 qi ->
  host_typed s -> host_typed (setup_sampled filter K e s rq ctrl bytes instance queue ts qu qi id).
Proof.
  intros HK He Htr Hid Hb Hi Ht Hu Hq Hs. unfold setup_sampled. cbv zeta. destruct (arr_lookup _ _ _); [|done].
  apply typed_inc, typed_cid, typed_entry; [destruct (nz _); auto with typed|]. cbn [he_rec]. apply new_rec_ok; try done.
  destruct (nz ts); [done|by apply env_now].
Qed.

Lemma typed_setup `{HostTransport} K e s rq cmd :
  kernel_ok K -> env_ok e -> is_u8 NTP_TRANSPORT -> host_typed s -> host_typed (ntp_h_setup_cmd filter K e s rq cmd).
Proof.
  intros HK He Htr Hs. unfold ntp_h_setup_cmd. cbv zeta.
  match goal with |- host_typed (match ?g with _ => _ end) => assert (Hg : forall s' q ts qu qi, g = Some (s', q, ts, qu, qi) ->
    host_typed s' /\ is_u64 ts /\ is_u16 qu /\ is_u16 qi); [|destruct g as [[[[[s' queue] ts] qu] qi]|] eqn:Eg; [|done]] end.
  { intros s' q ts qu qi. destruct (if NTP_HOST_HOOKS_QUEUE_RQ || tracking filter then get_pend e s else None) as [p|] eqn:Ep.
    - destruct (_ || _); [|done]. destruct (typed_get_pend _ _ _ Hs Ep) as (?&?&?).
      destruct (p_rq p =? rq); [intros [= <- <- <- <- <-]; split; [apply typed_pend|]; auto|].
      destruct (armed s), (nz _); try done. intros [= <- <- <- <- <-]. auto with typed.
    - destruct (armed s), (nz _); try done. intros [= <- <- <- <- <-]. auto with typed. }
  destruct (Hg _ _ _ _ _ eq_refl) as (Hs' & Ht & Hu & Hq). clear Hg Eg.
  destruct (ntp_read_cmd K cmd) as [id|] eqn:Ei; [|done]. apply read_cmd_ok in Ei; [|done].
  assert (host_typed (count_host_io s' (opcode id) (u32 (rq_data_len K rq)))) as Hc by (unfold count_host_io; auto with typed).
  repeat match goal with |- host_typed (if ?x then _ else _) => destruct x; [done|] end.
  apply typed_setup_sampled; auto with typed.
Qed.

Lemma typed_complete K e s rq : env_ok e -> host_typed s -> host_typed (host_complete filter K e s rq).2.
Proof.
  intros He Hs. unfold host_complete. cbv zeta. destruct (ntp_idle _ _); [done|]. destruct (get_rx e s) as [c|] eqn:Ec; [|done].
  apply typed_get_rx in Ec; [|done].
  set (s1 := if tracking filter then _ else s). assert (host_typed s1) as H1 by (unfold s1; destruct (tracking filter); auto with typed).
  clearbody s1. destruct (host_entry_of s1 _) as [[slot he]|] eqn:Ee; [|done]. apply typed_entry_of in Ee; [|done].
  set (r := set_hts _ _ _). assert (host_rec_ok r) as Hr by (unfold r; destruct (nz (x_arrival c)); auto with typed). clearbody r.
  destruct (x_data_rq c =? _); cbn [snd]; [|auto with typed]. apply typed_rx; [|done]. apply typed_rec; [done|].
  apply (host_ok_data_done r c); auto with typed.
Qed.

Lemma typed_finished `{HostTransport} e r : env_ok e -> host_rec_ok r -> host_rec_ok (finished_rec e r).
Proof.
  intros He Hr. unfold finished_rec. cbv zeta. apply host_ok_cpu; [|by apply env_cpu]. destruct (_ && _); auto 6 with typed.
Qed.
Lemma typed_blk_done `{HostTransport} e s rq : env_ok e -> host_typed s -> host_typed (ntp_h_blk_done e s rq).
Proof.
  intros He Hs. unfold ntp_h_blk_done. cbv zeta. destruct (nz (inflight s)); [|done]. cbn [negb].
  destruct (host_entry_of s rq) as [[slot he]|] eqn:Ee; [|done]. apply typed_entry_of in Ee; [|done].
  pose proof (typed_finished e _ He Ee) as Hf. apply typed_inflight, typed_entry; [|done].
  assert (host_typed (set_rec s slot (finished_rec e (he_rec he)))) by auto with typed.
  destruct (e_rb_full e), (arr_lookup _ _ _); try destruct (_ =? _); auto 6 with typed.
Qed.
End hooks.
#[export] Hint Resolve typed_uncount typed_rx_enter typed_rx_exit typed_nvme_done typed_queue_rq typed_complete : typed.

(** ** NVMe/TCP *)

Section tcp.
  Variable filter : ntp_filter.
  Import TcpHost.

Lemma typed_send_done K e s req ret b : env_ok e -> host_typed s -> host_typed (TcpHost.on_send_done filter K e s req ret b).
Proof.
  intros He Hs. unfold TcpHost.on_send_done. cbv zeta. destruct (_ || _); [done|].
  set (s1 := if b && tracking filter then _ else s). assert (host_typed s1) by (unfold s1; destruct (b && _); auto with typed).
  clearbody s1. typed.
Qed.
Lemma typed_send_h2c K e s req : env_ok e -> host_typed s -> host_typed (on_send_h2c K e s req).
Proof. intros He Hs. unfold on_send_h2c. typed. Qed.
Hint Resolve typed_send_done typed_send_h2c : typed.
Lemma typed_tsend_found K e s c req : env_ok e -> host_typed s -> host_typed (tsend_found K e s c req).
Proof. intros He Hs. unfold tsend_found. typed. Qed.
Hint Resolve typed_tsend_found : typed.

Lemma typed_recv_exit e s : env_ok e -> host_typed s -> host_typed (on_recv_skb_exit e s).
Proof.
  intros He Hs. unfold on_recv_skb_exit. destruct (get_rx e s) as [c|] eqn:Ec; [|done]. apply typed_get_rx in Ec; [|done].
  destruct (nz (x_data_rq c)); [|auto with typed]. destruct (host_entry_of s _) as [[slot he]|] eqn:Ee; [|auto with typed].
  apply typed_entry_of in Ee; [|done]. pose proof (host_ok_data_done _ c _ Ee (env_now e He)) as Hr. cbn in Hr |- *. auto with typed.
Qed.

(** The request the context counted for is closed before it turns to another. *)
Lemma typed_switch e s c :
  env_ok e -> host_typed s -> is_u64 (x_arrival c) ->
  let sc := if nz (x_data_rq c) then
              match host_entry_of s (x_data_rq c) with
              | Some (pslot, prev) => let '(r, c) := host_data_done (he_rec prev) c (e_now e) in (set_rec s pslot r, c)
              | None => (s, c)
              end
            else (s, c) in
  host_typed sc.1 /\ is_u64 (x_arrival sc.2).
Proof.
  intros He Hs Hc sc. subst sc. destruct (nz (x_data_rq c)); [|done]. destruct (host_entry_of s _) as [[pslot prev]|] eqn:Ee; [|done].
  apply typed_entry_of in Ee; [|done]. pose proof (host_ok_data_done _ c _ Ee (env_now e He)) as Hr. cbn in Hr |- *. auto with typed.
Qed.

Lemma typed_copy K e s skb : env_ok e -> host_typed s -> host_typed (on_copy filter K e s skb).
Proof.
  intros He Hs. unfold on_copy. destruct (ntp_idle _ _); [done|]. destruct (get_rx e s) as [c|] eqn:Ec; [|done].
  apply typed_get_rx in Ec; [|done]. destruct (negb _); [done|]. destruct (tcp_queue_pdu K (x_queue c)) as [[ty ci]|]; [|done].
  destruct (negb _); [done|]. destruct (arr_lookup _ _ _) as [cs|]; [|done]. destruct (_ || _); [done|].
  destruct (host_entry_of s _) as [[slot he]|] eqn:Ee; [|done]. apply typed_entry_of in Ee; [|done]. cbv zeta.
  set (s1 := set_rec s slot _). assert (host_typed s1) as H1 by (unfold s1; auto with typed). clearbody s1.
  destruct (x_data_rq c =? he_rq he); [done|].
  pose proof (typed_switch e s1 c He H1 Ec) as Hsw. cbv zeta in Hsw.
  match goal with |- host_typed (let '(a, b) := ?p in _) => destruct p as [s2 c2] end. cbn [fst snd] in Hsw. destruct Hsw as [H2 Hc2].
  destruct (negb _); [|by apply typed_rx]. apply typed_rx; [|done]. apply typed_rec; [done|]. auto with typed.
Qed.
Lemma typed_r2t K e s req : env_ok e -> host_typed s -> host_typed (on_r2t K e s req).
Proof. intros He Hs. unfold on_r2t. typed. Qed.
Lemma typed_on_complete K e s rq : env_ok e -> host_typed s -> host_typed (on_complete filter K e s rq).
Proof.
  intros He Hs. unfold on_complete. pose proof (typed_complete filter K e s rq He Hs) as Hc.
  destruct (host_complete filter K e s rq) as [o s1]. cbn [snd] in Hc. destruct o as [slot|]; [|done]. typed.
Qed.
Hint Resolve typed_recv_exit typed_copy typed_r2t typed_on_complete : typed.

Lemma tcp_host_typed K e s ev : kernel_ok K -> env_ok e -> host_typed s -> host_typed (tcp_host_run filter K e s ev).
Proof.
  intros HK He Hs. destruct ev; cbn [tcp_host_run]; auto with typed.
  - apply typed_setup; done.
  - unfold send_enter. auto with typed.
  - unfold send_exit. typed.
  - unfold try_send_enter. typed.
  - unfold on_sock_send. typed.
  - unfold try_send_exit. cbv zeta. destruct (get_tsend e s); [|done]. destruct (negb _); [auto with typed|].
    apply typed_send_done; [done|]. typed.
  - unfold on_recv_skb. typed.
  - by apply typed_blk_done.
Qed.
End tcp.

(** ** NVMe/RDMA *)

Section rdma.
  Variable filter : ntp_filter.
  Import RdmaHost.

Lemma typed_stamp e s f ev :
  env_ok e -> host_typed s -> (forall slot he, f = Some (slot, he) -> host_rec_ok (he_rec he)) -> host_typed (stamp_slot e s f ev).
Proof. intros He Hs Hf. unfold stamp_slot. destruct f as [[slot he]|]; [|done]. specialize (Hf slot he eq_refl). auto with typed. Qed.
Lemma typed_posted K e s qe ret : env_ok e -> host_typed s -> host_typed (on_posted filter K e s qe ret).
Proof.
  intros He Hs. unfold on_posted. cbv zeta. destruct (_ || _); [done|].
  set (s1 := if tracking filter then _ else s). assert (host_typed s1) by (unfold s1; destruct (tracking filter); auto with typed).
  clearbody s1. apply typed_stamp; [done..|]. intros slot he. by apply typed_entry_of.
Qed.
Hint Resolve typed_posted : typed.

Lemma rdma_host_typed K e s ev : kernel_ok K -> env_ok e -> host_typed s -> host_typed (rdma_host_run filter K e s ev).
Proof.
  intros HK He Hs. destruct ev; cbn [rdma_host_run]; auto with typed.
  - apply typed_setup; done.
  - unfold ntp_hr_post_kp. auto with typed.
  - unfold ntp_hr_post_kr. typed.
  - unfold RdmaHost.on_send_done. cbv zeta. destruct (ntp_idle _ _); [done|]. apply typed_rx_enter; [|done].
    apply typed_stamp; [done..|]. intros slot he. by apply typed_entry_of.
  - unfold on_recv_done. cbv zeta. destruct (ntp_idle _ _); [done|]. apply typed_rx_enter; [|done].
    destruct (cqe_command_id _ _); [|done]. apply typed_stamp; [done..|]. intros slot he. by apply typed_by_cid.
  - unfold on_inv_done. typed.
  - by apply typed_blk_done.
Qed.
End rdma.
