(* ===== verification/EmittedTarget.v ===== *)
(** * What the target objects emit is well formed

    The same as EmittedHost.v for the target objects: records, contexts and emitted
    records stay within the widths of the structs. *)
From stdpp Require Import base numbers list gmap.
From Stdlib Require Import ZArith Lia.
From S2P Require Import Prelude Types BpfCommon EmittedHost BpfTarget.

(** ** Records *)

Lemma tgt_ok_tts r ev v : tgt_rec_ok r -> is_u64 v -> tgt_rec_ok (set_tts r ev v).
Proof.
  unfold tgt_rec_ok. cbn [set_tts t_hdr t_id t_bytes q_outstanding q_resp_queue t_ts h2c_busy_ns h2c_skbs t_pad2].
  rewrite length_insert. intuition. by apply Forall_insert.
Qed.
Lemma tgt_ok_flag r f : tgt_rec_ok r -> is_u16 f -> tgt_rec_ok (t_add_flag r f).
Proof. unfold tgt_rec_ok, hdr_ok, t_add_flag, set_t_flags. cbn. intuition. by apply lor_u16. Qed.
Lemma tgt_ok_cpu r c : tgt_rec_ok r -> is_u32 c -> tgt_rec_ok (t_set_cpu r c).
Proof. unfold tgt_rec_ok, hdr_ok, t_set_cpu. cbn. intuition. Qed.
Lemma tgt_ok_stamp r ev now : tgt_rec_ok r -> is_u64 now -> tgt_rec_ok (t_stamp_once r ev now).
Proof. intros. apply tgt_ok_tts; [done|]. apply stamp_once_u64; [by apply tts_u64|done]. Qed.
Lemma tgt_ok_zero : tgt_rec_ok zero_tgt_rec.
Proof. apply (bool_decide_unpack _). vm_compute. exact I. Qed.
Lemma tgt_ok_copy r from now arr : tgt_rec_ok r -> is_u64 now -> is_u64 arr -> tgt_rec_ok (TcpTarget.add_copy r from now arr).
Proof.
  intros Hr Hn Ha. unfold TcpTarget.add_copy. cbv zeta. apply tgt_ok_tts; [apply tgt_ok_tts|]; try done.
  unfold tgt_rec_ok in *. cbn. intuition auto with typed.
Qed.
Lemma tgt_ok_bytes r b :
  tgt_rec_ok r -> is_u32 b ->
  tgt_rec_ok (mk_tgt_rec (t_hdr r) (t_id r) b (q_outstanding r) (q_resp_queue r) (t_ts r) (h2c_busy_ns r) (h2c_skbs r) (t_pad2 r)).
Proof. unfold tgt_rec_ok. cbn. intuition. Qed.

(** ** States *)

Record tgt_typed (s : tgt_st) : Prop := {
  tgt_ty_reqs : forall i, tgt_rec_ok (te_rec (treqs s i));
  tgt_ty_ctx : forall i, is_u64 (g_arrival (tgt_c s i));
  tgt_ty_events : Forall tgt_rec_ok (t_events s)
}.

Lemma ttyped_init : tgt_typed tgt_init.
Proof. split; cbn; intros; try done. apply tgt_ok_zero. Qed.
Lemma ttyped_arm s on : tgt_typed s -> tgt_typed (tgt_arm s on).
Proof. intros []. by split. Qed.
Lemma ttyped_inc s c d : tgt_typed s -> tgt_typed (inc s c d).
Proof. intros []. by split. Qed.
Lemma ttyped_inflight s d : tgt_typed s -> tgt_typed (inflight_add s d).
Proof. intros []. by split. Qed.
Lemma ttyped_queues s a b : tgt_typed s -> tgt_typed (set_queues s a b).
Proof. intros []. by split. Qed.
Lemma ttyped_tcp_rx s i v : tgt_typed s -> tgt_typed (set_tcp_rx s i v).
Proof. intros []. by split. Qed.
Lemma ttyped_tqueues s q : tgt_typed s -> tgt_typed (set_tqueues s q).
Proof. intros []. by split. Qed.
Lemma ttyped_resp s i v : tgt_typed s -> tgt_typed (set_resp s i v).
Proof. intros []. by split. Qed.
Lemma ttyped_entry s i v : tgt_typed s -> tgt_rec_ok (te_rec v) -> tgt_typed (set_entry s i v).
Proof. intros [] Hv. split; try done. intros j. cbn. unfold arr_set. by destruct (j =? i). Qed.
Lemma ttyped_rec s i r : tgt_typed s -> tgt_rec_ok r -> tgt_typed (set_rec s i r).
Proof. intros. by apply ttyped_entry. Qed.
Lemma ttyped_ctx s i c : tgt_typed s -> is_u64 (g_arrival c) -> tgt_typed (set_ctx s i c).
Proof. intros [] ?. split; try done. intros j. cbn. unfold arr_set. by destruct (j =? i). Qed.
Lemma ttyped_event s r : tgt_typed s -> tgt_rec_ok r -> tgt_typed (add_event s r).
Proof. intros [] ?. split; try done. cbn. apply Forall_app. split; [done|]. by constructor. Qed.

Lemma ttyped_get_ctx e s c : tgt_typed s -> get_ctx e s = Some c -> is_u64 (g_arrival c).
Proof. intros []. unfold get_ctx. destruct (_ =? _); [|done]. intros [= <-]. auto. Qed.
Lemma ttyped_entry_of s req slot te : tgt_typed s -> tgt_entry_of s req = Some (slot, te) -> tgt_rec_ok (te_rec te).
Proof.
  intros []. unfold tgt_entry_of, arr_lookup. destruct (_ && _); [|done]. destruct (_ =? req); [|done]. intros [= <- <-]. auto.
Qed.
Lemma ttyped_rec_of_rq K s rq slot te : tgt_typed s -> rec_of_rq K s rq = Some (slot, te) -> tgt_rec_ok (te_rec te).
Proof. intros Hs. unfold rec_of_rq. repeat case_match; try done. by apply ttyped_entry_of. Qed.

#[export] Hint Resolve ttyped_arm ttyped_inc ttyped_inflight ttyped_queues ttyped_tcp_rx ttyped_tqueues ttyped_resp ttyped_entry
  ttyped_rec ttyped_ctx ttyped_event tgt_ok_tts tgt_ok_flag tgt_ok_cpu tgt_ok_stamp tgt_ok_copy : typed.

Ltac ttyped_fact :=
  match goal with
  | H : get_ctx ?e ?s = Some ?c |- _ => apply ttyped_get_ctx in H; [|solve [auto with typed]]
  | H : tgt_entry_of ?s _ = Some (_, ?te) |- _ => apply ttyped_entry_of in H; [|solve [auto with typed]]
  | H : rec_of_rq _ ?s _ = Some (_, ?te) |- _ => apply ttyped_rec_of_rq in H; [|solve [auto with typed]]
  end.
Ltac ttyped_step :=
  match goal with
  | |- tgt_typed (match ?x with _ => _ end) => destruct x eqn:?; try ttyped_fact
  end.
Ltac ttyped := cbv zeta; repeat ttyped_step; auto 8 with typed.

(** ** Shared hooks *)

Lemma ttyped_uncount s req bits forget : tgt_typed s -> tgt_typed (uncount s req bits forget).
Proof. intros Hs. unfold uncount. ttyped. Qed.
Lemma ttyped_count_resp s req : tgt_typed s -> tgt_typed (count_resp_queued s req).
Proof. intros Hs. unfold count_resp_queued. ttyped. Qed.
Lemma ttyped_ctx_exit e s : tgt_typed s -> tgt_typed (tgt_ctx_exit e s).
Proof. intros Hs. unfold tgt_ctx_exit. ttyped. Qed.
Lemma ttyped_emit e s req : env_ok e -> tgt_typed s -> tgt_typed (tgt_emit e s req).
Proof.
  intros He Hs. unfold tgt_emit. cbv zeta. destruct (tgt_entry_of s req) as [[slot te]|] eqn:E; [|done]. ttyped_fact.
  assert (tgt_rec_ok (t_set_cpu (te_rec te) (e_cpu e))) by auto with typed. destruct (e_rb_full e); auto 8 with typed.
Qed.
#[export] Hint Resolve ttyped_uncount ttyped_count_resp ttyped_ctx_exit ttyped_emit : typed.

Lemma ttyped_reused e s key : env_ok e -> tgt_typed s -> tgt_typed (emit_reused e s key).
Proof. intros He Hs. unfold emit_reused. ttyped. Qed.
Lemma ttyped_be_issue K e s rq : env_ok e -> tgt_typed s -> tgt_typed (ntp_t_be_issue K e s rq).
Proof. intros He Hs. unfold ntp_t_be_issue. ttyped. Qed.
Lemma ttyped_be_done K e s rq : env_ok e -> tgt_typed s -> tgt_typed (ntp_t_be_done K e s rq).
Proof. intros He Hs. unfold ntp_t_be_done. ttyped. Qed.
Lemma ttyped_complete e s req : env_ok e -> tgt_typed s -> tgt_typed (ntp_t_complete e s req).
Proof. intros He Hs. unfold ntp_t_complete. ttyped. Qed.
Lemma ttyped_exec K e s req : env_ok e -> tgt_typed s -> tgt_typed (on_exec K e s req).
Proof. intros He Hs. unfold on_exec. ttyped. apply ttyped_rec; [done|]. apply (tgt_ok_bytes (set_tts _ _ _)); auto with typed. Qed.
#[export] Hint Resolve ttyped_reused ttyped_be_issue ttyped_be_done ttyped_complete ttyped_exec : typed.

Section hooks.
  Variable filter : ntp_filter.

Lemma ttyped_tgt_uncount s req : tgt_typed s -> tgt_typed (tgt_uncount filter s req).
Proof. intros Hs. unfold tgt_uncount. ttyped. Qed.
Lemma ttyped_finish e s req : env_ok e -> tgt_typed s -> tgt_typed (tgt_finish filter e s req).
Proof. intros. unfold tgt_finish. auto using ttyped_emit, ttyped_tgt_uncount. Qed.

Lemma ttyped_get_tqstat s sq : tgt_typed s -> tgt_typed (get_tqstat s sq).2.
Proof. intros Hs. unfold get_tqstat. destruct (tqstats s !! sq); cbn [snd]; auto with typed. Qed.
Lemma ttyped_arrival s key sq qo qr s' :
  tgt_typed s -> count_arrival s key sq = (qo, qr, s') -> is_u16 qo /\ is_u16 qr /\ tgt_typed s'.
Proof.
  intros Hs. unfold count_arrival. pose proof (ttyped_get_tqstat s sq Hs) as H1. destruct (get_tqstat s sq) as [found s1]. cbn [snd] in H1.
  destruct found; [destruct (tqstats _ !! sq)|]; intros [= <- <- <-]; auto 6 with typed.
Qed.

(** What a transport promises here: its hooks keep states well formed and give times. *)
Class TypedTarget `{TargetTransport} : Prop := {
  tt_transport : is_u8 T_TRANSPORT;
  tt_ours : forall K e s req sq, tgt_typed s -> tgt_typed (tgt_is_ours filter K e s req sq).2;
  tt_sampled : forall K e s req sq now, is_u64 now -> tgt_typed s ->
    is_u64 (tgt_sampled filter K e s req sq now).1 /\ tgt_typed (tgt_sampled filter K e s req sq now).2
}.

Context `{TypedTarget}.

Lemma new_tgt_ok K id sq qo qr arrival now :
  id_ok id -> is_u16 qo -> is_u16 qr -> is_u64 arrival -> is_u64 now -> tgt_rec_ok (new_tgt_rec filter K id sq qo qr arrival now).
Proof.
  intros Hid Ho Hr Ha Hn. pose proof tt_transport as Htr. unfold new_tgt_rec. cbv zeta. apply tgt_ok_tts; [apply tgt_ok_tts|]; try done.
  set (fl := if tracking filter then _ else _). assert (is_u16 fl) by (unfold fl; destruct (_ =? _), (tracking filter); done).
  clearbody fl. unfold tgt_rec_ok, hdr_ok, id_ok in *. cbn. destruct Hid as (?&?&_&_&?&?&?&?&?).
  split_and!; try done; try apply u16_range. by repeat constructor.
Qed.

Lemma ttyped_req_init K e s req cmd :
  kernel_ok K -> env_ok e -> tgt_typed s -> tgt_typed (ntp_t_req_init filter K e s req cmd).
Proof.
  intros HK He Hs. unfold ntp_t_req_init. cbv zeta. destruct (negb _); [done|]. destruct (negb _); [done|].
  pose proof (tt_ours K e s req (nvmet_req_sq K req) Hs) as H1. destruct (tgt_is_ours _ _ _ _ _ _) as [ours s1]. cbn [snd] in H1.
  destruct (negb ours); [done|].
  destruct (if tracking filter then count_arrival s1 req (nvmet_req_sq K req) else (0, 0, s1)) as [[qo qr] s2] eqn:Ec.
  assert (is_u16 qo /\ is_u16 qr /\ tgt_typed s2) as (Ho & Hr & H2).
  { destruct (tracking filter); [by eapply ttyped_arrival|]. injection Ec as <- <- <-. auto with typed. }
  assert (tgt_typed (emit_reused e (inc s2 NTP_CNT_TGT_CMDS 1) req)) as H3 by auto with typed.
  destruct (ntp_read_cmd K cmd) as [id|] eqn:Ei; [|done]. apply read_cmd_ok in Ei; [|done].
  repeat match goal with |- tgt_typed (if ?x then _ else _) => destruct x; [done|] end.
  unfold init_sampled. cbv zeta. destruct (arr_lookup _ _ _) as [e0|]; [|done].
  set (s4 := if nz _ then _ else _). assert (tgt_typed s4) as H4 by (unfold s4; destruct (nz _); auto with typed). clearbody s4.
  destruct (tt_sampled K e s4 req (nvmet_req_sq K req) (e_now e) (env_now e He) H4) as [Ha H5].
  destruct (tgt_sampled _ _ _ _ _ _ _) as [arr s5]. cbn [fst snd] in Ha, H5.
  apply ttyped_inc, ttyped_entry; [done|]. apply new_tgt_ok; auto with typed.
Qed.
End hooks.

(** ** NVMe/TCP *)

Section tcp.
  Variable filter : ntp_filter.
  Import TcpTarget.

Lemma rx_arrival_u64 K e s sk now : is_u64 now -> is_u64 (rx_arrival filter K e s sk now).
Proof. intros. unfold rx_arrival. repeat case_match; auto with typed. Qed.
Hint Resolve rx_arrival_u64 ttyped_finish : typed.
Lemma ttyped_with_rec s rec f :
  tgt_typed s -> (forall slot te, rec = Some (slot, te) -> tgt_rec_ok (te_rec te)) -> (forall r, tgt_rec_ok r -> tgt_rec_ok (f r)) ->
  tgt_typed (with_rec s rec f).
Proof. intros Hs Hr Hf. unfold with_rec. destruct rec as [[slot te]|]; [|done]. apply ttyped_rec; [done|]. apply Hf. by eapply Hr. Qed.
Lemma ttyped_remember K e s q : tgt_typed s -> tgt_typed (remember_queue K e s q).
Proof. intros. unfold remember_queue. auto with typed. Qed.
Hint Resolve ttyped_remember : typed.

#[local] Instance tcp_typed : TypedTarget filter (H := tcp_target).
Proof.
  split; [done|..]; cbn; intros.
  - unfold TcpTarget.tgt_is_ours. cbv zeta. destruct (negb _); [done|]. destruct (tracking filter); cbn [snd]; auto with typed.
  - unfold TcpTarget.tgt_sampled. cbn [fst snd]. auto with typed.
Qed.

Lemma ttyped_sendmsg K e s sock : env_ok e -> tgt_typed s -> tgt_typed (on_sendmsg filter K e s sock).
Proof.
  intros He Hs. unfold on_sendmsg. cbv zeta. destruct (ntp_idle _ _); [done|]. destruct (tqueues s !! _); [|done].
  repeat match goal with |- tgt_typed (if ?x then s else _) => destruct x; [done|] end.
  assert (forall req f, (forall r, tgt_rec_ok r -> tgt_rec_ok (f r)) -> forall s, tgt_typed s -> tgt_typed (with_rec s (tgt_entry_of s req) f)) as Hw.
  { intros req f Hf s' Hs'. apply ttyped_with_rec; [done| |done]. intros slot te. by apply ttyped_entry_of. }
  pose proof (env_now e He). repeat match goal with |- tgt_typed (if ?x then _ else _) => destruct x end; try done.
  all: try apply ttyped_finish; try done; repeat (apply Hw; [intros; auto with typed|]); done.
Qed.
Lemma ttyped_copy_done K e s ret : env_ok e -> tgt_typed s -> tgt_typed (on_copy_done filter K e s ret).
Proof.
  intros He Hs. unfold on_copy_done. cbv zeta. destruct (negb _); [done|]. destruct (get_tcp_rx e s) as [r|]; [|done].
  set (s1 := set_tcp_rx _ _ _). assert (tgt_typed s1) by (unfold s1; auto with typed). clearbody s1. ttyped.
Qed.
Lemma ttyped_queue_resp K e s req : env_ok e -> tgt_typed s -> tgt_typed (TcpTarget.on_queue_resp filter K e s req).
Proof.
  intros He Hs. unfold TcpTarget.on_queue_resp. cbv zeta. destruct (ntp_idle _ _); [done|].
  destruct (tgt_entry_of s (ntp_scalar req)) as [[slot te]|] eqn:E; [ttyped_fact|]; destruct (_ && _); try done;
    destruct (tracking filter); auto with typed.
Qed.

Lemma tcp_tgt_typed K e s ev : kernel_ok K -> env_ok e -> tgt_typed s -> tgt_typed (tcp_tgt_run filter K e s ev).
Proof.
  intros HK He Hs. destruct ev; cbn [tcp_tgt_run]; auto with typed.
  - by apply (ttyped_req_init filter (H0 := tcp_typed)).
  - unfold on_copy. auto with typed.
  - by apply ttyped_copy_done.
  - by apply ttyped_queue_resp.
  - unfold on_h2c. ttyped.
  - by apply ttyped_sendmsg.
Qed.
End tcp.

(** ** NVMe/RDMA *)

Section rdma.
  Variable filter : ntp_filter.
  Import RdmaTarget.

#[local] Instance rdma_typed : TypedTarget filter (H := rdma_target).
Proof.
  split; [done|..]; cbn; intros K e s; [done|]. intros _ _ now Hn Hs. split; [|done].
  destruct (get_ctx e s) as [c|] eqn:E; [|done]. ttyped_fact. unfold tgt_arrival. destruct (nz _); [auto with typed|]. by destruct (nz _).
Qed.

Lemma ttyped_part_done e s req part : env_ok e -> tgt_typed s -> tgt_typed (rsp_part_done e s req part).
Proof. intros He Hs. unfold rsp_part_done. ttyped. Qed.
Hint Resolve ttyped_part_done ttyped_tgt_uncount : typed.
Lemma ttyped_resp_queued e s req : env_ok e -> tgt_typed s -> tgt_typed (on_queue_resp filter e s req).
Proof.
  intros He Hs. unfold on_queue_resp. cbv zeta. destruct (ntp_idle _ _); [done|].
  set (s1 := if tracking filter then _ else s). assert (tgt_typed s1) by (unfold s1; destruct (tracking filter); auto with typed).
  clearbody s1. ttyped.
Qed.
Lemma ttyped_resp_exit e s req : env_ok e -> tgt_typed s -> tgt_typed (on_queue_resp_exit filter e s req).
Proof.
  intros He Hs. unfold on_queue_resp_exit. cbv zeta. destruct (ntp_idle _ _); [done|]. apply ttyped_tgt_uncount.
  destruct (tgt_entry_of s req) as [[slot te]|] eqn:E; [|done]. ttyped_fact. destruct (negb _); auto 8 with typed.
Qed.
Hint Resolve ttyped_resp_queued ttyped_resp_exit : typed.

Lemma rdma_tgt_typed K e s ev : kernel_ok K -> env_ok e -> tgt_typed s -> tgt_typed (rdma_tgt_run filter K e s ev).
Proof.
  intros HK He Hs. destruct ev; cbn [rdma_tgt_run]; auto with typed.
  - by apply (ttyped_req_init filter (H0 := rdma_typed)).
  - apply ttyped_ctx; [done|by apply env_now].
  - unfold on_execute. ttyped.
  - unfold on_read_done. ttyped.
  - unfold ntp_tr_queue_resp_kp. auto with typed.
  - unfold ntp_tr_queue_resp_kr. ttyped.
  - unfold on_send_done. ttyped.
Qed.
End rdma.
