(* ===== verification/Emitted.v ===== *)
(** * Everything the BPF objects emit is well formed

    The kernel objects are in EmittedHost.v and EmittedTarget.v; here are the SPDK
    objects, and the theorem about all eight.  A record that is well formed is one the
    record files store and give back. *)
From stdpp Require Import base numbers list gmap.
From Stdlib Require Import ZArith Lia.
From S2P Require Import Prelude Types BpfCommon CStr Model BpfHost BpfTarget BpfSpdk EmittedHost EmittedTarget.

(** ** SPDK *)

(** What is read from the process has the width of its field. *)
Record user_ok (U : user) : Prop := {
  user_cmd : forall a c, u_cmd U a = Some c -> cmd_ok c;
  user_times : forall a st, u_times U a = Some st -> Forall is_u64 (st_t st) /\ is_u32 (st_bytes st)
}.
Definition spdk_ev_ok (ev : spdk_ev) : Prop := match ev with EvDone U _ _ _ _ => user_ok U | _ => True end.

Lemma print_u_u8 v : 0 <= v -> Forall is_u8 (print_u v).
Proof.
  intros Hv. eapply Forall_impl; [by apply (dec_digits_digit 20 v)|]. intros c. unfold is_digit, is_u8. cbn beta. lia.
Qed.
Lemma spdk_disk_ok c n : 0 <= c -> 0 <= n -> length (spdk_disk c n) = NTP_DISK_NAME_LEN /\ Forall is_u8 (spdk_disk c n).
Proof.
  intros Hc Hn. unfold spdk_disk, fit. cbv zeta. split.
  - rewrite length_app, length_replicate, length_take. unfold NTP_DISK_NAME_LEN. lia.
  - apply Forall_app. split; [|by apply Forall_replicate]. apply Forall_take. rewrite !Forall_app.
    split_and!; try by apply print_u_u8. all: repeat constructor; done.
Qed.
Lemma lor_flag b f fl : is_u16 f -> is_u16 fl -> is_u16 (flag_if b f fl).
Proof. intros. unfold flag_if. destruct b; [by apply lor_u16|done]. Qed.
Lemma at_u64 st i : Forall is_u64 (st_t st) -> is_u64 (at_ st i).
Proof. intros. by apply (Forall_lookup_default is_u64). Qed.
Lemma stamp_h_ok l r : host_rec_ok r -> Forall (fun p => is_u64 p.2) l -> host_rec_ok (stamp_h r l).
Proof.
  intros Hr Hl. revert r Hr. induction Hl as [|p l Hp Hl IH]; intros r Hr; [done|]. apply IH. by apply host_ok_hts.
Qed.
Lemma stamp_t_ok l r : tgt_rec_ok r -> Forall (fun p => is_u64 p.2) l -> tgt_rec_ok (stamp_t r l).
Proof.
  intros Hr Hl. revert r Hr. induction Hl as [|p l Hp Hl IH]; intros r Hr; [done|]. apply IH. by apply tgt_ok_tts.
Qed.
Lemma spdk_read_ok U cmd id b : user_ok U -> spdk_read_cmd U cmd = Some (id, b) -> id_ok id /\ is_u32 b.
Proof.
  intros HU. unfold spdk_read_cmd. destruct (u_cmd U cmd) as [c|] eqn:E; [|done]. intros [= <- <-].
  destruct (user_cmd U HU _ _ E). split; [|apply u32_range]. unfold id_ok. cbn. split_and!; try done. by repeat constructor.
Qed.
Lemma spdk_rec_typed_h e tr id b qid cn fl :
  env_ok e -> is_u8 tr -> id_ok id -> is_u32 b -> is_u16 fl -> host_rec_ok (spdk_host_rec e tr id b qid cn fl).
Proof.
  intros He Htr Hid Hb Hf. destruct Hid as (?&Hns&_&_&?&?&?&?&?).
  destruct (spdk_disk_ok (u32 cn) (nsid id)) as [Hl Hd]; [apply u32_range|apply Hns|].
  unfold host_rec_ok, hdr_ok, id_ok, spdk_host_rec. cbn. split_and!; try done; try apply u32_range; try apply u16_range; try apply Hns.
  by repeat constructor.
Qed.
Lemma spdk_rec_typed_t e tr id b qid cn fl :
  env_ok e -> is_u8 tr -> id_ok id -> is_u32 b -> is_u16 fl -> tgt_rec_ok (spdk_tgt_rec e tr id b qid cn fl).
Proof.
  intros He Htr Hid Hb Hf. destruct Hid as (?&Hns&_&_&?&?&?&?&?).
  unfold tgt_rec_ok, hdr_ok, id_ok, spdk_tgt_rec. cbn. split_and!; try done; try apply u32_range; try apply u16_range; try apply Hns.
  by repeat constructor.
Qed.
#[local] Hint Resolve lor_flag at_u64 : typed.

Section spdk.
  Context `{R : Ring}.
  Variable filter : ntp_filter.
  Implicit Type s : spdk_st.

Definition spdk_typed s : Prop :=
  Forall (fun r => host_rec_ok r /\ kind (h_hdr r) = NTP_REC_HOST) (p_hosts s) /\
  Forall (fun r => tgt_rec_ok r /\ kind (t_hdr r) = NTP_REC_TARGET) (p_tgts s).

(** A time taken from a ring lies between two times. *)
Lemma spdk_arrival_u64 e s p f : is_u64 p -> is_u64 f -> is_u64 (spdk_arrival e s p f).
Proof. intros Hp Hf. unfold spdk_arrival. cbv zeta. destruct (_ && _) eqn:E; [|done]. unfold is_u64 in *. lia. Qed.
Lemma spdk_handed_u64 e s t q : is_u64 t -> is_u64 q -> is_u64 (spdk_handed e s t q).
Proof. intros Hp Hf. unfold spdk_handed. cbv zeta. destruct (_ && _) eqn:E; [|done]. unfold is_u64 in *. lia. Qed.
Hint Resolve spdk_arrival_u64 spdk_handed_u64 : typed.

Lemma submit_host_typed s r : spdk_typed s -> host_rec_ok r -> kind (h_hdr r) = NTP_REC_HOST -> spdk_typed (submit_host s r).
Proof. intros [Hh Ht] Hr Hk. split; [|done]. cbn. apply Forall_app. split; [done|]. by constructor. Qed.
Lemma submit_tgt_typed s r : spdk_typed s -> tgt_rec_ok r -> kind (t_hdr r) = NTP_REC_TARGET -> spdk_typed (submit_tgt s r).
Proof. intros [Hh Ht] Hr Hk. split; [done|]. cbn. apply Forall_app. split; [done|]. by constructor. Qed.

Lemma spdk_step_typed o K e s ev : env_ok e -> spdk_ev_ok ev -> spdk_typed s -> spdk_typed (spdk_step filter o K e s ev).
Proof.
  intros He Hev Hs. destruct ev as [|skb| |U cmd qid cn times|on]; destruct o; try done; cbn [spdk_step];
    try (unfold spdk_recvmsg, spdk_copy, spdk_sendmsg; cbv zeta; by destruct (_ || _)).
  all: unfold ntp_u_nvme_tcp_done, ntp_u_nvmf_tcp_done, ntp_u_nvme_rdma_done, ntp_u_nvmf_rdma_done; cbv zeta; cbn [spdk_ev_ok] in Hev;
    destruct (negb _); try done; destruct (spdk_read_cmd U cmd) as [[id b]|] eqn:Ec; try done; apply spdk_read_ok in Ec as [Hid Hb]; try done;
    destruct (negb _); try done; destruct (u_times U times) as [st|] eqn:Et; try done; apply (user_times U Hev) in Et as [Hts Hbs];
    destruct (negb _); try done; try (destruct (_ && _); try done); destruct (e_rb_full e); try done.
  - apply submit_host_typed; [done| |done]. apply stamp_h_ok; [apply spdk_rec_typed_h; try done; unfold tcp_host_flags; auto 12 with typed|].
    unfold tcp_host_times. repeat apply Forall_cons_2; try apply Forall_nil_2; cbn [snd]; auto with typed.
  - apply submit_tgt_typed; [done| |by destruct (_ =? _)]. apply stamp_t_ok; [apply spdk_rec_typed_t; try done; unfold tcp_tgt_flags; auto 12 with typed|].
    unfold tcp_tgt_times. repeat apply Forall_cons_2; try apply Forall_nil_2; cbn [snd]; auto with typed.
  - apply submit_host_typed; [done| |done]. apply stamp_h_ok; [apply spdk_rec_typed_h; try done; auto 12 with typed|].
    unfold rdma_host_times. repeat apply Forall_cons_2; try apply Forall_nil_2; cbn [snd]; auto with typed.
  - apply submit_tgt_typed; [done| |by destruct (_ =? _)]. apply stamp_t_ok.
    + apply spdk_rec_typed_t; try done. unfold rdma_tgt_flags. repeat case_match; done.
    + unfold rdma_tgt_times. rewrite !Forall_app. destruct (_ =? _); split_and!; repeat apply Forall_cons_2; try apply Forall_nil_2; cbn [snd]; auto with typed.
Qed.

Lemma spdk_run_typed o s tr :
  Forall (fun '(_, e, ev) => env_ok e /\ spdk_ev_ok ev) tr -> spdk_typed s -> spdk_typed (spdk_run filter o s tr).
Proof.
  intros Htr. revert s. induction Htr as [|[[K e] ev] tr [He Hev] Htr IH]; intros s Hs; [done|]. cbn [spdk_run].
  by apply IH, spdk_step_typed.
Qed.
End spdk.

(** ** The theorem *)

(** A hook of a kernel object runs over kernel memory, on a CPU and at a time that are
    in range. *)
Definition hook_ok {St Ev : Type} (K : kernel) (e : env) (_ : St) (_ : Ev) : Prop := kernel_ok K /\ env_ok e.

(** What the objects emit fits the structs.  In every state a host object reaches,
    over TCP and over RDMA, whatever hooks run in whatever order, each record in the ring
    buffer has every field within the width the struct gives it (a time of 64 bits, an
    occupancy of 16, a disk name of 32 bytes); the same of the records of a target object
    and of the four SPDK objects, whose times come from a process and from rings.  What is
    assumed is that the fields read from kernel and process memory have their types. *)
Theorem emitted_well_formed (filter : ntp_filter) :
  (forall s, reachable (tcp_host_run filter) hook_ok host_init s \/ reachable (rdma_host_run filter) hook_ok host_init s ->
     Forall host_rec_ok (events s)) /\
  (forall s, reachable (tcp_tgt_run filter) hook_ok tgt_init s \/ reachable (rdma_tgt_run filter) hook_ok tgt_init s ->
     Forall tgt_rec_ok (t_events s)) /\
  (forall o tr, Forall (fun '(_, e, ev) => env_ok e /\ spdk_ev_ok ev) tr ->
     Forall host_rec_ok (p_hosts (spdk_run (R := array_ring) filter o spdk_init tr)) /\
     Forall tgt_rec_ok (p_tgts (spdk_run (R := array_ring) filter o spdk_init tr))).
Proof.
  split_and!.
  - intros s Hr. apply ty_events. destruct Hr as [Hr|Hr]; (eapply reachable_inv; [apply typed_init| |exact Hr]); intros K e s' ev [HK He] Hs.
    + by apply tcp_host_typed.
    + by apply rdma_host_typed.
  - intros s Hr. apply tgt_ty_events. destruct Hr as [Hr|Hr]; (eapply reachable_inv; [apply ttyped_init| |exact Hr]); intros K e s' ev [HK He] Hs.
    + by apply tcp_tgt_typed.
    + by apply rdma_tgt_typed.
  - intros o tr Htr. destruct (spdk_run_typed (R := array_ring) filter o spdk_init tr Htr) as [Hh Ht]; [by split|].
    split; [eapply Forall_impl; [exact Hh|]|eapply Forall_impl; [exact Ht|]]; by intros r [].
Qed.

Lemma sample_kernel_ok : kernel_ok sample_kernel.
Proof. split; cbn; [|done..]. intros a c [= <-]. by destruct (a =? 2). Qed.

(** A read over TCP that is sampled and emitted. *)
Lemma emitted_well_formed_witness :
  let run := fun s ev => tcp_host_run all_filter sample_kernel (mk_env 3 77 1000 false []) s ev in
  let s := run (run (run host_init (TH_arm true)) (TH_setup_cmd 65536 1)) (TH_blk_done 65536) in
  length (events s) = 1%nat /\ Forall host_rec_ok (events s).
Proof.
  intros run s. split; [vm_compute; reflexivity|].
  apply (proj1 (emitted_well_formed all_filter)). left.
  assert (forall s ev, hook_ok (St := host_st) (Ev := tcp_host_ev) sample_kernel (mk_env 3 77 1000 false []) s ev) as Hok.
  { intros. split; [apply sample_kernel_ok|]. by split. }
  apply reach_step; [|apply Hok]. apply reach_step; [|apply Hok]. apply reach_step; [|apply Hok]. apply reach_init.
Defined.
