(* ===== verification/Stats.v ===== *)
(** * Aggregation of breakdowns into groups (src/stats.c, src/stats.h)

    Every host record, with its target record or without, is added to the group
    of its key.  The theorems say that the groups are exactly a group-by of the
    records added, and that what a group reports adds up. *)
From stdpp Require Import base numbers list.
From Stdlib Require Import ZArith Lia String.
From S2P Require Import Prelude Types Model TraceFile CStr.

Inductive ntp_queue_metric :=
  | NTP_Q_HOST_UNSENT | NTP_Q_HOST_INFLIGHT | NTP_Q_TGT_OUTSTANDING | NTP_Q_TGT_RESP_QUEUE.

#[export] Instance ntp_queue_metric_eq_dec : EqDecision ntp_queue_metric.
Proof. solve_decision. Defined.

Record ntp_group_key := mk_group_key { is_write : Z; k_bytes : Z; session : list Z }.

#[export] Instance ntp_group_key_eq_dec : EqDecision ntp_group_key.
Proof. solve_decision. Defined.

Record ntp_group := mk_group {
  key : ntp_group_key;
  records : Z;
  g_joined : Z;
  bad_host : Z;
  bad_target : Z;
  g_post_estimated : Z;
  g_transport : Z;
  spdk_host : bool;
  spdk_target : bool;
  comp_v : ntp_comp -> i64vec;
  stage_v : ntp_stage -> i64vec;
  queue_v : ntp_queue_metric -> i64vec
}.

Record ntp_stats := mk_stats {
  groups : list ntp_group;
  s_cap : Z;
  by_type : bool;
  by_size : bool;
  by_session : bool;
  s_sample_every : Z;
  first_ns : Z;
  last_ns : Z
}.

(** ** Names *)

(** [disk]: the bytes from the pointer on. *)
Definition ntp_session_name (disk : list Z) (len : nat) : list Z :=
  let d := c_string disk in
  if str_eqb (take 4 d) (bytes "nvme") then
    let '(ctrl, c) := span is_digit (drop 4 d) in
    match c with
    | x :: y :: _ =>
        if (x =? 99) && is_digit y then
          let '(_, n) := span is_digit (drop 1 c) in
          match n with
          | z :: _ => if z =? 110 then fit len (take (4 + List.length ctrl) d ++ n) else fit len d
          | [] => fit len d
          end
        else fit len d
    | _ => fit len d
    end
  else fit len d.

(** [n += snprintf(out + n, len - n, ...)]: [n] is what would have been
    written, the buffer keeps what fits. *)
Definition label_add (len : nat) (st : nat * list Z) (s : list Z) : nat * list Z :=
  ((st.1 + List.length s)%nat, take st.1 st.2 ++ fit (len - st.1) s).

Definition ntp_group_label (k : ntp_group_key) (len : nat) : list Z :=
  let st := (O, []) in
  let st := if 0 <=? is_write k then
              label_add len st (if nz (is_write k) then bytes "write" else bytes "read") else st in
  let st :=
    if nz (k_bytes k) && (Z.of_nat st.1 <? Z.of_nat len) then
      let sep := if bool_decide (st.1 = O) then [] else bytes " " in
      if Z.land (k_bytes k) (2 ^ 20 - 1) =? 0 then
        label_add len st (sep ++ print_u (Z.shiftr (k_bytes k) 20) ++ bytes "MiB")
      else if Z.land (k_bytes k) 1023 =? 0 then
        label_add len st (sep ++ print_u (Z.shiftr (k_bytes k) 10) ++ bytes "KiB")
      else label_add len st (sep ++ print_u (k_bytes k) ++ bytes "B")
    else st in
  let st :=
    match session k with
    | _ :: _ =>
        if Z.of_nat st.1 <? Z.of_nat len then
          label_add len st ((if bool_decide (st.1 = O) then [] else bytes " ") ++ session k)
        else st
    | [] => st
    end in
  if bool_decide (st.1 = O) then fit len (bytes "all") else st.2.

(** ** Adding records *)

Definition ntp_stats_init (t z d : bool) : ntp_stats := mk_stats [] 0 t z d 1 0 0.

Definition ntp_stats_free (s : ntp_stats) : ntp_stats :=
  mk_stats [] 0 (by_type s) (by_size s) (by_session s) (s_sample_every s) (first_ns s) (last_ns s).

Definition ntp_stats_reset (s : ntp_stats) : ntp_stats :=
  let s' := ntp_stats_init (by_type s) (by_size s) (by_session s) in
  mk_stats (groups s') (s_cap s') (by_type s') (by_size s') (by_session s') (s_sample_every s)
    (first_ns s') (last_ns s').

(** The key of a record, as [group_for] fills it in. *)
Definition group_key (s : ntp_stats) (h : ntp_host_rec) : ntp_group_key :=
  mk_group_key
    (if by_type s then (if has (flags (h_hdr h)) NTP_F_WRITE then 1 else 0) else -1)
    (if by_size s then h_bytes h else 0)
    (if by_session s then ntp_session_name (disk_chars h) NTP_DISK_NAME_LEN else []).

Definition new_group (k : ntp_group_key) : ntp_group :=
  mk_group k 0 0 0 0 0 0 false false (fun _ => vec_empty) (fun _ => vec_empty) (fun _ => vec_empty).

Fixpoint find_group (k : ntp_group_key) (gs : list ntp_group) (i : nat) : option nat :=
  match gs with
  | [] => None
  | g :: gs => if bool_decide (key g = k) then Some i else find_group k gs (S i)
  end.

Definition set_groups (s : ntp_stats) (gs : list ntp_group) (cap : Z) : ntp_stats :=
  mk_stats gs cap (by_type s) (by_size s) (by_session s) (s_sample_every s) (first_ns s) (last_ns s).

(** The index of the record's group, and the state with the group in it. *)
Definition group_for (s : ntp_stats) (h : ntp_host_rec) : nat * ntp_stats :=
  let k := group_key s h in
  match find_group k (groups s) 0 with
  | Some i => (i, s)
  | None =>
      let n := List.length (groups s) in
      let cap := if Z.of_nat n =? s_cap s then (if nz (s_cap s) then u64 (s_cap s * 2) else 8) else s_cap s in
      (n, set_groups s (groups s ++ [new_group k]) cap)
  end.

Definition push_q (q : ntp_queue_metric -> i64vec) (m : ntp_queue_metric) (x : Z) : ntp_queue_metric -> i64vec :=
  fun m' => if decide (m = m') then i64vec_push (q m') x else q m'.

(** What [ntp_stats_add] does to the group. *)
Definition group_add (g : ntp_group) (h : ntp_host_rec) (t : option ntp_tgt_rec) : ntp_group :=
  let '(err, b) := ntp_breakdown h t in
  let g := mk_group (key g) (u64 (records g + 1)) (g_joined g) (bad_host g) (bad_target g) (g_post_estimated g)
             (transport (h_hdr h)) (spdk_host g || has (flags (h_hdr h)) NTP_F_SPDK)
             (spdk_target g || match t with Some t => has (flags (t_hdr t)) NTP_F_SPDK | None => false end)
             (comp_v g) (stage_v g) (queue_v g) in
  match err with
  | NTP_MODEL_INCOMPLETE_HOST =>
      mk_group (key g) (records g) (g_joined g) (u64 (bad_host g + 1)) (bad_target g) (g_post_estimated g)
        (g_transport g) (spdk_host g) (spdk_target g) (comp_v g) (stage_v g) (queue_v g)
  | _ =>
      let q := queue_v g in
      let q := if has (flags (h_hdr h)) NTP_F_QUEUES
               then push_q (push_q q NTP_Q_HOST_UNSENT (q_unsent h)) NTP_Q_HOST_INFLIGHT (q_inflight h) else q in
      let q :=
        match t with
        | Some t =>
            if joined b && has (flags (t_hdr t)) NTP_F_QUEUES
            then push_q (push_q q NTP_Q_TGT_OUTSTANDING (q_outstanding t)) NTP_Q_TGT_RESP_QUEUE (q_resp_queue t)
            else q
        | None => q
        end in
      mk_group (key g) (records g) (if joined b then u64 (g_joined g + 1) else g_joined g) (bad_host g)
        (match err with NTP_MODEL_INCOMPLETE_TARGET => u64 (bad_target g + 1) | _ => bad_target g end)
        (if post_estimated b then u64 (g_post_estimated g + 1) else g_post_estimated g)
        (g_transport g) (spdk_host g) (spdk_target g)
        (fun c => if ntp_comp_valid b c then i64vec_push (comp_v g c) (comp b c) else comp_v g c)
        (fun st => if ntp_stage_valid b st then i64vec_push (stage_v g st) (b_stage b st) else stage_v g st)
        q
  end.

Definition ntp_stats_add (s : ntp_stats) (h : ntp_host_rec) (t : option ntp_tgt_rec) : ntp_stats :=
  let '(i, s) := group_for s h in
  let q := hts h NTP_H_QUEUE_RQ in
  let first := if nz q && (negb (nz (first_ns s)) || (q <? first_ns s)) then q else first_ns s in
  let last := if last_ns s <? hts h NTP_H_BLK_DONE then hts h NTP_H_BLK_DONE else last_ns s in
  mk_stats (alter (fun g => group_add g h t) i (groups s)) (s_cap s) (by_type s) (by_size s) (by_session s)
    (s_sample_every s) first last.

(** ** The reference: a group-by *)

Definition sample : Type := ntp_host_rec * option ntp_tgt_rec.

Definition stats_of (s : ntp_stats) (l : list sample) : ntp_stats :=
  foldl (fun s x => ntp_stats_add s x.1 x.2) s l.

Section GroupBy.
  Context (t z d : bool).

Definition rec_key (x : sample) : ntp_group_key := group_key (ntp_stats_init t z d) x.1.

(** The keys in order of first appearance. *)
Fixpoint keys_of (l : list sample) (seen : list ntp_group_key) : list ntp_group_key :=
  match l with
  | [] => seen
  | x :: l => keys_of l (if decide (rec_key x ∈ seen) then seen else seen ++ [rec_key x])
  end.

(** The group of [k]: its records, one after the other. *)
Definition group_of (l : list sample) (k : ntp_group_key) : ntp_group :=
  foldl (fun g x => group_add g x.1 x.2) (new_group k) (filter (fun x => rec_key x = k) l).

Definition grouped (s : ntp_stats) (l : list sample) : Prop :=
  by_type s = t /\ by_size s = z /\ by_session s = d /\ groups s = group_of l <$> keys_of l [].

Lemma group_add_key g h tr : key (group_add g h tr) = key g.
Proof. unfold group_add. destruct (ntp_breakdown h tr) as [[] b]; done. Qed.

Lemma group_of_key l k : key (group_of l k) = k.
Proof.
  unfold group_of. generalize (filter (fun x => rec_key x = k) l). intros l'.
  assert (forall g, key (foldl (fun g x => group_add g x.1 x.2) g l') = key g) as H.
  { induction l' as [|x l' IH]; intros g; simpl; [done|]. by rewrite IH, group_add_key. }
  by rewrite H.
Qed.

Lemma keys_of_snoc l x seen :
  keys_of (l ++ [x]) seen =
  if decide (rec_key x ∈ keys_of l seen) then keys_of l seen else keys_of l seen ++ [rec_key x].
Proof. revert seen. induction l as [|y l IH]; intros seen; simpl; [done|]. apply IH. Qed.

Lemma keys_of_nodup l seen : NoDup seen -> NoDup (keys_of l seen).
Proof.
  revert seen. induction l as [|y l IH]; intros seen H; simpl; [done|]. apply IH.
  destruct (decide _); [done|]. apply NoDup_app. split; [done|]. split; [|apply NoDup_singleton].
  intros k Hk Hk'. apply list_elem_of_singleton in Hk'. by subst.
Qed.

Lemma group_of_snoc l x k :
  group_of (l ++ [x]) k = if decide (rec_key x = k) then group_add (group_of l k) x.1 x.2 else group_of l k.
Proof.
  unfold group_of. rewrite filter_app, foldl_app. rewrite filter_cons, filter_nil. by destruct (decide _).
Qed.

Lemma keys_of_in l k : k ∈ keys_of l [] <-> exists x, x ∈ l /\ rec_key x = k.
Proof.
  induction l as [|x l IH] using rev_ind.
  - simpl. split; [by intros ?%elem_of_nil|]. intros (x & Hx & _). by apply elem_of_nil in Hx.
  - rewrite keys_of_snoc. split.
    + destruct (decide _) as [Hd|Hd].
      * intros (y & Hy & Ey)%IH. exists y. split; [apply elem_of_app; by left|done].
      * intros [(y & Hy & Ey)%IH|Hk]%elem_of_app.
        -- exists y. split; [apply elem_of_app; by left|done].
        -- apply list_elem_of_singleton in Hk as ->. exists x. split; [|done]. apply elem_of_app. right. by left.
    + intros (y & [Hy|Hy]%elem_of_app & <-).
      * assert (rec_key y ∈ keys_of l []) by (apply IH; by exists y).
        destruct (decide _); [done|]. apply elem_of_app. by left.
      * apply list_elem_of_singleton in Hy as ->. destruct (decide _); [done|]. apply elem_of_app. right. by left.
Qed.

Lemma find_group_spec gs k i :
  match find_group k gs i with
  | Some j => exists n g, j = (i + n)%nat /\ gs !! n = Some g /\ key g = k
  | None => forall g, g ∈ gs -> key g <> k
  end.
Proof.
  revert i. induction gs as [|g gs IH]; intros i; simpl; [by intros g ?%elem_of_nil|].
  destruct (bool_decide (key g = k)) eqn:E; [apply bool_decide_eq_true in E|apply bool_decide_eq_false in E].
  - exists O, g. split; [lia|done].
  - specialize (IH (S i)). destruct (find_group k gs (S i)) as [j|].
    + destruct IH as (n & g' & -> & Hn & Hk). exists (S n), g'. split; [lia|done].
    + intros g' [->|Hg]%elem_of_cons; [done|by apply IH].
Qed.

Lemma grouped_key s l h : grouped s l -> group_key s h = group_key (ntp_stats_init t z d) h.
Proof. intros (H1 & H2 & H3 & _). unfold group_key. by rewrite H1, H2, H3. Qed.

(** The group of an old key is changed in place, every other stays. *)
Lemma alter_groups l x n :
  keys_of l [] !! n = Some (rec_key x) -> NoDup (keys_of l []) ->
  alter (fun g => group_add g x.1 x.2) n (group_of l <$> keys_of l []) = group_of (l ++ [x]) <$> keys_of l [].
Proof.
  intros Hn Hnd. apply list_eq. intros i. rewrite list_lookup_fmap.
  destruct (decide (i = n)) as [->|Hne].
  - rewrite list_lookup_alter_eq, list_lookup_fmap, Hn. simpl. rewrite group_of_snoc. by destruct (decide _).
  - rewrite list_lookup_alter_ne, list_lookup_fmap by done. destruct (keys_of l [] !! i) as [k|] eqn:Ei; [|done].
    simpl. rewrite group_of_snoc. destruct (decide _) as [<-|]; [|done].
    destruct Hne. by eapply NoDup_lookup.
Qed.

Lemma grouped_add s l x : grouped s l -> grouped (ntp_stats_add s x.1 x.2) (l ++ [x]).
Proof.
  intros Hg. pose proof Hg as (H1 & H2 & H3 & H4). unfold ntp_stats_add, group_for. cbv zeta.
  rewrite (grouped_key s l x.1 Hg). fold (rec_key x).
  pose proof (find_group_spec (groups s) (rec_key x) 0) as Hf.
  pose proof (keys_of_nodup l [] (NoDup_nil_2)) as Hnd.
  destruct (find_group _ _ _) as [j|].
  - destruct Hf as (n & g & -> & Hn & Hk). simpl. repeat (split; [done|]). simpl.
    rewrite H4 in Hn |- *. apply list_lookup_fmap_Some in Hn as (k & -> & Hn).
    rewrite group_of_key in Hk. subst k. rewrite alter_groups by done. rewrite keys_of_snoc.
    destruct (decide _) as [|Hd]; [done|]. destruct Hd. by eapply list_elem_of_lookup_2.
  - simpl. repeat (split; [done|]). simpl. rewrite H4 in Hf |- *.
    assert (rec_key x ∉ keys_of l []) as Hni.
    { intros Hin. apply (Hf (group_of l (rec_key x))); [|apply group_of_key]. by apply list_elem_of_fmap_2. }
    rewrite keys_of_snoc. destruct (decide _); [done|]. rewrite fmap_app. simpl.
    rewrite alter_app_r_alt by lia. rewrite Nat.sub_diag. simpl. f_equal.
    + apply list_fmap_ext. intros i k Hi. rewrite group_of_snoc. destruct (decide _) as [<-|]; [|done].
      destruct Hni. by eapply list_elem_of_lookup_2.
    + f_equal. rewrite group_of_snoc. destruct (decide _); [|done]. f_equal.
      unfold group_of. destruct (filter _ l) as [|y l'] eqn:Ef; [done|].
      assert (y ∈ filter (fun x0 => rec_key x0 = rec_key x) l) as Hy by (rewrite Ef; by left).
      apply list_elem_of_filter in Hy as [Hk Hy]. destruct Hni. rewrite <- Hk. apply keys_of_in. by exists y.
Qed.

Lemma grouped_all l : grouped (stats_of (ntp_stats_init t z d) l) l.
Proof.
  unfold stats_of. induction l as [|x l IH] using rev_ind; [done|].
  rewrite foldl_app. simpl. by apply grouped_add.
Qed.

End GroupBy.

(** ** What a group's numbers mean *)

Definition vsum (v : i64vec) : Z := foldr Z.add 0 (iv v).

Lemma vsum_push v x : vsum (i64vec_push v x) = vsum v + x.
Proof.
  unfold vsum, i64vec_push. cbn [iv]. generalize (iv v). intros l.
  induction l as [|y l IH]; cbn [foldr app]; lia.
Qed.

Lemma vlen_push v x : vlen (i64vec_push v x) = vlen v + 1.
Proof. unfold vlen, i64vec_push. cbn [iv]. rewrite length_app. simpl. lia. Qed.

(** The samples of the main components, summed. *)
Definition main_total (g : ntp_group) : Z :=
  foldr (fun c s => (if is_main c then vsum (comp_v g c) else 0) + s) 0 all_comps.

(** What a group's counters and vectors say of each other. *)
Record group_ok (g : ntp_group) : Prop := {
  go_sum : main_total g ≡₆₄ vsum (comp_v g NTP_C_E2E);
  go_count : records g ≡₆₄ vlen (comp_v g NTP_C_E2E) + bad_host g;
  go_bad : 0 <= bad_host g
}.

Lemma comps_total_add (f : ntp_comp -> Z) (b : ntp_breakdown_t) l :
  foldr (fun c s => (if is_main c then f c + (if ntp_comp_valid b c then comp b c else 0) else 0) + s) 0 l =
  foldr (fun c s => (if is_main c then f c else 0) + s) 0 l + foldr (fun c s => main_term b c + s) 0 l.
Proof.
  induction l as [|c l IH]; cbn [foldr]; [done|]. rewrite IH. unfold main_term.
  destruct (is_main c); simpl; lia.
Qed.

Lemma main_total_add g h t err b :
  ntp_breakdown h t = (err, b) -> err <> NTP_MODEL_INCOMPLETE_HOST ->
  main_total (group_add g h t) = main_total g + main_sum b /\
  vsum (comp_v (group_add g h t) NTP_C_E2E) = vsum (comp_v g NTP_C_E2E) + comp b NTP_C_E2E /\
  vlen (comp_v (group_add g h t) NTP_C_E2E) = vlen (comp_v g NTP_C_E2E) + 1.
Proof.
  intros E Hne. pose proof (e2e_valid h t err b E Hne) as Hv. unfold main_total, group_add. rewrite E.
  assert (forall c, vsum (if ntp_comp_valid b c then i64vec_push (comp_v g c) (comp b c) else comp_v g c) =
    vsum (comp_v g c) + (if ntp_comp_valid b c then comp b c else 0)) as Hs.
  { intros c. destruct (ntp_comp_valid b c); [apply vsum_push|lia]. }
  destruct err; [|done|]; cbn [comp_v]; rewrite Hv, vsum_push, vlen_push; (split; [|done]);
    unfold main_sum; rewrite <- comps_total_add; generalize all_comps; intros l;
    (induction l as [|c l IH]; cbn [foldr]; [done|]; rewrite IH, Hs; done).
Qed.

Lemma group_add_bad g h t b :
  ntp_breakdown h t = (NTP_MODEL_INCOMPLETE_HOST, b) ->
  comp_v (group_add g h t) = comp_v g /\ bad_host (group_add g h t) = u64 (bad_host g + 1).
Proof. intros E. unfold group_add. by rewrite E. Qed.

Lemma group_add_records g h t : records (group_add g h t) = u64 (records g + 1).
Proof. unfold group_add. by destruct (ntp_breakdown h t) as [[] b]. Qed.

Lemma group_add_bad_host g h t err b :
  ntp_breakdown h t = (err, b) -> err <> NTP_MODEL_INCOMPLETE_HOST -> bad_host (group_add g h t) = bad_host g.
Proof. intros E Hne. unfold group_add. rewrite E. by destruct err. Qed.

Lemma group_ok_add g h t : group_ok g -> group_ok (group_add g h t).
Proof.
  intros [H1 H2 H3]. destruct (ntp_breakdown h t) as [err b] eqn:E.
  destruct (decide (err = NTP_MODEL_INCOMPLETE_HOST)) as [->|Hne].
  - destruct (group_add_bad g h t b E) as [Hc Hb]. split.
    + unfold main_total. rewrite Hc. exact H1.
    + rewrite group_add_records, Hc, Hb. cong_from.
    + rewrite Hb. apply u64_range.
  - destruct (main_total_add g h t err b E Hne) as (Hs & He & Hl).
    pose proof (components_sum h t err b E Hne) as Hm.
    assert (main_sum b ≡₆₄ comp b NTP_C_E2E) as Hm' by (rewrite <- Hm; cong_solve).
    split.
    + rewrite Hs, He, H1, Hm'. done.
    + rewrite group_add_records, Hl, (group_add_bad_host g h t err b E Hne). cong_from.
    + by rewrite (group_add_bad_host g h t err b E Hne).
Qed.

Lemma group_of_ok t z d l k : group_ok (group_of t z d l k).
Proof.
  unfold group_of. generalize (filter (fun x => rec_key t z d x = k) l). intros l'.
  assert (group_ok (new_group k)) as Hg by (split; done).
  revert Hg. generalize (new_group k). induction l' as [|x l' IH]; intros g Hg; simpl; [done|].
  by apply IH, group_ok_add.
Qed.

(** The earliest submission and the latest completion of some records. *)
Definition span_first (l : list sample) : Z :=
  foldl (fun acc x => let q := hts x.1 NTP_H_QUEUE_RQ in
    if nz q && (negb (nz acc) || (q <? acc)) then q else acc) 0 l.
Definition span_last (l : list sample) : Z := foldl (fun acc x => Z.max acc (hts x.1 NTP_H_BLK_DONE)) 0 l.

Lemma stats_first_last t z d l :
  first_ns (stats_of (ntp_stats_init t z d) l) = span_first l /\
  last_ns (stats_of (ntp_stats_init t z d) l) = span_last l.
Proof.
  unfold stats_of, span_first, span_last. induction l as [|x l IH] using rev_ind; [done|].
  rewrite !foldl_app. cbn [foldl]. destruct IH as [<- <-].
  set (s := foldl (fun s x => ntp_stats_add s x.1 x.2) _ l). unfold ntp_stats_add, group_for. cbv zeta.
  destruct (find_group _ _ _); simpl; (split; [done|]);
    destruct (Z.ltb_spec (last_ns s) (hts x.1 NTP_H_BLK_DONE)); lia.
Qed.

(** C18: the statistics are a group-by.  Whatever records are added, in whatever
    order: there is one group per key that occurs, in order of first appearance;
    each group is what adding only its own records, one after the other, gives;
    and the time span runs over all of them. *)
Theorem stats_group_by (t z d : bool) (l : list sample) :
  groups (stats_of (ntp_stats_init t z d) l) = group_of t z d l <$> keys_of t z d l [] /\
  NoDup (keys_of t z d l []) /\
  (forall k, k ∈ keys_of t z d l [] <-> exists x, x ∈ l /\ rec_key t z d x = k) /\
  first_ns (stats_of (ntp_stats_init t z d) l) = span_first l /\
  last_ns (stats_of (ntp_stats_init t z d) l) = span_last l.
Proof.
  split; [apply grouped_all|]. split; [apply keys_of_nodup, NoDup_nil_2|]. split; [apply keys_of_in|].
  apply stats_first_last.
Qed.

(** C10: the shares of a report add up.  In every group the samples of the main
    components add up, in 64-bit arithmetic, to the samples of the end-to-end
    time, and there is one end-to-end sample per record that is not counted as a
    bad host record: so the components' means, weighted by how many records have
    them, are the mean end-to-end latency. *)
Theorem stats_add_up (t z d : bool) (l : list sample) :
  Forall (fun g => main_total g ≡₆₄ vsum (comp_v g NTP_C_E2E) /\
                   records g ≡₆₄ vlen (comp_v g NTP_C_E2E) + bad_host g)
    (groups (stats_of (ntp_stats_init t z d) l)).
Proof.
  destruct (grouped_all t z d l) as (_ & _ & _ & ->). apply Forall_fmap, Forall_forall. intros k _. simpl.
  destruct (group_of_ok t z d l k). done.
Qed.

(** ** Names of groups *)

Lemma c_string_id l : Forall (fun c => c <> 0) l -> c_string l = l.
Proof.
  induction 1 as [|c l Hc Hl IH]; simpl; [done|]. rewrite (proj2 (Z.eqb_neq c 0) Hc). by rewrite IH.
Qed.

Lemma str_eqb_refl l : str_eqb l l = true.
Proof. unfold str_eqb. by apply bool_decide_eq_true. Qed.

(** Paths of a namespace are one session.  The name of a multipath disk,
    nvme<subsystem>c<path>n<namespace>, and of its namespace,
    nvme<subsystem>n<namespace>, give the same session name, the latter as far
    as the buffer holds it; so records of different paths land in one group. *)
Theorem session_name_merges_paths (ctrl path ns : list Z) (len : nat) :
  Forall (fun c => is_digit c = true) ctrl -> Forall (fun c => is_digit c = true) path -> path <> [] ->
  Forall (fun c => c <> 0) ns ->
  ntp_session_name (bytes "nvme" ++ ctrl ++ bytes "c" ++ path ++ bytes "n" ++ ns) len =
    fit len (bytes "nvme" ++ ctrl ++ bytes "n" ++ ns) /\
  ntp_session_name (bytes "nvme" ++ ctrl ++ bytes "n" ++ ns) len =
    fit len (bytes "nvme" ++ ctrl ++ bytes "n" ++ ns).
Proof.
  intros Hc Hp Hne Hn.
  assert (forall l, Forall (fun c => is_digit c = true) l -> Forall (fun c => c <> 0) l) as Hnz.
  { intros l Hl. eapply Forall_impl; [exact Hl|]. intros c Hd ->. by vm_compute in Hd. }
  assert (forall s, Forall (fun c => c <> 0) s -> Forall (fun c => c <> 0) (bytes "nvme" ++ ctrl ++ s)) as Hall.
  { intros s Hs. apply Forall_app. split; [by repeat constructor|]. apply Forall_app. by split; [apply Hnz|]. }
  split.
  - unfold ntp_session_name. rewrite c_string_id.
    2: { apply Hall, Forall_app. split; [by repeat constructor|]. apply Forall_app. split; [by apply Hnz|].
         apply Forall_app. by split; [repeat constructor|]. }
    change (take 4 (bytes "nvme" ++ ?x)) with (bytes "nvme"). rewrite str_eqb_refl.
    change (drop 4 (bytes "nvme" ++ ?x)) with x. rewrite span_app by done.
    destruct path as [|p path]; [done|]. apply Forall_cons_1 in Hp as [Hp1 Hp2].
    cbn [bytes app Z.of_nat]. change (Z.of_nat _ =? 99) with true. rewrite Hp1. cbn [andb drop span].
    rewrite Hp1. rewrite span_app by done. cbn [app]. change (Z.of_nat _ =? 110) with true. cbv iota.
    f_equal. cbn [Nat.add take]. by rewrite take_app_length.
  - unfold ntp_session_name. rewrite c_string_id by (apply Hall, Forall_app; by split; [repeat constructor|]).
    change (take 4 (bytes "nvme" ++ ?x)) with (bytes "nvme"). rewrite str_eqb_refl.
    change (drop 4 (bytes "nvme" ++ ?x)) with x. rewrite span_app by done.
    cbn [bytes app]. destruct ns as [|y ns]; [done|]. by change (Z.of_nat _ =? 99) with false.
Qed.

(** The disk of path 2 of subsystem 1, namespace 3. *)
Lemma session_name_merges_paths_witness :
  ntp_session_name (bytes "nvme1c2n3") 32 = bytes "nvme1n3" /\
  ntp_session_name (bytes "nvme1n3") 32 = bytes "nvme1n3".
Proof.
  apply (session_name_merges_paths (bytes "1") (bytes "2") (bytes "3") 32);
    try (repeat constructor; discriminate); discriminate.
Defined.

(** The label of a group without a buffer's limits. *)
Definition type_text (k : ntp_group_key) : list Z :=
  if 0 <=? is_write k then (if nz (is_write k) then bytes "write" else bytes "read") else [].
Definition size_text (k : ntp_group_key) : list Z :=
  if nz (k_bytes k) then
    if Z.land (k_bytes k) (2 ^ 20 - 1) =? 0 then print_u (Z.shiftr (k_bytes k) 20) ++ bytes "MiB"
    else if Z.land (k_bytes k) 1023 =? 0 then print_u (Z.shiftr (k_bytes k) 10) ++ bytes "KiB"
    else print_u (k_bytes k) ++ bytes "B"
  else [].
Definition words (a b : list Z) : list Z :=
  match a, b with
  | [], _ => b
  | _, [] => a
  | _, _ => a ++ bytes " " ++ b
  end.
Definition label_text (k : ntp_group_key) : list Z :=
  match words (words (type_text k) (size_text k)) (session k) with [] => bytes "all" | l => l end.

(** The label under construction holds [w], as far as it fits. *)
Definition label_is (len : nat) (st : nat * list Z) (w : list Z) : Prop :=
  st.2 = fit len w /\ Nat.min st.1 len = Nat.min (List.length w) len.

Lemma label_add_fit len st w s :
  label_is len st w -> (st.1 < len)%nat -> label_is len (label_add len st s) (w ++ s).
Proof.
  intros [H1 H2] Hl. unfold label_add, label_is, fit in *. simpl. assert (st.1 = List.length w) as Hw by lia.
  rewrite H1, Hw in *. split; [|rewrite length_app; lia].
  rewrite (take_ge w (len - 1)) by lia. rewrite take_ge by lia.
  rewrite take_app. rewrite (take_ge w (len - 1)) by lia. f_equal. f_equal. lia.
Qed.

(** One more word, when there is still room. *)
Lemma label_word len st w s :
  (1 <= len)%nat -> s <> [] -> label_is len st w ->
  label_is len (if Z.of_nat st.1 <? Z.of_nat len
                then label_add len st ((if bool_decide (st.1 = O) then [] else bytes " ") ++ s) else st)
    (words w s).
Proof.
  intros Hl Hs Hw. destruct (Z.ltb_spec (Z.of_nat st.1) (Z.of_nat len)).
  - pose proof Hw as [_ H2]. assert (st.1 = List.length w) as Ew by lia. rewrite Ew.
    apply (label_add_fit len st w ((if bool_decide (List.length w = O) then [] else bytes " ") ++ s)) in Hw; [|lia].
    destruct w as [|c w]; [by destruct s|]. by destruct s.
  - destruct Hw as [H1 H2]. destruct w as [|c w]; [simpl in H2; lia|]. destruct s as [|x s]; [done|].
    unfold label_is, fit, words in *. rewrite length_app. split; [|lia].
    rewrite H1, take_app_le; [done|]. lia.
Qed.

Lemma print_u_nonempty v l : print_u v ++ l <> [].
Proof. pose proof (dec_digits_nonempty 19 v) as H. fold (print_u v) in H. by destruct (print_u v). Qed.

(** Labels of groups.  The label of a group is the words it is grouped by
    (type, size in its largest exact unit, session, or "all"), separated by
    blanks, cut where the caller's buffer ends. *)
Theorem group_label_text (k : ntp_group_key) (len : nat) :
  (1 <= len)%nat -> ntp_group_label k len = fit len (label_text k).
Proof.
  intros Hl. unfold ntp_group_label, label_text. cbv zeta.
  set (st1 := if 0 <=? is_write k then _ else _).
  assert (label_is len st1 (type_text k)) as H1.
  { assert (label_is len (O, []) []) as H0 by (split; [unfold fit; by rewrite take_nil|done]).
    subst st1. unfold type_text. destruct (0 <=? is_write k); [|done].
    apply (label_add_fit len (O, []) [] (if nz (is_write k) then bytes "write" else bytes "read")); [done|].
    simpl. lia. }
  clearbody st1. set (st2 := if nz (k_bytes k) && _ then _ else _).
  assert (label_is len st2 (words (type_text k) (size_text k))) as H2.
  { subst st2. unfold size_text. destruct (nz (k_bytes k)); cbn [andb];
      [|destruct (type_text k); [exact H1|exact H1]].
    destruct (Z.land (k_bytes k) (2 ^ 20 - 1) =? 0); [|destruct (Z.land (k_bytes k) 1023 =? 0)];
      apply label_word; auto using print_u_nonempty. }
  clearbody st2. clear H1 st1.
  set (st3 := match session k with [] => _ | _ :: _ => _ end).
  assert (label_is len st3 (words (words (type_text k) (size_text k)) (session k))) as H3.
  { subst st3. destruct (session k) as [|c ss] eqn:E.
    - by destruct (words (type_text k) (size_text k)).
    - by apply label_word. }
  clearbody st3. destruct H3 as [H3 H4].
  destruct (words (words (type_text k) (size_text k)) (session k)) as [|c w].
  - by rewrite bool_decide_true by (cbn [List.length] in H4; lia).
  - by rewrite bool_decide_false by (cbn [List.length] in H4; lia).
Qed.

(** A write of 128 KiB on nvme1n1, in a small and in a large buffer. *)
Lemma group_label_text_witness :
  ntp_group_label (mk_group_key 1 131072 (bytes "nvme1n1")) 64 = bytes "write 128KiB nvme1n1" /\
  ntp_group_label (mk_group_key 1 131072 (bytes "nvme1n1")) 8 =
    fit 8 (label_text (mk_group_key 1 131072 (bytes "nvme1n1"))).
Proof. split; [by vm_compute|]. apply group_label_text. lia. Defined.
