(* ===== verification/Float.v ===== *)
(** * Double arithmetic

    The doubles of the C code are the IEEE numbers of the Standard Library's
    SpecFloat, with rounding to nearest even; long double is the x86-64 one, with
    64 bits of mantissa.  The lemmas bound what rounding can do: the result of an
    operation never exceeds a representable number that the exact result does not
    exceed. *)
From stdpp Require Import base numbers list.
From Stdlib Require Import ZArith Lia SpecFloat.
From S2P Require Import Prelude.

(** ** Operations *)

Definition double : Type := spec_float.
Definition long_double : Type := spec_float.

Definition dadd : double -> double -> double := SFadd 53 1024.
Definition dsub : double -> double -> double := SFsub 53 1024.
Definition dmul : double -> double -> double := SFmul 53 1024.
Definition ddiv : double -> double -> double := SFdiv 53 1024.
Definition dlt : double -> double -> bool := SFltb.
Definition dle : double -> double -> bool := SFleb.

(** The conversion of an integer. *)
Definition dbl (z : Z) : double := binary_normalize 53 1024 z 0 false.
Definition ldbl (z : Z) : long_double := binary_normalize 64 16384 z 0 false.
Definition ladd : long_double -> long_double -> long_double := SFadd 64 16384.
Definition ldiv : long_double -> long_double -> long_double := SFdiv 64 16384.

(** [(double)] of a long double *)
Definition dbl_of_ld (x : long_double) : double :=
  match x with
  | S754_finite s m e => binary_normalize 53 1024 (if s then Z.neg m else Z.pos m) e s
  | x => x
  end.

(** The conversion to an integer type, towards zero; the values converted are
    within the type's range. *)
Definition dtrunc (x : double) : Z :=
  match x with
  | S754_finite s m e =>
      let a := if 0 <=? e then Z.pos m * 2 ^ e else Z.pos m / 2 ^ (- e) in
      if s then - a else a
  | _ => 0
  end.

(** A decimal fraction as the compiler converts it. *)
Definition frac_lit (num den : Z) : double := ddiv (dbl num) (dbl den).

(** ** Shifting right *)

Lemma iter_pos_nat {A} (f : A -> A) p x : iter_pos f p x = Nat.iter (Pos.to_nat p) f x.
Proof.
  revert x. induction p as [p IH|p IH|]; intros x; cbn [iter_pos]; [..|done].
  - rewrite !IH, Pos2Nat.inj_xI, Nat.iter_succ_r, <- Nat.iter_add. f_equal. lia.
  - rewrite !IH, Pos2Nat.inj_xO, <- Nat.iter_add. f_equal. lia.
Qed.

(** Shifting [k] places drops [k] bits and remembers whether any was set. *)
Lemma shr_iter m k :
  0 <= m ->
  let r := Nat.iter k shr_1 (Build_shr_record m false false) in
  shr_m r = m / 2 ^ Z.of_nat k /\ (shr_r r = false /\ shr_s r = false <-> m mod 2 ^ Z.of_nat k = 0).
Proof.
  intros Hm. induction k as [|k IH]; cbn [Nat.iter].
  - simpl. rewrite Z.div_1_r, Z.mod_1_r. done.
  - cbv zeta in *. change (Nat.iter (S k) shr_1 ?x) with (shr_1 (Nat.iter k shr_1 x)).
    destruct (Nat.iter k shr_1 (Build_shr_record m false false)) as [m' r s]. simpl in IH. destruct IH as [-> Hrs].
    set (q := m / 2 ^ Z.of_nat k) in *.
    assert (0 <= q) as Hq by (apply Z.div_pos; [done|lia]).
    rewrite Nat2Z.inj_succ, Z.pow_succ_r by lia.
    assert (m / (2 * 2 ^ Z.of_nat k) = q / 2) as -> by (rewrite Z.mul_comm, <- Z.div_div by lia; done).
    assert (m mod (2 * 2 ^ Z.of_nat k) = m mod 2 ^ Z.of_nat k + 2 ^ Z.of_nat k * (q mod 2)) as ->
      by (rewrite Z.mul_comm, Z.rem_mul_r by lia; done).
    pose proof (Z.mod_pos_bound m (2 ^ Z.of_nat k) ltac:(lia)) as Hb.
    assert (shr_m (shr_1 (Build_shr_record q r s)) = q / 2 /\ shr_r (shr_1 (Build_shr_record q r s)) = Z.odd q /\
      shr_s (shr_1 (Build_shr_record q r s)) = r || s) as (-> & -> & ->).
    { destruct q as [|[p|p|]|]; simpl; try done.
      - split; [|done]. by rewrite <- Z.div2_div.
      - split; [|done]. by rewrite <- Z.div2_div. }
    split; [done|]. rewrite Zmod_odd. destruct (Z.odd q).
    + split; [by intros [? _]|]. intros H. assert (0 < 2 ^ Z.of_nat k) by lia. lia.
    + rewrite Z.mul_0_r, Z.add_0_r, <- Hrs, orb_false_iff. tauto.
Qed.

(** Rounding what was shifted out stays at or below any whole bound. *)
Lemma round_shifted m k B :
  0 <= m -> m <= B * 2 ^ Z.of_nat k ->
  let r := Nat.iter k shr_1 (Build_shr_record m false false) in
  m / 2 ^ Z.of_nat k <= round_nearest_even (shr_m r) (loc_of_shr_record r) <= B.
Proof.
  intros Hm HB. cbv zeta. destruct (shr_iter m k Hm) as [Em Ers].
  destruct (Nat.iter k shr_1 (Build_shr_record m false false)) as [m' r s]. simpl in *. subst m'.
  set (q := m / 2 ^ Z.of_nat k) in *.
  assert (q <= B) as H1 by (apply Z.div_le_upper_bound; lia).
  assert (m mod 2 ^ Z.of_nat k <> 0 -> q + 1 <= B) as H2.
  { intros Hne. pose proof (Z.div_mod m (2 ^ Z.of_nat k) ltac:(lia)) as Hd. fold q in Hd.
    pose proof (Z.mod_pos_bound m (2 ^ Z.of_nat k) ltac:(lia)). nia. }
  destruct r, s; simpl; try (destruct (Z.even q)); try lia;
    (split; [lia|]; apply H2; intros H0; apply Ers in H0; by destruct H0).
Qed.

(** ** Rounding *)

Lemma digits_spec p : 2 ^ (Z.pos (digits2_pos p) - 1) <= Z.pos p < 2 ^ Z.pos (digits2_pos p).
Proof.
  induction p as [p IH|p IH|]; cbn [digits2_pos]; [| |simpl; lia];
    rewrite Pos2Z.inj_succ; unfold Z.succ;
    replace (Z.pos (digits2_pos p) + 1 - 1) with (Z.pos (digits2_pos p) - 1 + 1) by lia;
    rewrite !Z.pow_add_r by lia; change (2 ^ 1) with 2; lia.
Qed.

(** [digits_bound] bounds the digits of a number by its size. *)
Lemma digits_le p k : 0 <= k -> Z.pos p < 2 ^ k -> Z.pos (digits2_pos p) <= k.
Proof.
  intros Hk Hp. destruct (digits_spec p) as [Hd _].
  assert (2 ^ (Z.pos (digits2_pos p) - 1) < 2 ^ k) as H by lia. apply Z.pow_lt_mono_r_iff in H; lia.
Qed.

Section Rounding.
  Variables prec emax : Z.
  Hypothesis Hprec : 1 < prec.
  Hypothesis Hemax : prec < emax.

(** A positive number that fits is left as it is. *)
Lemma round_exact m e :
  Z.pos (digits2_pos m) <= prec -> emin prec emax <= e <= emax - prec ->
  binary_round_aux prec emax false (Z.pos m) e loc_Exact = S754_finite false m e.
Proof.
  intros Hd He. unfold binary_round_aux, shr_fexp, fexp. cbn [Zdigits2 shr_record_of_loc].
  assert (Z.max (Z.pos (digits2_pos m) + e - prec) (emin prec emax) - e <= 0) as Hn by lia.
  unfold shr at 1. destruct (_ - e) as [|k|k] eqn:E; [| lia |]; cbn [shr_m loc_of_shr_record round_nearest_even shr_r shr_s Zdigits2];
    rewrite E; cbn [shr shr_m]; by rewrite (proj2 (Z.leb_le _ _)) by lia.
Qed.

(** A representable bound [b * 2 ^ f] of a number of [dg] digits is also a bound
    on the grid the number is rounded to; exponents are counted from [- S]. *)
Lemma grid_bound m e b f S target k :
  let dg := Z.pos (digits2_pos m) in
  0 <= e + S -> 0 <= f + S -> emin prec emax <= f -> 0 <= b <= 2 ^ prec ->
  Z.pos m * 2 ^ (e + S) <= b * 2 ^ (f + S) ->
  target = Z.max (dg + e - prec) (emin prec emax) -> k = target - e -> 0 < k ->
  exists B, Z.pos m <= B * 2 ^ k /\ B * 2 ^ (target + S) <= b * 2 ^ (f + S) /\ 0 <= B <= 2 ^ prec.
Proof.
  intros dg HeS HfS Hfm Hb Hle Ht -> Hk. destruct (digits_spec m) as [Hd1 Hd2]. fold dg in Hd1, Hd2.
  assert (1 <= dg) as Hdg by (unfold dg; lia).
  assert (Z.pos m < 2 ^ prec * 2 ^ (target - e)) as Hm.
  { rewrite <- Z.pow_add_r by lia. eapply Z.lt_le_trans; [exact Hd2|]. apply Z.pow_le_mono_r; lia. }
  destruct (decide (target <= f)) as [Hf'|Hf'].
  - assert (Z.pos m <= b * 2 ^ (f - target) * 2 ^ (target - e)) as H1.
    { apply (Z.mul_le_mono_pos_r _ _ (2 ^ (e + S))); [lia|]. rewrite <- !Z.mul_assoc, <- !Z.pow_add_r by lia.
      replace (f - target + (target - e + (e + S))) with (f + S) by lia. done. }
    exists (Z.min (b * 2 ^ (f - target)) (2 ^ prec)). split; [|split; [|split]].
    + destruct (Z.min_spec (b * 2 ^ (f - target)) (2 ^ prec)) as [[_ ->]|[_ ->]]; lia.
    + transitivity (b * 2 ^ (f - target) * 2 ^ (target + S)).
      * apply Z.mul_le_mono_nonneg_r; [lia|]. apply Z.le_min_l.
      * rewrite <- Z.mul_assoc, <- Z.pow_add_r by lia. replace (f - target + (target + S)) with (f + S) by lia. done.
    + apply Z.min_glb; [|lia]. apply Z.mul_nonneg_nonneg; lia.
    + apply Z.le_min_r.
  - assert (b * 2 ^ (f + S) <= 2 ^ (prec - 1) * 2 ^ (target + S)) as H1.
    { transitivity (2 ^ prec * 2 ^ (f + S)); [apply Z.mul_le_mono_nonneg_r; lia|].
      rewrite <- (Z.pow_add_r 2 prec), <- (Z.pow_add_r 2 (prec - 1)) by lia. apply Z.pow_le_mono_r; lia. }
    assert (2 ^ (prec - 1) * 2 ^ (target + S) <= Z.pos m * 2 ^ (e + S)) as H2.
    { transitivity (2 ^ (dg - 1) * 2 ^ (e + S)); [|apply Z.mul_le_mono_nonneg_r; lia].
      rewrite <- (Z.pow_add_r 2 (prec - 1)), <- (Z.pow_add_r 2 (dg - 1)) by lia. apply Z.pow_le_mono_r; lia. }
    exists (2 ^ (prec - 1)). split; [|split; [lia|split; [lia|apply Z.pow_le_mono_r; lia]]].
    apply (Z.mul_le_mono_pos_r _ _ (2 ^ (e + S))); [lia|].
    rewrite <- Z.mul_assoc, <- Z.pow_add_r by lia. replace (target - e + (e + S)) with (target + S) by lia. lia.
Qed.

(** The second shift, after rounding, keeps the value: it undoes a carry into one
    more digit. *)
Lemma round_carry r e :
  0 <= r <= 2 ^ prec -> emin prec emax <= e <= emax - prec - 1 ->
  let '(mrs, e2) := shr_fexp prec emax r e loc_Exact in
  let res := match shr_m mrs with
             | 0 => S754_zero false
             | Z.pos m => if e2 <=? emax - prec then S754_finite false m e2 else S754_infinity false
             | Z.neg _ => S754_nan
             end in
  res = S754_zero false \/
  exists m' e', res = S754_finite false m' e' /\ emin prec emax <= e' <= emax - prec /\ Z.pos m' < 2 ^ prec /\
    (m', e') ∈ [(Z.to_pos r, e); (Z.to_pos (r / 2), e + 1)] /\ Z.pos m' * 2 ^ (e' - e) = r.
Proof.
  intros Hr He. unfold shr_fexp, fexp. cbn [shr_record_of_loc]. destruct (decide (r = 2 ^ prec)) as [->|Hne].
  - assert (Zdigits2 (2 ^ prec) = prec + 1) as ->.
    { assert (0 < 2 ^ prec) by lia. destruct (2 ^ prec) as [|p|p] eqn:E; [lia| |lia]. cbn [Zdigits2].
      destruct (digits_spec p) as [H1 H2]. rewrite <- E in H1, H2.
      apply Z.pow_le_mono_r_iff in H1; [|lia..]. apply Z.pow_lt_mono_r_iff in H2; lia. }
    rewrite Z.max_l by lia. replace (prec + 1 + e - prec - e) with 1 by lia. cbn [shr iter_pos].
    destruct (shr_iter (2 ^ prec) 1 ltac:(lia)) as [Hm _]. change (Nat.iter 1 shr_1 ?x) with (shr_1 x) in Hm.
    rewrite Hm. change (2 ^ Z.of_nat 1) with 2.
    assert (2 ^ prec / 2 = 2 ^ (prec - 1)) as Hh.
    { replace prec with (prec - 1 + 1) at 1 by lia. rewrite Z.pow_add_r by lia. apply Z.div_mul. lia. }
    rewrite Hh. assert (0 < 2 ^ (prec - 1)) by lia. destruct (2 ^ (prec - 1)) as [|p|p] eqn:E; [lia| |lia].
    right. exists p, (e + 1). rewrite (proj2 (Z.leb_le _ _)) by lia. split; [done|]. split; [lia|]. split.
    { rewrite <- E. apply Z.pow_lt_mono_r; lia. }
    split; [apply list_elem_of_further; apply list_elem_of_here|]. rewrite <- E. replace (e + 1 - e) with 1 by lia.
    rewrite <- Z.pow_add_r by lia. f_equal. lia.
  - assert (Z.max (Zdigits2 r + e - prec) (emin prec emax) - e <= 0) as Hn.
    { assert (Zdigits2 r <= prec); [|lia]. destruct r as [|p|p]; [simpl; lia| |lia]. apply digits_le; lia. }
    assert (shr (Build_shr_record r false false) e (Z.max (Zdigits2 r + e - prec) (emin prec emax) - e) =
      (Build_shr_record r false false, e)) as -> by (unfold shr; destruct (_ - e); [done|lia|done]).
    cbn [shr_m]. destruct r as [|p|p]; [by left| |lia]. right. exists p, e. rewrite (proj2 (Z.leb_le _ _)) by lia.
    split; [done|]. split; [lia|]. split; [lia|]. split; [apply list_elem_of_here|]. rewrite Z.sub_diag. lia.
Qed.

(** Otherwise it is at most any representable number the exact one is at most. *)
Lemma round_bound m e b f S :
  0 <= e + S -> 0 <= f + S -> 0 <= emin prec emax + S ->
  e <= emax - prec -> f + prec <= emax - 2 -> emin prec emax <= f ->
  0 <= b <= 2 ^ prec -> Z.pos m * 2 ^ (e + S) <= b * 2 ^ (f + S) ->
  binary_round_aux prec emax false (Z.pos m) e loc_Exact = S754_zero false \/
  exists m' e', binary_round_aux prec emax false (Z.pos m) e loc_Exact = S754_finite false m' e' /\
    emin prec emax <= e' <= emax - prec /\ Z.pos m' < 2 ^ prec /\ Z.pos m' * 2 ^ (e' + S) <= b * 2 ^ (f + S).
Proof.
  intros HeS HfS HmS He Hf Hfm Hb Hle.
  destruct (digits_spec m) as [Hd1 Hd2]. set (dg := Z.pos (digits2_pos m)) in *. assert (1 <= dg) as Hdg by (unfold dg; lia).
  set (target := Z.max (dg + e - prec) (emin prec emax)).
  destruct (decide (target <= e)) as [Hn|Hn].
  { right. exists m, e. rewrite round_exact; [|fold dg; lia|lia]. split; [done|]. split; [lia|]. split; [|done].
    assert (dg <= prec) by lia. pose proof (Z.pow_le_mono_r 2 dg prec). lia. }
  set (k := Z.to_nat (target - e)). assert (Z.of_nat k = target - e) as Hk by lia.
  destruct (grid_bound m e b f S target (Z.of_nat k)) as (B & HB1 & HB2 & HB3); [done..|lia|].
  destruct (round_shifted (Z.pos m) k B ltac:(lia) HB1) as [Hr1 Hr2].
  assert (shr_fexp prec emax (Z.pos m) e loc_Exact =
    (Nat.iter k shr_1 (Build_shr_record (Z.pos m) false false), target)) as Hs.
  { unfold shr_fexp, fexp. cbn [Zdigits2 shr_record_of_loc]. fold dg. fold target.
    unfold shr. destruct (target - e) as [|p|p] eqn:Ep; [lia| |lia]. rewrite iter_pos_nat. unfold k.
    rewrite Z2Nat.inj_pos. f_equal. lia. }
  unfold binary_round_aux. rewrite Hs. clear Hs.
  set (r := Nat.iter k shr_1 (Build_shr_record (Z.pos m) false false)) in *.
  set (r1 := round_nearest_even (shr_m r) (loc_of_shr_record r)) in *. clearbody r1. clear r.
  assert (0 <= r1) as Hr0 by (pose proof (Z.div_pos (Z.pos m) (2 ^ Z.of_nat k)); lia).
  assert (target <= emax - prec - 1) as Htm.
  { assert (2 ^ (dg - 1 + (e + S)) <= 2 ^ (prec + (f + S))) as Hp.
    { rewrite (Z.pow_add_r 2 (dg - 1)), (Z.pow_add_r 2 prec) by lia.
      transitivity (Z.pos m * 2 ^ (e + S)); [apply Z.mul_le_mono_nonneg_r; lia|].
      transitivity (b * 2 ^ (f + S)); [done|]. apply Z.mul_le_mono_nonneg_r; lia. }
    apply Z.pow_le_mono_r_iff in Hp; [|lia..]. unfold emin in *. lia. }
  pose proof (round_carry r1 target ltac:(lia) ltac:(lia)) as Hc.
  destruct (shr_fexp prec emax r1 target loc_Exact) as [mrs e2]. cbv zeta in Hc.
  destruct Hc as [Hc|(m' & e' & Hc & He' & Hm' & Hin & Hv)]; [by left|right]. exists m', e'.
  split; [done|]. split; [done|]. split; [done|].
  assert (e <= e' /\ target <= e') as [_ Hte].
  { apply elem_of_cons in Hin as [[= -> ->]|Hin]; [lia|]. apply list_elem_of_singleton in Hin as [= -> ->]. lia. }
  replace (e' + S) with (e' - target + (target + S)) by lia. rewrite Z.pow_add_r, Z.mul_assoc, Hv by lia.
  transitivity (B * 2 ^ (target + S)); [|done]. apply Z.mul_le_mono_nonneg_r; lia.
Qed.
End Rounding.

(** ** Doubles that are not negative *)

(** A double between 0 and a bound, in units of the smallest one. *)
Definition UNIT : Z := 1074.

Definition within (x : double) (B : Z) : Prop :=
  match x with
  | S754_zero _ => 0 <= B
  | S754_finite false m e => - UNIT <= e <= 971 /\ Z.pos m < 2 ^ 53 /\ Z.pos m * 2 ^ (e + UNIT) <= B
  | _ => False
  end.

(** What it is exactly. *)
Definition scaled (x : double) : Z :=
  match x with S754_finite false m e => Z.pos m * 2 ^ (e + UNIT) | _ => 0 end.

Lemma within_scaled x B : within x B <-> within x (scaled x) /\ scaled x <= B.
Proof. destruct x as [|[]| |[]]; simpl; try tauto; lia. Qed.

Lemma scaled_nonneg x : 0 <= scaled x.
Proof. destruct x as [|[]| |[] m e]; simpl; lia. Qed.

Lemma within_mono x B B' : B <= B' -> within x B -> within x B'.
Proof. rewrite (within_scaled x B), (within_scaled x B'). intros ? []. split; [done|lia]. Qed.

(** [round_bound] at a double. *)
Lemma round_within m e b f :
  - 2 * UNIT <= e -> e <= 971 -> - UNIT <= f <= 960 -> 0 <= b <= 2 ^ 53 ->
  Z.pos m * 2 ^ (e + 2 * UNIT) <= b * 2 ^ (f + 2 * UNIT) ->
  within (binary_round_aux 53 1024 false (Z.pos m) e loc_Exact) (b * 2 ^ (f + UNIT)).
Proof.
  unfold UNIT. intros He1 He2 Hf Hb Hle.
  assert (emin 53 1024 = -1074) as Hem by reflexivity.
  assert (0 <= b * 2 ^ (f + 1074)) as H0 by (apply Z.mul_nonneg_nonneg; [lia|apply Z.pow_nonneg; lia]).
  destruct (round_bound 53 1024 ltac:(lia) m e b f (2 * 1074)) as [->|(m' & e' & -> & He' & Hm' & Hv)]; try lia; [done|].
  split; [unfold UNIT; lia|]. split; [done|]. unfold UNIT.
  apply (Z.mul_le_mono_pos_r _ _ (2 ^ 1074)); [by apply Z.pow_pos_nonneg|].
  rewrite <- !Z.mul_assoc, <- !Z.pow_add_r by lia.
  replace (e' + 1074 + 1074) with (e' + 2 * 1074) by lia. replace (f + 1074 + 1074) with (f + 2 * 1074) by lia. done.
Qed.

Lemma xO_iter p d : Z.pos (Pos.iter xO p d) = Z.pos p * 2 ^ Z.pos d.
Proof.
  rewrite <- Z.shiftl_mul_pow2 by lia. simpl. apply (Pos.iter_swap_gen _ _ Z.pos). done.
Qed.

(** Aligning to a smaller exponent keeps the value. *)
Lemma shl_align_value m e e' :
  e' <= e -> (shl_align m e e').2 = e' /\ Z.pos (shl_align m e e').1 = Z.pos m * 2 ^ (e - e').
Proof.
  intros He. unfold shl_align. destruct (e' - e) as [|p|p] eqn:E; [|lia|].
  - replace e' with e by lia. rewrite Z.sub_diag. simpl. lia.
  - simpl. split; [done|]. rewrite xO_iter. f_equal. f_equal. lia.
Qed.

Lemma shl_align_le m e e' :
  let '(m1, e1) := shl_align m e e' in e1 = Z.min e e' /\ Z.pos m1 = Z.pos m * 2 ^ (e - e1).
Proof.
  destruct (decide (e' <= e)) as [He|He].
  - destruct (shl_align_value m e e' He) as [H1 H2]. destruct (shl_align m e e') as [m1 e1]. simpl in *. subst e1.
    rewrite Z.min_r by lia. done.
  - unfold shl_align. destruct (e' - e) eqn:E; [lia| |lia]. rewrite Z.min_l, Z.sub_diag by lia. split; [done|]. simpl. lia.
Qed.

(** Normalising a number that is not negative. *)
Lemma normalize_within m e b f :
  0 <= m -> - UNIT <= e <= 900 -> - UNIT <= f <= 900 -> 0 <= b <= 2 ^ 53 ->
  m * 2 ^ (e + UNIT) <= b * 2 ^ (f + UNIT) ->
  within (binary_normalize 53 1024 m e false) (b * 2 ^ (f + UNIT)).
Proof.
  intros Hm He Hf Hb Hle. destruct m as [|m|m]; [| |lia].
  { simpl. apply Z.mul_nonneg_nonneg; [lia|]. apply Z.pow_nonneg. lia. }
  cbn [binary_normalize]. unfold binary_round.
  pose proof (shl_align_le m e (fexp 53 1024 (Z.pos (digits2_pos m) + e))) as Ha.
  destruct (shl_align m e _) as [m1 e1]. destruct Ha as [He1 Hm1].
  assert (- UNIT <= e1) as He1'.
  { subst e1. unfold UNIT in *. apply Z.min_glb; [lia|]. unfold fexp, emin. lia. }
  apply round_within; [unfold UNIT in *; lia|lia|unfold UNIT in *; lia|done|].
  rewrite Hm1, <- Z.mul_assoc, <- Z.pow_add_r by (unfold UNIT in *; lia).
  replace (e - e1 + (e1 + 2 * UNIT)) with (e + UNIT + UNIT) by lia.
  replace (f + 2 * UNIT) with (f + UNIT + UNIT) by lia.
  rewrite (Z.pow_add_r 2 (e + UNIT)), (Z.pow_add_r 2 (f + UNIT)) by (unfold UNIT in *; lia).
  rewrite !Z.mul_assoc. apply Z.mul_le_mono_nonneg_r; [apply Z.pow_nonneg; lia|done].
Qed.

(** An integer below 2 ^ 53 is converted exactly. *)
Lemma dbl_exact z : 0 <= z < 2 ^ 53 -> within (dbl z) (z * 2 ^ UNIT) /\ scaled (dbl z) = z * 2 ^ UNIT.
Proof.
  intros Hz. unfold dbl. destruct z as [|m|m]; [done| |lia]. cbn [binary_normalize]. unfold binary_round.
  pose proof (digits_le m 53 ltac:(lia) ltac:(lia)) as Hd.
  pose proof (shl_align_value m 0 (fexp 53 1024 (Z.pos (digits2_pos m) + 0))) as Ha.
  assert (fexp 53 1024 (Z.pos (digits2_pos m) + 0) = Z.pos (digits2_pos m) - 53) as Hf
    by (unfold fexp, emin; lia).
  rewrite Hf in *. destruct (shl_align m 0 _) as [m1 e1]. cbn [fst snd] in Ha. destruct Ha as [-> Hm1]; [lia|].
  set (dg := Z.pos (digits2_pos m)) in *. assert (1 <= dg) by (unfold dg; lia).
  assert (Z.pos m1 < 2 ^ 53) as Hlt.
  { rewrite Hm1. destruct (digits_spec m) as [_ H2]. fold dg in H2.
    apply Z.lt_le_trans with (2 ^ dg * 2 ^ (0 - (dg - 53))); [apply Z.mul_lt_mono_pos_r; lia|].
    rewrite <- Z.pow_add_r by lia. apply Z.pow_le_mono_r; lia. }
  rewrite round_exact; [|apply digits_le; lia|unfold emin; lia].
  assert (Z.pos m1 * 2 ^ (dg - 53 + UNIT) = Z.pos m * 2 ^ UNIT) as Hv.
  { rewrite Hm1, <- Z.mul_assoc, <- Z.pow_add_r by (unfold UNIT; lia). f_equal. f_equal. lia. }
  simpl. rewrite Hv. unfold UNIT. split; [|done]. split; [lia|]. split; [done|lia].
Qed.

(** ** Operations on doubles that are not negative *)

(** A double of at most 2 ^ 60. *)
Definition LIMIT : Z := 2 ^ 60 * 2 ^ UNIT.

Lemma scaled_exp m e B k : - UNIT <= e -> Z.pos m * 2 ^ (e + UNIT) <= B -> B <= 2 ^ k * 2 ^ UNIT -> 0 <= k -> e <= k.
Proof.
  intros He Hv HB Hk. assert (0 <= UNIT) as HU by (unfold UNIT; lia). generalize dependent UNIT. intros U He Hv HB HU.
  rewrite <- Z.pow_add_r in HB by lia. pose proof (Z.pow_nonneg 2 (e + U) ltac:(lia)) as H0.
  assert (2 ^ (e + U) <= 2 ^ (k + U)) as H by nia.
  apply Z.pow_le_mono_r_iff in H; lia.
Qed.

Lemma dmul_within x y :
  within x LIMIT -> within y (2 ^ UNIT) -> within (dmul x y) (scaled x).
Proof.
  destruct x as [sx| | |[] m1 e1]; try done; destruct y as [sy| | |[] m2 e2]; try done.
  { intros _ _. simpl. lia. }
  intros (He1 & Hm1 & Hv1) (He2 & Hm2 & Hv2).
  assert (e1 <= 60) as Hx by (apply (scaled_exp m1 e1 LIMIT); [lia|done|reflexivity|lia]).
  assert (e2 <= 0) as Hy by (apply (scaled_exp m2 e2 (2 ^ UNIT)); [lia|done|by rewrite Z.mul_1_l|lia]).
  cbn [scaled]. unfold dmul. cbn [SFmul xorb].
  apply round_within; [unfold UNIT in *; lia|lia|unfold UNIT in *; lia|lia|].
  rewrite Pos2Z.inj_mul.
  replace (e1 + e2 + 2 * UNIT) with ((e1 + UNIT) + (e2 + UNIT)) by lia.
  replace (e1 + 2 * UNIT) with ((e1 + UNIT) + UNIT) by lia.
  rewrite (Z.pow_add_r 2 (e1 + UNIT) (e2 + UNIT)), (Z.pow_add_r 2 (e1 + UNIT) UNIT) by (unfold UNIT in *; lia).
  replace (Z.pos m1 * Z.pos m2 * (2 ^ (e1 + UNIT) * 2 ^ (e2 + UNIT)))
    with (Z.pos m1 * 2 ^ (e1 + UNIT) * (Z.pos m2 * 2 ^ (e2 + UNIT))) by ring.
  rewrite (Z.mul_assoc _ _ (2 ^ UNIT)). apply Z.mul_le_mono_nonneg_l; [|done].
  apply Z.mul_nonneg_nonneg; [lia|apply Z.pow_nonneg; lia].
Qed.

(** Two doubles on one grid. *)
Lemma common_grid m1 e1 m2 e2 :
  - UNIT <= e1 -> - UNIT <= e2 ->
  let ez := Z.min e1 e2 in
  - UNIT <= ez /\
  Z.pos (shl_align m1 e1 ez).1 * 2 ^ (ez + UNIT) = Z.pos m1 * 2 ^ (e1 + UNIT) /\
  Z.pos (shl_align m2 e2 ez).1 * 2 ^ (ez + UNIT) = Z.pos m2 * 2 ^ (e2 + UNIT).
Proof.
  intros H1 H2 ez. split; [lia|].
  destruct (shl_align_value m1 e1 ez ltac:(lia)) as [_ ->]. destruct (shl_align_value m2 e2 ez ltac:(lia)) as [_ ->].
  rewrite <- !Z.mul_assoc, <- !Z.pow_add_r by lia. split; f_equal; f_equal; lia.
Qed.

Lemma dadd_within x y b f :
  within x LIMIT -> within y LIMIT -> - UNIT <= f <= 900 -> 0 <= b <= 2 ^ 53 ->
  scaled x + scaled y <= b * 2 ^ (f + UNIT) -> within (dadd x y) (b * 2 ^ (f + UNIT)).
Proof.
  intros Hx Hy Hf Hb Hle.
  destruct x as [sx| | |[] m1 e1]; try done; destruct y as [sy| | |[] m2 e2]; try done.
  - destruct sx, sy; simpl in *; lia.
  - apply (within_mono _ (scaled (S754_finite false m2 e2))); [simpl in *; lia|]. by apply within_scaled in Hy as [].
  - apply (within_mono _ (scaled (S754_finite false m1 e1))); [simpl in *; lia|]. by apply within_scaled in Hx as [].
  - destruct Hx as (He1 & Hm1 & Hv1), Hy as (He2 & Hm2 & Hv2). unfold dadd. cbn [SFadd cond_Zopp].
    destruct (common_grid m1 e1 m2 e2) as (Hz & E1 & E2); [lia..|]. set (ez := Z.min e1 e2) in *.
    assert (e1 <= 60) as Hx by (apply (scaled_exp m1 e1 LIMIT); [lia|done|reflexivity|lia]).
    apply normalize_within; [lia|lia|done|done|]. rewrite Z.mul_add_distr_r, E1, E2. exact Hle.
Qed.

Lemma dsub_within x y b f :
  within x LIMIT -> within y LIMIT -> - UNIT <= f <= 900 -> 0 <= b <= 2 ^ 53 ->
  scaled y <= scaled x -> scaled x - scaled y <= b * 2 ^ (f + UNIT) -> within (dsub x y) (b * 2 ^ (f + UNIT)).
Proof.
  intros Hx Hy Hf Hb Hpos Hle.
  destruct x as [sx| | |[] m1 e1]; try done; destruct y as [sy| | |[] m2 e2]; try done.
  - destruct sx, sy; simpl in *; lia.
  - simpl in Hpos. exfalso. assert (0 < Z.pos m2 * 2 ^ (e2 + UNIT)); [|lia].
    apply Z.mul_pos_pos; [lia|]. apply Z.pow_pos_nonneg; [lia|]. destruct Hy as (? & _). lia.
  - apply (within_mono _ (scaled (S754_finite false m1 e1))); [simpl in *; lia|]. by apply within_scaled in Hx as [].
  - destruct Hx as (He1 & Hm1 & Hv1), Hy as (He2 & Hm2 & Hv2). unfold dsub. cbn [SFsub cond_Zopp].
    destruct (common_grid m1 e1 m2 e2) as (Hz & E1 & E2); [lia..|]. set (ez := Z.min e1 e2) in *.
    assert (e1 <= 60) as Hx by (apply (scaled_exp m1 e1 LIMIT); [lia|done|reflexivity|lia]).
    assert (0 < 2 ^ (ez + UNIT)) as Hp by (apply Z.pow_pos_nonneg; lia).
    apply normalize_within; [|lia|done|done|].
    + cbn [scaled] in Hpos. rewrite <- E1, <- E2 in Hpos. apply Z.mul_le_mono_pos_r in Hpos; lia.
    + rewrite Z.mul_sub_distr_r, E1, E2. exact Hle.
Qed.

Lemma dtrunc_spec x B :
  within x B -> 0 <= dtrunc x /\ dtrunc x * 2 ^ UNIT <= scaled x < (dtrunc x + 1) * 2 ^ UNIT.
Proof.
  destruct x as [sx| | |[] m e]; try done; cbn [dtrunc scaled].
  intros (He & Hm & _).
  destruct (Z.leb_spec 0 e) as [H0|H0].
  - rewrite Z.pow_add_r by (unfold UNIT in *; lia). pose proof (Z.pow_pos_nonneg 2 e ltac:(lia) H0).
    pose proof (Z.pow_pos_nonneg 2 UNIT ltac:(lia) ltac:(unfold UNIT; lia)). nia.
  - set (q := Z.pos m / 2 ^ (- e)).
    pose proof (Z.pow_pos_nonneg 2 (- e) ltac:(lia) ltac:(lia)) as Hpe.
    pose proof (Z.div_mod (Z.pos m) (2 ^ (- e)) ltac:(lia)) as Hd. fold q in Hd.
    pose proof (Z.mod_pos_bound (Z.pos m) (2 ^ (- e)) ltac:(lia)) as Hr.
    assert (0 <= q) as Hq by (apply Z.div_pos; lia). split; [done|].
    assert (2 ^ UNIT = 2 ^ (- e) * 2 ^ (e + UNIT)) as -> by (rewrite <- Z.pow_add_r by lia; f_equal; lia).
    pose proof (Z.pow_pos_nonneg 2 (e + UNIT) ltac:(lia) ltac:(lia)) as Hpu. nia.
Qed.
