(* ===== verification/Summary.v ===== *)
(** * Summaries of samples (src/stats.c: ntp_summarize, ntp_group_rate)

    The samples of one component are sorted in place and summarised; the doubles
    are those of Float.v. *)
From stdpp Require Import base numbers list sorting.
From Stdlib Require Import ZArith Lia SpecFloat.
From S2P Require Import Prelude Types Model CStr Stats Float.

(** ** Summaries *)

Definition NTP_NQ : nat := 8.

Definition ntp_quantiles : list double :=
  [frac_lit 10 100; frac_lit 50 100; frac_lit 70 100; frac_lit 80 100;
   frac_lit 90 100; frac_lit 95 100; frac_lit 99 100; frac_lit 999 1000].

Record ntp_summary := mk_summary { sm_n : Z; sm_mean : double; sm_min : Z; sm_max : Z; sm_q : list Z }.

Definition zero_summary : ntp_summary := mk_summary 0 (S754_zero false) 0 0 (replicate NTP_NQ 0).

(** [qsort] with [cmp_i64]: a total order, so the result is the sorted list. *)
Definition qsort_i64 (l : list Z) : list Z := merge_sort Z.le l.

(** [v->v[i]] *)
Definition vat (v : list Z) (i : Z) : Z := default 0 (v !! Z.to_nat i).

(** A quantile of the sorted samples, by linear interpolation between the
    closest ranks. *)
Definition quantile (v : list Z) (p : double) : Z :=
  let n := Z.of_nat (length v) in
  let pos := dmul p (dbl (n - 1)) in
  let lo := dtrunc pos in
  let frac := dsub pos (dbl lo) in
  if n <=? lo + 1 then vat v (n - 1)
  else vat v lo + dtrunc (dadd (dmul (dbl (vat v (lo + 1) - vat v lo)) frac) (frac_lit 1 2)).

(** The summary, and the vector sorted in place. *)
Definition ntp_summarize (vec : i64vec) : ntp_summary * i64vec :=
  match iv vec with
  | [] => (zero_summary, vec)
  | _ =>
      let v := qsort_i64 (iv vec) in
      let n := Z.of_nat (length v) in
      let sum := foldl (fun s x => ladd s (ldbl x)) (S754_zero false) v in
      (mk_summary n (dbl_of_ld (ldiv sum (ldbl n))) (vat v 0) (vat v (n - 1)) (quantile v <$> ntp_quantiles),
       mk_i64vec v (iv_cap vec))
  end.

(** ** Rates *)

Definition ntp_group_rate (s : ntp_stats) (g : ntp_group) : double :=
  if negb (nz (first_ns s)) || (last_ns s <? u64 (first_ns s + 10000000)) then S754_zero false
  else ddiv (dmul (dmul (dbl (records g)) (dbl (s_sample_every s))) (dbl 1000000000))
            (dbl (u64 (last_ns s - first_ns s))).

Example summarize_1234 :
  let s := (ntp_summarize (mk_i64vec [40; 10; 30; 20] 1024)).1 in
  (sm_n s, sm_mean s, sm_min s, sm_max s, sm_q s) = (4, dbl 25, 10, 40, [13; 25; 31; 34; 37; 38; 40; 40]).
Proof. vm_compute. reflexivity. Qed.

(** ** What a summary says *)

Lemma qsort_perm l : qsort_i64 l ≡ₚ l.
Proof. apply merge_sort_Permutation. Qed.

Lemma qsort_sorted l : Sorted Z.le (qsort_i64 l).
Proof. apply Sorted_merge_sort. apply _. Qed.

(** Sorting gives the same vector whatever the order of the samples. *)
Lemma qsort_same l l' : l ≡ₚ l' -> qsort_i64 l = qsort_i64 l'.
Proof.
  intros H. apply (Sorted_unique Z.le); [apply qsort_sorted..|]. by rewrite !qsort_perm.
Qed.

(** The samples of one component: fewer than 2 ^ 53 of them, each shorter than
    2 ^ 51 ns (twenty-six days), which is what a double holds exactly. *)
Definition samples_fit (l : list Z) : Prop :=
  Z.of_nat (length l) < 2 ^ 53 /\ Forall (fun x => - 2 ^ 51 < x < 2 ^ 51) l.

Lemma vat_in v i : 0 <= i < Z.of_nat (length v) -> vat v i ∈ v.
Proof.
  intros Hi. unfold vat. destruct (v !! Z.to_nat i) as [x|] eqn:E; [by eapply list_elem_of_lookup_2|].
  apply lookup_ge_None in E. lia.
Qed.

Lemma vat_mono v i j :
  Sorted Z.le v -> 0 <= i <= j -> j < Z.of_nat (length v) -> vat v i <= vat v j.
Proof.
  intros Hs Hij Hj. apply Sorted_StronglySorted in Hs; [|apply _].
  destruct (decide (i = j)) as [->|Hne]; [done|]. unfold vat.
  destruct (v !! Z.to_nat i) as [x|] eqn:Ei; [|apply lookup_ge_None in Ei; lia].
  destruct (v !! Z.to_nat j) as [y|] eqn:Ej; [|apply lookup_ge_None in Ej; lia].
  simpl. eapply (StronglySorted_app_1_elem_of Z.le (take (Z.to_nat j) v) (drop (Z.to_nat j) v)).
  - by rewrite take_drop.
  - apply (list_elem_of_lookup_2 _ (Z.to_nat i)). rewrite lookup_take_lt; [done|lia].
  - apply (list_elem_of_lookup_2 _ 0). by rewrite lookup_drop, Nat.add_0_r.
Qed.

(** Where a quantile falls: its rank [lo] and the value between its neighbours. *)
Definition quantile_rank (v : list Z) (p : double) : Z :=
  dtrunc (dmul p (dbl (Z.of_nat (length v) - 1))).

Lemma dmul_comm x y : dmul x y = dmul y x.
Proof.
  unfold dmul. destruct x as [[]|[]| |[] m1 e1], y as [[]|[]| |[] m2 e2]; try done; simpl;
    by rewrite Pos.mul_comm, Z.add_comm.
Qed.

(** The interpolation never leaves the step between two neighbours. *)
Lemma interpolation_bounds d frac :
  0 <= d < 2 ^ 52 -> within frac (2 ^ UNIT) -> 0 <= dtrunc (dadd (dmul (dbl d) frac) (frac_lit 1 2)) <= d.
Proof.
  intros Hd Hf. destruct (dbl_exact d) as [Hw He]; [lia|].
  assert (0 < 2 ^ UNIT) as Hu by by apply Z.pow_pos_nonneg.
  assert (2 ^ UNIT = 2 * 2 ^ (-1 + UNIT)) as Hhalf by by vm_compute.
  assert (within (dmul (dbl d) frac) (d * 2 ^ UNIT)) as Hm.
  { rewrite <- He. apply dmul_within; [|done]. eapply within_mono; [|exact Hw]. unfold LIMIT.
    apply Z.mul_le_mono_nonneg_r; lia. }
  assert (within (dadd (dmul (dbl d) frac) (frac_lit 1 2)) ((2 * d + 1) * 2 ^ (-1 + UNIT))) as Ha.
  { apply dadd_within.
    - eapply within_mono; [|exact Hm]. unfold LIMIT. apply Z.mul_le_mono_nonneg_r; lia.
    - by vm_compute.
    - by vm_compute.
    - lia.
    - apply within_scaled in Hm as [_ Hm]. assert (scaled (frac_lit 1 2) = 2 ^ (-1 + UNIT)) as -> by by vm_compute. lia. }
  destruct (dtrunc_spec _ _ Ha) as (H0 & H1 & H2). apply within_scaled in Ha as [_ Ha].
  split; [done|]. set (t := dtrunc _) in *. set (S := scaled _) in *. clearbody t S.
  generalize dependent (2 ^ (-1 + UNIT)). intros w. generalize dependent (2 ^ UNIT). intros. nia.
Qed.

(** A quantile between its neighbours. *)
Lemma quantile_bounds v p :
  Sorted Z.le v -> v <> [] -> samples_fit v -> within p (2 ^ UNIT) ->
  let lo := quantile_rank v p in
  let hi := Z.min (lo + 1) (Z.of_nat (length v) - 1) in
  0 <= lo < Z.of_nat (length v) /\ vat v lo <= quantile v p <= vat v hi.
Proof.
  intros Hs Hne [Hlen Hv] Hp. assert (1 <= Z.of_nat (length v)) as Hn by (destruct v; [done|simpl; lia]).
  unfold quantile, quantile_rank. set (n := Z.of_nat (length v)) in *. set (pos := dmul p (dbl (n - 1))). simpl.
  set (lo := dtrunc pos). assert (0 < 2 ^ UNIT) as Hu by by apply Z.pow_pos_nonneg.
  destruct (dbl_exact (n - 1)) as [Hw He]; [lia|].
  assert (within pos ((n - 1) * 2 ^ UNIT)) as Hpos.
  { unfold pos. rewrite dmul_comm, <- He. apply dmul_within; [|done]. eapply within_mono; [|exact Hw].
    unfold LIMIT. apply Z.mul_le_mono_nonneg_r; lia. }
  destruct (dtrunc_spec _ _ Hpos) as (H0 & H1 & H2). fold lo in H0, H1, H2.
  pose proof Hpos as [Hpos1 Hpos2]%within_scaled.
  assert (lo <= n - 1) as Hlo by (apply (Z.mul_le_mono_pos_r _ _ (2 ^ UNIT)); lia).
  split; [lia|]. destruct (Z.leb_spec n (lo + 1)) as [Hend|Hmid].
  { replace (Z.min (lo + 1) (n - 1)) with (n - 1) by lia. replace lo with (n - 1) by lia. lia. }
  rewrite Z.min_l by lia. pose proof (vat_mono v lo (lo + 1) Hs ltac:(lia) ltac:(lia)) as Hm.
  rewrite Forall_forall in Hv. pose proof (Hv _ (vat_in v lo ltac:(lia))). pose proof (Hv _ (vat_in v (lo + 1) ltac:(lia))).
  destruct (dbl_exact lo) as [Hwl Hel]; [lia|].
  pose proof (interpolation_bounds (vat v (lo + 1) - vat v lo) (dsub pos (dbl lo)) ltac:(lia)) as Hi.
  enough (within (dsub pos (dbl lo)) (2 ^ UNIT)) as Hf by (specialize (Hi Hf); lia).
  replace (2 ^ UNIT) with (1 * 2 ^ (0 + UNIT)) by by vm_compute. apply dsub_within.
  - eapply within_mono; [|exact Hpos]. unfold LIMIT. apply Z.mul_le_mono_nonneg_r; lia.
  - eapply within_mono; [|exact Hwl]. unfold LIMIT. apply Z.mul_le_mono_nonneg_r; lia.
  - by vm_compute.
  - by vm_compute.
  - rewrite Hel. lia.
  - rewrite Hel, Z.add_0_l. lia.
Qed.

Lemma samples_fit_perm l l' : l ≡ₚ l' -> samples_fit l -> samples_fit l'.
Proof. intros H [H1 H2]. split; [by rewrite <- H|by rewrite <- H]. Qed.

Lemma quantiles_fit : Forall (fun p => within p (2 ^ UNIT)) ntp_quantiles.
Proof. repeat apply Forall_cons_2; try apply Forall_nil_2; by vm_compute. Qed.

(** C36: A summary of samples says what it should: it sorts the vector in place without
    losing or inventing a sample; [n] is their number; [min] and [max] are
    samples, and no sample is below or above them; and every quantile, computed
    in double precision, lies between the two samples its rank falls between. *)
Theorem summarize_quantiles vec :
  iv vec <> [] -> samples_fit (iv vec) ->
  let '(s, vec') := ntp_summarize vec in
  iv vec' ≡ₚ iv vec /\ Sorted Z.le (iv vec') /\
  sm_n s = Z.of_nat (length (iv vec)) /\
  sm_min s ∈ iv vec /\ sm_max s ∈ iv vec /\ Forall (fun x => sm_min s <= x <= sm_max s) (iv vec) /\
  Forall2 (fun p q => let lo := quantile_rank (iv vec') p in
                      vat (iv vec') lo <= q <= vat (iv vec') (Z.min (lo + 1) (sm_n s - 1)))
          ntp_quantiles (sm_q s) /\
  Forall (fun q => sm_min s <= q <= sm_max s) (sm_q s).
Proof.
  intros Hne Hfit. unfold ntp_summarize. destruct (iv vec) as [|x0 l0] eqn:E; [done|]. rewrite <- E in *. clear E x0 l0.
  pose proof (qsort_perm (iv vec)) as Hp. pose proof (qsort_sorted (iv vec)) as Hs.
  set (v := qsort_i64 (iv vec)) in *. cbn [iv sm_n sm_min sm_max sm_q].
  assert (v <> []) as Hv by (intros ->; by apply Permutation_nil in Hp).
  assert (1 <= Z.of_nat (length v)) as Hn by (destruct v; [done|simpl; lia]).
  apply (samples_fit_perm _ v) in Hfit; [|done].
  pose proof (quantiles_fit) as Hq. rewrite Forall_forall in Hq.
  split; [done|]. split; [done|]. split; [by rewrite Hp|].
  split; [rewrite <- Hp; apply vat_in; lia|]. split; [rewrite <- Hp; apply vat_in; lia|].
  split; [|split].
  - rewrite <- Hp. apply Forall_forall. intros x [i Hi]%list_elem_of_lookup_1.
    assert (vat v (Z.of_nat i) = x) as <- by (unfold vat; by rewrite Nat2Z.id, Hi).
    apply lookup_lt_Some in Hi. split; apply vat_mono; done || lia.
  - apply Forall2_fmap_r, Forall_Forall2_diag, Forall_forall. intros p Hin.
    apply (quantile_bounds v p); auto.
  - apply Forall_fmap, Forall_forall. intros p Hin.
    destruct (quantile_bounds v p) as [Hr [Hb1 Hb2]]; [auto..|]. simpl in *.
    assert (vat v 0 <= vat v (quantile_rank v p)) by (apply vat_mono; done || lia).
    assert (vat v (Z.min (quantile_rank v p + 1) (Z.of_nat (length v) - 1)) <= vat v (Z.of_nat (length v) - 1))
      by (apply vat_mono; done || lia). lia.
Qed.

Lemma summarize_quantiles_witness :
  let '(s, vec') := ntp_summarize (mk_i64vec [40; 10; 30; 20] 1024) in
  iv vec' ≡ₚ [40; 10; 30; 20] /\ Forall (fun q => sm_min s <= q <= sm_max s) (sm_q s).
Proof.
  destruct (summarize_quantiles (mk_i64vec [40; 10; 30; 20] 1024)) as (H & _ & _ & _ & _ & _ & _ & H').
  - done.
  - split; [done|]. repeat apply Forall_cons_2; try apply Forall_nil_2; done.
  - exact (conj H H').
Defined.

(** A summary does not depend on the order the samples came in, so summarising a
    vector that an earlier summary (an interval report) already sorted in place
    gives the same figures as summarising the samples as they were added. *)
Theorem summarize_order vec vec' :
  iv vec ≡ₚ iv vec' ->
  (ntp_summarize vec).1 = (ntp_summarize vec').1 /\
  (ntp_summarize (ntp_summarize vec).2).1 = (ntp_summarize vec').1.
Proof.
  intros H. assert (forall a b, iv a ≡ₚ iv b -> (ntp_summarize a).1 = (ntp_summarize b).1) as Hs.
  { intros a b Hab. unfold ntp_summarize. rewrite (qsort_same _ _ Hab).
    destruct (iv a) as [|x la] eqn:Ea, (iv b) as [|y lb] eqn:Eb; try done.
    - by apply Permutation_nil_l in Hab.
    - by apply Permutation_nil_r in Hab. }
  split; [by apply Hs|]. apply Hs. transitivity (iv vec); [|exact H]. unfold ntp_summarize. destruct (iv vec) as [|x la] eqn:Ea; simpl; [by rewrite Ea|].
  apply qsort_perm.
Qed.

Lemma summarize_order_witness :
  (ntp_summarize (mk_i64vec [3; 1; 2] 4)).1 = (ntp_summarize (mk_i64vec [2; 3; 1] 4)).1.
Proof. apply (summarize_order (mk_i64vec [3; 1; 2] 4) (mk_i64vec [2; 3; 1] 4)). simpl. by rewrite (Permutation_app_comm [3; 1] [2]).
Defined.
