(* ===== verification/Printf.v ===== *)
(** * Formatted output

    What the reports use of [printf]: integers, strings in a field, and doubles
    in the [%f] style, rounded to nearest even as the C library does.  A piece of
    output is the list of its bytes. *)
From stdpp Require Import base numbers list.
From Stdlib Require Import ZArith Lia String SpecFloat.
From S2P Require Import Prelude CStr Float.

Definition NL : list Z := [10].

(** ** Fields *)

(** [%8s] and [%-8s] *)
Definition padl (w : nat) (s : list Z) : list Z := replicate (w - List.length s) 32 ++ s.
Definition padr (w : nat) (s : list Z) : list Z := s ++ replicate (w - List.length s) 32.

(** ** Integers *)

(** The decimal digits of a number that is not negative. *)
Definition print_nat (v : Z) : list Z := dec_digits (Z.to_nat (Z.log2 v) + 1) v.

(** [%d], [%lld] *)
Definition print_d (v : Z) : list Z := if v <? 0 then 45 :: print_nat (- v) else print_nat v.

Definition hex_digit (d : Z) : Z := if d <? 10 then 48 + d else 87 + d.
(** [%04x] of a byte *)
Definition hex4 (c : Z) : list Z := [48; 48; hex_digit (c / 16); hex_digit (c mod 16)].

(** ** Doubles *)

(** [num / den] to the nearest integer, halves to even. *)
Definition round_even (num den : Z) : Z :=
  let q := num / den in
  let r := num mod den in
  if 2 * r <? den then q else if den <? 2 * r then q + 1 else if Z.even q then q else q + 1.

(** The magnitude times [10 ^ prec], rounded. *)
Definition scaled_dec (m : positive) (e : Z) (prec : nat) : Z :=
  let p := 10 ^ Z.of_nat prec in
  if 0 <=? e then Z.pos m * 2 ^ e * p else round_even (Z.pos m * p) (2 ^ (- e)).

(** Exactly [n] digits. *)
Fixpoint fixed_digits (n : nat) (v : Z) : list Z :=
  match n with
  | O => []
  | S n => fixed_digits n (v / 10) ++ [48 + v mod 10]
  end.

Definition print_fixed (prec : nat) (v : Z) : list Z :=
  let p := 10 ^ Z.of_nat prec in
  print_nat (v / p) ++ match prec with O => [] | _ => 46 :: fixed_digits prec (v mod p) end.

(** [%.<prec>f] *)
Definition fmt_f (prec : nat) (x : double) : list Z :=
  match x with
  | S754_zero s => (if s then [45] else []) ++ print_fixed prec 0
  | S754_infinity s => if s then bytes "-inf" else bytes "inf"
  | S754_nan => bytes "-nan"
  | S754_finite s m e => (if s then [45] else []) ++ print_fixed prec (scaled_dec m e prec)
  end.

Example fmt_f_examples :
  fmt_f 2 (frac_lit 5 2) = bytes "2.50" /\ fmt_f 0 (frac_lit 5 2) = bytes "2" /\ fmt_f 0 (frac_lit 7 2) = bytes "4" /\
  fmt_f 1 (dbl 1234567) = bytes "1234567.0" /\ fmt_f 2 (frac_lit 1 300) = bytes "0.00" /\
  fmt_f 3 (frac_lit (-1) 3) = bytes "-0.333" /\ fmt_f 1 (frac_lit 1 20) = bytes "0.1" /\
  padl 6 (print_d (-42)) = bytes "   -42" /\ padr 5 (bytes "ab") = bytes "ab   ".
Proof. vm_compute. repeat split. Qed.

(** ** Facts *)

Lemma print_nat_digits v : 0 <= v -> Forall (fun c => is_digit c = true) (print_nat v).
Proof. apply dec_digits_digit. Qed.

Lemma log2_fuel v : 0 <= v -> v < 10 ^ Z.of_nat (Z.to_nat (Z.log2 v) + 1).
Proof.
  intros Hv. destruct (decide (v = 0)) as [->|Hne]; [done|].
  pose proof (Z.log2_nonneg v) as H0. destruct (Z.log2_spec v ltac:(lia)) as [_ H].
  rewrite Nat2Z.inj_add, Z2Nat.id by done. eapply Z.lt_le_trans; [exact H|].
  rewrite <- Z.add_1_r. apply Z.pow_le_mono_l. lia.
Qed.

Lemma print_nat_value v : 0 <= v -> dec_value (print_nat v) = v.
Proof. intros Hv. apply dec_roundtrip. split; [done|by apply log2_fuel]. Qed.

(** No leading zero. *)
Lemma dec_digits_head n v :
  1 <= v < 10 ^ Z.of_nat n -> exists c l, dec_digits n v = c :: l /\ 49 <= c <= 57.
Proof.
  revert v. induction n as [|n IH]; intros v Hv; [simpl in Hv; lia|]. simpl. destruct (Z.ltb_spec v 10).
  - exists (48 + v), []. split; [done|lia].
  - destruct (IH (v / 10)) as (c & l & -> & Hc).
    + rewrite Nat2Z.inj_succ, Z.pow_succ_r in Hv by lia. split; [apply Z.div_le_lower_bound; lia|].
      apply Z.div_lt_upper_bound; lia.
    + eexists c, _. split; [done|lia].
Qed.

Lemma fixed_digits_digit n v : Forall (fun c => is_digit c = true) (fixed_digits n v).
Proof.
  revert v. induction n as [|n IH]; intros v; simpl; [done|]. apply Forall_app. split; [apply IH|].
  constructor; [|done]. unfold is_digit. pose proof (Z.mod_pos_bound v 10 ltac:(lia)).
  apply andb_true_iff. rewrite !Z.leb_le. lia.
Qed.

Lemma fixed_digits_length n v : List.length (fixed_digits n v) = n.
Proof. revert v. induction n as [|n IH]; intros v; simpl; [done|]. rewrite length_app, IH. simpl. lia. Qed.

Lemma round_even_nonneg num den : 0 <= num -> 0 < den -> 0 <= round_even num den.
Proof.
  intros Hn Hd. unfold round_even. pose proof (Z.div_pos num den Hn Hd).
  repeat case_match; lia.
Qed.

Lemma scaled_dec_nonneg m e prec : 0 <= scaled_dec m e prec.
Proof.
  unfold scaled_dec. pose proof (Z.pow_nonneg 10 (Z.of_nat prec) ltac:(lia)).
  destruct (Z.leb_spec 0 e).
  - apply Z.mul_nonneg_nonneg; [|done]. apply Z.mul_nonneg_nonneg; [lia|]. apply Z.pow_nonneg. lia.
  - apply round_even_nonneg; [lia|]. apply Z.pow_pos_nonneg; lia.
Qed.
