(* ===== verification/Config.v ===== *)
(** * Task specification (src/config.h, src/config.c; parsers of src/util.c)

    The ini file of a task, line by line, into [ntp_config].  Character arrays
    are the strings in them; an ini file is its bytes. *)
From stdpp Require Import base numbers list.
From Stdlib Require Import ZArith Lia String.
From S2P Require Import Prelude Types CStr.

Definition NTP_ROLE_HOST : Z := 1.
Definition NTP_ROLE_TARGET : Z := 2.
Definition NTP_ROLE_BOTH : Z := Z.lor NTP_ROLE_HOST NTP_ROLE_TARGET.

Inductive ntp_aggr := NTP_AGG_AVG | NTP_AGG_MIN | NTP_AGG_MAX | NTP_AGG_DIST.
Inductive ntp_io_type := NTP_IO_READ | NTP_IO_WRITE | NTP_IO_BOTH.

Record ntp_config := mk_config {
  c_session : list Z;
  c_io_type : ntp_io_type;
  c_sizes : list Z;
  c_n_sizes : Z;
  c_min_size : Z;
  c_max_size : Z;
  c_online : bool;
  c_data_dir : list Z;
  c_interval_s : Z;
  c_sample_every : Z;
  c_buffer_mb : Z;
  c_aggr : ntp_aggr;
  c_rep_distribution : bool;
  c_rep_throughput : bool;
  c_rep_breakdown : bool;
  c_rep_queue_length : bool;
  c_rep_detail : bool;
  c_rep_all_groups : bool;
  c_group_by_size : bool;
  c_group_by_type : bool;
  c_group_by_session : bool;
  c_role : Z;
  c_transport : Z;
  c_duration_s : Z;
  c_output : list Z;
  c_json : list Z;
  c_btf_dir : list Z;
  c_exact_queues : bool;
  c_force_kprobes : bool;
  c_force_fentry : bool;
  c_spdk_host : list Z;
  c_spdk_target : list Z
}.

Definition set_session (c : ntp_config) (v : list Z) : ntp_config :=
  mk_config v (c_io_type c) (c_sizes c) (c_n_sizes c) (c_min_size c) (c_max_size c) (c_online c)
    (c_data_dir c) (c_interval_s c) (c_sample_every c) (c_buffer_mb c) (c_aggr c) (c_rep_distribution c)
    (c_rep_throughput c) (c_rep_breakdown c) (c_rep_queue_length c) (c_rep_detail c) (c_rep_all_groups c)
    (c_group_by_size c) (c_group_by_type c) (c_group_by_session c) (c_role c) (c_transport c) (c_duration_s c)
    (c_output c) (c_json c) (c_btf_dir c) (c_exact_queues c) (c_force_kprobes c) (c_force_fentry c)
    (c_spdk_host c) (c_spdk_target c).
Definition set_io_type (c : ntp_config) (v : ntp_io_type) : ntp_config :=
  mk_config (c_session c) v (c_sizes c) (c_n_sizes c) (c_min_size c) (c_max_size c) (c_online c)
    (c_data_dir c) (c_interval_s c) (c_sample_every c) (c_buffer_mb c) (c_aggr c) (c_rep_distribution c)
    (c_rep_throughput c) (c_rep_breakdown c) (c_rep_queue_length c) (c_rep_detail c) (c_rep_all_groups c)
    (c_group_by_size c) (c_group_by_type c) (c_group_by_session c) (c_role c) (c_transport c) (c_duration_s c)
    (c_output c) (c_json c) (c_btf_dir c) (c_exact_queues c) (c_force_kprobes c) (c_force_fentry c)
    (c_spdk_host c) (c_spdk_target c).
Definition set_sizes (c : ntp_config) (v : list Z) : ntp_config :=
  mk_config (c_session c) (c_io_type c) v (c_n_sizes c) (c_min_size c) (c_max_size c) (c_online c)
    (c_data_dir c) (c_interval_s c) (c_sample_every c) (c_buffer_mb c) (c_aggr c) (c_rep_distribution c)
    (c_rep_throughput c) (c_rep_breakdown c) (c_rep_queue_length c) (c_rep_detail c) (c_rep_all_groups c)
    (c_group_by_size c) (c_group_by_type c) (c_group_by_session c) (c_role c) (c_transport c) (c_duration_s c)
    (c_output c) (c_json c) (c_btf_dir c) (c_exact_queues c) (c_force_kprobes c) (c_force_fentry c)
    (c_spdk_host c) (c_spdk_target c).
Definition set_n_sizes (c : ntp_config) (v : Z) : ntp_config :=
  mk_config (c_session c) (c_io_type c) (c_sizes c) v (c_min_size c) (c_max_size c) (c_online c)
    (c_data_dir c) (c_interval_s c) (c_sample_every c) (c_buffer_mb c) (c_aggr c) (c_rep_distribution c)
    (c_rep_throughput c) (c_rep_breakdown c) (c_rep_queue_length c) (c_rep_detail c) (c_rep_all_groups c)
    (c_group_by_size c) (c_group_by_type c) (c_group_by_session c) (c_role c) (c_transport c) (c_duration_s c)
    (c_output c) (c_json c) (c_btf_dir c) (c_exact_queues c) (c_force_kprobes c) (c_force_fentry c)
    (c_spdk_host c) (c_spdk_target c).
Definition set_min_size (c : ntp_config) (v : Z) : ntp_config :=
  mk_config (c_session c) (c_io_type c) (c_sizes c) (c_n_sizes c) v (c_max_size c) (c_online c) (c_data_dir c)
    (c_interval_s c) (c_sample_every c) (c_buffer_mb c) (c_aggr c) (c_rep_distribution c) (c_rep_throughput c)
    (c_rep_breakdown c) (c_rep_queue_length c) (c_rep_detail c) (c_rep_all_groups c) (c_group_by_size c)
    (c_group_by_type c) (c_group_by_session c) (c_role c) (c_transport c) (c_duration_s c) (c_output c)
    (c_json c) (c_btf_dir c) (c_exact_queues c) (c_force_kprobes c) (c_force_fentry c) (c_spdk_host c)
    (c_spdk_target c).
Definition set_max_size (c : ntp_config) (v : Z) : ntp_config :=
  mk_config (c_session c) (c_io_type c) (c_sizes c) (c_n_sizes c) (c_min_size c) v (c_online c) (c_data_dir c)
    (c_interval_s c) (c_sample_every c) (c_buffer_mb c) (c_aggr c) (c_rep_distribution c) (c_rep_throughput c)
    (c_rep_breakdown c) (c_rep_queue_length c) (c_rep_detail c) (c_rep_all_groups c) (c_group_by_size c)
    (c_group_by_type c) (c_group_by_session c) (c_role c) (c_transport c) (c_duration_s c) (c_output c)
    (c_json c) (c_btf_dir c) (c_exact_queues c) (c_force_kprobes c) (c_force_fentry c) (c_spdk_host c)
    (c_spdk_target c).
Definition set_online (c : ntp_config) (v : bool) : ntp_config :=
  mk_config (c_session c) (c_io_type c) (c_sizes c) (c_n_sizes c) (c_min_size c) (c_max_size c) v
    (c_data_dir c) (c_interval_s c) (c_sample_every c) (c_buffer_mb c) (c_aggr c) (c_rep_distribution c)
    (c_rep_throughput c) (c_rep_breakdown c) (c_rep_queue_length c) (c_rep_detail c) (c_rep_all_groups c)
    (c_group_by_size c) (c_group_by_type c) (c_group_by_session c) (c_role c) (c_transport c) (c_duration_s c)
    (c_output c) (c_json c) (c_btf_dir c) (c_exact_queues c) (c_force_kprobes c) (c_force_fentry c)
    (c_spdk_host c) (c_spdk_target c).
Definition set_data_dir (c : ntp_config) (v : list Z) : ntp_config :=
  mk_config (c_session c) (c_io_type c) (c_sizes c) (c_n_sizes c) (c_min_size c) (c_max_size c) (c_online c) v
    (c_interval_s c) (c_sample_every c) (c_buffer_mb c) (c_aggr c) (c_rep_distribution c) (c_rep_throughput c)
    (c_rep_breakdown c) (c_rep_queue_length c) (c_rep_detail c) (c_rep_all_groups c) (c_group_by_size c)
    (c_group_by_type c) (c_group_by_session c) (c_role c) (c_transport c) (c_duration_s c) (c_output c)
    (c_json c) (c_btf_dir c) (c_exact_queues c) (c_force_kprobes c) (c_force_fentry c) (c_spdk_host c)
    (c_spdk_target c).
Definition set_interval_s (c : ntp_config) (v : Z) : ntp_config :=
  mk_config (c_session c) (c_io_type c) (c_sizes c) (c_n_sizes c) (c_min_size c) (c_max_size c) (c_online c)
    (c_data_dir c) v (c_sample_every c) (c_buffer_mb c) (c_aggr c) (c_rep_distribution c) (c_rep_throughput c)
    (c_rep_breakdown c) (c_rep_queue_length c) (c_rep_detail c) (c_rep_all_groups c) (c_group_by_size c)
    (c_group_by_type c) (c_group_by_session c) (c_role c) (c_transport c) (c_duration_s c) (c_output c)
    (c_json c) (c_btf_dir c) (c_exact_queues c) (c_force_kprobes c) (c_force_fentry c) (c_spdk_host c)
    (c_spdk_target c).
Definition set_sample_every (c : ntp_config) (v : Z) : ntp_config :=
  mk_config (c_session c) (c_io_type c) (c_sizes c) (c_n_sizes c) (c_min_size c) (c_max_size c) (c_online c)
    (c_data_dir c) (c_interval_s c) v (c_buffer_mb c) (c_aggr c) (c_rep_distribution c) (c_rep_throughput c)
    (c_rep_breakdown c) (c_rep_queue_length c) (c_rep_detail c) (c_rep_all_groups c) (c_group_by_size c)
    (c_group_by_type c) (c_group_by_session c) (c_role c) (c_transport c) (c_duration_s c) (c_output c)
    (c_json c) (c_btf_dir c) (c_exact_queues c) (c_force_kprobes c) (c_force_fentry c) (c_spdk_host c)
    (c_spdk_target c).
Definition set_buffer_mb (c : ntp_config) (v : Z) : ntp_config :=
  mk_config (c_session c) (c_io_type c) (c_sizes c) (c_n_sizes c) (c_min_size c) (c_max_size c) (c_online c)
    (c_data_dir c) (c_interval_s c) (c_sample_every c) v (c_aggr c) (c_rep_distribution c)
    (c_rep_throughput c) (c_rep_breakdown c) (c_rep_queue_length c) (c_rep_detail c) (c_rep_all_groups c)
    (c_group_by_size c) (c_group_by_type c) (c_group_by_session c) (c_role c) (c_transport c) (c_duration_s c)
    (c_output c) (c_json c) (c_btf_dir c) (c_exact_queues c) (c_force_kprobes c) (c_force_fentry c)
    (c_spdk_host c) (c_spdk_target c).
Definition set_aggr (c : ntp_config) (v : ntp_aggr) : ntp_config :=
  mk_config (c_session c) (c_io_type c) (c_sizes c) (c_n_sizes c) (c_min_size c) (c_max_size c) (c_online c)
    (c_data_dir c) (c_interval_s c) (c_sample_every c) (c_buffer_mb c) v (c_rep_distribution c)
    (c_rep_throughput c) (c_rep_breakdown c) (c_rep_queue_length c) (c_rep_detail c) (c_rep_all_groups c)
    (c_group_by_size c) (c_group_by_type c) (c_group_by_session c) (c_role c) (c_transport c) (c_duration_s c)
    (c_output c) (c_json c) (c_btf_dir c) (c_exact_queues c) (c_force_kprobes c) (c_force_fentry c)
    (c_spdk_host c) (c_spdk_target c).
Definition set_rep_distribution (c : ntp_config) (v : bool) : ntp_config :=
  mk_config (c_session c) (c_io_type c) (c_sizes c) (c_n_sizes c) (c_min_size c) (c_max_size c) (c_online c)
    (c_data_dir c) (c_interval_s c) (c_sample_every c) (c_buffer_mb c) (c_aggr c) v (c_rep_throughput c)
    (c_rep_breakdown c) (c_rep_queue_length c) (c_rep_detail c) (c_rep_all_groups c) (c_group_by_size c)
    (c_group_by_type c) (c_group_by_session c) (c_role c) (c_transport c) (c_duration_s c) (c_output c)
    (c_json c) (c_btf_dir c) (c_exact_queues c) (c_force_kprobes c) (c_force_fentry c) (c_spdk_host c)
    (c_spdk_target c).
Definition set_rep_throughput (c : ntp_config) (v : bool) : ntp_config :=
  mk_config (c_session c) (c_io_type c) (c_sizes c) (c_n_sizes c) (c_min_size c) (c_max_size c) (c_online c)
    (c_data_dir c) (c_interval_s c) (c_sample_every c) (c_buffer_mb c) (c_aggr c) (c_rep_distribution c) v
    (c_rep_breakdown c) (c_rep_queue_length c) (c_rep_detail c) (c_rep_all_groups c) (c_group_by_size c)
    (c_group_by_type c) (c_group_by_session c) (c_role c) (c_transport c) (c_duration_s c) (c_output c)
    (c_json c) (c_btf_dir c) (c_exact_queues c) (c_force_kprobes c) (c_force_fentry c) (c_spdk_host c)
    (c_spdk_target c).
Definition set_rep_breakdown (c : ntp_config) (v : bool) : ntp_config :=
  mk_config (c_session c) (c_io_type c) (c_sizes c) (c_n_sizes c) (c_min_size c) (c_max_size c) (c_online c)
    (c_data_dir c) (c_interval_s c) (c_sample_every c) (c_buffer_mb c) (c_aggr c) (c_rep_distribution c)
    (c_rep_throughput c) v (c_rep_queue_length c) (c_rep_detail c) (c_rep_all_groups c) (c_group_by_size c)
    (c_group_by_type c) (c_group_by_session c) (c_role c) (c_transport c) (c_duration_s c) (c_output c)
    (c_json c) (c_btf_dir c) (c_exact_queues c) (c_force_kprobes c) (c_force_fentry c) (c_spdk_host c)
    (c_spdk_target c).
Definition set_rep_queue_length (c : ntp_config) (v : bool) : ntp_config :=
  mk_config (c_session c) (c_io_type c) (c_sizes c) (c_n_sizes c) (c_min_size c) (c_max_size c) (c_online c)
    (c_data_dir c) (c_interval_s c) (c_sample_every c) (c_buffer_mb c) (c_aggr c) (c_rep_distribution c)
    (c_rep_throughput c) (c_rep_breakdown c) v (c_rep_detail c) (c_rep_all_groups c) (c_group_by_size c)
    (c_group_by_type c) (c_group_by_session c) (c_role c) (c_transport c) (c_duration_s c) (c_output c)
    (c_json c) (c_btf_dir c) (c_exact_queues c) (c_force_kprobes c) (c_force_fentry c) (c_spdk_host c)
    (c_spdk_target c).
Definition set_rep_detail (c : ntp_config) (v : bool) : ntp_config :=
  mk_config (c_session c) (c_io_type c) (c_sizes c) (c_n_sizes c) (c_min_size c) (c_max_size c) (c_online c)
    (c_data_dir c) (c_interval_s c) (c_sample_every c) (c_buffer_mb c) (c_aggr c) (c_rep_distribution c)
    (c_rep_throughput c) (c_rep_breakdown c) (c_rep_queue_length c) v (c_rep_all_groups c) (c_group_by_size c)
    (c_group_by_type c) (c_group_by_session c) (c_role c) (c_transport c) (c_duration_s c) (c_output c)
    (c_json c) (c_btf_dir c) (c_exact_queues c) (c_force_kprobes c) (c_force_fentry c) (c_spdk_host c)
    (c_spdk_target c).
Definition set_rep_all_groups (c : ntp_config) (v : bool) : ntp_config :=
  mk_config (c_session c) (c_io_type c) (c_sizes c) (c_n_sizes c) (c_min_size c) (c_max_size c) (c_online c)
    (c_data_dir c) (c_interval_s c) (c_sample_every c) (c_buffer_mb c) (c_aggr c) (c_rep_distribution c)
    (c_rep_throughput c) (c_rep_breakdown c) (c_rep_queue_length c) (c_rep_detail c) v (c_group_by_size c)
    (c_group_by_type c) (c_group_by_session c) (c_role c) (c_transport c) (c_duration_s c) (c_output c)
    (c_json c) (c_btf_dir c) (c_exact_queues c) (c_force_kprobes c) (c_force_fentry c) (c_spdk_host c)
    (c_spdk_target c).
Definition set_group_by_size (c : ntp_config) (v : bool) : ntp_config :=
  mk_config (c_session c) (c_io_type c) (c_sizes c) (c_n_sizes c) (c_min_size c) (c_max_size c) (c_online c)
    (c_data_dir c) (c_interval_s c) (c_sample_every c) (c_buffer_mb c) (c_aggr c) (c_rep_distribution c)
    (c_rep_throughput c) (c_rep_breakdown c) (c_rep_queue_length c) (c_rep_detail c) (c_rep_all_groups c) v
    (c_group_by_type c) (c_group_by_session c) (c_role c) (c_transport c) (c_duration_s c) (c_output c)
    (c_json c) (c_btf_dir c) (c_exact_queues c) (c_force_kprobes c) (c_force_fentry c) (c_spdk_host c)
    (c_spdk_target c).
Definition set_group_by_type (c : ntp_config) (v : bool) : ntp_config :=
  mk_config (c_session c) (c_io_type c) (c_sizes c) (c_n_sizes c) (c_min_size c) (c_max_size c) (c_online c)
    (c_data_dir c) (c_interval_s c) (c_sample_every c) (c_buffer_mb c) (c_aggr c) (c_rep_distribution c)
    (c_rep_throughput c) (c_rep_breakdown c) (c_rep_queue_length c) (c_rep_detail c) (c_rep_all_groups c)
    (c_group_by_size c) v (c_group_by_session c) (c_role c) (c_transport c) (c_duration_s c) (c_output c)
    (c_json c) (c_btf_dir c) (c_exact_queues c) (c_force_kprobes c) (c_force_fentry c) (c_spdk_host c)
    (c_spdk_target c).
Definition set_group_by_session (c : ntp_config) (v : bool) : ntp_config :=
  mk_config (c_session c) (c_io_type c) (c_sizes c) (c_n_sizes c) (c_min_size c) (c_max_size c) (c_online c)
    (c_data_dir c) (c_interval_s c) (c_sample_every c) (c_buffer_mb c) (c_aggr c) (c_rep_distribution c)
    (c_rep_throughput c) (c_rep_breakdown c) (c_rep_queue_length c) (c_rep_detail c) (c_rep_all_groups c)
    (c_group_by_size c) (c_group_by_type c) v (c_role c) (c_transport c) (c_duration_s c) (c_output c)
    (c_json c) (c_btf_dir c) (c_exact_queues c) (c_force_kprobes c) (c_force_fentry c) (c_spdk_host c)
    (c_spdk_target c).
Definition set_exact_queues (c : ntp_config) (v : bool) : ntp_config :=
  mk_config (c_session c) (c_io_type c) (c_sizes c) (c_n_sizes c) (c_min_size c) (c_max_size c) (c_online c)
    (c_data_dir c) (c_interval_s c) (c_sample_every c) (c_buffer_mb c) (c_aggr c) (c_rep_distribution c)
    (c_rep_throughput c) (c_rep_breakdown c) (c_rep_queue_length c) (c_rep_detail c) (c_rep_all_groups c)
    (c_group_by_size c) (c_group_by_type c) (c_group_by_session c) (c_role c) (c_transport c) (c_duration_s c)
    (c_output c) (c_json c) (c_btf_dir c) v (c_force_kprobes c) (c_force_fentry c) (c_spdk_host c)
    (c_spdk_target c).
Definition set_force_kprobes (c : ntp_config) (v : bool) : ntp_config :=
  mk_config (c_session c) (c_io_type c) (c_sizes c) (c_n_sizes c) (c_min_size c) (c_max_size c) (c_online c)
    (c_data_dir c) (c_interval_s c) (c_sample_every c) (c_buffer_mb c) (c_aggr c) (c_rep_distribution c)
    (c_rep_throughput c) (c_rep_breakdown c) (c_rep_queue_length c) (c_rep_detail c) (c_rep_all_groups c)
    (c_group_by_size c) (c_group_by_type c) (c_group_by_session c) (c_role c) (c_transport c) (c_duration_s c)
    (c_output c) (c_json c) (c_btf_dir c) (c_exact_queues c) v (c_force_fentry c) (c_spdk_host c)
    (c_spdk_target c).
Definition set_spdk_host (c : ntp_config) (v : list Z) : ntp_config :=
  mk_config (c_session c) (c_io_type c) (c_sizes c) (c_n_sizes c) (c_min_size c) (c_max_size c) (c_online c)
    (c_data_dir c) (c_interval_s c) (c_sample_every c) (c_buffer_mb c) (c_aggr c) (c_rep_distribution c)
    (c_rep_throughput c) (c_rep_breakdown c) (c_rep_queue_length c) (c_rep_detail c) (c_rep_all_groups c)
    (c_group_by_size c) (c_group_by_type c) (c_group_by_session c) (c_role c) (c_transport c) (c_duration_s c)
    (c_output c) (c_json c) (c_btf_dir c) (c_exact_queues c) (c_force_kprobes c) (c_force_fentry c) v
    (c_spdk_target c).
Definition set_spdk_target (c : ntp_config) (v : list Z) : ntp_config :=
  mk_config (c_session c) (c_io_type c) (c_sizes c) (c_n_sizes c) (c_min_size c) (c_max_size c) (c_online c)
    (c_data_dir c) (c_interval_s c) (c_sample_every c) (c_buffer_mb c) (c_aggr c) (c_rep_distribution c)
    (c_rep_throughput c) (c_rep_breakdown c) (c_rep_queue_length c) (c_rep_detail c) (c_rep_all_groups c)
    (c_group_by_size c) (c_group_by_type c) (c_group_by_session c) (c_role c) (c_transport c) (c_duration_s c)
    (c_output c) (c_json c) (c_btf_dir c) (c_exact_queues c) (c_force_kprobes c) (c_force_fentry c)
    (c_spdk_host c) v.
Definition set_role (c : ntp_config) (v : Z) : ntp_config :=
  mk_config (c_session c) (c_io_type c) (c_sizes c) (c_n_sizes c) (c_min_size c) (c_max_size c) (c_online c)
    (c_data_dir c) (c_interval_s c) (c_sample_every c) (c_buffer_mb c) (c_aggr c) (c_rep_distribution c)
    (c_rep_throughput c) (c_rep_breakdown c) (c_rep_queue_length c) (c_rep_detail c) (c_rep_all_groups c)
    (c_group_by_size c) (c_group_by_type c) (c_group_by_session c) v (c_transport c) (c_duration_s c)
    (c_output c) (c_json c) (c_btf_dir c) (c_exact_queues c) (c_force_kprobes c) (c_force_fentry c)
    (c_spdk_host c) (c_spdk_target c).
Definition set_transport (c : ntp_config) (v : Z) : ntp_config :=
  mk_config (c_session c) (c_io_type c) (c_sizes c) (c_n_sizes c) (c_min_size c) (c_max_size c) (c_online c)
    (c_data_dir c) (c_interval_s c) (c_sample_every c) (c_buffer_mb c) (c_aggr c) (c_rep_distribution c)
    (c_rep_throughput c) (c_rep_breakdown c) (c_rep_queue_length c) (c_rep_detail c) (c_rep_all_groups c)
    (c_group_by_size c) (c_group_by_type c) (c_group_by_session c) (c_role c) v (c_duration_s c)
    (c_output c) (c_json c) (c_btf_dir c) (c_exact_queues c) (c_force_kprobes c) (c_force_fentry c)
    (c_spdk_host c) (c_spdk_target c).
Definition set_duration_s (c : ntp_config) (v : Z) : ntp_config :=
  mk_config (c_session c) (c_io_type c) (c_sizes c) (c_n_sizes c) (c_min_size c) (c_max_size c) (c_online c)
    (c_data_dir c) (c_interval_s c) (c_sample_every c) (c_buffer_mb c) (c_aggr c) (c_rep_distribution c)
    (c_rep_throughput c) (c_rep_breakdown c) (c_rep_queue_length c) (c_rep_detail c) (c_rep_all_groups c)
    (c_group_by_size c) (c_group_by_type c) (c_group_by_session c) (c_role c) (c_transport c) v
    (c_output c) (c_json c) (c_btf_dir c) (c_exact_queues c) (c_force_kprobes c) (c_force_fentry c)
    (c_spdk_host c) (c_spdk_target c).
Definition set_output (c : ntp_config) (v : list Z) : ntp_config :=
  mk_config (c_session c) (c_io_type c) (c_sizes c) (c_n_sizes c) (c_min_size c) (c_max_size c) (c_online c)
    (c_data_dir c) (c_interval_s c) (c_sample_every c) (c_buffer_mb c) (c_aggr c) (c_rep_distribution c)
    (c_rep_throughput c) (c_rep_breakdown c) (c_rep_queue_length c) (c_rep_detail c) (c_rep_all_groups c)
    (c_group_by_size c) (c_group_by_type c) (c_group_by_session c) (c_role c) (c_transport c) (c_duration_s c)
    v (c_json c) (c_btf_dir c) (c_exact_queues c) (c_force_kprobes c) (c_force_fentry c)
    (c_spdk_host c) (c_spdk_target c).
Definition set_json (c : ntp_config) (v : list Z) : ntp_config :=
  mk_config (c_session c) (c_io_type c) (c_sizes c) (c_n_sizes c) (c_min_size c) (c_max_size c) (c_online c)
    (c_data_dir c) (c_interval_s c) (c_sample_every c) (c_buffer_mb c) (c_aggr c) (c_rep_distribution c)
    (c_rep_throughput c) (c_rep_breakdown c) (c_rep_queue_length c) (c_rep_detail c) (c_rep_all_groups c)
    (c_group_by_size c) (c_group_by_type c) (c_group_by_session c) (c_role c) (c_transport c) (c_duration_s c)
    (c_output c) v (c_btf_dir c) (c_exact_queues c) (c_force_kprobes c) (c_force_fentry c)
    (c_spdk_host c) (c_spdk_target c).
Definition set_btf_dir (c : ntp_config) (v : list Z) : ntp_config :=
  mk_config (c_session c) (c_io_type c) (c_sizes c) (c_n_sizes c) (c_min_size c) (c_max_size c) (c_online c)
    (c_data_dir c) (c_interval_s c) (c_sample_every c) (c_buffer_mb c) (c_aggr c) (c_rep_distribution c)
    (c_rep_throughput c) (c_rep_breakdown c) (c_rep_queue_length c) (c_rep_detail c) (c_rep_all_groups c)
    (c_group_by_size c) (c_group_by_type c) (c_group_by_session c) (c_role c) (c_transport c) (c_duration_s c)
    (c_output c) (c_json c) v (c_exact_queues c) (c_force_kprobes c) (c_force_fentry c)
    (c_spdk_host c) (c_spdk_target c).
Definition set_force_fentry (c : ntp_config) (v : bool) : ntp_config :=
  mk_config (c_session c) (c_io_type c) (c_sizes c) (c_n_sizes c) (c_min_size c) (c_max_size c) (c_online c)
    (c_data_dir c) (c_interval_s c) (c_sample_every c) (c_buffer_mb c) (c_aggr c) (c_rep_distribution c)
    (c_rep_throughput c) (c_rep_breakdown c) (c_rep_queue_length c) (c_rep_detail c) (c_rep_all_groups c)
    (c_group_by_size c) (c_group_by_type c) (c_group_by_session c) (c_role c) (c_transport c) (c_duration_s c)
    (c_output c) (c_json c) (c_btf_dir c) (c_exact_queues c) (c_force_kprobes c) v
    (c_spdk_host c) (c_spdk_target c).

(** Sizes of the character arrays. *)
Definition SESSION_LEN : nat := 64.
Definition SECTION_LEN : nat := 64.
Definition DATA_DIR_LEN : nat := 256.
Definition SPDK_LEN : nat := 512.

(** ** Parsers (util.c) *)

Definition parse_size (s : list Z) : option Z :=
  match s with
  | [] => None
  | c :: _ =>
      if negb (is_digit c) then None
      else
        let '(errno, v, fin) := strtoull s in
        if errno then None
        else
          let scaled :=
            match fin with
            | [] => Some (v, [])
            | x :: r =>
                if to_lower x =? 107 then Some (u64 (Z.shiftl v 10), r)
                else if to_lower x =? 109 then Some (u64 (Z.shiftl v 20), r)
                else if to_lower x =? 103 then Some (u64 (Z.shiftl v 30), r)
                else None
            end in
          match scaled with
          | None => None
          | Some (v, fin) =>
              let fin := match fin with x :: r => if to_lower x =? 98 then r else fin | [] => [] end in
              match fin with [] => Some v | _ => None end
          end
  end.

Definition parse_bool (s : list Z) : option bool :=
  if strcase_eqb s (bytes "true") || strcase_eqb s (bytes "yes") || str_eqb s (bytes "1") then Some true
  else if strcase_eqb s (bytes "false") || strcase_eqb s (bytes "no") || str_eqb s (bytes "0") then Some false
  else None.

(** [s[n - 1]] of a non-empty string. *)
Definition last_char (s : list Z) : Z := default 0 (last s).

Definition strip (s : list Z) : list Z :=
  let s := (span is_space s).2 in
  let s := rev (span is_space (rev s)).2 in
  match s with
  | q :: _ :: _ =>
      if ((q =? 34) || (q =? 39)) && (last_char s =? q) then take (List.length s - 2) (drop 1 s) else s
  | _ => s
  end.

(** ** Options *)

Definition config_defaults : ntp_config :=
  mk_config (fit SESSION_LEN (bytes "all")) NTP_IO_BOTH (replicate NTP_MAX_SIZE_FILTERS 0) 0 0 0 true
    (fit DATA_DIR_LEN (bytes "./data")) 1 1000 16 NTP_AGG_AVG true true true true false false true true true
    NTP_ROLE_HOST NTP_TR_TCP 0 [] [] [] false false false [] [].

(** A setter's result: whether it succeeded, and the options. *)
Definition config_set_io_type (c : ntp_config) (v : list Z) : bool * ntp_config :=
  if strcase_eqb v (bytes "read") then (true, set_io_type c NTP_IO_READ)
  else if strcase_eqb v (bytes "write") then (true, set_io_type c NTP_IO_WRITE)
  else if strcase_eqb v (bytes "both") then (true, set_io_type c NTP_IO_BOTH)
  else (false, c).

(** The tokens [strtok_r] finds between commas. *)
Fixpoint tokens (l cur : list Z) : list (list Z) :=
  match l with
  | [] => match cur with [] => [] | _ => [cur] end
  | x :: l => if x =? 44 then match cur with [] => tokens l [] | _ => cur :: tokens l [] end
              else tokens l (cur ++ [x])
  end.

(** The loop of [config_set_sizes]: it stores as it goes. *)
Fixpoint set_sizes_loop (toks : list (list Z)) (n : nat) (c : ntp_config) : option nat * ntp_config :=
  match toks with
  | [] => (Some n, c)
  | tok :: toks =>
      if bool_decide (n = NTP_MAX_SIZE_FILTERS) then (None, c)
      else
        match parse_size (strip tok) with
        | Some size =>
            if (size =? 0) || (2 ^ 32 - 1 <? size) then (None, c)
            else set_sizes_loop toks (S n) (set_sizes c (<[n := u32 size]> (c_sizes c)))
        | None => (None, c)
        end
  end.

Definition config_set_sizes (c : ntp_config) (v : list Z) : bool * ntp_config :=
  match set_sizes_loop (tokens v []) 0 c with
  | (Some n, c) => (true, set_n_sizes c (Z.of_nat n))
  | (None, c) => (false, c)
  end.

Definition config_set_aggr (c : ntp_config) (v : list Z) : bool * ntp_config :=
  if strcase_eqb v (bytes "avg") then (true, set_aggr c NTP_AGG_AVG)
  else if strcase_eqb v (bytes "min") then (true, set_aggr c NTP_AGG_MIN)
  else if strcase_eqb v (bytes "max") then (true, set_aggr c NTP_AGG_MAX)
  else if strcase_eqb v (bytes "dist") then (true, set_aggr c NTP_AGG_DIST)
  else (false, c).

Definition set_uint (v : list Z) (min : Z) : option Z :=
  let '(errno, x, fin) := strtoull v in
  if errno || negb (str_eqb fin []) || (x <? min) || (2 ^ 32 - 1 <? x) then None else Some (u32 x).

(** A value that is stored when it parses. *)
Definition store {A} (c : ntp_config) (put : ntp_config -> A -> ntp_config) (v : option A) : bool * ntp_config :=
  match v with Some v => (true, put c v) | None => (false, c) end.

Definition set_tracking (c : ntp_config) (v : list Z) : bool * ntp_config :=
  if strcase_eqb v (bytes "exact") then (true, set_exact_queues c true)
  else if strcase_eqb v (bytes "estimate") then (true, set_exact_queues c false)
  else (false, c).

(** [IS(s, k)] *)
Definition is_key (section key : list Z) (s k : string) : bool :=
  strcase_eqb section (bytes s) && strcase_eqb key (bytes k).

(** [apply]: the keys of each section, in the source's order; others only warn. *)
Definition apply (c : ntp_config) (section key v : list Z) : bool * ntp_config :=
  if is_key section key "Workload" "SESSION_NAME" then (true, set_session c (fit SESSION_LEN v))
  else if is_key section key "Workload" "IO_TYPE" then config_set_io_type c v
  else if is_key section key "Workload" "IO_SIZE" then config_set_sizes c v
  else if is_key section key "Workload" "MIN_IO_SIZE" then store c set_min_size (parse_size v)
  else if is_key section key "Workload" "MAX_IO_SIZE" then store c set_max_size (parse_size v)
  else if is_key section key "Execution" "NETWORK_BANDWIDTH_LIMIT" ||
          is_key section key "Execution" "NVME_DRIVE_BANDWIDTH_LIMIT" then (true, c)
  else if is_key section key "Profiling" "IS_ONLINE" then store c set_online (parse_bool v)
  else if is_key section key "Profiling" "DATA_DIR" then (true, set_data_dir c (fit DATA_DIR_LEN v))
  else if is_key section key "Profiling" "TIME_INTERVAL" then store c set_interval_s (set_uint v 1)
  else if is_key section key "Profiling" "FREQUENCY" then store c set_sample_every (set_uint v 1)
  else if is_key section key "Profiling" "BUFFER_SIZE" then store c set_buffer_mb (set_uint v 1)
  else if is_key section key "Profiling" "AGGREGATION" then config_set_aggr c v
  else if is_key section key "Report" "ENABLE_LATENCY_DISTRIBUTION" then store c set_rep_distribution (parse_bool v)
  else if is_key section key "Report" "ENABLE_THROUGHPUT" then store c set_rep_throughput (parse_bool v)
  else if is_key section key "Report" "ENABLE_LATENCY_BREAKDOWN" then store c set_rep_breakdown (parse_bool v)
  else if is_key section key "Report" "ENABLE_QUEUE_LENGTH" then store c set_rep_queue_length (parse_bool v)
  else if is_key section key "Report" "ENABLE_COMPONENT_DETAIL" then store c set_rep_detail (parse_bool v)
  else if is_key section key "Report" "SHOW_ALL_GROUPS" then store c set_rep_all_groups (parse_bool v)
  else if is_key section key "Report" "ENABLE_GROUP_BY_SIZE" then store c set_group_by_size (parse_bool v)
  else if is_key section key "Report" "ENABLE_GROUP_BY_TYPE" then store c set_group_by_type (parse_bool v)
  else if is_key section key "Report" "ENABLE_GROUP_BY_SESSION" then store c set_group_by_session (parse_bool v)
  else if is_key section key "Report" "QUEUE_TRACKING" then set_tracking c v
  else if is_key section key "Profiling" "SPDK_HOST" then (true, set_spdk_host c (fit SPDK_LEN v))
  else if is_key section key "Profiling" "SPDK_TARGET" then (true, set_spdk_target c (fit SPDK_LEN v))
  else (true, c).

(** ** The file *)

(** The string up to a comment outside quotes; [quote] is the open quote or 0. *)
Fixpoint cut_comment (s : list Z) (quote : Z) : list Z :=
  match s with
  | [] => []
  | x :: s =>
      if nz quote then x :: cut_comment s (if x =? quote then 0 else quote)
      else if (x =? 34) || (x =? 39) then x :: cut_comment s x
      else if (x =? 59) || (x =? 35) then []
      else x :: cut_comment s 0
  end.

(** [strchr]: the string before the character and after it. *)
Fixpoint split_at (ch : Z) (s : list Z) : option (list Z * list Z) :=
  match s with
  | [] => None
  | x :: s => if x =? ch then Some ([], s)
              else match split_at ch s with Some (a, b) => Some (x :: a, b) | None => None end
  end.

Definition LINE_LEN : nat := 1024.

(** One line, with the section it is in. *)
Definition load_line (c : ntp_config) (section line : list Z) : bool * (ntp_config * list Z) :=
  let s := strip (cut_comment line 0) in
  match s with
  | [] => (true, (c, section))
  | x :: r =>
      if x =? 91 then
        match split_at 93 s with
        | None => (false, (c, section))
        | Some (a, _) => (true, (c, fit SECTION_LEN (strip (drop 1 a))))
        end
      else
        match split_at 61 s with
        | None => (false, (c, section))
        | Some (k, v) => let '(ok, c) := apply c section (strip k) (strip v) in (ok, (c, section))
        end
  end.

(** [fgets]: up to a newline or a full buffer. *)
Fixpoint fgets (n : nat) (f : list Z) : list Z * list Z :=
  match n, f with
  | O, _ | _, [] => ([], f)
  | S n, x :: f => if x =? 10 then ([x], f) else let '(l, f) := fgets n f in (x :: l, f)
  end.

Fixpoint load_lines (fuel : nat) (c : ntp_config) (section f : list Z) : bool * ntp_config :=
  match fuel with
  | O => (true, c)
  | S fuel =>
      match f with
      | [] => (true, c)
      | _ =>
          let '(line, f) := fgets (LINE_LEN - 1) f in
          match load_line c section (c_string line) with
          | (true, (c, section)) => load_lines fuel c section f
          | (false, (c, _)) => (false, c)
          end
      end
  end.

(** [None]: the file cannot be opened. *)
Definition config_load_ini (c : ntp_config) (file : option (list Z)) : bool * ntp_config :=
  match file with
  | None => (false, c)
  | Some f => load_lines (List.length f) c [] f
  end.

(** ** Every configuration is usable *)

Record config_ok (c : ntp_config) : Prop := {
  co_sizes_len : List.length (c_sizes c) = NTP_MAX_SIZE_FILTERS;
  co_sizes : Forall is_u32 (c_sizes c);
  co_n_sizes : 0 <= c_n_sizes c <= Z.of_nat NTP_MAX_SIZE_FILTERS;
  co_sizes_nz i : Z.of_nat i < c_n_sizes c -> c_sizes c !! i <> Some 0;
  co_min : is_u64 (c_min_size c);
  co_max : is_u64 (c_max_size c);
  co_interval : 1 <= c_interval_s c < 2 ^ 32;
  co_sample : 1 <= c_sample_every c < 2 ^ 32;
  co_buffer : 1 <= c_buffer_mb c < 2 ^ 32;
  co_session : (List.length (c_session c) < SESSION_LEN)%nat;
  co_data_dir : (List.length (c_data_dir c) < DATA_DIR_LEN)%nat;
  co_spdk_host : (List.length (c_spdk_host c) < SPDK_LEN)%nat;
  co_spdk_target : (List.length (c_spdk_target c) < SPDK_LEN)%nat
}.

Lemma fit_length n s : (1 <= n)%nat -> (List.length (fit n s) < n)%nat.
Proof. intros Hn. unfold fit. rewrite length_take. lia. Qed.

Lemma dec_value_nonneg l : Forall (fun c => is_digit c = true) l -> 0 <= dec_value l.
Proof.
  induction l as [|c l IH] using rev_ind; intros H; [done|].
  rewrite dec_value_snoc. apply Forall_app in H as [H1 H2]. apply Forall_cons_1 in H2 as [H2 _].
  specialize (IH H1). unfold is_digit in H2. rewrite andb_true_iff, !Z.leb_le in H2. lia.
Qed.

Lemma strtoull_range s e v r : strtoull s = (e, v, r) -> is_u64 v.
Proof.
  unfold strtoull, is_u64, ULLONG_MAX. destruct (span is_space s) as [_x s1].
  destruct (match s1 with [] => _ | _ :: _ => _ end) as [neg s2].
  pose proof (span_spec is_digit s2) as (_ & Hd & _). destruct (span is_digit s2) as [ds rest]. simpl in Hd.
  destruct ds as [|c ds]; [intros [= <- <- <-]; lia|].
  pose proof (dec_value_nonneg _ Hd). destruct (Z.ltb_spec (2 ^ 64 - 1) (dec_value (c :: ds))).
  - intros [= <- <- <-]. lia.
  - destruct neg; intros [= <- <- <-]; [apply u64_range|lia].
Qed.

Lemma parse_size_range s v : parse_size s = Some v -> is_u64 v.
Proof.
  unfold parse_size. destruct s as [|c s]; [done|]. destruct (negb (is_digit c)); [done|].
  destruct (strtoull (c :: s)) as [[e x] fin] eqn:E. apply strtoull_range in E. destruct e; [done|].
  pose proof u64_range. intros H0. repeat case_match; simplify_eq; auto.
Qed.

Lemma set_uint_range v min x : 1 <= min -> set_uint v min = Some x -> 1 <= x < 2 ^ 32.
Proof.
  intros Hm. unfold set_uint. destruct (strtoull v) as [[e y] fin] eqn:E. apply strtoull_range in E.
  destruct (e || _ || _ || _) eqn:Eb; [done|]. intros [= <-].
  rewrite !orb_false_iff, !Z.ltb_ge in Eb. unfold is_u64 in E. rewrite u32_small by (unfold is_u32; lia). lia.
Qed.

(** [config_field] splits a goal about a changed field into the unchanged rest. *)
Ltac config_field :=
  intros []; split; simpl; try done; try (by apply fit_length; unfold SESSION_LEN, DATA_DIR_LEN, SPDK_LEN; lia).

Lemma set_sizes_loop_ok toks n c o c' :
  set_sizes_loop toks n c = (o, c') -> config_ok c -> (n <= NTP_MAX_SIZE_FILTERS)%nat ->
  (forall i, (i < n)%nat -> c_sizes c !! i <> Some 0) ->
  config_ok c' /\
  match o with Some m => (m <= NTP_MAX_SIZE_FILTERS)%nat /\ (forall i, (i < m)%nat -> c_sizes c' !! i <> Some 0)
             | None => True end.
Proof.
  revert n c. induction toks as [|tok toks IH]; intros n c; simpl; [by intros [= <- <-]|].
  destruct (bool_decide (n = NTP_MAX_SIZE_FILTERS)) eqn:En; [by intros [= <- <-]|].
  apply bool_decide_eq_false in En.
  destruct (parse_size (strip tok)) as [size|] eqn:Ep; [|by intros [= <- <-]].
  apply parse_size_range in Ep. destruct (_ || _) eqn:Eb; [by intros [= <- <-]|].
  rewrite orb_false_iff, Z.eqb_neq, Z.ltb_ge in Eb. unfold is_u64 in Ep.
  intros E Hc Hn Hz. assert (forall i, (i < S n)%nat -> <[n:=u32 size]> (c_sizes c) !! i <> Some 0) as Hz'.
  { intros i Hi. rewrite list_lookup_insert_Some. rewrite u32_small by (unfold is_u32; lia).
    intros [(_ & E0 & _)|[Hne Hl]]; [lia|]. apply (Hz i); [lia|done]. }
  apply IH in E; [done| |lia|exact Hz'].
  destruct Hc. split; simpl; try done.
  - by rewrite length_insert.
  - apply Forall_insert; [done|]. apply u32_range.
  - intros i Hi. rewrite list_lookup_insert_Some. rewrite u32_small by (unfold is_u32; lia).
    intros [(_ & E0 & _)|[Hne Hl]]; [lia|]. by apply (co_sizes_nz0 i).
Qed.

Lemma set_sizes_ok c v : config_ok c -> config_ok (config_set_sizes c v).2.
Proof.
  intros Hc. unfold config_set_sizes. destruct (set_sizes_loop (tokens v []) 0 c) as [o c'] eqn:E.
  apply set_sizes_loop_ok in E as [Hok Hm]; [|done|lia|lia]. destruct o as [m|]; [|done].
  destruct Hm as [Hm Hz]. destruct Hok. split; simpl; try done; [lia|]. intros i Hi. apply Hz. lia.
Qed.

Lemma store_ok {A} c (put : ntp_config -> A -> ntp_config) (v : option A) :
  config_ok c -> (forall x, v = Some x -> config_ok (put c x)) -> config_ok (store c put v).2.
Proof. intros Hc Hp. unfold store. destruct v; [by apply Hp|done]. Qed.

Lemma config_ok_bools c b :
  config_ok c ->
  config_ok (set_online c b) /\ config_ok (set_rep_distribution c b) /\ config_ok (set_rep_throughput c b) /\
  config_ok (set_rep_breakdown c b) /\ config_ok (set_rep_queue_length c b) /\ config_ok (set_rep_detail c b) /\
  config_ok (set_rep_all_groups c b) /\ config_ok (set_group_by_size c b) /\ config_ok (set_group_by_type c b) /\
  config_ok (set_group_by_session c b) /\ config_ok (set_exact_queues c b).
Proof. intros Hc. repeat (split; [destruct Hc; by split|]). destruct Hc. by split. Qed.

Lemma config_ok_strings c s :
  config_ok c ->
  config_ok (set_session c (fit SESSION_LEN s)) /\ config_ok (set_data_dir c (fit DATA_DIR_LEN s)) /\
  config_ok (set_spdk_host c (fit SPDK_LEN s)) /\ config_ok (set_spdk_target c (fit SPDK_LEN s)).
Proof.
  intros Hc. assert (forall n, (1 <= n)%nat -> (List.length (fit n s) < n)%nat) as Hf by (intros; by apply fit_length).
  unfold SESSION_LEN, DATA_DIR_LEN, SPDK_LEN.
  split; [|split; [|split]]; destruct Hc; split; cbn -[fit]; auto; apply Hf; lia.
Qed.

Lemma config_ok_numbers c x :
  config_ok c ->
  (is_u64 x -> config_ok (set_min_size c x) /\ config_ok (set_max_size c x)) /\
  (1 <= x < 2 ^ 32 ->
   config_ok (set_interval_s c x) /\ config_ok (set_sample_every c x) /\ config_ok (set_buffer_mb c x)).
Proof.
  intros Hc. split; intros Hx; repeat (split; [destruct Hc; split; done|]); destruct Hc; split; done.
Qed.

(** Cases of [apply]: each branch is one of the setters above. *)
Lemma apply_ok c section key v : config_ok c -> config_ok (apply c section key v).2.
Proof.
  intros Hc. pose proof (config_ok_strings c v Hc) as (S1 & S2 & S3 & S4).
  assert (forall b, config_ok (set_io_type c b)) as Hio by (intros b; destruct Hc; by split).
  assert (forall b, config_ok (set_aggr c b)) as Hag by (intros b; destruct Hc; by split).
  assert (forall x, parse_size v = Some x -> config_ok (set_min_size c x) /\ config_ok (set_max_size c x)) as Hsz
    by (intros x Hx; apply config_ok_numbers; [done|by eapply parse_size_range]).
  assert (forall x, set_uint v 1 = Some x -> config_ok (set_interval_s c x) /\ config_ok (set_sample_every c x) /\
    config_ok (set_buffer_mb c x)) as Hun
    by (intros x Hx; apply config_ok_numbers; [done|by eapply set_uint_range; [|exact Hx]]).
  pose proof (fun b => config_ok_bools c b Hc) as Hb.
  unfold apply, config_set_io_type, config_set_aggr, set_tracking.
  repeat match goal with
  | |- config_ok (if ?b then _ else _).2 => destruct b
  end; simpl; auto using set_sizes_ok;
  try (apply store_ok; [done|]; intros x Hx; first [apply (Hsz x Hx) | apply (Hun x Hx) | apply (Hb x)]); apply Hb.
Qed.

Lemma load_line_ok c section line : config_ok c -> config_ok (load_line c section line).2.1.
Proof.
  intros Hc. unfold load_line. destruct (strip _) as [|x r]; [done|]. destruct (x =? 91).
  - by destruct (split_at 93 (x :: r)) as [[a b]|].
  - destruct (split_at 61 (x :: r)) as [[k v]|]; [|done].
    pose proof (apply_ok c section (strip k) (strip v) Hc) as Ha.
    by destruct (apply c section (strip k) (strip v)).
Qed.

Lemma load_lines_ok fuel c section f : config_ok c -> config_ok (load_lines fuel c section f).2.
Proof.
  revert c section f. induction fuel as [|n IH]; intros c section f Hc; cbn [load_lines]; [done|].
  destruct f as [|x f]; [done|]. destruct (fgets (LINE_LEN - 1) (x :: f)) as [line f'] eqn:Ef.
  pose proof (load_line_ok c section (c_string line) Hc) as Hl.
  destruct (load_line c section (c_string line)) as [[] [c' s']]; [by apply IH|done].
Qed.

Lemma defaults_ok : config_ok config_defaults.
Proof.
  split; unfold is_u64; try reflexivity; try (cbn -[replicate]; lia).
  - apply Forall_replicate. unfold is_u32. lia.
  - apply fit_length. unfold SESSION_LEN. lia.
  - apply fit_length. unfold DATA_DIR_LEN. lia.
  - cbn [c_spdk_host config_defaults List.length]. unfold SPDK_LEN. lia.
  - cbn [c_spdk_target config_defaults List.length]. unfold SPDK_LEN. lia.
Qed.

(** Any task file leaves a usable configuration.  Whatever bytes the ini
    file holds, and whether or not it is accepted, the configuration stays within
    its types: the sampling rate, the interval and the buffer size are at least 1
    (so nothing is ever divided by zero), at most 16 sizes are set and none of
    those is 0, and no string exceeds its array. *)
Theorem load_ini_ok (c : ntp_config) (file : option (list Z)) :
  config_ok c -> config_ok (config_load_ini c file).2.
Proof. intros Hc. unfold config_load_ini. destruct file; [by apply load_lines_ok|done]. Qed.

(** A file with a section, sizes and a bad last line. *)
Lemma load_ini_ok_witness :
  let f := bytes "[Workload]" ++ [10] ++ bytes "IO_SIZE = 4K,128K  ; two" ++ [10] ++ bytes "[Profiling]" ++ [10] ++
           bytes "FREQUENCY=50" ++ [10] ++ bytes "TIME_INTERVAL=0" in
  let r := config_load_ini config_defaults (Some f) in
  r.1 = false /\ c_n_sizes r.2 = 2 /\ take 2 (c_sizes r.2) = [4096; 131072] /\ c_sample_every r.2 = 50 /\
  config_ok r.2.
Proof.
  cbv zeta. do 4 (split; [vm_compute; reflexivity|]). apply load_ini_ok, defaults_ok.
Defined.

(** ** Sizes *)

(** The multiplier a unit stands for, as a power of two. *)
Definition unit_shift (u : Z) : option Z :=
  if to_lower u =? 107 then Some 10 else if to_lower u =? 109 then Some 20
  else if to_lower u =? 103 then Some 30 else None.

Lemma unit_not_digit u sh : unit_shift u = Some sh -> is_digit u = false /\ 0 <= sh.
Proof.
  unfold unit_shift, to_lower, is_digit.
  assert (65 <= u <= 90 \/ ~ (65 <= u <= 90)) as [Hr|Hr] by lia.
  - rewrite (proj2 (Z.leb_le 65 u)), (proj2 (Z.leb_le u 90)) by lia. cbn [andb].
    rewrite (proj2 (Z.leb_gt u 57)) by lia. rewrite andb_false_r. repeat case_match; intros; simplify_eq; lia.
  - assert ((65 <=? u) && (u <=? 90) = false) as -> by (apply andb_false_iff; rewrite !Z.leb_gt; lia).
    destruct (Z.eqb_spec u 107) as [->|]; [by intros [= <-]|].
    destruct (Z.eqb_spec u 109) as [->|]; [by intros [= <-]|].
    destruct (Z.eqb_spec u 103) as [->|]; [by intros [= <-]|]. done.
Qed.

Lemma print_u_nonempty' v : print_u v <> [].
Proof. apply (dec_digits_nonempty 19 v). Qed.

(** What [parse_size] makes of a number and what follows it. *)
Lemma parse_size_print v rest :
  0 <= v < 2 ^ 64 -> match rest with c :: _ => is_digit c = false | [] => True end ->
  parse_size (print_u v ++ rest) =
  match (match rest with
         | [] => Some (v, [])
         | x :: r => match unit_shift x with Some sh => Some (u64 (Z.shiftl v sh), r) | None => None end
         end) with
  | None => None
  | Some (v, fin) =>
      match (match fin with x :: r => if to_lower x =? 98 then r else fin | [] => [] end) with
      | [] => Some v | _ => None
      end
  end.
Proof.
  intros Hv Hr. unfold parse_size. pose proof (strtoull_print v rest Hv Hr) as Hs.
  pose proof (dec_digits_digit 20 v (proj1 Hv)) as Hd. fold (print_u v) in Hd.
  pose proof (print_u_nonempty' v) as Hne. destruct (print_u v) as [|c ds] eqn:E; [done|].
  apply Forall_cons_1 in Hd as [Hc _]. cbn [app]. rewrite Hc. cbn [negb].
  change (c :: ds ++ rest) with ((c :: ds) ++ rest). rewrite Hs. unfold unit_shift.
  destruct rest as [|x r]; [done|].
  destruct (to_lower x =? 107); [done|]. destruct (to_lower x =? 109); [done|]. by destruct (to_lower x =? 103).
Qed.

(** What sizes mean.  A size is read as its number; with a unit k, m or g in
    either case, and an optional b after it, as the number times 2^10, 2^20 or
    2^30 in 64-bit arithmetic, which is exact as long as the product is below
    2^64 and silently wraps beyond. *)
Theorem parse_size_units (v u sh : Z) :
  0 <= v < 2 ^ 64 -> unit_shift u = Some sh ->
  parse_size (print_u v) = Some v /\
  parse_size (print_u v ++ [u]) = Some (u64 (v * 2 ^ sh)) /\
  parse_size (print_u v ++ [u; 66]) = Some (u64 (v * 2 ^ sh)) /\
  (v * 2 ^ sh < 2 ^ 64 -> parse_size (print_u v ++ [u]) = Some (v * 2 ^ sh)).
Proof.
  intros Hv Hu. destruct (unit_not_digit u sh Hu) as [Hd Hsh].
  assert (parse_size (print_u v ++ [u]) = Some (u64 (v * 2 ^ sh))) as H1
    by (rewrite parse_size_print by done; by rewrite Hu, Z.shiftl_mul_pow2).
  split; [by rewrite <- (app_nil_r (print_u v)), parse_size_print|]. split; [done|]. split.
  - rewrite parse_size_print by done. rewrite Hu, Z.shiftl_mul_pow2 by done. done.
  - intros Hlt. rewrite H1. f_equal. apply u64_small. pose proof (Z.pow_nonneg 2 sh). unfold is_u64. lia.
Qed.

(** 128K, and a size of 16 EiB that becomes 0. *)
Lemma parse_size_units_witness :
  parse_size (bytes "128K") = Some 131072 /\ parse_size (bytes "17179869184g") = Some 0.
Proof.
  split.
  - destruct (parse_size_units 128 75 10) as (_ & H & _); [lia|reflexivity|exact H].
  - destruct (parse_size_units 17179869184 103 30) as (_ & H & _); [lia|reflexivity|exact H].
Defined.

(** ** Lines *)

(** [strip] on a string between blanks. *)
Definition unquoted (s : list Z) : list Z :=
  match s with
  | q :: _ :: _ =>
      if ((q =? 34) || (q =? 39)) && (last_char s =? q) then take (List.length s - 2) (drop 1 s) else s
  | _ => s
  end.

(** Neither end is a blank. *)
Definition trimmed (s : list Z) : Prop :=
  match s with c :: _ => is_space c = false | [] => True end /\
  match rev s with c :: _ => is_space c = false | [] => True end.

Lemma strip_blanks a s b :
  Forall (fun c => is_space c = true) a -> Forall (fun c => is_space c = true) b -> trimmed s ->
  strip (a ++ s ++ b) = unquoted s.
Proof.
  intros Ha Hb [H1 H2]. unfold strip.
  assert ((span is_space (a ++ s ++ b)).2 = match s with [] => [] | _ => s ++ b end) as ->.
  { destruct s as [|c s]; [|by rewrite span_app].
    cbn [app]. rewrite <- (app_nil_r (a ++ b)), span_app; [done|by apply Forall_app|done]. }
  destruct s as [|c s]; [done|].
  rewrite rev_app_distr, span_app; [|by apply Forall_rev|done].
  cbn [snd]. by rewrite rev_involutive.
Qed.

(** No quote and no comment sign. *)
Definition plain (s : list Z) : Prop :=
  Forall (fun c => (c =? 34) || (c =? 39) = false /\ (c =? 59) || (c =? 35) = false) s.

Lemma cut_plain s t : plain s -> cut_comment (s ++ t) 0 = s ++ cut_comment t 0.
Proof.
  induction 1 as [|c s [H1 H2] Hs IH]; [done|]. cbn [app cut_comment]. change (nz 0) with false. cbv iota.
  by rewrite H1, H2, IH.
Qed.

Lemma cut_quoted q s t :
  nz q = true -> (q =? 34) || (q =? 39) = true -> Forall (fun c => c <> q) s ->
  cut_comment (q :: s ++ q :: t) 0 = q :: s ++ q :: cut_comment t 0.
Proof.
  intros Hz Hq Hs. cbn [cut_comment]. change (nz 0) with false. cbv iota. rewrite Hq. f_equal.
  induction Hs as [|c s Hc Hs IH]; cbn [app cut_comment]; rewrite Hz.
  - by rewrite Z.eqb_refl.
  - rewrite (proj2 (Z.eqb_neq c q) Hc). by rewrite IH.
Qed.

Lemma split_at_first ch a b : Forall (fun c => c <> ch) a -> split_at ch (a ++ ch :: b) = Some (a, b).
Proof.
  induction 1 as [|c a Hc Ha IH]; simpl; [by rewrite Z.eqb_refl|].
  by rewrite (proj2 (Z.eqb_neq c ch) Hc), IH.
Qed.

(** How a value is written: as it is, or between quotes. *)
Inductive written_as (v : list Z) : list Z -> Prop :=
  | as_plain : plain v -> trimmed v -> v <> [] -> written_as v v
  | as_quoted q : (q = 34 \/ q = 39) -> Forall (fun c => c <> q) v -> written_as v (q :: v ++ [q]).

Lemma unquoted_plain v : plain v -> unquoted v = v.
Proof.
  unfold unquoted. destruct v as [|q [|x v]]; [done..|]. intros Hp. apply Forall_cons_1 in Hp as [[H1 _] _].
  by rewrite H1.
Qed.

Lemma unquoted_quoted q v : (q = 34 \/ q = 39) -> unquoted (q :: v ++ [q]) = v.
Proof.
  intros Hq. unfold unquoted. assert (last_char (q :: v ++ [q]) = q) as Hl.
  { unfold last_char. change (q :: v ++ [q]) with ((q :: v) ++ [q]). by rewrite last_snoc. }
  assert ((q =? 34) || (q =? 39) = true) as Hq' by (destruct Hq as [-> | ->]; done).
  assert (exists y w, v ++ [q] = y :: w) as (y & w & Ew) by (destruct v; simpl; eauto).
  rewrite Ew, <- Ew, Hl, Hq', Z.eqb_refl. cbn [andb drop List.length]. rewrite length_app. cbn [List.length].
  replace (S (List.length v + 1) - 2)%nat with (List.length v) by lia. rewrite drop_0. by rewrite take_app_length.
Qed.

Lemma written_facts v w :
  written_as v w ->
  (forall t, cut_comment (w ++ t) 0 = w ++ cut_comment t 0) /\ trimmed w /\ w <> [] /\ unquoted w = v.
Proof.
  intros [Hp Ht Hn|q Hq Hs].
  - split; [intros t; by apply cut_plain|]. split; [done|]. split; [done|by apply unquoted_plain].
  - assert (is_space q = false) as Hsp by (destruct Hq as [-> | ->]; done).
    split.
    { intros t. replace ((q :: v ++ [q]) ++ t) with (q :: v ++ q :: t) by (simpl; by rewrite <- app_assoc).
      rewrite cut_quoted; [|by destruct Hq as [-> | ->]..|done]. simpl. by rewrite <- app_assoc. }
    split; [|split; [done|by apply unquoted_quoted]].
    split; [done|]. change (q :: v ++ [q]) with ((q :: v) ++ [q]). by rewrite rev_app_distr.
Qed.

Lemma blanks_plain a : Forall (fun c => is_space c = true) a -> plain a.
Proof.
  intros H. eapply Forall_impl; [exact H|]. intros c. unfold is_space. rewrite orb_true_iff, andb_true_iff, Z.eqb_eq, !Z.leb_le.
  intros Hc. split; apply orb_false_iff; rewrite !Z.eqb_neq; lia.
Qed.

Lemma trimmed_app a m b : trimmed a -> a <> [] -> trimmed b -> b <> [] -> trimmed (a ++ m ++ b).
Proof.
  intros [H1 _] Ha [_ H2] Hb. split; [by destruct a|].
  rewrite !rev_app_distr. destruct (rev b) as [|c r] eqn:E; [|done].
  apply (f_equal (@rev Z)) in E. rewrite rev_involutive in E. done.
Qed.

(** What a line of the task file does.  A line with a key and a value, with
    any blanks around them, the value written as it is or between quotes (which
    may hold comment signs and blanks), and with a comment or nothing after it,
    sets exactly that key of the current section to that value. *)
Theorem load_line_setting (c : ntp_config) (section key value text b1 b2 b3 b4 comment : list Z) :
  Forall (fun x => is_space x = true) b1 -> Forall (fun x => is_space x = true) b2 ->
  Forall (fun x => is_space x = true) b3 -> Forall (fun x => is_space x = true) b4 ->
  plain key -> trimmed key -> Forall (fun x => x <> 61) key -> match key with x :: _ => x <> 91 | [] => False end ->
  written_as value text ->
  match comment with x :: _ => x = 59 \/ x = 35 | [] => True end ->
  load_line c section (b1 ++ key ++ b2 ++ [61] ++ b3 ++ text ++ b4 ++ comment) =
  (let '(ok, c') := apply c section key value in (ok, (c', section))).
Proof.
  intros B1 B2 B3 B4 Kp Kt Ke K91 Hw Hc. apply written_facts in Hw as (Wc & Wt & Wn & Wu).
  assert (key <> []) as Kn by (by destruct key).
  assert (cut_comment comment 0 = []) as Hcc.
  { destruct comment as [|x r]; [done|]. cbn [cut_comment]. change (nz 0) with false. cbv iota.
    by destruct Hc as [-> | ->]. }
  assert (cut_comment (b1 ++ key ++ b2 ++ [61] ++ b3 ++ text ++ b4 ++ comment) 0 =
    b1 ++ (key ++ (b2 ++ [61] ++ b3) ++ text) ++ b4) as Hcut.
  { rewrite !cut_plain by (done || by apply blanks_plain). cbn [app]. change (cut_comment (61 :: ?l) 0) with (61 :: cut_comment l 0).
    rewrite cut_plain by (by apply blanks_plain). rewrite Wc, cut_plain by (by apply blanks_plain).
    rewrite Hcc, app_nil_r. by rewrite <- !app_assoc. }
  unfold load_line. rewrite Hcut, strip_blanks; [|done|done|by apply trimmed_app].
  rewrite <- !app_assoc. cbn [app].
  assert (unquoted (key ++ b2 ++ 61 :: b3 ++ text) = key ++ b2 ++ 61 :: b3 ++ text) as ->.
  { destruct key as [|k0 key]; [done|]. apply Forall_cons_1 in Kp as [[Hk0 _] _].
    unfold unquoted. cbn [app]. by destruct (key ++ b2 ++ 61 :: b3 ++ text); rewrite ?Hk0. }
  assert (split_at 61 (key ++ b2 ++ 61 :: b3 ++ text) = Some (key ++ b2, b3 ++ text)) as Hsp.
  { rewrite app_assoc. apply split_at_first. apply Forall_app. split; [done|].
    eapply Forall_impl; [exact B2|]. intros x Hx ->. by vm_compute in Hx. }
  assert (strip (key ++ b2) = key) as Hk
    by (change (key ++ b2) with ([] ++ key ++ b2); rewrite strip_blanks by done; by apply unquoted_plain).
  assert (strip (b3 ++ text) = value) as Hv
    by (rewrite <- (app_nil_r text), strip_blanks by done; done).
  destruct key as [|k0 key]; [done|]. cbn [app] in *. rewrite (proj2 (Z.eqb_neq k0 91) K91).
  by rewrite Hsp, Hk, Hv.
Qed.

(** A quoted value with a comment sign in it, and a comment. *)
Lemma load_line_setting_witness :
  load_line config_defaults (bytes "Workload") (bytes "  SESSION_NAME = 'a;b'  # the device") =
  (true, (set_session config_defaults (bytes "a;b"), bytes "Workload")).
Proof.
  refine (load_line_setting config_defaults (bytes "Workload") (bytes "SESSION_NAME") (bytes "a;b")
    (39 :: bytes "a;b" ++ [39]) (bytes "  ") (bytes " ") (bytes " ") (bytes "  ") (bytes "# the device")
    _ _ _ _ _ _ _ _ _ _); (repeat constructor; vm_compute; congruence).
Defined.

(** ** Files *)

(** A line as it ends up in the file. *)
Definition file_line (l : list Z) : Prop :=
  (List.length l < LINE_LEN - 1)%nat /\ Forall (fun x => x <> 10 /\ x <> 0) l.

Lemma fgets_line n l f : (List.length l < n)%nat -> Forall (fun x => x <> 10 /\ x <> 0) l ->
  fgets n (l ++ 10 :: f) = (l ++ [10], f).
Proof.
  intros Hn Hl. revert n Hn. induction Hl as [|x l [Hx _] Hl IH]; intros n Hn; (destruct n; [simpl in Hn; lia|]).
  - done.
  - cbn [app fgets]. rewrite (proj2 (Z.eqb_neq x 10) Hx). rewrite IH by (simpl in Hn; lia). done.
Qed.

(** Lines one after the other, until one is refused. *)
Fixpoint each_line (c : ntp_config) (section : list Z) (ls : list (list Z)) : bool * ntp_config :=
  match ls with
  | [] => (true, c)
  | l :: ls =>
      match load_line c section (l ++ [10]) with
      | (true, (c, section)) => each_line c section ls
      | (false, (c, _)) => (false, c)
      end
  end.

(** A task file is its lines.  Loading a file of lines that fit the line
    buffer applies them one after the other, each in the section the last header
    named, stops at the first that is refused, and reads the whole file. *)
Theorem load_ini_lines (c : ntp_config) (ls : list (list Z)) :
  Forall file_line ls ->
  config_load_ini c (Some (List.concat ((fun l => l ++ [10]) <$> ls))) = each_line c [] ls.
Proof.
  intros Hl. unfold config_load_ini.
  assert (forall fuel c section, (List.length ls <= fuel)%nat ->
    load_lines fuel c section (List.concat ((fun l => l ++ [10]) <$> ls)) = each_line c section ls) as H.
  { induction Hl as [|l ls [Hlen Hc] Hls IH]; intros fuel c0 section Hf.
    - by destruct fuel.
    - destruct fuel as [|fuel]; [simpl in Hf; lia|]. cbn [fmap list_fmap List.concat load_lines each_line].
      rewrite <- app_assoc. cbn [app]. rewrite fgets_line by done.
      assert (exists y w, l ++ 10 :: List.concat ((fun l => l ++ [10]) <$> ls) = y :: w) as (y & w & ->)
        by (destruct l; simpl; eauto).
      assert (c_string (l ++ [10]) = l ++ [10]) as ->.
      { clear -Hc. induction Hc as [|x l [_ Hx] Hl IH]; [done|]. cbn [app c_string].
        by rewrite (proj2 (Z.eqb_neq x 0) Hx), IH. }
      destruct (load_line c0 section (l ++ [10])) as [[] [c1 s1]]; [|done]. apply IH. simpl in Hf. lia. }
  apply H. clear. induction ls as [|l ls IH]; [simpl; lia|]. rewrite fmap_cons.
  cbn [List.concat List.length]. rewrite !length_app. cbn [List.length]. lia.
Qed.

(** Two settings in two sections. *)
Lemma load_ini_lines_witness :
  let ls := [bytes "[Profiling]"; bytes "FREQUENCY = 10"; bytes "[Report]"; bytes "ENABLE_THROUGHPUT=no"] in
  config_load_ini config_defaults (Some (List.concat ((fun l => l ++ [10]) <$> ls))) =
  (true, set_rep_throughput (set_sample_every config_defaults 10) false).
Proof.
  cbv zeta. rewrite load_ini_lines; [vm_compute; reflexivity|].
  repeat (constructor; [split; [vm_compute; lia|repeat (constructor; [by split|]); constructor]|]). constructor.
Defined.

(** Reading always gets on, so the file's length is fuel enough for any file. *)
Lemma fgets_shorter n f : (1 <= n)%nat -> f <> [] -> (List.length (fgets n f).2 < List.length f)%nat.
Proof.
  assert (forall n f, (List.length (fgets n f).2 <= List.length f)%nat) as Hle.
  { clear. induction n as [|n IH]; intros f; [done|]. destruct f as [|x f]; [done|]. cbn [fgets].
    destruct (x =? 10); [cbn [snd List.length]; lia|]. specialize (IH f). destruct (fgets n f). simpl in *. lia. }
  intros Hn Hf. destruct n as [|n]; [lia|]. destruct f as [|x f]; [done|]. cbn [fgets].
  destruct (x =? 10); [cbn [snd List.length]; lia|]. specialize (Hle n f). destruct (fgets n f). simpl in *. lia.
Qed.

Lemma load_lines_fuel n m c section f :
  (List.length f <= n)%nat -> (List.length f <= m)%nat -> load_lines n c section f = load_lines m c section f.
Proof.
  revert m c section f. induction n as [|n IH]; intros m c section f Hn Hm.
  - destruct f; [by destruct m|simpl in Hn; lia].
  - destruct f as [|x f]; [by destruct m|]. destruct m as [|m]; [simpl in Hm; lia|]. cbn [load_lines].
    pose proof (fgets_shorter (LINE_LEN - 1) (x :: f) ltac:(unfold LINE_LEN; lia) ltac:(done)) as Hs.
    destruct (fgets (LINE_LEN - 1) (x :: f)) as [line f']. cbn [snd List.length] in Hs, Hn, Hm.
    destruct (load_line c section (c_string line)) as [[] [c1 s1]]; [|done]. apply IH; lia.
Qed.

(** ** Printing *)

Definition io_type_name (t : ntp_io_type) : list Z :=
  match t with NTP_IO_READ => bytes "read" | NTP_IO_WRITE => bytes "write" | NTP_IO_BOTH => bytes "both" end.
Definition aggr_name (a : ntp_aggr) : list Z :=
  match a with NTP_AGG_AVG => bytes "avg" | NTP_AGG_MIN => bytes "min" | NTP_AGG_MAX => bytes "max" | NTP_AGG_DIST => bytes "dist" end.

(** The sizes, separated by commas. *)
Definition print_sizes (l : list Z) : list Z :=
  match l with [] => bytes "any" | x :: l => print_u x ++ mjoin ((fun y => 44 :: print_u y) <$> l) end.

Definition config_print (c : ntp_config) : list Z :=
  bytes "session=" ++ c_session c ++ bytes " io_type=" ++ io_type_name (c_io_type c) ++ bytes " sizes=" ++
  print_sizes (take (Z.to_nat (c_n_sizes c)) (c_sizes c)) ++ bytes " min=" ++ print_u (c_min_size c) ++
  bytes " max=" ++ print_u (c_max_size c) ++ bytes " sample=1/" ++ print_u (c_sample_every c) ++
  bytes " interval=" ++ print_u (c_interval_s c) ++ bytes "s aggr=" ++ aggr_name (c_aggr c) ++ [10] ++
  (match c_spdk_host c with [] => [] | p => bytes "  SPDK host: " ++ p ++ [10] end) ++
  (match c_spdk_target c with [] => [] | p => bytes "  SPDK target: " ++ p ++ [10] end).

Lemma config_print_defaults :
  config_print config_defaults = bytes "session=all io_type=both sizes=any min=0 max=0 sample=1/1000 interval=1s aggr=avg" ++ [10].
Proof. vm_compute. reflexivity. Qed.
