(* ===== verification/Scan.v ===== *)
(** * Reading text files

    What the tool uses of [fgets] and [sscanf] on the files of the kernel: lines in
    a buffer, blanks, words and hexadecimal numbers. *)
From stdpp Require Import base numbers list.
From Stdlib Require Import ZArith Lia Ascii String.
From S2P Require Import Prelude CStr Config.

Definition is_hex (c : Z) : bool := is_digit c || ((97 <=? to_lower c) && (to_lower c <=? 102)).
Definition hex_val (c : Z) : Z := if is_digit c then c - 48 else to_lower c - 87.
Definition hex_value (l : list Z) : Z := fold_left (fun acc c => acc * 16 + hex_val c) l 0.

Definition skip_space (l : list Z) : list Z := (span is_space l).2.

(** [%llx] *)
Definition scan_x (l : list Z) : option (Z * list Z) :=
  let l := skip_space l in
  let '(neg, l) :=
    match l with
    | c :: r => if c =? 45 then (true, r) else if c =? 43 then (false, r) else (false, l)
    | [] => (false, l)
    end in
  let l := match l with a :: b :: r => if (a =? 48) && (to_lower b =? 120) then r else l | _ => l end in
  let '(ds, rest) := span is_hex l in
  match ds with
  | [] => None
  | _ =>
      let v := hex_value ds in
      Some (if ULLONG_MAX <? v then ULLONG_MAX else if neg then u64 (- v) else v, rest)
  end.

(** [%*s] *)
Definition scan_word (l : list Z) : option (list Z) :=
  let '(w, rest) := span (fun c => negb (is_space c)) (skip_space l) in
  match w with [] => None | _ => Some rest end.

(** The lines of a file, each read into a buffer of [n] bytes. *)
Fixpoint read_lines (fuel : nat) (n : nat) (f : list Z) : list (list Z) :=
  match fuel, f with
  | O, _ | _, [] => []
  | S fuel, _ => let '(line, f) := fgets (n - 1) f in c_string line :: read_lines fuel n f
  end.

(** ** Facts *)

Lemma c_string_no_nul l : Forall (fun c => c <> 0) l -> c_string l = l.
Proof. induction 1 as [|c l Hc Hl IH]; [done|]. cbn [c_string]. by rewrite (proj2 (Z.eqb_neq c 0) Hc), IH. Qed.

Lemma skip_space_none c l : is_space c = false -> skip_space (c :: l) = c :: l.
Proof. intros H. unfold skip_space. cbn [span]. by rewrite H. Qed.

Lemma skip_spaces ss l :
  Forall (fun c => is_space c = true) ss -> (match l with c :: _ => is_space c = false | [] => True end) ->
  skip_space (ss ++ l) = l.
Proof. intros Hs Hl. unfold skip_space. by rewrite span_app. Qed.

Lemma hex_facts c : is_hex c = true -> is_space c = false /\ c <> 45 /\ c <> 43 /\ c <> 10 /\ to_lower c <> 120 /\ 0 <= hex_val c < 16.
Proof.
  unfold is_hex, is_space, is_digit, hex_val, to_lower. intros H.
  destruct ((65 <=? c) && (c <=? 90)) eqn:E1; destruct ((48 <=? c) && (c <=? 57)) eqn:E2; unfold is_digit in *; rewrite ?E2; lia.
Qed.

(** A number printed in hexadecimal, up to the dash or the blank after it. *)
Lemma scan_x_digits ss ds c rest :
  Forall (fun c => is_space c = true) ss -> ds <> [] -> Forall (fun c => is_hex c = true) ds ->
  c = 45 \/ c = 32 -> hex_value ds <= ULLONG_MAX ->
  scan_x (ss ++ ds ++ c :: rest) = Some (hex_value ds, c :: rest).
Proof.
  intros Hss Hn Hd Hc Hv. destruct ds as [|a ds]; [done|]. pose proof (Forall_inv Hd) as Ha.
  destruct (hex_facts a Ha) as (Hs & H45 & H43 & _). unfold scan_x.
  rewrite (skip_spaces ss ((a :: ds) ++ c :: rest)) by done. cbn [app].
  rewrite (proj2 (Z.eqb_neq a 45) H45), (proj2 (Z.eqb_neq a 43) H43).
  assert ((match a :: ds ++ c :: rest with
    | x :: y :: r => if (x =? 48) && (to_lower y =? 120) then r else a :: ds ++ c :: rest | _ => a :: ds ++ c :: rest end) =
    (a :: ds) ++ c :: rest) as ->.
  { destruct ds as [|b ds]; cbn [app]; [by destruct Hc as [-> | ->]; rewrite andb_false_r|].
    destruct (hex_facts b (Forall_inv (Forall_inv_tail Hd))) as (_ & _ & _ & _ & Hx & _).
    by rewrite (proj2 (Z.eqb_neq _ _) Hx), andb_false_r. }
  rewrite (span_app is_hex (a :: ds) (c :: rest)) by (done || by destruct Hc as [-> | ->]).
  destruct (Z.ltb_spec ULLONG_MAX (hex_value (a :: ds))); [lia|done].
Qed.

Lemma scan_word_word ss w rest :
  Forall (fun c => is_space c = true) ss -> w <> [] -> Forall (fun c => is_space c = false) w ->
  (match rest with c :: _ => is_space c = true | [] => True end) -> scan_word (ss ++ w ++ rest) = Some rest.
Proof.
  intros Hss Hn Hw Hr. unfold scan_word. destruct w as [|a w]; [done|].
  rewrite (skip_spaces ss ((a :: w) ++ rest)) by (done || by apply (Forall_inv Hw)).
  rewrite (span_app (fun c => negb (is_space c)) (a :: w) rest); [done| |].
  - eapply Forall_impl; [exact Hw|]. intros x Hx. by rewrite Hx.
  - destruct rest; [done|]. by rewrite Hr.
Qed.

(** The length of the file is fuel enough. *)
Lemma read_lines_fuel n m k f :
  (2 <= k)%nat -> (List.length f <= n)%nat -> (List.length f <= m)%nat -> read_lines n k f = read_lines m k f.
Proof.
  intros Hk. revert m f. induction n as [|n IH]; intros m f Hn Hm; (destruct f as [|x f]; [by destruct m|cbn [List.length] in *]); [lia|].
  destruct m as [|m]; [lia|]. cbn [read_lines].
  pose proof (fgets_shorter (k - 1) (x :: f) ltac:(lia) ltac:(done)) as Hs.
  destruct (fgets (k - 1) (x :: f)) as [line f']. cbn [snd List.length] in Hs. f_equal. apply IH; lia.
Qed.
