(* ===== verification/Offline.v ===== *)
(** * Analysis of record files (src/offline.c)

    What `ntprof report` and `ntprof compare` work on: every file of a run is
    read, then each host record is matched and added to the statistics.  The
    commands themselves, with what they print, are in Commands.v. *)
From stdpp Require Import base numbers list.
From Stdlib Require Import ZArith Lia.
From S2P Require Import Prelude Types Model CStr Stats Config TraceFile Join.

Record run := mk_run {
  r_joiner : ntp_joiner;
  r_hosts : list ntp_host_rec;
  r_cap : Z;
  r_targets : Z;
  r_host_hdr : option ntp_file_header (* have_host_hdr, host_hdr *)
}.

(** [memset] and [ntp_joiner_new(0)] *)
Definition run_init : run := mk_run (ntp_joiner_new 0) [] 0 0 None.

Definition on_host (h : ntp_host_rec) (r : run) : Z * run :=
  let n := Z.of_nat (length (r_hosts r)) in
  let cap := if n =? r_cap r then (if nz (r_cap r) then u64 (r_cap r * 2) else 4096) else r_cap r in
  (0, mk_run (r_joiner r) (r_hosts r ++ [h]) cap (r_targets r) (r_host_hdr r)).

(** [None] for a store out of bounds in the joiner. *)
Definition on_target (t : ntp_tgt_rec) (r : run) : option (Z * run) :=
  j ← ntp_joiner_add_target (r_joiner r) t;
  Some (0, mk_run j (r_hosts r) (r_cap r) (u64 (r_targets r + 1)) (r_host_hdr r)).

(** The callbacks of [load_run] on the run, or [None] after an error in memory. *)
Definition load_ops : ntp_reader_ops (option run) :=
  mk_ops
    (Some (fun h r => match r with Some r => let '(ret, r) := on_host h r in (ret, Some r) | None => (0, None) end))
    (Some (fun t r => match r with
                      | Some r => match on_target t r with Some (ret, r) => (ret, Some r) | None => (0, None) end
                      | None => (0, None)
                      end)).

Definition note_header (hdr : option ntp_file_header) (r : run) : run :=
  match hdr, r_host_hdr r with
  | Some hdr, None =>
      if has (f_role hdr) NTP_ROLE_HOST then mk_run (r_joiner r) (r_hosts r) (r_cap r) (r_targets r) (Some hdr) else r
  | _, _ => r
  end.

(** Reading the files: the first that fails ends it. *)
Fixpoint read_files (files : list (option stream)) (r : run) : option (Z * run) :=
  match files with
  | [] => Some (0, r)
  | f :: files =>
      match ntp_read_file f load_ops (Some r) with
      | Some (ret, hdr, Some r) => if nz ret then Some (-1, r) else read_files files (note_header hdr r)
      | _ => None
      end
  end.

(** Joining: the host records in the order they were read. *)
Fixpoint join_hosts (hs : list ntp_host_rec) (j : ntp_joiner) (s : ntp_stats) : ntp_joiner * ntp_stats :=
  match hs with
  | [] => (j, s)
  | h :: hs => let '(m, j) := ntp_joiner_match j h in join_hosts hs j (ntp_stats_add s h m)
  end.

Definition load_run (files : list (option stream)) (s : ntp_stats) : option (Z * run * ntp_stats) :=
  '(ret, r) ← read_files files run_init;
  if nz ret then Some (-1, r, s)
  else
    let '(j, s) := join_hosts (r_hosts r) (r_joiner r) s in
    Some (0, mk_run j (r_hosts r) (r_cap r) (r_targets r) (r_host_hdr r), s).

Definition EXIT_SUCCESS : Z := 0.
Definition EXIT_FAILURE : Z := 1.

Definition set_sample (s : ntp_stats) (n : Z) : ntp_stats :=
  mk_stats (groups s) (s_cap s) (by_type s) (by_size s) (by_session s) n (first_ns s) (last_ns s).

(** [split_run]: at most two of the names between commas. *)
Definition split_run (l : list Z) : list (list Z) := take 2 (tokens l []).

(** ** What a run is *)

(** A well-formed record file: its version, header and records. *)
Definition rec_file : Type := Z * ntp_file_header * list rec.
Definition rec_file_ok (f : rec_file) : Prop := let '(v, hdr, l) := f in header_of v hdr /\ Forall rec_ok l.
Definition file_stream (f : rec_file) : option stream :=
  let '(v, hdr, l) := f in Some (mk_stream (enc_header hdr ++ concat (map (written v) l)) false false).

(** The records the reader sees. *)
Definition seen (f : rec_file) : list rec := let '(v, _, l) := f in as_version v <$> l.
Definition host_recs (l : list rec) : list ntp_host_rec :=
  omap (fun r => match r with RHost h => Some h | RTgt _ => None end) l.
Definition tgt_recs (l : list rec) : list ntp_tgt_rec :=
  omap (fun r => match r with RHost _ => None | RTgt t => Some t end) l.

Definition first_host_hdr (fs : list rec_file) : option ntp_file_header :=
  head (filter (fun hdr => has (f_role hdr) NTP_ROLE_HOST = true) ((fun f => f.1.2) <$> fs)).

Fixpoint add_targets (j : ntp_joiner) (ts : list ntp_tgt_rec) : option ntp_joiner :=
  match ts with
  | [] => Some j
  | t :: ts => j ← ntp_joiner_add_target j t; add_targets j ts
  end.

Lemma run_target_ok j t : joiner_wf j -> exists j', ntp_joiner_add_target j t = Some j' /\ joiner_wf j' /\ max_per_key j' = max_per_key j.
Proof.
  intros (Hm & Ht & Hh). unfold ntp_joiner_add_target.
  destruct (push_change (max_per_key j) (targets j) t Hm Ht) as (dr & t' & -> & Hw & _). simpl.
  eexists. split; [reflexivity|]. by split.
Qed.

(** The run after some records. *)
Definition run_has (r : run) (hs : list ntp_host_rec) (ts : list ntp_tgt_rec) : Prop :=
  joiner_wf (r_joiner r) /\ r_hosts r = hs /\ r_targets r = u64 (Z.of_nat (length ts)) /\
  add_targets (ntp_joiner_new 0) ts = Some (r_joiner r).

Lemma add_targets_app j ts t j' :
  add_targets j ts = Some j' -> add_targets j (ts ++ [t]) = ntp_joiner_add_target j' t.
Proof.
  revert j. induction ts as [|x ts IH]; intros j; simpl.
  - intros [= ->]. by destruct (ntp_joiner_add_target j' t).
  - destruct (ntp_joiner_add_target j x) as [j1|]; simpl; [|done]. apply IH.
Qed.

Lemma feed_run l r hs ts :
  run_has r hs ts ->
  exists r', feed load_ops l (Some r) = (0, Some r') /\ run_has r' (hs ++ host_recs l) (ts ++ tgt_recs l) /\
    r_host_hdr r' = r_host_hdr r.
Proof.
  revert r hs ts. induction l as [|x l IH]; intros r hs ts Hr.
  - exists r. by rewrite !app_nil_r.
  - destruct Hr as (Hw & Hh & Ht & Ha). destruct x as [h|t].
    + cbn [feed deliver load_ops on_host]. simpl.
      destruct (IH (on_host h r).2 (hs ++ [h]) ts) as (r' & E & H' & Hhdr).
      { split; [done|]. simpl. by rewrite Hh. }
      exists r'. split; [exact E|]. split; [|by rewrite Hhdr]. by rewrite <- app_assoc in H'.
    + destruct (run_target_ok (r_joiner r) t Hw) as (j' & E & Hw' & Hm).
      pose proof (add_targets_app _ ts t _ Ha) as Ha'. rewrite E in Ha'.
      destruct (IH (mk_run j' (r_hosts r) (r_cap r) (u64 (r_targets r + 1)) (r_host_hdr r)) hs (ts ++ [t]))
        as (r' & E' & H' & Hhdr).
      { split; [done|]. split; [done|]. split; [|done]. simpl. rewrite Ht, length_app. simpl.
        unfold u64. rewrite Zplus_mod_idemp_l. f_equal. lia. }
      exists r'. split; [|split; [|by rewrite Hhdr]].
      * cbn [feed deliver load_ops]. simpl. unfold on_target. rewrite E. simpl. exact E'.
      * by rewrite <- app_assoc in H'.
Qed.

Definition all_hosts (fs : list rec_file) : list ntp_host_rec := concat (host_recs <$> (seen <$> fs)).
Definition all_targets (fs : list rec_file) : list ntp_tgt_rec := concat (tgt_recs <$> (seen <$> fs)).

Lemma read_files_spec fs r hs ts :
  Forall rec_file_ok fs -> run_has r hs ts ->
  exists r', read_files (file_stream <$> fs) r = Some (0, r') /\
    run_has r' (hs ++ all_hosts fs) (ts ++ all_targets fs) /\
    r_host_hdr r' = match r_host_hdr r with Some h => Some h | None => first_host_hdr fs end.
Proof.
  intros Hf. revert r hs ts. induction Hf as [|[[v hdr] l] fs [Hh Hl] Hf IH]; intros r hs ts Hr.
  - exists r. unfold all_hosts, all_targets. simpl. rewrite !app_nil_r. by destruct (r_host_hdr r).
  - rewrite fmap_cons. cbn [read_files file_stream]. rewrite (read_back_file v) by done.
    destruct (feed_run (as_version v <$> l) r hs ts Hr) as (r1 & E & H1 & Hhdr).
    change (map (as_version v) l) with (as_version v <$> l). rewrite E. cbn [Z.ltb Z.compare].
    change (nz (if 0 <? 0 then -1 else 0)) with false. cbv iota.
    destruct (IH (note_header (Some hdr) r1) (hs ++ host_recs (as_version v <$> l)) (ts ++ tgt_recs (as_version v <$> l)))
      as (r2 & E2 & H2 & Hhdr2).
    { unfold note_header. destruct (r_host_hdr r1); [done|]. by destruct (has _ _). }
    exists r2. split; [done|]. split.
    + unfold all_hosts, all_targets. rewrite !fmap_cons. cbn [seen concat]. by rewrite <- !app_assoc in H2.
    + rewrite Hhdr2. unfold note_header. rewrite Hhdr. destruct (r_host_hdr r) eqn:Er; [by rewrite ?Hhdr, ?Er|].
      unfold first_host_hdr. rewrite fmap_cons, filter_cons. cbn [fst snd].
      destruct (has (f_role hdr) NTP_ROLE_HOST); [by rewrite decide_True|].
      rewrite decide_False by done. by rewrite ?Hhdr, ?Er.
Qed.

(** What the pool of target records loses to the joins. *)
Definition matched_rec (x : sample) : Prop :=
  match x.2 with Some t => same_identity (t_id t) (h_id x.1) | None => True end.

Lemma queue_contents max (t : table ntp_tgt_rec) k r : table_wf max t -> r ∈ queue t k -> r ∈ contents t.
Proof.
  intros _ Hr. unfold queue in Hr. unfold contents.
  apply list_elem_of_In, in_concat. unfold chain_of in Hr.
  destruct (slots t !! slot_of t k) as [c|] eqn:E; [|by apply elem_of_nil in Hr]. simpl in Hr.
  exists (chain_recs c). split.
  - apply in_map, list_elem_of_In. by eapply list_elem_of_lookup_2.
  - apply list_elem_of_In. unfold chain_queue in Hr. destruct (c !! chain_find k c) as [b|] eqn:Eb;
      [|by apply elem_of_nil in Hr].
    unfold chain_recs. apply list_elem_of_In, in_concat. exists (recs b).
    split; [apply in_map, list_elem_of_In; by eapply list_elem_of_lookup_2|by apply list_elem_of_In].
Qed.

Lemma chain_find_in (c : list (bucket ntp_tgt_rec)) b :
  NoDup (bkey <$> c) -> b ∈ c -> c !! chain_find (bkey b) c = Some b.
Proof.
  induction c as [|b0 c IH]; intros Hnd Hb; [by apply elem_of_nil in Hb|].
  rewrite fmap_cons in Hnd. apply NoDup_cons in Hnd as [Hni Hnd]. simpl.
  apply elem_of_cons in Hb as [->|Hb]; [by rewrite Z.eqb_refl|].
  destruct (Z.eqb_spec (bkey b0) (bkey b)) as [E|]; [|by apply IH].
  destruct Hni. rewrite E. by apply list_elem_of_fmap_2.
Qed.

(** Every record waits under its key. *)
Lemma contents_queue max (t : table ntp_tgt_rec) r :
  table_wf max t -> r ∈ contents t -> r ∈ queue t (key_of (t_id r)).
Proof.
  intros [Hs _] Hr. pose proof Hs as [_ Hw]. unfold contents in Hr.
  apply list_elem_of_In, in_concat in Hr as (rs & Hrs & Hr). apply in_map_iff in Hrs as (c & <- & Hc).
  apply list_elem_of_In, list_elem_of_lookup in Hc as [slot Hslot].
  unfold chain_recs in Hr. apply in_concat in Hr as (bs & Hbs & Hr). apply in_map_iff in Hbs as (b & <- & Hb).
  apply list_elem_of_In in Hb, Hr. destruct (Hw slot c Hslot) as [Hnd Hbw].
  rewrite Forall_forall in Hbw. destruct (Hbw b Hb) as (Hhome & _ & _ & _ & Hkeys).
  rewrite Forall_forall in Hkeys. specialize (Hkeys r Hr). simpl in Hkeys.
  unfold queue. rewrite (slot_of_home max t _ Hs), Hkeys, Hhome. unfold chain_of. rewrite Hslot. simpl.
  unfold chain_queue. by rewrite (chain_find_in c b Hnd Hb).
Qed.

Lemma match_step j h pool :
  joiner_wf j -> contents (targets j) ≡ₚ pool -> id_ok (h_id h) -> Forall (fun t => id_ok (t_id t)) pool ->
  let '(m, j') := ntp_joiner_match j h in
  joiner_wf j' /\ matched_rec (h, m) /\
  match m with
  | Some t => contents (targets j') ++ [t] ≡ₚ pool
  | None => contents (targets j') ≡ₚ pool /\ forall t, t ∈ pool -> ~ same_identity (t_id t) (h_id h)
  end.
Proof.
  intros (Hm & Ht & Hh) Hc Hid Hpool. unfold ntp_joiner_match.
  pose proof (table_take_spec _ _ (h_id h) Ht) as Hs.
  assert (forall t, t ∈ contents (targets j) -> id_ok (t_id t)) as Hids.
  { intros t Hin. rewrite Hc in Hin. rewrite Forall_forall in Hpool. by apply Hpool. }
  destruct (table_take (targets j) (h_id h)) as [[t tbl]|].
  - destruct Hs as (Hw & (pre & post & Hq & Hsame & Hpre & _) & Hperm).
    split; [by split|]. split; [|simpl; by rewrite Hperm].
    assert (t ∈ queue (targets j) (key_of (h_id h))) as Hin
      by (rewrite Hq; apply elem_of_app; right; by left).
    pose proof (queue_keys _ (targets j) (key_of (h_id h)) Ht) as Hk. rewrite Forall_forall in Hk.
    apply key_same_identity; [|done|by apply Hk|done]. apply Hids. by eapply queue_contents.
  - split; [by split|]. split; [done|]. simpl. split; [done|]. intros t Hin Hsi.
    apply same_identity_key in Hsi as [Hk Hsc]. rewrite <- Hc in Hin.
    apply (contents_queue _ _ _ Ht) in Hin. simpl in Hin. rewrite Hk in Hin.
    unfold q_lacks in Hs. rewrite Forall_forall in Hs. specialize (Hs t Hin). simpl in Hs. congruence.
Qed.

(** The joins of a run: one sample per host record, target records used at most
    once, and none left over that an unmatched host record could have had. *)
Definition joins (hs : list ntp_host_rec) (ts : list ntp_tgt_rec) (l : list sample) : Prop :=
  l.*1 = hs /\ Forall matched_rec l /\
  exists rest, omap snd l ++ rest ≡ₚ ts /\
    Forall (fun x => x.2 = None -> forall t, t ∈ rest -> ~ same_identity (t_id t) (h_id x.1)) l.

(** How many host records found their target record, and how many did not. *)
Definition joined_n (l : list sample) : Z := Z.of_nat (length (omap snd l)).
Definition unjoined_n (l : list sample) : Z := Z.of_nat (length l) - joined_n l.

(** The counters of the joiner, when they started at [a] and [b]. *)
Definition counted_from (a b : Z) (j : ntp_joiner) : Prop := matched (st j) = u64 a /\ host_unmatched (st j) = u64 b.

Lemma match_counts j h a b :
  counted_from a b j ->
  let '(m, j') := ntp_joiner_match j h in counted_from (a + joined_n [(h, m)]) (b + unjoined_n [(h, m)]) j'.
Proof.
  intros [Ha Hb]. unfold ntp_joiner_match, counted_from, unjoined_n.
  destruct (table_take _ _) as [[t tbl]|];
    cbn [st with_st with_targets matched host_unmatched inc_matched add_unmatched]; rewrite Ha, Hb; unfold u64;
    rewrite ?Zplus_mod_idemp_l; split; f_equal; unfold joined_n; cbn; lia.
Qed.

Lemma joined_cons h m l :
  joined_n ((h, m) :: l) = joined_n [(h, m)] + joined_n l /\ unjoined_n ((h, m) :: l) = unjoined_n [(h, m)] + unjoined_n l.
Proof. unfold unjoined_n, joined_n. destruct m as [t|]; cbn [omap list_omap snd length]; lia. Qed.

Lemma join_hosts_spec hs j s pool a b :
  joiner_wf j -> contents (targets j) ≡ₚ pool -> Forall (fun h => id_ok (h_id h)) hs ->
  Forall (fun t => id_ok (t_id t)) pool -> counted_from a b j ->
  exists j' l, join_hosts hs j s = (j', stats_of s l) /\ joins hs pool l /\ counted_from (a + joined_n l) (b + unjoined_n l) j'.
Proof.
  revert j s pool a b. induction hs as [|h hs IH]; intros j s pool a b Hj Hc Hh Hp Hn.
  - exists j, []. split; [done|]. split; [split; [done|]; split; [done|]; by exists pool|].
    unfold joined_n, unjoined_n. cbn. by rewrite !Z.add_0_r.
  - apply Forall_cons_1 in Hh as [Hh Hhs]. cbn [join_hosts].
    pose proof (match_step j h pool Hj Hc Hh Hp) as Hs. pose proof (match_counts j h a b Hn) as Hn1.
    destruct (ntp_joiner_match j h) as [m j1].
    destruct Hs as (Hj1 & Hm & Hpool).
    assert (exists pool', contents (targets j1) ≡ₚ pool' /\ option_list m ++ pool' ≡ₚ pool) as (pool' & Hc1 & Hpp).
    { exists (contents (targets j1)). split; [done|]. destruct m as [t|]; simpl.
      - rewrite <- Hpool. by rewrite Permutation_cons_append.
      - by destruct Hpool. }
    assert (forall t, t ∈ pool' -> t ∈ pool) as Hsub by (intros t Ht; rewrite <- Hpp; apply elem_of_app; by right).
    destruct (fun Hp => IH j1 (ntp_stats_add s h m) pool' _ _ Hj1 Hc1 Hhs Hp Hn1) as (j' & l & E & (H1 & H2 & rest & H3 & H4) & H5).
    { apply Forall_forall. intros t Ht. rewrite Forall_forall in Hp. by apply Hp, Hsub. }
    exists j', ((h, m) :: l). split; [exact E|]. split; [split; [by rewrite fmap_cons, H1|]; split; [by constructor|]; exists rest; split|].
    + destruct m as [t|]; simpl in *; rewrite <- Hpp, <- H3; done.
    + constructor; [|done]. cbn [fst snd]. intros ->. destruct Hpool as [_ Hno]. intros t Ht.
      apply Hno, Hsub. rewrite <- H3. apply elem_of_app. by right.
    + destruct (joined_cons h m l) as [-> ->]. by rewrite !Z.add_assoc.
Qed.

Lemma add_targets_counts ts j j' a b : add_targets j ts = Some j' -> counted_from a b j -> counted_from a b j'.
Proof.
  revert j. induction ts as [|t ts IH]; intros j; cbn [add_targets]; [by intros [= <-]|]. unfold ntp_joiner_add_target.
  destruct (table_push _ _ _) as [[dr tbl]|]; cbn [mbind option_bind]; [|done]. intros E Hc. by apply (IH _ E).
Qed.

Lemma add_targets_contents ts j j' :
  joiner_wf j -> max_per_key j = 0 -> add_targets j ts = Some j' ->
  contents (targets j') ≡ₚ contents (targets j) ++ ts.
Proof.
  revert j. induction ts as [|t ts IH]; intros j Hj Hm; cbn [add_targets].
  - intros [= <-]. by rewrite app_nil_r.
  - destruct (run_target_ok j t Hj) as (j1 & E & Hj1 & Hm1). rewrite E. simpl. intros Hr.
    rewrite (IH j1 Hj1) by (done || by rewrite Hm1). rewrite Hm in Hm1.
    unfold ntp_joiner_add_target in E. destruct Hj as (Hm0 & Ht & _).
    destruct (table_push_spec (max_per_key j) (targets j) t Hm0 Ht) as (dr & t' & Ep & _ & _ & Hperm & _).
    rewrite Ep in E. simpl in E. injection E as <-. simpl.
    assert (push_drops (max_per_key j) t (queue (targets j)) = []) as Hd
      by (unfold push_drops, q_full; by rewrite Hm).
    rewrite Hd, app_nil_r in Hperm. rewrite Hperm, <- app_assoc. done.
Qed.

Lemma seen_ids fs :
  Forall rec_file_ok fs ->
  Forall (fun h => id_ok (h_id h)) (all_hosts fs) /\ Forall (fun t => id_ok (t_id t)) (all_targets fs).
Proof.
  intros Hf. unfold all_hosts, all_targets. induction Hf as [|[[v hdr] l] fs [_ Hl] Hf [IH1 IH2]]; [done|].
  rewrite !fmap_cons. cbn [seen concat]. rewrite !Forall_app. split; (split; [|done]); clear -Hl.
  - induction Hl as [|r l Hr Hl IH]; [done|]. rewrite fmap_cons. destruct r as [h|t]; cbn [as_version host_recs omap list_omap].
    + constructor; [|exact IH]. destruct Hr as [(_ & Hi & _) _]. by destruct (4 <=? v).
    + exact IH.
  - induction Hl as [|r l Hr Hl IH]; [done|]. rewrite fmap_cons. destruct r as [h|t]; cbn [as_version tgt_recs omap list_omap].
    + exact IH.
    + constructor; [|exact IH]. destruct Hr as [(_ & Hi & _) _]. destruct (5 <=? v); [done|]. by destruct (3 <=? v).
Qed.

Lemma contents_init : contents (table_init (R := ntp_tgt_rec)) = [].
Proof.
  unfold contents, table_init. cbn [slots]. generalize (Z.to_nat (Z.shiftl 1 16)). intros n.
  induction n as [|n IH]; [done|exact IH].
Qed.

Lemma load_run_spec fs s :
  Forall rec_file_ok fs ->
  exists r l, load_run (file_stream <$> fs) s = Some (0, r, stats_of s l) /\
    r_hosts r = all_hosts fs /\ r_targets r = u64 (Z.of_nat (length (all_targets fs))) /\
    r_host_hdr r = first_host_hdr fs /\ joins (all_hosts fs) (all_targets fs) l /\
    counted_from (joined_n l) (unjoined_n l) (r_joiner r) /\
    (forall fs', all_hosts fs' = all_hosts fs -> all_targets fs' = all_targets fs -> Forall rec_file_ok fs' ->
       exists r', load_run (file_stream <$> fs') s = Some (0, r', stats_of s l)).
Proof.
  intros Hf. assert (run_has run_init [] []) as Hi.
  { split; [|done]. by apply (joiner_new_ok 0). }
  assert (forall fs, Forall rec_file_ok fs -> exists r, read_files (file_stream <$> fs) run_init = Some (0, r) /\
    run_has r (all_hosts fs) (all_targets fs) /\ r_host_hdr r = first_host_hdr fs) as Hread
    by (intros fs0 H0; exact (read_files_spec fs0 run_init [] [] H0 Hi)).
  destruct (Hread fs Hf) as (r & E & (Hj & Hh & Ht & Ha) & Hhdr). destruct (seen_ids fs Hf) as [I1 I2].
  assert (contents (targets (r_joiner r)) ≡ₚ all_targets fs) as Hc.
  { rewrite (add_targets_contents (all_targets fs) (ntp_joiner_new 0) (r_joiner r)); [|by apply (joiner_new_ok 0)|done..].
    change (targets (ntp_joiner_new 0)) with (table_init (R := ntp_tgt_rec)). by rewrite contents_init. }
  destruct (join_hosts_spec (all_hosts fs) (r_joiner r) s (all_targets fs) 0 0 Hj Hc I1 I2) as (j' & l & Ej & Hl & Hn).
  { apply (add_targets_counts _ _ _ 0 0 Ha). done. }
  unfold load_run. rewrite E. cbn [mbind option_bind]. change (nz 0) with false. cbv iota. rewrite Hh, Ej.
  eexists _, l. split; [reflexivity|]. do 5 (split; [done|]).
  intros fs' Eh Et Hf'. destruct (Hread fs' Hf') as (r' & E' & (Hj' & Hh' & Ht' & Ha') & Hhdr').
  rewrite E'. cbn [mbind option_bind]. change (nz 0) with false. cbv iota. rewrite Hh', Eh.
  rewrite Et, Ha in Ha'. injection Ha' as <-. rewrite Ej. by eexists.
Qed.

(** C11: what a report is about.  For any well-formed files of a run, of any
    versions: loading succeeds; the statistics get exactly one sample per host
    record, in the order of the files; each is joined with a target record of its
    own command or with none; no target record is used twice; and none is left
    over that an unmatched host record could have been joined with. *)
Theorem load_run_joins (fs : list rec_file) (s : ntp_stats) :
  Forall rec_file_ok fs ->
  exists r l, load_run (file_stream <$> fs) s = Some (0, r, stats_of s l) /\
    r_hosts r = all_hosts fs /\ r_host_hdr r = first_host_hdr fs /\
    joins (all_hosts fs) (all_targets fs) l.
Proof.
  intros Hf. destruct (load_run_spec fs s Hf) as (r & l & H1 & H2 & _ & H3 & H4 & _ & _). by exists r, l.
Qed.

(** The order of the files does not matter.  A file with only host records
    and one with only target records give the same statistics in either order,
    among any other files. *)
Theorem load_run_order (a b : rec_file) (pre post : list rec_file) (s : ntp_stats) :
  Forall rec_file_ok (pre ++ a :: b :: post) -> tgt_recs (seen a) = [] -> host_recs (seen b) = [] ->
  exists r r' s', load_run (file_stream <$> (pre ++ a :: b :: post)) s = Some (0, r, s') /\
                  load_run (file_stream <$> (pre ++ b :: a :: post)) s = Some (0, r', s').
Proof.
  intros Hf Ha Hb. destruct (load_run_spec _ s Hf) as (r & l & E & _ & _ & _ & _ & _ & Hsame).
  destruct (Hsame (pre ++ b :: a :: post)) as (r' & E').
  - unfold all_hosts. rewrite !fmap_app, !fmap_cons, !concat_app. cbn [concat]. by rewrite Hb, app_nil_l.
  - unfold all_targets. rewrite !fmap_app, !fmap_cons, !concat_app. cbn [concat]. by rewrite Ha, app_nil_l.
  - rewrite !Forall_app, !Forall_cons in *. tauto.
  - by exists r, r', (stats_of s l).
Qed.

(** A host file of version 3 and a target file of version 5. *)
Definition example_files : list rec_file :=
  [(3, old_header 3, [RHost example_host]); (5, old_header 5, [RTgt example_tgt])].

Lemma example_files_ok : Forall rec_file_ok example_files.
Proof.
  pose proof example_recs_ok as H. apply Forall_cons_1 in H as [H1 H]. apply Forall_cons_1 in H as [H2 _].
  repeat (constructor; [split; [apply old_header_of; lia|by repeat constructor]|]). constructor.
Qed.

Lemma load_run_joins_witness :
  exists r l, load_run (file_stream <$> example_files) (ntp_stats_init true true true) =
    Some (0, r, stats_of (ntp_stats_init true true true) l) /\
    r_hosts r = all_hosts example_files /\ r_host_hdr r = first_host_hdr example_files /\
    joins (all_hosts example_files) (all_targets example_files) l.
Proof. exact (load_run_joins example_files (ntp_stats_init true true true) example_files_ok). Defined.

Lemma load_run_order_witness :
  exists r r' s', load_run (file_stream <$> example_files) (ntp_stats_init true true true) = Some (0, r, s') /\
    load_run (file_stream <$> rev example_files) (ntp_stats_init true true true) = Some (0, r', s').
Proof.
  exact (load_run_order (3, old_header 3, [RHost example_host]) (5, old_header 5, [RTgt example_tgt]) [] []
    (ntp_stats_init true true true) example_files_ok eq_refl eq_refl).
Defined.
