(* ===== verification/Record.v ===== *)
(** * Recording (src/record.c)

    The session of `ntprof record`: what the ring buffer's callback does with
    each record, what happens at every interval and at the end, and the file the
    records are saved to.  The programs in the kernel are BpfHost.v and
    BpfTarget.v; the terminal output, signals and the poll loop's timing are not
    modelled. *)
From stdpp Require Import base numbers list.
From Stdlib Require Import ZArith Lia SpecFloat.
From S2P Require Import Prelude Types Model CStr Stats Config TraceFile Join.

Definition TARGET_EXPIRY_NS : Z := 10 * 1000000000.
Definition TARGETS_PER_KEY : Z := 64.
Definition HOST_WAIT_NS : Z := 100 * 1000000.
Definition UINT64_MAX : Z := 2 ^ 64 - 1.

Record session := mk_session {
  s_w : ntp_writer;
  s_writing : bool;
  s_write_errors : Z;
  s_joiner : option ntp_joiner;
  s_interval : ntp_stats;
  s_total : ntp_stats;
  s_host_records : Z;
  s_target_records : Z;
  s_malformed : Z
}.

Definition set_joiner (s : session) (j : option ntp_joiner) : session :=
  mk_session (s_w s) (s_writing s) (s_write_errors s) j (s_interval s) (s_total s) (s_host_records s)
    (s_target_records s) (s_malformed s).
Definition set_stats (s : session) (i t : ntp_stats) : session :=
  mk_session (s_w s) (s_writing s) (s_write_errors s) (s_joiner s) i t (s_host_records s) (s_target_records s)
    (s_malformed s).
Definition set_counts (s : session) (h t m : Z) : session :=
  mk_session (s_w s) (s_writing s) (s_write_errors s) (s_joiner s) (s_interval s) (s_total s) h t m.
Definition set_writer (s : session) (w : ntp_writer) (errs : Z) : session :=
  mk_session w (s_writing s) errs (s_joiner s) (s_interval s) (s_total s) (s_host_records s) (s_target_records s)
    (s_malformed s).

Definition add_host (s : session) (h : ntp_host_rec) (t : option ntp_tgt_rec) : session :=
  set_stats s (ntp_stats_add (s_interval s) h t) (ntp_stats_add (s_total s) h t).

Definition add_unmatched (s : session) (h : ntp_host_rec) : session := add_host s h None.

(** Saving the record; [ok]: how writing it goes. *)
Definition save (s : session) (data : list Z) (ok : fwrite_answer) : session :=
  if s_writing s then
    let '(ret, w) := ntp_writer_add (s_w s) data ok in
    set_writer s w (if nz ret then u64 (s_write_errors s + 1) else s_write_errors s)
  else s.

(** The callback of the ring buffer; [None] for a store out of bounds in the
    joiner. *)
Definition on_record (s : session) (data : list Z) (ok : fwrite_answer) : option session :=
  let k := kind (p_hdr data).1 in
  if (k =? NTP_REC_HOST) && (length data =? SIZEOF_HOST)%nat then
    let h := (p_host data).1 in
    let s := set_counts s (u64 (s_host_records s + 1)) (s_target_records s) (s_malformed s) in
    s ← match s_joiner s with
        | None => Some (add_host s h None)
        | Some j =>
            '(m, j) ← ntp_joiner_host_arrives j h;
            let s := set_joiner s (Some j) in
            Some (match m with Some t => add_host s h (Some t) | None => s end)
        end;
    Some (save s data ok)
  else if (k =? NTP_REC_TARGET) && (length data =? SIZEOF_TGT)%nat then
    let t := (p_tgt data).1 in
    let s := set_counts s (s_host_records s) (u64 (s_target_records s + 1)) (s_malformed s) in
    s ← match s_joiner s with
        | None => Some s
        | Some j =>
            '(m, j) ← ntp_joiner_target_arrives j t;
            let s := set_joiner s (Some j) in
            Some (match m with Some h => add_host s h (Some t) | None => s end)
        end;
    Some (save s data ok)
  else Some (set_counts s (s_host_records s) (s_target_records s) (u64 (s_malformed s + 1))).

(** [ntp_joiner_release_hosts] with [add_unmatched]. *)
Definition release (s : session) (before : Z) : session :=
  match s_joiner s with
  | Some j =>
      let '(outs, j) := ntp_joiner_release_hosts j before in
      foldl add_unmatched (set_joiner s (Some j)) outs
  | None => s
  end.

(** What happens to the waiting records at the end of an interval: host records
    that have waited long enough are added alone, old target records dropped. *)
Definition settle (s : session) (now : Z) : session :=
  let s := release s (u64 (now - HOST_WAIT_NS)) in
  match s_joiner s with
  | Some j => set_joiner s (Some (ntp_joiner_expire j (u64 (now - TARGET_EXPIRY_NS))).2)
  | None => s
  end.

(** [ntp_stats_reset(&s.interval)] *)
Definition reset_interval (s : session) : session := set_stats s (ntp_stats_reset (s_interval s)) (s_total s).

(** The end of an interval at [now], the report apart. *)
Definition tick (s : session) (now : Z) : session := reset_interval (settle s now).

(** The end of the recording, after the ring buffer is drained. *)
Definition finish (s : session) : session := release s UINT64_MAX.

(** The exit status after closing the file; [ok]: whether closing it succeeds. *)
Definition close_writer (s : session) (ret : Z) (ok : bool) : Z * session :=
  if negb (s_writing s) then (ret, s)
  else
    let '(r, w) := ntp_writer_close (s_w s) ok in
    let s := mk_session w false (s_write_errors s) (s_joiner s) (s_interval s) (s_total s) (s_host_records s)
               (s_target_records s) (s_malformed s) in
    (if nz r || nz (s_write_errors s) then 1 else ret, s).

(** The session [record] starts, for a configuration. *)
Definition session_init (c : ntp_config) (w : ntp_writer) : session :=
  let st := ntp_stats_init (c_group_by_type c) (c_group_by_size c) (c_group_by_session c) in
  let st := mk_stats (groups st) (s_cap st) (by_type st) (by_size st) (by_session st) (c_sample_every c)
              (first_ns st) (last_ns st) in
  mk_session w (negb (bool_decide (c_output c = []))) 0
    (if c_role c =? NTP_ROLE_BOTH then Some (ntp_joiner_new TARGETS_PER_KEY) else None) st st 0 0 0.

(** *** Throughput *)

(** [seconds] is a double that is only passed on. *)
Record ntp_tput := mk_tput {
  seconds : spec_float;
  read_ios : Z;
  read_bytes : Z;
  write_ios : Z;
  write_bytes : Z;
  estimated : bool
}.

(** The counters of the kernel programs, by name. *)
Definition read_tput (c : ntp_config) (counter : ntp_counter -> Z) (t : ntp_tput) : ntp_tput :=
  mk_tput (seconds t) (counter NTP_CNT_HOST_READ_IOS) (counter NTP_CNT_HOST_READ_BYTES)
    (counter NTP_CNT_HOST_WRITE_IOS) (counter NTP_CNT_HOST_WRITE_BYTES) (negb (bool_decide (c_spdk_host c = []))).

Definition tput_delta (now prev : ntp_tput) (secs : spec_float) : ntp_tput :=
  mk_tput secs (u64 (read_ios now - read_ios prev)) (u64 (read_bytes now - read_bytes prev))
    (u64 (write_ios now - write_ios prev)) (u64 (write_bytes now - write_bytes prev)) (estimated now).

(** The commands the role's hooks have seen. *)
Definition commands_seen (c : ntp_config) (counter : ntp_counter -> Z) : Z :=
  if has (c_role c) NTP_ROLE_HOST
  then u64 (counter NTP_CNT_HOST_READ_IOS + counter NTP_CNT_HOST_WRITE_IOS)
  else counter NTP_CNT_TGT_CMDS.

(** ** Runs of a session *)

Inductive session_op := SRecord (data : list Z) (ok : fwrite_answer) | STick (now : Z) | SFinish.

Definition session_step (s : session) (op : session_op) : option session :=
  match op with
  | SRecord data ok => on_record s data ok
  | STick now => Some (tick s now)
  | SFinish => Some (finish s)
  end.

Fixpoint session_run (s : session) (ops : list session_op) : option session :=
  match ops with
  | [] => Some s
  | op :: ops => s ← session_step s op; session_run s ops
  end.

(** A host record without a target record. *)
Definition alone (h : ntp_host_rec) : sample := (h, None).

(** What an operation adds to the statistics, and how many waiting host records
    it pushes out of the joiner. *)
Definition op_samples (s : session) (op : session_op) : list sample :=
  match op, s_joiner s with
  | SRecord data _, j =>
      let k := kind (p_hdr data).1 in
      if (k =? NTP_REC_HOST) && (length data =? SIZEOF_HOST)%nat then
        let h := (p_host data).1 in
        match j with
        | None => [(h, None)]
        | Some j => match ntp_joiner_host_arrives j h with Some (Some t, _) => [(h, Some t)] | _ => [] end
        end
      else if (k =? NTP_REC_TARGET) && (length data =? SIZEOF_TGT)%nat then
        let t := (p_tgt data).1 in
        match j with
        | None => []
        | Some j => match ntp_joiner_target_arrives j t with Some (Some h, _) => [(h, Some t)] | _ => [] end
        end
      else []
  | STick now, Some j => alone <$> (ntp_joiner_release_hosts j (u64 (now - HOST_WAIT_NS))).1
  | SFinish, Some j => alone <$> (ntp_joiner_release_hosts j UINT64_MAX).1
  | _, None => []
  end.

Definition op_evicts (s : session) (op : session_op) : Z :=
  match op, s_joiner s with
  | SRecord data _, Some j =>
      if (kind (p_hdr data).1 =? NTP_REC_HOST) && (length data =? SIZEOF_HOST)%nat then
        match table_take (targets j) (h_id (p_host data).1) with
        | Some _ => 0
        | None => match table_push (hosts j) (p_host data).1 (max_per_key j) with Some (d, _) => d | None => 0 end
        end
      else 0
  | _, _ => 0
  end.

(** The samples and evictions of a run, and the samples of its current interval. *)
Fixpoint run_log (s : session) (ops : list session_op) : list sample * Z :=
  match ops with
  | [] => ([], 0)
  | op :: ops =>
      match session_step s op with
      | Some s' => let '(l, n) := run_log s' ops in (op_samples s op ++ l, op_evicts s op + n)
      | None => ([], 0)
      end
  end.

Definition waiting_hosts (s : session) : Z :=
  match s_joiner s with Some j => ntp_joiner_waiting_hosts j | None => 0 end.

Definition session_wf (s : session) : Prop :=
  match s_joiner s with Some j => joiner_wf j | None => True end.

Lemma release_spec s before :
  session_wf s ->
  let l := match s_joiner s with
           | Some j => alone <$> (ntp_joiner_release_hosts j before).1 | None => [] end in
  session_wf (release s before) /\
  s_total (release s before) = stats_of (s_total s) l /\
  s_interval (release s before) = stats_of (s_interval s) l /\
  s_host_records (release s before) = s_host_records s /\
  waiting_hosts (release s before) + Z.of_nat (length l) ≡₆₄ waiting_hosts s.
Proof.
  intros Hw. unfold release, waiting_hosts, session_wf in *. destruct (s_joiner s) as [j|] eqn:E;
    [|rewrite E; repeat (split; [done|]); by rewrite Z.add_0_r].
  unfold ntp_joiner_release_hosts. destruct (table_expire (hosts j) before) as [outs t'] eqn:Ee.
  destruct Hw as (Hm & Ht & Hh). destruct (expire_change _ _ _ _ _ Hh Ee) as (Hw' & _ & _ & Hp).
  cbn [fst]. set (j' := with_st _ _).
  assert (joiner_wf j') as Hj' by (by split).
  assert (ntp_joiner_waiting_hosts j' = pending t') as Hwh by done. clearbody j'.
  assert (forall outs s0, s_joiner (foldl add_unmatched s0 outs) = s_joiner s0 /\
    s_total (foldl add_unmatched s0 outs) = stats_of (s_total s0) (alone <$> outs) /\
    s_interval (foldl add_unmatched s0 outs) = stats_of (s_interval s0) (alone <$> outs) /\
    s_host_records (foldl add_unmatched s0 outs) = s_host_records s0) as Hf.
  { clear. induction outs as [|h outs IH]; intros s0; [done|]. cbn [foldl].
    destruct (IH (add_unmatched s0 h)) as (H1 & H2 & H3 & H4). rewrite H1, H2, H3, H4. done. }
  destruct (Hf outs (set_joiner s (Some j'))) as (H1 & H2 & H3 & H4).
  rewrite H1, H2, H3, H4. cbn [s_joiner set_joiner]. split; [done|]. split; [done|]. split; [done|]. split; [done|].
  rewrite Hwh, length_fmap. unfold ntp_joiner_waiting_hosts. rewrite Hp. cong_solve.
Qed.

Lemma save_frame s data ok :
  s_joiner (save s data ok) = s_joiner s /\ s_total (save s data ok) = s_total s /\
  s_interval (save s data ok) = s_interval s /\ s_host_records (save s data ok) = s_host_records s.
Proof. unfold save. destruct (s_writing s); [|done]. by destruct (ntp_writer_add _ _ _). Qed.

Definition ind_of {A} (m : option A) : Z := match m with Some _ => 1 | None => 0 end.

(** What an arriving host record does to the joiner. *)
Lemma host_arrives_spec j h :
  joiner_wf j ->
  exists m j', ntp_joiner_host_arrives j h = Some (m, j') /\ joiner_wf j' /\
    ntp_joiner_waiting_hosts j' + ind_of m +
      match table_take (targets j) (h_id h) with
      | Some _ => 0
      | None => match table_push (hosts j) h (max_per_key j) with Some (d, _) => d | None => 0 end
      end ≡₆₄ ntp_joiner_waiting_hosts j + 1.
Proof.
  intros (Hm & Ht & Hh). unfold ntp_joiner_host_arrives, ntp_joiner_waiting_hosts.
  destruct (table_take (targets j) (h_id h)) as [[t tbl]|] eqn:E.
  - destruct (take_change _ _ _ _ _ Ht E) as (Hw & _ & _). eexists _, _. split; [reflexivity|].
    split; [by split|]. simpl. cong_solve.
  - destruct (push_change (max_per_key j) (hosts j) h Hm Hh) as (dr & t' & -> & Hw & _ & Hd & Hp). simpl.
    eexists _, _. split; [reflexivity|]. split; [by destruct (nz dr)|].
    replace (pending (hosts (if nz dr then _ else _))) with (pending t') by (by destruct (nz dr)).
    simpl. rewrite Hp. cong_solve.
Qed.

Lemma target_arrives_spec j t :
  joiner_wf j ->
  exists m j', ntp_joiner_target_arrives j t = Some (m, j') /\ joiner_wf j' /\
    ntp_joiner_waiting_hosts j' + ind_of m ≡₆₄ ntp_joiner_waiting_hosts j.
Proof.
  intros Hj. pose proof Hj as (Hm & Ht & Hh). unfold ntp_joiner_target_arrives, ntp_joiner_waiting_hosts.
  destruct (table_take (hosts j) (t_id t)) as [[h tbl]|] eqn:E.
  - destruct (take_change _ _ _ _ _ Hh E) as (Hw & _ & Hp). eexists _, _. split; [reflexivity|].
    split; [by split|]. simpl. rewrite Hp. cong_solve.
  - unfold ntp_joiner_add_target.
    destruct (push_change (max_per_key j) (targets j) t Hm Ht) as (dr & t' & -> & Hw & _ & _ & _). simpl.
    eexists _, _. split; [reflexivity|]. split; [by split|]. simpl. cong_solve.
Qed.

Definition op_interval (s : session) (op : session_op) : ntp_stats :=
  match op with
  | STick _ => ntp_stats_reset (stats_of (s_interval s) (op_samples s op))
  | _ => stats_of (s_interval s) (op_samples s op)
  end.

(** What one operation does: the statistics get its samples, and every host record
    is accounted for. *)
Definition step_accounts (s : session) (op : session_op) (s' : session) : Prop :=
  session_wf s' /\
  s_total s' = stats_of (s_total s) (op_samples s op) /\ s_interval s' = op_interval s op /\
  s_host_records s' + waiting_hosts s ≡₆₄
    s_host_records s + Z.of_nat (length (op_samples s op)) + op_evicts s op + waiting_hosts s'.

Lemma record_step_spec s data ok :
  session_wf s -> exists s', session_step s (SRecord data ok) = Some s' /\ step_accounts s (SRecord data ok) s'.
Proof.
  intros Hw. unfold step_accounts.
  cbn [session_step]. unfold on_record, op_interval, op_samples, op_evicts. cbv zeta.
  set (h := (p_host data).1). set (t := (p_tgt data).1). clearbody h t.
  destruct (_ && (length data =? SIZEOF_HOST)%nat).
  + set (s1 := set_counts s _ _ _). change (s_joiner s1) with (s_joiner s).
    unfold session_wf, waiting_hosts in *. destruct (s_joiner s) as [j|] eqn:Ej.
    * destruct (host_arrives_spec j h Hw) as (m & j' & E & Hj' & Hc). rewrite E. cbn [mbind option_bind].
      eexists. split; [reflexivity|].
      destruct (save_frame (match m with Some t => add_host (set_joiner s1 (Some j')) h (Some t)
        | None => set_joiner s1 (Some j') end) data ok) as (F1 & F2 & F3 & F4). rewrite F1, F2, F3, F4.
      destruct m as [t0|]; cbn -[u64 table_take table_push ntp_joiner_waiting_hosts]; (split; [done|]); (split; [done|]); (split; [done|]);
        cbn [ind_of] in Hc; rewrite (u64_cong (s_host_records s + 1)); cong_from.
    * eexists. split; [reflexivity|]. destruct (save_frame (add_host s1 h None) data ok) as (F1 & F2 & F3 & F4).
      rewrite F1, F2, F3, F4. cbn -[u64 table_take table_push ntp_joiner_waiting_hosts]. rewrite Ej. do 3 (split; [done|]).
      rewrite (u64_cong (s_host_records s + 1)). cong_solve.
  + destruct (_ && (length data =? SIZEOF_TGT)%nat).
    * set (s1 := set_counts s _ _ _). change (s_joiner s1) with (s_joiner s).
      unfold session_wf, waiting_hosts in *. destruct (s_joiner s) as [j|] eqn:Ej.
      -- destruct (target_arrives_spec j t Hw) as (m & j' & E & Hj' & Hc). rewrite E. cbn [mbind option_bind].
         eexists. split; [reflexivity|].
         destruct (save_frame (match m with Some h => add_host (set_joiner s1 (Some j')) h (Some t)
           | None => set_joiner s1 (Some j') end) data ok) as (F1 & F2 & F3 & F4). rewrite F1, F2, F3, F4.
         destruct m as [h0|]; cbn -[u64 table_take table_push ntp_joiner_waiting_hosts]; (split; [done|]); (split; [done|]); (split; [done|]);
           cbn [ind_of] in Hc; cong_from.
      -- eexists. split; [reflexivity|]. destruct (save_frame s1 data ok) as (F1 & F2 & F3 & F4).
         rewrite F1, F2, F3, F4. cbn -[u64 table_take table_push ntp_joiner_waiting_hosts]. rewrite Ej. do 3 (split; [done|]). cong_solve.
    * eexists. split; [reflexivity|]. split; [done|]. split; [by destruct (s_joiner s)|].
      split; [by destruct (s_joiner s)|]. destruct (s_joiner s) eqn:Ej; unfold waiting_hosts; cbn -[u64 table_take table_push ntp_joiner_waiting_hosts]; rewrite Ej; cong_solve.
Qed.

Lemma tick_step_spec s now : session_wf s -> exists s', session_step s (STick now) = Some s' /\ step_accounts s (STick now) s'.
Proof.
  intros Hw. unfold step_accounts.
  cbn [session_step]. eexists. split; [reflexivity|].
  pose proof (release_spec s (u64 (now - HOST_WAIT_NS)) Hw) as Hr. cbv zeta in Hr.
  unfold op_interval, op_samples, op_evicts, tick, reset_interval, settle. cbv zeta. set (s1 := release s _) in *. clearbody s1.
  destruct Hr as (W & T & I & R & P). unfold session_wf, waiting_hosts in *. revert T I P.
  destruct (s_joiner s1) as [j1|] eqn:E1; cbn [s_joiner set_stats set_joiner s_total s_interval s_host_records].
  + intros T I P. split.
    { unfold ntp_joiner_expire. destruct (table_expire (targets j1) _) as [outs t'] eqn:Ee.
      destruct W as (W1 & W2 & W3). destruct (expire_change _ _ _ _ _ W2 Ee) as (Hw' & _). by split. }
    assert (ntp_joiner_waiting_hosts (ntp_joiner_expire j1 (u64 (now - TARGET_EXPIRY_NS))).2 =
      ntp_joiner_waiting_hosts j1) as -> by (unfold ntp_joiner_expire; by destruct (table_expire _ _)).
    rewrite R. revert T I P. destruct (s_joiner s); intros T I P; rewrite T, I; (split; [done|]); (split; [done|]); 
      (match type of P with _ + ?n ≡₆₄ _ => set (x := n) in *; clearbody x; clear T I; cong_from end).
  + intros T I P. rewrite E1, R. split; [done|].
    revert T I P. destruct (s_joiner s); intros T I P; rewrite T, I; (split; [done|]); (split; [done|]); 
      (match type of P with _ + ?n ≡₆₄ _ => set (x := n) in *; clearbody x; clear T I; cong_from end).
Qed.

Lemma finish_step_spec s : session_wf s -> exists s', session_step s SFinish = Some s' /\ step_accounts s SFinish s'.
Proof.
  intros Hw. unfold step_accounts.
  cbn [session_step]. eexists. split; [reflexivity|].
  pose proof (release_spec s UINT64_MAX Hw) as Hr. cbv zeta in Hr.
  unfold op_interval, op_samples, op_evicts, finish. set (s1 := release s _) in *. clearbody s1.
  destruct Hr as (W & T & I & R & P). rewrite R. revert T I P.
  destruct (s_joiner s); intros T I P; rewrite T, I; (split; [done|]); (split; [done|]); (split; [done|]); 
      (match type of P with _ + ?n ≡₆₄ _ => set (x := n) in *; clearbody x; clear T I; cong_from end).
Qed.

Lemma session_step_spec s op : session_wf s -> exists s', session_step s op = Some s' /\ step_accounts s op s'.
Proof. intros Hw. destruct op as [data ok|now|]; [by apply record_step_spec|by apply tick_step_spec|by apply finish_step_spec]. Qed.

Lemma session_run_spec ops s :
  session_wf s ->
  exists s', session_run s ops = Some s' /\ session_wf s' /\
    s_total s' = stats_of (s_total s) (run_log s ops).1 /\
    s_host_records s' + waiting_hosts s ≡₆₄
      s_host_records s + Z.of_nat (length (run_log s ops).1) + (run_log s ops).2 + waiting_hosts s'.
Proof.
  revert s. induction ops as [|op ops IH]; intros s Hw.
  - exists s. split; [done|]. split; [done|]. split; [done|]. simpl. cong_solve.
  - destruct (session_step_spec s op Hw) as (s1 & E & Hw1 & T1 & _ & A1).
    destruct (IH s1 Hw1) as (s2 & E2 & Hw2 & T2 & A2). exists s2.
    cbn [session_run run_log]. rewrite E. cbn [mbind option_bind]. destruct (run_log s1 ops) as [l n]. cbn [fst snd] in *.
    split; [done|]. split; [done|]. split; [rewrite T2, T1; unfold stats_of; by rewrite foldl_app|].
    rewrite length_app, Nat2Z.inj_add. cong_from.
Qed.

Lemma session_init_wf c w : session_wf (session_init c w).
Proof.
  unfold session_wf, session_init. cbn [s_joiner]. destruct (_ =? _); [|done].
  apply joiner_new_ok. unfold TARGETS_PER_KEY. lia.
Qed.

(** C12: a recording accounts for every host record.  Whatever records arrive,
    well formed or not, and whenever intervals end: every step completes (no
    store out of bounds), the report's statistics are exactly those of the
    samples added on the way, and the host records received are the samples, the
    ones still waiting for their target record, and the ones pushed out of the
    joiner because 64 of their key were waiting already.  The last are in no
    report. *)
Theorem session_accounts (c : ntp_config) (w : ntp_writer) (ops : list session_op) :
  exists s, session_run (session_init c w) ops = Some s /\
    s_total s = stats_of (s_total (session_init c w)) (run_log (session_init c w) ops).1 /\
    s_host_records s ≡₆₄ Z.of_nat (length (run_log (session_init c w) ops).1) +
      (run_log (session_init c w) ops).2 + waiting_hosts s.
Proof.
  destruct (session_run_spec ops _ (session_init_wf c w)) as (s & E & _ & T & A).
  exists s. split; [done|]. split; [done|].
  assert (waiting_hosts (session_init c w) = 0) as Hz
    by (unfold waiting_hosts, session_init; cbn [s_joiner]; by destruct (_ =? _)).
  assert (s_host_records (session_init c w) = 0) as Hh by done. rewrite Hz, Hh in A. cong_from.
Qed.

(** ** The saved file *)

(** The records the callback accepts. *)
Definition accepted (data : list Z) : bool :=
  let k := kind (p_hdr data).1 in
  ((k =? NTP_REC_HOST) && (length data =? SIZEOF_HOST)%nat) ||
  ((k =? NTP_REC_TARGET) && (length data =? SIZEOF_TGT)%nat).

Definition saved (op : session_op) : list Z :=
  match op with
  | SRecord data ok => if accepted data then match ok with FwAll => data | FwShort n => take n data end else []
  | _ => []
  end.
Definition save_failed (op : session_op) : Z :=
  match op with SRecord data (FwShort _) => if accepted data then 1 else 0 | _ => 0 end.

Definition save_state (s : session) : bool * ntp_writer * Z := (s_writing s, s_w s, s_write_errors s).

Lemma save_state_release s before : save_state (release s before) = save_state s.
Proof.
  unfold release. destruct (s_joiner s); [|done]. destruct (ntp_joiner_release_hosts _ _) as [outs j].
  assert (forall s0, save_state (foldl add_unmatched s0 outs) = save_state s0) as H
    by (induction outs as [|h outs IH]; intros s0; [done|]; cbn [foldl]; by rewrite IH).
  by rewrite H.
Qed.


(** An accepted record is saved, or counted as an error; nothing else is. *)
Lemma on_record_saves s data ok s' f :
  on_record s data ok = Some s' -> s_writing s = true -> w_f (s_w s) = Some f ->
  s_writing s' = true /\ w_f (s_w s') = Some (f ++ saved (SRecord data ok)) /\
  s_write_errors s' ≡₆₄ s_write_errors s + save_failed (SRecord data ok).
Proof.
  assert (forall s0, save_state s0 = save_state s -> s_writing s = true -> w_f (s_w s) = Some f ->
    let s' := save s0 data ok in
    s_writing s' = true /\ w_f (s_w s') = Some (f ++ match ok with FwAll => data | FwShort n => take n data end) /\
    s_write_errors s' ≡₆₄ s_write_errors s + match ok with FwAll => 0 | FwShort _ => 1 end) as Hsave.
  { intros s0 Hs Hw Hf. unfold save_state in Hs. injection Hs as E1 E2 E3. unfold save, ntp_writer_add.
    rewrite E1, Hw, E2, Hf. destruct ok; cbn; rewrite ?E1, ?E2, ?E3, ?app_nil_r; (split; [done|]).
    - split; [done|]. by rewrite Z.add_0_r.
    - split; [done|]. change (nz (-1)) with true. cbv iota. cong_solve. }
  intros E Hw Hf. cbn [saved save_failed]. unfold on_record, accepted in *. cbv zeta in E.
  destruct (_ && (length data =? SIZEOF_HOST)%nat).
  - cbn [orb]. destruct (s_joiner s) as [j|] eqn:Ej; cbn [s_joiner set_counts] in E; rewrite Ej in E.
    + destruct (ntp_joiner_host_arrives j _) as [[m j']|]; [|done]. cbn [mbind option_bind] in E.
      injection E as <-. apply Hsave; [|done..]. by destruct m.
    + cbn [mbind option_bind] in E. injection E as <-. by apply Hsave.
  - destruct (_ && (length data =? SIZEOF_TGT)%nat); cbn [orb].
    + destruct (s_joiner s) as [j|] eqn:Ej; cbn [s_joiner set_counts] in E; rewrite Ej in E.
      * destruct (ntp_joiner_target_arrives j _) as [[m j']|]; [|done]. cbn [mbind option_bind] in E.
        injection E as <-. apply Hsave; [|done..]. by destruct m.
      * cbn [mbind option_bind] in E. injection E as <-. by apply Hsave.
    + injection E as <-. cbn. destruct ok; rewrite app_nil_r, Z.add_0_r; done.
Qed.

Lemma session_step_saves s op s' f :
  session_step s op = Some s' -> s_writing s = true -> w_f (s_w s) = Some f ->
  s_writing s' = true /\ w_f (s_w s') = Some (f ++ saved op) /\
  s_write_errors s' ≡₆₄ s_write_errors s + save_failed op.
Proof.
  destruct op as [data ok|now|]; cbn [session_step]; [apply on_record_saves|..].
  - intros [= <-] Hw Hf. pose proof (save_state_release s (u64 (now - HOST_WAIT_NS))) as Hs.
    unfold save_state in Hs. injection Hs as E1 E2 E3. unfold tick, reset_interval, settle. cbv zeta.
    destruct (s_joiner (release _ _)); cbn; rewrite E1, E2, E3, app_nil_r, Z.add_0_r; done.
  - intros [= <-] Hw Hf. pose proof (save_state_release s UINT64_MAX) as Hs.
    unfold save_state in Hs. injection Hs as E1 E2 E3. unfold finish.
    cbn; rewrite E1, E2, E3, app_nil_r, Z.add_0_r; done.
Qed.

(** What a recording saves.  When records are saved, the file is the one
    opened followed by exactly the well-formed records whose write succeeded, in
    the order they arrived, and what the stream took of the others; the others are counted, and when one is or closing
    the file fails the recording exits with an error. *)
Theorem session_saves (s : session) (ops : list session_op) (s' : session) (f : list Z) (ret : Z) (ok : bool) :
  session_run s ops = Some s' -> s_writing s = true -> w_f (s_w s) = Some f ->
  w_f (s_w s') = Some (f ++ concat (saved <$> ops)) /\
  s_write_errors s' ≡₆₄ s_write_errors s + foldr Z.add 0 (save_failed <$> ops) /\
  (close_writer s' ret ok).1 = if ok && (s_write_errors s' =? 0) then ret else 1.
Proof.
  revert s f. induction ops as [|op ops IH]; intros s f E Hw Hf.
  - injection E as <-. rewrite app_nil_r, Z.add_0_r. split; [done|]. split; [done|].
    unfold close_writer, ntp_writer_close. rewrite Hw, Hf. cbn [negb].
    destruct ok; cbn; [|done]. unfold nz. by destruct (s_write_errors s =? 0).
  - cbn [session_run] in E. destruct (session_step s op) as [s1|] eqn:E1; [|done]. cbn [mbind option_bind] in E.
    destruct (session_step_saves s op s1 f E1 Hw Hf) as (H1 & H2 & H3).
    destruct (IH s1 (f ++ saved op) E H1 H2) as (H4 & H5 & H6). rewrite !fmap_cons. cbn [concat foldr].
    rewrite H4, <- app_assoc. split; [done|]. split; [cong_from|done].
Qed.

Lemma session_writing s ops s' f :
  session_run s ops = Some s' -> s_writing s = true -> w_f (s_w s) = Some f -> s_writing s' = true.
Proof.
  revert s f. induction ops as [|op ops IH]; intros s f E Hw Hf; [by injection E as <-|].
  cbn [session_run] in E. destruct (session_step s op) as [s1|] eqn:E1; [|done]. cbn [mbind option_bind] in E.
  destruct (session_step_saves s op s1 f E1 Hw Hf) as (H1 & H2 & _). by eapply IH.
Qed.

(** Two records, one of which cannot be written, and a malformed one. *)
Lemma session_saves_witness :
  let c := set_sample_every config_defaults 1 in
  let s := mk_session (mk_writer (Some [1; 2; 3]) 0) true 0 None (s_interval (session_init c (mk_writer None 0)))
             (s_total (session_init c (mk_writer None 0))) 0 0 0 in
  let ops := [SRecord (enc_host example_host) FwAll; SRecord [7; 7; 7] FwAll; SRecord (enc_tgt example_tgt) (FwShort 1)] in
  exists s', session_run s ops = Some s' /\
    w_f (s_w s') = Some ([1; 2; 3] ++ enc_host example_host ++ [2]) /\ (close_writer s' 0 true).1 = 1.
Proof.
  intros c s ops.
  assert (s_write_errors <$> session_run s ops = Some 1) as Hv by (vm_compute; reflexivity).
  assert (concat (saved <$> ops) = enc_host example_host ++ [2]) as Hc by (vm_compute; reflexivity).
  apply fmap_Some in Hv as (s' & E & He). exists s'. split; [exact E|].
  destruct (session_saves s ops s' [1; 2; 3] 0 true E eq_refl eq_refl) as (H1 & _ & H3).
  rewrite Hc in H1. rewrite <- He in H3. split; [exact H1|exact H3].
Defined.

(** Host records can be lost to a full joiner.  When 65 host records of one
    (controller, queue, command id) wait for their target records, the oldest is
    pushed out: at the end 65 host records were received and only 64 are in the
    report, although one without a target record is otherwise reported alone. *)
Theorem evicted_host_unreported :
  let c := mk_config [] NTP_IO_BOTH [] 0 0 0 true [] 1 1 16 NTP_AGG_AVG true true true true false false false false
             false NTP_ROLE_BOTH NTP_TR_TCP 0 [] [] [] false false false [] [] in
  let ops := replicate 65 (SRecord (enc_host example_host) FwAll) ++ [SFinish] in
  exists s, session_run (session_init c (mk_writer None 0)) ops = Some s /\
    s_host_records s = 65 /\ waiting_hosts s = 0 /\ records <$> groups (s_total s) = [64].
Proof.
  cbv zeta. match goal with |- exists s, ?r = Some s /\ _ =>
    assert ((fun s => (s_host_records s, waiting_hosts s, records <$> groups (s_total s))) <$> r = Some (65, 0, [64]))
      as Hv by (vm_compute; reflexivity)
  end.
  apply fmap_Some in Hv as (s & E & H). exists s. split; [exact E|]. cbv beta in H.
  apply pair_equal_spec in H as [H H3]. apply pair_equal_spec in H as [H1 H2].
  split; [exact (eq_sym H1)|]. split; [exact (eq_sym H2)|exact (eq_sym H3)].
Qed.
