(* ===== verification/Report.v ===== *)
(** * The text reports (src/report.c)

    Reports as the bytes they print: throughput, the groups of a run in order of
    size, the stages, queues and components of a group, one line per group of an
    interval, and the comparison of two runs.  A report summarises the samples of
    each component with [ntp_summarize], which also sorts the vector in place;
    since a summary does not depend on the order of the samples, the model prints
    from the vectors as they were, and [report_order_blind] states that nothing
    printed can tell the difference. *)
From stdpp Require Import base numbers list sorting.
From Stdlib Require Import ZArith Lia String SpecFloat.
From S2P Require Import Prelude Types Model CStr Stats Float Summary Printf Config Record.

(** ** Options and tables *)

#[export] Instance ntp_aggr_eq_dec : EqDecision ntp_aggr.
Proof. solve_decision. Defined.

Record ntp_report_opts := mk_report_opts {
  o_aggr : ntp_aggr;
  o_distribution : bool;
  o_breakdown : bool;
  o_detail : bool;
  o_queue_length : bool;
  o_all_groups : bool
}.

Definition ntp_report_opts_from_config (c : ntp_config) : ntp_report_opts :=
  mk_report_opts (c_aggr c) (c_rep_distribution c) (c_rep_breakdown c) (c_rep_detail c) (c_rep_queue_length c)
    (c_rep_all_groups c).

Definition display : list (ntp_comp * nat) :=
  [(NTP_C_BLK_SUB, 0); (NTP_C_TR_SUB, 0); (NTP_C_NET, 0);
   (NTP_C_NET_DATA, 2); (NTP_C_TGT_RX, 0); (NTP_C_TGT_SUB, 0);
   (NTP_C_TGT_WAIT, 0); (NTP_C_TGT_DATA, 0); (NTP_C_TGT_BE, 0);
   (NTP_C_TGT_BE_SUB, 2); (NTP_C_TGT_DEV, 2); (NTP_C_TGT_BE_CMPL, 2);
   (NTP_C_TGT_CMPL, 0); (NTP_C_REMOTE, 0); (NTP_C_HOST_RX, 0);
   (NTP_C_HOST_WAIT, 0); (NTP_C_HOST_DATA, 0);
   (NTP_C_TR_CMPL, 0); (NTP_C_BLK_CMPL, 0); (NTP_C_CMPL_IPI, 2);
   (NTP_C_E2E, 0)]%nat.

Definition LAD_MIN_BASE_NS : double := dbl 500.
Definition MINOR_GROUP_PCT : Z := 1.
Definition BAR_WIDTH : Z := 24.
Definition Q_P50 : nat := 1.
Definition Q_P99 : nat := 6.
Definition Q_P999 : nat := 7.
Definition NAME_W : nat := 38.
Definition LABEL_LEN : nat := 96.
Definition NUM_LEN : nat := 16.
Definition DESC_LEN : nat := 48.

Definition ntp_quantile_names : list (list Z) :=
  bytes <$> ["p10"; "p50"; "p70"; "p80"; "p90"; "p95"; "p99"; "p99.9"]%string.

Definition ntp_queue_names (q : ntp_queue_metric) : list Z :=
  match q with
  | NTP_Q_HOST_UNSENT => bytes "host_unsent"
  | NTP_Q_HOST_INFLIGHT => bytes "host_inflight"
  | NTP_Q_TGT_OUTSTANDING => bytes "target_outstanding"
  | NTP_Q_TGT_RESP_QUEUE => bytes "target_resp_queue"
  end.

Definition all_queues : list ntp_queue_metric :=
  [NTP_Q_HOST_UNSENT; NTP_Q_HOST_INFLIGHT; NTP_Q_TGT_OUTSTANDING; NTP_Q_TGT_RESP_QUEUE].

(** The summary of a vector. *)
Definition summary_of (v : i64vec) : ntp_summary := (ntp_summarize v).1.
(** [m->q[i]] *)
Definition qat (m : ntp_summary) (i : nat) : Z := default 0 (sm_q m !! i).
Definition qname (i : nat) : list Z := default [] (ntp_quantile_names !! i).

Definition dzero : double := S754_zero false.
Definition dpos (x : double) : bool := dlt dzero x.

(** ** Numbers *)

Definition us (ns : double) : double := ddiv ns (dbl 1000).

Definition human (v : double) (len : nat) : list Z :=
  fit len
    (if dlt v (dbl 1000) then fmt_f 0 v
     else if dlt v (dbl 1000000) then fmt_f 1 (ddiv v (dbl 1000)) ++ bytes "k"
     else fmt_f 2 (ddiv v (dbl 1000000)) ++ bytes "M").

Definition share (part whole : double) : double :=
  if dpos whole then ddiv (dmul (dbl 100) part) whole else dzero.

Definition bar (pct : double) : list Z :=
  let w := dtrunc (dadd (ddiv (dmul pct (dbl BAR_WIDTH)) (dbl 100)) (frac_lit 1 2)) in
  let w := if BAR_WIDTH <? w then BAR_WIDTH else w in
  replicate (Z.to_nat w) 35.

Definition ntp_report_tput (t : ntp_tput) : list Z :=
  let s := if dpos (seconds t) then seconds t else dbl 1 in
  let any := nz (read_ios t) || negb (nz (write_ios t)) in
  bytes "throughput (" ++
  (if estimated t then bytes "estimated from the sampled commands" else bytes "all commands") ++ bytes "):" ++
  (if any then
     bytes " read " ++ fmt_f 1 (ddiv (ddiv (dbl (read_ios t)) s) (dbl 1000)) ++ bytes " kIOPS, " ++
     fmt_f 1 (ddiv (ddiv (dbl (read_bytes t)) s) (dbl 1000000)) ++ bytes " MB/s"
   else []) ++
  (if nz (write_ios t) then
     (if any then bytes " |" else []) ++
     bytes " write " ++ fmt_f 1 (ddiv (ddiv (dbl (write_ios t)) s) (dbl 1000)) ++ bytes " kIOPS, " ++
     fmt_f 1 (ddiv (ddiv (dbl (write_bytes t)) s) (dbl 1000000)) ++ bytes " MB/s"
   else []) ++ NL.

(** ** The order of the groups *)

Definition total_records (s : ntp_stats) : Z := foldl (fun n g => u64 (n + records g)) 0 (groups s).

(** [s->groups[i].records] *)
Definition records_at (gs : list ntp_group) (i : nat) : Z := from_option records 0 (gs !! i).

(** The inner loop: entries with fewer records move up, then [i] is stored. *)
Fixpoint shift_in (gs : list ntp_group) (idx : list nat) (i j : nat) : list nat :=
  match j with
  | S j' =>
      let p := default O (idx !! j') in
      if records_at gs p <? records_at gs i then shift_in gs (<[j := p]> idx) i j' else <[j := i]> idx
  | O => <[j := i]> idx
  end.

Definition order_groups (s : ntp_stats) : list nat :=
  let n := List.length (groups s) in
  foldl (fun idx i => shift_in (groups s) idx i i) (replicate n O) (seq 0 n).

Definition folded (s : ntp_stats) (idx : list nat) (i : nat) (total : Z) (o : ntp_report_opts) : bool :=
  negb (bool_decide (i = O)) && negb (o_all_groups o) &&
  (u64 (records_at (groups s) (default O (idx !! i)) * 100) <? u64 (total * MINOR_GROUP_PCT)).

(** The groups a loop over the display order visits. *)
Definition group_at (s : ntp_stats) (i : nat) : ntp_group := default (new_group (mk_group_key 0 0 [])) (groups s !! i).

(** The positions of the folded groups. *)
Definition folded_at (s : ntp_stats) (idx : list nat) (total : Z) (o : ntp_report_opts) : list nat :=
  filter (fun i => folded s idx i total o = true) (seq 0 (List.length (groups s))).

Definition plural (n : Z) : list Z := if 1 <? n then bytes "s" else [].

Definition print_minor (s : ntp_stats) (idx : list nat) (total : Z) (o : ntp_report_opts) : list Z :=
  let hidden := folded_at s idx total o in
  let group i := group_at s (default O (idx !! i)) in
  let recs := foldl (fun r i => u64 (r + records (group i))) 0 hidden in
  let n := Z.of_nat (List.length hidden) in
  if n =? 0 then [] else
  bytes "+ " ++ print_u n ++ bytes " more group" ++ plural n ++ bytes " with " ++ print_u recs ++
  bytes " record" ++ plural recs ++ bytes " in all (under " ++ print_d MINOR_GROUP_PCT ++ bytes " % each):" ++
  mjoin (imap (fun k i => (if bool_decide (k = O) then [] else bytes ",") ++ bytes " " ++
                           ntp_group_label (key (group i)) LABEL_LEN) (take 4 hidden)) ++
  (if 4 <? n then bytes ", ..." else []) ++ bytes "; --all-groups shows them" ++ NL.

(** ** The stages of a group *)

(** A row names its stage, what users read, and the samples. *)
Record srow := mk_srow { r_key : list Z; r_desc : list Z; r_v : i64vec; r_m : ntp_summary }.

Definition row (k : list Z) (d : list Z) (v : i64vec) : srow := mk_srow k (fit DESC_LEN d) v (summary_of v).

Definition group_joined (g : ntp_group) : bool :=
  nz (vlen (stage_v g NTP_S3_S5)) && (vlen (comp_v g NTP_C_E2E) <=? 2 * vlen (stage_v g NTP_S3_S5)).

Definition stage_row (g : ntp_group) (st : ntp_stage) (d : list Z) : srow :=
  row (bytes (ntp_stage_keys st)) d (stage_v g st).

Definition stage_rows (g : ntp_group) (joined : bool) : list srow :=
  let rdma := g_transport g =? NTP_TR_RDMA in
  let host_tr := if spdk_host g then bytes "SPDK" else if rdma then bytes "nvme-rdma" else bytes "nvme-tcp" in
  let tgt_tr := if spdk_target g then bytes "SPDK" else if rdma then bytes "nvmet-rdma" else bytes "nvmet-tcp" in
  (if spdk_host g then [] else [stage_row g NTP_S1 (bytes "host block layer")]) ++
  [stage_row g NTP_S2 (bytes "host driver (" ++ host_tr ++ bytes ")")] ++
  (if joined then
     [stage_row g NTP_S3_S5 (if rdma then bytes "network (RDMA, NICs, wire)" else bytes "network (TCP/IP, NICs, wire)");
      stage_row g NTP_S6 (bytes "target driver (" ++ tgt_tr ++ bytes ")");
      stage_row g NTP_S7_S9 (if spdk_target g then bytes "storage (SPDK bdev, drive)"
                             else bytes "storage (target block layer, drive)")]
   else
     [row (bytes "host_receive") (bytes "host receive path") (comp_v g NTP_C_HOST_RX)] ++
     (if nz (vlen (comp_v g NTP_C_HOST_WAIT))
      then [row (bytes "host_data_wait") (bytes "rest of the data arriving") (comp_v g NTP_C_HOST_WAIT)] else []) ++
     [row (bytes "network_and_target") (bytes "network and target (not recorded)") (comp_v g NTP_C_REMOTE)]).

(** ** Printing a group *)

Definition has_n (m : ntp_summary) : bool := nz (sm_n m).
(** [us((double)x)] with two decimals *)
Definition us_of (x : Z) : list Z := fmt_f 2 (us (dbl x)).
Definition is_aggr (o : ntp_report_opts) (a : ntp_aggr) : bool := bool_decide (o_aggr o = a).

Definition print_latency (e : ntp_summary) (o : ntp_report_opts) : list Z :=
  bytes "  latency (us): mean " ++ fmt_f 2 (us (sm_mean e)) ++
  (if is_aggr o NTP_AGG_MIN then bytes ", min " ++ us_of (sm_min e) else []) ++
  (if o_distribution o then
     if is_aggr o NTP_AGG_DIST then
       mjoin ((fun i => bytes ", " ++ qname i ++ bytes " " ++ us_of (qat e i)) <$> seq 0 NTP_NQ)
     else bytes ", p50 " ++ us_of (qat e Q_P50) ++ bytes ", p99 " ++ us_of (qat e Q_P99) ++
          bytes ", p99.9 " ++ us_of (qat e Q_P999)
   else []) ++
  (if is_aggr o NTP_AGG_MAX || is_aggr o NTP_AGG_DIST then bytes ", max " ++ us_of (sm_max e) else []) ++ NL.

(** One line of the stage table. *)
Definition print_stage (inflight : bool) (rate : double) (e2e : ntp_summary) (r : srow) : list Z :=
  let pct := share (sm_mean (r_m r)) (sm_mean e2e) in
  bytes "  " ++ padr NAME_W (r_desc r) ++ bytes " " ++ padl 8 (fmt_f 2 (us (sm_mean (r_m r)))) ++ bytes " " ++
  padl 5 (fmt_f 0 pct) ++ bytes "%" ++
  (if inflight then bytes " " ++ padl 8 (fmt_f 2 (ddiv (dmul rate (sm_mean (r_m r))) (dbl 1000000000))) else []) ++
  bytes "  " ++ bar pct ++ NL.

(** The row with the largest mean so far ([top]). *)
Definition top_step (top : option srow) (r : srow) : option srow :=
  if has_n (r_m r) then
    match top with
    | None => Some r
    | Some t => if dlt (sm_mean (r_m t)) (sm_mean (r_m r)) then Some r else top
    end
  else top.

Definition top_row (rows : list srow) : option srow := foldl top_step None rows.

Definition print_stages (g : ntp_group) (rate : double) (e2e : ntp_summary) (o : ntp_report_opts) : list Z :=
  let rows := stage_rows g (group_joined g) in
  let inflight := o_queue_length o && dpos rate in
  bytes "  " ++ padr NAME_W (bytes "stage") ++ bytes " " ++ padl 8 (bytes "mean us") ++ bytes " " ++
  padl 6 (bytes "share") ++ (if inflight then bytes " " ++ padl 8 (bytes "avg QD") else []) ++ NL ++
  mjoin ((fun r => if has_n (r_m r) then print_stage inflight rate e2e r else []) <$> rows) ++
  match top_row rows with
  | Some t =>
      if (1 <? List.length rows)%nat then
        bytes "  largest: " ++ r_desc t ++ bytes ", " ++ fmt_f 0 (share (sm_mean (r_m t)) (sm_mean e2e)) ++
        bytes " % of the latency" ++ NL
      else []
  | None => []
  end.

Definition print_queues (g : ntp_group) : list Z :=
  let '(any, out) :=
    foldl (fun '(any, out) q =>
      let m := summary_of (queue_v g q) in
      if has_n m then
        (true, out ++ (if any : bool then bytes "," else bytes "  queue length at arrival (mean/p99):") ++ bytes " " ++
               ntp_queue_names q ++ bytes " " ++ fmt_f 2 (sm_mean m) ++ bytes "/" ++ print_d (qat m Q_P99))
      else (any, out)) (false, []) all_queues in
  out ++ (if any then NL else []).

(** ** The component table *)

Definition columns (o : ntp_report_opts) : list nat :=
  if negb (o_distribution o) then []
  else if is_aggr o NTP_AGG_DIST then seq 0 NTP_NQ else [Q_P50; Q_P99].

Definition print_header (o : ntp_report_opts) : list Z :=
  bytes "  " ++ padr NAME_W (bytes "component") ++ bytes " " ++ padl 8 (bytes "n") ++ bytes " " ++
  padl 9 (bytes "mean") ++ bytes " " ++ padl 7 (bytes "L") ++
  (if is_aggr o NTP_AGG_MIN then bytes " " ++ padl 9 (bytes "min") else []) ++
  mjoin ((fun i => bytes " " ++ padl 9 (qname i)) <$> columns o) ++
  (if is_aggr o NTP_AGG_MAX then bytes " " ++ padl 9 (bytes "max") else []) ++
  bytes "   (us)" ++ NL.

Definition print_row (label : list Z) (indent : nat) (m : ntp_summary) (rate : double) (o : ntp_report_opts) : list Z :=
  bytes "  " ++ padl indent [] ++ padr (NAME_W - indent) label ++ bytes " " ++ padl 8 (print_u (sm_n m)) ++
  bytes " " ++ padl 9 (fmt_f 2 (us (sm_mean m))) ++ bytes " " ++
  (if dpos rate then padl 7 (fmt_f 2 (ddiv (dmul rate (sm_mean m)) (dbl 1000000000))) else padl 7 (bytes "-")) ++
  (if is_aggr o NTP_AGG_MIN then bytes " " ++ padl 9 (us_of (sm_min m)) else []) ++
  mjoin ((fun i => bytes " " ++ padl 9 (us_of (qat m i))) <$> columns o) ++
  (if is_aggr o NTP_AGG_MAX then bytes " " ++ padl 9 (us_of (sm_max m)) else []) ++ NL.

Definition print_components (g : ntp_group) (rate : double) (o : ntp_report_opts) : list Z :=
  bytes "  components, in path order (L: commands in each, by Little's law)" ++ NL ++ print_header o ++
  mjoin ((fun '(c, indent) =>
    let m := summary_of (comp_v g c) in
    if has_n m then print_row (bytes (ci_desc (ntp_comps c))) indent m rate o else []) <$> display).

(** ** A group, and the report of a run *)

Definition print_group (s : ntp_stats) (o : ntp_report_opts) (g : ntp_group) : list Z :=
  let rate := ntp_group_rate s g in
  let usable := u64 (records g - bad_host g) in
  let e2e := summary_of (comp_v g NTP_C_E2E) in
  NL ++ bytes "== " ++ ntp_group_label (key g) LABEL_LEN ++ bytes ": " ++ print_u (records g) ++
  bytes " commands sampled" ++
  (if dpos rate then bytes " (from about " ++ human rate NUM_LEN ++ bytes " commands/s)" else []) ++
  (if (g_joined g =? usable) && nz usable then bytes ", all with the target's side"
   else if nz (g_joined g) then
     bytes ", " ++ fmt_f 0 (share (dbl (g_joined g)) (dbl usable)) ++ bytes " % with the target's side"
   else bytes ", host side only") ++ NL ++
  (if nz (bad_host g) || nz (bad_target g) then
     bytes "  incomplete records left out: " ++ print_u (bad_host g) ++ bytes " host, " ++ print_u (bad_target g) ++
     bytes " target (events missed; see ntprof probe)" ++ NL
   else []) ++
  (if nz (g_post_estimated g) then
     bytes "  " ++ print_u (g_post_estimated g) ++
     bytes " target records lack the response's posting (a kprobe that did not run): nvmet_req_complete's time stands in, so their target driver completion reads 0" ++ NL
   else []) ++
  (if has_n e2e then
     print_latency e2e o ++
     (if o_breakdown o then print_stages g rate e2e o else []) ++
     (if o_queue_length o then print_queues g else []) ++
     (if o_detail o then print_components g rate o else [])
   else []).

(** The groups a report shows, in display order. *)
Definition shown_groups (s : ntp_stats) (o : ntp_report_opts) : list ntp_group :=
  let idx := order_groups s in
  (fun i => group_at s (default O (idx !! i))) <$>
    filter (fun i => folded s idx i (total_records s) o = false) (seq 0 (List.length (groups s))).

Definition ntp_report_text (s : ntp_stats) (o : ntp_report_opts) : list Z :=
  match groups s with
  | [] => bytes "no NVMe-oF read or write was sampled: was I/O running on the profiled device? (one command in -s N is sampled)" ++ NL
  | _ =>
      mjoin (print_group s o <$> shown_groups s o) ++
      print_minor s (order_groups s) (total_records s) o
  end.

(** ** Online intervals *)

Definition ntp_report_interval_header : list Z :=
  padl 8 [] ++ bytes "  " ++ padr 22 [] ++ bytes " " ++ padl 6 [] ++ bytes " " ++ padl 8 [] ++ bytes " " ++
  padl 9 [] ++ bytes " " ++ padl 9 [] ++ bytes " " ++ padr 15 (bytes "     host") ++ bytes " " ++ padl 7 [] ++
  bytes " " ++ padr 15 (bytes "    target") ++ NL ++
  padl 8 (bytes "time") ++ bytes "  " ++ padr 22 (bytes "group") ++
  mjoin ((fun '(w, s) => bytes " " ++ padl w (bytes s)) <$>
    [(6%nat, "n"); (8%nat, "cmds/s"); (9%nat, "mean us"); (9%nat, "p99 us"); (7%nat, "block"); (7%nat, "driver");
     (7%nat, "network"); (7%nat, "driver"); (7%nat, "storage")]%string) ++ NL.

(** The share columns: up to the network when the target's side is missing. *)
Fixpoint interval_columns (g : ntp_group) (e2e : ntp_summary) (joined : bool) (l : list ntp_stage) : list Z :=
  match l with
  | [] => []
  | st :: l =>
      let m := summary_of (stage_v g st) in
      if negb joined && bool_decide (st = NTP_S3_S5) then
        let rx := summary_of (comp_v g NTP_C_HOST_RX) in
        let rem := summary_of (comp_v g NTP_C_REMOTE) in
        let wait := summary_of (comp_v g NTP_C_HOST_WAIT) in
        bytes " " ++ padl 5 (fmt_f 0 (share (dadd (dadd (sm_mean rx) (sm_mean rem)) (sm_mean wait)) (sm_mean e2e))) ++
        bytes "%*"
      else
        (if has_n m then bytes " " ++ padl 6 (fmt_f 0 (share (sm_mean m) (sm_mean e2e))) ++ bytes "%"
         else bytes " " ++ padl 7 (bytes "-")) ++
        interval_columns g e2e joined l
  end.

Definition interval_line (s : ntp_stats) (t_s : double) (g : ntp_group) : list Z :=
  let rate := ntp_group_rate s g in
  let e2e := summary_of (comp_v g NTP_C_E2E) in
  if has_n e2e then
    padl 7 (fmt_f 1 t_s) ++ bytes "s  " ++ padr 22 (take 22 (ntp_group_label (key g) LABEL_LEN)) ++ bytes " " ++
    padl 6 (print_u (records g)) ++ bytes " " ++
    padl 8 (if dpos rate then human rate NUM_LEN else bytes "-") ++ bytes " " ++
    padl 9 (fmt_f 2 (us (sm_mean e2e))) ++ bytes " " ++ padl 9 (us_of (qat e2e Q_P99)) ++
    interval_columns g e2e (group_joined g) all_stages ++ NL
  else [].

Definition ntp_report_interval (s : ntp_stats) (o : ntp_report_opts) (t_s : double) : list Z :=
  if o_detail o then NL ++ bytes "--- " ++ fmt_f 1 t_s ++ bytes " s ---" ++ NL ++ ntp_report_text s o
  else
    match groups s with
    | [] => padl 7 (fmt_f 1 t_s) ++ bytes "s  " ++ padr 22 (bytes "(no sampled commands)") ++ NL
    | _ => mjoin (interval_line s t_s <$> shown_groups s o)
    end.

(** ** Comparing two runs *)

(** One row, and its LAD. *)
Definition lad_row (desc : list Z) (indent : nat) (bv lv : i64vec) : list Z * double :=
  let b := summary_of bv in
  let l := summary_of lv in
  if has_n b && has_n l then
    let head := bytes "  " ++ padl indent [] ++ padr (NAME_W - indent) desc ++ bytes " " ++
                padl 9 (fmt_f 2 (us (sm_mean b))) ++ bytes " " ++ padl 9 (fmt_f 2 (us (sm_mean l))) in
    if dle LAD_MIN_BASE_NS (sm_mean b) then
      let lad := ddiv (sm_mean l) (sm_mean b) in
      (head ++ bytes " " ++ padl 7 (fmt_f 2 lad) ++ NL, lad)
    else (head ++ bytes " " ++ padl 7 (bytes "n/a") ++ NL, dzero)
  else ([], dzero).

(** The same stage in the baseline. *)
Definition find_row (rows : list srow) (k : list Z) : option srow := head (filter (fun r => r_key r = k) rows).

Definition compare_rows (br lr : list srow) : list Z * (double * option srow) :=
  foldl (fun '(out, (best, best_row)) l =>
    match find_row br (r_key l) with
    | None => (out, (best, best_row))
    | Some b =>
        let '(t, lad) := lad_row (r_desc l) 0 (r_v b) (r_v l) in
        (out ++ t, if dlt best lad then (lad, Some l) else (best, best_row))
    end) ([], (dzero, None)) lr.

Definition compare_group (bg lg : ntp_group) (o : ntp_report_opts) : list Z :=
  let joined := group_joined bg && group_joined lg in
  let '(rows, (best, best_row)) := compare_rows (stage_rows bg joined) (stage_rows lg joined) in
  NL ++ bytes "== " ++ ntp_group_label (key lg) LABEL_LEN ++ bytes ": baseline " ++ print_u (records bg) ++
  bytes " commands sampled, loaded " ++ print_u (records lg) ++ NL ++
  bytes "  " ++ padr NAME_W (bytes "stage") ++ bytes " " ++ padl 9 (bytes "base us") ++ bytes " " ++
  padl 9 (bytes "load us") ++ bytes " " ++ padl 7 (bytes "LAD") ++ NL ++ rows ++
  (lad_row (bytes (ci_desc (ntp_comps NTP_C_E2E))) 0 (comp_v bg NTP_C_E2E) (comp_v lg NTP_C_E2E)).1 ++
  match best_row with
  | Some r => bytes "  largest LAD: " ++ r_desc r ++ bytes ", " ++ fmt_f 2 best ++ NL
  | None => []
  end ++
  (if o_detail o then
     bytes "  components" ++ NL ++
     mjoin ((fun '(c, indent) =>
       if bool_decide (c = NTP_C_E2E) then []
       else (lad_row (bytes (ci_desc (ntp_comps c))) indent (comp_v bg c) (comp_v lg c)).1) <$> display)
   else []).

Definition ntp_report_compare (base loaded : ntp_stats) (o : ntp_report_opts) : list Z :=
  let total := total_records loaded in
  let idx := order_groups loaded in
  let '(out, (shown, skipped)) :=
    foldl (fun '(out, (shown, skipped)) i =>
      let lg := group_at loaded (default O (idx !! i)) in
      match find_group (key lg) (groups base) 0 with
      | None => (out, (shown, skipped))
      | Some bi =>
          if folded loaded idx i total o then (out, (shown, skipped + 1))
          else (out ++ compare_group (group_at base bi) lg o, (shown + 1, skipped))
      end) ([], (0, 0)) (seq 0 (List.length (groups loaded))) in
  out ++
  (if shown =? 0 then bytes "no group (I/O type, size, device) is present in both runs" ++ NL
   else if nz skipped then
     bytes "+ " ++ print_d skipped ++ bytes " more group" ++ plural skipped ++ bytes " in both runs, under " ++
     print_d MINOR_GROUP_PCT ++ bytes " % of the records each; --all-groups shows them" ++ NL
   else []).

(** ** The order of the groups, proved *)

Section Order.
  Context (gs : list ntp_group).

(** Before in the display: more records, or as many and added earlier. *)
Definition before (a b : nat) : Prop :=
  records_at gs b < records_at gs a \/ (records_at gs a = records_at gs b /\ (a < b)%nat).

(** The inner loop stores [i] after the last entry that has at least its records. *)
Lemma shift_in_spec (l : list nat) x (l2 : list nat) i :
  exists l1 l3, l = l1 ++ l3 /\ Forall (fun p => records_at gs p < records_at gs i) l3 /\
    (forall p, last l1 = Some p -> records_at gs i <= records_at gs p) /\
    shift_in gs (l ++ x :: l2) i (List.length l) = l1 ++ i :: l3 ++ l2.
Proof.
  revert x l2. induction l as [|p l IH] using rev_ind; intros x l2; [by exists [], []|].
  rewrite length_app. cbn [List.length]. rewrite Nat.add_1_r. cbn [shift_in].
  assert (default O (((l ++ [p]) ++ x :: l2) !! List.length l) = p) as ->.
  { rewrite <- app_assoc. cbn [app]. by rewrite list_lookup_middle. }
  assert (forall y, <[S (List.length l) := y]> ((l ++ [p]) ++ x :: l2) = (l ++ [p]) ++ y :: l2) as Hins.
  { intros y. replace (S (List.length l)) with (List.length (l ++ [p]) + 0)%nat by (rewrite length_app; simpl; lia).
    by rewrite insert_app_r. }
  rewrite Hins. destruct (Z.ltb_spec (records_at gs p) (records_at gs i)) as [Hlt|Hge].
  - destruct (IH p (p :: l2)) as (l1 & l3 & -> & H3 & H1 & E). exists l1, (l3 ++ [p]).
    split; [by rewrite app_assoc|]. split; [apply Forall_app; auto|]. split; [done|].
    rewrite <- app_assoc. cbn [app]. rewrite E. by rewrite <- app_assoc.
  - exists (l ++ [p]), []. split; [by rewrite app_nil_r|]. split; [done|]. split; [|by rewrite Hins].
    intros q. rewrite last_snoc. intros [= <-]. lia.
Qed.

(** The prefix that is in order after [i] rounds. *)
Lemma order_prefix n i :
  (i <= n)%nat ->
  exists l, foldl (fun idx i => shift_in gs idx i i) (replicate n O) (seq 0 i) = l ++ replicate (n - i) O /\
            l ≡ₚ seq 0 i /\ StronglySorted before l.
Proof.
  induction i as [|i IH]; intros Hi; [exists []; split; [by rewrite Nat.sub_0_r|]; split; [done|constructor]|].
  destruct IH as (l & E & Hp & Hs); [lia|]. rewrite seq_S, foldl_app, E. cbn [foldl Nat.add].
  replace (n - i)%nat with (S (n - S i)) by lia. cbn [replicate].
  assert (List.length l = i) as Hlen by (by rewrite Hp, length_seq).
  destruct (shift_in_spec l O (replicate (n - S i) O) i) as (l1 & l3 & -> & H3 & H1 & E').
  rewrite Hlen in E'. rewrite E'. exists (l1 ++ i :: l3). split; [by rewrite <- app_assoc|].
  split; [rewrite <- Hp, <- Permutation_middle, Permutation_cons_append; done|].
  assert (forall p, p ∈ l1 ++ l3 -> (p < i)%nat) as Hidx.
  { intros p Hin. rewrite Hp in Hin. apply elem_of_seq in Hin. lia. }
  apply StronglySorted_app in Hs as (Hc & Hs1 & Hs3). apply StronglySorted_app. split; [|split].
  - intros a b Ha [->|Hb]%elem_of_cons; [|by apply Hc].
    assert (records_at gs i <= records_at gs a) as Hle.
    { destruct (last l1) as [p|] eqn:El; [|apply last_None in El; subst; by apply elem_of_nil in Ha].
      specialize (H1 p eq_refl). apply last_Some in El as [l' ->].
      apply elem_of_app in Ha as [Ha|Ha]; [|by apply list_elem_of_singleton in Ha as ->].
      apply StronglySorted_app in Hs1 as (Hc1 & _). specialize (Hc1 a p Ha ltac:(by left)). unfold before in Hc1. lia. }
    assert (a < i)%nat by (apply Hidx, elem_of_app; by left). unfold before. lia.
  - done.
  - apply StronglySorted_cons. split; [|done]. eapply Forall_impl; [exact H3|]. intros p Hlt. by left.
Qed.

End Order.

Lemma order_spec s :
  order_groups s ≡ₚ seq 0 (List.length (groups s)) /\ StronglySorted (before (groups s)) (order_groups s).
Proof.
  destruct (order_prefix (groups s) (List.length (groups s)) (List.length (groups s)) ltac:(lia)) as (l & E & Hp & Hs).
  rewrite Nat.sub_diag in E. cbn [replicate] in E. rewrite app_nil_r in E. unfold order_groups. by rewrite E.
Qed.

(** The order of the groups: a report goes through every group exactly once, the
    one with the most records first, and groups with as many records in the
    order they first appeared.  (The order is strict and total, so this is the
    one result a sort of the groups can have.) *)
Theorem order_groups_sorted s :
  order_groups s ≡ₚ seq 0 (List.length (groups s)) /\ StronglySorted (before (groups s)) (order_groups s).
Proof. apply order_spec. Qed.

(** ** Which groups a report shows *)

Definition records_sum (gs : list ntp_group) : Z := foldr (fun g n => records g + n) 0 gs.

(** The records are counted without overflow when multiplied by 100. *)
Definition records_fit (gs : list ntp_group) : Prop :=
  Forall (fun g => 0 <= records g) gs /\ records_sum gs < 2 ^ 57.

Lemma records_sum_perm l l' : l ≡ₚ l' -> records_sum l = records_sum l'.
Proof. unfold records_sum. induction 1; simpl; lia. Qed.

Lemma records_sum_app l l' : records_sum (l ++ l') = records_sum l + records_sum l'.
Proof. unfold records_sum. induction l as [|g l IH]; simpl in *; lia. Qed.

Lemma records_sum_nonneg l : Forall (fun g => 0 <= records g) l -> 0 <= records_sum l.
Proof. induction 1; simpl in *; lia. Qed.

Lemma records_sum_in l g : Forall (fun g => 0 <= records g) l -> g ∈ l -> records g <= records_sum l.
Proof.
  induction 1 as [|h l Hh Hl IH]; [by intros ?%elem_of_nil|]. pose proof (records_sum_nonneg l Hl).
  intros [->|Hin]%elem_of_cons; [simpl; lia|]. specialize (IH Hin). simpl. lia.
Qed.

Lemma u64_fold {A} (f : A -> Z) (l : list A) n :
  Forall (fun a => 0 <= f a) l -> 0 <= n -> n + foldr (fun a s => f a + s) 0 l < 2 ^ 64 ->
  foldl (fun n a => u64 (n + f a)) n l = n + foldr (fun a s => f a + s) 0 l.
Proof.
  intros Hl. revert n. induction Hl as [|a l Ha Hl IH]; intros n Hn Hlt; simpl in *; [lia|].
  assert (0 <= foldr (fun a s => f a + s) 0 l) by (clear -Hl; induction Hl; simpl in *; lia).
  rewrite u64_small by (unfold is_u64; lia). rewrite IH by lia. lia.
Qed.

Lemma total_records_sum s : records_fit (groups s) -> total_records s = records_sum (groups s).
Proof. intros [H1 H2]. unfold total_records. rewrite u64_fold; [done|done|lia|]. change (0 + records_sum (groups s) < 2 ^ 64). lia. Qed.

(** The positions a rising predicate selects are the last ones. *)
Lemma filter_rising (f : nat -> bool) n :
  (forall i j, (i <= j < n)%nat -> f i = true -> f j = true) ->
  exists k, (k <= n)%nat /\ filter (fun i => f i = false) (seq 0 n) = seq 0 k /\
            filter (fun i => f i = true) (seq 0 n) = seq k (n - k).
Proof.
  induction n as [|n IH]; intros Hf; [by exists O|].
  destruct IH as (k & Hk & E1 & E2); [intros i j Hij; apply Hf; lia|].
  rewrite seq_S, !filter_app, E1, E2. cbn [Nat.add]. rewrite !filter_cons, !filter_nil.
  destruct (f n) eqn:En.
  - exists k. split; [lia|]. rewrite app_nil_r. split; [done|].
    replace (S n - k)%nat with (S (n - k)) by lia. rewrite seq_S. by replace (k + (n - k))%nat with n by lia.
  - exists (S n). split; [done|]. rewrite Nat.sub_diag. assert (k = n) as ->.
    { destruct (decide (k = n)) as [|Hne]; [done|]. exfalso.
      assert (k ∈ filter (fun i => f i = true) (seq 0 n)) as Hin by (rewrite E2; apply elem_of_seq; lia).
      apply list_elem_of_filter in Hin as [Hfk _]. by rewrite (Hf k n ltac:(lia) Hfk) in En. }
    rewrite Nat.sub_diag, seq_S. done.
Qed.

(** The groups in display order. *)
Definition displayed (s : ntp_stats) : list ntp_group := group_at s <$> order_groups s.

Lemma group_at_all s : group_at s <$> seq 0 (List.length (groups s)) = groups s.
Proof.
  apply list_eq. intros i. rewrite list_lookup_fmap. destruct (decide (i < List.length (groups s))%nat) as [Hi|Hi].
  - rewrite lookup_seq_lt by done. simpl. unfold group_at. destruct (lookup_lt_is_Some_2 _ _ Hi) as [g ->]. done.
  - rewrite (proj2 (lookup_ge_None _ _)) by (rewrite length_seq; lia). symmetry. apply lookup_ge_None. lia.
Qed.

Lemma displayed_perm s : displayed s ≡ₚ groups s.
Proof. unfold displayed. rewrite (proj1 (order_spec s)). by rewrite group_at_all. Qed.

Lemma displayed_sorted s : StronglySorted (fun a b => records b <= records a) (displayed s).
Proof.
  unfold displayed. destruct (order_spec s) as [Hp Hs].
  assert (Forall (fun i => i < List.length (groups s))%nat (order_groups s)) as Hr.
  { apply Forall_forall. intros i Hi. rewrite Hp in Hi. apply elem_of_seq in Hi. lia. }
  clear Hp. induction Hs as [|a l Hs IH Ha]; [constructor|]. apply Forall_cons_1 in Hr as [Hra Hr].
  cbn [fmap list_fmap]. constructor; [by apply IH|]. apply Forall_fmap. apply Forall_forall. intros b Hb. cbn.
  rewrite Forall_forall in Ha, Hr. specialize (Ha b Hb). specialize (Hr b Hb). unfold before, records_at in Ha.
  unfold group_at. destruct (lookup_lt_is_Some_2 _ _ Hra) as [ga Ea]. destruct (lookup_lt_is_Some_2 _ _ Hr) as [gb Eb].
  rewrite Ea, Eb in *. simpl in *. lia.
Qed.

(** Positions and groups: what the loops over the display order see. *)
Lemma displayed_slice s k m :
  (k + m <= List.length (groups s))%nat ->
  (fun i => group_at s (default O (order_groups s !! i))) <$> seq k m = take m (drop k (displayed s)).
Proof.
  intros Hkm. assert (List.length (order_groups s) = List.length (groups s)) as Hl
    by (rewrite (proj1 (order_spec s)); apply length_seq).
  apply list_eq. intros i. rewrite list_lookup_fmap. destruct (decide (i < m)%nat) as [Hi|Hi].
  - rewrite lookup_seq_lt by done. rewrite lookup_take_lt by done. rewrite lookup_drop. unfold displayed.
    rewrite list_lookup_fmap. destruct (lookup_lt_is_Some_2 (order_groups s) (k + i) ltac:(lia)) as [x Hx]. simpl. by rewrite Hx.
  - rewrite (proj2 (lookup_ge_None _ _)) by (rewrite length_seq; lia). symmetry. apply lookup_ge_None.
    rewrite length_take. lia.
Qed.

(** The line for the groups not shown. *)
Definition minor_line (hidden : list ntp_group) : list Z :=
  let n := Z.of_nat (List.length hidden) in
  if n =? 0 then [] else
  bytes "+ " ++ print_u n ++ bytes " more group" ++ plural n ++ bytes " with " ++ print_u (records_sum hidden) ++
  bytes " record" ++ plural (records_sum hidden) ++ bytes " in all (under 1 % each):" ++
  mjoin (imap (fun k g => (if bool_decide (k = O) then [] else bytes ",") ++ bytes " " ++
                          ntp_group_label (key g) LABEL_LEN) (take 4 hidden)) ++
  (if 4 <? n then bytes ", ..." else []) ++ bytes "; --all-groups shows them" ++ NL.

Lemma folded_spec s o i g :
  records_fit (groups s) -> displayed s !! i = Some g ->
  folded s (order_groups s) i (total_records s) o =
  negb (bool_decide (i = O)) && negb (o_all_groups o) && (100 * records g <? records_sum (groups s)).
Proof.
  intros Hfit Hi. unfold folded. f_equal. rewrite (total_records_sum s Hfit). destruct Hfit as [Hpos Hlt].
  unfold displayed in Hi. apply list_lookup_fmap_Some in Hi as (p & -> & ->). cbn [default from_option id].
  assert (records_at (groups s) p = records (group_at s p)) as Hr
    by (unfold records_at, group_at; by destruct (groups s !! p)).
  rewrite Hr. pose proof (records_sum_nonneg _ Hpos) as H0.
  assert (0 <= records (group_at s p) <= records_sum (groups s)) as Hb.
  { unfold group_at. destruct (groups s !! p) as [g|] eqn:E; [|simpl; lia]. simpl.
    apply list_elem_of_lookup_2 in E. split; [|by apply records_sum_in]. rewrite Forall_forall in Hpos. by apply Hpos. }
  unfold MINOR_GROUP_PCT. rewrite !u64_small by (unfold is_u64; lia). f_equal; lia.
Qed.

Lemma print_minor_line s o k :
  records_fit (groups s) -> (k <= List.length (groups s))%nat ->
  folded_at s (order_groups s) (total_records s) o = seq k (List.length (groups s) - k) ->
  print_minor s (order_groups s) (total_records s) o = minor_line (drop k (displayed s)).
Proof.
  intros [Hpos Hlt] Hk E. unfold print_minor, minor_line. rewrite E. cbv zeta.
  assert (List.length (displayed s) = List.length (groups s)) as Hl by (by rewrite displayed_perm).
  pose proof (displayed_slice s k (List.length (groups s) - k) ltac:(lia)) as Hsl.
  rewrite (take_ge (drop k (displayed s))) in Hsl by (rewrite length_drop; lia).
  rewrite <- Hsl, length_fmap, <- fmap_take, imap_fmap. unfold compose.
  set (f := fun i => group_at s (default O (order_groups s !! i))) in *.
  assert (foldl (fun r i => u64 (r + records (group_at s (default O (order_groups s !! i))))) 0 (seq k (List.length (groups s) - k)) =
          records_sum (f <$> seq k (List.length (groups s) - k))) as ->; [|done].
  assert (Forall (fun g => 0 <= records g) (displayed s)) as Hpd by (by rewrite displayed_perm).
  assert (records_sum (displayed s) < 2 ^ 57) as Hld by (by rewrite (records_sum_perm _ _ (displayed_perm s))).
  rewrite <- (take_drop k (displayed s)), records_sum_app, <- Hsl in Hld.
  rewrite <- (take_drop k (displayed s)), Forall_app, <- Hsl in Hpd. destruct Hpd as [Hp1 Hp2].
  pose proof (records_sum_nonneg _ Hp1). unfold records_sum in *. rewrite foldr_fmap in *.
  rewrite u64_fold; [done|exact (proj1 (Forall_fmap _ _ _) Hp2)|done|]. subst f. cbv beta in Hld. lia.
Qed.

Lemma displayed_le s i j gi gj :
  displayed s !! i = Some gi -> displayed s !! j = Some gj -> (i <= j)%nat -> records gj <= records gi.
Proof.
  intros Hi Hj Hij. destruct (decide (i = j)) as [->|Hne]; [rewrite Hi in Hj; injection Hj as <-; done|].
  pose proof (displayed_sorted s) as Hs. rewrite <- (take_drop j (displayed s)) in Hs.
  apply StronglySorted_app in Hs as (Hc & _). apply Hc.
  - apply (list_elem_of_lookup_2 _ i). rewrite lookup_take_lt; [done|lia].
  - apply (list_elem_of_lookup_2 _ O). by rewrite lookup_drop, Nat.add_0_r.
Qed.

(** The groups shown are the first ones, the folded ones the rest. *)
Lemma folded_split s o :
  groups s <> [] -> records_fit (groups s) ->
  let n := List.length (groups s) in
  let fold_at i := folded s (order_groups s) i (total_records s) o in
  exists k, (1 <= k <= n)%nat /\ filter (fun i => fold_at i = false) (seq 0 n) = seq 0 k /\
    folded_at s (order_groups s) (total_records s) o = seq k (n - k) /\
    (forall i g, displayed s !! i = Some g -> ((i < k)%nat <-> (fold_at i = false))).
Proof.
  intros Hne Hfit n fold_at. assert (List.length (displayed s) = n) as Hlen by (by rewrite displayed_perm).
  assert (1 <= n)%nat as Hn by (unfold n; destruct (groups s); [done|simpl; lia]).
  destruct (filter_rising fold_at n) as (k & Hk & E1 & E2).
  { intros i j Hij. destruct (lookup_lt_is_Some_2 (displayed s) i ltac:(lia)) as [gi Hi].
    destruct (lookup_lt_is_Some_2 (displayed s) j ltac:(lia)) as [gj Hj]. unfold fold_at.
    rewrite (folded_spec s o i gi Hfit Hi), (folded_spec s o j gj Hfit Hj). intros [[H1 H2]%andb_true_iff H3]%andb_true_iff.
    apply negb_true_iff, bool_decide_eq_false in H1. rewrite bool_decide_false by lia. rewrite H2. cbn [negb andb].
    pose proof (displayed_le s i j gi gj Hi Hj ltac:(lia)). apply Z.ltb_lt in H3. apply Z.ltb_lt. lia. }
  assert (forall i g, displayed s !! i = Some g -> ((i < k)%nat <-> (fold_at i = false))) as Hik.
  { intros i g Hi. apply lookup_lt_Some in Hi. transitivity (i ∈ seq 0 k); [rewrite elem_of_seq; lia|].
    rewrite <- E1, list_elem_of_filter, elem_of_seq. split; [tauto|]. intros. split; [done|lia]. }
  exists k. split; [|done]. split; [|done].
  destruct (lookup_lt_is_Some_2 (displayed s) 0 ltac:(lia)) as [g Hg]. apply (Hik O g Hg). unfold fold_at.
  by rewrite (folded_spec s o 0 g Hfit Hg).
Qed.

(** C20: The text report of a run shows every group once, the largest first: a section
    for each group, then one line that counts the groups left out and their
    records.  The first group always has its section; another one has it unless
    it holds under 1 % of the records and --all-groups is off, and only such
    groups are on the last line, whose counts are exact. *)
Theorem report_text_groups s o :
  groups s <> [] -> records_fit (groups s) ->
  exists shown hidden,
    shown ++ hidden ≡ₚ groups s /\ StronglySorted (fun a b => records b <= records a) (shown ++ hidden) /\
    shown <> [] /\
    Forall (fun g => o_all_groups o = true \/ records_sum (groups s) <= 100 * records g) (tail shown) /\
    Forall (fun g => o_all_groups o = false /\ 100 * records g < records_sum (groups s)) hidden /\
    ntp_report_text s o = mjoin (print_group s o <$> shown) ++ minor_line hidden.
Proof.
  intros Hne Hfit. destruct (folded_split s o Hne Hfit) as (k & Hk & E1 & E2 & Hik). cbv zeta in *.
  assert (List.length (displayed s) = List.length (groups s)) as Hlen by (by rewrite displayed_perm).
  pose proof (displayed_sorted s) as Hs.
  exists (take k (displayed s)), (drop k (displayed s)). rewrite take_drop.
  split; [apply displayed_perm|]. split; [done|]. split.
  { intros E%(f_equal List.length). rewrite length_take in E. simpl in E. lia. }
  split; [|split].
  - apply Forall_forall. intros g [i Hi]%list_elem_of_lookup_1. rewrite lookup_tail, lookup_take_Some in Hi.
    destruct Hi as [Hi Hlt]. apply (Hik (S i) g Hi) in Hlt. rewrite (folded_spec s o (S i) g Hfit Hi) in Hlt.
    rewrite bool_decide_false in Hlt by done. cbn [negb andb] in Hlt. destruct (o_all_groups o); [by left|right].
    cbn [negb andb] in Hlt. apply Z.ltb_ge in Hlt. lia.
  - apply Forall_forall. intros g [i Hi]%list_elem_of_lookup_1. rewrite lookup_drop in Hi.
    pose proof (Hik _ _ Hi) as Hx. destruct (folded s (order_groups s) (k + i) (total_records s) o) eqn:E; [|exfalso; lia].
    rewrite (folded_spec s o (k + i) g Hfit Hi) in E. apply andb_true_iff in E as [[_ E]%andb_true_iff E'].
    apply negb_true_iff in E. apply Z.ltb_lt in E'. done.
  - unfold ntp_report_text. destruct (groups s) as [|g0 l0] eqn:Eg; [done|]. rewrite <- Eg in *. clear Eg.
    rewrite (print_minor_line s o k Hfit) by (done || lia). f_equal. f_equal. unfold shown_groups. cbv zeta. rewrite E1.
    by rewrite displayed_slice by lia.
Qed.

(** Three groups, one of them minor. *)
Definition example_stats : ntp_stats :=
  mk_stats
    ((fun '(k, n) => mk_group (mk_group_key k 4096 (bytes "nvme1n1")) n n 0 0 0 0 false false
                       (fun _ => mk_i64vec [3; 1; 2] 1024) (fun _ => vec_empty) (fun _ => vec_empty)) <$>
     [(0, 200); (1, 5); (-1, 1000)]) 8 true true true 1000 1 2000000000.

Definition example_opts : ntp_report_opts := mk_report_opts NTP_AGG_AVG true true false true false.

Lemma report_text_groups_witness :
  records_fit (groups example_stats) /\ order_groups example_stats = [2; 0; 1]%nat /\
  exists shown hidden, shown ++ hidden ≡ₚ groups example_stats /\
    ntp_report_text example_stats example_opts = mjoin (print_group example_stats example_opts <$> shown) ++ minor_line hidden.
Proof.
  assert (records_fit (groups example_stats)) as Hfit by (split; [repeat constructor; by vm_compute|by vm_compute]).
  split; [exact Hfit|]. split; [by vm_compute|].
  destruct (report_text_groups example_stats example_opts) as (shown & hidden & H1 & _ & _ & _ & _ & H2); [done|done|].
  by exists shown, hidden.
Defined.

(** ** Reports do not depend on the order of the samples *)

(** The same samples, in some order. *)
#[export] Instance i64vec_equiv : Equiv i64vec := fun v v' => iv v ≡ₚ iv v'.
#[export] Instance i64vec_equivalence : Equivalence (≡@{i64vec}).
Proof.
  split; unfold equiv, i64vec_equiv.
  - by intros v.
  - by intros v v' ->.
  - by intros v v' v'' -> ->.
Qed.

Record group_equiv (g g' : ntp_group) : Prop := {
  ge_key : key g = key g';
  ge_records : records g = records g';
  ge_joined : g_joined g = g_joined g';
  ge_bad_host : bad_host g = bad_host g';
  ge_bad_target : bad_target g = bad_target g';
  ge_post : g_post_estimated g = g_post_estimated g';
  ge_transport : g_transport g = g_transport g';
  ge_spdk_host : spdk_host g = spdk_host g';
  ge_spdk_target : spdk_target g = spdk_target g';
  ge_comp : forall c, comp_v g c ≡ comp_v g' c;
  ge_stage : forall st, stage_v g st ≡ stage_v g' st;
  ge_queue : forall q, queue_v g q ≡ queue_v g' q
}.

#[export] Instance ntp_group_equiv : Equiv ntp_group := group_equiv.

Record stats_equiv (s s' : ntp_stats) : Prop := {
  se_groups : Forall2 (≡@{ntp_group}) (groups s) (groups s');
  se_sample : s_sample_every s = s_sample_every s';
  se_first : first_ns s = first_ns s';
  se_last : last_ns s = last_ns s'
}.

#[export] Instance ntp_stats_equiv : Equiv ntp_stats := stats_equiv.

#[export] Instance summary_of_proper : Proper ((≡@{i64vec}) ==> (=)) summary_of.
Proof.
  intros v v' H. unfold summary_of, ntp_summarize. unfold equiv, i64vec_equiv in H. rewrite (qsort_same _ _ H).
  destruct (iv v) as [|x l], (iv v') as [|y l']; try done.
  - by apply Permutation_nil_l in H.
  - by apply Permutation_nil_r in H.
Qed.

#[export] Instance vlen_proper : Proper ((≡@{i64vec}) ==> (=)) vlen.
Proof. intros v v' H. unfold vlen. by rewrite (Permutation_length H). Qed.

(** Rows that differ at most in the order of their samples. *)
#[export] Instance srow_equiv : Equiv srow :=
  fun r r' => r_key r = r_key r' /\ r_desc r = r_desc r' /\ r_v r ≡ r_v r' /\ r_m r = r_m r'.

Lemma row_equiv k d v v' : v ≡ v' -> row k d v ≡ row k d v'.
Proof. intros H. split; [done|]. split; [done|]. split; [done|]. simpl. by rewrite H. Qed.

Lemma mjoin_Forall2 {A B} (R : A -> A -> Prop) (f f' : A -> list B) l l' :
  Forall2 R l l' -> (forall a a', R a a' -> f a = f' a') -> mjoin (f <$> l) = mjoin (f' <$> l').
Proof.
  intros H Hf. induction H as [|a a' l l' Ha Hl IH]; [done|].
  change (f a ++ mjoin (f <$> l) = f' a' ++ mjoin (f' <$> l')). by rewrite (Hf a a' Ha), IH.
Qed.

Lemma Forall2_if {A} (R : A -> A -> Prop) (b : bool) l1 l1' l2 l2' :
  Forall2 R l1 l1' -> Forall2 R l2 l2' -> Forall2 R (if b then l1 else l2) (if b then l1' else l2').
Proof. by destruct b. Qed.

Lemma stage_rows_equiv g g' j : g ≡ g' -> Forall2 (≡@{srow}) (stage_rows g j) (stage_rows g' j).
Proof.
  intros []. unfold stage_rows, stage_row. rewrite ge_transport0, ge_spdk_host0, ge_spdk_target0.
  rewrite (vlen_proper _ _ (ge_comp0 NTP_C_HOST_WAIT)).
  repeat first [apply Forall2_app|apply Forall2_if|constructor|apply row_equiv; auto].
Qed.

Lemma group_joined_equiv g g' : g ≡ g' -> group_joined g = group_joined g'.
Proof.
  intros []. unfold group_joined. by rewrite (vlen_proper _ _ (ge_comp0 NTP_C_E2E)), (vlen_proper _ _ (ge_stage0 NTP_S3_S5)).
Qed.

Lemma top_row_equiv rows rows' :
  Forall2 (≡@{srow}) rows rows' -> option_Forall2 (≡@{srow}) (top_row rows) (top_row rows').
Proof.
  intros H. unfold top_row. assert (option_Forall2 (≡@{srow}) None None) as H0 by constructor.
  revert H0. generalize (@None srow) at 1 3. generalize (@None srow).
  induction H as [|r r' rows rows' Hr Hrows IH]; intros t' t Ht; [done|]. simpl. apply IH.
  pose proof (proj2 (proj2 (proj2 Hr))) as Em. unfold top_step. rewrite Em. destruct (has_n (r_m r')); [|done].
  destruct Ht as [t0 t0' Ht0|]; [|by constructor]. rewrite (proj2 (proj2 (proj2 Ht0))).
  destruct (dlt _ _); by constructor.
Qed.

Lemma print_stages_equiv g g' rate e o : g ≡ g' -> print_stages g rate e o = print_stages g' rate e o.
Proof.
  intros H. unfold print_stages. rewrite (group_joined_equiv g g' H).
  pose proof (stage_rows_equiv g g' (group_joined g') H) as Hr. pose proof (top_row_equiv _ _ Hr) as Ht. cbv zeta.
  rewrite (Forall2_length _ _ _ Hr).
  rewrite (mjoin_Forall2 (≡@{srow}) _ (fun r => if has_n (r_m r) then print_stage (o_queue_length o && dpos rate) rate e r else []) _ _ Hr).
  - do 9 f_equal. destruct Ht as [t t' (_ & -> & _ & ->)|]; done.
  - intros r r' (_ & Hd & _ & Hm). unfold print_stage. by rewrite Hd, Hm.
Qed.

Lemma foldl_same {A B} (f f' : A -> B -> A) l a : (forall a b, f a b = f' a b) -> foldl f a l = foldl f' a l.
Proof. intros H. revert a. induction l as [|b l IH]; intros a; [done|]. cbn [foldl]. by rewrite H, IH. Qed.

Lemma print_queues_equiv g g' : g ≡ g' -> print_queues g = print_queues g'.
Proof.
  intros []. unfold print_queues. match goal with |- (let '(_, _) := ?x in _) = (let '(_, _) := ?y in _) => assert (x = y) as ->; [|done] end.
  apply foldl_same. intros [any out] q.
  by rewrite (summary_of_proper _ _ (ge_queue0 q)).
Qed.

Lemma print_components_equiv g g' rate o : g ≡ g' -> print_components g rate o = print_components g' rate o.
Proof.
  intros []. unfold print_components. do 4 f_equal. apply list_fmap_ext. intros i [c n] _.
  by rewrite (summary_of_proper _ _ (ge_comp0 c)).
Qed.

Lemma group_rate_equiv s s' g g' : s ≡ s' -> g ≡ g' -> ntp_group_rate s g = ntp_group_rate s' g'.
Proof. intros [] []. unfold ntp_group_rate. by rewrite se_first0, se_last0, se_sample0, ge_records0. Qed.

Lemma print_group_equiv s s' o g g' : s ≡ s' -> g ≡ g' -> print_group s o g = print_group s' o g'.
Proof.
  intros Hs H. unfold print_group. rewrite (group_rate_equiv s s' g g' Hs H).
  rewrite (summary_of_proper _ _ (ge_comp _ _ H NTP_C_E2E)), (print_queues_equiv g g' H). cbv zeta.
  rewrite (print_stages_equiv g g' _ _ o H), (print_components_equiv g g' _ o H).
  destruct H. by rewrite ge_key0, ge_records0, ge_joined0, ge_bad_host0, ge_bad_target0, ge_post0.
Qed.

Lemma interval_columns_equiv g g' e j l : g ≡ g' -> interval_columns g e j l = interval_columns g' e j l.
Proof.
  intros []. induction l as [|st l IH]; [done|]. cbn [interval_columns]. rewrite IH.
  by rewrite (summary_of_proper _ _ (ge_stage0 st)), (summary_of_proper _ _ (ge_comp0 NTP_C_HOST_RX)),
    (summary_of_proper _ _ (ge_comp0 NTP_C_REMOTE)), (summary_of_proper _ _ (ge_comp0 NTP_C_HOST_WAIT)).
Qed.

Lemma interval_line_equiv s s' t g g' : s ≡ s' -> g ≡ g' -> interval_line s t g = interval_line s' t g'.
Proof.
  intros Hs H. unfold interval_line. rewrite (group_rate_equiv s s' g g' Hs H), (group_joined_equiv g g' H).
  rewrite (summary_of_proper _ _ (ge_comp _ _ H NTP_C_E2E)). cbv zeta. rewrite (interval_columns_equiv g g' _ _ _ H).
  destruct H. by rewrite ge_key0, ge_records0.
Qed.

(** Everything that decides which groups are shown. *)
Lemma records_at_equiv gs gs' i : Forall2 (≡@{ntp_group}) gs gs' -> records_at gs i = records_at gs' i.
Proof.
  intros H. unfold records_at. destruct (gs !! i) as [g|] eqn:E.
  - destruct (Forall2_lookup_l _ _ _ _ _ H E) as (g' & -> & Hg). by destruct Hg.
  - apply lookup_ge_None in E. rewrite (Forall2_length _ _ _ H) in E. by apply lookup_ge_None in E as ->.
Qed.

Lemma order_groups_equiv s s' : s ≡ s' -> order_groups s = order_groups s'.
Proof.
  intros [Hg _ _ _]. unfold order_groups. rewrite (Forall2_length _ _ _ Hg). cbv zeta.
  assert (forall idx i j, shift_in (groups s) idx i j = shift_in (groups s') idx i j) as Hs.
  { intros idx i j. revert idx. induction j as [|j IH]; intros idx; [done|]. cbn [shift_in].
    rewrite !(records_at_equiv _ _ _ Hg), !IH. done. }
  by apply foldl_same.
Qed.

Lemma total_records_equiv s s' : s ≡ s' -> total_records s = total_records s'.
Proof.
  intros [Hg _ _ _]. unfold total_records. generalize 0. induction Hg as [|g g' l l' H Hl IH]; intros n; [done|].
  cbn [foldl]. destruct H. by rewrite ge_records0.
Qed.

Lemma folded_equiv s s' idx i o : s ≡ s' -> folded s idx i (total_records s) o = folded s' idx i (total_records s') o.
Proof.
  intros H. unfold folded. rewrite (total_records_equiv s s' H). destruct H. by rewrite (records_at_equiv _ _ _ se_groups0).
Qed.

Lemma group_at_equiv s s' i : s ≡ s' -> group_at s i ≡ group_at s' i.
Proof.
  intros [Hg _ _ _]. unfold group_at. destruct (groups s !! i) as [g|] eqn:E.
  - by destruct (Forall2_lookup_l _ _ _ _ _ Hg E) as (g' & -> & H).
  - apply lookup_ge_None in E. rewrite (Forall2_length _ _ _ Hg) in E. apply lookup_ge_None in E as ->. by split.
Qed.

Lemma filter_false_ext {A} (f f' : A -> bool) b (l : list A) :
  (forall a, f a = f' a) -> filter (fun a => f a = b) l = filter (fun a => f' a = b) l.
Proof. intros H. apply list_filter_iff. intros a. by rewrite H. Qed.

Lemma shown_groups_equiv s s' o : s ≡ s' -> Forall2 (≡@{ntp_group}) (shown_groups s o) (shown_groups s' o).
Proof.
  intros H. unfold shown_groups. rewrite (order_groups_equiv s s' H). cbv zeta.
  rewrite (filter_false_ext _ _ false _ (fun i => folded_equiv s s' (order_groups s') i o H)).
  rewrite (Forall2_length _ _ _ (se_groups _ _ H)). apply Forall2_fmap, Forall_Forall2_diag, Forall_forall.
  intros i _. by apply group_at_equiv.
Qed.

Lemma print_minor_equiv s s' idx o :
  s ≡ s' -> print_minor s idx (total_records s) o = print_minor s' idx (total_records s') o.
Proof.
  intros H. unfold print_minor, folded_at. rewrite (Forall2_length _ _ _ (se_groups _ _ H)).
  rewrite (filter_false_ext _ _ true _ (fun i => folded_equiv s s' idx i o H)). cbv zeta.
  set (hidden := filter _ _). assert (forall i, records (group_at s i) = records (group_at s' i)) as Hr
    by (intros i; by destruct (group_at_equiv s s' i H)).
  assert (forall i, key (group_at s i) = key (group_at s' i)) as Hk by (intros i; by destruct (group_at_equiv s s' i H)).
  assert (foldl (fun r i => u64 (r + records (group_at s (default O (idx !! i))))) 0 hidden =
          foldl (fun r i => u64 (r + records (group_at s' (default O (idx !! i))))) 0 hidden) as ->.
  { apply foldl_same. intros r i. by rewrite Hr. }
  destruct (_ =? 0); [done|]. do 13 f_equal. apply imap_ext. intros k i _. by rewrite Hk.
Qed.

Lemma lad_row_equiv d n b b' l l' : b ≡ b' -> l ≡ l' -> lad_row d n b l = lad_row d n b' l'.
Proof. intros Hb Hl. unfold lad_row. by rewrite (summary_of_proper _ _ Hb), (summary_of_proper _ _ Hl). Qed.

Lemma find_row_equiv rows rows' k :
  Forall2 (≡@{srow}) rows rows' -> option_Forall2 (≡@{srow}) (find_row rows k) (find_row rows' k).
Proof.
  intros H. unfold find_row. induction H as [|r r' rows rows' Hr H IH]; [constructor|].
  rewrite !filter_cons. pose proof (proj1 Hr) as Hk. rewrite Hk. destruct (decide _); [by constructor|done].
Qed.

Definition best_equiv (x x' : list Z * (double * option srow)) : Prop :=
  x.1 = x'.1 /\ x.2.1 = x'.2.1 /\ option_Forall2 (≡@{srow}) x.2.2 x'.2.2.

Lemma compare_rows_equiv br br' lr lr' :
  Forall2 (≡@{srow}) br br' -> Forall2 (≡@{srow}) lr lr' -> best_equiv (compare_rows br lr) (compare_rows br' lr').
Proof.
  intros Hb Hl. unfold compare_rows.
  assert (best_equiv ([], (dzero, None)) ([], (dzero, None))) as H0 by (split; [done|split; [done|constructor]]).
  revert H0. generalize (@nil Z, (dzero, @None srow)) at 1 3. generalize (@nil Z, (dzero, @None srow)).
  induction Hl as [|l l' lr lr' Hl Hlr IH]; intros x' x Hx; [done|]. cbn [foldl]. apply IH. clear IH.
  destruct x as [out [best r]], x' as [out' [best' r']]. destruct Hx as (H1 & H2 & H3). simpl in H1, H2, H3. subst out' best'.
  pose proof Hl as (Hk & Hd & Hv & Hm). rewrite Hk. pose proof (find_row_equiv br br' (r_key l') Hb) as Hf.
  destruct Hf as [b b' Hbb|]; [|done]. rewrite Hd, (lad_row_equiv _ _ _ (r_v b') _ (r_v l')) by (done || apply Hbb).
  destruct (lad_row _ _ _ _) as [t lad]. destruct (dlt best lad); [|done]. split; [done|]. split; [done|]. by constructor.
Qed.

Lemma compare_group_equiv bg bg' lg lg' o :
  bg ≡ bg' -> lg ≡ lg' -> compare_group bg lg o = compare_group bg' lg' o.
Proof.
  intros Hb Hl. unfold compare_group. rewrite (group_joined_equiv _ _ Hb), (group_joined_equiv _ _ Hl). cbv zeta.
  set (j := group_joined bg' && group_joined lg').
  pose proof (compare_rows_equiv _ _ _ _ (stage_rows_equiv bg bg' j Hb) (stage_rows_equiv lg lg' j Hl)) as Hr.
  destruct (compare_rows (stage_rows bg j) _) as [out [best r]], (compare_rows (stage_rows bg' j) _) as [out' [best' r']].
  destruct Hr as (H1 & H2 & H3). simpl in H1, H2, H3. subst out' best'.
  rewrite (ge_key _ _ Hl), (ge_records _ _ Hb), (ge_records _ _ Hl).
  rewrite (lad_row_equiv _ _ _ _ _ _ (ge_comp _ _ Hb NTP_C_E2E) (ge_comp _ _ Hl NTP_C_E2E)).
  assert (mjoin ((fun '(c, indent) => if bool_decide (c = NTP_C_E2E) then [] else
      (lad_row (bytes (ci_desc (ntp_comps c))) indent (comp_v bg c) (comp_v lg c)).1) <$> display) =
    mjoin ((fun '(c, indent) => if bool_decide (c = NTP_C_E2E) then [] else
      (lad_row (bytes (ci_desc (ntp_comps c))) indent (comp_v bg' c) (comp_v lg' c)).1) <$> display)) as ->.
  { f_equal. apply list_fmap_ext. intros i [c n] _.
    by rewrite (lad_row_equiv _ n _ _ _ _ (ge_comp _ _ Hb c) (ge_comp _ _ Hl c)). }
  destruct H3 as [x x' (_ & -> & _)|]; done.
Qed.

Lemma find_group_equiv k gs gs' i : Forall2 (≡@{ntp_group}) gs gs' -> find_group k gs i = find_group k gs' i.
Proof.
  intros H. revert i. induction H as [|g g' gs gs' Hg H IH]; intros i; [done|]. cbn [find_group].
  by rewrite (ge_key _ _ Hg), IH.
Qed.

Lemma compare_equiv b b' l l' o : b ≡ b' -> l ≡ l' -> ntp_report_compare b l o = ntp_report_compare b' l' o.
Proof.
  intros Hb Hl. unfold ntp_report_compare. rewrite (order_groups_equiv l l' Hl), (Forall2_length _ _ _ (se_groups _ _ Hl)).
  cbv zeta. match goal with |- (let '(_, _) := ?x in _) = (let '(_, _) := ?y in _) => assert (x = y) as ->; [|done] end.
  apply foldl_same. intros [out [shown skipped]] i. set (p := default O _).
  rewrite (ge_key _ _ (group_at_equiv l l' p Hl)), (find_group_equiv _ _ _ _ (se_groups _ _ Hb)).
  destruct (find_group _ _ _) as [bi|]; [|done]. rewrite (folded_equiv l l' _ _ o Hl).
  by rewrite (compare_group_equiv _ _ _ _ o (group_at_equiv b b' bi Hb) (group_at_equiv l l' p Hl)).
Qed.

(** What is printed does not depend on the order of the samples: two sets of
    statistics that differ only in the order of the samples in their vectors
    give the same report, the same interval lines and the same comparison.  So
    the sorting in place that every summary does cannot change a later report. *)
Theorem report_order_blind s s' base base' o t :
  s ≡ s' -> base ≡ base' ->
  ntp_report_text s o = ntp_report_text s' o /\ ntp_report_interval s o t = ntp_report_interval s' o t /\
  ntp_report_compare base s o = ntp_report_compare base' s' o.
Proof.
  intros Hs Hb. pose proof (shown_groups_equiv s s' o Hs) as Hsh.
  assert (ntp_report_text s o = ntp_report_text s' o) as Ht.
  { unfold ntp_report_text. rewrite (order_groups_equiv s s' Hs), (print_minor_equiv s s' _ o Hs).
    rewrite (mjoin_Forall2 (≡@{ntp_group}) (print_group s o) (print_group s' o) _ _ Hsh) by (intros; by apply print_group_equiv).
    by destruct (se_groups _ _ Hs). }
  split; [done|]. split; [|by apply compare_equiv].
  unfold ntp_report_interval. rewrite Ht.
  rewrite (mjoin_Forall2 (≡@{ntp_group}) (interval_line s t) (interval_line s' t) _ _ Hsh) by (intros; by apply interval_line_equiv).
  by destruct (se_groups _ _ Hs).
Qed.

(** The statistics as a report leaves them: every vector sorted in place. *)
Definition sorted_group (g : ntp_group) : ntp_group :=
  mk_group (key g) (records g) (g_joined g) (bad_host g) (bad_target g) (g_post_estimated g) (g_transport g)
    (spdk_host g) (spdk_target g) (fun c => (ntp_summarize (comp_v g c)).2) (fun st => (ntp_summarize (stage_v g st)).2)
    (fun q => (ntp_summarize (queue_v g q)).2).

Definition sorted_stats (s : ntp_stats) : ntp_stats := set_groups s (sorted_group <$> groups s) (s_cap s).

Lemma summarize_sorts v : v ≡ (ntp_summarize v).2.
Proof.
  unfold equiv, i64vec_equiv, ntp_summarize. destruct (iv v) as [|x l] eqn:E; simpl; [by rewrite E|].
  symmetry. apply qsort_perm.
Qed.

Lemma sorted_stats_equiv s : s ≡ sorted_stats s.
Proof.
  split; try done. simpl. apply Forall2_fmap_r, Forall_Forall2_diag, Forall_forall. intros g _.
  split; try done; intros; apply summarize_sorts.
Qed.

Lemma report_order_blind_witness :
  example_stats ≡ sorted_stats example_stats /\
  ntp_report_text example_stats example_opts = ntp_report_text (sorted_stats example_stats) example_opts.
Proof.
  pose proof (sorted_stats_equiv example_stats) as H. split; [exact H|].
  by apply (report_order_blind example_stats (sorted_stats example_stats) example_stats (sorted_stats example_stats) example_opts dzero).
Defined.

(** A report, byte for byte. *)
Example report_text_example :
  take 108 (ntp_report_text example_stats example_opts) =
  NL ++ bytes "== 4KiB nvme1n1: 1000 commands sampled (from about 500.0k commands/s), all with the target's side" ++ NL ++
  bytes "  latency".
Proof. vm_compute. reflexivity. Qed.
