(* ===== verification/Rows.v ===== *)
(** * The stage tables of a group (src/report.c: stage_rows, compare_group)

    What the rows of a stage table stand for: in a group of records that all have
    the target's side, or all lack it, they add up to the end-to-end latency; in a
    mixed group they need not.  And a comparison of two runs sets the samples of
    one stage against those of the same stage. *)
From stdpp Require Import base numbers list sets.
From Stdlib Require Import ZArith Lia String SpecFloat.
From S2P Require Import Prelude Types Model CStr Stats Float Summary Printf Config Record Report.

(** The samples of all rows. *)
Definition rows_total (rows : list srow) : Z := foldr (fun r n => vsum (r_v r) + n) 0 rows.

(** What the table of a group sums, by the vectors it is made of. *)
Definition table_total (g : ntp_group) (j sp : bool) : Z :=
  (if sp then 0 else vsum (stage_v g NTP_S1)) + vsum (stage_v g NTP_S2) +
  (if j then vsum (stage_v g NTP_S3_S5) + vsum (stage_v g NTP_S6) + vsum (stage_v g NTP_S7_S9)
   else vsum (comp_v g NTP_C_HOST_RX) + vsum (comp_v g NTP_C_HOST_WAIT) + vsum (comp_v g NTP_C_REMOTE)).

Lemma rows_total_table g j : rows_total (stage_rows g j) = table_total g j (spdk_host g).
Proof.
  unfold rows_total, stage_rows, table_total. cbv zeta.
  destruct (spdk_host g), j; cbn [app foldr r_v row stage_row]; try lia;
    destruct (nz (vlen (comp_v g NTP_C_HOST_WAIT))) eqn:E; cbn [app foldr r_v row]; try lia;
    apply negb_false_iff, Z.eqb_eq in E; unfold vlen in E;
    assert (vsum (comp_v g NTP_C_HOST_WAIT) = 0) by (unfold vsum; by destruct (iv (comp_v g NTP_C_HOST_WAIT)));
    lia.
Qed.

(** A record fit for a table of kind [j]: not usable at all, or with the target's
    side exactly when [j]; its block layer known, or (SPDK) empty. *)
Definition fits_table (j sp : bool) (x : sample) : Prop :=
  has (flags (h_hdr x.1)) NTP_F_SPDK = sp /\
  let '(err, b) := ntp_breakdown x.1 x.2 in
  err = NTP_MODEL_INCOMPLETE_HOST \/
  (joined b = j /\ ntp_comp_valid b NTP_C_BLK_SUB = true /\ (sp = true -> b_stage b NTP_S1 = 0)).

(** What a usable record adds to the vectors of its group. *)
Lemma group_add_vectors g h t err b :
  ntp_breakdown h t = (err, b) -> err <> NTP_MODEL_INCOMPLETE_HOST ->
  (forall st, vsum (stage_v (group_add g h t) st) = vsum (stage_v g st) + stage_term b st /\
              vlen (stage_v (group_add g h t) st) = vlen (stage_v g st) + (if ntp_stage_valid b st then 1 else 0)) /\
  (forall c, vsum (comp_v (group_add g h t) c) = vsum (comp_v g c) + comp_term b c).
Proof.
  intros E Hne. unfold group_add. rewrite E. unfold stage_term, comp_term.
  destruct err; [|done|]; cbn [stage_v comp_v]; (split; [intros st; split|intros c]);
    [destruct (ntp_stage_valid b st)|destruct (ntp_stage_valid b st)|destruct (ntp_comp_valid b c)|
     destruct (ntp_stage_valid b st)|destruct (ntp_stage_valid b st)|destruct (ntp_comp_valid b c)];
    rewrite ?vsum_push, ?vlen_push; lia.
Qed.

Lemma group_add_spdk g h t : spdk_host (group_add g h t) = spdk_host g || has (flags (h_hdr h)) NTP_F_SPDK.
Proof. unfold group_add. by destruct (ntp_breakdown h t) as [[] b]. Qed.

Lemma group_add_unusable g h t b :
  ntp_breakdown h t = (NTP_MODEL_INCOMPLETE_HOST, b) ->
  stage_v (group_add g h t) = stage_v g /\ comp_v (group_add g h t) = comp_v g.
Proof. intros E. unfold group_add. by rewrite E. Qed.

(** What a record that fits contributes to the table and to the network stage. *)
Lemma fits_contribution j sp h t err b :
  ntp_breakdown h t = (err, b) -> err <> NTP_MODEL_INCOMPLETE_HOST -> joined b = j ->
  ntp_comp_valid b NTP_C_BLK_SUB = true -> (sp = true -> b_stage b NTP_S1 = 0) ->
  ntp_stage_valid b NTP_S3_S5 = j /\
  (if sp then 0 else stage_term b NTP_S1) + stage_term b NTP_S2 +
  (if j then stage_term b NTP_S3_S5 + stage_term b NTP_S6 + stage_term b NTP_S7_S9
   else comp_term b NTP_C_HOST_RX + comp_term b NTP_C_HOST_WAIT + comp_term b NTP_C_REMOTE)
  ≡₆₄ comp_term b NTP_C_E2E.
Proof.
  intros E Hne <- Hblk Hsp. pose proof (joined_shape h t err b E Hne) as Hj.
  assert (comp_term b NTP_C_E2E = comp b NTP_C_E2E) as -> by (unfold comp_term; by rewrite (e2e_valid h t err b E Hne)).
  assert ((if sp then 0 else stage_term b NTP_S1) = stage_term b NTP_S1) as ->.
  { destruct sp; [|done]. unfold stage_term. rewrite Hsp by done. by destruct (ntp_stage_valid b NTP_S1). }
  clear Hsp. destruct (joined b) eqn:Ej.
  - destruct Hj as (t' & -> & ->). destruct (joined_stages h t' b E) as [Hv Hs]. destruct (Hs Hblk) as [Hv1 Hsum].
    split; [by apply Hv|]. unfold stage_term. rewrite Hv1, !Hv by done. rewrite <- Hsum.
    unfold stage_sum, all_stages. cbn [foldr]. cong_solve.
  - subst b. pose proof (components_sum h t err _ E Hne) as Hsum. destruct (host_only_sum h Hblk Hsum) as [H35 Hs].
    split; [done|]. rewrite <- Hs. cong_solve.
Qed.

(** The tables of a group under construction. *)
Definition table_ok (j sp : bool) (g : ntp_group) : Prop :=
  (spdk_host g = true -> sp = true) /\ (0 < vlen (comp_v g NTP_C_E2E) -> spdk_host g = sp) /\
  vlen (stage_v g NTP_S3_S5) = (if j then vlen (comp_v g NTP_C_E2E) else 0) /\
  table_total g j sp ≡₆₄ vsum (comp_v g NTP_C_E2E).

Lemma table_ok_add j sp g x : fits_table j sp x -> table_ok j sp g -> table_ok j sp (group_add g x.1 x.2).
Proof.
  destruct x as [h t]. unfold fits_table. cbn [fst snd]. intros [Hf Hx] (H1 & H2 & H3 & H4).
  destruct (ntp_breakdown h t) as [err b] eqn:E. unfold table_ok. rewrite group_add_spdk, Hf.
  destruct (decide (err = NTP_MODEL_INCOMPLETE_HOST)) as [->|Hne].
  { destruct (group_add_unusable g h t b E) as [Hs Hc]. unfold table_total. rewrite Hs, Hc.
    split; [intros [|]%orb_prop; auto|]. split; [|done]. intros Hn. rewrite (H2 Hn). by destruct sp. }
  destruct Hx as [|(Hj & Hblk & Hsp)]; [done|].
  destruct (group_add_vectors g h t err b E Hne) as [Hv Hc].
  destruct (fits_contribution j sp h t err b E Hne Hj Hblk Hsp) as [H35 Hsum].
  assert (vlen (comp_v (group_add g h t) NTP_C_E2E) = vlen (comp_v g NTP_C_E2E) + 1) as Hn
    by (apply (main_total_add g h t err b E Hne)).
  split; [intros [|]%orb_prop; auto|]. split.
  { intros _. destruct sp; [by rewrite orb_true_r|]. destruct (spdk_host g); [by rewrite H1|done]. }
  split; [rewrite (proj2 (Hv NTP_S3_S5)), H35, H3, Hn; destruct j; lia|].
  unfold table_total in *. rewrite !(proj1 (Hv _)), !Hc. rewrite <- H4, <- Hsum. destruct j, sp; cong_solve.
Qed.

Lemma table_ok_group j sp t z d l k : Forall (fits_table j sp) l -> table_ok j sp (group_of t z d l k).
Proof.
  intros Hl. unfold group_of. set (l' := filter _ l).
  assert (Forall (fits_table j sp) l') as Hl'.
  { apply Forall_forall. intros x [_ Hx]%list_elem_of_filter. rewrite Forall_forall in Hl. by apply Hl. }
  assert (table_ok j sp (new_group k)) as H0 by (split; [done|]; split; [done|]; by destruct j, sp).
  clearbody l'. revert H0. generalize (new_group k). induction Hl' as [|x l' Hx Hl' IH]; intros g Hg; [done|].
  cbn [foldl]. by apply IH, table_ok_add.
Qed.

(** The rows of a stage table add up to the end-to-end latency.  When all usable
    records of a run have the target's side, or none has, and all are of SPDK or
    none is, then every group that has samples is shown with that table, and the
    samples of its rows add up, in 64-bit arithmetic, to those of the end-to-end
    latency. *)
Theorem stage_rows_add_up (t z d j sp : bool) (l : list sample) g :
  Forall (fits_table j sp) l -> g ∈ groups (stats_of (ntp_stats_init t z d) l) ->
  0 < vlen (comp_v g NTP_C_E2E) ->
  group_joined g = j /\ rows_total (stage_rows g (group_joined g)) ≡₆₄ vsum (comp_v g NTP_C_E2E).
Proof.
  intros Hl Hg Hn. destruct (grouped_all t z d l) as (_ & _ & _ & E). rewrite E in Hg.
  apply list_elem_of_fmap in Hg as (k & -> & _).
  destruct (table_ok_group j sp t z d l k Hl) as (_ & H2 & H3 & H4). specialize (H2 Hn).
  assert (group_joined (group_of t z d l k) = j) as Hj.
  { unfold group_joined. rewrite H3. destruct j; [|done]. apply andb_true_iff.
    rewrite Z.leb_le. split; [|lia]. apply negb_true_iff, Z.eqb_neq. lia. }
  split; [done|]. by rewrite Hj, rows_total_table, H2.
Qed.

(** A read with the target's side. *)
Lemma stage_rows_add_up_witness :
  exists g, groups (stats_of (ntp_stats_init true true true) [(read_host, Some read_target)]) = [g] /\
    group_joined g = true /\ rows_total (stage_rows g (group_joined g)) ≡₆₄ vsum (comp_v g NTP_C_E2E).
Proof.
  eexists. split; [reflexivity|].
  apply (stage_rows_add_up true true true true false [(read_host, Some read_target)]).
  - constructor; [|constructor]. split; [by vm_compute|].
    assert (ntp_breakdown read_host (Some read_target) = (NTP_MODEL_OK, read_result)) as E by exact read_result_eq.
    cbn [fst snd]. rewrite E. right. split; [by vm_compute|]. split; [by vm_compute|done].
  - by left.
  - by vm_compute.
Defined.

(** In a group where only some records have the target's side the rows need not
    add up, though the comment in the source says they do either way: one read
    recorded on both sides and the same read recorded on the host only are shown
    with the table of joined records, whose rows are short by most of the second
    read. *)
Theorem mixed_rows_fall_short :
  match groups (stats_of (ntp_stats_init true true true) [(read_host, Some read_target); (read_host, None)]) with
  | [g] => (group_joined g, rows_total (stage_rows g (group_joined g)) <? vsum (comp_v g NTP_C_E2E)) = (true, true)
  | _ => False
  end.
Proof. vm_compute. reflexivity. Qed.

(** ** Comparing stages *)

(** The samples a row of a table stands for. *)
Inductive row_field := RStage (st : ntp_stage) | RComp (c : ntp_comp).

Definition field_v (g : ntp_group) (f : row_field) : i64vec :=
  match f with RStage st => stage_v g st | RComp c => comp_v g c end.

Definition field_key (f : row_field) : list Z :=
  match f with
  | RStage st => bytes (ntp_stage_keys st)
  | RComp NTP_C_HOST_RX => bytes "host_receive"
  | RComp NTP_C_HOST_WAIT => bytes "host_data_wait"
  | RComp _ => bytes "network_and_target"
  end.

Definition row_fields : list row_field :=
  (RStage <$> all_stages) ++ (RComp <$> [NTP_C_HOST_RX; NTP_C_HOST_WAIT; NTP_C_REMOTE]).

Lemma stage_rows_fields g j :
  Forall (fun r => Exists (fun f => r_key r = field_key f /\ r_v r = field_v g f) row_fields) (stage_rows g j).
Proof.
  unfold stage_rows. cbv zeta. rewrite !Forall_app.
  assert (forall st dsc, Exists (fun f => r_key (stage_row g st dsc) = field_key f /\ r_v (stage_row g st dsc) = field_v g f) row_fields) as Hst.
  { intros st dsc. apply Exists_exists. exists (RStage st). split; [|done]. apply elem_of_app. left.
    apply list_elem_of_fmap. exists st. split; [done|]. destruct st; set_solver. }
  assert (forall c dsc, c ∈ [NTP_C_HOST_RX; NTP_C_HOST_WAIT; NTP_C_REMOTE] ->
    Exists (fun f => r_key (row (field_key (RComp c)) dsc (comp_v g c)) = field_key f /\
                     r_v (row (field_key (RComp c)) dsc (comp_v g c)) = field_v g f) row_fields) as Hc.
  { intros c dsc Hin. apply Exists_exists. exists (RComp c). split; [|done]. apply elem_of_app. right.
    by apply list_elem_of_fmap_2. }
  split; [destruct (spdk_host g); repeat constructor; apply Hst|]. split; [repeat constructor; apply Hst|].
  destruct j; [repeat constructor; apply Hst|]. rewrite !Forall_app.
  split; [constructor; [|constructor]; apply (Hc NTP_C_HOST_RX); set_solver|].
  split; [|constructor; [|constructor]; apply (Hc NTP_C_REMOTE); set_solver].
  destruct (nz _); [|constructor]. constructor; [|constructor]. apply (Hc NTP_C_HOST_WAIT). set_solver.
Qed.

Lemma field_key_inj f f' : f ∈ row_fields -> f' ∈ row_fields -> field_key f = field_key f' -> f = f'.
Proof.
  intros H H'. unfold row_fields in *. cbn in H, H'. 
  repeat (apply elem_of_cons in H as [->|H]); try (by apply elem_of_nil in H);
    repeat (apply elem_of_cons in H' as [->|H']); try (by apply elem_of_nil in H'); intros E; by vm_compute in E.
Qed.

(** A comparison sets like against like.  Whatever rows the two runs show (one may
    lack the target's side, or run without a block layer), the row of the
    baseline that is found for a row of the loaded run holds the samples of the
    same stage or component. *)
Theorem compare_same_stage bg lg j j' l b :
  l ∈ stage_rows lg j -> find_row (stage_rows bg j') (r_key l) = Some b ->
  exists f, f ∈ row_fields /\ r_v b = field_v bg f /\ r_v l = field_v lg f.
Proof.
  intros Hl Hb. unfold find_row in Hb. apply head_Some_elem_of in Hb.
  apply list_elem_of_filter in Hb as [Hk Hb].
  pose proof (stage_rows_fields lg j) as Fl. pose proof (stage_rows_fields bg j') as Fb.
  rewrite Forall_forall in Fl, Fb. specialize (Fl l Hl). specialize (Fb b Hb).
  apply Exists_exists in Fl as (f & Hf & Kf & Vf). apply Exists_exists in Fb as (f' & Hf' & Kf' & Vf').
  assert (f' = f) as -> by (apply field_key_inj; [done..|congruence]). by exists f.
Qed.

Lemma compare_same_stage_witness :
  exists l b, find_row (stage_rows (group_at example_stats 0) false) (r_key l) = Some b /\
  exists f, f ∈ row_fields /\ r_v b = field_v (group_at example_stats 0) f /\ r_v l = field_v (group_at example_stats 2) f.
Proof.
  set (l := row (bytes "host_receive") (bytes "host receive path") (comp_v (group_at example_stats 2) NTP_C_HOST_RX)).
  eexists l, _. split; [reflexivity|].
  apply (compare_same_stage (group_at example_stats 0) (group_at example_stats 2) false false).
  - right. right. by left.
  - reflexivity.
Defined.
