(* ===== verification/Json.v ===== *)
(** * The JSON report (src/report.c: json_str, json_summary, ntp_report_json)

    The report as the bytes written, a grammar of JSON texts in UTF-8, and the proof
    that the bytes are a JSON text for the tree of the statistics when the names are
    UTF-8 and the numbers finite. *)
From stdpp Require Import base numbers list sets.
From Stdlib Require Import ZArith Lia String SpecFloat.
From S2P Require Import Prelude Types Model CStr Stats Float Summary Printf TraceFile Config Record Report.

#[local] Set Warnings "-register-all".

(** ** Output *)

(** A literal with apostrophes for the quotation marks. *)
Definition js (s : string) : list Z := (fun c => if c =? 39 then 34 else c) <$> CStr.bytes s.

Definition json_char (c : Z) : list Z :=
  if (c =? 34) || (c =? 92) then [92; c]
  else if c <? 32 then 92 :: 117 :: hex4 c
  else [c].

Definition json_str (s : list Z) : list Z := 34 :: mjoin (json_char <$> c_string s) ++ [34].

Definition json_summary (m : ntp_summary) : list Z :=
  js "{'n': " ++ print_u (sm_n m) ++ js ", 'mean_ns': " ++ fmt_f 1 (sm_mean m) ++ js ", 'min_ns': " ++
  print_d (sm_min m) ++ js ", 'max_ns': " ++ print_d (sm_max m) ++
  mjoin ((fun i => js ", '" ++ qname i ++ js "_ns': " ++ print_d (qat m i)) <$> seq 0 NTP_NQ) ++ js "}".

(** The loops over components, stages and queues: those with samples, commas
    between them. *)
Definition json_step {A} (summ : A -> ntp_summary) (print : A -> ntp_summary -> list Z) (st : bool * list Z) (x : A)
    : bool * list Z :=
  let '(first, out) := st in
  let m := summ x in
  if has_n m then (false, out ++ (if first then [] else js ",") ++ print x m) else (first, out).

Definition json_loop {A} (summ : A -> ntp_summary) (print : A -> ntp_summary -> list Z) (l : list A) : list Z :=
  (foldl (json_step summ print) (true, []) l).2.

Definition indent7 : list Z := NL ++ js "       ".

Definition type_name (g : ntp_group) : list Z :=
  if is_write (key g) <? 0 then CStr.bytes "any" else if nz (is_write (key g)) then CStr.bytes "write" else CStr.bytes "read".

Definition json_comp (rate : double) (c : ntp_comp) (m : ntp_summary) : list Z :=
  indent7 ++ js "'" ++ CStr.bytes (ci_name (ntp_comps c)) ++ js "': {'stage': '" ++ CStr.bytes (ci_stage (ntp_comps c)) ++
  js "', 'description': " ++ json_str (CStr.bytes (ci_desc (ntp_comps c))) ++
  js ", 'occupancy': " ++ fmt_f 3 (ddiv (dmul rate (sm_mean m)) (dbl 1000000000)) ++ js ", 'summary': " ++
  json_summary m ++ js "}".

Definition json_named (name : list Z) (m : ntp_summary) : list Z :=
  indent7 ++ js "'" ++ name ++ js "': " ++ json_summary m.

Definition json_group (s : ntp_stats) (g : ntp_group) : list Z :=
  let rate := ntp_group_rate s g in
  NL ++ js "    {'type': " ++ json_str (type_name g) ++ js ", 'bytes': " ++ print_u (k_bytes (key g)) ++
  js ", 'session': " ++ json_str (Stats.session (key g)) ++
  js ", 'records': " ++ print_u (records g) ++ js ", 'joined': " ++ print_u (g_joined g) ++
  js ", 'incomplete_host': " ++ print_u (bad_host g) ++ js ", 'incomplete_target': " ++ print_u (bad_target g) ++
  js ", 'post_estimated': " ++ print_u (g_post_estimated g) ++ js ", 'rate_per_s': " ++ fmt_f 1 rate ++ js "," ++ NL ++
  js "     'components': {" ++ json_loop (fun c => summary_of (comp_v g c)) (json_comp rate) all_comps ++ js "}," ++ NL ++
  js "     'stages': {" ++ json_loop (fun st => summary_of (stage_v g st)) (fun st => json_named (CStr.bytes (ntp_stage_keys st))) all_stages ++
  js "}," ++ NL ++
  js "     'queues': {" ++ json_loop (fun q => summary_of (queue_v g q)) (fun q => json_named (ntp_queue_names q)) all_queues ++
  js "}}".

Definition json_meta (h : ntp_file_header) : list Z :=
  js "  'host': " ++ json_str (hostname_chars h) ++ js "," ++ NL ++ js "  'kernel': " ++ json_str (TraceFile.kernel h) ++ js "," ++ NL ++
  js "  'sample_every': " ++ print_u (f_sample_every h) ++ js "," ++ NL ++ js "  'start_realtime_ns': " ++
  print_u (start_real_ns h) ++ js "," ++ NL.

Definition json_tput (t : ntp_tput) : list Z :=
  js "  'throughput': {'seconds': " ++ fmt_f 3 (seconds t) ++ js ", 'read_ios': " ++ print_u (read_ios t) ++
  js ", 'read_bytes': " ++ print_u (read_bytes t) ++ js ", 'write_ios': " ++ print_u (write_ios t) ++
  js ", 'write_bytes': " ++ print_u (write_bytes t) ++ js ", 'estimated': " ++
  (if estimated t then js "true" else js "false") ++ js "}," ++ NL.

Definition json_text (s : ntp_stats) (meta : option ntp_file_header) (tput : option ntp_tput) : list Z :=
  js "{" ++ NL ++ js "  'tool': 'ntprof'," ++ NL ++
  from_option json_meta [] meta ++ from_option json_tput [] tput ++
  js "  'groups': [" ++
  mjoin (imap (fun gi g => (if bool_decide (gi = O) then [] else js ",") ++ json_group s g) (groups s)) ++
  NL ++ js "  ]" ++ NL ++ js "}" ++ NL.

(** The result and what is in the file; [creates] and [closes] say whether the
    file can be created and flushed. *)
Definition ntp_report_json (creates closes : bool) (s : ntp_stats) (meta : option ntp_file_header)
    (tput : option ntp_tput) : Z * list Z :=
  if creates then (if closes then 0 else -1, json_text s meta tput) else (-1, []).

(** ** JSON texts *)

Inductive json :=
  | JNum (t : list Z)
  | JBool (b : bool)
  | JStr (s : list Z)
  | JArr (l : list json)
  | JObj (l : list (list Z * json)).

Definition is_ws (c : Z) : Prop := c ∈ [32; 9; 10; 13].

(** The characters of UTF-8 that take more than one byte (RFC 3629): no overlong forms,
    no surrogates, nothing above U+10FFFF. *)
Definition continues (c : Z) : Prop := 128 <= c < 192.
Inductive multibyte : list Z -> Prop :=
  | mb_two a b : 194 <= a < 224 -> continues b -> multibyte [a; b]
  | mb_three a b c : 224 <= a < 240 -> (if a =? 224 then 160 else 128) <= b < (if a =? 237 then 160 else 192) -> continues c ->
      multibyte [a; b; c]
  | mb_four a b c d : 240 <= a < 245 -> (if a =? 240 then 144 else 128) <= b < (if a =? 244 then 144 else 192) ->
      continues c -> continues d -> multibyte [a; b; c; d].

Inductive utf8 : list Z -> Prop :=
  | u8_nil : utf8 []
  | u8_ascii c s : 0 <= c < 128 -> utf8 s -> utf8 (c :: s)
  | u8_multi m s : multibyte m -> utf8 s -> utf8 (m ++ s).

(** The characters of a string between its quotation marks, in UTF-8. *)
Inductive jchars : list Z -> list Z -> Prop :=
  | jc_nil : jchars [] []
  | jc_plain c t s : 32 <= c < 128 -> c <> 34 -> c <> 92 -> jchars t s -> jchars (c :: t) (c :: s)
  | jc_multi m t s : multibyte m -> jchars t s -> jchars (m ++ t) (m ++ s)
  | jc_escape c t s : c = 34 \/ c = 92 -> jchars t s -> jchars (92 :: c :: t) (c :: s)
  | jc_unicode c t s : 0 <= c < 128 -> jchars t s -> jchars (92 :: 117 :: hex4 c ++ t) (c :: s).

Definition all_digits (l : list Z) : Prop := l <> [] /\ Forall (fun c => is_digit c = true) l.

(** An optional sign, digits without a leading zero, an optional fraction. *)
Inductive jnumber : list Z -> Prop :=
  | jnum (neg : bool) i f :
      all_digits i -> (i = [48] \/ head i <> Some 48) -> (f = [] \/ exists ds, f = 46 :: ds /\ all_digits ds) ->
      jnumber ((if neg then [45] else []) ++ i ++ f).

(** Texts with commas between them. *)
Definition commas (ts : list (list Z)) : list Z :=
  mjoin (imap (fun i t => (if bool_decide (i = O) then [] else [44]) ++ t) ts).

Inductive reads : list Z -> json -> Prop :=
  | rd_ws w t w' j : Forall is_ws w -> Forall is_ws w' -> reads t j -> reads (w ++ t ++ w') j
  | rd_num t : jnumber t -> reads t (JNum t)
  | rd_true : reads (js "true") (JBool true)
  | rd_false : reads (js "false") (JBool false)
  | rd_str t s : jchars t s -> reads (34 :: t ++ [34]) (JStr s)
  | rd_arr_empty w : Forall is_ws w -> reads (91 :: w ++ [93]) (JArr [])
  | rd_arr ts w l : l <> [] -> Forall is_ws w -> Forall2 reads ts l -> reads (91 :: commas ts ++ w ++ [93]) (JArr l)
  | rd_obj_empty w : Forall is_ws w -> reads (123 :: w ++ [125]) (JObj [])
  | rd_obj ts w l : l <> [] -> Forall is_ws w ->
      Forall2 (fun t m => exists w k v, Forall is_ws w /\ jchars k m.1 /\ reads v m.2 /\ t = w ++ 34 :: k ++ 34 :: 58 :: v) ts l ->
      reads (123 :: commas ts ++ w ++ [125]) (JObj l).

(** ** The tree of a report *)

Definition num (v : Z) : json := JNum (print_u v).
Definition named (k : string) (v : json) : list Z * json := (CStr.bytes k, v).

Definition summary_tree (m : ntp_summary) : json :=
  JObj ([named "n" (num (sm_n m)); named "mean_ns" (JNum (fmt_f 1 (sm_mean m)));
         named "min_ns" (JNum (print_d (sm_min m))); named "max_ns" (JNum (print_d (sm_max m)))] ++
        ((fun i => (qname i ++ CStr.bytes "_ns", JNum (print_d (qat m i)))) <$> seq 0 NTP_NQ)).

(** The entries that have samples. *)
Definition entries {A} (name : A -> list Z) (summ : A -> ntp_summary) (tree : A -> ntp_summary -> json) (l : list A) : json :=
  JObj ((fun x => (name x, tree x (summ x))) <$> filter (fun x => has_n (summ x) = true) l).

Definition comp_tree (rate : double) (c : ntp_comp) (m : ntp_summary) : json :=
  JObj [named "stage" (JStr (CStr.bytes (ci_stage (ntp_comps c)))); named "description" (JStr (CStr.bytes (ci_desc (ntp_comps c))));
        named "occupancy" (JNum (fmt_f 3 (ddiv (dmul rate (sm_mean m)) (dbl 1000000000)))); named "summary" (summary_tree m)].

Definition group_tree (s : ntp_stats) (g : ntp_group) : json :=
  let rate := ntp_group_rate s g in
  JObj [named "type" (JStr (type_name g)); named "bytes" (num (k_bytes (key g))); named "session" (JStr (c_string (Stats.session (key g))));
        named "records" (num (records g)); named "joined" (num (g_joined g)); named "incomplete_host" (num (bad_host g));
        named "incomplete_target" (num (bad_target g)); named "post_estimated" (num (g_post_estimated g));
        named "rate_per_s" (JNum (fmt_f 1 rate));
        named "components" (entries (fun c => CStr.bytes (ci_name (ntp_comps c))) (fun c => summary_of (comp_v g c)) (comp_tree rate) all_comps);
        named "stages" (entries (fun st => CStr.bytes (ntp_stage_keys st)) (fun st => summary_of (stage_v g st)) (fun _ => summary_tree) all_stages);
        named "queues" (entries ntp_queue_names (fun q => summary_of (queue_v g q)) (fun _ => summary_tree) all_queues)].

Definition meta_tree (h : ntp_file_header) : list (list Z * json) :=
  [named "host" (JStr (c_string (hostname_chars h))); named "kernel" (JStr (c_string (TraceFile.kernel h)));
   named "sample_every" (num (f_sample_every h)); named "start_realtime_ns" (num (start_real_ns h))].

Definition tput_tree (t : ntp_tput) : list (list Z * json) :=
  [named "throughput" (JObj
     [named "seconds" (JNum (fmt_f 3 (seconds t))); named "read_ios" (num (read_ios t)); named "read_bytes" (num (read_bytes t));
      named "write_ios" (num (write_ios t)); named "write_bytes" (num (write_bytes t)); named "estimated" (JBool (estimated t))])].

Definition report_tree (s : ntp_stats) (meta : option ntp_file_header) (tput : option ntp_tput) : json :=
  JObj ([named "tool" (JStr (CStr.bytes "ntprof"))] ++ from_option meta_tree [] meta ++ from_option tput_tree [] tput ++
        [named "groups" (JArr (group_tree s <$> groups s))]).

(** ** Numbers and strings *)

Lemma print_u_number v : 0 <= v < 2 ^ 64 -> jnumber (print_u v).
Proof.
  intros Hv. pose proof (jnum false (print_u v) []) as H. rewrite app_nil_r in H. apply H; [| |by left].
  - split; [apply dec_digits_nonempty|apply dec_digits_digit; lia].
  - destruct (decide (v = 0)) as [->|Hne]; [by left|right].
    destruct (dec_digits_head 20 v) as (c & l & E & Hc); [simpl; lia|]. unfold print_u. rewrite E. simpl. intros [= ->]. lia.
Qed.

Lemma print_nat_int v :
  0 <= v -> all_digits (print_nat v) /\ (print_nat v = [48] \/ head (print_nat v) <> Some 48).
Proof.
  intros Hv. split.
  - split; [|by apply print_nat_digits]. unfold print_nat. rewrite Nat.add_1_r. apply dec_digits_nonempty.
  - destruct (decide (v = 0)) as [->|Hne]; [by left|right]. unfold print_nat.
    destruct (dec_digits_head (Z.to_nat (Z.log2 v) + 1) v) as (c & l & -> & Hc); [split; [lia|by apply log2_fuel]|]. simpl. intros [= ->]. lia.
Qed.

Lemma print_d_number v : jnumber (print_d v).
Proof.
  unfold print_d. destruct (Z.ltb_spec v 0).
  - destruct (print_nat_int (- v)) as [H1 H2]; [lia|]. pose proof (jnum true (print_nat (- v)) []) as Hj.
    rewrite app_nil_r in Hj. by apply Hj; [| |left].
  - destruct (print_nat_int v) as [H1 H2]; [lia|]. pose proof (jnum false (print_nat v) []) as Hj.
    rewrite app_nil_r in Hj. by apply Hj; [| |left].
Qed.

Definition finite (x : double) : bool := match x with S754_zero _ | S754_finite _ _ _ => true | _ => false end.

Lemma print_fixed_number neg prec v :
  (1 <= prec)%nat -> 0 <= v -> jnumber ((if neg : bool then [45] else []) ++ print_fixed prec v).
Proof.
  intros Hp Hv. unfold print_fixed. destruct (print_nat_int (v / 10 ^ Z.of_nat prec)) as [H1 H2].
  { apply Z.div_pos; [done|]. apply Z.pow_pos_nonneg; lia. }
  apply jnum; [done|done|right]. destruct prec as [|prec]; [lia|]. eexists. split; [done|].
  split; [|apply fixed_digits_digit]. intros E%(f_equal List.length). by rewrite fixed_digits_length in E.
Qed.

Lemma fmt_f_number prec x : (1 <= prec)%nat -> finite x = true -> jnumber (fmt_f prec x).
Proof.
  intros Hp. destruct x as [s|s| |s m e]; try done; intros _; unfold fmt_f.
  - by apply print_fixed_number.
  - apply print_fixed_number; [done|apply scaled_dec_nonneg].
Qed.

(** A name as it is printed is UTF-8. *)
Definition utf8_name (s : list Z) : Prop := utf8 (c_string s).

Lemma ascii_utf8 s : Forall (fun c => 0 <= c < 128) s -> utf8 s.
Proof. induction 1; by constructor. Qed.
Lemma ascii_check s : forallb (fun c => (0 <? c) && (c <? 128)) s = true -> utf8_name s /\ c_string s = s.
Proof.
  rewrite forallb_forall. intros H. assert (c_string s = s) as E.
  { apply c_string_id, Forall_forall. intros c Hc%list_elem_of_In%H. apply andb_true_iff in Hc as [Hc%Z.ltb_lt _]. lia. }
  split; [|done]. unfold utf8_name. rewrite E. apply ascii_utf8, Forall_forall. intros c Hc%list_elem_of_In%H.
  apply andb_true_iff in Hc as [H1%Z.ltb_lt H2%Z.ltb_lt]. lia.
Qed.

Lemma json_char_chars c t s : 0 <= c < 128 -> jchars t s -> jchars (json_char c ++ t) (c :: s).
Proof.
  intros Hc Ht. unfold json_char. destruct (Z.eqb_spec c 34) as [->|H34]; [apply jc_escape; auto|].
  destruct (Z.eqb_spec c 92) as [->|H92]; [apply jc_escape; auto|]. cbn [orb].
  destruct (Z.ltb_spec c 32); [by apply (jc_unicode c)|apply jc_plain; [lia|done..]].
Qed.

(** A character of several bytes is printed as it is. *)
Lemma json_char_high c : 128 <= c -> json_char c = [c].
Proof.
  intros Hc. unfold json_char. rewrite (proj2 (Z.eqb_neq c 34)), (proj2 (Z.eqb_neq c 92)), (proj2 (Z.ltb_ge c 32)) by lia. done.
Qed.
Lemma multibyte_high m : multibyte m -> Forall (fun c => 128 <= c) m.
Proof.
  intros [a b Ha Hb|a b c Ha Hb Hc|a b c d Ha Hb Hc Hd]; repeat (apply Forall_cons_2; [|]); try apply Forall_nil_2;
    try (destruct (a =? 224), (a =? 237)); try (destruct (a =? 240), (a =? 244)); unfold continues in *; lia.
Qed.
Lemma json_chars_high m : Forall (fun c => 128 <= c) m -> mjoin (json_char <$> m) = m.
Proof.
  induction 1 as [|c m Hc Hm IH]; [done|]. rewrite fmap_cons. change (mjoin (?x :: ?l)) with (x ++ mjoin l).
  by rewrite json_char_high, IH.
Qed.

Lemma json_chars s : utf8 s -> jchars (mjoin (json_char <$> s)) s.
Proof.
  induction 1 as [|c s Hc Hs IH|m s Hm Hs IH]; [constructor|..].
  - change (jchars (json_char c ++ mjoin (json_char <$> s)) (c :: s)). by apply json_char_chars.
  - rewrite fmap_app, join_app, json_chars_high by (by apply multibyte_high). by apply jc_multi.
Qed.

Lemma json_str_reads s : utf8_name s -> reads (json_str s) (JStr (c_string s)).
Proof. intros H. by apply rd_str, json_chars. Qed.

(** ** Members, elements and loops *)

(** A member as the report writes it: blanks, the name, and the value after a
    blank. *)
Definition field (w k t : list Z) : list Z := w ++ [34] ++ k ++ [34; 58; 32] ++ t.

Definition member (t : list Z) (m : list Z * json) : Prop :=
  exists w k v, Forall is_ws w /\ jchars k m.1 /\ reads v m.2 /\ t = w ++ 34 :: k ++ 34 :: 58 :: v.

Definition plain (s : list Z) : Prop := Forall (fun c => 32 <= c < 128 /\ c <> 34 /\ c <> 92) s.

Lemma plain_chars s : plain s -> jchars s s.
Proof. induction 1 as [|c s (H1 & H2 & H3) Hs IH]; [constructor|]. by apply jc_plain. Qed.

Lemma ws_blank : Forall is_ws [32].
Proof. repeat constructor. Qed.

Lemma field_member w k t j : Forall is_ws w -> plain k -> reads t j -> member (field w k t) (k, j).
Proof.
  intros Hw Hk Ht. exists w, k, (32 :: t). split; [done|]. split; [by apply plain_chars|]. split; [|done].
  pose proof (rd_ws [32] t [] j ws_blank (Forall_nil_2 _) Ht) as H. by rewrite app_nil_r in H.
Qed.

Lemma num_reads v : 0 <= v < 2 ^ 64 -> reads (print_u v) (num v).
Proof. intros H. by apply rd_num, print_u_number. Qed.
Lemma signed_reads v : reads (print_d v) (JNum (print_d v)).
Proof. apply rd_num, print_d_number. Qed.
Lemma double_reads prec x : (1 <= prec)%nat -> finite x = true -> reads (fmt_f prec x) (JNum (fmt_f prec x)).
Proof. intros. by apply rd_num, fmt_f_number. Qed.

Lemma obj_reads ts w l : Forall is_ws w -> Forall2 member ts l -> reads (123 :: commas ts ++ w ++ [125]) (JObj l).
Proof.
  intros Hw H. destruct l as [|m l]; [|by apply rd_obj]. inversion H; subst. cbn. by apply rd_obj_empty.
Qed.

Lemma arr_reads ts w l : Forall is_ws w -> Forall2 reads ts l -> reads (91 :: commas ts ++ w ++ [93]) (JArr l).
Proof.
  intros Hw H. destruct l as [|m l]; [|by apply rd_arr]. inversion H; subst. cbn. by apply rd_arr_empty.
Qed.

Lemma commas_snoc ts t : commas (ts ++ [t]) = commas ts ++ (match ts with [] => [] | _ => [44] end) ++ t.
Proof.
  unfold commas. rewrite imap_app, join_app. f_equal. cbn. rewrite app_nil_r, Nat.add_0_r.
  destruct ts; [done|]. by rewrite bool_decide_false.
Qed.

Lemma commas_cons t ts : commas (t :: ts) = t ++ mjoin (cons 44 <$> ts).
Proof.
  unfold commas. cbn [imap mjoin list_join]. cbn [app bool_decide decide]. f_equal.
  rewrite (imap_ext _ (fun _ t => 44 :: t)) by (intros i x _; unfold compose; by rewrite bool_decide_false).
  f_equal. induction ts as [|x ts IH]; [done|]. cbn [imap fmap list_fmap]. f_equal. exact IH.
Qed.

Lemma json_loop_commas {A} (summ : A -> ntp_summary) print (l : list A) :
  json_loop summ print l = commas ((fun x => print x (summ x)) <$> filter (fun x => has_n (summ x) = true) l).
Proof.
  unfold json_loop. set (kept := fun l : list A => (fun x => print x (summ x)) <$> filter (fun x => has_n (summ x) = true) l).
  enough (foldl (json_step summ print) (true, []) l = (match kept l with [] => true | _ => false end, commas (kept l))) as H
    by (by rewrite H).
  induction l as [|x l IH] using rev_ind; [done|]. rewrite foldl_app, IH. cbn [foldl]. unfold json_step.
  assert (kept (l ++ [x]) = if has_n (summ x) then kept l ++ [print x (summ x)] else kept l) as ->.
  { unfold kept. rewrite filter_app, filter_cons, filter_nil. destruct (has_n (summ x)).
    - rewrite decide_True by done. by rewrite fmap_app.
    - rewrite decide_False by done. by rewrite app_nil_r. }
  destruct (has_n (summ x)); [|done]. rewrite commas_snoc. by destruct (kept l).
Qed.

(** Literals as bytes, and texts flattened. *)
Ltac literals :=
  repeat match goal with |- context [js ?s] => let v := eval vm_compute in (js s) in change (js s) with v end;
  repeat match goal with |- context [CStr.bytes ?s] =>
    let v := eval vm_compute in (CStr.bytes s) in change (CStr.bytes s) with v end.
Ltac flatten := repeat first [rewrite <- app_assoc|progress cbn [app]].
Lemma ws_check w : forallb (fun c => bool_decide (c ∈ [32; 9; 10; 13])) w = true -> Forall is_ws w.
Proof.
  intros H. apply Forall_forall. intros c Hc. rewrite forallb_forall in H.
  exact (bool_decide_eq_true_1 _ (H c (proj1 (list_elem_of_In _ _) Hc))).
Qed.
Ltac ws := apply ws_check; vm_compute; reflexivity.
Lemma plain_check s : forallb (fun c => (32 <=? c) && (c <? 128) && negb (c =? 34) && negb (c =? 92)) s = true -> plain s.
Proof.
  intros H. apply Forall_forall. intros c Hc. rewrite forallb_forall in H.
  specialize (H c (proj1 (list_elem_of_In _ _) Hc)).
  apply andb_true_iff in H as [[[H1 H0]%andb_true_iff H2]%andb_true_iff H3]. apply Z.leb_le in H1. apply Z.ltb_lt in H0.
  apply negb_true_iff, Z.eqb_neq in H2, H3. done.
Qed.
Ltac plain_lit := apply plain_check; vm_compute; reflexivity.

Lemma qname_plain i : plain (qname i ++ CStr.bytes "_ns").
Proof.
  unfold qname. do 8 (destruct i as [|i]; [plain_lit|]). plain_lit.
Qed.

(** What a summary's numbers must be to be written as JSON numbers. *)
Definition summary_ok (m : ntp_summary) : Prop := 0 <= sm_n m < 2 ^ 64 /\ finite (sm_mean m) = true.

Lemma summary_reads m : summary_ok m -> reads (json_summary m) (summary_tree m).
Proof.
  intros [Hn Hf].
  assert (json_summary m = 123 :: commas
    ([field [] (CStr.bytes "n") (print_u (sm_n m)); field [32] (CStr.bytes "mean_ns") (fmt_f 1 (sm_mean m));
      field [32] (CStr.bytes "min_ns") (print_d (sm_min m)); field [32] (CStr.bytes "max_ns") (print_d (sm_max m))] ++
     ((fun i => field [32] (qname i ++ CStr.bytes "_ns") (print_d (qat m i))) <$> seq 0 NTP_NQ)) ++ [] ++ [125]) as ->.
  { unfold json_summary, field, NTP_NQ. cbn [seq fmap list_fmap mjoin list_join app].
    rewrite commas_cons. cbn [fmap list_fmap mjoin list_join app].
    literals. flatten. reflexivity. }
  apply obj_reads; [constructor|]. apply Forall2_app.
  - repeat (apply Forall2_cons; split); try apply Forall2_nil_2; apply field_member; try apply ws_blank; try apply Forall_nil_2;
      try plain_lit; try apply num_reads; try apply double_reads; try apply signed_reads; done || lia.
  - apply Forall2_fmap, Forall_Forall2_diag, Forall_forall. intros i _. apply field_member; [apply ws_blank|apply qname_plain|].
    apply signed_reads.
Qed.

(** ** Components, groups and the report *)

Lemma loop_reads {A} (name : A -> list Z) summ (print : A -> ntp_summary -> list Z) (tree : A -> ntp_summary -> json) l :
  (forall x, member (print x (summ x)) (name x, tree x (summ x))) ->
  reads (123 :: json_loop summ print l ++ [125]) (entries name summ tree l).
Proof.
  intros H. rewrite json_loop_commas. unfold entries. apply (obj_reads _ []); [constructor|].
  apply Forall2_fmap, Forall_Forall2_diag, Forall_forall. intros x _. apply H.
Qed.

Lemma ws_indent7 : Forall is_ws indent7.
Proof. unfold indent7, NL. literals. cbn [app]. ws. Qed.

Lemma comp_names_plain c :
  plain (CStr.bytes (ci_name (ntp_comps c))) /\ plain (CStr.bytes (ci_stage (ntp_comps c))) /\
  utf8_name (CStr.bytes (ci_desc (ntp_comps c))) /\ c_string (CStr.bytes (ci_desc (ntp_comps c))) = CStr.bytes (ci_desc (ntp_comps c)).
Proof.
  split; [destruct c; plain_lit|]. split; [destruct c; plain_lit|]. apply ascii_check. by destruct c.
Qed.

Definition occupancy (rate : double) (m : ntp_summary) : double := ddiv (dmul rate (sm_mean m)) (dbl 1000000000).

(** One-line objects: the first member follows the brace, the others a blank. *)
Ltac members := repeat (apply Forall2_cons; split); try apply Forall2_nil_2.
Ltac member_fields :=
  apply field_member; [ws|plain_lit|first [apply num_reads; assumption|apply double_reads; [lia|assumption]|idtac]].

Lemma comp_reads rate c m :
  summary_ok m -> finite (occupancy rate m) = true ->
  member (json_comp rate c m) (CStr.bytes (ci_name (ntp_comps c)), comp_tree rate c m).
Proof.
  intros Hm Ho. destruct (comp_names_plain c) as (Hn & Hs & Hb & Hd).
  assert (json_comp rate c m = field indent7 (CStr.bytes (ci_name (ntp_comps c)))
    (123 :: commas [field [] (CStr.bytes "stage") (34 :: CStr.bytes (ci_stage (ntp_comps c)) ++ [34]);
                    field [32] (CStr.bytes "description") (json_str (CStr.bytes (ci_desc (ntp_comps c))));
                    field [32] (CStr.bytes "occupancy") (fmt_f 3 (occupancy rate m));
                    field [32] (CStr.bytes "summary") (json_summary m)] ++ [] ++ [125])) as ->.
  { unfold json_comp, field, occupancy. rewrite commas_cons. cbn [mjoin list_join fmap list_fmap app].
    generalize (CStr.bytes (ci_name (ntp_comps c))), (CStr.bytes (ci_stage (ntp_comps c))), (CStr.bytes (ci_desc (ntp_comps c))).
    intros. literals. flatten. reflexivity. }
  apply field_member; [apply ws_indent7|done|]. apply obj_reads; [constructor|]. members; member_fields.
  - by apply rd_str, plain_chars.
  - rewrite <- Hd at 2. by apply json_str_reads.
  - by apply summary_reads.
Qed.

Lemma named_reads name m : plain name -> summary_ok m -> member (json_named name m) (name, summary_tree m).
Proof.
  intros Hn Hm. assert (json_named name m = field indent7 name (json_summary m)) as ->.
  { unfold json_named, field. literals. flatten. reflexivity. }
  apply field_member; [apply ws_indent7|done|by apply summary_reads].
Qed.

(** Everything a group prints is in range. *)
Record group_prints (s : ntp_stats) (g : ntp_group) : Prop := {
  gp_bytes : 0 <= k_bytes (key g) < 2 ^ 64;
  gp_session : utf8_name (Stats.session (key g));
  gp_records : 0 <= records g < 2 ^ 64;
  gp_joined : 0 <= g_joined g < 2 ^ 64;
  gp_bad_host : 0 <= bad_host g < 2 ^ 64;
  gp_bad_target : 0 <= bad_target g < 2 ^ 64;
  gp_post : 0 <= g_post_estimated g < 2 ^ 64;
  gp_rate : finite (ntp_group_rate s g) = true;
  gp_comps : forall c, summary_ok (summary_of (comp_v g c)) /\
                       finite (occupancy (ntp_group_rate s g) (summary_of (comp_v g c))) = true;
  gp_stages : forall st, summary_ok (summary_of (stage_v g st));
  gp_queues : forall q, summary_ok (summary_of (queue_v g q))
}.

Lemma type_name_ok g : utf8_name (type_name g) /\ c_string (type_name g) = type_name g.
Proof. unfold type_name. destruct (is_write (key g) <? 0); [|destruct (nz (is_write (key g)))]; by apply ascii_check. Qed.

Lemma group_reads s g : group_prints s g -> reads (json_group s g) (group_tree s g).
Proof.
  intros []. unfold group_tree. cbv zeta. set (rate := ntp_group_rate s g) in *.
  set (cs := json_loop (fun c => summary_of (comp_v g c)) (json_comp rate) all_comps).
  set (ss := json_loop (fun st => summary_of (stage_v g st)) (fun st => json_named (CStr.bytes (ntp_stage_keys st))) all_stages).
  set (qs := json_loop (fun q => summary_of (queue_v g q)) (fun q => json_named (ntp_queue_names q)) all_queues).
  pose (w := [10; 32; 32; 32; 32; 32]).
  assert (json_group s g = [10; 32; 32; 32; 32] ++ (123 :: commas
    [field [] (CStr.bytes "type") (json_str (type_name g)); field [32] (CStr.bytes "bytes") (print_u (k_bytes (key g)));
     field [32] (CStr.bytes "session") (json_str (Stats.session (key g))); field [32] (CStr.bytes "records") (print_u (records g));
     field [32] (CStr.bytes "joined") (print_u (g_joined g)); field [32] (CStr.bytes "incomplete_host") (print_u (bad_host g));
     field [32] (CStr.bytes "incomplete_target") (print_u (bad_target g)); field [32] (CStr.bytes "post_estimated") (print_u (g_post_estimated g));
     field [32] (CStr.bytes "rate_per_s") (fmt_f 1 rate); field w (CStr.bytes "components") (123 :: cs ++ [125]);
     field w (CStr.bytes "stages") (123 :: ss ++ [125]); field w (CStr.bytes "queues") (123 :: qs ++ [125])] ++ [] ++ [125]) ++ []) as ->.
  { unfold json_group, field. rewrite commas_cons. cbv zeta. fold rate. fold cs. fold ss. fold qs. clearbody cs ss qs rate.
    cbn [mjoin list_join fmap list_fmap app]. unfold w, NL. generalize (type_name g). intros ty. literals. flatten. reflexivity. }
  apply rd_ws; [ws|ws|]. apply obj_reads; [constructor|]. members; unfold w; member_fields.
  - destruct (type_name_ok g) as [Hb Hc]. rewrite <- Hc at 2. by apply json_str_reads.
  - by apply json_str_reads.
  - apply (loop_reads (fun c => CStr.bytes (ci_name (ntp_comps c)))). intros c. destruct (gp_comps0 c). by apply comp_reads.
  - apply (loop_reads (fun st => CStr.bytes (ntp_stage_keys st))). intros st. apply named_reads; [destruct st; plain_lit|done].
  - apply (loop_reads ntp_queue_names). intros q. apply named_reads; [destruct q; plain_lit|done].
Qed.

Record header_prints (h : ntp_file_header) : Prop := {
  hp_hostname : utf8_name (hostname_chars h);
  hp_kernel : utf8_name (TraceFile.kernel h);
  hp_sample : 0 <= f_sample_every h < 2 ^ 64;
  hp_start : 0 <= start_real_ns h < 2 ^ 64
}.

Record tput_prints (t : ntp_tput) : Prop := {
  tp_seconds : finite (seconds t) = true;
  tp_read_ios : 0 <= read_ios t < 2 ^ 64;
  tp_read_bytes : 0 <= read_bytes t < 2 ^ 64;
  tp_write_ios : 0 <= write_ios t < 2 ^ 64;
  tp_write_bytes : 0 <= write_bytes t < 2 ^ 64
}.

Definition w2 : list Z := [10; 32; 32].

Definition meta_fields (h : ntp_file_header) : list (list Z) :=
  [field w2 (CStr.bytes "host") (json_str (hostname_chars h)); field w2 (CStr.bytes "kernel") (json_str (TraceFile.kernel h));
   field w2 (CStr.bytes "sample_every") (print_u (f_sample_every h));
   field w2 (CStr.bytes "start_realtime_ns") (print_u (start_real_ns h))].

Lemma meta_members h : header_prints h -> Forall2 member (meta_fields h) (meta_tree h).
Proof. intros []. unfold meta_fields, meta_tree, w2. members; member_fields; by apply json_str_reads. Qed.

Definition tput_object (t : ntp_tput) : list Z :=
  123 :: commas
    [field [] (CStr.bytes "seconds") (fmt_f 3 (seconds t)); field [32] (CStr.bytes "read_ios") (print_u (read_ios t));
     field [32] (CStr.bytes "read_bytes") (print_u (read_bytes t)); field [32] (CStr.bytes "write_ios") (print_u (write_ios t));
     field [32] (CStr.bytes "write_bytes") (print_u (write_bytes t));
     field [32] (CStr.bytes "estimated") (if estimated t then js "true" else js "false")] ++ [] ++ [125].

Lemma tput_members t : tput_prints t -> Forall2 member [field w2 (CStr.bytes "throughput") (tput_object t)] (tput_tree t).
Proof.
  intros []. unfold tput_tree, w2, tput_object. members. member_fields. apply obj_reads; [constructor|].
  members; member_fields. destruct (estimated t); [apply rd_true|apply rd_false].
Qed.

Lemma json_text_fields s meta tput :
  json_text s meta tput = [] ++ (123 :: commas
    ([field w2 (CStr.bytes "tool") (34 :: CStr.bytes "ntprof" ++ [34])] ++ from_option meta_fields [] meta ++
     from_option (fun t => [field w2 (CStr.bytes "throughput") (tput_object t)]) [] tput ++
     [field w2 (CStr.bytes "groups") (91 :: commas (json_group s <$> groups s) ++ w2 ++ [93])]) ++ [10] ++ [125]) ++ [10].
Proof.
  assert (commas (json_group s <$> groups s) =
          mjoin (imap (fun gi g => (if bool_decide (gi = O) then [] else js ",") ++ json_group s g) (groups s))) as ->.
  { unfold commas. by rewrite imap_fmap. }
  unfold json_text. set (gs := mjoin (imap _ _)). clearbody gs. cbn [app]. rewrite commas_cons.
  destruct meta as [h|], tput as [t|]; cbn [from_option]; unfold json_meta, meta_fields, json_tput, tput_object, field, w2, NL;
    rewrite ?commas_cons; cbn [mjoin list_join fmap list_fmap app];
    try (generalize (if estimated t then js "true" else js "false"); intros est); literals; flatten; reflexivity.
Qed.

(** C19: The JSON report is JSON, and says what the statistics hold.  When every number
    to print is in range (no mean, rate or occupancy is infinite or not a number) and the
    names of the machine, its kernel and the devices are UTF-8, the file is a well-formed
    JSON text that denotes the tree of the statistics, quotation marks, backslashes and
    control characters in the names included: the metadata and the throughput when there
    are any, and every group in order with its components, stages and queues that have
    samples. *)
Theorem report_json_reads s meta tput :
  Forall (group_prints s) (groups s) ->
  (forall h, meta = Some h -> header_prints h) -> (forall t, tput = Some t -> tput_prints t) ->
  ntp_report_json true true s meta tput = (0, json_text s meta tput) /\
  reads (json_text s meta tput) (report_tree s meta tput).
Proof.
  intros Hg Hm Ht. split; [done|]. rewrite json_text_fields. apply rd_ws; [ws|ws|]. unfold report_tree.
  apply obj_reads; [ws|]. apply Forall2_app; [|apply Forall2_app; [|apply Forall2_app]].
  - unfold w2. members. member_fields. apply rd_str, plain_chars. plain_lit.
  - destruct meta as [h|]; [by apply meta_members, Hm|constructor].
  - destruct tput as [t|]; [by apply tput_members, Ht|constructor].
  - unfold w2. members. member_fields. apply arr_reads; [ws|]. apply Forall2_fmap, Forall_Forall2_diag.
    eapply Forall_impl; [exact Hg|]. intros g. apply group_reads.
Qed.

Lemma report_json_reads_witness :
  reads (json_text example_stats None None) (report_tree example_stats None None).
Proof.
  apply (report_json_reads example_stats None None).
  - unfold example_stats. cbn [groups fmap list_fmap].
    repeat constructor; try (by vm_compute); try (intros []; repeat constructor; by vm_compute).
  - intros h [=].
  - intros t [=].
Defined.

(** Any name in UTF-8 survives the JSON report: quotation marks, backslashes and control
    characters are escaped so that the text denotes exactly its bytes. *)
Theorem json_str_roundtrip s :
  utf8 s -> Forall (fun c => c <> 0) s -> reads (json_str s) (JStr s).
Proof. intros H H0. assert (c_string s = s) as E by (by apply c_string_id). rewrite <- E at 2. apply json_str_reads. unfold utf8_name. by rewrite E. Qed.

(** A name with a quotation mark, a line break, a backslash and a letter of two bytes. *)
Lemma json_str_roundtrip_witness :
  json_str [97; 34; 10; 92; 195; 169] = [34; 97; 92; 34; 92; 117; 48; 48; 48; 97; 92; 92; 195; 169; 34] /\
  reads (json_str [97; 34; 10; 92; 195; 169]) (JStr [97; 34; 10; 92; 195; 169]).
Proof.
  split; [by vm_compute|]. apply json_str_roundtrip; [|repeat constructor; discriminate].
  do 4 (apply u8_ascii; [lia|]). apply (u8_multi [195; 169] []); [apply mb_two; unfold continues; lia|apply u8_nil].
Defined.

(** A byte that is not part of UTF-8 is printed as it is, and what is printed is then no
    string of JSON. *)
Theorem raw_byte_not_json : json_str [255] = [34; 255; 34] /\ forall s, ~ jchars [255] s.
Proof.
  split; [reflexivity|]. intros s H. inversion H as [|? ? ? Hc|m t s' Hm Ht E1 E2| |]; subst; [lia|].
  destruct Hm as [a b Ha|a b c Ha|a b c d Ha]; by inversion E1; subst; lia.
Qed.
