(* ===== verification/Recording.v ===== *)
(** * The recording process (src/record.c: record; src/loader.c: ntp_loader_poll)

    [record] from opening the loader to closing it: the polling loop with its
    intervals, the end of the recording and the report.  What the process does to
    the outside is a list of effects: text on standard output and standard error,
    bytes to the parent, and the loader being opened, disarmed and closed.  What
    the loader, the clock and the disk answer is an argument; the list of the
    loop's turns ends where a signal sets [stop]. *)
From stdpp Require Import base numbers list.
From Stdlib Require Import ZArith Lia String SpecFloat.
From S2P Require Import Prelude Types Model TraceFile CStr Stats Float Summary Printf Config Join Record Report Json.

Definition DRAIN_NS : Z := 200 * 1000000.
Definition IDLE_HINT_NS : Z := 5 * 1000000000.
Definition MSG_ATTACHED : Z := 65.
Definition MSG_DONE : Z := 68.
Definition EINTR : Z := 4.

(** ** Messages (src/util.c) *)

Definition vlog (prefix text : list Z) : list Z := bytes "ntprof: " ++ prefix ++ text ++ NL.
Definition ntp_err (text : list Z) : list Z := vlog (bytes "error: ") text.
Definition ntp_warn (text : list Z) : list Z := vlog (bytes "warning: ") text.

(** ** What the process does, and what it is told *)

Inductive effect :=
  | Print (text : list Z)  (* stdout *)
  | Say (text : list Z)    (* stderr *)
  | Tell (msg : list Z)    (* to the parent *)
  | JsonFile (text : list Z)
  | Opened | Disarmed | Closed. (* the loader *)

(** A record as the ring buffer hands it over, and how saving it goes. *)
Definition item : Type := list Z * fwrite_answer.

(** The answers of [ring_buffer__poll] and [ring_buffer__consume], each with the
    records it hands to the callback. *)
Record ring_answer := mk_ring_answer { ra_n : Z; ra_polled : list item; ra_m : Z; ra_consumed : list item }.

Definition ntp_loader_poll (a : ring_answer) : Z * list item :=
  let n := if ra_n a =? - EINTR then 0 else ra_n a in
  if n <? 0 then (n, ra_polled a)
  else (if ra_m a <? 0 then ra_m a else n + ra_m a, ra_polled a ++ ra_consumed a).

(** The counters of the programs, as [ntp_loader_counter] reads them. *)
Definition counters : Type := ntp_counter -> Z.

(** One turn of the polling loop: the poll, the clock after it, and the counters
    as the hint and as the interval's report read them. *)
Record turn := mk_turn { tn_ring : ring_answer; tn_now : Z; tn_hint : counters; tn_counters : counters }.

Record answers := mk_answers {
  an_machine : machine;
  an_open : bool;                      (* ntp_loader_open() *)
  an_create : bool; an_header : bool;  (* fopen() and fwrite() of the record file *)
  an_start : Z; an_start_counters : counters;
  an_turns : list turn;
  an_end : Z; an_end_counters : counters;
  an_drain_from : Z;
  an_drain : list (Z * ring_answer);   (* the clock before each poll, and the poll *)
  an_rest : list ring_answer;
  an_json : bool * bool;               (* fopen() and fclose() of the JSON report *)
  an_final : counters;
  an_close : bool                      (* fclose() of the record file *)
}.

Section record.
  Variable c : ntp_config.
  Variable verbose : Z.                (* ntp_verbose *)
  Variable strerror : Z -> list Z.

Definition is_host : bool := has (c_role c) NTP_ROLE_HOST.
Definition is_target : bool := has (c_role c) NTP_ROLE_TARGET.
Definition saving : bool := negb (bool_decide (c_output c = [])).
Definition ro : ntp_report_opts := ntp_report_opts_from_config c.

(** [x / 1e9] of a [uint64_t] *)
Definition secs (ns : Z) : double := ddiv (dbl (u64 ns)) (dbl 1000000000).

(** ** Texts *)

Definition role_name (r : Z) : list Z :=
  if r =? NTP_ROLE_BOTH then bytes "host+target" else if r =? NTP_ROLE_HOST then bytes "host" else bytes "target".

Definition print_counters_verbose (cnt : counters) (s : session) : list Z :=
  bytes "records: host " ++ print_u (s_host_records s) ++ bytes ", target " ++ print_u (s_target_records s) ++
  (if is_host then bytes " | host sampled " ++ print_u (cnt NTP_CNT_HOST_SAMPLED) else []) ++
  (if is_target then
     (if negb (bool_decide (c_spdk_target c = []))
      then bytes " | target commands ~" ++ print_u (cnt NTP_CNT_TGT_CMDS) ++ bytes " (estimated), sampled "
      else bytes " | target commands " ++ print_u (cnt NTP_CNT_TGT_CMDS) ++ bytes ", sampled ") ++
     print_u (cnt NTP_CNT_TGT_SAMPLED)
   else []) ++
  bytes " | lost: ring buffer " ++ print_u (cnt NTP_CNT_RB_DROPS) ++ bytes ", map full " ++
  print_u (cnt NTP_CNT_MAP_FULL) ++ bytes ", stale " ++ print_u (cnt NTP_CNT_STALE) ++ NL ++
  match s_joiner s with
  | Some j =>
      bytes "join: " ++ print_u (matched (st j)) ++ bytes " matched, " ++ print_u (host_unmatched (st j)) ++
      bytes " host records without target, " ++ print_u (ntp_joiner_pending j) ++
      bytes " target records waiting, " ++ print_u (u64 (targets_evicted (st j) + targets_expired (st j))) ++
      bytes " dropped" ++ NL
  | None => []
  end ++
  (if nz (s_malformed s) then bytes "malformed records: " ++ print_u (s_malformed s) ++ NL else []).

Definition print_counters (cnt : counters) (s : session) : list Z :=
  let drops := cnt NTP_CNT_RB_DROPS in
  let stale := cnt NTP_CNT_STALE in
  let sampled := u64 (cnt NTP_CNT_HOST_SAMPLED + cnt NTP_CNT_TGT_SAMPLED) in
  if nz verbose then NL ++ print_counters_verbose cnt s
  else
    NL ++ bytes "records:" ++
    (if is_host then bytes " " ++ print_u (s_host_records s) ++ bytes " host" else []) ++
    (if is_target then (if is_host then bytes "," else []) ++ bytes " " ++ print_u (s_target_records s) ++ bytes " target"
     else []) ++
    match s_joiner s with
    | Some j =>
        bytes "; " ++ print_u (matched (st j)) ++ bytes " matched (" ++
        fmt_f 0 (if nz (s_host_records s)
                 then ddiv (dmul (dbl 100) (dbl (matched (st j)))) (dbl (s_host_records s)) else dzero) ++
        bytes " % of the host's)"
    | None => []
    end ++ NL ++
    (if nz drops then
       bytes "warning: " ++ print_u drops ++
       bytes " records lost, the ring buffer was full: sample fewer commands (-s)" ++ NL
     else []) ++
    (if sampled <? u64 (stale * 100) then
       bytes "note: " ++ print_u stale ++
       bytes " records were replaced before their command completed (aborted commands, or many commands in flight)" ++ NL
     else []) ++
    (if nz (s_malformed s) then
       bytes "warning: " ++ print_u (s_malformed s) ++ bytes " malformed records ignored" ++ NL
     else []).

Definition idle_warning : list Z :=
  let named := negb (str_eqb (c_session c) (bytes "all")) in
  ntp_warn (bytes "no NVMe-oF command seen in " ++ print_u (IDLE_HINT_NS / 1000000000) ++
    bytes " s: is I/O running on an " ++
    (if negb (bool_decide (c_spdk_host c = [])) || negb (bool_decide (c_spdk_target c = [])) then bytes "SPDK"
     else if c_transport c =? NTP_TR_RDMA then bytes "NVMe/RDMA" else bytes "NVMe/TCP") ++
    bytes " device" ++ (if named then bytes ", " ++ c_session c else []) ++ bytes "?").

(** ** The polling loop *)

Record loop := mk_loop {
  lp_s : session;
  lp_prev_tick : Z;
  lp_next_tick : Z;
  lp_prev_tput : ntp_tput;
  lp_idle_hint : bool;
  lp_header : bool;
  lp_out : list effect
}.

(** The records one poll hands over. *)
Fixpoint consume (s : session) (l : list item) : option session :=
  match l with
  | [] => Some s
  | (data, ok) :: l => s ← on_record s data ok; consume s l
  end.

Definition no_tput : ntp_tput := mk_tput dzero 0 0 0 0 false.

(** The report of an interval that ends at [now], the header before the first. *)
Definition interval_report (start now : Z) (cnt : counters) (l : loop) : list effect * bool * ntp_tput :=
  if c_online c && is_host then
    let cur := read_tput c cnt no_tput in
    let delta := tput_delta cur (lp_prev_tput l) (secs (now - lp_prev_tick l)) in
    if o_detail ro then
      ([Print (NL ++ bytes "--- interval " ++ fmt_f 1 (secs (lp_prev_tick l - start)) ++ bytes "-" ++
               fmt_f 1 (secs (now - start)) ++ bytes " s ---" ++ NL);
        Print (if c_rep_throughput c then ntp_report_tput delta else []);
        Print (ntp_report_text (s_interval (lp_s l)) ro)], lp_header l, cur)
    else
      ((if lp_header l then []
        else [Print (bytes "every " ++ print_u (c_interval_s c) ++
                     bytes " s, per group: sampled commands, rate, latency, and each stage's share of the mean" ++
                     (if is_target then []
                      else NL ++ bytes "(*: network and target together; the target's side is not recorded)") ++ NL);
              Print ntp_report_interval_header]) ++
       [Print (ntp_report_interval (s_interval (lp_s l)) ro (secs (now - start)))], true, cur)
  else ([], lp_header l, lp_prev_tput l).

(** The end of an interval. *)
Definition end_interval (start interval_ns now : Z) (cnt : counters) (l : loop) : loop :=
  let l := mk_loop (settle (lp_s l) now) (lp_prev_tick l) (u64 (lp_next_tick l + interval_ns)) (lp_prev_tput l)
             (lp_idle_hint l) (lp_header l) (lp_out l) in
  let '(out, header, tput) := interval_report start now cnt l in
  mk_loop (reset_interval (lp_s l)) now (lp_next_tick l) tput (lp_idle_hint l) header (lp_out l ++ out).

(** The hint that nothing runs, once. *)
Definition hint (start : Z) (t : turn) (l : loop) : loop :=
  if negb (lp_idle_hint l) && (IDLE_HINT_NS <=? u64 (tn_now t - start)) then
    mk_loop (lp_s l) (lp_prev_tick l) (lp_next_tick l) (lp_prev_tput l) true (lp_header l)
      (lp_out l ++ if nz (commands_seen c (tn_hint t)) then [] else [Say idle_warning])
  else l.

Definition set_loop_session (l : loop) (s : session) : loop :=
  mk_loop s (lp_prev_tick l) (lp_next_tick l) (lp_prev_tput l) (lp_idle_hint l) (lp_header l) (lp_out l).
Definition loop_say (l : loop) (e : effect) : loop :=
  mk_loop (lp_s l) (lp_prev_tick l) (lp_next_tick l) (lp_prev_tput l) (lp_idle_hint l) (lp_header l) (lp_out l ++ [e]).

(** The turns of the loop, to the one that leaves it or to the signal; the status
    so far, and [None] for a store out of bounds in the joiner. *)
Fixpoint polling (start interval_ns : Z) (turns : list turn) (l : loop) : option (Z * loop) :=
  match turns with
  | [] => Some (0, l)
  | t :: turns =>
      let '(err, items) := ntp_loader_poll (tn_ring t) in
      s ← consume (lp_s l) items;
      let l := set_loop_session l s in
      let now := tn_now t in
      if err <? 0 then
        Some (1, loop_say l (Say (ntp_err (bytes "polling the ring buffer failed: " ++ strerror (- err)))))
      else if nz (c_duration_s c) && (u64 (c_duration_s c * 1000000000) <=? u64 (now - start)) then Some (0, l)
      else
        let l := hint start t l in
        polling start interval_ns turns
          (if now <? lp_next_tick l then l else end_interval start interval_ns now (tn_counters t) l)
  end.

(** ** The end of the recording *)

(** Polling until [until], and then until nothing is left. *)
Fixpoint drain (until : Z) (l : list (Z * ring_answer)) (s : session) : option session :=
  match l with
  | [] => Some s
  | (now, a) :: l => if now <? until then s ← consume s (ntp_loader_poll a).2; drain until l s else Some s
  end.
Fixpoint drain_rest (l : list ring_answer) (s : session) : option session :=
  match l with
  | [] => Some s
  | a :: l =>
      let '(n, items) := ntp_loader_poll a in
      s ← consume s items;
      if 0 <? n then drain_rest l s else Some s
  end.

(** The final report of the host's side and the status after it. *)
Definition final_report (hdr : ntp_file_header) (start end_ : Z) (cur start_tput : ntp_tput) (json : bool * bool)
    (s : session) (ret : Z) : list effect * Z :=
  if is_host then
    let delta := tput_delta cur start_tput (secs (end_ - start)) in
    let '(jr, jtext) := ntp_report_json json.1 json.2 (s_total s) (Some hdr) (Some delta) in
    let wants_json := negb (bool_decide (c_json c = [])) in
    ([Print (NL ++ bytes "=== " ++ fmt_f 1 (secs (end_ - start)) ++ bytes " s, one command in " ++
             print_u (c_sample_every c) ++ bytes " sampled ===" ++ NL);
      Print (if c_rep_throughput c then ntp_report_tput delta else []);
      Print (ntp_report_text (s_total s) ro)] ++ (if wants_json then [JsonFile jtext] else []),
     if wants_json && nz jr then 1 else ret)
  else ([], ret).

(** [close_writer] with its messages. *)
Definition close_message (s : session) (status : Z) : list effect :=
  if negb (s_writing s) then []
  else if nz status then [Say (ntp_err (bytes "writing " ++ c_output c ++ bytes " failed (" ++
                               print_u (s_write_errors s) ++ bytes " records lost)"))]
  else [Say (bytes "ntprof: " ++ print_u (w_records (s_w s)) ++ bytes " records written to " ++ c_output c ++ NL)].

(** What the process says once the hooks are in place. *)
Definition attached_effects : list effect :=
  [Say (bytes "ntprof: profiling as " ++ role_name (c_role c) ++ bytes ", sampling 1 of " ++
        print_u (c_sample_every c) ++ bytes " commands" ++ (if saving then bytes ", saving records" else []) ++
        bytes "; Ctrl-C to stop" ++ NL);
   Tell [MSG_ATTACHED]] ++
  (if (c_role c =? NTP_ROLE_TARGET) && negb saving then
     [Say (ntp_warn (bytes "a target's records are only reported joined with the host's: save them with -o FILE"))]
   else []).

Definition target_hint : list effect :=
  if (c_role c =? NTP_ROLE_TARGET) && saving
  then [Print (bytes "report: ntprof report HOST.ntp " ++ c_output c ++ bytes " (the host's recording, same -s)" ++ NL)]
  else [].

(** Everything after the loop. *)
Definition wind_up (a : answers) (hdr : ntp_file_header) (start_tput : ntp_tput) (ret : Z) (l : loop)
    : option (Z * list effect * session) :=
  let cur := read_tput c (an_end_counters a) no_tput in
  s ← drain (u64 (an_drain_from a + DRAIN_NS)) (an_drain a) (lp_s l);
  s ← drain_rest (an_rest a) s;
  let s := finish s in
  let '(out, ret) := final_report hdr (an_start a) (an_end a) cur start_tput (an_json a) s ret in
  let '(status, s') := close_writer s ret (an_close a) in
  let failed := nz (ntp_writer_close (s_w s) (an_close a)).1 || nz (s_write_errors s) in
  Some (status,
        lp_out l ++ [Disarmed] ++ out ++ [Print (print_counters (an_final a) s)] ++ target_hint ++
        close_message s (if failed then 1 else 0) ++ [Tell [MSG_DONE; u8 status]; Closed],
        s').

(** The status, the effects, and the session as it is at the end. *)
Definition record (a : answers) : option (Z * list effect * option session) :=
  if negb (an_open a) then Some (1, [], None)
  else
    let hdr := ntp_header_init (an_machine a) (c_role c) (c_transport c) (c_sample_every c) in
    let '(opened, w) := if saving then ntp_writer_open (an_create a) (an_header a) hdr else (0, mk_writer None 0) in
    if nz opened then Some (1, [Opened; Closed], None)
    else
      let start := an_start a in
      let interval_ns := u64 (c_interval_s c * 1000000000) in
      let start_tput := read_tput c (an_start_counters a) no_tput in
      '(ret, l) ← polling start interval_ns (an_turns a)
          (mk_loop (session_init c w) start (u64 (start + interval_ns)) start_tput false false
             (Opened :: attached_effects));
      '(status, out, s) ← wind_up a hdr start_tput ret l;
      Some (status, out, Some s).
End record.

(** ** The session of a recording is a run of session operations *)

Section ops.
  Variable c : ntp_config.

Definition item_op (i : item) : session_op := SRecord i.1 i.2.
Definition poll_ops (a : ring_answer) : list session_op := item_op <$> (ntp_loader_poll a).2.

(** The operations of the loop: the clock and the results of the polls alone
    decide when an interval ends and when the loop does. *)
Fixpoint loop_ops (start interval_ns : Z) (turns : list turn) (next : Z) : list session_op :=
  match turns with
  | [] => []
  | t :: turns =>
      poll_ops (tn_ring t) ++
      if (ntp_loader_poll (tn_ring t)).1 <? 0 then []
      else if nz (c_duration_s c) && (u64 (c_duration_s c * 1000000000) <=? u64 (tn_now t - start)) then []
      else if tn_now t <? next then loop_ops start interval_ns turns next
      else STick (tn_now t) :: loop_ops start interval_ns turns (u64 (next + interval_ns))
  end.

Fixpoint drain_ops (until : Z) (l : list (Z * ring_answer)) : list session_op :=
  match l with
  | [] => []
  | (now, a) :: l => if now <? until then poll_ops a ++ drain_ops until l else []
  end.
Fixpoint rest_ops (l : list ring_answer) : list session_op :=
  match l with
  | [] => []
  | a :: l => poll_ops a ++ if 0 <? (ntp_loader_poll a).1 then rest_ops l else []
  end.

Definition tick_ops (a : answers) : list session_op :=
  loop_ops (an_start a) (u64 (c_interval_s c * 1000000000)) (an_turns a)
    (u64 (an_start a + u64 (c_interval_s c * 1000000000))).
Definition end_ops (a : answers) : list session_op :=
  drain_ops (u64 (an_drain_from a + DRAIN_NS)) (an_drain a) ++ rest_ops (an_rest a) ++ [SFinish].
End ops.

Lemma session_run_app s ops1 ops2 : session_run s (ops1 ++ ops2) = s ← session_run s ops1; session_run s ops2.
Proof.
  revert s. induction ops1 as [|op ops1 IH]; intros s; [done|]. cbn [app session_run].
  destruct (session_step s op); cbn [mbind option_bind]; [apply IH|done].
Qed.

Lemma consume_run s l : consume s l = session_run s (item_op <$> l).
Proof.
  revert s. induction l as [|[data ok] l IH]; intros s; [done|]. cbn [consume fmap list_fmap session_run].
  cbn [session_step item_op fst snd]. destruct (on_record s data ok); cbn [mbind option_bind]; [apply IH|done].
Qed.

Lemma drain_run until l s : drain until l s = session_run s (drain_ops until l).
Proof.
  revert s. induction l as [|[now a] l IH]; intros s; [done|]. cbn [drain drain_ops]. destruct (now <? until); [|done].
  rewrite session_run_app, consume_run. unfold poll_ops. destruct (session_run s _); cbn [mbind option_bind]; [apply IH|done].
Qed.

Lemma drain_rest_run l s : drain_rest l s = session_run s (rest_ops l).
Proof.
  revert s. induction l as [|a l IH]; intros s; [done|]. cbn [drain_rest rest_ops]. rewrite session_run_app.
  unfold poll_ops. destruct (ntp_loader_poll a) as [n items]. cbn [fst snd]. rewrite consume_run.
  destruct (session_run s _); cbn [mbind option_bind]; [|done]. destruct (0 <? n); [apply IH|done].
Qed.

(** Every run of a well-formed session completes. *)
Lemma session_run_total s ops : session_wf s -> exists s', session_run s ops = Some s' /\ session_wf s'.
Proof. intros Hw. destruct (session_run_spec ops s Hw) as (s' & E & Hw' & _). by exists s'. Qed.

(** ** The samples of each interval *)

(** The intervals that ended, each with when it did, and the one under way. *)
Fixpoint chunks (s : session) (ops : list session_op) (cur : list sample) : list (Z * list sample) * list sample :=
  match ops with
  | [] => ([], cur)
  | op :: ops =>
      match session_step s op with
      | Some s' =>
          let cur := cur ++ op_samples s op in
          match op with
          | STick now => let '(l, r) := chunks s' ops [] in ((now, cur) :: l, r)
          | _ => chunks s' ops cur
          end
      | None => ([], cur)
      end
  end.

Lemma chunks_all ops s cur : List.concat ((chunks s ops cur).1.*2) ++ (chunks s ops cur).2 = cur ++ (run_log s ops).1.
Proof.
  revert s cur. induction ops as [|op ops IH]; intros s cur; cbn [chunks run_log]; [by rewrite app_nil_r|].
  destruct (session_step s op) as [s'|]; [|by rewrite app_nil_r].
  destruct (run_log s' ops) as [l n] eqn:El. cbn [fst].
  assert (forall cur', List.concat ((chunks s' ops cur').1.*2) ++ (chunks s' ops cur').2 = cur' ++ l) as IH'
    by (intros cur'; rewrite IH, El; done).
  destruct op as [data ok|now|]; try (rewrite IH', <- app_assoc; done).
  specialize (IH' []). destruct (chunks s' ops []) as [ch r]. cbn [fst snd fmap list_fmap List.concat] in *.
  rewrite <- !app_assoc. by rewrite IH'.
Qed.

Lemma chunks_app s s' ops1 ops2 cur :
  session_run s ops1 = Some s' ->
  chunks s (ops1 ++ ops2) cur =
    ((chunks s ops1 cur).1 ++ (chunks s' ops2 (chunks s ops1 cur).2).1, (chunks s' ops2 (chunks s ops1 cur).2).2).
Proof.
  revert s cur. induction ops1 as [|op ops1 IH]; intros s cur E.
  - injection E as <-. cbn. by destruct (chunks s ops2 cur).
  - cbn [session_run] in E. destruct (session_step s op) as [s1|] eqn:E1; [|done]. cbn [mbind option_bind] in E.
    cbn [app chunks]. rewrite E1. destruct op as [data ok|now|]; try apply (IH _ _ E).
    rewrite (IH _ [] E). by destruct (chunks s1 ops1 []).
Qed.

Lemma chunks_items s l cur : (chunks s (item_op <$> l) cur).1 = [].
Proof.
  revert s cur. induction l as [|i l IH]; intros s cur; [done|]. cbn [fmap list_fmap chunks].
  destruct (session_step s (item_op i)) as [s1|]; [|done]. apply IH.
Qed.

(** Statistics without records, as a session's are made. *)
Definition blank (st0 : ntp_stats) : Prop := ntp_stats_reset st0 = st0.

Lemma reset_stats_of st0 l : blank st0 -> ntp_stats_reset (stats_of st0 l) = st0.
Proof.
  intros Hb. transitivity (ntp_stats_reset st0); [|exact Hb]. clear Hb. induction l as [|x l IH] using rev_ind; [done|]. unfold stats_of in *.
  rewrite foldl_app. cbn [foldl]. rewrite <- IH. set (s := foldl _ _ _). unfold ntp_stats_add, group_for.
  by destruct (find_group _ _ _).
Qed.

Lemma settle_interval s now :
  session_wf s -> s_interval (settle s now) = stats_of (s_interval s) (op_samples s (STick now)).
Proof.
  intros Hw. destruct (release_spec s (u64 (now - HOST_WAIT_NS)) Hw) as (_ & _ & I & _).
  unfold settle. cbv zeta in *. set (s1 := release s _) in *. clearbody s1.
  assert (s_interval match s_joiner s1 with
    | Some j => set_joiner s1 (Some (ntp_joiner_expire j (u64 (now - TARGET_EXPIRY_NS))).2) | None => s1 end =
    s_interval s1) as -> by (by destruct (s_joiner s1)).
  rewrite I. unfold op_samples. by destruct (s_joiner s).
Qed.

Lemma run_interval st0 ops s s' cur :
  blank st0 -> session_wf s -> s_interval s = stats_of st0 cur -> session_run s ops = Some s' ->
  s_interval s' = stats_of st0 (chunks s ops cur).2.
Proof.
  intros Hb. revert s cur. induction ops as [|op ops IH]; intros s cur Hw Hi E.
  - by injection E as <-.
  - destruct (session_step_spec s op Hw) as (s1 & E1 & Hw1 & _ & I1 & _).
    cbn [session_run chunks] in *. rewrite E1 in *. cbn [mbind option_bind] in E.
    assert (stats_of (s_interval s) (op_samples s op) = stats_of st0 (cur ++ op_samples s op)) as Hs
      by (rewrite Hi; unfold stats_of; by rewrite foldl_app).
    unfold op_interval in I1. rewrite Hs in I1. destruct op as [data ok|now|]; [by apply (IH s1)| |by apply (IH s1)].
    rewrite (reset_stats_of _ _ Hb) in I1. specialize (IH s1 [] Hw1 I1 E). by destruct (chunks s1 ops []).
Qed.

(** ** The loop *)

Section reports.
  Variable c : ntp_config.
  Variable strerror : Z -> list Z.

(** The loop's status: a failing poll before it ends. *)
Fixpoint loop_status (start : Z) (turns : list turn) : Z :=
  match turns with
  | [] => 0
  | t :: turns =>
      if (ntp_loader_poll (tn_ring t)).1 <? 0 then 1
      else if nz (c_duration_s c) && (u64 (c_duration_s c * 1000000000) <=? u64 (tn_now t - start)) then 0
      else loop_status start turns
  end.

(** Text only. *)
Definition text_only (e : effect) : Prop := match e with Print _ | Say _ => True | _ => False end.

(** The report of an interval that ended with these samples. *)
Definition chunk_print (st0 : ntp_stats) (start : Z) (x : Z * list sample) : effect :=
  if o_detail (ro c) then Print (ntp_report_text (stats_of st0 x.2) (ro c))
  else Print (ntp_report_interval (stats_of st0 x.2) (ro c) (secs (x.1 - start))).

Lemma interval_report_text start now cnt l :
  Forall text_only (interval_report c start now cnt l).1.1.
Proof.
  unfold interval_report. destruct (c_online c && is_host c); [|constructor].
  destruct (o_detail (ro c)); [by repeat constructor|]. destruct (lp_header l); cbn [fst app]; by repeat constructor.
Qed.

Lemma interval_report_print start now cnt l :
  c_online c && is_host c = true ->
  (if o_detail (ro c) then Print (ntp_report_text (s_interval (lp_s l)) (ro c))
   else Print (ntp_report_interval (s_interval (lp_s l)) (ro c) (secs (now - start)))) ∈
  (interval_report c start now cnt l).1.1.
Proof.
  intros E. unfold interval_report. rewrite E. destruct (o_detail (ro c)); cbn [fst]; [by do 2 apply list_elem_of_further; apply list_elem_of_here|].
  apply elem_of_app. right. by apply list_elem_of_singleton.
Qed.

Lemma hint_frame start t l :
  lp_s (hint c start t l) = lp_s l /\ lp_next_tick (hint c start t l) = lp_next_tick l /\
  exists out, lp_out (hint c start t l) = lp_out l ++ out /\ Forall text_only out.
Proof.
  unfold hint. destruct (negb (lp_idle_hint l) && _); cbn [lp_s lp_next_tick lp_out].
  - split; [done|]. split; [done|]. eexists. split; [done|]. destruct (nz _); by repeat constructor.
  - split; [done|]. split; [done|]. exists []. by rewrite app_nil_r.
Qed.

Lemma end_interval_spec st0 start iv now cnt l cur :
  session_wf (lp_s l) -> s_interval (lp_s l) = stats_of st0 cur ->
  let l' := end_interval c start iv now cnt l in
  lp_s l' = tick (lp_s l) now /\ lp_next_tick l' = u64 (lp_next_tick l + iv) /\
  exists out, lp_out l' = lp_out l ++ out /\ Forall text_only out /\
    (c_online c && is_host c = true -> chunk_print st0 start (now, cur ++ op_samples (lp_s l) (STick now)) ∈ out).
Proof.
  intros Hw Hi. unfold end_interval. cbv zeta. set (l0 := mk_loop _ _ _ _ _ _ _).
  pose proof (interval_report_text start now cnt l0) as Ht.
  pose proof (interval_report_print start now cnt l0) as Hp.
  destruct (interval_report c start now cnt l0) as [[out h] tp]. cbn [lp_s lp_next_tick lp_out fst] in *.
  split; [done|]. split; [done|]. exists out. split; [done|]. split; [done|].
  intros E. specialize (Hp E). change (lp_s l0) with (settle (lp_s l) now) in Hp.
  rewrite (settle_interval _ _ Hw), Hi in Hp. unfold chunk_print. cbn [fst snd].
  unfold stats_of in *. rewrite foldl_app. exact Hp.
Qed.

Lemma sublist_one {A} (x : A) l : x ∈ l -> [x] `sublist_of` l.
Proof. intros (l1 & l2 & ->)%list_elem_of_split. apply (sublist_app [] l1); [apply sublist_nil_l|]. apply sublist_skip, sublist_nil_l. Qed.

(** The loop does exactly its operations to the session, and prints the report of
    every interval that ends. *)
Lemma polling_spec st0 start iv turns l cur :
  blank st0 -> session_wf (lp_s l) -> s_interval (lp_s l) = stats_of st0 cur ->
  let ops := loop_ops c start iv turns (lp_next_tick l) in
  exists l' out,
    polling c strerror start iv turns l = Some (loop_status start turns, l') /\
    session_run (lp_s l) ops = Some (lp_s l') /\ session_wf (lp_s l') /\
    lp_out l' = lp_out l ++ out /\ Forall text_only out /\
    (c_online c && is_host c = true -> (chunk_print st0 start <$> (chunks (lp_s l) ops cur).1) `sublist_of` out).
Proof.
  intros Hb. revert l cur. induction turns as [|t turns IH]; intros l cur Hw Hi.
  { exists l, []. cbn. rewrite app_nil_r. done. }
  cbv zeta. cbn [polling loop_ops loop_status]. unfold poll_ops.
  destruct (ntp_loader_poll (tn_ring t)) as [err items]. cbn [fst snd]. rewrite consume_run.
  destruct (session_run_total (lp_s l) (item_op <$> items) Hw) as (s1 & E1 & Hw1). rewrite E1. cbn [mbind option_bind].
  assert (s_interval s1 = stats_of st0 (chunks (lp_s l) (item_op <$> items) cur).2) as Hi1
    by (by eapply run_interval).
  destruct (err <? 0).
  { eexists _, [_]. split; [reflexivity|]. cbn [lp_s lp_out loop_say set_loop_session]. rewrite app_nil_r.
    split; [done|]. split; [done|]. split; [done|]. split; [by repeat constructor|].
    rewrite chunks_items. intros _. apply sublist_nil_l. }
  destruct (nz (c_duration_s c) && _).
  { eexists _, []. split; [reflexivity|]. cbn [lp_s lp_out set_loop_session]. rewrite !app_nil_r.
    split; [done|]. split; [done|]. split; [done|]. split; [done|]. rewrite chunks_items. intros _. apply sublist_nil_l. }
  set (l1 := set_loop_session l s1). set (cur1 := (chunks (lp_s l) (item_op <$> items) cur).2) in *.
  destruct (hint_frame start t l1) as (Hs & Hn & out1 & Ho & Ht1). set (l2 := hint c start t l1) in *. clearbody l2.
  change (lp_next_tick l1) with (lp_next_tick l) in Hn. change (lp_s l1) with s1 in Hs. change (lp_out l1) with (lp_out l) in Ho.
  rewrite Hn. destruct (tn_now t <? lp_next_tick l).
  - destruct (IH l2 cur1) as (l' & out & E & Er & Hw' & Hout & Ht & Hsub); [congruence..|].
    rewrite Hn, Hs in *. exists l', (out1 ++ out). split; [exact E|]. rewrite session_run_app, E1. split; [exact Er|].
    split; [done|]. split; [by rewrite Hout, Ho, <- app_assoc|]. split; [by apply Forall_app|].
    intros Hon. rewrite (chunks_app _ s1) by done. rewrite chunks_items. cbn [fst app]. fold cur1.
    apply (sublist_app [] out1); [apply sublist_nil_l|by apply Hsub].
  - rewrite <- Hs in Hw1, Hi1. destruct (end_interval_spec st0 start iv (tn_now t) (tn_counters t) l2 cur1 Hw1 Hi1) as (Hs3 & Hn3 & out2 & Ho3 & Ht2 & Hc).
    set (l3 := end_interval c start iv (tn_now t) (tn_counters t) l2) in *. clearbody l3.
    assert (session_run (lp_s l2) [STick (tn_now t)] = Some (lp_s l3)) as Etick by (by rewrite Hs3).
    assert (s_interval (lp_s l3) = stats_of st0 []) as Hi3.
    { rewrite (run_interval st0 _ _ _ cur1 Hb Hw1 Hi1 Etick). done. }
    assert (session_wf (lp_s l3)) as Hw3.
    { destruct (session_run_total (lp_s l2) [STick (tn_now t)] Hw1) as (s & Es & Hws). rewrite Etick in Es. by injection Es as ->. }
    destruct (IH l3 [] Hw3 Hi3) as (l' & out & E & Er & Hw' & Hout & Ht & Hsub).
    rewrite Hn3, Hn in *. exists l', (out1 ++ out2 ++ out). split; [exact E|]. rewrite session_run_app, E1.
    cbn [mbind option_bind session_run session_step]. rewrite <- Hs, <- Hs3. split; [exact Er|]. split; [done|].
    split; [by rewrite Hout, Ho3, Ho, <- !app_assoc|]. split; [by repeat (apply Forall_app; split)|].
    intros Hon. rewrite (chunks_app _ s1) by done. rewrite chunks_items. fold cur1. rewrite <- Hs. cbn [fst snd app chunks session_step].
    rewrite <- Hs3. destruct (chunks (lp_s l3) _ []) as [ch r]. cbn [fst fmap list_fmap] in *.
    apply (sublist_app [] out1); [apply sublist_nil_l|]. apply (sublist_app [_] out2); [by apply sublist_one, Hc|by apply Hsub].
Qed.
End reports.

(** ** The whole recording *)

Section whole.
  Variable c : ntp_config.
  Variable verbose : Z.
  Variable strerror : Z -> list Z.

(** The statistics a recording starts with, its file and its session. *)
Definition no_stats : ntp_stats := s_total (session_init c (mk_writer None 0)).
Definition record_header (a : answers) : ntp_file_header :=
  ntp_header_init (an_machine a) (c_role c) (c_transport c) (c_sample_every c).
Definition record_writer (a : answers) : Z * ntp_writer :=
  if saving c then ntp_writer_open (an_create a) (an_header a) (record_header a) else (0, mk_writer None 0).
Definition first_session (a : answers) : session := session_init c (record_writer a).2.
Definition record_ops (a : answers) : list session_op := tick_ops c a ++ end_ops a.

Definition attaches (a : answers) : Prop := an_open a = true /\ (record_writer a).1 = 0.

Lemma no_stats_blank : blank no_stats.
Proof. done. Qed.

(** What is said after the loop: the report and the counters, then the last byte
    to the parent, and only then the hooks go. *)
Definition closing (status : Z) (out : list effect) : Prop :=
  exists texts, out = Disarmed :: texts ++ [Tell [MSG_DONE; u8 status]; Closed] /\
    Forall (fun e => text_only e \/ exists t, e = JsonFile t) texts.

Definition final_status (a : answers) (s : session) : Z :=
  let ret := loop_status c (an_start a) (an_turns a) in
  let ret := if is_host c && negb (bool_decide (c_json c = [])) && negb ((an_json a).1 && (an_json a).2) then 1 else ret in
  (close_writer s ret (an_close a)).1.

Lemma final_report_spec hdr start end_ cur st json s ret :
  let '(out, ret') := final_report c hdr start end_ cur st json s ret in
  ret' = (if is_host c && negb (bool_decide (c_json c = [])) && negb (json.1 && json.2) then 1 else ret) /\
  Forall (fun e => text_only e \/ exists t, e = JsonFile t) out /\
  (is_host c = true -> Print (ntp_report_text (s_total s) (ro c)) ∈ out).
Proof.
  unfold final_report. destruct (is_host c); [|by repeat constructor]. unfold ntp_report_json.
  destruct json as [j1 j2]. cbn [fst snd].
  assert (forall w (jt h p q : list Z), Forall (fun e => text_only e \/ exists t, e = JsonFile t)
    ([Print h; Print p; Print q] ++ (if w : bool then [JsonFile jt] else [])) /\
    Print q ∈ [Print h; Print p; Print q] ++ (if w : bool then [JsonFile jt] else [])) as H.
  { intros w jt h p q. split.
    - apply Forall_app. split; [by repeat (constructor; [by left|])|]. destruct w; constructor; [right; by eexists|constructor].
    - do 2 apply list_elem_of_further. apply list_elem_of_here. }
  set (w := negb (bool_decide (c_json c = []))). clearbody w.
  destruct j1, j2; cbn [andb negb]; (split; [by destruct w|]); split; first [exact (proj1 (H w _ _ _ _))|intros _; exact (proj2 (H w _ _ _ _))].
Qed.

Lemma close_message_text s n : Forall text_only (close_message c s n).
Proof. unfold close_message. destruct (negb (s_writing s)); [constructor|]. destruct (nz n); by repeat constructor. Qed.

Lemma wind_up_spec a hdr st ret l :
  session_wf (lp_s l) ->
  exists s s' out status,
    wind_up c verbose a hdr st ret l = Some (status, lp_out l ++ out, s') /\
    session_run (lp_s l) (end_ops a) = Some s /\
    status = (close_writer s (if is_host c && negb (bool_decide (c_json c = [])) && negb ((an_json a).1 && (an_json a).2)
                              then 1 else ret) (an_close a)).1 /\
    s' = (close_writer s 0 (an_close a)).2 /\ closing status out /\
    (is_host c = true -> Print (ntp_report_text (s_total s) (ro c)) ∈ out).
Proof.
  intros Hw. unfold wind_up. rewrite drain_run.
  destruct (session_run_total (lp_s l) (drain_ops (u64 (an_drain_from a + DRAIN_NS)) (an_drain a)) Hw) as (s1 & E1 & Hw1).
  rewrite E1. cbn [mbind option_bind]. rewrite drain_rest_run.
  destruct (session_run_total s1 (rest_ops (an_rest a)) Hw1) as (s2 & E2 & Hw2). rewrite E2. cbn [mbind option_bind].
  unfold end_ops. rewrite session_run_app, E1. cbn [mbind option_bind]. rewrite session_run_app, E2. cbn [mbind option_bind session_run session_step].
  set (s := finish s2). clearbody s. pose proof (final_report_spec hdr (an_start a) (an_end a) (read_tput c (an_end_counters a) no_tput) st (an_json a) s ret) as Hf.
  destruct (final_report c hdr _ _ _ st (an_json a) s ret) as [out ret']. destruct Hf as (-> & Ht & Hp).
  set (ret1 := if is_host c && _ && _ then 1 else ret). clearbody ret1.
  assert ((close_writer s 0 (an_close a)).2 = (close_writer s ret1 (an_close a)).2) as Hs'
    by (unfold close_writer; destruct (negb (s_writing s)); [done|]; by destruct (ntp_writer_close _ _)).
  destruct (close_writer s ret1 (an_close a)) as [status s'] eqn:Ec. cbn [fst snd] in *.
  eexists s, s', _, status. split; [reflexivity|]. split; [done|]. split; [by rewrite Ec|]. split; [done|]. split.
  - eexists (out ++ [Print (print_counters c verbose (an_final a) s)] ++ target_hint c ++ close_message c s _). split.
    { rewrite <- !app_assoc. reflexivity. }
    apply Forall_app. split; [done|]. apply Forall_app. split; [by constructor; [left|]|]. apply Forall_app. split.
    + unfold target_hint. destruct (_ && _); [|constructor]. by constructor; [left|].
    + eapply Forall_impl; [apply close_message_text|]. intros e He. by left.
  - intros Hh. cbn [app]. apply list_elem_of_further, elem_of_app. left. by apply Hp.
Qed.

(** A recording that attaches, in terms of its operations. *)
Lemma record_spec a :
  attaches a ->
  exists s s' out1 out2,
    record c verbose strerror a = Some (final_status a s, Opened :: attached_effects c ++ out1 ++ out2, Some s') /\
    session_run (first_session a) (record_ops a) = Some s /\ s' = (close_writer s 0 (an_close a)).2 /\
    Forall text_only out1 /\ closing (final_status a s) out2 /\
    (is_host c = true ->
       (if c_online c then chunk_print c no_stats (an_start a) <$> (chunks (first_session a) (tick_ops c a) []).1 else [])
         `sublist_of` out1 /\
       Print (ntp_report_text (s_total s) (ro c)) ∈ out2).
Proof.
  intros [Ho Hw]. unfold record. rewrite Ho. cbn [negb]. fold (record_header a). fold (record_writer a).
  unfold first_session, record_ops, tick_ops. destruct (record_writer a) as [r w]. cbn [fst snd] in *. rewrite Hw.
  change (nz 0) with false. cbv iota. set (iv := u64 (c_interval_s c * 1000000000)).
  set (l0 := mk_loop (session_init c w) _ _ _ _ _ _).
  destruct (polling_spec c strerror no_stats (an_start a) iv (an_turns a) l0 [] no_stats_blank) as
    (l & out1 & Ep & Er & Hw' & Hout & Ht & Hsub); [apply session_init_wf|done|].
  rewrite Ep. cbn [mbind option_bind]. change (lp_s l0) with (session_init c w) in *.
  change (lp_next_tick l0) with (u64 (an_start a + iv)) in *.
  destruct (wind_up_spec a (record_header a) (read_tput c (an_start_counters a) no_tput)
    (loop_status c (an_start a) (an_turns a)) l Hw') as (s & s' & out2 & status & Ew & Es & -> & -> & Hc & Hp).
  rewrite Ew. cbn [mbind option_bind]. exists s. eexists. exists out1, out2. split.
  { rewrite Hout. cbn [lp_out l0]. rewrite <- !app_assoc. reflexivity. }
  split; [by rewrite session_run_app, Er|]. split; [done|]. split; [done|]. split; [done|].
  intros Hh. split; [|by apply Hp]. destruct (c_online c) eqn:Eon; [|apply sublist_nil_l]. apply Hsub. by rewrite Hh.
Qed.
End whole.

Lemma end_chunks ops s cur : Forall (fun op => forall now, op <> STick now) ops -> (chunks s ops cur).1 = [].
Proof.
  intros H. revert s cur. induction H as [|op ops Hop H IH]; intros s cur; [done|]. cbn [chunks].
  destruct (session_step s op) as [s1|]; [|done]. destruct op as [data ok|now|]; [apply IH|by destruct (Hop now)|apply IH].
Qed.

Lemma end_ops_no_tick a : Forall (fun op => forall now, op <> STick now) (end_ops a).
Proof.
  assert (forall b, Forall (fun op => forall now, op <> STick now) (poll_ops b)) as Hp
    by (intros b; unfold poll_ops; apply Forall_fmap, Forall_true; done).
  unfold end_ops. apply Forall_app. split; [|apply Forall_app; split; [|by repeat constructor]].
  - induction (an_drain a) as [|[now b] l IH]; cbn [drain_ops]; [constructor|]. destruct (now <? _); [|constructor].
    apply Forall_app. by split.
  - induction (an_rest a) as [|b l IH]; cbn [rest_ops]; [constructor|]. apply Forall_app. split; [done|].
    destruct (0 <? _); [done|constructor].
Qed.

(** C13: A recording reports every command it received once.  A recording that
    attaches always comes to its end (no store out of bounds on the way), and the
    samples it takes are divided into the intervals that ended and the rest: the
    report of each interval is that of its own samples, the final report that of
    all of them together, printed in this order, and the host records received are
    these samples, the ones pushed out of a full joiner, and the ones that still
    wait. *)
Theorem record_reports c verbose strerror a :
  attaches c a ->
  let s0 := first_session c a in
  let ops := record_ops c a in
  let '(ended, rest) := chunks s0 ops [] in
  let all := List.concat (ended.*2) ++ rest in
  exists status out s' s,
    record c verbose strerror a = Some (status, out, Some s') /\ session_run s0 ops = Some s /\
    (is_host c = true ->
      ((if c_online c then chunk_print c (no_stats c) (an_start a) <$> ended else []) ++
       [Print (ntp_report_text (stats_of (no_stats c) all) (ro c))]) `sublist_of` out) /\
    s_host_records s ≡₆₄ Z.of_nat (List.length all) + (run_log s0 ops).2 + waiting_hosts s.
Proof.
  intros Ha. cbv zeta. destruct (record_spec c verbose strerror a Ha) as (s & s' & o1 & o2 & Er & Es & _ & _ & _ & Hp).
  destruct (session_run_spec (record_ops c a) (first_session c a)) as (sx & Ex & _ & T & A); [apply session_init_wf|].
  rewrite Es in Ex. injection Ex as <-.
  assert ((chunks (first_session c a) (record_ops c a) []).1 = (chunks (first_session c a) (tick_ops c a) []).1) as Hch.
  { unfold record_ops in *. destruct (session_run_total (first_session c a) (tick_ops c a)) as (s1 & E1 & _); [apply session_init_wf|].
    rewrite (chunks_app _ s1) by done. cbn [fst]. rewrite (end_chunks (end_ops a)) by apply end_ops_no_tick. by rewrite app_nil_r. }
  pose proof (chunks_all (record_ops c a) (first_session c a) []) as Hall.
  destruct (chunks (first_session c a) (record_ops c a) []) as [ended rest]. cbn [fst snd app] in *. rewrite Hall.
  eexists _, _, s', s. split; [exact Er|]. split; [done|]. split.
  - intros Hh. destruct (Hp Hh) as [H1 H2]. rewrite T in H2. rewrite <- Hch in H1.
    apply (sublist_app [] [Opened]); [apply sublist_nil_l|]. apply (sublist_app [] (attached_effects c)); [apply sublist_nil_l|].
    apply sublist_app; [exact H1|]. by apply sublist_one.
  - assert (waiting_hosts (first_session c a) = 0) as Hz
      by (unfold first_session, waiting_hosts, session_init; cbn [s_joiner]; by destruct (_ =? _)).
    assert (s_host_records (first_session c a) = 0) as Hh by done. rewrite Hz, Hh in A. cong_from.
Qed.

(** ** What the parent hears *)

Definition tells (out : list effect) : list Z := mjoin ((fun e => match e with Tell m => m | _ => [] end) <$> out).

Lemma tells_app l l' : tells (l ++ l') = tells l ++ tells l'.
Proof. unfold tells. by rewrite fmap_app, join_app. Qed.

Lemma tells_none l : Forall (fun e => forall m, e <> Tell m) l -> tells l = [].
Proof.
  induction 1 as [|e l He H IH]; [done|]. change (e :: l) with ([e] ++ l). rewrite tells_app, IH, app_nil_r.
  destruct e; try done. by destruct (He msg).
Qed.

Lemma text_tells l : Forall text_only l -> tells l = [].
Proof. intros H. apply tells_none. eapply Forall_impl; [exact H|]. by intros [] ? ?. Qed.

Lemma closing_tells status out : closing status out -> tells out = [MSG_DONE; u8 status].
Proof.
  intros (texts & -> & Ht). change (Disarmed :: ?l) with ([Disarmed] ++ l). rewrite !tells_app.
  rewrite (tells_none texts); [done|]. eapply Forall_impl; [exact Ht|]. intros e [He|[t ->]] m; [by destruct e|done].
Qed.

Lemma attached_tells c : tells (attached_effects c) = [MSG_ATTACHED].
Proof. unfold attached_effects. rewrite tells_app. by destruct (_ && _). Qed.

Lemma loop_status_bit c start turns : loop_status c start turns = 0 \/ loop_status c start turns = 1.
Proof.
  induction turns as [|t turns IH]; [by left|]. cbn [loop_status]. destruct (_ <? 0); [by right|].
  destruct (nz _ && _); [by left|done].
Qed.

(** The turns the loop takes: up to a poll that fails or the end of the duration. *)
Fixpoint turns_taken (c : ntp_config) (start : Z) (turns : list turn) : list turn :=
  match turns with
  | [] => []
  | t :: turns =>
      if ((ntp_loader_poll (tn_ring t)).1 <? 0) ||
         (nz (c_duration_s c) && (u64 (c_duration_s c * 1000000000) <=? u64 (tn_now t - start)))
      then [t] else t :: turns_taken c start turns
  end.
Definition poll_fails (t : turn) : Prop := (ntp_loader_poll (tn_ring t)).1 < 0.

Lemma loop_status_polls c start turns :
  loop_status c start turns = 0 <-> Forall (fun t => ~ poll_fails t) (turns_taken c start turns).
Proof.
  induction turns as [|t turns IH]; cbn [loop_status turns_taken]; [done|]. unfold poll_fails at 1.
  destruct (Z.ltb_spec (ntp_loader_poll (tn_ring t)).1 0) as [Hp|Hp]; cbn [orb].
  - split; [done|]. intros H%Forall_inv. unfold poll_fails in H. lia.
  - destruct (_ && _); [split; [|done]; intros _; repeat constructor; unfold poll_fails; lia|].
    rewrite IH. rewrite Forall_cons. split; [|by intros [_ ?]]. intros H. split; [unfold poll_fails; lia|done].
Qed.

(** What may go wrong after attaching: a poll of the loop, the JSON report, the record
    file.  A poll that fails while the ring buffer is drained does not count. *)
Definition all_well (c : ntp_config) (a : answers) (s : session) : Prop :=
  Forall (fun t => ~ poll_fails t) (turns_taken c (an_start a) (an_turns a)) /\
  (is_host c = true -> c_json c <> [] -> (an_json a).1 = true /\ (an_json a).2 = true) /\
  (s_writing s = true -> s_write_errors s = 0 /\ (ntp_writer_close (s_w s) (an_close a)).1 = 0).

Lemma final_status_spec c a s :
  (final_status c a s = 0 \/ final_status c a s = 1) /\ (final_status c a s = 0 <-> all_well c a s).
Proof.
  unfold final_status, all_well, close_writer. cbv zeta. rewrite <- loop_status_polls.
  set (j := is_host c && negb (bool_decide (c_json c = [])) && negb ((an_json a).1 && (an_json a).2)).
  assert (j = false <-> (is_host c = true -> c_json c <> [] -> (an_json a).1 = true /\ (an_json a).2 = true)) as Hj.
  { unfold j. destruct (is_host c); cbn [andb]; [|done]. destruct (bool_decide_reflect (c_json c = [])); cbn [negb andb]; [done|].
    destruct (an_json a) as [[] []]; cbn; split; try done; intros H; by destruct (H eq_refl n). }
  rewrite <- Hj. destruct (ntp_writer_close (s_w s) (an_close a)) as [r w']. cbn [fst].
  destruct (s_writing s) eqn:Ew; cbn [negb fst].
  - cbn [s_write_errors]. destruct (nz r) eqn:Er; cbn [orb].
    { apply nz_true in Er. split; [by right|]. split; [done|]. intros (_ & _ & H). by destruct (H eq_refl). }
    apply nz_false in Er. destruct (nz (s_write_errors s)) eqn:Ee.
    { apply nz_true in Ee. split; [by right|]. split; [done|]. intros (_ & _ & H). by destruct (H eq_refl). }
    apply nz_false in Ee. destruct j; [split; [by right|]; split; [done|]; by intros (_ & ? & _)|].
    destruct (loop_status_bit c (an_start a) (an_turns a)) as [-> | ->]; (split; [by (left + right)|]); split; try done.
    intros (? & _). done.
  - destruct j; [split; [by right|]; split; [done|]; by intros (_ & ? & _)|].
    destruct (loop_status_bit c (an_start a) (an_turns a)) as [-> | ->]; (split; [by (left + right)|]); split; try done.
    intros (? & _). done.
Qed.

(** A recording that does not attach. *)
Lemma record_fails c verbose strerror a :
  ~ attaches c a -> exists out so, record c verbose strerror a = Some (1, out, so) /\ tells out = [].
Proof.
  intros Ha. unfold record. destruct (an_open a) eqn:Eo; cbn [negb]; [|by eexists _, _].
  unfold attaches, record_writer, record_header in Ha. destruct (if saving c then _ else _) as [r w]. cbn [fst] in Ha.
  destruct (nz r) eqn:En; [by eexists _, _|]. apply nz_false in En. by destruct Ha.
Qed.

(** C14: The parent hears exactly how a recording ends.  Before the hooks are in place
    nothing is said and a failure ends with status 1.  After that one byte says that
    they are, and the last thing before they are removed, after every text of the
    report, is the status, which is the one the process exits with, 0 or 1.  It is 0
    exactly when no poll of the measuring loop failed, a JSON report that was asked for
    was written, and, if records are saved, each one handed over was written and the
    file closed; polls that fail in the drain after the loop do not count. *)
Theorem record_tells c verbose strerror a :
  exists status out so,
    record c verbose strerror a = Some (status, out, so) /\
    (~ attaches c a -> status = 1 /\ tells out = []) /\
    (attaches c a ->
      exists s pre,
        session_run (first_session c a) (record_ops c a) = Some s /\
        tells out = [MSG_ATTACHED; MSG_DONE; status] /\
        out = pre ++ [Tell [MSG_DONE; status]; Closed] /\ (Closed ∉ pre) /\ (Tell [MSG_DONE; status] ∉ pre) /\
        (status = 0 \/ status = 1) /\ (status = 0 <-> all_well c a s)).
Proof.
  destruct (decide (an_open a = true /\ (record_writer c a).1 = 0)) as [Ha|Ha].
  - destruct (record_spec c verbose strerror a Ha) as (s & s' & o1 & o2 & Er & Es & _ & Ht & Hc & _).
    eexists _, _, _. split; [exact Er|]. split; [by intros []|]. intros _.
    destruct (final_status_spec c a s) as [Hbit Hiff]. set (status := final_status c a s) in *. clearbody status.
    assert (u8 status = status) as Hu by (by destruct Hbit as [-> | ->]).
    pose proof (closing_tells _ _ Hc) as Ht2. destruct Hc as (texts & -> & Htx). rewrite Hu in *.
    exists s, (Opened :: attached_effects c ++ o1 ++ Disarmed :: texts). split; [done|]. split.
    { change (Opened :: ?l) with ([Opened] ++ l). rewrite !tells_app, attached_tells, (text_tells o1 Ht), Ht2. done. }
    split; [change (Opened :: ?l) with ([Opened] ++ l); rewrite <- !app_assoc; reflexivity|].
    assert (forall e, (forall t, e <> Print t) -> (forall t, e <> Say t) -> (forall t, e <> JsonFile t) ->
      e <> Opened -> e <> Disarmed -> e <> Tell [MSG_ATTACHED] -> e ∉ Opened :: attached_effects c ++ o1 ++ Disarmed :: texts) as Hn.
    { intros e Hp Hs Hj Ho Hd Ht0 Hin. rewrite Forall_forall in Ht, Htx.
      apply elem_of_cons in Hin as [|Hin]; [done|]. apply elem_of_app in Hin as [Hin|Hin].
      - unfold attached_effects in Hin. cbn [app] in Hin.
        apply elem_of_cons in Hin as [|Hin]; [by eapply Hs|]. apply elem_of_cons in Hin as [|Hin]; [done|].
        destruct (_ && _); [|by apply not_elem_of_nil in Hin]. apply list_elem_of_singleton in Hin. by eapply Hs.
      - apply elem_of_app in Hin as [Hin|Hin]; [apply Ht in Hin; destruct e; try done; [by eapply Hp|by eapply Hs]|].
        apply elem_of_cons in Hin as [|Hin]; [done|]. apply Htx in Hin as [Hin|[t Hin]]; [|by eapply Hj].
        destruct e; try done; [by eapply Hp|by eapply Hs]. }
    split; [by apply Hn|]. split; [by apply Hn|]. done.
  - destruct (record_fails c verbose strerror a Ha) as (out & so & E & Ht).
    exists 1, out, so. split; [done|]. split; [done|]. intros H. by destruct Ha.
Qed.

(** The bytes told, for the process at the other end. *)
Lemma record_tells_cases c verbose strerror a :
  exists status out so, record c verbose strerror a = Some (status, out, so) /\
    (tells out = [] \/ tells out = [MSG_ATTACHED; MSG_DONE; status]) /\ 0 <= status <= 1.
Proof.
  destruct (decide (an_open a = true /\ (record_writer c a).1 = 0)) as [Ha|Ha].
  - destruct (record_spec c verbose strerror a Ha) as (s & s' & o1 & o2 & Er & Es & _ & Ht & Hc & _).
    eexists _, _, _. split; [exact Er|]. destruct (final_status_spec c a s) as [Hbit _].
    change (Opened :: ?l) with ([Opened] ++ l). rewrite !tells_app, attached_tells, (text_tells o1 Ht), (closing_tells _ _ Hc).
    destruct Hbit as [-> | ->]; (split; [by right|lia]).
  - destruct (record_fails c verbose strerror a Ha) as (out & so & E & Ht). exists 1, out, so. split; [done|]. split; [by left|lia].
Qed.

(** A host's recording: a command of the first second, one of the second, and one
    that completes while the ring buffer is drained. *)
Definition example_config : ntp_config :=
  mk_config (bytes "all") NTP_IO_BOTH [] 0 0 0 true [] 1 1 16 NTP_AGG_AVG true true true true false false false false
    false NTP_ROLE_HOST NTP_TR_TCP 3 [] [] [] false false false [] [].
Definition example_poll : ring_answer := mk_ring_answer 1 [(enc_host example_host, FwAll)] 0 [].
Definition example_turn (now : Z) (a : ring_answer) : turn := mk_turn a now (fun _ => 1) (fun _ => 1).
Definition example_answers : answers :=
  let sec := 1000000000 in
  mk_answers (mk_machine 5 6 None None) true true true (10 * sec) (fun _ => 0)
    [example_turn (10 * sec + 5) example_poll; example_turn (11 * sec + 1) (mk_ring_answer (-4) [] 0 []);
     example_turn (12 * sec) example_poll; example_turn (13 * sec) (mk_ring_answer 0 [] 0 []);
     example_turn (14 * sec) example_poll]
    (13 * sec) (fun _ => 2) (13 * sec) [(13 * sec, example_poll); (14 * sec, example_poll)] [mk_ring_answer 0 [] 0 []]
    (true, true) (fun _ => 0) true.

Lemma record_reports_witness :
  attaches example_config example_answers /\
  exists status out s' s,
    record example_config 0 (fun _ => []) example_answers = Some (status, out, Some s') /\
    session_run (first_session example_config example_answers) (record_ops example_config example_answers) = Some s /\
    [chunk_print example_config (no_stats example_config) 10000000000 (11000000001, [(example_host, None)]);
     chunk_print example_config (no_stats example_config) 10000000000 (12000000000, [(example_host, None)]);
     Print (ntp_report_text (stats_of (no_stats example_config) (replicate 3 (example_host, None))) (ro example_config))]
      `sublist_of` out.
Proof.
  assert (attaches example_config example_answers) as Ha by (split; vm_compute; reflexivity). split; [exact Ha|].
  pose proof (record_reports example_config 0 (fun _ => []) example_answers Ha) as H. cbv zeta in H.
  assert (chunks (first_session example_config example_answers) (record_ops example_config example_answers) [] =
    ([(11000000001, [(example_host, None)]); (12000000000, [(example_host, None)])], [(example_host, None)])) as Hc
    by (vm_compute; reflexivity).
  rewrite Hc in H. destruct H as (status & out & s' & s & H1 & H2 & H3 & _).
  exists status, out, s', s. split; [exact H1|]. split; [exact H2|]. exact (H3 eq_refl).
Defined.

(** A poll that fails in the drain after the loop is ignored: what the ring buffer still
    held is in no report, and the recording ends with 0. *)
Theorem drain_failure_ignored :
  let a := example_answers in
  let a := mk_answers (an_machine a) true true true (an_start a) (an_start_counters a) (an_turns a) (an_end a) (an_end_counters a)
             (an_drain_from a) [(13000000000, mk_ring_answer (-5) [] 0 [])] [mk_ring_answer (-5) [] 0 []] (an_json a) (an_final a) true in
  (ntp_loader_poll (mk_ring_answer (-5) [] 0 [])).1 = -5 /\ fst <$> (fst <$> record example_config 0 (fun _ => []) a) = Some 0.
Proof. vm_compute. by split. Qed.
