(* ===== verification/Util.v ===== *)
(** * Small things the tool relies on (src/util.c, src/loader.c, src/record.c)

    The clocks as nanoseconds, messages and the levels at which they appear, allocation,
    and the file descriptors of the timestamp socket and of a recording's pipe.  What the
    operating system answers is an argument. *)
From stdpp Require Import base numbers list gmap.
From Stdlib Require Import ZArith Lia String.
From S2P Require Import Prelude CStr Recording.

(** ** Clocks *)

Record timespec := mk_timespec { tv_sec : Z; tv_nsec : Z }.

(** [clock_ns] of what [clock_gettime] stored. *)
Definition clock_ns (ts : timespec) : Z := u64 (u64 (u64 (tv_sec ts) * 1000000000) + u64 (tv_nsec ts)).

(** A time after the epoch, or after boot, with its nanoseconds in range; 2^34 seconds
    are 544 years. *)
Definition timespec_ok (ts : timespec) : Prop := 0 <= tv_sec ts < 2 ^ 34 /\ 0 <= tv_nsec ts < 1000000000.

Definition earlier (a b : timespec) : Prop :=
  tv_sec a < tv_sec b \/ (tv_sec a = tv_sec b /\ tv_nsec a < tv_nsec b).

Lemma clock_ns_exact ts : timespec_ok ts -> clock_ns ts = tv_sec ts * 1000000000 + tv_nsec ts.
Proof.
  intros [Hs Hn]. unfold clock_ns. rewrite (u64_small (tv_sec ts)), (u64_small (tv_nsec ts)) by (unfold is_u64; lia).
  rewrite (u64_small (_ * _)), u64_small by (unfold is_u64; lia). done.
Qed.

(** The order of times is the order of their nanoseconds: differences of two reads of a
    clock are never negative. *)
Lemma clock_ns_order a b : timespec_ok a -> timespec_ok b -> clock_ns a < clock_ns b <-> earlier a b.
Proof.
  intros Ha Hb. rewrite !clock_ns_exact by done. destruct Ha, Hb. unfold earlier. lia.
Qed.

(** ** Messages *)

Definition ntp_info (text : list Z) : list Z := vlog [] text.
Definition ntp_debug (verbose : Z) (text : list Z) : list Z :=
  if negb (nz verbose) then [] else vlog (bytes "debug: ") text.

Inductive libbpf_print_level := LIBBPF_WARN | LIBBPF_INFO | LIBBPF_DEBUG.
#[export] Instance libbpf_print_level_eq_dec : EqDecision libbpf_print_level.
Proof. solve_decision. Defined.

(** What libbpf has to say, as it is formatted. *)
Definition libbpf_log (verbose : Z) (level : libbpf_print_level) (text : list Z) : list Z :=
  if bool_decide (level = LIBBPF_DEBUG) && (verbose <? 2) then []
  else if bool_decide (level = LIBBPF_INFO) && negb (nz verbose) then []
  else text.

(** Each -v shows at least what fewer show. *)
Lemma libbpf_log_grows v v' level text :
  0 <= v <= v' -> libbpf_log v level text = text -> libbpf_log v' level text = text.
Proof.
  intros Hv. unfold libbpf_log, nz. destruct level; simpl; [done|..].
  - destruct (Z.eqb_spec v 0), (Z.eqb_spec v' 0); simpl; try done. lia.
  - destruct (Z.ltb_spec v 2), (Z.ltb_spec v' 2); simpl; try done; lia.
Qed.

(** ** Allocation *)

(** A pointer, or the end of the process with its message and status. *)
Definition check_alloc (p : Z) : (list Z * Z) + Z := if negb (nz p) then inl (ntp_err (bytes "out of memory"), 1) else inr p.

Section Alloc.
  Variables (malloc : Z -> Z) (calloc : Z -> Z -> Z) (realloc : Z -> Z -> Z) (strdup : Z -> Z).

Definition at_least_1 (size : Z) : Z := if nz size then size else 1.
Definition xmalloc (size : Z) : (list Z * Z) + Z := check_alloc (malloc (at_least_1 size)).
Definition xcalloc (n size : Z) : (list Z * Z) + Z := check_alloc (calloc (at_least_1 n) (at_least_1 size)).
Definition xrealloc (p size : Z) : (list Z * Z) + Z := check_alloc (realloc p (at_least_1 size)).
Definition xstrdup (s : Z) : (list Z * Z) + Z := check_alloc (strdup s).

(** The C library may answer NULL when it is asked for no bytes; nobody ever gets NULL
    from these, and while there is memory for what is asked the process goes on. *)
Lemma alloc_never_null :
  (forall n, 0 < n -> malloc n <> 0) -> (forall n m, 0 < n -> 0 < m -> calloc n m <> 0) ->
  (forall p n, 0 < n -> realloc p n <> 0) ->
  forall n m p, 0 <= n -> 0 <= m ->
    (exists q, xmalloc n = inr q /\ q <> 0) /\ (exists q, xcalloc n m = inr q /\ q <> 0) /\
    (exists q, xrealloc p n = inr q /\ q <> 0).
Proof.
  intros H1 H2 H3 n m p Hn Hm.
  assert (forall k, 0 <= k -> 0 < at_least_1 k) as Hpos.
  { intros k Hk. unfold at_least_1, nz. destruct (Z.eqb_spec k 0); simpl; lia. }
  assert (forall q, q <> 0 -> exists q', check_alloc q = inr q' /\ q' <> 0) as Hc.
  { intros q Hq. exists q. unfold check_alloc. by rewrite (proj2 (nz_true q) Hq). }
  unfold xmalloc, xcalloc, xrealloc. split_and!; apply Hc; auto.
Qed.

End Alloc.

(** ** File descriptors *)

(** The descriptors that are open. *)
Definition files : Type := gset Z.

(** [open_stamp_socket]: the answers of [socket] and [setsockopt]. *)
Definition open_stamp_socket (fd setsockopt : Z) (o : files) : Z * files :=
  if fd <? 0 then (-1, o)
  else
    let o := {[fd]} ∪ o in
    if nz setsockopt then (-1, o ∖ {[fd]}) else (fd, o).

Record child := mk_child { ch_pid : Z; ch_fd : Z }.

(** Where [start_child] returns, or the process that records and never does. *)
Inductive forked := Parent (ret : Z) (ch : option child) (o : files) | Child (told : Z) (o : files).

(** The answers of [pipe2] and [fork]. *)
Definition start_child (pipe : option (Z * Z)) (pid : Z) (o : files) : forked :=
  match pipe with
  | None => Parent (-1) None o
  | Some (r, w) =>
      let o := {[r]} ∪ ({[w]} ∪ o) in
      if pid <? 0 then Parent (-1) None (o ∖ {[r]} ∖ {[w]})
      else if pid =? 0 then Child w (o ∖ {[r]})
      else Parent 0 (Some (mk_child pid r)) (o ∖ {[w]})
  end.

(** New descriptors are new, and there are no others afterwards than the one returned: no
    failure leaves one open, and neither side of a pipe holds the other side's end. *)
Lemma descriptors_kept fd opt r w pid o :
  fd ∉ o -> r ∉ o -> w ∉ o -> r <> w ->
  (let '(ret, o') := open_stamp_socket fd opt o in o' = if ret <? 0 then o else {[ret]} ∪ o) /\
  match start_child (Some (r, w)) pid o with
  | Parent ret (Some ch) o' => ret = 0 /\ o' = {[ch_fd ch]} ∪ o
  | Parent ret None o' => ret = -1 /\ o' = o
  | Child told o' => o' = {[told]} ∪ o /\ r ∉ o'
  end.
Proof.
  intros Hfd Hr Hw Hrw. split.
  - unfold open_stamp_socket. destruct (Z.ltb_spec fd 0); [done|]. destruct (nz opt); [set_solver|].
    destruct (Z.ltb_spec fd 0); [lia|done].
  - unfold start_child. destruct (pid <? 0); [split; [done|set_solver]|]. destruct (pid =? 0); simpl; set_solver.
Qed.
