(* ===== verification/Parent.v ===== *)
(** * The parent of a recording (src/record.c: reap, next_byte, cmd_record)

    The parent waits for what the child tells it, starts over with kprobes when
    attaching takes too long, and exits with the recording's status.  What the
    operating system answers to [poll], [read] and [waitpid] is a list of answers,
    consumed in order; the bytes a child has written and not been asked for are its
    pipe.  The child is [record] of Recording.v. *)
From stdpp Require Import base numbers list.
From Stdlib Require Import ZArith Lia String.
From S2P Require Import Prelude CStr Config Record Recording.

Definition NB_TIMEOUT : Z := -1.
Definition NB_LEFT : Z := -2.
Definition ATTACH_DEADLINE_MS : Z := 10000.
Definition DETACH_WAIT_MS : Z := 3000.

(** One turn of the loop in [next_byte]: the interrupts so far, the clock, what
    [poll] returns with which [errno], and the [errno] of a [read] that fails. *)
Record wake := mk_wake {
  wk_interrupts : Z; wk_now : Z; wk_poll : Z; wk_errno : Z; wk_read : option Z
}.

(** What [waitpid] says: interrupted, still running, failed, or how the child
    ended. *)
Inductive wait_answer := WIntr | WRunning | WFailed | WExited (st : Z) | WKilled.

(** [reap], with [WNOHANG] or without; [None]: still waiting when the answers
    end. *)
Fixpoint reap (nohang : bool) (ws : list wait_answer) : option (Z * list wait_answer) :=
  match ws with
  | [] => None
  | WIntr :: ws => reap nohang ws
  | WRunning :: ws => if nohang then Some (-1, ws) else reap nohang ws
  | WFailed :: ws | WKilled :: ws => Some (1, ws)
  | WExited st :: ws => Some (st, ws)
  end.

(** The loop of [next_byte]: the byte, and what is left of the turns and of the
    pipe.  A pipe that is read when it is empty has been closed. *)
Fixpoint await_byte (deadline : Z) (ws : list wake) (pipe : list Z) : option (Z * list wake * list Z) :=
  match ws with
  | [] => None
  | w :: ws =>
      if 2 <=? wk_interrupts w then Some (NB_LEFT, ws, pipe)
      else if nz deadline && (deadline <=? wk_now w) then Some (NB_TIMEOUT, ws, pipe)
      else if (wk_poll w <? 0) && (wk_errno w =? EINTR) then await_byte deadline ws pipe
      else if wk_poll w =? 0 then Some (NB_TIMEOUT, ws, pipe)
      else if wk_poll w <? 0 then Some (0, ws, pipe)
      else
        match wk_read w with
        | Some e => if e =? EINTR then await_byte deadline ws pipe else Some (0, ws, pipe)
        | None => match pipe with b :: pipe => Some (b, ws, pipe) | [] => Some (0, ws, []) end
        end
  end.

Definition next_byte (now timeout_ms : Z) (ws : list wake) (pipe : list Z) : option (Z * list wake * list Z) :=
  await_byte (if timeout_ms <? 0 then 0 else u64 (now + timeout_ms * 1000000)) ws pipe.

(** Around the parent: whether each of two children can be started, what the
    recording returns when it runs in the parent, the clock at the start, the
    turns of waiting, what each child writes, and what waiting for the last one
    says. *)
Record parent := mk_parent {
  p_start : bool;
  p_restart : bool;
  p_inline : Z;
  p_now : Z;
  p_wakes : list wake;
  p_pipe : list Z;
  p_pipe2 : list Z;
  p_waits : list wait_answer
}.

(** The configurations children were started with, whether the first was killed,
    and the exit status. *)
Record outcome := mk_outcome { oc_children : list ntp_config; oc_killed : bool; oc_status : Z }.

(** Waiting, at most [n] times, for the hooks to go. *)
Fixpoint detach_wait (n : nat) (status : Z) (ws : list wait_answer) : option Z :=
  match n with
  | O => Some status
  | S n => '(r, ws) ← reap true ws; if 0 <=? r then Some r else detach_wait n status ws
  end.

(** From the first byte that is not a timeout on. *)
Definition finish_record (p : parent) (children : list ntp_config) (killed : bool) (b : Z) (ws : list wake)
    (pipe : list Z) : option outcome :=
  '(b, ws, pipe) ← if b =? MSG_ATTACHED then next_byte 0 (-1) ws pipe else Some (b, ws, pipe);
  if b =? NB_LEFT then Some (mk_outcome children killed 130)
  else if negb (b =? MSG_DONE) then
    '(r, _) ← reap false (p_waits p); Some (mk_outcome children killed r)
  else
    '(status, _, _) ← next_byte 0 (-1) ws pipe;
    let status := if status <? 0 then 1 else status in
    r ← detach_wait (Z.to_nat (DETACH_WAIT_MS / 50)) status (p_waits p);
    Some (mk_outcome children killed r).

Definition cmd_record (c : ntp_config) (p : parent) : option outcome :=
  if negb (p_start p) then Some (mk_outcome [] false (p_inline p))
  else
    '(b, ws, pipe) ← next_byte (p_now p) ATTACH_DEADLINE_MS (p_wakes p) (p_pipe p);
    if (b =? NB_TIMEOUT) && negb (c_force_fentry c) && negb (c_force_kprobes c) then
      let c' := set_force_kprobes c true in
      if negb (p_restart p) then Some (mk_outcome [c] true 1)
      else '(b, ws, pipe) ← next_byte 0 (-1) ws (p_pipe2 p); finish_record p [c; c'] true b ws pipe
    else if b =? NB_TIMEOUT then
      '(b, ws, pipe) ← next_byte 0 (-1) ws pipe; finish_record p [c] false b ws pipe
    else finish_record p [c] false b ws pipe.

(** ** Waiting for a byte *)

(** A turn that is not interrupted answers. *)
Definition conclusive (w : wake) : Prop :=
  2 <= wk_interrupts w \/ (wk_poll w = 0) \/ (0 < wk_poll w /\ wk_read w <> Some EINTR) \/
  (wk_poll w < 0 /\ wk_errno w <> EINTR).

Lemma await_returns deadline ws pipe : Exists conclusive ws -> is_Some (await_byte deadline ws pipe).
Proof.
  induction 1 as [w ws Hw|w ws Hw IH]; cbn [await_byte];
    (destruct (Z.leb_spec 2 (wk_interrupts w)); [by eexists|]); (destruct (nz deadline && _); [by eexists|]).
  - destruct Hw as [Hw|[Hw|[[Hw Hr]|[Hw Hr]]]]; [lia|by rewrite Hw; eexists|..].
    + destruct (Z.ltb_spec (wk_poll w) 0); [lia|]. destruct (Z.eqb_spec (wk_poll w) 0); [lia|]. cbn [andb].
      destruct (wk_read w) as [e|]; [|by destruct pipe; eexists]. destruct (Z.eqb_spec e EINTR) as [->|]; [done|by eexists].
    + destruct (Z.ltb_spec (wk_poll w) 0); [|lia]. destruct (Z.eqb_spec (wk_errno w) EINTR); [done|]. cbn [andb].
      destruct (Z.eqb_spec (wk_poll w) 0); by eexists.
  - destruct (_ && (wk_errno w =? EINTR)); [done|]. destruct (wk_poll w =? 0); [by eexists|].
    destruct (wk_poll w <? 0); [by eexists|]. destruct (wk_read w) as [e|]; [destruct (e =? EINTR); [done|by eexists]|].
    destruct pipe; by eexists.
Qed.

(** The system calls are interrupted at worst. *)
Definition works (w : wake) : Prop :=
  (wk_poll w < 0 -> wk_errno w = EINTR) /\ (wk_read w = None \/ wk_read w = Some EINTR).

(** What is heard is what was written. *)
Lemma await_hears deadline ws pipe b ws' pipe' :
  Forall works ws -> await_byte deadline ws pipe = Some (b, ws', pipe') ->
  Forall works ws' /\ (pipe = b :: pipe' \/ (pipe = [] /\ pipe' = [] /\ b = 0) \/ (pipe' = pipe /\ b < 0)).
Proof.
  induction 1 as [|w ws Hw Hws IH]; cbn [await_byte]; [done|].
  destruct (2 <=? wk_interrupts w); [intros [= <- <- <-]; split; [done|]; by right; right|].
  destruct (nz deadline && _); [intros [= <- <- <-]; split; [done|]; by right; right|].
  destruct (Z.ltb_spec (wk_poll w) 0) as [Hp|Hp]; cbn [andb].
  - destruct Hw as [Hw _]. by rewrite (Hw Hp), Z.eqb_refl.
  - destruct (Z.eqb_spec (wk_poll w) 0); [intros [= <- <- <-]; split; [done|]; by right; right|].
    destruct Hw as [_ [-> | ->]]; [|done]. destruct pipe as [|x pipe]; intros [= <- <- <-]; (split; [done|]); [by right; left|by left].
Qed.

(** ** The status *)

(** The child with this configuration is a recording that returns [st]: it has
    written all its messages, or only the first ones if it was stopped, and an
    exit status that was waited for is its own. *)
Definition child_of (c : ntp_config) (pipe : list Z) (ws : list wait_answer) (st : Z) : Prop :=
  exists (verbose : Z) (strerror : Z -> list Z) (a : answers) (out : list effect) (so : option session),
    record c verbose strerror a = Some (st, out, so) /\
    (pipe = [] \/ pipe = [MSG_ATTACHED] \/ pipe = tells out) /\ (forall st', WExited st' ∈ ws -> st' = st).

Definition child_pipe (st : Z) (pipe : list Z) : Prop :=
  pipe = [] \/ pipe = [MSG_ATTACHED] \/ pipe = [MSG_ATTACHED; MSG_DONE; st].

Lemma child_pipes c pipe ws st : child_of c pipe ws st -> child_pipe st pipe /\ 0 <= st /\ (forall st', WExited st' ∈ ws -> st' = st).
Proof.
  intros (v & se & a & out & so & E & Hp & Hw).
  destruct (record_tells_cases c v se a) as (st' & out' & so' & E' & Ht & Hst). rewrite E in E'. injection E' as <- <- <-.
  split; [|split; [lia|done]]. unfold child_pipe. destruct Hp as [->|[->| ->]]; [by left|by right; left|].
  destruct Ht as [-> | ->]; [by left|by right; right].
Qed.

Lemma reap_status nohang ws st r ws' :
  (forall st', WExited st' ∈ ws -> st' = st) -> reap nohang ws = Some (r, ws') ->
  (r = st \/ r = 1 \/ (nohang = true /\ r = -1)) /\ (forall st', WExited st' ∈ ws' -> st' = st).
Proof.
  revert r ws'. induction ws as [|w ws IH]; intros r ws' Hw; cbn [reap]; [done|].
  assert (forall st', WExited st' ∈ ws -> st' = st) as Hw' by (intros st' H; by apply Hw, list_elem_of_further).
  destruct w; try (by intros [= <- <-]; auto); [by apply IH|..].
  - destruct nohang; [intros [= <- <-]; auto|by apply IH].
  - intros [= <- <-]. split; [|done]. left. apply Hw, list_elem_of_here.
Qed.

Lemma detach_status n status ws st r :
  (forall st', WExited st' ∈ ws -> st' = st) -> 0 <= st -> detach_wait n status ws = Some r -> r = st \/ r = 1 \/ r = status.
Proof.
  revert ws. induction n as [|n IH]; intros ws Hw Hst; cbn [detach_wait]; [intros [= <-]; auto|].
  destruct (reap true ws) as [[r0 ws']|] eqn:E; [|done]. cbn [mbind option_bind].
  destruct (reap_status true ws st r0 ws' Hw E) as [Hr Hw'].
  destruct (Z.leb_spec 0 r0); [|by apply IH]. intros [= <-]. destruct Hr as [->|[->|[_ ->]]]; auto. lia.
Qed.

(** What was read from a pipe: a byte, its end, or nothing. *)
Definition heard (pipe : list Z) (b : Z) (pipe' : list Z) : Prop :=
  pipe = b :: pipe' \/ (pipe = [] /\ pipe' = [] /\ b = 0) \/ (pipe' = pipe /\ b < 0).

Lemma finish_status p ch k F b ws pipe st r :
  Forall works ws -> child_pipe st F -> heard F b pipe -> 0 <= st ->
  (forall st', WExited st' ∈ p_waits p -> st' = st) ->
  finish_record p ch k b ws pipe = Some r ->
  oc_children r = ch /\ oc_killed r = k /\ (oc_status r = st \/ oc_status r = 1 \/ oc_status r = 130).
Proof.
  intros Hwk HF Hb Hst Hw. unfold finish_record.
  assert (forall b ws pipe, Forall works ws -> (b = MSG_DONE -> pipe = [st]) ->
    (if b =? NB_LEFT then Some (mk_outcome ch k 130)
     else if negb (b =? MSG_DONE) then '(r, _) ← reap false (p_waits p); Some (mk_outcome ch k r)
     else '(status, _, _) ← next_byte 0 (-1) ws pipe;
       r ← detach_wait (Z.to_nat (DETACH_WAIT_MS / 50)) (if status <? 0 then 1 else status) (p_waits p);
       Some (mk_outcome ch k r)) = Some r ->
    oc_children r = ch /\ oc_killed r = k /\ (oc_status r = st \/ oc_status r = 1 \/ oc_status r = 130)) as Hend.
  { clear b ws pipe Hwk Hb. intros b ws pipe Hwk Hp. destruct (b =? NB_LEFT); [intros [= <-]; cbn; auto|].
    destruct (Z.eqb_spec b MSG_DONE) as [->|]; cbn [negb].
    - rewrite (Hp eq_refl). unfold next_byte. destruct (await_byte _ ws [st]) as [[[s ws'] pipe']|] eqn:E; [|done]. cbn [mbind option_bind].
      destruct (await_hears _ _ _ _ _ _ Hwk E) as [_ Hs].
      destruct (detach_wait _ _ _) as [r0|] eqn:Ed; [|done]. intros [= <-]. cbn.
      destruct (detach_status _ _ _ st _ Hw Hst Ed) as [->|[->| ->]]; auto.
      destruct Hs as [[= <- <-]|[[? _]|[_ Hs]]]; [|done|]; [destruct (Z.ltb_spec st 0); auto|]. destruct (Z.ltb_spec s 0); auto; lia.
    - destruct (reap false _) as [[r0 ws']|] eqn:E; [|done]. intros [= <-]. cbn.
      destruct (reap_status _ _ _ _ _ Hw E) as [[->|[->|[? _]]] _]; auto. done. }
  destruct (Z.eqb_spec b MSG_ATTACHED) as [->|Hne].
  - unfold next_byte. destruct (await_byte _ ws pipe) as [[[b' ws'] pipe']|] eqn:E; [|done]. cbn [mbind option_bind].
    destruct (await_hears _ _ _ _ _ _ Hwk E) as [Hwk' Hb']. apply Hend; [done|]. intros ->.
    destruct Hb as [Hb|[(_ & _ & Hb)|[_ Hb]]]; [|done..]. destruct Hb' as [Hb'|[(_ & _ & Hb')|[_ Hb']]]; [|done..].
    destruct HF as [->|[->| ->]]; [done|..]; injection Hb as <-; [done|]. by injection Hb' as <-.
  - cbn [mbind option_bind]. apply Hend; [done|]. intros ->. exfalso.
    destruct Hb as [Hb|[(_ & _ & Hb)|[_ Hb]]]; [|done..]. by destruct HF as [->|[->| ->]].
Qed.

Lemma finish_children p ch k b ws pipe r :
  finish_record p ch k b ws pipe = Some r -> oc_children r = ch /\ oc_killed r = k.
Proof.
  unfold finish_record. destruct (if b =? MSG_ATTACHED then _ else _) as [[[b' ws'] pipe']|]; [|done]. cbn [mbind option_bind].
  destruct (b' =? NB_LEFT); [by intros [= <-]|]. destruct (negb _).
  - destruct (reap _ _) as [[r0 w]|]; [|done]. by intros [= <-].
  - destruct (next_byte _ _ _ _) as [[[s w] q]|]; [|done]. cbn [mbind option_bind]. destruct (detach_wait _ _ _); [|done]. by intros [= <-].
Qed.

(** A timeout reads nothing. *)
Lemma timeout_heard st F b pipe : child_pipe st F -> heard F b pipe -> (b =? NB_TIMEOUT) = true -> 0 <= st -> pipe = F.
Proof.
  intros HF Hb Eb%Z.eqb_eq Hst. subst b. destruct Hb as [Hb|[(_ & _ & Hb)|[Hb _]]]; [|done..]. by destruct HF as [->|[->| ->]].
Qed.

(** C15: The parent of a recording exits with the recording's status.  The child could be
    started, and the parent's polls and reads fail at worst with EINTR ([works]; without
    that, [failed_poll_hides_failure]).  Then the status is the one [record] returned in the
    child it waits for, or 1 or 130 when it could not wait for that: so a status of 0 means
    that the recording succeeded.  It starts at most one more child, only when neither hook
    flavour was forced, and that one differs from the first only in using kprobes. *)
Theorem parent_status c p r st :
  cmd_record c p = Some r -> p_start p = true -> Forall works (p_wakes p) ->
  (match oc_children r with
   | [_; c'] => child_of c' (p_pipe2 p) (p_waits p) st
   | _ => child_of c (p_pipe p) (p_waits p) st
   end) ->
  (oc_status r = st \/ oc_status r = 1 \/ oc_status r = 130) /\ (oc_status r = 0 -> st = 0) /\
  (oc_children r = [c] \/
   (oc_children r = [c; set_force_kprobes c true] /\ oc_killed r = true /\ c_force_fentry c = false /\ c_force_kprobes c = false)).
Proof.
  intros E Hs Hwk Hc. unfold cmd_record in E. rewrite Hs in E. cbn [negb] in E.
  destruct (next_byte (p_now p) _ _ _) as [[[b ws] pipe]|] eqn:Ea; [|done]. cbn [mbind option_bind] in E.
  destruct (await_hears _ _ _ _ _ _ Hwk Ea) as [Hwk1 Hb].
  destruct (b =? NB_TIMEOUT) eqn:Eb; cbn [andb] in E.
  - destruct (c_force_fentry c) eqn:Ef, (c_force_kprobes c) eqn:Ek; cbn [negb andb] in E.
    1-3: destruct (next_byte 0 (-1) ws pipe) as [[[b2 ws2] pipe2]|] eqn:Ea2; [|done]; cbn [mbind option_bind] in E;
      destruct (finish_children _ _ _ _ _ _ _ E) as [Hch _]; rewrite Hch in *;
      destruct (child_pipes _ _ _ _ Hc) as (HF & Hst & Hw);
      rewrite (timeout_heard _ _ _ _ HF Hb Eb Hst) in Ea2; destruct (await_hears _ _ _ _ _ _ Hwk1 Ea2) as [Hwk2 Hb2];
      destruct (finish_status _ _ _ _ _ _ _ _ _ Hwk2 HF Hb2 Hst Hw E) as (_ & _ & H); (split; [exact H|]; split; [lia|by left]).
    destruct (p_restart p); cbn [negb] in E; [|injection E as <-; cbn; split; [auto|]; split; [done|by left]].
    destruct (next_byte 0 (-1) ws (p_pipe2 p)) as [[[b2 ws2] pipe2]|] eqn:Ea2; [|done]. cbn [mbind option_bind] in E.
    destruct (finish_children _ _ _ _ _ _ _ E) as [Hch Hk]. rewrite Hch in *.
    destruct (child_pipes _ _ _ _ Hc) as (HF & Hst & Hw). destruct (await_hears _ _ _ _ _ _ Hwk1 Ea2) as [Hwk2 Hb2].
    destruct (finish_status _ _ _ _ _ _ _ _ _ Hwk2 HF Hb2 Hst Hw E) as (_ & _ & H). split; [exact H|]. split; [lia|by right].
  - destruct (finish_children _ _ _ _ _ _ _ E) as [Hch _]. rewrite Hch in *.
    destruct (child_pipes _ _ _ _ Hc) as (HF & Hst & Hw).
    destruct (finish_status _ _ _ _ _ _ _ _ _ Hwk1 HF Hb Hst Hw E) as (_ & _ & H). split; [exact H|]. split; [lia|by left].
Qed.

(** A recording that takes too long to attach, and the second one, which
    succeeds; the first wait of the second child is interrupted. *)
Lemma parent_status_witness :
  let ready := mk_wake 0 0 1 0 None in
  let p := mk_parent true true 0 5 [mk_wake 0 6 0 0 None; mk_wake 1 7 (-1) EINTR None; ready; ready; ready] []
             [MSG_ATTACHED; MSG_DONE; 0] [WRunning; WIntr; WExited 0] in
  let r := mk_outcome [example_config; set_force_kprobes example_config true] true 0 in
  cmd_record example_config p = Some r /\ (oc_status r = 0 -> 0 = 0).
Proof.
  intros ready p r. assert (cmd_record example_config p = Some r) as E by (vm_compute; reflexivity). split; [exact E|].
  apply (parent_status example_config p r 0 E eq_refl).
  - repeat (constructor; [split; [by intros|by left]|]). constructor.
  - assert ((fun x => (x.1.1, tells x.1.2)) <$> record (set_force_kprobes example_config true) 0 (fun _ => []) example_answers =
      Some (0, [MSG_ATTACHED; MSG_DONE; 0])) as Hr by (vm_compute; reflexivity).
    apply fmap_Some in Hr as ([[st out] so] & Hrec & [= Hst Ht]). subst st.
    exists 0, (fun _ => []), example_answers, out, so. split; [exact Hrec|]. split; [right; right; exact Ht|].
    intros st' H. change (p_waits p) with [WRunning; WIntr; WExited 0] in H.
    apply elem_of_cons in H as [H|H]; [discriminate H|]. apply elem_of_cons in H as [H|H]; [discriminate H|].
    apply list_elem_of_singleton in H. by injection H.
Defined.

(** When [poll] fails for another reason after the child has said that its report
    is out, and the child is still removing its hooks, a failed recording is
    reported as a success. *)
Theorem failed_poll_hides_failure :
  let ready := mk_wake 0 0 1 0 None in
  let p := mk_parent true true 0 5 [ready; ready; mk_wake 0 0 (-1) 12 None] [MSG_ATTACHED; MSG_DONE; 1] []
             (replicate 60 WRunning) in
  oc_status <$> cmd_record example_config p = Some 0.
Proof. vm_compute. reflexivity. Qed.
