(* ===== verification/Commands.v ===== *)
(** * The commands on record files (src/offline.c)

    `ntprof report`, `ntprof compare` and `ntprof dump` with what they print to
    standard output and the JSON file; messages to standard error are left out.
    The theorems: what a report prints is the report of the joined records of the
    files, and a dumped row has all that its record says. *)
From stdpp Require Import base numbers list.
From Stdlib Require Import ZArith Lia String SpecFloat.
From S2P Require Import Prelude Types Model TraceFile CStr Stats Float Printf Config Join Offline Report Json Scan.

(** Standard output, and the JSON file when one was asked for. *)
Record output := mk_output { out_status : Z; out_text : list Z; out_json : option (list Z) }.

(** ** report *)

Definition print_join (r : run) : list Z :=
  let n := Z.of_nat (List.length (r_hosts r)) in
  let js := st (r_joiner r) in
  NL ++ bytes "records: " ++ print_u n ++ bytes " host" ++
  (if nz (r_targets r) then
     bytes ", " ++ print_u (r_targets r) ++ bytes " target; " ++ print_u (matched js) ++ bytes " matched (" ++
     fmt_f 0 (if nz n then ddiv (dmul (dbl 100) (dbl (matched js))) (dbl n) else dzero) ++ bytes " % of the host's)"
   else []) ++ NL ++
  (if nz (r_targets r) && (n <? u64 (host_unmatched js * 100)) then
     bytes "  " ++ print_u (host_unmatched js) ++
     bytes " host records found no target record: start the target's recording first and stop it last, with the same -s" ++ NL
   else []).

Definition no_groups (c : ntp_config) : ntp_stats := ntp_stats_init (c_group_by_type c) (c_group_by_size c) (c_group_by_session c).

Definition recorded_on (hdr : ntp_file_header) : list Z :=
  bytes "recorded on " ++ c_string (hostname_chars hdr) ++ bytes " (kernel " ++ c_string (TraceFile.kernel hdr) ++
  bytes "), one command in " ++ print_u (f_sample_every hdr) ++ bytes " sampled" ++ NL.

(** [json]: whether the JSON file can be created and flushed.  [None] for a store
    out of bounds in the joiner. *)
Definition cmd_report (c : ntp_config) (files : list (option stream)) (json : bool * bool) : option output :=
  match files with
  | [] => Some (mk_output EXIT_FAILURE [] None)
  | _ =>
      '(ret, r, s) ← load_run files (no_groups c);
      if nz ret then Some (mk_output EXIT_FAILURE [] None)
      else
        match r_host_hdr r with
        | None => Some (mk_output EXIT_FAILURE [] None)
        | Some hdr =>
            let s := set_sample s (f_sample_every hdr) in
            let text := recorded_on hdr ++ ntp_report_text s (ntp_report_opts_from_config c) ++ print_join r in
            match c_json c with
            | [] => Some (mk_output EXIT_SUCCESS text None)
            | _ =>
                let '(jr, jtext) := ntp_report_json json.1 json.2 s (Some hdr) None in
                Some (mk_output (if nz jr then EXIT_FAILURE else EXIT_SUCCESS) text (Some jtext))
            end
        end
  end.

(** ** compare *)

Definition lad_head : list Z :=
  bytes "LAD (latency amplification degree) = mean under load / mean of the baseline;" ++ NL ++
  bytes "n/a where the baseline is below 0.5 us" ++ NL.

(** The sampling period of a run's host file. *)
Definition with_rate (r : run) (s : ntp_stats) : ntp_stats :=
  match r_host_hdr r with Some hdr => set_sample s (f_sample_every hdr) | None => s end.

(** [open]: the files by name. *)
Definition cmd_compare (c : ntp_config) (open : list Z -> option stream) (base loaded : list Z) : option output :=
  match split_run base, split_run loaded with
  | [], _ | _, [] => Some (mk_output EXIT_FAILURE [] None)
  | bf, lf =>
      '(ret, rb, sb) ← load_run (open <$> bf) (no_groups c);
      if nz ret then Some (mk_output EXIT_FAILURE [] None)
      else
        '(ret, rl, sl) ← load_run (open <$> lf) (no_groups c);
        if nz ret then Some (mk_output EXIT_FAILURE [] None)
        else Some (mk_output EXIT_SUCCESS
          (lad_head ++ ntp_report_compare (with_rate rb sb) (with_rate rl sl) (ntp_report_opts_from_config c)) None)
  end.

(** ** dump *)

Definition host_ts_names : list string :=
  ["start"; "queue_rq"; "cmd_sent"; "r2t_arr"; "r2t_proc"; "data_start"; "data_sent"; "c2h_arr"; "c2h_proc"; "rsp_arr";
   "rsp_proc"; "nvme_done"; "blk_done"; "send_done"; "c2h_last_arr"; "c2h_done"]%string.
Definition tgt_ts_names : list string :=
  ["cmd_arr"; "cmd_proc"; "r2t_queued"; "r2t_sent"; "data_arr"; "data_proc"; "exec"; "be_issue"; "be_done"; "complete";
   "rsp_queued"; "c2h_sent"; "rsp_sent"; "send_done"; "data_last_arr"; "data_done"]%string.

(** [%x] and [%#x] *)
Fixpoint hex_digits (n : nat) (v : Z) : list Z :=
  match n with
  | O => []
  | S n => if v <? 16 then [hex_digit v] else hex_digits n (v / 16) ++ [hex_digit (v mod 16)]
  end.
Definition print_alt_x (v : Z) : list Z := if nz v then bytes "0x" ++ hex_digits 16 v else bytes "0".

Definition dump_id (h : ntp_rec_hdr) (id : ntp_cmd_id) : list Z :=
  print_u (transport h) ++ bytes "," ++ print_alt_x (flags h) ++ bytes "," ++ print_u (cpu h) ++ bytes "," ++
  print_u (cntlid id) ++ bytes "," ++ print_u (qid id) ++ bytes "," ++ print_u (cid id) ++ bytes "," ++
  print_u (opcode id) ++ bytes "," ++ print_u (nsid id) ++ bytes "," ++ print_u (slba id) ++ bytes "," ++ print_u (nlb id).

(** The smallest time that is not 0. *)
Definition base_of (ts : list Z) : Z :=
  foldl (fun base t => if nz t && (negb (nz base) || (t <? base)) then t else base) 0 ts.

Definition dump_ts (ts : list Z) : list Z :=
  bytes "," ++ print_u (base_of ts) ++
  mjoin ((fun t => bytes "," ++ if nz t then print_d (s64 (t - base_of ts)) else []) <$> ts).

Definition dump_host (h : ntp_host_rec) : list Z :=
  bytes "host," ++ dump_id (h_hdr h) (h_id h) ++ bytes "," ++ print_u (h_bytes h) ++ bytes "," ++ c_string (disk_chars h) ++
  bytes "," ++ print_u (ctrl_instance h) ++ bytes "," ++ print_u (q_unsent h) ++ bytes "," ++ print_u (q_inflight h) ++
  dump_ts (h_ts h) ++ bytes "," ++ print_u (c2h_busy_ns h) ++ bytes "," ++ print_u (c2h_skbs h) ++ NL.

Definition dump_target (t : ntp_tgt_rec) : list Z :=
  bytes "target," ++ dump_id (t_hdr t) (t_id t) ++ bytes "," ++ print_u (t_bytes t) ++ bytes ",,," ++
  print_u (q_outstanding t) ++ bytes "," ++ print_u (q_resp_queue t) ++
  dump_ts (t_ts t) ++ bytes "," ++ print_u (h2c_busy_ns t) ++ bytes "," ++ print_u (h2c_skbs t) ++ NL.

Definition dump_ops : ntp_reader_ops (list Z) :=
  mk_ops (Some (fun h out => (0, out ++ dump_host h))) (Some (fun t out => (0, out ++ dump_target t))).

Definition dump_head : list Z :=
  bytes "kind,transport,flags,cpu,cntlid,qid,cid,opcode,nsid,slba,nlb,bytes,disk,ctrl,queue1,queue2,base_ns" ++
  mjoin ((fun n => bytes ",h_" ++ bytes n) <$> host_ts_names) ++
  bytes ",h_c2h_busy_ns,h_c2h_skbs  (target rows: base_ns" ++
  mjoin ((fun n => bytes ",t_" ++ bytes n) <$> tgt_ts_names) ++ bytes ",t_h2c_busy_ns,t_h2c_skbs)" ++ NL.

Fixpoint dump_files (files : list (option stream)) (out : list Z) : option output :=
  match files with
  | [] => Some (mk_output EXIT_SUCCESS out None)
  | f :: files =>
      match ntp_read_file f dump_ops out with
      | Some (ret, _, out) => if nz ret then Some (mk_output EXIT_FAILURE out None) else dump_files files out
      | None => None
      end
  end.

Definition cmd_dump (files : list (option stream)) : option output :=
  match files with [] => Some (mk_output EXIT_FAILURE [] None) | _ => dump_files files dump_head end.

(** ** Reports of files *)

(** `ntprof report` on well-formed files of a run prints the report of their
    joined records: every host record of the files once, with the target record
    that is its own if there is one; the last lines count the host records, the
    target records and the joins; and the JSON file, if asked for, is the JSON text
    of the same statistics.  It exits with 0 unless that file cannot be written. *)
Theorem report_of_files c fs hdr json :
  fs <> [] -> Forall rec_file_ok fs -> first_host_hdr fs = Some hdr ->
  exists out r l,
    cmd_report c (file_stream <$> fs) json = Some out /\
    joins (all_hosts fs) (all_targets fs) l /\ r_hosts r = all_hosts fs /\
    r_targets r = u64 (Z.of_nat (List.length (all_targets fs))) /\
    matched (st (r_joiner r)) = u64 (joined_n l) /\ host_unmatched (st (r_joiner r)) = u64 (unjoined_n l) /\
    let s := set_sample (stats_of (no_groups c) l) (f_sample_every hdr) in
    out_text out = recorded_on hdr ++ ntp_report_text s (ntp_report_opts_from_config c) ++ print_join r /\
    (out_status out = EXIT_SUCCESS <-> c_json c = [] \/ (json.1 = true /\ json.2 = true)) /\
    (c_json c <> [] -> json.1 = true -> out_json out = Some (json_text s (Some hdr) None)).
Proof.
  intros Hne Hf Hh. destruct (load_run_spec fs (no_groups c) Hf) as (r & l & E & Hr & Ht & Hhdr & Hj & [Hm Hu] & _).
  unfold cmd_report. destruct fs as [|f fs]; [done|]. rewrite fmap_cons in *. rewrite E. cbn [mbind option_bind]. change (nz 0) with false. cbv iota.
  rewrite Hhdr, Hh. set (s := set_sample _ _). destruct (c_json c) as [|j0 js].
  - eexists _, r, l. split; [reflexivity|]. do 5 (split; [done|]). cbn [out_text out_status out_json]. split; [done|]. split; [|done].
    split; [by left|done].
  - destruct json as [[] []]; cbn [ntp_report_json fst snd]; (eexists _, r, l; split; [reflexivity|]; do 5 (split; [done|]);
      cbn [out_text out_status out_json]; split; [done|]; split; [|done]; split; try done; try (by right); by intros [|[]]).
Qed.

(** ** Rows of a dump *)

Definition dump_rec (r : rec) : list Z := match r with RHost h => dump_host h | RTgt t => dump_target t end.

Lemma feed_dump l out : feed dump_ops l out = (0, out ++ mjoin (dump_rec <$> l)).
Proof.
  revert out. induction l as [|r l IH]; intros out; [cbn; by rewrite app_nil_r|]. cbn [feed]. rewrite fmap_cons.
  change (mjoin (?x :: ?y)) with (x ++ mjoin y). destruct r as [h|t]; cbn [deliver dump_ops TraceFile.on_host TraceFile.on_target dump_rec];
    change (nz 0) with false; cbv iota; by rewrite IH, <- app_assoc.
Qed.

(** A dump of well-formed files is the heading and one row per record, in the order
    of the files. *)
Theorem dump_rows fs :
  fs <> [] -> Forall rec_file_ok fs ->
  cmd_dump (file_stream <$> fs) = Some (mk_output EXIT_SUCCESS (dump_head ++ mjoin (dump_rec <$> List.concat (seen <$> fs))) None).
Proof.
  intros Hne Hf. assert (forall out, dump_files (file_stream <$> fs) out =
    Some (mk_output EXIT_SUCCESS (out ++ mjoin (dump_rec <$> List.concat (seen <$> fs))) None)) as H.
  { clear Hne. induction Hf as [|[[v hdr] l] fs [Hh Hl] Hf IH]; intros out; [cbn; by rewrite app_nil_r|]. rewrite !fmap_cons.
    cbn [dump_files file_stream List.concat seen]. rewrite (read_back_file v) by done. 
    change (map (as_version v) l) with (as_version v <$> l). rewrite feed_dump. change (0 <? 0) with false. change (nz 0) with false. cbv iota. rewrite IH, fmap_app, join_app, <- app_assoc. done. }
  unfold cmd_dump. destruct fs; [done|]. rewrite fmap_cons in *. apply H.
Qed.

(** *** Reading a row back *)

Fixpoint split_commas (l cur : list Z) : list (list Z) :=
  match l with
  | [] => [cur]
  | x :: l => if x =? 44 then cur :: split_commas l [] else split_commas l (cur ++ [x])
  end.

Definition with_commas (f : list Z) (fs : list (list Z)) : list Z := f ++ mjoin ((fun x => 44 :: x) <$> fs).

Definition no_comma (l : list Z) : Prop := Forall (fun c => c <> 44) l.

Lemma split_commas_field f l cur : no_comma f -> split_commas (f ++ l) cur = split_commas l (cur ++ f).
Proof.
  intros H. revert cur. induction H as [|c f Hc H IH]; intros cur; [by rewrite app_nil_r|]. cbn [app split_commas].
  rewrite (proj2 (Z.eqb_neq c 44) Hc), IH, <- app_assoc. done.
Qed.

Lemma split_with_commas f fs : no_comma f -> Forall no_comma fs -> split_commas (with_commas f fs) [] = f :: fs.
Proof.
  intros Hf H. unfold with_commas. rewrite split_commas_field by done. cbn [app]. clear Hf. revert f.
  induction H as [|g fs Hg H IH]; intros f; [done|]. rewrite fmap_cons. change (mjoin (?x :: ?y)) with (x ++ mjoin y).
  cbn [app split_commas]. change (44 =? 44) with true. cbv iota. rewrite split_commas_field by done. f_equal. apply IH.
Qed.

(** The values of fields. *)
Definition signed_value (l : list Z) : Z :=
  match l with c :: l' => if c =? 45 then - dec_value l' else dec_value l | [] => 0 end.
Definition alt_x_value (l : list Z) : Z := if str_eqb (take 2 l) (bytes "0x") then hex_value (drop 2 l) else dec_value l.
Definition time_value (base : Z) (f : list Z) : Z := match f with [] => 0 | _ => u64 (base + signed_value f) end.

(** What a row says: the kind, the header, the command, its size, the device (empty
    in a target's row), the queues, the times and the busy time. *)
Record dump_row := mk_row {
  dr_kind : list Z; dr_transport : Z; dr_flags : Z; dr_cpu : Z; dr_id : ntp_cmd_id; dr_bytes : Z;
  dr_disk : list Z; dr_ctrl : list Z; dr_q1 : Z; dr_q2 : Z; dr_ts : list Z; dr_busy : Z; dr_skbs : Z
}.

(** A row with [n] times. *)
Definition read_row (n : nat) (row : list Z) : option dump_row :=
  match split_commas (take (List.length row - 1) row) [] with
  | k :: tr :: fl :: cp :: cn :: qi :: ci :: op :: ns :: sl :: nl :: sz :: dk :: ct :: q1 :: q2 :: base :: rest =>
      match drop n rest with
      | [busy; skbs] =>
          Some (mk_row k (dec_value tr) (alt_x_value fl) (dec_value cp)
            (mk_cmd_id (dec_value sl) (dec_value ns) (dec_value cn) (dec_value qi) (dec_value ci) (dec_value nl) (dec_value op) [])
            (dec_value sz) dk ct (dec_value q1) (dec_value q2) (time_value (dec_value base) <$> take n rest)
            (dec_value busy) (dec_value skbs))
      | _ => None
      end
  | _ => None
  end.

Lemma print_u_no_comma v : 0 <= v -> no_comma (print_u v).
Proof. intros Hv. eapply Forall_impl; [by apply dec_digits_digit|]. intros c Hc ->. discriminate. Qed.

Lemma hex_digit_facts d : 0 <= d < 16 -> is_hex (hex_digit d) = true /\ hex_val (hex_digit d) = d /\ hex_digit d <> 44.
Proof.
  intros Hd. assert (d ∈ seqZ 0 16) as H by (apply elem_of_seqZ; lia).
  assert (Forall (fun d => is_hex (hex_digit d) = true /\ hex_val (hex_digit d) = d /\ hex_digit d <> 44) (seqZ 0 16)) as Hf
    by (apply (bool_decide_unpack _); vm_compute; exact I).
  rewrite Forall_forall in Hf. by apply Hf.
Qed.

Lemma hex_digits_spec n v : 0 <= v < 16 ^ Z.of_nat n -> hex_value (hex_digits n v) = v /\ no_comma (hex_digits n v).
Proof.
  revert v. induction n as [|n IH]; intros v Hv; [cbn in Hv; assert (v = 0) as -> by lia; split; [done|constructor]|]. cbn [hex_digits].
  rewrite Nat2Z.inj_succ, Z.pow_succ_r in Hv by lia. destruct (Z.ltb_spec v 16).
  - destruct (hex_digit_facts v ltac:(lia)) as (_ & E & Hc). unfold hex_value. cbn. rewrite E. split; [lia|by constructor].
  - destruct (IH (v / 16)) as [E Hc]; [split; [apply Z.div_pos; lia|apply Z.div_lt_upper_bound; lia]|].
    pose proof (Z.mod_pos_bound v 16 ltac:(lia)) as Hm. destruct (hex_digit_facts (v mod 16) Hm) as (_ & Ed & Hd).
    unfold hex_value in *. rewrite fold_left_app, E. cbn. rewrite Ed. split; [pose proof (Z.div_mod v 16 ltac:(lia)); lia|].
    apply Forall_app. split; [done|by constructor].
Qed.

Lemma alt_x_spec v : 0 <= v < 2 ^ 64 -> alt_x_value (print_alt_x v) = v /\ no_comma (print_alt_x v).
Proof.
  intros Hv. unfold print_alt_x, alt_x_value. destruct (nz v) eqn:E.
  - destruct (hex_digits_spec 16 v) as [Ev Hc]; [cbn; lia|]. cbn [app bytes]. split; [exact Ev|]. repeat (constructor; [done|]). exact Hc.
  - apply nz_false in E as ->. split; [done|]. by repeat constructor.
Qed.

Lemma print_nat_facts v : 0 <= v -> signed_value (print_nat v) = v /\ no_comma (print_nat v) /\ print_nat v <> [].
Proof.
  intros Hv. pose proof (print_nat_digits v Hv) as Hd. pose proof (print_nat_value v Hv) as Ev.
  assert (print_nat v <> []) as Hne by (unfold print_nat; rewrite Nat.add_1_r; apply dec_digits_nonempty).
  split; [|split; [eapply Forall_impl; [exact Hd|]; intros c Hc ->; discriminate|done]].
  destruct (print_nat v) as [|c l]; [done|]. cbn [signed_value]. apply Forall_inv in Hd.
  destruct (Z.eqb_spec c 45) as [->|]; [discriminate|done].
Qed.

Lemma print_d_facts v : signed_value (print_d v) = v /\ no_comma (print_d v) /\ print_d v <> [].
Proof.
  unfold print_d. destruct (Z.ltb_spec v 0); [|by apply print_nat_facts].
  destruct (print_nat_facts (- v) ltac:(lia)) as (_ & Hc & _). cbn [signed_value]. change (45 =? 45) with true. cbv iota.
  rewrite print_nat_value by lia. split; [lia|]. split; [by constructor|done].
Qed.

(** The times of a row. *)
Definition time_fields (ts : list Z) : list (list Z) := (fun t => if nz t then print_d (s64 (t - base_of ts)) else []) <$> ts.

Lemma time_fields_read base ts :
  Forall is_u64 ts -> is_u64 base ->
  (time_value base <$> ((fun t => if nz t then print_d (s64 (t - base)) else []) <$> ts)) = ts.
Proof.
  intros H Hb. induction H as [|t ts Ht H IH]; [done|]. rewrite !fmap_cons, IH. f_equal. destruct (nz t) eqn:E; [|by apply nz_false in E].
  destruct (print_d_facts (s64 (t - base))) as (Ev & _ & Hne). unfold time_value. destruct (print_d _) as [|c l]; [done|]. rewrite Ev.
  rewrite <- (u64_small t Ht) at 2. unfold u64, s64. unfold is_u64 in *.
  rewrite <- (Z.add_mod_idemp_r base) by lia. 
  replace (((t - base + 2 ^ 63) mod 2 ^ 64 - 2 ^ 63) mod 2 ^ 64) with ((t - base) mod 2 ^ 64); [|rewrite Zminus_mod_idemp_l; f_equal; lia].
  rewrite Z.add_mod_idemp_r by lia. f_equal. lia.
Qed.

Lemma base_u64 ts : Forall is_u64 ts -> is_u64 (base_of ts).
Proof.
  unfold base_of. assert (forall b, is_u64 b -> Forall is_u64 ts -> is_u64 (foldl (fun base t => if nz t && (negb (nz base) || (t <? base)) then t else base) b ts)) as H.
  { induction ts as [|t ts IH]; intros b Hb Hts; [done|]. apply Forall_cons in Hts as [Ht Hts]. cbn [foldl]. apply IH; [|done]. by destruct (_ && _). }
  apply H. unfold is_u64. lia.
Qed.

Lemma dump_ts_fields ts : dump_ts ts = 44 :: print_u (base_of ts) ++ mjoin ((fun x => 44 :: x) <$> time_fields ts).
Proof. unfold dump_ts, time_fields. cbn [bytes app]. rewrite <- list_fmap_compose. done. Qed.

Lemma time_fields_no_comma ts : Forall no_comma (time_fields ts).
Proof. apply Forall_fmap, Forall_true. intros t. cbn. destruct (nz t); [apply print_d_facts|constructor]. Qed.

(** The fields common to both kinds of rows. *)
Definition row_fields (k : list Z) (h : ntp_rec_hdr) (id : ntp_cmd_id) (size : Z) (dk ct : list Z) (q1 q2 : Z) (ts : list Z) (busy skbs : Z)
    : list (list Z) :=
  [print_u (transport h); print_alt_x (flags h); print_u (cpu h); print_u (cntlid id); print_u (qid id); print_u (cid id);
   print_u (opcode id); print_u (nsid id); print_u (slba id); print_u (nlb id); print_u size; dk; ct; print_u q1; print_u q2;
   print_u (base_of ts)] ++ time_fields ts ++ [print_u busy; print_u skbs].

Lemma mjoin_app_commas (l l' : list (list Z)) :
  mjoin ((fun x => 44 :: x) <$> (l ++ l')) = mjoin ((fun x => 44 :: x) <$> l) ++ mjoin ((fun x => 44 :: x) <$> l').
Proof. by rewrite fmap_app, join_app. Qed.

Lemma read_row_fields k h id size dk ct q1 q2 ts busy skbs row :
  row = with_commas k (row_fields k h id size dk ct q1 q2 ts busy skbs) ++ NL ->
  no_comma k -> hdr_ok h -> id_ok id -> is_u32 size -> no_comma dk -> no_comma ct -> is_u16 q1 -> is_u16 q2 ->
  Forall is_u64 ts -> is_u64 busy -> is_u32 skbs ->
  read_row (List.length ts) row =
    Some (mk_row k (transport h) (flags h) (cpu h)
      (mk_cmd_id (slba id) (nsid id) (cntlid id) (qid id) (cid id) (nlb id) (opcode id) []) size dk ct q1 q2 ts busy skbs).
Proof.
  intros -> Hk (_ & H2 & H3 & H4) (I1 & I2 & I3 & I4 & I5 & I6 & I7 & _) Hs Hdk Hct Hq1 Hq2 Hts Hb Hsk.
  pose proof (base_u64 ts Hts) as Hbase. unfold is_u8, is_u16, is_u32, is_u64 in *.
  unfold read_row. rewrite length_app. cbn [List.length NL]. rewrite Nat.add_sub, take_app_length.
  rewrite split_with_commas; [|done|].
  - unfold row_fields. cbn [app].
    assert (List.length (time_fields ts) = List.length ts) as Hl by (unfold time_fields; apply length_fmap). rewrite <- Hl.
    rewrite drop_app_length, take_app_length. rewrite !print_u_value by lia. rewrite (proj1 (alt_x_spec (flags h) ltac:(lia))).
    unfold time_fields. by rewrite time_fields_read.
  - unfold row_fields. apply Forall_app. split; [|apply Forall_app; split; [apply time_fields_no_comma|]].
    + repeat (constructor; [first [done|apply print_u_no_comma; lia|apply alt_x_spec; lia]|]). constructor.
    + repeat (constructor; [apply print_u_no_comma; lia|]). constructor.
Qed.

(** C17: A dumped row has all that its record says: the fields between the commas
    give back the header, the command, the size, the device, the queues, the times
    (each is the base plus its offset, an empty field a time that was not seen) and
    the busy time of the record, provided that the name of the device has no comma and
    ends within its 32 bytes. *)
Theorem dump_row_reads (h : ntp_host_rec) (t : ntp_tgt_rec) :
  host_rec_ok h -> tgt_rec_ok t -> 0 ∈ disk h -> no_comma (c_string (disk h)) ->
  read_row NTP_H_NR (dump_host h) =
    Some (mk_row (bytes "host") (transport (h_hdr h)) (flags (h_hdr h)) (cpu (h_hdr h))
      (mk_cmd_id (slba (h_id h)) (nsid (h_id h)) (cntlid (h_id h)) (qid (h_id h)) (cid (h_id h)) (nlb (h_id h)) (opcode (h_id h)) [])
      (h_bytes h) (c_string (disk h)) (print_u (ctrl_instance h)) (q_unsent h) (q_inflight h) (h_ts h) (c2h_busy_ns h) (c2h_skbs h)) /\
  read_row NTP_T_NR (dump_target t) =
    Some (mk_row (bytes "target") (transport (t_hdr t)) (flags (t_hdr t)) (cpu (t_hdr t))
      (mk_cmd_id (slba (t_id t)) (nsid (t_id t)) (cntlid (t_id t)) (qid (t_id t)) (cid (t_id t)) (nlb (t_id t)) (opcode (t_id t)) [])
      (t_bytes t) [] [] (q_outstanding t) (q_resp_queue t) (t_ts t) (h2c_busy_ns t) (h2c_skbs t)).
Proof.
  intros (H1 & H2 & H3 & H4 & H5 & H6 & _ & _ & _ & H7 & H8 & H9 & H10 & _) (T1 & T2 & T3 & T4 & T5 & T6 & T7 & T8 & T9 & _) H0 Hd. split.
  - rewrite <- H7. apply read_row_fields; try done; [|by repeat constructor|by apply print_u_no_comma; destruct H4].
    unfold dump_host, disk_chars. rewrite (c_string_app _ _ H0). unfold dump_id, with_commas, row_fields. rewrite !mjoin_app_commas, dump_ts_fields.
    cbn [fmap list_fmap mjoin list_join bytes app]. rewrite ?app_nil_r. repeat (rewrite <- ?app_assoc; cbn [app]). done.
  - rewrite <- T6. apply read_row_fields; try done; [|by repeat constructor..|by constructor|by constructor].
    unfold dump_target, dump_id, with_commas, row_fields. rewrite !mjoin_app_commas, dump_ts_fields.
    cbn [fmap list_fmap mjoin list_join bytes app]. rewrite ?app_nil_r. repeat (rewrite <- ?app_assoc; cbn [app]). done.
Qed.

(** A report with its JSON file of a host file and a target file. *)
Definition example_opts : ntp_config := set_json config_defaults (bytes "out.json").

Lemma report_of_files_witness :
  exists out r l,
    cmd_report example_opts (file_stream <$> example_files) (true, false) = Some out /\
    joins (all_hosts example_files) (all_targets example_files) l /\ r_hosts r = all_hosts example_files /\
    r_targets r = u64 (Z.of_nat (List.length (all_targets example_files))) /\
    matched (st (r_joiner r)) = u64 (joined_n l) /\ host_unmatched (st (r_joiner r)) = u64 (unjoined_n l) /\
    let s := set_sample (stats_of (no_groups example_opts) l) (f_sample_every (old_header 3)) in
    out_text out = recorded_on (old_header 3) ++ ntp_report_text s (ntp_report_opts_from_config example_opts) ++ print_join r /\
    (out_status out = EXIT_SUCCESS <-> c_json example_opts = [] \/ ((true, false).1 = true /\ (true, false).2 = true)) /\
    (c_json example_opts <> [] -> (true, false).1 = true -> out_json out = Some (json_text s (Some (old_header 3)) None)).
Proof. apply (report_of_files example_opts example_files (old_header 3) (true, false)); [done|apply example_files_ok|vm_compute; reflexivity]. Defined.

Lemma dump_row_reads_witness :
  option_map dr_ts (read_row NTP_H_NR (dump_host example_host)) = Some (h_ts example_host) /\
  option_map dr_kind (read_row NTP_T_NR (dump_target example_tgt)) = Some (bytes "target").
Proof.
  pose proof example_recs_ok as H. apply Forall_cons_1 in H as [H1 H]. apply Forall_cons_1 in H as [H2 _].
  destruct (dump_row_reads example_host example_tgt (proj1 H2) (proj1 H1)) as [-> ->]; [..|done];
    apply (bool_decide_unpack _); vm_compute; exact I.
Defined.
