(* ===== verification/Pipeline.v ===== *)
(** * From the hooks to the report

    The whole system: the hooks of the BPF objects on the machines of a run emit records
    into ring buffers, a recording on each machine consumes its ring buffer and saves
    what it gets (record.c, trace_file.c), and `ntprof report` reads the files, joins the
    records and prints (offline.c).  When the recordings have exited with 0, what is printed
    is about exactly the records the ring buffers handed over, which are records the objects
    emitted, each at most once and in order. *)
From stdpp Require Import base numbers list gmap.
From Stdlib Require Import ZArith Lia.
From S2P Require Import Prelude Types Model Join TraceFile BpfCommon BpfHost BpfTarget BpfSpdk EmittedHost EmittedTarget Emitted.
From S2P Require Import Stats Config Offline Record Report Json Recording Commands.

(** ** What the objects of a machine emit *)

(** The records a host object has emitted in some state it reaches. *)
Inductive host_emits (filter : ntp_filter) : list ntp_host_rec -> Prop :=
  | emits_tcp_host s :
      reachable (tcp_host_run filter) (fun K e s ev => hook_ok K e s ev /\ tcp_ev_ok ev) host_init s -> host_emits filter (events s)
  | emits_rdma_host s :
      reachable (rdma_host_run filter) (fun K e s ev => hook_ok K e s ev /\ rdma_ev_ok ev) host_init s -> host_emits filter (events s)
  | emits_spdk_host o tr :
      Forall (fun '(_, e, ev) => env_ok e /\ spdk_ev_ok ev) tr ->
      host_emits filter (p_hosts (spdk_run (R := array_ring) filter o spdk_init tr))
  | emits_no_host : host_emits filter [].

Inductive target_emits (filter : ntp_filter) : list ntp_tgt_rec -> Prop :=
  | emits_tcp_target s :
      reachable (tcp_tgt_run filter) (fun K e s ev => hook_ok K e s ev /\ tcp_tgt_ok K e s ev) tgt_init s -> target_emits filter (t_events s)
  | emits_rdma_target s :
      reachable (rdma_tgt_run filter) (fun K e s ev => hook_ok K e s ev /\ rdma_tgt_ok K e s ev) tgt_init s -> target_emits filter (t_events s)
  | emits_spdk_target o tr :
      Forall (fun '(_, e, ev) => env_ok e /\ spdk_ev_ok ev) tr ->
      target_emits filter (p_tgts (spdk_run (R := array_ring) filter o spdk_init tr))
  | emits_no_target : target_emits filter [].

(** They are records of their kind, every field in its range. *)
Lemma host_emits_ok filter l : host_emits filter l -> Forall (fun h => rec_ok (RHost h)) l.
Proof.
  intros H. assert (forall l (P : ntp_host_rec -> Prop), Forall host_rec_ok l -> Forall P l -> (forall r, P r -> kind (h_hdr r) = NTP_REC_HOST) ->
    Forall (fun h => rec_ok (RHost h)) l) as Hand.
  { intros l' P H1 H2 HP. apply (Forall_impl (fun r => host_rec_ok r /\ P r)); [apply Forall_and; by split|]. intros r [Hr Hk]. split; [exact Hr|by apply HP]. }
  destruct H as [s Hr|s Hr|o tr Htr|]; [| | |constructor].
  - eapply Hand; [|apply (hb_events (H := TcpHost.tcp_host) filter s)|intros r Hs; apply Hs].
    + apply ty_events. eapply reachable_inv; [apply typed_init| |exact Hr]. intros K e s0 ev [[HK He] _] Hs0. by apply tcp_host_typed.
    + eapply reachable_inv; [apply books_init| |exact Hr]. intros K e s0 ev [_ Hev] Hs0. by apply tcp_host_books_step.
  - eapply Hand; [|apply (hb_events (H := RdmaHost.rdma_host) filter s)|intros r Hs; apply Hs].
    + apply ty_events. eapply reachable_inv; [apply typed_init| |exact Hr]. intros K e s0 ev [[HK He] _] Hs0. by apply rdma_host_typed.
    + eapply reachable_inv; [apply books_init| |exact Hr]. intros K e s0 ev [_ Hev] Hs0. by apply rdma_host_books_step.
  - by apply (spdk_run_typed (R := array_ring) filter o spdk_init tr Htr).
Qed.

Lemma target_emits_ok filter l : target_emits filter l -> Forall (fun t => rec_ok (RTgt t)) l.
Proof.
  intros H. assert (forall l (P : ntp_tgt_rec -> Prop), Forall tgt_rec_ok l -> Forall P l -> (forall r, P r -> kind (t_hdr r) = NTP_REC_TARGET) ->
    Forall (fun t => rec_ok (RTgt t)) l) as Hand.
  { intros l' P H1 H2 HP. apply (Forall_impl (fun r => tgt_rec_ok r /\ P r)); [apply Forall_and; by split|]. intros r [Hr Hk]. split; [exact Hr|by apply HP]. }
  destruct H as [s Hr|s Hr|o tr Htr|]; [| | |constructor].
  - eapply Hand; [|apply (tb_events (H := TcpTarget.tcp_target) filter s)|intros r [Hs _]; apply Hs].
    + apply tgt_ty_events. eapply reachable_inv; [apply ttyped_init| |exact Hr]. intros K e s0 ev [[HK He] _] Hs0. by apply tcp_tgt_typed.
    + eapply reachable_inv; [apply tgt_books_init| |exact Hr]. intros K e s0 ev [_ Hev] Hs0. by apply tcp_books_step.
  - eapply Hand; [|apply (tb_events (H := RdmaTarget.rdma_target) filter s)|intros r [Hs _]; apply Hs].
    + apply tgt_ty_events. eapply reachable_inv; [apply ttyped_init| |exact Hr]. intros K e s0 ev [[HK He] _] Hs0. by apply rdma_tgt_typed.
    + eapply reachable_inv; [apply tgt_books_init| |exact Hr]. intros K e s0 ev [_ Hev] Hs0. by apply rdma_books_step.
  - by apply (spdk_run_typed (R := array_ring) filter o spdk_init tr Htr).
Qed.

(** ** A recording *)

(** One machine of a run: its configuration, what its environment answers, the records
    its objects emit and those of them the ring buffer hands over while the recording
    polls it, both in order, and what is in the file if writing or closing it fails. *)
Record recording := mk_recording {
  rc_config : ntp_config; rc_answers : answers; rc_emitted : list rec; rc_handed : list rec; rc_left : list Z
}.

(** What the polls of a recording hand to its callback, and how saving each goes. *)
Definition delivered (c : ntp_config) (a : answers) : list item :=
  omap (fun op => match op with SRecord data ok => Some (data, ok) | _ => None end) (record_ops c a).

(** The file the recording leaves: what its stream took, if that was written and the file
    closed. *)
Definition recorded (r : recording) : option stream :=
  s ← session_run (first_session (rc_config r) (rc_answers r)) (record_ops (rc_config r) (rc_answers r));
  f ← w_f (s_w s);
  Some (mk_stream (if an_close (rc_answers r) && (s_write_errors s =? 0) then f else rc_left r) false false).

(** The recording saves its records and exits with 0; its clocks and options have their
    types; the ring buffer hands over records the objects emitted, in order, though not
    always all of them (fewer than 2^64): one that is emitted when the last poll is over
    stays in it. *)
Record recording_ok (r : recording) : Prop := {
  ro_succeeds : exists verbose strerror out so, record (rc_config r) verbose strerror (rc_answers r) = Some (0, out, so);
  ro_saves : saving (rc_config r) = true;
  ro_mono : is_u64 (mono_ns (an_machine (rc_answers r)));
  ro_real : is_u64 (real_ns (an_machine (rc_answers r)));
  ro_role : is_u32 (c_role (rc_config r));
  ro_transport : is_u32 (c_transport (rc_config r));
  ro_sample : is_u32 (c_sample_every (rc_config r));
  ro_delivered : fst <$> delivered (rc_config r) (rc_answers r) = enc_rec <$> rc_handed r;
  ro_ring : rc_handed r `sublist_of` rc_emitted r;
  ro_few : Z.of_nat (length (rc_handed r)) < 2 ^ 64;
  ro_hosts : exists filter, host_emits filter (host_recs (rc_emitted r));
  ro_targets : exists filter, target_emits filter (tgt_recs (rc_emitted r))
}.

Lemma emitted_rec_ok l :
  Forall (fun h => rec_ok (RHost h)) (host_recs l) -> Forall (fun t => rec_ok (RTgt t)) (tgt_recs l) -> Forall rec_ok l.
Proof.
  unfold host_recs, tgt_recs. induction l as [|[h|t] l IH]; cbn [omap list_omap]; intros Hh Ht; [constructor|..].
  - apply Forall_cons in Hh as [H1 Hh]. constructor; [done|]. by apply IH.
  - apply Forall_cons in Ht as [H1 Ht]. constructor; [done|]. by apply IH.
Qed.
Lemma recording_recs_ok r : recording_ok r -> Forall rec_ok (rc_handed r).
Proof.
  intros []. destruct ro_hosts0 as [f Hh], ro_targets0 as [f' Ht].
  assert (Forall rec_ok (rc_emitted r)) as H by (apply emitted_rec_ok; [by eapply host_emits_ok|by eapply target_emits_ok]).
  rewrite Forall_forall in H |- *. intros x Hx. apply H. by eapply elem_of_submseteq, sublist_submseteq.
Qed.

(** A record the objects emit is one the callback accepts. *)
Lemma enc_rec_accepted r : rec_ok r -> accepted (enc_rec r) = true.
Proof.
  destruct r as [h|t]; intros [Hr Hk]; unfold accepted; cbn [enc_rec].
  - rewrite enc_host_length by done. unfold enc_host. rewrite (reads_hdr (h_hdr h)) by apply Hr. cbn [fst]. by rewrite Hk.
  - rewrite enc_tgt_length by done. unfold enc_tgt. rewrite (reads_hdr (t_hdr t)) by apply Hr. cbn [fst]. by rewrite Hk.
Qed.

(** No write failed: all that was handed over is in the file. *)
Lemma saved_ops ops l :
  fst <$> omap (fun op => match op with SRecord data ok => Some (data, ok) | _ => None end) ops = enc_rec <$> l ->
  Forall rec_ok l ->
  0 <= foldr Z.add 0 (save_failed <$> ops) <= Z.of_nat (length l) /\
  (foldr Z.add 0 (save_failed <$> ops) = 0 -> concat (saved <$> ops) = concat (map enc_rec l)).
Proof.
  revert l. induction ops as [|op ops IH]; intros l E Hl; [by destruct l|]. rewrite !fmap_cons. cbn [concat foldr].
  destruct op as [data ok|now|]; cbn [omap list_omap] in E; [|cbn [saved save_failed app]; rewrite Z.add_0_l; by apply IH..].
  destruct l as [|r l]; [done|]. rewrite !fmap_cons in E. injection E as -> E. apply Forall_cons in Hl as [Hr Hl].
  destruct (IH l E Hl) as [H1 H2]. cbn [saved save_failed map concat length]. rewrite enc_rec_accepted by done.
  destruct ok; (split; [lia|]); intros H; [f_equal; apply H2; lia|lia].
Qed.

(** The file holds the header and the records handed over. *)
Definition file_of (r : recording) : rec_file := (5, record_header (rc_config r) (rc_answers r), rc_handed r).

Lemma file_of_ok r : recording_ok r -> rec_file_ok (file_of r).
Proof. intros Hr. split; [|by apply recording_recs_ok]. destruct Hr. by apply header_init_of. Qed.

(** What exiting with 0 says. *)
Lemma recording_succeeds c verbose strerror a out so :
  record c verbose strerror a = Some (0, out, so) ->
  attaches c a /\ exists s, session_run (first_session c a) (record_ops c a) = Some s /\ all_well c a s.
Proof.
  intros E. destruct (decide (an_open a = true /\ (record_writer c a).1 = 0)) as [Ha|Ha].
  - split; [done|]. destruct (record_spec c verbose strerror a Ha) as (s & s' & o1 & o2 & Er & Es & _). exists s. split; [done|].
    apply final_status_spec. rewrite E in Er. by injection Er as <- _ _.
  - destruct (record_fails c verbose strerror a Ha) as (out' & so' & E' & _). by rewrite E in E'.
Qed.

Lemma recorded_file r : recording_ok r -> recorded r = file_stream (file_of r).
Proof.
  intros Hr. pose proof (recording_recs_ok r Hr) as Hl. destruct Hr. destruct ro_succeeds0 as (v & se & out & so & Er).
  destruct (recording_succeeds _ _ _ _ _ _ Er) as [[_ Ho] (s & E & _ & _ & Hwell)].
  unfold recorded. rewrite E. cbn [mbind option_bind].
  assert (w_f (s_w (first_session (rc_config r) (rc_answers r))) = Some (enc_header (record_header (rc_config r) (rc_answers r)))) as Hf0.
  { unfold first_session, session_init. cbn [s_w]. unfold record_writer, ntp_writer_open in *. rewrite ro_saves0 in *.
    destruct (an_create (rc_answers r)); [|done]. by destruct (an_header (rc_answers r)). }
  destruct (session_saves _ _ _ _ 0 (an_close (rc_answers r)) E ro_saves0 Hf0) as (Hf & He & _).
  pose proof (session_writing _ _ _ _ E ro_saves0 Hf0) as Hw.
  destruct (Hwell Hw) as [He0 Hc0]. unfold ntp_writer_close in Hc0. rewrite Hf in Hc0 |- *.
  destruct (an_close (rc_answers r)); [|done]. rewrite He0. cbn [mbind option_bind file_of file_stream andb Z.eqb].
  destruct (saved_ops _ _ ro_delivered0 Hl) as [Hb Hall]. rewrite Hall.
  - do 4 f_equal. apply map_ext_in. intros x Hx. symmetry. apply written_5. rewrite Forall_forall in Hl. apply Hl. by apply list_elem_of_In.
  - rewrite He0 in He. change (s_write_errors (first_session _ _)) with 0 in He. rewrite Z.add_0_l in He.
    symmetry. apply cong64_u64; [done| |done]. split; lia.
Qed.

Lemma seen_file_of r : seen (file_of r) = rc_handed r.
Proof. cbn [seen file_of]. rewrite (list_fmap_ext _ id); [apply list_fmap_id|]. intros i x _. apply as_version_5. Qed.

(** ** The run *)

(** The records handed over on all machines, and those emitted. *)
Definition handed_hosts (rs : list recording) : list ntp_host_rec := concat ((fun r => host_recs (rc_handed r)) <$> rs).
Definition handed_targets (rs : list recording) : list ntp_tgt_rec := concat ((fun r => tgt_recs (rc_handed r)) <$> rs).
Definition emitted_hosts (rs : list recording) : list ntp_host_rec := concat ((fun r => host_recs (rc_emitted r)) <$> rs).
Definition emitted_targets (rs : list recording) : list ntp_tgt_rec := concat ((fun r => tgt_recs (rc_emitted r)) <$> rs).

Lemma sublist_omap {A B} (f : A -> option B) l k : l `sublist_of` k -> omap f l `sublist_of` omap f k.
Proof. induction 1 as [|x l k H IH|x l k H IH]; cbn; [done|..]; destruct (f x); try done; by constructor. Qed.
Lemma handed_emitted rs :
  Forall recording_ok rs -> handed_hosts rs `sublist_of` emitted_hosts rs /\ handed_targets rs `sublist_of` emitted_targets rs.
Proof.
  unfold handed_hosts, emitted_hosts, handed_targets, emitted_targets.
  induction 1 as [|r rs Hr H [IH1 IH2]]; [done|]. rewrite !fmap_cons. cbn [concat].
  split; (apply sublist_app; [|done]); unfold host_recs, tgt_recs; apply sublist_omap, ro_ring; done.
Qed.

(** The header of the first recording of a host. *)
Definition run_header (rs : list recording) : option ntp_file_header := first_host_hdr (file_of <$> rs).

(** C5: from the hooks to the report.  Take the machines of a run: on each, the hooks of
    the host's object, of the target's or of both (in the kernel or in SPDK, over TCP or
    over RDMA) run in any order on any CPUs, and a recording that saves its records ends
    with exit status 0.  Then `ntprof report` on the files prints the report of samples
    that are exactly the host records the ring buffers handed over while the recordings
    polled them, each once and in order, joined with the target records handed over: each
    sample with the target record of its own command or with none, no target record
    twice, and none left over that an unmatched sample could have.  The last lines count
    just these.  All of them are records the objects emitted, none twice; they are all
    that was emitted if nothing was still in a ring buffer after the last poll. *)
Theorem emitted_reported c (rs : list recording) hdr json :
  Forall recording_ok rs -> run_header rs = Some hdr ->
  (exists out r l,
    cmd_report c (recorded <$> rs) json = Some out /\
    joins (handed_hosts rs) (handed_targets rs) l /\ r_hosts r = handed_hosts rs /\
    r_targets r = u64 (Z.of_nat (length (handed_targets rs))) /\
    matched (st (r_joiner r)) = u64 (joined_n l) /\ host_unmatched (st (r_joiner r)) = u64 (unjoined_n l) /\
    out_text out = recorded_on hdr ++
      ntp_report_text (set_sample (stats_of (no_groups c) l) (f_sample_every hdr)) (ntp_report_opts_from_config c) ++ print_join r) /\
  handed_hosts rs `sublist_of` emitted_hosts rs /\ handed_targets rs `sublist_of` emitted_targets rs /\
  (Forall (fun r => rc_handed r = rc_emitted r) rs -> handed_hosts rs = emitted_hosts rs /\ handed_targets rs = emitted_targets rs).
Proof.
  intros Hrs Hh. destruct (handed_emitted rs Hrs) as [S1 S2]. split; [|split; [done|split; [done|]]].
  2: { intros H. unfold handed_hosts, emitted_hosts, handed_targets, emitted_targets.
       split; f_equal; apply list_fmap_ext; intros i x Hx; by rewrite (Forall_lookup_1 _ _ _ _ H Hx). }
  assert (recorded <$> rs = file_stream <$> (file_of <$> rs)) as ->.
  { rewrite <- list_fmap_compose. apply list_fmap_ext. intros i x Hx. apply recorded_file. by apply (Forall_lookup_1 _ _ _ _ Hrs Hx). }
  assert (all_hosts (file_of <$> rs) = handed_hosts rs /\ all_targets (file_of <$> rs) = handed_targets rs) as [<- <-].
  { unfold all_hosts, all_targets, handed_hosts, handed_targets. rewrite <- !list_fmap_compose.
    split; f_equal; apply list_fmap_ext; intros i x _; unfold compose; by rewrite seen_file_of. }
  destruct (report_of_files c (file_of <$> rs) hdr json) as (out & r & l & H); [| |exact Hh|].
  - intros E. unfold run_header in Hh. by rewrite E in Hh.
  - apply Forall_fmap. eapply Forall_impl; [exact Hrs|]. intros x. apply file_of_ok.
  - destruct H as (E & Hj & H1 & H2 & H3 & H4 & H5 & _). by exists out, r, l.
Qed.

(** ** A run of two machines *)

Definition demo_env (now : Z) : env := mk_env 3 77 now false [].
Definition demo_host : host_st :=
  let run now s ev := tcp_host_run all_filter sample_kernel (demo_env now) s ev in
  run 1030 (run 1000 (run 900 host_init (TH_arm true)) (TH_setup_cmd 65536 1)) (TH_blk_done 65536).
Definition demo_target : tgt_st :=
  let run now s ev := tcp_tgt_run all_filter sample_kernel (demo_env now) s ev in
  run 1020 (run 1010 (run 900 tgt_init (TT_arm true)) (TT_req_init 4096 1)) (TT_sendmsg 64).
(** All that is emitted is handed over, except [late]. *)
Definition demo_recording (role : Z) (l late : list rec) : recording :=
  mk_recording
    (mk_config (c_session example_config) NTP_IO_BOTH [] 0 0 0 true [] 1 1 16 NTP_AGG_AVG true true true true false false false false
       false role NTP_TR_TCP 3 [111] [] [] false false false [] [])
    (mk_answers (mk_machine 5 6 None None) true true true 10000000000 (fun _ => 0)
       [example_turn 13000000000 (mk_ring_answer (Z.of_nat (length l)) ((fun r => (enc_rec r, FwAll)) <$> l) 0 [])]
       13000000000 (fun _ => 2) 13000000000 [] [] (true, true) (fun _ => 0) true) (l ++ late) l [].
Definition demo_run : list recording :=
  [demo_recording NTP_ROLE_HOST (RHost <$> events demo_host) []; demo_recording NTP_ROLE_TARGET (RTgt <$> t_events demo_target) []].

Lemma demo_host_emits : host_emits all_filter (events demo_host).
Proof.
  apply emits_tcp_host. unfold demo_host.
  assert (forall now s ev, is_u64 now -> tcp_ev_ok ev ->
    hook_ok (St := host_st) sample_kernel (demo_env now) s ev /\ tcp_ev_ok ev) as Hok.
  { intros now s ev Hn Hev. split; [|done]. split; [apply sample_kernel_ok|]. by split. }
  apply reach_step; [|by apply Hok]. apply reach_step; [|by apply Hok]. apply reach_step; [|by apply Hok]. apply reach_init.
Qed.
Lemma demo_target_emits : target_emits all_filter (t_events demo_target).
Proof.
  apply emits_tcp_target. unfold demo_target.
  assert (forall now s ev, is_u64 now -> tcp_tgt_ok sample_kernel (demo_env now) s ev ->
    hook_ok (St := tgt_st) sample_kernel (demo_env now) s ev /\ tcp_tgt_ok sample_kernel (demo_env now) s ev) as Hok.
  { intros now s ev Hn Hev. split; [|done]. split; [apply sample_kernel_ok|]. by split. }
  apply reach_step; [|by apply Hok]. apply reach_step; [|by apply Hok]. apply reach_step; [|by apply Hok]. apply reach_init.
Qed.
Lemma recs_of_hosts l : host_recs (RHost <$> l) = l /\ tgt_recs (RHost <$> l) = [].
Proof. induction l as [|h l [H1 H2]]; [done|]. split; [|exact H2]. cbn. by f_equal. Qed.
Lemma recs_of_targets l : tgt_recs (RTgt <$> l) = l /\ host_recs (RTgt <$> l) = [].
Proof. induction l as [|h l [H1 H2]]; [done|]. split; [|exact H2]. cbn. by f_equal. Qed.

Lemma demo_recording_ok role l :
  fst <$> (fst <$> record (rc_config (demo_recording role l [])) 0 (fun _ => []) (rc_answers (demo_recording role l []))) = Some 0 ->
  is_u32 role -> fst <$> delivered (rc_config (demo_recording role l [])) (rc_answers (demo_recording role l [])) = enc_rec <$> l ->
  Z.of_nat (length l) < 2 ^ 64 -> (exists filter, host_emits filter (host_recs l)) -> (exists filter, target_emits filter (tgt_recs l)) ->
  recording_ok (demo_recording role l []).
Proof.
  intros Hs Hr Hd Hf Hh Ht. split; try done; cbn [rc_emitted rc_handed demo_recording]; rewrite ?app_nil_r; try done.
  apply fmap_Some in Hs as (x & Hs & E). apply fmap_Some in Hs as ([[st out] so] & Hs & E'). subst x. cbn in E. subst st. by eauto.
Qed.
Lemma demo_run_ok : Forall recording_ok demo_run.
Proof.
  destruct (recs_of_hosts (events demo_host)) as [E1 E2], (recs_of_targets (t_events demo_target)) as [E3 E4].
  apply Forall_cons. split; [|apply Forall_cons; split; [|constructor]]; apply demo_recording_ok;
    try (vm_compute; reflexivity); try (vm_compute; split; congruence); exists all_filter.
  - rewrite E1. apply demo_host_emits.
  - rewrite E2. apply emits_no_target.
  - rewrite E4. apply emits_no_host.
  - rewrite E3. apply demo_target_emits.
Qed.

(** The host's read and the target's record of it come out joined. *)
Lemma emitted_reported_witness :
  exists hdr out r l, run_header demo_run = Some hdr /\ cmd_report example_opts (recorded <$> demo_run) (true, true) = Some out /\
    joins (handed_hosts demo_run) (handed_targets demo_run) l /\ r_hosts r = handed_hosts demo_run /\
    length (emitted_hosts demo_run) = 1%nat /\ length (handed_targets demo_run) = 1%nat.
Proof.
  destruct (run_header demo_run) as [hdr|] eqn:Eh; [|exfalso; vm_compute in Eh; discriminate Eh].
  destruct (emitted_reported example_opts demo_run hdr (true, true) demo_run_ok Eh) as ((out & r & l & H1 & H2 & H3 & _) & _).
  exists hdr, out, r, l. split; [reflexivity|]. split; [exact H1|]. split; [exact H2|]. split; [exact H3|]. split; vm_compute; reflexivity.
Defined.
