(* ===== verification/Ksyms.v ===== *)
(** * The kernel's symbols (src/loader.c: ksyms_load, ksyms_has)

    The names of /proc/kallsyms, sorted once and then searched by halving.
    [ksyms_has_spec] relates the search to the plain list of the names. *)
From stdpp Require Import base numbers list sorting.
From Stdlib Require Import ZArith Lia Ascii String OrdersEx.
From S2P Require Import Prelude CStr Config Scan.

Definition LINE : nat := 512.
Definition NAME : nat := 255.

(** A C string as a [string]. *)
Fixpoint string_of (l : list Z) : string :=
  match l with [] => EmptyString | c :: l => String (ascii_of_nat (Z.to_nat c)) (string_of l) end.

(** The name on a line: [%*s %*s %255s] *)
Definition scan_symbol (line : list Z) : option string :=
  l ← scan_word line;
  l ← scan_word l;
  let '(w, _) := span (fun c => negb (is_space c)) (skip_space l) in
  match w with [] => None | _ => Some (string_of (take NAME w)) end.

Definition symbols (f : list Z) : list string := omap scan_symbol (read_lines (List.length f) LINE f).

(** [cmp_str]: bytes compared as unsigned *)
Definition cmp_str (a b : string) : comparison := String_as_OT.compare a b.
Definition str_le (a b : string) : Prop := cmp_str a b <> Gt.
#[export] Instance str_le_dec a b : Decision (str_le a b).
Proof. unfold str_le. destruct (cmp_str a b); [left|left|right]; congruence. Defined.

(** Names in the order of [qsort]; equal names cannot be told apart. *)
Definition ksyms_load (f : option (list Z)) : option (list string) := f ← f; Some (merge_sort str_le (symbols f)).

(** [bsearch] between [l] and [u]. *)
Fixpoint bsearch (fuel : nat) (name : string) (ks : list string) (l u : nat) : option bool :=
  match fuel with
  | O => None
  | S fuel =>
      if (l <? u)%nat then
        let idx := ((l + u) / 2)%nat in
        match cmp_str name (default ""%string (ks !! idx)) with
        | Lt => bsearch fuel name ks l idx
        | Gt => bsearch fuel name ks (S idx) u
        | Eq => Some true
        end
      else Some false
  end.

Definition ksyms_has (ks : list string) (name : string) : bool :=
  default false (bsearch (S (List.length ks)) name ks 0 (List.length ks)).

(** ** The order of names *)

Lemma cmp_eq a b : cmp_str a b = Eq <-> a = b.
Proof.
  unfold cmp_str. pose proof (String_as_OT.compare_spec a b) as H. split; [intros E; rewrite E in H; by inversion H|].
  intros ->. inversion H as [|Hl|Hl]; [done|..]; by destruct (StrictOrder_Irreflexive b Hl).
Qed.

Lemma cmp_swap a b : cmp_str a b = CompOpp (cmp_str b a).
Proof.
  unfold cmp_str. pose proof (String_as_OT.compare_spec a b) as H1. pose proof (String_as_OT.compare_spec b a) as H2.
  inversion H1 as [E1|E1|E1]; inversion H2 as [E2|E2|E2]; try done; unfold String_as_OT.eq in *; subst;
    exfalso; match goal with H : String_as_OT.lt ?x _ |- _ => eapply (StrictOrder_Irreflexive x) end;
    (eassumption || (etransitivity; eassumption)).
Qed.

Lemma cmp_lt_trans a b c : cmp_str a b = Lt -> cmp_str b c = Lt -> cmp_str a c = Lt.
Proof. apply String_as_OT.lt_strorder. Qed.

#[export] Instance str_le_trans : Transitive str_le.
Proof.
  intros a b c Hab Hbc. unfold str_le in *. destruct (cmp_str a b) eqn:E1; [apply cmp_eq in E1; by subst| |done].
  destruct (cmp_str b c) eqn:E2; [apply cmp_eq in E2; subst; by rewrite E1| |done]. by rewrite (cmp_lt_trans a b c).
Qed.
#[export] Instance str_le_total : Total str_le.
Proof. intros a b. unfold str_le. rewrite (cmp_swap b a). destruct (cmp_str a b); cbn; [by left|by left|by right]. Qed.

Lemma sorted_lookup ks i j a b :
  StronglySorted str_le ks -> (i <= j)%nat -> ks !! i = Some a -> ks !! j = Some b -> str_le a b.
Proof.
  intros Hs. revert i j. induction Hs as [|x ks Hs IH Hx]; intros i j Hij Ha Hb; [done|].
  destruct i as [|i], j as [|j]; [|cbn in *|lia|apply (IH i j); (lia || done)].
  - injection Ha as ->. injection Hb as ->. unfold str_le. by rewrite (proj2 (cmp_eq b b) eq_refl).
  - injection Ha as ->. rewrite Forall_forall in Hx. apply Hx. by eapply list_elem_of_lookup_2.
Qed.

(** The search ends, and finds the name exactly when it is between the bounds. *)
Lemma bsearch_spec fuel name ks l u :
  StronglySorted str_le ks -> (u <= List.length ks)%nat -> (u - l < fuel)%nat ->
  exists b, bsearch fuel name ks l u = Some b /\ (b = true <-> exists i, (l <= i < u)%nat /\ ks !! i = Some name).
Proof.
  intros Hs. revert l u. induction fuel as [|fuel IH]; intros l u Hu Hf; [lia|]. cbn [bsearch].
  destruct (Nat.ltb_spec l u) as [Hlu|Hlu]; [|exists false; split; [done|]; split; [done|]; intros (i & Hi & _); lia].
  set (idx := ((l + u) / 2)%nat). assert (l <= idx < u)%nat as Hidx.
  { unfold idx. split; [apply Nat.div_le_lower_bound; lia|apply Nat.Div0.div_lt_upper_bound; lia]. }
  destruct (lookup_lt_is_Some_2 ks idx ltac:(lia)) as [x Hx]. rewrite Hx. cbn [default from_option]. unfold id.
  assert (forall i, ks !! i = Some name -> (i <= idx)%nat -> cmp_str name x <> Gt) as Hlo
    by (intros i Hi Hle; exact (sorted_lookup ks i idx name x Hs Hle Hi Hx)).
  assert (forall i, ks !! i = Some name -> (idx <= i)%nat -> cmp_str x name <> Gt) as Hhi
    by (intros i Hi Hle; exact (sorted_lookup ks idx i x name Hs Hle Hx Hi)).
  destruct (cmp_str name x) eqn:E.
  - exists true. split; [done|]. split; [intros _|done]. exists idx. apply cmp_eq in E as ->. done.
  - destruct (IH l idx ltac:(lia) ltac:(lia)) as (b & -> & Hb). exists b. split; [done|]. rewrite Hb.
    split; intros (i & Hi & Hn); exists i; (split; [|done]); [lia|]. destruct (Nat.lt_ge_cases i idx); [lia|].
    destruct (Hhi i Hn ltac:(lia)). by rewrite cmp_swap, E.
  - destruct (IH (S idx) u ltac:(lia) ltac:(lia)) as (b & -> & Hb). exists b. split; [done|]. rewrite Hb.
    split; intros (i & Hi & Hn); exists i; (split; [|done]); [lia|]. destruct (Nat.lt_ge_cases idx i); [lia|].
    by destruct (Hlo i Hn ltac:(lia)).
Qed.

Lemma ksyms_has_sorted ks name : StronglySorted str_le ks -> ksyms_has ks name = bool_decide (name ∈ ks).
Proof.
  intros Hs. unfold ksyms_has. destruct (bsearch_spec (S (List.length ks)) name ks 0 (List.length ks) Hs ltac:(lia) ltac:(lia)) as (b & -> & Hb).
  cbn [default from_option]. unfold id. apply eq_true_iff_eq. rewrite Hb, bool_decide_eq_true, list_elem_of_lookup.
  split; [intros (i & _ & Hi); by exists i|]. intros (i & Hi). exists i. split; [|done]. apply lookup_lt_Some in Hi. lia.
Qed.

(** Looking a symbol up by halving gives what going through the file would:
    whether some line names it. *)
Theorem ksyms_has_spec f ks name : ksyms_load f = Some ks -> ksyms_has ks name = bool_decide (name ∈ symbols (default [] f)).
Proof.
  destruct f as [f|]; [|done]. intros [= <-]. rewrite ksyms_has_sorted.
  - apply bool_decide_ext. cbn [default from_option]. unfold id. by rewrite merge_sort_Permutation.
  - apply Sorted_StronglySorted; [apply _|]. apply (Sorted_merge_sort str_le).
Qed.

Lemma ksyms_has_spec_witness :
  let f := bytes "ffffffff81000000 T _text
ffffffff81000100 t nvme_tcp_recv_skb	[nvme_tcp]
ffffffff81000200 T tcp_recvmsg
" in
  exists ks, ksyms_load (Some f) = Some ks /\ ks = ["_text"; "nvme_tcp_recv_skb"; "tcp_recvmsg"]%string /\
    ksyms_has ks "nvme_tcp_recv_skb" = true /\ ksyms_has ks "nvmet_bio_done" = false.
Proof.
  intros f. eexists. split; [vm_compute; reflexivity|]. split; [reflexivity|].
  split; (etransitivity; [apply (ksyms_has_spec (Some f)); vm_compute; reflexivity|]); vm_compute; reflexivity.
Defined.
