(* ===== verification/Loader.v ===== *)
(** * Choosing what to load (src/loader.c)

    The table of BPF objects and their programs, which object a configuration
    wants, which program of an object is loaded on a kernel, the filter the
    programs get, the session's controllers and the size of the ring buffer.
    The kernel is a parameter: its symbols, its BTF, its block devices. *)
From stdpp Require Import base numbers list sorting.
From Stdlib Require Import ZArith Lia Ascii String.
From S2P Require Import Prelude Types Model CStr BpfHost Config Ksyms.

(** ** The objects *)

Record obj_desc := mk_obj_desc {
  d_name : string;
  d_role : Z;
  d_transport : Z;
  d_btf_module : string;
  d_required : list string;
  d_spdk : bool
}.

Definition tcp_host_required : list string := ["ntp_h_setup_cmd"; "ntp_h_recv_skb"; "ntp_h_complete"; "ntp_h_blk_done"]%string.
Definition tcp_target_required : list string := ["ntp_t_copy"; "ntp_t_req_init"; "ntp_t_queue_resp"; "ntp_t_sendmsg"]%string.
Definition exact_only : list string := ["ntp_h_queue_rq"]%string.
Definition fallbacks : list (string * string) :=
  [("ntp_h_try_send", "nvme_tcp_try_send_cmd_pdu"); ("ntp_h_sendpage", "nvme_tcp_try_send_cmd_pdu");
   ("ntp_h_nosendpage", "nvme_tcp_try_send_cmd_pdu"); ("ntp_h_sendmsg", "nvme_tcp_try_send_cmd_pdu")]%string.
Definition rdma_host_required : list string :=
  ["ntp_hr_queue_rq"; "ntp_h_setup_cmd"; "ntp_hr_recv_done"; "ntp_hr_send_done"; "ntp_hr_complete"; "ntp_h_blk_done"]%string.
Definition rdma_target_required : list string :=
  ["ntp_tr_recv_done"; "ntp_t_req_init"; "ntp_tr_queue_resp"; "ntp_tr_send_done"]%string.
Definition spdk_host_required : list string := ["ntp_u_nvme_tcp_done"]%string.
Definition spdk_target_required : list string := ["ntp_u_nvmf_tcp_done"]%string.
Definition spdk_rdma_host_required : list string := ["ntp_u_nvme_rdma_done"]%string.
Definition spdk_rdma_target_required : list string := ["ntp_u_nvmf_rdma_done"]%string.

Definition objects : list obj_desc :=
  [mk_obj_desc "nvme_tcp_host" NTP_ROLE_HOST NTP_TR_TCP "nvme_tcp" tcp_host_required false;
   mk_obj_desc "nvme_tcp_target" NTP_ROLE_TARGET NTP_TR_TCP "nvmet_tcp" tcp_target_required false;
   mk_obj_desc "nvme_rdma_host" NTP_ROLE_HOST NTP_TR_RDMA "nvme_rdma" rdma_host_required false;
   mk_obj_desc "nvme_rdma_target" NTP_ROLE_TARGET NTP_TR_RDMA "nvmet_rdma" rdma_target_required false;
   mk_obj_desc "spdk_tcp_host" NTP_ROLE_HOST NTP_TR_TCP "nvme_tcp" spdk_host_required true;
   mk_obj_desc "spdk_tcp_target" NTP_ROLE_TARGET NTP_TR_TCP "nvmet_tcp" spdk_target_required true;
   mk_obj_desc "spdk_rdma_host" NTP_ROLE_HOST NTP_TR_RDMA "nvme_rdma" spdk_rdma_host_required true;
   mk_obj_desc "spdk_rdma_target" NTP_ROLE_TARGET NTP_TR_RDMA "nvmet_rdma" spdk_rdma_target_required true].

(** A string is not empty. *)
Definition set_str (s : list Z) : bool := match s with [] => false | _ => true end.

Definition role_in_spdk (c : ntp_config) (role : Z) : bool :=
  if has role NTP_ROLE_HOST then set_str (c_spdk_host c) else set_str (c_spdk_target c).

Definition wanted (c : ntp_config) (d : obj_desc) : bool :=
  has (c_role c) (d_role d) && (c_transport c =? d_transport d) && Bool.eqb (d_spdk d) (role_in_spdk c (d_role d)).

(** ** The programs of each object: names and sections in src/bpf *)

Definition host_hooks : list (string * string) :=
  [("ntp_h_setup_cmd", "raw_tp/nvme_setup_cmd"); ("ntp_h_nvme_done", "raw_tp/nvme_complete_rq");
   ("ntp_h_blk_done", "raw_tp/block_rq_complete")]%string.

Definition target_hooks : list (string * string) :=
  [("ntp_t_req_init", "raw_tp/nvmet_req_init"); ("ntp_t_exec_bdev_fe", "fentry/nvmet_bdev_execute_rw");
   ("ntp_t_exec_bdev_kp", "kprobe/nvmet_bdev_execute_rw");
   ("ntp_t_exec_file_fe", "fentry/nvmet_file_execute_rw");
   ("ntp_t_exec_file_kp", "kprobe/nvmet_file_execute_rw");
   ("ntp_t_exec_pt_fe", "fentry/nvmet_passthru_execute_cmd");
   ("ntp_t_exec_pt_kp", "kprobe/nvmet_passthru_execute_cmd"); ("ntp_t_be_issue", "raw_tp/block_rq_issue");
   ("ntp_t_be_done", "raw_tp/block_rq_complete"); ("ntp_t_complete", "raw_tp/nvmet_req_complete")]%string.

Definition spdk_socket_hooks : list (string * string) :=
  [("ntp_s_recvmsg_fe", "fentry/tcp_recvmsg"); ("ntp_s_recvmsg_kp", "kprobe/tcp_recvmsg");
   ("ntp_s_copy_fe", "fentry/skb_copy_datagram_iter"); ("ntp_s_copy_kp", "kprobe/skb_copy_datagram_iter")]%string.

Definition nvme_tcp_host_progs : list (string * string) :=
  [("ntp_h_queue_rq_fe", "fentry/nvme_tcp_queue_rq"); ("ntp_h_queue_rq_kp", "kprobe/nvme_tcp_queue_rq");
   ("ntp_h_send_cmd_fx", "fexit/nvme_tcp_try_send_cmd_pdu");
   ("ntp_h_send_cmd_kp", "kprobe/nvme_tcp_try_send_cmd_pdu");
   ("ntp_h_send_cmd_kr", "kretprobe/nvme_tcp_try_send_cmd_pdu");
   ("ntp_h_send_data_fx", "fexit/nvme_tcp_try_send_data");
   ("ntp_h_send_data_kp", "kprobe/nvme_tcp_try_send_data");
   ("ntp_h_send_data_kr", "kretprobe/nvme_tcp_try_send_data");
   ("ntp_h_send_ddgst_fx", "fexit/nvme_tcp_try_send_ddgst");
   ("ntp_h_send_ddgst_kp", "kprobe/nvme_tcp_try_send_ddgst");
   ("ntp_h_send_ddgst_kr", "kretprobe/nvme_tcp_try_send_ddgst");
   ("ntp_h_send_h2c_fe", "fentry/nvme_tcp_try_send_data_pdu");
   ("ntp_h_send_h2c_kp", "kprobe/nvme_tcp_try_send_data_pdu");
   ("ntp_h_try_send_fe", "fentry/nvme_tcp_try_send"); ("ntp_h_try_send_fx", "fexit/nvme_tcp_try_send");
   ("ntp_h_try_send_kp", "kprobe/nvme_tcp_try_send"); ("ntp_h_try_send_kr", "kretprobe/nvme_tcp_try_send");
   ("ntp_h_sendpage_fe", "fentry/kernel_sendpage"); ("ntp_h_sendpage_kp", "kprobe/kernel_sendpage");
   ("ntp_h_nosendpage_fe", "fentry/sock_no_sendpage"); ("ntp_h_nosendpage_kp", "kprobe/sock_no_sendpage");
   ("ntp_h_sendmsg_fe", "fentry/sock_sendmsg"); ("ntp_h_sendmsg_kp", "kprobe/sock_sendmsg");
   ("ntp_h_recv_skb_fe", "fentry/nvme_tcp_recv_skb"); ("ntp_h_recv_skb_fx", "fexit/nvme_tcp_recv_skb");
   ("ntp_h_recv_skb_kp", "kprobe/nvme_tcp_recv_skb"); ("ntp_h_recv_skb_kr", "kretprobe/nvme_tcp_recv_skb");
   ("ntp_h_copy_fe", "fentry/skb_copy_datagram_iter"); ("ntp_h_copy_kp", "kprobe/skb_copy_datagram_iter");
   ("ntp_h_copy_hash_fe", "fentry/skb_copy_and_hash_datagram_iter");
   ("ntp_h_copy_hash_kp", "kprobe/skb_copy_and_hash_datagram_iter");
   ("ntp_h_r2t_fe", "fentry/nvme_tcp_setup_h2c_data_pdu");
   ("ntp_h_r2t_kp", "kprobe/nvme_tcp_setup_h2c_data_pdu");
   ("ntp_h_complete_fe", "fentry/blk_mq_complete_request_remote");
   ("ntp_h_complete_kp", "kprobe/blk_mq_complete_request_remote")]%string.

Definition nvme_tcp_target_progs : list (string * string) :=
  [("ntp_t_copy_fe", "fentry/skb_copy_datagram_iter"); ("ntp_t_copy_kp", "kprobe/skb_copy_datagram_iter");
   ("ntp_t_copy_done_fx", "fexit/skb_copy_datagram_iter");
   ("ntp_t_copy_done_kr", "kretprobe/skb_copy_datagram_iter");
   ("ntp_t_queue_resp_fe", "fentry/nvmet_tcp_queue_response");
   ("ntp_t_queue_resp_kp", "kprobe/nvmet_tcp_queue_response");
   ("ntp_t_h2c_fe", "fentry/nvmet_tcp_build_pdu_iovec"); ("ntp_t_h2c_kp", "kprobe/nvmet_tcp_build_pdu_iovec");
   ("ntp_t_sendmsg_fe", "fentry/sock_sendmsg"); ("ntp_t_sendmsg_kp", "kprobe/sock_sendmsg");
   ("ntp_t_sendpage_fe", "fentry/kernel_sendpage"); ("ntp_t_sendpage_kp", "kprobe/kernel_sendpage")]%string.

Definition nvme_rdma_host_progs : list (string * string) :=
  [("ntp_hr_queue_rq_fe", "fentry/nvme_rdma_queue_rq"); ("ntp_hr_queue_rq_kp", "kprobe/nvme_rdma_queue_rq");
   ("ntp_hr_post_fx", "fexit/nvme_rdma_post_send"); ("ntp_hr_post_kp", "kprobe/nvme_rdma_post_send");
   ("ntp_hr_post_kr", "kretprobe/nvme_rdma_post_send"); ("ntp_hr_send_done_fe", "fentry/nvme_rdma_send_done");
   ("ntp_hr_send_done_fx", "fexit/nvme_rdma_send_done"); ("ntp_hr_send_done_kp", "kprobe/nvme_rdma_send_done");
   ("ntp_hr_send_done_kr", "kretprobe/nvme_rdma_send_done");
   ("ntp_hr_recv_done_fe", "fentry/nvme_rdma_recv_done"); ("ntp_hr_recv_done_fx", "fexit/nvme_rdma_recv_done");
   ("ntp_hr_recv_done_kp", "kprobe/nvme_rdma_recv_done");
   ("ntp_hr_recv_done_kr", "kretprobe/nvme_rdma_recv_done");
   ("ntp_hr_inv_done_fe", "fentry/nvme_rdma_inv_rkey_done");
   ("ntp_hr_inv_done_fx", "fexit/nvme_rdma_inv_rkey_done");
   ("ntp_hr_inv_done_kp", "kprobe/nvme_rdma_inv_rkey_done");
   ("ntp_hr_inv_done_kr", "kretprobe/nvme_rdma_inv_rkey_done");
   ("ntp_hr_complete_fe", "fentry/blk_mq_complete_request_remote");
   ("ntp_hr_complete_kp", "kprobe/blk_mq_complete_request_remote")]%string.

Definition nvme_rdma_target_progs : list (string * string) :=
  [("ntp_tr_recv_done_fe", "fentry/nvmet_rdma_recv_done");
   ("ntp_tr_recv_done_fx", "fexit/nvmet_rdma_recv_done");
   ("ntp_tr_recv_done_kp", "kprobe/nvmet_rdma_recv_done");
   ("ntp_tr_recv_done_kr", "kretprobe/nvmet_rdma_recv_done");
   ("ntp_tr_execute_fe", "fentry/nvmet_rdma_execute_command");
   ("ntp_tr_execute_kp", "kprobe/nvmet_rdma_execute_command");
   ("ntp_tr_read_done_fe", "fentry/nvmet_rdma_read_data_done");
   ("ntp_tr_read_done_kp", "kprobe/nvmet_rdma_read_data_done");
   ("ntp_tr_send_done_fe", "fentry/nvmet_rdma_send_done");
   ("ntp_tr_send_done_kp", "kprobe/nvmet_rdma_send_done");
   ("ntp_tr_queue_resp_fe", "fentry/nvmet_rdma_queue_response");
   ("ntp_tr_queue_resp_fx", "fexit/nvmet_rdma_queue_response");
   ("ntp_tr_queue_resp_kp", "kprobe/nvmet_rdma_queue_response");
   ("ntp_tr_queue_resp_kr", "kretprobe/nvmet_rdma_queue_response")]%string.

Definition spdk_tcp_host_progs : list (string * string) :=
  [("ntp_u_nvme_tcp_done", "usdt")]%string.

Definition spdk_tcp_target_progs : list (string * string) :=
  [("ntp_s_sendmsg_fe", "fentry/tcp_sendmsg"); ("ntp_s_sendmsg_kp", "kprobe/tcp_sendmsg");
   ("ntp_u_nvmf_tcp_done", "usdt")]%string.

Definition spdk_rdma_host_progs : list (string * string) :=
  [("ntp_u_nvme_rdma_done", "usdt")]%string.

Definition spdk_rdma_target_progs : list (string * string) :=
  [("ntp_u_nvmf_rdma_done", "usdt")]%string.

(** In the order of the compiled object: what a header defines, then the file. *)
Definition programs (d : obj_desc) : list (string * string) :=
  match d_role d =? NTP_ROLE_HOST, d_transport d =? NTP_TR_TCP, d_spdk d with
  | true, true, false => host_hooks ++ nvme_tcp_host_progs
  | false, true, false => target_hooks ++ nvme_tcp_target_progs
  | true, false, false => host_hooks ++ nvme_rdma_host_progs
  | false, false, false => target_hooks ++ nvme_rdma_target_progs
  | true, true, true => spdk_socket_hooks ++ spdk_tcp_host_progs
  | false, true, true => spdk_socket_hooks ++ spdk_tcp_target_progs
  | true, false, true => spdk_rdma_host_progs
  | false, false, true => spdk_rdma_target_progs
  end.

(** ** Names *)

(** [!strncmp(s, p, strlen(p))] *)
Definition starts_with (p s : string) : bool := String.prefix p s.

(** What follows the first slash. *)
Fixpoint after_slash (s : string) : option string :=
  match s with
  | EmptyString => None
  | String c s => if Ascii.eqb c "/"%char then Some s else after_slash s
  end.

Definition is_usdt (p : string * string) : bool := String.eqb p.2 "usdt".

Definition target_present (ks : list string) (p : string * string) : bool :=
  if is_usdt p then true
  else
    match after_slash p.2 with
    | None => false
    | Some s =>
        if starts_with "raw_tp/" p.2 || starts_with "tp_btf/" p.2
        then ksyms_has ks ("__tracepoint_" ++ s)%string
        else ksyms_has ks s
    end.

Definition suffixes : list string := ["_fe"; "_fx"; "_kp"; "_kr"]%string.

(** A program's name without its flavour suffix. *)
Definition base_name (prog : string) : string :=
  let n := String.length prog in
  if (3 <? n)%nat && existsb (String.eqb (String.substring (n - 3) 3 prog)) suffixes
  then String.substring 0 (n - 3) prog else prog.

Definition in_list (l : list string) (prog : string) : bool := existsb (String.eqb (base_name prog)) l.

Definition is_required (d : obj_desc) (prog : string) : bool := in_list (d_required d) prog.

Definition fallback_for (prog : string) : option string :=
  snd <$> head (filter (fun f => fst f = base_name prog) fallbacks).

(** The names of a comma-separated list. *)
Fixpoint comma_names (s cur : string) : list string :=
  match s with
  | EmptyString => [cur]
  | String c s => if Ascii.eqb c ","%char then cur :: comma_names s "" else comma_names s (cur ++ String c "")%string
  end.

(** [env]: the value of NTPROF_SKIP, when it is set. *)
Definition skipped (env : option string) (prog : string) : bool :=
  match env with
  | Some list => existsb (String.eqb (base_name prog)) (comma_names list "")
  | None => false
  end.

Inductive flavour := FL_COMMON | FL_FENTRY | FL_KPROBE.

#[export] Instance flavour_eq_dec : EqDecision flavour.
Proof. solve_decision. Defined.

Definition flavour_of (p : string * string) : flavour :=
  if starts_with "fentry/" p.2 || starts_with "fexit/" p.2 then FL_FENTRY
  else if starts_with "kprobe/" p.2 || starts_with "kretprobe/" p.2 then FL_KPROBE
  else FL_COMMON.

(** ** Flavours *)

Inductive fentry_check := FC_OK | FC_UNKNOWN | FC_BLOCKED.

#[export] Instance fentry_check_eq_dec : EqDecision fentry_check.
Proof. solve_decision. Defined.

(** [kbtf]: the kernel has BTF; [check]: what trying to attach tells, asked once;
    [checked]: the flavour that check gave, when it has been made. *)
Definition choose_flavour (c : ntp_config) (kbtf : bool) (check : fentry_check) (checked : option flavour)
    : flavour * option flavour :=
  if c_force_kprobes c || negb kbtf then (FL_KPROBE, checked)
  else if c_force_fentry c then (FL_FENTRY, checked)
  else
    match checked with
    | Some f => (f, checked)
    | None => let f := if bool_decide (check = FC_BLOCKED) then FL_KPROBE else FL_FENTRY in (f, Some f)
    end.

Definition object_flavour (c : ntp_config) (d : obj_desc) (module_btf kbtf : bool) (check : fentry_check)
    (checked : option flavour) : flavour * option flavour :=
  if negb (d_spdk d) && negb module_btf then (FL_KPROBE, checked) else choose_flavour c kbtf check checked.

(** ** Selecting programs *)

Section Select.
  Context (d : obj_desc) (ks : list string) (skip : option string) (fl : flavour) (exact : bool).

(** Not of this flavour, only for exact queues, or standing in for a function
    that is there. *)
Definition left_out (p : string * string) : bool :=
  (negb (bool_decide (flavour_of p = FL_COMMON)) && negb (bool_decide (flavour_of p = fl))) ||
  (negb exact && in_list exact_only p.1) ||
  match fallback_for p.1 with Some f => ksyms_has ks f | None => false end.

(** The status and whether each program is loaded; after an error the rest keep
    the default. *)
Fixpoint select_programs (progs : list (string * string)) : Z * list bool :=
  match progs with
  | [] => (0, [])
  | p :: rest =>
      if left_out p || skipped skip p.1 then let '(r, l) := select_programs rest in (r, false :: l)
      else if target_present ks p then let '(r, l) := select_programs rest in (r, true :: l)
      else if is_required d p.1 then (-1, true :: ((fun _ => true) <$> rest))
      else let '(r, l) := select_programs rest in (r, false :: l)
  end.

(** The programs that are loaded, when selecting succeeds. *)
Definition loads (p : string * string) : bool := negb (left_out p) && negb (skipped skip p.1) && target_present ks p.

End Select.

(** ** The session and the filter *)

(** One [%u] of [sscanf]. *)
Definition scan_u (s : list Z) : option (Z * list Z) :=
  let '(_, v, rest) := strtoull s in
  if (List.length rest <? List.length s)%nat then Some (u32 v, rest) else None.

(** [sscanf(session, "nvme%un%u", ...)] *)
Definition scan_session (s : list Z) : option (Z * Z) :=
  if str_eqb (take 4 s) (bytes "nvme") then
    '(subsys, s) ← scan_u (drop 4 s);
    match s with
    | c :: s => if c =? 110 then '(ns, _) ← scan_u s; Some (subsys, ns) else None
    | [] => None
    end
  else None.

(** The path device of a controller. *)
Definition path_device (subsys ctrl ns : Z) : list Z :=
  bytes "nvme" ++ print_u subsys ++ bytes "c" ++ print_u ctrl ++ bytes "n" ++ print_u ns.

Definition mask_set (mask : list Z) (i : Z) : list Z :=
  let w := Z.to_nat (Z.shiftr i 6) in
  <[w := Z.lor (default 0 (mask !! w)) (Z.shiftl 1 (Z.land i 63))]> mask.

Record selection := mk_selection { sel_ctrl_filter : Z; sel_ctrl_mask : list Z; sel_nsid : Z }.

Definition no_selection : selection := mk_selection 0 [0; 0; 0; 0] 0.

(** [present] tells which block devices exist, [nsid] reads their namespace
    identifier. *)
Definition resolve_session (present : list Z -> bool) (nsid : list Z -> option Z) (session : list Z) : option selection :=
  if str_eqb session (bytes "all") then Some no_selection
  else
    '(subsys, ns) ← scan_session session;
    let id := default ns (nsid session) in
    let ctrls := filter (fun ctrl => present (path_device subsys ctrl ns) = true) (seqZ 0 256) in
    match ctrls with
    | [] => if 255 <? subsys then None else Some (mk_selection 1 (mask_set [0; 0; 0; 0] subsys) id)
    | _ => Some (mk_selection 1 (foldl mask_set [0; 0; 0; 0] ctrls) id)
    end.

(** [fscanf(f, "%u", &v)] on a file of sysfs; [read] are the files. *)
Definition read_sysfs_u32 (read : list Z -> option (list Z)) (path : list Z) : option Z :=
  f ← read path;
  '(v, _) ← scan_u f;
  Some v.

(** What [resolve_session] asks of sysfs: a device is there, and its namespace. *)
Definition sys_block (dev : list Z) : list Z := fit 256 (bytes "/sys/block/" ++ dev).
Definition session_nsid (read : list Z -> option (list Z)) (session : list Z) : option Z :=
  read_sysfs_u32 read (fit 256 (bytes "/sys/block/" ++ session ++ bytes "/nsid")).
Definition resolve_on (exist : list Z -> bool) (read : list Z -> option (list Z)) (session : list Z) : option selection :=
  resolve_session (fun dev => exist (sys_block dev)) (session_nsid read) session.

Definition io_type_code (t : ntp_io_type) : Z := match t with NTP_IO_READ => 0 | NTP_IO_WRITE => 1 | NTP_IO_BOTH => 2 end.

Definition pad_to (n : nat) (l : list Z) : list Z := take n (l ++ replicate n 0).

Definition fill_filter (c : ntp_config) (host_sel : option selection) (offset : Z) : ntp_filter :=
  mk_filter (if nz (c_sample_every c) then c_sample_every c else 1) (u8 (io_type_code (c_io_type c))) (u8 (c_n_sizes c))
    (from_option sel_ctrl_filter 0 host_sel) (if c_exact_queues c then 1 else 0) (u32 (c_min_size c)) (u32 (c_max_size c))
    (pad_to NTP_MAX_SIZE_FILTERS (take (Z.to_nat (c_n_sizes c)) (c_sizes c)))
    (from_option sel_ctrl_mask [0; 0; 0; 0] host_sel) (from_option sel_nsid 0 host_sel) offset 0 [].

(** ** The ring buffer *)

Definition MAX_RINGBUF_MB : Z := 256.

(** [while (x & (x - 1)) x &= x - 1] *)
Fixpoint clear_low (fuel : nat) (x : Z) : option Z :=
  match fuel with
  | O => None
  | S fuel => if nz (Z.land x (u64 (x - 1))) then clear_low fuel (Z.land x (u64 (x - 1))) else Some x
  end.

Definition rb_bytes (c : ntp_config) : option Z :=
  let mb := if MAX_RINGBUF_MB <? c_buffer_mb c then MAX_RINGBUF_MB else c_buffer_mb c in
  clear_low 65 (u64 (Z.shiftl mb 20)).

(** ** Which objects are wanted *)

Definition valid_target (c : ntp_config) : Prop :=
  (c_role c = NTP_ROLE_HOST \/ c_role c = NTP_ROLE_TARGET \/ c_role c = NTP_ROLE_BOTH) /\
  (c_transport c = NTP_TR_TCP \/ c_transport c = NTP_TR_RDMA).

Definition roles_of (c : ntp_config) : list Z :=
  (if has (c_role c) NTP_ROLE_HOST then [NTP_ROLE_HOST] else []) ++
  (if has (c_role c) NTP_ROLE_TARGET then [NTP_ROLE_TARGET] else []).

Definition wanted_of (c : ntp_config) : list obj_desc := filter (fun d => wanted c d = true) objects.

(** The objects of both roles come host first, but for an SPDK host beside a
    kernel target. *)
Lemma wanted_order c :
  valid_target c ->
  d_role <$> wanted_of c =
    if set_str (c_spdk_host c) && negb (set_str (c_spdk_target c)) then rev (roles_of c) else roles_of c.
Proof.
  intros [Hr Ht]. unfold wanted_of, roles_of, wanted, role_in_spdk, objects. destruct Hr as [->|[->| ->]], Ht as [->| ->];
    destruct (set_str (c_spdk_host c)), (set_str (c_spdk_target c)); reflexivity.
Qed.

(** A configuration wants exactly one object for each of its roles, of its
    transport and of the implementation (kernel or SPDK) it names for that role;
    the host's is opened before the target's when both run in the kernel or both
    in SPDK. *)
Theorem wanted_objects c :
  valid_target c ->
  d_role <$> wanted_of c ≡ₚ roles_of c /\
  (role_in_spdk c NTP_ROLE_HOST = role_in_spdk c NTP_ROLE_TARGET -> d_role <$> wanted_of c = roles_of c) /\
  Forall (fun d => d_transport d = c_transport c /\ d_spdk d = role_in_spdk c (d_role d)) (wanted_of c).
Proof.
  intros Hv. pose proof (wanted_order c Hv) as E. split; [|split].
  - rewrite E. destruct (_ && _); [|done]. symmetry. apply Permutation_rev.
  - intros Hs. rewrite E. change (set_str (c_spdk_host c) = set_str (c_spdk_target c)) in Hs. rewrite Hs. by destruct (set_str (c_spdk_target c)).
  - apply Forall_forall. intros d [Hw _]%list_elem_of_filter. unfold wanted in Hw.
    apply andb_true_iff in Hw as [[_ H1]%andb_true_iff H2]. apply Z.eqb_eq in H1. apply eqb_prop in H2. done.
Qed.

Lemma wanted_objects_witness :
  d_name <$> wanted_of config_defaults = ["nvme_tcp_host"%string] /\
  d_role <$> wanted_of config_defaults ≡ₚ roles_of config_defaults.
Proof.
  split; [reflexivity|]. apply (wanted_objects config_defaults). split; [by left|by left].
Defined.

(** ** Which programs are loaded *)

Section SelectFacts.
  Context (d : obj_desc) (ks : list string) (skip : option string) (fl : flavour) (exact : bool).

Lemma select_ok progs l :
  select_programs d ks skip fl exact progs = (0, l) ->
  l = loads ks skip fl exact <$> progs /\
  Forall (fun p => left_out ks fl exact p = true \/ skipped skip p.1 = true \/ is_required d p.1 = false \/ target_present ks p = true) progs.
Proof.
  revert l. induction progs as [|p progs IH]; intros l; cbn [select_programs fmap list_fmap]; [by intros [= <-]|].
  unfold loads at 1. destruct (left_out ks fl exact p) eqn:Eo; cbn [orb negb andb].
  { destruct (select_programs d ks skip fl exact progs) as [r l'] eqn:E. intros [= -> <-].
    destruct (IH l' eq_refl) as [-> H]. split; [done|]. constructor; auto. }
  destruct (skipped skip p.1) eqn:Es; cbn [orb negb andb].
  { destruct (select_programs d ks skip fl exact progs) as [r l'] eqn:E. intros [= -> <-].
    destruct (IH l' eq_refl) as [-> H]. split; [done|]. constructor; auto. }
  destruct (target_present ks p) eqn:Et.
  { destruct (select_programs d ks skip fl exact progs) as [r l'] eqn:E. intros [= -> <-].
    destruct (IH l' eq_refl) as [-> H]. split; [done|]. constructor; auto. }
  destruct (is_required d p.1) eqn:Er; [intros [=]|].
  destruct (select_programs d ks skip fl exact progs) as [r l'] eqn:E. intros [= -> <-].
  destruct (IH l' eq_refl) as [-> H]. split; [done|]. constructor; auto.
Qed.

(** Selecting fails exactly when a required program has no attach point. *)
Lemma select_fails progs l r :
  select_programs d ks skip fl exact progs = (r, l) ->
  (r = 0 \/ r = -1) /\
  (r = -1 <-> Exists (fun p => left_out ks fl exact p = false /\ skipped skip p.1 = false /\
                              is_required d p.1 = true /\ target_present ks p = false) progs).
Proof.
  revert l. induction progs as [|p progs IH]; intros l; cbn [select_programs].
  { intros [= <- <-]. split; [by left|]. split; [done|]. intros H. by inversion H. }
  rewrite Exists_cons. destruct (left_out ks fl exact p), (skipped skip p.1), (target_present ks p), (is_required d p.1);
    cbn [orb]; try (destruct (select_programs d ks skip fl exact progs) as [r' l'] eqn:E; intros [= -> <-];
      destruct (IH l' eq_refl) as [H1 H2]; split; [done|]; rewrite H2; split; [by right|by intros [(? & ? & ? & ?)|?]]).
  intros [= <- <-]. split; [by right|]. split; [|done]. intros _. by left.
Qed.

End SelectFacts.

(** The symbols the attach points of an object's programs need. *)
Definition all_present (d : obj_desc) (ks : list string) : Prop :=
  Forall (fun p => target_present ks p = true) (programs d).

(** Whether a hook has a program of the flavour that is not left out whatever the
    kernel: not a stand-in, not only for exact queues. *)
Definition always_loaded (fl : flavour) (p : string * string) : bool :=
  (bool_decide (flavour_of p = FL_COMMON) || bool_decide (flavour_of p = fl)) && negb (in_list exact_only p.1) &&
  match fallback_for p.1 with Some _ => false | None => true end.

Lemma required_hooks_have_programs :
  forallb (fun d => forallb (fun fl => forallb (fun r =>
    existsb (fun p => String.eqb (base_name p.1) r && always_loaded fl p) (programs d)) (d_required d))
    [FL_FENTRY; FL_KPROBE]) objects = true.
Proof. vm_compute. reflexivity. Qed.

(** On a kernel that has the attach points, every object can be loaded in either
    flavour, and each hook without which its records would be meaningless has a
    program that is loaded; and of every program of the other flavour none is. *)
Theorem required_hooks_loaded d fl ks exact :
  d ∈ objects -> fl ∈ [FL_FENTRY; FL_KPROBE] -> all_present d ks ->
  let '(r, l) := select_programs d ks None fl exact (programs d) in
  r = 0 /\
  (forall h, h ∈ d_required d ->
     exists i p, programs d !! i = Some p /\ base_name p.1 = h /\ l !! i = Some true) /\
  (forall i p, programs d !! i = Some p -> l !! i = Some true -> flavour_of p = FL_COMMON \/ flavour_of p = fl).
Proof.
  intros Hd Hfl Hall. destruct (select_programs d ks None fl exact (programs d)) as [r l] eqn:E.
  destruct (select_fails _ _ _ _ _ _ _ _ E) as [Hr Hf]. unfold all_present in Hall. rewrite Forall_forall in Hall.
  assert (r = 0) as ->.
  { destruct Hr as [|Hr]; [done|]. apply Hf, Exists_exists in Hr as (p & Hp & _ & _ & _ & H). by rewrite Hall in H. }
  destruct (select_ok _ _ _ _ _ _ _ E) as [-> _]. split; [done|]. split.
  - intros h Hh. pose proof required_hooks_have_programs as Hq. rewrite forallb_forall in Hq.
    specialize (Hq d (proj1 (list_elem_of_In _ _) Hd)). rewrite forallb_forall in Hq.
    specialize (Hq fl (proj1 (list_elem_of_In _ _) Hfl)). rewrite forallb_forall in Hq.
    specialize (Hq h (proj1 (list_elem_of_In _ _) Hh)). apply existsb_exists in Hq as (p & Hp & Hq).
    apply list_elem_of_In in Hp. apply andb_true_iff in Hq as [Hb Hq]. apply String.eqb_eq in Hb.
    apply list_elem_of_lookup_1 in Hp as [i Hi]. exists i, p. split; [done|]. split; [done|].
    rewrite list_lookup_fmap, Hi. simpl. f_equal. unfold loads. rewrite (Hall p) by (by eapply list_elem_of_lookup_2).
    rewrite !andb_true_r. apply negb_true_iff. unfold always_loaded in Hq. unfold left_out.
    apply andb_true_iff in Hq as [[H1 H2]%andb_true_iff H3]. apply negb_true_iff in H2. rewrite H2, andb_false_r.
    destruct (fallback_for p.1); [done|]. rewrite !orb_false_r. apply andb_false_iff. rewrite !negb_false_iff.
    by apply orb_true_iff in H1.
  - intros i p Hi. rewrite list_lookup_fmap, Hi. simpl. intros [= Hl]. unfold loads in Hl.
    apply andb_true_iff in Hl as [[Hl _]%andb_true_iff _]. apply negb_true_iff in Hl. unfold left_out in Hl.
    apply orb_false_iff in Hl as [[Hl _]%orb_false_iff _]. apply andb_false_iff in Hl. rewrite !negb_false_iff in Hl.
    by destruct Hl as [H%bool_decide_eq_true|H%bool_decide_eq_true]; auto.
Qed.

(** A kernel with the symbols of the NVMe/TCP host. *)
Definition tcp_host_symbols : list string :=
  merge_sort str_le ((fun p => match after_slash p.2 with
            | Some s => if starts_with "raw_tp/" p.2 then ("__tracepoint_" ++ s)%string else s
            | None => ""%string
            end) <$> (host_hooks ++ nvme_tcp_host_progs)).

Definition tcp_host_desc : obj_desc := mk_obj_desc "nvme_tcp_host" NTP_ROLE_HOST NTP_TR_TCP "nvme_tcp" tcp_host_required false.

Lemma required_hooks_loaded_witness :
  let '(r, l) := select_programs tcp_host_desc tcp_host_symbols None FL_KPROBE false (programs tcp_host_desc) in
  r = 0 /\
  (forall h, h ∈ d_required tcp_host_desc ->
     exists i p, programs tcp_host_desc !! i = Some p /\ base_name p.1 = h /\ l !! i = Some true) /\
  (forall i p, programs tcp_host_desc !! i = Some p -> l !! i = Some true -> flavour_of p = FL_COMMON \/ flavour_of p = FL_KPROBE).
Proof.
  apply (required_hooks_loaded tcp_host_desc FL_KPROBE tcp_host_symbols false).
  - by left.
  - right. by left.
  - apply Forall_forall. intros p Hp.
    assert (forallb (target_present tcp_host_symbols) (programs tcp_host_desc) = true) as H by (vm_compute; reflexivity).
    rewrite forallb_forall in H. apply H. by apply list_elem_of_In.
Defined.

(** ** Controllers of a session *)

Definition mask_bit (mask : list Z) (i : Z) : bool :=
  has (default 0 (mask !! Z.to_nat (Z.land (Z.shiftr i 6) 3))) (Z.shiftl 1 (Z.land i 63)).

Lemma split_index i : 0 <= i < 256 ->
  Z.land (Z.shiftr i 6) 3 = Z.shiftr i 6 /\ 0 <= Z.shiftr i 6 < 4 /\ 0 <= Z.land i 63 < 64 /\ i = 64 * Z.shiftr i 6 + Z.land i 63.
Proof.
  intros Hi. change 63 with (Z.ones 6). change 3 with (Z.ones 2). rewrite !Z.land_ones by lia.
  rewrite Z.shiftr_div_pow2 by lia. change (2 ^ 6) with 64. change (2 ^ 2) with 4.
  pose proof (Z.div_mod i 64 ltac:(lia)). pose proof (Z.mod_pos_bound i 64 ltac:(lia)).
  assert (0 <= i / 64 < 4) by (split; [apply Z.div_pos; lia|apply Z.div_lt_upper_bound; lia]).
  rewrite (Z.mod_small (i / 64) 4) by lia. lia.
Qed.

Lemma mask_set_bit m i j :
  List.length m = 4%nat -> 0 <= i < 256 -> 0 <= j < 256 -> mask_bit (mask_set m i) j = (i =? j) || mask_bit m j.
Proof.
  intros Hl Hi Hj. destruct (split_index i Hi) as (_ & Hi1 & Hi2 & Hi3). destruct (split_index j Hj) as (Ej & Hj1 & Hj2 & Hj3).
  unfold mask_bit, mask_set. rewrite Ej. destruct (decide (Z.shiftr i 6 = Z.shiftr j 6)) as [Hw|Hw].
  - rewrite Hw. rewrite list_lookup_insert_eq by lia. cbn [default from_option id]. rewrite has_lor_shift by lia.
    f_equal. destruct (Z.eqb_spec (Z.land i 63) (Z.land j 63)), (Z.eqb_spec i j); done || lia.
  - rewrite list_lookup_insert_ne by lia. destruct (Z.eqb_spec i j); [subst; done|done].
Qed.

Lemma mask_set_length m i : List.length (mask_set m i) = List.length m.
Proof. unfold mask_set. apply length_insert. Qed.

Lemma mask_fold_bit l m j :
  List.length m = 4%nat -> Forall (fun i => 0 <= i < 256) l -> 0 <= j < 256 ->
  mask_bit (foldl mask_set m l) j = bool_decide (j ∈ l) || mask_bit m j.
Proof.
  intros Hm Hl Hj. revert m Hm. induction Hl as [|i l Hi Hl IH]; intros m Hm; cbn [foldl].
  - by rewrite bool_decide_false by apply not_elem_of_nil.
  - rewrite IH by (by rewrite mask_set_length). rewrite mask_set_bit by done. rewrite orb_assoc. f_equal.
    destruct (Z.eqb_spec i j) as [->|Hne]; [rewrite orb_true_r; symmetry; apply bool_decide_eq_true; by left|].
    rewrite orb_false_r. apply bool_decide_ext. rewrite elem_of_cons. split; [by right|]. by intros [->|?].
Qed.

Lemma mask_empty j : 0 <= j < 256 -> mask_bit [0; 0; 0; 0] j = false.
Proof.
  intros Hj. destruct (split_index j Hj) as (Ej & Hj1 & _). unfold mask_bit. rewrite Ej.
  assert (default 0 ([0; 0; 0; 0] !! Z.to_nat (Z.shiftr j 6)) = 0) as ->; [|done].
  destruct (Z.to_nat (Z.shiftr j 6)) as [|[|[|[|n]]]]; done.
Qed.

Lemma ctrl_matches_mask c sel off j :
  0 <= j < 256 -> sel_ctrl_filter sel = 1 ->
  ctrl_matches (fill_filter c (Some sel) off) j = mask_bit (sel_ctrl_mask sel) j.
Proof.
  intros Hj Hf. unfold ctrl_matches, fill_filter, mask_bit. cbn [ctrl_filter ctrl_mask from_option]. rewrite Hf.
  rewrite (proj2 (Z.ltb_ge 255 j)) by lia. cbn [nz negb orb]. change (nz 1) with true. cbn [negb orb]. by rewrite negb_involutive.
Qed.

Lemma scan_session_range s x n : scan_session s = Some (x, n) -> is_u32 x.
Proof.
  unfold scan_session, scan_u. destruct (str_eqb _ _); [|done]. destruct (strtoull (drop 4 s)) as [[e v] rest].
  destruct (_ <? _)%nat; cbn [mbind option_bind]; [|done]. destruct rest as [|c rest]; [done|]. destruct (c =? 110); [|done].
  destruct (strtoull rest) as [[e' v'] rest']. destruct (_ <? _)%nat; cbn [mbind option_bind]; [|done].
  intros [= <- _]. apply u32_range.
Qed.

(** A session profiles the paths of its namespace.  For a session nvmeXnY the filter
    built for the host object lets through exactly the controllers whose path
    device nvmeXc<controller>nY exists, or controller X alone when the namespace
    has no path devices (no multipath); for "all" it lets every controller
    through. *)
Theorem session_selects_paths present nsid session c off ctrl :
  0 <= ctrl < 256 ->
  match resolve_session present nsid session with
  | None => scan_session session = None \/ exists x n, scan_session session = Some (x, n) /\ 255 < x
  | Some sel =>
      let matches := ctrl_matches (fill_filter c (Some sel) off) ctrl = true in
      (session = bytes "all" /\ matches) \/
      exists x n, scan_session session = Some (x, n) /\
        (matches <-> present (path_device x ctrl n) = true \/
                     (ctrl = x /\ forall i, 0 <= i < 256 -> present (path_device x i n) = false))
  end.
Proof.
  intros Hc. unfold resolve_session, str_eqb. destruct (bool_decide (session = bytes "all")) eqn:Ea.
  { apply bool_decide_eq_true in Ea. left. split; [done|]. unfold ctrl_matches, fill_filter. done. }
  destruct (scan_session session) as [[x n]|] eqn:Es; cbn [mbind option_bind]; [|by left].
  set (ctrls := filter (fun i => present (path_device x i n) = true) (seqZ 0 256)).
  assert (forall i, i ∈ ctrls <-> 0 <= i < 256 /\ present (path_device x i n) = true) as Hin.
  { intros i. unfold ctrls. rewrite list_elem_of_filter, elem_of_seqZ. intuition lia. }
  assert (Forall (fun i => 0 <= i < 256) ctrls) as Hr by (apply Forall_forall; intros i Hi; apply Hin in Hi; lia).
  destruct ctrls as [|i0 l0] eqn:Ec.
  - destruct (Z.ltb_spec 255 x) as [Hx|Hx]; [right; by exists x, n|]. right. exists x, n. split; [done|].
    rewrite ctrl_matches_mask by done. cbn [sel_ctrl_mask].
    assert (forall i, 0 <= i < 256 -> present (path_device x i n) = false) as Hnone.
    { intros i Hi. apply not_true_iff_false. intros Hp. by apply (not_elem_of_nil i), Hin. }
    pose proof (scan_session_range session x n Es) as [Hx0 _].
    rewrite mask_set_bit, mask_empty, orb_false_r, Z.eqb_eq by (done || lia).
    split; [intros ->; by right|]. intros [H| [-> _]]; [by rewrite Hnone in H|done].
  - right. exists x, n. split; [done|]. rewrite ctrl_matches_mask by done. cbn [sel_ctrl_mask].
    rewrite mask_fold_bit, mask_empty, orb_false_r, bool_decide_eq_true, Hin by done.
    split; [intros [_ H]; by left|]. intros [H|[-> H]]; [done|].
    destruct (proj1 (Hin i0)) as [Hi0 Hp0]; [by left|]. by rewrite H in Hp0.
Qed.

(** A multipath namespace with one path, over controller 2. *)
Lemma session_selects_paths_witness :
  match resolve_session (fun d => str_eqb d (bytes "nvme1c2n3")) (fun _ => None) (bytes "nvme1n3") with
  | None => False
  | Some sel => (ctrl_matches (fill_filter config_defaults (Some sel) 0) 2 = true <-> True) /\
                sel_nsid sel = 3 /\ ctrl_matches (fill_filter config_defaults (Some sel) 0) 1 = false
  end.
Proof.
  pose proof (session_selects_paths (fun d => str_eqb d (bytes "nvme1c2n3")) (fun _ => None) (bytes "nvme1n3") config_defaults 0 2
    ltac:(lia)) as H.
  destruct (resolve_session _ _ _) as [sel|] eqn:E; [|by vm_compute in E].
  destruct H as [[H _]|(x & n & Hs & H)]; [by vm_compute in H|]. vm_compute in Hs. injection Hs as <- <-.
  split; [|by vm_compute in E; injection E as <-; vm_compute]. split; [done|]. intros _. apply H. left. by vm_compute.
Defined.

(** ** The ring buffer *)

(** The ring buffer gets the largest power of two bytes that does not exceed the
    configured size, 256 MiB at most. *)
Lemma rb_bytes_power c :
  1 <= c_buffer_mb c -> rb_bytes c = Some (2 ^ (Z.log2 (Z.min (c_buffer_mb c) MAX_RINGBUF_MB) + 20)).
Proof.
  intros Hc. unfold rb_bytes.
  assert ((if MAX_RINGBUF_MB <? c_buffer_mb c then MAX_RINGBUF_MB else c_buffer_mb c) = Z.min (c_buffer_mb c) MAX_RINGBUF_MB) as ->
    by (destruct (Z.ltb_spec MAX_RINGBUF_MB (c_buffer_mb c)); lia).
  assert (forallb (fun mb => bool_decide (clear_low 65 (u64 (Z.shiftl mb 20)) = Some (2 ^ (Z.log2 mb + 20)))) (seqZ 1 256) = true) as H
    by (vm_compute; reflexivity).
  rewrite forallb_forall in H. cbv zeta. eapply bool_decide_eq_true_1, H, list_elem_of_In, elem_of_seqZ.
  unfold MAX_RINGBUF_MB. lia.
Qed.
