(* ===== verification/Programs.v ===== *)
(** * The programs of the BPF objects (bpf/*.bpf.c, bpf/*.bpf.h)

    A BPF object is a list of programs: each is attached to the call or the return
    of a kernel function or to a tracepoint, and runs one of the hooks of BpfHost.v
    and BpfTarget.v with what it can see there.  A hook on a function exists in two
    flavours, fentry/fexit and kprobe/kretprobe, and the loader loads one.  [kev] is
    what the kernel does, [fire] runs the loaded programs attached to it.

    A kretprobe does not see the arguments of the call: where the hook needs them,
    a kprobe at the call keeps them in a per-CPU slot.  [flavours_agree] shows that
    both flavours come to the same. *)
From stdpp Require Import base numbers list gmap.
From Stdlib Require Import ZArith Lia String.
From S2P Require Import Prelude Types BpfCommon BpfHost BpfTarget Config Ksyms Loader.

(** ** What the kernel does *)

Inductive kev :=
  | KCall (f : string) (args : list Z)
  | KRet (f : string) (args : list Z) (ret : Z)
  | KTrace (tp : string) (args : list Z).

(** Whether a program is attached to it, by its section. *)
Definition fires (p : string * string) (k : kev) : bool :=
  match k with
  | KCall f _ => String.eqb p.2 ("fentry/" ++ f) || String.eqb p.2 ("kprobe/" ++ f)
  | KRet f _ _ => String.eqb p.2 ("fexit/" ++ f) || String.eqb p.2 ("kretprobe/" ++ f)
  | KTrace tp _ => String.eqb p.2 ("raw_tp/" ++ tp)
  end.

(** What the program sees of it: a kretprobe has the value returned only. *)
Definition sees (p : string * string) (k : kev) : list Z * Z :=
  match k with
  | KCall _ args | KTrace _ args => (args, 0)
  | KRet _ args ret => (if starts_with "kretprobe/" p.2 then [] else args, ret)
  end.

Definition arg (args : list Z) (i : nat) : Z := default 0 (args !! i).
(** An [int] of the arguments or returned. *)
Definition iarg (args : list Z) (i : nat) : Z := s32 (arg args i).

(** ** Objects *)

(** A BPF object: its description in the loader, the body of each of its programs,
    and what the bodies do to its state. *)
Class Object (St Ev : Type) := {
  ob_desc : obj_desc;
  ob_bodies : list (string * (list Z -> Z -> Ev));
  ob_run : ntp_filter -> kernel -> env -> St -> Ev -> St
}.

Section object.
  Context {St Ev : Type} `{O : Object St Ev}.

Definition body_of (name : string) : option (list Z -> Z -> Ev) :=
  snd <$> head (filter (fun b => b.1 = name) ob_bodies).

(** One program. *)
Definition run_program (filter : ntp_filter) (K : kernel) (e : env) (k : kev) (s : St) (p : string * string) : St :=
  if fires p k then
    match body_of p.1 with
    | Some body => let '(args, ret) := sees p k in ob_run filter K e s (body args ret)
    | None => s
    end
  else s.

(** The programs attached to one event. *)
Definition fire (filter : ntp_filter) (progs : list (string * string)) (s : St) (x : kernel * env * kev) : St :=
  let '(K, e, k) := x in foldl (run_program filter K e k) s progs.

(** The loaded programs along a trace. *)
Definition run_trace (filter : ntp_filter) (progs : list (string * string)) (s : St) (l : list (kernel * env * kev)) : St :=
  foldl (fire filter progs) s l.

(** The programs the loader leaves in. *)
Definition loaded (ks : list string) (skip : option string) (fl : flavour) (exact : bool) : list (string * string) :=
  List.filter (loads ks skip fl exact) (programs ob_desc).
End object.

(** An object in one flavour, along a trace. *)
Definition run_object {St Ev} (O : Object St Ev) (ks : list string) (skip : option string) (fl : flavour) (exact : bool)
    (filter : ntp_filter) (s : St) (l : list (kernel * env * kev)) : St :=
  run_trace filter (loaded ks skip fl exact) s l.

(** ** NVMe/TCP host *)

Definition host_bodies {Ev} (setup : Z -> Z -> Ev) (nvme blk : Z -> Ev) : list (string * (list Z -> Z -> Ev)) :=
  [("ntp_h_setup_cmd", fun a _ => setup (arg a 0) (arg a 1)); ("ntp_h_nvme_done", fun a _ => nvme (arg a 0));
   ("ntp_h_blk_done", fun a _ => blk (arg a 0))]%string.

Definition tcp_host_submit : list (string * (list Z -> Z -> tcp_host_ev)) :=
  [("ntp_h_queue_rq_fe", fun a _ => TH_queue_rq (arg a 0) (arg a 1));
   ("ntp_h_queue_rq_kp", fun a _ => TH_queue_rq (arg a 0) (arg a 1))]%string.
Definition tcp_host_send : list (string * (list Z -> Z -> tcp_host_ev)) :=
  [("ntp_h_send_cmd_fx", fun a r => TH_send_done (arg a 0) (s32 r) true);
   ("ntp_h_send_cmd_kp", fun a _ => TH_send_enter (arg a 0)); ("ntp_h_send_cmd_kr", fun _ r => TH_send_exit (s32 r) true);
   ("ntp_h_send_data_fx", fun a r => TH_send_done (arg a 0) (s32 r) false);
   ("ntp_h_send_data_kp", fun a _ => TH_send_enter (arg a 0)); ("ntp_h_send_data_kr", fun _ r => TH_send_exit (s32 r) false);
   ("ntp_h_send_ddgst_fx", fun a r => TH_send_done (arg a 0) (s32 r) false);
   ("ntp_h_send_ddgst_kp", fun a _ => TH_send_enter (arg a 0)); ("ntp_h_send_ddgst_kr", fun _ r => TH_send_exit (s32 r) false)]%string.
Definition tcp_host_h2c : list (string * (list Z -> Z -> tcp_host_ev)) :=
  [("ntp_h_send_h2c_fe", fun a _ => TH_send_h2c (arg a 0)); ("ntp_h_send_h2c_kp", fun a _ => TH_send_h2c (arg a 0))]%string.
Definition tcp_host_try_send : list (string * (list Z -> Z -> tcp_host_ev)) :=
  [("ntp_h_try_send_fe", fun a _ => TH_try_send_enter (arg a 0)); ("ntp_h_try_send_fx", fun _ r => TH_try_send_exit (s32 r));
   ("ntp_h_try_send_kp", fun a _ => TH_try_send_enter (arg a 0)); ("ntp_h_try_send_kr", fun _ r => TH_try_send_exit (s32 r));
   ("ntp_h_sendpage_fe", fun a _ => TH_sock_send (arg a 0)); ("ntp_h_sendpage_kp", fun a _ => TH_sock_send (arg a 0));
   ("ntp_h_nosendpage_fe", fun a _ => TH_sock_send (arg a 0)); ("ntp_h_nosendpage_kp", fun a _ => TH_sock_send (arg a 0));
   ("ntp_h_sendmsg_fe", fun a _ => TH_sock_send (arg a 0)); ("ntp_h_sendmsg_kp", fun a _ => TH_sock_send (arg a 0))]%string.
Definition tcp_host_recv : list (string * (list Z -> Z -> tcp_host_ev)) :=
  [("ntp_h_recv_skb_fe", fun a _ => TH_recv_skb (arg a 1)); ("ntp_h_recv_skb_fx", fun _ _ => TH_recv_skb_exit);
   ("ntp_h_recv_skb_kp", fun a _ => TH_recv_skb (arg a 1)); ("ntp_h_recv_skb_kr", fun _ _ => TH_recv_skb_exit)]%string.
Definition tcp_host_copy : list (string * (list Z -> Z -> tcp_host_ev)) :=
  [("ntp_h_copy_fe", fun a _ => TH_copy (arg a 0)); ("ntp_h_copy_kp", fun a _ => TH_copy (arg a 0));
   ("ntp_h_copy_hash_fe", fun a _ => TH_copy (arg a 0)); ("ntp_h_copy_hash_kp", fun a _ => TH_copy (arg a 0))]%string.
Definition tcp_host_r2t : list (string * (list Z -> Z -> tcp_host_ev)) :=
  [("ntp_h_r2t_fe", fun a _ => TH_r2t (arg a 0)); ("ntp_h_r2t_kp", fun a _ => TH_r2t (arg a 0))]%string.
Definition tcp_host_complete : list (string * (list Z -> Z -> tcp_host_ev)) :=
  [("ntp_h_complete_fe", fun a _ => TH_complete (arg a 0)); ("ntp_h_complete_kp", fun a _ => TH_complete (arg a 0))]%string.

#[export] Instance tcp_host_object : Object host_st tcp_host_ev := {
  ob_desc := mk_obj_desc "nvme_tcp_host" NTP_ROLE_HOST NTP_TR_TCP "nvme_tcp" tcp_host_required false;
  ob_bodies := host_bodies TH_setup_cmd TH_nvme_done TH_blk_done ++ tcp_host_submit ++ tcp_host_send ++ tcp_host_h2c ++
    tcp_host_try_send ++ tcp_host_recv ++ tcp_host_copy ++ tcp_host_r2t ++ tcp_host_complete;
  ob_run := tcp_host_run
}.

(** ** NVMe/RDMA host *)

Definition rdma_host_submit : list (string * (list Z -> Z -> rdma_host_ev)) :=
  [("ntp_hr_queue_rq_fe", fun a _ => RH_queue_rq (arg a 0) (arg a 1));
   ("ntp_hr_queue_rq_kp", fun a _ => RH_queue_rq (arg a 0) (arg a 1))]%string.
Definition rdma_host_post : list (string * (list Z -> Z -> rdma_host_ev)) :=
  [("ntp_hr_post_fx", fun a r => RH_posted (arg a 1) (s32 r)); ("ntp_hr_post_kp", fun a _ => RH_post_enter (arg a 1));
   ("ntp_hr_post_kr", fun _ r => RH_post_exit (s32 r))]%string.
Definition rdma_host_completions : list (string * (list Z -> Z -> rdma_host_ev)) :=
  [("ntp_hr_send_done_fe", fun a _ => RH_send_done (arg a 1)); ("ntp_hr_send_done_fx", fun _ _ => RH_rx_exit);
   ("ntp_hr_send_done_kp", fun a _ => RH_send_done (arg a 1)); ("ntp_hr_send_done_kr", fun _ _ => RH_rx_exit);
   ("ntp_hr_recv_done_fe", fun a _ => RH_recv_done (arg a 1)); ("ntp_hr_recv_done_fx", fun _ _ => RH_rx_exit);
   ("ntp_hr_recv_done_kp", fun a _ => RH_recv_done (arg a 1)); ("ntp_hr_recv_done_kr", fun _ _ => RH_rx_exit);
   ("ntp_hr_inv_done_fe", fun a _ => RH_inv_done (arg a 1)); ("ntp_hr_inv_done_fx", fun _ _ => RH_rx_exit);
   ("ntp_hr_inv_done_kp", fun a _ => RH_inv_done (arg a 1)); ("ntp_hr_inv_done_kr", fun _ _ => RH_rx_exit);
   ("ntp_hr_complete_fe", fun a _ => RH_complete (arg a 0)); ("ntp_hr_complete_kp", fun a _ => RH_complete (arg a 0))]%string.

#[export] Instance rdma_host_object : Object host_st rdma_host_ev := {
  ob_desc := mk_obj_desc "nvme_rdma_host" NTP_ROLE_HOST NTP_TR_RDMA "nvme_rdma" rdma_host_required false;
  ob_bodies := host_bodies RH_setup_cmd RH_nvme_done RH_blk_done ++ rdma_host_submit ++ rdma_host_post ++ rdma_host_completions;
  ob_run := rdma_host_run
}.

(** ** The targets *)

Definition target_bodies {Ev} (init : Z -> Z -> Ev) (exec issue done complete : Z -> Ev) : list (string * (list Z -> Z -> Ev)) :=
  [("ntp_t_req_init", fun a _ => init (arg a 0) (arg a 1));
   ("ntp_t_exec_bdev_fe", fun a _ => exec (arg a 0)); ("ntp_t_exec_bdev_kp", fun a _ => exec (arg a 0));
   ("ntp_t_exec_file_fe", fun a _ => exec (arg a 0)); ("ntp_t_exec_file_kp", fun a _ => exec (arg a 0));
   ("ntp_t_exec_pt_fe", fun a _ => exec (arg a 0)); ("ntp_t_exec_pt_kp", fun a _ => exec (arg a 0));
   ("ntp_t_be_issue", fun a _ => issue (arg a 0)); ("ntp_t_be_done", fun a _ => done (arg a 0));
   ("ntp_t_complete", fun a _ => complete (arg a 0))]%string.

Definition tcp_target_copy : list (string * (list Z -> Z -> tcp_tgt_ev)) :=
  [("ntp_t_copy_fe", fun a _ => TT_copy (arg a 0) (iarg a 1)); ("ntp_t_copy_kp", fun a _ => TT_copy (arg a 0) (iarg a 1));
   ("ntp_t_copy_done_fx", fun _ r => TT_copy_done (s32 r)); ("ntp_t_copy_done_kr", fun _ r => TT_copy_done (s32 r))]%string.
Definition tcp_target_resp : list (string * (list Z -> Z -> tcp_tgt_ev)) :=
  [("ntp_t_queue_resp_fe", fun a _ => TT_queue_resp (arg a 0)); ("ntp_t_queue_resp_kp", fun a _ => TT_queue_resp (arg a 0))]%string.
Definition tcp_target_h2c : list (string * (list Z -> Z -> tcp_tgt_ev)) :=
  [("ntp_t_h2c_fe", fun a _ => TT_h2c (arg a 0)); ("ntp_t_h2c_kp", fun a _ => TT_h2c (arg a 0))]%string.
Definition tcp_target_send : list (string * (list Z -> Z -> tcp_tgt_ev)) :=
  [("ntp_t_sendmsg_fe", fun a _ => TT_sendmsg (arg a 0)); ("ntp_t_sendmsg_kp", fun a _ => TT_sendmsg (arg a 0));
   ("ntp_t_sendpage_fe", fun a _ => TT_sendmsg (arg a 0)); ("ntp_t_sendpage_kp", fun a _ => TT_sendmsg (arg a 0))]%string.

#[export] Instance tcp_target_object : Object tgt_st tcp_tgt_ev := {
  ob_desc := mk_obj_desc "nvme_tcp_target" NTP_ROLE_TARGET NTP_TR_TCP "nvmet_tcp" tcp_target_required false;
  ob_bodies := target_bodies TT_req_init TT_exec TT_be_issue TT_be_done TT_complete ++ tcp_target_copy ++ tcp_target_resp ++
    tcp_target_h2c ++ tcp_target_send;
  ob_run := tcp_tgt_run
}.

Definition rdma_target_recv : list (string * (list Z -> Z -> rdma_tgt_ev)) :=
  [("ntp_tr_recv_done_fe", fun a _ => RT_recv_done (arg a 1)); ("ntp_tr_recv_done_fx", fun _ _ => RT_recv_exit);
   ("ntp_tr_recv_done_kp", fun a _ => RT_recv_done (arg a 1)); ("ntp_tr_recv_done_kr", fun _ _ => RT_recv_exit)]%string.
Definition rdma_target_data : list (string * (list Z -> Z -> rdma_tgt_ev)) :=
  [("ntp_tr_execute_fe", fun a _ => RT_execute (arg a 0)); ("ntp_tr_execute_kp", fun a _ => RT_execute (arg a 0));
   ("ntp_tr_read_done_fe", fun a _ => RT_read_done (arg a 1)); ("ntp_tr_read_done_kp", fun a _ => RT_read_done (arg a 1))]%string.
Definition rdma_target_resp : list (string * (list Z -> Z -> rdma_tgt_ev)) :=
  [("ntp_tr_send_done_fe", fun a _ => RT_send_done (arg a 1)); ("ntp_tr_send_done_kp", fun a _ => RT_send_done (arg a 1));
   ("ntp_tr_queue_resp_fe", fun a _ => RT_queue_resp (arg a 0)); ("ntp_tr_queue_resp_fx", fun a _ => RT_queue_resp_exit (arg a 0));
   ("ntp_tr_queue_resp_kp", fun a _ => RT_queue_resp_kp (arg a 0)); ("ntp_tr_queue_resp_kr", fun _ _ => RT_queue_resp_kr)]%string.

#[export] Instance rdma_target_object : Object tgt_st rdma_tgt_ev := {
  ob_desc := mk_obj_desc "nvme_rdma_target" NTP_ROLE_TARGET NTP_TR_RDMA "nvmet_rdma" rdma_target_required false;
  ob_bodies := target_bodies RT_req_init RT_exec RT_be_issue RT_be_done RT_complete ++ rdma_target_recv ++ rdma_target_data ++ rdma_target_resp;
  ob_run := rdma_tgt_run
}.

(** The objects are the loader's, and each of their programs has a body. *)
Lemma objects_complete :
  firstn 4 objects = [ob_desc (Object := tcp_host_object); ob_desc (Object := tcp_target_object);
                      ob_desc (Object := rdma_host_object); ob_desc (Object := rdma_target_object)] /\
  fst <$> programs (ob_desc (Object := tcp_host_object)) = fst <$> ob_bodies (Object := tcp_host_object) /\
  fst <$> programs (ob_desc (Object := tcp_target_object)) = fst <$> ob_bodies (Object := tcp_target_object) /\
  fst <$> programs (ob_desc (Object := rdma_host_object)) = fst <$> ob_bodies (Object := rdma_host_object) /\
  fst <$> programs (ob_desc (Object := rdma_target_object)) = fst <$> ob_bodies (Object := rdma_target_object).
Proof. repeat split; reflexivity. Qed.
