(* ===== verification/Flavours.v ===== *)
(** * Both flavours of the programs come to the same (bpf/*.bpf.c, src/loader.c)

    The loader loads the fentry/fexit programs of an object or its kprobe/kretprobe
    programs.  [FlavourPair] is what an object promises about the two: the same hooks
    run on every event of the kernel, except on a few functions whose return needs an
    argument of the call, which the kprobe keeps in a per-CPU slot for the kretprobe.
    From the interface alone the two flavours leave the same state behind, up to these
    slots.  Three kernel objects implement it; the TCP target runs the same hooks. *)
From stdpp Require Import base numbers list gmap.
From Stdlib Require Import ZArith Lia String.
From S2P Require Import Prelude Types BpfCommon BpfHost BpfTarget Config Ksyms Loader Programs BlindHost BlindTarget.

(** ** Which function a program is about *)

(** What follows a prefix. *)
Fixpoint strip (p s : string) : option string :=
  match p, s with
  | EmptyString, _ => Some s
  | String a p, String b s => if Ascii.eqb a b then strip p s else None
  | String _ _, EmptyString => None
  end.

Definition about (p : option string) (f : string) : bool := match p with Some g => String.eqb g f | None => false end.
Definition prefixes (k : kev) : string * string :=
  match k with
  | KCall _ _ => ("fentry/", "kprobe/")
  | KRet _ _ _ => ("fexit/", "kretprobe/")
  | KTrace _ _ => ("raw_tp/", "raw_tp/")
  end%string.
Definition place (k : kev) : string := match k with KCall f _ | KRet f _ _ | KTrace f _ => f end.
Definition site (p : string * string) (k : kev) : bool :=
  about (strip (prefixes k).1 p.2) (place k) || about (strip (prefixes k).2 p.2) (place k).
(** The functions or tracepoints of some programs. *)
Definition sites (k : kev) (progs : list (string * string)) : list string :=
  remove_dups (flat_map (fun p => option_list (strip (prefixes k).1 p.2) ++ option_list (strip (prefixes k).2 p.2)) progs).

Lemma eqb_strip p s f : String.eqb s (p ++ f) = about (strip p s) f.
Proof.
  revert s. induction p as [|a p IH]; intros s; [done|]. destruct s as [|b s]; [done|]. cbn [strip].
  change (String a p ++ f)%string with (String a (p ++ f)). cbn [String.eqb]. rewrite Ascii.eqb_sym. destruct (Ascii.eqb a b); [apply IH|done].
Qed.
Lemma fires_site p k : fires p k = site p k.
Proof. destruct k; unfold fires, site; cbn [prefixes place fst snd]; rewrite !eqb_strip; by rewrite ?orb_diag. Qed.

Lemma about_in p f l : about p f = true -> f ∈ option_list p ++ l.
Proof. destruct p as [g|]; [|done]. intros ->%String.eqb_eq. by left. Qed.
Lemma no_site k progs : place k ∉ sites k progs -> List.filter (fun p => site p k) progs = [].
Proof.
  unfold sites. rewrite elem_of_remove_dups. induction progs as [|p progs IH]; [done|]. cbn [flat_map List.filter]. intros [Hp Hn]%not_elem_of_app.
  destruct (site p k) eqn:E; [|by apply IH]. destruct Hp. unfold site in E.
  apply orb_true_iff in E as [E|E]; [by apply about_in|]. apply elem_of_app. right. rewrite <- (app_nil_r (option_list _)). by apply about_in.
Qed.

(** ** Hooks run on an event *)

Section hooks.
  Context {St Ev : Type} `{O : Object St Ev}.

(** What a program runs when it fires. *)
Definition body (k : kev) (p : string * string) : list Ev :=
  match body_of p.1 with Some body => [body (sees p k).1 (sees p k).2] | None => [] end.
Definition hooks (progs : list (string * string)) (k : kev) : list Ev :=
  flat_map (fun p => if fires p k then body k p else []) progs.

Lemma fire_hooks filter progs s K e k : fire filter progs s (K, e, k) = foldl (ob_run filter K e) s (hooks progs k).
Proof.
  unfold fire, hooks. revert s. induction progs as [|p progs IH]; intros s; [done|]. cbn [flat_map foldl]. rewrite foldl_app, <- IH.
  f_equal. unfold run_program, body. destruct (fires p k); [|done]. destruct (body_of p.1); [|done]. by destruct (sees p k).
Qed.

(** The hooks of the programs that are loaded, from the programs of the object at the site. *)
Lemma hooks_loaded ks skip fl exact k progs :
  List.filter (fun p => site p k) (programs ob_desc) = progs ->
  hooks (loaded ks skip fl exact) k = flat_map (fun p => if loads ks skip fl exact p then body k p else []) progs.
Proof.
  intros <-. unfold hooks, loaded. induction (programs ob_desc) as [|p progs IH]; [done|]. cbn [List.filter flat_map].
  rewrite <- fires_site. destruct (loads _ _ _ _ p) eqn:El, (fires p k) eqn:Ef; cbn [flat_map]; rewrite ?Ef, ?El, IH; done.
Qed.
End hooks.

(** ** Calls and returns *)

(** On every CPU the functions [fns] are called one at a time, and return on the CPU
    and in the thread of the call; [open] are the calls under way.  Arguments are
    registers. *)
Fixpoint bracketed (fns : list string) (open : gmap Z (Z * string * list Z)) (l : list (kernel * env * kev)) : Prop :=
  match l with
  | [] => True
  | (_, e, KCall f a) :: l =>
      if bool_decide (f ∈ fns)
      then (open !! e_cpu e = None /\ Forall is_u64 a) /\ bracketed fns (<[e_cpu e := (e_tid e, f, a)]> open) l
      else bracketed fns open l
  | (_, e, KRet f a _) :: l =>
      if bool_decide (f ∈ fns)
      then open !! e_cpu e = Some (e_tid e, f, a) /\ bracketed fns (delete (e_cpu e) open) l
      else bracketed fns open l
  | (_, _, KTrace _ _) :: l => bracketed fns open l
  end.

Lemma arg_u64 a i : Forall is_u64 a -> is_u64 (arg a i).
Proof.
  intros Ha. unfold arg. destruct (a !! i) eqn:E; [|split; done]. by apply (Forall_lookup_1 _ _ _ _ Ha E).
Qed.

(** ** The interface *)

(** A function of [fns] that has its kprobe loaded. *)
Definition traced {St Ev} `{O : Object St Ev} (ks : list string) (skip : option string) (exact : bool) (f : string) : bool :=
  existsb (fun p => fires p (KCall f [])) (loaded ks skip FL_KPROBE exact).

Lemma traced_site {St Ev} `{O : Object St Ev} ks skip exact f :
  traced ks skip exact f = existsb (loads ks skip FL_KPROBE exact) (List.filter (fun p => site p (KCall f [])) (programs ob_desc)).
Proof.
  unfold traced, loaded. induction (programs ob_desc) as [|p progs IH]; [done|]. cbn [List.filter]. rewrite <- fires_site.
  destruct (loads _ _ _ _ p) eqn:El, (fires p _) eqn:Ef; cbn [existsb]; rewrite ?Ef, ?El, IH; done.
Qed.

Class FlavourPair (St Ev : Type) {O : Object St Ev} := {
  (** the functions whose return needs an argument of the call, and which one *)
  fp_fns : list string;
  fp_arg : nat;
  (** the slots, one per CPU: a thread and the argument *)
  Slots : Type;
  get_slots : St -> Slots;
  set_slots : St -> Slots -> St;
  slot_of : Slots -> Z -> Z * Z;
  slot_put : Slots -> Z -> Z * Z -> Slots;
  (** the hooks of the fexit, of the kprobe and of the kretprobe on these functions, and
      what both flavours do at the call *)
  ev_call : Z -> list Ev;
  ev_enter : Z -> Ev;
  ev_done : string -> Z -> Z -> Ev;
  ev_exit : string -> Z -> Ev;
  blind_to : Ev -> bool;
  set_get : forall s, set_slots s (get_slots s) = s;
  set_set : forall s c c', set_slots (set_slots s c) c' = set_slots s c';
  get_set : forall s c, get_slots (set_slots s c) = c;
  put_here : forall c cpu v, slot_of (slot_put c cpu v) cpu = v;
  put_there : forall c cpu cpu' v, cpu' <> cpu -> slot_of (slot_put c cpu v) cpu' = slot_of c cpu';
  call_blind : forall a, forallb blind_to (ev_call a) = true;
  run_blind : forall filter K e s c ev, blind_to ev = true ->
    ob_run filter K e (set_slots s c) ev = set_slots (ob_run filter K e s ev) c;
  run_enter : forall filter K e s a,
    ob_run filter K e s (ev_enter a) =
      set_slots (foldl (ob_run filter K e) s (ev_call a)) (slot_put (get_slots s) (e_cpu e) (e_tid e, a));
  run_exit : forall filter K e s f a ret, is_u64 a -> slot_of (get_slots s) (e_cpu e) = (e_tid e, a) ->
    ob_run filter K e s (ev_exit f ret) =
      set_slots (ob_run filter K e s (ev_done f a ret)) (slot_put (get_slots s) (e_cpu e) (0, a));
  done_blind : forall f a ret, blind_to (ev_done f a ret) = true;
  hooks_same : forall ks skip exact k,
    (match k with KCall f _ | KRet f _ _ => f ∉ fp_fns | KTrace _ _ => True end) ->
    hooks (loaded ks skip FL_FENTRY exact) k = hooks (loaded ks skip FL_KPROBE exact) k /\
    forallb blind_to (hooks (loaded ks skip FL_KPROBE exact) k) = true;
  hooks_call : forall ks skip exact f a, f ∈ fp_fns ->
    hooks (loaded ks skip FL_FENTRY exact) (KCall f a) = (if traced ks skip exact f then ev_call (arg a fp_arg) else []) /\
    hooks (loaded ks skip FL_KPROBE exact) (KCall f a) = (if traced ks skip exact f then [ev_enter (arg a fp_arg)] else []);
  hooks_ret : forall ks skip exact f a ret, f ∈ fp_fns ->
    hooks (loaded ks skip FL_FENTRY exact) (KRet f a ret) =
      (if traced ks skip exact f then [ev_done f (arg a fp_arg) ret] else []) /\
    hooks (loaded ks skip FL_KPROBE exact) (KRet f a ret) = (if traced ks skip exact f then [ev_exit f ret] else [])
}.

(** ** The simulation *)

(** Without such functions the states are equal. *)
Lemma same_hooks_same {St Ev : Type} `{O : Object St Ev} filter progs progs' s l :
  (forall k, hooks progs k = hooks progs' k) -> run_trace filter progs s l = run_trace filter progs' s l.
Proof.
  intros Hh. revert s. induction l as [|[[K e] k] l IH]; intros s; [done|]. cbn [run_trace foldl]. rewrite !fire_hooks, Hh. apply IH.
Qed.

Section simulation.
  Context {St Ev : Type} {O : Object St Ev} {P : FlavourPair St Ev}.
  Variables (ks : list string) (skip : option string) (exact : bool) (filter : ntp_filter).
  Implicit Types (sf sk : St) (open : gmap Z (Z * string * list Z)).

(** The states are the same but for the slots, and the slots hold the calls under way. *)
Definition paired open sf sk : Prop :=
  (exists c, sf = set_slots sk c) /\
  forall cpu tid f a, open !! cpu = Some (tid, f, a) -> f ∈ fp_fns /\ Forall is_u64 a /\
    (traced ks skip exact f = true -> slot_of (get_slots sk) cpu = (tid, arg a fp_arg)).

Lemma run_blind_all K e evs s c :
  forallb blind_to evs = true -> foldl (ob_run filter K e) (set_slots s c) evs = set_slots (foldl (ob_run filter K e) s evs) c.
Proof.
  revert s. induction evs as [|ev evs IH]; intros s; [done|]. cbn [forallb foldl]. intros [H1 H2]%andb_prop.
  by rewrite run_blind, IH.
Qed.

Lemma blind_keeps K e evs s : forallb blind_to evs = true -> get_slots (foldl (ob_run filter K e) s evs) = get_slots s.
Proof. intros H. rewrite <- (set_get s) at 1. by rewrite run_blind_all, get_set. Qed.

(** Hooks both flavours run. *)
Lemma paired_blind open sf sk K e evs :
  forallb blind_to evs = true -> paired open sf sk -> paired open (foldl (ob_run filter K e) sf evs) (foldl (ob_run filter K e) sk evs).
Proof.
  intros Hb [[c ->] Ho]. split; [exists c; by apply run_blind_all|]. by rewrite blind_keeps.
Qed.

Lemma paired_call open sf sk K e f a :
  f ∈ fp_fns -> open !! e_cpu e = None /\ Forall is_u64 a -> paired open sf sk ->
  paired (<[e_cpu e := (e_tid e, f, a)]> open) (fire filter (loaded ks skip FL_FENTRY exact) sf (K, e, KCall f a))
    (fire filter (loaded ks skip FL_KPROBE exact) sk (K, e, KCall f a)).
Proof.
  intros Hf [_ Ha] [[c ->] Ho]. rewrite !fire_hooks. destruct (hooks_call ks skip exact f a Hf) as [-> ->].
  destruct (traced ks skip exact f) eqn:Et; cbn [foldl].
  - rewrite run_enter, run_blind_all by apply call_blind. split; [eexists; symmetry; apply set_set|].
    rewrite get_set. intros cpu tid g b [[<- [= <- <- <-]]|[Hne Hop]]%lookup_insert_Some.
    + repeat split; [done|done|]. intros _. apply put_here.
    + rewrite put_there by done. by apply Ho.
  - split; [by exists c|]. intros cpu tid g b [[<- [= <- <- <-]]|[Hne Hop]]%lookup_insert_Some; [by rewrite Et|by apply Ho].
Qed.

Lemma paired_ret open sf sk K e f a ret :
  open !! e_cpu e = Some (e_tid e, f, a) -> paired open sf sk ->
  paired (delete (e_cpu e) open) (fire filter (loaded ks skip FL_FENTRY exact) sf (K, e, KRet f a ret))
    (fire filter (loaded ks skip FL_KPROBE exact) sk (K, e, KRet f a ret)).
Proof.
  intros Hop [[c ->] Ho]. destruct (Ho _ _ _ _ Hop) as (Hf & Ha & Hs). rewrite !fire_hooks.
  destruct (hooks_ret ks skip exact f a ret Hf) as [-> ->]. destruct (traced ks skip exact f) eqn:Et; cbn [foldl].
  - rewrite (run_exit _ _ _ _ _ _ _ (arg_u64 _ _ Ha) (Hs eq_refl)), run_blind by apply done_blind. split; [eexists; symmetry; apply set_set|].
    rewrite get_set. intros cpu tid g b [Hne Hop']%lookup_delete_Some. rewrite put_there by done. by apply Ho.
  - split; [by exists c|]. intros cpu tid g b [Hne Hop']%lookup_delete_Some. by apply Ho.
Qed.

Lemma paired_same open sf sk K e k :
  (match k with KCall f _ | KRet f _ _ => f ∉ fp_fns | KTrace _ _ => True end) -> paired open sf sk ->
  paired open (fire filter (loaded ks skip FL_FENTRY exact) sf (K, e, k)) (fire filter (loaded ks skip FL_KPROBE exact) sk (K, e, k)).
Proof. intros Hk Hp. rewrite !fire_hooks. destruct (hooks_same ks skip exact k Hk) as [-> Hb]. by apply paired_blind. Qed.

Lemma paired_trace open sf sk l :
  bracketed fp_fns open l -> paired open sf sk ->
  exists open', paired open' (run_trace filter (loaded ks skip FL_FENTRY exact) sf l) (run_trace filter (loaded ks skip FL_KPROBE exact) sk l).
Proof.
  revert open sf sk. induction l as [|[[K e] k] l IH]; intros open sf sk Hb Hp; [by exists open|]. cbn [run_trace foldl].
  destruct k as [f a|f a ret|tp a]; cbn [bracketed] in Hb; try case_bool_decide; try destruct Hb as [Ho Hb];
    (eapply IH; [exact Hb|]); first [by apply paired_call|by apply paired_ret|by apply paired_same].
Qed.

(** From the interface: whatever slots both states are given, they are the same. *)
Lemma pair_agrees s l c :
  bracketed fp_fns ∅ l ->
  set_slots (run_object O ks skip FL_FENTRY exact filter s l) c = set_slots (run_object O ks skip FL_KPROBE exact filter s l) c.
Proof.
  intros Hb. unfold run_object. destruct (paired_trace ∅ s s l Hb) as (open & [c' ->] & _).
  - split; [exists (get_slots s); by rewrite set_get|]. intros ????. by rewrite lookup_empty.
  - by rewrite set_set.
Qed.
End simulation.

(** ** The objects *)

(** [at_sites]: the event is at one of the sites of the object, which has few programs
    there, or at none. *)
Ltac compute_filters :=
  repeat match goal with |- context [List.filter ?p ?l] => let r := eval vm_compute in (List.filter p l) in change (List.filter p l) with r end.
Ltac compute_site :=
  match goal with |- context [hooks (loaded (O := ?O) _ _ _ _) _] =>
    rewrite !(hooks_loaded (O := O) _ _ _ _ _ _ eq_refl); compute_filters
  end.
Ltac each_of H tac :=
  lazymatch type of H with
  | _ ∈ _ :: _ => apply elem_of_cons in H as [->|H]; [tac ()|each_of H tac]
  | _ => destruct (proj1 (elem_of_nil _) H)
  end.
Ltac at_sites :=
  match goal with |- context [hooks (loaded (O := ?O) _ _ _ _) ?k] =>
    let ps := constr:(programs (ob_desc (Object := O))) in
    let l := eval vm_compute in (sites k ps) in
    let E := fresh "E" in let H := fresh "Hsite" in
    assert (E : sites k ps = l) by (vm_compute; reflexivity);
    destruct (decide (place k ∈ sites k ps)) as [H|H];
    [ rewrite E in H; clear E; cbn [place] in H; each_of H ltac:(fun _ => compute_site)
    | rewrite !(hooks_loaded (O := O) _ _ _ _ _ [] (no_site _ ps H)) ]
  end.
Ltac all_loads := cbn [flat_map]; repeat destruct (loads _ _ _ _ _); reflexivity.

(** The laws about the hooks: both flavours have the same at every site but those of
    the functions [fns]; there they differ as they are said to. *)
Ltac same_hooks Hk := at_sites; first [split; [reflexivity|all_loads] | destruct Hk; repeat constructor].
Ltac slot_hooks Hf :=
  rewrite !traced_site; each_of Hf ltac:(fun _ => compute_site);
  compute_filters; cbn [existsb]; rewrite ?orb_false_r; split;
  match goal with |- _ = (if ?b then ?x else ?y) =>
    first [rewrite <- (app_nil_r (if b then x else y)); reflexivity | destruct b; reflexivity]
  end.

(** *** NVMe/TCP host *)

Definition send_fns : list string := ["nvme_tcp_try_send_cmd_pdu"; "nvme_tcp_try_send_data"; "nvme_tcp_try_send_ddgst"]%string.
Definition cmd_pdu_fn (f : string) : bool := String.eqb f "nvme_tcp_try_send_cmd_pdu".
Definition tcp_host_blind (ev : tcp_host_ev) : bool := match ev with TH_send_enter _ | TH_send_exit _ _ => false | _ => true end.

#[export] Program Instance tcp_host_pair : FlavourPair host_st tcp_host_ev := {
  fp_fns := send_fns;
  fp_arg := 0;
  get_slots := slots_of;
  set_slots := with_slots;
  slot_of := fun c cpu => (s_tid (c.1 cpu), s_req (c.1 cpu));
  slot_put := fun c cpu v => (arr_set c.1 cpu (mk_send_ctx v.1 v.2), c.2);
  ev_call := fun _ => [];
  ev_enter := TH_send_enter;
  ev_done := fun f a ret => TH_send_done a (s32 ret) (cmd_pdu_fn f);
  ev_exit := fun f ret => TH_send_exit (s32 ret) (cmd_pdu_fn f);
  blind_to := tcp_host_blind
}.
Next Obligation. apply with_slots_id. Qed.
Next Obligation. done. Qed.
Next Obligation. by intros s [??]. Qed.
Next Obligation. intros c cpu [t a]. cbn. by rewrite arr_set_eq. Qed.
Next Obligation. intros c cpu cpu' v Hne. cbn. by rewrite arr_set_ne. Qed.
Next Obligation. done. Qed.
Next Obligation. intros filter K e s c ev Hb. apply tcp_host_slots. by destruct ev. Qed.
Next Obligation. done. Qed.
Next Obligation.
  intros filter K e s f a ret Ha [= Ht Hr]. cbn [ob_run tcp_host_object tcp_host_run]. unfold TcpHost.send_exit, get_send.
  rewrite Ht, Z.eqb_refl, Hr. apply (send_done_slots filter K e s (_, post_c s)).
Qed.
Next Obligation. done. Qed.
Next Obligation. intros ks skip exact k Hk. destruct k; same_hooks Hk. Qed.
Next Obligation. intros ks skip exact f a Hf. unfold send_fns in Hf. slot_hooks Hf. Qed.
Next Obligation. intros ks skip exact f a ret Hf. unfold send_fns in Hf. slot_hooks Hf. Qed.

(** *** NVMe/RDMA host *)

Definition rdma_host_blind (ev : rdma_host_ev) : bool := match ev with RH_post_enter _ | RH_post_exit _ => false | _ => true end.

#[export] Program Instance rdma_host_pair : FlavourPair host_st rdma_host_ev := {
  fp_fns := ["nvme_rdma_post_send"%string];
  fp_arg := 1;
  get_slots := slots_of;
  set_slots := with_slots;
  slot_of := fun c cpu => (po_tid (c.2 cpu), po_qe (c.2 cpu));
  slot_put := fun c cpu v => (c.1, arr_set c.2 cpu (mk_post_ctx v.1 v.2));
  ev_call := fun _ => [];
  ev_enter := RH_post_enter;
  ev_done := fun _ a ret => RH_posted a (s32 ret);
  ev_exit := fun _ ret => RH_post_exit (s32 ret);
  blind_to := rdma_host_blind
}.
Next Obligation. apply with_slots_id. Qed.
Next Obligation. done. Qed.
Next Obligation. by intros s [??]. Qed.
Next Obligation. intros c cpu [t a]. cbn. by rewrite arr_set_eq. Qed.
Next Obligation. intros c cpu cpu' v Hne. cbn. by rewrite arr_set_ne. Qed.
Next Obligation. done. Qed.
Next Obligation. intros filter K e s c ev Hb. apply rdma_host_slots. by destruct ev. Qed.
Next Obligation. done. Qed.
Next Obligation.
  intros filter K e s f a ret Ha [= Ht Hr]. cbn [ob_run rdma_host_object rdma_host_run]. unfold RdmaHost.ntp_hr_post_kr, get_post.
  rewrite Ht, Z.eqb_refl, Hr. apply (posted_slots filter K e s (send_c s, _)).
Qed.
Next Obligation. done. Qed.
Next Obligation. intros ks skip exact k Hk. destruct k; same_hooks Hk. Qed.
Next Obligation. intros ks skip exact f a Hf. slot_hooks Hf. Qed.
Next Obligation. intros ks skip exact f a ret Hf. slot_hooks Hf. Qed.

(** *** NVMe/RDMA target *)

Definition rdma_tgt_blind (ev : rdma_tgt_ev) : bool := match ev with RT_queue_resp_kp _ | RT_queue_resp_kr => false | _ => true end.

#[export] Program Instance rdma_target_pair : FlavourPair tgt_st rdma_tgt_ev := {
  fp_fns := ["nvmet_rdma_queue_response"%string];
  fp_arg := 0;
  get_slots := resp_c;
  set_slots := with_resp;
  slot_of := fun c cpu => (rc_tid (c cpu), rc_req (c cpu));
  slot_put := fun c cpu v => arr_set c cpu (mk_resp_ctx v.1 v.2);
  ev_call := fun a => [RT_queue_resp a];
  ev_enter := RT_queue_resp_kp;
  ev_done := fun _ a _ => RT_queue_resp_exit a;
  ev_exit := fun _ _ => RT_queue_resp_kr;
  blind_to := rdma_tgt_blind
}.
Next Obligation. apply with_resp_id. Qed.
Next Obligation. done. Qed.
Next Obligation. done. Qed.
Next Obligation. intros c cpu [t a]. cbn. by rewrite arr_set_eq. Qed.
Next Obligation. intros c cpu cpu' v Hne. cbn. by rewrite arr_set_ne. Qed.
Next Obligation. done. Qed.
Next Obligation. intros filter K e s c ev Hb. apply rdma_tgt_resp. by destruct ev. Qed.
Next Obligation. intros filter K e s a. apply queue_resp_resp. Qed.
Next Obligation.
  intros filter K e s f a ret Ha [= Ht Hr]. cbn [ob_run rdma_target_object rdma_tgt_run]. unfold RdmaTarget.ntp_tr_queue_resp_kr, get_resp.
  unfold ntp_scalar. rewrite Ht, Z.eqb_refl, Hr, (u64_small a) by done. apply queue_resp_exit_resp.
Qed.
Next Obligation. done. Qed.
Next Obligation. intros ks skip exact k Hk. destruct k; same_hooks Hk. Qed.
Next Obligation. intros ks skip exact f a Hf. slot_hooks Hf. Qed.
Next Obligation. intros ks skip exact f a ret Hf. slot_hooks Hf. Qed.

(** *** NVMe/TCP target: no function needs a slot *)

Lemma tcp_target_hooks ks skip exact k :
  hooks (O := tcp_target_object) (loaded (O := tcp_target_object) ks skip FL_FENTRY exact) k =
  hooks (O := tcp_target_object) (loaded (O := tcp_target_object) ks skip FL_KPROBE exact) k.
Proof. destruct k; at_sites; reflexivity. Qed.

(** *** Selecting *)

Lemma select_status d ks skip fl exact progs :
  (select_programs d ks skip fl exact progs).1 =
    if existsb (fun p => is_required d p.1 && (negb (left_out ks fl exact p) && (negb (skipped skip p.1) && negb (target_present ks p)))) progs
    then -1 else 0.
Proof.
  induction progs as [|p progs IH]; [done|]. cbn [select_programs existsb].
  destruct (select_programs _ _ _ _ _ progs) as [r l]. cbn [fst] in IH.
  by destruct (left_out _ _ _ p), (skipped skip p.1), (target_present ks p), (is_required d p.1).
Qed.

(** An object that can be loaded in one flavour can be in the other. *)
Lemma select_flavours d ks skip exact :
  d ∈ objects -> (select_programs d ks skip FL_FENTRY exact (programs d)).1 = (select_programs d ks skip FL_KPROBE exact (programs d)).1.
Proof. intros Hd. rewrite !select_status. unfold objects in Hd. each_of Hd ltac:(fun _ => reflexivity). Qed.

(** ** The theorem *)

(** C9: the kprobe flavour of an object does what its fentry flavour does, when every probe
    runs.  The trace is of the kernel's calls, returns and tracepoints, on any CPUs and in
    any threads, whatever symbols the kernel has and whatever is skipped; every call and
    return in it runs the programs attached to it.  Both flavours then leave the same
    counters, queues, records, contexts and emitted events; only the slots that hand the
    arguments of a call to its kretprobe differ.  For the NVMe/TCP target this is so of any
    such trace.  For the other three objects the functions with such a slot must be
    [bracketed]: they return on the CPU and in the thread of their call, and no other call of
    one of them comes on that CPU in between.  Where a call moves to another CPU or a
    kretprobe is missed the flavours differ.  An object that is accepted in one flavour is
    accepted in the other. *)
Theorem flavours_agree ks skip exact filter l :
  (bracketed send_fns ∅ l -> forall s c,
     with_slots (run_object tcp_host_object ks skip FL_FENTRY exact filter s l) c =
     with_slots (run_object tcp_host_object ks skip FL_KPROBE exact filter s l) c) /\
  (bracketed ["nvme_rdma_post_send"%string] ∅ l -> forall s c,
     with_slots (run_object rdma_host_object ks skip FL_FENTRY exact filter s l) c =
     with_slots (run_object rdma_host_object ks skip FL_KPROBE exact filter s l) c) /\
  (forall s, run_object tcp_target_object ks skip FL_FENTRY exact filter s l =
     run_object tcp_target_object ks skip FL_KPROBE exact filter s l) /\
  (bracketed ["nvmet_rdma_queue_response"%string] ∅ l -> forall s c,
     with_resp (run_object rdma_target_object ks skip FL_FENTRY exact filter s l) c =
     with_resp (run_object rdma_target_object ks skip FL_KPROBE exact filter s l) c) /\
  (forall d, d ∈ objects ->
     (select_programs d ks skip FL_FENTRY exact (programs d)).1 = (select_programs d ks skip FL_KPROBE exact (programs d)).1).
Proof.
  split; [|split; [|split; [|split]]]; intros.
  - by apply (pair_agrees (P := tcp_host_pair)).
  - by apply (pair_agrees (P := rdma_host_pair)).
  - by apply same_hooks_same, tcp_target_hooks.
  - by apply (pair_agrees (P := rdma_target_pair)).
  - by apply select_flavours.
Qed.

(** A command that is set up, sent and completed on one CPU. *)
Definition send_trace : list (kernel * env * kev) :=
  [(sample_kernel, mk_env 0 77 1000 false [], KTrace "nvme_setup_cmd" [65536; 1]);
   (sample_kernel, mk_env 0 77 1010 false [], KCall "nvme_tcp_try_send_cmd_pdu" [65792]);
   (sample_kernel, mk_env 0 77 1020 false [], KRet "nvme_tcp_try_send_cmd_pdu" [65792] 1);
   (sample_kernel, mk_env 0 77 1030 false [], KTrace "block_rq_complete" [65536])]%string.

(** Both flavours time the send. *)
Lemma flavours_agree_witness :
  let run := fun fl => run_object tcp_host_object tcp_host_symbols None fl false all_filter (arm host_init true) send_trace in
  bracketed send_fns ∅ send_trace /\
  (fun r => hts r NTP_H_CMD_SENT) <$> events (run FL_KPROBE) = [1020] /\
  with_slots (run FL_FENTRY) (slots_of host_init) = with_slots (run FL_KPROBE) (slots_of host_init).
Proof.
  intros run. assert (Hb : bracketed send_fns ∅ send_trace).
  { cbn [bracketed send_trace e_cpu e_tid]. rewrite !bool_decide_true by constructor.
    split; [split; [reflexivity|constructor; [done|constructor]]|split; [reflexivity|exact I]]. }
  split; [exact Hb|]. split; [vm_compute; reflexivity|].
  exact (proj1 (flavours_agree tcp_host_symbols None false all_filter send_trace) Hb (arm host_init true) (slots_of host_init)).
Defined.

(** ** The idle thread

    A closed context has thread 0, and so has the idle thread: a hook that runs in an
    interrupt over an idle CPU takes a context that was never opened, or one that was
    closed, for its own. *)
Lemma idle_finds_closed (s : host_st) (t : tgt_st) (e : env) :
  e_tid e = 0 ->
  (x_tid (rx_ctx s (e_cpu e)) = 0 -> get_rx e s = Some (rx_ctx s (e_cpu e))) /\
  (g_tid (tgt_c t (e_cpu e)) = 0 -> get_ctx e t = Some (tgt_c t (e_cpu e))).
Proof. intros Ht. unfold get_rx, get_ctx. rewrite Ht. split; by intros ->. Qed.
