(* ===== verification/Spdk.v ===== *)
(** * SPDK processes (src/spdk.c)

    Which processes run an SPDK application, where their sampling variable is, and
    setting it.  The files of /proc and of ELF are what the operating system and
    libelf answer: the names in /proc, the bytes of a maps file, [realpath], and an
    ELF file as libelf presents it.  What the code does with them is here: the
    lists of paths, the lines of a maps file read with [sscanf], the search for the
    symbol, the address it has in a process, and the notes of the USDT probes. *)
From stdpp Require Import base numbers list.
From Stdlib Require Import ZArith Lia String.
From S2P Require Import Prelude Types CStr Printf Config Scan.

Definition GATE_SYMBOL : list Z := bytes "g_ntprof_sample_every".
Definition GATE_LIBRARY : list Z := bytes "libspdk_sock".
Definition PROVIDER : list Z := bytes "ntprof".
Definition NT_STAPSDT : Z := 3.
Definition PATH_MAX : nat := 4096.

(** ** ELF files *)

Definition ET_EXEC : Z := 2.
Definition PT_LOAD : Z := 1.
Definition SHT_SYMTAB : Z := 2.
Definition SHT_NOTE : Z := 7.
Definition SHT_DYNSYM : Z := 11.
Definition SHN_UNDEF : Z := 0.

Record phdr := mk_phdr { p_type : Z; p_vaddr : Z; p_offset : Z }.
(** [y_name]: the string [elf_strptr] finds. *)
Record elf_sym := mk_sym { y_shndx : Z; y_value : Z; y_name : option (list Z) }.
(** A note: its type, its name and its descriptor. *)
Record elf_note := mk_note { nt_type : Z; nt_name : list Z; nt_desc : list Z }.
(** [sc_syms] and [sc_notes]: what [gelf_getsym] and [gelf_getnote] read from the
    section's data, when there is data. *)
Record elf_section := mk_section {
  sh_type : Z; sh_entsize : Z; sh_size : Z; sc_syms : option (list (option elf_sym)); sc_notes : option (list elf_note)
}.
(** An ELF file; [None] where libelf fails. *)
Record elf_file := mk_elf {
  e_class32 : bool;
  e_type : option Z;
  e_phdrs : option (list (option phdr));
  e_sections : list (option elf_section)
}.

Record sym_loc := mk_sym_loc { sl_value : Z; sl_fixed : bool; sl_load_vaddr : Z; sl_load_off : Z }.

Definition is_load (p : option phdr) : bool := match p with Some p => p_type p =? PT_LOAD | None => false end.

(** The value of the first defined symbol of the name in a section's table. *)
Fixpoint find_in_table (name : list Z) (syms : list (option elf_sym)) : option Z :=
  match syms with
  | [] => None
  | Some y :: syms =>
      if negb (y_shndx y =? SHN_UNDEF) && bool_decide (y_name y = Some name) then Some (y_value y)
      else find_in_table name syms
  | None :: syms => find_in_table name syms
  end.

(** The loop over the sections. *)
Fixpoint find_in_sections (name : list Z) (l : list (option elf_section)) : option Z :=
  match l with
  | [] => None
  | Some sh :: l =>
      if negb (nz (sh_entsize sh)) || negb ((sh_type sh =? SHT_SYMTAB) || (sh_type sh =? SHT_DYNSYM)) then
        find_in_sections name l
      else
        match sc_syms sh with
        | None => find_in_sections name l
        | Some syms =>
            match find_in_table name (take (Z.to_nat (sh_size sh / sh_entsize sh)) syms) with
            | Some v => Some v
            | None => find_in_sections name l
            end
        end
  | None :: l => find_in_sections name l
  end.

Definition elf_find_symbol (f : option elf_file) (name : list Z) : option sym_loc :=
  e ← f;
  t ← e_type e;
  phs ← e_phdrs e;
  match head (List.filter is_load phs) with
  | Some (Some ph) =>
      v ← find_in_sections name (e_sections e);
      Some (mk_sym_loc v (t =? ET_EXEC) (p_vaddr ph) (p_offset ph))
  | _ => None
  end.

(** ** The probes of a file *)

Definition stapsdt : list Z := bytes "stapsdt" ++ [0].

(** The name of the probe a note describes, when it is one of ours. *)
Definition probe_name (addr_size : nat) (n : elf_note) : option (list Z) :=
  if negb (nt_type n =? NT_STAPSDT) || negb (bool_decide (nt_name n = stapsdt)) ||
     (List.length (nt_desc n) <=? 3 * addr_size)%nat then None
  else
    let strings := drop (3 * addr_size) (nt_desc n) in
    if negb (bool_decide (0 ∈ strings)) then None
    else
      let prov := c_string strings in
      let rest := drop (S (List.length prov)) strings in
      if bool_decide (rest = []) || negb (bool_decide (0 ∈ rest)) || negb (bool_decide (prov = PROVIDER)) then None
      else Some (c_string rest).

Definition PROBES : nat := 64.
Definition PROBE_NAME : nat := 64.

(** One more site: the probes listed, with their sites, and the total. *)
Definition add_site (st : list (list Z * Z) * Z) (name : list Z) : list (list Z * Z) * Z :=
  let '(probes, total) := st in
  let total := total + 1 in
  match list_find (fun p => p.1 = name) probes with
  | Some (i, _) => (alter (fun p => (p.1, p.2 + 1)) i probes, total)
  | None =>
      if bool_decide (List.length probes = PROBES) then (probes, total)
      else (probes ++ [(fit PROBE_NAME name, 1)], total)
  end.

Definition note_sections (e : elf_file) : list elf_note :=
  mjoin ((fun s => match s with
                   | Some sh => if sh_type sh =? SHT_NOTE then default [] (sc_notes sh) else []
                   | None => []
                   end) <$> e_sections e).

(** The sites, or -1, and the lines printed. *)
Definition ntp_spdk_list_probes (f : option elf_file) : Z * list Z :=
  match f with
  | None => (-1, [])
  | Some e =>
      let '(probes, total) :=
        foldl add_site ([], 0) (omap (probe_name (if e_class32 e then 4 else 8)%nat) (note_sections e)) in
      (total, mjoin ((fun p => bytes "  ok   " ++ padr 22 p.1 ++ bytes " " ++ print_d p.2 ++ bytes " site" ++
                        (if p.2 =? 1 then [] else bytes "s") ++ NL) <$> probes))
  end.

(** ** Mappings of a process *)

Record mapping := mk_mapping { m_start : Z; m_offset : Z; m_path : list Z }.

(** A line of a maps file: [%llx-%*x %*s %llx %*s %*s %4095[^\n]], all three
    values read. *)
Definition scan_mapping (line : list Z) : option mapping :=
  '(start, l) ← scan_x line;
  l ← match l with c :: l => if c =? 45 then Some l else None | [] => None end;
  '(_, l) ← scan_x l;
  l ← scan_word l;
  '(offset, l) ← scan_x l;
  l ← scan_word l;
  l ← scan_word l;
  let '(file, _) := span (fun c => negb (c =? 10)) (skip_space l) in
  match take (PATH_MAX - 1) file with
  | [] => None
  | file => Some (mk_mapping start offset file)
  end.

Definition starts_slash (m : mapping) : bool := match m_path m with c :: _ => c =? 47 | [] => false end.

Definition maps_read (f : option (list Z)) : option (list mapping) :=
  f ← f;
  Some (List.filter starts_slash (omap scan_mapping (read_lines (List.length f) (PATH_MAX + 128) f))).

Definition maps_has (m : list mapping) (path : list Z) : bool := existsb (fun e => str_eqb (m_path e) path) m.

(** ** The sampling variable of a process *)

Section system.
  Variable page : Z.                               (* sysconf(_SC_PAGESIZE) *)
  Variable elf : list Z -> option elf_file.        (* the ELF file at a path *)
  Variable realpath : list Z -> option (list Z).

(** [x & ~(page - 1)] *)
Definition page_of (x : Z) : Z := Z.land x (u64 (Z.lnot (page - 1))).

Definition gate_in (m : list mapping) (path : list Z) : option Z :=
  s ← elf_find_symbol (elf path) GATE_SYMBOL;
  if sl_fixed s then Some (sl_value s)
  else
    e ← head (List.filter (fun e => str_eqb (m_path e) path && (m_offset e =? page_of (sl_load_off s))) m);
    Some (u64 (m_start e - page_of (sl_load_vaddr s) + sl_value s)).

(** [strrchr(path, '/') + 1] *)
Definition base_of (path : list Z) : option (list Z) :=
  if bool_decide (47 ∈ path) then Some (rev (span (fun c => negb (c =? 47)) (rev path)).1) else None.

Definition in_gate_library (path : list Z) : bool :=
  match base_of path with Some b => bool_decide (take (List.length GATE_LIBRARY) b = GATE_LIBRARY) | None => false end.

Fixpoint first_some {A B} (f : A -> option B) (l : list A) : option B :=
  match l with [] => None | x :: l => match f x with Some y => Some y | None => first_some f l end end.

Definition gate_address (m : list mapping) (p : list (list Z)) : option Z :=
  match first_some (fun path => if maps_has m path then gate_in m path else None) p with
  | Some a => Some a
  | None => first_some (fun e => if in_gate_library (m_path e) then gate_in m (m_path e) else None) m
  end.

(** The comma-separated list, as canonical paths. *)
Fixpoint parse_tokens (toks : list (list Z)) : option (list (list Z)) :=
  match toks with
  | [] => Some []
  | tok :: toks =>
      match strip tok with
      | [] => parse_tokens toks
      | tok => real ← realpath tok; rest ← parse_tokens toks; Some (real :: rest)
      end
  end.
Definition paths_parse (l : list Z) : option (list (list Z)) :=
  p ← parse_tokens (tokens l []);
  match p with [] => None | _ => Some p end.

(** ** Finding the processes *)

(** [strtol] in base 10: the value and what is left. *)
Definition strtol (s : list Z) : Z * list Z :=
  let s1 := skip_space s in
  let '(neg, s2) :=
    match s1 with
    | c :: r => if c =? 45 then (true, r) else if c =? 43 then (false, r) else (false, s1)
    | [] => (false, s1)
    end in
  let '(ds, rest) := span is_digit s2 in
  match ds with
  | [] => (0, s)
  | _ =>
      let v := dec_value ds in
      (if neg then (if 2 ^ 63 <? v then - 2 ^ 63 else - v) else if 2 ^ 63 - 1 <? v then 2 ^ 63 - 1 else v, rest)
  end.

(** [(pid_t)] *)
Definition pid_of (v : Z) : Z := (v + 2 ^ 31) mod 2 ^ 32 - 2 ^ 31.

Record ntp_spdk_proc := mk_proc { pr_pid : Z; pr_gate : Z }.

  Variable self : Z.
  Variable maps_file : Z -> option (list Z).       (* /proc/PID/maps *)
  Variable proc_dir : option (list (list Z)).      (* the names readdir gives *)

(** The mappings of the process a name of /proc stands for, when it is one of the
    others and can be read. *)
Definition process_of (name : list Z) : option (Z * list mapping) :=
  let '(pid, rest) := strtol name in
  match rest with
  | [] =>
      if (pid <=? 0) || (pid =? self) then None
      else m ← maps_read (maps_file (pid_of pid)); Some (pid_of pid, m)
  | _ => None
  end.

(** The loop over /proc: the processes so far, [None] for -1. *)
Fixpoint find_procs (p : list (list Z)) (max : nat) (names : list (list Z)) (procs : list ntp_spdk_proc)
    : option (list ntp_spdk_proc) :=
  match names with
  | [] => Some procs
  | name :: names =>
      match process_of name with
      | None => find_procs p max names procs
      | Some (pid, m) =>
          if negb (maps_has m (default [] (head p))) then find_procs p max names procs
          else if bool_decide (List.length procs = max) then Some procs
          else
            match gate_address m p with
            | None => None
            | Some gate => find_procs p max names (procs ++ [mk_proc pid gate])
            end
      end
  end.

(** [None] for -1; the number returned is the length. *)
Definition ntp_spdk_find (l : list Z) (max : nat) : option (list ntp_spdk_proc) :=
  p ← paths_parse l;
  names ← proc_dir;
  find_procs p max names [].
End system.

(** ** Setting the variable *)

(** The memory of the processes, as 32-bit words at addresses. *)
Definition memory : Type := Z -> Z -> Z.

(** What the system answers: the [errno] of [open], whether [pread] reads the whole
    word, and the [errno] of a [pwrite] that does not write it. *)
Record mem_answers := mk_mem_answers { ma_open : option Z; ma_read : bool; ma_write : option Z }.

Definition EIO : Z := 5.

(** The result, the memory after it, and whether another ntprof was noticed. *)
Definition ntp_spdk_set_gate (mem : memory) (p : ntp_spdk_proc) (every : Z) (a : mem_answers) : Z * memory * bool :=
  match ma_open a with
  | Some e => (- e, mem, false)
  | None =>
      let old := mem (pr_pid p) (pr_gate p) in
      let warned := nz every && ma_read a && nz old in
      match ma_write a with
      | Some e => (if nz e then - e else - EIO, mem, warned)
      | None =>
          (0, fun pid addr => if (pid =? pr_pid p) && (addr =? pr_gate p) then every else mem pid addr, warned)
      end
  end.

(** ** Reading a maps file *)

(** What the kernel prints for one mapping: the addresses, the permissions, the
    offset, the device, the inode and the path, if any, after blanks. *)
Record maps_line := mk_maps_line {
  ml_start : list Z; ml_end : list Z; ml_perms : list Z; ml_offset : list Z; ml_dev : list Z; ml_inode : list Z;
  ml_blanks : nat; ml_path : list Z
}.

Definition maps_text (x : maps_line) : list Z :=
  ml_start x ++ [45] ++ ml_end x ++ [32] ++ ml_perms x ++ [32] ++ ml_offset x ++ [32] ++ ml_dev x ++ [32] ++
  ml_inode x ++ [32] ++ replicate (ml_blanks x) 32 ++ ml_path x ++ [10].

Definition hex_number (l : list Z) : Prop :=
  l <> [] /\ Forall (fun c => is_hex c = true) l /\ hex_value l <= ULLONG_MAX.
Definition word (l : list Z) : Prop := l <> [] /\ Forall (fun c => is_space c = false) l.

(** Paths have no newline (the kernel escapes it); what is not a file has no path
    or one like [heap]. *)
Definition maps_line_ok (x : maps_line) : Prop :=
  hex_number (ml_start x) /\ hex_number (ml_end x) /\ hex_number (ml_offset x) /\
  word (ml_perms x) /\ word (ml_dev x) /\ word (ml_inode x) /\
  Forall (fun c => c <> 10) (ml_path x) /\ (List.length (ml_path x) < PATH_MAX)%nat /\
  (match ml_path x with c :: _ => is_space c = false | [] => True end) /\
  Forall (fun c => c <> 0) (maps_text x) /\ (List.length (maps_text x) < PATH_MAX + 128)%nat.

Definition line_mapping (x : maps_line) : mapping :=
  mk_mapping (hex_value (ml_start x)) (hex_value (ml_offset x)) (ml_path x).

Lemma scan_mapping_line x :
  maps_line_ok x ->
  scan_mapping (maps_text x) = match ml_path x with [] => None | _ => Some (line_mapping x) end.
Proof.
  intros ((S1 & S2 & S3) & (E1 & E2 & E3) & (O1 & O2 & O3) & (P1 & P2) & (D1 & D2) & (I1 & I2) & Hnl & Hlen & Hp & _).
  assert (Forall (fun c => is_space c = true) [32]) as H32 by (by constructor).
  assert (Forall (fun c => is_space c = true) (replicate (ml_blanks x) 32)) as Hb by (by apply Forall_replicate).
  unfold scan_mapping, maps_text.
  pose proof (scan_x_digits [] (ml_start x) 45) as H. cbn [app] in H |- *.
  rewrite H by (done || by left). clear H. cbn [mbind option_bind]. change (45 =? 45) with true. cbv iota. cbn [mbind option_bind].
  pose proof (scan_x_digits [] (ml_end x) 32) as H. cbn [app] in H. rewrite H by (done || by right). clear H. cbn [mbind option_bind].
  pose proof (scan_word_word [32] (ml_perms x)) as H. cbn [app] in H. rewrite H by done. clear H. cbn [mbind option_bind].
  pose proof (scan_x_digits [32] (ml_offset x) 32) as H. cbn [app] in H. rewrite H by (done || by right). clear H. cbn [mbind option_bind].
  pose proof (scan_word_word [32] (ml_dev x)) as H. cbn [app] in H. rewrite H by done. clear H. cbn [mbind option_bind].
  pose proof (scan_word_word [32] (ml_inode x)) as H. cbn [app] in H. rewrite H by done. clear H. cbn [mbind option_bind].
  destruct (ml_path x) as [|c path] eqn:Epath.
  - cbn [app]. pose proof (skip_spaces (32 :: replicate (ml_blanks x) 32 ++ [10]) []) as H. cbn [app] in H. rewrite app_nil_r in H. rewrite H; [done| |done].
    constructor; [done|]. apply Forall_app. split; [done|by constructor].
  - pose proof (skip_spaces (32 :: replicate (ml_blanks x) 32) ((c :: path) ++ [10])) as H. cbn [app] in H |- *.
    rewrite H by (done || by constructor). clear H.
    pose proof (span_app (fun c => negb (c =? 10)) (c :: path) [10]) as H. cbn [app] in H. rewrite H; [|..|done].
    + rewrite take_ge by (unfold PATH_MAX in *; lia). unfold line_mapping. by rewrite Epath.
    + eapply Forall_impl; [exact Hnl|]. intros y Hy. by rewrite (proj2 (Z.eqb_neq y 10) Hy).
Qed.

Definition maps_body (x : maps_line) : list Z :=
  ml_start x ++ [45] ++ ml_end x ++ [32] ++ ml_perms x ++ [32] ++ ml_offset x ++ [32] ++ ml_dev x ++ [32] ++
  ml_inode x ++ [32] ++ replicate (ml_blanks x) 32 ++ ml_path x.

Lemma maps_body_line x : maps_text x = maps_body x ++ [10].
Proof. unfold maps_text, maps_body. by rewrite <- !app_assoc. Qed.

Lemma maps_body_chars x : maps_line_ok x -> Forall (fun c => c <> 10 /\ c <> 0) (maps_body x).
Proof.
  intros ((_ & S2 & _) & (_ & E2 & _) & (_ & O2 & _) & (_ & P2) & (_ & D2) & (_ & I2) & Hnl & _ & _ & H0 & _).
  rewrite maps_body_line in H0. apply Forall_app in H0 as [H0 _]. apply Forall_and. split; [|exact H0].
  assert (forall l, Forall (fun c => is_hex c = true) l -> Forall (fun c => c <> 10) l) as Hh
    by (intros l Hl; eapply Forall_impl; [exact Hl|]; intros c Hc; by apply hex_facts in Hc as (_ & _ & _ & ? & _)).
  assert (forall l, Forall (fun c => is_space c = false) l -> Forall (fun c => c <> 10) l) as Hw
    by (intros l Hl; eapply Forall_impl; [exact Hl|]; by intros c Hc ->).
  unfold maps_body. repeat (apply Forall_app; split); try done; try (by constructor); auto. by apply Forall_replicate.
Qed.

(** The lines of a file of short lines. *)
Lemma read_lines_text xs fuel :
  Forall maps_line_ok xs -> (List.length (List.concat (maps_text <$> xs)) <= fuel)%nat ->
  read_lines fuel (PATH_MAX + 128) (List.concat (maps_text <$> xs)) = maps_text <$> xs.
Proof.
  intros H. revert fuel. induction H as [|x xs Hx H IH]; intros fuel Hf; [by destruct fuel|].
  rewrite fmap_cons in *. cbn [List.concat] in *. pose proof (maps_body_chars x Hx) as Hc.
  destruct Hx as (_ & _ & _ & _ & _ & _ & _ & _ & _ & H0 & Hlen). rewrite length_app in Hf.
  destruct fuel as [|fuel]; [rewrite maps_body_line, length_app in Hf; cbn [List.length] in Hf; lia|].
  assert (exists y w, maps_text x ++ List.concat (maps_text <$> xs) = y :: w) as (y & w & Ey)
    by (rewrite maps_body_line; destruct (maps_body x); cbn; eauto).
  cbn [read_lines]. rewrite Ey. rewrite <- Ey. rewrite maps_body_line at 1. rewrite <- app_assoc. cbn [app].
  rewrite fgets_line; [|rewrite maps_body_line, length_app in Hlen; cbn [List.length] in Hlen; lia|exact Hc].
  rewrite <- maps_body_line, (c_string_no_nul _ H0). f_equal. apply IH.
  rewrite maps_body_line, length_app in Hf. cbn [List.length] in Hf. lia.
Qed.

(** The mappings of files that a process has, in the order the kernel lists them. *)
Lemma maps_read_text xs :
  Forall maps_line_ok xs ->
  maps_read (Some (List.concat (maps_text <$> xs))) = Some (List.filter starts_slash (line_mapping <$> xs)).
Proof.
  intros H. unfold maps_read. cbn [mbind option_bind]. rewrite read_lines_text by done. f_equal.
  induction H as [|x xs Hx H IH]; [done|]. rewrite !fmap_cons. cbn [omap list_omap]. rewrite (scan_mapping_line x Hx).
  assert (starts_slash (line_mapping x) = match ml_path x with c :: _ => c =? 47 | [] => false end) as Hs by done.
  destruct (ml_path x) as [|c path] eqn:E; cbn [List.filter]; rewrite Hs; [exact IH|]. destruct (c =? 47); [by f_equal|exact IH].
Qed.

(** ** The processes found *)

Lemma mapM_step {A B} (f : A -> option B) x l : mapM f (x :: l) = y ← f x; k ← mapM f l; Some (y :: k).
Proof. done. Qed.

Section find.
  Variable page : Z.
  Variable elf : list Z -> option elf_file.
  Variable realpath : list Z -> option (list Z).
  Variable self : Z.
  Variable maps_file : Z -> option (list Z).

(** The processes of /proc that map a file. *)
Definition users (app : list Z) (names : list (list Z)) : list (Z * list mapping) :=
  List.filter (fun x => maps_has x.2 app) (omap (process_of self maps_file) names).

Definition found (p : list (list Z)) (x : Z * list mapping) : option ntp_spdk_proc :=
  mk_proc x.1 <$> gate_address page elf x.2 p.

(** The loop takes the first [max] of them, and fails when one has no variable. *)
Lemma find_procs_spec p max names procs :
  (List.length procs <= max)%nat ->
  find_procs page elf self maps_file p max names procs =
    app procs <$> mapM (found p) (take (max - List.length procs) (users (default [] (head p)) names)).
Proof.
  revert procs. induction names as [|name names IH]; intros procs Hlen.
  { cbn. rewrite take_nil. cbn. by rewrite app_nil_r. }
  cbn [find_procs]. unfold users. cbn [omap list_omap].
  destruct (process_of self maps_file name) as [[pid m]|]; [|by apply IH]. cbn [List.filter snd].
  destruct (maps_has m _) eqn:Em; cbn [negb]; [|by apply IH]. fold (users (default [] (head p)) names).
  destruct (bool_decide_reflect (List.length procs = max)) as [<-|Hne].
  { rewrite Nat.sub_diag. cbn. by rewrite app_nil_r. }
  destruct (max - List.length procs)%nat as [|n] eqn:En; [lia|]. cbn [take]. rewrite mapM_step.
  change (found p (pid, m)) with (mk_proc pid <$> gate_address page elf m p).
  destruct (gate_address page elf m p) as [g|]; [|done].
  rewrite IH by (rewrite length_app; cbn [List.length]; lia). rewrite length_app. cbn [List.length].
  replace (max - (List.length procs + 1))%nat with n by lia.
  destruct (mapM (found p) (take n _)) as [l|]; cbn; [|done]. by rewrite <- app_assoc.
Qed.

(** A file of a process: the loader has mapped it at [bias], its first loadable
    segment lowest. *)
Definition loaded_at (path : list Z) (s : sym_loc) (m : list mapping) (bias : Z) : Prop :=
  exists rest, List.filter (fun e => str_eqb (m_path e) path) m =
    mk_mapping (bias + page_of page (sl_load_vaddr s)) (page_of page (sl_load_off s)) path :: rest.

Lemma filter_and {A} (f g : A -> bool) l : List.filter (fun x => f x && g x) l = List.filter g (List.filter f l).
Proof. induction l as [|x l IH]; [done|]. cbn. destruct (f x); cbn; [by destruct (g x); [f_equal|]|done]. Qed.

Lemma gate_in_address path s m bias :
  elf_find_symbol (elf path) GATE_SYMBOL = Some s -> loaded_at path s m bias ->
  gate_in page elf m path = Some (if sl_fixed s then sl_value s else u64 (bias + sl_value s)).
Proof.
  intros E [rest Hl]. unfold gate_in. rewrite E. cbn [mbind option_bind]. destruct (sl_fixed s); [done|].
  rewrite (filter_and (fun e => str_eqb (m_path e) path)), Hl. cbn [List.filter m_offset]. rewrite Z.eqb_refl. cbn [head mbind option_bind m_start].
  do 2 f_equal. lia.
Qed.

Lemma loaded_maps path s m bias : loaded_at path s m bias -> maps_has m path = true.
Proof.
  intros [rest Hl]. apply existsb_exists. assert (In (mk_mapping (bias + page_of page (sl_load_vaddr s)) (page_of page (sl_load_off s)) path)
    (List.filter (fun e => str_eqb (m_path e) path) m)) as H by (rewrite Hl; by left).
  apply List.filter_In in H as [H1 H2]. by eexists.
Qed.

(** C26: The processes of an SPDK application and their sampling variable.  When the
    application's own file, the first of the list, defines the variable, what is
    found are the other processes that map the file, in the order of /proc, the
    first [max] of them and none else, each with the address the variable has in
    it: the symbol's value, plus the bias the file is loaded at when it is
    position independent. *)
Theorem spdk_find_processes l app others names max s bias :
  paths_parse realpath l = Some (app :: others) ->
  elf_find_symbol (elf app) GATE_SYMBOL = Some s ->
  Forall (fun x => loaded_at app s x.2 (bias x.1)) (users app names) ->
  ntp_spdk_find page elf realpath self maps_file (Some names) l max =
    Some ((fun x => mk_proc x.1 (if sl_fixed s then sl_value s else u64 (bias x.1 + sl_value s))) <$> take max (users app names)).
Proof.
  intros Hp Hs Hl. unfold ntp_spdk_find. rewrite Hp. cbn [mbind option_bind].
  rewrite find_procs_spec by (cbn; lia). change (default [] (head (app :: others))) with app. cbn [List.length]. rewrite Nat.sub_0_r.
  assert (mapM (found (app :: others)) (take max (users app names)) =
    Some ((fun x => mk_proc x.1 (if sl_fixed s then sl_value s else u64 (bias x.1 + sl_value s))) <$> take max (users app names))) as ->;
    [|done].
  apply (Forall_take _ max) in Hl. induction Hl as [|x xs Hx Hxs IH]; [done|]. rewrite mapM_step, fmap_cons, IH.
  unfold found, gate_address. cbn [first_some]. rewrite (loaded_maps _ _ _ _ Hx), (gate_in_address _ _ _ _ Hs Hx). done.
Qed.
End find.

(** A position-independent application that two processes run, read from their maps
    files as the kernel prints them; a third process maps other files. *)
Definition example_elf : elf_file :=
  mk_elf false (Some 3) (Some [Some (mk_phdr 6 64 64); Some (mk_phdr PT_LOAD 0 0); Some (mk_phdr PT_LOAD 8192 4096)])
    [None; Some (mk_section SHT_SYMTAB 24 72
       (Some [None; Some (mk_sym SHN_UNDEF 0 (Some GATE_SYMBOL)); Some (mk_sym 5 12304 (Some GATE_SYMBOL))]) None)].
Definition example_line (start offset path : string) : list Z :=
  bytes start ++ bytes "-7fffffffe000 r-xp " ++ bytes offset ++ bytes " fd:01 1234   " ++ bytes path ++ [10].
Definition example_maps (pid : Z) : option (list Z) :=
  if pid =? 12 then Some (example_line "555555554000" "00000000" "/usr/bin/app" ++ example_line "555555556000" "00001000" "/usr/bin/app" ++
                          bytes "7ffff7fc1000-7ffff7fc3000 rw-p 00000000 00:00 0 " ++ [10])
  else if pid =? 700 then Some (example_line "400000" "00000000" "/bin/sh" ++ example_line "7f0000000000" "00000000" "/usr/bin/app")
  else if pid =? 9 then Some (example_line "400000" "00000000" "/bin/sh") else None.

Lemma spdk_find_processes_witness :
  let elf path := if str_eqb path (bytes "/usr/bin/app") then Some example_elf else None in
  let names := bytes <$> ["."; ".."; "9"; "12"; "13"; "700"; "self"; "701"]%string in
  ntp_spdk_find 4096 elf Some 701 example_maps (Some names) (bytes " '/usr/bin/app' ,,") 8 =
    Some [mk_proc 12 93824992243728; mk_proc 700 139637976739856].
Proof.
  intros elf names.
  set (bias := fun pid => if pid =? 12 then 93824992231424 else 139637976727552).
  assert (users 701 example_maps (bytes "/usr/bin/app") names =
    [(12, [mk_mapping 93824992231424 0 (bytes "/usr/bin/app"); mk_mapping 93824992239616 4096 (bytes "/usr/bin/app")]);
     (700, [mk_mapping 4194304 0 (bytes "/bin/sh"); mk_mapping 139637976727552 0 (bytes "/usr/bin/app")])]) as Hu
    by (vm_compute; reflexivity).
  assert (elf_find_symbol (elf (bytes "/usr/bin/app")) GATE_SYMBOL = Some (mk_sym_loc 12304 false 0 0)) as He by (vm_compute; reflexivity).
  rewrite (spdk_find_processes 4096 elf Some 701 example_maps (bytes " '/usr/bin/app' ,,")
    (bytes "/usr/bin/app") [] names 8 _ bias ltac:(vm_compute; reflexivity) He).
  - rewrite Hu. vm_compute. reflexivity.
  - rewrite Hu. repeat constructor; eexists; vm_compute; reflexivity.
Defined.

(** A process the kernel lists is read back as the files it maps. *)
Lemma maps_read_text_witness :
  maps_read (Some (example_line "555555554000" "00001000" "/usr/bin/app")) = Some [mk_mapping 93824992231424 4096 (bytes "/usr/bin/app")].
Proof. vm_compute. reflexivity. Qed.

(** ** The probes listed *)

Definition occurrences (n : list Z) (l : list (list Z)) : Z := Z.of_nat (List.length (List.filter (fun x => bool_decide (x = n)) l)).

Lemma occurrences_snoc n l x : occurrences n (l ++ [x]) = occurrences n l + (if bool_decide (x = n) then 1 else 0).
Proof. unfold occurrences. rewrite List.filter_app, length_app. cbn. destruct (bool_decide (x = n)); cbn; lia. Qed.

(** With room for every name: each is listed once, with as many sites as it has. *)
Record listed (l : list (list Z)) (probes : list (list Z * Z)) : Prop := {
  ls_nodup : NoDup probes.*1;
  ls_sites : Forall (fun p => p.2 = occurrences p.1 l /\ p.1 ∈ l) probes;
  ls_all : forall n, n ∈ l -> n ∈ probes.*1
}.

Lemma add_site_listed l probes total n :
  listed l probes -> (List.length n < PROBE_NAME)%nat -> (n ∈ l \/ (List.length probes < PROBES)%nat) ->
  listed (l ++ [n]) (add_site (probes, total) n).1 /\ (add_site (probes, total) n).2 = total + 1.
Proof.
  intros [Hn Hs Ha] Hlen Hroom. unfold add_site. rewrite Forall_lookup in Hs.
  assert (forall m, m ∈ l ++ [n] -> m ∈ probes.*1 \/ m = n) as Hm
    by (intros m [Hm|Hm]%elem_of_app; [left; auto|right; by apply list_elem_of_singleton in Hm]).
  destruct (list_find (fun p => p.1 = n) probes) as [[i [n' k]]|] eqn:E.
  - apply list_find_Some in E as (Hi & Hn' & _). cbn in Hn'. subst n'. split; [|done]. cbn [fst].
    assert ((alter (fun p => (p.1, p.2 + 1)) i probes).*1 = probes.*1) as Hk.
    { apply list_eq. intros j. rewrite !list_lookup_fmap, list_lookup_alter. case_decide; [subst j|done]. by rewrite Hi. }
    split; rewrite ?Hk; [done| |intros m Hml; destruct (Hm m Hml) as [| ->]; [done|]].
    + apply Forall_lookup. intros j p. rewrite list_lookup_alter. case_decide as Hj.
      * subst j. rewrite Hi. intros [= <-]. cbn [fst snd]. destruct (Hs _ _ Hi) as [Hk' Hin]. cbn [fst snd] in *.
        rewrite occurrences_snoc, bool_decide_eq_true_2, Hk' by done. split; [done|]. apply elem_of_app. by left.
      * intros Hp. destruct (Hs _ _ Hp) as [Hk' Hin]. rewrite occurrences_snoc, bool_decide_eq_false_2, Z.add_0_r.
        { split; [done|]. apply elem_of_app. by left. }
        intros ->. apply Hj. eapply NoDup_lookup; [exact Hn|..]; rewrite list_lookup_fmap, ?Hi, ?Hp; done.
    + apply list_elem_of_fmap. exists (n, k). split; [done|]. by eapply list_elem_of_lookup_2.
  - apply list_find_None in E. rewrite Forall_lookup in E.
    assert (n ∉ probes.*1) as Hnew.
    { intros (p & -> & (j & Hj)%list_elem_of_lookup)%list_elem_of_fmap. by apply (E _ _ Hj). }
    assert (n ∉ l) as Hnl by (intros H; by apply Hnew, Ha).
    destruct Hroom as [|Hroom]; [done|]. rewrite bool_decide_eq_false_2 by lia. split; [|done]. cbn [fst].
    assert (fit PROBE_NAME n = n) as -> by (unfold fit; apply take_ge; lia).
    split.
    + rewrite fmap_app. apply NoDup_app. split; [done|]. split; [|apply NoDup_singleton]. intros m Hm1 Hm2%list_elem_of_singleton. cbn in Hm2. by subst m.
    + apply Forall_app. split.
      * apply Forall_lookup. intros j p Hp. destruct (Hs _ _ Hp) as [Hk' Hin]. rewrite occurrences_snoc, bool_decide_eq_false_2, Z.add_0_r.
        { split; [done|]. apply elem_of_app. by left. }
        intros ->. apply Hnew. apply list_elem_of_fmap. exists p. split; [done|]. by eapply list_elem_of_lookup_2.
      * constructor; [|constructor]. cbn [fst snd]. rewrite occurrences_snoc, bool_decide_eq_true_2 by done.
        split; [|apply elem_of_app; right; by apply list_elem_of_singleton].
        assert (occurrences n l = 0) as ->; [|done]. unfold occurrences. clear -Hnl. induction l as [|x l IH]; [done|].
        apply not_elem_of_cons in Hnl as [Hx Hnl]. cbn [List.filter]. rewrite bool_decide_eq_false_2 by congruence. by apply IH.
    + intros m Hml. rewrite fmap_app. apply elem_of_app. destruct (Hm m Hml) as [| ->]; [by left|right]. by apply list_elem_of_singleton.
Qed.

(** The probes of a file: with no more names than the table holds, every name that
    occurs is printed once with the number of its sites, and the result is the
    number of sites. *)
Theorem probe_sites (names : list (list Z)) :
  Forall (fun n => (List.length n < PROBE_NAME)%nat) names ->
  (exists distinct, (List.length distinct <= PROBES)%nat /\ forall n, n ∈ names -> n ∈ distinct) ->
  let '(probes, total) := foldl add_site ([], 0) names in
  listed names probes /\ total = Z.of_nat (List.length names).
Proof.
  intros Hlen (distinct & Hd & Hin).
  assert (forall l, (exists l', names = l ++ l') -> let '(probes, total) := foldl add_site ([], 0) l in
    listed l probes /\ total = Z.of_nat (List.length l)) as H; [|by apply (H names); exists []; rewrite app_nil_r].
  induction l as [|n l IH] using rev_ind; [intros _; split; [|done]; split; [constructor|constructor|by intros n Hn%not_elem_of_nil]|].
  intros [l' El]. rewrite <- app_assoc in El. rewrite foldl_app. cbn [foldl].
  specialize (IH (ex_intro _ _ El)). destruct (foldl add_site ([], 0) l) as [probes total]. destruct IH as [IH ->].
  assert (n ∈ names) as Hn by (rewrite El; apply elem_of_app; right; apply list_elem_of_here).
  assert (n ∈ l \/ (List.length probes < PROBES)%nat) as Hroom.
  { destruct (decide (n ∈ l)) as [|Hnl]; [by left|right].
    assert (List.length (n :: probes.*1) <= List.length distinct)%nat as Hle.
    { apply submseteq_length, NoDup_submseteq.
      - apply NoDup_cons. split; [|apply (ls_nodup _ _ IH)]. intros (p & -> & Hp)%list_elem_of_fmap. pose proof (ls_sites _ _ IH) as Hs.
        rewrite Forall_forall in Hs. by destruct (Hs _ Hp).
      - intros m [->|Hm]%elem_of_cons; [by apply Hin|]. apply list_elem_of_fmap in Hm as (p & -> & Hp). apply Hin. rewrite El.
        apply elem_of_app. left. pose proof (ls_sites _ _ IH) as Hs. rewrite Forall_forall in Hs. by destruct (Hs _ Hp). }
    cbn [List.length] in Hle. rewrite length_fmap in Hle. lia. }
  rewrite Forall_forall in Hlen. destruct (add_site_listed l probes (Z.of_nat (List.length l)) n IH (Hlen _ Hn) Hroom) as [H1 H2].
  destruct (add_site (probes, Z.of_nat (List.length l)) n) as [probes' total']. cbn [fst snd] in *. split; [done|]. rewrite H2, length_app. cbn [List.length]. lia.
Qed.
