(* ===== verification/Attach.v ===== *)
(** * Attaching, starting and stopping (src/loader.c)

    [parallel_for] as threads that take indices from an atomic counter, and
    [ntp_loader_open], [ntp_loader_disarm] and [ntp_loader_close] as the sequence
    of what they do to the programs and to the SPDK processes: arming an object,
    setting the sampling period of a process, freeing an object.  What libbpf and
    the operating system answer is a parameter, and so are the periods the processes
    had before. *)
From stdpp Require Import base numbers list.
From Stdlib Require Import ZArith Lia String.
From S2P Require Import Prelude Types CStr Config Loader.

(** ** parallel_for *)

(** A worker: about to take an index, about to call the function, or finished. *)
Inductive worker := WTake | WCall (i : nat) | WDone.

#[export] Instance worker_eq_dec : EqDecision worker.
Proof. solve_decision. Defined.

Record pfor := mk_pfor { pf_next : nat; pf_workers : list worker; pf_calls : list nat }.

Definition LINK_THREADS : nat := 16.

(** [created]: how many of the threads could be created; the caller is one more
    worker. *)
Definition parallel_for (n : nat) (parallel : bool) (created : nat) : pfor :=
  let nth := if parallel then Nat.min n LINK_THREADS else O in
  mk_pfor 0 (replicate (S (Nat.min created nth)) WTake) [].

(** One step of one worker: the atomic increment with its test, or the call. *)
Inductive pfor_worker (n : nat) : pfor -> pfor -> Prop :=
  | pf_take p k :
      pf_workers p !! k = Some WTake ->
      pfor_worker n p
        (mk_pfor (S (pf_next p))
           (<[k := if decide (pf_next p < n)%nat then WCall (pf_next p) else WDone]> (pf_workers p)) (pf_calls p))
  | pf_call p k i :
      pf_workers p !! k = Some (WCall i) ->
      pfor_worker n p (mk_pfor (pf_next p) (<[k := WTake]> (pf_workers p)) (pf_calls p ++ [i])).

(** Executions of a number of steps. *)
Inductive pfor_steps (n : nat) : nat -> pfor -> pfor -> Prop :=
  | pf_none p : pfor_steps n 0 p p
  | pf_more m p q r : pfor_steps n m p q -> pfor_worker n q r -> pfor_steps n (S m) p r.

Definition pending_calls (ws : list worker) : list nat := omap (fun w => match w with WCall i => Some i | _ => None end) ws.

Definition worker_cost (w : worker) : nat := match w with WTake => 1 | WCall _ => 2 | WDone => 0 end.

(** Steps left. *)
Definition steps_left (n : nat) (p : pfor) : nat := 2 * (n - pf_next p) + sum_list_with worker_cost (pf_workers p).

Definition pfor_ok (n : nat) (p : pfor) : Prop :=
  pf_calls p ++ pending_calls (pf_workers p) ≡ₚ seq 0 (Nat.min (pf_next p) n) /\
  (WDone ∈ pf_workers p -> (n <= pf_next p)%nat).

Lemma worker_split (ws : list worker) k w :
  ws !! k = Some w -> exists pre post, ws = pre ++ w :: post /\ forall w', <[k := w']> ws = pre ++ w' :: post.
Proof.
  intros Hk. exists (take k ws), (drop (S k) ws). split; [by rewrite take_drop_middle|].
  intros w'. apply insert_take_drop. by eapply lookup_lt_Some.
Qed.

Lemma pending_app a b : pending_calls (a ++ b) = pending_calls a ++ pending_calls b.
Proof. apply omap_app. Qed.

Lemma pfor_ok_step n p q : pfor_ok n p -> pfor_worker n p q -> pfor_ok n q /\ steps_left n p = S (steps_left n q).
Proof.
  intros [Hc Hd] Hs. destruct Hs as [p k Hk|p k i Hk]; apply worker_split in Hk as (pre & post & E & Hi); unfold pfor_ok, steps_left;
    cbn [pf_next pf_workers pf_calls]; rewrite Hi; rewrite E in Hc, Hd |- *; rewrite pending_app in *; rewrite !sum_list_with_app;
    cbn [sum_list_with worker_cost].
  - change (pending_calls (WTake :: post)) with (pending_calls post) in Hc.
    destruct (decide (pf_next p < n)%nat) as [Hlt|Hge].
    + change (pending_calls (WCall (pf_next p) :: post)) with (pf_next p :: pending_calls post). cbn [worker_cost].
      split; [|lia]. split.
      * rewrite Nat.min_l in Hc by lia. rewrite Nat.min_l, seq_S by lia. cbn [Nat.add].
        rewrite <- Hc, <- Permutation_middle, <- Permutation_middle. by rewrite Permutation_cons_append.
      * intros Hin. exfalso. assert (WDone ∈ pre ++ WTake :: post) as H; [|specialize (Hd H); lia].
        apply elem_of_app in Hin as [Hin|Hin]; apply elem_of_app; [by left|]. right.
        apply elem_of_cons in Hin as [Hin|Hin]; [done|]. by apply elem_of_cons; right.
    + change (pending_calls (WDone :: post)) with (pending_calls post). cbn [worker_cost].
      split; [|lia]. split; [|lia]. rewrite Nat.min_r in Hc by lia. by rewrite Nat.min_r by lia.
  - change (pending_calls (WCall i :: post)) with (i :: pending_calls post) in Hc.
    change (pending_calls (WTake :: post)) with (pending_calls post). split; [|lia]. split.
    + rewrite <- Hc, <- app_assoc. apply Permutation_app_head. cbn [app]. by rewrite Permutation_middle.
    + intros Hin. apply Hd. apply elem_of_app in Hin as [Hin|Hin]; apply elem_of_app; [by left|]. right.
      apply elem_of_cons in Hin as [Hin|Hin]; [done|]. by apply elem_of_cons; right.
Qed.

Lemma pfor_steps_ok n m p q : pfor_ok n p -> pfor_steps n m p q -> pfor_ok n q /\ steps_left n p = (m + steps_left n q)%nat.
Proof.
  intros Hp Hs. induction Hs as [p|m p q r Hs IH Hr]; [done|]. destruct (IH Hp) as [Hq Hl].
  destruct (pfor_ok_step n q r Hq Hr) as [Hr' Hl']. split; [done|lia].
Qed.

Lemma pfor_start_ok n parallel created :
  pfor_ok n (parallel_for n parallel created) /\
  steps_left n (parallel_for n parallel created) = (2 * n + List.length (pf_workers (parallel_for n parallel created)))%nat.
Proof.
  unfold parallel_for. cbv zeta. set (t := S _). clearbody t. unfold pfor_ok, steps_left. cbn [pf_next pf_workers pf_calls].
  rewrite length_replicate, Nat.sub_0_r. split; [split|].
  - cbn. induction t as [|t IH]; [done|]. cbn. exact IH.
  - intros Hin. apply elem_of_replicate in Hin as [Hin _]. done.
  - f_equal. induction t as [|t IH]; [done|]. cbn [replicate sum_list_with worker_cost]. lia.
Qed.

(** C38: Links are made and destroyed exactly once each.  However many of the threads
    could be created and however their steps interleave, an execution of
    parallel_for takes at most 2n steps plus one per worker, some worker can
    step until all are finished, and when all are finished the function has been
    called for every index below n exactly once. *)
Theorem parallel_for_once n parallel created m q :
  pfor_steps n m (parallel_for n parallel created) q ->
  (m <= 2 * n + List.length (pf_workers (parallel_for n parallel created)))%nat /\
  NoDup (pf_calls q) /\ Forall (fun i => i < n)%nat (pf_calls q) /\
  ((exists r, pfor_worker n q r) \/ (Forall (eq WDone) (pf_workers q) /\ pf_calls q ≡ₚ seq 0 n)).
Proof.
  intros Hs. destruct (pfor_start_ok n parallel created) as [H0 Hl0].
  destruct (pfor_steps_ok n m _ q H0 Hs) as [[Hc Hd] Hl]. split; [lia|].
  assert (NoDup (pf_calls q ++ pending_calls (pf_workers q))) as Hnd by (rewrite Hc; apply NoDup_seq).
  apply NoDup_app in Hnd as [Hnd _]. split; [done|]. split.
  { apply Forall_forall. intros i Hi. assert (i ∈ seq 0 (Nat.min (pf_next q) n)) as Hin by (rewrite <- Hc; apply elem_of_app; by left).
    apply elem_of_seq in Hin. lia. }
  destruct (decide (Forall (fun w => w = WDone) (pf_workers q))) as [Hall|Hnot].
  - right. split; [eapply Forall_impl; [exact Hall|]; by intros w ->|].
    assert (pending_calls (pf_workers q) = []) as E.
    { clear -Hall. induction Hall as [|w ws -> Hws IH]; [done|]. exact IH. }
    assert (pf_workers q <> []) as Hne.
    { clear -Hs. assert (List.length (pf_workers q) = List.length (pf_workers (parallel_for n parallel created))) as Hlen.
      { induction Hs as [p|m p q r Hs IH Hr]; [done|]. rewrite <- IH. destruct Hr; cbn; by rewrite length_insert. }
      intros E. rewrite E in Hlen. unfold parallel_for in Hlen. cbn in Hlen. done. }
    rewrite E, app_nil_r in Hc. rewrite Hc, Nat.min_r; [done|]. apply Hd.
    destruct (pf_workers q) as [|w ws]; [done|]. apply Forall_cons_1 in Hall as [-> _]. by left.
  - left. apply not_Forall_Exists in Hnot; [|apply _]. apply Exists_exists in Hnot as (w & Hw & Hne).
    apply list_elem_of_lookup_1 in Hw as [k Hk]. destruct w as [|i|]; [|eexists; by eapply pf_call|by destruct Hne].
    eexists. by apply pf_take.
Qed.

(** One index, one worker: take, call, take. *)
Lemma parallel_for_once_witness :
  exists q, pfor_steps 1 3 (parallel_for 1 false 0) q /\ pf_calls q = [0%nat] /\ NoDup (pf_calls q).
Proof.
  assert (pfor_steps 1 3 (parallel_for 1 false 0) (mk_pfor 2 [WDone] [0%nat])) as Hs.
  { eapply pf_more; [eapply pf_more; [eapply pf_more; [apply pf_none|]|]|].
    - by apply (pf_take 1 (parallel_for 1 false 0) 0).
    - by apply (pf_call 1 _ 0 0).
    - by apply (pf_take 1 (mk_pfor 1 [WTake] [0%nat]) 0). }
  exists (mk_pfor 2 [WDone] [0%nat]). split; [exact Hs|]. split; [reflexivity|].
  by apply (parallel_for_once 1 false 0 3 (mk_pfor 2 [WDone] [0%nat]) Hs).
Defined.

(** ** The loader *)

(** What is done to the outside: an object's programs start or stop recording, a
    process's sampling period is set, an object is freed. *)
Inductive act := AArm (i : nat) (b : bool) | AGate (pid : Z) (every : Z) | AFree (i : nat).

Record obj_inst := mk_inst { o_desc : obj_desc; o_procs : list Z; o_gated : bool }.

(** The answers: whether the session resolves and the symbols can be read; per
    object, whether its BTF is there, it opens, shares the ring buffer, has its
    required attach points and loads; which processes run the binaries; whether
    everything required attaches and the ring buffer is created; whether a
    process's sampling period can be set. *)
Record answers := mk_answers {
  a_session : bool;
  a_ksyms : bool;
  a_btf : obj_desc -> bool;
  a_open : obj_desc -> bool;
  a_find : obj_desc -> option (list Z);
  a_share : obj_desc -> bool;
  a_select : obj_desc -> bool;
  a_load : obj_desc -> bool -> bool;             (* with a shared ring buffer or its own *)
  a_attach : bool;
  a_ring : bool;
  a_gate : Z -> Z -> bool
}.

(** The object after [open_one], [None] when it was not added, and whether all
    went well. *)
Definition open_one (a : answers) (d : obj_desc) (shared : bool) : bool * option obj_inst :=
  if negb (a_btf a d) || negb (a_open a d) then (false, None)
  else
    let procs := if d_spdk d then a_find a d else Some [] in
    let o := mk_inst d (default [] procs) false in
    match procs with
    | None => (false, Some o)
    | Some ps =>
        if d_spdk d && bool_decide (ps = []) then (false, Some o)
        else if shared && negb (a_share a d) then (false, Some o)
        else (a_select a d && a_load a d shared, Some o)
    end.

(** The loop over the objects a configuration wants. *)
Fixpoint open_all (a : answers) (ds : list obj_desc) (insts : list obj_inst) : bool * list obj_inst :=
  match ds with
  | [] => (true, insts)
  | d :: ds =>
      let '(ok, o) := open_one a d (negb (bool_decide (insts = []))) in
      let insts := insts ++ from_option (fun o => [o]) [] o in
      if ok then open_all a ds insts else (false, insts)
  end.

(** The sampling period of the processes of one object, up to the first failure. *)
Fixpoint set_gates (a : answers) (every : Z) (ps : list Z) : bool * list act :=
  match ps with
  | [] => (true, [])
  | p :: ps => if a_gate a p every then let '(r, l) := set_gates a every ps in (r, AGate p every :: l) else (false, [])
  end.

Definition mark (o : obj_inst) : obj_inst := mk_inst (o_desc o) (o_procs o) (negb (bool_decide (o_procs o = []))).

(** The loop from the last object to the first. *)
Fixpoint start_gates (a : answers) (every : Z) (l : list obj_inst) : bool * list obj_inst * list act :=
  match l with
  | [] => (true, [], [])
  | o :: l =>
      let '(r, acts) := set_gates a every (o_procs o) in
      if r then let '(r', l', acts') := start_gates a every l in (r', mark o :: l', acts ++ acts')
      else (false, mark o :: l, acts)
  end.

Definition ungate (a : answers) (o : obj_inst) : list act :=
  if o_gated o then (fun p => AGate p 0) <$> filter (fun p => a_gate a p 0 = true) (o_procs o) else [].

Definition ntp_loader_close (a : answers) (insts : list obj_inst) : list act :=
  mjoin (ungate a <$> insts) ++ imap (fun i _ => AFree i) insts.

Definition ntp_loader_disarm (a : answers) (insts : list obj_inst) : list obj_inst * list act :=
  ((fun o => mk_inst (o_desc o) (o_procs o) false) <$> insts, mjoin (imap (fun i o => ungate a o ++ [AArm i false]) insts)).

Definition ntp_loader_open (a : answers) (c : ntp_config) : option (list obj_inst) * list act :=
  if has (c_role c) NTP_ROLE_HOST && set_str (c_spdk_host c) && negb (str_eqb (c_session c) (bytes "all")) then (None, [])
  else if negb (a_session a) || negb (a_ksyms a) then (None, [])
  else
    let '(ok, insts) := open_all a (wanted_of c) [] in
    if negb ok || bool_decide (insts = []) || negb (a_attach a) || negb (a_ring a) then (None, ntp_loader_close a insts)
    else
      let armed := imap (fun i _ => AArm i true) insts in
      let '(ok, l, acts) := start_gates a (c_sample_every c) (reverse insts) in
      if ok then (Some (reverse l), armed ++ acts) else (None, armed ++ acts ++ ntp_loader_close a (reverse l)).

(** ** What has been done so far *)

Definition gate_step (p : Z) (g : Z) (x : act) : Z := match x with AGate q v => if q =? p then v else g | _ => g end.
Definition gate_from (g : Z) (acts : list act) (p : Z) : Z := foldl (gate_step p) g acts.
(** The sampling period of a process, 0 when it does not sample.  [g] holds the
    periods from before: a run that was killed, or another one, leaves processes
    sampling (the case ntp_spdk_set_gate warns of). *)
Definition gate_of (g : Z -> Z) (acts : list act) (p : Z) : Z := gate_from (g p) acts p.

Lemma gate_from_app g a b p : gate_from g (a ++ b) p = gate_from (gate_from g a p) b p.
Proof. apply foldl_app. Qed.

(** Nothing is done to the period of a process. *)
Definition untouched (p : Z) (l : list act) : Prop := forall v, AGate p v ∉ l.

Lemma gate_from_untouched g l p : untouched p l -> gate_from g l p = g.
Proof.
  unfold gate_from. revert g. induction l as [|x l IH]; intros g H; [done|]. cbn [foldl]. rewrite IH by (intros v Hv; apply (H v); by right).
  destruct x as [|q v|]; [done| |done]. cbn. destruct (Z.eqb_spec q p) as [->|]; [|done]. destruct (H v). by left.
Qed.
Lemma untouched_app p a b : untouched p (a ++ b) <-> untouched p a /\ untouched p b.
Proof.
  unfold untouched. split; [intros H; split; intros v Hv; apply (H v), elem_of_app; auto|].
  intros [Ha Hb] v [Hv|Hv]%elem_of_app; [by apply (Ha v)|by apply (Hb v)].
Qed.
Lemma untouched_set p v ps : p ∉ ps -> untouched p ((fun q => AGate q v) <$> ps).
Proof. intros H w (q & [= <- _] & Hq)%list_elem_of_fmap. done. Qed.
Lemma untouched_prefix p a b : a `prefix_of` b -> untouched p b -> untouched p a.
Proof. intros [k ->]. rewrite untouched_app. tauto. Qed.

Definition no_gates (l : list act) : Prop := Forall (fun x => match x with AGate _ _ => False | _ => True end) l.

Lemma no_gates_untouched p l : no_gates l -> untouched p l.
Proof. intros H v Hv. by apply (proj1 (Forall_forall _ _) H) in Hv. Qed.
Lemma gate_from_none g l p : no_gates l -> gate_from g l p = g.
Proof. intros H. by apply gate_from_untouched, no_gates_untouched. Qed.

Lemma gate_from_set g ps v p : gate_from g ((fun q => AGate q v) <$> ps) p = if decide (p ∈ ps) then v else g.
Proof.
  unfold gate_from. revert g. induction ps as [|q ps IH]; intros g; [by rewrite decide_False by apply not_elem_of_nil|].
  cbn [fmap list_fmap foldl]. rewrite IH. cbn [gate_step]. destruct (decide (p ∈ ps)) as [Hin|Hni].
  - by rewrite decide_True by (by right).
  - destruct (Z.eqb_spec q p) as [->|Hne]; [by rewrite decide_True by (by left)|].
    rewrite decide_False; [done|]. by intros [->|?]%elem_of_cons.
Qed.

Lemma no_gates_imap {A} (f : nat -> A -> act) (l : list A) :
  (forall i x, match f i x with AGate _ _ => False | _ => True end) -> no_gates (imap f l).
Proof. intros H. revert f H. induction l as [|x l IH]; intros f H; cbn; constructor; [apply H|]. apply IH. intros i y. apply H. Qed.

Lemma set_gates_ok a every ps :
  Forall (fun p => a_gate a p every = true) ps -> set_gates a every ps = (true, (fun p => AGate p every) <$> ps).
Proof. induction 1 as [|p ps Hp Hps IH]; [done|]. cbn [set_gates fmap list_fmap]. by rewrite Hp, IH. Qed.
Lemma set_gates_true a every ps l : set_gates a every ps = (true, l) -> l = (fun p => AGate p every) <$> ps.
Proof.
  revert l. induction ps as [|p ps IH]; intros l; cbn [set_gates]; [by intros [= <-]|]. destruct (a_gate a p every); [|done].
  destruct (set_gates a every ps) as [r l']. intros [= -> <-]. by rewrite (IH l' eq_refl).
Qed.

(** After a failure part of the way, what was set is among the processes. *)
Lemma set_gates_in a every ps r l :
  set_gates a every ps = (r, l) -> exists qs, qs ⊆ ps /\ l = (fun p => AGate p every) <$> qs.
Proof.
  revert r l. induction ps as [|p ps IH]; intros r l; cbn [set_gates]; [intros [= _ <-]; by exists []|].
  destruct (a_gate a p every); [|intros [= _ <-]; exists []; by split; [intros x ?%elem_of_nil|]].
  destruct (set_gates a every ps) as [r' l'] eqn:E. intros [= <- <-]. destruct (IH r' l' eq_refl) as (qs & Hq & ->).
  exists (p :: qs). split; [|done]. intros x [->|Hx]%elem_of_cons; [by left|right; by apply Hq].
Qed.

(** Processes whose period was set are those of objects marked for [ungate]. *)
Lemma start_gates_marked a every l r l' acts p :
  start_gates a every l = (r, l', acts) -> (forall o, o ∈ l' -> o_gated o = true -> p ∉ o_procs o) -> untouched p acts.
Proof.
  revert r l' acts. induction l as [|o l IH]; intros r l' acts; cbn [start_gates]; [intros [= _ <- <-] _ v; apply not_elem_of_nil|].
  destruct (set_gates a every (o_procs o)) as [r1 acts1] eqn:E1. destruct (set_gates_in _ _ _ _ _ E1) as (qs & Hq & ->).
  assert (forall l'', (forall o', o' ∈ mark o :: l'' -> o_gated o' = true -> p ∉ o_procs o') -> p ∉ qs) as Hout.
  { intros l'' H Hp. apply Hq in Hp as Hp'. apply (H (mark o)); [by left| |exact Hp']. cbn.
    by rewrite bool_decide_false by (intros E; rewrite E in Hp'; by apply elem_of_nil in Hp'). }
  destruct r1.
  - destruct (start_gates a every l) as [[r2 l2] acts2] eqn:E2. intros [= <- <- <-] H. apply untouched_app.
    split; [by eapply untouched_set, Hout|]. apply (IH _ _ _ eq_refl). intros o' Ho'. apply H. by right.
  - intros [= <- <- <-] H. by eapply untouched_set, Hout.
Qed.

(** A process whose period can be set to 0 is set to it, if its object is marked. *)
Lemma ungate_gate a o g p :
  a_gate a p 0 = true -> gate_from g (ungate a o) p = if decide (o_gated o = true /\ p ∈ o_procs o) then 0 else g.
Proof.
  intros Ha. unfold ungate. destruct (o_gated o); [|by rewrite decide_False by (by intros [? _])].
  rewrite gate_from_set. apply decide_ext. rewrite list_elem_of_filter. tauto.
Qed.
Lemma ungate_untouched a o p : ~ (o_gated o = true /\ p ∈ o_procs o) -> untouched p (ungate a o).
Proof.
  unfold ungate. destruct (o_gated o); [|intros _ v; apply not_elem_of_nil]. intros H. apply untouched_set.
  rewrite list_elem_of_filter. tauto.
Qed.

Lemma close_gates a insts p :
  a_gate a p 0 = true -> (exists o, o ∈ insts /\ o_gated o = true /\ p ∈ o_procs o) -> forall g, gate_from g (ntp_loader_close a insts) p = 0.
Proof.
  intros Ha (o & Ho & Hg & Hp) g. unfold ntp_loader_close. rewrite gate_from_app, (gate_from_none _ (imap _ _)) by by apply no_gates_imap.
  apply list_elem_of_split in Ho as (l1 & l2 & ->). rewrite fmap_app, fmap_cons, join_app. cbn [mjoin list_join].
  rewrite !gate_from_app, ungate_gate, decide_True by done. clear. induction l2 as [|o l2 IH]; [done|].
  rewrite fmap_cons. cbn [mjoin list_join]. rewrite gate_from_app.
  replace (gate_from 0 (ungate a o) p) with 0; [exact IH|]. unfold ungate. destruct (o_gated o); [|done].
  rewrite gate_from_set. by case_decide.
Qed.
Lemma close_untouched a insts p :
  (forall o, o ∈ insts -> o_gated o = true -> p ∉ o_procs o) -> untouched p (ntp_loader_close a insts).
Proof.
  intros H. apply untouched_app. split; [|by apply no_gates_untouched, no_gates_imap].
  intros v Hv. apply list_elem_of_join in Hv as (l & Hv & (o & -> & Ho)%list_elem_of_fmap).
  apply (ungate_untouched a o p) in Hv; [done|]. intros [Hg Hp]. by apply (H o).
Qed.

Lemma close_either a pre insts g p :
  a_gate a p 0 = true -> ((forall o, o ∈ insts -> o_gated o = true -> p ∉ o_procs o) -> untouched p pre) ->
  gate_from g (pre ++ ntp_loader_close a insts) p = 0 \/ untouched p (pre ++ ntp_loader_close a insts).
Proof.
  intros Ha Hpre. destruct (decide (Exists (fun o => o_gated o = true /\ p ∈ o_procs o) insts)) as [Hex|Hno].
  - left. rewrite gate_from_app. apply close_gates; [done|]. apply Exists_exists in Hex as (o & Ho & H). by exists o.
  - right. assert (forall o, o ∈ insts -> o_gated o = true -> p ∉ o_procs o) as H.
    { intros o Ho Hg Hp. apply Hno, Exists_exists. by exists o. }
    apply untouched_app. split; [by apply Hpre|by apply close_untouched].
Qed.
Lemma untouched_nil p : untouched p [].
Proof. intros v. apply not_elem_of_nil. Qed.

(** C37: A recording that cannot start leaves no SPDK process sampling that it had told
    to: whichever step of opening fails, however far setting the sampling periods got
    and whatever the periods were before, a process whose period can be set back to 0
    has period 0 when ntp_loader_open has returned NULL, or nothing at all was done to
    its period; so one that did not sample before does not sample then. *)
Theorem failed_open_stops_sampling a c acts g p :
  a_gate a p 0 = true -> ntp_loader_open a c = (None, acts) ->
  (gate_of g acts p = 0 \/ (gate_of g acts p = g p /\ forall v, AGate p v ∉ acts)) /\ (g p = 0 -> gate_of g acts p = 0).
Proof.
  intros Ha H. assert (gate_of g acts p = 0 \/ untouched p acts) as [->|Hu]; [|by auto|].
  2: { unfold gate_of. rewrite gate_from_untouched by done. auto. }
  unfold gate_of. revert H. unfold ntp_loader_open. pose proof (untouched_nil p) as Hn.
  destruct (_ && _ && _); [intros [= <-]; by right|]. destruct (_ || _); [intros [= <-]; by right|].
  destruct (open_all a (wanted_of c) []) as [ok insts]. destruct (_ || _ || _ || _).
  { intros [= <-]. by apply (close_either a []). }
  destruct (start_gates a (c_sample_every c) (reverse insts)) as [[r l] ga] eqn:E. destruct r; [done|]. intros [= <-].
  rewrite app_assoc. apply close_either; [done|]. intros Hl. apply untouched_app. split; [by apply no_gates_untouched, no_gates_imap|].
  apply (start_gates_marked a _ _ _ _ _ p E). intros o Ho. apply Hl. by apply elem_of_reverse.
Qed.

(** A run of two SPDK processes whose second period cannot be set. *)
Definition both_spdk : ntp_config :=
  set_spdk_target (set_spdk_host (set_role config_defaults NTP_ROLE_BOTH) (bytes "perf")) (bytes "nvmf_tgt").

Definition all_well (hosts targets : list Z) : answers :=
  mk_answers true true (fun _ => true) (fun _ => true)
    (fun d => if d_role d =? NTP_ROLE_HOST then Some hosts else Some targets)
    (fun _ => true) (fun _ => true) (fun _ _ => true) true true (fun _ _ => true).

Definition second_gate_fails : answers :=
  let a := all_well [10; 11] [20] in
  mk_answers true true (a_btf a) (a_open a) (a_find a) (a_share a) (a_select a) (a_load a) true true
    (fun p v => (v =? 0) || negb (p =? 11)).

(** All sampled before, and none does afterwards. *)
Lemma failed_open_stops_sampling_witness :
  ntp_loader_open second_gate_fails both_spdk =
    (None, [AArm 0 true; AArm 1 true; AGate 20 1000; AGate 10 1000; AGate 10 0; AGate 11 0; AGate 20 0; AFree 0; AFree 1]) /\
  (gate_of (fun _ => 500) (ntp_loader_open second_gate_fails both_spdk).2 20 = 0 \/ gate_of (fun _ => 500) [] 20 = 500) /\
  gate_of (fun _ => 0) (ntp_loader_open second_gate_fails both_spdk).2 11 = 0.
Proof.
  assert (ntp_loader_open second_gate_fails both_spdk =
    (None, [AArm 0 true; AArm 1 true; AGate 20 1000; AGate 10 1000; AGate 10 0; AGate 11 0; AGate 20 0; AFree 0; AFree 1])) as E
    by (vm_compute; reflexivity).
  split; [exact E|]. rewrite E. cbn [snd]. split.
  - destruct (failed_open_stops_sampling second_gate_fails both_spdk _ (fun _ => 500) 20 eq_refl E) as [[H|_] _]; [by left|by right].
  - by apply (failed_open_stops_sampling second_gate_fails both_spdk _ (fun _ => 0) 11 eq_refl E).
Defined.

(** A process a killed run left sampling goes on when the next run fails before it
    sets the periods: here the object of its processes does not load. *)
Theorem failed_open_leaves_old_period :
  let a := all_well [10] [20] in
  let a := mk_answers true true (a_btf a) (a_open a) (a_find a) (a_share a) (a_select a) (fun _ _ => false) true true (a_gate a) in
  (ntp_loader_open a both_spdk).1 = None /\ gate_of (fun _ => 500) (ntp_loader_open a both_spdk).2 10 = 500.
Proof. vm_compute. by split. Qed.

(** ** The order of starting and stopping *)

Lemma open_one_desc a d shared o : (open_one a d shared).2 = Some o -> o_desc o = d.
Proof.
  unfold open_one. destruct (_ || _); [done|]. destruct (if d_spdk d then a_find a d else Some []); [|by intros [= <-]].
  destruct (_ && _); [by intros [= <-]|]. destruct (_ && _); by intros [= <-].
Qed.

Lemma open_all_descs a ds insts0 insts :
  open_all a ds insts0 = (true, insts) -> o_desc <$> insts = (o_desc <$> insts0) ++ ds.
Proof.
  revert insts0. induction ds as [|d ds IH]; intros insts0; cbn [open_all]; [intros [= <-]; by rewrite app_nil_r|].
  destruct (open_one a d (negb (bool_decide (insts0 = [])))) as [ok o] eqn:E. destruct ok; [|done]. intros H%IH. rewrite H.
  pose proof (open_one_desc a d (negb (bool_decide (insts0 = [])))) as Hd. rewrite E in Hd. cbn [snd] in Hd.
  destruct o as [o|]; [|unfold open_one in E; repeat case_match; congruence].
  rewrite fmap_app. cbn. rewrite (Hd o eq_refl). by rewrite <- app_assoc.
Qed.

Lemma start_gates_ok a every l :
  (forall p v, a_gate a p v = true) ->
  start_gates a every l = (true, mark <$> l, mjoin ((fun o => (fun p => AGate p every) <$> o_procs o) <$> l)).
Proof.
  intros Ha. induction l as [|o l IH]; [done|]. cbn [start_gates]. rewrite set_gates_ok by (by apply Forall_forall; auto).
  by rewrite IH.
Qed.
Lemma start_gates_true a every l l' acts :
  start_gates a every l = (true, l', acts) ->
  l' = mark <$> l /\ acts = mjoin ((fun o => (fun p => AGate p every) <$> o_procs o) <$> l).
Proof.
  revert l' acts. induction l as [|o l IH]; intros l' acts; cbn [start_gates]; [by intros [= <- <-]|].
  destruct (set_gates a every (o_procs o)) as [[] acts1] eqn:E; [|done]. apply set_gates_true in E as ->.
  destruct (start_gates a every l) as [[r l2] acts2]. intros [= -> <- <-]. by destruct (IH l2 acts2 eq_refl) as [-> ->].
Qed.

Lemma ungate_mark a o : ungate a (mark o) = (fun p => AGate p 0) <$> filter (fun p => a_gate a p 0 = true) (o_procs o).
Proof. unfold ungate, mark. cbn. by destruct (o_procs o). Qed.

Lemma prefix_app_cases {A} (p l1 l2 : list A) :
  p `prefix_of` l1 ++ l2 -> p `prefix_of` l1 \/ exists p', p = l1 ++ p' /\ p' `prefix_of` l2.
Proof.
  revert p. induction l1 as [|x l1 IH]; intros p H; [right; by exists p|].
  destruct p as [|y p]; [left; apply prefix_nil|]. cbn in H. apply prefix_cons_inv_1 in H as Hx. apply prefix_cons_inv_2 in H. subst y.
  destruct (IH p H) as [Hp|(p' & -> & Hp)]; [left; by apply prefix_cons|right; by exists p'].
Qed.

Lemma prefix_fmap_inv {A B} (f : A -> B) p l : p `prefix_of` f <$> l -> exists l', p = f <$> l' /\ l' ⊆ l.
Proof.
  intros [k Hk]. apply fmap_app_inv in Hk as (l1 & l2 & -> & -> & ->). exists l1. split; [done|].
  intros x Hx. apply elem_of_app. by left.
Qed.

(** Everything from arming to disarming, for a host's process and a target's; [hs0] and
    [ts0] are the processes whose period can be set back. *)
Section Sequence.
  Context (hs ts hs0 ts0 : list Z) (every : Z) (armed : list act) (h t : Z).
  Hypotheses (Hht : h ∉ ts) (Hth : t ∉ hs) (Ht : t ∈ ts) (Hh0 : h ∈ hs0) (Hhs : hs0 ⊆ hs) (Hts : ts0 ⊆ ts).
  Hypotheses (Hevery : every <> 0) (Harmed : no_gates armed).

Definition sequence : list act :=
  armed ++ ((fun p => AGate p every) <$> ts) ++ ((fun p => AGate p every) <$> hs) ++
  ((fun p => AGate p 0) <$> hs0) ++ [AArm 0 false] ++ ((fun p => AGate p 0) <$> ts0) ++ [AArm 1 false].

Lemma sequence_safe pre gh gt :
  pre `prefix_of` sequence -> gate_from gh pre h <> 0 -> gate_from gt pre t <> 0 \/ untouched h pre.
Proof.
  intros Hpre. unfold sequence in Hpre. pose proof (no_gates_untouched h armed Harmed) as Hah.
  assert (forall v l', l' ⊆ hs -> forall g, gate_from g ((fun p => AGate p v) <$> l') t = g) as Hset.
  { intros v l' Hl g. rewrite gate_from_set, decide_False; [done|]. intros H. by apply Hth, Hl. }
  apply prefix_app_cases in Hpre as [Hp|(p1 & -> & Hpre)]; [right; by eapply untouched_prefix|].
  rewrite !gate_from_app, !(gate_from_none _ armed) by done.
  apply prefix_app_cases in Hpre as [Hp|(p2 & -> & Hpre)].
  { right. apply untouched_app. split; [done|]. eapply untouched_prefix, untouched_set; done. }
  rewrite !gate_from_app, !(gate_from_set _ ts), (decide_False (P := h ∈ ts)), (decide_True (P := t ∈ ts)) by done.
  apply prefix_app_cases in Hpre as [Hp|(p3 & -> & Hpre)]; [left; apply prefix_fmap_inv in Hp as (l & -> & Hl); by rewrite Hset|].
  rewrite !gate_from_app, (Hset every hs), (gate_from_set _ hs), (decide_True (P := h ∈ hs)) by (try done; by apply Hhs).
  apply prefix_app_cases in Hpre as [Hp|(p4 & -> & Hpre)].
  { left. apply prefix_fmap_inv in Hp as (l & -> & Hl). rewrite Hset; [done|]. by etrans. }
  rewrite !gate_from_app, (gate_from_set _ hs0), (decide_True (P := h ∈ hs0)) by done. intros Hg. exfalso. apply Hg.
  apply gate_from_untouched. eapply untouched_prefix; [exact Hpre|]. rewrite !untouched_app.
  split; [by apply no_gates_untouched; repeat constructor|]. split; [|by apply no_gates_untouched; repeat constructor].
  apply untouched_set. intros H. by apply Hht, Hts.
Qed.

End Sequence.

(** C22: A command an SPDK host samples is sampled by its target too.  Take host and
    target both in SPDK, a process [h] of the host's binary and one [t] of the target's,
    neither of which runs the other's, and any periods the processes had before.  At every
    moment from opening the loader to disarming it, while [h] samples, [t] does, or the
    period of [h] is still the one a killed run or another one had left, which the loader
    has not come to yet.  The targets are started first and stopped last; the period of
    [h] is one that can be set back to 0. *)
Theorem targets_sample_with_hosts a c insts acts g pre :
  c_role c = NTP_ROLE_BOTH -> c_transport c = NTP_TR_TCP \/ c_transport c = NTP_TR_RDMA ->
  set_str (c_spdk_host c) = true -> set_str (c_spdk_target c) = true -> c_sample_every c <> 0 ->
  ntp_loader_open a c = (Some insts, acts) ->
  pre `prefix_of` acts ++ (ntp_loader_disarm a insts).2 ->
  forall oh ot h t, oh ∈ insts -> ot ∈ insts -> d_role (o_desc oh) = NTP_ROLE_HOST -> d_role (o_desc ot) = NTP_ROLE_TARGET ->
    h ∈ o_procs oh -> t ∈ o_procs ot -> h ∉ o_procs ot -> t ∉ o_procs oh -> a_gate a h 0 = true ->
    gate_of g pre h <> 0 -> gate_of g pre t <> 0 \/ (gate_of g pre h = g h /\ forall v, AGate h v ∉ pre).
Proof.
  intros Hr Htr Hsh Hst Hev. unfold ntp_loader_open. destruct (_ && _ && _); [done|]. destruct (_ || _); [done|].
  destruct (open_all a (wanted_of c) []) as [ok os] eqn:Eo. destruct (_ || _ || _ || _) eqn:Eg; [done|].
  assert (ok = true) as -> by (by destruct ok).
  apply open_all_descs in Eo. cbn [fmap list_fmap app] in Eo.
  destruct (start_gates a _ _) as [[[] l] ga] eqn:Es; [|done]. apply start_gates_true in Es as [-> ->]. intros [= <- <-] Hpre.
  assert (d_role <$> wanted_of c = [NTP_ROLE_HOST; NTP_ROLE_TARGET]) as Hw.
  { rewrite wanted_order by (split; [auto|done]). rewrite Hsh, Hst. unfold roles_of. by rewrite Hr. }
  rewrite <- Eo in Hw. destruct os as [|o1 [|o2 [|o3 os]]]; try done. cbn in Hw. injection Hw as H1 H2.
  cbn [reverse rev_append fmap list_fmap mjoin list_join imap ntp_loader_disarm snd] in *. unfold compose in *.
  rewrite !ungate_mark, !app_nil_r in Hpre.
  intros oh ot h t Hoh Hot Dh Dt Hh Ht Hht Hth Ha0 Hg.
  assert (oh = mark o1) as ->.
  { apply elem_of_cons in Hoh as [->|Hoh]; [done|]. apply list_elem_of_singleton in Hoh as ->. cbn in Dh. by rewrite H2 in Dh. }
  assert (ot = mark o2) as ->.
  { apply elem_of_cons in Hot as [->|Hot]; [cbn in Dt; by rewrite H1 in Dt|]. by apply list_elem_of_singleton in Hot as ->. }
  destruct (sequence_safe (o_procs o1) (o_procs o2) (filter (fun p => a_gate a p 0 = true) (o_procs o1))
              (filter (fun p => a_gate a p 0 = true) (o_procs o2)) (c_sample_every c) [AArm 0 true; AArm 1 true] h t)
    with (pre := pre) (gh := g h) (gt := g t) as [H|H]; try done.
  - by apply list_elem_of_filter.
  - intros x Hx. by apply list_elem_of_filter in Hx as [_ Hx].
  - intros x Hx. by apply list_elem_of_filter in Hx as [_ Hx].
  - repeat constructor.
  - unfold sequence. rewrite <- !app_assoc in Hpre. exact Hpre.
  - by left.
  - right. split; [by apply gate_from_untouched|exact H].
Qed.

(** Two host processes and a target's, all left sampling by another run; the target's
    cannot be set back. *)
Lemma targets_sample_with_hosts_witness :
  let a := all_well [10; 11] [20] in
  let a := mk_answers true true (a_btf a) (a_open a) (a_find a) (a_share a) (a_select a) (a_load a) true true
             (fun p v => negb (p =? 20) || negb (v =? 0)) in
  (ntp_loader_open a both_spdk).2 = [AArm 0 true; AArm 1 true; AGate 20 1000; AGate 10 1000; AGate 11 1000] /\
  gate_of (fun _ => 500) [AArm 0 true; AArm 1 true; AGate 20 1000; AGate 10 1000] 10 = 1000 /\
  gate_of (fun _ => 500) [AArm 0 true; AArm 1 true; AGate 20 1000; AGate 10 1000] 20 <> 0.
Proof.
  intros b a.
  pose (oh := mk_inst (mk_obj_desc "spdk_tcp_host" NTP_ROLE_HOST NTP_TR_TCP "nvme_tcp" spdk_host_required true) [10; 11] true).
  pose (ot := mk_inst (mk_obj_desc "spdk_tcp_target" NTP_ROLE_TARGET NTP_TR_TCP "nvmet_tcp" spdk_target_required true) [20] true).
  assert (ntp_loader_open a both_spdk =
    (Some [oh; ot], [AArm 0 true; AArm 1 true; AGate 20 1000; AGate 10 1000; AGate 11 1000])) as E by (vm_compute; reflexivity).
  split; [by rewrite E|]. split; [reflexivity|].
  destruct (targets_sample_with_hosts a both_spdk [oh; ot] [AArm 0 true; AArm 1 true; AGate 20 1000; AGate 10 1000; AGate 11 1000]
           (fun _ => 500) [AArm 0 true; AArm 1 true; AGate 20 1000; AGate 10 1000]) with (oh := oh) (ot := ot) (h := 10) (t := 20) as [H|[H _]];
    try reflexivity; try discriminate; try exact E; try (by left); try (right; by left); try exact H.
  - by exists (AGate 11 1000 :: (ntp_loader_disarm a [oh; ot]).2).
  - change (o_procs ot) with [20]. intros Hp%list_elem_of_singleton. discriminate.
  - change (o_procs oh) with [10; 11]. intros [Hp|Hp%list_elem_of_singleton]%elem_of_cons; discriminate.
Defined.

(** An SPDK host beside a kernel target: the kernel target's programs are told to
    stop while the host's process still samples. *)
Definition spdk_host_kernel_target : ntp_config := set_spdk_host (set_role config_defaults NTP_ROLE_BOTH) (bytes "perf").

(** With an SPDK host and a kernel target on one machine the objects are ordered
    target first, so stopping disarms the target while the host's process still
    samples: the order the comment in ntp_loader_open describes ("hosts first
    when stopping") is not kept there. *)
Theorem mixed_stops_target_first :
  match ntp_loader_open (all_well [10] []) spdk_host_kernel_target with
  | (Some insts, acts) =>
      let '(_, stop) := ntp_loader_disarm (all_well [10] []) insts in
      d_role <$> (o_desc <$> insts) = [NTP_ROLE_TARGET; NTP_ROLE_HOST] /\ head stop = Some (AArm 0 false) /\
      gate_of (fun _ => 0) (acts ++ take 1 stop) 10 = 1000
  | _ => False
  end.
Proof. vm_compute. repeat split. Qed.
