(* ===== verification/Links.v ===== *)
(** * Attaching the programs (src/loader.c)

    The links of each object: USDT programs on every file of the list that has
    the probe, the others from worker threads.  The array of an object's links is
    allocated once; a store past its end has no result here, and
    [attach_all_links] shows that there is none.  Also the BTF an object is loaded
    against, the filter of an object with the processes it watches, the offset
    between the clocks, and the counters summed over CPUs and objects. *)
From stdpp Require Import base numbers list.
From Stdlib Require Import ZArith Lia String.
From S2P Require Import Prelude Types BpfCommon BpfSpdk CStr Config Ksyms Loader Spdk Attach.

(** ** BTF *)

Definition KERNEL_BTF : list Z := bytes "/sys/kernel/btf/vmlinux".

Inductive btf_source := BtfKernel | BtfFile (path : list Z).

Section btf.
  Variable access : list Z -> bool.  (* access(path, R_OK) succeeds *)

Definition module_btf (d : obj_desc) : bool := access (fit 256 (bytes "/sys/kernel/btf/" ++ bytes (d_btf_module d))).

(** What CO-RE relocates against; [None] after an error. *)
Definition btf_opts (c : ntp_config) (d : obj_desc) : option btf_source :=
  match c_btf_dir c with
  | [] =>
      if negb (access KERNEL_BTF) then None
      else if d_spdk d || module_btf d then Some BtfKernel else None
  | dir =>
      let path := fit 512 (dir ++ bytes "/" ++ bytes (d_btf_module d) ++ bytes ".btf") in
      if access path then Some (BtfFile path) else None
  end.
End btf.

(** ** The filter of an object *)

(** [open_one] from the filter of the configuration: the processes to watch. *)
Definition set_pids (f : ntp_filter) (procs : list ntp_spdk_proc) : ntp_filter :=
  mk_filter (sample_every f) (io_type f) (n_sizes f) (ctrl_filter f) (track_queues f) (min_bytes f) (max_bytes f) (f_sizes f)
    (ctrl_mask f) (f_nsid f) (real_minus_mono f) (u8 (Z.of_nat (List.length procs)))
    (pad_to NTP_MAX_PIDS ((fun p => u32 (pr_pid p)) <$> procs)).

Definition object_filter (c : ntp_config) (d : obj_desc) (sel : selection) (procs : list ntp_spdk_proc) (offset : Z) : ntp_filter :=
  set_pids (fill_filter c (if has (d_role d) NTP_ROLE_HOST && negb (d_spdk d) then Some sel else None) offset) procs.

(** ** Links *)

(** A link: the program, and the file for a USDT program. *)
Definition link : Type := string * option (list Z).

(** An object with its programs, which of them are loaded, and the links so far;
    [li_paths] is empty for a kernel object. *)
Record linst := mk_linst {
  li_desc : obj_desc; li_paths : list Z; li_progs : list (string * string * bool); li_cap : nat; li_links : list link
}.

(** [o->links[o->nlinks++] = link]; [None] past the end of the array. *)
Definition add_link (o : linst) (l : link) : option linst :=
  if (List.length (li_links o) <? li_cap o)%nat
  then Some (mk_linst (li_desc o) (li_paths o) (li_progs o) (li_cap o) (li_links o ++ [l])) else None.

Section attach.
  Variable usdt_ok : string -> list Z -> bool.       (* bpf_program__attach_usdt() *)
  Variable attach_ok : string -> string -> bool.     (* bpf_program__attach(), by object and program *)

(** The loop of [attach_usdt] over the files: whether one was attached. *)
Fixpoint attach_files (prog : string) (files : list (list Z)) (o : linst) (any : bool) : option (bool * linst) :=
  match files with
  | [] => Some (any, o)
  | p :: files =>
      if usdt_ok prog (strip p) then o ← add_link o (prog, Some (strip p)); attach_files prog files o true
      else attach_files prog files o any
  end.

(** [attach_usdt_all]: whether all is well, and the object. *)
Fixpoint attach_usdt_all (progs : list (string * string * bool)) (o : linst) : option (bool * linst) :=
  match progs with
  | [] => Some (true, o)
  | (p, auto) :: progs =>
      if negb auto || negb (is_usdt p) then attach_usdt_all progs o
      else
        '(any, o) ← attach_files p.1 (tokens (li_paths o) []) o false;
        if (any : bool) then attach_usdt_all progs o
        else if is_required (li_desc o) p.1 then Some (false, o)
        else attach_usdt_all progs o
  end.

(** One entry and the commas of the list. *)
Definition files_of (o : linst) : nat :=
  S (match li_paths o with [] => O | l => List.length (List.filter (fun x => x =? 44) l) end).

(** The first loop of [attach_all]: the arrays and the USDT programs. *)
Definition alloc_links (o : linst) : linst :=
  mk_linst (li_desc o) (li_paths o) (li_progs o) (List.length (li_progs o) * files_of o) [].

Fixpoint attach_usdt_objs (l : list linst) : option (bool * list linst) :=
  match l with
  | [] => Some (true, [])
  | o :: l =>
      '(ok, o) ← attach_usdt_all (li_progs o) (alloc_links o);
      if (ok : bool) then '(ok, l) ← attach_usdt_objs l; Some (ok, o :: l) else Some (false, o :: l)
  end.

(** The jobs of an object: its loaded programs that are not USDT. *)
Definition jobs_of (o : linst) : list string :=
  (fun x => x.1.1) <$> List.filter (fun x : string * string * bool => x.2 && negb (is_usdt x.1)) (li_progs o).

(** The loop over the jobs of one object once they have run: the links made, and
    whether a required program has none. *)
Fixpoint collect (jobs : list string) (o : linst) : option (bool * linst) :=
  match jobs with
  | [] => Some (true, o)
  | p :: jobs =>
      if attach_ok (d_name (li_desc o)) p then o ← add_link o (p, None); collect jobs o
      else '(ok, o) ← collect jobs o; Some (ok && negb (is_required (li_desc o) p), o)
  end.

Fixpoint collect_objs (l : list linst) : option (bool * list linst) :=
  match l with
  | [] => Some (true, [])
  | o :: l =>
      '(ok, o) ← collect (jobs_of o) o;
      '(ok', l) ← collect_objs l;
      Some (ok && ok', o :: l)
  end.

(** The result and the objects with their links. *)
Definition attach_all (l : list linst) : option (Z * list linst) :=
  '(ok, l) ← attach_usdt_objs l;
  if negb ok then Some (-1, l)
  else '(ok, l) ← collect_objs l; Some (if (ok : bool) then 0 else -1, l).
End attach.

(** ** Clocks *)

(** [real_minus_mono] over the reads [(m1, r, m2)], in ns: the narrowest wins. *)
Fixpoint narrowest (reads : list (Z * Z * Z)) (best best_gap : Z) : Z :=
  match reads with
  | [] => best
  | (a, r, b) :: reads =>
      let gap := b - a in
      if gap <? best_gap then narrowest reads (r - (a + Z.quot gap 2)) gap else narrowest reads best best_gap
  end.

Definition INT64_MAX : Z := 2 ^ 63 - 1.
Definition clock_offset (reads : list (Z * Z * Z)) : Z := narrowest reads 0 INT64_MAX.

(** ** Counters *)

(** [ntp_loader_counter]: per object the values of the CPUs, [None] when they
    cannot be read. *)
Definition ntp_loader_counter (objs : list (option (list (ntp_counter -> Z)))) (c : ntp_counter) : Z :=
  foldl (fun total o => foldl (fun t cpu => u64 (t + cpu c)) total (default [] o)) 0 objs.

(** ** Links stay in their array *)

Definition grows (o o' : linst) (k : nat) : Prop :=
  li_desc o' = li_desc o /\ li_paths o' = li_paths o /\ li_progs o' = li_progs o /\ li_cap o' = li_cap o /\
  exists ex, li_links o' = li_links o ++ ex /\ (List.length ex <= k)%nat.

Lemma grows_refl o k : grows o o k.
Proof. repeat (split; [done|]). exists []. rewrite app_nil_r. split; [done|cbn; lia]. Qed.

Lemma grows_trans o o1 o2 k1 k2 k : grows o o1 k1 -> grows o1 o2 k2 -> (k1 + k2 <= k)%nat -> grows o o2 k.
Proof.
  intros (D1 & P1 & G1 & C1 & e1 & L1 & N1) (D2 & P2 & G2 & C2 & e2 & L2 & N2) Hk.
  repeat (split; [congruence|]). exists (e1 ++ e2). rewrite L2, L1, <- app_assoc, length_app. split; [done|lia].
Qed.

Lemma grows_room o o' k n : grows o o' k -> (List.length (li_links o) + (k + n) <= li_cap o)%nat -> (List.length (li_links o') + n <= li_cap o')%nat.
Proof. intros (_ & _ & _ & C & ex & L & N) H. rewrite L, C, length_app. lia. Qed.

Lemma grows_in o o' k x : grows o o' k -> x ∈ li_links o -> x ∈ li_links o'.
Proof. intros (_ & _ & _ & _ & ex & -> & _) H. apply elem_of_app. by left. Qed.

Lemma add_link_ok o l : (List.length (li_links o) + 1 <= li_cap o)%nat -> exists o', add_link o l = Some o' /\ grows o o' 1 /\ l ∈ li_links o'.
Proof.
  intros H. unfold add_link. destruct (Nat.ltb_spec (List.length (li_links o)) (li_cap o)); [|lia].
  eexists. split; [reflexivity|]. split; [by repeat (split; [done|]); exists [l]|]. cbn. apply elem_of_app. right. by apply list_elem_of_singleton.
Qed.

Lemma tokens_commas l cur : (List.length (tokens l cur) <= S (List.length (List.filter (fun x => (x =? 44)%Z) l)))%nat.
Proof.
  revert cur. induction l as [|x l IH]; intros cur; cbn [tokens List.filter]; [by destruct cur; cbn; lia|].
  destruct (x =? 44); [|apply IH]. destruct cur; cbn [List.length]; specialize (IH []); lia.
Qed.

Lemma tokens_files o : (List.length (tokens (li_paths o) []) <= files_of o)%nat.
Proof. unfold files_of. pose proof (tokens_commas (li_paths o) []). by destruct (li_paths o). Qed.

Section bounds.
  Variable usdt_ok : string -> list Z -> bool.
  Variable attach_ok : string -> string -> bool.

Lemma attach_files_ok prog files o any :
  (List.length (li_links o) + List.length files <= li_cap o)%nat ->
  exists any' o', attach_files usdt_ok prog files o any = Some (any', o') /\ grows o o' (List.length files) /\
    (any' = true -> any = true \/ exists path, (prog, Some path) ∈ li_links o').
Proof.
  revert o any. induction files as [|f files IH]; intros o any Hr; cbn [attach_files List.length] in *.
  { exists any, o. split; [done|]. split; [apply grows_refl|by left]. }
  destruct (usdt_ok prog (strip f)).
  - destruct (add_link_ok o (prog, Some (strip f)) ltac:(lia)) as (o1 & E & G & Hin). rewrite E. cbn [mbind option_bind].
    destruct (IH o1 true ltac:(eapply (grows_room _ _ _ _ G); lia)) as (any' & o' & -> & G' & _). exists any', o'. split; [done|].
    split; [eapply grows_trans; [exact G|exact G'|lia]|]. intros _. right. exists (strip f). exact (grows_in _ _ _ _ G' Hin).
  - destruct (IH o any ltac:(lia)) as (any' & o' & -> & G' & H). exists any', o'. split; [done|]. split; [|done].
    eapply grows_trans; [apply (grows_refl _ 0)|exact G'|lia].
Qed.

Definition usdt_count (progs : list (string * string * bool)) : nat :=
  List.length (List.filter (fun x : string * string * bool => x.2 && is_usdt x.1) progs).

(** Every required program that is loaded has a link. *)
Definition usdt_linked (d : obj_desc) (progs : list (string * string * bool)) (links : list link) : Prop :=
  forall p, (p, true) ∈ progs -> is_usdt p = true -> is_required d p.1 = true -> exists path, (p.1, Some path) ∈ links.

Lemma attach_usdt_all_ok progs o :
  (List.length (li_links o) + usdt_count progs * files_of o <= li_cap o)%nat ->
  exists ok o', attach_usdt_all usdt_ok progs o = Some (ok, o') /\ grows o o' (usdt_count progs * files_of o) /\
    (ok = true -> usdt_linked (li_desc o) progs (li_links o')).
Proof.
  revert o. induction progs as [|[p auto] progs IH]; intros o Hr; cbn [attach_usdt_all].
  { exists true, o. split; [done|]. split; [apply grows_refl|]. intros _ p Hp. by apply not_elem_of_nil in Hp. }
  unfold usdt_count in *. cbn [List.filter] in *. cbn [fst snd] in *. destruct auto, (is_usdt p) eqn:Eu; cbn [negb andb orb List.length] in *.
  2-4: destruct (IH o Hr) as (ok & o' & -> & G & H); exists ok, o'; split; [done|]; split; [done|]; intros Hok q Hq Hu Hreq;
    (apply elem_of_cons in Hq as [Heq|Hq]; [simplify_eq; congruence|by apply (H Hok q)]).
  pose proof (tokens_files o) as Hf.
  destruct (attach_files_ok p.1 (tokens (li_paths o) []) o false ltac:(lia)) as (any & o1 & -> & G1 & H1). cbn [mbind option_bind].
  assert (files_of o1 = files_of o) as Hfo by (destruct G1 as (_ & E & _); unfold files_of; by rewrite E).
  assert (li_desc o1 = li_desc o) as Hd by (by destruct G1).
  destruct (IH o1) as (ok & o' & E & G & H); [rewrite Hfo; eapply (grows_room _ _ _ _ G1); lia|]. rewrite Hfo, Hd in *.
  assert (grows o o' (S (List.length (List.filter (fun x : string * string * bool => x.2 && is_usdt x.1) progs)) * files_of o)) as G2
    by (eapply grows_trans; [exact G1|exact G|lia]).
  destruct any.
  - exists ok, o'. split; [done|]. split; [done|]. intros Hok q Hq Hu Hreq.
    apply elem_of_cons in Hq as [[= ->]|Hq]; [|by apply (H Hok q)]. destruct (H1 eq_refl) as [|[path Hin]]; [done|]. exists path. exact (grows_in _ _ _ _ G Hin).
  - destruct (is_required (li_desc o) p.1) eqn:Er.
    + exists false, o1. split; [done|]. split; [|done]. eapply grows_trans; [exact G1|apply (grows_refl _ 0)|lia].
    + exists ok, o'. split; [done|]. split; [done|]. intros Hok q Hq Hu Hreq.
      apply elem_of_cons in Hq as [[= ->]|Hq]; [congruence|by apply (H Hok q)].
Qed.

Lemma collect_ok jobs o :
  (List.length (li_links o) + List.length jobs <= li_cap o)%nat ->
  exists ok o', collect attach_ok jobs o = Some (ok, o') /\ grows o o' (List.length jobs) /\
    (ok = true -> forall p, p ∈ jobs -> is_required (li_desc o) p = true -> (p, None) ∈ li_links o').
Proof.
  revert o. induction jobs as [|p jobs IH]; intros o Hr; cbn [collect List.length] in *.
  { exists true, o. split; [done|]. split; [apply grows_refl|]. intros _ p Hp. by apply not_elem_of_nil in Hp. }
  destruct (attach_ok _ p).
  - destruct (add_link_ok o (p, None) ltac:(lia)) as (o1 & -> & G & Hin). cbn [mbind option_bind].
    assert (li_desc o1 = li_desc o) as Hd by (by destruct G).
    destruct (IH o1 ltac:(eapply (grows_room _ _ _ _ G); lia)) as (ok & o' & -> & G' & H). exists ok, o'. split; [done|].
    split; [eapply grows_trans; [exact G|exact G'|lia]|]. rewrite Hd in H. intros Hok q [->|Hq]%elem_of_cons Hreq; [exact (grows_in _ _ _ _ G' Hin)|by apply (H Hok)].
  - destruct (IH o ltac:(lia)) as (ok & o' & -> & G' & H). cbn [mbind option_bind]. eexists _, o'. split; [reflexivity|].
    assert (li_desc o' = li_desc o) as -> by (by destruct G').
    split; [eapply grows_trans; [apply (grows_refl _ 0)|exact G'|lia]|]. intros [Hok Hn]%andb_true_iff q [->|Hq]%elem_of_cons Hreq; [by rewrite Hreq in Hn|by apply (H Hok)].
Qed.

(** An object once the USDT programs and then the others are attached. *)
Definition linked (o : linst) : Prop :=
  forall p, (p, true) ∈ li_progs o -> is_required (li_desc o) p.1 = true -> exists w, (p.1, w) ∈ li_links o.

Lemma filter_split_count progs :
  (usdt_count progs + List.length (List.filter (fun x : string * string * bool => x.2 && negb (is_usdt x.1)) progs) <= List.length progs)%nat.
Proof.
  unfold usdt_count. induction progs as [|[p []] progs IH]; cbn [List.filter List.length fst snd andb]; [lia|destruct (is_usdt p); cbn [negb List.length]; lia|lia].
Qed.

(** What the first loop leaves: room for the jobs. *)
Definition with_room (o : linst) : Prop :=
  (List.length (li_links o) + List.length (jobs_of o) <= li_cap o)%nat /\ usdt_linked (li_desc o) (li_progs o) (li_links o).

Lemma attach_usdt_objs_ok l :
  exists ok l', attach_usdt_objs usdt_ok l = Some (ok, l') /\ li_desc <$> l' = li_desc <$> l /\ li_progs <$> l' = li_progs <$> l /\
    (ok = true -> Forall with_room l').
Proof.
  induction l as [|o l IH]; cbn [attach_usdt_objs]; [by exists true, []|].
  pose proof (filter_split_count (li_progs o)) as Hc.
  assert (usdt_count (li_progs o) * files_of o + List.length (jobs_of o) <= List.length (li_progs o) * files_of o)%nat as Hroom.
  { unfold jobs_of. rewrite length_fmap. assert (1 <= files_of o)%nat by (unfold files_of; lia). nia. }
  destruct (attach_usdt_all_ok (li_progs o) (alloc_links o)) as (ok & o' & -> & G & H); [cbn; fold (files_of o); unfold files_of in *; cbn in *; lia|].
  cbn [mbind option_bind]. destruct G as (GD & GP & GG & GC & ex & GL & GN). cbn in GD, GP, GG, GC, GL.
  destruct ok.
  - destruct IH as (ok & l' & -> & Hd & Hp & Hl). cbn [mbind option_bind]. exists ok, (o' :: l'). split; [done|].
    rewrite !fmap_cons, GD, GG, Hd, Hp. split; [done|]. split; [done|]. intros Hok. constructor; [|by apply Hl]. split.
    + assert (jobs_of o' = jobs_of o) as -> by (unfold jobs_of; by rewrite GG). rewrite GL, GC.
      assert (files_of (alloc_links o) = files_of o) as Hfo by done. rewrite Hfo in GN. lia.
    + rewrite GG, GD. by apply H.
  - exists false, (o' :: l). split; [done|]. rewrite !fmap_cons, GD, GG. done.
Qed.

Lemma collect_objs_ok l :
  Forall with_room l ->
  exists ok l', collect_objs attach_ok l = Some (ok, l') /\ li_desc <$> l' = li_desc <$> l /\ li_progs <$> l' = li_progs <$> l /\
    (ok = true -> Forall linked l').
Proof.
  induction 1 as [|o l [Hroom Hu] Hl IH]; cbn [collect_objs]; [by exists true, []|].
  destruct (collect_ok (jobs_of o) o Hroom) as (ok & o' & -> & G & H). destruct IH as (ok' & l' & -> & Hd & Hp & Hl').
  cbn [mbind option_bind]. eexists _, _. split; [reflexivity|]. pose proof G as (GD & _ & GG & _).
  rewrite !fmap_cons, GD, GG, Hd, Hp. split; [done|]. split; [done|]. intros [Hok Hok']%andb_true_iff. constructor; [|by apply Hl'].
  intros p Hp' Hreq. rewrite GG in Hp'. rewrite GD in Hreq. destruct (is_usdt p) eqn:Eu.
  - destruct (Hu p Hp' Eu Hreq) as [path Hin]. exists (Some path). exact (grows_in _ _ _ _ G Hin).
  - exists None. apply H; [done| |done]. unfold jobs_of. apply list_elem_of_fmap. exists (p, true). split; [done|].
    apply list_elem_of_In, filter_In. split; [by apply list_elem_of_In|]. cbn. by rewrite Eu.
Qed.
End bounds.

(** C24: Attaching never writes past the array of an object's links, however many
    files the list of an SPDK application names and whichever attachments succeed;
    and when it reports success, every program that is loaded and required is
    attached: a USDT program in one of the files at least. *)
Theorem attach_all_links usdt_ok attach_ok l :
  exists r l', attach_all usdt_ok attach_ok l = Some (r, l') /\ (r = 0 \/ r = -1) /\
    li_desc <$> l' = li_desc <$> l /\ li_progs <$> l' = li_progs <$> l /\ (r = 0 -> Forall linked l').
Proof.
  unfold attach_all. destruct (attach_usdt_objs_ok usdt_ok l) as (ok & l1 & -> & Hd & Hp & Hr). cbn [mbind option_bind].
  destruct ok; cbn [negb]; [|exists (-1), l1; split; [done|]; split; [auto|]; by repeat (split; [done|])].
  destruct (collect_objs_ok attach_ok l1 (Hr eq_refl)) as (ok & l2 & -> & Hd2 & Hp2 & Hl). cbn [mbind option_bind].
  eexists _, l2. split; [reflexivity|]. rewrite Hd2, Hp2.
  destruct ok; (split; [auto|]); (split; [done|]); (split; [done|]); [auto|done].
Qed.

(** ** The processes watched *)

(** The programs of an SPDK object look at the socket calls of exactly the
    processes found. *)
Theorem processes_watched c d sel procs offset e :
  (List.length procs <= NTP_MAX_PIDS)%nat ->
  spdk_process (object_filter c d sel procs offset) e = true <->
  exists p, p ∈ procs /\ u32 (pr_pid p) = u32 (Z.shiftr (e_tid e) 32).
Proof.
  intros Hn. unfold spdk_process, object_filter, set_pids. cbn [npids f_pids].
  assert (u8 (Z.of_nat (List.length procs)) = Z.of_nat (List.length procs)) as ->
    by (unfold u8; rewrite Z.mod_small; [done|unfold NTP_MAX_PIDS in Hn; lia]).
  assert (forall i, (i < List.length procs)%nat -> pad_to NTP_MAX_PIDS ((fun p => u32 (pr_pid p)) <$> procs) !! i =
    (fun p => u32 (pr_pid p)) <$> procs !! i) as Hpad.
  { intros i Hi. unfold pad_to. rewrite lookup_take_lt by lia. rewrite lookup_app_l by (by rewrite length_fmap). apply list_lookup_fmap. }
  rewrite existsb_exists. split.
  - intros (i & Hi & [Hlt%Z.ltb_lt He%Z.eqb_eq]%andb_true_iff). destruct (lookup_lt_is_Some_2 procs i ltac:(lia)) as [p Hp].
    rewrite Hpad, Hp in He by lia. exists p. split; [by eapply list_elem_of_lookup_2|exact He].
  - intros (p & [i Hi]%list_elem_of_lookup_1 & He). pose proof (lookup_lt_Some _ _ _ Hi) as Hlt. exists i. split; [apply in_seq; lia|].
    apply andb_true_iff. split; [apply Z.ltb_lt; lia|]. rewrite Hpad, Hi by done. apply Z.eqb_eq. exact He.
Qed.

(** ** The offset between the clocks *)

(** A read of the real-time clock between two of the monotonic one, [offset] apart. *)
Definition consistent (offset : Z) (x : Z * Z * Z) : Prop :=
  let '(a, r, b) := x in exists t, a <= t <= b /\ r = t + offset.
Definition gap_of (x : Z * Z * Z) : Z := let '(a, _, b) := x in b - a.

Lemma narrowest_spec offset reads best best_gap :
  Forall (consistent offset) reads -> 2 * Z.abs (best - offset) <= best_gap + 1 ->
  exists g, g <= best_gap /\ Forall (fun x => g <= gap_of x) reads /\ 2 * Z.abs (narrowest reads best best_gap - offset) <= g + 1.
Proof.
  intros H. revert best best_gap. induction H as [|[[a r] b] reads (t & Ht & ->) H IH]; intros best best_gap Hb; cbn [narrowest].
  { exists best_gap. split; [lia|]. split; [constructor|done]. }
  destruct (Z.ltb_spec (b - a) best_gap).
  - destruct (IH (t + offset - (a + Z.quot (b - a) 2)) (b - a)) as (g & Hg & Hr & Hn).
    { rewrite Z.quot_div_nonneg by lia. pose proof (Z.div_mod (b - a) 2 ltac:(lia)). pose proof (Z.mod_pos_bound (b - a) 2 ltac:(lia)). lia. }
    exists g. split; [lia|]. split; [constructor; [exact Hg|done]|done].
  - destruct (IH best best_gap Hb) as (g & Hg & Hr & Hn). exists g. split; [done|]. split; [constructor; [cbn; lia|done]|done].
Qed.

(** The offset added to packet timestamps is right to half the narrowest of the
    reads. *)
Theorem clock_offset_error offset reads :
  Forall (consistent offset) reads -> Exists (fun x => gap_of x < INT64_MAX) reads ->
  exists g, Forall (fun x => g <= gap_of x) reads /\ 2 * Z.abs (clock_offset reads - offset) <= g + 1.
Proof.
  unfold clock_offset. intros H. revert H. induction reads as [|[[a r] b] reads IH]; intros H Hex; [by inversion Hex|].
  apply Forall_cons in H as [(t & Ht & ->) H]. cbn [narrowest]. destruct (Z.ltb_spec (b - a) INT64_MAX).
  - destruct (narrowest_spec offset reads (t + offset - (a + Z.quot (b - a) 2)) (b - a) H) as (g & Hg & Hr & Hn).
    { rewrite Z.quot_div_nonneg by lia. pose proof (Z.div_mod (b - a) 2 ltac:(lia)). pose proof (Z.mod_pos_bound (b - a) 2 ltac:(lia)). lia. }
    exists g. split; [constructor; [exact Hg|done]|done].
  - apply Exists_cons in Hex as [Hex|Hex]; [cbn in Hex; lia|]. destruct (IH H Hex) as (g & Hr & Hn). exists g. split; [|done].
    constructor; [|done]. apply Exists_exists in Hex as (x & Hx & Hlt). rewrite Forall_forall in Hr. specialize (Hr x Hx). cbn. lia.
Qed.

Lemma clock_offset_error_witness :
  let reads := [(1000, 501100, 1300); (2000, 502009, 2020); (3000, 503050, 3400)] in
  clock_offset reads = 499999 /\ exists g, Forall (fun x => g <= gap_of x) reads /\ 2 * Z.abs (clock_offset reads - 500000) <= g + 1.
Proof.
  intros reads. split; [reflexivity|]. apply clock_offset_error.
  - repeat constructor; [exists 1100|exists 2009|exists 3050]; lia.
  - by left.
Defined.

(** ** Counters *)

Lemma counter_inner c cpus t : foldl (fun t (cpu : ntp_counter -> Z) => u64 (t + cpu c)) t cpus ≡₆₄ t + foldr Z.add 0 ((fun cpu => cpu c) <$> cpus).
Proof.
  revert t. induction cpus as [|x cpus IH]; intros t; [cbn; cong_solve|]. cbn [foldl]. rewrite IH, fmap_cons. cbn [foldr].
  rewrite (u64_cong (t + x c)). cong_solve.
Qed.

(** A counter is the sum over the CPUs of all objects, modulo the width. *)
Theorem counter_sum objs c :
  ntp_loader_counter objs c ≡₆₄ foldr Z.add 0 ((fun cpu => cpu c) <$> mjoin (default [] <$> objs)).
Proof.
  unfold ntp_loader_counter. enough (forall t, foldl (fun total o => foldl (fun t (cpu : ntp_counter -> Z) => u64 (t + cpu c)) total (default [] o)) t objs ≡₆₄
    t + foldr Z.add 0 ((fun cpu => cpu c) <$> mjoin (default [] <$> objs))) as H by (rewrite H; cong_solve).
  induction objs as [|o objs IH]; intros t; [cbn; cong_solve|]. cbn [foldl]. rewrite IH, counter_inner, fmap_cons.
  change (mjoin (?x :: ?y)) with (x ++ mjoin y). rewrite fmap_app.
  assert (forall (l l' : list Z), foldr Z.add 0 (l ++ l') = foldr Z.add 0 l + foldr Z.add 0 l') as Hf
    by (induction l as [|x l IHl]; intros l'; cbn; [done|]; rewrite IHl; lia).
  rewrite Hf. cong_solve.
Qed.
