(* ===== verification/Open.v ===== *)
(** * Opening the loader on a system (src/loader.c: ntp_loader_open)

    Attach.v has the sequence of actions of the loader against what each step
    answers.  Here the answers are computed: [system] is what the kernel, libbpf
    and /proc say, and [answers_of] asks the code of the other files: the session
    (Loader.v), the symbols (Ksyms.v), the BTF (Links.v), the processes (Spdk.v),
    the selection of programs (Loader.v) and the links (Links.v). *)
From stdpp Require Import base numbers list.
From Stdlib Require Import ZArith Lia String.
From S2P Require Import Prelude Types CStr Config Ksyms Loader Spdk Attach Links.

(** What an object is loaded with: the size of its ring buffer, its filter, and whether
    the ring buffer is that of another object. *)
Record load_setup := mk_setup { ls_ring : Z; ls_filter : ntp_filter; ls_shared : bool }.

Record system := mk_system {
  sy_present : list Z -> bool;                  (* block devices *)
  sy_nsid : list Z -> option Z;
  sy_kallsyms : option (list Z);
  sy_access : list Z -> bool;
  sy_check : fentry_check;
  sy_skip : option string;                      (* NTPROF_SKIP *)
  sy_opens : obj_desc -> bool;
  sy_shares : obj_desc -> bool;
  sy_loads : obj_desc -> load_setup -> bool;    (* bpf_object__load *)
  sy_offset : Z;                                (* between the clocks *)
  sy_page : Z;
  sy_elf : list Z -> option elf_file;
  sy_realpath : list Z -> option (list Z);
  sy_self : Z;
  sy_maps : Z -> option (list Z);
  sy_proc : option (list (list Z));
  sy_usdt : string -> list Z -> bool;
  sy_attach : string -> string -> bool;
  sy_ring : bool;
  sy_gate : Z -> Z -> bool
}.

(** What an object is built with: the initial value of [filter] and the size of
    [events]. *)
Definition built_filter : ntp_filter :=
  mk_filter 1 2 0 0 0 0 0 (replicate NTP_MAX_SIZE_FILTERS 0) [0; 0; 0; 0] 0 0 0 (replicate NTP_MAX_PIDS 0).
Definition built_setup : load_setup := mk_setup (Z.shiftl 1 24) built_filter false.

Section open.
  Variable y : system.
  Variable c : ntp_config.

Definition ksyms : list string := default [] (ksyms_load (sy_kallsyms y)).

(** The flavour an object's programs are loaded in. *)
Definition flavour_for (d : obj_desc) : flavour :=
  (object_flavour c d (module_btf (sy_access y) d) (sy_access y KERNEL_BTF) (sy_check y) None).1.

Definition usdt_paths (d : obj_desc) : list Z :=
  if d_spdk d then (if has (d_role d) NTP_ROLE_HOST then c_spdk_host c else c_spdk_target c) else [].

Definition find_for (d : obj_desc) : option (list ntp_spdk_proc) :=
  ntp_spdk_find (sy_page y) (sy_elf y) (sy_realpath y) (sy_self y) (sy_maps y) (sy_proc y) (usdt_paths d) NTP_MAX_PIDS.

Definition pids_for (d : obj_desc) : option (list Z) :=
  match find_for d with Some ps => Some (pr_pid <$> ps) | None => None end.

Definition selected_for (d : obj_desc) : Z * list bool :=
  select_programs d ksyms (sy_skip y) (flavour_for d) (c_exact_queues c) (programs d).

Definition linst_of (d : obj_desc) : linst := mk_linst d (usdt_paths d) (zip (programs d) (selected_for d).2) 0 [].

Definition attached : bool :=
  match attach_all (sy_usdt y) (sy_attach y) (linst_of <$> wanted_of c) with Some (r, _) => r =? 0 | None => false end.

Definition is_some {A} (x : option A) : bool := match x with Some _ => true | None => false end.

(** What [open_one] sets before it loads the object. *)
Definition open_setup (d : obj_desc) (shared : bool) : load_setup :=
  mk_setup (default 0 (rb_bytes c))
    (object_filter c d (default no_selection (resolve_session (sy_present y) (sy_nsid y) (c_session c)))
       (if d_spdk d then default [] (find_for d) else []) (sy_offset y)) shared.

Definition answers_of : answers :=
  mk_answers (is_some (resolve_session (sy_present y) (sy_nsid y) (c_session c))) (is_some (ksyms_load (sy_kallsyms y)))
    (fun d => is_some (btf_opts (sy_access y) c d)) (sy_opens y) pids_for (sy_shares y)
    (fun d => (selected_for d).1 =? 0) (fun d shared => sy_loads y d (open_setup d shared)) attached (sy_ring y) (sy_gate y).

(** The whole of [ntp_loader_open]. *)
Definition open_on : option (list obj_inst) * list act := ntp_loader_open answers_of c.
End open.

(** The check for fentry is made once: a later answer is the first one's. *)
Lemma flavour_checked c kbtf check f :
  (choose_flavour c kbtf check None).2 = Some f ->
  choose_flavour c kbtf check (Some f) = ((choose_flavour c kbtf check None).1, Some f).
Proof. unfold choose_flavour. destruct (_ || _); [done|]. destruct (c_force_fentry c); [done|]. cbn. by intros [= <-]. Qed.

(** ** Everything in place *)

Section attach_well.
  Variable usdt_ok : string -> list Z -> bool.
  Variable attach_ok : string -> string -> bool.
  Hypothesis Husdt : forall p f, usdt_ok p f = true.
  Hypothesis Hattach : forall o p, attach_ok o p = true.

Lemma attach_files_any prog files o any r :
  attach_files usdt_ok prog files o any = Some r -> r.1 = any || negb (bool_decide (files = [])) /\ li_paths r.2 = li_paths o.
Proof.
  revert o any. induction files as [|f files IH]; intros o any; cbn [attach_files]; [intros [= <-]; by rewrite orb_false_r|].
  rewrite Husdt. destruct (add_link o _) as [o1|] eqn:E; [|done]. cbn [mbind option_bind]. intros H%IH. cbn [orb] in H.
  unfold add_link in E. destruct (_ <? _)%nat; [|done]. injection E as <-. cbn in H. by rewrite orb_true_r.
Qed.

Lemma attach_usdt_well progs o r :
  Forall (fun x : string * string * bool => is_usdt x.1 = true -> tokens (li_paths o) [] <> []) progs ->
  attach_usdt_all usdt_ok progs o = Some r -> r.1 = true.
Proof.
  intros H. revert o H. induction progs as [|[p auto] progs IH]; intros o H; cbn [attach_usdt_all]; [by intros [= <-]|].
  apply Forall_cons in H as [Hp H]. cbn [fst snd] in *. destruct auto, (is_usdt p) eqn:Eu; cbn [negb orb]; [|by apply IH..].
  destruct (attach_files usdt_ok p.1 (tokens (li_paths o) []) o false) as [[any o1]|] eqn:E; [|done]. cbn [mbind option_bind].
  destruct (attach_files_any _ _ _ _ _ E) as [Ha Ho]. cbn [fst snd orb] in Ha, Ho.
  rewrite bool_decide_eq_false_2 in Ha by (by apply Hp). subst any. apply IH. by rewrite Ho.
Qed.

Lemma collect_well jobs o r : collect attach_ok jobs o = Some r -> r.1 = true.
Proof.
  revert o r. induction jobs as [|p jobs IH]; intros o r; cbn [collect]; [by intros [= <-]|]. rewrite Hattach.
  destruct (add_link o _) as [o1|]; [|done]. cbn [mbind option_bind]. apply IH.
Qed.

Lemma attach_all_well l :
  Forall (fun o => Forall (fun x : string * string * bool => is_usdt x.1 = true -> tokens (li_paths o) [] <> []) (li_progs o)) l ->
  exists l', attach_all usdt_ok attach_ok l = Some (0, l').
Proof.
  intros H. destruct (attach_all_links usdt_ok attach_ok l) as (r & l' & E & Hr & _). exists l'. rewrite E. do 2 f_equal.
  unfold attach_all in E. destruct (attach_usdt_objs usdt_ok l) as [[ok l1]|] eqn:E1; [|done]. cbn [mbind option_bind] in E.
  assert (ok = true) as ->.
  { clear E Hr l'. revert ok l1 E1. induction H as [|o l Ho H IH]; intros ok l1; cbn [attach_usdt_objs]; [by intros [= <- _]|].
    destruct (attach_usdt_all usdt_ok (li_progs o) (alloc_links o)) as [[ok1 o1]|] eqn:E; [|done]. cbn [mbind option_bind].
    assert (ok1 = true) as -> by (exact (attach_usdt_well _ (alloc_links o) _ Ho E)).
    destruct (attach_usdt_objs usdt_ok l) as [[ok2 l2]|]; [|done]. intros [= <- _]. by eapply IH. }
  cbn [negb] in E. destruct (collect_objs attach_ok l1) as [[ok l2]|] eqn:E2; [|done]. cbn [mbind option_bind] in E.
  assert (ok = true) as ->; [|by injection E].
  clear E Hr H E1. revert ok l2 E2. induction l1 as [|o l1 IH]; intros ok l2; cbn [collect_objs]; [by intros [= <- _]|].
  destruct (collect attach_ok (jobs_of o) o) as [[ok1 o1]|] eqn:E; [|done]. cbn [mbind option_bind].
  pose proof (collect_well _ _ _ E) as Hok. cbn in Hok. subst ok1.
  destruct (collect_objs attach_ok l1) as [[ok2 l3]|]; [|done]. intros [= <- _]. by rewrite (IH ok2 l3).
Qed.
End attach_well.

(** What a machine where all is well answers. *)
Record healthy (y : system) (c : ntp_config) : Prop := {
  hl_target : valid_target c;
  hl_session : (has (c_role c) NTP_ROLE_HOST && set_str (c_spdk_host c) && negb (str_eqb (c_session c) (bytes "all"))) = false;
  hl_resolves : is_Some (resolve_session (sy_present y) (sy_nsid y) (c_session c));
  hl_symbols : is_Some (sy_kallsyms y);
  hl_present : Forall (fun d => all_present d (ksyms y)) (wanted_of c);
  hl_btf : Forall (fun d => is_Some (btf_opts (sy_access y) c d)) (wanted_of c);
  hl_libbpf : forall d, sy_opens y d = true /\ sy_shares y d = true /\ forall setup, sy_loads y d setup = true;
  hl_procs : forall d, d ∈ wanted_of c -> d_spdk d = true -> exists ps, find_for y c d = Some ps /\ ps <> [];
  hl_usdt : forall p f, sy_usdt y p f = true;
  hl_attach : forall o p, sy_attach y o p = true;
  hl_ring : sy_ring y = true;
  hl_gate : forall p v, sy_gate y p v = true
}.

(** Only the objects for SPDK have USDT programs. *)
Lemma usdt_only_spdk d p : d ∈ objects -> p ∈ programs d -> is_usdt p = true -> d_spdk d = true.
Proof.
  intros Hd Hp Hu. assert (forallb (fun d => d_spdk d || forallb (fun p => negb (is_usdt p)) (programs d)) objects = true) as H
    by (vm_compute; reflexivity).
  rewrite forallb_forall in H. specialize (H d (proj1 (list_elem_of_In _ _) Hd)). apply orb_true_iff in H as [H|H]; [done|].
  rewrite forallb_forall in H. specialize (H p (proj1 (list_elem_of_In _ _) Hp)). by rewrite Hu in H.
Qed.

Lemma found_tokens y c d ps : find_for y c d = Some ps -> tokens (usdt_paths c d) [] <> [].
Proof.
  unfold find_for, ntp_spdk_find, paths_parse. intros H E. by rewrite E in H.
Qed.

(** The object [open_one] makes. *)
Definition opened (a : answers) (d : obj_desc) : obj_inst := mk_inst d (if d_spdk d then default [] (a_find a d) else []) false.

Lemma open_all_well a ds insts :
  Forall (fun d => a_btf a d = true /\ a_open a d = true /\ a_share a d = true /\ a_select a d = true /\ (forall shared, a_load a d shared = true) /\
    (d_spdk d = true -> exists ps, a_find a d = Some ps /\ ps <> [])) ds ->
  open_all a ds insts = (true, insts ++ (opened a <$> ds)).
Proof.
  intros H. revert insts. induction H as [|d ds (H1 & H2 & H3 & H4 & H5 & H6) H IH]; intros insts; cbn [open_all]; [by rewrite app_nil_r|].
  assert (open_one a d (negb (bool_decide (insts = []))) = (true, Some (opened a d))) as ->.
  { unfold open_one, opened. rewrite H1, H2, H3, H4, H5. cbn [negb orb andb]. rewrite andb_false_r.
    destruct (d_spdk d); [|done]. destruct (H6 eq_refl) as (ps & -> & Hne). cbn [andb]. by rewrite bool_decide_eq_false_2. }
  rewrite IH. cbn [from_option]. by rewrite <- app_assoc.
Qed.

Lemma answers_well y c :
  healthy y c ->
  Forall (fun d => let a := answers_of y c in a_btf a d = true /\ a_open a d = true /\ a_share a d = true /\ a_select a d = true /\ (forall shared, a_load a d shared = true) /\
    (d_spdk d = true -> exists ps, a_find a d = Some ps /\ ps <> [])) (wanted_of c).
Proof.
  intros H. apply Forall_forall. intros d Hd. destruct (hl_libbpf _ _ H d) as (L1 & L2 & L3).
  pose proof (hl_btf _ _ H) as Hb. pose proof (hl_present _ _ H) as Hp. rewrite Forall_forall in Hb, Hp.
  cbn [answers_of a_btf a_open a_share a_select a_load a_find]. rewrite L1, L2.
  split; [by destruct (Hb d Hd) as [x ->]|]. do 2 (split; [done|]). split; [|split; [done|]].
  - unfold selected_for. destruct (select_programs _ _ _ _ _ _) as [r l] eqn:E. destruct (select_fails _ _ _ _ _ _ _ _ E) as [[->|Hr] Hf]; [done|].
    apply Hf, Exists_exists in Hr as (p & Hpr & _ & _ & _ & Ht). specialize (Hp d Hd). unfold all_present in Hp. rewrite Forall_forall in Hp.
    by rewrite (Hp p Hpr) in Ht.
  - intros Hs. destruct (hl_procs _ _ H d Hd Hs) as (ps & E & Hne). unfold pids_for. rewrite E. eexists. split; [done|].
    by destruct ps.
Qed.

Lemma attached_well y c : healthy y c -> attached y c = true.
Proof.
  intros H. unfold attached. destruct (attach_all_well (sy_usdt y) (sy_attach y) (hl_usdt _ _ H) (hl_attach _ _ H) (linst_of y c <$> wanted_of c)) as [l' ->]; [|done].
  apply Forall_fmap, Forall_forall. intros d Hd. cbn [compose li_progs li_paths linst_of]. apply Forall_forall. intros [p auto] Hp Hu. cbn [fst] in Hu.
  assert (p ∈ programs d) as Hin by (apply elem_of_zip_l in Hp; done).
  assert (d ∈ objects) as Ho by (by apply list_elem_of_filter in Hd as []).
  destruct (hl_procs _ _ H d Hd (usdt_only_spdk d p Ho Hin Hu)) as (ps & E & _). by eapply found_tokens.
Qed.

Lemma mjoin_gates every (l : list obj_inst) :
  mjoin ((fun o => (fun p => AGate p every) <$> o_procs o) <$> l) = (fun p => AGate p every) <$> mjoin (o_procs <$> l).
Proof. induction l as [|o l IH]; [done|]. rewrite !fmap_cons. change (mjoin (?x :: ?y)) with (x ++ mjoin y). by rewrite IH, fmap_app. Qed.

(** C23: On a machine where all is well the loader opens: the objects of the
    configuration's roles and transport, each armed, and every SPDK process found
    for them sampling with the configured period, whatever it was before.  The selection of programs, the
    search for processes, the BTF and the links are the code's own. *)
Theorem loader_opens y c :
  healthy y c ->
  exists insts acts,
    open_on y c = (Some insts, acts) /\ o_desc <$> insts = wanted_of c /\
    (forall i, (i < List.length insts)%nat -> AArm i true ∈ acts) /\
    (forall o p old, o ∈ insts -> p ∈ o_procs o -> gate_of old acts p = c_sample_every c) /\
    (forall o, o ∈ insts -> if d_spdk (o_desc o) then pids_for y c (o_desc o) = Some (o_procs o) else o_procs o = []).
Proof.
  intros H. unfold open_on, ntp_loader_open. rewrite (hl_session _ _ H).
  cbn [answers_of a_session a_ksyms a_attach a_ring]. destruct (hl_resolves _ _ H) as [sel ->]. destruct (hl_symbols _ _ H) as [f Hf].
  rewrite Hf. cbn [ksyms_load mbind option_bind is_some negb orb].
  rewrite (open_all_well (answers_of y c) (wanted_of c) [] (answers_well y c H)). cbn [app negb orb]. rewrite (attached_well y c H), (hl_ring _ _ H).
  set (insts := opened (answers_of y c) <$> wanted_of c).
  assert (insts <> []) as Hne.
  { unfold insts. intros E%fmap_nil_inv. destruct (wanted_objects c (hl_target _ _ H)) as [Hp _]. rewrite E in Hp.
    apply Permutation_nil_l in Hp. destruct (hl_target _ _ H) as [[Hr|[Hr|Hr]] _]; unfold roles_of in Hp; by rewrite Hr in Hp. }
  rewrite (bool_decide_eq_false_2 _ Hne). cbn [orb negb]. rewrite start_gates_ok by (apply (hl_gate _ _ H)).
  rewrite mjoin_gates. eexists _, _. split; [reflexivity|]. rewrite <- fmap_reverse, reverse_involutive.
  split; [rewrite <- list_fmap_compose; unfold insts; rewrite <- list_fmap_compose; apply list_fmap_id|].
  split; [|split].
  - intros i Hi. rewrite length_fmap in Hi. apply elem_of_app. left. apply list_elem_of_lookup. exists i. rewrite list_lookup_imap.
    destruct (lookup_lt_is_Some_2 insts i Hi) as [o ->]. done.
  - intros o p old (o' & -> & Ho)%list_elem_of_fmap Hp. cbn in Hp. unfold gate_of. rewrite gate_from_app.
    rewrite (gate_from_none _ (imap _ _)) by (apply no_gates_imap; done). rewrite gate_from_set, decide_True; [done|].
    apply list_elem_of_join. exists (o_procs o'). split; [done|]. apply list_elem_of_fmap. exists o'. split; [done|]. by apply elem_of_reverse.
  - intros o (o' & -> & Ho)%list_elem_of_fmap. cbn [mark o_desc o_procs]. unfold insts in Ho. apply list_elem_of_fmap in Ho as (d & -> & Hd).
    cbn [opened o_desc o_procs answers_of a_find]. destruct (d_spdk d) eqn:Es; [|done].
    destruct (hl_procs _ _ H d Hd Es) as (ps & E & _). unfold pids_for. by rewrite E.
Qed.

(** A machine whose kernel has the symbols of the NVMe/TCP host, and BTF. *)
Definition example_system : system :=
  mk_system (fun _ => false) (fun _ => None)
    (Some (mjoin ((fun s => bytes "ffffffff81000000 T " ++ bytes s ++ [10]) <$> tcp_host_symbols)))
    (fun _ => true) FC_BLOCKED None (fun _ => true) (fun _ => true) (fun _ _ => true) 0 4096 (fun _ => None) Some 1 (fun _ => None)
    (Some []) (fun _ _ => true) (fun _ _ => true) true (fun _ _ => true).

Lemma loader_opens_witness :
  healthy example_system config_defaults /\
  exists insts acts, open_on example_system config_defaults = (Some insts, acts) /\ o_desc <$> insts = [tcp_host_desc].
Proof.
  assert (wanted_of config_defaults = [tcp_host_desc]) as Hw by (vm_compute; reflexivity).
  assert (healthy example_system config_defaults) as H.
  { split; try done.
    - split; by left.
    - rewrite Hw. constructor; [|constructor]. apply Forall_forall. intros p Hp.
      assert (forallb (target_present (ksyms example_system)) (programs tcp_host_desc) = true) as Hf by (vm_compute; reflexivity).
      rewrite forallb_forall in Hf. apply Hf. by apply list_elem_of_In.
    - rewrite Hw. constructor; [by eexists|constructor].
    - intros d Hd Hs. rewrite Hw in Hd. apply list_elem_of_singleton in Hd as ->. discriminate. }
  split; [exact H|]. destruct (loader_opens example_system config_defaults H) as (insts & acts & E & Hd & _).
  exists insts, acts. split; [exact E|]. by rewrite Hd.
Defined.
