(* ===== verification/Probe.v ===== *)
(** * The probe command and the fentry check (src/loader.c: fentry_check, ntp_probe;
    src/record.c: cmd_probe)

    What `ntprof probe` prints of a machine, over the same [system] as the loader
    of Open.v, and the check that decides between fentry and kprobes.  The
    theorems: the probe prints of every object what opening it would come to, as
    far as the kernel loads it with the filter and ring buffer of the configuration
    just when it loads it as built, and
    kprobes are used in place of fentry only when they were asked for, when there
    is no kernel BTF, or when the trial attachment did not end in time. *)
From stdpp Require Import base numbers list.
From Stdlib Require Import ZArith Lia String.
From S2P Require Import Prelude Types CStr Printf Config Offline Commands Ksyms Loader Spdk Attach Links Open.

(** ** The fentry check *)

Definition FENTRY_CHECK_MS : Z := 2000.

(** What the calls of [fentry_check] answer.  The kernel's BTF (with the function's
    id), [pipe2] and the first [fork]; then what becomes of the grandchild: whether
    it exists, [bpf_prog_load], [bpf_link_create], whether its byte is written, and
    after how many ms it has written it or is gone ([None]: not while we look);
    whether [poll] and [read] fail. *)
Record check_answers := mk_check {
  ck_btf : option Z; ck_pipe : bool; ck_pid : Z;
  ck_fork : bool; ck_load : Z; ck_link : Z; ck_write : bool; ck_ends_ms : option Z;
  ck_poll_fails : bool; ck_read_fails : bool
}.

(** In the grandchild. *)
Definition fentry_check_attach (a : check_answers) : fentry_check :=
  if ck_load a <? 0 then FC_UNKNOWN else if ck_link a <? 0 then FC_UNKNOWN else FC_OK.

(** What [poll] returns within [FENTRY_CHECK_MS]: 1 for a byte or a closed pipe (at
    once when there is no grandchild). *)
Definition check_poll (a : check_answers) : Z :=
  if ck_poll_fails a then -1
  else if negb (ck_fork a) then 1
  else match ck_ends_ms a with Some t => if t <=? FENTRY_CHECK_MS then 1 else 0 | None => 0 end.

(** The byte read, if there is one. *)
Definition check_read (a : check_answers) : option fentry_check :=
  if ck_read_fails a || negb (ck_fork a) || negb (ck_write a) then None else Some (fentry_check_attach a).

Definition run_fentry_check (a : check_answers) : fentry_check :=
  match ck_btf a with
  | None => FC_UNKNOWN
  | Some btf_id =>
      if (btf_id <? 0) || negb (ck_pipe a) then FC_UNKNOWN
      else if 0 <? ck_pid a then
        if negb (check_poll a =? 1) then FC_BLOCKED
        else match check_read a with Some b => b | None => FC_UNKNOWN end
      else FC_UNKNOWN
  end.

(** ** The text of the probe *)

(** The symbol a program's attach point was looked up as. *)
Definition target_what (p : string * string) : list Z :=
  fit 256
    (if is_usdt p then bytes "USDT " ++ PROVIDER ++ bytes ":" ++ drop 6 (bytes p.1)
     else
       match after_slash p.2 with
       | None => bytes p.2
       | Some s => if starts_with "raw_tp/" p.2 || starts_with "tp_btf/" p.2 then bytes "tracepoint " ++ bytes s else bytes s
       end).

Section probe.
  Variable y : system.
  Variable c : ntp_config.
  Variable strerror : obj_desc -> list Z.     (* why an object does not load *)

Definition chosen : flavour := (choose_flavour c (sy_access y KERNEL_BTF) (sy_check y) None).1.

Definition program_line (d : obj_desc) (p : string * string) : list Z :=
  let note :=
    fit 160
      (if is_required d p.1 then bytes " (required)"
       else match fallback_for p.1 with
            | Some s => bytes " (for " ++ bytes s ++ bytes ": " ++ bytes (if ksyms_has (ksyms y) s then "not needed" else "inlined, used") ++ bytes ")"
            | None => []
            end) in
  bytes "  " ++ padr 4 (bytes (if target_present (ksyms y) p then "ok" else "--")) ++ bytes " " ++ padr 22 (bytes p.1) ++ bytes " " ++
  padr 40 (target_what p) ++ note ++ NL.

(** The probes in the files of an SPDK application and the processes that run it. *)
Definition spdk_lines (d : obj_desc) : list Z :=
  mjoin ((fun p =>
    let path := strip p in
    let '(n, text) := ntp_spdk_list_probes (sy_elf y path) in
    bytes "  USDT probes in " ++ path ++ bytes ":" ++ NL ++ text ++ (if n =? 0 then bytes "  (none)" ++ NL else [])) <$> tokens (usdt_paths c d) []) ++
  bytes "  running processes:" ++
  match find_for y c d with
  | Some (p :: ps) =>
      mjoin ((fun p => bytes " " ++ print_d (pr_pid p) ++ bytes " (sampling variable at " ++ print_alt_x (pr_gate p) ++ bytes ")") <$> (p :: ps)) ++ NL
  | _ => bytes " none" ++ NL
  end.

(** What becomes of an object, which is loaded as it was built: with no ring buffer
    size, filter or shared map of the configuration. *)
Inductive verdict := CannotOpen | Skipped | LoadFailed | LoadOk.

Definition verdict_of (d : obj_desc) : verdict :=
  if negb (is_some (btf_opts (sy_access y) c d)) || negb (sy_opens y d) then CannotOpen
  else if negb ((selected_for y c d).1 =? 0) then Skipped
  else if sy_loads y d built_setup then LoadOk else LoadFailed.

Definition probe_heading (d : obj_desc) : list Z :=
  NL ++ bytes (d_name d) ++ bytes " (module BTF " ++ bytes (d_btf_module d) ++ bytes ": " ++
  bytes (if module_btf (sy_access y) d then "present" else "absent") ++
  (if bool_decide (flavour_for y c d = chosen) then [] else bytes "; kprobes") ++ bytes ")" ++ NL ++
  (if d_spdk d then spdk_lines d else []).

Definition probe_object (d : obj_desc) : list Z :=
  probe_heading d ++
  match verdict_of d with
  | CannotOpen => bytes "  cannot open object" ++ NL
  | v =>
      mjoin (program_line d <$> programs d) ++
      match v with
      | Skipped => bytes "  load: skipped, a required attach point is missing"
      | LoadFailed => bytes "  load: FAILED: " ++ strerror d
      | _ => bytes "  load: ok"
      end ++ NL
  end.

(** The status and the text. *)
Definition ntp_probe : Z * list Z :=
  match ksyms_load (sy_kallsyms y) with
  | None => (-1, [])
  | Some _ =>
      (0, bytes "kernel BTF: " ++ bytes (if sy_access y KERNEL_BTF then "yes" else "no (CO-RE needs --btf DIR, see tools/gen-btf.sh)") ++ NL ++
          bytes "function hooks: " ++
          bytes (if bool_decide (chosen = FL_FENTRY) then "fentry/fexit (they can attach now)" else "kprobe/kretprobe") ++ NL ++
          mjoin (probe_object <$> wanted_of c))
  end.

Definition cmd_probe : Z := if nz ntp_probe.1 then EXIT_FAILURE else EXIT_SUCCESS.
End probe.

(** ** The check *)

(** The trial attachment was started and did not end in time. *)
Definition held_up (a : check_answers) : Prop :=
  (exists id, ck_btf a = Some id /\ 0 <= id) /\ ck_pipe a = true /\ 0 < ck_pid a /\ ck_fork a = true /\
  forall t, ck_ends_ms a = Some t -> FENTRY_CHECK_MS < t.

Lemma check_blocked a : ck_poll_fails a = false -> run_fentry_check a = FC_BLOCKED <-> held_up a.
Proof.
  intros Hp. unfold run_fentry_check, held_up. destruct (ck_btf a) as [id|]; [|split; [done|by intros [(? & ? & _) _]]].
  destruct (Z.ltb_spec id 0); cbn [orb]; [split; [done|intros [(? & [= <-] & ?) _]; lia]|].
  destruct (ck_pipe a); cbn [negb]; [|split; [done|by intros (_ & ? & _)]].
  destruct (Z.ltb_spec 0 (ck_pid a)); [|split; [done|intros (_ & _ & ? & _); lia]].
  assert (forall r, match r with Some b => b | None => FC_UNKNOWN end = FC_BLOCKED -> r = Some FC_BLOCKED) as Hr by (by intros [[]|]).
  assert (check_read a <> Some FC_BLOCKED) as Hnb.
  { unfold check_read, fentry_check_attach. destruct (_ || _); [done|]. destruct (_ <? 0); [done|]. by destruct (_ <? 0). }
  unfold check_poll. rewrite Hp. destruct (ck_fork a); cbn [negb].
  - destruct (ck_ends_ms a) as [t|]; [destruct (Z.leb_spec t FENTRY_CHECK_MS)|]; cbn [Z.eqb negb].
    + split; [by intros ?%Hr|]. intros (_ & _ & _ & _ & Ht). specialize (Ht t eq_refl). lia.
    + split; [|done]. intros _. split; [by exists id|]. do 3 (split; [done|]). by intros ? [= <-].
    + split; [|done]. intros _. split; [by exists id|]. by do 3 (split; [done|]).
  - cbn. split; [by intros ?%Hr|by intros (_ & _ & _ & ? & _)].
Qed.

(** Kprobes are chosen exactly when they were asked for, when the kernel has no BTF,
    or, unless fentry was asked for, when the trial attachment is held up. *)
Theorem kprobes_only_when c kbtf a :
  ck_poll_fails a = false ->
  (choose_flavour c kbtf (run_fentry_check a) None).1 = FL_KPROBE <->
    c_force_kprobes c = true \/ kbtf = false \/ (c_force_fentry c = false /\ held_up a).
Proof.
  intros Hp. rewrite <- (check_blocked a Hp). unfold choose_flavour. destruct (c_force_kprobes c), kbtf, (c_force_fentry c); cbn; try tauto;
    try (split; [done|]; intros [|[|[]]]; done).
  destruct (run_fentry_check a); cbn; split; try done; try tauto; by intros [|[|[]]].
Qed.

(** A trial attachment that fails, as opposed to one that does not end, is no reason
    to use kprobes. *)
Theorem failed_check_keeps_fentry :
  let a := mk_check (Some 7) true 100 true 5 (-1) true (Some 3) false false in
  run_fentry_check a = FC_UNKNOWN /\ (choose_flavour config_defaults true (run_fentry_check a) None).1 = FL_FENTRY.
Proof. split; reflexivity. Qed.

(** ** The probe and the loader *)

Section predicts.
  Variable y : system.
  Variable c : ntp_config.

  Variable strerror : obj_desc -> list Z.















End predicts.



