(* ===== verification/Main.v ===== *)
(** * The command line (src/main.c)

    The two passes over the options and the command chosen.  The options come as
    [getopt_long] presents them; Getopt.v has what it does with the command line. *)
From stdpp Require Import base numbers list.
From Stdlib Require Import ZArith Lia Ascii String.
From S2P Require Import Prelude Types CStr Config Loader.

(** ** Options *)

Inductive opt :=
  | O_config | O_role | O_transport | O_duration | O_interval | O_sample | O_output | O_json | O_verbose | O_version
  | O_help | O_unknown | OPT_SESSION | OPT_IO_TYPE | OPT_SIZE | OPT_AGGR | OPT_OFFLINE | OPT_BTF | OPT_EXACT_QUEUES
  | OPT_KPROBES | OPT_FENTRY | OPT_SPDK_HOST | OPT_SPDK_TARGET | OPT_DETAIL | OPT_ALL_GROUPS.

#[export] Instance opt_eq_dec : EqDecision opt.
Proof. solve_decision. Defined.

Definition PATH_LEN : nat := 256.

Definition parse_uint (v : list Z) (min : Z) : option Z :=
  match v with
  | [] => None
  | _ =>
      let '(_, x, rest) := strtoull v in
      match rest with
      | [] => if (x <? min) || (2 ^ 32 - 1 <? x) then None else Some x
      | _ => None
      end
  end.

(** Whether the value is good, and the configuration it leaves. *)
Definition apply_option (c : ntp_config) (o : opt) (v : list Z) : bool * ntp_config :=
  match o with
  | O_role =>
      if str_eqb v (bytes "host") then (true, set_role c NTP_ROLE_HOST)
      else if str_eqb v (bytes "target") then (true, set_role c NTP_ROLE_TARGET)
      else if str_eqb v (bytes "both") then (true, set_role c NTP_ROLE_BOTH)
      else (false, c)
  | O_transport =>
      if str_eqb v (bytes "tcp") then (true, set_transport c NTP_TR_TCP)
      else if str_eqb v (bytes "rdma") then (true, set_transport c NTP_TR_RDMA)
      else (false, c)
  | O_duration => store c set_duration_s (parse_uint v 1)
  | O_interval => store c set_interval_s (parse_uint v 1)
  | O_sample => store c set_sample_every (parse_uint v 1)
  | O_output => (true, set_output c (fit PATH_LEN v))
  | O_json => (true, set_json c (fit PATH_LEN v))
  | OPT_SESSION => (true, set_session c (fit SESSION_LEN v))
  | OPT_IO_TYPE => config_set_io_type c v
  | OPT_SIZE => config_set_sizes c v
  | OPT_AGGR => config_set_aggr c v
  | OPT_OFFLINE => (true, set_online c false)
  | OPT_BTF => (true, set_btf_dir c (fit PATH_LEN v))
  | OPT_EXACT_QUEUES => (true, set_exact_queues c true)
  | OPT_KPROBES => (true, set_force_kprobes c true)
  | OPT_FENTRY => (true, set_force_fentry c true)
  | OPT_SPDK_HOST => (true, set_spdk_host c (fit SPDK_LEN v))
  | OPT_SPDK_TARGET => (true, set_spdk_target c (fit SPDK_LEN v))
  | OPT_DETAIL => (true, set_rep_detail c true)
  | OPT_ALL_GROUPS => (true, set_rep_all_groups c true)
  | _ => (false, c)
  end.

(** The first pass: the ini file, the verbosity, or the status to leave with. *)
Fixpoint first_pass (opts : list (opt * list Z)) (ini : option (list Z)) (verbose : Z) : Z + (option (list Z) * Z) :=
  match opts with
  | [] => inr (ini, verbose)
  | (o, v) :: opts =>
      match o with
      | O_config => first_pass opts (Some v) verbose
      | O_verbose => first_pass opts ini (verbose + 1)
      | O_help => inl 0
      | O_version => inl 0
      | O_unknown => inl 1
      | _ => first_pass opts ini verbose
      end
  end.

Definition skipped_option (o : opt) : bool := match o with O_config | O_verbose | O_version => true | _ => false end.

(** The second pass. *)
Fixpoint second_pass (c : ntp_config) (opts : list (opt * list Z)) : option ntp_config :=
  match opts with
  | [] => Some c
  | (o, v) :: opts =>
      if skipped_option o then second_pass c opts
      else let '(ok, c) := apply_option c o v in if ok then second_pass c opts else None
  end.

(** What [main] goes on to do. *)
Inductive action :=
  | ActExit (status : Z)
  | ActRecord (c : ntp_config)
  | ActReport (c : ntp_config) (files : list (list Z))
  | ActCompare (c : ntp_config) (base loaded : list Z)
  | ActProbe (c : ntp_config)
  | ActDump (files : list (list Z)).

(** The command, with the configuration and the operands. *)
Definition dispatch (cmd : list Z) (c : ntp_config) (files : list (list Z)) : action :=
  if str_eqb cmd (bytes "record") then match files with [] => ActRecord c | _ => ActExit 1 end
  else if str_eqb cmd (bytes "report") then ActReport c files
  else if str_eqb cmd (bytes "compare") then
    match files with [b; l] => ActCompare c b l | _ => ActExit 1 end
  else if str_eqb cmd (bytes "probe") then ActProbe c
  else if str_eqb cmd (bytes "dump") then ActDump files
  else ActExit 1.

(** [cmd]: the first argument; [opts] and [again]: the options getopt presents in the
    first and in the second pass; [files]: the operands left after it; [read]: the files
    of the machine. *)
Definition main (read : list Z -> option (list Z)) (cmd : option (list Z)) (opts again : list (opt * list Z))
    (files : list (list Z)) : action :=
  match cmd with
  | None => ActExit 1
  | Some cmd =>
      if str_eqb cmd (bytes "-h") || str_eqb cmd (bytes "--help") then ActExit 0
      else if str_eqb cmd (bytes "version") || str_eqb cmd (bytes "-V") || str_eqb cmd (bytes "--version") then ActExit 0
      else
        match first_pass opts None 0 with
        | inl st => ActExit st
        | inr (ini, _) =>
            let '(ok, c) := match ini with Some f => config_load_ini config_defaults (read f) | None => (true, config_defaults) end in
            if negb ok then ActExit 1
            else
              match second_pass c again with
              | None => ActExit 1
              | Some c => dispatch cmd c files
              end
        end
  end.

(** ** Every command gets a usable configuration *)

Lemma parse_uint_range v min x : 0 <= min -> parse_uint v min = Some x -> min <= x < 2 ^ 32.
Proof.
  intros Hm. unfold parse_uint. destruct v as [|a v]; [done|]. destruct (strtoull (a :: v)) as [[e y] rest]. destruct rest; [|done].
  destruct ((y <? min) || (2 ^ 32 - 1 <? y)) eqn:E; [done|]. intros [= <-].
  apply orb_false_iff in E as [E1%Z.ltb_ge E2%Z.ltb_ge]. lia.
Qed.

(** The configuration of a machine's command: usable, and for a role and a
    transport there is. *)
Definition runnable (c : ntp_config) : Prop :=
  config_ok c /\ valid_target c /\ 0 <= c_duration_s c < 2 ^ 32 /\
  (List.length (c_output c) < PATH_LEN)%nat /\ (List.length (c_json c) < PATH_LEN)%nat /\ (List.length (c_btf_dir c) < PATH_LEN)%nat.

Lemma runnable_frame c c' :
  runnable c -> config_ok c' -> c_role c' = c_role c -> c_transport c' = c_transport c -> c_duration_s c' = c_duration_s c ->
  c_output c' = c_output c -> c_json c' = c_json c -> c_btf_dir c' = c_btf_dir c -> runnable c'.
Proof.
  intros (H1 & H2 & H3 & H4) Hok Er Et Ed Eo Ej Eb. unfold runnable, valid_target. by rewrite Er, Et, Ed, Eo, Ej, Eb.
Qed.

(** What the ini parser and the shared setters leave alone. *)
Definition same_machine (c c' : ntp_config) : Prop :=
  c_role c' = c_role c /\ c_transport c' = c_transport c /\ c_duration_s c' = c_duration_s c /\
  c_output c' = c_output c /\ c_json c' = c_json c /\ c_btf_dir c' = c_btf_dir c.

Lemma same_machine_refl c : same_machine c c.
Proof. done. Qed.
Lemma same_machine_trans a b c : same_machine a b -> same_machine b c -> same_machine a c.
Proof. unfold same_machine. intros (<- & <- & <- & <- & <- & <-). done. Qed.

Lemma set_sizes_machine c v : same_machine c (config_set_sizes c v).2.
Proof.
  unfold config_set_sizes. assert (forall toks n c', same_machine c' (set_sizes_loop toks n c').2) as H.
  { induction toks as [|t toks IH]; intros n c'; cbn [set_sizes_loop]; [done|].
    repeat case_match; try done; cbn [snd]; match goal with |- same_machine _ (set_sizes_loop _ _ ?x).2 =>
      eapply (same_machine_trans _ x); [done|apply IH] end. }
  specialize (H (tokens v []) 0%nat c). by destruct (set_sizes_loop (tokens v []) 0 c) as [[n|] c'].
Qed.

Lemma set_io_type_machine c v : same_machine c (config_set_io_type c v).2 /\ (config_ok c -> config_ok (config_set_io_type c v).2).
Proof. unfold config_set_io_type. repeat case_match; (split; [done|]); intros []; by split. Qed.

Lemma set_aggr_machine c v : same_machine c (config_set_aggr c v).2 /\ (config_ok c -> config_ok (config_set_aggr c v).2).
Proof. unfold config_set_aggr. repeat case_match; (split; [done|]); intros []; by split. Qed.

Lemma store_machine {A} c (put : ntp_config -> A -> ntp_config) v :
  (forall x, same_machine c (put c x)) -> same_machine c (store c put v).2.
Proof. intros H. destruct v; [apply H|apply same_machine_refl]. Qed.

Lemma apply_machine c section key v : same_machine c (apply c section key v).2.
Proof.
  unfold apply. pose proof (set_sizes_machine c v). pose proof (proj1 (set_io_type_machine c v)). pose proof (proj1 (set_aggr_machine c v)).
  assert (same_machine c (set_tracking c v).2) by (unfold set_tracking; by repeat case_match).
  repeat (match goal with |- same_machine _ (if ?b then _ else _).2 => destruct b; [first [done|by apply store_machine]|] end). done.
Qed.

Lemma load_lines_machine fuel c section f : same_machine c (load_lines fuel c section f).2.
Proof.
  revert c section f. induction fuel as [|n IH]; intros c section f; cbn [load_lines]; [done|].
  destruct f as [|x f]; [done|]. destruct (fgets (LINE_LEN - 1) (x :: f)) as [line f'].
  assert (same_machine c (load_line c section (c_string line)).2.1) as H.
  { unfold load_line. destruct (strip _) as [|y r]; [done|]. destruct (y =? 91).
    - by destruct (split_at 93 (y :: r)) as [[a b]|].
    - destruct (split_at 61 (y :: r)) as [[k v]|]; [|done]. pose proof (apply_machine c section (strip k) (strip v)) as Ha.
      by destruct (apply c section (strip k) (strip v)). }
  destruct (load_line c section (c_string line)) as [ok [c' sec']]. cbn [fst snd] in H. destruct ok; [|done].
  eapply same_machine_trans; [exact H|apply IH].
Qed.

Lemma load_ini_machine c file : same_machine c (config_load_ini c file).2.
Proof. destruct file; [apply load_lines_machine|done]. Qed.

Lemma runnable_same c c' : runnable c -> config_ok c' -> same_machine c c' -> runnable c'.
Proof. intros H Hok (H1 & H2 & H3 & H4 & H5 & H6). by eapply runnable_frame. Qed.

Lemma apply_option_ok c o v : runnable c -> runnable (apply_option c o v).2.
Proof.
  intros Hr. pose proof Hr as (Hok & (Hrole & Htr) & Hd & Ho & Hj & Hb).
  pose proof (config_ok_strings c v Hok) as (S1 & _ & S3 & S4).
  pose proof (fun b => config_ok_bools c b Hok) as Hbools.
  assert (forall x, 1 <= x < 2 ^ 32 -> config_ok (set_interval_s c x) /\ config_ok (set_sample_every c x)) as Hnum
    by (intros x Hx; pose proof (proj2 (config_ok_numbers c x Hok) Hx); tauto).
  assert (forall c', config_ok c' -> same_machine c c' -> runnable c') as Hsame by (intros; by eapply runnable_same).
  assert (forall s, (List.length (fit PATH_LEN s) < PATH_LEN)%nat) as Hfit by (intros s; apply fit_length; unfold PATH_LEN; lia).
  unfold apply_option. destruct o; cbn [snd]; try exact Hr; try (by apply Hsame; [assumption|]).
  - repeat case_match; cbn [snd]; try done; (split; [destruct Hok; by split|]; split; [split; [|exact Htr]|done]); cbn; auto.
  - repeat case_match; cbn [snd]; try done; (split; [destruct Hok; by split|]; split; [split; [exact Hrole|]|done]); cbn; auto.
  - destruct (parse_uint v 1) as [x|] eqn:E; [|done]. apply parse_uint_range in E; [|lia].
    split; [destruct Hok; by split|]. split; [done|]. cbn. split; [lia|done].
  - destruct (parse_uint v 1) as [x|] eqn:E; [|done]. apply parse_uint_range in E; [|lia]. by apply Hsame; [apply Hnum|].
  - destruct (parse_uint v 1) as [x|] eqn:E; [|done]. apply parse_uint_range in E; [|lia]. by apply Hsame; [apply Hnum|].
  - split; [destruct Hok; by split|]. split; [done|]. exact (conj Hd (conj (Hfit v) (conj Hj Hb))).
  - split; [destruct Hok; by split|]. split; [done|]. exact (conj Hd (conj Ho (conj (Hfit v) Hb))).
  - apply Hsame; apply set_io_type_machine; done.
  - apply Hsame; [by apply set_sizes_ok|apply set_sizes_machine].
  - apply Hsame; apply set_aggr_machine; done.
  - apply Hsame; [apply Hbools|done].
  - split; [destruct Hok; by split|]. split; [done|]. exact (conj Hd (conj Ho (conj Hj (Hfit v)))).
  - apply Hsame; [apply Hbools|done].
  - apply Hsame; [destruct Hok; by split|done].
  - apply Hsame; [destruct Hok; by split|done].
  - apply Hsame; [apply Hbools|done].
  - apply Hsame; [apply Hbools|done].
Qed.

Lemma second_pass_ok opts c c' : runnable c -> second_pass c opts = Some c' -> runnable c'.
Proof.
  revert c. induction opts as [|[o v] opts IH]; intros c Hc; cbn [second_pass]; [by intros [= <-]|].
  destruct (skipped_option o); [by apply IH|]. pose proof (apply_option_ok c o v Hc) as Ho.
  destruct (apply_option c o v) as [[] c1]; [|done]. by apply IH.
Qed.

Lemma load_ini_usable file : config_ok (config_load_ini config_defaults file).2.
Proof. destruct file; [by apply load_lines_ok, defaults_ok|apply defaults_ok]. Qed.

Lemma defaults_runnable : runnable config_defaults.
Proof. split; [apply defaults_ok|]. split; [split; by left|]. cbn. unfold PATH_LEN. lia. Qed.

Definition action_config (a : action) : option ntp_config :=
  match a with
  | ActRecord c | ActReport c _ | ActCompare c _ _ | ActProbe c => Some c
  | ActExit _ | ActDump _ => None
  end.

(** C39: Whatever the task file and the options hold, a command runs with a usable
    configuration or not at all: strings fit their arrays, sizes, periods and
    intervals are in range, the role and the transport are ones there are
    objects for, and record gets no file arguments and compare exactly two. *)
Theorem main_runs_usable read cmd opts again files :
  let a := main read cmd opts again files in
  (forall c, action_config a = Some c -> runnable c) /\
  (forall c, a = ActRecord c -> files = []) /\ (forall c b l, a = ActCompare c b l -> files = [b; l]) /\
  (forall st, a = ActExit st -> st = 0 \/ st = 1).
Proof.
  cbv zeta. unfold main. destruct cmd as [cmd|]; [|repeat split; try done; intros st [= <-]; by right].
  destruct (_ || _); [repeat split; try done; intros st [= <-]; by left|].
  destruct (_ || _ || _); [repeat split; try done; intros st [= <-]; by left|].
  assert (forall l i v, match first_pass l i v with inl st => st = 0 \/ st = 1 | inr _ => True end) as Hst.
  { induction l as [|[o w] l IH]; intros i v; cbn [first_pass]; [done|]. destruct o; try apply IH; auto. }
  specialize (Hst opts None 0). destruct (first_pass opts None 0) as [st|[ini v]].
  { repeat split; try done. intros st' [= <-]. exact Hst. }
  set (r := match ini with Some f => _ | None => _ end).
  assert (runnable r.2) as Hr.
  { subst r. destruct ini as [f|]; [|apply defaults_runnable].
    eapply runnable_same; [apply defaults_runnable|apply load_ini_usable|apply load_ini_machine]. }
  destruct r as [ok c]. cbn [snd] in Hr. destruct ok; cbn [negb]; [|repeat split; try done; intros st [= <-]; by right].
  destruct (second_pass c again) as [c'|] eqn:E; [|repeat split; try done; intros st [= <-]; by right].
  apply second_pass_ok in E; [|done]. unfold dispatch.
  assert (forall st, st = 0 \/ st = 1 -> (forall c, action_config (ActExit st) = Some c -> runnable c) /\
    (forall c, ActExit st = ActRecord c -> files = []) /\ (forall c b l, ActExit st = ActCompare c b l -> files = [b; l]) /\
    (forall st', ActExit st = ActExit st' -> st' = 0 \/ st' = 1)) as Hexit by (intros st Hst'; repeat split; try done; by intros st' [= <-]).
  destruct (str_eqb cmd (bytes "record")).
  { destruct files; [|by apply Hexit; right]. split; [by intros c0 [= <-]|done]. }
  destruct (str_eqb cmd (bytes "report")); [split; [by intros c0 [= <-]|done]|].
  destruct (str_eqb cmd (bytes "compare")).
  { destruct files as [|f1 [|f2 [|f3 fs]]]; try (by apply Hexit; right). split; [by intros c0 [= <-]|]. split; [done|]. split; [|done].
    by intros c0 b l [= _ <- <-]. }
  destruct (str_eqb cmd (bytes "probe")); [split; [by intros c0 [= <-]|done]|].
  destruct (str_eqb cmd (bytes "dump")); [done|by apply Hexit; right].
Qed.

(** ** An option overrides the task file *)

Lemma option_sample c o v :
  o <> O_sample -> c_sample_every (apply_option c o v).2 = c_sample_every c.
Proof.
  intros Hne. unfold apply_option. destruct o; try done; try (by repeat case_match); try (by destruct (parse_uint v 1)).
  - unfold config_set_io_type. by repeat case_match.
  - unfold config_set_sizes. assert (forall toks n c', c_sample_every (set_sizes_loop toks n c').2 = c_sample_every c') as H.
    { induction toks as [|t toks IH]; intros n c'; cbn [set_sizes_loop]; [done|]. repeat case_match; try done; cbn [snd]; by rewrite IH. }
    specialize (H (tokens v []) 0%nat c). by destruct (set_sizes_loop (tokens v []) 0 c) as [[n|] c'].
  - unfold config_set_aggr. by repeat case_match.
Qed.

Lemma second_pass_app c a b : second_pass c (a ++ b) = c' ← second_pass c a; second_pass c' b.
Proof.
  revert c. induction a as [|[o v] a IH]; intros c; cbn [second_pass app]; [done|].
  destruct (skipped_option o); [apply IH|]. destruct (apply_option c o v) as [[] c']; [apply IH|done].
Qed.

Lemma second_pass_sample opts c c' :
  Forall (fun x => x.1 <> O_sample) opts -> second_pass c opts = Some c' -> c_sample_every c' = c_sample_every c.
Proof.
  intros H. revert c. induction H as [|[o v] opts Ho Hopts IH]; intros c; cbn [second_pass]; [by intros [= <-]|].
  destruct (skipped_option o); [by apply IH|]. pose proof (option_sample c o v Ho) as Hs.
  destruct (apply_option c o v) as [[] c1]; [|done]. intros E. rewrite (IH c1 E). exact Hs.
Qed.

(** The last -s counts, whatever the task file says and wherever -c stands. *)
Lemma sample_option_wins c pre v post c' x :
  second_pass c (pre ++ (O_sample, v) :: post) = Some c' -> Forall (fun o => o.1 <> O_sample) post ->
  parse_uint v 1 = Some x -> c_sample_every c' = x.
Proof.
  intros E Hp Hx. rewrite second_pass_app in E. destruct (second_pass c pre) as [c1|]; [|done]. cbn in E. rewrite Hx in E. cbn in E.
  by rewrite (second_pass_sample post _ _ Hp E).
Qed.
