(* ===== verification/Getopt.v ===== *)
(** * The command line as it is typed (src/main.c)

    [main] of Main.v starts from the options as [getopt_long] presents them; here is
    [getopt_long] with the tables of main.c: clusters of short options, long options
    with their value in the next argument or after an equal sign, unique abbreviations,
    operands anywhere among the options, and "--"; and the two scans of main over the
    same arguments, of which the first one moves the operands to the end.  The options of
    a command line are those the usage text lists, and what each of them is for is said
    here by its long name ([meanings]): the theorem is that the tables, the scans and the
    switch of main.c come to that. *)
From stdpp Require Import base numbers list.
From Stdlib Require Import ZArith Lia Ascii String.
From S2P Require Import Prelude Types CStr Printf Config Loader Main.

(** ** The tables *)

(** The name, whether it needs an argument, and the option. *)
Definition long_opts : list (list Z * bool * opt) :=
  [(bytes "config", true, O_config); (bytes "role", true, O_role); (bytes "transport", true, O_transport);
   (bytes "duration", true, O_duration); (bytes "interval", true, O_interval); (bytes "sample", true, O_sample);
   (bytes "output", true, O_output); (bytes "json", true, O_json); (bytes "session", true, OPT_SESSION);
   (bytes "io-type", true, OPT_IO_TYPE); (bytes "size", true, OPT_SIZE); (bytes "aggregation", true, OPT_AGGR);
   (bytes "offline", false, OPT_OFFLINE); (bytes "btf", true, OPT_BTF); (bytes "exact-queues", false, OPT_EXACT_QUEUES);
   (bytes "kprobes", false, OPT_KPROBES); (bytes "fentry", false, OPT_FENTRY); (bytes "spdk-host", true, OPT_SPDK_HOST);
   (bytes "spdk-target", true, OPT_SPDK_TARGET); (bytes "detail", false, OPT_DETAIL); (bytes "all-groups", false, OPT_ALL_GROUPS);
   (bytes "verbose", false, O_verbose); (bytes "version", false, O_version); (bytes "help", false, O_help)]%string.

Definition short_opts : list Z := bytes "c:r:t:d:i:s:o:j:vVh".

(** The option of a character of [short_opts], as the switch of [main] takes it. *)
Definition opt_of_char (c : Z) : opt :=
  if c =? 99 then O_config else if c =? 114 then O_role else if c =? 116 then O_transport else if c =? 100 then O_duration
  else if c =? 105 then O_interval else if c =? 115 then O_sample else if c =? 111 then O_output else if c =? 106 then O_json
  else if c =? 118 then O_verbose else if c =? 86 then O_version else if c =? 104 then O_help else O_unknown.

(** ** getopt_long *)

Definition COLON : Z := 58.
Definition DASH : Z := 45.
Definition EQUALS : Z := 61.

(** A character in the table: whether a colon follows it. *)
Fixpoint short_lookup (table : list Z) (c : Z) : option bool :=
  match table with
  | [] => None
  | x :: table =>
      if (x =? c) && negb (c =? COLON) then Some (match table with y :: _ => y =? COLON | [] => false end) else short_lookup table c
  end.

Fixpoint prefix_of (p s : list Z) : bool :=
  match p, s with
  | [], _ => true
  | a :: p, b :: s => (a =? b) && prefix_of p s
  | _, [] => false
  end.

(** A long name: itself, or a prefix of one name only. *)
Definition long_lookup (name : list Z) : option (bool * opt) :=
  match List.filter (fun x => str_eqb x.1.1 name) long_opts, List.filter (fun x => prefix_of name x.1.1) long_opts with
  | (_, arg, o) :: _, _ => Some (arg, o)
  | [], [(_, arg, o)] => Some (arg, o)
  | [], _ => None
  end.

(** [name=value] *)
Fixpoint cut_value (s : list Z) : list Z * option (list Z) :=
  match s with
  | [] => ([], None)
  | c :: s => if c =? EQUALS then ([], Some s) else let '(n, v) := cut_value s in (c :: n, v)
  end.

(** A cluster of short options: the options, and the one that wants the next argument. *)
Fixpoint cluster (s : list Z) : list (opt * list Z) * option opt :=
  match s with
  | [] => ([], None)
  | c :: s =>
      match short_lookup short_opts c with
      | None => let '(l, w) := cluster s in ((O_unknown, []) :: l, w)
      | Some false => let '(l, w) := cluster s in ((opt_of_char c, []) :: l, w)
      | Some true => match s with [] => ([], Some (opt_of_char c)) | _ => ([(opt_of_char c, s)], None) end
      end
  end.

(** One long option: what it gives, or the option that wants the next argument. *)
Definition long_option (s : list Z) : (opt * list Z) + opt :=
  let '(name, value) := cut_value s in
  match long_lookup name, value with
  | None, _ => inl (O_unknown, [])
  | Some (true, o), Some v => inl (o, v)
  | Some (true, o), None => inr o
  | Some (false, o), None => inl (o, [])
  | Some (false, _), Some _ => inl (O_unknown, [])
  end.

(** What an argument is. *)
Inductive word :=
  | WEnd
  | WOptions (l : list (opt * list Z)) (wants : option opt)
  | WOperand (a : list Z).

Definition classify (a : list Z) : word :=
  match a with
  | c :: d :: s =>
      if negb (c =? DASH) then WOperand a
      else if negb (d =? DASH) then let '(l, w) := cluster (d :: s) in WOptions l w
      else match s with
           | [] => WEnd
           | _ => match long_option s with inl x => WOptions [x] None | inr o => WOptions [] (Some o) end
           end
  | _ => WOperand a
  end.

(** The options in order, the words they took, and the operands. *)
Fixpoint getopt_words (args : list (list Z)) : list (opt * list Z) * list (list Z) * list (list Z) :=
  match args with
  | [] => ([], [], [])
  | a :: args =>
      match classify a with
      | WEnd => ([], [a], args)
      | WOperand a => let '(l, w, f) := getopt_words args in (l, w, a :: f)
      | WOptions l None => let '(l', w, f) := getopt_words args in (l ++ l', a :: w, f)
      | WOptions l (Some o) =>
          match args with
          | [] => (l ++ [(O_unknown, [])], [a], [])
          | v :: args => let '(l', w, f) := getopt_words args in (l ++ (o, v) :: l', a :: v :: w, f)
          end
      end
  end.

(** Calling [getopt_long] until it returns -1: the options, [argv] with the operands moved
    behind the options, and [optind], which tells where to start; 0 is the beginning. *)
Definition getopt_long (optind : nat) (argv : list (list Z)) : list (opt * list Z) * list (list Z) * nat :=
  let first := if (optind =? 0)%nat then 1%nat else optind in
  let '(l, w, f) := getopt_words (drop first argv) in
  (l, take first argv ++ w ++ f, (first + List.length w)%nat).

(** [main] on [argv]: two passes over the options, the second one from the start again. *)
Definition main_argv (read : list Z -> option (list Z)) (argv : list (list Z)) : action :=
  match argv with
  | _ :: cmd :: args =>
      let '(opts, argv, optind) := getopt_long 1 (cmd :: args) in
      let optind := O in
      let '(again, argv, optind) := getopt_long optind argv in
      main read (Some cmd) opts again (drop optind argv)
  | _ => main read None [] [] []
  end.

(** ** The usage text, line by line; [version] is NTP_VERSION *)

Definition usage_lines (version : list Z) : list (list Z) :=
  (bytes "ntprof " ++ version ++ bytes ": where the time of each NVMe-over-Fabrics I/O goes, stage by") ::
  (bytes <$> [
   "stage (NVMe/TCP, NVMe/RDMA, SPDK), with eBPF on an unmodified kernel";
   EmptyString;
   "usage: ntprof <command> [options] [files]";
   EmptyString;
   "commands:";
   "  record             profile the running kernel or SPDK (needs root)";
   "  report FILE...     report recordings: the host's, and the target's";
   "  compare BASE LOAD  latency amplification (LAD) of each stage between two";
   "                     runs; a run is host.ntp or host.ntp,target.ntp";
   "  probe              check which hooks this kernel offers";
   "  dump FILE...       print the records of recordings as CSV";
   "  version            print the version";
   EmptyString;
   "examples:";
   "  sudo ntprof record -r both -d 10       host and target on one machine";
   "  sudo ntprof record -r target -o t.ntp  on the target (start it first) ...";
   "  sudo ntprof record -o h.ntp -d 30      ... and on the host";
   "  ntprof report h.ntp t.ntp              the two joined";
   EmptyString;
   "record options:";
   "  -r, --role ROLE       host (the initiator; default) | target | both";
   "  -t, --transport T     tcp (default) | rdma";
   "  -d, --duration SEC    stop after SEC seconds (default: Ctrl-C)";
   "  -i, --interval SEC    one line per group every SEC seconds (default 1)";
   "      --offline         no interval lines, only the final report";
   "  -s, --sample N        record one command in N (default 1000); the";
   "                        host and the target must use the same N";
   "  -o, --output FILE     save the records to FILE";
   "      --session DEV     namespace to profile, nvmeXnY (default: all)";
   "      --io-type T       read | write | both (default)";
   "      --size LIST       only these I/O sizes, e.g. 4K,128K";
   "      --spdk-host PATH  the host is SPDK: the binary with the ntprof";
   "                        probes (shared build: its libraries, comma-";
   "                        separated), e.g. build/bin/spdk_nvme_perf";
   "      --spdk-target PATH  the target is SPDK, e.g. build/bin/nvmf_tgt";
   "      --exact-queues    count queue lengths per command (costs map";
   "                        operations on every I/O; default: the mean number";
   "                        in each stage, by Little's law)";
   "      --btf DIR         BTF from tools/gen-btf.sh, for kernels without BTF";
   "      --kprobes         use kprobes even where fentry/fexit work";
   "      --fentry          use fentry/fexit even when a busy CPU would make";
   "                        attaching them wait (default: fall back to kprobes)";
   EmptyString;
   "report options (record, report, compare):";
   "      --detail          every component, not only the stages";
   "      --all-groups      also groups with under 1 % of the records";
   "      --aggregation A   avg (mean, p50, p99, p99.9) | min | max | dist";
   "  -j, --json FILE       write the final report as JSON";
   EmptyString;
   "  -c, --config FILE     task specification (an ini file such as";
   "                        examples/ntprof.ini); options given on the";
   "                        command line override it";
   "  -v, --verbose         more messages (twice: libbpf debug)";
   "  -h, --help            this text; -V, --version: the version"   ]%string).
Definition usage (version : list Z) : list Z := mjoin ((fun l => l ++ NL) <$> usage_lines version).

(** ** What the usage text says *)

(** The words of a line, and the long options among the words of the usage text: the
    short option before each, and whether the word after it is a placeholder. *)
Fixpoint words (l cur : list Z) : list (list Z) :=
  match l with
  | [] => match cur with [] => [] | _ => [cur] end
  | c :: l => if existsb (Z.eqb c) (bytes " ,;:()") then match cur with [] => words l [] | _ => cur :: words l [] end
              else words l (cur ++ [c])
  end.
Definition placeholder (w : list Z) : bool := forallb (fun c => (65 <=? c) && (c <=? 90)) w.
Definition short_word (w : list Z) : option Z :=
  match w with [a; c] => if (a =? DASH) && negb (c =? DASH) then Some c else None | _ => None end.
Fixpoint doc_words (prev : list Z) (ws : list (list Z)) : list (option Z * list Z * bool) :=
  match ws with
  | [] => []
  | w :: ws =>
      match w with
      | a :: b :: n =>
          if (a =? DASH) && (b =? DASH)
          then (short_word prev, n, match ws with p :: _ => placeholder p | [] => false end) :: doc_words w ws
          else doc_words w ws
      | _ => doc_words w ws
      end
  end.

(** The options the usage text lists: the short form if there is one, the long one, and
    whether a value follows. *)
Definition documented : list (option Z * list Z * bool) :=
  mjoin ((fun l => doc_words [] (words l [])) <$> drop 1 (usage_lines [])).

(** What each is for: the configuration it leaves, [None] for a value it does not take. *)
Definition good {A} (c : ntp_config) (put : ntp_config -> A -> ntp_config) (v : option A) : option ntp_config := put c <$> v.
Definition taken (r : bool * ntp_config) : option ntp_config := if r.1 then Some r.2 else None.

Definition meanings : list (string * (ntp_config -> list Z -> option ntp_config)) :=
  [("role", fun c v => if str_eqb v (bytes "host") then Some (set_role c NTP_ROLE_HOST)
                       else if str_eqb v (bytes "target") then Some (set_role c NTP_ROLE_TARGET)
                       else if str_eqb v (bytes "both") then Some (set_role c NTP_ROLE_BOTH) else None);
   ("transport", fun c v => if str_eqb v (bytes "tcp") then Some (set_transport c NTP_TR_TCP)
                            else if str_eqb v (bytes "rdma") then Some (set_transport c NTP_TR_RDMA) else None);
   ("duration", fun c v => good c set_duration_s (parse_uint v 1));
   ("interval", fun c v => good c set_interval_s (parse_uint v 1));
   ("sample", fun c v => good c set_sample_every (parse_uint v 1));
   ("output", fun c v => Some (set_output c (fit PATH_LEN v)));
   ("json", fun c v => Some (set_json c (fit PATH_LEN v)));
   ("session", fun c v => Some (set_session c (fit SESSION_LEN v)));
   ("io-type", fun c v => taken (config_set_io_type c v));
   ("size", fun c v => taken (config_set_sizes c v));
   ("aggregation", fun c v => taken (config_set_aggr c v));
   ("offline", fun c _ => Some (set_online c false));
   ("btf", fun c v => Some (set_btf_dir c (fit PATH_LEN v)));
   ("exact-queues", fun c _ => Some (set_exact_queues c true));
   ("kprobes", fun c _ => Some (set_force_kprobes c true));
   ("fentry", fun c _ => Some (set_force_fentry c true));
   ("spdk-host", fun c v => Some (set_spdk_host c (fit SPDK_LEN v)));
   ("spdk-target", fun c v => Some (set_spdk_target c (fit SPDK_LEN v)));
   ("detail", fun c _ => Some (set_rep_detail c true));
   ("all-groups", fun c _ => Some (set_rep_all_groups c true));
   ("config", fun c _ => Some c); ("verbose", fun c _ => Some c)]%string.

Fixpoint meaning_in (l : list (string * (ntp_config -> list Z -> option ntp_config))) (n : list Z) (c : ntp_config) (v : list Z)
    : option ntp_config :=
  match l with
  | [] => None
  | (m, f) :: l => if str_eqb (bytes m) n then f c v else meaning_in l n c v
  end.
Definition meaning : list Z -> ntp_config -> list Z -> option ntp_config := meaning_in meanings.

(** ** A command line as one writes it *)

(** An item: an option of the usage text with its value, in one of its spellings, or an
    operand. *)
Inductive spelling := LongNext | LongJoined | ShortNext | ShortJoined.
Inductive cmd_item :=
  | IOpt (short : option Z) (name : list Z) (takes : bool) (value : list Z) (how : spelling)
  | IFile (f : list Z).

Definition spell (i : cmd_item) : list (list Z) :=
  match i with
  | IFile f => [f]
  | IOpt c n takes v how =>
      match how with
      | LongNext => (DASH :: DASH :: n) :: (if takes then [v] else [])
      | LongJoined => [DASH :: DASH :: n ++ (if takes then EQUALS :: v else [])]
      | ShortNext => [DASH; default 0 c] :: (if takes then [v] else [])
      | ShortJoined => [DASH :: default 0 c :: (if takes then v else [])]
      end
  end.

(** The option is one the usage text lists, its value is there if it takes one, it has a
    short form if that is used, and an operand does not look like an option. *)
Definition item_ok (i : cmd_item) : Prop :=
  match i with
  | IFile f => match f with c :: _ :: _ => c <> DASH | _ => True end
  | IOpt c n takes v how =>
      (c, n, takes) ∈ documented /\ (takes = false -> v = []) /\
      match how with
      | LongNext | LongJoined => True
      | ShortNext => is_Some c
      | ShortJoined => is_Some c /\ (takes = true -> v <> [])
      end
  end.

Definition item_files (i : cmd_item) : list (list Z) := match i with IFile f => [f] | IOpt _ _ _ _ _ => [] end.
Definition named (name : string) (i : cmd_item) : bool := match i with IOpt _ n _ _ _ => str_eqb n (bytes name) | IFile _ => false end.
Definition item_value (i : cmd_item) : list Z := match i with IOpt _ _ _ v _ => v | IFile _ => [] end.

(** The configuration the options mean, in order. *)
Fixpoint configured (c : ntp_config) (items : list cmd_item) : option ntp_config :=
  match items with
  | [] => Some c
  | IFile _ :: items => configured c items
  | IOpt _ n _ v _ :: items => c' ← meaning n c v; configured c' items
  end.

(** What a command line is to do: show the help or the version, or run the command with
    the task file given last, changed by the options. *)
Definition intended (read : list Z -> option (list Z)) (cmd : list Z) (items : list cmd_item) (files : list (list Z)) : action :=
  if existsb (fun w => str_eqb cmd (bytes w)) ["-h"; "--help"; "version"; "-V"; "--version"]%string then ActExit 0
  else if existsb (fun i => named "help" i || named "version" i) items then ActExit 0
  else
    let '(ok, c) := match last (item_value <$> List.filter (named "config") items) with
                    | Some f => config_load_ini config_defaults (read f)
                    | None => (true, config_defaults)
                    end in
    if negb ok then ActExit 1
    else match configured c items with Some c => dispatch cmd c files | None => ActExit 1 end.

(** ** The tables and the usage text *)

(** The option of a long name. *)
Definition opt_named (n : list Z) : opt := match long_lookup n with Some (_, o) => o | None => O_unknown end.
Definition item_opts (i : cmd_item) : list (opt * list Z) := match i with IOpt _ n _ v _ => [(opt_named n, v)] | IFile _ => [] end.

(** What the first pass does with an option. *)
Definition first_kind (n : list Z) (o : opt) : Prop :=
  match o with
  | O_config => n = bytes "config" | O_verbose => n = bytes "verbose" | O_help => n = bytes "help" | O_version => n = bytes "version"
  | O_unknown => False
  | _ => n <> bytes "config" /\ n <> bytes "help" /\ n <> bytes "version"
  end.

Definition doc_ok (x : option Z * list Z * bool) : Prop :=
  let '(s, n, takes) := x in
  n <> [] /\ Forall (fun c => c <> EQUALS) n /\ long_lookup n = Some (takes, opt_named n) /\
  (forall c, s = Some c -> short_lookup short_opts c = Some takes /\ opt_of_char c = opt_named n) /\
  first_kind n (opt_named n) /\
  (n <> bytes "help" -> n <> bytes "version" ->
   forall c v, meaning n c v = if skipped_option (opt_named n) then Some c else taken (apply_option c (opt_named n) v)).

Lemma documented_value :
  documented =
  [(Some 114, bytes "role", true); (Some 116, bytes "transport", true); (Some 100, bytes "duration", true);
   (Some 105, bytes "interval", true); (None, bytes "offline", false); (Some 115, bytes "sample", true);
   (Some 111, bytes "output", true); (None, bytes "session", true); (None, bytes "io-type", true); (None, bytes "size", true);
   (None, bytes "spdk-host", true); (None, bytes "spdk-target", true); (None, bytes "exact-queues", false); (None, bytes "btf", true);
   (None, bytes "kprobes", false); (None, bytes "fentry", false); (None, bytes "detail", false); (None, bytes "all-groups", false);
   (None, bytes "aggregation", true); (Some 106, bytes "json", true); (Some 99, bytes "config", true); (Some 118, bytes "verbose", false);
   (Some 104, bytes "help", false); (Some 86, bytes "version", false)].
Proof. vm_compute. reflexivity. Qed.

Lemma meaning_nth i m f c v :
  meanings !! i = Some (m, f) -> forallb (fun x => negb (str_eqb (bytes x.1) (bytes m))) (take i meanings) = true ->
  meaning (bytes m) c v = f c v.
Proof.
  unfold meaning. generalize meanings. intros l. revert i. induction l as [|[m' f'] l IH]; intros i Hi Ht; [done|].
  destruct i as [|i]; cbn [meaning_in].
  - injection Hi as -> ->. unfold str_eqb. by rewrite bool_decide_eq_true_2.
  - cbn [take firstn forallb fst] in Ht. apply andb_true_iff in Ht as [H1%negb_true_iff Ht]. rewrite H1. by apply (IH i).
Qed.

Ltac solve_meaning i :=
  first [erewrite (meaning_nth i); [|reflexivity|vm_compute; reflexivity] | solve_meaning constr:(S i)].
Ltac solve_doc o :=
  let E := fresh in
  match goal with |- doc_ok (_, ?n, _) => assert (opt_named n = o) as E by (vm_compute; reflexivity) end;
  unfold doc_ok; rewrite E; split; [discriminate|]; split; [apply (bool_decide_unpack _); vm_compute; exact I|];
  split; [vm_compute; reflexivity|]; split; [first [by intros c [= <-]|done]|]; split; [done|];
  intros Hh Hv c v; try (by destruct (Hh eq_refl)); try (by destruct (Hv eq_refl)); cbn [skipped_option]; solve_meaning O;
  cbn [apply_option]; unfold good, store, taken; repeat case_match; done.

Lemma documented_ok : Forall doc_ok documented.
Proof.
  rewrite documented_value. repeat (apply Forall_cons_2; [|]); try apply Forall_nil_2.
  - solve_doc O_role.
  - solve_doc O_transport.
  - solve_doc O_duration.
  - solve_doc O_interval.
  - solve_doc OPT_OFFLINE.
  - solve_doc O_sample.
  - solve_doc O_output.
  - solve_doc OPT_SESSION.
  - solve_doc OPT_IO_TYPE.
  - solve_doc OPT_SIZE.
  - solve_doc OPT_SPDK_HOST.
  - solve_doc OPT_SPDK_TARGET.
  - solve_doc OPT_EXACT_QUEUES.
  - solve_doc OPT_BTF.
  - solve_doc OPT_KPROBES.
  - solve_doc OPT_FENTRY.
  - solve_doc OPT_DETAIL.
  - solve_doc OPT_ALL_GROUPS.
  - solve_doc OPT_AGGR.
  - solve_doc O_json.
  - solve_doc O_config.
  - solve_doc O_verbose.
  - solve_doc O_help.
  - solve_doc O_version.
Qed.

Lemma documented_doc s n takes : (s, n, takes) ∈ documented -> doc_ok (s, n, takes).
Proof. exact (proj1 (Forall_forall _ _) documented_ok (s, n, takes)). Qed.

(** ** One scan *)

Lemma cut_value_name n v : Forall (fun c => c <> EQUALS) n -> cut_value (n ++ EQUALS :: v) = (n, Some v) /\ cut_value n = (n, None).
Proof.
  induction 1 as [|c n Hc Hn [IH1 IH2]]; [done|]. cbn [app cut_value]. rewrite (proj2 (Z.eqb_neq _ _) Hc), IH1, IH2. done.
Qed.

(** A short option is no dash. *)
Lemma short_not_dash c t : short_lookup short_opts c = Some t -> c <> DASH.
Proof. intros H ->. vm_compute in H. discriminate. Qed.

Lemma classify_long s n v (takes : bool) :
  doc_ok (s, n, takes) ->
  classify (DASH :: DASH :: n) = (if takes then WOptions [] (Some (opt_named n)) else WOptions [(opt_named n, [])] None) /\
  (takes = true -> classify (DASH :: DASH :: n ++ EQUALS :: v) = WOptions [(opt_named n, v)] None).
Proof.
  intros (Hne & Heq & Hl & _). destruct (cut_value_name n v Heq) as [E1 E2]. revert Hl. generalize (opt_named n). intros o Hl.
  destruct n as [|x n]; [done|]. unfold classify. cbn [app]. cbn [Z.eqb DASH negb Pos.eqb]. unfold long_option.
  change (x :: n ++ EQUALS :: v) with ((x :: n) ++ EQUALS :: v). rewrite E1, E2, Hl. split; [by destruct takes|]. by intros ->.
Qed.

Lemma classify_short c n v (takes : bool) :
  doc_ok (Some c, n, takes) ->
  classify [DASH; c] = (if takes then WOptions [] (Some (opt_named n)) else WOptions [(opt_named n, [])] None) /\
  (takes = true -> v <> [] -> classify (DASH :: c :: v) = WOptions [(opt_named n, v)] None).
Proof.
  intros (_ & _ & _ & Hs & _). destruct (Hs c eq_refl) as [Hs' <-]. pose proof (short_not_dash c takes Hs') as Hd.
  unfold classify. cbn [Z.eqb DASH negb Pos.eqb].
  rewrite (proj2 (Z.eqb_neq c DASH) Hd). cbn [negb cluster]. rewrite Hs'. destruct takes; (split; [done|]); [|done].
  intros _ Hv. by destruct v.
Qed.

(** The words of an option, of an operand. *)
Definition item_words (i : cmd_item) : list (list Z) := match i with IOpt _ _ _ _ _ => spell i | IFile _ => [] end.

Lemma getopt_item i args :
  item_ok i ->
  getopt_words (spell i ++ args) =
    (item_opts i ++ (getopt_words args).1.1, item_words i ++ (getopt_words args).1.2, item_files i ++ (getopt_words args).2).
Proof.
  destruct i as [s n takes v how|f]; cbn [item_ok item_opts item_files item_words app].
  - intros (Hd%documented_doc & Hv & Hok). destruct (classify_long s n v takes Hd) as [Hc1 Hc2]. destruct how; cbn [spell] in *.
    + cbn [app getopt_words]. rewrite Hc1. destruct takes; [|rewrite Hv by done]; cbn [app]; by destruct (getopt_words args) as [[? ?] ?].
    + destruct takes; cbn [app getopt_words].
      * rewrite Hc2 by done. by destruct (getopt_words args) as [[? ?] ?].
      * rewrite app_nil_r, Hc1, Hv by done. by destruct (getopt_words args) as [[? ?] ?].
    + destruct Hok as [c ->]. destruct (classify_short c n v takes Hd) as [Hs _]. cbn [app getopt_words default from_option id]. rewrite Hs.
      destruct takes; [|rewrite Hv by done]; cbn [app]; by destruct (getopt_words args) as [[? ?] ?].
    + destruct Hok as [[c ->] Hne]. destruct (classify_short c n v takes Hd) as [Hs1 Hs2].
      destruct takes; cbn [app getopt_words default from_option id].
      * rewrite Hs2 by (try done; by apply Hne). by destruct (getopt_words args) as [[? ?] ?].
      * rewrite Hs1, Hv by done. by destruct (getopt_words args) as [[? ?] ?].
  - intros Hf. cbn [spell app getopt_words]. assert (classify f = WOperand f) as ->.
    { destruct f as [|a [|b f]]; [done..|]. cbn [classify]. by rewrite (proj2 (Z.eqb_neq a DASH) Hf). }
    by destruct (getopt_words args) as [[? ?] ?].
Qed.

Lemma getopt_items items rest :
  Forall item_ok items ->
  getopt_words (mjoin (spell <$> items) ++ rest) =
    (mjoin (item_opts <$> items) ++ (getopt_words rest).1.1, mjoin (item_words <$> items) ++ (getopt_words rest).1.2,
     mjoin (item_files <$> items) ++ (getopt_words rest).2).
Proof.
  induction 1 as [|i items Hi Hits IH]; [cbn; by destruct (getopt_words rest) as [[? ?] ?]|]. rewrite !fmap_cons.
  change (mjoin (?x :: ?l)) with (x ++ mjoin l). rewrite <- !app_assoc. rewrite getopt_item by done. by rewrite IH.
Qed.

(** ** The second scan *)

Definition is_option (i : cmd_item) : bool := match i with IOpt _ _ _ _ _ => true | IFile _ => false end.

(** The first scan moves the operands behind the options. *)
Definition tail_words (tail : option (list (list Z))) : list (list Z) := match tail with Some fs => [DASH; DASH] :: fs | None => [] end.

Lemma words_options items : mjoin (item_words <$> items) = mjoin (spell <$> List.filter is_option items).
Proof.
  induction items as [|[] items IH]; [done|..]; rewrite fmap_cons; cbn [List.filter is_option]; rewrite ?fmap_cons;
    change (mjoin (?x :: ?l)) with (x ++ mjoin l); by rewrite IH.
Qed.
Lemma options_ok items : Forall item_ok items -> Forall item_ok (List.filter is_option items).
Proof. induction 1 as [|[] items Hi H IH]; [done| |exact IH]. cbn [List.filter is_option]. by constructor. Qed.
Lemma opts_options items :
  mjoin (item_opts <$> List.filter is_option items) = mjoin (item_opts <$> items) /\
  mjoin (item_words <$> List.filter is_option items) = mjoin (item_words <$> items) /\
  mjoin (item_files <$> List.filter is_option items) = [].
Proof.
  induction items as [|[] items (IH1 & IH2 & IH3)]; [done|..]; rewrite !(fmap_cons _ _ items); cbn [List.filter is_option]; rewrite ?fmap_cons;
    change (mjoin (?x :: ?l)) with (x ++ mjoin l); by rewrite ?IH1, ?IH2, ?IH3.
Qed.

(** Operands alone: what follows "--", or what does not look like an option. *)
Lemma getopt_operands items :
  Forall item_ok items -> getopt_words (mjoin (item_files <$> items)) = ([], [], mjoin (item_files <$> items)).
Proof.
  intros H. induction H as [|[s n takes v how|f] items Hi H IH]; [done|exact IH|]. rewrite fmap_cons.
  change (mjoin (?x :: ?l)) with (x ++ mjoin l). change (item_files (IFile f)) with (spell (IFile f)).
  rewrite getopt_item by done. by rewrite IH.
Qed.

Lemma getopt_tail items tail :
  Forall item_ok items ->
  let '(l, w, f) := getopt_words (tail_words tail) in
  l = [] /\ f = default [] tail /\ getopt_words (w ++ mjoin (item_files <$> items) ++ f) = ([], w, mjoin (item_files <$> items) ++ f).
Proof.
  intros H. destruct tail as [fs|]; cbn; [done|]. rewrite app_nil_r. by rewrite getopt_operands.
Qed.

(** Both scans find the same. *)
Lemma getopt_twice cmd items tail :
  Forall item_ok items ->
  exists argv n, getopt_long 1 (cmd :: mjoin (spell <$> items) ++ tail_words tail) = (mjoin (item_opts <$> items), argv, n) /\
    exists argv' n', getopt_long 0 argv = (mjoin (item_opts <$> items), argv', n') /\
      drop n' argv' = mjoin (item_files <$> items) ++ default [] tail.
Proof.
  intros H. unfold getopt_long. cbn [Nat.eqb]. rewrite skipn_cons, drop_0, firstn_cons, take_0. rewrite getopt_items by done.
  pose proof (getopt_tail items tail H) as Ht. destruct (getopt_words (tail_words tail)) as [[l w] f]. destruct Ht as (-> & -> & Ht).
  cbn [fst snd]. eexists _, _. rewrite app_nil_r. split; [reflexivity|]. cbn [app]. rewrite skipn_cons, drop_0, firstn_cons, take_0.
  rewrite <- !app_assoc, words_options, getopt_items by (by apply options_ok).
  destruct (opts_options items) as (E1 & E2 & E3). rewrite Ht. cbn [fst snd]. rewrite E1, E2, E3, app_nil_r. cbn [app].
  eexists _, _. split; [reflexivity|]. cbn [app Nat.add]. rewrite skipn_cons, drop_app_length'; [done|].
  done.
Qed.

(** ** The passes *)

Lemma first_pass_items items ini verbose :
  Forall item_ok items ->
  if existsb (fun i => named "help" i || named "version" i) items then first_pass (mjoin (item_opts <$> items)) ini verbose = inl 0
  else exists verbose', first_pass (mjoin (item_opts <$> items)) ini verbose =
         inr (match last (item_value <$> List.filter (named "config") items) with Some f => Some f | None => ini end, verbose').
Proof.
  intros H. revert ini verbose. induction H as [|[s n takes v how|f] items Hi H IH]; intros ini verbose; [by exists verbose| |exact (IH ini verbose)].
  destruct Hi as [(_ & _ & _ & _ & Hk & _)%documented_doc _]. rewrite fmap_cons. change (mjoin (?x :: ?l)) with (x ++ mjoin l).
  cbn [item_opts app first_pass existsb named List.filter]. unfold str_eqb.
  assert (forall x : list Z, last (item_value <$> IOpt s n takes x how :: List.filter (named "config") items) =
    match last (item_value <$> List.filter (named "config") items) with Some f => Some f | None => Some x end) as Hlast.
  { intros x. rewrite fmap_cons, last_cons. done. }
  destruct (opt_named n); cbn [first_kind] in Hk; try done;
    try (destruct Hk as (H1 & H2 & H3); rewrite !bool_decide_eq_false_2 by done; cbn [orb]; by apply IH); subst n.
  - rewrite (bool_decide_eq_false_2 (bytes "config" = bytes "help")), (bool_decide_eq_false_2 (bytes "config" = bytes "version")),
      (bool_decide_eq_true_2 (bytes "config" = bytes "config")) by done. cbn [orb]. rewrite Hlast. specialize (IH (Some v) verbose).
    destruct (existsb _ items); [done|]. destruct IH as [verbose' ->]. exists verbose'. by destruct (last _).
  - rewrite (bool_decide_eq_false_2 (bytes "verbose" = bytes "help")), (bool_decide_eq_false_2 (bytes "verbose" = bytes "version")),
      (bool_decide_eq_false_2 (bytes "verbose" = bytes "config")) by done. cbn [orb]. apply IH.
  - by rewrite (bool_decide_eq_true_2 (bytes "version" = bytes "version")), orb_true_r.
  - by rewrite (bool_decide_eq_true_2 (bytes "help" = bytes "help")).
Qed.

Lemma second_pass_items items c :
  Forall item_ok items -> existsb (fun i => named "help" i || named "version" i) items = false ->
  second_pass c (mjoin (item_opts <$> items)) = configured c items.
Proof.
  intros H. revert c. induction H as [|[s n takes v how|f] items Hi H IH]; intros c Hn; [done| |exact (IH c Hn)].
  destruct Hi as [(_ & _ & _ & _ & _ & Hm)%documented_doc _]. cbn [existsb named] in Hn. apply orb_false_iff in Hn as [[Hh Hv]%orb_false_iff Hn].
  unfold str_eqb in Hh, Hv. apply bool_decide_eq_false in Hh, Hv. rewrite fmap_cons. change (mjoin (?x :: ?l)) with (x ++ mjoin l).
  cbn [item_opts app second_pass configured]. rewrite (Hm Hh Hv). destruct (skipped_option (opt_named n)); [by apply IH|].
  unfold taken. destruct (apply_option c (opt_named n) v) as [[] c']; [by apply IH|done].
Qed.

(** ** Theorems *)

(** C40: the command line does what the usage text says.  Take any command, and options
    the usage text lists, short or long as it lists them, in any of the ways getopt_long
    takes them ("--name value", "--name=value", "-x value", "-xvalue", flags alone), in any
    order and mixed with operands, with or without a "--" before further operands.  Then
    main shows help or version if one of them asks for it, and otherwise runs the command
    on the operands, with the task file given last changed by what each option is for, in
    order; or it exits with 1 if a value or the task file is bad.  Both passes over the
    options see all of them, although the first one moves the operands. *)
Theorem command_line_understood read prog cmd items tail :
  Forall item_ok items ->
  main_argv read (prog :: cmd :: mjoin (spell <$> items) ++ tail_words tail) =
  intended read cmd items (mjoin (item_files <$> items) ++ default [] tail).
Proof.
  intros Hi. cbn [main_argv]. destruct (getopt_twice cmd items tail Hi) as (argv & n & -> & argv' & n' & -> & ->).
  unfold main, intended. cbn [existsb]. rewrite orb_false_r, !orb_assoc.
  destruct (str_eqb cmd (bytes "-h") || str_eqb cmd (bytes "--help")); [done|]. cbn [orb].
  destruct (_ || _ || _); [done|]. pose proof (first_pass_items items None 0 Hi) as H1.
  destruct (existsb _ items) eqn:Ee; [by rewrite H1|]. destruct H1 as [v ->].
  destruct (last _) as [f|]; [destruct (config_load_ini config_defaults (read f)) as [ok c]|]; [destruct ok; cbn [negb]|]; try done;
    by rewrite second_pass_items.
Qed.

(** "record -d10 x --sample=5 --offline -o f", in which the operand is one too many. *)
Lemma command_line_understood_witness :
  let items := [IOpt (Some 100) (bytes "duration") true (bytes "10") ShortJoined; IFile (bytes "x");
                IOpt (Some 115) (bytes "sample") true (bytes "5") LongJoined;
                IOpt None (bytes "offline") false [] LongNext; IOpt (Some 111) (bytes "output") true (bytes "f") ShortNext] in
  mjoin (spell <$> items) = bytes <$> ["-d10"; "x"; "--sample=5"; "--offline"; "-o"; "f"]%string /\
  main_argv (fun _ => None) (bytes "ntprof" :: bytes "record" :: mjoin (spell <$> items) ++ []) = ActExit 1 /\
  main_argv (fun _ => None) (bytes "ntprof" :: bytes "report" :: mjoin (spell <$> items) ++ []) =
    ActReport (set_output (set_online (set_sample_every (set_duration_s config_defaults 10) 5) false) (bytes "f")) [bytes "x"].
Proof.
  intros items. split; [vm_compute; reflexivity|].
  assert (Forall item_ok items) as Hi.
  { repeat (apply Forall_cons_2; [|]); try apply Forall_nil_2; try exact I;
      (split; [apply (bool_decide_unpack _); vm_compute; exact I|]); by repeat split. }
  split.
  - etrans; [exact (command_line_understood (fun _ => None) (bytes "ntprof") (bytes "record") items None Hi)|vm_compute; reflexivity].
  - etrans; [exact (command_line_understood (fun _ => None) (bytes "ntprof") (bytes "report") items None Hi)|vm_compute; reflexivity].
Defined.

(** The usage text lists the options there are, each with a placeholder exactly when it
    takes a value, and the short options there are. *)
Theorem usage_lists_options :
  fst <$> long_opts ≡ₚ (fun x => (x.1.2, x.2)) <$> documented /\
  List.filter (fun c => negb (c =? COLON)) short_opts ≡ₚ omap (fun x => x.1.1) documented.
Proof. split; apply (bool_decide_unpack _); vm_compute; exact I. Qed.
